(* ===== verification/_CoqProject ===== *)
-Q . S2P
Prelude.v
GoLib.v
Gtid.v
Regex.v
Version.v
StateMachine.v
Crash.v
DelayStat.v
Config.v
Server.v
Proxy.v
Cluster.v
Demo.v
ClusterProps.v
ServerOps.v
Lands.v
Conformity.v
Refresh.v
Election.v
Failover.v
Rejoin.v
Jobs.v
JobsProps.v
JobsChecks.v
JobsDemo.v
FailoverFrame.v
RefreshProps.v
FailoverSafety.v
FailoverSlaves.v
RejoinProps.v
FailoverCheck.v
Json.v
Arbitration.v
Monitoring.v
MonitoringProps.v
Restore.v
RestoreProps.v
Topology.v
TopologyProps.v
SplitBrain.v
Configurator.v
ProxySql.v
Proxies.v
ProxySqlProps.v
ProxySqlRefresh.v
Binlog.v
BinlogProps.v
Round.v
RoundProps.v
RoundLimit.v
Wait.v
Provision.v
Bootstrap.v
BootstrapProps.v
Rolling.v
RollingProps.v
Cron.v
CronProps.v
Scheduler.v
SchedulerProps.v
Settings.v
SettingsProps.v
SettingValues.v
SettingValuesProps.v
Acl.v
AclProps.v
