(* ===== verification/Prelude.v ===== *)
(** * replication-manager: a verification library

    replication-manager watches clusters of MariaDB, MySQL and PostgreSQL
    servers, elects a new master when the master fails, and switches masters on
    request. This library models the part of it that watches the servers, finds
    out who is the master, decides and carries out a change of master, brings a
    failed master back, and settles a split brain between several managers, with
    the components this part rests on, and proves what makes them correct.

    ** The program and its model

    A cluster ([src/cluster/cluster.go]) owns its servers ([srv.go]) and shares
    them by pointer. At every round [TopologyDiscover] ([cluster_topo.go]) pings
    the servers ([Ping], [srv.go]), which counts failures, refreshes what is known
    of them, rejoins the ones that come back ([srv_rejoin.go]) and files state
    messages in a state machine ([src/utils/state/state.go]); it then finds out
    who is slave and who is master. [CheckFailed] ([cluster_chk.go]) tells whether
    to fail over; [MasterFailover] ([cluster_fail.go]) elects a slave and rewires
    the replication. A manager that loses sight of its peers reports to the
    arbitrator ([cluster_split.go], [src/arbitrator]), which lets one of them be
    active. The proxies in front of the databases are kept in step with the roles
    ([prx.go], [prx_proxysql.go]). [Run] repeats all this, and [StateProcessing]
    closes each round by acting on the states that were opened and closed.
    Statements go to the databases through [src/utils/dbhelper].

    The model is a shallow embedding: a pure Go function is a function, a method
    with effects is a computation of the monad [M] of [Cluster]. Its state is the
    [World]: the cluster, a heap of servers addressed by [loc] (the pointers) and
    the trace of the calls that leave the manager. A call is a value of the
    inductive family [Call]; the class [Env] answers it from the whole history,
    so that what is proved for every [Env] holds for every behaviour of the
    databases, the proxies, the scripts, the arbitrator and the clock. A nil
    dereference or an index out of range is the outcome [Panic]. Go's sorting and
    map iteration are the classes [GoSort] and [GoRange], and the order in which
    goroutines over the servers take effect is [GoSched]: any function with the
    documented behaviour. Logging, metrics and goroutines that only report are
    left out. Machine integers wrap explicitly ([u64], [i64], [i32]); averages
    are binary64 numbers.

    ** Files

    - [Prelude]: integers, automation ([bool_prop], [assign_field]), hint
      databases, [GoRange]. [GoLib]: what the code uses of Go's library (strings,
      strconv, sort, fmt, crc64), with the class [GoSort].
    - [Gtid] ([utils/gtid/gtid.go]), [Regex] and [Version]
      ([utils/version/version.go]), [StateMachine] ([utils/state/state.go]),
      [Crash] ([cluster/crash.go]), [DelayStat] ([cluster/cluster_stat.go]),
      [Config] ([config/config.go], [config/error.go]): self-contained components,
      each with its properties.
    - [Server]: the server structure, the states, the predicates of [srv_has.go]
      and [srv_get.go]. [Cluster]: the cluster structure, the calls, the world,
      the monad with its frame rules ([Pres], tactic [pres]), the readers of
      [cluster_get.go] and [cluster_has.go]. [Demo]: a cluster of three servers
      and a database environment on which witnesses are evaluated.
      [ClusterProps]: cycle detection.
    - [ServerOps]: operations on one server ([srv_set.go], [srv.go],
      [srv_chk.go]), among them [freeze] and [CheckReplication]. [Conformity]: the
      settings of slaves and master that are reported or enforced. [Refresh]: the
      monitoring refresh cut in its phases, and the wait for the relay logs.
      [Lands]: total correctness ([Runs], [lands]) beside the frames of [Cluster].
    - [Election]: the four elections and their checks ([cluster_fail.go],
      [cluster_chk.go]). [Failover]: [MasterFailover], [VMasterFailover] and
      everything they call, in the phases the source comments name.
      [FailoverCheck]: [CheckFailed] and its guards, alerts and captures.
    - [Rejoin]: the rejoin of a master and of a slave, the flashback and the choice
      of a state transfer ([srv_rejoin.go]).
    - [Monitoring]: [Ping] and the connection attempts ([srv.go], [srv_get.go]).
      [Topology]: [TopologyDiscover] in its phases ([cluster_topo.go]).
    - [Json]: the flat JSON objects of the messages. [Arbitration]: the table of the
      arbitrator and its handlers ([src/arbitrator/arbitrator.go],
      [dbhelper/arbitration.go]). [SplitBrain]: heartbeats, reports and elections
      of a manager ([cluster_split.go], [cluster_set.go], [server/server.go]).
    - [Configurator]: the tags of the databases and the memory settings derived from
      them ([cluster/configurator]). [Binlog], [BinlogProps]: the binary logs of a
      server and their purge ([srv_binlog.go], [cluster_topo.go], [dbhelper]).
    - [Proxy]: the state kept of a proxy, and the statements of the admin interface of
      ProxySQL with what they do to its table of servers
      ([router/proxysql/proxysql.go]). [ProxySql]: the driver ([prx_proxysql.go]).
      [Proxies]: the proxies of a cluster and the verdicts on them ([prx.go]).
      [ProxySqlProps], [ProxySqlRefresh]: what a failover and the refreshes leave in
      the tables, replayed from the trace.
    - [Round]: [Run] and its rounds, [StateProcessing], [SetStatus] ([cluster.go],
      [cluster_set.go], [cluster_bash.go]). [RoundProps], [RoundLimit]: what a round
      announces, and the limit of automatic failovers over a run.
    - [Wait]: the waits of the commands that run beside the monitoring
      ([cluster_wait.go], [srv_wait.go]); what the other goroutines do in between is
      the computation [meanwhile]. [Provision]: the services of databases and proxies
      ([prov.go], [prov_scripts.go]). [Bootstrap], [BootstrapProps]: cleaning the
      servers and setting up the replication of a topology ([prov.go], [srv.go]).
      [Rolling], [RollingProps]: the rolling operations ([cluster_roll.go]).
    - [Jobs] ([srv_job.go], [srv_conn.go], [config/config.go]): the table of the jobs
      of a server and the copy the manager keeps of it; its monad [J] carries the table
      beside the [World], and a list of faults that make statements fail, carried out or
      not. [JobsProps], [JobsChecks], [JobsDemo]: what the table guarantees, a round of
      checks, and runs of them. [Restore], [RestoreProps]: the four requests that reseed
      or flash back a server, and the goroutines that load a dump ([srv_job.go]).
    - [Cron], [CronProps]: cron texts and the search for the next activation
      ([utils/cron/parser.go], [spec.go], [constantdelay.go]). [Scheduler],
      [SchedulerProps]: the runner of the jobs and the jobs of a cluster
      ([utils/cron/cron.go], [cluster_set.go], [cluster_tgl.go], [cluster.go]). The
      runner is a goroutine: what happens to it is an event of its loop, at a time.
    - [Settings], [SettingsProps]: the options that requests switch
      ([cluster_tgl.go], [server/api_cluster.go], the tags of [config/config.go]); the
      fields of the configuration are kept by name. [SettingValues],
      [SettingValuesProps]: the options that requests set ([cluster_set.go]).
    - [Acl], [AclProps]: users, grants, the rules of the URLs, the lists that are
      saved and loaded, and delegation ([cluster_acl.go], [cluster_add.go],
      [config/config.go]).
    - [FailoverFrame], [RefreshProps], [FailoverSafety], [FailoverSlaves],
      [RejoinProps], [MonitoringProps], [TopologyProps]: frames of all these
      operations and the properties of the refresh, the failover, the redirection
      of the slaves, the rejoin, the checks and the discovery.

    ** What the theorems show

    - Failover ([FailoverSafety], [FailoverSlaves]): one at a time; a cancelled
      one changes nothing and sends no statement that changes a database; a
      completed one is the abstract change of roles [role_change] (a refinement);
      roles stay well-formed; a switchover closes the old master before anything
      is opened; every slave is dealt with and none is pointed elsewhere than to
      the new master.
    - Decision and election ([FailoverCheck], [Election]): a failover starts only
      when every guard holds; the elected slave satisfies the safety conditions
      and no compared slave is more advanced; elections only read; the result of
      the matrix does not depend on how sorting breaks ties.
    - Rejoin ([RejoinProps]): a server that comes back opens nothing beside the
      master, is attached to it and to nobody else, and an old master that has
      written more is flashed back before it is attached.
    - Checks and discovery ([MonitoringProps], [TopologyProps]): a master that
      cannot be reached is declared failed in time, whatever happens between its
      checks; a standby manager only watches; the slaves and the master found are
      exactly those the servers show, no second master is accepted, and a cluster
      that is down forgets its master only where it must.
    - Split brain ([Arbitration], [SplitBrain]): at most one manager is elected, in
      every interleaving of the statements of the arbitrator; of two managers at
      most one is active after the elections, until the first reports again (which
      takes its election back); without the arbitrator nothing is opened.
    - Monitoring ([RefreshProps], [ClusterProps]): a refresh touches one server; a
      slave gets the state its threads and delay call for; when the wait for relay
      logs returns they were applied; the search for cycles is complete.
    - Proxies ([ProxySqlProps], [ProxySqlRefresh]): after a failover ProxySQL routes
      writes to the new master and not to the old one; in a settled cluster three
      refreshes bring any host groups in line with the roles, and two may not.
    - Rounds ([RoundProps], [RoundLimit]): each state that opens or closes is announced
      once, and the tick is closed; over any number of rounds, whatever is answered,
      the automatic failovers stay within the configured limit. The rounds evaluate:
      [demo_lost_master] runs the whole loop until a lost master is replaced.
    - Commands ([Wait], [BootstrapProps], [RollingProps]): a wait is a bounded number
      of attempts of its test; a bootstrap points the servers as the configured
      topology says and no server to itself; a rolling restart takes one server down
      at a time and puts the settings back, whatever the other goroutines do.
    - Jobs and restore ([JobsProps], [JobsChecks], [RestoreProps]): the table holds one
      row per task, and a job in progress is not replaced, whichever statements fail
      (unless the count of the keys fails and the table is made anew); a round of checks
      settles every row that waits for it and renews the copy; a server is in one restore
      at a time, and a request that comes meanwhile leaves its mark and the jobs alone.
    - Scheduler ([CronProps], [SchedulerProps]): the search for an activation ends
      with the first second that fits; the runner starts the jobs whose time it is;
      it holds exactly the jobs the options ask for, however they are changed.
    - Settings ([SettingsProps], [SettingValuesProps]): a setting switches the option it
      is named after, or takes its value, and changes no other; the flags of the logs
      stay in step with their levels.
    - Access ([AclProps]): a request needs an authenticated user and a held grant
      whose rule fits; an account never gets more than its delegator has, up to the
      prefixes of grants; the lists are loaded as they were saved.
    - Binary logs ([BinlogProps]): a purge keeps every log a slave still needs and
      removes only what exceeds the configured size. Configurator ([Configurator]):
      the buffers it derives fit the memory, within the bounds of the settings.
    - Components: state machine (reports, ticks, service levels), GTID lists
      (round trip, comparison), versions (round trip, order), crash reports, delay
      statistics, credentials.

    Where the code does something else than it means to, a lemma or an example
    states it ([Gtid.Equal_domain_suffix], the corner cases at the end of
    [FailoverSafety] and [FailoverCheck], [IsInCaptureMode_never],
    [demo_heartbeat_forgets_election], [demo_both_active], [demo_last_peer],
    [demo_replica_stays_suspect], the examples of [AclProps] and
    [Configurator], [demo_seven_digits], [demo_stale_oldest], [demo_writer_stays],
    [demo_no_writer_left], [demo_no_proxy_tag], [demo_two_writers],
    [WaitMariaDBStop_never], [BootstrapReplicationCleanup_flag],
    [demo_down_slave_maintenance], [demo_start_fails], [demo_zero_step],
    [demo_added_late], [demo_switch_blocks], [demo_off_runs_on],
    [demo_alert_disable_not_scheduled], [demo_loser_blocks], [demo_wrong_option],
    [demo_bad_number], [demo_load_script], [demo_backup_type_panics], the examples of
    [JobsDemo] and the end of [RestoreProps]).

    ** Bounds

    The unbounded loops are the two waits of [ReadAllRelayLogs], which end
    when a database says so, the wait of a purge for a refresh, and the waits of the
    commands: for the end of a failover, for the backup of the binary logs, and those
    of [Wait], which the configured limit ends ([wait_for_attempts]). They are followed for [wait_fuel] rounds of the
    environment and are the outcome [Hang] after that; [relay_wait_stable] shows
    that more fuel never changes a result that was reached. All other recursion is
    structural; the kill loop of [freeze] runs the number of rounds its counter
    allows ([kill_rounds]).
    The search for an activation goes through at most [2 ^ search_depth] passes, more
    than it can need in its five years ([next_activation_exact]); the loop over the
    bits of a range needs no more than 64 rounds unless its step is zero
    ([getBits_exact], [demo_zero_step]).

    ** Not modelled

    The drivers of the other proxies (HAProxy, MaxScale, Sphinx, MyProxy, Consul)
    and of the orchestrators, the backups themselves with their files and metadata, the
    HTTP server, the clients and the text of SQL statements stay outside: the model
    reaches them through calls. Of the jobs, the streams from and to the hosts are left
    out; the clock stands still during an operation on the table, no statement fails
    beyond the end of the list of faults, and the files a restore looks for do not come
    and go. Of the settings, those that all clusters share are left out, and the setters
    of credentials, secrets, prices, service plans and users are the parameter
    [outside]. Of the scheduler, the jobs are names; changes of the offset of a
    location, and a second loop on a runner that is started twice, are left out. Of the topology, child clusters and
    Spider shards are left out; of the rejoin, the clone plugin; of the binary logs,
    their backup and the point-in-time recovery; of the configurator, the generation
    of the configuration files; of the rounds, what [SetStatus] copies for display.
    The goroutines a round waits for, or starts beside it, take effect one after the
    other in it. In
    [Refresh], helpers outside the model are calls that return the state
    messages they raise. *)

From Stdlib Require Import ZArith Lia Bool Permutation Sorted.
From stdpp Require Import base list gmap strings.

(** ** Scopes and hint databases *)

Declare Scope go_scope.
Delimit Scope go_scope with go.

(** [golist]: lemmas on Go slices used by several components. *)
Create HintDb golist discriminated.
#[export] Hint Constants Transparent : golist.

(** ** Machine integers *)

Definition two64 : Z := (2 ^ 64)%Z.
Definition two63 : Z := (2 ^ 63)%Z.
Definition two32 : Z := (2 ^ 32)%Z.
Definition max_uint (bits : Z) : Z := (2 ^ bits - 1)%Z.
(** Wrap-around of Go's unsigned and signed 64-bit arithmetic. *)
Definition u64 (z : Z) : Z := (z mod two64)%Z.
Definition i64 (z : Z) : Z := ((z + two63) mod two64 - two63)%Z.

Definition i32 (z : Z) : Z := ((z + 2 ^ 31) mod two32 - 2 ^ 31)%Z.

Definition is_u64 (z : Z) : Prop := (0 <= z < two64)%Z.
Definition is_i64 (z : Z) : Prop := (- two63 <= z < two63)%Z.

Lemma u64_small z : is_u64 z -> u64 z = z.
Proof. intros [? ?]. unfold u64. apply Z.mod_small. lia. Qed.

Lemma u64_range z : is_u64 (u64 z).
Proof. unfold u64, is_u64. apply Z.mod_pos_bound. unfold two64; lia. Qed.

Lemma i64_small z : is_i64 z -> i64 z = z.
Proof.
  unfold is_i64, i64, two63, two64. intros [? ?].
  rewrite Z.mod_small; lia.
Qed.

Lemma i64_range z : is_i64 (i64 z).
Proof.
  unfold i64, is_i64.
  pose proof (Z.mod_pos_bound (z + two63) two64 ltac:(unfold two64; lia)).
  unfold two63, two64 in *. lia.
Qed.

(** Wrap-around is a ring homomorphism: nested wraps collapse. *)
Lemma i32_cong a b : (a mod two32 = b mod two32)%Z -> i32 a = i32 b.
Proof.
  intros E. unfold i32.
  rewrite (Z.add_mod a), (Z.add_mod b), E by (unfold two32; lia). done.
Qed.

Lemma i32_mod a : (i32 a mod two32 = a mod two32)%Z.
Proof.
  unfold i32. rewrite Zminus_mod, Zmod_mod, <- Zminus_mod. f_equal. lia.
Qed.

Lemma i32_add_l a b : i32 (i32 a + b) = i32 (a + b).
Proof.
  apply i32_cong. rewrite Z.add_mod, i32_mod, <- Z.add_mod by (unfold two32; lia). done.
Qed.

Lemma i32_sub_r a b : i32 (a - i32 b) = i32 (a - b).
Proof. apply i32_cong. rewrite Zminus_mod, i32_mod, <- Zminus_mod. done. Qed.

(** ** Boolean reflection used throughout *)

Ltac bool_prop :=
  repeat match goal with
  | H : _ && _ = true |- _ => apply andb_prop in H; destruct H
  | H : _ || _ = false |- _ => apply orb_false_elim in H; destruct H
  | H : negb _ = true |- _ => apply negb_true_iff in H
  | H : negb _ = false |- _ => apply negb_false_iff in H
  | H : (_ =? _)%Z = true |- _ => apply Z.eqb_eq in H
  | H : (_ =? _)%Z = false |- _ => apply Z.eqb_neq in H
  | H : (_ <? _)%Z = true |- _ => apply Z.ltb_lt in H
  | H : (_ <? _)%Z = false |- _ => apply Z.ltb_ge in H
  | H : (_ <=? _)%Z = true |- _ => apply Z.leb_le in H
  | H : (_ <=? _)%Z = false |- _ => apply Z.leb_gt in H
  | H : (_ =? _)%string = true |- _ => apply String.eqb_eq in H
  | H : (_ =? _)%string = false |- _ => apply String.eqb_neq in H
  end.

(** Case analysis on every [match]/[if] of the goal (resp. of [H]). *)
Ltac case_match_goal :=
  match goal with
  | |- context [match ?x with _ => _ end] => destruct x eqn:?
  end.
Ltac case_match_in H :=
  match type of H with
  | context [match ?x with _ => _ end] => destruct x eqn:?
  end.

(** ** Field assignment

    Given the eta expansion of a record, [assign_field] builds the record with
    one field replaced: the model of a Go assignment [x.f = v]. *)
Ltac assign_field eta proj v r :=
  let b := eval cbv beta delta [eta] in (eta r) in
  let p := eval pattern (proj r) in b in
  match p with
  | ?f _ => let t := eval cbv beta in (f v) in exact t
  end.

(** ** Ranging over a Go map

    [for k, v := range m] visits every entry once, in an order that is not
    specified: the components are proved for every such order. *)
Class GoRange : Type := {
  go_range : forall {V : Type}, gmap string V -> list (string * V);
  go_range_perm : forall V (m : gmap string V), Permutation (go_range m) (map_to_list m)
}.

#[export] Instance map_to_list_GoRange : GoRange := {
  go_range := fun V m => map_to_list m;
  go_range_perm := fun V m => Permutation_refl (map_to_list m)
}.

Lemma elem_of_go_range `{GoRange} {V} (m : gmap string V) k v :
  (k, v) ∈ go_range m <-> m !! k = Some v.
Proof. rewrite go_range_perm. apply elem_of_map_to_list. Qed.
