(* ===== verification/GoLib.v ===== *)
(** * The parts of Go's standard library the program uses

    [strings], [strconv], [sort] and [hash/crc64] as executable functions on
    byte strings, unsigned/signed 64-bit integers (as [Z]) and lists, with the
    lemmas the components rely on: splitting undoes joining, parsing undoes
    formatting, what [sort.Sort] promises. *)

From Stdlib Require Import ZArith Lia Bool Permutation Sorted Ascii String.
From stdpp Require Import base list strings.
From S2P Require Import Prelude.

Local Open Scope string_scope.
Local Open Scope list_scope.
Local Open Scope Z_scope.

(** ** Package strings *)

(** [strings.Split(s, sep)] for a one-byte separator: never empty. *)
Fixpoint strings_Split (sep : ascii) (s : string) : list string :=
  match s with
  | EmptyString => [""]
  | String c r =>
      if Ascii.eqb c sep then "" :: strings_Split sep r
      else match strings_Split sep r with
           | x :: l => String c x :: l
           | [] => [String c ""]
           end
  end.

(** [strings.Join(l, sep)]. *)
Fixpoint strings_Join (l : list string) (sep : string) : string :=
  match l with
  | [] => ""
  | [x] => x
  | x :: r => x +:+ sep +:+ strings_Join r sep
  end.

(** [strings.HasPrefix(s, p)]. *)
Definition strings_HasPrefix (s p : string) : bool := String.prefix p s.
Arguments strings_HasPrefix : simpl never.

(** [strings.Contains(s, sub)]. *)
Fixpoint strings_Contains (s sub : string) : bool :=
  strings_HasPrefix s sub ||
  match s with
  | EmptyString => false
  | String _ r => strings_Contains r sub
  end.

Definition byte_val (c : ascii) : Z := Z.of_N (N_of_ascii c).

(** [strings.ToUpper] on ASCII text. *)
Definition upper_byte (c : ascii) : ascii :=
  if (97 <=? byte_val c) && (byte_val c <=? 122)
  then ascii_of_N (N_of_ascii c - 32) else c.

Fixpoint strings_ToUpper (s : string) : string :=
  match s with
  | EmptyString => ""
  | String c r => String (upper_byte c) (strings_ToUpper r)
  end.

Definition lower_byte (c : ascii) : ascii :=
  if (65 <=? byte_val c) && (byte_val c <=? 90)
  then ascii_of_N (N_of_ascii c + 32) else c.

Fixpoint strings_ToLower (s : string) : string :=
  match s with
  | EmptyString => ""
  | String c r => String (lower_byte c) (strings_ToLower r)
  end.

(** [strings.ReplaceAll(s, old, "")] for a one-byte [old]. *)
Fixpoint strings_Remove (old : ascii) (s : string) : string :=
  match s with
  | EmptyString => ""
  | String c r =>
      if Ascii.eqb c old then strings_Remove old r
      else String c (strings_Remove old r)
  end.

Fixpoint char_in (c : ascii) (s : string) : bool :=
  match s with
  | EmptyString => false
  | String d r => Ascii.eqb d c || char_in c r
  end.

Lemma str_app_assoc (a b c : string) : a +:+ (b +:+ c) = (a +:+ b) +:+ c.
Proof. induction a as [|x a IH]; [done|]. exact (f_equal (String x) IH). Qed.

Lemma str_app_nil_r (a : string) : a +:+ "" = a.
Proof. induction a as [|x a IH]; [done|]. exact (f_equal (String x) IH). Qed.

Lemma Split_nonempty sep s : strings_Split sep s <> [].
Proof.
  destruct s as [|c r]; simpl; [discriminate|].
  destruct (Ascii.eqb c sep); [discriminate|].
  destruct (strings_Split sep r); discriminate.
Qed.

Lemma Split_no_sep sep s : char_in sep s = false -> strings_Split sep s = [s].
Proof.
  induction s as [|c r IH]; simpl; [done|].
  intros [Hc Hr]%orb_false_elim. rewrite Hc, IH by done. done.
Qed.

Lemma Split_app sep x s :
  char_in sep x = false ->
  strings_Split sep (x +:+ String sep s) = x :: strings_Split sep s.
Proof.
  induction x as [|c r IH]; simpl; intros H.
  - by rewrite Ascii.eqb_refl.
  - apply orb_false_elim in H as [Hc Hr]. by rewrite Hc, IH.
Qed.

(** Splitting undoes joining when no element holds the separator. *)
Lemma Split_Join sep l :
  l <> [] -> Forall (fun x => char_in sep x = false) l ->
  strings_Split sep (strings_Join l (String sep "")) = l.
Proof.
  intros Hne Hl. induction Hl as [|x l Hx Hl IH]; [done|].
  destruct l as [|y l].
  - simpl. by apply Split_no_sep.
  - change (strings_Join (x :: y :: l) (String sep ""))
      with (x +:+ String sep (strings_Join (y :: l) (String sep ""))).
    rewrite Split_app by done. rewrite IH; done.
Qed.

(** Joining undoes splitting. *)
Lemma Join_Split sep s : strings_Join (strings_Split sep s) (String sep "") = s.
Proof.
  induction s as [|c r IH]; [done|]. simpl.
  pose proof (Split_nonempty sep r) as Hne.
  destruct (Ascii.eqb c sep) eqn:E.
  - apply Ascii.eqb_eq in E as ->. destruct (strings_Split sep r) as [|y l]; [done|].
    change (strings_Join ("" :: y :: l) (String sep ""))
      with (String sep (strings_Join (y :: l) (String sep ""))). by rewrite IH.
  - destruct (strings_Split sep r) as [|y l]; [done|].
    destruct l as [|z l]; [exact (f_equal (String c) IH)|].
    change (strings_Join (String c y :: z :: l) (String sep ""))
      with (String c (strings_Join (y :: z :: l) (String sep ""))). by rewrite IH.
Qed.

Lemma char_in_app c s t : char_in c (s +:+ t) = char_in c s || char_in c t.
Proof.
  induction s as [|d s IH]; simpl; [done|]. by rewrite IH, orb_assoc.
Qed.

(** Splitting a concatenation at a separator, and inside an element. *)
Lemma Split_sep_app sep a b :
  strings_Split sep (a +:+ String sep b) = strings_Split sep a ++ strings_Split sep b.
Proof.
  induction a as [|c a IH]; simpl.
  - by rewrite Ascii.eqb_refl.
  - destruct (Ascii.eqb c sep); [by rewrite IH|].
    rewrite IH. pose proof (Split_nonempty sep a).
    destruct (strings_Split sep a); done.
Qed.

Lemma Split_app_last sep a y y0 yr :
  strings_Split sep y = y0 :: yr ->
  exists ia la, strings_Split sep a = ia ++ [la] /\
    strings_Split sep (a +:+ y) = ia ++ (la +:+ y0) :: yr.
Proof.
  intros Hy. induction a as [|c a IH]; simpl.
  - exists [], "". done.
  - destruct IH as (ia & la & Ha & Hay).
    destruct (Ascii.eqb c sep).
    + exists ("" :: ia), la. by rewrite Ha, Hay.
    + rewrite Ha, Hay. destruct ia as [|i ia]; simpl.
      * exists [], (String c la). done.
      * exists (String c i :: ia), la. done.
Qed.

Lemma HasPrefix_app p s : strings_HasPrefix (p +:+ s) p = true.
Proof.
  unfold strings_HasPrefix. induction p as [|c p IH]; [by destruct s|]. simpl.
  destruct (Ascii.ascii_dec c c); [done|congruence].
Qed.

Lemma HasPrefix_split s p :
  strings_HasPrefix s p = true -> exists r, s = p +:+ r.
Proof.
  unfold strings_HasPrefix. revert s. induction p as [|c p IH]; intros s.
  - intros _. by exists s.
  - destruct s as [|d s]; simpl; [discriminate|].
    destruct (Ascii.ascii_dec c d); [|discriminate]. subst d. intros H.
    destruct (IH s H) as [r ->]. by exists r.
Qed.

(** [strings.Contains] decides "is a substring of". *)
Lemma Contains_spec s sub :
  strings_Contains s sub = true <-> exists a b, s = a +:+ sub +:+ b.
Proof.
  split.
  - induction s as [|c r IH]; simpl; intros H.
    + rewrite orb_false_r in H. apply HasPrefix_split in H as [b Hb].
      exists "", b. done.
    + apply orb_true_iff in H as [H|H].
      * apply HasPrefix_split in H as [b Hb]. exists "", b. done.
      * destruct (IH H) as (a & b & ->). exists (String c a), b. done.
  - intros (a & b & ->). induction a as [|c a IH].
    + change ("" +:+ sub +:+ b) with (sub +:+ b).
      pose proof (HasPrefix_app sub b) as Hp.
      destruct (sub +:+ b); simpl; by rewrite Hp.
    + simpl. by rewrite IH, orb_true_r.
Qed.

(** ** Package strconv *)

Definition digit_of (c : ascii) : option Z :=
  let v := byte_val c - 48 in
  if (0 <=? v) && (v <=? 9) then Some v else None.

Inductive NumErr := ErrNone | ErrSyntax | ErrRange.

(** The digit loop of [strconv.ParseUint(s, 10, bits)]: the value that is
    returned, with the kind of error. A range error is reported as soon as it
    occurs, with the largest value of the width. *)
Fixpoint parse_digits (maxVal n : Z) (s : string) : Z * NumErr :=
  match s with
  | EmptyString => (n, ErrNone)
  | String c r =>
      match digit_of c with
      | None => (0, ErrSyntax)
      | Some d =>
          let n1 := n * 10 + d in
          if maxVal <? n1 then (maxVal, ErrRange) else parse_digits maxVal n1 r
      end
  end.

Definition strconv_ParseUint (s : string) (bits : Z) : Z * NumErr :=
  match s with
  | EmptyString => (0, ErrSyntax)
  | _ => parse_digits (max_uint bits) 0 s
  end.

(** [strconv.ParseInt(s, 10, 64)]; [strconv.Atoi] is the same on a 64-bit
    platform. *)
Definition strconv_ParseInt (s : string) : Z * NumErr :=
  let '(neg, body) :=
    match s with
    | String c r =>
        if Ascii.eqb c "+" then (false, r)
        else if Ascii.eqb c "-" then (true, r) else (false, s)
    | EmptyString => (false, s)
    end in
  let '(un, err) := strconv_ParseUint body 64 in
  match err with
  | ErrSyntax => (0, ErrSyntax)
  | _ =>
      if negb neg && (two63 <=? un) then (two63 - 1, ErrRange)
      else if neg && (two63 <? un) then (- two63, ErrRange)
      else (if neg then - un else un, ErrNone)
  end.

Definition strconv_Atoi (s : string) : Z * NumErr := strconv_ParseInt s.

Definition digit_char (d : Z) : ascii := ascii_of_N (Z.to_N (48 + d)).

Fixpoint format_digits (fuel : nat) (n : Z) (acc : string) : string :=
  match fuel with
  | O => acc
  | S f =>
      let acc' := String (digit_char (n mod 10)) acc in
      if n / 10 =? 0 then acc' else format_digits f (n / 10) acc'
  end.

(** Decimal formatting ([%d], [strconv.Itoa], [strconv.FormatUint]); the fuel,
    one more than the number of binary digits, is never exhausted. *)
Definition format_uint (n : Z) : string :=
  format_digits (S (Z.to_nat (Z.log2 n))) n "".

Definition format_int (n : Z) : string :=
  if n <? 0 then String "-" (format_uint (- n)) else format_uint n.

Lemma digit_of_char d : 0 <= d <= 9 -> digit_of (digit_char d) = Some d.
Proof.
  intros [H0 H9]. unfold digit_of, digit_char, byte_val.
  rewrite N_ascii_embedding by lia.
  rewrite Z2N.id by lia. replace (48 + d - 48) with d by lia.
  destruct (Z.leb_spec 0 d), (Z.leb_spec d 9); simpl; try lia. done.
Qed.

(** Reading the digits of [n] written before [acc] continues with [n]. *)
Lemma parse_format_digits fuel n acc m maxVal :
  0 <= n -> n < 2 ^ Z.of_nat fuel -> (0 < fuel)%nat ->
  m = 0 -> n <= maxVal ->
  parse_digits maxVal m (format_digits fuel n acc) = parse_digits maxVal n acc.
Proof.
  revert n acc m. induction fuel as [|f IH]; intros n acc m Hn Hb Hf Hm Hmax.
  { lia. }
  pose proof (Z.mod_pos_bound n 10 ltac:(lia)) as Hmod.
  pose proof (Z.div_mod n 10 ltac:(lia)) as Hdm. simpl format_digits.
  destruct (Z.eqb_spec (n / 10) 0) as [Hz|Hz].
  - simpl parse_digits. rewrite digit_of_char by lia. subst m.
    replace (0 * 10 + n mod 10) with n by lia.
    destruct (Z.ltb_spec maxVal n); [lia|done].
  - assert (0 < n / 10) by (pose proof (Z.div_pos n 10 ltac:(lia) ltac:(lia)); lia).
    rewrite IH; try lia.
    + simpl parse_digits. rewrite digit_of_char by lia.
      replace (n / 10 * 10 + n mod 10) with n by lia.
      destruct (Z.ltb_spec maxVal n); [lia|done].
    + rewrite Nat2Z.inj_succ, Z.pow_succ_r in Hb by lia. lia.
    + destruct f; [|lia]. rewrite Nat2Z.inj_succ, Z.pow_succ_r in Hb by lia.
      simpl in Hb. lia.
Qed.

Lemma log2_fuel n : 0 <= n -> n < 2 ^ Z.of_nat (S (Z.to_nat (Z.log2 n))).
Proof.
  intros H. destruct (Z.eq_dec n 0) as [->|]; [simpl; lia|].
  pose proof (Z.log2_spec n ltac:(lia)) as [_ Hs].
  rewrite Nat2Z.inj_succ, Z2Nat.id by apply Z.log2_nonneg. exact Hs.
Qed.

Lemma format_digits_nonempty fuel n acc :
  (0 < fuel)%nat -> format_digits fuel n acc <> "".
Proof.
  assert (Hacc : forall f m a, a <> "" -> format_digits f m a <> "").
  { induction f as [|f IH]; intros m a Ha; simpl; [done|].
    destruct (m / 10 =? 0); [done|]. by apply IH. }
  destruct fuel as [|f]; [lia|]. intros _. simpl.
  destruct (n / 10 =? 0); [done|]. by apply Hacc.
Qed.

(** Parsing undoes formatting for every value of the width. *)
Lemma ParseUint_format n bits :
  0 <= n <= max_uint bits -> strconv_ParseUint (format_uint n) bits = (n, ErrNone).
Proof.
  intros [H0 Hm]. unfold strconv_ParseUint.
  pose proof (format_digits_nonempty (S (Z.to_nat (Z.log2 n))) n "" ltac:(lia)) as Hne.
  unfold format_uint. pose proof (log2_fuel n H0) as Hl.
  pose proof (parse_format_digits _ n "" 0 (max_uint bits) H0 Hl ltac:(lia)
    eq_refl Hm) as Hp.
  destruct (format_digits _ n "") as [|c r]; [done|]. exact Hp.
Qed.

Lemma format_uint_inj bits n m :
  0 <= n <= max_uint bits -> 0 <= m <= max_uint bits ->
  format_uint n = format_uint m -> n = m.
Proof.
  intros Hn Hm E. pose proof (ParseUint_format n bits Hn) as Pn.
  rewrite E, (ParseUint_format m bits Hm) in Pn. congruence.
Qed.

Lemma parse_digits_range maxVal n s :
  0 <= n <= maxVal -> 0 <= fst (parse_digits maxVal n s) <= maxVal.
Proof.
  revert n. induction s as [|c r IH]; intros n Hn; simpl; [done|].
  unfold digit_of.
  destruct (_ && _) eqn:Hd; simpl; [|lia].
  bool_prop. destruct (Z.ltb_spec maxVal (n * 10 + (byte_val c - 48))); simpl; [lia|].
  apply IH. lia.
Qed.

(** The value of [strconv.ParseUint] always fits its width. *)
Lemma ParseUint_range s bits :
  0 <= bits -> 0 <= fst (strconv_ParseUint s bits) <= max_uint bits.
Proof.
  intros Hb. assert (0 < 2 ^ bits) by (apply Z.pow_pos_nonneg; lia).
  unfold strconv_ParseUint, max_uint.
  destruct s; [simpl; lia|]. apply parse_digits_range. lia.
Qed.

Lemma digit_char_not (c : ascii) d :
  0 <= d <= 9 -> digit_of c = None -> Ascii.eqb (digit_char d) c = false.
Proof.
  intros Hd Hc. apply Ascii.eqb_neq. intros <-. by rewrite digit_of_char in Hc.
Qed.

(** A formatted number holds no separator (no byte that is not a digit). *)
Lemma format_digits_char fuel n acc c :
  digit_of c = None -> char_in c acc = false ->
  char_in c (format_digits fuel n acc) = false.
Proof.
  intros Hc. revert n acc. induction fuel as [|f IH]; intros n acc Hacc; simpl; [done|].
  pose proof (Z.mod_pos_bound n 10 ltac:(lia)) as Hmod.
  assert (Hs : char_in c (String (digit_char (n mod 10)) acc) = false).
  { simpl. by rewrite digit_char_not, Hacc by (done || lia). }
  destruct (n / 10 =? 0); [done|]. by apply IH.
Qed.

Lemma format_uint_char n c : digit_of c = None -> char_in c (format_uint n) = false.
Proof. intros Hc. by apply format_digits_char. Qed.

(** ** Package sort *)

(** [sort.Sort] and [sort.Slice] document only that the result is ordered and
    that the order of elements that compare equal is not specified; the
    components are proved against this contract. *)
Definition less_of (A : Type) : Type := A -> A -> bool.

Record StrictWeak {A} (less : less_of A) : Prop := {
  sw_irrefl : forall a, less a a = false;
  sw_trans : forall a b c, less a b = true -> less b c = true -> less a c = true;
  sw_negtrans : forall a b c, less a b = false -> less b c = false -> less a c = false
}.

Lemma strict_weak_on {A B} (f : A -> B) (less : less_of B) : StrictWeak less -> StrictWeak (fun a b => less (f a) (f b)).
Proof. intros [Hirr Htr Hneg]. split; eauto. Qed.

(** *** The order of strings *)

Lemma ascii_compare_N a b : Ascii.compare a b = (N_of_ascii a ?= N_of_ascii b)%N.
Proof. done. Qed.

Lemma ltb_irrefl s : String.ltb s s = false.
Proof. unfold String.ltb. induction s as [|c s IH]; [done|]. cbn. by rewrite ascii_compare_N, N.compare_refl. Qed.

Lemma ltb_cons a s b t :
  String.ltb (String a s) (String b t) =
  match (N_of_ascii a ?= N_of_ascii b)%N with Eq => String.ltb s t | Lt => true | Gt => false end.
Proof. unfold String.ltb. cbn. rewrite ascii_compare_N. by destruct (_ ?= _)%N. Qed.

Lemma ltb_trans a b c : String.ltb a b = true -> String.ltb b c = true -> String.ltb a c = true.
Proof.
  revert b c. induction a as [|x a IH]; intros [|y b] [|z c]; try done. rewrite !ltb_cons.
  destruct (N.compare_spec (N_of_ascii x) (N_of_ascii y)), (N.compare_spec (N_of_ascii y) (N_of_ascii z)),
    (N.compare_spec (N_of_ascii x) (N_of_ascii z)); try done; try lia. apply IH.
Qed.

Lemma ltb_total a b : String.ltb a b = false -> String.ltb b a = false -> a = b.
Proof.
  revert b. induction a as [|x a IH]; intros [|y b]; try done. rewrite !ltb_cons, (N.compare_antisym (N_of_ascii x)).
  destruct (N.compare_spec (N_of_ascii x) (N_of_ascii y)) as [E| |]; cbn; try done.
  intros H1 H2. f_equal; [|by apply IH]. by rewrite <- (ascii_N_embedding x), E, ascii_N_embedding.
Qed.

Lemma ltb_strict : StrictWeak String.ltb.
Proof.
  split; [apply ltb_irrefl|apply ltb_trans|]. intros a b c Hab Hbc.
  destruct (String.ltb a c) eqn:E; [|done]. destruct (String.ltb b a) eqn:Eb.
  - by rewrite (ltb_trans b a c Eb E) in Hbc.
  - rewrite (ltb_total a b Hab Eb) in E. by rewrite E in Hbc.
Qed.

Class GoSort : Type := {
  go_sort : forall {A : Type}, less_of A -> list A -> list A;
  go_sort_perm : forall A (less : less_of A) l, Permutation (go_sort less l) l;
  go_sort_sorted : forall A (less : less_of A) l,
    StrictWeak less -> StronglySorted (fun a b => less b a = false) (go_sort less l)
}.

(** What the Go runtime does for at most twelve elements: insertion sort. The
    sorted prefix is kept reversed, as elements move from its right end. *)
Fixpoint insert_rev {A} (less : less_of A) (x : A) (rp : list A) : list A :=
  match rp with
  | [] => [x]
  | y :: r => if less x y then y :: insert_rev less x r else x :: y :: r
  end.

Definition insertion_sort {A} (less : less_of A) (l : list A) : list A :=
  rev (fold_left (fun rp x => insert_rev less x rp) l []).

Section InsertionSort.
Context {A : Type} (less : less_of A).

Lemma insert_rev_perm x rp : Permutation (insert_rev less x rp) (x :: rp).
Proof.
  induction rp as [|y r IH]; simpl; [done|].
  destruct (less x y); [|done]. rewrite IH. apply perm_swap.
Qed.

Lemma fold_insert_perm l rp :
  Permutation (fold_left (fun rp x => insert_rev less x rp) l rp) (l ++ rp).
Proof.
  revert rp. induction l as [|x l IH]; intros rp; simpl; [done|].
  rewrite IH, insert_rev_perm. symmetry. apply Permutation_middle.
Qed.

Lemma insertion_sort_perm l : Permutation (insertion_sort less l) l.
Proof.
  unfold insertion_sort. rewrite <- Permutation_rev, fold_insert_perm.
  by rewrite app_nil_r.
Qed.

Hypothesis Hsw : StrictWeak less.

(** [desc rp]: reading left to right, no element is below its successor. *)
Let desc (a b : A) : Prop := less a b = false.

Lemma insert_rev_sorted x rp :
  StronglySorted desc rp -> StronglySorted desc (insert_rev less x rp).
Proof.
  induction 1 as [|y r Hr IH Hy]; simpl.
  - repeat constructor.
  - destruct (less x y) eqn:E.
    + constructor; [done|]. rewrite insert_rev_perm. constructor; [|done].
      unfold desc. destruct (less y x) eqn:E'; [|done].
      pose proof (sw_trans _ Hsw _ _ _ E E') as F.
      by rewrite (sw_irrefl _ Hsw) in F.
    + constructor; [by constructor|]. constructor; [done|].
      eapply Forall_impl; [exact Hy|]. intros z Hz.
      exact (sw_negtrans _ Hsw _ _ _ E Hz).
Qed.

Lemma fold_insert_sorted l rp :
  StronglySorted desc rp ->
  StronglySorted desc (fold_left (fun rp x => insert_rev less x rp) l rp).
Proof.
  revert rp. induction l as [|x l IH]; intros rp H; simpl; [done|].
  by apply IH, insert_rev_sorted.
Qed.

Lemma StronglySorted_rev (R : A -> A -> Prop) l :
  StronglySorted R l -> StronglySorted (fun a b => R b a) (rev l).
Proof.
  induction 1 as [|x l Hl IH Hx]; simpl; [constructor|].
  clear Hl. rewrite Permutation_rev in Hx. induction (rev l) as [|y r IHr]; simpl.
  - repeat constructor.
  - inversion_clear IH as [|? ? Hr Hy]. apply Forall_cons in Hx as [Hxy Hxr].
    constructor; [by apply IHr|]. rewrite Forall_app. split; [done|].
    by constructor.
Qed.

Lemma insertion_sort_sorted l :
  StronglySorted (fun a b => less b a = false) (insertion_sort less l).
Proof. apply (StronglySorted_rev desc), fold_insert_sorted. constructor. Qed.
End InsertionSort.

#[export] Instance insertion_GoSort : GoSort := {
  go_sort := @insertion_sort;
  go_sort_perm := @insertion_sort_perm;
  go_sort_sorted := fun A less l H => insertion_sort_sorted less H l
}.

(** Two ordered lists with the same elements, no two of which compare equal,
    are the same list. *)
Lemma sorted_perm_unique {A} (less : less_of A) (l1 l2 : list A) :
  StrictWeak less ->
  (forall a b, a ∈ l1 -> b ∈ l1 -> less a b = false -> less b a = false -> a = b) ->
  StronglySorted (fun a b => less b a = false) l1 ->
  StronglySorted (fun a b => less b a = false) l2 ->
  Permutation l1 l2 -> l1 = l2.
Proof.
  intros Hsw. revert l2. induction l1 as [|x l1 IH]; intros l2 Htot S1 S2 HP.
  - symmetry. by apply Permutation_nil.
  - destruct l2 as [|y l2]; [by apply Permutation_sym, Permutation_nil in HP|].
    inversion_clear S1 as [|? ? S1' F1]. inversion_clear S2 as [|? ? S2' F2].
    rewrite Forall_forall in F1, F2.
    assert (Hxy : x = y).
    { assert (Hx : x ∈ y :: l2) by (rewrite <- HP; by left).
      assert (Hy : y ∈ x :: l1) by (rewrite HP; by left).
      apply elem_of_cons in Hx as [|Hx]; [done|].
      apply elem_of_cons in Hy as [|Hy]; [done|].
      apply Htot; [by left|by right| |].
      - by apply F2.
      - by apply F1. }
    subst y. f_equal. apply IH; try done.
    + intros a b Ha Hb. apply Htot; by right.
    + by apply Permutation_cons_inv in HP.
Qed.

Lemma filter_none {A} (p : A -> bool) l : (forall x, In x l -> p x = false) -> List.filter p l = [].
Proof.
  induction l as [|x l IH]; intros Hl; simpl; [done|].
  rewrite (Hl x) by (by left). apply IH. intros y Hy. apply Hl. by right.
Qed.
Lemma filter_perm {A} (p : A -> bool) (l1 l2 : list A) :
  Permutation l1 l2 -> Permutation (List.filter p l1) (List.filter p l2).
Proof.
  induction 1 as [|x l l' _ IH|x y l|l l' l'' _ IH _ IH']; simpl; [done| | |].
  - destruct (p x); [by constructor|done].
  - destruct (p x), (p y); try done. apply perm_swap.
  - by transitivity (List.filter p l').
Qed.

(** ** Package hash/crc64 *)

(** ** [fmt.Sprintf]

    Verbs [%s], [%d], [%t], [%v] and the literal percent; an argument is
    given with its type and its text. Missing, extra and mistyped arguments are
    rendered the way Go renders them. Flags and widths are not covered. *)

Record fmt_arg := mkArg { arg_type : string; arg_text : string }.
Definition fs (s : string) : fmt_arg := mkArg "string" s.
Definition fd (n : Z) : fmt_arg := mkArg "int" (format_int n).
Definition fl (n : Z) : fmt_arg := mkArg "int64" (format_int n).

Definition verb_ok (verb : ascii) (a : fmt_arg) : bool :=
  Ascii.eqb verb "v" ||
  (Ascii.eqb verb "s" && (arg_type a =? "string")%string) ||
  (Ascii.eqb verb "d" && ((arg_type a =? "int")%string || (arg_type a =? "int64")%string)).

Fixpoint fmt_extra (args : list fmt_arg) : string :=
  match args with
  | [] => ""
  | [a] => arg_type a +:+ "=" +:+ arg_text a
  | a :: rest => arg_type a +:+ "=" +:+ arg_text a +:+ ", " +:+ fmt_extra rest
  end.

Fixpoint fmt_Sprintf (f : string) (args : list fmt_arg) : string :=
  match f with
  | EmptyString =>
      match args with [] => "" | _ => "%!(EXTRA " +:+ fmt_extra args +:+ ")" end
  | String c r =>
      if negb (Ascii.eqb c "%") then String c (fmt_Sprintf r args) else
      match r with
      | EmptyString => "%!(NOVERB)" +:+ fmt_Sprintf r args
      | String verb r' =>
          if Ascii.eqb verb "%" then String "%" (fmt_Sprintf r' args) else
          match args with
          | [] => "%!" +:+ String verb "(MISSING)" +:+ fmt_Sprintf r' []
          | a :: args' =>
              (if verb_ok verb a then arg_text a
               else "%!" +:+ String verb ("(" +:+ arg_type a +:+ "=" +:+ arg_text a +:+ ")"))
              +:+ fmt_Sprintf r' args'
          end
      end
  end.


(** [crc64.MakeTable(poly)]: entry [i] of the table. *)
Definition crc64_entry (poly : Z) (i : Z) : Z :=
  Nat.iter 8 (fun crc =>
    if Z.testbit crc 0 then Z.lxor (Z.shiftr crc 1) poly else Z.shiftr crc 1) i.

Definition crc64_MakeTable (poly : Z) : list Z :=
  map (fun n => crc64_entry poly (Z.of_nat n)) (seq 0 256).

Definition crc64_ECMA : Z := 0xC96C5795D7870F42.

Definition crc64_table_at (tab : list Z) (i : Z) : Z := nth (Z.to_nat i) tab 0.

(** [crc64.Checksum(data, tab)]: 64-bit complement before and after. *)
Fixpoint crc64_update (tab : list Z) (crc : Z) (s : string) : Z :=
  match s with
  | EmptyString => crc
  | String c r =>
      crc64_update tab
        (Z.lxor (crc64_table_at tab (Z.lxor (Z.land crc 255) (byte_val c)))
                (Z.shiftr crc 8)) r
  end.

Definition crc64_Checksum (s : string) (tab : list Z) : Z :=
  let ones := two64 - 1 in
  Z.lxor (crc64_update tab ones s) ones.

(** The published check value of CRC-64/XZ (the ECMA polynomial, reflected). *)
Example crc64_check_value :
  crc64_Checksum "123456789" (crc64_MakeTable crc64_ECMA) = 0x995DC9BBDF1939FA.
Proof. vm_compute. reflexivity. Qed.
