(* ===== verification/Gtid.v ===== *)
(** * GTID lists (utils/gtid/gtid.go)

    Parsing, printing and comparing MariaDB and MySQL global transaction ids.
    A Go panic (an index out of range on a malformed id) is [None]. *)

From Stdlib Require Import ZArith Lia Bool Permutation Sorted Ascii String.
From stdpp Require Import base list strings.
From S2P Require Import Prelude GoLib.

Local Open Scope string_scope.
Local Open Scope list_scope.
Local Open Scope Z_scope.

(** ** Data *)

Record Gtid := mkGtid { DomainID : Z; ServerID : Z; SeqNo : Z }.

#[export] Instance Gtid_eq_dec : EqDecision Gtid.
Proof. solve_decision. Defined.

Definition lessFunc : Type := Gtid -> Gtid -> bool.

(** A GTID whose fields fit the widths [NewGtid] parses them with. *)
Definition wf_gtid (g : Gtid) : Prop :=
  0 <= DomainID g <= max_uint 32 /\ 0 <= ServerID g <= max_uint 32 /\
  0 <= SeqNo g <= max_uint 64.

(** ** The multi-key sorter *)

(** [multiSorter.Less]: all but the last comparison are tried in order, the
    last one decides; no comparison at all is an index out of range. *)
Fixpoint multiSorter_Less (less : list lessFunc) (p q : Gtid) : option bool :=
  match less with
  | [] => None
  | [f] => Some (f p q)
  | f :: r =>
      if f p q then Some true
      else if f q p then Some false
      else multiSorter_Less r p q
  end.

(** [multiSorter.Sort]: [sort.Sort] calls [Less] only on two elements or more. *)
Definition multiSorter_Sort `{GoSort} (less : list lessFunc) (gl : list Gtid)
  : option (list Gtid) :=
  match less, gl with
  | [], _ :: _ :: _ => None
  | _, _ => Some (go_sort (fun p q => default false (multiSorter_Less less p q)) gl)
  end.

Definition less_server (c1 c2 : Gtid) : bool := ServerID c1 <? ServerID c2.
Definition less_domain (c1 c2 : Gtid) : bool := DomainID c1 <? DomainID c2.

(** ** Parsing *)

Definition NewGtid (s : string) : option Gtid :=
  match strings_Split "-" s with
  | e0 :: e1 :: e2 :: _ =>
      Some (mkGtid (fst (strconv_ParseUint e0 32)) (fst (strconv_ParseUint e1 32))
                   (fst (strconv_ParseUint e2 64)))
  | _ => None
  end.

Definition NewList (s : string) : option (list Gtid) :=
  if (s =? "")%string then Some []
  else mapM NewGtid (strings_Split "," s).

(** The line breaks [NewMySQLList]'s regular expression deletes: CR, LF, VT,
    FF and the UTF-8 encodings of U+0085, U+2028 and U+2029. *)
Fixpoint remove_line_breaks (s : string) : string :=
  match s with
  | EmptyString => ""
  | String c r =>
      let v := byte_val c in
      if (10 <=? v) && (v <=? 13) then remove_line_breaks r
      else match r with
      | String c1 r1 =>
          if (v =? 0xC2) && (byte_val c1 =? 0x85) then remove_line_breaks r1
          else match r1 with
          | String c2 r2 =>
              if (v =? 0xE2) && (byte_val c1 =? 0x80) &&
                 ((byte_val c2 =? 0xA8) || (byte_val c2 =? 0xA9))
              then remove_line_breaks r2
              else String c (remove_line_breaks r)
          | EmptyString => String c (remove_line_breaks r)
          end
      | EmptyString => String c ""
      end
  end.

(** The last sequence number of an interval ["a-b"], or of ["a"] alone. *)
Definition interval_end (f : string) : string :=
  if strings_Contains f "-"
  then match strings_Split "-" f with _ :: e1 :: _ => e1 | _ => f end
  else f.

(** [NewMySQLGtid]: [uuid:interval] or [uuid:tag:interval]; server and domain
    are CRC-64 digests of the upper-cased uuid and tag. *)
Definition NewMySQLGtid (crcTable : list Z) (s : string) : Gtid :=
  let f := strings_Split ":" s in
  let '(dom, seq) :=
    match f with
    | [_; f1] => (0, interval_end f1)
    | [_; f1; f2] => (crc64_Checksum (strings_ToUpper f1) crcTable, interval_end f2)
    | _ => (0, "1")
    end in
  mkGtid dom (crc64_Checksum (strings_ToUpper (default "" (head f))) crcTable)
         (fst (strconv_ParseUint seq 64)).

Definition NewMySQLList (s : string) (crcTable : list Z) : list Gtid :=
  if (s =? "")%string then []
  else map (NewMySQLGtid crcTable)
         (strings_Split "," (strings_Remove " " (remove_line_breaks s))).

(** ** Accessors *)

Definition GetDomainIDs (gl : list Gtid) : list Z := map DomainID gl.
Definition GetServerIDs (gl : list Gtid) : list Z := map ServerID gl.
Definition GetSeqNos (gl : list Gtid) : list Z := map SeqNo gl.

Definition GetSeqDomainIdNos (domainId : Z) (gl : list Gtid) : list Z :=
  map SeqNo (List.filter (fun g => DomainID g =? domainId) gl).

Fixpoint GetSeqServerIdNos (serverId : Z) (gl : list Gtid) : Z :=
  match gl with
  | [] => 0
  | g :: r => if ServerID g =? serverId then SeqNo g else GetSeqServerIdNos serverId r
  end.

(** ** Printing and comparison *)

Definition sprint_gtid (g : Gtid) : string :=
  format_uint (DomainID g) +:+ "-" +:+ format_uint (ServerID g) +:+ "-" +:+
  format_uint (SeqNo g).

Definition Sprint (gl : list Gtid) : string := strings_Join (map sprint_gtid gl) ",".

(** [List.Equal] sorts both lists in place: the two sorted lists are returned
    with the answer. *)
Definition Equal `{GoSort} (gl glcomp : list Gtid)
  : option (bool * list Gtid * list Gtid) :=
  match multiSorter_Sort [less_domain; less_server] gl,
        multiSorter_Sort [less_domain; less_server] glcomp with
  | Some gl', Some glcomp' =>
      Some ((Sprint gl' =? Sprint glcomp')%string ||
            strings_Contains (Sprint glcomp' +:+ ",") (Sprint gl' +:+ ","),
            gl', glcomp')
  | _, _ => None
  end.

(** ** Lemmas *)

Section Roundtrip.
Lemma sprint_gtid_no_comma g : char_in "," (sprint_gtid g) = false.
Proof.
  unfold sprint_gtid. rewrite !char_in_app, !format_uint_char by done. done.
Qed.

(** The printed fields, split again. *)
Lemma split_sprint_gtid g :
  strings_Split "-" (sprint_gtid g) =
  [format_uint (DomainID g); format_uint (ServerID g); format_uint (SeqNo g)].
Proof.
  change (sprint_gtid g) with
    (format_uint (DomainID g) +:+ String "-"
      (format_uint (ServerID g) +:+ String "-" (format_uint (SeqNo g)))).
  rewrite Split_app by by apply format_uint_char.
  rewrite Split_app by by apply format_uint_char.
  by rewrite Split_no_sep by by apply format_uint_char.
Qed.

Lemma NewGtid_sprint g : wf_gtid g -> NewGtid (sprint_gtid g) = Some g.
Proof.
  intros (Hd & Hs & Hq). unfold NewGtid. rewrite split_sprint_gtid.
  rewrite !ParseUint_format by done. by destruct g.
Qed.

Lemma mapM_NewGtid_sprint gl :
  Forall wf_gtid gl -> mapM NewGtid (map sprint_gtid gl) = Some gl.
Proof.
  induction 1 as [|g gl Hg Hl IH]; simpl; [done|].
  by rewrite NewGtid_sprint, IH.
Qed.

Lemma Sprint_nonempty g gl : Sprint (g :: gl) <> "".
Proof.
  assert (Hg : sprint_gtid g <> "").
  { intros E. pose proof (split_sprint_gtid g) as Hs. by rewrite E in Hs. }
  unfold Sprint. simpl. destruct (map sprint_gtid gl); [done|].
  destruct (sprint_gtid g); [done|]. done.
Qed.

Lemma split_Sprint gl :
  gl <> [] -> strings_Split "," (Sprint gl) = map sprint_gtid gl.
Proof.
  intros Hne. apply Split_Join.
  - by destruct gl.
  - apply Forall_map, Forall_forall. intros g _. apply sprint_gtid_no_comma.
Qed.
End Roundtrip.

Section Ordering.
(** The (domain, server) key [Equal] sorts by. *)
Definition gtid_key (g : Gtid) : Z * Z := (DomainID g, ServerID g).
Definition key_less (p q : Gtid) : bool :=
  default false (multiSorter_Less [less_domain; less_server] p q).

Lemma key_less_spec p q :
  key_less p q = true <->
  DomainID p < DomainID q \/ DomainID p = DomainID q /\ ServerID p < ServerID q.
Proof.
  unfold key_less. simpl. unfold less_domain, less_server.
  destruct (Z.ltb_spec (DomainID p) (DomainID q)); simpl; [intuition lia|].
  destruct (Z.ltb_spec (DomainID q) (DomainID p)); simpl; [intuition (lia || done)|].
  destruct (Z.ltb_spec (ServerID p) (ServerID q)); intuition (lia || done).
Qed.

Lemma key_less_false p q :
  key_less p q = false <->
  DomainID q < DomainID p \/ DomainID p = DomainID q /\ ServerID q <= ServerID p.
Proof.
  rewrite <- not_true_iff_false, key_less_spec. lia.
Qed.

Lemma key_less_strict : StrictWeak key_less.
Proof.
  split; intros *; rewrite ?key_less_spec, ?key_less_false; lia.
Qed.

Lemma key_less_total p q :
  key_less p q = false -> key_less q p = false -> gtid_key p = gtid_key q.
Proof.
  rewrite !key_less_false. unfold gtid_key. intros ? ?. f_equal; lia.
Qed.

Context `{GoSort}.

Lemma Sort_total gl :
  multiSorter_Sort [less_domain; less_server] gl = Some (go_sort key_less gl).
Proof. done. Qed.

Lemma go_sort_perm_eq gl gl' :
  NoDup (map gtid_key gl) -> Permutation gl gl' ->
  go_sort key_less gl = go_sort key_less gl'.
Proof.
  intros Hnd HP. apply (sorted_perm_unique key_less).
  - apply key_less_strict.
  - intros a b Ha Hb Hab Hba. pose proof (key_less_total _ _ Hab Hba) as Hk.
    rewrite go_sort_perm in Ha, Hb.
    apply list_elem_of_lookup in Ha as [i Hi], Hb as [j Hj].
    assert (i = j) as ->.
    { eapply NoDup_lookup; [exact Hnd| |].
      - change (map gtid_key gl) with (gtid_key <$> gl).
        rewrite list_lookup_fmap, Hi. done.
      - change (map gtid_key gl) with (gtid_key <$> gl).
        rewrite list_lookup_fmap, Hj. simpl. by rewrite Hk. }
    congruence.
  - apply go_sort_sorted, key_less_strict.
  - apply go_sort_sorted, key_less_strict.
  - by rewrite !go_sort_perm.
Qed.
End Ordering.

Section EqualSound.
Lemma sprint_gtid_inj g h : wf_gtid g -> wf_gtid h -> sprint_gtid g = sprint_gtid h -> g = h.
Proof.
  intros Hg Hh E. pose proof (NewGtid_sprint g Hg) as Pg.
  rewrite E, (NewGtid_sprint h Hh) in Pg. congruence.
Qed.

Lemma map_sprint_inj l1 l2 :
  Forall wf_gtid l1 -> Forall wf_gtid l2 ->
  map sprint_gtid l1 = map sprint_gtid l2 -> l1 = l2.
Proof.
  intros H1 H2 E. pose proof (mapM_NewGtid_sprint l1 H1) as P1.
  rewrite E, (mapM_NewGtid_sprint l2 H2) in P1. congruence.
Qed.

(** One id printed at the end of another: server and sequence agree, the
    domain is a suffix of the other one. *)
Lemma sprint_gtid_suffix g h la :
  wf_gtid g -> wf_gtid h -> sprint_gtid h = la +:+ sprint_gtid g ->
  ServerID h = ServerID g /\ SeqNo h = SeqNo g /\
  exists d, format_uint (DomainID h) = d +:+ format_uint (DomainID g).
Proof.
  intros (_ & Hs & Hq) (_ & Hs' & Hq') E.
  apply (f_equal (strings_Split "-")) in E. rewrite split_sprint_gtid in E.
  destruct (Split_app_last "-" la _ _ _ (split_sprint_gtid g)) as (ia & d & _ & Hla).
  rewrite Hla in E. destruct ia as [|? [|? [|? ia]]]; simplify_eq/=.
  - split_and!; try by eapply format_uint_inj. by exists d.
  - by destruct ia.
Qed.

Lemma map_app_inv {A B} (f : A -> B) l x y :
  map f l = x ++ y -> exists l1 l2, l = l1 ++ l2 /\ map f l1 = x /\ map f l2 = y.
Proof. intros (l1 & l2 & ? & ? & ?)%map_eq_app. eauto. Qed.

(** What a successful substring match of two printed lists says of them. *)
Lemma contains_sound g rest comp :
  Forall wf_gtid (g :: rest) -> Forall wf_gtid comp ->
  strings_Contains (Sprint comp +:+ ",") (Sprint (g :: rest) +:+ ",") = true ->
  exists pre h post, comp = pre ++ h :: rest ++ post /\
    ServerID h = ServerID g /\ SeqNo h = SeqNo g /\
    exists d, format_uint (DomainID h) = d +:+ format_uint (DomainID g).
Proof.
  intros Hg Hc. rewrite Contains_spec. intros (a & b & E).
  apply (f_equal (strings_Split ",")) in E.
  change (Sprint comp +:+ ",") with (Sprint comp +:+ String "," "") in E.
  rewrite Split_sep_app in E.
  replace (a +:+ (Sprint (g :: rest) +:+ ",") +:+ b)
    with ((a +:+ Sprint (g :: rest)) +:+ String "," b) in E
    by by rewrite <- !str_app_assoc.
  rewrite Split_sep_app in E.
  destruct (Split_app_last "," a _ _ _ (split_Sprint (g :: rest) ltac:(done)))
    as (ia & la & _ & Ha).
  rewrite Ha in E. clear Ha.
  destruct (exists_last (Split_nonempty "," b)) as (pb & lb & Hb). rewrite Hb in E.
  change (strings_Split "," "") with [""] in E.
  rewrite app_assoc in E. apply app_inj_tail in E as [E _].
  assert (comp <> []) as Hne.
  { intros ->. change (strings_Split "," (Sprint [])) with [""] in E.
    destruct ia as [|? [|? ia]]; [|done..]. injection E as E _.
    pose proof (split_sprint_gtid g) as Hs. by destruct la, (sprint_gtid g). }
  rewrite split_Sprint in E by done. rewrite <- app_assoc in E.
  apply map_app_inv in E as (pre & l2 & -> & _ & E).
  destruct l2 as [|h l2]; [done|]. simpl in E. injection E as Eh El.
  apply map_app_inv in El as (rest' & post & -> & Er & _).
  apply Forall_app in Hc as [_ Hc]. apply Forall_cons in Hc as [Hh Hc].
  apply Forall_app in Hc as [Hr' _]. apply Forall_cons in Hg as [Hg Hr].
  apply map_sprint_inj in Er as ->; [|done..].
  exists pre, h, post. split; [done|]. by eapply sprint_gtid_suffix.
Qed.
End EqualSound.

(** ** Properties *)

(** C38: Printing a list of GTIDs and parsing it back gives the same list, for
    every list whose domain and server ids fit 32 bits and whose sequence
    numbers fit 64 bits (the widths [NewGtid] parses with). *)
Theorem NewList_Sprint (gl : list Gtid) :
  Forall wf_gtid gl -> NewList (Sprint gl) = Some gl.
Proof.
  intros Hwf. unfold NewList. destruct gl as [|g gl]; [done|].
  destruct (String.eqb_spec (Sprint (g :: gl)) "") as [E|_].
  - by apply Sprint_nonempty in E.
  - rewrite split_Sprint by done. by apply mapM_NewGtid_sprint.
Qed.

Lemma NewList_Sprint_witness :
  NewList "0-1-42,4294967295-3306-18446744073709551615" =
  Some [mkGtid 0 1 42; mkGtid 4294967295 3306 18446744073709551615].
Proof.
  refine (NewList_Sprint [mkGtid 0 1 42; mkGtid 4294967295 3306 18446744073709551615] _).
  repeat constructor; vm_compute; discriminate.
Defined.

(** Whatever its input, [NewList] either panics (on an id with fewer than
    three dash-separated fields) or returns well-formed GTIDs: numbers that
    overflow their width saturate at its maximum, text that is not a number
    reads as 0. *)
Theorem NewList_wf (s : string) (gl : list Gtid) :
  NewList s = Some gl -> Forall wf_gtid gl.
Proof.
  unfold NewList. destruct (String.eqb s ""); [by intros [= <-]|].
  intros Hm%mapM_Some_1. induction Hm as [|e g es gl He Hm IH]; [done|].
  constructor; [|done]. unfold NewGtid in He.
  destruct (strings_Split "-" e) as [|e0 [|e1 [|e2 ?]]]; try discriminate.
  injection He as <-. unfold wf_gtid; cbn.
  split_and!; apply ParseUint_range; lia.
Qed.

Lemma NewList_wf_witness :
  NewList "99999999999-x-7" = Some [mkGtid 4294967295 0 7] /\
  Forall wf_gtid [mkGtid 4294967295 0 7].
Proof.
  assert (E : NewList "99999999999-x-7" = Some [mkGtid 4294967295 0 7])
    by (vm_compute; reflexivity).
  split; [exact E|]. exact (NewList_wf _ _ E).
Defined.

(** [List.Equal] does not depend on the order of either list: a list with
    pairwise distinct (domain, server) pairs equals each of its permutations,
    whatever order [sort.Sort] leaves on ties. *)
Theorem Equal_permutation `{GoSort} (gl glcomp : list Gtid) :
  NoDup (map gtid_key gl) -> Permutation gl glcomp ->
  exists sorted, Equal gl glcomp = Some (true, sorted, sorted) /\
                 Permutation sorted gl.
Proof.
  intros Hnd HP. exists (go_sort key_less gl). split; [|apply go_sort_perm].
  unfold Equal. rewrite !Sort_total, <- (go_sort_perm_eq gl glcomp) by done.
  by rewrite String.eqb_refl.
Qed.

Lemma Equal_permutation_witness :
  exists sorted,
    Equal [mkGtid 1 2 9; mkGtid 0 1 7] [mkGtid 0 1 7; mkGtid 1 2 9]
      = Some (true, sorted, sorted) /\
    Permutation sorted [mkGtid 1 2 9; mkGtid 0 1 7].
Proof.
  apply (Equal_permutation [mkGtid 1 2 9; mkGtid 0 1 7] [mkGtid 0 1 7; mkGtid 1 2 9]).
  - apply (bool_decide_unpack (NoDup (map gtid_key [mkGtid 1 2 9; mkGtid 0 1 7]))).
    vm_compute. exact I.
  - apply perm_swap.
Defined.

(** When [List.Equal] answers true for a non-empty list, that list, sorted,
    is a contiguous part of the other one, sorted, except that the domain id of
    its first GTID may be only a decimal suffix of the domain id found there. *)
Theorem Equal_sound `{GoSort} (gl glcomp sgl scomp : list Gtid) :
  gl <> [] -> Forall wf_gtid gl -> Forall wf_gtid glcomp ->
  Equal gl glcomp = Some (true, sgl, scomp) ->
  Permutation sgl gl /\ Permutation scomp glcomp /\
  exists g rest pre h post,
    sgl = g :: rest /\ scomp = pre ++ h :: rest ++ post /\
    ServerID h = ServerID g /\ SeqNo h = SeqNo g /\
    exists d, format_uint (DomainID h) = d +:+ format_uint (DomainID g).
Proof.
  intros Hne Hgl Hcomp. unfold Equal. rewrite !Sort_total. intros [= Hb <- <-].
  split; [apply go_sort_perm|]. split; [apply go_sort_perm|].
  rewrite <- (go_sort_perm _ key_less gl) in Hgl.
  rewrite <- (go_sort_perm _ key_less glcomp) in Hcomp.
  destruct (go_sort key_less gl) as [|g rest] eqn:E.
  { pose proof (go_sort_perm _ key_less gl) as HP. rewrite E in HP.
    by apply Permutation_nil in HP. }
  assert (Hc : strings_Contains (Sprint (go_sort key_less glcomp) +:+ ",")
                 (Sprint (g :: rest) +:+ ",") = true).
  { apply orb_true_iff in Hb as [Hb|Hb]; [|done]. apply String.eqb_eq in Hb.
    rewrite <- Hb. apply Contains_spec. exists "", "". by rewrite str_app_nil_r. }
  destruct (contains_sound _ _ _ Hgl Hcomp Hc) as (pre & h & post & Hpost & Hrest).
  exists g, rest, pre, h, post. done.
Qed.

Lemma Equal_sound_witness :
  Permutation [mkGtid 1 1 10] [mkGtid 1 1 10] /\
  Permutation [mkGtid 0 3 5; mkGtid 1 1 10] [mkGtid 1 1 10; mkGtid 0 3 5] /\
  exists g rest pre h post,
    [mkGtid 1 1 10] = g :: rest /\
    [mkGtid 0 3 5; mkGtid 1 1 10] = pre ++ h :: rest ++ post /\
    ServerID h = ServerID g /\ SeqNo h = SeqNo g /\
    exists d, format_uint (DomainID h) = d +:+ format_uint (DomainID g).
Proof.
  apply (Equal_sound [mkGtid 1 1 10] [mkGtid 1 1 10; mkGtid 0 3 5]
           [mkGtid 1 1 10] [mkGtid 0 3 5; mkGtid 1 1 10]).
  - discriminate.
  - repeat constructor; vm_compute; discriminate.
  - repeat constructor; vm_compute; discriminate.
  - vm_compute. reflexivity.
Defined.

(** The exception of [Equal_sound] occurs: the position [1-1-10] of domain 1 is
    taken for the position [11-1-10] of domain 11. *)
Theorem Equal_domain_suffix :
  Equal [mkGtid 1 1 10] [mkGtid 11 1 10]
  = Some (true, [mkGtid 1 1 10], [mkGtid 11 1 10]).
Proof. vm_compute. reflexivity. Qed.

(** An empty list equals everything. *)
Theorem Equal_nil `{GoSort} (glcomp : list Gtid) :
  exists s1 s2, Equal [] glcomp = Some (true, s1, s2).
Proof.
  unfold Equal. rewrite !Sort_total.
  assert (go_sort key_less [] = []) as ->.
  { apply Permutation_nil, Permutation_sym, go_sort_perm. }
  eexists _, _. repeat f_equal. apply orb_true_iff. right.
  apply Contains_spec. exists (Sprint (go_sort key_less glcomp)), "".
  simpl. done.
Qed.

(** A MySQL interval [uuid:a-b] reads as its last transaction [b], under
    the CRC-64 digest of the upper-cased uuid as server id, with domain 0. *)
Theorem NewMySQLGtid_interval (crcTable : list Z) (uuid : string) (a b : Z) :
  char_in ":" uuid = false -> 0 <= a <= max_uint 64 -> 0 <= b <= max_uint 64 ->
  NewMySQLGtid crcTable (uuid +:+ ":" +:+ format_uint a +:+ "-" +:+ format_uint b) =
  mkGtid 0 (crc64_Checksum (strings_ToUpper uuid) crcTable) b.
Proof.
  intros Hu Ha Hb. unfold NewMySQLGtid.
  change (uuid +:+ ":" +:+ format_uint a +:+ "-" +:+ format_uint b)
    with (uuid +:+ String ":" (format_uint a +:+ String "-" (format_uint b))).
  rewrite Split_app by done.
  rewrite Split_no_sep
    by (rewrite char_in_app, format_uint_char by done; simpl; by apply format_uint_char).
  unfold interval_end.
  assert (strings_Contains (format_uint a +:+ String "-" (format_uint b)) "-" = true) as ->.
  { apply Contains_spec. exists (format_uint a), (format_uint b). done. }
  rewrite Split_app, Split_no_sep by by apply format_uint_char.
  cbv [default head]. by rewrite ParseUint_format.
Qed.

Lemma NewMySQLGtid_interval_witness :
  NewMySQLGtid (crc64_MakeTable crc64_ECMA)
    ("3e11fa47-71ca-11e1-9e33-c80aa9429562" +:+ ":" +:+ format_uint 1 +:+ "-" +:+ format_uint 5) =
  mkGtid 0 (crc64_Checksum (strings_ToUpper "3e11fa47-71ca-11e1-9e33-c80aa9429562")
              (crc64_MakeTable crc64_ECMA)) 5.
Proof.
  apply (NewMySQLGtid_interval (crc64_MakeTable crc64_ECMA)
           "3e11fa47-71ca-11e1-9e33-c80aa9429562" 1 5).
  - reflexivity.
  - split; vm_compute; discriminate.
  - split; vm_compute; discriminate.
Defined.
