(* ===== verification/Regex.v ===== *)
(** * Go's regexp package, for the expressions the program uses

    Leftmost-first matching with numbered groups, as a backtracking matcher on
    byte strings. Repetition applies to byte classes, which is all the
    program's expressions need; [(?:e){0,2}] is written as nested options. *)

From Stdlib Require Import ZArith Lia Bool Ascii String.
From stdpp Require Import base list strings.
From S2P Require Import Prelude GoLib.

Local Open Scope string_scope.
Local Open Scope list_scope.

Definition byte_class : Type := ascii -> bool.

Definition in_range (lo hi : Z) : byte_class :=
  fun c => ((lo <=? byte_val c) && (byte_val c <=? hi))%Z.
Definition is_digit : byte_class := in_range 48 57.
Definition is_alpha : byte_class := fun c => in_range 65 90 c || in_range 97 122 c.
(** [\s]: tab, newline, form feed, carriage return, space. *)
Definition is_space : byte_class :=
  fun c => existsb (fun v => (byte_val c =? v)%Z) [9; 10; 12; 13; 32]%Z.
Definition is_byte (d : ascii) : byte_class := fun c => Ascii.eqb c d.

Inductive regex : Type :=
| RLit (s : string)
| RClass (p : byte_class)
| RRep (p : byte_class) (min : nat) (max : option nat)
| RSeq (a b : regex)
| RAlt (a b : regex)
| ROpt (a : regex)
| RGroup (n : nat) (a : regex).

Definition captures : Type := list (nat * string).

(** The text between a position and a later one: [s] without its suffix [t]. *)
Definition consumed (s t : string) : string :=
  String.substring 0 (String.length s - String.length t) s.

Fixpoint drop_prefix (p s : string) : option string :=
  match p, s with
  | EmptyString, _ => Some s
  | String c p', String d s' => if Ascii.eqb c d then drop_prefix p' s' else None
  | String _ _, EmptyString => None
  end.

(** Greedy repetition of a class: one byte more first, then the continuation. *)
Fixpoint rep_match {R} (p : byte_class) (min : nat) (max : option nat) (s : string)
    (k : string -> option R) : option R :=
  let stop := match min with O => k s | S _ => None end in
  match max, s with
  | Some O, _ => stop
  | _, EmptyString => stop
  | _, String c s' =>
      if p c then
        match rep_match p (Nat.pred min) (option_map Nat.pred max) s' k with
        | Some r => Some r
        | None => stop
        end
      else stop
  end.

Fixpoint re_match {R} (r : regex) (s : string) (cs : captures)
    (k : string -> captures -> option R) : option R :=
  match r with
  | RLit l => match drop_prefix l s with Some s' => k s' cs | None => None end
  | RClass p =>
      match s with
      | String c s' => if p c then k s' cs else None
      | EmptyString => None
      end
  | RRep p min max => rep_match p min max s (fun s' => k s' cs)
  | RSeq a b => re_match a s cs (fun s' cs' => re_match b s' cs' k)
  | RAlt a b =>
      match re_match a s cs k with Some x => Some x | None => re_match b s cs k end
  | ROpt a =>
      match re_match a s cs k with Some x => Some x | None => k s cs end
  | RGroup n a =>
      re_match a s cs (fun s' cs' => k s' ((n, consumed s s') :: cs'))
  end.

(** One match: the text before it is skipped, group 0 is the whole match. *)
Record re_result := { rr_groups : captures; rr_rest : string }.

Definition match_at (r : regex) (s : string) : option re_result :=
  re_match (RGroup 0 r) s [] (fun s' cs => Some {| rr_groups := cs; rr_rest := s' |}).

(** The leftmost position that matches. *)
Fixpoint re_find (r : regex) (s : string) : option re_result :=
  match match_at r s with
  | Some x => Some x
  | None => match s with EmptyString => None | String _ s' => re_find r s' end
  end.

(** A group that took no part in the match is the empty string. *)
Definition group (cs : captures) (n : nat) : string :=
  match List.find (fun p => Nat.eqb (fst p) n) cs with Some p => snd p | None => "" end.

(** [FindString] and [FindStringSubmatch]. *)
Definition FindString (r : regex) (s : string) : string :=
  match re_find r s with Some x => group (rr_groups x) 0 | None => "" end.

Definition FindStringSubmatch (r : regex) (s : string) : option captures :=
  rr_groups <$> re_find r s.

(** [FindAllStringSubmatch(s, n)] for expressions that never match the empty
    string: matches do not overlap. *)
Fixpoint FindAllStringSubmatch (r : regex) (s : string) (n : nat) : list captures :=
  match n with
  | O => []
  | S n' =>
      match re_find r s with
      | Some x => rr_groups x :: FindAllStringSubmatch r (rr_rest x) n'
      | None => []
      end
  end.

(** ** Lemmas *)

Fixpoint str_forall (p : byte_class) (s : string) : bool :=
  match s with EmptyString => true | String c r => p c && str_forall p r end.

Definition stops (p : byte_class) (s : string) : bool :=
  match s with EmptyString => true | String c _ => negb (p c) end.

Lemma str_length_app (a b : string) :
  String.length (a +:+ b) = (String.length a + String.length b)%nat.
Proof. induction a as [|c a IH]; [done|]. exact (f_equal S IH). Qed.

Lemma substring_app (a b : string) : String.substring 0 (String.length a) (a +:+ b) = a.
Proof.
  induction a as [|c a IH]; [by destruct b|]. exact (f_equal (String c) IH).
Qed.

Lemma consumed_app a b : consumed (a +:+ b) b = a.
Proof.
  unfold consumed. rewrite str_length_app, Nat.add_sub. apply substring_app.
Qed.

(** A class repeated over a run of its bytes takes the whole run when the
    continuation accepts what follows. *)
Lemma rep_match_run {R} p min max d rest (k : string -> option R) x :
  str_forall p d = true -> (min <= String.length d)%nat ->
  (forall m, max = Some m -> String.length d <= m)%nat ->
  stops p rest = true -> k rest = Some x ->
  rep_match p min max (d +:+ rest) k = Some x.
Proof.
  revert min max. induction d as [|c d IH]; intros min max Hd Hmin Hmax Hr Hk.
  - simpl in Hmin. destruct min; [|lia]. change ("" +:+ rest) with rest.
    destruct rest as [|e rest]; simpl in *.
    + by destruct max as [[|?]|].
    + apply negb_true_iff in Hr. by destruct max as [[|?]|]; rewrite ?Hr.
  - simpl in Hd, Hmin. apply andb_prop in Hd as [Hc Hd].
    change (String c d +:+ rest) with (String c (d +:+ rest)). simpl.
    assert (Hstep : rep_match p (Nat.pred min) (option_map Nat.pred max) (d +:+ rest) k
                    = Some x).
    { apply IH; try done; [lia|]. intros m Hm. destruct max as [m'|]; [|done].
      simpl in Hm. specialize (Hmax m' eq_refl). simpl in Hmax.
      injection Hm as <-. lia. }
    destruct max as [[|m]|].
    + specialize (Hmax 0%nat eq_refl). simpl in Hmax. lia.
    + by rewrite Hc, Hstep.
    + by rewrite Hc, Hstep.
Qed.

Lemma rep_match_zero {R} p s (k : string -> option R) x :
  stops p s = true -> k s = Some x -> rep_match p 0 None s k = Some x.
Proof.
  intros Hs Hk. by apply (rep_match_run p 0 None "" s).
Qed.
