(* ===== verification/Version.v ===== *)
(** * Database versions (utils/version/version.go)

    Parsing of version strings (two regular expressions and an older
    split-based parser) and the comparisons the monitor decides with. A Go
    panic (an index out of range on unparsable text) is [None]. *)

From Stdlib Require Import ZArith Lia Bool Ascii String.
From stdpp Require Import base list strings.
From S2P Require Import Prelude GoLib Regex.

Local Open Scope string_scope.
Local Open Scope list_scope.
Local Open Scope Z_scope.

(** ** Data *)

Inductive Version := mkVersion {
  Flavor : string;
  Major : Z;
  Minor : Z;
  Release : Z;
  Suffix : string;
  Path : string;
  DistVersion : option Version
}.

(** [new(Version)]: the zero value. *)
Definition zeroVersion : Version := mkVersion "" 0 0 0 "" "" None.

Definition atoi (s : string) : Z := fst (strconv_Atoi s).

(** The numeric fields from the dot-separated tokens: a missing token is 0. *)
Definition token (tokens : list string) (i : nat) : Z :=
  match tokens !! i with Some t => atoi t | None => 0 end.

(** ** Parsing *)

(** [NewMySQLVersion]: a PostgreSQL version is the second word of the text
    (index out of range when there is none). *)
Definition NewMySQLVersion (version versionComment : string) : option (Version * Z) :=
  let flavor :=
    if strings_Contains version "MariaDB" || strings_Contains versionComment "MariaDB"
    then "MariaDB"
    else if strings_Contains version "PostgreSQL" ||
            strings_Contains versionComment "PostgreSQL"
    then "PostgreSQL"
    else if strings_Contains versionComment "Percona" then "Percona"
    else "MySQL" in
  let text :=
    if (flavor =? "PostgreSQL")%string
    then strings_Split " " version !! 1%nat
    else strings_Split "-" version !! 0%nat in
  text ← text;
  let tokens := strings_Split "." text in
  Some (mkVersion flavor (token tokens 0) (token tokens 1) (token tokens 2) "" "" None,
        Z.of_nat (length tokens)).

Definition flavorRegex : regex :=
  RAlt (RLit "MariaDB") (RAlt (RLit "PostgreSQL") (RLit "Percona")).

Definition ParseDBFlavor (version : string) : string :=
  let flavor := FindString flavorRegex version in
  if (flavor =? "")%string then "MySQL" else flavor.

(** [[0-9]{1,3}(?:\.[0-9]{1,3}){0,2}] *)
Definition digits13 : regex := RRep is_digit 1 (Some 3%nat).
Definition dot_digits : regex := RSeq (RClass (is_byte ".")) digits13.
Definition numericRegex : regex :=
  RSeq digits13 (ROpt (RSeq dot_digits (ROpt dot_digits))).

(** [[a-zA-Z]*\s*(numeric)(?:[-_.](suffix+))?] *)
Definition suffix_sep : byte_class :=
  fun c => is_byte "-" c || is_byte "_" c || is_byte "." c.
Definition versionRegex (suffix : byte_class) : regex :=
  RSeq (RRep is_alpha 0 None)
    (RSeq (RRep is_space 0 None)
      (RSeq (RGroup 1 numericRegex)
        (ROpt (RSeq (RClass suffix_sep) (RGroup 2 (RRep suffix 1 None)))))).

Definition alnum : byte_class := fun c => is_digit c || is_alpha c.
Definition alnum_dash : byte_class := fun c => alnum c || is_byte "-" c.

(** The version one match of the expression stands for, with its tokens. *)
Definition version_of_match (re : regex) (flavor : string) (m : captures)
  : Version * nat :=
  let tokens := strings_Split "." (FindString re (group m 1)) in
  (mkVersion flavor (token tokens 0) (token tokens 1) (token tokens 2)
     (group m 2) "" None, length tokens).

(** [NewFullVersionFromString]: the first match is the version, the second one
    the distribution version; without a match all fields are zero. *)
Definition NewFullVersionFromString (flavor vstring : string) : Version * nat * nat :=
  let re := versionRegex alnum_dash in
  match FindAllStringSubmatch re vstring 2 with
  | [] => (mkVersion flavor 0 0 0 "" "" None, 0%nat, 0%nat)
  | [m] => let '(v, n) := version_of_match re flavor m in (v, n, 0%nat)
  | m :: m' :: _ =>
      let '(v, n) := version_of_match re flavor m in
      let '(d, n') := version_of_match re "" m' in
      (mkVersion (Flavor v) (Major v) (Minor v) (Release v) (Suffix v) "" (Some d), n, n')
  end.

(** [NewVersionFromString]: indexing a nil match panics. *)
Definition NewVersionFromString (flavor vstring : string) : option (Version * nat) :=
  let re := versionRegex alnum in
  version_of_match re flavor <$> FindStringSubmatch re vstring.

Definition NewVersion (flavor : string) (tokens : list Z) : Version * nat :=
  match tokens with
  | [] => (zeroVersion, 0%nat)
  | t0 :: r =>
      (mkVersion flavor t0 (default 0 (r !! 0%nat)) (default 0 (r !! 1%nat)) "" "" None,
       length tokens)
  end.

(** ** Comparisons *)

(** [ToInt]: 64-bit signed arithmetic. *)
Definition ToInt (mv : Version) (tokens : nat) : Z :=
  match tokens with
  | 1%nat => i64 (Major mv * 1000000)
  | 2%nat => i64 (i64 (Major mv * 1000000) + i64 (Minor mv * 1000))
  | _ => i64 (i64 (i64 (Major mv * 1000000) + i64 (Minor mv * 1000)) + Release mv)
  end.

Definition ToString (mv : Version) : string :=
  format_int (Major mv) +:+ "." +:+ format_int (Minor mv) +:+ "." +:+
  format_int (Release mv).

Definition ToFullString (mv : Version) : string :=
  match DistVersion mv with
  | Some d => ToString mv +:+ ", Distrib " +:+ ToString d +:+ "-" +:+ Suffix d
  | None => ToString mv
  end.

Definition compare_with (cmp : Z -> Z -> bool) (mv : Version) (vstring : string)
  : option bool :=
  '(v, tokens) ← NewVersionFromString (Flavor mv) vstring;
  Some (cmp (ToInt mv tokens) (ToInt v tokens)).

Definition Greater := compare_with (fun a b => b <? a).
Definition GreaterEqual := compare_with (fun a b => b <=? a).
Definition Lower := compare_with (fun a b => a <? b).
Definition LowerEqual := compare_with (fun a b => a <=? b).
Definition Equal := compare_with Z.eqb.

Definition parsed_with (p : Version -> bool) (mv : Version) (vstring : string)
  : option bool :=
  '(v, _) ← NewVersionFromString (Flavor mv) vstring; Some (p v).

Definition GreaterEqualMinor (mv : Version) (vstring : string) : option bool :=
  parsed_with (fun v => (Major mv =? Major v) && (Minor v <=? Minor mv)) mv vstring.

Definition GreaterEqualRelease (mv : Version) (vstring : string) : option bool :=
  parsed_with (fun v => (Major mv =? Major v) && (Minor mv =? Minor v) &&
                        (Release v <=? Release mv)) mv vstring.

Definition LowerRelease (mv : Version) (vstring : string) : option bool :=
  parsed_with (fun v => (Major mv =? Major v) && (Minor mv =? Minor v) &&
                        (Release mv <? Release v)) mv vstring.

(** [&&] evaluates its right operand only when the left one is true. *)
Definition Between (mv : Version) (minvstring maxvstring : string) : option bool :=
  ge ← GreaterEqual mv minvstring;
  if (ge : bool) then LowerEqual mv maxvstring else Some false.

(** The first string for which the test holds ends the loop. *)
Fixpoint any_version (test : string -> option bool) (vstrings : list string)
  : option bool :=
  match vstrings with
  | [] => Some false
  | v :: r => b ← test v; if (b : bool) then Some true else any_version test r
  end.

Definition GreaterEqualReleaseList (mv : Version) (vstrings : list string) : option bool :=
  any_version (GreaterEqualRelease mv) vstrings.

Definition LowerReleaseList (mv : Version) (vstrings : list string) : option bool :=
  any_version (LowerRelease mv) vstrings.

Definition flavor_is (mv : Version) (f : string) : bool := (Flavor mv =? f)%string.
Definition IsMySQL (mv : Version) : bool := flavor_is mv "MySQL".
Definition IsPostgreSQL (mv : Version) : bool := flavor_is mv "PostgreSQL".
Definition IsMySQLOrPercona (mv : Version) : bool :=
  flavor_is mv "MySQL" || flavor_is mv "Percona".
Definition IsPercona (mv : Version) : bool := flavor_is mv "Percona".
Definition IsMariaDB (mv : Version) : bool := flavor_is mv "MariaDB".
Definition IsMySQL57 (mv : Version) : bool :=
  flavor_is mv "MySQL" && (Major mv =? 5) && (6 <? Minor mv).

(** Called on a nil pointer it answers false. *)
Definition IsMySQLOrPerconaGreater57 (mv : option Version) : bool :=
  match mv with
  | None => false
  | Some mv =>
      (flavor_is mv "MySQL" || flavor_is mv "Percona") &&
      (((Major mv =? 5) && (6 <? Minor mv)) || (5 <? Major mv))
  end.

(** ** Parsing undoes printing *)

(** A component the regular expression can read: at most three digits. *)
Definition component (n : Z) : Prop := 0 <= n <= 999.
Definition components (v : Version) : Prop :=
  component (Major v) /\ component (Minor v) /\ component (Release v).

(** What the printed form of a component is, checked on all of them. *)
Definition component_text_ok (n : nat) : bool :=
  let t := format_int (Z.of_nat n) in
  str_forall is_digit t && Nat.leb 1 (String.length t) && Nat.leb (String.length t) 3 &&
  negb (char_in "." t) && (atoi t =? Z.of_nat n).

Lemma component_texts_ok : forallb component_text_ok (seq 0 1000) = true.
Proof. vm_compute. reflexivity. Qed.

Lemma component_text n :
  component n ->
  let t := format_int n in
  str_forall is_digit t = true /\ (1 <= String.length t <= 3)%nat /\
  char_in "." t = false /\ atoi t = n.
Proof.
  intros [H0 H9].
  assert (Hok : component_text_ok (Z.to_nat n) = true).
  { pose proof component_texts_ok as Hall. rewrite forallb_forall in Hall.
    apply Hall. apply in_seq. lia. }
  unfold component_text_ok in Hok. rewrite Z2Nat.id in Hok by done.
  bool_prop. split_and!; try done.
  - by apply Nat.leb_le.
  - by apply Nat.leb_le.
Qed.

Section Numeric.
Context (R : Type) (cs : captures).

Lemma digits13_match n rest (k : string -> captures -> option R) x :
  component n -> stops is_digit rest = true -> k rest cs = Some x ->
  re_match digits13 (format_int n +:+ rest) cs k = Some x.
Proof.
  intros Hn Hr Hk. destruct (component_text n Hn) as (Hd & [H1 H3] & _ & _).
  simpl. eapply rep_match_run; try done. by intros m [= <-].
Qed.

Lemma dot_digits_match n rest (k : string -> captures -> option R) x :
  component n -> stops is_digit rest = true -> k rest cs = Some x ->
  re_match dot_digits (String "." (format_int n +:+ rest)) cs k = Some x.
Proof. intros Hn Hr Hk. by apply digits13_match. Qed.

(** The numeric part of a printed version takes all of it. *)
Lemma numeric_match v (k : string -> captures -> option R) x :
  components v -> k "" cs = Some x ->
  re_match numericRegex (ToString v) cs k = Some x.
Proof.
  intros (Hma & Hmi & Hre) Hk. unfold numericRegex, ToString. cbn [re_match].
  apply (digits13_match (Major v)); [done|done|].
  cbn [re_match].
  change ("." +:+ format_int (Minor v) +:+ "." +:+ format_int (Release v)) with
    (String "." (format_int (Minor v) +:+ String "." (format_int (Release v)))).
  erewrite (dot_digits_match (Minor v)); [done|done|done|].
  rewrite <- (str_app_nil_r (format_int (Release v))).
  by erewrite (dot_digits_match (Release v)).
Qed.
End Numeric.

Lemma digit_not_alpha c : is_digit c = true -> is_alpha c = false.
Proof.
  unfold is_digit, is_alpha, in_range. intros H. bool_prop.
  apply orb_false_intro; apply andb_false_intro1; apply Z.leb_gt; lia.
Qed.

Lemma digit_not_space c : is_digit c = true -> is_space c = false.
Proof.
  unfold is_digit, is_space, in_range. intros H. bool_prop. cbn.
  repeat (apply orb_false_intro; [apply Z.eqb_neq; lia|]). done.
Qed.

Lemma ToString_head v :
  components v -> exists c t, ToString v = String c t /\ is_digit c = true.
Proof.
  intros (Hma & _ & _). destruct (component_text _ Hma) as (Hd & [H1 _] & _ & _).
  unfold ToString. destruct (format_int (Major v)) as [|c t]; [simpl in H1; lia|].
  simpl in Hd. apply andb_prop in Hd as [Hc _].
  exists c, (t +:+ "." +:+ format_int (Minor v) +:+ "." +:+ format_int (Release v)).
  done.
Qed.

Lemma consumed_all s : consumed s "" = s.
Proof. rewrite <- (str_app_nil_r s) at 1. apply consumed_app. Qed.

Lemma version_regex_ToString suffix v :
  components v ->
  re_find (versionRegex suffix) (ToString v) =
  Some {| rr_groups := [(0%nat, ToString v); (1%nat, ToString v)]; rr_rest := "" |}.
Proof.
  intros Hv. destruct (ToString_head v Hv) as (c & t & Ht & Hc).
  assert (Hm : match_at (versionRegex suffix) (ToString v) =
    Some {| rr_groups := [(0%nat, ToString v); (1%nat, ToString v)]; rr_rest := "" |}).
  { unfold match_at, versionRegex. cbn [re_match].
    apply rep_match_zero; [rewrite Ht; unfold stops; by rewrite digit_not_alpha|].
    cbn [re_match].
    apply rep_match_zero; [rewrite Ht; unfold stops; by rewrite digit_not_space|].
    cbn [re_match]. apply numeric_match; [done|].
    cbn [re_match]. by rewrite !consumed_all. }
  rewrite Ht in *. simpl. by rewrite Hm.
Qed.

Lemma split_ToString v :
  components v ->
  strings_Split "." (ToString v) =
  [format_int (Major v); format_int (Minor v); format_int (Release v)].
Proof.
  intros (Hma & Hmi & Hre). unfold ToString.
  change (format_int (Major v) +:+ "." +:+ format_int (Minor v) +:+ "." +:+
          format_int (Release v)) with
    (format_int (Major v) +:+ String "." (format_int (Minor v) +:+
       String "." (format_int (Release v)))).
  rewrite Split_app by apply (component_text _ Hma).
  rewrite Split_app by apply (component_text _ Hmi).
  by rewrite Split_no_sep by apply (component_text _ Hre).
Qed.

(** [ToInt] on small components is the number [MMMmmmrrr]. *)
Lemma ToInt_components v n :
  components v ->
  ToInt v n = match n with
              | 1%nat => Major v * 1000000
              | 2%nat => Major v * 1000000 + Minor v * 1000
              | _ => Major v * 1000000 + Minor v * 1000 + Release v
              end.
Proof.
  unfold components, component, ToInt, is_i64. intros (Hma & Hmi & Hre).
  assert (Hsmall : forall z, -1000 <= z <= 1000000000 -> i64 z = z)
    by (intros z Hz; apply i64_small; unfold is_i64, two63; lia).
  rewrite (Hsmall (Major v * 1000000)), (Hsmall (Minor v * 1000)) by lia.
  destruct n as [|[|[|n]]]; repeat (rewrite Hsmall by lia); try done;
    rewrite (Hsmall (Major v * 1000000 + Minor v * 1000)) by lia; apply Hsmall; lia.
Qed.

Lemma NewVersionFromString_components flavor v :
  components v ->
  NewVersionFromString flavor (ToString v) =
  Some (mkVersion flavor (Major v) (Minor v) (Release v) "" "" None, 3%nat).
Proof.
  intros Hv. unfold NewVersionFromString, FindStringSubmatch.
  rewrite version_regex_ToString by done. simpl. f_equal.
  unfold version_of_match. change (group _ 1) with (ToString v).
  unfold FindString. rewrite version_regex_ToString by done.
  change (group _ 0) with (ToString v). rewrite split_ToString by done.
  destruct Hv as (Hma & Hmi & Hre). unfold token. simpl.
  destruct (component_text _ Hma) as (_ & _ & _ & ->).
  destruct (component_text _ Hmi) as (_ & _ & _ & ->).
  by destruct (component_text _ Hre) as (_ & _ & _ & ->).
Qed.

(** The lexicographic order on (major, minor, release). *)
Definition version_lt (a b : Version) : Prop :=
  Major a < Major b \/
  Major a = Major b /\ (Minor a < Minor b \/
                        Minor a = Minor b /\ Release a < Release b).

Lemma compare_components cmp mv v :
  components v ->
  compare_with cmp mv (ToString v) = Some (cmp (ToInt mv 3) (ToInt v 3)).
Proof.
  intros Hv. unfold compare_with. rewrite NewVersionFromString_components by done.
  done.
Qed.

(** ** Properties *)

(** A version whose components have at most three digits, printed by
    [ToString], is read back by [NewVersionFromString] with the same major,
    minor and release numbers and three tokens. *)
Theorem NewVersionFromString_ToString (flavor : string) (v : Version) :
  components v ->
  NewVersionFromString flavor (ToString v) =
  Some (mkVersion flavor (Major v) (Minor v) (Release v) "" "" None, 3%nat).
Proof. apply NewVersionFromString_components. Qed.

Lemma NewVersionFromString_ToString_witness :
  NewVersionFromString "MariaDB" "10.6.12" =
  Some (mkVersion "MariaDB" 10 6 12 "" "" None, 3%nat).
Proof.
  refine (NewVersionFromString_ToString "MariaDB" (mkVersion "" 10 6 12 "" "" None) _).
  repeat split; vm_compute; discriminate.
Defined.

(** C39: [Greater], [Equal] and [Lower] against a full three-component version
    string decide the lexicographic order on (major, minor, release): exactly
    one of them holds, and no version overflows the integer encoding. *)
Theorem version_comparison_lexicographic (mv v : Version) :
  components mv -> components v ->
  exists g e l,
    Greater mv (ToString v) = Some g /\ Equal mv (ToString v) = Some e /\
    Lower mv (ToString v) = Some l /\
    (g = true <-> version_lt v mv) /\
    (e = true <-> Major mv = Major v /\ Minor mv = Minor v /\ Release mv = Release v) /\
    (l = true <-> version_lt mv v).
Proof.
  intros Hm Hv. eexists _, _, _.
  unfold Greater, Equal, Lower. rewrite !compare_components by done.
  split_and!; [done..| | |]; rewrite !ToInt_components by done;
    rewrite ?Z.ltb_lt, ?Z.eqb_eq;
    unfold version_lt, components, component in *; lia.
Qed.

Lemma version_comparison_lexicographic_witness :
  exists g e l,
    Greater (mkVersion "MariaDB" 10 11 0 "" "" None) "10.6.999" = Some g /\
    Equal (mkVersion "MariaDB" 10 11 0 "" "" None) "10.6.999" = Some e /\
    Lower (mkVersion "MariaDB" 10 11 0 "" "" None) "10.6.999" = Some l /\
    (g = true <-> version_lt (mkVersion "" 10 6 999 "" "" None)
                             (mkVersion "MariaDB" 10 11 0 "" "" None)) /\
    (e = true <-> 10 = 10 /\ 11 = 6 /\ 0 = 999) /\
    (l = true <-> version_lt (mkVersion "MariaDB" 10 11 0 "" "" None)
                             (mkVersion "" 10 6 999 "" "" None)).
Proof.
  refine (version_comparison_lexicographic (mkVersion "MariaDB" 10 11 0 "" "" None)
            (mkVersion "" 10 6 999 "" "" None) _ _).
  - repeat split; vm_compute; discriminate.
  - repeat split; vm_compute; discriminate.
Defined.
