(* ===== verification/StateMachine.v ===== *)
(** * The monitoring state machine (utils/state/state.go)

    Per monitoring tick the cluster collects error and warning states in
    [CurState]; [ClearState] ends the tick and makes them the [OldState] every
    decision is taken on. The service-level counters ([Sla]) advance with the
    clock. The mutex makes every operation atomic, so an operation is one
    function on the whole machine. *)

From Stdlib Require Import ZArith Lia Bool Permutation Sorted Ascii String.
From stdpp Require Import base list gmap strings.
From S2P Require Import Prelude GoLib.

Local Open Scope string_scope.
Local Open Scope list_scope.
Local Open Scope Z_scope.

(** ** Data *)

Record State := mkState {
  ErrKey : string; ErrType : string; ErrDesc : string; ErrFrom : string;
  ServerUrl : string
}.

Definition set_ErrKey (k : string) (s : State) : State :=
  mkState k (ErrType s) (ErrDesc s) (ErrFrom s) (ServerUrl s).

Record StateHttp := mkStateHttp {
  http_ErrNumber : string; http_ErrDesc : string; http_ErrFrom : string
}.

Record CapturedState := mkCaptured {
  cap_ErrKey : string; cap_ErrType : string; cap_ErrDesc : string;
  cap_ErrFrom : string; ServerURLs : list string
}.

#[export] Instance State_eq_dec : EqDecision State.
Proof. solve_decision. Defined.
#[export] Instance StateHttp_eq_dec : EqDecision StateHttp.
Proof. solve_decision. Defined.

Definition captured_Contains (cs : CapturedState) (url : string) : bool :=
  existsb (String.eqb url) (ServerURLs cs).

Definition captured_Parse (s : State) : CapturedState :=
  mkCaptured (ErrKey s) (ErrType s) (ErrDesc s) (ErrFrom s) [].

Record Sla := mkSla {
  Firsttime : Z; Lasttime : Z; Uptime : Z; UptimeFailable : Z; UptimeSemisync : Z
}.

Definition Sla_Init (now : Z) : Sla := mkSla now now 0 0 0.

Record StateMachine := mkSM {
  CurState : gmap string State;
  OldState : gmap string State;
  Captured : gmap string CapturedState;
  Discovered : bool;
  sla : Sla;
  lastState : Z;
  heartbeats : Z;
  InFailover : bool;
  InSchemaMonitor : bool;
  SchemaMonitorStartTime : Z;
  SchemaMonitorEndTime : Z
}.

Definition eta_SM (SM : StateMachine) : StateMachine :=
  mkSM (CurState SM) (OldState SM) (Captured SM) (Discovered SM) (sla SM)
       (lastState SM) (heartbeats SM) (InFailover SM) (InSchemaMonitor SM)
       (SchemaMonitorStartTime SM) (SchemaMonitorEndTime SM).

Definition set_CurState (v : gmap string State) (SM : StateMachine) : StateMachine :=
  ltac:(assign_field eta_SM CurState v SM).
Definition set_OldState (v : gmap string State) (SM : StateMachine) : StateMachine :=
  ltac:(assign_field eta_SM OldState v SM).
Definition set_Captured (v : gmap string CapturedState) (SM : StateMachine) : StateMachine :=
  ltac:(assign_field eta_SM Captured v SM).
Definition set_Discovered (v : bool) (SM : StateMachine) : StateMachine :=
  ltac:(assign_field eta_SM Discovered v SM).
Definition set_sla (v : Sla) (SM : StateMachine) : StateMachine :=
  ltac:(assign_field eta_SM sla v SM).
Definition set_heartbeats (v : Z) (SM : StateMachine) : StateMachine :=
  ltac:(assign_field eta_SM heartbeats v SM).
Definition set_InFailover (v : bool) (SM : StateMachine) : StateMachine :=
  ltac:(assign_field eta_SM InFailover v SM).
Definition set_InSchemaMonitor (v : bool) (SM : StateMachine) : StateMachine :=
  ltac:(assign_field eta_SM InSchemaMonitor v SM).
Definition set_SchemaMonitorStartTime (v : Z) (SM : StateMachine) : StateMachine :=
  ltac:(assign_field eta_SM SchemaMonitorStartTime v SM).
Definition set_SchemaMonitorEndTime (v : Z) (SM : StateMachine) : StateMachine :=
  ltac:(assign_field eta_SM SchemaMonitorEndTime v SM).

(** ** State maps *)

Definition Map_Add (key : string) (s : State) (m : gmap string State) : gmap string State :=
  match m !! key with Some _ => m | None => <[key := s]> m end.
Definition Map_Delete (key : string) (m : gmap string State) : gmap string State :=
  delete key m.
Definition Map_Search (key : string) (m : gmap string State) : bool :=
  match m !! key with Some _ => true | None => false end.

(** ** Operations *)

(** [Init] on a machine: the failover and schema flags are left as they are. *)
Definition SM_Init (now : Z) (SM : StateMachine) : StateMachine :=
  mkSM ∅ ∅ ∅ false (Sla_Init now) 0 0 (InFailover SM) (InSchemaMonitor SM)
       (SchemaMonitorStartTime SM) (SchemaMonitorEndTime SM).

Definition SetMonitorSchemaState (now : Z) (SM : StateMachine) : StateMachine :=
  set_InSchemaMonitor true (set_SchemaMonitorStartTime now SM).
Definition RemoveMonitorSchemaState (now : Z) (SM : StateMachine) : StateMachine :=
  set_SchemaMonitorEndTime now (set_InSchemaMonitor false SM).
Definition SetFailoverState (SM : StateMachine) : StateMachine := set_InFailover true SM.
Definition RemoveFailoverState (SM : StateMachine) : StateMachine := set_InFailover false SM.
Definition IsInFailover (SM : StateMachine) : bool := InFailover SM.
Definition IsInSchemaMonitor (SM : StateMachine) : bool := InSchemaMonitor SM.
Definition GetHeartbeats (SM : StateMachine) : Z := heartbeats SM.
Definition ResetUptime (now : Z) (SM : StateMachine) : StateMachine :=
  set_sla (Sla_Init now) SM.
Definition UnDiscovered (SM : StateMachine) : StateMachine := set_Discovered false SM.
Definition IsDiscovered (SM : StateMachine) : bool := Discovered SM.

(** The key a state is filed under: a server state carries its server. *)
Definition state_key (key : string) (s : State) : string :=
  if negb (ServerUrl s =? "")%string && negb (strings_Contains key "@")
  then key +:+ "@" +:+ ServerUrl s else key.

Definition AddState (key : string) (s : State) (SM : StateMachine) : StateMachine :=
  let s := set_ErrKey key s in
  let key := state_key key s in
  let SM := set_CurState (Map_Add key s (CurState SM)) SM in
  if heartbeats SM =? 0 then set_OldState (Map_Add key s (OldState SM)) SM else SM.

Definition IsInState (key : string) (SM : StateMachine) : bool :=
  if negb (Map_Search key (OldState SM)) then false else true.

(** The answer does not depend on the order of the range: some old key is listed. *)
Definition IsInStateList `{GoRange} (keys : list string) (SM : StateMachine) : bool :=
  existsb (fun e => existsb (String.eqb (fst e)) keys) (go_range (OldState SM)).

Definition DeleteState (key : string) (SM : StateMachine) : StateMachine :=
  set_CurState (Map_Delete key (CurState SM)) SM.

Definition is_error (s : State) : bool := (ErrType s =? "ERROR")%string.

Definition no_error_in `{GoRange} (m : gmap string State) : bool :=
  forallb (fun e => negb (is_error (snd e))) (go_range m).

Definition IsFailable `{GoRange} (SM : StateMachine) : bool * StateMachine :=
  if no_error_in (OldState SM) then (true, set_Discovered true SM) else (false, SM).

Definition CanMonitor `{GoRange} (SM : StateMachine) : bool * StateMachine :=
  if no_error_in (CurState SM) then (true, set_Discovered true SM) else (false, SM).

Definition SetMasterUpAndSync (now : Z) (IsValidMaster IsSemiSynced IsNotDelay : bool)
    (SM : StateMachine) : StateMachine :=
  let l := sla SM in
  let gap := i64 (now - Lasttime l) in
  let semi := if IsSemiSynced then i64 (UptimeSemisync l + gap) else UptimeSemisync l in
  let fail := if IsNotDelay then i64 (UptimeFailable l + gap) else UptimeFailable l in
  let up := if IsValidMaster then i64 (Uptime l + gap) else Uptime l in
  set_heartbeats (i64 (heartbeats SM + 1))
    (set_sla (mkSla (Firsttime l) now up fail semi) SM).

Definition SetMasterUpAndSyncRestart (now : Z) (SM : StateMachine) : StateMachine :=
  let l := sla SM in
  let gap := i64 (now - Lasttime l) in
  set_sla (mkSla (Firsttime l) now (i64 (Uptime l + gap))
             (i64 (UptimeFailable l + gap)) (i64 (UptimeSemisync l + gap))) SM.

Definition ClearState (SM : StateMachine) : StateMachine :=
  set_CurState ∅ (set_OldState (CurState SM) SM).

(** ** Reports *)

Definition GetLastResolvedStates `{GoRange} (SM : StateMachine) : gmap string State :=
  fold_left (fun r e => if negb (Map_Search (fst e) (CurState SM))
                        then <[fst e := snd e]> r else r) (go_range (OldState SM)) ∅.

Definition GetLastOpenedStates `{GoRange} (SM : StateMachine) : gmap string State :=
  fold_left (fun r e => if negb (Map_Search (fst e) (OldState SM))
                        then <[fst e := snd e]> r else r) (go_range (CurState SM)) ∅.

Definition log_line (what : string) (e : string * State) : string :=
  what +:+ " " +:+ fst e +:+ " : " +:+ ErrDesc (snd e).

Definition GetFirstStates `{GoRange} (SM : StateMachine) : list string :=
  map (log_line "OPENED") (go_range (GetLastOpenedStates SM)).

Definition GetStates `{GoRange} (SM : StateMachine) : list string :=
  map (log_line "RESOLV") (go_range (GetLastResolvedStates SM)) ++
  map (log_line "OPENED") (go_range (GetLastOpenedStates SM)).

Definition GetResolvedStates `{GoRange} (SM : StateMachine) : list State :=
  map snd (List.filter (fun e => negb (Map_Search (fst e) (CurState SM)))
             (go_range (OldState SM))).

Definition GetOpenStates `{GoRange} (SM : StateMachine) : list State :=
  map snd (go_range (CurState SM)).

Definition to_http (e : string * State) : StateHttp :=
  mkStateHttp (fst e) (ErrDesc (snd e)) (ErrFrom (snd e)).

Definition less_number (a b : StateHttp) : bool :=
  String.ltb (http_ErrNumber a) (http_ErrNumber b).

(** [sort.SliceStable] by error number. *)
Definition GetOpenErrors `{GoRange} (SM : StateMachine) : list StateHttp :=
  insertion_sort less_number
    (map to_http (List.filter (fun e => is_error (snd e)) (go_range (OldState SM)))).

Definition GetOpenWarnings `{GoRange} (SM : StateMachine) : list StateHttp :=
  insertion_sort less_number
    (map to_http (List.filter (fun e => negb (is_error (snd e))) (go_range (OldState SM)))).

(** Both loops below range over [OldState] and call [AddState], which before
    the first heartbeat may add to the map they range over; an entry added
    that way is one the loop has just handled, so visiting it changes nothing. *)
Definition CopyOldStateFromUnknowServer `{GoRange} (Url : string) (SM : StateMachine)
  : StateMachine :=
  fold_left (fun SM e => if (ServerUrl (snd e) =? Url)%string
                         then AddState (fst e) (snd e) SM else SM)
    (go_range (OldState SM)) SM.

Definition PreserveState `{GoRange} (keys : list string) (SM : StateMachine)
  : StateMachine :=
  fold_left (fun SM e =>
      fold_left (fun SM k => if strings_HasPrefix (fst e) k
                             then AddState (ErrKey (snd e)) (snd e) SM else SM) keys SM)
    (go_range (OldState SM)) SM.

Definition AddToCapturedState (key : string) (cstate : CapturedState) (SM : StateMachine)
  : StateMachine :=
  match Captured SM !! key with
  | Some _ => SM
  | None => set_Captured (<[key := cstate]> (Captured SM)) SM
  end.
Definition DeleteCapturedState (key : string) (SM : StateMachine) : StateMachine :=
  set_Captured (delete key (Captured SM)) SM.
Definition SearchCapturedState (key : string) (SM : StateMachine) : bool :=
  match Captured SM !! key with Some _ => true | None => false end.
Definition GetCapturedState (key : string) (SM : StateMachine) : option CapturedState :=
  Captured SM !! key.

(** ** Lemmas on the maps *)

Lemma lookup_Map_Add k k' s m :
  Map_Add k s m !! k' = (if decide (k = k' /\ m !! k = None) then Some s else m !! k').
Proof.
  unfold Map_Add. destruct (m !! k) eqn:E.
  - rewrite decide_False; [done|]. intros [_ ?]. congruence.
  - destruct (decide (k = k')) as [->|Hne].
    + rewrite lookup_insert_eq. by rewrite decide_True.
    + rewrite lookup_insert_ne by done. rewrite decide_False; [done|]. by intros [? _].
Qed.

Lemma Map_Search_spec k m : Map_Search k m = true <-> is_Some (m !! k).
Proof. unfold Map_Search. destruct (m !! k); naive_solver. Qed.

Lemma Map_Search_false k m : Map_Search k m = false <-> m !! k = None.
Proof. unfold Map_Search. destruct (m !! k); naive_solver. Qed.

(** Collecting the entries of a range that pass a test on their key. *)
Lemma fold_insert_filter (p : string -> bool) (l : list (string * State))
    (acc : gmap string State) k :
  NoDup (map fst l) ->
  (forall e, e ∈ l -> acc !! fst e = None) ->
  fold_left (fun r e => if p (fst e) then <[fst e := snd e]> r else r) l acc !! k =
  match acc !! k with
  | Some v => Some v
  | None => if p k then (snd ∘ snd) <$> list_find (fun e => fst e = k) l else None
  end.
Proof.
  revert acc. induction l as [|[k0 v0] l IH]; intros acc Hnd Hacc; simpl.
  { destruct (acc !! k); [done|]. by destruct (p k). }
  apply NoDup_cons in Hnd as [Hk0 Hnd].
  pose proof (Hacc (k0, v0) ltac:(by left)) as Ha0. simpl in Ha0.
  rewrite IH; [|done|].
  - destruct (decide (k0 = k)) as [->|Hne].
    + destruct (p k) eqn:Hp.
      * by rewrite lookup_insert_eq, Ha0.
      * by rewrite Ha0.
    + assert (E : (if p k0 then <[k0 := v0]> acc else acc) !! k = acc !! k)
        by (destruct (p k0); [by rewrite lookup_insert_ne|done]).
      rewrite E. destruct (acc !! k); [done|]. destruct (p k); [|done].
      by destruct (list_find _ l) as [[? ?]|].
  - intros e He. destruct (p k0); [|apply Hacc; by right].
    rewrite lookup_insert_ne; [apply Hacc; by right|].
    intros ->. apply Hk0. apply list_elem_of_fmap. by exists e.
Qed.

Section Reports.
Context `{GoRange}.

Lemma go_range_NoDup {V} (m : gmap string V) : NoDup (map fst (go_range m)).
Proof. rewrite go_range_perm. apply NoDup_fst_map_to_list. Qed.

(** Ranging over [m] and keeping the keys that pass [p]. *)
Lemma range_filter_lookup (p : string -> bool) (m : gmap string State) k :
  fold_left (fun (r : gmap string State) e =>
      if p (fst e) then <[fst e := snd e]> r else r)
    (go_range m) ∅ !! k = if p k then m !! k else None.
Proof.
  rewrite fold_insert_filter; [|apply go_range_NoDup|by intros; apply lookup_empty].
  rewrite lookup_empty. destruct (p k); [|done].
  destruct (list_find _ _) as [[i [k' v]]|] eqn:E; simpl.
  - apply list_find_Some in E as (Hi & Hk & _). simpl in Hk. subst k'.
    apply list_elem_of_lookup_2 in Hi. by apply elem_of_go_range in Hi.
  - apply list_find_None in E. rewrite Forall_forall in E.
    destruct (m !! k) as [v|] eqn:Hm; [|done].
    apply elem_of_go_range in Hm. by destruct (E _ Hm).
Qed.

Lemma lookup_resolved SM k :
  GetLastResolvedStates SM !! k =
  match CurState SM !! k with Some _ => None | None => OldState SM !! k end.
Proof.
  unfold GetLastResolvedStates.
  rewrite (range_filter_lookup (fun k => negb (Map_Search k (CurState SM)))).
  unfold Map_Search. by destruct (CurState SM !! k).
Qed.

Lemma lookup_opened SM k :
  GetLastOpenedStates SM !! k =
  match OldState SM !! k with Some _ => None | None => CurState SM !! k end.
Proof.
  unfold GetLastOpenedStates.
  rewrite (range_filter_lookup (fun k => negb (Map_Search k (OldState SM)))).
  unfold Map_Search. by destruct (OldState SM !! k).
Qed.

Lemma no_error_in_spec m :
  no_error_in m = true <-> forall k s, m !! k = Some s -> ErrType s <> "ERROR".
Proof.
  unfold no_error_in. rewrite forallb_forall. split.
  - intros Hall k s Hm. apply elem_of_go_range, list_elem_of_In in Hm.
    apply Hall in Hm. simpl in Hm. unfold is_error in Hm. by bool_prop.
  - intros Hm [k s] Hin. apply list_elem_of_In, elem_of_go_range in Hin.
    apply negb_true_iff, String.eqb_neq. by eapply Hm.
Qed.
End Reports.

(** ** One monitoring tick *)

(** The states a tick collects, in order. *)
Definition collect (adds : list (string * State)) (SM : StateMachine) : StateMachine :=
  fold_left (fun SM a => AddState (fst a) (snd a) SM) adds SM.

Definition filed (a : string * State) : string :=
  state_key (fst a) (set_ErrKey (fst a) (snd a)).

Section Tick.
Lemma AddState_heartbeats key s SM : heartbeats (AddState key s SM) = heartbeats SM.
Proof. unfold AddState. simpl. by destruct (heartbeats SM =? 0). Qed.

Lemma AddState_CurState key s SM :
  CurState (AddState key s SM) = Map_Add (filed (key, s)) (set_ErrKey key s) (CurState SM).
Proof. unfold AddState. simpl. by destruct (heartbeats SM =? 0). Qed.

Lemma AddState_OldState key s SM :
  heartbeats SM <> 0 -> OldState (AddState key s SM) = OldState SM.
Proof. intros Hh. unfold AddState. simpl. by destruct (Z.eqb_spec (heartbeats SM) 0). Qed.

Lemma collect_OldState adds SM :
  heartbeats SM <> 0 -> OldState (collect adds SM) = OldState SM.
Proof.
  revert SM. induction adds as [|[k s] adds IH]; intros SM Hh; [done|].
  change (collect ((k, s) :: adds) SM) with (collect adds (AddState k s SM)).
  rewrite IH by by rewrite AddState_heartbeats. by apply AddState_OldState.
Qed.

(** The first state filed under a key is the one that is kept. *)
Lemma collect_CurState adds SM k :
  CurState (collect adds SM) !! k =
  match CurState SM !! k with
  | Some s => Some s
  | None => (fun a => set_ErrKey (fst a) (snd a)) <$>
              List.find (fun a => (filed a =? k)%string) adds
  end.
Proof.
  revert SM. induction adds as [|[k0 s0] adds IH]; intros SM.
  { simpl. by destruct (CurState SM !! k). }
  change (collect ((k0, s0) :: adds) SM) with (collect adds (AddState k0 s0 SM)).
  rewrite IH, AddState_CurState, lookup_Map_Add. cbn [List.find].
  destruct (String.eqb_spec (filed (k0, s0)) k) as [->|Hne].
  - destruct (CurState SM !! k) eqn:E.
    + by rewrite decide_False by by intros [_ ?].
    + by rewrite decide_True.
  - by rewrite decide_False by by intros [? _].
Qed.
End Tick.

Lemma less_number_strict : StrictWeak less_number.
Proof. apply (strict_weak_on http_ErrNumber), ltb_strict. Qed.

(** ** Runs of the machine *)

(** Every operation of the machine that changes it; the clock never goes back. *)
Inductive sm_step : StateMachine -> StateMachine -> Prop :=
| step_add key s SM : sm_step SM (AddState key s SM)
| step_delete key SM : sm_step SM (DeleteState key SM)
| step_clear SM : sm_step SM (ClearState SM)
| step_copy (R : GoRange) url SM : sm_step SM (CopyOldStateFromUnknowServer url SM)
| step_preserve (R : GoRange) keys SM : sm_step SM (PreserveState keys SM)
| step_failable (R : GoRange) SM : sm_step SM (snd (IsFailable SM))
| step_monitor (R : GoRange) SM : sm_step SM (snd (CanMonitor SM))
| step_undiscover SM : sm_step SM (UnDiscovered SM)
| step_failover SM : sm_step SM (SetFailoverState SM)
| step_unfailover SM : sm_step SM (RemoveFailoverState SM)
| step_schema now SM : sm_step SM (SetMonitorSchemaState now SM)
| step_unschema now SM : sm_step SM (RemoveMonitorSchemaState now SM)
| step_capture key c SM : sm_step SM (AddToCapturedState key c SM)
| step_uncapture key SM : sm_step SM (DeleteCapturedState key SM)
| step_up now v s d SM :
    Lasttime (sla SM) <= now < two63 -> sm_step SM (SetMasterUpAndSync now v s d SM)
| step_restart now SM :
    Lasttime (sla SM) <= now < two63 -> sm_step SM (SetMasterUpAndSyncRestart now SM)
| step_reset now SM :
    Lasttime (sla SM) <= now < two63 -> sm_step SM (ResetUptime now SM).

Inductive sm_reachable (SM0 : StateMachine) : StateMachine -> Prop :=
| reach_init : sm_reachable SM0 SM0
| reach_step SM SM' : sm_reachable SM0 SM -> sm_step SM SM' -> sm_reachable SM0 SM'.

(** No counter exceeds the time that was monitored. *)
Definition sla_ok (l : Sla) : Prop :=
  0 <= Firsttime l <= Lasttime l /\ Lasttime l < two63 /\
  0 <= Uptime l <= Lasttime l - Firsttime l /\
  0 <= UptimeFailable l <= Lasttime l - Firsttime l /\
  0 <= UptimeSemisync l <= Lasttime l - Firsttime l.

Section SlaInvariant.
Lemma AddState_sla key s SM : sla (AddState key s SM) = sla SM.
Proof. unfold AddState. simpl. by destruct (heartbeats SM =? 0). Qed.

Lemma fold_sla {A} (f : StateMachine -> A -> StateMachine) l SM :
  (forall SM a, sla (f SM a) = sla SM) -> sla (fold_left f l SM) = sla SM.
Proof.
  intros Hf. revert SM. induction l as [|a l IH]; intros SM; simpl; [done|].
  by rewrite IH, Hf.
Qed.

Lemma SetMasterUpAndSync_sla_ok now v s d SM :
  sla_ok (sla SM) -> Lasttime (sla SM) <= now < two63 ->
  sla_ok (sla (SetMasterUpAndSync now v s d SM)).
Proof.
  unfold sla_ok, SetMasterUpAndSync. simpl. intros (Hf & Hl & Hu & Hua & Hs) Hnow.
  assert (Hi : forall z, 0 <= z < two63 -> i64 z = z)
    by (intros z Hz; apply i64_small; unfold is_i64; lia).
  rewrite (Hi (now - Lasttime (sla SM))) by lia.
  split_and!; try lia; repeat case_match_goal; rewrite ?Hi; lia.
Qed.

Lemma Restart_sla_ok now SM :
  sla_ok (sla SM) -> Lasttime (sla SM) <= now < two63 ->
  sla_ok (sla (SetMasterUpAndSyncRestart now SM)).
Proof.
  intros Hok Hnow.
  exact (SetMasterUpAndSync_sla_ok now true true true SM Hok Hnow).
Qed.

Lemma sm_step_sla_ok SM SM' : sm_step SM SM' -> sla_ok (sla SM) -> sla_ok (sla SM').
Proof.
  destruct 1; simpl; auto.
  - by rewrite AddState_sla.
  - unfold CopyOldStateFromUnknowServer. rewrite fold_sla; [done|].
    intros SM' a. case_match_goal; [apply AddState_sla|done].
  - unfold PreserveState. rewrite fold_sla; [done|].
    intros SM' a. apply fold_sla. intros SM'' k.
    case_match_goal; [apply AddState_sla|done].
  - unfold IsFailable. by case_match_goal.
  - unfold CanMonitor. by case_match_goal.
  - unfold AddToCapturedState. by case_match_goal.
  - intros. by apply SetMasterUpAndSync_sla_ok.
  - intros. by apply Restart_sla_ok.
  - unfold sla_ok, Sla_Init. simpl. lia.
Qed.
End SlaInvariant.

(** ** Properties *)

(** The transitions reported between two ticks are exact: removing the
    states reported as resolved from the old ones and adding those reported as
    opened gives exactly the current states; nothing resolved is still current
    and nothing opened was already there. *)
Theorem reports_replay_tick `{GoRange} (SM : StateMachine) :
  dom (CurState SM) =
    (dom (OldState SM) ∖ dom (GetLastResolvedStates SM)) ∪ dom (GetLastOpenedStates SM) /\
  dom (GetLastResolvedStates SM) ## dom (CurState SM) /\
  dom (GetLastOpenedStates SM) ## dom (OldState SM) /\
  GetLastOpenedStates SM ⊆ CurState SM /\ GetLastResolvedStates SM ⊆ OldState SM.
Proof.
  split_and!.
  - apply set_eq. intros k. rewrite elem_of_union, elem_of_difference, !elem_of_dom.
    rewrite lookup_resolved, lookup_opened.
    unfold is_Some. destruct (CurState SM !! k), (OldState SM !! k); naive_solver.
  - intros k. rewrite !elem_of_dom, lookup_resolved.
    destruct (CurState SM !! k); naive_solver.
  - intros k. rewrite !elem_of_dom, lookup_opened.
    destruct (OldState SM !! k); naive_solver.
  - apply map_subseteq_spec. intros k s. rewrite lookup_opened.
    destruct (OldState SM !! k); naive_solver.
  - apply map_subseteq_spec. intros k s. rewrite lookup_resolved.
    destruct (CurState SM !! k); naive_solver.
Qed.

(** After the first heartbeat, a tick's decisions rest on the previous
    tick: while the states [adds] are being collected [IsInState] does not
    change, and once the tick is closed a key is in state exactly when one of
    [adds] was filed under it (under its server's key for a server state), the
    first one filed being the one kept. *)
Theorem tick_decides_on_closed_states (SM : StateMachine) (adds : list (string * State))
    (k : string) :
  heartbeats SM <> 0 -> CurState SM = ∅ ->
  IsInState k (collect adds SM) = IsInState k SM /\
  OldState (ClearState (collect adds SM)) !! k =
    (fun a => set_ErrKey (fst a) (snd a)) <$>
      List.find (fun a => (filed a =? k)%string) adds /\
  (IsInState k (ClearState (collect adds SM)) = true <->
   exists a, a ∈ adds /\ filed a = k).
Proof.
  intros Hh Hcur.
  assert (Hold : OldState (ClearState (collect adds SM)) !! k =
    (fun a => set_ErrKey (fst a) (snd a)) <$>
      List.find (fun a => (filed a =? k)%string) adds).
  { simpl. rewrite collect_CurState, Hcur, lookup_empty. done. }
  split_and!; [|done|].
  - unfold IsInState. by rewrite collect_OldState.
  - unfold IsInState, Map_Search. rewrite Hold. split.
    + destruct (List.find _ adds) as [a|] eqn:E; [|done]. intros _.
      apply List.find_some in E as [Hin Hk]. apply String.eqb_eq in Hk.
      exists a. split; [by apply list_elem_of_In|done].
    + intros (a & Hin & Hk). destruct (List.find _ adds) as [b|] eqn:E; [done|].
      apply list_elem_of_In in Hin. apply (List.find_none _ _ E) in Hin.
      apply String.eqb_neq in Hin. done.
Qed.

Definition demo_sm : StateMachine :=
  mkSM ∅ ∅ ∅ false (Sla_Init 100) 0 5 false false 0 0.
Definition demo_state : State := mkState "" "WARNING" "lagging" "CHECK" "db1:3306".

Lemma tick_decides_on_closed_states_witness :
  IsInState "ERR00041@db1:3306" (collect [("ERR00041", demo_state)] demo_sm) =
    IsInState "ERR00041@db1:3306" demo_sm /\
  OldState (ClearState (collect [("ERR00041", demo_state)] demo_sm)) !! "ERR00041@db1:3306" =
    (fun a => set_ErrKey (fst a) (snd a)) <$>
      List.find (fun a => (filed a =? "ERR00041@db1:3306")%string)
        [("ERR00041", demo_state)] /\
  (IsInState "ERR00041@db1:3306"
     (ClearState (collect [("ERR00041", demo_state)] demo_sm)) = true <->
   exists a, a ∈ [("ERR00041", demo_state)] /\ filed a = "ERR00041@db1:3306").
Proof.
  apply (tick_decides_on_closed_states demo_sm [("ERR00041", demo_state)]
           "ERR00041@db1:3306").
  - discriminate.
  - reflexivity.
Defined.

(** In every run of the machine with a clock that does not go back, the
    three service-level counters stay between 0 and the monitored time: an
    availability figure never exceeds 100%, and no counter overflows. *)
Theorem sla_invariant (SM0 SM : StateMachine) :
  sla_ok (sla SM0) -> sm_reachable SM0 SM -> sla_ok (sla SM).
Proof.
  intros H0. induction 1 as [|SM SM' _ IH Hstep]; [done|].
  by eapply sm_step_sla_ok.
Qed.

Lemma sla_invariant_witness :
  sla_ok (sla (SetMasterUpAndSync 160 true false true
                 (SetMasterUpAndSync 130 true true true demo_sm))).
Proof.
  apply (sla_invariant demo_sm).
  - unfold sla_ok, two63. simpl. lia.
  - apply (reach_step demo_sm (SetMasterUpAndSync 130 true true true demo_sm)).
    + apply (reach_step demo_sm demo_sm); [apply reach_init|].
      apply step_up. unfold two63. simpl. lia.
    + apply step_up. unfold two63. simpl. lia.
Defined.

(** [IsFailable] answers true, and marks the cluster discovered, exactly
    when no state of the closed tick has type ERROR; [CanMonitor] does the same
    on the states of the current tick. *)
Theorem failable_iff_no_error `{GoRange} (SM : StateMachine) :
  (fst (IsFailable SM) = true <->
     forall k s, OldState SM !! k = Some s -> ErrType s <> "ERROR") /\
  Discovered (snd (IsFailable SM)) = Discovered SM || fst (IsFailable SM) /\
  (fst (CanMonitor SM) = true <->
     forall k s, CurState SM !! k = Some s -> ErrType s <> "ERROR") /\
  Discovered (snd (CanMonitor SM)) = Discovered SM || fst (CanMonitor SM).
Proof.
  rewrite <- !no_error_in_spec. unfold IsFailable, CanMonitor.
  destruct (no_error_in (OldState SM)), (no_error_in (CurState SM)); simpl;
    rewrite ?orb_true_r, ?orb_false_r; done.
Qed.

(** The keys of the reported entries are pairwise distinct. *)
Lemma open_report_unique (R : GoRange) (p : string * State -> bool) (m : gmap string State)
    a b :
  a ∈ map to_http (List.filter p (go_range m)) ->
  b ∈ map to_http (List.filter p (go_range m)) ->
  http_ErrNumber a = http_ErrNumber b -> a = b.
Proof.
  intros Ha Hb Hk.
  apply list_elem_of_In, in_map_iff in Ha as ([k1 s1] & <- & H1).
  apply list_elem_of_In, in_map_iff in Hb as ([k2 s2] & <- & H2).
  apply List.filter_In in H1 as [H1 _], H2 as [H2 _].
  apply list_elem_of_In, elem_of_go_range in H1, H2. simpl in Hk. subst k2.
  congruence.
Qed.

Lemma open_report_deterministic (R1 R2 : GoRange) (p : string * State -> bool) m :
  insertion_sort less_number (map to_http (List.filter p (@go_range R1 _ m))) =
  insertion_sort less_number (map to_http (List.filter p (@go_range R2 _ m))).
Proof.
  apply (sorted_perm_unique less_number); try apply less_number_strict.
  - intros a b. rewrite !insertion_sort_perm. unfold less_number. intros Ha Hb Hab Hba.
    apply (open_report_unique R1 p m); [done|done|]. by apply ltb_total.
  - apply insertion_sort_sorted, less_number_strict.
  - apply insertion_sort_sorted, less_number_strict.
  - rewrite !insertion_sort_perm. apply Permutation_map, filter_perm.
    by rewrite !go_range_perm.
Qed.

(** The open errors and the open warnings partition the states of the
    closed tick, each list is ordered by error number, and the reports do not
    depend on the order in which Go ranges over the map. *)
Theorem open_reports_deterministic (R1 R2 : GoRange) (SM : StateMachine) :
  @GetOpenErrors R1 SM = @GetOpenErrors R2 SM /\
  @GetOpenWarnings R1 SM = @GetOpenWarnings R2 SM /\
  Permutation (@GetOpenErrors R1 SM ++ @GetOpenWarnings R1 SM)
    (map to_http (map_to_list (OldState SM))) /\
  StronglySorted (fun a b => less_number b a = false) (@GetOpenErrors R1 SM) /\
  StronglySorted (fun a b => less_number b a = false) (@GetOpenWarnings R1 SM).
Proof.
  split_and!.
  - apply open_report_deterministic.
  - apply open_report_deterministic.
  - unfold GetOpenErrors, GetOpenWarnings. rewrite !insertion_sort_perm, <- map_app.
    apply Permutation_map. rewrite <- (@go_range_perm R1).
    induction (@go_range R1 _ (OldState SM)) as [|e l IH]; simpl; [done|].
    destruct (is_error (snd e)); simpl; [by constructor|].
    rewrite <- Permutation_middle. by constructor.
  - apply insertion_sort_sorted, less_number_strict.
  - apply insertion_sort_sorted, less_number_strict.
Qed.

(** When a server cannot be observed in a tick, every state that was open
    for it is carried over: after [CopyOldStateFromUnknowServer] each old state
    of that server is current again (the key of a server state holds its
    server, see [state_key]), and states already collected are not replaced. *)
Theorem unknown_server_states_kept `{GoRange} (url key : string) (s : State)
    (SM : StateMachine) :
  heartbeats SM <> 0 -> OldState SM !! key = Some s -> ServerUrl s = url ->
  is_Some (CurState (CopyOldStateFromUnknowServer url SM) !! filed (key, s)) /\
  CurState SM ⊆ CurState (CopyOldStateFromUnknowServer url SM).
Proof.
  intros Hh Hold Hurl.
  assert (Hcopy : CopyOldStateFromUnknowServer url SM =
    collect (List.filter (fun e => (ServerUrl (snd e) =? url)%string)
               (go_range (OldState SM))) SM).
  { unfold CopyOldStateFromUnknowServer. generalize (go_range (OldState SM)).
    clear. intros l. revert SM. induction l as [|e l IH]; intros SM; simpl; [done|].
    rewrite IH. by destruct (ServerUrl (snd e) =? url)%string. }
  rewrite Hcopy. split.
  - rewrite collect_CurState. destruct (CurState SM !! _); [by eexists|].
    apply elem_of_go_range, list_elem_of_In in Hold.
    destruct (List.find _ _) as [a|] eqn:E; [by eexists|]. exfalso.
    eapply List.find_none in E.
    + apply (String.eqb_neq _ _) in E. by apply E.
    + apply List.filter_In. split; [exact Hold|]. simpl. by apply String.eqb_eq.
  - apply map_subseteq_spec. intros k v Hv. by rewrite collect_CurState, Hv.
Qed.

Definition demo_sm_old : StateMachine :=
  mkSM ∅ {["ERR00041@db1:3306" := demo_state]} ∅ false (Sla_Init 100) 0 5 false false 0 0.

Lemma unknown_server_states_kept_witness :
  is_Some (CurState (CopyOldStateFromUnknowServer "db1:3306" demo_sm_old) !!
             filed ("ERR00041@db1:3306", demo_state)) /\
  CurState demo_sm_old ⊆ CurState (CopyOldStateFromUnknowServer "db1:3306" demo_sm_old).
Proof.
  apply (unknown_server_states_kept "db1:3306" "ERR00041@db1:3306" demo_state demo_sm_old).
  - discriminate.
  - reflexivity.
  - reflexivity.
Defined.
