(* ===== verification/Crash.v ===== *)
(** * Crash reports (cluster/crash.go)

    What a failover leaves behind: the list of open crashes, the bounded
    failover history, and the report files [failover.*.json] of the working
    directory with their purge. *)

From Stdlib Require Import ZArith Lia Bool Permutation Ascii String.
From stdpp Require Import base list gmap strings.
From S2P Require Import Prelude GoLib Gtid.

Local Open Scope string_scope.
Local Open Scope list_scope.
Local Open Scope Z_scope.

(** ** Data *)

Record Crash := mkCrash {
  crash_URL : string;
  crash_FailoverMasterLogFile : string;
  crash_FailoverMasterLogPos : string;
  crash_NewMasterLogFile : string;
  crash_NewMasterLogPos : string;
  crash_FailoverSemiSyncSlaveStatus : bool;
  crash_FailoverIOGtid : option (list Gtid);
  crash_ElectedMasterURL : string;
  crash_UnixTimestamp : Z;
  crash_Switchover : bool
}.

Definition crashList : Type := list Crash.

(** ** Operations on the list *)

Definition crashList_Purge (keep : Z) (clist : crashList) : crashList :=
  if keep <=? 0 then []
  else if keep <? Z.of_nat (length clist)
       then drop (length clist - Z.to_nat keep) clist
       else clist.

Definition StoreLastN (cr : Crash) (keep : Z) (clist : crashList) : crashList :=
  crashList_Purge keep (clist ++ [cr]).

Definition GetLatest (clist : crashList) : option Crash :=
  let size := length clist in
  if Z.of_nat size <? 1 then None else clist !! (size - 1)%nat.

Fixpoint getCrashFromJoiner (URL : string) (crashes : crashList) : option Crash :=
  match crashes with
  | [] => None
  | cr :: rest => if (crash_URL cr =? URL)%string then Some cr else getCrashFromJoiner URL rest
  end.

Fixpoint getCrashFromMaster (URL : string) (crashes : crashList) : option Crash :=
  match crashes with
  | [] => None
  | cr :: rest =>
      if (crash_ElectedMasterURL cr =? URL)%string then Some cr
      else getCrashFromMaster URL rest
  end.

(** Removal from a slice of the first element that satisfies [p]: the last
    element takes its place and the slice shrinks by one. *)
Fixpoint find_index {A} (p : A -> bool) (l : list A) : option nat :=
  match l with
  | [] => None
  | x :: rest => if p x then Some 0%nat else S <$> find_index p rest
  end.

Definition swap_delete {A} (p : A -> bool) (l : list A) : list A :=
  match find_index p l, last l with
  | Some k, Some z => take (length l - 1) (<[k := z]> l)
  | _, _ => l
  end.

Definition crash_delete (crash : Crash) (cl : crashList) : crashList :=
  swap_delete (fun s => (crash_URL crash =? crash_URL s)%string) cl.

(** ** Purge of the report files

    [files] is what [os.ReadDir] returns: the names of the directory in
    increasing order. The result lists the names handed to [os.Remove], in the
    order the range over [drop] visits them. *)

Fixpoint drop_ranks (i : Z) (files : list string) (m : gmap string Z) : gmap string Z :=
  match files with
  | [] => m
  | f :: rest =>
      if strings_HasPrefix f "failover"
      then drop_ranks (i + 1) rest (<[f := i + 1]> m)
      else drop_ranks i rest m
  end.

Definition crash_Purge `{GoRange} (files : list string) (keep : Z) : list string :=
  let drop_ := drop_ranks 0 files ∅ in
  map fst (List.filter (fun kv => snd kv <? Z.of_nat (size drop_) - keep) (go_range drop_)).

(** ** Lemmas on slices with deletion, shared with the server lists *)

Section SwapDelete.
Context {A : Type} (p : A -> bool).

Lemma find_index_some (l : list A) k :
  find_index p l = Some k -> exists x, l !! k = Some x /\ p x = true.
Proof.
  revert k. induction l as [|y l IH]; intros k; simpl; [done|].
  destruct (p y) eqn:E; [intros [= <-]; eauto|].
  destruct (find_index p l); [|done]. intros [= <-]. exact (IH _ eq_refl).
Qed.

Lemma find_index_none (l : list A) :
  find_index p l = None -> Forall (fun x => p x = false) l.
Proof.
  induction l as [|y l IH]; simpl; [done|].
  destruct (p y) eqn:E; [done|]. destruct (find_index p l); [done|]. auto.
Qed.

Lemma find_index_first (l : list A) k :
  find_index p l = Some k ->
  exists pre x post, l = pre ++ x :: post /\ length pre = k /\ p x = true /\
                     Forall (fun y => p y = false) pre.
Proof.
  revert k. induction l as [|y l IH]; intros k; simpl; [done|].
  destruct (p y) eqn:E.
  - intros [= <-]. exists [], y, l. done.
  - destruct (find_index p l) as [j|]; [|done]. intros [= <-].
    destruct (IH j eq_refl) as (pre & x & post & -> & <- & Hx & Hp).
    exists (y :: pre), x, post. auto.
Qed.

(** Exactly the first match is gone; the others are permuted. *)
Lemma swap_delete_perm (l : list A) k x :
  find_index p l = Some k -> l !! k = Some x -> Permutation l (x :: swap_delete p l).
Proof.
  intros Hk Hx. destruct (find_index_first _ _ Hk) as (pre & x' & post & -> & <- & _ & _).
  rewrite list_lookup_middle in Hx by done. injection Hx as ->.
  unfold swap_delete. rewrite Hk.
  destruct (last (pre ++ x :: post)) as [z|] eqn:El.
  2:{ apply last_None in El. destruct pre; discriminate. }
  rewrite insert_app_r_alt by lia. rewrite Nat.sub_diag. simpl.
  destruct post as [|y post] using rev_ind.
  - rewrite last_snoc in El. injection El as <-.
    rewrite length_app. simpl. rewrite Nat.add_sub, take_app_length.
    symmetry. apply Permutation_cons_append.
  - clear IHpost. rewrite app_comm_cons, app_assoc, last_snoc in El. injection El as <-.
    rename y into z.
    replace (length (pre ++ x :: post ++ [z]) - 1)%nat
      with (length (pre ++ z :: post)) by (rewrite !length_app; simpl; rewrite length_app; simpl; lia).
    change (z :: post ++ [z]) with ((z :: post) ++ [z]).
    rewrite app_assoc, take_app_length.
    rewrite app_comm_cons, app_assoc, <- (Permutation_cons_append _ z).
    rewrite <- !Permutation_middle. apply perm_swap.
Qed.

Lemma swap_delete_none (l : list A) : find_index p l = None -> swap_delete p l = l.
Proof. intros E. unfold swap_delete. by rewrite E. Qed.
End SwapDelete.

Section History.
Lemma Purge_length keep cl :
  0 < keep -> Z.of_nat (length (crashList_Purge keep cl)) = Z.min keep (Z.of_nat (length cl)).
Proof.
  intros Hk. unfold crashList_Purge.
  destruct (keep <=? 0) eqn:E; bool_prop; [lia|].
  destruct (keep <? _) eqn:E2; bool_prop; [rewrite length_drop|]; lia.
Qed.

(** The purge keeps a suffix. *)
Lemma Purge_suffix keep cl : exists old, cl = old ++ crashList_Purge keep cl.
Proof.
  unfold crashList_Purge. destruct (keep <=? 0); [exists cl; by rewrite app_nil_r|].
  destruct (keep <? _); [|by exists []].
  eexists. symmetry. apply take_drop.
Qed.

Lemma GetLatest_last cl : GetLatest cl = last cl.
Proof.
  unfold GetLatest. destruct (Z.of_nat (length cl) <? 1) eqn:E; bool_prop.
  - destruct cl; [done|simpl in *; lia].
  - rewrite last_lookup. f_equal. lia.
Qed.
End History.

Section Files.
Context `{GoRange}.

Definition is_report (f : string) : bool := strings_HasPrefix f "failover".

Lemma drop_ranks_lookup files : forall i m f,
  NoDup files -> (forall g, g ∈ files -> m !! g = None) ->
  drop_ranks i files m !! f =
    match m !! f with
    | Some r => Some r
    | None => (fun k => i + 1 + Z.of_nat k) <$>
                find_index (fun g => (g =? f)%string) (List.filter is_report files)
    end.
Proof.
  induction files as [|g files IH]; intros i m f Hnd Hm; simpl.
  { by destruct (m !! f). }
  apply NoDup_cons in Hnd as [Hg Hnd]. fold (is_report g).
  destruct (is_report g) eqn:Er; simpl.
  - rewrite IH; [|done|].
    2:{ intros h Hh. rewrite lookup_insert_ne by (intros <-; done). apply Hm. by right. }
    destruct (String.eqb_spec g f) as [<-|Hne].
    + rewrite lookup_insert_eq, (Hm g) by by left. simpl. f_equal. lia.
    + rewrite lookup_insert_ne by done. destruct (m !! f); [done|].
      destruct (find_index _ _); simpl; [f_equal; lia|done].
  - rewrite IH; [done|done|]. intros h Hh. apply Hm. by right.
Qed.

Lemma drop_ranks_size files : forall i m,
  NoDup files -> (forall g, g ∈ files -> m !! g = None) ->
  size (drop_ranks i files m) = (size m + length (List.filter is_report files))%nat.
Proof.
  induction files as [|g files IH]; intros i m Hnd Hm; simpl; [lia|].
  apply NoDup_cons in Hnd as [Hg Hnd]. fold (is_report g).
  destruct (is_report g); simpl.
  - rewrite IH; [|done|].
    + rewrite map_size_insert_None by (apply Hm; by left). lia.
    + intros h Hh. rewrite lookup_insert_ne by (intros <-; done). apply Hm. by right.
  - apply IH; [done|]. intros h Hh. apply Hm. by right.
Qed.

Lemma find_index_NoDup (l : list string) f k :
  NoDup l -> find_index (fun g => (g =? f)%string) l = Some k <-> l !! k = Some f.
Proof.
  intros Hnd. split.
  - intros E. apply find_index_some in E as (x & Hx & Ex). bool_prop. by subst.
  - intros E. destruct (find_index _ l) as [j|] eqn:Ef.
    + pose proof Ef as E2. apply find_index_some in E2 as (x & Hx & Ex). bool_prop. subst.
      f_equal. eapply NoDup_lookup; eauto.
    + apply find_index_none in Ef. rewrite Forall_lookup in Ef. apply Ef in E.
      by rewrite String.eqb_refl in E.
Qed.

Lemma NoDup_report files : NoDup files -> NoDup (List.filter is_report files).
Proof.
  intros Hn. induction Hn as [|g l Hg Hn IH]; simpl; [constructor|].
  destruct (is_report g); [|done]. constructor; [|done].
  intros Hin. apply Hg. apply list_elem_of_In in Hin. apply filter_In in Hin as [Hin _].
  by apply list_elem_of_In.
Qed.

Lemma crash_Purge_spec files keep f :
  NoDup files ->
  f ∈ crash_Purge files keep <->
  exists k, List.filter is_report files !! k = Some f /\
            Z.of_nat k + 1 < Z.of_nat (length (List.filter is_report files)) - keep.
Proof.
  intros Hnd. unfold crash_Purge. rewrite list_elem_of_In, in_map_iff.
  rewrite drop_ranks_size by (done || intros; apply lookup_empty).
  rewrite map_size_empty. simpl.
  assert (L : forall r, drop_ranks 0 files ∅ !! f = Some r <->
                exists k, List.filter is_report files !! k = Some f /\ r = 1 + Z.of_nat k).
  { intros r. rewrite drop_ranks_lookup by (done || intros; apply lookup_empty).
    rewrite lookup_empty. rewrite fmap_Some. setoid_rewrite find_index_NoDup; [|by apply NoDup_report].
    split; intros (k & Hk & ->); exists k; split; auto; lia. }
  split.
  - intros ([f' r] & <- & Hin). apply filter_In in Hin as [Hin Hr]. simpl in *.
    apply list_elem_of_In, elem_of_go_range, L in Hin as (k & Hk & ->).
    exists k. split; [done|]. bool_prop. lia.
  - intros (k & Hk & Hlt). exists (f, 1 + Z.of_nat k). split; [done|].
    apply filter_In. split; [|simpl; apply Z.ltb_lt; lia].
    apply list_elem_of_In, elem_of_go_range, L. eauto.
Qed.
End Files.

(** ** Properties *)

(** the failover history is the list of the last [keep] crashes stored: it
    never exceeds [keep] entries, ends with the crash just stored, and is a
    suffix of everything that was recorded. *)
Theorem StoreLastN_bounded (cr : Crash) (keep : Z) (clist : crashList) :
  0 < keep ->
  Z.of_nat (length (StoreLastN cr keep clist)) = Z.min keep (Z.of_nat (length clist) + 1) /\
  GetLatest (StoreLastN cr keep clist) = Some cr /\
  (exists old, clist ++ [cr] = old ++ StoreLastN cr keep clist).
Proof.
  intros Hk. unfold StoreLastN. pose proof (Purge_length keep (clist ++ [cr]) Hk) as Hlen.
  rewrite length_app in Hlen. simpl in Hlen.
  destruct (Purge_suffix keep (clist ++ [cr])) as [old Hold].
  split; [lia|]. split; [|by exists old].
  rewrite GetLatest_last. destruct (crashList_Purge _ _) as [|c l _] using rev_ind.
  { simpl in Hlen. lia. }
  rewrite last_snoc. rewrite app_assoc in Hold. apply app_inj_tail in Hold as [_ ->]. done.
Qed.

Definition demo_crash (u : string) : Crash :=
  mkCrash u "" "" "" "" false None "" 0 false.

Lemma StoreLastN_bounded_witness :
  GetLatest (StoreLastN (demo_crash "c") 2 [demo_crash "a"; demo_crash "b"]) = Some (demo_crash "c") /\
  length (StoreLastN (demo_crash "c") 2 [demo_crash "a"; demo_crash "b"]) = 2%nat.
Proof.
  pose proof (StoreLastN_bounded (demo_crash "c") 2 [demo_crash "a"; demo_crash "b"]
    ltac:(lia)) as (H1 & H2 & _).
  split; [exact H2|reflexivity].
Defined.

(** purging the report files with [keep] removes exactly the oldest reports
    and leaves the [keep + 1] newest ones (one more than asked for), for every
    order in which Go ranges over the map of candidates; other files of the
    directory are never removed. *)
Theorem crash_Purge_keeps_newest `{GoRange} (files : list string) (keep : Z) :
  NoDup files -> 0 <= keep ->
  let reports := List.filter is_report files in
  forall f, f ∈ files ->
    (f ∉ crash_Purge files keep <->
     is_report f = false \/ f ∈ drop (length reports - Z.to_nat (keep + 1)) reports).
Proof.
  intros Hnd Hk reports f Hf. rewrite crash_Purge_spec by done. fold reports.
  destruct (is_report f) eqn:Er.
  2:{ split; [by left|]. intros _ (k & Hl & _). apply list_elem_of_lookup_2 in Hl.
      apply list_elem_of_In, filter_In in Hl as [_ Hl]. congruence. }
  assert (Hin : f ∈ reports) by (apply list_elem_of_In, filter_In; split; [by apply list_elem_of_In|done]).
  apply list_elem_of_lookup in Hin as [k Hl].
  assert (Hu : forall j, reports !! j = Some f -> j = k).
  { intros j Hj. exact (NoDup_lookup _ _ _ _ (NoDup_report _ Hnd) Hj Hl). }
  pose proof (lookup_lt_Some _ _ _ Hl) as Hlt.
  split.
  - intros Hn. right. apply list_elem_of_lookup.
    exists (k - (length reports - Z.to_nat (keep + 1)))%nat. rewrite lookup_drop.
    destruct (decide (length reports - Z.to_nat (keep + 1) <= k)%nat).
    + rewrite <- Hl. f_equal. lia.
    + destruct Hn. exists k. split; [done|lia].
  - intros [Hx|Hin]; [congruence|]. intros (j & Hj & Hjl). rewrite (Hu j Hj) in Hjl.
    apply list_elem_of_lookup in Hin as [i Hi]. rewrite lookup_drop in Hi. apply Hu in Hi. lia.
Qed.

Definition demo_dir : list string :=
  ["clusterstate.json"; "failover.1.json"; "failover.2.json"; "failover.3.json"; "failover.4.json"].

Lemma crash_Purge_keeps_newest_witness :
  "failover.3.json" ∉ crash_Purge demo_dir 1.
Proof.
  apply (crash_Purge_keeps_newest demo_dir 1).
  - refine (bool_decide_eq_true_1 _ _). vm_compute. reflexivity.
  - lia.
  - refine (bool_decide_eq_true_1 _ _). vm_compute. reflexivity.
  - right. refine (bool_decide_eq_true_1 _ _). vm_compute. reflexivity.
Defined.

(** [Crash.delete] removes exactly one report, the first one of the same
    joiner URL, and keeps all the others (possibly reordered); when no report
    has that URL the list is unchanged. *)
Theorem crash_delete_removes_one (crash : Crash) (cl : crashList) :
  (exists cr, getCrashFromJoiner (crash_URL crash) cl = Some cr /\
              Permutation cl (cr :: crash_delete crash cl)) \/
  (getCrashFromJoiner (crash_URL crash) cl = None /\ crash_delete crash cl = cl).
Proof.
  set (p := fun s => (crash_URL crash =? crash_URL s)%string).
  assert (J : forall l, getCrashFromJoiner (crash_URL crash) l = k ← find_index p l; l !! k).
  { induction l as [|c l IH]; [done|]. simpl. rewrite String.eqb_sym. fold (p c).
    change ((crash_URL crash =? crash_URL c)%string) with (p c).
    destruct (p c); [done|]. rewrite IH. by destruct (find_index p l). }
  rewrite J. unfold crash_delete. fold p. destruct (find_index p cl) as [k|] eqn:E.
  - left. destruct (find_index_some _ _ _ E) as (x & Hx & _). exists x. simpl.
    split; [done|]. eapply swap_delete_perm; eauto.
  - right. split; [done|]. by apply swap_delete_none.
Qed.
