(* ===== verification/DelayStat.v ===== *)
(** * Replication delay statistics (cluster/cluster_stat.go)

    Per server, the hourly and total averages of the replication delay that
    the failover election may rank candidates with. Averages are IEEE 754
    binary64 numbers, computed with the specification floats of the Standard
    Library; counters are 32-bit integers that wrap. *)

From Stdlib Require Import ZArith Lia Bool.
From Stdlib Require Import SpecFloat.
From stdpp Require Import base list.
From S2P Require Import Prelude.

Local Open Scope list_scope.
Local Open Scope Z_scope.

(** ** Binary64 *)

Definition float64 : Type := spec_float.
Definition float64_of_Z (z : Z) : float64 := binary_normalize 53 1024 z 0 false.
Definition f64_add : float64 -> float64 -> float64 := SFadd 53 1024.
Definition f64_sub : float64 -> float64 -> float64 := SFsub 53 1024.
Definition f64_mul : float64 -> float64 -> float64 := SFmul 53 1024.
Definition f64_div : float64 -> float64 -> float64 := SFdiv 53 1024.
Definition f64_eqb : float64 -> float64 -> bool := SFeqb.
Definition f64_ltb : float64 -> float64 -> bool := SFltb.
(** Conversion of a finite float to an integer truncates towards zero. *)
Definition f64_trunc (x : float64) : Z :=
  match x with
  | S754_finite s m e =>
      let n := if 0 <=? e then Z.pos m * 2 ^ e else Z.quot (Z.pos m) (2 ^ (- e)) in
      if s then - n else n
  | _ => 0
  end.
Definition f64_zero : float64 := S754_zero false.

(** ** Data *)

Record DelayStat := mkDelayStat {
  DelayAvg : float64; DelayCount : Z; SlaveErrCount : Z; Counter : Z
}.

Definition zeroDelayStat : DelayStat := mkDelayStat f64_zero 0 0 0.

Record DelayStatHistory := mkDelayHistory { dh_DelayStat : DelayStat; dh_Datetime : Z }.

(** A [time.Time] of this file is the start of an hour, as a number. *)
Record ServerDelayStat := mkSDS {
  Total : DelayStat; Rotated : DelayStat; Current : DelayStat; CurrentDT : Z;
  DelayHistory : list DelayStatHistory
}.

Definition eta_SDS (sds : ServerDelayStat) : ServerDelayStat :=
  mkSDS (Total sds) (Rotated sds) (Current sds) (CurrentDT sds) (DelayHistory sds).

Definition set_Total (v : DelayStat) (sds : ServerDelayStat) : ServerDelayStat :=
  ltac:(assign_field eta_SDS Total v sds).
Definition set_Rotated (v : DelayStat) (sds : ServerDelayStat) : ServerDelayStat :=
  ltac:(assign_field eta_SDS Rotated v sds).
Definition set_Current (v : DelayStat) (sds : ServerDelayStat) : ServerDelayStat :=
  ltac:(assign_field eta_SDS Current v sds).
Definition set_CurrentDT (v : Z) (sds : ServerDelayStat) : ServerDelayStat :=
  ltac:(assign_field eta_SDS CurrentDT v sds).
Definition set_DelayHistory (v : list DelayStatHistory) (sds : ServerDelayStat) : ServerDelayStat :=
  ltac:(assign_field eta_SDS DelayHistory v sds).

(** ** Operations

    Times are read as [now]; [hour_of] truncates to the hour in the local time
    zone, which belongs to the host. *)

Section Ops.
Context (hour_of : Z -> Z).

Definition CurrentDelayDatetime (t : Z) : Z := hour_of t.

Definition ResetCurrentStat (now : Z) (sds : ServerDelayStat) : ServerDelayStat :=
  set_CurrentDT (CurrentDelayDatetime now) (set_Current zeroDelayStat sds).

Definition ResetDelayStat (now : Z) (sds : ServerDelayStat) : ServerDelayStat :=
  let sds := ResetCurrentStat now sds in
  let sds := set_Total (Current sds) sds in
  let sds := set_Rotated (Current sds) sds in
  set_DelayHistory [mkDelayHistory (Current sds) (CurrentDT sds)] sds.

(** The running average of [n] samples extended with [s]. *)
Definition next_avg (avg : float64) (n s : Z) : float64 :=
  f64_div (f64_add (f64_mul avg (float64_of_Z n)) (float64_of_Z s))
          (float64_of_Z (i32 (n + 1))).

Definition UpdateCurrentDelayStat (s : Z) (sds : ServerDelayStat) : ServerDelayStat :=
  let c := Current sds in
  set_Current
    (mkDelayStat (next_avg (DelayAvg c) (Counter c) s)
       (if 0 <? s then i32 (DelayCount c + 1) else DelayCount c)
       (SlaveErrCount c) (i32 (Counter c + 1))) sds.

(** [h[i:]], which panics when [i] is past the end. *)
Definition slice_from {A} (i : Z) (h : list A) : option (list A) :=
  if (0 <=? i) && (i <=? Z.of_nat (length h)) then Some (drop (Z.to_nat i) h) else None.

(** The history without the entries a new hour pushes out of the window. *)
Definition evict (limit : Z) (h : list DelayStatHistory) : option (list DelayStatHistory) :=
  let len := Z.of_nat (length h) in
  if limit <=? len then slice_from (len - limit + 1) h else Some h.

(** [h[len(h)-1].DelayStat = c], which panics on an empty history. *)
Definition set_last_stat (c : DelayStat) (h : list DelayStatHistory)
  : option (list DelayStatHistory) :=
  match rev h with
  | [] => None
  | x :: r => Some (rev (mkDelayHistory c (dh_Datetime x) :: r))
  end.

Definition UpdateDelayWithRotate (now s limit : Z) (sds : ServerDelayStat)
  : option ServerDelayStat :=
  h0 ← head (DelayHistory sds);
  let rot := dh_DelayStat h0 in
  let sds := set_Rotated rot sds in
  h ← evict limit (DelayHistory sds);
  let sds := set_DelayHistory h sds in
  let sds := UpdateCurrentDelayStat s (ResetCurrentStat now sds) in
  let sds := set_DelayHistory
               (DelayHistory sds ++ [mkDelayHistory (Current sds) (CurrentDT sds)]) sds in
  let t := Total sds in
  let avg := f64_div
    (f64_add (f64_sub (f64_mul (DelayAvg t) (float64_of_Z (Counter t)))
                      (f64_mul (DelayAvg rot) (float64_of_Z (Counter rot))))
             (float64_of_Z s))
    (float64_of_Z (i32 (Counter t + 1 - Counter rot))) in
  Some (set_Total
    (mkDelayStat avg
       (if 0 <? s then i32 (DelayCount t + 1 - DelayCount rot)
        else i32 (DelayCount t - DelayCount rot))
       (SlaveErrCount t) (i32 (Counter t + 1 - Counter rot))) sds).

Definition UpdateDelayWithoutRotate (s : Z) (sds : ServerDelayStat) : option ServerDelayStat :=
  let sds := UpdateCurrentDelayStat s sds in
  h ← set_last_stat (Current sds) (DelayHistory sds);
  let sds := set_DelayHistory h sds in
  let t := Total sds in
  Some (set_Total
    (mkDelayStat (next_avg (DelayAvg t) (Counter t) s)
       (if 0 <? s then i32 (DelayCount t + 1) else DelayCount t)
       (SlaveErrCount t) (i32 (Counter t + 1))) sds).

(** [now] is read once to compare hours and once more ([now']) by the reset. *)
Definition UpdateDelayStat (now now' s limit : Z) (sds : ServerDelayStat)
  : option ServerDelayStat :=
  if CurrentDelayDatetime now =? CurrentDT sds
  then UpdateDelayWithoutRotate s sds
  else UpdateDelayWithRotate now' s limit sds.

Definition UpdateSlaveErrorWithRotate (now limit : Z) (sds : ServerDelayStat)
  : option ServerDelayStat :=
  h0 ← head (DelayHistory sds);
  let rot := dh_DelayStat h0 in
  let sds := set_Rotated rot sds in
  h ← evict limit (DelayHistory sds);
  let sds := ResetCurrentStat now (set_DelayHistory h sds) in
  let c := Current sds in
  let sds := set_Current (mkDelayStat (DelayAvg c) (DelayCount c)
               (i32 (SlaveErrCount c + 1)) (i32 (Counter c + 1))) sds in
  let sds := set_DelayHistory
               (DelayHistory sds ++ [mkDelayHistory (Current sds) (CurrentDT sds)]) sds in
  let t := Total sds in
  Some (set_Total (mkDelayStat (DelayAvg t) (DelayCount t)
    (i32 (SlaveErrCount t + 1 - SlaveErrCount rot))
    (i32 (Counter t + 1 - Counter rot))) sds).

Definition UpdateSlaveErrorWithoutRotate (sds : ServerDelayStat) : option ServerDelayStat :=
  let c := Current sds in
  let sds := set_Current (mkDelayStat (DelayAvg c) (DelayCount c)
               (i32 (SlaveErrCount c + 1)) (i32 (Counter c + 1))) sds in
  h ← set_last_stat (Current sds) (DelayHistory sds);
  let sds := set_DelayHistory h sds in
  let t := Total sds in
  Some (set_Total (mkDelayStat (DelayAvg t) (DelayCount t)
    (i32 (SlaveErrCount t + 1)) (i32 (Counter t + 1))) sds).

Definition UpdateSlaveErrorStat (now now' limit : Z) (sds : ServerDelayStat)
  : option ServerDelayStat :=
  if CurrentDelayDatetime now =? CurrentDT sds
  then UpdateSlaveErrorWithoutRotate sds
  else UpdateSlaveErrorWithRotate now' limit sds.

(** ** The life of the statistics *)

Inductive sds_step (limit : Z) : ServerDelayStat -> ServerDelayStat -> Prop :=
| step_reset sds now : sds_step limit sds (ResetDelayStat now sds)
| step_delay sds sds' now now' s :
    UpdateDelayStat now now' s limit sds = Some sds' -> sds_step limit sds sds'
| step_error sds sds' now now' :
    UpdateSlaveErrorStat now now' limit sds = Some sds' -> sds_step limit sds sds'.

Inductive sds_reachable (limit : Z) : ServerDelayStat -> Prop :=
| reach_start sds now : sds_reachable limit (ResetDelayStat now sds)
| reach_step sds sds' :
    sds_reachable limit sds -> sds_step limit sds sds' -> sds_reachable limit sds'.

(** A window of [limit] hours, never empty, whose last entry is the current
    hour. *)
Definition sds_ok (limit : Z) (sds : ServerDelayStat) : Prop :=
  1 <= Z.of_nat (length (DelayHistory sds)) <= limit /\
  dh_DelayStat <$> last (DelayHistory sds) = Some (Current sds).

Lemma set_last_stat_app c h x :
  set_last_stat c (h ++ [x]) = Some (h ++ [mkDelayHistory c (dh_Datetime x)]).
Proof. unfold set_last_stat. rewrite rev_unit. simpl. by rewrite rev_involutive. Qed.

Lemma evict_ok limit h :
  1 <= limit -> Z.of_nat (length h) <= limit ->
  evict limit h = Some (if limit <=? Z.of_nat (length h) then drop 1 h else h).
Proof.
  intros H1 H2. unfold evict. destruct (limit <=? Z.of_nat (length h)) eqn:E; [|done].
  bool_prop. unfold slice_from.
  replace (Z.of_nat (length h) - limit + 1) with 1 by lia.
  replace (1 <=? Z.of_nat (length h)) with true by (symmetry; apply Z.leb_le; lia). done.
Qed.

Lemma evict_length limit h h' :
  1 <= limit -> Z.of_nat (length h) <= limit -> evict limit h = Some h' ->
  Z.of_nat (length h') <= limit - 1.
Proof.
  intros H1 H2. rewrite evict_ok by done. intros [= <-].
  destruct (limit <=? _) eqn:E; bool_prop; [rewrite length_drop|]; lia.
Qed.

Lemma history_snoc limit sds :
  sds_ok limit sds -> exists h d, DelayHistory sds = h ++ [mkDelayHistory (Current sds) d].
Proof.
  intros [[Hl _] Hlast]. destruct (DelayHistory sds) as [|x h _] using rev_ind; [simpl in Hl; lia|].
  rewrite last_snoc in Hlast. injection Hlast as <-. exists h, (dh_Datetime x). by destruct x.
Qed.

Lemma reset_ok limit now sds : 1 <= limit -> sds_ok limit (ResetDelayStat now sds).
Proof. intros ?. unfold sds_ok. simpl. split; [lia|done]. Qed.

(** In a window every update succeeds. *)
Lemma update_total limit now now' s sds :
  1 <= limit -> sds_ok limit sds ->
  is_Some (UpdateDelayStat now now' s limit sds) /\
  is_Some (UpdateSlaveErrorStat now now' limit sds).
Proof.
  intros H1 Hok. destruct (history_snoc _ _ Hok) as (h & d & Hh).
  destruct Hok as [[Hl Hl'] _].
  assert (exists h0, head (DelayHistory sds) = Some h0) as [h0 Hh0]
    by (rewrite Hh; destruct h; eauto).
  unfold UpdateDelayStat, UpdateSlaveErrorStat, UpdateDelayWithRotate,
    UpdateDelayWithoutRotate, UpdateSlaveErrorWithRotate, UpdateSlaveErrorWithoutRotate.
  rewrite Hh0. cbn [mbind option_bind]. cbn [DelayHistory set_Rotated].
  rewrite evict_ok by done. split; destruct (_ =? _); simpl; rewrite ?Hh, ?set_last_stat_app; eauto.
Qed.

Lemma step_ok limit sds sds' :
  1 <= limit -> sds_ok limit sds -> sds_step limit sds sds' -> sds_ok limit sds'.
Proof.
  intros H1 Hok Hst. destruct Hst as [sds now|sds sds' now now' s Hu|sds sds' now now' Hu].
  - by apply reset_ok.
  - destruct (history_snoc _ _ Hok) as (h & d & Hh). destruct Hok as [[Hl Hl'] _].
    unfold UpdateDelayStat, UpdateDelayWithRotate, UpdateDelayWithoutRotate in Hu.
    destruct (_ =? _).
    + simpl in Hu. rewrite Hh, set_last_stat_app in Hu. injection Hu as <-.
      unfold sds_ok. simpl. rewrite last_snoc, length_app. rewrite Hh, length_app in *. done.
    + destruct (head _) as [h0|]; [|done]. simpl in Hu.
      destruct (evict _ _) as [h'|] eqn:Ee; [|done]. injection Hu as <-.
      apply evict_length in Ee; [|done|done]. unfold sds_ok. simpl.
      rewrite last_snoc, length_app. simpl. split; [lia|done].
  - destruct (history_snoc _ _ Hok) as (h & d & Hh). destruct Hok as [[Hl Hl'] _].
    unfold UpdateSlaveErrorStat, UpdateSlaveErrorWithRotate, UpdateSlaveErrorWithoutRotate in Hu.
    destruct (_ =? _).
    + simpl in Hu. rewrite Hh, set_last_stat_app in Hu. injection Hu as <-.
      unfold sds_ok. simpl. rewrite last_snoc, length_app. rewrite Hh, length_app in *. done.
    + destruct (head _) as [h0|]; [|done]. simpl in Hu.
      destruct (evict _ _) as [h'|] eqn:Ee; [|done]. injection Hu as <-.
      apply evict_length in Ee; [|done|done]. unfold sds_ok. simpl.
      rewrite last_snoc, length_app. simpl. split; [lia|done].
Qed.

(** From a reset on, under a positive rotation limit, the delay history
    always is a non-empty window of at most [limit] hours whose last entry is the
    current hour, and neither of the two updates (delay, slave error) can index
    or slice out of range. *)
Theorem delay_window_invariant (limit : Z) (sds : ServerDelayStat) :
  1 <= limit -> sds_reachable limit sds ->
  sds_ok limit sds /\
  (forall now now' s, is_Some (UpdateDelayStat now now' s limit sds) /\
                      is_Some (UpdateSlaveErrorStat now now' limit sds)).
Proof.
  intros H1 Hr. assert (Hok : sds_ok limit sds).
  { induction Hr as [sds now|sds sds' _ IH Hs]; [by apply reset_ok|by eapply step_ok]. }
  split; [done|]. intros now now' s. by apply update_total.
Qed.

(** ** Accounting *)

Definition samples (h : list DelayStatHistory) : Z :=
  fold_right (fun x n => Counter (dh_DelayStat x) + n) 0 h.

Lemma samples_app h1 h2 : samples (h1 ++ h2) = samples h1 + samples h2.
Proof. induction h1 as [|x h IH]; simpl; lia. Qed.

(** Total count = number of samples of the window, modulo the counter width. *)
Definition accounted (sds : ServerDelayStat) : Prop :=
  Counter (Total sds) = i32 (samples (DelayHistory sds)).

Lemma i32_idem a : i32 (i32 a) = i32 a.
Proof. apply i32_cong, i32_mod. Qed.

(** the total number of samples is the number of samples of the window as
    long as the hour does not change, and also when it changes with a full
    window. When the hour changes before the window is full, the update
    subtracts the oldest hour from the total although that hour stays in the
    window: the total is then too small by the samples of the oldest hour. *)
Theorem total_counter_accounting (now s limit : Z) (sds sds' : ServerDelayStat) :
  1 <= limit -> sds_ok limit sds -> accounted sds ->
  (UpdateDelayWithoutRotate s sds = Some sds' -> accounted sds') /\
  (UpdateDelayWithRotate now s limit sds = Some sds' ->
   exists h0, head (DelayHistory sds) = Some h0 /\
     Counter (Total sds') =
       i32 (samples (DelayHistory sds') -
            (if limit <=? Z.of_nat (length (DelayHistory sds)) then 0
             else Counter (dh_DelayStat h0)))).
Proof.
  intros H1 Hok Hacc. destruct (history_snoc _ _ Hok) as (h & d & Hh).
  destruct Hok as [[Hl Hl'] _]. split.
  - unfold UpdateDelayWithoutRotate. simpl. rewrite Hh, set_last_stat_app. intros [= <-].
    unfold accounted. simpl. rewrite Hacc, Hh, !samples_app. simpl. rewrite i32_add_l.
    rewrite !Z.add_0_r, (Z.add_comm (samples h) (i32 _)), i32_add_l. f_equal. lia.
  - unfold UpdateDelayWithRotate. destruct (head _) as [h0|] eqn:Eh; [|done]. simpl.
    rewrite evict_ok by done. simpl. intros [= <-]. exists h0. split; [done|].
    simpl. rewrite Hacc, samples_app. simpl.
    rewrite <- Z.add_sub_assoc, i32_add_l.
    destruct (DelayHistory sds) as [|x hs]; [done|]. injection Eh as ->. simpl.
    destruct (limit <=? _); simpl; f_equal; rewrite ?drop_0;
      change (i32 (0 + 1)) with 1; lia.
Qed.
End Ops.

Definition demo_sds : ServerDelayStat :=
  mkSDS (mkDelayStat f64_zero 0 0 2) zeroDelayStat (mkDelayStat f64_zero 0 0 2) 0
    [mkDelayHistory (mkDelayStat f64_zero 0 0 2) 0].

Lemma total_counter_accounting_witness :
  option_map (fun x => Counter (Total x)) (UpdateDelayWithRotate (fun t => t) 1 5 72 demo_sds) = Some 1 /\
  option_map (fun x => samples (DelayHistory x)) (UpdateDelayWithRotate (fun t => t) 1 5 72 demo_sds) = Some 3.
Proof.
  destruct (UpdateDelayWithRotate (fun t => t) 1 5 72 demo_sds) as [sds'|] eqn:E;
    [|vm_compute in E; discriminate].
  assert (Hs : samples (DelayHistory sds') = 3)
    by (vm_compute in E; injection E as <-; reflexivity).
  pose proof (total_counter_accounting (fun t => t) 1 5 72 demo_sds sds' ltac:(lia)) as T.
  destruct T as [_ T]; [split; [simpl; lia|reflexivity]|reflexivity|].
  destruct (T E) as (h0 & Hh & HT). injection Hh as <-. cbn [option_map].
  rewrite HT, Hs. split; reflexivity.
Defined.

Lemma delay_window_invariant_witness :
  sds_ok 72 (ResetDelayStat (fun t => t) 0 demo_sds).
Proof.
  refine (proj1 (delay_window_invariant (fun t => t) 72 _ _ _)); [lia|constructor].
Defined.
