(* ===== verification/Config.v ===== *)
(** * Configuration (config/config.go, config/error.go)

    The options the modelled components read, with the names of the fields of
    [config.Config]; the table of state messages; topology names and log levels.
    Options no modelled component reads are left out of the record. *)

From Stdlib Require Import ZArith Lia Bool Ascii String.
From stdpp Require Import base list gmap strings.
From S2P Require Import Prelude GoLib.

Local Open Scope string_scope.
Local Open Scope list_scope.
Local Open Scope Z_scope.

(** ** Options

    [ReplicationCredential] is the value of the secret
    [Conf.Secrets["replication-credential"]], of the form [user:password];
    [DbServersCredential] that of ["db-servers-credential"]. *)

Record Config := mkConfig {
  Conf_Hosts : string; Conf_User : string; Conf_RplUser : string; Conf_PrefMaster : string;
  Conf_IgnoreSrv : string; Conf_IgnoreSrvRO : string; Conf_BackupServers : string;
  Conf_HostsDelayed : string; Conf_MasterConn : string; Conf_MonitorIgnoreErrors : string;
  Conf_Topology : string; Conf_TopologyTarget : string; Conf_PreScript : string;
  Conf_PostScript : string; Conf_DbServersChangeStateScript : string; Conf_AlertScript :
  string; Conf_MailTo : string; Conf_MonitoringAlertTrigger : string;
  Conf_MonitorCaptureTrigger : string; Conf_FailoverMdevLevel : string; Conf_MxsHost :
  string; Conf_MxsGetInfoMethod : string; Conf_ArbitrationSasHosts : string;
  Conf_ArbitrationSasSecret : string; Conf_ProvOrchestrator : string; Conf_LogFile : string;
  Conf_VaultServerAddr : string; Conf_VaultMode : string; Conf_ReplicationCredential :
  string; Conf_MultiMaster : bool; Conf_MultiMasterRing : bool; Conf_MultiMasterWsrep :
  bool; Conf_MultiMasterGrouprep : bool; Conf_MultiTierSlave : bool; Conf_MxsBinlogOn :
  bool; Conf_MasterSlavePgStream : bool; Conf_MasterSlavePgLogical : bool;
  Conf_ActivePassive : bool; Conf_ReplicationNoRelay : bool; Conf_RplChecks : bool;
  Conf_FailSync : bool; Conf_SwitchSync : bool; Conf_SwitchGtidCheck : bool;
  Conf_SwitchLowerRelease : bool; Conf_CheckBinFilter : bool; Conf_CheckReplFilter : bool;
  Conf_FailRestartUnsafe : bool; Conf_FailoverMdevCheck : bool; Conf_FailoverCheckDelayStat
  : bool; Conf_Interactive : bool; Conf_ReadOnly : bool; Conf_SuperReadOnly : bool;
  Conf_SwitchSlaveWaitCatch : bool; Conf_SwitchDecreaseMaxConn : bool;
  Conf_SwitchoverCopyOldLeaderGtid : bool; Conf_MultiMasterConcurrentWrite : bool;
  Conf_AutorejoinSlavePositionalHeartbeat : bool; Conf_FailEventScheduler : bool;
  Conf_FailEventStatus : bool; Conf_FailoverSemiSyncState : bool; Conf_ReplicationSSL :
  bool; Conf_ForceSlaveNoGtid : bool; Conf_Arbitration : bool;
  Conf_CheckFalsePositiveHeartbeat : bool; Conf_CheckFalsePositiveMaxscale : bool;
  Conf_CheckFalsePositiveExternal : bool; Conf_MxsOn : bool; Conf_RplCheckErrantTrx : bool;
  Conf_MonitorCapture : bool; Conf_MonitorProcessList : bool; Conf_MonitorScheduler : bool;
  Conf_MonitorInnoDBStatus : bool; Conf_MonitorPlugins : bool; Conf_DelayStatCapture : bool;
  Conf_FailMaxDelay : Z; Conf_MaxFail : Z; Conf_FailLimit : Z; Conf_FailTime : Z;
  Conf_SwitchWaitKill : Z; Conf_SwitchWaitTrx : Z; Conf_SwitchWaitWrite : Z;
  Conf_SwitchSlaveWaitRouteChange : Z; Conf_ForceSlaveHeartbeatRetry : Z;
  Conf_ForceSlaveHeartbeatTime : Z; Conf_HostsDelayedTime : Z; Conf_FailoverLogFileKeep : Z;
  Conf_SwitchDecreaseMaxConnValue : Z; Conf_CheckFalsePositiveExternalPort : Z;
  Conf_CheckFalsePositiveHeartbeatTimeout : Z; Conf_CheckFalsePositiveMaxscaleTimeout : Z;
  Conf_MxsMaxinfoPort : Z; Conf_ArbitrationSasUniqueId : Z; Conf_DelayStatRotate : Z;
  Conf_DbServersCredential : string; Conf_WorkingDir : string; Conf_ShareDir : string;
  Conf_GoArch : string; Conf_GoOS : string; Conf_RejoinScript : string;
  Conf_BackupLoadScript : string; Conf_BackupMysqlbinlogPath : string;
  Conf_BackupMysqlclientPath : string; Conf_BackupMysqldumpPath : string; Conf_Autoseed
  : bool; Conf_AutorejoinForceRestore : bool; Conf_AutorejoinFlashback : bool;
  Conf_AutorejoinBackupBinlog : bool; Conf_AutorejoinMysqldump : bool;
  Conf_AutorejoinLogicalBackup : bool; Conf_AutorejoinPhysicalBackup : bool;
  Conf_AutorejoinZFSFlashback : bool;
  Conf_CheckType : string; Conf_ArbitratorAddress : string;
  Conf_ArbitrationFailedMasterScript : string; Conf_ReplicationErrorScript : string;
  Conf_ReplicationRestartOnSQLErrorMatch : string; Conf_ForceSlaveParallelMode : string;
  Conf_Autorejoin : bool; Conf_Spider : bool; Conf_MultiMasterRingUnsafe : bool;
  Conf_ForceSlaveSemisync : bool; Conf_ForceBinlogRow : bool;
  Conf_ForceSlaveReadOnly : bool; Conf_ForceSlaveHeartbeat : bool;
  Conf_ForceSlaveGtid : bool; Conf_ForceSlaveGtidStrict : bool;
  Conf_ForceSlaveIdempotent : bool; Conf_ForceSlaveStrict : bool;
  Conf_ForceSyncInnoDB : bool; Conf_ForceBinlogChecksum : bool;
  Conf_ForceBinlogSlowqueries : bool; Conf_ForceBinlogAnnotate : bool;
  Conf_ForceBinlogCompress : bool; Conf_ForceSyncBinlog : bool; Conf_CheckGrants : bool;
  Conf_TestInjectTraffic : bool; Conf_MonitorWriteHeartbeat : bool;
  Conf_MonitorPause : bool; Conf_ArbitrationReadTimout : Z; Conf_MonitoringTicker : Z;
  Conf_ForceBinlogPurge : bool; Conf_ForceBinlogPurgeReplicas : bool;
  Conf_ForceBinlogPurgeOnRestore : bool; Conf_ForceBinlogPurgeTotalSize : Z;
  Conf_ForceBinlogPurgeMinReplica : Z; Conf_BackupBinlogs : bool;
  Conf_BinlogRotationScript : string;
  Conf_ProxysqlOn : bool; Conf_ProxysqlBootstrap : bool; Conf_ProxysqlBootstrapHG : bool;
  Conf_ProxysqlBootstrapVariables : bool; Conf_ProxysqlMultiplexing : bool;
  Conf_ProxysqlSaveToDisk : bool; Conf_ProxysqlCopyGrants : bool;
  Conf_PRXServersBackendCompression : bool; Conf_PRXServersBackendMaxReplicationLag : Z;
  Conf_PRXServersBackendMaxConnections : Z; Conf_MonitorWaitRetry : Z;
  Conf_MonitorWriteHeartbeatCredential : string; Conf_PRXServersChangeStateScript : string;
  Conf_MonitoringOpenStateScript : string; Conf_MonitoringCloseStateScript : string;
  Conf_BackupPhysicalType : string;
  Conf_ProvDbBootstrapScript : string; Conf_ProvDbCleanupScript : string;
  Conf_ProvDbStartScript : string; Conf_ProvDbStopScript : string;
  Conf_ProvProxyBootstrapScript : string; Conf_ProvProxyCleanupScript : string;
  Conf_ProvProxyStartScript : string; Conf_ProvProxyStopScript : string;
  Conf_ProvSerialized : bool; Conf_Test : bool; Conf_SchedulerAlertDisableTime : Z
}.

Definition eta_Config (x : Config) : Config :=
  mkConfig (Conf_Hosts x) (Conf_User x) (Conf_RplUser x) (Conf_PrefMaster x) (Conf_IgnoreSrv
    x) (Conf_IgnoreSrvRO x) (Conf_BackupServers x) (Conf_HostsDelayed x) (Conf_MasterConn x)
    (Conf_MonitorIgnoreErrors x) (Conf_Topology x) (Conf_TopologyTarget x) (Conf_PreScript
    x) (Conf_PostScript x) (Conf_DbServersChangeStateScript x) (Conf_AlertScript x)
    (Conf_MailTo x) (Conf_MonitoringAlertTrigger x) (Conf_MonitorCaptureTrigger x)
    (Conf_FailoverMdevLevel x) (Conf_MxsHost x) (Conf_MxsGetInfoMethod x)
    (Conf_ArbitrationSasHosts x) (Conf_ArbitrationSasSecret x) (Conf_ProvOrchestrator x)
    (Conf_LogFile x) (Conf_VaultServerAddr x) (Conf_VaultMode x) (Conf_ReplicationCredential
    x) (Conf_MultiMaster x) (Conf_MultiMasterRing x) (Conf_MultiMasterWsrep x)
    (Conf_MultiMasterGrouprep x) (Conf_MultiTierSlave x) (Conf_MxsBinlogOn x)
    (Conf_MasterSlavePgStream x) (Conf_MasterSlavePgLogical x) (Conf_ActivePassive x)
    (Conf_ReplicationNoRelay x) (Conf_RplChecks x) (Conf_FailSync x) (Conf_SwitchSync x)
    (Conf_SwitchGtidCheck x) (Conf_SwitchLowerRelease x) (Conf_CheckBinFilter x)
    (Conf_CheckReplFilter x) (Conf_FailRestartUnsafe x) (Conf_FailoverMdevCheck x)
    (Conf_FailoverCheckDelayStat x) (Conf_Interactive x) (Conf_ReadOnly x)
    (Conf_SuperReadOnly x) (Conf_SwitchSlaveWaitCatch x) (Conf_SwitchDecreaseMaxConn x)
    (Conf_SwitchoverCopyOldLeaderGtid x) (Conf_MultiMasterConcurrentWrite x)
    (Conf_AutorejoinSlavePositionalHeartbeat x) (Conf_FailEventScheduler x)
    (Conf_FailEventStatus x) (Conf_FailoverSemiSyncState x) (Conf_ReplicationSSL x)
    (Conf_ForceSlaveNoGtid x) (Conf_Arbitration x) (Conf_CheckFalsePositiveHeartbeat x)
    (Conf_CheckFalsePositiveMaxscale x) (Conf_CheckFalsePositiveExternal x) (Conf_MxsOn x)
    (Conf_RplCheckErrantTrx x) (Conf_MonitorCapture x) (Conf_MonitorProcessList x)
    (Conf_MonitorScheduler x) (Conf_MonitorInnoDBStatus x) (Conf_MonitorPlugins x)
    (Conf_DelayStatCapture x) (Conf_FailMaxDelay x) (Conf_MaxFail x) (Conf_FailLimit x)
    (Conf_FailTime x) (Conf_SwitchWaitKill x) (Conf_SwitchWaitTrx x) (Conf_SwitchWaitWrite
    x) (Conf_SwitchSlaveWaitRouteChange x) (Conf_ForceSlaveHeartbeatRetry x)
    (Conf_ForceSlaveHeartbeatTime x) (Conf_HostsDelayedTime x) (Conf_FailoverLogFileKeep x)
    (Conf_SwitchDecreaseMaxConnValue x) (Conf_CheckFalsePositiveExternalPort x)
    (Conf_CheckFalsePositiveHeartbeatTimeout x) (Conf_CheckFalsePositiveMaxscaleTimeout x)
    (Conf_MxsMaxinfoPort x) (Conf_ArbitrationSasUniqueId x) (Conf_DelayStatRotate x)
    (Conf_DbServersCredential x) (Conf_WorkingDir x) (Conf_ShareDir x) (Conf_GoArch x)
    (Conf_GoOS x) (Conf_RejoinScript x) (Conf_BackupLoadScript x)
    (Conf_BackupMysqlbinlogPath x) (Conf_BackupMysqlclientPath x)
    (Conf_BackupMysqldumpPath x) (Conf_Autoseed x) (Conf_AutorejoinForceRestore x)
    (Conf_AutorejoinFlashback x) (Conf_AutorejoinBackupBinlog x)
    (Conf_AutorejoinMysqldump x) (Conf_AutorejoinLogicalBackup x)
    (Conf_AutorejoinPhysicalBackup x) (Conf_AutorejoinZFSFlashback x)
    (Conf_CheckType x) (Conf_ArbitratorAddress x) (Conf_ArbitrationFailedMasterScript x)
    (Conf_ReplicationErrorScript x) (Conf_ReplicationRestartOnSQLErrorMatch x)
    (Conf_ForceSlaveParallelMode x) (Conf_Autorejoin x) (Conf_Spider x)
    (Conf_MultiMasterRingUnsafe x) (Conf_ForceSlaveSemisync x) (Conf_ForceBinlogRow x)
    (Conf_ForceSlaveReadOnly x) (Conf_ForceSlaveHeartbeat x) (Conf_ForceSlaveGtid x)
    (Conf_ForceSlaveGtidStrict x) (Conf_ForceSlaveIdempotent x) (Conf_ForceSlaveStrict x)
    (Conf_ForceSyncInnoDB x) (Conf_ForceBinlogChecksum x) (Conf_ForceBinlogSlowqueries x)
    (Conf_ForceBinlogAnnotate x) (Conf_ForceBinlogCompress x) (Conf_ForceSyncBinlog x)
    (Conf_CheckGrants x) (Conf_TestInjectTraffic x) (Conf_MonitorWriteHeartbeat x)
    (Conf_MonitorPause x) (Conf_ArbitrationReadTimout x) (Conf_MonitoringTicker x)
    (Conf_ForceBinlogPurge x) (Conf_ForceBinlogPurgeReplicas x)
    (Conf_ForceBinlogPurgeOnRestore x) (Conf_ForceBinlogPurgeTotalSize x)
    (Conf_ForceBinlogPurgeMinReplica x) (Conf_BackupBinlogs x) (Conf_BinlogRotationScript x)
    (Conf_ProxysqlOn x) (Conf_ProxysqlBootstrap x) (Conf_ProxysqlBootstrapHG x)
    (Conf_ProxysqlBootstrapVariables x) (Conf_ProxysqlMultiplexing x)
    (Conf_ProxysqlSaveToDisk x) (Conf_ProxysqlCopyGrants x)
    (Conf_PRXServersBackendCompression x) (Conf_PRXServersBackendMaxReplicationLag x)
    (Conf_PRXServersBackendMaxConnections x) (Conf_MonitorWaitRetry x)
    (Conf_MonitorWriteHeartbeatCredential x) (Conf_PRXServersChangeStateScript x)
    (Conf_MonitoringOpenStateScript x) (Conf_MonitoringCloseStateScript x)
    (Conf_BackupPhysicalType x)
    (Conf_ProvDbBootstrapScript x) (Conf_ProvDbCleanupScript x) (Conf_ProvDbStartScript x)
    (Conf_ProvDbStopScript x) (Conf_ProvProxyBootstrapScript x) (Conf_ProvProxyCleanupScript
    x) (Conf_ProvProxyStartScript x) (Conf_ProvProxyStopScript x) (Conf_ProvSerialized x)
    (Conf_Test x) (Conf_SchedulerAlertDisableTime x).

(** The zero value of the struct. *)
Definition zeroConfig : Config :=
  mkConfig "" "" "" "" "" "" "" "" "" "" "" "" "" "" "" "" "" "" "" "" "" "" "" "" "" "" ""
    "" "" false false false false false false false false false false false false false
    false false false false false false false false false false false false false false
    false false false false false false false false false false false false false false
    false false false false 0 0 0 0 0 0 0 0 0 0 0 0 0 0 0 0 0 0 0
    "" "" "" "" "" "" "" "" "" "" false false false false false false false false
    "" "" "" "" "" "" false false false false false false false false false false false
    false false false false false false false false false false 0 0
    false false false 0 0 false ""
    false false false false false false false false 0 0 0 "" "" "" ""
    ""
    "" "" "" "" "" "" "" "" false false 0.

Definition set_Conf_Hosts (v : string) (x : Config) : Config :=
  ltac:(assign_field eta_Config Conf_Hosts v x).
Definition set_Conf_User (v : string) (x : Config) : Config :=
  ltac:(assign_field eta_Config Conf_User v x).
Definition set_Conf_RplUser (v : string) (x : Config) : Config :=
  ltac:(assign_field eta_Config Conf_RplUser v x).
Definition set_Conf_PrefMaster (v : string) (x : Config) : Config :=
  ltac:(assign_field eta_Config Conf_PrefMaster v x).
Definition set_Conf_IgnoreSrv (v : string) (x : Config) : Config :=
  ltac:(assign_field eta_Config Conf_IgnoreSrv v x).
Definition set_Conf_IgnoreSrvRO (v : string) (x : Config) : Config :=
  ltac:(assign_field eta_Config Conf_IgnoreSrvRO v x).
Definition set_Conf_BackupServers (v : string) (x : Config) : Config :=
  ltac:(assign_field eta_Config Conf_BackupServers v x).
Definition set_Conf_HostsDelayed (v : string) (x : Config) : Config :=
  ltac:(assign_field eta_Config Conf_HostsDelayed v x).
Definition set_Conf_MasterConn (v : string) (x : Config) : Config :=
  ltac:(assign_field eta_Config Conf_MasterConn v x).
Definition set_Conf_MonitorIgnoreErrors (v : string) (x : Config) : Config :=
  ltac:(assign_field eta_Config Conf_MonitorIgnoreErrors v x).
Definition set_Conf_Topology (v : string) (x : Config) : Config :=
  ltac:(assign_field eta_Config Conf_Topology v x).
Definition set_Conf_TopologyTarget (v : string) (x : Config) : Config :=
  ltac:(assign_field eta_Config Conf_TopologyTarget v x).
Definition set_Conf_PreScript (v : string) (x : Config) : Config :=
  ltac:(assign_field eta_Config Conf_PreScript v x).
Definition set_Conf_PostScript (v : string) (x : Config) : Config :=
  ltac:(assign_field eta_Config Conf_PostScript v x).
Definition set_Conf_DbServersChangeStateScript (v : string) (x : Config) : Config :=
  ltac:(assign_field eta_Config Conf_DbServersChangeStateScript v x).
Definition set_Conf_AlertScript (v : string) (x : Config) : Config :=
  ltac:(assign_field eta_Config Conf_AlertScript v x).
Definition set_Conf_MailTo (v : string) (x : Config) : Config :=
  ltac:(assign_field eta_Config Conf_MailTo v x).
Definition set_Conf_MonitoringAlertTrigger (v : string) (x : Config) : Config :=
  ltac:(assign_field eta_Config Conf_MonitoringAlertTrigger v x).
Definition set_Conf_MonitorCaptureTrigger (v : string) (x : Config) : Config :=
  ltac:(assign_field eta_Config Conf_MonitorCaptureTrigger v x).
Definition set_Conf_FailoverMdevLevel (v : string) (x : Config) : Config :=
  ltac:(assign_field eta_Config Conf_FailoverMdevLevel v x).
Definition set_Conf_MxsHost (v : string) (x : Config) : Config :=
  ltac:(assign_field eta_Config Conf_MxsHost v x).
Definition set_Conf_MxsGetInfoMethod (v : string) (x : Config) : Config :=
  ltac:(assign_field eta_Config Conf_MxsGetInfoMethod v x).
Definition set_Conf_ArbitrationSasHosts (v : string) (x : Config) : Config :=
  ltac:(assign_field eta_Config Conf_ArbitrationSasHosts v x).
Definition set_Conf_ArbitrationSasSecret (v : string) (x : Config) : Config :=
  ltac:(assign_field eta_Config Conf_ArbitrationSasSecret v x).
Definition set_Conf_ProvOrchestrator (v : string) (x : Config) : Config :=
  ltac:(assign_field eta_Config Conf_ProvOrchestrator v x).
Definition set_Conf_LogFile (v : string) (x : Config) : Config :=
  ltac:(assign_field eta_Config Conf_LogFile v x).
Definition set_Conf_VaultServerAddr (v : string) (x : Config) : Config :=
  ltac:(assign_field eta_Config Conf_VaultServerAddr v x).
Definition set_Conf_VaultMode (v : string) (x : Config) : Config :=
  ltac:(assign_field eta_Config Conf_VaultMode v x).
Definition set_Conf_ReplicationCredential (v : string) (x : Config) : Config :=
  ltac:(assign_field eta_Config Conf_ReplicationCredential v x).
Definition set_Conf_MultiMaster (v : bool) (x : Config) : Config :=
  ltac:(assign_field eta_Config Conf_MultiMaster v x).
Definition set_Conf_MultiMasterRing (v : bool) (x : Config) : Config :=
  ltac:(assign_field eta_Config Conf_MultiMasterRing v x).
Definition set_Conf_MultiMasterWsrep (v : bool) (x : Config) : Config :=
  ltac:(assign_field eta_Config Conf_MultiMasterWsrep v x).
Definition set_Conf_MultiMasterGrouprep (v : bool) (x : Config) : Config :=
  ltac:(assign_field eta_Config Conf_MultiMasterGrouprep v x).
Definition set_Conf_MultiTierSlave (v : bool) (x : Config) : Config :=
  ltac:(assign_field eta_Config Conf_MultiTierSlave v x).
Definition set_Conf_MxsBinlogOn (v : bool) (x : Config) : Config :=
  ltac:(assign_field eta_Config Conf_MxsBinlogOn v x).
Definition set_Conf_MasterSlavePgStream (v : bool) (x : Config) : Config :=
  ltac:(assign_field eta_Config Conf_MasterSlavePgStream v x).
Definition set_Conf_MasterSlavePgLogical (v : bool) (x : Config) : Config :=
  ltac:(assign_field eta_Config Conf_MasterSlavePgLogical v x).
Definition set_Conf_ActivePassive (v : bool) (x : Config) : Config :=
  ltac:(assign_field eta_Config Conf_ActivePassive v x).
Definition set_Conf_ReplicationNoRelay (v : bool) (x : Config) : Config :=
  ltac:(assign_field eta_Config Conf_ReplicationNoRelay v x).
Definition set_Conf_RplChecks (v : bool) (x : Config) : Config :=
  ltac:(assign_field eta_Config Conf_RplChecks v x).
Definition set_Conf_FailSync (v : bool) (x : Config) : Config :=
  ltac:(assign_field eta_Config Conf_FailSync v x).
Definition set_Conf_SwitchSync (v : bool) (x : Config) : Config :=
  ltac:(assign_field eta_Config Conf_SwitchSync v x).
Definition set_Conf_SwitchGtidCheck (v : bool) (x : Config) : Config :=
  ltac:(assign_field eta_Config Conf_SwitchGtidCheck v x).
Definition set_Conf_SwitchLowerRelease (v : bool) (x : Config) : Config :=
  ltac:(assign_field eta_Config Conf_SwitchLowerRelease v x).
Definition set_Conf_CheckBinFilter (v : bool) (x : Config) : Config :=
  ltac:(assign_field eta_Config Conf_CheckBinFilter v x).
Definition set_Conf_CheckReplFilter (v : bool) (x : Config) : Config :=
  ltac:(assign_field eta_Config Conf_CheckReplFilter v x).
Definition set_Conf_FailRestartUnsafe (v : bool) (x : Config) : Config :=
  ltac:(assign_field eta_Config Conf_FailRestartUnsafe v x).
Definition set_Conf_FailoverMdevCheck (v : bool) (x : Config) : Config :=
  ltac:(assign_field eta_Config Conf_FailoverMdevCheck v x).
Definition set_Conf_FailoverCheckDelayStat (v : bool) (x : Config) : Config :=
  ltac:(assign_field eta_Config Conf_FailoverCheckDelayStat v x).
Definition set_Conf_Interactive (v : bool) (x : Config) : Config :=
  ltac:(assign_field eta_Config Conf_Interactive v x).
Definition set_Conf_ReadOnly (v : bool) (x : Config) : Config :=
  ltac:(assign_field eta_Config Conf_ReadOnly v x).
Definition set_Conf_SuperReadOnly (v : bool) (x : Config) : Config :=
  ltac:(assign_field eta_Config Conf_SuperReadOnly v x).
Definition set_Conf_SwitchSlaveWaitCatch (v : bool) (x : Config) : Config :=
  ltac:(assign_field eta_Config Conf_SwitchSlaveWaitCatch v x).
Definition set_Conf_SwitchDecreaseMaxConn (v : bool) (x : Config) : Config :=
  ltac:(assign_field eta_Config Conf_SwitchDecreaseMaxConn v x).
Definition set_Conf_SwitchoverCopyOldLeaderGtid (v : bool) (x : Config) : Config :=
  ltac:(assign_field eta_Config Conf_SwitchoverCopyOldLeaderGtid v x).
Definition set_Conf_MultiMasterConcurrentWrite (v : bool) (x : Config) : Config :=
  ltac:(assign_field eta_Config Conf_MultiMasterConcurrentWrite v x).
Definition set_Conf_AutorejoinSlavePositionalHeartbeat (v : bool) (x : Config) : Config :=
  ltac:(assign_field eta_Config Conf_AutorejoinSlavePositionalHeartbeat v x).
Definition set_Conf_FailEventScheduler (v : bool) (x : Config) : Config :=
  ltac:(assign_field eta_Config Conf_FailEventScheduler v x).
Definition set_Conf_FailEventStatus (v : bool) (x : Config) : Config :=
  ltac:(assign_field eta_Config Conf_FailEventStatus v x).
Definition set_Conf_FailoverSemiSyncState (v : bool) (x : Config) : Config :=
  ltac:(assign_field eta_Config Conf_FailoverSemiSyncState v x).
Definition set_Conf_ReplicationSSL (v : bool) (x : Config) : Config :=
  ltac:(assign_field eta_Config Conf_ReplicationSSL v x).
Definition set_Conf_ForceSlaveNoGtid (v : bool) (x : Config) : Config :=
  ltac:(assign_field eta_Config Conf_ForceSlaveNoGtid v x).
Definition set_Conf_Arbitration (v : bool) (x : Config) : Config :=
  ltac:(assign_field eta_Config Conf_Arbitration v x).
Definition set_Conf_CheckFalsePositiveHeartbeat (v : bool) (x : Config) : Config :=
  ltac:(assign_field eta_Config Conf_CheckFalsePositiveHeartbeat v x).
Definition set_Conf_CheckFalsePositiveMaxscale (v : bool) (x : Config) : Config :=
  ltac:(assign_field eta_Config Conf_CheckFalsePositiveMaxscale v x).
Definition set_Conf_CheckFalsePositiveExternal (v : bool) (x : Config) : Config :=
  ltac:(assign_field eta_Config Conf_CheckFalsePositiveExternal v x).
Definition set_Conf_MxsOn (v : bool) (x : Config) : Config :=
  ltac:(assign_field eta_Config Conf_MxsOn v x).
Definition set_Conf_RplCheckErrantTrx (v : bool) (x : Config) : Config :=
  ltac:(assign_field eta_Config Conf_RplCheckErrantTrx v x).
Definition set_Conf_MonitorCapture (v : bool) (x : Config) : Config :=
  ltac:(assign_field eta_Config Conf_MonitorCapture v x).
Definition set_Conf_MonitorProcessList (v : bool) (x : Config) : Config :=
  ltac:(assign_field eta_Config Conf_MonitorProcessList v x).
Definition set_Conf_MonitorScheduler (v : bool) (x : Config) : Config :=
  ltac:(assign_field eta_Config Conf_MonitorScheduler v x).
Definition set_Conf_MonitorInnoDBStatus (v : bool) (x : Config) : Config :=
  ltac:(assign_field eta_Config Conf_MonitorInnoDBStatus v x).
Definition set_Conf_MonitorPlugins (v : bool) (x : Config) : Config :=
  ltac:(assign_field eta_Config Conf_MonitorPlugins v x).
Definition set_Conf_DelayStatCapture (v : bool) (x : Config) : Config :=
  ltac:(assign_field eta_Config Conf_DelayStatCapture v x).
Definition set_Conf_FailMaxDelay (v : Z) (x : Config) : Config :=
  ltac:(assign_field eta_Config Conf_FailMaxDelay v x).
Definition set_Conf_MaxFail (v : Z) (x : Config) : Config :=
  ltac:(assign_field eta_Config Conf_MaxFail v x).
Definition set_Conf_FailLimit (v : Z) (x : Config) : Config :=
  ltac:(assign_field eta_Config Conf_FailLimit v x).
Definition set_Conf_FailTime (v : Z) (x : Config) : Config :=
  ltac:(assign_field eta_Config Conf_FailTime v x).
Definition set_Conf_SwitchWaitKill (v : Z) (x : Config) : Config :=
  ltac:(assign_field eta_Config Conf_SwitchWaitKill v x).
Definition set_Conf_SwitchWaitTrx (v : Z) (x : Config) : Config :=
  ltac:(assign_field eta_Config Conf_SwitchWaitTrx v x).
Definition set_Conf_SwitchWaitWrite (v : Z) (x : Config) : Config :=
  ltac:(assign_field eta_Config Conf_SwitchWaitWrite v x).
Definition set_Conf_SwitchSlaveWaitRouteChange (v : Z) (x : Config) : Config :=
  ltac:(assign_field eta_Config Conf_SwitchSlaveWaitRouteChange v x).
Definition set_Conf_ForceSlaveHeartbeatRetry (v : Z) (x : Config) : Config :=
  ltac:(assign_field eta_Config Conf_ForceSlaveHeartbeatRetry v x).
Definition set_Conf_ForceSlaveHeartbeatTime (v : Z) (x : Config) : Config :=
  ltac:(assign_field eta_Config Conf_ForceSlaveHeartbeatTime v x).
Definition set_Conf_HostsDelayedTime (v : Z) (x : Config) : Config :=
  ltac:(assign_field eta_Config Conf_HostsDelayedTime v x).
Definition set_Conf_FailoverLogFileKeep (v : Z) (x : Config) : Config :=
  ltac:(assign_field eta_Config Conf_FailoverLogFileKeep v x).
Definition set_Conf_SwitchDecreaseMaxConnValue (v : Z) (x : Config) : Config :=
  ltac:(assign_field eta_Config Conf_SwitchDecreaseMaxConnValue v x).
Definition set_Conf_CheckFalsePositiveExternalPort (v : Z) (x : Config) : Config :=
  ltac:(assign_field eta_Config Conf_CheckFalsePositiveExternalPort v x).
Definition set_Conf_CheckFalsePositiveHeartbeatTimeout (v : Z) (x : Config) : Config :=
  ltac:(assign_field eta_Config Conf_CheckFalsePositiveHeartbeatTimeout v x).
Definition set_Conf_CheckFalsePositiveMaxscaleTimeout (v : Z) (x : Config) : Config :=
  ltac:(assign_field eta_Config Conf_CheckFalsePositiveMaxscaleTimeout v x).
Definition set_Conf_MxsMaxinfoPort (v : Z) (x : Config) : Config :=
  ltac:(assign_field eta_Config Conf_MxsMaxinfoPort v x).
Definition set_Conf_ArbitrationSasUniqueId (v : Z) (x : Config) : Config :=
  ltac:(assign_field eta_Config Conf_ArbitrationSasUniqueId v x).
Definition set_Conf_DelayStatRotate (v : Z) (x : Config) : Config :=
  ltac:(assign_field eta_Config Conf_DelayStatRotate v x).
Definition set_Conf_DbServersCredential (v : string) (x : Config) : Config :=
  ltac:(assign_field eta_Config Conf_DbServersCredential v x).
Definition set_Conf_WorkingDir (v : string) (x : Config) : Config :=
  ltac:(assign_field eta_Config Conf_WorkingDir v x).
Definition set_Conf_ShareDir (v : string) (x : Config) : Config :=
  ltac:(assign_field eta_Config Conf_ShareDir v x).
Definition set_Conf_GoArch (v : string) (x : Config) : Config :=
  ltac:(assign_field eta_Config Conf_GoArch v x).
Definition set_Conf_GoOS (v : string) (x : Config) : Config :=
  ltac:(assign_field eta_Config Conf_GoOS v x).
Definition set_Conf_RejoinScript (v : string) (x : Config) : Config :=
  ltac:(assign_field eta_Config Conf_RejoinScript v x).
Definition set_Conf_BackupLoadScript (v : string) (x : Config) : Config :=
  ltac:(assign_field eta_Config Conf_BackupLoadScript v x).
Definition set_Conf_BackupMysqlbinlogPath (v : string) (x : Config) : Config :=
  ltac:(assign_field eta_Config Conf_BackupMysqlbinlogPath v x).
Definition set_Conf_BackupMysqlclientPath (v : string) (x : Config) : Config :=
  ltac:(assign_field eta_Config Conf_BackupMysqlclientPath v x).
Definition set_Conf_BackupMysqldumpPath (v : string) (x : Config) : Config :=
  ltac:(assign_field eta_Config Conf_BackupMysqldumpPath v x).
Definition set_Conf_Autoseed (v : bool) (x : Config) : Config :=
  ltac:(assign_field eta_Config Conf_Autoseed v x).
Definition set_Conf_AutorejoinForceRestore (v : bool) (x : Config) : Config :=
  ltac:(assign_field eta_Config Conf_AutorejoinForceRestore v x).
Definition set_Conf_AutorejoinFlashback (v : bool) (x : Config) : Config :=
  ltac:(assign_field eta_Config Conf_AutorejoinFlashback v x).
Definition set_Conf_AutorejoinBackupBinlog (v : bool) (x : Config) : Config :=
  ltac:(assign_field eta_Config Conf_AutorejoinBackupBinlog v x).
Definition set_Conf_AutorejoinMysqldump (v : bool) (x : Config) : Config :=
  ltac:(assign_field eta_Config Conf_AutorejoinMysqldump v x).
Definition set_Conf_AutorejoinLogicalBackup (v : bool) (x : Config) : Config :=
  ltac:(assign_field eta_Config Conf_AutorejoinLogicalBackup v x).
Definition set_Conf_AutorejoinPhysicalBackup (v : bool) (x : Config) : Config :=
  ltac:(assign_field eta_Config Conf_AutorejoinPhysicalBackup v x).
Definition set_Conf_AutorejoinZFSFlashback (v : bool) (x : Config) : Config :=
  ltac:(assign_field eta_Config Conf_AutorejoinZFSFlashback v x).
Definition set_Conf_CheckType (v : string) (x : Config) : Config :=
  ltac:(assign_field eta_Config Conf_CheckType v x).
Definition set_Conf_ArbitratorAddress (v : string) (x : Config) : Config :=
  ltac:(assign_field eta_Config Conf_ArbitratorAddress v x).
Definition set_Conf_ArbitrationFailedMasterScript (v : string) (x : Config) : Config :=
  ltac:(assign_field eta_Config Conf_ArbitrationFailedMasterScript v x).
Definition set_Conf_ReplicationErrorScript (v : string) (x : Config) : Config :=
  ltac:(assign_field eta_Config Conf_ReplicationErrorScript v x).
Definition set_Conf_ReplicationRestartOnSQLErrorMatch (v : string) (x : Config) : Config :=
  ltac:(assign_field eta_Config Conf_ReplicationRestartOnSQLErrorMatch v x).
Definition set_Conf_ForceSlaveParallelMode (v : string) (x : Config) : Config :=
  ltac:(assign_field eta_Config Conf_ForceSlaveParallelMode v x).
Definition set_Conf_Autorejoin (v : bool) (x : Config) : Config :=
  ltac:(assign_field eta_Config Conf_Autorejoin v x).
Definition set_Conf_Spider (v : bool) (x : Config) : Config :=
  ltac:(assign_field eta_Config Conf_Spider v x).
Definition set_Conf_MultiMasterRingUnsafe (v : bool) (x : Config) : Config :=
  ltac:(assign_field eta_Config Conf_MultiMasterRingUnsafe v x).
Definition set_Conf_ForceSlaveSemisync (v : bool) (x : Config) : Config :=
  ltac:(assign_field eta_Config Conf_ForceSlaveSemisync v x).
Definition set_Conf_ForceBinlogRow (v : bool) (x : Config) : Config :=
  ltac:(assign_field eta_Config Conf_ForceBinlogRow v x).
Definition set_Conf_ForceSlaveReadOnly (v : bool) (x : Config) : Config :=
  ltac:(assign_field eta_Config Conf_ForceSlaveReadOnly v x).
Definition set_Conf_ForceSlaveHeartbeat (v : bool) (x : Config) : Config :=
  ltac:(assign_field eta_Config Conf_ForceSlaveHeartbeat v x).
Definition set_Conf_ForceSlaveGtid (v : bool) (x : Config) : Config :=
  ltac:(assign_field eta_Config Conf_ForceSlaveGtid v x).
Definition set_Conf_ForceSlaveGtidStrict (v : bool) (x : Config) : Config :=
  ltac:(assign_field eta_Config Conf_ForceSlaveGtidStrict v x).
Definition set_Conf_ForceSlaveIdempotent (v : bool) (x : Config) : Config :=
  ltac:(assign_field eta_Config Conf_ForceSlaveIdempotent v x).
Definition set_Conf_ForceSlaveStrict (v : bool) (x : Config) : Config :=
  ltac:(assign_field eta_Config Conf_ForceSlaveStrict v x).
Definition set_Conf_ForceSyncInnoDB (v : bool) (x : Config) : Config :=
  ltac:(assign_field eta_Config Conf_ForceSyncInnoDB v x).
Definition set_Conf_ForceBinlogChecksum (v : bool) (x : Config) : Config :=
  ltac:(assign_field eta_Config Conf_ForceBinlogChecksum v x).
Definition set_Conf_ForceBinlogSlowqueries (v : bool) (x : Config) : Config :=
  ltac:(assign_field eta_Config Conf_ForceBinlogSlowqueries v x).
Definition set_Conf_ForceBinlogAnnotate (v : bool) (x : Config) : Config :=
  ltac:(assign_field eta_Config Conf_ForceBinlogAnnotate v x).
Definition set_Conf_ForceBinlogCompress (v : bool) (x : Config) : Config :=
  ltac:(assign_field eta_Config Conf_ForceBinlogCompress v x).
Definition set_Conf_ForceSyncBinlog (v : bool) (x : Config) : Config :=
  ltac:(assign_field eta_Config Conf_ForceSyncBinlog v x).
Definition set_Conf_CheckGrants (v : bool) (x : Config) : Config :=
  ltac:(assign_field eta_Config Conf_CheckGrants v x).
Definition set_Conf_TestInjectTraffic (v : bool) (x : Config) : Config :=
  ltac:(assign_field eta_Config Conf_TestInjectTraffic v x).
Definition set_Conf_MonitorWriteHeartbeat (v : bool) (x : Config) : Config :=
  ltac:(assign_field eta_Config Conf_MonitorWriteHeartbeat v x).
Definition set_Conf_MonitorPause (v : bool) (x : Config) : Config :=
  ltac:(assign_field eta_Config Conf_MonitorPause v x).
Definition set_Conf_ArbitrationReadTimout (v : Z) (x : Config) : Config :=
  ltac:(assign_field eta_Config Conf_ArbitrationReadTimout v x).
Definition set_Conf_MonitoringTicker (v : Z) (x : Config) : Config :=
  ltac:(assign_field eta_Config Conf_MonitoringTicker v x).
Definition set_Conf_ForceBinlogPurge (v : bool) (x : Config) : Config :=
  ltac:(assign_field eta_Config Conf_ForceBinlogPurge v x).
Definition set_Conf_ForceBinlogPurgeReplicas (v : bool) (x : Config) : Config :=
  ltac:(assign_field eta_Config Conf_ForceBinlogPurgeReplicas v x).
Definition set_Conf_ForceBinlogPurgeOnRestore (v : bool) (x : Config) : Config :=
  ltac:(assign_field eta_Config Conf_ForceBinlogPurgeOnRestore v x).
Definition set_Conf_ForceBinlogPurgeTotalSize (v : Z) (x : Config) : Config :=
  ltac:(assign_field eta_Config Conf_ForceBinlogPurgeTotalSize v x).
Definition set_Conf_ForceBinlogPurgeMinReplica (v : Z) (x : Config) : Config :=
  ltac:(assign_field eta_Config Conf_ForceBinlogPurgeMinReplica v x).
Definition set_Conf_BackupBinlogs (v : bool) (x : Config) : Config :=
  ltac:(assign_field eta_Config Conf_BackupBinlogs v x).
Definition set_Conf_BinlogRotationScript (v : string) (x : Config) : Config :=
  ltac:(assign_field eta_Config Conf_BinlogRotationScript v x).
Definition set_Conf_ProxysqlOn (v : bool) (x : Config) : Config :=
  ltac:(assign_field eta_Config Conf_ProxysqlOn v x).
Definition set_Conf_ProxysqlBootstrap (v : bool) (x : Config) : Config :=
  ltac:(assign_field eta_Config Conf_ProxysqlBootstrap v x).
Definition set_Conf_ProxysqlBootstrapHG (v : bool) (x : Config) : Config :=
  ltac:(assign_field eta_Config Conf_ProxysqlBootstrapHG v x).
Definition set_Conf_ProxysqlBootstrapVariables (v : bool) (x : Config) : Config :=
  ltac:(assign_field eta_Config Conf_ProxysqlBootstrapVariables v x).
Definition set_Conf_ProxysqlMultiplexing (v : bool) (x : Config) : Config :=
  ltac:(assign_field eta_Config Conf_ProxysqlMultiplexing v x).
Definition set_Conf_ProxysqlSaveToDisk (v : bool) (x : Config) : Config :=
  ltac:(assign_field eta_Config Conf_ProxysqlSaveToDisk v x).
Definition set_Conf_ProxysqlCopyGrants (v : bool) (x : Config) : Config :=
  ltac:(assign_field eta_Config Conf_ProxysqlCopyGrants v x).
Definition set_Conf_PRXServersBackendCompression (v : bool) (x : Config) : Config :=
  ltac:(assign_field eta_Config Conf_PRXServersBackendCompression v x).
Definition set_Conf_PRXServersBackendMaxReplicationLag (v : Z) (x : Config) : Config :=
  ltac:(assign_field eta_Config Conf_PRXServersBackendMaxReplicationLag v x).
Definition set_Conf_PRXServersBackendMaxConnections (v : Z) (x : Config) : Config :=
  ltac:(assign_field eta_Config Conf_PRXServersBackendMaxConnections v x).
Definition set_Conf_MonitorWaitRetry (v : Z) (x : Config) : Config :=
  ltac:(assign_field eta_Config Conf_MonitorWaitRetry v x).
Definition set_Conf_MonitorWriteHeartbeatCredential (v : string) (x : Config) : Config :=
  ltac:(assign_field eta_Config Conf_MonitorWriteHeartbeatCredential v x).
Definition set_Conf_PRXServersChangeStateScript (v : string) (x : Config) : Config :=
  ltac:(assign_field eta_Config Conf_PRXServersChangeStateScript v x).
Definition set_Conf_MonitoringOpenStateScript (v : string) (x : Config) : Config :=
  ltac:(assign_field eta_Config Conf_MonitoringOpenStateScript v x).
Definition set_Conf_MonitoringCloseStateScript (v : string) (x : Config) : Config :=
  ltac:(assign_field eta_Config Conf_MonitoringCloseStateScript v x).
Definition set_Conf_BackupPhysicalType (v : string) (x : Config) : Config :=
  ltac:(assign_field eta_Config Conf_BackupPhysicalType v x).
Definition set_Conf_ProvDbBootstrapScript (v : string) (x : Config) : Config :=
  ltac:(assign_field eta_Config Conf_ProvDbBootstrapScript v x).
Definition set_Conf_ProvDbCleanupScript (v : string) (x : Config) : Config :=
  ltac:(assign_field eta_Config Conf_ProvDbCleanupScript v x).
Definition set_Conf_ProvDbStartScript (v : string) (x : Config) : Config :=
  ltac:(assign_field eta_Config Conf_ProvDbStartScript v x).
Definition set_Conf_ProvDbStopScript (v : string) (x : Config) : Config :=
  ltac:(assign_field eta_Config Conf_ProvDbStopScript v x).
Definition set_Conf_ProvProxyBootstrapScript (v : string) (x : Config) : Config :=
  ltac:(assign_field eta_Config Conf_ProvProxyBootstrapScript v x).
Definition set_Conf_ProvProxyCleanupScript (v : string) (x : Config) : Config :=
  ltac:(assign_field eta_Config Conf_ProvProxyCleanupScript v x).
Definition set_Conf_ProvProxyStartScript (v : string) (x : Config) : Config :=
  ltac:(assign_field eta_Config Conf_ProvProxyStartScript v x).
Definition set_Conf_ProvProxyStopScript (v : string) (x : Config) : Config :=
  ltac:(assign_field eta_Config Conf_ProvProxyStopScript v x).
Definition set_Conf_ProvSerialized (v : bool) (x : Config) : Config :=
  ltac:(assign_field eta_Config Conf_ProvSerialized v x).
Definition set_Conf_Test (v : bool) (x : Config) : Config :=
  ltac:(assign_field eta_Config Conf_Test v x).
Definition set_Conf_SchedulerAlertDisableTime (v : Z) (x : Config) : Config :=
  ltac:(assign_field eta_Config Conf_SchedulerAlertDisableTime v x).


(** ** Topologies and levels *)

Definition TopoMasterSlave : string := "master-slave".
Definition TopoUnknown : string := "unknown".
Definition TopoBinlogServer : string := "binlog-server".
Definition TopoMultiTierSlave : string := "multi-tier-slave".
Definition TopoMultiMaster : string := "multi-master".
Definition TopoMultiMasterRing : string := "multi-master-ring".
Definition TopoMultiMasterWsrep : string := "multi-master-wsrep".
Definition TopoMultiMasterGrouprep : string := "multi-master-grprep".
Definition TopoMasterSlavePgLog : string := "master-slave-pg-logical".
Definition TopoMasterSlavePgStream : string := "master-slave-pg-stream".
Definition TopoActivePassive : string := "active-passive".

Definition LvlInfo : string := "INFO".
Definition LvlWarn : string := "WARN".
Definition LvlErr : string := "ERROR".

Definition VaultConfigStoreV2 : string := "config_store_v2".

(** ** Messages of the states *)

Definition ClusterError_table : list (string * string) := [
  ("ERR00001", "Monitor freeze while running critical section");
  ("ERR00002", "Waiting for a user manual failover");
  ("ERR00004", "Database %s access denied: %s");
  ("ERR00005", "Could not get privileges for user %s@%s: %s");
  ("ERR00006", "User must have REPLICATION CLIENT privilege on %s");
  ("ERR00007", "User must have REPLICATION SLAVE privilege on %s");
  ("ERR00008", "User must have SUPER privilege %s");
  ("ERR00009", "User must have RELOAD privilege %s");
  ("ERR00010", "Could not find a slave in topology");
  ("ERR00011", "Found multiple masters in topology but not explicitely setup");
  ("ERR00012", "Could not find a master in topology");
  ("ERR00013", "Binary log disabled on slave: %s");
  ("ERR00014", "Could not get binlog dump count on server %s: %s");
  ("ERR00015", "Could not get privileges for user %s on server %s: %s");
  ("ERR00016", "Master is unreachable but slaves are replicating");
  ("ERR00017", "Unable to fetch MaxScale monitoring information");
  ("ERR00018", "Could not connect to MaxScale: %s");
  ("ERR00019", "Could not get MaxScale maxadmin server list: %s");
  ("ERR00020", "Could not get MaxScale maxinfo server list: %s");
  ("ERR00021", "Cluster state down");
  ("ERR00022", "Running in passive mode");
  ("ERR00023", "Constraint failed: state %s, conf.Interactive %t cluster.isMaxMasterFailedCountReach %t");
  ("ERR00024", "Constraint failed: isExternalOk %t,isActiveArbitration %t,isBeetwenFailoverTimeTooShort %t ,isMaxClusterFailoverCountReach %t, isOneSlaveHeartbeatIncreasing %t, isMaxscaleSupectRunning %t");
  ("ERR00025", "Could not get MaxScale maxinfo server list: %s");
  ("ERR00026", "First node restarted is a slave, non-interactive mode");
  ("ERR00027", "Number of cluster failovers exceeded");
  ("ERR00028", "Slave %s can still communicate with the master");
  ("ERR00029", "Time between failovers too short");
  ("ERR00030", "Maxscale %s can still communicate with the master");
  ("ERR00031", "External API can still communicate with the master");
  ("ERR00032", "No candidates found in slaves list");
  ("ERR00033", "Skip slave in election %s have no master log file, slave might have failed");
  ("ERR00034", "Skip slave in election %s repl not electable for switchover");
  ("ERR00035", "Skip slave in election %s multi-master and is already the master");
  ("ERR00036", "Skip slave in election %s is relay");
  ("ERR00037", "Skip slave in election %s in ignore list");
  ("ERR00038", "Skip slave in election %s repl not electable for failover");
  ("ERR00039", "Skip slave in election %s repl not electable");
  ("ERR00040", "Skip slave in election %s does not ping or has no binlogs");
  ("ERR00041", "Skip slave in election %s has more than %d seconds of replication delay (%d)");
  ("ERR00042", "Skip slave in election %s SQL Thread is stopped");
  ("ERR00043", "Skip slave in election %s Semisync report unsynced");
  ("ERR00044", "Can't connect to OpenSVC collector %s");
  ("ERR00045", "Found forbidden relay topology, trying to fix");
  ("ERR00046", "Can't fix relay topology: high replication delay");
  ("ERR00047", "Skip slave in election %s - Maintenance mode");
  ("ERR00048", "Broken muti master ring");
  ("ERR00049", "Waiting old master to rejoin in positional mode to rejoin slave");
  ("ERR00050", "Can't connect to proxy %s");
  ("ERR00051", "ProxySQL connection error: %s");
  ("ERR00052", "Could not get stats to HaProxy: %s");
  ("ERR00053", "ProxySQL can't load users (%s)");
  ("ERR00054", "ProxySQL can't add user (%s)");
  ("ERR00055", "Arbitrator unreachable (%s)");
  ("ERR00056", "Master user %s is not defined on replication candidate %s");
  ("ERR00057", "Database duplicate users not allowed in proxysql %s");
  ("ERR00058", "Sphinx connection error: %s");
  ("ERR00059", "Ignored server %s not found in configured server list");
  ("ERR00060", "To many non closed task in scheduler, donor may not work on server %s");
  ("ERR00061", "No user:password credential specified");
  ("ERR00062", "DNS resolution for host %s error %s");
  ("ERR00063", "Extra master in master slave topology rejoin it after split brain");
  ("ERR00064", "Server %s is not a slave of declared master %s, and replication no relay is enable: Pointing to %s");
  ("ERR00065", "No crash found on current master when rejoining slave %s to %s");
  ("ERR00066", "No crash found on current master when rejoining standalone %s to %s");
  ("ERR00067", "Found slave to rejoin %s slave was previously in state %s replication io thread  %s, pointing currently to %s");
  ("ERR00068", "Arbitration looser");
  ("ERR00069", "ProxySQL could not set %s as reader (%s) different state OFFLINE_HARD");
  ("ERR00070", "ProxySQL could not set %s as reader (%s) different state ONLINE");
  ("ERR00071", "ProxySQL %s could not set discoverd master %s as writer (%s)");
  ("ERR00072", "ProxySQL %s could not set discoverd slave %s as reader (%s)");
  ("ERR00073", "Could not get events on server %s");
  ("ERR00074", "Prefered server %s not found in configured server list");
  ("ERR00075", "Can't fecth Processlist %s");
  ("ERR00076", "Connections reach 80 pourcent threshold: %s");
  ("ERR00077", "All databases state down");
  ("ERR00078", "Could not resolve IP from connection %s@%s: with hostname %s on server %s");
  ("ERR00079", "Disk %s usage high on %s");
  ("ERR00080", "Connection use old TLS keys on %s");
  ("ERR00081", "Connection use no TLS keys on %s");
  ("ERR00082", "Could not get agents from orchestrator %s");
  ("ERR00083", "Different cluster uuid found on %s:%s %s:%s");
  ("ERR00084", "Cluster have no master when slave %s was started");
  ("ERR00085", "No replica found for routing reads");
  ("ERR00086", "Sharding proxy refresh no database monitor yet initialize");
  ("ERR00087", "Skip slave in election %s IO Thread is stopped with valid leader");
  ("ERR00088", "Authentification error in replication IO thread");
  ("ERR00089", "Authentification error to Vault %s");
  ("ERR00090", "Monitoring save config enable but no encryption key for password, see the keygen command");
  ("ERR00091", "Proxysql %s found active server %s as OFFLINE_SOFT in ProxySQL.");
  ("ERR00092", "Cluster [%s] topology (%s) is not same with target topology (%s).");
  ("ERR00093", "Proxysql %s has read on master no slave and found no active reader but bootstrap is turned off.");
  ("ERR00094", "Proxysql %s can not set %s as OFFLINE_SOFT: %s");
  ("ERR00095", "ProxySQL %s could not load servers to runtime: %s");
  ("ERR00096", "Proxysql %s can not save changes to disk: %s");
  ("WARN0022", "Rejoining standalone server %s to master %s");
  ("WARN0023", "Number of failed master ping has been reached");
  ("WARN0045", "Provision task is in queue");
  ("WARN0046", "Provision task is waiting");
  ("WARN0047", "Entreprise provision of MariaDB Sharding Cluster not yet implemented");
  ("WARN0048", "No semisync settings on slave %s");
  ("WARN0049", "No binlog format ROW on slave %s and flashback activated");
  ("WARN0050", "No Heartbeat <= 1s on slave %s");
  ("WARN0051", "No GTID replication on slave %s");
  ("WARN0052", "No InnoDB durability on slave %s");
  ("WARN0053", "No replication checksum on slave %s");
  ("WARN0054", "No log of replication queries in slow query on slave %s");
  ("WARN0055", "ROW or MIXED binlog format and replicate_annotate_row_events is off on slave %s");
  ("WARN0056", "No compression of binlog on slave %s");
  ("WARN0057", "No log-slave-updates on slave %s");
  ("WARN0058", "No GTID strict mode on slave %s");
  ("WARN0059", "No replication crash-safe settings on slave %s");
  ("WARN0060", "No semisync settings on master %s");
  ("WARN0061", "No binlog format ROW on master %s and flashback activated");
  ("WARN0062", "No Heartbeat <= 1s on master %s");
  ("WARN0064", "No InnoDB durability on master %s");
  ("WARN0065", "No replication checksum on master %s");
  ("WARN0066", "No log of replication queries in slow query on master %s");
  ("WARN0067", "RBR is on and Binlog Annotation is off on master %s");
  ("WARN0068", "No compression of binlog on slave %s");
  ("WARN0069", "No log-slave-updates on master %s");
  ("WARN0070", "No GTID strict mode on master %s");
  ("WARN0071", "No replication crash-safe settings on master %s");
  ("WARN0072", "Running optimize table %s on server %s");
  ("WARN0073", "Running physical backup %s on server %s");
  ("WARN0074", "Reseeding physical backup %s on server %s");
  ("WARN0075", "Reseeding logical backup %s on server %s");
  ("WARN0076", "Flashback physical backup %s on server %s");
  ("WARN0077", "Flashback logical backup %s on server %s");
  ("WARN0078", "Haproxy version to old to get statistics");
  ("WARN0079", "Cluster is split brain");
  ("WARN0080", "Cluster lost majority");
  ("WARN0081", "Cluster arbitrator error in reporting %s");
  ("WARN0082", "Cluster arbitrator error in arbitration %s");
  ("WARN0083", "Arbitration winner");
  ("WARN0084", "Variable diff:
 %s");
  ("WARN0085", "Server %s in capture mode");
  ("WARN0086", "Checksum table waiting replication sync on slave %s");
  ("WARN0087", "Cluster same server_id %s %s");
  ("WARN0088", "High number of slow queries %s ");
  ("WARN0089", "ShardProxy Could not fetch master schemas %s");
  ("WARN0090", "Cluster arbitrator unreachable %s");
  ("WARN0091", "Server as errant transaction %s");
  ("WARN0092", "ProxySQL could not load query rules from runtime (%s)");
  ("WARN0093", "Restic fetch repo issue: %s
%s
%s");
  ("WARN0094", "Restic purge repo issue: %s
%s
%s");
  ("WARN0095", "Restic init repo issue: %s
%s
%s");
  ("WARN0096", "Restart database server via job request %s");
  ("WARN0097", "Stop database server via job request %s");
  ("WARN0098", "ProxySQL could not load global variables from runtime (%s)");
  ("WARN0100", "No space left on device pn %s");
  ("WARN0101", "Cluster does not have backup");
  ("WARN0102", "The config file must be merge because an immutable parameter has been changed. Use the config-merge command to save your changes.");
  ("WARN0103", "Enforce replication mode idempotent but  strict on server %s");
  ("WARN0104", "Enforce replication mode strict but idempotent on server %s");
  ("WARN0105", "Force Binlog Purge is not yet available in multi master. Skipping");
  ("WARN0106", "Minimum number of connected replica(s) is not enough to initiate force purging. Minimum replicas: %d. Skipping");
  ("WARN0107", "Force Binlog Purge can not continue. Oldest binlog is still used by slaves: %s.%d. Skipping");
  ("WARN0108", "Default users still use default password. Please change the credentials for users: (%s)");
  ("WARN0109", "Error while checking master log file for purging in slave [%s] (%s) : %s
");
  ("WARN0110", "Pending %s backup using %s for [%s] due to another job. Waiting...");
  ("WARN0111", "Cluster does not have logical backup");
  ("WARN0112", "Cluster does not have physical backup");
  ("WARN0113", "Failed to reseed physical backup on server %s, please check %s.out");
  ("WARN0114", "Unable to process job on slave %s due to SUPER READ ONLY");
  ("WARN0115", "Failed to create physical backup on server %s");
  ("WARN0116", "Failed to create logical backup on server %s");
  ("WARN0117", "Failed to get db client version on repman: %s");
  ("WARN0118", "Failed to get dump client version on repman: %s");
  ("WARN0119", "Failed to get binlog client version on repman: %s");
  ("WARN0120", "Failed to get mydumper version on repman: %s");
  ("WARN0121", "Failed to get restic version on repman: %s");
  ("WARN0122", "Metadata lock: %s");
  ("WARN0123", "Scheduler error on %s: Previous job with same type (%s) is still running");
  ("WARN0124", "Scheduler error on %s: Unable to set sql_log_bin = 0 for insert job (%s). Err: %s");
  ("WARN0125", "Scheduler error on %s: Unable delete record for insert job (%s). Err: %s");
  ("WARN0126", "Scheduler error on %s: Unable to insert job (%s). Err: %s");
  ("WARN0127", "Scheduler error on %s: %s");
  ("WARN0128", "Provision is waiting for node %s refresh. Err: %s");
  ("WARN0129", "Provision is waiting for node %s running. Err: %s");
  ("WARN0130", "Error while rotating system logs on %s: %s. Err: %s");
  ("WARN0131", "Error while reading slow_log on %s. %s. Err: %s");
  ("WARN0132", "Unable to pull from repository %s. Err: %s");
  ("WARN0133", "Mydumper version %s is not compatible with MariaDB 10.7 and greater");
  ("MDEV20821", "MariaDB version has replication issue https://jira.mariadb.org/browse/MDEV-20821");
  ("MDEV28310", "MariaDB version has replication issue for non row format https://jira.mariadb.org/browse/MDEV-28310");
  ("MDEV19577", "MariaDB version has replication issue for non row format https://jira.mariadb.org/browse/MDEV-19577")
].

(** A missing key of a Go map reads as the zero value. *)
Fixpoint assoc_get (t : list (string * string)) (k : string) : string :=
  match t with
  | [] => ""
  | (k', v) :: r => if (k' =? k)%string then v else assoc_get r k
  end.

Definition ClusterError (k : string) : string := assoc_get ClusterError_table k.

(** [misc.SplitPair]: what precedes the first colon, and the rest. *)
Definition SplitPair (s : string) : string * string :=
  match strings_Split ":" s with
  | [] => ("", "")
  | [a] => (a, "")
  | a :: rest => (a, strings_Join rest ":")
  end.

Definition IsPath (str : string) : bool :=
  if strings_Contains str "=" || strings_Contains str "+" then false else strings_Contains str "/".

Definition IsVaultUsed (conf : Config) : bool := negb (Conf_VaultServerAddr conf =? "")%string.

(** splitting a [user:password] credential gives the user up to the first
    colon and the whole password, colons included. *)
Theorem SplitPair_credential (user pass : string) :
  char_in ":" user = false -> SplitPair (user +:+ ":" +:+ pass) = (user, pass).
Proof.
  intros Hu. unfold SplitPair.
  change (user +:+ ":" +:+ pass) with (user +:+ String ":" pass).
  rewrite Split_sep_app, Split_no_sep by done. cbn [app].
  destruct (strings_Split ":" pass) as [|x l] eqn:E; [by apply Split_nonempty in E|].
  rewrite <- E, Join_Split. done.
Qed.

Lemma SplitPair_credential_witness : SplitPair "repl:p:w" = ("repl", "p:w").
Proof. exact (SplitPair_credential "repl" "p:w" eq_refl). Defined.
