(* ===== verification/Server.v ===== *)
(** * Monitored database servers (cluster/srv.go, cluster/srv_has.go, cluster/srv_get.go)

    The state the manager keeps of one database server, the replication rows
    it reads from it, and the predicates and accessors of a server. A nil
    [DBVersion] makes the methods called on it panic: the definitions that
    dereference it return [None] then. Fields no modelled component reads are
    left out. *)

From Stdlib Require Import ZArith Lia Bool Ascii String.
From stdpp Require Import base list gmap strings.
From S2P Require Import Prelude GoLib Gtid Version StateMachine DelayStat Config.

Local Open Scope string_scope.
Local Open Scope list_scope.
Local Open Scope Z_scope.

(** ** Rows read from the database (utils/dbhelper) *)

Record NullString := mkNullString { ns_String : string; ns_Valid : bool }.
Definition nullString : NullString := mkNullString "" false.
Definition validString (s : string) : NullString := mkNullString s true.
#[export] Instance NullString_eq_dec : EqDecision NullString.
Proof. solve_decision. Defined.
Record NullInt64 := mkNullInt64 { ni_Int64 : Z; ni_Valid : bool }.
Record NullFloat64 := mkNullFloat64 { nf_Float64 : float64; nf_Valid : bool }.

Record MasterStatus := mkMasterStatus {
  ms_File : string; ms_Position : Z; ms_Binlog_Do_DB : string; ms_Binlog_Ignore_DB : string
}.
Definition zeroMasterStatus : MasterStatus := mkMasterStatus "" 0 "" "".

Record Event := mkEvent { ev_Db : string; ev_Name : string; ev_Definer : string; ev_Status : Z }.

Record Grant := mkGrant { gr_User : string; gr_Host : string; gr_Password : string }.

Record Processlist := mkProcess {
  pl_Command : string; pl_Time : NullFloat64; pl_State : NullString; pl_Info : NullString
}.

Record SlaveStatus := mkSlaveStatus {
  ss_ConnectionName : NullString; ss_MasterHost : NullString; ss_MasterUser : NullString;
  ss_MasterPort : NullString; ss_MasterLogFile : NullString; ss_ReadMasterLogPos :
  NullString; ss_RelayMasterLogFile : NullString; ss_SlaveIORunning : NullString;
  ss_SlaveSQLRunning : NullString; ss_ExecMasterLogPos : NullString; ss_SecondsBehindMaster
  : NullInt64; ss_LastIOErrno : NullString; ss_LastIOError : NullString; ss_LastSQLErrno :
  NullString; ss_LastSQLError : NullString; ss_MasterServerID : Z; ss_UsingGtid :
  NullString; ss_GtidIOPos : NullString; ss_GtidSlavePos : NullString;
  ss_SlaveHeartbeatPeriod : float64; ss_ExecutedGtidSet : NullString; ss_RetrievedGtidSet :
  NullString; ss_SlaveSQLRunningState : NullString; ss_DoDomainIds : NullString;
  ss_IgnoreDomainIds : NullString; ss_IgnoreServerIds : NullString
}.

Definition eta_SlaveStatus (x : SlaveStatus) : SlaveStatus :=
  mkSlaveStatus (ss_ConnectionName x) (ss_MasterHost x) (ss_MasterUser x) (ss_MasterPort x)
    (ss_MasterLogFile x) (ss_ReadMasterLogPos x) (ss_RelayMasterLogFile x)
    (ss_SlaveIORunning x) (ss_SlaveSQLRunning x) (ss_ExecMasterLogPos x)
    (ss_SecondsBehindMaster x) (ss_LastIOErrno x) (ss_LastIOError x) (ss_LastSQLErrno x)
    (ss_LastSQLError x) (ss_MasterServerID x) (ss_UsingGtid x) (ss_GtidIOPos x)
    (ss_GtidSlavePos x) (ss_SlaveHeartbeatPeriod x) (ss_ExecutedGtidSet x)
    (ss_RetrievedGtidSet x) (ss_SlaveSQLRunningState x) (ss_DoDomainIds x)
    (ss_IgnoreDomainIds x) (ss_IgnoreServerIds x).

(** The zero value of the struct. *)
Definition zeroSlaveStatus : SlaveStatus :=
  mkSlaveStatus nullString nullString nullString nullString nullString nullString nullString
    nullString nullString nullString (mkNullInt64 0 false) nullString nullString nullString
    nullString 0 nullString nullString nullString f64_zero nullString nullString nullString
    nullString nullString nullString.

Definition set_ss_ConnectionName (v : NullString) (x : SlaveStatus) : SlaveStatus :=
  ltac:(assign_field eta_SlaveStatus ss_ConnectionName v x).
Definition set_ss_MasterHost (v : NullString) (x : SlaveStatus) : SlaveStatus :=
  ltac:(assign_field eta_SlaveStatus ss_MasterHost v x).
Definition set_ss_MasterPort (v : NullString) (x : SlaveStatus) : SlaveStatus :=
  ltac:(assign_field eta_SlaveStatus ss_MasterPort v x).
Definition set_ss_MasterLogFile (v : NullString) (x : SlaveStatus) : SlaveStatus :=
  ltac:(assign_field eta_SlaveStatus ss_MasterLogFile v x).
Definition set_ss_ReadMasterLogPos (v : NullString) (x : SlaveStatus) : SlaveStatus :=
  ltac:(assign_field eta_SlaveStatus ss_ReadMasterLogPos v x).
Definition set_ss_SlaveIORunning (v : NullString) (x : SlaveStatus) : SlaveStatus :=
  ltac:(assign_field eta_SlaveStatus ss_SlaveIORunning v x).
Definition set_ss_SlaveSQLRunning (v : NullString) (x : SlaveStatus) : SlaveStatus :=
  ltac:(assign_field eta_SlaveStatus ss_SlaveSQLRunning v x).
Definition set_ss_SecondsBehindMaster (v : NullInt64) (x : SlaveStatus) : SlaveStatus :=
  ltac:(assign_field eta_SlaveStatus ss_SecondsBehindMaster v x).
Definition set_ss_MasterServerID (v : Z) (x : SlaveStatus) : SlaveStatus :=
  ltac:(assign_field eta_SlaveStatus ss_MasterServerID v x).
Definition set_ss_UsingGtid (v : NullString) (x : SlaveStatus) : SlaveStatus :=
  ltac:(assign_field eta_SlaveStatus ss_UsingGtid v x).
Definition set_ss_GtidIOPos (v : NullString) (x : SlaveStatus) : SlaveStatus :=
  ltac:(assign_field eta_SlaveStatus ss_GtidIOPos v x).

(** ** The server *)

Definition zeroServerDelayStat : ServerDelayStat :=
  mkSDS zeroDelayStat zeroDelayStat zeroDelayStat 0 [].

(** A binary log of a server ([dbhelper.BinaryLogMetadata]). *)
Record BinaryLogMetadata := mkBinaryLogMetadata { bl_Filename : string; bl_Size : Z }.

Record ServerMonitor := mkServerMonitor {
  srv_Id : string; srv_Name : string; srv_SourceClusterName : string; srv_Conn : bool;
  srv_URL : string; srv_Host : string; srv_Port : string; srv_IP : string; srv_ServerID : Z;
  srv_HashUUID : Z; srv_DomainID : Z; srv_GTIDBinlogPos : option (list Gtid);
  srv_CurrentGtid : option (list Gtid); srv_SlaveGtid : option (list Gtid); srv_GTIDExecuted
  : string; srv_ReadOnly : string; srv_State : string; srv_PrevState : string; srv_FailCount
  : Z; srv_BinaryLogFile : string; srv_BinaryLogPos : string; srv_FailoverMasterLogFile :
  string; srv_FailoverMasterLogPos : string; srv_FailoverSemiSyncSlaveStatus : bool;
  srv_SemiSyncMasterStatus : bool; srv_SemiSyncSlaveStatus : bool; srv_HaveEventScheduler :
  bool; srv_HaveSemiSync : bool; srv_HaveBinlogRow : bool; srv_HaveGtidStrictMode : bool;
  srv_HaveMySQLGTID : bool; srv_HaveMariaDBGTID : bool; srv_HaveWsrep : bool;
  srv_HaveReadOnly : bool; srv_HaveNoMasterOnStart : bool; srv_IsWsrepSync : bool;
  srv_IsWsrepDonor : bool; srv_IsWsrepPrimary : bool; srv_IsMaxscale : bool; srv_IsRelay :
  bool; srv_IsSlave : bool; srv_IsGroupReplicationSlave : bool; srv_IsGroupReplicationMaster
  : bool; srv_IsMaintenance : bool; srv_IsDelayed : bool; srv_IsFull : bool; srv_Ignored :
  bool; srv_IgnoredRO : bool; srv_Prefered : bool; srv_PreferedBackup : bool;
  srv_InCaptureMode : bool; srv_BinlogDumpThreads : Z; srv_MxsHaveGtid : bool;
  srv_MxsServerName : string; srv_MxsServerStatus : string; srv_Replications : list
  SlaveStatus; srv_LastSeenReplications : option (list SlaveStatus); srv_MasterStatus :
  MasterStatus; srv_ReplicationSourceName : string; srv_DBVersion : option Version; srv_QPS
  : Z; srv_ReplicationHealth : string; srv_EventStatus : list Event; srv_FullProcessList :
  list Processlist; srv_Variables : gmap string string; srv_Status : gmap string string;
  srv_PrevStatus : gmap string string; srv_Plugins : gmap string string; srv_MonitorTime :
  Z; srv_PrevMonitorTime : Z; srv_maxConn : string; srv_Datadir : string; srv_PostgressDB :
  string; srv_DelayStat : ServerDelayStat; srv_IsReseeding : string; srv_InPurgingBinaryLog
  : bool;
  srv_IsVirtualMaster : bool;
  srv_ReplicationsSeen : bool; srv_HaveSlaveIdempotent : bool;
  srv_HaveSlaveOptimistic : bool; srv_HaveSlaveSerialized : bool;
  srv_HaveSlaveAggressive : bool; srv_HaveSlaveMinimal : bool;
  srv_HaveSlaveConservative : bool; srv_HaveBinlogAnnotate : bool;
  srv_HaveBinlogSync : bool; srv_HaveBinlogCompress : bool;
  srv_HaveBinlogSlaveUpdates : bool; srv_HaveBinlogSlowqueries : bool;
  srv_HaveInnodbTrxCommit : bool; srv_HaveChecksum : bool; srv_HaveHealthyReplica : bool;
  srv_FailSuspectHeartbeat : Z; srv_Users : gmap string Grant;
  srv_BinaryLogFiles : gmap string BinaryLogMetadata; srv_BinaryLogFilesCount : Z;
  srv_BinaryLogFileOldest : string; srv_BinaryLogFilePrevious : string;
  srv_BinaryLogOldestTimestamp : Z; srv_BinaryLogPurgeBefore : Z;
  srv_IsBackingUpBinaryLog : bool; srv_IsRefreshingBinlog : bool;
  srv_ProxysqlHostgroup : string;
  srv_DSN : string; srv_Process : option Z
}.

Definition eta_ServerMonitor (x : ServerMonitor) : ServerMonitor :=
  mkServerMonitor (srv_Id x) (srv_Name x) (srv_SourceClusterName x) (srv_Conn x) (srv_URL x)
    (srv_Host x) (srv_Port x) (srv_IP x) (srv_ServerID x) (srv_HashUUID x) (srv_DomainID x)
    (srv_GTIDBinlogPos x) (srv_CurrentGtid x) (srv_SlaveGtid x) (srv_GTIDExecuted x)
    (srv_ReadOnly x) (srv_State x) (srv_PrevState x) (srv_FailCount x) (srv_BinaryLogFile x)
    (srv_BinaryLogPos x) (srv_FailoverMasterLogFile x) (srv_FailoverMasterLogPos x)
    (srv_FailoverSemiSyncSlaveStatus x) (srv_SemiSyncMasterStatus x)
    (srv_SemiSyncSlaveStatus x) (srv_HaveEventScheduler x) (srv_HaveSemiSync x)
    (srv_HaveBinlogRow x) (srv_HaveGtidStrictMode x) (srv_HaveMySQLGTID x)
    (srv_HaveMariaDBGTID x) (srv_HaveWsrep x) (srv_HaveReadOnly x) (srv_HaveNoMasterOnStart
    x) (srv_IsWsrepSync x) (srv_IsWsrepDonor x) (srv_IsWsrepPrimary x) (srv_IsMaxscale x)
    (srv_IsRelay x) (srv_IsSlave x) (srv_IsGroupReplicationSlave x)
    (srv_IsGroupReplicationMaster x) (srv_IsMaintenance x) (srv_IsDelayed x) (srv_IsFull x)
    (srv_Ignored x) (srv_IgnoredRO x) (srv_Prefered x) (srv_PreferedBackup x)
    (srv_InCaptureMode x) (srv_BinlogDumpThreads x) (srv_MxsHaveGtid x) (srv_MxsServerName
    x) (srv_MxsServerStatus x) (srv_Replications x) (srv_LastSeenReplications x)
    (srv_MasterStatus x) (srv_ReplicationSourceName x) (srv_DBVersion x) (srv_QPS x)
    (srv_ReplicationHealth x) (srv_EventStatus x) (srv_FullProcessList x) (srv_Variables x)
    (srv_Status x) (srv_PrevStatus x) (srv_Plugins x) (srv_MonitorTime x)
    (srv_PrevMonitorTime x) (srv_maxConn x) (srv_Datadir x) (srv_PostgressDB x)
    (srv_DelayStat x) (srv_IsReseeding x) (srv_InPurgingBinaryLog x)
    (srv_IsVirtualMaster x)
    (srv_ReplicationsSeen x) (srv_HaveSlaveIdempotent x) (srv_HaveSlaveOptimistic x)
    (srv_HaveSlaveSerialized x) (srv_HaveSlaveAggressive x) (srv_HaveSlaveMinimal x)
    (srv_HaveSlaveConservative x) (srv_HaveBinlogAnnotate x) (srv_HaveBinlogSync x)
    (srv_HaveBinlogCompress x) (srv_HaveBinlogSlaveUpdates x) (srv_HaveBinlogSlowqueries x)
    (srv_HaveInnodbTrxCommit x) (srv_HaveChecksum x) (srv_HaveHealthyReplica x)
    (srv_FailSuspectHeartbeat x) (srv_Users x)
    (srv_BinaryLogFiles x) (srv_BinaryLogFilesCount x) (srv_BinaryLogFileOldest x)
    (srv_BinaryLogFilePrevious x) (srv_BinaryLogOldestTimestamp x) (srv_BinaryLogPurgeBefore
    x) (srv_IsBackingUpBinaryLog x) (srv_IsRefreshingBinlog x)
    (srv_ProxysqlHostgroup x)
    (srv_DSN x) (srv_Process x).

(** The zero value of the struct. *)
Definition zeroServer : ServerMonitor :=
  mkServerMonitor "" "" "" false "" "" "" "" 0 0 0 None None None "" "" "" "" 0 "" "" "" ""
    false false false false false false false false false false false false false false
    false false false false false false false false false false false false false false 0
    false "" "" [] None zeroMasterStatus "" None 0 "" [] [] ∅ ∅ ∅ ∅ 0 0 "" "" ""
    zeroServerDelayStat "" false
    false
    false false false false false false false false false false false false false false
    false 0 ∅
    ∅ 0 "" "" 0 0 false false
    ""
    "" None.

Definition set_srv_Id (v : string) (x : ServerMonitor) : ServerMonitor :=
  ltac:(assign_field eta_ServerMonitor srv_Id v x).
Definition set_srv_Name (v : string) (x : ServerMonitor) : ServerMonitor :=
  ltac:(assign_field eta_ServerMonitor srv_Name v x).
Definition set_srv_SourceClusterName (v : string) (x : ServerMonitor) : ServerMonitor :=
  ltac:(assign_field eta_ServerMonitor srv_SourceClusterName v x).
Definition set_srv_Conn (v : bool) (x : ServerMonitor) : ServerMonitor :=
  ltac:(assign_field eta_ServerMonitor srv_Conn v x).
Definition set_srv_URL (v : string) (x : ServerMonitor) : ServerMonitor :=
  ltac:(assign_field eta_ServerMonitor srv_URL v x).
Definition set_srv_Host (v : string) (x : ServerMonitor) : ServerMonitor :=
  ltac:(assign_field eta_ServerMonitor srv_Host v x).
Definition set_srv_Port (v : string) (x : ServerMonitor) : ServerMonitor :=
  ltac:(assign_field eta_ServerMonitor srv_Port v x).
Definition set_srv_IP (v : string) (x : ServerMonitor) : ServerMonitor :=
  ltac:(assign_field eta_ServerMonitor srv_IP v x).
Definition set_srv_ServerID (v : Z) (x : ServerMonitor) : ServerMonitor :=
  ltac:(assign_field eta_ServerMonitor srv_ServerID v x).
Definition set_srv_HashUUID (v : Z) (x : ServerMonitor) : ServerMonitor :=
  ltac:(assign_field eta_ServerMonitor srv_HashUUID v x).
Definition set_srv_DomainID (v : Z) (x : ServerMonitor) : ServerMonitor :=
  ltac:(assign_field eta_ServerMonitor srv_DomainID v x).
Definition set_srv_GTIDBinlogPos (v : option (list Gtid)) (x : ServerMonitor) : ServerMonitor :=
  ltac:(assign_field eta_ServerMonitor srv_GTIDBinlogPos v x).
Definition set_srv_CurrentGtid (v : option (list Gtid)) (x : ServerMonitor) : ServerMonitor :=
  ltac:(assign_field eta_ServerMonitor srv_CurrentGtid v x).
Definition set_srv_SlaveGtid (v : option (list Gtid)) (x : ServerMonitor) : ServerMonitor :=
  ltac:(assign_field eta_ServerMonitor srv_SlaveGtid v x).
Definition set_srv_GTIDExecuted (v : string) (x : ServerMonitor) : ServerMonitor :=
  ltac:(assign_field eta_ServerMonitor srv_GTIDExecuted v x).
Definition set_srv_ReadOnly (v : string) (x : ServerMonitor) : ServerMonitor :=
  ltac:(assign_field eta_ServerMonitor srv_ReadOnly v x).
Definition set_srv_State (v : string) (x : ServerMonitor) : ServerMonitor :=
  ltac:(assign_field eta_ServerMonitor srv_State v x).
Definition set_srv_PrevState (v : string) (x : ServerMonitor) : ServerMonitor :=
  ltac:(assign_field eta_ServerMonitor srv_PrevState v x).
Definition set_srv_FailCount (v : Z) (x : ServerMonitor) : ServerMonitor :=
  ltac:(assign_field eta_ServerMonitor srv_FailCount v x).
Definition set_srv_BinaryLogFile (v : string) (x : ServerMonitor) : ServerMonitor :=
  ltac:(assign_field eta_ServerMonitor srv_BinaryLogFile v x).
Definition set_srv_BinaryLogPos (v : string) (x : ServerMonitor) : ServerMonitor :=
  ltac:(assign_field eta_ServerMonitor srv_BinaryLogPos v x).
Definition set_srv_FailoverMasterLogFile (v : string) (x : ServerMonitor) : ServerMonitor :=
  ltac:(assign_field eta_ServerMonitor srv_FailoverMasterLogFile v x).
Definition set_srv_FailoverMasterLogPos (v : string) (x : ServerMonitor) : ServerMonitor :=
  ltac:(assign_field eta_ServerMonitor srv_FailoverMasterLogPos v x).
Definition set_srv_FailoverSemiSyncSlaveStatus (v : bool) (x : ServerMonitor) : ServerMonitor :=
  ltac:(assign_field eta_ServerMonitor srv_FailoverSemiSyncSlaveStatus v x).
Definition set_srv_SemiSyncMasterStatus (v : bool) (x : ServerMonitor) : ServerMonitor :=
  ltac:(assign_field eta_ServerMonitor srv_SemiSyncMasterStatus v x).
Definition set_srv_SemiSyncSlaveStatus (v : bool) (x : ServerMonitor) : ServerMonitor :=
  ltac:(assign_field eta_ServerMonitor srv_SemiSyncSlaveStatus v x).
Definition set_srv_HaveEventScheduler (v : bool) (x : ServerMonitor) : ServerMonitor :=
  ltac:(assign_field eta_ServerMonitor srv_HaveEventScheduler v x).
Definition set_srv_HaveSemiSync (v : bool) (x : ServerMonitor) : ServerMonitor :=
  ltac:(assign_field eta_ServerMonitor srv_HaveSemiSync v x).
Definition set_srv_HaveBinlogRow (v : bool) (x : ServerMonitor) : ServerMonitor :=
  ltac:(assign_field eta_ServerMonitor srv_HaveBinlogRow v x).
Definition set_srv_HaveGtidStrictMode (v : bool) (x : ServerMonitor) : ServerMonitor :=
  ltac:(assign_field eta_ServerMonitor srv_HaveGtidStrictMode v x).
Definition set_srv_HaveMySQLGTID (v : bool) (x : ServerMonitor) : ServerMonitor :=
  ltac:(assign_field eta_ServerMonitor srv_HaveMySQLGTID v x).
Definition set_srv_HaveMariaDBGTID (v : bool) (x : ServerMonitor) : ServerMonitor :=
  ltac:(assign_field eta_ServerMonitor srv_HaveMariaDBGTID v x).
Definition set_srv_HaveWsrep (v : bool) (x : ServerMonitor) : ServerMonitor :=
  ltac:(assign_field eta_ServerMonitor srv_HaveWsrep v x).
Definition set_srv_HaveReadOnly (v : bool) (x : ServerMonitor) : ServerMonitor :=
  ltac:(assign_field eta_ServerMonitor srv_HaveReadOnly v x).
Definition set_srv_HaveNoMasterOnStart (v : bool) (x : ServerMonitor) : ServerMonitor :=
  ltac:(assign_field eta_ServerMonitor srv_HaveNoMasterOnStart v x).
Definition set_srv_IsWsrepSync (v : bool) (x : ServerMonitor) : ServerMonitor :=
  ltac:(assign_field eta_ServerMonitor srv_IsWsrepSync v x).
Definition set_srv_IsWsrepDonor (v : bool) (x : ServerMonitor) : ServerMonitor :=
  ltac:(assign_field eta_ServerMonitor srv_IsWsrepDonor v x).
Definition set_srv_IsWsrepPrimary (v : bool) (x : ServerMonitor) : ServerMonitor :=
  ltac:(assign_field eta_ServerMonitor srv_IsWsrepPrimary v x).
Definition set_srv_IsMaxscale (v : bool) (x : ServerMonitor) : ServerMonitor :=
  ltac:(assign_field eta_ServerMonitor srv_IsMaxscale v x).
Definition set_srv_IsRelay (v : bool) (x : ServerMonitor) : ServerMonitor :=
  ltac:(assign_field eta_ServerMonitor srv_IsRelay v x).
Definition set_srv_IsSlave (v : bool) (x : ServerMonitor) : ServerMonitor :=
  ltac:(assign_field eta_ServerMonitor srv_IsSlave v x).
Definition set_srv_IsGroupReplicationSlave (v : bool) (x : ServerMonitor) : ServerMonitor :=
  ltac:(assign_field eta_ServerMonitor srv_IsGroupReplicationSlave v x).
Definition set_srv_IsGroupReplicationMaster (v : bool) (x : ServerMonitor) : ServerMonitor :=
  ltac:(assign_field eta_ServerMonitor srv_IsGroupReplicationMaster v x).
Definition set_srv_IsMaintenance (v : bool) (x : ServerMonitor) : ServerMonitor :=
  ltac:(assign_field eta_ServerMonitor srv_IsMaintenance v x).
Definition set_srv_IsDelayed (v : bool) (x : ServerMonitor) : ServerMonitor :=
  ltac:(assign_field eta_ServerMonitor srv_IsDelayed v x).
Definition set_srv_IsFull (v : bool) (x : ServerMonitor) : ServerMonitor :=
  ltac:(assign_field eta_ServerMonitor srv_IsFull v x).
Definition set_srv_Ignored (v : bool) (x : ServerMonitor) : ServerMonitor :=
  ltac:(assign_field eta_ServerMonitor srv_Ignored v x).
Definition set_srv_IgnoredRO (v : bool) (x : ServerMonitor) : ServerMonitor :=
  ltac:(assign_field eta_ServerMonitor srv_IgnoredRO v x).
Definition set_srv_Prefered (v : bool) (x : ServerMonitor) : ServerMonitor :=
  ltac:(assign_field eta_ServerMonitor srv_Prefered v x).
Definition set_srv_PreferedBackup (v : bool) (x : ServerMonitor) : ServerMonitor :=
  ltac:(assign_field eta_ServerMonitor srv_PreferedBackup v x).
Definition set_srv_InCaptureMode (v : bool) (x : ServerMonitor) : ServerMonitor :=
  ltac:(assign_field eta_ServerMonitor srv_InCaptureMode v x).
Definition set_srv_BinlogDumpThreads (v : Z) (x : ServerMonitor) : ServerMonitor :=
  ltac:(assign_field eta_ServerMonitor srv_BinlogDumpThreads v x).
Definition set_srv_MxsHaveGtid (v : bool) (x : ServerMonitor) : ServerMonitor :=
  ltac:(assign_field eta_ServerMonitor srv_MxsHaveGtid v x).
Definition set_srv_MxsServerName (v : string) (x : ServerMonitor) : ServerMonitor :=
  ltac:(assign_field eta_ServerMonitor srv_MxsServerName v x).
Definition set_srv_MxsServerStatus (v : string) (x : ServerMonitor) : ServerMonitor :=
  ltac:(assign_field eta_ServerMonitor srv_MxsServerStatus v x).
Definition set_srv_Replications (v : list SlaveStatus) (x : ServerMonitor) : ServerMonitor :=
  ltac:(assign_field eta_ServerMonitor srv_Replications v x).
Definition set_srv_LastSeenReplications (v : option (list SlaveStatus)) (x : ServerMonitor) : ServerMonitor :=
  ltac:(assign_field eta_ServerMonitor srv_LastSeenReplications v x).
Definition set_srv_MasterStatus (v : MasterStatus) (x : ServerMonitor) : ServerMonitor :=
  ltac:(assign_field eta_ServerMonitor srv_MasterStatus v x).
Definition set_srv_ReplicationSourceName (v : string) (x : ServerMonitor) : ServerMonitor :=
  ltac:(assign_field eta_ServerMonitor srv_ReplicationSourceName v x).
Definition set_srv_DBVersion (v : option Version) (x : ServerMonitor) : ServerMonitor :=
  ltac:(assign_field eta_ServerMonitor srv_DBVersion v x).
Definition set_srv_QPS (v : Z) (x : ServerMonitor) : ServerMonitor :=
  ltac:(assign_field eta_ServerMonitor srv_QPS v x).
Definition set_srv_ReplicationHealth (v : string) (x : ServerMonitor) : ServerMonitor :=
  ltac:(assign_field eta_ServerMonitor srv_ReplicationHealth v x).
Definition set_srv_EventStatus (v : list Event) (x : ServerMonitor) : ServerMonitor :=
  ltac:(assign_field eta_ServerMonitor srv_EventStatus v x).
Definition set_srv_FullProcessList (v : list Processlist) (x : ServerMonitor) : ServerMonitor :=
  ltac:(assign_field eta_ServerMonitor srv_FullProcessList v x).
Definition set_srv_Variables (v : gmap string string) (x : ServerMonitor) : ServerMonitor :=
  ltac:(assign_field eta_ServerMonitor srv_Variables v x).
Definition set_srv_Status (v : gmap string string) (x : ServerMonitor) : ServerMonitor :=
  ltac:(assign_field eta_ServerMonitor srv_Status v x).
Definition set_srv_PrevStatus (v : gmap string string) (x : ServerMonitor) : ServerMonitor :=
  ltac:(assign_field eta_ServerMonitor srv_PrevStatus v x).
Definition set_srv_Plugins (v : gmap string string) (x : ServerMonitor) : ServerMonitor :=
  ltac:(assign_field eta_ServerMonitor srv_Plugins v x).
Definition set_srv_MonitorTime (v : Z) (x : ServerMonitor) : ServerMonitor :=
  ltac:(assign_field eta_ServerMonitor srv_MonitorTime v x).
Definition set_srv_PrevMonitorTime (v : Z) (x : ServerMonitor) : ServerMonitor :=
  ltac:(assign_field eta_ServerMonitor srv_PrevMonitorTime v x).
Definition set_srv_maxConn (v : string) (x : ServerMonitor) : ServerMonitor :=
  ltac:(assign_field eta_ServerMonitor srv_maxConn v x).
Definition set_srv_Datadir (v : string) (x : ServerMonitor) : ServerMonitor :=
  ltac:(assign_field eta_ServerMonitor srv_Datadir v x).
Definition set_srv_PostgressDB (v : string) (x : ServerMonitor) : ServerMonitor :=
  ltac:(assign_field eta_ServerMonitor srv_PostgressDB v x).
Definition set_srv_DelayStat (v : ServerDelayStat) (x : ServerMonitor) : ServerMonitor :=
  ltac:(assign_field eta_ServerMonitor srv_DelayStat v x).
Definition set_srv_IsReseeding (v : string) (x : ServerMonitor) : ServerMonitor :=
  ltac:(assign_field eta_ServerMonitor srv_IsReseeding v x).
Definition set_srv_InPurgingBinaryLog (v : bool) (x : ServerMonitor) : ServerMonitor :=
  ltac:(assign_field eta_ServerMonitor srv_InPurgingBinaryLog v x).
Definition set_srv_IsVirtualMaster (v : bool) (x : ServerMonitor) : ServerMonitor :=
  ltac:(assign_field eta_ServerMonitor srv_IsVirtualMaster v x).
Definition set_srv_ReplicationsSeen (v : bool) (x : ServerMonitor) : ServerMonitor :=
  ltac:(assign_field eta_ServerMonitor srv_ReplicationsSeen v x).
Definition set_srv_HaveSlaveIdempotent (v : bool) (x : ServerMonitor) : ServerMonitor :=
  ltac:(assign_field eta_ServerMonitor srv_HaveSlaveIdempotent v x).
Definition set_srv_HaveSlaveOptimistic (v : bool) (x : ServerMonitor) : ServerMonitor :=
  ltac:(assign_field eta_ServerMonitor srv_HaveSlaveOptimistic v x).
Definition set_srv_HaveSlaveSerialized (v : bool) (x : ServerMonitor) : ServerMonitor :=
  ltac:(assign_field eta_ServerMonitor srv_HaveSlaveSerialized v x).
Definition set_srv_HaveSlaveAggressive (v : bool) (x : ServerMonitor) : ServerMonitor :=
  ltac:(assign_field eta_ServerMonitor srv_HaveSlaveAggressive v x).
Definition set_srv_HaveSlaveMinimal (v : bool) (x : ServerMonitor) : ServerMonitor :=
  ltac:(assign_field eta_ServerMonitor srv_HaveSlaveMinimal v x).
Definition set_srv_HaveSlaveConservative (v : bool) (x : ServerMonitor) : ServerMonitor :=
  ltac:(assign_field eta_ServerMonitor srv_HaveSlaveConservative v x).
Definition set_srv_HaveBinlogAnnotate (v : bool) (x : ServerMonitor) : ServerMonitor :=
  ltac:(assign_field eta_ServerMonitor srv_HaveBinlogAnnotate v x).
Definition set_srv_HaveBinlogSync (v : bool) (x : ServerMonitor) : ServerMonitor :=
  ltac:(assign_field eta_ServerMonitor srv_HaveBinlogSync v x).
Definition set_srv_HaveBinlogCompress (v : bool) (x : ServerMonitor) : ServerMonitor :=
  ltac:(assign_field eta_ServerMonitor srv_HaveBinlogCompress v x).
Definition set_srv_HaveBinlogSlaveUpdates (v : bool) (x : ServerMonitor) : ServerMonitor :=
  ltac:(assign_field eta_ServerMonitor srv_HaveBinlogSlaveUpdates v x).
Definition set_srv_HaveBinlogSlowqueries (v : bool) (x : ServerMonitor) : ServerMonitor :=
  ltac:(assign_field eta_ServerMonitor srv_HaveBinlogSlowqueries v x).
Definition set_srv_HaveInnodbTrxCommit (v : bool) (x : ServerMonitor) : ServerMonitor :=
  ltac:(assign_field eta_ServerMonitor srv_HaveInnodbTrxCommit v x).
Definition set_srv_HaveChecksum (v : bool) (x : ServerMonitor) : ServerMonitor :=
  ltac:(assign_field eta_ServerMonitor srv_HaveChecksum v x).
Definition set_srv_HaveHealthyReplica (v : bool) (x : ServerMonitor) : ServerMonitor :=
  ltac:(assign_field eta_ServerMonitor srv_HaveHealthyReplica v x).
Definition set_srv_FailSuspectHeartbeat (v : Z) (x : ServerMonitor) : ServerMonitor :=
  ltac:(assign_field eta_ServerMonitor srv_FailSuspectHeartbeat v x).
Definition set_srv_Users (v : gmap string Grant) (x : ServerMonitor) : ServerMonitor :=
  ltac:(assign_field eta_ServerMonitor srv_Users v x).
Definition set_srv_BinaryLogFiles (v : gmap string BinaryLogMetadata) (x : ServerMonitor) : ServerMonitor :=
  ltac:(assign_field eta_ServerMonitor srv_BinaryLogFiles v x).
Definition set_srv_BinaryLogFilesCount (v : Z) (x : ServerMonitor) : ServerMonitor :=
  ltac:(assign_field eta_ServerMonitor srv_BinaryLogFilesCount v x).
Definition set_srv_BinaryLogFileOldest (v : string) (x : ServerMonitor) : ServerMonitor :=
  ltac:(assign_field eta_ServerMonitor srv_BinaryLogFileOldest v x).
Definition set_srv_BinaryLogFilePrevious (v : string) (x : ServerMonitor) : ServerMonitor :=
  ltac:(assign_field eta_ServerMonitor srv_BinaryLogFilePrevious v x).
Definition set_srv_BinaryLogOldestTimestamp (v : Z) (x : ServerMonitor) : ServerMonitor :=
  ltac:(assign_field eta_ServerMonitor srv_BinaryLogOldestTimestamp v x).
Definition set_srv_BinaryLogPurgeBefore (v : Z) (x : ServerMonitor) : ServerMonitor :=
  ltac:(assign_field eta_ServerMonitor srv_BinaryLogPurgeBefore v x).
Definition set_srv_IsBackingUpBinaryLog (v : bool) (x : ServerMonitor) : ServerMonitor :=
  ltac:(assign_field eta_ServerMonitor srv_IsBackingUpBinaryLog v x).
Definition set_srv_IsRefreshingBinlog (v : bool) (x : ServerMonitor) : ServerMonitor :=
  ltac:(assign_field eta_ServerMonitor srv_IsRefreshingBinlog v x).
Definition set_srv_ProxysqlHostgroup (v : string) (x : ServerMonitor) : ServerMonitor :=
  ltac:(assign_field eta_ServerMonitor srv_ProxysqlHostgroup v x).
Definition set_srv_DSN (v : string) (x : ServerMonitor) : ServerMonitor :=
  ltac:(assign_field eta_ServerMonitor srv_DSN v x).
Definition set_srv_Process (v : option Z) (x : ServerMonitor) : ServerMonitor :=
  ltac:(assign_field eta_ServerMonitor srv_Process v x).

(** [server.Replications = rs]; [ReplicationsSeen] is [Replications != nil]. *)
Definition assign_Replications (rs : list SlaveStatus) (x : ServerMonitor) : ServerMonitor :=
  set_srv_ReplicationsSeen true (set_srv_Replications rs x).

(** *** States of a server *)

Definition stateFailed : string := "Failed".
Definition stateMaster : string := "Master".
Definition stateSlave : string := "Slave".
Definition stateSlaveErr : string := "SlaveErr".
Definition stateSlaveLate : string := "SlaveLate".
Definition stateMaintenance : string := "Maintenance".
Definition stateUnconn : string := "StandAlone".
Definition stateErrorAuth : string := "ErrorAuth".
Definition stateSuspect : string := "Suspect".
Definition stateShard : string := "Shard".
Definition stateProv : string := "Provision".
Definition stateMasterAlone : string := "MasterAlone".
Definition stateRelay : string := "Relay".
Definition stateRelayErr : string := "RelayErr".
Definition stateRelayLate : string := "RelayLate".
Definition stateWsrep : string := "Wsrep".
Definition stateWsrepDonor : string := "WsrepDonor".
Definition stateWsrepLate : string := "WsrepUnsync".

(** A server is identified by its address: a pointer. *)
Definition loc : Type := nat.

(** [StringsMap.Get]: a missing key reads as the empty string. *)
Definition Get (m : gmap string string) (k : string) : string := default "" (m !! k).
Definition var_is (s : ServerMonitor) (k v : string) : bool := (Get (srv_Variables s) k =? v)%string.
Definition status_is (s : ServerMonitor) (k v : string) : bool := (Get (srv_Status s) k =? v)%string.

(** ** Accessors (srv_get.go) *)

Fixpoint find_channel (name : string) (l : list SlaveStatus) : option SlaveStatus :=
  match l with
  | [] => None
  | ss :: r => if (ns_String (ss_ConnectionName ss) =? name)%string then Some ss
               else find_channel name r
  end.

Definition GetSlaveStatus (s : ServerMonitor) (name : string) : option SlaveStatus :=
  find_channel name (srv_Replications s).

Definition GetSlaveStatusLastSeen (s : ServerMonitor) (name : string) : option SlaveStatus :=
  match srv_LastSeenReplications s with
  | Some l => find_channel name l
  | None => GetSlaveStatus s name
  end.

(** The replication channel the manager follows. *)
Definition own_channel (s : ServerMonitor) : option SlaveStatus :=
  GetSlaveStatus s (srv_ReplicationSourceName s).

Definition GetReplicationServerID (s : ServerMonitor) : Z :=
  match own_channel s with None => 0 | Some ss => ss_MasterServerID ss end.

Definition GetReplicationDelay (s : ServerMonitor) : Z :=
  match own_channel s with
  | None => 0
  | Some ss => if negb (ni_Valid (ss_SecondsBehindMaster ss)) then 0
               else ni_Int64 (ss_SecondsBehindMaster ss)
  end.

Definition GetReplicationHearbeatPeriod (s : ServerMonitor) : float64 :=
  match own_channel s with None => f64_zero | Some ss => ss_SlaveHeartbeatPeriod ss end.

Definition GetReplicationMasterHost (s : ServerMonitor) : string :=
  match own_channel s with None => "" | Some ss => ns_String (ss_MasterHost ss) end.

Definition GetReplicationMasterPort (s : ServerMonitor) : string :=
  match own_channel s with None => "3306" | Some ss => ns_String (ss_MasterPort ss) end.

Definition GetSourceClusterName (s : ServerMonitor) : string := srv_SourceClusterName s.

(** A worker of the replication applier that runs longer than the failover
    delay limit. *)
Fixpoint GetProcessListReplicationLongQuery_loop (conf : Config) (l : list Processlist) : string :=
  match l with
  | [] => ""
  | q :: r =>
      if strings_HasPrefix (pl_Command q) "Slave_worker" && ns_Valid (pl_State q) &&
         negb (strings_HasPrefix (ns_String (pl_State q)) "Waiting") &&
         (nf_Valid (pl_Time q) && negb (Conf_FailMaxDelay conf =? -1) &&
          f64_ltb (float64_of_Z (Conf_FailMaxDelay conf)) (nf_Float64 (pl_Time q))) &&
         ns_Valid (pl_Info q)
      then ns_String (pl_Info q)
      else GetProcessListReplicationLongQuery_loop conf r
  end.
Definition GetProcessListReplicationLongQuery (conf : Config) (s : ServerMonitor) : string :=
  if negb (Conf_MonitorProcessList conf) then ""
  else GetProcessListReplicationLongQuery_loop conf (srv_FullProcessList s).

(** ** Predicates (srv_has.go) *)

(** *** Semi-synchronous replication *)

Definition IsSemiSyncMaster (s : ServerMonitor) : bool :=
  status_is s "RPL_SEMI_SYNC_MASTER_STATUS" "ON" || status_is s "RPL_SEMI_SYNC_SOURCE_STATUS" "ON".

Definition IsSemiSyncReplica (s : ServerMonitor) : option bool :=
  v ← srv_DBVersion s;
  ge8 ← (if IsMySQLOrPercona v then Version.GreaterEqual v "8.0" else Some false);
  if (ge8 : bool)
  then Some (status_is s "RPL_SEMI_SYNC_SLAVE_STATUS" "ON" || status_is s "RPL_SEMI_SYNC_REPLICA_STATUS" "ON")
  else
    lt8 ← (if IsMariaDB v then Some true
           else if IsMySQLOrPercona v then Version.Lower v "8.0" else Some false);
    if (lt8 : bool) then Some (status_is s "RPL_SEMI_SYNC_SLAVE_STATUS" "ON") else Some false.

Definition HasSemiSync (s : ServerMonitor) : option bool :=
  r ← IsSemiSyncReplica s; Some (r || IsSemiSyncMaster s).

(** *** Galera *)

Definition HasWsrepSync (s : ServerMonitor) : bool := status_is s "WSREP_LOCAL_STATE" "4".
Definition HasWsrepDonor (s : ServerMonitor) : bool := status_is s "WSREP_LOCAL_STATE" "2".
Definition HasWsrepPrimary (s : ServerMonitor) : bool := status_is s "WSREP_CLUSTER_STATUS" "PRIMARY".

(** *** Host lists *)

(** Membership of a server in a comma-separated option. *)
Definition in_host_option (s : ServerMonitor) (hosts : string) : bool :=
  existsb (fun h => (srv_URL s =? h)%string || (srv_Name s =? h)%string)
          (strings_Split "," hosts).

Definition IsInDelayedHost (conf : Config) (s : ServerMonitor) : bool :=
  in_host_option s (Conf_HostsDelayed conf).

(** *** Variables *)

Definition HasReadOnly s := var_is s "READ_ONLY" "ON".
Definition HasGtidStrictMode s := var_is s "GTID_STRICT_MODE" "ON".
Definition HasBinlog s := var_is s "LOG_BIN" "ON".
Definition HasBinlogCompress s := var_is s "LOG_BIN_COMPRESS" "ON".
Definition HasBinlogSlaveUpdates s := var_is s "LOG_SLAVE_UPDATES" "ON".
Definition HasBinlogRow s := var_is s "BINLOG_FORMAT" "ROW".
Definition HasBinlogStatement s := var_is s "BINLOG_FORMAT" "STATEMENT".
Definition HasBinlogMixed s := var_is s "BINLOG_FORMAT" "MIXED".
Definition HasBinlogRowAnnotate s := var_is s "BINLOG_ANNOTATE_ROW_EVENTS" "ON".
Definition HasSlaveIndempotent s := var_is s "SLAVE_EXEC_MODE" "IDEMPOTENT".
Definition HasSlaveParallelOptimistic s := var_is s "SLAVE_PARALLEL_MODE" "OPTIMISTIC".
Definition HasSSL s := var_is s "HAVE_SSL" "YES".
Definition HasSlaveParallelConservative s := var_is s "SLAVE_PARALLEL_MODE" "CONSERVATIVE".
Definition HasSlaveParallelSerialized s := var_is s "SLAVE_PARALLEL_MODE" "NONE".
Definition HasSlaveParallelAggressive s := var_is s "SLAVE_PARALLEL_MODE" "AGGRESSIVE".
Definition HasSlaveParallelMinimal s := var_is s "SLAVE_PARALLEL_MODE" "MINIMAL".
Definition HasBinlogSlowSlaveQueries s := var_is s "LOG_SLOW_SLAVE_STATEMENTS" "ON".
Definition HasInnoDBRedoLogDurable s := var_is s "INNODB_FLUSH_LOG_AT_TRX_COMMIT" "1".
Definition HasBinlogDurable s := var_is s "SYNC_BINLOG" "1".
Definition HasInnoDBChecksum s := negb (var_is s "INNODB_CHECKSUM" "NONE").
Definition HasWsrep s := var_is s "WSREP_ON" "ON".
Definition HasEventScheduler s := var_is s "EVENT_SCHEDULER" "ON".
Definition HasLogSlowQuery s := var_is s "SLOW_QUERY_LOG" "ON".
Definition HasLogPFS s := var_is s "PERFORMANCE_SCHEMA" "ON".
Definition HasLogsInSystemTables s := var_is s "LOG_OUTPUT" "TABLE".
Definition HasLogGeneral s := var_is s "GENERAL_LOG" "ON".
Definition HasUserStats s := var_is s "USERSTAT" "ON".

(** *** GTID flavours *)

Definition HasMySQLGTID (conf : Config) (s : ServerMonitor) : option bool :=
  v ← srv_DBVersion s;
  Some (if negb (IsMySQL v || IsPercona v) then false
        else if Conf_ForceSlaveNoGtid conf then false
        else if var_is s "ENFORCE_GTID_CONSISTENCY" "ON" then true
        else var_is s "GTID_MODE" "ON").

Definition HasMariaDBGTID (conf : Config) (s : ServerMonitor) : option bool :=
  v ← srv_DBVersion s;
  Some (if negb (IsMariaDB v) then false
        else if Major v <? 10 then false
        else negb (Conf_ForceSlaveNoGtid conf)).

Definition HasGTIDReplication (conf : Config) (s : ServerMonitor) : option bool :=
  if Conf_ForceSlaveNoGtid conf then Some false
  else
    v ← srv_DBVersion s;
    Some (if IsMySQLOrPercona v && negb (srv_HaveMySQLGTID s) then false
          else negb (IsMariaDB v && (Major v =? 5))).

Definition HasInstallPlugin (s : ServerMonitor) (name : string) : bool :=
  match srv_Plugins s !! name with
  | None => false
  | Some st => (st =? "ACTIVE")%string
  end.

(** *** Replication threads *)

Definition thread_state (f : SlaveStatus -> NullString) (v : string) (s : ServerMonitor) : bool :=
  match own_channel s with None => false | Some ss => (ns_String (f ss) =? v)%string end.

Definition HasReplicationSQLThreadRunning := thread_state ss_SlaveSQLRunning "yes".
Definition HasReplicationIOThreadRunning := thread_state ss_SlaveIORunning "yes".
Definition IsIOThreadRunning := thread_state ss_SlaveIORunning "Yes".
Definition IsSQLThreadRunning := thread_state ss_SlaveSQLRunning "Yes".

Definition IsReplicationBroken (s : ServerMonitor) : bool :=
  negb (IsSQLThreadRunning s) || negb (IsIOThreadRunning s).

(** Does the server replicate from the same master as all of [sib]? *)
Fixpoint HasSiblings (s : ServerMonitor) (sib : list ServerMonitor) : bool :=
  match sib with
  | [] => true
  | sl :: r =>
      match own_channel sl, own_channel s with
      | Some sssib, Some ssserver =>
          if negb (ss_MasterServerID sssib =? ss_MasterServerID ssserver) then false
          else HasSiblings s r
      | _, _ => false
      end
  end.

Fixpoint all_running (sl : list ServerMonitor) : bool :=
  match sl with
  | [] => true
  | s :: r => IsSQLThreadRunning s && IsIOThreadRunning s && all_running r
  end.
Definition HasAllSlavesRunning (sl : list ServerMonitor) : bool :=
  match sl with [] => false | _ => all_running sl end.

Fixpoint HasSlaves (s : ServerMonitor) (sib : list ServerMonitor) : bool :=
  match sib with
  | [] => false
  | sl :: r =>
      match own_channel sl with
      | Some ss => if (srv_ServerID s =? ss_MasterServerID ss) && negb (srv_ServerID sl =? srv_ServerID s)
                   then true else HasSlaves s r
      | None => HasSlaves s r
      end
  end.

Definition IsSlaveOfReplicationSource (s : ServerMonitor) (name : string) : bool :=
  match GetSlaveStatus s name with Some _ => true | None => false end.

(** *** Durability and load *)

Definition IsAcid (s : ServerMonitor) : option bool :=
  v ← srv_DBVersion s;
  Some (if IsPostgreSQL v
        then var_is s "FSYNC" "ON" && var_is s "SYNCHRONOUS_COMMIT" "ON"
        else var_is s "SYNC_BINLOG" "1" && var_is s "INNODB_FLUSH_LOG_AT_TRX_COMMIT" "1").

Definition HasHighNumberSlowQueries (s : ServerMonitor) : bool :=
  if var_is s "LONG_QUERY_TIME" "0" || var_is s "LONG_QUERY_TIME" "0.000010" then false
  else
    let now := fst (strconv_ParseInt (Get (srv_Status s) "SLOW_QUERIES")) in
    let before := fst (strconv_ParseInt (Get (srv_PrevStatus s) "SLOW_QUERIES")) in
    let dt := i64 (srv_MonitorTime s - srv_PrevMonitorTime s) in
    if 0 <? dt then 20 <? Z.quot (i64 (now - before)) dt else false.

(** *** State of the server *)

Definition state_is (s : ServerMonitor) (st : string) : bool := (srv_State s =? st)%string.

Definition IsDown (s : ServerMonitor) : bool :=
  state_is s stateFailed || state_is s stateSuspect || state_is s stateErrorAuth.
Definition IsRunning (s : ServerMonitor) : bool := negb (IsDown s).
Definition IsFailed (s : ServerMonitor) : bool := state_is s stateFailed || state_is s stateErrorAuth.
Definition IsSuspect (s : ServerMonitor) : bool := state_is s stateSuspect.
Definition IsInStateFailed (s : ServerMonitor) : bool := state_is s stateFailed.
Definition IsIgnored (s : ServerMonitor) : bool := srv_Ignored s.
Definition IsIgnoredReadonly (s : ServerMonitor) : bool := srv_IgnoredRO s.
Definition IsReadOnly (s : ServerMonitor) : bool := srv_HaveReadOnly s.
Definition IsReadWrite (s : ServerMonitor) : bool :=
  if IsFailed s || IsSuspect s then false else negb (srv_HaveReadOnly s).
Definition IsPrefered (s : ServerMonitor) : bool := srv_Prefered s.
Definition IsPurgingBinlog (s : ServerMonitor) : bool := srv_InPurgingBinaryLog s.
Definition HasReseedingState (s : ServerMonitor) (tool : string) : bool := (srv_IsReseeding s =? tool)%string.
Definition HasAnyReseedingState (s : ServerMonitor) : bool := negb (srv_IsReseeding s =? "")%string.
Definition IsSlaveError (s : ServerMonitor) : bool := state_is s stateSlaveErr.
Definition IsSlaveLate (s : ServerMonitor) : bool := state_is s stateSlaveLate.
Definition IsStandAlone (s : ServerMonitor) : bool := state_is s stateUnconn.

Definition srv_IsMySQL (s : ServerMonitor) : option bool := v ← srv_DBVersion s; Some (IsMySQL v).
Definition srv_IsMariaDB (s : ServerMonitor) : bool :=
  match srv_DBVersion s with None => true | Some v => IsMariaDB v end.
Definition HasSuperReadOnlyCapability (s : ServerMonitor) : bool :=
  IsMySQLOrPerconaGreater57 (srv_DBVersion s).

(** [mysqldump] of system users needs a release with the matching fix. *)
Definition IsMysqlDumpUValidOption (s : ServerMonitor) (option_ : string) : option bool :=
  let o := strings_ToLower option_ in
  if strings_Contains o "system" && strings_Contains o "all"
  then
    my ← srv_IsMySQL s;
    if (my : bool) then Some false
    else if srv_IsMariaDB s
    then
      v ← srv_DBVersion s;
      let at_least minor rel := (Major v =? 10) && (Minor v =? minor) && (rel <=? Release v) in
      Some (at_least 2 36 || at_least 3 27 || at_least 4 17 || at_least 5 8 ||
            ((10 <? Major v) || ((Major v =? 10) && (5 <? Minor v))))
    else Some false
  else Some true.

Definition GetReplicationUsingGtid (s : ServerMonitor) : string :=
  if srv_IsMariaDB s
  then match own_channel s with None => "No" | Some ss => ns_String (ss_UsingGtid ss) end
  else if srv_HaveMySQLGTID s then "Yes" else "No".

Definition IsReplicationUsingGtidStrict (s : ServerMonitor) : bool :=
  if srv_IsMariaDB s then var_is s "GTID_STRICT_MODE" "ON" else true.

(** *** Cookies: marker files of the data directory

    [stat] tells whether a path exists. *)
Section Cookies.
Context (stat : string -> bool).

Definition hasCookie (server : option ServerMonitor) (key : string) : bool :=
  match server with
  | None => false
  | Some s => stat (srv_Datadir s +:+ "/@" +:+ key)
  end.

Definition HasWaitStartCookie s := hasCookie s "cookie_waitstart".
Definition HasWaitBackupCookie s := hasCookie s "cookie_waitbackup".
Definition HasWaitLogicalBackupCookie s := hasCookie s "cookie_waitlogicalbackup".
Definition HasWaitPhysicalBackupCookie s := hasCookie s "cookie_waitphysicalbackup".
Definition HasWaitStopCookie s := hasCookie s "cookie_waitstop".
Definition HasRestartCookie s := hasCookie s "cookie_restart".
Definition HasProvisionCookie s := hasCookie s "cookie_prov".
Definition HasReprovCookie s := hasCookie s "cookie_reprov".
Definition HasWaitDBACredCookie s := hasCookie s "cookie_waitdbacred".
Definition HasWaitSponsorCredCookie s := hasCookie s "cookie_waitsponsorcred".
Definition HasUnprovisionCookie s := hasCookie s "cookie_unprov".
Definition HasConfigCookie s := hasCookie s "cookie_config".
Definition HasBackupScriptCookie s := hasCookie s "cookie_backup_script".
Definition HasBackupMysqldumpCookie s := hasCookie s "cookie_backup_mysqldump".
Definition HasBackupMydumperCookie s := hasCookie s "cookie_backup_mydumper".
Definition HasBackupDumplingCookie s := hasCookie s "cookie_backup_dumpling".
Definition HasBackupXtrabackupCookie s := hasCookie s "cookie_backup_xtrabackup".
Definition HasBackupMariabackupCookie s := hasCookie s "cookie_backup_mariabackup".
Definition HasBackupLogicalCookie s :=
  hasCookie s "cookie_logicalbackup" || HasBackupMysqldumpCookie s ||
  HasBackupMydumperCookie s || HasBackupDumplingCookie s.
Definition HasBackupPhysicalCookie s :=
  hasCookie s "cookie_physicalbackup" || HasBackupXtrabackupCookie s || HasBackupMariabackupCookie s.

Definition HasBackupTypeCookie (s : option ServerMonitor) (backtype : string) : bool :=
  if (backtype =? "mysqldump")%string then HasBackupMysqldumpCookie s
  else if (backtype =? "mydumper")%string then HasBackupMydumperCookie s
  else if (backtype =? "dumpling")%string then HasBackupDumplingCookie s
  else if (backtype =? "xtrabackup")%string then HasBackupXtrabackupCookie s
  else if (backtype =? "mariabackup")%string then HasBackupMariabackupCookie s
  else if (backtype =? "script")%string then HasBackupScriptCookie s
  else false.
End Cookies.

(** *** Known defects of the server release, filed in the state machine *)

Definition HasErrantTransactions (SM : StateMachine) (s : ServerMonitor) : bool :=
  IsInState ("WARN0091@" +:+ srv_URL s) SM.

(** ** Lemmas *)

Lemma find_channel_name name l ss :
  find_channel name l = Some ss -> ss ∈ l /\ ns_String (ss_ConnectionName ss) = name.
Proof.
  induction l as [|x l IH]; simpl; [done|].
  destruct (_ =? name)%string eqn:E; [|intros H; destruct (IH H); split; [by right|done]].
  intros [= <-]. bool_prop. split; [by left|done].
Qed.
