(* ===== verification/Proxy.v ===== *)
(** * Proxies and the tables of ProxySQL (cluster/prx.go, prx_has.go, router/proxysql/proxysql.go)

    The state the manager keeps of a proxy, and the statements it sends to the
    admin interface of ProxySQL with what they do to the table [mysql_servers]:
    its rows are keyed by host group, host and port, an [UPDATE] that would give
    two rows one key fails and changes nothing, and what is in memory takes
    effect when it is loaded to runtime. Columns the code never writes are left
    out; host names and ports are compared as texts. *)

From Stdlib Require Import ZArith Lia Bool Ascii String.
From stdpp Require Import base list gmap strings.
From S2P Require Import Prelude GoLib Server.

Local Open Scope string_scope.
Local Open Scope list_scope.
Local Open Scope Z_scope.

(** ** Proxies *)

Record Backend := mkBackend {
  bk_Host : string; bk_Port : string; bk_Status : string; bk_PrxName : string;
  bk_PrxStatus : string; bk_PrxConnections : string; bk_PrxHostgroup : string;
  bk_PrxByteOut : string; bk_PrxByteIn : string; bk_PrxLatency : string
}.

Record Proxy := mkProxy {
  prx_Id : string; prx_Name : string; prx_Type : string; prx_Host : string; prx_Port :
  string; prx_Datadir : string; prx_Weight : string; prx_ReaderHostgroup : Z;
  prx_WriterHostgroup : Z; prx_BackendsWrite : list Backend; prx_BackendsRead : list
  Backend; prx_Version : string; prx_State : string; prx_PrevState : string; prx_FailCount :
  Z; prx_Variables : gmap string string;
  prx_User : string; prx_Pass : string
}.

Definition eta_Proxy (x : Proxy) : Proxy :=
  mkProxy (prx_Id x) (prx_Name x) (prx_Type x) (prx_Host x) (prx_Port x) (prx_Datadir x)
    (prx_Weight x) (prx_ReaderHostgroup x) (prx_WriterHostgroup x) (prx_BackendsWrite x)
    (prx_BackendsRead x) (prx_Version x) (prx_State x) (prx_PrevState x) (prx_FailCount x)
    (prx_Variables x)
    (prx_User x) (prx_Pass x).

(** The zero value of the struct. *)
Definition zeroProxy : Proxy :=
  mkProxy "" "" "" "" "" "" "" 0 0 [] [] "" "" "" 0 ∅
    "" "".

Definition set_prx_Id (v : string) (x : Proxy) : Proxy :=
  ltac:(assign_field eta_Proxy prx_Id v x).
Definition set_prx_Name (v : string) (x : Proxy) : Proxy :=
  ltac:(assign_field eta_Proxy prx_Name v x).
Definition set_prx_Type (v : string) (x : Proxy) : Proxy :=
  ltac:(assign_field eta_Proxy prx_Type v x).
Definition set_prx_Host (v : string) (x : Proxy) : Proxy :=
  ltac:(assign_field eta_Proxy prx_Host v x).
Definition set_prx_Port (v : string) (x : Proxy) : Proxy :=
  ltac:(assign_field eta_Proxy prx_Port v x).
Definition set_prx_Datadir (v : string) (x : Proxy) : Proxy :=
  ltac:(assign_field eta_Proxy prx_Datadir v x).
Definition set_prx_Weight (v : string) (x : Proxy) : Proxy :=
  ltac:(assign_field eta_Proxy prx_Weight v x).
Definition set_prx_ReaderHostgroup (v : Z) (x : Proxy) : Proxy :=
  ltac:(assign_field eta_Proxy prx_ReaderHostgroup v x).
Definition set_prx_WriterHostgroup (v : Z) (x : Proxy) : Proxy :=
  ltac:(assign_field eta_Proxy prx_WriterHostgroup v x).
Definition set_prx_BackendsWrite (v : list Backend) (x : Proxy) : Proxy :=
  ltac:(assign_field eta_Proxy prx_BackendsWrite v x).
Definition set_prx_BackendsRead (v : list Backend) (x : Proxy) : Proxy :=
  ltac:(assign_field eta_Proxy prx_BackendsRead v x).
Definition set_prx_Version (v : string) (x : Proxy) : Proxy :=
  ltac:(assign_field eta_Proxy prx_Version v x).
Definition set_prx_State (v : string) (x : Proxy) : Proxy :=
  ltac:(assign_field eta_Proxy prx_State v x).
Definition set_prx_PrevState (v : string) (x : Proxy) : Proxy :=
  ltac:(assign_field eta_Proxy prx_PrevState v x).
Definition set_prx_FailCount (v : Z) (x : Proxy) : Proxy :=
  ltac:(assign_field eta_Proxy prx_FailCount v x).
Definition set_prx_Variables (v : gmap string string) (x : Proxy) : Proxy :=
  ltac:(assign_field eta_Proxy prx_Variables v x).
Definition set_prx_User (v : string) (x : Proxy) : Proxy :=
  ltac:(assign_field eta_Proxy prx_User v x).
Definition set_prx_Pass (v : string) (x : Proxy) : Proxy :=
  ltac:(assign_field eta_Proxy prx_Pass v x).

Definition stateProxyRunning : string := "ProxyRunning".
Definition ConstProxySqlproxy : string := "proxysql".
Definition ConstProxySphinx : string := "sphinx".
Definition ConstProxyMyProxy : string := "myproxy".

Definition prx_IsDown (p : Proxy) : bool :=
  (prx_State p =? stateFailed)%string || (prx_State p =? stateSuspect)%string || (prx_State p =? stateErrorAuth)%string.
Definition prx_IsRunning (p : Proxy) : bool := negb (prx_IsDown p).
Definition prx_GetURL (p : Proxy) : string := prx_Host p +:+ ":" +:+ prx_Port p.

Definition online (b : Backend) : bool := (bk_PrxStatus b =? "ONLINE")%string.
Definition HasAvailableReader (p : Proxy) : bool := existsb online (prx_BackendsRead p).
Definition CountAvailableReaders (p : Proxy) : Z := Z.of_nat (length (List.filter online (prx_BackendsRead p))).
Definition HasLeaderInReader (m : ServerMonitor) (p : Proxy) : bool :=
  existsb (fun b => (bk_Host b =? srv_Host m)%string && (bk_Port b =? srv_Port m)%string && online b) (prx_BackendsRead p).

(** ** Statements of the admin interface *)

(** A row of [mysql_servers] beside its key; the defaults are those of the columns
    an insertion does not name. *)
Record PsqlServer := mkPsqlServer {
  ps_status : string; ps_weight : string; ps_max_replication_lag : string; ps_max_connections : string;
  ps_compression : string; ps_use_ssl : string
}.
Definition psql_row (weight use_ssl : string) : PsqlServer := mkPsqlServer "ONLINE" weight "0" "1000" "0" use_ssl.
Definition row_online (r : PsqlServer) : PsqlServer :=
  mkPsqlServer "ONLINE" (ps_weight r) (ps_max_replication_lag r) (ps_max_connections r) (ps_compression r) (ps_use_ssl r).
Definition row_status (s : string) (r : PsqlServer) : PsqlServer :=
  mkPsqlServer s (ps_weight r) (ps_max_replication_lag r) (ps_max_connections r) (ps_compression r) (ps_use_ssl r).

(** [update_hostgroup to online host port among]: [UPDATE mysql_servers SET
    [status='ONLINE',] hostgroup_id=to WHERE hostname=host AND port=port AND
    hostgroup_id IN among]; [copy_server to from host port] is the [REPLACE ...
    SELECT] of a row of another group; [admin_command] is a statement without
    arguments, [admin_prepared] one with arguments for its placeholders. *)
Inductive PsqlStmt :=
| replace_server (hg : Z) (host port : string) (row : PsqlServer)
| insert_server (hg : Z) (host port : string) (row : PsqlServer)
| update_hostgroup (to : Z) (online : bool) (host port : string) (among : list Z)
| update_status (status host port : string) (among : list Z)
| delete_server (hg : Z) (host port : string)
| delete_group (hg : Z) (among : list Z)
| copy_server (to from : Z) (host port : string)
| replace_hostgroups (writer reader : Z) (comment : string)
| replace_user (user password : string) (hg : Z)
| update_variable (name value : string)
| admin_command (text : string)
| admin_prepared (text : string) (args : list string).

Abbreviation ServerKey := (Z * (string * string))%type.
Abbreviation PsqlServers := (gmap ServerKey PsqlServer).
Definition server_key (hg : Z) (host port : string) : ServerKey := (hg, (host, port)).

Definition present (t : PsqlServers) (host port : string) (hg : Z) : bool :=
  match t !! server_key hg host port with Some _ => true | None => false end.

Fixpoint distinct_groups (l : list Z) : list Z :=
  match l with
  | [] => []
  | x :: r => x :: List.filter (fun y => negb (y =? x)) (distinct_groups r)
  end.

(** The groups of the rows that a [WHERE] selects. *)
Definition targets (t : PsqlServers) (host port : string) (among : list Z) : list Z :=
  List.filter (present t host port) (distinct_groups among).

(** [None]: the constraint is violated and nothing changes. *)
Definition move_server (to : Z) (on : bool) (host port : string) (among : list Z) (t : PsqlServers)
  : option PsqlServers :=
  let moved r := if on then row_online r else r in
  match targets t host port among with
  | [] => Some t
  | [hg] =>
      if hg =? to then Some (alter moved (server_key to host port) t)
      else if present t host port to then None
      else match t !! server_key hg host port with
           | Some r => Some (<[server_key to host port := moved r]> (delete (server_key hg host port) t))
           | None => Some t
           end
  | _ => None
  end.

Definition exec_servers (s : PsqlStmt) (t : PsqlServers) : option PsqlServers :=
  match s with
  | replace_server hg host port row => Some (<[server_key hg host port := row]> t)
  | insert_server hg host port row =>
      if present t host port hg then None else Some (<[server_key hg host port := row]> t)
  | update_hostgroup to on host port among => move_server to on host port among t
  | update_status status host port among =>
      Some (fold_left (fun t hg => alter (row_status status) (server_key hg host port) t) among t)
  | delete_server hg host port => Some (delete (server_key hg host port) t)
  | delete_group hg among =>
      Some (if existsb (Z.eqb hg) among then filter (fun kr => kr.1.1 <> hg) t else t)
  | copy_server to from host port =>
      Some match t !! server_key from host port with
           | Some r => <[server_key to host port := r]> t
           | None => t
           end
  | _ => Some t
  end.

(** A row of [stats_mysql_connection_pool]. *)
Record PoolStats := mkPoolStats {
  pool_hostgroup : string; pool_status : string; pool_ConnUsed : Z; pool_Bytes_data_sent : Z;
  pool_Bytes_data_recv : Z; pool_Latency_us : Z
}.

(** What is in memory and what is in effect. *)
Record PsqlAdmin := mkPsqlAdmin { pa_memory : PsqlServers; pa_runtime : PsqlServers }.

Definition load_servers : string := "LOAD MYSQL SERVERS TO RUNTIME".

(** A statement with arguments and no placeholder is refused. *)
Definition exec_admin (s : PsqlStmt) (a : PsqlAdmin) : option PsqlAdmin :=
  match s with
  | admin_command text => Some (if (text =? load_servers)%string then mkPsqlAdmin (pa_memory a) (pa_memory a) else a)
  | admin_prepared text args =>
      if negb (strings_Contains text "?") && (0 <? Z.of_nat (length args)) then None else Some a
  | _ => t ← exec_servers s (pa_memory a); Some (mkPsqlAdmin t (pa_runtime a))
  end.
