(* ===== verification/Cluster.v ===== *)
(** * The cluster and its effects (cluster/cluster.go, cluster_get.go, cluster_has.go)

    A cluster shares its servers by pointer: a server is reached through
    [Servers], [slaves], [master], [oldMaster] and [vmaster], and a change made
    through one is seen through the others. The model keeps them in a heap.

    The code runs in a state monad over the world: the cluster, the heap and the
    trace of the calls that leave the manager (SQL statements through
    [utils/dbhelper], scripts, proxies, HTTP, files, the clock). A call is
    answered by the environment, from the whole history, so that a statement
    proved for every environment holds for every behaviour of the databases.
    Nil dereferences and out-of-range indices are the outcome [Panic]; a wait
    loop that is still waiting after the fuel of the environment is [Hang]. *)

From Stdlib Require Import ZArith Lia Bool Ascii String.
From stdpp Require Import base list gmap strings functions.
From S2P Require Import Prelude GoLib Gtid Version StateMachine Crash DelayStat Config Server Proxy.

Local Open Scope string_scope.
Local Open Scope list_scope.
Local Open Scope Z_scope.

(** ** Data *)

(** A monitored cluster other than this one: what replication sources need. *)
Record Peer := mkPeer {
  peer_Name : string; peer_Servers : list (string * string); peer_ReplicationCredential : string
}.

Definition zeroStateMachine : StateMachine :=
  mkSM ∅ ∅ ∅ false (mkSla 0 0 0 0 0) 0 0 false false 0 0.

(** The oldest binary log of the master that a slave still reads. *)
Record SlavesOldestMasterFile := mkSlavesOldestMasterFile { so_Prefix : string; so_Suffix : Z }.

(** The nil and the empty slice differ for the code that tests [Servers == nil]. *)

Record Cluster := mkCluster {
  cl_Name : string; cl_WorkingDir : string; cl_Servers : option (list loc); cl_Crashes :
  crashList; cl_FailoverHistory : crashList; cl_Proxies : list nat; cl_FailoverCtr : Z;
  cl_FailoverTs : Z; cl_Status : string; cl_IsFailedArbitrator : bool; cl_IsPostgres : bool;
  cl_IsNotMonitoring : bool; cl_IsAlertDisable : bool; cl_InPhysicalBackup : bool;
  cl_InLogicalBackup : bool; cl_InBinlogBackup : bool; cl_InResticBackup : bool; cl_Conf :
  Config; cl_Topology : string; cl_hostList : list string; cl_clusterList : gmap string
  Peer; cl_slaves : list loc; cl_master : option loc; cl_oldMaster : option loc; cl_vmaster
  : option loc; cl_StateMachine : StateMachine; cl_runUUID : string;
  cl_canFlashBack : bool; cl_lastmaster : option loc; cl_HaveDBTLSCert : bool;
  cl_VersionsMap : gmap string Version;
  cl_slavesMade : bool; cl_IsSplitBrain : bool; cl_IsSplitBrainBck : bool;
  cl_IsLostMajority : bool; cl_IsClusterDown : bool; cl_IsDown : bool;
  cl_runOnceAfterTopology : bool; cl_CanInitNodes : bool; cl_CanConnectVault : bool;
  cl_IsFailable : bool; cl_IsMasterDown : bool; cl_SchedulerRunning : bool;
  cl_LogSlaveServers : list string; cl_errorInitNodes : string;
  cl_errorConnectVault : string;
  cl_SlavesOldestMasterFile : SlavesOldestMasterFile; cl_SlavesConnected : Z;
  cl_ProxyMonitors : gmap nat Proxy; cl_exit : bool; cl_IsSavingConfig : bool;
  cl_IsGitPush : bool; cl_IsCapturing : bool; cl_InRollingRestart : bool
}.

Definition eta_Cluster (x : Cluster) : Cluster :=
  mkCluster (cl_Name x) (cl_WorkingDir x) (cl_Servers x) (cl_Crashes x) (cl_FailoverHistory
    x) (cl_Proxies x) (cl_FailoverCtr x) (cl_FailoverTs x) (cl_Status x)
    (cl_IsFailedArbitrator x) (cl_IsPostgres x) (cl_IsNotMonitoring x) (cl_IsAlertDisable x)
    (cl_InPhysicalBackup x) (cl_InLogicalBackup x) (cl_InBinlogBackup x) (cl_InResticBackup
    x) (cl_Conf x) (cl_Topology x) (cl_hostList x) (cl_clusterList x) (cl_slaves x)
    (cl_master x) (cl_oldMaster x) (cl_vmaster x) (cl_StateMachine x) (cl_runUUID x)
    (cl_canFlashBack x) (cl_lastmaster x) (cl_HaveDBTLSCert x) (cl_VersionsMap x)
    (cl_slavesMade x) (cl_IsSplitBrain x) (cl_IsSplitBrainBck x) (cl_IsLostMajority x)
    (cl_IsClusterDown x) (cl_IsDown x) (cl_runOnceAfterTopology x) (cl_CanInitNodes x)
    (cl_CanConnectVault x) (cl_IsFailable x) (cl_IsMasterDown x) (cl_SchedulerRunning x)
    (cl_LogSlaveServers x) (cl_errorInitNodes x) (cl_errorConnectVault x)
    (cl_SlavesOldestMasterFile x) (cl_SlavesConnected x)
    (cl_ProxyMonitors x) (cl_exit x) (cl_IsSavingConfig x) (cl_IsGitPush x) (cl_IsCapturing
    x) (cl_InRollingRestart x).

(** The zero value of the struct. *)
Definition zeroCluster : Cluster :=
  mkCluster "" "" None [] [] [] 0 0 "" false false false false false false false false
    zeroConfig "" [] ∅ [] None None None zeroStateMachine ""
    false None false ∅
    false false false false false false false false false false false false [] "" ""
    (mkSlavesOldestMasterFile "" 0) 0
    ∅ false false false false false.

Definition set_cl_Name (v : string) (x : Cluster) : Cluster :=
  ltac:(assign_field eta_Cluster cl_Name v x).
Definition set_cl_WorkingDir (v : string) (x : Cluster) : Cluster :=
  ltac:(assign_field eta_Cluster cl_WorkingDir v x).
Definition set_cl_Servers (v : option (list loc)) (x : Cluster) : Cluster :=
  ltac:(assign_field eta_Cluster cl_Servers v x).
Definition set_cl_Crashes (v : crashList) (x : Cluster) : Cluster :=
  ltac:(assign_field eta_Cluster cl_Crashes v x).
Definition set_cl_FailoverHistory (v : crashList) (x : Cluster) : Cluster :=
  ltac:(assign_field eta_Cluster cl_FailoverHistory v x).
Definition set_cl_Proxies (v : list nat) (x : Cluster) : Cluster :=
  ltac:(assign_field eta_Cluster cl_Proxies v x).
Definition set_cl_FailoverCtr (v : Z) (x : Cluster) : Cluster :=
  ltac:(assign_field eta_Cluster cl_FailoverCtr v x).
Definition set_cl_FailoverTs (v : Z) (x : Cluster) : Cluster :=
  ltac:(assign_field eta_Cluster cl_FailoverTs v x).
Definition set_cl_Status (v : string) (x : Cluster) : Cluster :=
  ltac:(assign_field eta_Cluster cl_Status v x).
Definition set_cl_IsFailedArbitrator (v : bool) (x : Cluster) : Cluster :=
  ltac:(assign_field eta_Cluster cl_IsFailedArbitrator v x).
Definition set_cl_IsPostgres (v : bool) (x : Cluster) : Cluster :=
  ltac:(assign_field eta_Cluster cl_IsPostgres v x).
Definition set_cl_IsNotMonitoring (v : bool) (x : Cluster) : Cluster :=
  ltac:(assign_field eta_Cluster cl_IsNotMonitoring v x).
Definition set_cl_IsAlertDisable (v : bool) (x : Cluster) : Cluster :=
  ltac:(assign_field eta_Cluster cl_IsAlertDisable v x).
Definition set_cl_InPhysicalBackup (v : bool) (x : Cluster) : Cluster :=
  ltac:(assign_field eta_Cluster cl_InPhysicalBackup v x).
Definition set_cl_InLogicalBackup (v : bool) (x : Cluster) : Cluster :=
  ltac:(assign_field eta_Cluster cl_InLogicalBackup v x).
Definition set_cl_InBinlogBackup (v : bool) (x : Cluster) : Cluster :=
  ltac:(assign_field eta_Cluster cl_InBinlogBackup v x).
Definition set_cl_InResticBackup (v : bool) (x : Cluster) : Cluster :=
  ltac:(assign_field eta_Cluster cl_InResticBackup v x).
Definition set_cl_Conf (v : Config) (x : Cluster) : Cluster :=
  ltac:(assign_field eta_Cluster cl_Conf v x).
Definition set_cl_Topology (v : string) (x : Cluster) : Cluster :=
  ltac:(assign_field eta_Cluster cl_Topology v x).
Definition set_cl_hostList (v : list string) (x : Cluster) : Cluster :=
  ltac:(assign_field eta_Cluster cl_hostList v x).
Definition set_cl_clusterList (v : gmap string Peer) (x : Cluster) : Cluster :=
  ltac:(assign_field eta_Cluster cl_clusterList v x).
Definition set_cl_slaves (v : list loc) (x : Cluster) : Cluster :=
  ltac:(assign_field eta_Cluster cl_slaves v x).
Definition set_cl_master (v : option loc) (x : Cluster) : Cluster :=
  ltac:(assign_field eta_Cluster cl_master v x).
Definition set_cl_oldMaster (v : option loc) (x : Cluster) : Cluster :=
  ltac:(assign_field eta_Cluster cl_oldMaster v x).
Definition set_cl_vmaster (v : option loc) (x : Cluster) : Cluster :=
  ltac:(assign_field eta_Cluster cl_vmaster v x).
Definition set_cl_StateMachine (v : StateMachine) (x : Cluster) : Cluster :=
  ltac:(assign_field eta_Cluster cl_StateMachine v x).
Definition set_cl_runUUID (v : string) (x : Cluster) : Cluster :=
  ltac:(assign_field eta_Cluster cl_runUUID v x).
Definition set_cl_canFlashBack (v : bool) (x : Cluster) : Cluster :=
  ltac:(assign_field eta_Cluster cl_canFlashBack v x).
Definition set_cl_lastmaster (v : option loc) (x : Cluster) : Cluster :=
  ltac:(assign_field eta_Cluster cl_lastmaster v x).
Definition set_cl_HaveDBTLSCert (v : bool) (x : Cluster) : Cluster :=
  ltac:(assign_field eta_Cluster cl_HaveDBTLSCert v x).
Definition set_cl_VersionsMap (v : gmap string Version) (x : Cluster) : Cluster :=
  ltac:(assign_field eta_Cluster cl_VersionsMap v x).
Definition set_cl_slavesMade (v : bool) (x : Cluster) : Cluster :=
  ltac:(assign_field eta_Cluster cl_slavesMade v x).
Definition set_cl_IsSplitBrain (v : bool) (x : Cluster) : Cluster :=
  ltac:(assign_field eta_Cluster cl_IsSplitBrain v x).
Definition set_cl_IsSplitBrainBck (v : bool) (x : Cluster) : Cluster :=
  ltac:(assign_field eta_Cluster cl_IsSplitBrainBck v x).
Definition set_cl_IsLostMajority (v : bool) (x : Cluster) : Cluster :=
  ltac:(assign_field eta_Cluster cl_IsLostMajority v x).
Definition set_cl_IsClusterDown (v : bool) (x : Cluster) : Cluster :=
  ltac:(assign_field eta_Cluster cl_IsClusterDown v x).
Definition set_cl_IsDown (v : bool) (x : Cluster) : Cluster :=
  ltac:(assign_field eta_Cluster cl_IsDown v x).
Definition set_cl_runOnceAfterTopology (v : bool) (x : Cluster) : Cluster :=
  ltac:(assign_field eta_Cluster cl_runOnceAfterTopology v x).
Definition set_cl_CanInitNodes (v : bool) (x : Cluster) : Cluster :=
  ltac:(assign_field eta_Cluster cl_CanInitNodes v x).
Definition set_cl_CanConnectVault (v : bool) (x : Cluster) : Cluster :=
  ltac:(assign_field eta_Cluster cl_CanConnectVault v x).
Definition set_cl_IsFailable (v : bool) (x : Cluster) : Cluster :=
  ltac:(assign_field eta_Cluster cl_IsFailable v x).
Definition set_cl_IsMasterDown (v : bool) (x : Cluster) : Cluster :=
  ltac:(assign_field eta_Cluster cl_IsMasterDown v x).
Definition set_cl_SchedulerRunning (v : bool) (x : Cluster) : Cluster :=
  ltac:(assign_field eta_Cluster cl_SchedulerRunning v x).
Definition set_cl_LogSlaveServers (v : list string) (x : Cluster) : Cluster :=
  ltac:(assign_field eta_Cluster cl_LogSlaveServers v x).
Definition set_cl_errorInitNodes (v : string) (x : Cluster) : Cluster :=
  ltac:(assign_field eta_Cluster cl_errorInitNodes v x).
Definition set_cl_errorConnectVault (v : string) (x : Cluster) : Cluster :=
  ltac:(assign_field eta_Cluster cl_errorConnectVault v x).
Definition set_cl_SlavesOldestMasterFile (v : SlavesOldestMasterFile) (x : Cluster) : Cluster :=
  ltac:(assign_field eta_Cluster cl_SlavesOldestMasterFile v x).
Definition set_cl_SlavesConnected (v : Z) (x : Cluster) : Cluster :=
  ltac:(assign_field eta_Cluster cl_SlavesConnected v x).
Definition set_cl_ProxyMonitors (v : gmap nat Proxy) (x : Cluster) : Cluster :=
  ltac:(assign_field eta_Cluster cl_ProxyMonitors v x).
Definition set_cl_exit (v : bool) (x : Cluster) : Cluster :=
  ltac:(assign_field eta_Cluster cl_exit v x).
Definition set_cl_IsSavingConfig (v : bool) (x : Cluster) : Cluster :=
  ltac:(assign_field eta_Cluster cl_IsSavingConfig v x).
Definition set_cl_IsGitPush (v : bool) (x : Cluster) : Cluster :=
  ltac:(assign_field eta_Cluster cl_IsGitPush v x).
Definition set_cl_IsCapturing (v : bool) (x : Cluster) : Cluster :=
  ltac:(assign_field eta_Cluster cl_IsCapturing v x).
Definition set_cl_InRollingRestart (v : bool) (x : Cluster) : Cluster :=
  ltac:(assign_field eta_Cluster cl_InRollingRestart v x).

(** [cluster.slaves = append(cluster.slaves, x)]; [slavesMade] is [slaves != nil]. *)
Definition append_slave (x : loc) (c : Cluster) : Cluster :=
  set_cl_slavesMade true (set_cl_slaves (cl_slaves c ++ [x]) c).

Definition cl_servers (c : Cluster) : list loc := default [] (cl_Servers c).

(** ** Calls that leave the manager *)

Record ChangeMasterOpt := mkChangeMasterOpt {
  cm_Host : string; cm_Port : string; cm_User : string; cm_Password : string; cm_Retry :
  string; cm_Heartbeat : string; cm_SSL : bool; cm_Logfile : string; cm_Logpos : string;
  cm_Mode : string; cm_Channel : string; cm_PostgressDB : string; cm_IsDelayed : bool;
  cm_Delay : string; cm_DoDomainIds : string; cm_IgnoreDomainIds : string;
  cm_IgnoreServerIds : string
}.

Definition eta_ChangeMasterOpt (x : ChangeMasterOpt) : ChangeMasterOpt :=
  mkChangeMasterOpt (cm_Host x) (cm_Port x) (cm_User x) (cm_Password x) (cm_Retry x)
    (cm_Heartbeat x) (cm_SSL x) (cm_Logfile x) (cm_Logpos x) (cm_Mode x) (cm_Channel x)
    (cm_PostgressDB x) (cm_IsDelayed x) (cm_Delay x) (cm_DoDomainIds x) (cm_IgnoreDomainIds
    x) (cm_IgnoreServerIds x).

(** The zero value of the struct. *)
Definition zeroChangeMasterOpt : ChangeMasterOpt :=
  mkChangeMasterOpt "" "" "" "" "" "" false "" "" "" "" "" false "" "" "" "".

Definition set_cm_Host (v : string) (x : ChangeMasterOpt) : ChangeMasterOpt :=
  ltac:(assign_field eta_ChangeMasterOpt cm_Host v x).
Definition set_cm_Port (v : string) (x : ChangeMasterOpt) : ChangeMasterOpt :=
  ltac:(assign_field eta_ChangeMasterOpt cm_Port v x).
Definition set_cm_User (v : string) (x : ChangeMasterOpt) : ChangeMasterOpt :=
  ltac:(assign_field eta_ChangeMasterOpt cm_User v x).
Definition set_cm_Password (v : string) (x : ChangeMasterOpt) : ChangeMasterOpt :=
  ltac:(assign_field eta_ChangeMasterOpt cm_Password v x).
Definition set_cm_Retry (v : string) (x : ChangeMasterOpt) : ChangeMasterOpt :=
  ltac:(assign_field eta_ChangeMasterOpt cm_Retry v x).
Definition set_cm_Heartbeat (v : string) (x : ChangeMasterOpt) : ChangeMasterOpt :=
  ltac:(assign_field eta_ChangeMasterOpt cm_Heartbeat v x).
Definition set_cm_SSL (v : bool) (x : ChangeMasterOpt) : ChangeMasterOpt :=
  ltac:(assign_field eta_ChangeMasterOpt cm_SSL v x).
Definition set_cm_Logfile (v : string) (x : ChangeMasterOpt) : ChangeMasterOpt :=
  ltac:(assign_field eta_ChangeMasterOpt cm_Logfile v x).
Definition set_cm_Logpos (v : string) (x : ChangeMasterOpt) : ChangeMasterOpt :=
  ltac:(assign_field eta_ChangeMasterOpt cm_Logpos v x).
Definition set_cm_Mode (v : string) (x : ChangeMasterOpt) : ChangeMasterOpt :=
  ltac:(assign_field eta_ChangeMasterOpt cm_Mode v x).
Definition set_cm_Channel (v : string) (x : ChangeMasterOpt) : ChangeMasterOpt :=
  ltac:(assign_field eta_ChangeMasterOpt cm_Channel v x).
Definition set_cm_PostgressDB (v : string) (x : ChangeMasterOpt) : ChangeMasterOpt :=
  ltac:(assign_field eta_ChangeMasterOpt cm_PostgressDB v x).
Definition set_cm_IsDelayed (v : bool) (x : ChangeMasterOpt) : ChangeMasterOpt :=
  ltac:(assign_field eta_ChangeMasterOpt cm_IsDelayed v x).
Definition set_cm_Delay (v : string) (x : ChangeMasterOpt) : ChangeMasterOpt :=
  ltac:(assign_field eta_ChangeMasterOpt cm_Delay v x).
Definition set_cm_DoDomainIds (v : string) (x : ChangeMasterOpt) : ChangeMasterOpt :=
  ltac:(assign_field eta_ChangeMasterOpt cm_DoDomainIds v x).
Definition set_cm_IgnoreDomainIds (v : string) (x : ChangeMasterOpt) : ChangeMasterOpt :=
  ltac:(assign_field eta_ChangeMasterOpt cm_IgnoreDomainIds v x).
Definition set_cm_IgnoreServerIds (v : string) (x : ChangeMasterOpt) : ChangeMasterOpt :=
  ltac:(assign_field eta_ChangeMasterOpt cm_IgnoreServerIds v x).

(** An error value: [None] is nil. *)
Definition Err : Type := option string.

(** How a table flush that runs beside a timer ends. *)
Inductive FlushEnd := Flushed (e : Err) | FlushTimeout.

(** How a program that was started ends. *)
Inductive CommandEnd := Completed | NotStarted (e : string) | Exited (e : string).

(** The error of a connection attempt; [msg] is the text of the error. *)
Inductive ConnErr := MySQLError (number : Z) (msg : string) | NoRows | OtherErr (msg : string).
Definition conn_msg (e : ConnErr) : string :=
  match e with
  | MySQLError _ msg => msg
  | NoRows => "sql: no rows in result set"
  | OtherErr msg => msg
  end.

(** [db_*] are the functions of [utils/dbhelper], with the server whose
    connection they use; the others are scripts, proxies, HTTP, MaxScale, files,
    programs of the host and the clock. [db_Connect] opens a connection and pings
    it, [None] being success; [db_Enforce] is a helper that sets one variable or
    installs a plugin. [http_report] and [http_election] are the two posts to the
    arbitrator, with the error or the decoded answer. [stat_missing] is the error of [os.Stat]
    when it says that the file does not exist; [run_pipe] runs two programs, the
    output of the first being the input of the second; [run_job] and [start_job]
    are the backup and restore jobs, waited for or not. [psql_*] is the admin
    interface of the ProxySQL of a proxy: a statement, the test for a row of
    [mysql_servers], the row of a server in the connection pool; [proxy_*] are the
    other proxies, [service] and [proxy_service] the orchestrator and
    [poll_switchover] the channel of the switchover requests; [channel_poll] tells
    whether the [select] of a wait took the message of a channel, [proxy_server_id]
    is the identifier read through a proxy and [find_process] is [os.FindProcess]. *)
Inductive Call : Type -> Type :=
| db_SetReadOnly (l : loc) (on : bool) : Call Err
| db_SetSuperReadOnly (l : loc) (on : bool) : Call Err
| db_StopSlave (l : loc) (channel : string) : Call Err
| db_StartSlave (l : loc) (channel : string) : Call Err
| db_ResetSlave (l : loc) (all : bool) (channel : string) : Call Err
| db_ResetMaster (l : loc) (channel : string) : Call Err
| db_ChangeMaster (l : loc) (opt : ChangeMasterOpt) : Call Err
| db_ChangeReplicationPassword (l : loc) (opt : ChangeMasterOpt) : Call Err
| db_SetUserPassword (l : loc) : Call unit
| db_SetGTIDSlavePos (l : loc) (gtid : string) : Call Err
| db_FlushTablesTimed (l : loc) (max_statement_time : option Z) (timeout : Z) : Call FlushEnd
| db_FlushTables (l : loc) : Call Err
| db_FlushTablesWithReadLock (l : loc) : Call Err
| db_UnlockTables (l : loc) : Call Err
| db_FlushBinaryLogs (l : loc) : Call Err
| db_FlushBinaryLogsLocal (l : loc) : Call Err
| db_SetMaxConnections (l : loc) (n : string) : Call Err
| db_KillThreads (l : loc) : Call unit
| db_SetEventScheduler (l : loc) (on : bool) : Call Err
| db_SetEventStatus (l : loc) (ev : Event) (status : Z) : Call Err
| db_SetSemiSyncMaster (l : loc) : Call Err
| db_SetSemiSyncSlave (l : loc) : Call Err
| db_SetGroupReplicationPrimary (l : loc) : Call Err
| db_MasterWaitGTID (l : loc) (gtid : string) (timeout : Z) : Call Err
| db_MasterPosWait (l : loc) (file pos : string) (timeout : Z) (channel : string) : Call Err
| db_CheckLongRunningWrites (l : loc) (thresh : Z) : Call Z
| db_GetVariableByName (l : loc) (name : string) : Call (string * Err)
| db_GetMSlaveStatus (l : loc) (channel : string) : Call (SlaveStatus * Err)
| db_GetSlaveStatus (l : loc) (channel : string) : Call (SlaveStatus * Err)
| db_GetMasterStatus (l : loc) : Call (MasterStatus * Err)
| db_GetStatusAsInt (l : loc) : Call (gmap string Z)
| db_HaveErrantTransactions (l : loc) (gtidMaster gtidSlave : string) : Call bool
| db_GetLastPseudoGTID (l : loc) : Call string
| db_GetBinlogEventPseudoGTID (l : loc) (gtid file : string) : Call (string * string)
| db_GetNumberOfEventsAfterPos (l : loc) (file pos : string) : Call Z
| db_GetBinlogPosAfterSkipNumberOfEvents (l : loc) (file pos : string) (skip : Z) : Call (string * string)
| db_Ping (l : loc) : Call Err
| db_GetVariables (l : loc) : Call (gmap string string * Err)
| db_GetVariablesCase (l : loc) : Call Err
| db_GetMaxscaleVersion (l : loc) : Call string
| db_GetDBVersion (l : loc) : Call (Version * Err)
| db_IsGroupReplicationMaster (l : loc) (host : string) : Call bool
| db_IsGroupReplicationSlave (l : loc) (host : string) : Call bool
| db_GetEventStatus (l : loc) : Call (list Event * Err)
| db_GetProcesslist (l : loc) : Call (list Processlist * Err)
| db_GetBinlogDumpThreads (l : loc) : Call (Z * Err)
| db_GetAllSlavesStatus (l : loc) : Call (list SlaveStatus * Err)
| db_GetChannelSlaveStatus (l : loc) : Call (list SlaveStatus * Err)
| db_GetStatus (l : loc) : Call (gmap string string)
| db_GetPlugins (l : loc) : Call (gmap string string)
| db_StartGroupReplication (l : loc) : Call Err
| db_HaveExtraEvents (l : loc) (file pos : string) : Call (bool * Err)
| db_Connect (l : loc) (driver tls : string) : Call (option ConnErr)
| db_Enforce (l : loc) (helper arg : string) : Call Err
| db_SkipBinlogEvent (l : loc) (channel : string) : Call Err
| db_GetBinaryLogs (l : loc) : Call (list (string * Z) * Err)
| db_CountBinaryLogs (l : loc) : Call (Z * Err)
| db_PurgeBinlogTo (l : loc) (filename : string) : Call Err
| db_PurgeBinlogBefore (l : loc) (ts : Z) : Call Err
| db_SetMaxBinlogTotalSize (l : loc) (size : Z) : Call Err
| unmodelled (what : string) (l : option loc) : Call (list (string * State))
| vault_GetReplicationCredentials : Call (option (string * string))
| run_script (path : string) (args : list string) : Call unit
| proxy_Failover (p : nat) : Call unit
| proxy_BackendsStateChange (p : nat) : Call unit
| proxy_SetMaintenance (p : nat) (l : loc) : Call unit
| write_crash (path : string) (cr : Crash) : Call unit
| read_dir (path : string) : Call (option (list string))
| remove_file (path : string) : Call unit
| walk_dir (path : string) : Call (list (string * string))
| make_dir (path : string) : Call unit
| rename_file (from to : string) : Call unit
| stat_missing (path : string) : Call Err
| which (tool : string) : Call (option string)
| run_command (path : string) (args : list string) : Call CommandEnd
| run_pipe (path : string) (args : list string) (path2 : string) (args2 : list string) : Call Err
| run_job (name : string) (l : loc) : Call Err
| start_job (name : string) (source : option loc) (l : loc) : Call unit
| save_cluster : Call unit
| time_Now : Call Z
| time_Stamp (t : Z) : Call string
| time_Sleep (ms : Z) : Call unit
| http_arbitrator (url body : string) : Call (option string)
| http_report (url body : string) (timeout : Z) : Call Err
| http_election (url body : string) (timeout : Z) : Call (string + string * string)
| http_Get (url : string) : Call (option Z)
| regexp_Match (pattern s : string) : Call (option bool)
| maxscale_Connect : Call bool
| maxscale_RestartStopped (maxinfo : bool) : Call bool
| psql_Connect (p : nat) : Call Err
| psql_Exec (p : nat) (s : PsqlStmt) : Call Err
| psql_Exists (p : nat) (host port : string) (among : list Z) : Call bool
| psql_Stats (p : nat) (hg : Z) (host port : string) : Call (option PoolStats)
| psql_GetVersion (p : nat) : Call string
| psql_GetUsers (p : nat) : Call (list string * Err)
| psql_GetQueryRules (p : nat) : Call Err
| psql_GetVariables (p : nat) : Call (gmap string string * Err)
| proxy_Init (p : nat) : Call unit
| proxy_Refresh (p : nat) : Call (list (string * State) * Err)
| proxy_Inject (p : nat) (view : string) : Call (Err * Err)
| service (op : string) (l : loc) : Call Err
| proxy_service (op : string) (p : nat) : Call Err
| create_file (path : string) : Call Err
| proxy_server_id (p : nat) : Call (option Z)
| find_process (pid : Z) : Call Err
| channel_poll (name : string) : Call bool
| db_SetDefaultMasterConn (l : loc) (channel : string) : Call Err
| db_StopAllSlaves (l : loc) : Call Err
| db_BootstrapGroupReplication (l : loc) : Call Err
| poll_switchover : Call bool
| send_mail : Call unit
| channel_send (name : string) : Call unit.

Inductive TraceEvent := Ev : forall {R : Type}, Call R -> R -> TraceEvent.

(** ** The world and its monad *)

Record World := mkWorld {
  w_cluster : Cluster; w_heap : loc -> ServerMonitor; w_trace : list TraceEvent
}.

Inductive outcome (A : Type) := Ret (a : A) | Panic | Hang.
Arguments Ret {A} a.
Arguments Panic {A}.
Arguments Hang {A}.

(** The databases and the host: answers as a function of everything that
    happened, how many rounds a wait loop is followed for, and the truncation of
    a time to the hour in the local time zone. *)
Class Env : Type := {
  answer : forall {R : Type}, list TraceEvent -> Call R -> R;
  wait_fuel : nat;
  env_hour_of : Z -> Z
}.

Definition M (A : Type) : Type := World -> outcome A * World.

#[export] Instance M_ret : MRet M := fun A a w => (Ret a, w).
#[export] Instance M_bind : MBind M := fun A B f m w =>
  match m w with
  | (Ret a, w') => f a w'
  | (Panic, w') => (Panic, w')
  | (Hang, w') => (Hang, w')
  end.

Definition panic {A} : M A := fun w => (Panic, w).
Definition hang {A} : M A := fun w => (Hang, w).

Definition get_cluster : M Cluster := fun w => (Ret (w_cluster w), w).
Definition get_conf : M Config := fun w => (Ret (cl_Conf (w_cluster w)), w).
Definition mod_cluster (f : Cluster -> Cluster) : M unit := fun w =>
  (Ret tt, mkWorld (f (w_cluster w)) (w_heap w) (w_trace w)).
Definition get_heap : M (loc -> ServerMonitor) := fun w => (Ret (w_heap w), w).
Definition load (l : loc) : M ServerMonitor := fun w => (Ret (w_heap w l), w).
Definition mod_server (l : loc) (f : ServerMonitor -> ServerMonitor) : M unit := fun w =>
  (Ret tt, mkWorld (w_cluster w) (<[l := f (w_heap w l)]> (w_heap w)) (w_trace w)).

(** A pointer, an optional value and an index that must exist. *)
Definition deref {A} (p : option A) : M A :=
  match p with Some a => mret a | None => panic end.
Definition index {A} (l : list A) (i : Z) : M A :=
  if (0 <=? i) && (i <? Z.of_nat (length l)) then deref (l !! Z.to_nat i) else panic.

Definition call `{Env} {R} (c : Call R) : M R := fun w =>
  let r := answer (w_trace w) c in
  (Ret r, mkWorld (w_cluster w) (w_heap w) (w_trace w ++ [Ev c r])).

(** A statement through the connection of [l]: a nil connection panics. *)
Definition exec `{Env} {R} (l : loc) (c : Call R) : M R :=
  s ← load l;
  if srv_Conn s then call c else panic.

(** [defer]: the finalizer runs on return and on panic. *)
Definition defer {A} (m : M A) (fin : M unit) : M A := fun w =>
  match m w with
  | (Ret a, w') => match fin w' with (Ret _, w'') => (Ret a, w'') | (Panic, w'') => (Panic, w'')
                                   | (Hang, w'') => (Hang, w'') end
  | (Panic, w') => match fin w' with (Hang, w'') => (Hang, w'') | (_, w'') => (Panic, w'') end
  | (Hang, w') => (Hang, w')
  end.

Fixpoint forM {A} (l : list A) (f : A -> M unit) : M unit :=
  match l with
  | [] => mret tt
  | x :: r => f x ;; forM r f
  end.

Definition whenM (b : bool) (m : M unit) : M unit := if b then m else mret tt.

(** The methods that return [None] on a nil [DBVersion] panic there. *)
Definition server_test (l : loc) (p : ServerMonitor -> option bool) : M bool :=
  s ← load l; deref (p s).

(** ** Frame reasoning

    [Pres R m]: whatever happens, [m] relates the worlds before and after by
    [R]. For a preorder it goes through all the combinators; the tactic [pres]
    follows the shape of a computation and ends with the lemmas of the
    database [pres]. *)

Definition Pres (R : World -> World -> Prop) {A} (m : M A) : Prop := forall w, R w (snd (m w)).

Create HintDb pres discriminated.
#[export] Hint Constants Opaque : pres.
#[export] Hint Variables Opaque : pres.

Section Frames.
Context (R : World -> World -> Prop) `{!PreOrder R}.

Lemma pres_ret {A} (a : A) : Pres R (mret a : M A).
Proof. intros w. reflexivity. Qed.
Lemma pres_panic {A} : Pres R (panic : M A).
Proof. intros w. reflexivity. Qed.
Lemma pres_hang {A} : Pres R (hang : M A).
Proof. intros w. reflexivity. Qed.
Lemma pres_get_cluster : Pres R get_cluster.
Proof. intros w. reflexivity. Qed.
Lemma pres_get_conf : Pres R get_conf.
Proof. intros w. reflexivity. Qed.
Lemma pres_get_heap : Pres R get_heap.
Proof. intros w. reflexivity. Qed.
Lemma pres_load l : Pres R (load l).
Proof. intros w. reflexivity. Qed.
Lemma pres_deref {A} (p : option A) : Pres R (deref p).
Proof. destruct p; [apply pres_ret|apply pres_panic]. Qed.
Lemma pres_index {A} (l : list A) i : Pres R (index l i).
Proof. unfold index. destruct (_ && _); [apply pres_deref|apply pres_panic]. Qed.
Lemma pres_bind {A B} (m : M A) (f : A -> M B) :
  Pres R m -> (forall a, Pres R (f a)) -> Pres R (m ≫= f).
Proof.
  intros Hm Hf w. specialize (Hm w). unfold mbind, M_bind.
  destruct (m w) as [[a| |] w']; simpl in *; [|done|done].
  etransitivity; [exact Hm|apply Hf].
Qed.
Lemma pres_if {A} (b : bool) (m1 m2 : M A) :
  Pres R m1 -> Pres R m2 -> Pres R (if b then m1 else m2).
Proof. by destruct b. Qed.
Lemma pres_forM {A} (l : list A) (f : A -> M unit) :
  (forall x, Pres R (f x)) -> Pres R (forM l f).
Proof.
  intros Hf. induction l as [|x l IH]; simpl; [apply pres_ret|].
  apply pres_bind; [apply Hf|intros _; exact IH].
Qed.
Lemma pres_whenM b (m : M unit) : Pres R m -> Pres R (whenM b m).
Proof. intros H. unfold whenM. apply pres_if; [done|apply pres_ret]. Qed.
Lemma pres_server_test l p : Pres R (server_test l p).
Proof. apply pres_bind; [apply pres_load|intros s; apply pres_deref]. Qed.
Lemma pres_defer {A} (m : M A) fin : Pres R m -> Pres R fin -> Pres R (defer m fin).
Proof.
  intros Hm Hf w. specialize (Hm w). unfold defer.
  destruct (m w) as [[a| |] w'] eqn:E; simpl in *; [| |done];
    (specialize (Hf w'); destruct (fin w') as [[?| |] w'']; simpl in *; by etransitivity).
Qed.
Lemma pres_exec `{Env} {T} l (c : Call T) : Pres R (call c) -> Pres R (exec l c).
Proof.
  intros Hc. apply pres_bind; [apply pres_load|intros s]. by apply pres_if; [|apply pres_panic].
Qed.
End Frames.

(** A part of the world that a computation leaves alone. *)
Definition keeps {T} (f : World -> T) : World -> World -> Prop := fun w w' => f w' = f w.
#[export] Instance keeps_preorder {T} (f : World -> T) : PreOrder (keeps f).
Proof. split; [by intros ?|intros x y z; unfold keeps; congruence]. Qed.

Ltac pres_step :=
  first
  [ apply pres_ret; solve [typeclasses eauto]
  | apply pres_panic; solve [typeclasses eauto]
  | apply pres_hang; solve [typeclasses eauto]
  | apply pres_get_cluster; solve [typeclasses eauto]
  | apply pres_get_conf; solve [typeclasses eauto]
  | apply pres_get_heap; solve [typeclasses eauto]
  | apply pres_load; solve [typeclasses eauto]
  | apply pres_deref; solve [typeclasses eauto]
  | apply pres_index; solve [typeclasses eauto]
  | apply pres_server_test; solve [typeclasses eauto]
  | solve [eauto with pres]
  | apply pres_exec; [solve [typeclasses eauto]|]
  | apply pres_bind; [solve [typeclasses eauto]| |intros ?]
  | apply pres_forM; [solve [typeclasses eauto]|intros ?]
  | apply pres_whenM; [solve [typeclasses eauto]|]
  | apply pres_if; [solve [typeclasses eauto]| |]
  | match goal with
    | |- Pres _ (let _ := _ in _) => cbv zeta
    | |- Pres _ (match ?x with _ => _ end) => destruct x
    end ].
Ltac pres := repeat pres_step.

(** [deep]: as [pres], into the definitions. *)
Ltac head_of t := lazymatch t with ?f _ => head_of f | _ => t end.
Ltac deep_step :=
  lazymatch goal with
  | |- Pres _ (mbind _ _) => apply pres_bind; [apply _| |intros ?]
  | |- Pres _ (defer _ _) => apply pres_defer; [apply _| |]
  | |- Pres _ (match ?x with _ => _ end) => destruct x
  | |- Pres _ (let _ := _ in _) => cbv zeta
  | |- Pres _ ?m =>
    first [ solve [eauto 2 with pres] | progress pres_step
          | let h := head_of m in unfold h; cbv beta ]
  end.
Ltac deep := repeat deep_step.

(** What follows a computation that returned. *)
Lemma bind_ret {A B} (m : M A) (f : A -> M B) w b w'' :
  (m ≫= f) w = (Ret b, w'') -> exists a w', m w = (Ret a, w') /\ f a w' = (Ret b, w'').
Proof.
  unfold mbind, M_bind. destruct (m w) as [[a| |] w'] eqn:E; [|done|done]. eauto.
Qed.

Ltac inv_bind H :=
  let a := fresh "a" in let w' := fresh "w" in let H1 := fresh "Hm" in
  apply bind_ret in H as (a & w' & H1 & H).

Lemma deref_ret {A} (p : option A) w a w' : deref p w = (Ret a, w') -> p = Some a /\ w' = w.
Proof. destruct p; simpl; [by intros [= -> ->]|done]. Qed.

(** Symbolic execution of a computation that returned: [inv_run] opens every
    bind, reads the world and splits the tests. *)
Ltac inv_pure :=
  repeat match goal with
  | H : get_cluster _ = (Ret _, _) |- _ => injection H as <- <-
  | H : get_heap _ = (Ret _, _) |- _ => injection H as <- <-
  | H : get_conf _ = (Ret _, _) |- _ => injection H as <- <-
  | H : load _ _ = (Ret _, _) |- _ => injection H as <- <-
  | H : mret _ _ = (Ret _, _) |- _ => injection H; clear H; intros; subst
  | H : panic _ = (Ret _, _) |- _ => discriminate H
  | H : hang _ = (Ret _, _) |- _ => discriminate H
  | H : deref _ _ = (Ret _, _) |- _ => apply deref_ret in H as [? ->]
  end.
Ltac inv_run H :=
  repeat first
  [ progress inv_pure
  | inv_bind H
  | match type of H with
    | (let _ := _ in _) _ = _ => cbv zeta in H
    | (if ?b then _ else _) _ = _ => destruct b eqn:?
    | (match ?x with _ => _ end) _ = _ => destruct x eqn:?
    end ].

(** What a computation that keeps [f] did to the world it returned in. *)
Lemma pres_run {T A} (f : World -> T) (m : M A) w o w' :
  Pres (keeps f) m -> m w = (o, w') -> f w' = f w.
Proof. intros Hm E. specialize (Hm w). by rewrite E in Hm. Qed.

Ltac keeps_in f H := apply (pres_run f) in H; [|solve [pres]].
Ltac keeps_all f :=
  repeat match goal with
  | H : ?m ?w = (_, ?w') |- _ =>
      match type of m with
      | M _ => apply (pres_run f) in H; [|solve [pres]]
      end
  end.

(** ** Reading the cluster (cluster_get.go, cluster_has.go) *)

Definition GetTopology (c : Cluster) : string := cl_Topology c.
Definition topology_is (c : Cluster) (t : string) : bool := (cl_Topology c =? t)%string.

Definition GetRplUser (conf : Config) : string := fst (SplitPair (Conf_ReplicationCredential conf)).
Definition GetRplPass (conf : Config) : string := snd (SplitPair (Conf_ReplicationCredential conf)).
Definition GetDbUser (conf : Config) : string := fst (SplitPair (Conf_DbServersCredential conf)).
Definition GetDbPass (conf : Config) : string := snd (SplitPair (Conf_DbServersCredential conf)).

Definition GetMaster (c : Cluster) : option loc :=
  match cl_master c, cl_vmaster c with
  | None, None => None
  | None, Some v => Some v
  | Some m, _ => Some m
  end.

Section Reading.
Context (c : Cluster) (h : loc -> ServerMonitor).

(** First server of a list with a property. *)
Definition first_server (p : ServerMonitor -> bool) (l : list loc) : option loc :=
  List.find (fun x => p (h x)) l.

Definition GetStandaloneServers : list loc :=
  List.filter (fun x => IsStandAlone (h x)) (cl_servers c).

Definition getOnePreferedMaster : option loc :=
  if (Conf_PrefMaster (cl_Conf c) =? "")%string then None
  else first_server (fun s => if negb (srv_SourceClusterName s =? cl_Name c)%string then false
                              else IsPrefered s) (cl_servers c).

Definition GetRelayServer : option loc :=
  if (Conf_Hosts (cl_Conf c) =? "")%string then None
  else first_server srv_IsRelay (cl_servers c).

Definition GetServerFromId (serverid : Z) : option loc :=
  first_server (fun s => srv_ServerID s =? serverid) (cl_servers c).

Definition GetServerFromName (name : string) : option loc :=
  first_server (fun s => (srv_Id s =? name)%string) (cl_servers c).

Fixpoint index_from (p : ServerMonitor -> bool) (i : Z) (l : list loc) : option Z :=
  match l with
  | [] => None
  | x :: r => if p (h x) then Some i else index_from p (i + 1) r
  end.

Definition GetIndiceServerFromId (Id : string) : Z :=
  default 0 (index_from (fun s => (srv_Id s =? Id)%string) 0 (cl_servers c)).

Definition GetServerIndice (srv : ServerMonitor) : Z :=
  default 0 (index_from (fun s => (srv_URL s =? srv_URL srv)%string) 0 (cl_servers c)).

Definition GetServerFromURL (url : string) : option loc :=
  if strings_Contains url ":"
  then first_server (fun s => (srv_Host s +:+ ":" +:+ srv_Port s =? url)%string ||
                              (srv_IP s +:+ ":" +:+ srv_Port s =? url)%string) (cl_servers c)
  else first_server (fun s => (srv_Host s =? url)%string || (srv_IP s =? url)%string) (cl_servers c).

(** Is [server] the master [slave] replicates from? With both threads running
    the server ids decide, otherwise host and port. *)
Definition is_master_of (slave server : ServerMonitor) : bool :=
  if srv_ServerID server =? srv_ServerID slave then false
  else if negb (0 <? Z.of_nat (length (srv_Replications slave))) then false
  else if IsIOThreadRunning slave && IsSQLThreadRunning slave
  then GetReplicationServerID slave =? srv_ServerID server
  else (GetReplicationMasterHost slave =? srv_Host server)%string &&
       (GetReplicationMasterPort slave =? srv_Port server)%string.

Definition GetMasterFromReplication (slave : ServerMonitor) : option loc :=
  first_server (is_master_of slave) (cl_servers c).

Definition GetFailedServer : option loc :=
  first_server (fun s => state_is s stateFailed) (cl_servers c).

Definition GetBackupServer : option loc :=
  if negb (IsDiscovered (cl_StateMachine c)) || (Z.of_nat (length (cl_servers c)) <? 1) then None
  else match first_server (fun s => negb (state_is s stateFailed) && srv_PreferedBackup s) (cl_servers c) with
       | Some l => Some l
       | None => cl_master c
       end.

Definition GetFirstWorkingSlave : option loc :=
  first_server (fun s => negb (IsDown s) && negb (IsReplicationBroken s)) (cl_slaves c).

(** Neighbours of the old master in a ring. Both read [cluster.oldMaster] besides
    (or instead of) their argument, which is the same server for the only caller. *)
Definition GetRingChildServer (oldMaster : option loc) : option loc :=
  match oldMaster, cl_oldMaster c with
  | Some om, Some com =>
      first_server (fun s =>
        negb (srv_ServerID s =? srv_ServerID (h com)) &&
        match GetMasterFromReplication s with
        | Some m => srv_ServerID (h m) =? srv_ServerID (h om)
        | None => false
        end) (cl_servers c)
  | _, _ => None
  end.

Definition GetRingParentServer (oldMaster : option loc) : option loc :=
  com ← cl_oldMaster c;
  ss ← GetSlaveStatusLastSeen (h com) (srv_ReplicationSourceName (h com));
  GetServerFromURL (ns_String (ss_MasterHost ss) +:+ ":" +:+ ns_String (ss_MasterPort ss)).

Definition GetDBServerIdList : list string :=
  if (Conf_Hosts (cl_Conf c) =? "")%string then map (fun _ => "") (cl_servers c)
  else map (fun x => srv_Id (h x)) (cl_servers c).

Definition GetParentClusterFromReplicationSource `{GoRange} (rep : SlaveStatus) : option Peer :=
  snd <$> List.find (fun kv =>
    negb (cl_Name c =? peer_Name (snd kv))%string &&
    existsb (fun hp => (fst hp =? ns_String (ss_MasterHost rep))%string &&
                       (snd hp =? ns_String (ss_MasterPort rep))%string)
            (peer_Servers (snd kv))) (go_range (cl_clusterList c)).

(** *** Predicates *)

Definition HasServer (srv : ServerMonitor) : bool :=
  existsb (fun x => (srv_URL (h x) =? srv_URL srv)%string ||
                    (srv_URL (h x) =? srv_URL srv +:+ ":3306")%string) (cl_servers c).

Definition HasNoValidSlave : bool :=
  topology_is c TopoActivePassive || IsInState "ERR00010" (cl_StateMachine c) ||
  IsInState "ERR00085" (cl_StateMachine c).

Definition in_own_hosts (child : bool) (hosts : string) (s : ServerMonitor) : bool :=
  if negb (srv_SourceClusterName s =? cl_Name c)%string then child else in_host_option s hosts.

Definition IsInIgnoredHosts := in_own_hosts true (Conf_IgnoreSrv (cl_Conf c)).
Definition IsInPreferedBackupHosts := in_own_hosts false (Conf_BackupServers (cl_Conf c)).
Definition IsInIgnoredReadonly := in_own_hosts true (Conf_IgnoreSrvRO (cl_Conf c)).
Definition IsInPreferedHosts := in_own_hosts false (Conf_PrefMaster (cl_Conf c)).

Definition IsInCaptureMode : bool :=
  if negb (Conf_MonitorCapture (cl_Conf c)) || cl_IsNotMonitoring c ||
     (0 <? Z.of_nat (length (cl_servers c))) then false
  else existsb (fun x => srv_InCaptureMode (h x)) (cl_servers c).

Definition suspect_known (s : ServerMonitor) : bool :=
  state_is s stateSuspect && negb (topology_is c TopoUnknown).

Definition HasAllDbUp : bool :=
  match cl_Servers c with
  | None => false
  | Some l => forallb (fun x => negb (state_is (h x) stateFailed) && negb (suspect_known (h x)) &&
                                srv_Conn (h x)) l
  end.

Definition HasAllDbDown : bool :=
  match cl_Servers c with
  | None => true
  | Some l => forallb (fun x => state_is (h x) stateFailed) l
  end.

Definition HasNoDbUnconnected : bool :=
  match cl_Servers c with
  | None => false
  | Some l => forallb (fun x => negb (state_is (h x) stateFailed || state_is (h x) stateUnconn) &&
                                negb (suspect_known (h x)) && srv_Conn (h x)) l
  end.

Definition IsConnected (s : ServerMonitor) : bool :=
  if state_is s stateFailed then false
  else if suspect_known s then false
  else srv_Conn s.

(** Requests filed as cookies; [stat] is the file system. *)
Definition any_cookie (test : option ServerMonitor -> bool) : bool :=
  existsb (fun x => test (Some (h x))) (cl_servers c).
Definition every_cookie (test : option ServerMonitor -> bool) : bool :=
  match cl_Servers c with
  | None => false
  | Some l => forallb (fun x => test (Some (h x))) l
  end.
Definition HasRequestDBRestart (stat : string -> bool) : bool := any_cookie (HasRestartCookie stat).
Definition HasRequestDBConfigChange (stat : string -> bool) : bool := any_cookie (HasConfigCookie stat).
Definition HasRequestDBRollingRestart (stat : string -> bool) : bool := every_cookie (HasRestartCookie stat).
Definition HasRequestDBRollingReprov (stat : string -> bool) : bool := every_cookie (HasReprovCookie stat).
Definition HasRequestDBReprov (stat : string -> bool) : bool := any_cookie (HasReprovCookie stat).
Definition cl_HasWaitDBACredCookie (stat : string -> bool) : bool := any_cookie (HasWaitDBACredCookie stat).
Definition cl_HasWaitSponsorCredCookie (stat : string -> bool) : bool :=
  any_cookie (HasWaitSponsorCredCookie stat).

Definition IsInHostList (host : string) : bool := existsb (fun v => (v =? host)%string) (cl_hostList c).

Definition IsMasterFailed : bool :=
  match GetMaster c with
  | None => true
  | Some m => state_is (h m) stateFailed
  end.

Definition IsActive : bool := (cl_Status c =? "A")%string.
Definition cl_IsInFailover : bool := IsInFailover (cl_StateMachine c).
Definition cl_IsDiscovered : bool := IsDiscovered (cl_StateMachine c).
Definition IsMultiMaster : bool :=
  topology_is c TopoMultiMasterWsrep || topology_is c TopoMultiMaster ||
  topology_is c TopoMultiMasterRing.
Definition IsInBackup : bool :=
  cl_InPhysicalBackup c || cl_InLogicalBackup c || cl_InBinlogBackup c || cl_InResticBackup c.

(** *** Predicates of a server that look at its cluster (srv_has.go) *)

Fixpoint HasCycling_loop (rounds : nat) (searchServerID : Z) (currentSlave : ServerMonitor) : bool :=
  match rounds with
  | O => false
  | S n =>
      match GetMasterFromReplication currentSlave with
      | None => false
      | Some m => if srv_ServerID (h m) =? searchServerID then true
                  else HasCycling_loop n searchServerID (h m)
      end
  end.
Definition HasCycling (s : ServerMonitor) : bool :=
  HasCycling_loop (length (cl_servers c)) (srv_ServerID s) s.

Definition IsMaster (s : ServerMonitor) : bool :=
  match GetMaster c with
  | None => false
  | Some m => (srv_Id (h m) =? srv_Id s)%string
  end.

Definition IsLeader (l : loc) : bool :=
  if state_is (h l) stateMaster then true
  else match cl_vmaster c with
       | None => false
       | Some v => state_is (h l) stateWsrep && (v =? l)%nat
       end.

Definition IsSlaveOrSync (l : loc) : bool :=
  if state_is (h l) stateWsrep then negb (IsLeader l) else srv_IsSlave (h l).

Section Issues.
Context `{GoRange}.
Definition HasBlockerIssue (s : ServerMonitor) : bool :=
  IsInStateList ["MDEV20821@" +:+ srv_URL s] (cl_StateMachine c).
Definition HasCriticalIssue (s : ServerMonitor) : bool := false.
Definition HasMajorIssue (s : ServerMonitor) : bool :=
  IsInStateList ["MDEV19577@" +:+ srv_URL s] (cl_StateMachine c).
Definition HasMdevIssue (s : ServerMonitor) : bool :=
  let level := Conf_FailoverMdevLevel (cl_Conf c) in
  if (level =? "blocker")%string then HasBlockerIssue s
  else if (level =? "critical")%string then HasBlockerIssue s || HasCriticalIssue s
  else if (level =? "major")%string then HasBlockerIssue s || HasCriticalIssue s || HasMajorIssue s
  else HasBlockerIssue s.
End Issues.
End Reading.

(** ** Writing states (cluster_set.go) *)

Definition mod_sm (f : StateMachine -> StateMachine) : M unit :=
  mod_cluster (fun c => set_cl_StateMachine (f (cl_StateMachine c)) c).

Definition SetState (key : string) (s : State) : M unit :=
  conf ← get_conf;
  if negb (strings_Contains (Conf_MonitorIgnoreErrors conf) key)
  then mod_sm (AddState key s)
  else mret tt.

(** [state.State{ErrType, ErrDesc: fmt.Sprintf(clusterError[key], args...), ErrFrom, ServerUrl}] *)
Definition state_of (key type_ from url : string) (args : list fmt_arg) : State :=
  mkState "" type_ (fmt_Sprintf (ClusterError key) args) from url.

(** ** The configured topology *)

Definition topology_from_conf (c : Cluster) (h : loc -> ServerMonitor) : string * bool :=
  let conf := cl_Conf c in
  if Conf_MultiMaster conf then (TopoMultiMaster, cl_IsPostgres c)
  else if Conf_MultiMasterRing conf then (TopoMultiMasterRing, cl_IsPostgres c)
  else if Conf_MultiMasterWsrep conf then (TopoMultiMasterWsrep, cl_IsPostgres c)
  else if Conf_MultiMasterGrouprep conf then (TopoMultiMasterGrouprep, cl_IsPostgres c)
  else if Conf_MxsBinlogOn conf then (TopoBinlogServer, cl_IsPostgres c)
  else if Conf_MultiTierSlave conf then (TopoMultiTierSlave, cl_IsPostgres c)
  else if Conf_MasterSlavePgStream conf then (TopoMasterSlavePgStream, true)
  else if Conf_MasterSlavePgLogical conf then (TopoMasterSlavePgLog, true)
  else if Conf_ActivePassive conf then (TopoActivePassive, cl_IsPostgres c)
  else match GetRelayServer c h with
       | Some _ => if negb (Conf_ReplicationNoRelay conf) then (TopoMultiTierSlave, cl_IsPostgres c)
                   else (match cl_master c with Some _ => TopoMasterSlave | None => TopoUnknown end,
                         cl_IsPostgres c)
       | None => (match cl_master c with Some _ => TopoMasterSlave | None => TopoUnknown end,
                  cl_IsPostgres c)
       end.

Definition GetTopologyFromConf : M string := fun w =>
  let c := w_cluster w in
  let '(t, pg) := topology_from_conf c (w_heap w) in
  let conf := set_Conf_Topology t (cl_Conf c) in
  let conf := if (Conf_TopologyTarget conf =? "")%string || (Conf_TopologyTarget conf =? TopoUnknown)%string
              then set_Conf_TopologyTarget t conf else conf in
  (Ret t, mkWorld (set_cl_IsPostgres pg (set_cl_Conf conf c)) (w_heap w) (w_trace w)).
