(* ===== verification/Demo.v ===== *)
(** * A small cluster to run the model on

    A master and two slaves, and an environment in which every statement
    succeeds and the databases report what they were set up with. The witnesses
    of the properties evaluate the model on it. *)

From Stdlib Require Import ZArith Lia Bool Ascii String.
From stdpp Require Import base list gmap strings functions.
From S2P Require Import Prelude GoLib Gtid Version StateMachine Crash DelayStat Config Server Proxy Cluster.

Local Open Scope string_scope.
Local Open Scope list_scope.
Local Open Scope Z_scope.

(** What the databases report. *)
Record Databases := mkDatabases {
  d_version : Version;
  d_variables : loc -> gmap string string;
  d_channels : loc -> list SlaveStatus;
  d_status : loc -> gmap string string;
  d_clock : Z
}.

Definition d_channel (d : Databases) (l : loc) : SlaveStatus :=
  default zeroSlaveStatus (head (d_channels d l)).

Definition calm_answer (d : Databases) {R} (h : list TraceEvent) (c : Call R) : R :=
  match c in Call R return R with
  | db_SetReadOnly _ _ | db_SetSuperReadOnly _ _ | db_StopSlave _ _ | db_StartSlave _ _
  | db_ResetSlave _ _ _ | db_ResetMaster _ _ | db_ChangeMaster _ _
  | db_ChangeReplicationPassword _ _ | db_SetGTIDSlavePos _ _ | db_FlushTables _
  | db_FlushTablesWithReadLock _ | db_UnlockTables _ | db_FlushBinaryLogs _
  | db_FlushBinaryLogsLocal _ | db_SetMaxConnections _ _ | db_SetEventScheduler _ _
  | db_SetEventStatus _ _ _ | db_SetSemiSyncMaster _ | db_SetSemiSyncSlave _
  | db_SetGroupReplicationPrimary _ | db_MasterWaitGTID _ _ _ | db_MasterPosWait _ _ _ _ _
  | db_Ping _ | db_GetVariablesCase _ | db_StartGroupReplication _ | stat_missing _
  | run_pipe _ _ _ _ | run_job _ _ | db_Enforce _ _ _ | db_SkipBinlogEvent _ _ | http_report _ _ _
  | db_PurgeBinlogTo _ _ | db_PurgeBinlogBefore _ _ | db_SetMaxBinlogTotalSize _ _ => None
  | db_Connect _ _ _ => None
  | db_SetUserPassword _ => tt
  | db_FlushTablesTimed _ _ _ => Flushed None
  | db_KillThreads _ => tt
  | db_GetBinaryLogs _ => ([], None)
  | db_CountBinaryLogs _ => (0, None)
  | db_CheckLongRunningWrites _ _ => 0
  | db_GetVariableByName l k => (default "" (d_variables d l !! k), None)
  | db_GetMSlaveStatus l _ => (d_channel d l, None)
  | db_GetSlaveStatus l _ => (d_channel d l, None)
  | db_GetMasterStatus _ => (mkMasterStatus "bin.000001" 4 "" "", None)
  | db_GetStatusAsInt _ => ∅
  | db_HaveErrantTransactions _ _ _ => false
  | db_GetLastPseudoGTID _ => ""
  | db_GetBinlogEventPseudoGTID _ _ _ => ("", "")
  | db_GetNumberOfEventsAfterPos _ _ _ => 0
  | db_GetBinlogPosAfterSkipNumberOfEvents _ _ _ _ => ("", "")
  | db_GetVariables l => (d_variables d l, None)
  | db_GetMaxscaleVersion _ => ""
  | db_GetDBVersion _ => (d_version d, None)
  | db_IsGroupReplicationMaster _ _ => false
  | db_IsGroupReplicationSlave _ _ => false
  | db_GetEventStatus _ => ([], None)
  | db_GetProcesslist _ => ([], None)
  | db_GetBinlogDumpThreads _ => (0, None)
  | db_GetAllSlavesStatus l => (d_channels d l, None)
  | db_GetChannelSlaveStatus l => (d_channels d l, None)
  | db_GetStatus l => d_status d l
  | db_GetPlugins _ => ∅
  | unmodelled _ _ => []
  | vault_GetReplicationCredentials => None
  | run_script _ _ | proxy_Failover _ | proxy_BackendsStateChange _ | proxy_SetMaintenance _ _
  | write_crash _ _ | remove_file _ | save_cluster | time_Sleep _ | send_mail | channel_send _
  | make_dir _ | rename_file _ _ | start_job _ _ _ => tt
  | db_HaveExtraEvents _ _ _ => (false, None)
  | time_Stamp _ => "20240101000000"
  | walk_dir _ => []
  | which _ => None
  | run_command _ _ => Completed
  | read_dir _ => Some []
  | time_Now => d_clock d
  | http_arbitrator _ _ => Some "winner"
  | http_election _ _ _ => inr ("winner", "")
  | regexp_Match _ _ => Some false
  | http_Get _ => None
  | maxscale_Connect => false
  | maxscale_RestartStopped _ => false
  | psql_Connect _ | psql_Exec _ _ | psql_GetQueryRules _ | service _ _ | proxy_service _ _
  | create_file _ | db_SetDefaultMasterConn _ _ | db_StopAllSlaves _ | db_BootstrapGroupReplication _
  | find_process _ => None
  | proxy_server_id _ => None
  | channel_poll _ => true
  | psql_Exists _ _ _ _ => false
  | psql_Stats _ _ _ _ => None
  | psql_GetVersion _ => ""
  | psql_GetUsers _ => ([], None)
  | psql_GetVariables _ => (∅, None)
  | proxy_Init _ => tt
  | proxy_Refresh _ => ([], None)
  | proxy_Inject _ _ => (None, None)
  | poll_switchover => false
  end.

Definition calm_env (d : Databases) : Env :=
  {| answer := @calm_answer d; wait_fuel := 3; env_hour_of := fun t => t / 3600 |}.

(** ** Three servers *)

Definition maria : Version := mkVersion "MariaDB" 10 6 9 "" "" None.

Definition demo_channel (gtid pos : string) : SlaveStatus :=
  set_ss_MasterHost (validString "db1") (set_ss_MasterPort (validString "3306")
  (set_ss_MasterLogFile (validString "bin.000002") (set_ss_ReadMasterLogPos (validString pos)
  (set_ss_SlaveIORunning (validString "Connecting") (set_ss_SlaveSQLRunning (validString "Yes")
  (set_ss_SecondsBehindMaster (mkNullInt64 0 true) (set_ss_MasterServerID 1
  (set_ss_UsingGtid (validString "Slave_Pos") (set_ss_GtidIOPos (validString gtid) zeroSlaveStatus))))))))).

Definition demo_variables (id gtid : string) : gmap string string :=
  <["LOG_BIN" := "ON"]> (<["READ_ONLY" := "ON"]> (<["SERVER_ID" := id]>
  (<["GTID_DOMAIN_ID" := "0"]> (<["GTID_BINLOG_POS" := gtid]> (<["GTID_CURRENT_POS" := gtid]>
  (<["GTID_SLAVE_POS" := gtid]> (<["BINLOG_FORMAT" := "ROW"]> ∅))))))).

Definition demo_server (n : string) (id : Z) (st : string) (gtid : string) (reps : list SlaveStatus)
  : ServerMonitor :=
  set_srv_Id n (set_srv_Name n (set_srv_URL (n +:+ ":3306") (set_srv_Host n (set_srv_Port "3306"
  (set_srv_SourceClusterName "c1" (set_srv_Conn true (set_srv_ServerID id (set_srv_State st
  (set_srv_PrevState st (set_srv_DBVersion (Some maria) (set_srv_Replications reps
  (set_srv_SlaveGtid (NewList gtid) (set_srv_CurrentGtid (NewList gtid)
  (set_srv_GTIDBinlogPos (NewList gtid) (set_srv_HaveReadOnly true
  (set_srv_Variables (demo_variables (format_uint id) gtid) zeroServer)))))))))))))))).

Definition demo_heap : loc -> ServerMonitor := fun l =>
  match l with
  | 0 => set_srv_FailCount 5 (demo_server "db1" 1 stateFailed "0-1-100" [])
  | 1 => demo_server "db2" 2 stateSlave "0-1-90" [demo_channel "0-1-90" "900"]
  | 2 => demo_server "db3" 3 stateSlave "0-1-100" [demo_channel "0-1-100" "1000"]
  | _ => zeroServer
  end%nat.

Definition demo_conf : Config :=
  set_Conf_RplChecks true (set_Conf_FailMaxDelay 30 (set_Conf_MaxFail 5 (set_Conf_ReadOnly true
  (set_Conf_Hosts "db1,db2,db3" (set_Conf_FailoverLogFileKeep 5
  (set_Conf_ReplicationCredential "repl:secret" zeroConfig)))))).

Definition demo_cluster : Cluster :=
  set_cl_Name "c1" (set_cl_Servers (Some [0; 1; 2]%nat) (set_cl_slaves [1; 2]%nat
  (set_cl_master (Some 0%nat) (set_cl_Topology TopoMasterSlave (set_cl_Conf demo_conf zeroCluster))))).

Definition demo_world : World := mkWorld demo_cluster demo_heap [].

Definition demo_databases : Databases :=
  mkDatabases maria (fun l => srv_Variables (demo_heap l)) (fun l => srv_Replications (demo_heap l))
    (fun _ => ∅) 1000.

#[export] Instance demo_env : Env := calm_env demo_databases.
