(* ===== verification/ClusterProps.v ===== *)
(** * Properties of the readers of a cluster (cluster_get.go, cluster_has.go, srv_has.go)

    The detection of replication cycles, compared with the unbounded chain of
    masters, and the capture mode. *)

From Stdlib Require Import ZArith Lia Bool Wf_nat Ascii String.
From stdpp Require Import base list gmap strings functions.
From S2P Require Import Prelude GoLib Gtid Version StateMachine Crash DelayStat Config Server Cluster Demo.

Local Open Scope string_scope.
Local Open Scope list_scope.
Local Open Scope Z_scope.

Section Cycles.
Context (c : Cluster) (h : loc -> ServerMonitor).

(** The master of a server, the master of its master, and so on. *)
Fixpoint ancestor (n : nat) (s : ServerMonitor) : option loc :=
  match n with
  | O => GetMasterFromReplication c h s
  | S k => m ← GetMasterFromReplication c h s; ancestor k (h m)
  end.

(** The [n]-th ancestor carries the server id [id]. *)
Definition hits (id : Z) (s : ServerMonitor) (n : nat) : Prop :=
  exists m, ancestor n s = Some m /\ srv_ServerID (h m) = id.

Lemma hits_dec id s n : hits id s n \/ ~ hits id s n.
Proof.
  unfold hits. destruct (ancestor n s) as [m|]; [|right; naive_solver].
  destruct (Z.eq_dec (srv_ServerID (h m)) id); [left; eauto|right; naive_solver].
Qed.

Lemma HasCycling_loop_spec id rounds : forall s,
  HasCycling_loop c h rounds id s = true <-> exists n, (n < rounds)%nat /\ hits id s n.
Proof.
  induction rounds as [|k IH]; intros s; simpl; [split; [done|intros (n & ? & _); lia]|].
  destruct (GetMasterFromReplication c h s) as [m|] eqn:Em.
  - destruct (srv_ServerID (h m) =? id) eqn:E; bool_prop.
    + split; [|done]. intros _. exists O. split; [lia|]. exists m. done.
    + rewrite IH. split.
      * intros (n & Hn & x & Hx & Hid). exists (S n). split; [lia|]. exists x. simpl. by rewrite Em.
      * intros ([|n] & Hn & x & Hx & Hid); simpl in Hx; rewrite Em in Hx; [naive_solver|].
        exists n. split; [lia|]. exists x. done.
  - split; [done|]. intros ([|n] & _ & x & Hx & _); simpl in Hx; rewrite Em in Hx; done.
Qed.

Lemma ancestor_server n : forall s m, ancestor n s = Some m -> m ∈ cl_servers c.
Proof.
  induction n as [|n IH]; intros s m; simpl.
  - unfold GetMasterFromReplication, first_server. intros E. apply find_some in E as [E _].
    by apply list_elem_of_In.
  - destruct (GetMasterFromReplication c h s); [apply IH|done].
Qed.

Lemma ancestor_add i k : forall s m, ancestor i s = Some m -> ancestor (i + S k) s = ancestor k (h m).
Proof.
  induction i as [|i IH]; intros s m; simpl.
  - intros ->. done.
  - destruct (GetMasterFromReplication c h s); [apply IH|done].
Qed.

Lemma ancestor_before n : forall k s, (k <= n)%nat -> is_Some (ancestor n s) -> is_Some (ancestor k s).
Proof.
  induction n as [|n IH]; intros k s Hk Hn.
  - by replace k with O by lia.
  - destruct k as [|k]; simpl in *; destruct (GetMasterFromReplication c h s) eqn:E; try done.
    apply IH; [lia|done].
Qed.

(** Up to the first hit the ancestors are distinct. *)
Lemma first_hit_distinct id s n i j m :
  hits id s n -> (forall k, (k < n)%nat -> ~ hits id s k) -> (i < j <= n)%nat ->
  ancestor i s = Some m -> ancestor j s = Some m -> False.
Proof.
  intros [x [Hx Hid]] Hmin Hij Hi Hj.
  destruct (decide (j = n)) as [->|Hjn].
  - rewrite Hx in Hj. injection Hj as <-. apply (Hmin i); [lia|]. by exists x.
  - apply (Hmin (i + (n - j))%nat); [lia|]. exists x. split; [|done].
    replace (n - j)%nat with (S (n - j - 1)) by lia. rewrite (ancestor_add _ _ _ _ Hi).
    rewrite <- Hx. replace n with (j + S (n - j - 1))%nat at 2 by lia. by rewrite (ancestor_add _ _ _ _ Hj).
Qed.

Lemma first_hit_bound id s n :
  hits id s n -> (forall k, (k < n)%nat -> ~ hits id s k) -> (n < length (cl_servers c))%nat.
Proof.
  intros Hn Hmin.
  assert (Hall : forall k, (k <= n)%nat -> is_Some (ancestor k s)).
  { intros k Hk. apply (ancestor_before n); [done|]. destruct Hn as (x & -> & _). eauto. }
  set (L := map (fun k => default O (ancestor k s)) (seq 0 (S n))).
  assert (Hlook : forall k x, L !! k = Some x -> (k <= n)%nat /\ ancestor k s = Some x).
  { intros k x Hk. unfold L in Hk. apply list_lookup_fmap_Some in Hk as (y & -> & Hy).
    apply lookup_seq in Hy as [-> Hlt]. simpl. split; [lia|].
    destruct (Hall k ltac:(lia)) as [z ->]. done. }
  assert (Hnd : List.NoDup L).
  { apply NoDup_ListNoDup, NoDup_alt. intros i j x Hi Hj. apply Hlook in Hi as [Hi Ei], Hj as [Hj Ej].
    destruct (lt_eq_lt_dec i j) as [[Hl|He]|Hl]; [exfalso|done|exfalso].
    - by apply (first_hit_distinct id s n i j x).
    - by apply (first_hit_distinct id s n j i x). }
  assert (Hincl : incl L (cl_servers c)).
  { intros x Hx. apply list_elem_of_In, list_elem_of_lookup in Hx as [k Hk].
    apply Hlook in Hk as [_ Hk]. apply list_elem_of_In. by eapply ancestor_server. }
  pose proof (NoDup_incl_length Hnd Hincl) as Hlen. unfold L in Hlen.
  rewrite length_map, length_seq in Hlen. exact Hlen.
Qed.

Lemma first_hit id s n : hits id s n -> exists k, hits id s k /\ forall j, (j < k)%nat -> ~ hits id s j.
Proof.
  induction n as [n IH] using lt_wf_ind. intros Hn.
  assert (Hdec : (exists k, (k < n)%nat /\ hits id s k) \/ forall k, (k < n)%nat -> ~ hits id s k).
  { clear. induction n as [|n IHn]; [right; lia|]. destruct IHn as [(k & Hk & Hh)|Hno]; [left; eauto|].
    destruct (hits_dec id s n) as [Hh|Hh]; [left; eauto|right].
    intros k Hk. destruct (decide (k = n)) as [->|Hne]; [done|apply Hno; lia]. }
  destruct Hdec as [(k & Hk & Hh)|Hno]; [by apply (IH k)|eauto].
Qed.
End Cycles.

(** ** Properties *)

(** The bounded search for a replication cycle is complete: [HasCycling]
    answers yes exactly when following the masters from the server, any number of
    times, comes to a server with its server id. As many rounds as there are
    servers are enough. *)
Theorem HasCycling_complete (c : Cluster) (h : loc -> ServerMonitor) (s : ServerMonitor) :
  HasCycling c h s = true <->
  exists n m, ancestor c h n s = Some m /\ srv_ServerID (h m) = srv_ServerID s.
Proof.
  unfold HasCycling. rewrite HasCycling_loop_spec. split.
  - intros (n & _ & m & Hm). eauto.
  - intros (n & m & Hm). destruct (first_hit c h (srv_ServerID s) s n) as (k & Hk & Hmin); [by exists m|].
    exists k. split; [by eapply first_hit_bound|done].
Qed.

(** A ring of two: db2 replicates from db1 and db1 from db2. *)
Definition ring_heap : loc -> ServerMonitor := fun l =>
  match l with
  | O => set_srv_Replications [set_ss_MasterHost (validString "db2") (set_ss_MasterPort (validString "3306")
           zeroSlaveStatus)] (demo_heap O)
  | _ => demo_heap l
  end.

Example ring_cycles :
  HasCycling demo_cluster ring_heap (ring_heap 1%nat) = true /\
  HasCycling demo_cluster demo_heap (demo_heap 1%nat) = false.
Proof. vm_compute. done. Qed.

(** [IsInCaptureMode] gives up as soon as the cluster has a server, so it never
    reports a capture. *)
Lemma IsInCaptureMode_never (c : Cluster) (h : loc -> ServerMonitor) : IsInCaptureMode c h = false.
Proof.
  unfold IsInCaptureMode. destruct (cl_servers c) as [|x l] eqn:E; simpl.
  - by destruct (_ || _).
  - by rewrite orb_true_r.
Qed.
