(* ===== verification/ServerOps.v ===== *)
(** * Operations on a server (cluster/srv.go, srv_set.go, srv_chk.go, srv_wait.go)

    Everything the failover does to a database server: the state transitions
    with their script, read-only and read-write, semi-synchronous replication,
    the replication threads, the freeze of a master before a switchover, the
    monitoring refresh and the wait for the relay logs. *)

From Stdlib Require Import ZArith Lia Bool Ascii String.
From stdpp Require Import base list gmap strings functions.
From S2P Require Import Prelude GoLib Gtid Version StateMachine Crash DelayStat Config Server Cluster.

Local Open Scope string_scope.
Local Open Scope list_scope.
Local Open Scope Z_scope.

Definition CrcTable : list Z := crc64_MakeTable crc64_ECMA.

Definition is_err (e : Err) : bool := match e with Some _ => true | None => false end.

Section Ops.
Context `{Env} `{GoSort} `{GoRange}.

(** ** State of the server (srv_set.go, cluster_bash.go) *)

Definition BashScriptDbServersChangeState (l : loc) (newState oldState : string) : M unit :=
  c ← get_cluster;
  s ← load l;
  let script := Conf_DbServersChangeStateScript (cl_Conf c) in
  whenM (negb (script =? "")%string)
    (call (run_script script [cl_Name c; srv_Host s; srv_Port s; newState; oldState])).

Definition srv_SetState (l : loc) (state : string) : M unit :=
  s ← load l;
  whenM (negb (srv_PrevState s =? state)%string)
    (BashScriptDbServersChangeState l state (srv_PrevState s)) ;;
  mod_server l (set_srv_State state).

Definition SetPrevState (l : loc) (state : string) : M unit :=
  if (state =? "")%string then mret tt else mod_server l (set_srv_PrevState state).

Definition SetFailed (l : loc) : M unit := srv_SetState l stateFailed.

Definition SetMaster (l : loc) : M unit :=
  srv_SetState l stateMaster ;;
  c ← get_cluster;
  forM (cl_servers c) (fun s => mod_server s (set_srv_HaveNoMasterOnStart false)).

Definition SetPrefered (l : loc) (pref : bool) : M unit := mod_server l (set_srv_Prefered pref).
Definition SetPreferedBackup (l : loc) (pref : bool) : M unit :=
  mod_server l (set_srv_PreferedBackup pref).

Definition SetEventScheduler (l : loc) (value : bool) : M Err := exec l (db_SetEventScheduler l value).
Definition SetGroupReplicationPrimary (l : loc) : M Err := exec l (db_SetGroupReplicationPrimary l).

Definition SetSemiSyncReplica (l : loc) : M Err :=
  r ← server_test l IsSemiSyncReplica;
  if negb r then exec l (db_SetSemiSyncSlave l) else mret None.

Definition SetSemiSyncLeader (l : loc) : M Err :=
  s ← load l;
  if negb (IsSemiSyncMaster s) then exec l (db_SetSemiSyncMaster l) else mret None.

Definition SetReadOnly (l : loc) : M Err :=
  conf ← get_conf;
  s ← load l;
  e ← (if negb (IsReadOnly s) then exec l (db_SetReadOnly l true) else mret None);
  if is_err e then mret e
  else if HasSuperReadOnlyCapability s && Conf_SuperReadOnly conf
  then exec l (db_SetSuperReadOnly l true)
  else mret None.

Definition SetReadWrite (l : loc) : M Err :=
  c ← get_cluster;
  s ← load l;
  if Conf_Arbitration (cl_Conf c) && cl_IsFailedArbitrator c
  then mret (Some "Arbitration is Failed")
  else
    e ← (if IsReadOnly s then exec l (db_SetReadOnly l false) else mret None);
    if is_err e then mret e
    else if HasSuperReadOnlyCapability s
    then exec l (db_SetSuperReadOnly l false)
    else mret None.

(** The proxies are told about the server with the same server id; a log line
    dereferences it. *)
Definition SetProxyServerMaintenance (serverid : Z) : M unit :=
  c ← get_cluster;
  h ← get_heap;
  let server := GetServerFromId c h serverid in
  forM (cl_Proxies c) (fun pr => x ← deref server; call (proxy_SetMaintenance pr x)).

Definition SetMaintenance (l : loc) : M unit :=
  mod_server l (set_srv_IsMaintenance true) ;;
  s ← load l;
  SetProxyServerMaintenance (srv_ServerID s).

(** ** Replication threads (srv.go) *)

Definition no_pool : Err := Some "No database connection pool".

Definition StopSlave (l : loc) : M Err :=
  conf ← get_conf;
  s ← load l;
  if negb (srv_Conn s) then mret no_pool else call (db_StopSlave l (Conf_MasterConn conf)).

Fixpoint stop_channels (l : loc) (reps : list SlaveStatus) (lasterror : Err) : M Err :=
  match reps with
  | [] => mret lasterror
  | rep :: r =>
      e ← call (db_StopSlave l (ns_String (ss_ConnectionName rep)));
      stop_channels l r (if is_err e then e else lasterror)
  end.

Definition StopAllSlaves (l : loc) : M Err :=
  s ← load l;
  if negb (srv_Conn s) then mret no_pool else stop_channels l (srv_Replications s) None.

Definition StopAllExtraSourceSlaves (l : loc) : M Err :=
  conf ← get_conf;
  s ← load l;
  if negb (srv_Conn s) then mret no_pool
  else stop_channels l
         (List.filter (fun rep => negb (ns_String (ss_ConnectionName rep) =? Conf_MasterConn conf)%string)
            (srv_Replications s)) None.

Definition StartSlave (l : loc) : M Err :=
  conf ← get_conf;
  s ← load l;
  if negb (srv_Conn s) then mret (Some "No database connection")
  else call (db_StartSlave l (Conf_MasterConn conf)).

Definition ResetMaster (l : loc) : M Err :=
  conf ← get_conf;
  s ← load l;
  if negb (srv_Conn s) then mret no_pool else call (db_ResetMaster l (Conf_MasterConn conf)).

Definition ResetSlave (l : loc) : M Err :=
  conf ← get_conf;
  exec l (db_ResetSlave l true (Conf_MasterConn conf)).

(** Removal of the first server with the URL of [l]. *)
Definition srv_delete (h : loc -> ServerMonitor) (l : loc) (sl : list loc) : list loc :=
  swap_delete (fun x => (srv_URL (h l) =? srv_URL (h x))%string) sl.

(** ** Freezing a master (srv.go) *)

(** The event scheduler and the events it would run. *)
Definition freeze_events (l : loc) : M unit :=
  conf ← get_conf;
  whenM (Conf_FailEventScheduler conf) (SetEventScheduler l false ;; mret tt) ;;
  whenM (Conf_FailEventStatus conf)
    (s ← load l;
     forM (srv_EventStatus s) (fun v =>
       whenM (ev_Status v =? 3) (exec l (db_SetEventStatus l v 3) ;; mret tt))).

(** Number of rounds of [for i := wait; i > 0; i -= 500]. *)
Definition kill_rounds (wait : Z) : nat := Z.to_nat ((wait + 499) / 500).

Fixpoint freeze_wait (l : loc) (rounds : nat) : M unit :=
  match rounds with
  | O => mret tt
  | S n =>
      threads ← exec l (db_CheckLongRunningWrites l 0);
      if threads =? 0 then mret tt
      else call (time_Sleep 500) ;; freeze_wait l n
  end.

Definition freeze_lock (l : loc) : M unit :=
  conf ← get_conf;
  vr ← exec l (db_GetVariableByName l "MAX_CONNECTIONS");
  mod_server l (set_srv_maxConn (fst vr)) ;;
  whenM (negb (is_err (snd vr)) && Conf_SwitchDecreaseMaxConn conf)
    (exec l (db_SetMaxConnections l (format_int (Conf_SwitchDecreaseMaxConnValue conf))) ;; mret tt) ;;
  exec l (db_KillThreads l) ;;
  exec l (db_FlushTablesWithReadLock l) ;;
  exec l (db_FlushBinaryLogs l) ;;
  whenM (Conf_FailoverSemiSyncState conf) (SetSemiSyncReplica l ;; mret tt).

Definition freeze (l : loc) : M bool :=
  freeze_events l ;;
  StopAllSlaves l ;;
  e ← exec l (db_SetReadOnly l true);
  if is_err e then mret false
  else
    conf ← get_conf;
    freeze_wait l (kill_rounds (Conf_SwitchWaitKill conf)) ;;
    freeze_lock l ;;
    mret true.

(** ** Checks of the monitoring (srv_chk.go) *)

Definition CheckMaxConnections (l : loc) : M unit :=
  s ← load l;
  let maxCx := fst (strconv_ParseInt (Get (srv_Variables s) "MAX_CONNECTIONS")) in
  let curCx := fst (strconv_ParseInt (Get (srv_Status s) "THREADS_CONNECTED")) in
  whenM (Z.quot (i64 (maxCx * 80)) 100 <? curCx)
    (SetState "ERR00076" (state_of "ERR00076" LvlWarn "MON" (srv_URL s) [fs (srv_URL s)])).

Definition version_warning (key : string) (s : ServerMonitor) : M unit :=
  SetState key (state_of key "WARNING" "MON" (srv_URL s) [fs (srv_URL s)]).

Definition CheckVersion (l : loc) : M unit :=
  s ← load l;
  v ← deref (srv_DBVersion s);
  let maria := IsMariaDB v in
  a ← (if maria then deref (LowerReleaseList v ["10.4.12"; "10.5.1"]) else mret false);
  whenM a (version_warning "MDEV20821" s) ;;
  b ← (if maria && negb (HasBinlogRow s)
       then deref (LowerReleaseList v ["10.2.44"; "10.3.35"; "10.4.25"; "10.5.16"; "10.6.8"; "10.7.4"; "10.8.3"; "10.9.1"])
       else mret false);
  whenM b (version_warning "MDEV28310" s) ;;
  d ← (if maria && negb (HasBinlogRow s) && var_is s "INNODB_AUTOINC_LOCK_MODE" "2"
       then
         ge ← deref (GreaterEqualRelease v "10.2");
         if (ge : bool) then mret true
         else deref (LowerReleaseList v ["10.3.35"; " 10.4.25"; " 10.5.16"; " 10.6.8"; " 10.7.4"; " 10.8.3"])
       else mret false);
  whenM d (version_warning "MDEV19577" s).

(** A slave takes the first state, a relay the second one; a MaxScale server
    that is no relay keeps its state. *)
Definition set_slave_or_relay (l : loc) (slave relay : string) : M unit :=
  s ← load l;
  if negb (srv_IsRelay s) && negb (srv_IsMaxscale s) then srv_SetState l slave
  else whenM (srv_IsRelay s) (srv_SetState l relay).

Definition update_delay (l : loc) (secs : Z) : M unit :=
  conf ← get_conf;
  whenM (Conf_DelayStatCapture conf)
    (now ← call time_Now;
     now' ← call time_Now;
     s ← load l;
     d ← deref (UpdateDelayStat env_hour_of now now' secs (Conf_DelayStatRotate conf) (srv_DelayStat s));
     mod_server l (set_srv_DelayStat d)).

(** The threads when the delay is unknown: replication is stopped. *)
Definition check_stopped (l : loc) (ss : SlaveStatus) : M string :=
  let sql := ns_String (ss_SlaveSQLRunning ss) in
  let io := ns_String (ss_SlaveIORunning ss) in
  if (sql =? "Yes")%string && (io =? "No")%string
  then set_slave_or_relay l stateSlaveErr stateRelayErr ;;
       mret ("NOT OK, IO Stopped (" +:+ ns_String (ss_LastIOErrno ss) +:+ ")")
  else if (sql =? "No")%string && (io =? "Yes")%string
  then set_slave_or_relay l stateSlaveErr stateRelayErr ;;
       mret ("NOT OK, SQL Stopped (" +:+ ns_String (ss_LastSQLErrno ss) +:+ ")")
  else if (sql =? "No")%string && (io =? "No")%string
  then set_slave_or_relay l stateSlaveErr stateRelayErr ;; mret "NOT OK, ALL Stopped"
  else if (sql =? "Connecting")%string
  then set_slave_or_relay l stateSlave stateRelay ;; mret "NOT OK, IO Connecting"
  else set_slave_or_relay l stateSlave stateRelay ;; mret "Running OK".

Definition check_delay (l : loc) (ss : SlaveStatus) : M string :=
  conf ← get_conf;
  let secs := ni_Int64 (ss_SecondsBehindMaster ss) in
  if 0 <? secs
  then
    (if (Conf_FailMaxDelay conf <? secs) && Conf_RplChecks conf
     then set_slave_or_relay l stateSlaveLate stateRelayLate
     else set_slave_or_relay l stateSlave stateRelay) ;;
    update_delay l secs ;;
    mret "Behind master"
  else
    set_slave_or_relay l stateSlave stateRelay ;;
    update_delay l secs ;;
    mret "Running OK".

Definition CheckReplication (l : loc) : M string :=
  c ← get_cluster;
  s ← load l;
  if srv_HaveWsrep s
  then
    if srv_IsWsrepSync s then srv_SetState l stateWsrep ;; mret "Galera OK"
    else if srv_IsWsrepDonor s then srv_SetState l stateWsrepDonor ;; mret "Galera OK"
    else srv_SetState l stateWsrepLate ;; mret "Galera Late"
  else if cl_IsInFailover c then mret "In Failover"
  else if IsDown s && negb (srv_IsSlave s) then mret "Master OK"
  else
    same ← (match cl_master c with
            | Some m => ms ← load m; mret (srv_ServerID s =? srv_ServerID ms)
            | None => mret false
            end);
    if (same : bool) then mret "Master OK"
    else if topology_is c TopoActivePassive then mret "Master OK"
    else if srv_IsMaintenance s then srv_SetState l stateMaintenance ;; mret "Maintenance"
    else
      match own_channel s with
      | None => mret "Not a slave"
      | Some ss => if negb (ni_Valid (ss_SecondsBehindMaster ss)) then check_stopped l ss
                   else check_delay l ss
      end.

Definition HasReplicationIssue (l : loc) : M bool :=
  ret ← CheckReplication l;
  c ← get_cluster;
  s ← load l;
  mret (negb ((ret =? "Running OK")%string ||
              (((ret =? "NOT OK, IO Connecting")%string || negb (IsIOThreadRunning s)) &&
               match GetMaster c with None => true | Some _ => false end))).
End Ops.
