(* ===== verification/Lands.v ===== *)
(** * Total correctness of computations

    [Pres] speaks of every outcome, also of a panic; [Runs] and [lands] add that a
    computation returns. [Talks]: it only sends calls. *)

From Stdlib Require Import ZArith Lia Bool Ascii String.
From stdpp Require Import base list gmap strings functions.
From S2P Require Import Prelude GoLib Gtid Version StateMachine Crash DelayStat Config Server Cluster ServerOps.

Local Open Scope string_scope.
Local Open Scope list_scope.
Local Open Scope Z_scope.

(** ** Running to the end

    [Runs R m]: [m] returns from every world, to a world related by [R]. *)

Definition Runs (R : World -> World -> Prop) {A} (m : M A) : Prop :=
  forall w, exists a w', m w = (Ret a, w') /\ R w w'.

Section Runs.
Context (R : World -> World -> Prop) `{!PreOrder R}.

Lemma runs_ret {A} (a : A) : Runs R (mret a : M A).
Proof. intros w. exists a, w. split; [done|reflexivity]. Qed.
Lemma runs_bind {A B} (m : M A) (f : A -> M B) : Runs R m -> (forall a, Runs R (f a)) -> Runs R (m ≫= f).
Proof.
  intros Hm Hf w. destruct (Hm w) as (a & w1 & E1 & R1). destruct (Hf a w1) as (b & w2 & E2 & R2).
  exists b, w2. unfold mbind, M_bind. rewrite E1. split; [done|by etransitivity].
Qed.
Lemma runs_read {A B} (g : World -> A) (f : A -> M B) :
  (forall a, Runs R (f a)) -> Runs R ((fun w => (Ret (g w), w)) ≫= f).
Proof. intros Hf w. exact (Hf (g w) w). Qed.
Lemma runs_forM {A} (l : list A) (f : A -> M unit) : (forall x, Runs R (f x)) -> Runs R (forM l f).
Proof.
  intros Hf. induction l as [|x l IH]; simpl; [apply runs_ret|]. by apply runs_bind; [|intros _].
Qed.
Lemma runs_whenM b (m : M unit) : Runs R m -> Runs R (whenM b m).
Proof. intros Hm. unfold whenM. destruct b; [done|apply runs_ret]. Qed.
End Runs.

(** A run changes nothing the manager remembers: it only talks. *)
Definition memory (w : World) : Cluster * (loc -> ServerMonitor) := (w_cluster w, w_heap w).
Definition Talks {A} (m : M A) : Prop := Runs (keeps memory) m.

(** ** Where a computation lands

    [lands m w Q]: from [w] the computation returns, and what it returns and the
    world it leaves satisfy [Q]. *)

Definition lands {A} (m : M A) (w : World) (Q : A -> World -> Prop) : Prop :=
  match m w with (Ret a, w') => Q a w' | _ => False end.

Lemma lands_run {A} (m : M A) w Q : lands m w Q -> exists a w', m w = (Ret a, w') /\ Q a w'.
Proof. unfold lands. destruct (m w) as [[a| |] w']; [|done|done]. eauto. Qed.
Lemma lands_bind {A B} (m : M A) (f : A -> M B) w Q :
  lands m w (fun a w' => lands (f a) w' Q) -> lands (m ≫= f) w Q.
Proof. unfold lands, mbind, M_bind. by destruct (m w) as [[a| |] w']. Qed.
Lemma lands_weaken {A} (m : M A) w (Q Q' : A -> World -> Prop) :
  lands m w Q -> (forall a w', Q a w' -> Q' a w') -> lands m w Q'.
Proof. unfold lands. destruct (m w) as [[a| |] w']; [|done|done]. auto. Qed.
Lemma lands_talks {A} (m : M A) w (Q : A -> World -> Prop) :
  Talks m -> (forall a w', w_cluster w' = w_cluster w -> w_heap w' = w_heap w -> Q a w') -> lands m w Q.
Proof.
  intros Hm HQ. destruct (Hm w) as (a & w' & E & K). unfold lands. rewrite E. injection K as Kc Kh. by apply HQ.
Qed.
Lemma lands_whenM b (m : M unit) w (Q : unit -> World -> Prop) :
  (b = true -> lands m w Q) -> (b = false -> Q tt w) -> lands (whenM b m) w Q.
Proof. intros Ht Hf. destruct b; [by apply Ht|by apply Hf]. Qed.

(** ** Operations on one server *)

Section Server.
Context `{Env} `{GoSort} `{GoRange}.

Lemma talks_call {R} (c : Call R) : Talks (call c).
Proof. intros w. eexists _, _. split; [reflexivity|done]. Qed.

Lemma talks_script l a b : Talks (BashScriptDbServersChangeState l a b).
Proof.
  unfold BashScriptDbServersChangeState. apply runs_read. intros c. apply runs_read. intros s.
  apply runs_whenM; [apply _|apply talks_call].
Qed.

Lemma lands_SetState l st w (Q : unit -> World -> Prop) :
  (forall w', w_cluster w' = w_cluster w -> w_heap w' = <[l := set_srv_State st (w_heap w l)]> (w_heap w) -> Q tt w') ->
  lands (srv_SetState l st) w Q.
Proof.
  intros HQ. unfold srv_SetState. apply lands_bind. change (lands (load l) w ?Q) with (Q (w_heap w l) w). cbv beta.
  apply lands_bind. apply lands_talks; [apply runs_whenM, talks_script; apply _|].
  intros _ w' Ec Eh. unfold lands, mod_server. apply HQ; cbn [w_cluster w_heap]; by rewrite ?Ec, ?Eh.
Qed.

End Server.
