(* ===== verification/Conformity.v ===== *)
(** * Conformity of the settings of a server (cluster/srv_chk.go)

    At every discovery the settings of the slaves and of the master are compared
    with what the replication needs. A setting that is missing is enforced when
    its [force-] option is set, and is warned about otherwise. *)

From Stdlib Require Import ZArith Lia Bool Ascii String.
From stdpp Require Import base list gmap strings functions.
From S2P Require Import Prelude GoLib Gtid Version StateMachine Crash DelayStat Config Server Cluster ServerOps.

Local Open Scope string_scope.
Local Open Scope list_scope.
Local Open Scope Z_scope.

Section Ops.
Context `{Env} `{GoSort} `{GoRange}.

Definition enforce (l : loc) (helper arg : string) : M unit := exec l (db_Enforce l helper arg) ;; mret tt.
Definition topo_state (type_ key : string) (s : ServerMonitor) : M unit :=
  SetState key (state_of key type_ "TOPO" (srv_URL s) [fs (srv_URL s)]).

(** [if forced && missing { enforce } else if warned && missing { warn }]. *)
Definition conform (forced warned missing : bool) (fix_ warn : M unit) : M unit :=
  if forced && missing then fix_ else whenM (warned && missing) warn.

Definition not_acid (l : loc) (type_ : string) : M unit :=
  s ← load l;
  c ← get_cluster;
  acid ← deref (IsAcid s);
  whenM (negb acid && cl_IsDiscovered c)
    (SetState "WARN0007" (mkState "" type_ "At least one server is not ACID-compliant. Please make sure that sync_binlog and innodb_flush_log_at_trx_commit are set to 1" "CONF" (srv_URL s))).

(** [DBVersion.IsMariaDB() && DBVersion.Major >= 10 && DBVersion.Minor >= 2] *)
Definition compress_capable (v : Version) : bool := IsMariaDB v && (10 <=? Major v) && (2 <=? Minor v).

(** ** Slaves *)

Definition slave_replication_settings (l : loc) : M unit :=
  s ← load l;
  c ← get_cluster;
  h ← get_heap;
  let conf := cl_Conf c in
  let wsrep := topology_is c TopoMultiMasterWsrep in
  let cared := negb (IsIgnored s) in
  let warn := topo_state LvlWarn in
  conform (Conf_ForceSlaveSemisync conf && negb wsrep) (cared && negb wsrep) (negb (srv_HaveSemiSync s))
    (enforce l "InstallSemiSync" "") (warn "WARN0048" s) ;;
  conform (Conf_ForceBinlogRow conf) (cared && (Conf_AutorejoinFlashback conf || wsrep)) (negb (srv_HaveBinlogRow s))
    (enforce l "SetBinlogFormat" "ROW") (warn "WARN0049" s) ;;
  whenM (Conf_ForceSlaveReadOnly conf && (srv_ReadOnly s =? "OFF")%string && negb (IsIgnoredReadonly s) &&
         negb (IsMultiMaster c) && negb (IsMaster c h s)) (SetReadOnly l ;; mret tt) ;;
  conform (Conf_ForceSlaveHeartbeat conf) cared (f64_ltb (float64_of_Z 1) (GetReplicationHearbeatPeriod s))
    (enforce l "SetSlaveHeartbeat" "1") (warn "WARN0050" s) ;;
  conform (Conf_ForceSlaveGtid conf) (cared && negb wsrep && srv_IsMariaDB s)
    (GetReplicationUsingGtid s =? "No")%string
    (enforce l "SetSlaveGTIDMode" "slave_pos") (warn "WARN0051" s) ;;
  conform (Conf_ForceSlaveGtidStrict conf && negb wsrep && srv_IsMariaDB s) (cared && negb wsrep && srv_IsMariaDB s)
    (negb (IsReplicationUsingGtidStrict s))
    (enforce l "SetSlaveGTIDModeStrict" "") (warn "WARN0058" s).

Definition slave_apply_settings (l : loc) : M unit :=
  s ← load l;
  c ← get_cluster;
  let conf := cl_Conf c in
  let applies := negb (topology_is c TopoMultiMasterWsrep) && srv_IsMariaDB s in
  let mode := strings_ToUpper (Conf_ForceSlaveParallelMode conf) in
  let parallel name have arg :=
    whenM ((mode =? name)%string && negb have && applies) (enforce l "SetSlaveParallelMode" arg) in
  whenM (Conf_ForceSlaveIdempotent conf && negb (srv_HaveSlaveIdempotent s) && applies)
    (enforce l "SetSlaveExecMode" "IDEMPOTENT") ;;
  whenM (Conf_ForceSlaveStrict conf && srv_HaveSlaveIdempotent s && applies)
    (enforce l "SetSlaveExecMode" "STRICT") ;;
  parallel "OPTIMISTIC" (srv_HaveSlaveOptimistic s) "OPTIMISTIC" ;;
  parallel "SERIALIZED" (srv_HaveSlaveSerialized s) "NONE" ;;
  parallel "AGGRESSIVE" (srv_HaveSlaveAggressive s) "AGGRESSIVE" ;;
  parallel "MINIMAL" (srv_HaveSlaveMinimal s) "MINIMAL" ;;
  parallel "CONSERVATIVE" (srv_HaveSlaveConservative s) "CONSERVATIVE".

Definition slave_log_settings (l : loc) : M unit :=
  s ← load l;
  c ← get_cluster;
  let conf := cl_Conf c in
  let cared := negb (IsIgnored s) in
  let warn := topo_state LvlWarn in
  conform (Conf_ForceSyncInnoDB conf) cared (negb (srv_HaveInnodbTrxCommit s))
    (enforce l "SetSyncInnodb" "") (warn "WARN0052" s) ;;
  conform (Conf_ForceBinlogChecksum conf) cared (negb (srv_HaveChecksum s))
    (enforce l "SetBinlogChecksum" "") (warn "WARN0053" s) ;;
  conform (Conf_ForceBinlogSlowqueries conf) cared (negb (srv_HaveBinlogSlowqueries s))
    (enforce l "SetBinlogSlowqueries" "") (warn "WARN0054" s) ;;
  conform (Conf_ForceBinlogAnnotate conf && srv_IsMariaDB s) (cared && srv_IsMariaDB s) (negb (srv_HaveBinlogAnnotate s))
    (enforce l "SetBinlogAnnotate" "") (warn "WARN0055" s) ;;
  (if (Conf_ForceBinlogCompress conf || cared) && negb (srv_HaveBinlogCompress s)
   then
     v ← deref (srv_DBVersion s);
     conform (Conf_ForceBinlogCompress conf) cared (compress_capable v)
       (enforce l "SetBinlogCompress" "") (warn "WARN0056" s)
   else mret tt) ;;
  whenM (cared && negb (srv_HaveBinlogSlaveUpdates s)) (warn "WARN0057" s).

Definition CheckSlaveSettings (l : loc) : M unit :=
  slave_replication_settings l ;;
  slave_apply_settings l ;;
  slave_log_settings l ;;
  not_acid l LvlWarn.

(** ** The master *)

Definition master_log_settings (l : loc) : M unit :=
  s ← load l;
  c ← get_cluster;
  let conf := cl_Conf c in
  let single := negb (topology_is c TopoMultiMasterWsrep) && negb (topology_is c TopoMultiMasterGrouprep) in
  let warn := topo_state "WARNING" in
  conform (Conf_ForceSlaveSemisync conf) single (negb (srv_HaveSemiSync s))
    (enforce l "InstallSemiSync" "") (warn "WARN0060" s) ;;
  conform (Conf_ForceBinlogRow conf) (Conf_AutorejoinFlashback conf) (negb (srv_HaveBinlogRow s))
    (enforce l "SetBinlogFormat" "ROW") (warn "WARN0061" s) ;;
  conform (Conf_ForceSyncBinlog conf) true (negb (srv_HaveBinlogSync s))
    (enforce l "SetSyncBinlog" "") (warn "WARN0062" s) ;;
  conform (Conf_ForceSyncInnoDB conf) true (negb (srv_HaveBinlogSync s))
    (enforce l "SetSyncInnodb" "") (warn "WARN0064" s) ;;
  conform (Conf_ForceBinlogAnnotate conf && srv_IsMariaDB s) (srv_IsMariaDB s) (negb (srv_HaveBinlogAnnotate s))
    (enforce l "SetBinlogAnnotate" "") (warn "WARN0067" s) ;;
  conform (Conf_ForceBinlogChecksum conf) true (negb (srv_HaveChecksum s))
    (enforce l "SetBinlogChecksum" "") (warn "WARN0065" s).

Definition master_version_settings (l : loc) : M unit :=
  s ← load l;
  c ← get_cluster;
  let conf := cl_Conf c in
  let single := negb (topology_is c TopoMultiMasterWsrep) && negb (topology_is c TopoMultiMasterGrouprep) in
  let warn := topo_state "WARNING" in
  (if negb (srv_HaveBinlogCompress s)
   then
     v ← deref (srv_DBVersion s);
     conform (Conf_ForceBinlogCompress conf) true (compress_capable v)
       (enforce l "SetBinlogCompress" "") (warn "WARN0068" s)
   else mret tt) ;;
  whenM (negb (srv_HaveBinlogSlaveUpdates s)) (warn "WARN0069" s) ;;
  (if negb (srv_HaveGtidStrictMode s)
   then
     v ← deref (srv_DBVersion s);
     whenM ((Flavor v =? "MariaDB")%string && single) (warn "WARN0070" s)
   else mret tt).

Definition CheckMasterSettings (l : loc) : M unit :=
  master_log_settings l ;;
  master_version_settings l ;;
  not_acid l "WARNING".

(** Does every account of the master exist on the slave? *)
Fixpoint grants_loop (s : ServerMonitor) (users : list (string * Grant)) : M bool :=
  match users with
  | [] => mret true
  | (_, user) :: r =>
      let grant := "'" +:+ gr_User user +:+ "'@'" +:+ gr_Host user +:+ "'" in
      match srv_Users s !! grant with
      | Some _ => grants_loop s r
      | None =>
          SetState "ERR00056" (state_of "ERR00056" "ERROR" "TOPO" (srv_URL s) [fs grant; fs (srv_URL s)]) ;;
          mret false
      end
  end.

Definition CheckSlaveSameMasterGrants (l : loc) : M bool :=
  c ← get_cluster;
  s ← load l;
  match GetMaster c with
  | None => mret true
  | Some ml =>
      if IsIgnored s || negb (Conf_CheckGrants (cl_Conf c)) then mret true
      else m ← load ml; grants_loop s (go_range (srv_Users m))
  end.
End Ops.
