(* ===== verification/Refresh.v ===== *)
(** * The monitoring refresh and the waits built on it (cluster/srv.go, srv_wait.go)

    [Refresh] re-reads everything the manager knows of a server. It is cut in
    the phases of the source; a phase that can end the refresh early returns
    whether it goes on. Helpers whose only effects are metrics, files or state
    messages outside the model appear as the call [unmodelled], which returns the
    state messages they raise; the goroutines the refresh starts are left out. *)

From Stdlib Require Import ZArith Lia Bool Ascii String.
From stdpp Require Import base list gmap strings functions.
From S2P Require Import Prelude GoLib Gtid Version StateMachine Crash DelayStat Config Server Cluster ServerOps.

Local Open Scope string_scope.
Local Open Scope list_scope.
Local Open Scope Z_scope.

Section Ops.
Context `{Env} `{GoSort} `{GoRange}.

Definition aux (what : string) (l : loc) : M unit :=
  states ← call (unmodelled what (Some l));
  forM states (fun ks => SetState (fst ks) (snd ks)).

(** ** Phases of [Refresh] *)

Definition refresh_maxscale (l : loc) : M unit :=
  conf ← get_conf;
  if Conf_MxsBinlogOn conf
  then
    v ← exec l (db_GetMaxscaleVersion l);
    if negb (v =? "")%string
    then mod_server l (fun s => set_srv_IsRelay true (set_srv_IsMaxscale true s)) ;;
         srv_SetState l stateRelay
    else mod_server l (set_srv_IsMaxscale false)
  else mod_server l (set_srv_IsMaxscale false).

(** Flags copied from the variables. *)
Definition refresh_flags (s : ServerMonitor) : ServerMonitor :=
  let s := set_srv_HaveEventScheduler (HasEventScheduler s) s in
  let s := set_srv_ReadOnly (Get (srv_Variables s) "READ_ONLY") s in
  let s := set_srv_HaveReadOnly (HasReadOnly s) s in
  let s := set_srv_HaveSlaveIdempotent (HasSlaveIndempotent s) s in
  let s := set_srv_HaveSlaveOptimistic (HasSlaveParallelOptimistic s) s in
  let s := set_srv_HaveSlaveSerialized (HasSlaveParallelSerialized s) s in
  let s := set_srv_HaveSlaveAggressive (HasSlaveParallelAggressive s) s in
  let s := set_srv_HaveSlaveMinimal (HasSlaveParallelMinimal s) s in
  let s := set_srv_HaveSlaveConservative (HasSlaveParallelConservative s) s in
  let s := set_srv_HaveBinlogRow (HasBinlogRow s) s in
  let s := set_srv_HaveBinlogAnnotate (HasBinlogRowAnnotate s) s in
  let s := set_srv_HaveBinlogSync (HasBinlogDurable s) s in
  let s := set_srv_HaveBinlogCompress (HasBinlogCompress s) s in
  let s := set_srv_HaveBinlogSlaveUpdates (HasBinlogSlaveUpdates s) s in
  let s := set_srv_HaveBinlogSlowqueries (HasBinlogSlowSlaveQueries s) s in
  let s := set_srv_HaveGtidStrictMode (HasGtidStrictMode s) s in
  let s := set_srv_HaveInnodbTrxCommit (HasInnoDBRedoLogDurable s) s in
  let s := set_srv_HaveChecksum (HasInnoDBChecksum s) s in
  set_srv_HaveWsrep (HasWsrep s) s.

Definition refresh_gtids (l : loc) (v : Version) : M unit :=
  conf ← get_conf;
  s ← load l;
  if IsMariaDB v
  then
    b ← deref (NewList (Get (srv_Variables s) "GTID_BINLOG_POS"));
    c ← deref (NewList (Get (srv_Variables s) "GTID_CURRENT_POS"));
    p ← deref (NewList (Get (srv_Variables s) "GTID_SLAVE_POS"));
    mod_server l (fun s => set_srv_SlaveGtid (Some p) (set_srv_CurrentGtid (Some c)
                            (set_srv_GTIDBinlogPos (Some b) s))) ;;
    (match strconv_ParseUint (Get (srv_Variables s) "GTID_DOMAIN_ID") 64 with
     | (sid, ErrNone) => mod_server l (set_srv_DomainID sid)
     | _ => mret tt
     end) ;;
    whenM (Conf_MultiMasterGrouprep conf)
      (gm ← exec l (db_IsGroupReplicationMaster l (srv_Host s));
       mod_server l (set_srv_IsGroupReplicationMaster gm) ;;
       gs ← exec l (db_IsGroupReplicationSlave l (srv_Host s));
       mod_server l (set_srv_IsGroupReplicationSlave gs) ;;
       s ← load l;
       whenM (gs && state_is s stateUnconn) (srv_SetState l stateSlave))
  else
    let executed := Get (srv_Variables s) "GTID_EXECUTED" in
    let b := NewMySQLList executed CrcTable in
    p ← deref (NewList (Get (srv_Variables s) "GTID_SLAVE_POS"));
    mod_server l (fun s =>
      set_srv_HashUUID (crc64_Checksum (strings_ToUpper (Get (srv_Variables s) "SERVER_UUID")) CrcTable)
        (set_srv_SlaveGtid (Some p) (set_srv_CurrentGtid (Some b)
          (set_srv_GTIDExecuted executed (set_srv_GTIDBinlogPos (Some b) s))))).

Definition refresh_not_postgres (l : loc) (v : Version) : M unit :=
  mod_server l refresh_flags ;;
  s ← load l;
  c ← get_cluster;
  h ← get_heap;
  whenM (HasLogPFS s && negb (HasAnyReseedingState s) &&
         negb (IsInBackup c && bool_decide (GetBackupServer c h = Some l)))
    (aux "HasLogPFSSlowQuery" l) ;;
  my ← deref (HasMySQLGTID (cl_Conf c) s);
  mod_server l (set_srv_HaveMySQLGTID my) ;;
  refresh_gtids l v ;;
  mod_server l (set_srv_ServerID (fst (strconv_ParseUint (Get (srv_Variables s) "SERVER_ID") 64))) ;;
  ev ← exec l (db_GetEventStatus l);
  mod_server l (set_srv_EventStatus (fst ev)) ;;
  whenM (is_err (snd ev))
    (SetState "ERR00073" (state_of "ERR00073" LvlErr "MON" "" [fs (srv_URL s)])) ;;
  c ← get_cluster;
  (if Z.rem (GetHeartbeats (cl_StateMachine c)) 30 =? 0
   then aux "SaveInfos" l ;;
        whenM (negb (topology_is c TopoActivePassive) && negb (topology_is c TopoMultiMasterWsrep))
          (aux "CheckPrivileges" l)
   else mod_sm (PreserveState ["ERR00007"; "ERR00006"; "ERR00008"; "ERR00015"; "ERR00078"; "ERR00009"])) ;;
  s ← load l;
  h ← get_heap;
  whenM (Conf_FailEventScheduler (cl_Conf c) && IsMaster c h s && negb (HasEventScheduler s))
    (SetEventScheduler l true ;; mret tt) ;;
  aux "WorkLoad" l.

(** Version, variables, GTIDs, users, process list. [false] ends the refresh. *)
Definition refresh_variables (l : loc) : M bool :=
  now ← call time_Now;
  mod_server l (fun s => set_srv_MonitorTime now (set_srv_PrevMonitorTime (srv_MonitorTime s) s)) ;;
  ve ← exec l (db_GetDBVersion l);
  mod_server l (set_srv_DBVersion (Some (fst ve))) ;;
  vars ← exec l (db_GetVariables l);
  mod_server l (set_srv_Variables (fst vars)) ;;
  if is_err (snd vars) then mret false
  else
    e ← exec l (db_GetVariablesCase l);
    if is_err e then mret false
    else
      whenM (negb (IsPostgreSQL (fst ve))) (refresh_not_postgres l (fst ve)) ;;
      conf ← get_conf;
      aux "GetUsers" l ;;
      whenM (Conf_MonitorScheduler conf) (aux "JobsCheck" l) ;;
      whenM (Conf_MonitorProcessList conf)
        (pl ← exec l (db_GetProcesslist l);
         s ← load l;
         mod_server l (set_srv_FullProcessList (fst pl)) ;;
         match snd pl with
         | Some e => SetState "ERR00075" (state_of "ERR00075" LvlErr "MON" (srv_URL s) [fs e])
         | None => mret tt
         end) ;;
      mret true.

(** Does the error say that the disk is full? *)
Definition disk_full (e : Err) : bool :=
  match e with
  | Some m => strings_Contains m "Errcode: 28 " || strings_Contains m "errno: 28 "
  | None => false
  end.

Definition read_dump_threads (l : loc) : M (bool * Err) :=
  n ← exec l (db_GetBinlogDumpThreads l);
  mod_server l (set_srv_BinlogDumpThreads (fst n)) ;;
  if disk_full (snd n)
  then
    s ← load l;
    mod_server l (set_srv_IsFull true) ;;
    SetState "WARN0100" (state_of "WARN0100" LvlWarn "CONF" (srv_URL s)
      [fs (srv_URL s); mkArg "*mysql.MySQLError" (default "" (snd n))]) ;;
    mret (false, snd n)
  else mret (true, snd n).

(** Capture mode, master status, dump threads, disks. *)
Definition refresh_binlog (l : loc) : M bool :=
  conf ← get_conf;
  s ← load l;
  whenM (srv_InCaptureMode s)
    (SetState "WARN0085" (state_of "WARN0085" LvlInfo "MON" (srv_URL s) [fs (srv_URL s)])) ;;
  ms ← exec l (db_GetMasterStatus l);
  mod_server l (set_srv_MasterStatus (fst ms)) ;;
  whenM (negb (is_err (snd ms)))
    (mod_server l (fun s => set_srv_BinaryLogPos (format_uint (ms_Position (fst ms)))
                              (set_srv_BinaryLogFile (ms_File (fst ms)) s))) ;;
  v ← deref (srv_DBVersion s);
  if negb (IsPostgreSQL v)
  then
    ok ← read_dump_threads l;
    if negb (fst ok) then mret false
    else
      mod_server l (set_srv_IsFull false) ;;
      (match snd ok with
       | Some e => SetState "ERR00014" (state_of "ERR00014" LvlErr "CONF" (srv_URL s) [fs (srv_URL s); fs e])
       | None => mret tt
       end) ;;
      whenM (Conf_MonitorInnoDBStatus conf) (aux "GetEngineInnoDBVariables" l) ;;
      aux "GetDisks" l ;;
      whenM (Conf_MonitorScheduler conf) (aux "CheckDisks" l) ;;
      mret true
  else mret true.

(** What the channel of the server says about its replication. *)
Definition refresh_channel (l : loc) (v : Version) (ss : SlaveStatus) : M unit :=
  conf ← get_conf;
  mod_server l (set_srv_IsSlave true) ;;
  if IsPostgreSQL v
  then
    let sid := crc64_Checksum (ns_String (ss_MasterHost ss) +:+ ns_String (ss_MasterPort ss)) CrcTable in
    mod_server l (fun s => set_srv_Replications (map (set_ss_MasterServerID sid) (srv_Replications s)) s) ;;
    g ← deref (NewList (ns_String (ss_GtidSlavePos ss)));
    mod_server l (set_srv_SlaveGtid (Some g))
  else
    let u := ns_String (ss_UsingGtid ss) in
    mod_server l (set_srv_HaveMariaDBGTID ((u =? "Slave_Pos")%string || (u =? "Current_Pos")%string)) ;;
    s ← load l;
    if IsMySQLOrPerconaGreater57 (srv_DBVersion s)
    then
      g ← deref (HasGTIDReplication conf s);
      whenM g (p ← deref (NewList (ns_String (ss_ExecutedGtidSet ss)));
               mod_server l (set_srv_SlaveGtid (Some p)))
    else mret tt.

Definition refresh_replication (l : loc) : M unit :=
  conf ← get_conf;
  s ← load l;
  v ← deref (srv_DBVersion s);
  (if negb (Conf_MxsBinlogOn conf && srv_IsMaxscale s) && IsMariaDB v || IsPostgreSQL v
   then
     r ← exec l (db_GetAllSlavesStatus l);
     mod_server l (assign_Replications (fst r)) ;;
     match head (fst r) with
     | Some r0 =>
         whenM (negb (is_err (snd r)) && IsPostgreSQL v && (srv_ReplicationSourceName s =? "")%string)
           (mod_server l (set_srv_ReplicationSourceName (ns_String (ss_ConnectionName r0))))
     | None => mret tt
     end
   else
     r ← exec l (db_GetChannelSlaveStatus l);
     mod_server l (assign_Replications (fst r))) ;;
  s ← load l;
  match own_channel s with
  | None => mod_server l (fun s => set_srv_IsSlave (srv_IsGroupReplicationSlave s) s)
  | Some ss => refresh_channel l v ss
  end.

Definition refresh_semisync (l : loc) : M unit :=
  st ← exec l (db_GetStatus l);
  mod_server l (fun s => set_srv_Status st (set_srv_PrevStatus (srv_Status s) s)) ;;
  semi ← server_test l HasSemiSync;
  mod_server l (set_srv_HaveSemiSync semi) ;;
  mod_server l (fun s => set_srv_SemiSyncMasterStatus (IsSemiSyncMaster s) s) ;;
  repl ← server_test l IsSemiSyncReplica;
  mod_server l (set_srv_SemiSyncSlaveStatus repl) ;;
  mod_server l (fun s => set_srv_IsWsrepPrimary (HasWsrepPrimary s)
                 (set_srv_IsWsrepDonor (HasWsrepDonor s) (set_srv_IsWsrepSync (HasWsrepSync s) s))).

Definition refresh_health (l : loc) : M unit :=
  health ← CheckReplication l;
  mod_server l (set_srv_ReplicationHealth health) ;;
  conf ← get_conf;
  s ← load l;
  whenM (srv_IsSlave s && Conf_DelayStatCapture conf && (state_is s stateFailed || state_is s stateSlaveErr))
    (now ← call time_Now;
     now' ← call time_Now;
     d ← deref (UpdateSlaveErrorStat env_hour_of now now' (Conf_DelayStatRotate conf) (srv_DelayStat s));
     mod_server l (set_srv_DelayStat d)) ;;
  (match srv_PrevStatus s !! "QUERIES" with
   | Some pqps =>
       let qps := fst (strconv_ParseInt (Get (srv_Status s) "QUERIES")) in
       let prevqps := fst (strconv_ParseInt pqps) in
       let dt := i64 (srv_MonitorTime s - srv_PrevMonitorTime s) in
       whenM (0 <? dt) (mod_server l (set_srv_QPS (Z.quot (i64 (qps - prevqps)) dt)))
   | None => mret tt
   end) ;;
  whenM (HasHighNumberSlowQueries s)
    (SetState "WARN0088" (state_of "WARN0088" LvlInfo "MON" (srv_URL s) [fs (srv_URL s)])).

(** Plugins, once every sixty heartbeats; [false] ends the refresh. *)
Definition refresh_plugins (l : loc) : M bool :=
  c ← get_cluster;
  s ← load l;
  v ← deref (srv_DBVersion s);
  if IsPostgreSQL v then mret true
  else
    go ← (if Z.rem (GetHeartbeats (cl_StateMachine c)) 60 =? 0
          then
            whenM (Conf_MonitorPlugins (cl_Conf c))
              (p ← exec l (db_GetPlugins l); mod_server l (set_srv_Plugins p)) ;;
            ok ← read_dump_threads l;
            if negb (fst ok) then mret false
            else mod_server l (set_srv_IsFull false) ;; mret true
          else mret true);
    if negb go then mret false
    else whenM (negb (Suffix v =? "ShardProxy")%string) (aux "GetMetaDataLock" l) ;; mret true.

(** After the replication channels: status, health, plugins, connections. *)
Definition refresh_status (l : loc) : M Err :=
  refresh_semisync l ;;
  refresh_health l ;;
  go ← refresh_plugins l;
  if negb go then mret None else CheckMaxConnections l ;; mret None.

Definition Refresh (l : loc) : M Err :=
  s ← load l;
  if negb (srv_Conn s) then mret (Some "Connection is nil, server unreachable")
  else
    e ← exec l (db_Ping l);
    if is_err e then mret e
    else
      CheckVersion l ;;
      refresh_maxscale l ;;
      conf ← get_conf;
      s ← load l;
      go ← (if negb (Conf_MxsBinlogOn conf && srv_IsMaxscale s) then refresh_variables l else mret true);
      if negb go then mret None
      else
        go ← refresh_binlog l;
        if negb go then mret None
        else
          refresh_replication l ;;
          s ← load l;
          if Conf_MxsBinlogOn conf && srv_IsMaxscale s then mret None else refresh_status l.

(** ** Waiting for the relay logs (srv.go) *)

Definition LogReplPostion (l : loc) : M unit :=
  Refresh l ;;
  s ← load l;
  deref (srv_CurrentGtid s) ;; deref (srv_SlaveGtid s) ;; deref (srv_GTIDBinlogPos s) ;;
  mret tt.

(** One comparison of the loop: [List.Equal] sorts the slave position in place. *)
Definition relay_caught_up (l : loc) (io : list Gtid) : M bool :=
  s ← load l;
  p ← deref (srv_SlaveGtid s);
  r ← deref (Gtid.Equal p io);
  mod_server l (set_srv_SlaveGtid (Some (snd (fst r)))) ;;
  mret (fst (fst r)).

Fixpoint wait_gtid (fuel : nat) (l : loc) (ss : SlaveStatus) (io : list Gtid) : M Err :=
  eq ← relay_caught_up l io;
  s ← load l;
  if negb eq && negb (ns_String (ss_UsingGtid ss) =? "")%string &&
     negb (ns_String (ss_GtidSlavePos ss) =? "")%string && negb (state_is s stateFailed)
  then
    match fuel with
    | O => hang
    | S n =>
        Refresh l ;;
        conf ← get_conf;
        r ← exec l (db_GetMSlaveStatus l (Conf_MasterConn conf));
        if is_err (snd r) then mret (snd r)
        else
          call (time_Sleep 500) ;;
          io' ← deref (NewList (ns_String (ss_GtidIOPos (fst r))));
          s ← load l;
          deref (srv_SlaveGtid s) ;;
          wait_gtid n l (fst r) io'
    end
  else mret None.

Fixpoint wait_position (fuel : nat) (l : loc) (ss : SlaveStatus) : M Err :=
  if bool_decide (ss_MasterLogFile ss = ss_RelayMasterLogFile ss) &&
     bool_decide (ss_ReadMasterLogPos ss = ss_ExecMasterLogPos ss)
  then mret None
  else
    match fuel with
    | O => hang
    | S n =>
        conf ← get_conf;
        r ← exec l (db_GetSlaveStatus l (Conf_MasterConn conf));
        if is_err (snd r) then mret (snd r)
        else if strings_Contains (ns_String (ss_SlaveSQLRunningState (fst r))) "Slave has read all relay log"
        then mret None
        else call (time_Sleep 500) ;; wait_position n l (fst r)
    end.

Definition ReadAllRelayLogs (l : loc) : M Err :=
  conf ← get_conf;
  s ← load l;
  v ← deref (srv_DBVersion s);
  if IsMariaDB v && srv_HaveMariaDBGTID s
  then
    r ← exec l (db_GetMSlaveStatus l "");
    if is_err (snd r) then mret (snd r)
    else
      Refresh l ;;
      io ← deref (NewList (ns_String (ss_GtidIOPos (fst r))));
      wait_gtid wait_fuel l (fst r) io
  else
    r ← exec l (db_GetSlaveStatus l (Conf_MasterConn conf));
    if is_err (snd r) then mret (snd r)
    else wait_position wait_fuel l (fst r).

(** ** Waiting for a slave to reach the old master (srv_wait.go) *)

Definition WaitSyncToMaster (l master : loc) : M unit :=
  conf ← get_conf;
  s ← load l;
  m ← load master;
  v ← deref (srv_DBVersion s);
  (if (Flavor v =? "MariaDB")%string
   then g ← deref (srv_GTIDBinlogPos m); exec l (db_MasterWaitGTID l (Sprint g) 30)
   else exec l (db_MasterPosWait l (srv_BinaryLogFile m) (srv_BinaryLogPos m) 30 (Conf_MasterConn conf))) ;;
  LogReplPostion l.
End Ops.
