(* ===== verification/Election.v ===== *)
(** * Electing a new master (cluster/cluster_fail.go, cluster_chk.go)

    Which slave takes over. A failover ranks the slaves by the GTID sequence
    (then by the binary log position) they have received and refuses the ones
    that fail a safety check; a switchover, whose master is alive, checks more.
    The elections read the servers and only write state messages (and, with
    Vault, the replication credential). *)

From Stdlib Require Import ZArith Lia Bool Permutation Ascii String.
From stdpp Require Import base list gmap strings functions.
From S2P Require Import Prelude GoLib Gtid Version StateMachine Crash DelayStat Config Server Cluster Demo ServerOps.

Local Open Scope string_scope.
Local Open Scope list_scope.
Local Open Scope Z_scope.

(** ** Coordinates of a slave *)

Fixpoint zeros (n : nat) : string :=
  match n with O => "" | S k => String "0" (zeros k) end.

(** [for len(filepos) < 12 { filepos = "0" + filepos }] *)
Definition pad12 (s : string) : string := zeros (12 - String.length s) +:+ s.

(** File number and padded offset, as one number; a slave without status gets a
    fake position. [None]: the file name has no number. *)
Definition binlog_coordinate (ss : option SlaveStatus) : option Z :=
  let filepos := match ss with Some s => ns_String (ss_ReadMasterLogPos s) | None => "1" end in
  let logfile := match ss with Some s => ns_String (ss_MasterLogFile s) | None => "master.000001" end in
  if negb (strings_Contains logfile ".") then None
  else Some (fst (strconv_ParseUint (default "" (strings_Split "." logfile !! 1%nat) +:+ pad12 filepos) 64)).

Definition sum_seq (seqnos : list Z) : Z := fold_left (fun a v => u64 (a + v)) seqnos 0.

(** Sequence numbers of the master's domain that the slave applied (master
    alive) or received (master failed). *)
Definition slave_seqnos (m sl : ServerMonitor) (ss : SlaveStatus) : option (list Z) :=
  if negb (state_is m stateFailed)
  then GetSeqDomainIdNos (srv_DomainID m) <$> srv_SlaveGtid sl
  else GetSeqDomainIdNos (srv_DomainID m) <$> NewList (ns_String (ss_GtidIOPos ss)).

(** ** The matrix of the failover election *)

Record Trackpos := mkTrackpos {
  tp_URL : string; tp_Indice : Z; tp_Pos : Z; tp_Seq : Z; tp_Prefered : bool;
  tp_Ignoredconf : bool; tp_Ignoredrelay : bool; tp_Ignoredmultimaster : bool;
  tp_Ignoredreplication : bool; tp_IgnoredErrantTrx : bool; tp_IgnoredBlocker : bool;
  tp_DelayStat : DelayStat
}.

(** Order of the candidates with the same position: fewer errors, fewer and
    shorter delays, more samples. *)
Definition less_delay (a b : DelayStat) : bool :=
  if negb (SlaveErrCount a =? SlaveErrCount b) then SlaveErrCount a <? SlaveErrCount b
  else if negb (DelayCount a =? DelayCount b) then DelayCount a <? DelayCount b
  else if negb (f64_eqb (DelayAvg a) (DelayAvg b)) then f64_ltb (DelayAvg a) (DelayAvg b)
  else Counter b <? Counter a.

Definition less_track (key : Trackpos -> Z) (delays : bool) (a b : Trackpos) : bool :=
  if negb delays then key b <? key a
  else if negb (key a =? key b) then key b <? key a
  else less_delay (tp_DelayStat a) (tp_DelayStat b).

Fixpoint pick (p : Trackpos -> bool) (l : list Trackpos) : option Z :=
  match l with
  | [] => None
  | t :: r => if p t then Some (tp_Indice t) else pick p r
  end.

(** At the highest position and neither relay, nor another master, nor
    refused by the replication checks. *)
Definition acceptable (key : Trackpos -> Z) (high : Z) (t : Trackpos) : bool :=
  (key t =? high) && negb (tp_Ignoredrelay t) && negb (tp_Ignoredmultimaster t) &&
  negb (tp_Ignoredreplication t).

(** The three passes over the sorted matrix: the preferred one, any one, an
    ignored one among the candidates at the highest position. *)
Definition pick_highest (key : Trackpos -> Z) (high : Z) (l : list Trackpos) : Z :=
  let ok := acceptable key high in
  match pick (fun t => ok t && negb (tp_Ignoredconf t) && tp_Prefered t) l with
  | Some i => i
  | None =>
      match pick (fun t => ok t && negb (tp_Ignoredconf t)) l with
      | Some i => i
      | None => match pick (fun t => ok t && tp_Ignoredconf t) l with
                | Some i => i
                | None => -1
                end
      end
  end.

Definition elect_from_matrix `{GoSort} (conf : Config) (l : list Trackpos) (maxseq maxpos : Z) : Z :=
  let l := go_sort (less_track tp_Seq (Conf_FailoverCheckDelayStat conf)) l in
  if 0 <? maxseq then pick_highest tp_Seq maxseq l
  else
    let l := go_sort (less_track tp_Pos (Conf_FailoverCheckDelayStat conf)) l in
    if 0 <? maxpos then pick_highest tp_Pos maxpos l else -1.

Section Elections.
Context `{Env} `{GoSort} `{GoRange}.

(** ** Credentials in a vault (srv_set.go, srv_rejoin.go, cluster_set.go) *)

Definition SetClusterReplicationCredentialsFromConfig : M unit :=
  conf ← get_conf;
  whenM (IsVaultUsed conf && IsPath (Conf_RplUser conf))
    (r ← call vault_GetReplicationCredentials;
     match r with
     | None => mret tt
     | Some (user, pass) =>
         mod_cluster (fun c => set_cl_Conf (set_Conf_ReplicationCredential (user +:+ ":" +:+ pass) (cl_Conf c)) c)
     end).

Definition rejoinSlaveChangePassword (l : loc) : M Err :=
  conf ← get_conf;
  exec l (db_ChangeReplicationPassword l
    (set_cm_Channel (Conf_MasterConn conf)
      (set_cm_Password (GetRplPass conf) (set_cm_User (GetRplUser conf) zeroChangeMasterOpt)))).

(** The call [db_SetUserPassword] stands for the loop over the accounts of the
    replication user on the master. *)
Definition SetReplicationCredentialsRotation (l : loc) : M unit :=
  conf ← get_conf;
  whenM (IsVaultUsed conf)
    (SetClusterReplicationCredentialsFromConfig ;;
     rejoinSlaveChangePassword l ;;
     whenM (Conf_VaultMode conf =? VaultConfigStoreV2)%string
       (c ← get_cluster;
        m ← deref (cl_master c);
        call (db_SetUserPassword m))).

(** ** Electability *)

(** Ping and binary log (utils/dbhelper). *)
Definition CheckSlavePrerequisites (l : loc) : M bool :=
  e ← exec l (db_Ping l);
  if is_err e then mret false
  else
    vars ← exec l (db_GetVariables l);
    mret (negb (Get (fst vars) "LOG_BIN" =? "OFF")%string).

(** A state message about a slave, and a negative answer. *)
Definition reject (key type_ : string) (sl : ServerMonitor) : M bool :=
  SetState key (state_of key type_ "CHECK" (srv_URL sl) [fs (srv_URL sl)]) ;; mret false.

Definition too_late (conf : Config) (ss : SlaveStatus) : bool :=
  (Conf_FailMaxDelay conf <? ni_Int64 (ss_SecondsBehindMaster ss)) &&
  negb (Conf_FailMaxDelay conf =? -1) && Conf_RplChecks conf.

(** The checks that follow the password rotation. *)
Definition electable_tail (l : loc) : M bool :=
  c ← get_cluster;
  h ← get_heap;
  let conf := cl_Conf c in
  let sl := h l in
  if srv_HaveSemiSync sl && negb (srv_SemiSyncSlaveStatus sl) && Conf_FailSync conf && Conf_RplChecks conf
  then reject "ERR00043" "WARNING" sl
  else if Conf_FailoverMdevCheck conf && HasMdevIssue c sl then mret false
  else if IsIgnored sl then mret false
  else mret true.

Definition isSlaveElectable (l : loc) : M bool :=
  c ← get_cluster;
  h ← get_heap;
  let conf := cl_Conf c in
  let sl := h l in
  if negb (srv_SourceClusterName sl =? cl_Name c)%string then mret false
  else
    match own_channel sl with
    | None => mret false
    | Some ss =>
        if (ns_String (ss_SlaveIORunning ss) =? "No")%string && Conf_RplChecks conf && negb (IsMasterFailed c h)
        then reject "ERR00087" "WARNING" sl
        else
          ok ← CheckSlavePrerequisites l;
          if negb ok then reject "ERR00040" "WARNING" sl
          else if srv_IsMaintenance sl then reject "ERR00047" "WARNING" sl
          else if too_late conf ss
          then
            SetState "ERR00041" (mkState "" "WARNING"
              (fmt_Sprintf (ClusterError "ERR00041" +:+ " Sql: " +:+ GetProcessListReplicationLongQuery conf sl)
                 [fs (srv_URL sl); fl (Conf_FailMaxDelay conf); fl (ni_Int64 (ss_SecondsBehindMaster ss))])
              "CHECK" (srv_URL sl)) ;;
            mret false
          else if (ns_String (ss_SlaveSQLRunning ss) =? "No")%string && Conf_RplChecks conf
          then reject "ERR00042" "WARNING" sl
          else
            whenM ((ns_String (ss_SlaveIORunning ss) =? "Connecting")%string && negb (IsMasterFailed c h) &&
                   (ns_String (ss_LastIOErrno ss) =? "1045")%string)
              (SetState "ERR00088" (state_of "ERR00088" "WARNING" "CHECK" (srv_URL sl) [fs (srv_URL sl)]) ;;
               SetReplicationCredentialsRotation l) ;;
            electable_tail l
    end.

Definition isSlaveValidReader (l : loc) : M bool :=
  sl ← load l;
  match own_channel sl with
  | None => mret false
  | Some ss =>
      if srv_IsMaintenance sl then reject "ERR00047" "WARNING" sl
      else if (ns_String (ss_SlaveSQLRunning ss) =? "No")%string then reject "ERR00042" "WARNING" sl
      else if IsIgnored sl then mret false
      else mret true
  end.

(** *** Filters compared with the master (cluster_chk.go) *)

Definition IsEqualBinlogFilters (m s : ServerMonitor) : bool :=
  (ms_Binlog_Do_DB (srv_MasterStatus m) =? ms_Binlog_Do_DB (srv_MasterStatus s))%string &&
  (ms_Binlog_Ignore_DB (srv_MasterStatus m) =? ms_Binlog_Ignore_DB (srv_MasterStatus s))%string.

Definition same_variable (m s : ServerMonitor) (k : string) : bool :=
  (Get (srv_Variables m) k =? Get (srv_Variables s) k)%string.

Definition IsEqualReplicationFilters (m s : ServerMonitor) : bool :=
  same_variable m s "REPLICATE_DO_TABLE" && same_variable m s "REPLICATE_IGNORE_TABLE" &&
  same_variable m s "REPLICATE_WILD_DO_TABLE" && same_variable m s "REPLICATE_WILD_IGNORE_TABLE" &&
  same_variable m s "REPLICATE_DO_DB" && same_variable m s "REPLICATE_IGNORE_DB".

Definition IsCurrentGTIDSync (m s : ServerMonitor) : bool := same_variable s m "GTID_CURRENT_POS".

(** Is the release of the slave lower than the one of the master? *)
Definition lower_release (sl m : Version) : bool :=
  (Major sl <? Major m) || ((Major sl =? Major m) && (Minor sl <? Minor m)).

Definition isSlaveElectableForSwitchover (l : loc) : M bool :=
  c ← get_cluster;
  h ← get_heap;
  let conf := cl_Conf c in
  let sl := h l in
  if negb (GetSourceClusterName sl =? cl_Name c)%string then mret false
  else
    match own_channel sl with
    | None => mret false
    | Some ss =>
        ml ← deref (cl_master c);
        let m := h ml in
        low ← (if negb (Conf_SwitchLowerRelease conf)
               then sv ← deref (srv_DBVersion sl); mv ← deref (srv_DBVersion m); mret (lower_release sv mv)
               else mret false);
        if (low : bool) then mret false
        else if negb (IsEqualBinlogFilters m sl) && Conf_CheckBinFilter conf then mret false
        else if negb (IsEqualReplicationFilters m sl) && Conf_CheckReplFilter conf then mret false
        else if Conf_SwitchGtidCheck conf && negb (IsCurrentGTIDSync sl m) && Conf_RplChecks conf then mret false
        else if srv_HaveSemiSync sl && negb (srv_SemiSyncSlaveStatus sl) && Conf_SwitchSync conf && Conf_RplChecks conf
        then mret false
        else if negb (ni_Valid (ss_SecondsBehindMaster ss)) && Conf_RplChecks conf then mret false
        else if srv_IsMaxscale sl || srv_IsRelay sl then mret false
        else mret (negb (HasErrantTransactions (cl_StateMachine c) sl))
    end.

(** ** Elections *)

(** A state message and the next slave. *)
Definition skip_state (key type_ : string) (sl : ServerMonitor) : M unit :=
  SetState key (state_of key type_ "CHECK" (srv_URL sl) [fs (srv_URL sl)]).

Fixpoint group_prefered (c : Cluster) (h : loc -> ServerMonitor) (i : Z) (l : list loc) : option Z :=
  match l with
  | [] => None
  | x :: r => if negb (srv_SourceClusterName (h x) =? cl_Name c)%string then group_prefered c h (i + 1) r
              else if IsInPreferedHosts c (h x) then Some i else group_prefered c h (i + 1) r
  end.

Fixpoint group_other (i : Z) (l : list loc) : M Z :=
  match l with
  | [] => mret (-1)
  | x :: r =>
      c ← get_cluster;
      sl ← load x;
      if negb (srv_SourceClusterName sl =? cl_Name c)%string then group_other (i + 1) r
      else if IsIgnored sl then skip_state "ERR00037" LvlWarn sl ;; group_other (i + 1) r
      else if IsInPreferedHosts c sl then group_other (i + 1) r
      else if srv_IsFull sl then group_other (i + 1) r
      else mret i
  end.

Definition electSwitchoverGroupReplicationCandidate (l : list loc) : M Z :=
  c ← get_cluster;
  h ← get_heap;
  match group_prefered c h 0 l with
  | Some i => mret i
  | None => group_other 0 l
  end.

Record SwitchAcc := mkSwitchAcc { sw_max : Z; sw_hiseq : Z; sw_maxpos : Z; sw_hipos : Z }.

(** Position of a slave that passed the checks, folded into the maxima. *)
Definition switch_position (i : Z) (x : loc) (acc : SwitchAcc) : M SwitchAcc :=
  c ← get_cluster;
  sl ← load x;
  match binlog_coordinate (own_channel sl) with
  | None => mret acc
  | Some pos =>
      seqnos ← (match own_channel sl with
                | Some ss => ml ← deref (cl_master c); m ← load ml; deref (slave_seqnos m sl ss)
                | None => mret [1]
                end);
      let seq := sum_seq seqnos in
      let '(mx, hs) := if sw_max acc <? seq then (seq, i) else (sw_max acc, sw_hiseq acc) in
      let '(mp, hp) := if sw_maxpos acc <? pos then (pos, i) else (sw_maxpos acc, sw_hipos acc) in
      mret (mkSwitchAcc mx hs mp hp)
  end.

(** One slave: [inl i] elects it at once. *)
Definition switch_slave (i : Z) (x : loc) (acc : SwitchAcc) : M (Z + SwitchAcc) :=
  c ← get_cluster;
  sl ← load x;
  let conf := cl_Conf c in
  if negb (srv_SourceClusterName sl =? cl_Name c)%string then mret (inr acc)
  else if IsIgnored sl then skip_state "ERR00037" LvlWarn sl ;; mret (inr acc)
  else if srv_IsFull sl then mret (inr acc)
  else if srv_IsRelay sl then skip_state "ERR00036" LvlWarn sl ;; mret (inr acc)
  else if negb (HasBinlog sl) && negb (IsIgnored sl) then skip_state "ERR00013" LvlWarn sl ;; mret (inr acc)
  else if Conf_MultiMaster conf && state_is sl stateMaster then skip_state "ERR00035" LvlWarn sl ;; mret (inr acc)
  else
    sw ← isSlaveElectableForSwitchover x;
    if negb sw then skip_state "ERR00034" LvlWarn sl ;; mret (inr acc)
    else
      el ← isSlaveElectable x;
      if negb el then skip_state "ERR00039" LvlWarn sl ;; mret (inr acc)
      else if IsInPreferedHosts c sl then mret (inl i)
      else if srv_HaveNoMasterOnStart sl && negb (Conf_FailRestartUnsafe conf)
      then skip_state "ERR00084" LvlWarn sl ;; mret (inr acc)
      else match own_channel sl with
           | None => if negb (Conf_FailRestartUnsafe conf)
                     then skip_state "ERR00033" LvlWarn sl ;; mret (inr acc)
                     else acc' ← switch_position i x acc; mret (inr acc')
           | Some _ => acc' ← switch_position i x acc; mret (inr acc')
           end.

Fixpoint switch_loop (i : Z) (l : list loc) (acc : SwitchAcc) : M Z :=
  match l with
  | [] => mret (if 0 <? sw_max acc then sw_hiseq acc
                else if 0 <? sw_maxpos acc then sw_hipos acc else -1)
  | x :: r =>
      res ← switch_slave i x acc;
      match res with
      | inl k => mret k
      | inr acc' => switch_loop (i + 1) r acc'
      end
  end.

Definition electSwitchoverCandidate (l : list loc) : M Z := switch_loop 0 l (mkSwitchAcc 0 0 0 0).

(** *** Failover *)

Record FailAcc := mkFailAcc {
  fa_tracks : list Trackpos; fa_reader : bool; fa_maxseq : Z; fa_maxpos : Z
}.

(** The entry of a slave before its checks. *)
Definition track_init (c : Cluster) (i : Z) (sl : ServerMonitor) : Trackpos :=
  let own := (srv_SourceClusterName sl =? cl_Name c)%string in
  mkTrackpos (srv_URL sl) i 0 0 (IsPrefered sl && own) (IsIgnored sl || negb own) (srv_IsRelay sl)
    false false (HasErrantTransactions (cl_StateMachine c) sl) (HasBlockerIssue c sl)
    (Total (srv_DelayStat sl)).

Definition set_tp_multimaster (t : Trackpos) : Trackpos :=
  mkTrackpos (tp_URL t) (tp_Indice t) (tp_Pos t) (tp_Seq t) (tp_Prefered t) (tp_Ignoredconf t)
    (tp_Ignoredrelay t) true (tp_Ignoredreplication t) (tp_IgnoredErrantTrx t) (tp_IgnoredBlocker t)
    (tp_DelayStat t).
Definition set_tp_replication (b : bool) (t : Trackpos) : Trackpos :=
  mkTrackpos (tp_URL t) (tp_Indice t) (tp_Pos t) (tp_Seq t) (tp_Prefered t) (tp_Ignoredconf t)
    (tp_Ignoredrelay t) (tp_Ignoredmultimaster t) b (tp_IgnoredErrantTrx t) (tp_IgnoredBlocker t)
    (tp_DelayStat t).
Definition set_tp_position (pos seq : Z) (t : Trackpos) : Trackpos :=
  mkTrackpos (tp_URL t) (tp_Indice t) pos seq (tp_Prefered t) (tp_Ignoredconf t)
    (tp_Ignoredrelay t) (tp_Ignoredmultimaster t) (tp_Ignoredreplication t) (tp_IgnoredErrantTrx t)
    (tp_IgnoredBlocker t) (tp_DelayStat t).

(** A slave with a status, or any slave in unsafe mode: electability, reader,
    position. *)
Definition track_position (x : loc) (m : ServerMonitor) (t : Trackpos) (reader : bool) : M (Trackpos * bool) :=
  el ← isSlaveElectable x;
  let t := set_tp_replication (negb el) t in
  reader' ← (if negb reader then isSlaveValidReader x else mret reader);
  sl ← load x;
  match binlog_coordinate (own_channel sl) with
  | None => mret (t, reader')
  | Some pos =>
      seqnos ← (match own_channel sl with
                | Some ss => deref (slave_seqnos m sl ss)
                | None => mret [1]
                end);
      mret (set_tp_position pos (sum_seq seqnos) t, reader')
  end.

(** One slave: [inl i] elects it at once (Galera). *)
Definition track_slave (i : Z) (x : loc) (reader : bool) : M (Z + (Trackpos * bool)) :=
  c ← get_cluster;
  h ← get_heap;
  let conf := cl_Conf c in
  let sl := h x in
  let t := track_init c i sl in
  if srv_IsRelay sl then skip_state "ERR00036" LvlWarn sl ;; mret (inr (t, reader))
  else if srv_IsFull sl then mret (inr (t, reader))
  else if Conf_MultiMaster conf && state_is sl stateMaster
  then skip_state "ERR00035" LvlWarn sl ;; mret (inr (set_tp_multimaster t, reader))
  else if srv_HaveNoMasterOnStart sl && negb (Conf_FailRestartUnsafe conf)
  then skip_state "ERR00084" LvlWarn sl ;; mret (inr (t, reader))
  else if negb (HasBinlog sl) && negb (IsIgnored sl)
  then skip_state "ERR00013" LvlWarn sl ;; mret (inr (t, reader))
  else
    match (if topology_is c TopoMultiMasterWsrep then cl_vmaster c else None) with
    | Some v =>
        if (srv_URL (h v) =? srv_URL sl)%string then mret (inr (t, reader))
        else if state_is sl stateWsrep then mret (inl i)
        else mret (inr (t, reader))
    | None =>
        match cl_master c with
        | None => mret (inr (t, reader))
        | Some ml =>
            match own_channel sl with
            | None =>
                if negb (Conf_FailRestartUnsafe conf)
                then skip_state "ERR00033" LvlWarn sl ;; mret (inr (set_tp_replication true t, reader))
                else r ← track_position x (h ml) t reader; mret (inr r)
            | Some _ => r ← track_position x (h ml) t reader; mret (inr r)
            end
        end
    end.

Definition fail_acc_add (acc : FailAcc) (r : Trackpos * bool) : FailAcc :=
  let '(t, reader) := r in
  mkFailAcc (fa_tracks acc ++ [t]) reader (Z.max (fa_maxseq acc) (tp_Seq t))
            (Z.max (fa_maxpos acc) (tp_Pos t)).

Fixpoint track_loop (i : Z) (l : list loc) (acc : FailAcc) : M (Z + FailAcc) :=
  match l with
  | [] => mret (inr acc)
  | x :: r =>
      res ← track_slave i x (fa_reader acc);
      match res with
      | inl k => mret (inl k)
      | inr t => track_loop (i + 1) r (fail_acc_add acc t)
      end
  end.

Definition electFailoverCandidate (l : list loc) : M Z :=
  res ← track_loop 0 l (mkFailAcc [] false 0 0);
  match res with
  | inl k => mret k
  | inr acc =>
      whenM (negb (fa_reader acc)) (SetState "ERR00085" (state_of "ERR00085" LvlWarn "CHECK" "" [])) ;;
      conf ← get_conf;
      mret (elect_from_matrix conf (fa_tracks acc) (fa_maxseq acc) (fa_maxpos acc))
  end.

(** *** Virtual masters *)

Fixpoint virtual_loop (oldMaster : option loc) (i : Z) (l : list loc) : M Z :=
  match l with
  | [] => mret (-1)
  | x :: r =>
      sl ← load x;
      if IsIgnored sl
      then SetState "ERR00037" (state_of "ERR00037" "WARNING" "CHECK" "" [fs (srv_URL sl)]) ;;
           virtual_loop oldMaster (i + 1) r
      else if negb (state_is sl stateFailed)
      then
        om ← deref oldMaster;
        o ← load om;
        if negb (srv_ServerID sl =? srv_ServerID o) then mret i else virtual_loop oldMaster (i + 1) r
      else virtual_loop oldMaster (i + 1) r
  end.

(** The index is one of [cluster.Servers]. *)
Definition electVirtualCandidate (oldMaster : option loc) : M Z :=
  c ← get_cluster;
  virtual_loop oldMaster 0 (cl_servers c).

Definition foundPreferedMaster (l : list loc) : M (option loc) :=
  c ← get_cluster;
  h ← get_heap;
  match cl_master c with
  | None => if existsb (fun x => strings_Contains (Conf_PrefMaster (cl_Conf c)) (srv_URL (h x))) l
            then panic else mret None
  | Some m => mret (List.find (fun x => strings_Contains (Conf_PrefMaster (cl_Conf c)) (srv_URL (h x)) &&
                                        negb (state_is (h m) stateFailed)) l)
  end.
End Elections.

(** ** What an election leaves alone

    The heap and the cluster, except the state messages and the replication
    credential. *)
Definition election_view (w : World) : (loc -> ServerMonitor) * Cluster * bool :=
  (w_heap w,
   set_cl_StateMachine zeroStateMachine
     (set_cl_Conf (set_Conf_ReplicationCredential "" (cl_Conf (w_cluster w))) (w_cluster w)),
   IsInFailover (cl_StateMachine (w_cluster w))).

Section Frame.
Context `{Env} `{GoSort} `{GoRange}.

Lemma AddState_InFailover key s SM : InFailover (AddState key s SM) = InFailover SM.
Proof. unfold AddState. by destruct (_ =? _). Qed.

Lemma view_mod_state key s : Pres (keeps election_view) (mod_sm (AddState key s)).
Proof.
  intros w. unfold keeps, election_view, mod_sm, mod_cluster, IsInFailover. simpl.
  by rewrite AddState_InFailover.
Qed.
Hint Resolve view_mod_state : pres.
Lemma view_SetState key s : Pres (keeps election_view) (SetState key s).
Proof. unfold SetState. pres. Qed.
Hint Resolve view_SetState : pres.
Lemma view_call {R} (c : Call R) : Pres (keeps election_view) (call c).
Proof. intros w. done. Qed.
Hint Resolve view_call : pres.
Lemma view_credentials : Pres (keeps election_view) SetClusterReplicationCredentialsFromConfig.
Proof. unfold SetClusterReplicationCredentialsFromConfig. pres. intros w. done. Qed.
Hint Resolve view_credentials : pres.
Lemma view_rotation l : Pres (keeps election_view) (SetReplicationCredentialsRotation l).
Proof. unfold SetReplicationCredentialsRotation, rejoinSlaveChangePassword. pres. Qed.
Hint Resolve view_rotation : pres.
Lemma view_prerequisites l : Pres (keeps election_view) (CheckSlavePrerequisites l).
Proof. unfold CheckSlavePrerequisites. pres. Qed.
Hint Resolve view_prerequisites : pres.
Lemma view_reject key t sl : Pres (keeps election_view) (reject key t sl).
Proof. unfold reject. pres. Qed.
Hint Resolve view_reject : pres.
Lemma view_electable_tail l : Pres (keeps election_view) (electable_tail l).
Proof. unfold electable_tail. pres. Qed.
Hint Resolve view_electable_tail : pres.
Lemma view_isSlaveElectable l : Pres (keeps election_view) (isSlaveElectable l).
Proof. unfold isSlaveElectable. pres. Qed.
Hint Resolve view_isSlaveElectable : pres.
Lemma view_isSlaveValidReader l : Pres (keeps election_view) (isSlaveValidReader l).
Proof. unfold isSlaveValidReader. pres. Qed.
Hint Resolve view_isSlaveValidReader : pres.
Lemma view_ForSwitchover l : Pres (keeps election_view) (isSlaveElectableForSwitchover l).
Proof. unfold isSlaveElectableForSwitchover. pres. Qed.
Hint Resolve view_ForSwitchover : pres.
Lemma view_skip key t sl : Pres (keeps election_view) (skip_state key t sl).
Proof. unfold skip_state. pres. Qed.
Hint Resolve view_skip : pres.
Lemma view_track_slave i x reader : Pres (keeps election_view) (track_slave i x reader).
Proof. unfold track_slave, track_position. pres. Qed.
Hint Resolve view_track_slave : pres.
Lemma view_switch_slave i x acc : Pres (keeps election_view) (switch_slave i x acc).
Proof. unfold switch_slave, switch_position. pres. Qed.
Hint Resolve view_switch_slave : pres.
Lemma view_track_loop i l acc : Pres (keeps election_view) (track_loop i l acc).
Proof. revert i acc. induction l as [|x l IH]; intros i acc; simpl; pres. Qed.
Hint Resolve view_track_loop : pres.
Lemma view_switch_loop i l acc : Pres (keeps election_view) (switch_loop i l acc).
Proof. revert i acc. induction l as [|x l IH]; intros i acc; simpl; pres. Qed.
Lemma view_group_other i l : Pres (keeps election_view) (group_other i l).
Proof. revert i. induction l as [|x l IH]; intros i; simpl; pres. Qed.
Lemma view_virtual_loop o i l : Pres (keeps election_view) (virtual_loop o i l).
Proof. revert i. induction l as [|x l IH]; intros i; simpl; pres. Qed.
Lemma view_electFailover l : Pres (keeps election_view) (electFailoverCandidate l).
Proof. unfold electFailoverCandidate. pres. Qed.
Lemma view_electSwitchover l : Pres (keeps election_view) (electSwitchoverCandidate l).
Proof. apply view_switch_loop. Qed.
End Frame.

#[export] Hint Resolve view_mod_state view_SetState view_call view_credentials view_rotation
  view_prerequisites view_reject view_electable_tail view_isSlaveElectable view_isSlaveValidReader
  view_ForSwitchover view_skip view_track_slave view_switch_slave view_track_loop
  view_switch_loop view_group_other view_virtual_loop view_electFailover view_electSwitchover : pres.

(** ** What an elected server satisfies *)

(** The safety conditions of a failover candidate: a server of this cluster,
    not ignored, not in maintenance, that replicates; under replication checks
    its SQL thread runs, its I/O thread runs unless the master failed, its delay
    is within the limit, and it is in sync when semi-sync is required. *)
Definition Electable (c : Cluster) (h : loc -> ServerMonitor) (x : loc) : Prop :=
  srv_SourceClusterName (h x) = cl_Name c /\
  srv_Ignored (h x) = false /\
  srv_IsMaintenance (h x) = false /\
  (exists ss, own_channel (h x) = Some ss /\
    (Conf_RplChecks (cl_Conf c) = true ->
       ns_String (ss_SlaveSQLRunning ss) <> "No" /\
       (ns_String (ss_SlaveIORunning ss) = "No" -> IsMasterFailed c h = true) /\
       (Conf_FailMaxDelay (cl_Conf c) = -1 \/
        ni_Int64 (ss_SecondsBehindMaster ss) <= Conf_FailMaxDelay (cl_Conf c)))) /\
  (Conf_RplChecks (cl_Conf c) = true -> Conf_FailSync (cl_Conf c) = true ->
   srv_HaveSemiSync (h x) = true -> srv_SemiSyncSlaveStatus (h x) = true).

(** The rank of a slave in a failover: the sequence and the position it is
    compared on; [None] when it is left out. *)
Definition compared (c : Cluster) (sl : ServerMonitor) : bool :=
  let conf := cl_Conf c in
  negb (srv_IsRelay sl) && negb (srv_IsFull sl) &&
  negb (Conf_MultiMaster conf && state_is sl stateMaster) &&
  negb (srv_HaveNoMasterOnStart sl && negb (Conf_FailRestartUnsafe conf)) &&
  negb (negb (HasBinlog sl) && negb (IsIgnored sl)).

Definition election_rank (c : Cluster) (h : loc -> ServerMonitor) (x : loc) : option (Z * Z) :=
  if negb (compared c (h x)) then None
  else
    m ← cl_master c;
    match own_channel (h x) with
    | None => if negb (Conf_FailRestartUnsafe (cl_Conf c)) then None
              else pos ← binlog_coordinate None; Some (1, pos)
    | Some ss =>
        pos ← binlog_coordinate (Some ss);
        seqnos ← slave_seqnos (h m) (h x) ss;
        Some (sum_seq seqnos, pos)
    end.

(** Galera with a virtual master elects another way. *)
Definition not_wsrep (c : Cluster) : Prop :=
  topology_is c TopoMultiMasterWsrep = true -> cl_vmaster c = None.

(** Reading an unchanged view. *)
Lemma view_heap w w' : election_view w' = election_view w -> w_heap w' = w_heap w.
Proof. intros E. exact (f_equal (fun v => fst (fst v)) E). Qed.
Lemma view_cluster {T} (f : Cluster -> T) w w' :
  election_view w' = election_view w ->
  (forall c sm r, f (set_cl_StateMachine sm (set_cl_Conf (set_Conf_ReplicationCredential r (cl_Conf c)) c)) = f c) ->
  f (w_cluster w') = f (w_cluster w).
Proof.
  intros E Hf. pose proof (f_equal (fun v => f (snd (fst v))) E) as E'.
  unfold election_view in E'. cbn [fst snd] in E'. by rewrite !Hf in E'.
Qed.

Section Sound.
Context `{Env} `{GoSort} `{GoRange}.

Lemma isSlaveElectable_sound l w w' :
  isSlaveElectable l w = (Ret true, w') -> Electable (w_cluster w) (w_heap w) l.
Proof.
  unfold isSlaveElectable, reject. intros E. inv_run E; try discriminate.
  assert (V : election_view w' = election_view w).
  { keeps_all election_view. congruence. }
  rewrite (view_heap _ _ V) in *.
  pose proof (view_cluster (fun c => Conf_FailSync (cl_Conf c)) _ _ V ltac:(done)) as V1.
  pose proof (view_cluster (fun c => Conf_RplChecks (cl_Conf c)) _ _ V ltac:(done)) as V2.
  cbn beta in V1, V2. rewrite V1, V2 in *. bool_prop.
  split; [done|]. split; [done|]. split; [done|]. split.
  - eexists. split; [eassumption|]. intros Hr. rewrite Hr in *. unfold too_late in *. rewrite Hr in *.
    repeat split.
    + intros Hn. rewrite Hn in *. discriminate.
    + intros Hn. rewrite Hn in *. by destruct (IsMasterFailed _ _).
    + rewrite !andb_true_r in *. rewrite andb_false_iff in *. bool_prop.
      destruct (Z.eq_dec (Conf_FailMaxDelay (cl_Conf (w_cluster w))) (-1)); [by left|right].
      match goal with H : (_ <? _) = false \/ _ |- _ => destruct H end; bool_prop; lia.
  - intros Hr Hf Hh. rewrite Hr, Hf, Hh in *. by destruct (srv_SemiSyncSlaveStatus (w_heap w l)).
Qed.

(** Shape of a matrix entry. *)
Definition tracks (c : Cluster) (h : loc -> ServerMonitor) (i : Z) (x : loc) (t : Trackpos) : Prop :=
  tp_Indice t = i /\ tp_Ignoredrelay t = srv_IsRelay (h x) /\
  (tp_Seq t, tp_Pos t) = default (0, 0) (election_rank c h x) /\
  (is_Some (election_rank c h x) -> tp_Ignoredreplication t = false -> Electable c h x).

Lemma view_rank w w' x :
  election_view w' = election_view w ->
  election_rank (w_cluster w') (w_heap w') x = election_rank (w_cluster w) (w_heap w) x.
Proof.
  intros V. rewrite (view_heap _ _ V).
  exact (view_cluster (fun c => election_rank c (w_heap w) x) _ _ V ltac:(done)).
Qed.

Lemma view_tracks w w' i x t :
  election_view w' = election_view w ->
  tracks (w_cluster w') (w_heap w') i x t = tracks (w_cluster w) (w_heap w) i x t.
Proof.
  intros V. rewrite (view_heap _ _ V).
  exact (view_cluster (fun c => tracks c (w_heap w) i x t) _ _ V ltac:(done)).
Qed.

Lemma view_not_wsrep w w' :
  election_view w' = election_view w -> not_wsrep (w_cluster w') = not_wsrep (w_cluster w).
Proof. intros V. exact (view_cluster not_wsrep _ _ V ltac:(done)). Qed.

Lemma not_wsrep_vmaster c :
  not_wsrep c -> (if topology_is c TopoMultiMasterWsrep then cl_vmaster c else None) = None.
Proof. intros Hw. destruct (topology_is _ _) eqn:Et; [by apply Hw|done]. Qed.

Lemma track_position_spec x m t reader w t' r w' :
  track_position x m t reader w = (Ret (t', r), w') ->
  tp_Indice t' = tp_Indice t /\ tp_Ignoredrelay t' = tp_Ignoredrelay t /\
  (tp_Ignoredreplication t' = false -> Electable (w_cluster w) (w_heap w) x) /\
  match binlog_coordinate (own_channel (w_heap w x)) with
  | None => (tp_Seq t', tp_Pos t') = (tp_Seq t, tp_Pos t)
  | Some pos =>
      tp_Pos t' = pos /\
      match own_channel (w_heap w x) with
      | Some ss => sum_seq <$> slave_seqnos m (w_heap w x) ss = Some (tp_Seq t')
      | None => tp_Seq t' = 1
      end
  end.
Proof.
  unfold track_position. intros E. inv_bind E.
  assert (Hel : negb a = false -> Electable (w_cluster w) (w_heap w) x)
    by (destruct a; [intros _; by eapply isSlaveElectable_sound|done]).
  inv_bind E. keeps_in election_view Hm. keeps_in election_view Hm0. apply view_heap in Hm, Hm0.
  rewrite <- Hm, <- Hm0 in *. inv_bind E. inv_pure.
  destruct (binlog_coordinate _) as [pos|]; [|inv_pure; simplify_eq; done].
  inv_bind E. inv_pure. simplify_eq. simpl.
  destruct (own_channel _); inv_pure; simplify_eq; [|done].
  match goal with Hs : slave_seqnos _ _ _ = _ |- _ => by rewrite Hs end.
Qed.

Lemma track_slave_spec i x reader w t r w' :
  not_wsrep (w_cluster w) -> track_slave i x reader w = (Ret (inr (t, r)), w') ->
  tracks (w_cluster w) (w_heap w) i x t.
Proof.
  intros Hw. unfold track_slave. intros E. inv_bind E. inv_bind E. inv_pure.
  set (c := w_cluster w) in *. set (h := w_heap w) in *.
  assert (Hskip : forall t0, tp_Indice t0 = i -> tp_Ignoredrelay t0 = srv_IsRelay (h x) ->
            (tp_Seq t0, tp_Pos t0) = (0, 0) -> election_rank c h x = None -> tracks c h i x t0).
  { intros t0 H2 H3 H4 H5. unfold tracks. rewrite H5.
    split; [done|]. split; [done|]. split; [exact H4|]. by intros [? ?]. }
  rewrite (not_wsrep_vmaster _ Hw) in E.
  assert (Hpos : forall ml, cl_master c = Some ml -> compared c (h x) = true ->
            own_channel (h x) <> None \/ Conf_FailRestartUnsafe (cl_Conf c) = true ->
            track_position x (h ml) (track_init c i (h x)) reader w = (Ret (t, r), w') ->
            tracks c h i x t).
  { intros ml Hml Hc Hch Ht. apply track_position_spec in Ht as (T1 & T2 & T3 & T4).
    fold c h in T3, T4. unfold tracks, election_rank. rewrite Hc, Hml. cbn [negb mbind option_bind].
    split; [done|]. split; [done|]. split; [|intros _; exact T3].
    destruct (own_channel (h x)) as [ss|].
    - destruct (binlog_coordinate _) as [pos|]; simpl; [|exact T4]. destruct T4 as [-> T4].
      destruct (slave_seqnos _ _ _); [|discriminate]. injection T4 as <-. done.
    - destruct Hch as [?|Hch]; [done|]. rewrite Hch. cbn [negb].
      destruct (binlog_coordinate None) as [pos|]; [|exact T4]. destruct T4 as [-> ->]. done. }
  unfold compared in Hpos.
  inv_run E; simplify_eq;
    try (eapply Hpos; [reflexivity| |first [by left|right; bool_prop; done]|eassumption];
         repeat match goal with Hb : ?b = false |- _ => rewrite Hb end; reflexivity);
    apply Hskip; try done; unfold election_rank, compared;
    repeat match goal with Hb : ?b = _ |- context [?b] => rewrite Hb end;
    rewrite ?andb_false_r; try done; by destruct (negb _).
Qed.

Lemma track_slave_no_early i x reader w k w' :
  not_wsrep (w_cluster w) -> track_slave i x reader w = (Ret (inl k), w') -> False.
Proof.
  intros Hw. unfold track_slave. intros E. inv_bind E. inv_bind E. inv_pure.
  rewrite (not_wsrep_vmaster _ Hw) in E.
  inv_run E; discriminate.
Qed.

Lemma track_loop_spec l : forall i acc w o w',
  not_wsrep (w_cluster w) -> track_loop i l acc w = (Ret o, w') ->
  exists acc' ts, o = inr acc' /\ fa_tracks acc' = fa_tracks acc ++ ts /\ length ts = length l /\
    (forall k t, ts !! k = Some t ->
       tp_Seq t <= fa_maxseq acc' /\ tp_Pos t <= fa_maxpos acc' /\
       exists x, l !! k = Some x /\ tracks (w_cluster w) (w_heap w) (i + Z.of_nat k) x t) /\
    fa_maxseq acc <= fa_maxseq acc' /\ fa_maxpos acc <= fa_maxpos acc'.
Proof.
  induction l as [|x l IH]; intros i acc w o w' Hw E; simpl in E.
  - inv_pure. exists acc, []. rewrite app_nil_r. split_and!; try done; lia.
  - inv_bind E. destruct a as [k|[t r]]; [by apply track_slave_no_early in Hm|].
    pose proof (track_slave_spec _ _ _ _ _ _ _ Hw Hm) as Ht.
    keeps_in election_view Hm.
    apply IH in E; [|by rewrite (view_not_wsrep _ _ Hm)].
    destruct E as (acc' & ts & -> & Hts & Hlen & Hall & Hs & Hp). simpl in *.
    exists acc', (t :: ts). split; [done|]. split; [rewrite Hts, <- app_assoc; done|].
    split; [simpl; lia|]. split; [|lia].
    intros [|k] t' Hk; simpl in Hk.
    + injection Hk as <-. split; [lia|]. split; [lia|]. exists x. split; [done|].
      by rewrite Z.add_0_r.
    + destruct (Hall _ _ Hk) as (H2 & H3 & y & Hy & Htr). split; [done|]. split; [done|].
      exists y. split; [done|]. rewrite (view_tracks _ _ _ _ _ Hm) in Htr.
      by replace (i + Z.of_nat (S k)) with (i + 1 + Z.of_nat k) by lia.
Qed.

Lemma pick_some p l i : pick p l = Some i -> exists t, t ∈ l /\ p t = true /\ tp_Indice t = i.
Proof.
  induction l as [|t l IH]; simpl; [done|]. destruct (p t) eqn:E.
  - intros [= <-]. exists t. split; [by left|done].
  - intros Hp. destruct (IH Hp) as (t' & ? & ? & ?). exists t'. split; [by right|done].
Qed.

Lemma pick_highest_spec key high l k :
  pick_highest key high l = k -> k <> -1 ->
  exists t, t ∈ l /\ key t = high /\ tp_Ignoredrelay t = false /\
            tp_Ignoredreplication t = false /\ tp_Indice t = k.
Proof.
  unfold pick_highest. intros <- Hk.
  repeat match goal with
  | |- context [pick ?p ?l] => destruct (pick p l) eqn:?
  end; [..|done];
  match goal with H : pick _ _ = Some _ |- _ => apply pick_some in H as (t & Hin & Hp & <-) end;
  unfold acceptable in *; bool_prop; eauto 10.
Qed.

Lemma elect_from_matrix_spec conf l maxseq maxpos k :
  elect_from_matrix conf l maxseq maxpos = k -> k <> -1 ->
  exists t, t ∈ l /\ tp_Ignoredrelay t = false /\ tp_Ignoredreplication t = false /\ tp_Indice t = k /\
    ((0 < maxseq /\ tp_Seq t = maxseq) \/ (maxseq <= 0 /\ 0 < maxpos /\ tp_Pos t = maxpos)).
Proof.
  unfold elect_from_matrix. intros E Hk.
  assert (P1 : forall t less, t ∈ go_sort less l -> t ∈ l) by (intros t less; by rewrite go_sort_perm).
  destruct (0 <? maxseq) eqn:Es; bool_prop.
  - apply pick_highest_spec in E as (t & Hin & ? & ? & ? & ?); [|done]. exists t. split_and!; eauto.
  - destruct (0 <? maxpos) eqn:Ep; bool_prop; [|congruence].
    apply pick_highest_spec in E as (t & Hin & ? & ? & ? & ?); [|done].
    rewrite go_sort_perm in Hin. exists t. split_and!; eauto 10.
Qed.

Lemma sum_seq_nonneg l : 0 <= sum_seq l.
Proof.
  unfold sum_seq. assert (G : forall a, 0 <= a -> 0 <= fold_left (fun a v => u64 (a + v)) l a).
  { induction l as [|v l IH]; intros a Ha; simpl; [done|]. apply IH. apply u64_range. }
  by apply G.
Qed.

Lemma election_rank_nonneg c h x seq pos : election_rank c h x = Some (seq, pos) -> 0 <= seq.
Proof.
  unfold election_rank. intros E. destruct (negb (compared _ _)); [done|].
  destruct (cl_master c); [|done]. cbn [mbind option_bind] in E.
  destruct (own_channel _) as [ss|].
  - destruct (binlog_coordinate _); [|done]. cbn [mbind option_bind] in E.
    destruct (slave_seqnos _ _ _); [|done]. injection E as <- _. apply sum_seq_nonneg.
  - destruct (negb _); [done|]. destruct (binlog_coordinate _); [|done]. injection E as <- _. lia.
Qed.
End Sound.

(** ** Switchover candidates *)

(** The further conditions of a switchover, where the master is alive. *)
Definition SwitchElectable (c : Cluster) (h : loc -> ServerMonitor) (x : loc) : Prop :=
  let conf := cl_Conf c in
  exists m ss, cl_master c = Some m /\ own_channel (h x) = Some ss /\
    (Conf_SwitchLowerRelease conf = false ->
       exists sv mv, srv_DBVersion (h x) = Some sv /\ srv_DBVersion (h m) = Some mv /\
                     lower_release sv mv = false) /\
    (Conf_CheckBinFilter conf = true -> IsEqualBinlogFilters (h m) (h x) = true) /\
    (Conf_CheckReplFilter conf = true -> IsEqualReplicationFilters (h m) (h x) = true) /\
    (Conf_RplChecks conf = true -> ni_Valid (ss_SecondsBehindMaster ss) = true /\
       (Conf_SwitchGtidCheck conf = true -> IsCurrentGTIDSync (h x) (h m) = true) /\
       (Conf_SwitchSync conf = true -> srv_HaveSemiSync (h x) = true ->
        srv_SemiSyncSlaveStatus (h x) = true)) /\
    srv_IsMaxscale (h x) = false.

Definition switch_ok (c : Cluster) (h : loc -> ServerMonitor) (x : loc) : Prop :=
  Electable c h x /\ SwitchElectable c h x /\
  srv_IsFull (h x) = false /\ srv_IsRelay (h x) = false /\ HasBinlog (h x) = true /\
  (Conf_MultiMaster (cl_Conf c) = true -> srv_State (h x) <> stateMaster).

Section Switch.
Context `{Env} `{GoSort} `{GoRange}.

Lemma ForSwitchover_sound x w w' :
  isSlaveElectableForSwitchover x w = (Ret true, w') ->
  SwitchElectable (w_cluster w) (w_heap w) x /\ w' = w.
Proof.
  unfold isSlaveElectableForSwitchover. intros E. inv_bind E. inv_bind E. inv_pure.
  destruct (negb _); [inv_pure; discriminate|]. destruct (own_channel _) as [ss|] eqn:Es; [|inv_pure; discriminate].
  apply bind_ret in E as (m & w1 & Hd & E). inv_pure. apply bind_ret in E as (low & w1 & Hlow & E).
  assert (Hl : w1 = w /\ (low = false -> Conf_SwitchLowerRelease (cl_Conf (w_cluster w)) = false ->
            exists sv mv, srv_DBVersion (w_heap w x) = Some sv /\ srv_DBVersion (w_heap w m) = Some mv /\
                          lower_release sv mv = false)).
  { destruct (Conf_SwitchLowerRelease _); simpl in Hlow; [by inv_pure|]. inv_run Hlow. split; [done|].
    intros ? _. eauto. }
  destruct Hl as [-> Hl].
  inv_run E; simplify_eq; try discriminate.
  split; [|done]. exists m, ss. split; [done|]. split; [done|]. split; [by apply Hl|].
  split; [|split; [|split; [intros Hr; split; [|split]|]]]; intros; bool_prop;
    repeat match goal with Hb : ?b = true |- _ => rewrite Hb in *; clear Hb end;
    rewrite ?andb_true_r, ?andb_true_l in *; bool_prop; done.
Qed.

Lemma view_switch_ok w w' x :
  election_view w' = election_view w ->
  switch_ok (w_cluster w') (w_heap w') x = switch_ok (w_cluster w) (w_heap w) x.
Proof.
  intros V. rewrite (view_heap _ _ V).
  exact (view_cluster (fun c => switch_ok c (w_heap w) x) _ _ V ltac:(done)).
Qed.

Lemma switch_position_spec i x acc w acc' w' :
  switch_position i x acc w = (Ret acc', w') ->
  (sw_max acc' = sw_max acc /\ sw_hiseq acc' = sw_hiseq acc \/ sw_hiseq acc' = i) /\
  (sw_maxpos acc' = sw_maxpos acc /\ sw_hipos acc' = sw_hipos acc \/ sw_hipos acc' = i).
Proof.
  unfold switch_position. intros E. inv_bind E. inv_bind E.
  destruct (binlog_coordinate _); [|inv_pure; auto]. inv_bind E.
  destruct (sw_max acc <? _), (sw_maxpos acc <? _); inv_pure; simpl; auto.
Qed.

(** Either the slave is left aside, or it passed every check. *)
Lemma switch_slave_spec i x acc w o w' :
  switch_slave i x acc w = (Ret o, w') ->
  o = inr acc \/
  (switch_ok (w_cluster w) (w_heap w) x /\
   (o = inl i \/ exists acc', o = inr acc' /\
      (sw_max acc' = sw_max acc /\ sw_hiseq acc' = sw_hiseq acc \/ sw_hiseq acc' = i) /\
      (sw_maxpos acc' = sw_maxpos acc /\ sw_hipos acc' = sw_hipos acc \/ sw_hipos acc' = i))).
Proof.
  unfold switch_slave. intros E. inv_bind E. inv_bind E. inv_pure.
  do 6 (match type of E with (if ?b then _ else _) _ = _ =>
          destruct b eqn:?; [left; inv_run E; done|] end).
  apply bind_ret in E as (sw & w1 & Hsw & E).
  destruct sw; [|left; inv_run E; done]. apply ForSwitchover_sound in Hsw as [Hsw ->].
  apply bind_ret in E as (el & w1 & Hel & E).
  destruct el; [|left; inv_run E; done]. apply isSlaveElectable_sound in Hel.
  assert (Hok : switch_ok (w_cluster w) (w_heap w) x).
  { bool_prop. unfold IsIgnored in *. split; [done|]. split; [done|]. split; [done|]. split; [done|].
    split.
    - destruct (HasBinlog _); [done|].
      repeat match goal with Hb : ?b = false |- _ => rewrite Hb in *; clear Hb end. done.
    - intros Hmm Hst. rewrite Hmm in *. unfold state_is in *. by rewrite Hst in *. }
  cbn [negb] in E.
  destruct (IsInPreferedHosts _ _); [inv_pure; right; auto|].
  destruct (srv_HaveNoMasterOnStart _ && _); [left; inv_run E; done|].
  destruct (own_channel _) as [ss|].
  - apply bind_ret in E as (acc' & w2 & Hp & E). apply switch_position_spec in Hp. inv_pure. eauto 10.
  - destruct (negb (Conf_FailRestartUnsafe _)); [left; inv_run E; done|].
    apply bind_ret in E as (acc' & w2 & Hp & E). apply switch_position_spec in Hp. inv_pure. eauto 10.
Qed.

(** An index of [L], from [i] on in [l], names a slave that passed. *)
Definition good_index (w : World) (L : list loc) (k : Z) : Prop :=
  0 <= k /\ exists x, L !! Z.to_nat k = Some x /\ switch_ok (w_cluster w) (w_heap w) x.

Lemma switch_loop_spec l : forall pre acc w k w',
  switch_loop (Z.of_nat (length pre)) l acc w = (Ret k, w') ->
  (0 < sw_max acc -> good_index w (pre ++ l) (sw_hiseq acc)) ->
  (0 < sw_maxpos acc -> good_index w (pre ++ l) (sw_hipos acc)) ->
  k <> -1 -> good_index w (pre ++ l) k.
Proof.
  induction l as [|x l IH]; intros pre acc w k w' E Hs Hp Hk; simpl in E.
  - inv_pure. destruct (0 <? sw_max acc) eqn:E1; bool_prop; [auto|].
    destruct (0 <? sw_maxpos acc) eqn:E2; bool_prop; [auto|done].
  - apply bind_ret in E as (o & w1 & Ho & E).
    assert (Hg : switch_ok (w_cluster w) (w_heap w) x ->
                 good_index w (pre ++ x :: l) (Z.of_nat (length pre))).
    { intros Hx. split; [lia|]. exists x. rewrite Nat2Z.id. split; [by apply list_lookup_middle|done]. }
    pose proof (switch_slave_spec _ _ _ _ _ _ Ho) as Hspec. keeps_in election_view Ho.
    assert (Hv : forall L j, good_index w1 L j <-> good_index w L j).
    { intros L j. unfold good_index. split; intros [Hj (y & Hy & Hok)]; split; try done; exists y;
        (split; [done|]); by rewrite ?(view_switch_ok _ _ _ Ho) in *. }
    rewrite cons_middle, app_assoc in Hs, Hp, Hg |- *.
    replace (Z.of_nat (length pre) + 1) with (Z.of_nat (length (pre ++ [x]))) in E
      by (rewrite length_app; simpl; lia).
    destruct Hspec as [->|[Hok [->|(acc' & -> & A1 & A2)]]].
    + apply Hv. eapply IH; [exact E|..|done]; intros; apply Hv; auto.
    + inv_pure. auto.
    + apply Hv. eapply IH; [exact E|..|done]; intros; apply Hv;
        [destruct A1 as [[A3 ->]| ->]|destruct A2 as [[A3 ->]| ->]];
        rewrite ?A3 in *; auto.
Qed.
End Switch.

(** What the failover election returns. *)
Lemma electFailoverCandidate_sound `{Env} `{GoSort} `{GoRange} (l : list loc) (w w' : World) (k : Z) :
  not_wsrep (w_cluster w) -> electFailoverCandidate l w = (Ret k, w') -> k <> -1 ->
  exists x seq pos,
    0 <= k /\ l !! Z.to_nat k = Some x /\
    Electable (w_cluster w) (w_heap w) x /\ compared (w_cluster w) (w_heap w x) = true /\
    election_rank (w_cluster w) (w_heap w) x = Some (seq, pos) /\
    (forall y sy py, y ∈ l -> election_rank (w_cluster w) (w_heap w) y = Some (sy, py) ->
       sy <= seq /\ (seq = 0 -> py <= pos)).
Proof.
  intros Hw E Hk. unfold electFailoverCandidate in E. inv_bind E.
  apply track_loop_spec in Hm as (acc & ts & -> & Hts & Hlen & Hall & Hs & Hp); [|done].
  simpl in *. inv_bind E. inv_bind E. inv_pure. clear Hm.
  destruct (elect_from_matrix_spec _ _ _ _ _ eq_refl Hk) as (t & Hin & Hrel & Hrep & Hi & Hmax).
  apply list_elem_of_lookup in Hin as [n Hn].
  destruct (Hall _ _ Hn) as (Hs' & Hp' & x & Hx & T1 & T2 & T3 & T4).
  assert (Hpos : 0 < tp_Seq t \/ 0 < tp_Pos t) by (destruct Hmax as [[? ->]|[? [? ->]]]; auto).
  destruct (election_rank _ _ x) as [[seq pos]|] eqn:Er; [|injection T3 as H2 H3; lia].
  injection T3 as H2 H3.
  exists x, seq, pos. rewrite <- Hi, T1, Z.add_0_l, Nat2Z.id.
  split; [lia|]. split; [done|]. split; [by apply T4|]. split.
  { unfold election_rank in Er. by destruct (compared _ _). }
  split; [done|]. intros y sy py Hy Ey. apply list_elem_of_lookup in Hy as [j Hj].
  assert (exists ty, fa_tracks acc !! j = Some ty) as [ty Hty].
  { apply lookup_lt_is_Some. rewrite Hlen. by eapply lookup_lt_Some. }
  destruct (Hall _ _ Hty) as (Hsy & Hpy & y' & Hy' & U1 & U2 & U3 & _).
  rewrite Hj in Hy'. injection Hy' as <-. rewrite Ey in U3. injection U3 as U4 U5.
  apply election_rank_nonneg in Er, Ey. lia.
Qed.

(** ** Properties *)

(** C6: the failover election is safe and picks the most advanced slave. When
    it returns an index, that index is one of the slaves; the slave belongs to
    the cluster, is not ignored, not a relay, not full, not in maintenance, has
    binary logs, and satisfies the replication conditions of the configuration;
    and no slave that was compared has received a higher GTID sequence (nor, when
    no slave has one, a higher binary log position). *)
Theorem failover_candidate_best `{Env} `{GoSort} `{GoRange} (l : list loc) (w w' : World) (k : Z) :
  not_wsrep (w_cluster w) -> electFailoverCandidate l w = (Ret k, w') -> k <> -1 ->
  exists x seq pos,
    0 <= k /\ l !! Z.to_nat k = Some x /\
    Electable (w_cluster w) (w_heap w) x /\ compared (w_cluster w) (w_heap w x) = true /\
    election_rank (w_cluster w) (w_heap w) x = Some (seq, pos) /\
    (forall y sy py, y ∈ l -> election_rank (w_cluster w) (w_heap w) y = Some (sy, py) ->
       sy <= seq /\ (seq = 0 -> py <= pos)).
Proof. apply electFailoverCandidate_sound. Qed.

Lemma failover_candidate_best_witness :
  exists x seq pos, [1; 2]%nat !! 1%nat = Some x /\ election_rank demo_cluster demo_heap x = Some (seq, pos) /\
    Electable demo_cluster demo_heap x.
Proof.
  destruct (electFailoverCandidate [1; 2]%nat demo_world) as [o w'] eqn:E.
  assert (Eo : o = Ret 1).
  { change o with (fst (o, w')). rewrite <- E. vm_compute. reflexivity. }
  rewrite Eo in E.
  destruct (failover_candidate_best [1; 2]%nat demo_world w' 1) as (x & seq & pos & _ & Hx & He & _ & Hr & _).
  - intros Ht. vm_compute in Ht. discriminate.
  - exact E.
  - lia.
  - exists x, seq, pos. split; [exact Hx|]. split; [exact Hr|exact He].
Defined.

(** A server the switchover election returns passed every check: it is one
    of the slaves, satisfies the failover conditions, replicates with a known
    delay from the current master, is not of a lower release nor differently
    filtered when the configuration forbids it, and is neither ignored, full, a
    relay nor without binary logs. *)
Theorem switchover_candidate_passes_checks `{Env} `{GoSort} `{GoRange}
    (l : list loc) (w w' : World) (k : Z) :
  electSwitchoverCandidate l w = (Ret k, w') -> k <> -1 ->
  0 <= k /\ exists x, l !! Z.to_nat k = Some x /\ switch_ok (w_cluster w) (w_heap w) x.
Proof.
  intros E Hk. apply (switch_loop_spec l [] _ _ _ _ E); simpl; [lia|lia|done].
Qed.

(** The master alive. *)
Definition demo_alive : World :=
  mkWorld demo_cluster (<[0%nat := set_srv_State stateMaster (demo_heap 0%nat)]> demo_heap) [].

Lemma switchover_candidate_passes_checks_witness :
  exists x, [1; 2]%nat !! 1%nat = Some x /\ switch_ok (w_cluster demo_alive) (w_heap demo_alive) x.
Proof.
  destruct (electSwitchoverCandidate [1; 2]%nat demo_alive) as [o w'] eqn:E.
  assert (Eo : o = Ret 1).
  { change o with (fst (o, w')). rewrite <- E. vm_compute. reflexivity. }
  rewrite Eo in E.
  destruct (switchover_candidate_passes_checks [1; 2]%nat demo_alive w' 1 E) as (_ & x & Hx & Hok); [lia|].
  exists x. split; [exact Hx|exact Hok].
Defined.

(** the elections only read: they leave every server, the lists, the master
    pointers, the configuration (but a replication password rotated in a vault)
    and the failover flag as they were, whatever the databases answer and
    however the election ends. *)
Theorem elections_only_read `{Env} `{GoSort} `{GoRange} (l : list loc) (old : option loc) (w : World) :
  election_view (snd (electFailoverCandidate l w)) = election_view w /\
  election_view (snd (electSwitchoverCandidate l w)) = election_view w /\
  election_view (snd (electSwitchoverGroupReplicationCandidate l w)) = election_view w /\
  election_view (snd (electVirtualCandidate old w)) = election_view w.
Proof.
  split; [apply view_electFailover|]. split; [apply view_electSwitchover|]. split.
  - unfold electSwitchoverGroupReplicationCandidate.
    match goal with |- election_view (snd (?m w)) = _ => assert (P : Pres (keeps election_view) m) by pres end.
    apply P.
  - unfold electVirtualCandidate.
    match goal with |- election_view (snd (?m w)) = _ => assert (P : Pres (keeps election_view) m) by pres end.
    apply P.
Qed.

Lemma pick_none p l : pick p l = None <-> Forall (fun t => p t = false) l.
Proof.
  induction l as [|t l IH]; simpl; [by split|]. destruct (p t) eqn:E.
  - split; [done|]. intros Hf. inversion Hf. congruence.
  - rewrite IH. split; [by constructor|by inversion 1].
Qed.

Lemma pick_highest_none key high l :
  Forall (fun t => 0 <= tp_Indice t) l ->
  pick_highest key high l = -1 <-> Forall (fun t => acceptable key high t = false) l.
Proof.
  intros Hi. assert (Hnn : forall p i, pick p l = Some i -> i <> -1).
  { intros p i Hp. apply pick_some in Hp as (t & Ht & _ & <-).
    rewrite Forall_forall in Hi. apply list_elem_of_In in Ht. specialize (Hi t Ht). lia. }
  unfold pick_highest. cbv zeta.
  split.
  - intros E. repeat match type of E with
    | context [pick ?p l] => destruct (pick p l) eqn:?; [by exfalso; apply (Hnn p _ ltac:(eassumption))|]
    end.
    rewrite !pick_none, !Forall_forall in *. intros t Ht.
    repeat match goal with
    | Hf : forall x, In x l -> _ && _ = false |- _ => specialize (Hf t Ht)
    end.
    cbn beta in *. destruct (acceptable key high t); [|done]. by destruct (tp_Ignoredconf t).
  - intros Hf. assert (N : forall q, pick (fun t => acceptable key high t && q t) l = None).
    { intros q. apply pick_none. eapply Forall_impl; [|exact Hf]. intros t Ht. cbn beta in *. by rewrite Ht. }
    rewrite (N (fun t => negb (tp_Ignoredconf t))), (N tp_Ignoredconf).
    assert (N2 : pick (fun t => acceptable key high t && negb (tp_Ignoredconf t) && tp_Prefered t) l = None).
    { apply pick_none. eapply Forall_impl; [|exact Hf]. intros t Ht. cbn beta in *. by rewrite Ht. }
    by rewrite N2.
Qed.

(** whether the election matrix elects somebody does not depend on how
    entries of equal rank are ordered (nor on the delay statistics): it returns
    -1 exactly when no entry at the highest sequence (or, without sequences, at the
    highest position) is acceptable. *)
Theorem matrix_elects_iff_acceptable `{GoSort} (conf : Config) (l : list Trackpos) (maxseq maxpos : Z) :
  Forall (fun t => 0 <= tp_Indice t) l -> 0 < maxseq \/ 0 < maxpos ->
  elect_from_matrix conf l maxseq maxpos = -1 <->
  Forall (fun t => (if 0 <? maxseq then acceptable tp_Seq maxseq else acceptable tp_Pos maxpos) t = false) l.
Proof.
  intros Hi Hm. unfold elect_from_matrix.
  destruct (0 <? maxseq) eqn:E1; bool_prop.
  - rewrite pick_highest_none; [|by rewrite go_sort_perm]. by rewrite go_sort_perm.
  - destruct (0 <? maxpos) eqn:E2; bool_prop; [|lia].
    rewrite pick_highest_none; [|by rewrite !go_sort_perm]. by rewrite !go_sort_perm.
Qed.

Definition demo_track (i seq : Z) (out : bool) : Trackpos :=
  mkTrackpos "" i 0 seq false false false false out false false zeroDelayStat.

Lemma matrix_elects_iff_acceptable_witness :
  elect_from_matrix zeroConfig [demo_track 0 7 true; demo_track 1 5 false] 7 0 = -1.
Proof.
  apply (matrix_elects_iff_acceptable zeroConfig [demo_track 0 7 true; demo_track 1 5 false] 7 0).
  - repeat constructor; vm_compute; discriminate.
  - left. lia.
  - repeat constructor.
Defined.
