(* ===== verification/Failover.v ===== *)
(** * Failover and switchover (cluster/cluster_fail.go, cluster_bash.go, prx.go)

    The change of master: election, freeze of the old master (switchover), wait
    for the relay logs, crash report, promotion, demotion of the old master and
    redirection of the slaves. [MasterFailover] is cut in the phases its source
    comments name. *)

From Stdlib Require Import ZArith Lia Bool Permutation Ascii String.
From stdpp Require Import base list gmap strings functions.
From S2P Require Import Prelude GoLib Gtid Version StateMachine Crash DelayStat Config Server Cluster Demo ServerOps Refresh Election.

Local Open Scope string_scope.
Local Open Scope list_scope.
Local Open Scope Z_scope.

Section Ops.
Context `{Env} `{GoSort} `{GoRange}.

(** ** Hooks *)

Definition fail_type (fail : bool) : string := if negb fail then "switchover" else "failover".

Definition failover_script (path : string) (fail : bool) : M unit :=
  whenM (negb (path =? "")%string)
    (c ← get_cluster;
     ol ← deref (cl_oldMaster c);
     ml ← deref (GetMaster c);
     o ← load ol;
     m ← load ml;
     call (run_script path [srv_Host o; srv_Host m; srv_Port o; srv_Port m;
                            srv_MxsServerName o; srv_MxsServerName m; fail_type fail])).

Definition failoverPreScript (fail : bool) : M unit :=
  conf ← get_conf; failover_script (Conf_PreScript conf) fail.
Definition failoverPostScript (fail : bool) : M unit :=
  conf ← get_conf; failover_script (Conf_PostScript conf) fail.

Definition failoverProxies : M unit :=
  c ← get_cluster; forM (cl_Proxies c) (fun p => call (proxy_Failover p)).
Definition backendStateChangeProxies : M unit :=
  c ← get_cluster; forM (cl_Proxies c) (fun p => call (proxy_BackendsStateChange p)).
Definition failoverProxiesWaitMonitor : M unit :=
  conf ← get_conf; call (time_Sleep (Conf_SwitchSlaveWaitRouteChange conf * 1000)).

(** Events disabled on slaves are enabled on [conn]. *)
Definition enable_events (ml conn : loc) : M unit :=
  m ← load ml;
  forM (srv_EventStatus m) (fun v =>
    whenM (ev_Status v =? 3) (exec conn (db_SetEventStatus conn v 1) ;; mret tt)).

Definition failoverEnableEventScheduler : M unit :=
  c ← get_cluster;
  let conf := cl_Conf c in
  whenM (Conf_FailEventScheduler conf)
    (ml ← deref (cl_master c); SetEventScheduler ml true ;; mret tt) ;;
  whenM (Conf_FailEventStatus conf)
    (ml ← deref (cl_master c); enable_events ml ml).

(** ** Replication options *)

Definition master_opt (conf : Config) (m : ServerMonitor) : ChangeMasterOpt :=
  set_cm_Host (srv_Host m) (set_cm_Port (srv_Port m) (set_cm_User (GetRplUser conf)
  (set_cm_Password (GetRplPass conf) (set_cm_Retry (format_int (Conf_ForceSlaveHeartbeatRetry conf))
  (set_cm_Heartbeat (format_int (Conf_ForceSlaveHeartbeatTime conf))
  (set_cm_SSL (Conf_ReplicationSSL conf) zeroChangeMasterOpt)))))).

(** With the channel, the delay of the slave [sl] and the database name. *)
Definition slave_opt (conf : Config) (m sl : ServerMonitor) (mode : string) : ChangeMasterOpt :=
  set_cm_Mode mode (set_cm_Channel (Conf_MasterConn conf) (set_cm_IsDelayed (srv_IsDelayed sl)
  (set_cm_Delay (format_int (Conf_HostsDelayedTime conf)) (set_cm_PostgressDB (srv_PostgressDB m)
  (master_opt conf m))))).

(** ** Phase 5: switching slaves to the new master *)

(** Slaves that are left alone. *)
Definition slave_untouched (conf : Config) (oldURL : string) (sl : ServerMonitor) : bool :=
  Conf_MultiMaster conf || Conf_MultiMasterGrouprep conf || state_is sl stateWsrep ||
  state_is sl stateWsrepDonor || state_is sl stateWsrepLate || (srv_URL sl =? oldURL)%string ||
  state_is sl stateMaster || (negb (srv_IsRelay sl) && Conf_MxsBinlogOn conf).

(** Positional switch through the pseudo GTID both servers have in their logs. *)
Definition switch_pseudo_gtid (x ml : loc) : M unit :=
  conf ← get_conf;
  gtid ← exec x (db_GetLastPseudoGTID x);
  sl ← load x;
  sp ← exec x (db_GetBinlogEventPseudoGTID x gtid (srv_BinaryLogFile sl));
  skip ← exec x (db_GetNumberOfEventsAfterPos x (fst sp) (snd sp));
  m ← load ml;
  mp ← exec ml (db_GetBinlogEventPseudoGTID ml gtid (srv_BinaryLogFile m));
  mp ← exec ml (db_GetBinlogPosAfterSkipNumberOfEvents ml (fst mp) (snd mp) skip);
  exec x (db_ChangeMaster x (set_cm_Logfile (fst mp) (set_cm_Logpos (snd mp)
    (slave_opt conf m sl "POSITIONAL")))) ;; mret tt.

(** How one slave is pointed to the new master. *)
Definition repoint_slave (x ol ml : loc) : M unit :=
  conf ← get_conf;
  h ← get_heap;
  maria ← deref (HasMariaDBGTID conf (h x));
  my ← (if negb maria then deref (HasMySQLGTID conf (h ml)) else mret true);
  if negb maria && negb my
  then
    if Conf_AutorejoinSlavePositionalHeartbeat conf then switch_pseudo_gtid x ml else SetMaintenance x
  else
    g57 ← (if IsMySQLOrPerconaGreater57 (srv_DBVersion (h ol)) then deref (HasMySQLGTID conf (h ml))
           else mret false);
    if (g57 : bool)
    then exec x (db_ChangeMaster x (slave_opt conf (h ml) (h x) "MASTER_AUTO_POSITION")) ;; mret tt
    else if negb (Conf_MxsBinlogOn conf)
    then exec x (db_ChangeMaster x (slave_opt conf (h ml) (h x) "SLAVE_POS")) ;; mret tt
    else if srv_MxsHaveGtid (h x)
    then exec x (db_ChangeMaster x (slave_opt conf (h ml) (h x) "SLAVE_POS")) ;; mret tt
    else exec x (db_ChangeMaster x (set_cm_Mode "MXS" (master_opt conf (h ml)))) ;; mret tt.

Definition switch_one_slave (fail : bool) (x ol ml : loc) : M unit :=
  conf ← get_conf;
  let catch := negb fail && negb (Conf_MxsBinlogOn conf) && Conf_SwitchSlaveWaitCatch conf in
  whenM catch (WaitSyncToMaster x ol) ;;
  StopSlave x ;;
  whenM (catch && Conf_SwitchoverCopyOldLeaderGtid conf)
    (s ← load x;
     v ← deref (srv_DBVersion s);
     whenM (IsMariaDB v)
       (o ← load ol;
        g ← deref (srv_GTIDBinlogPos o);
        exec x (db_SetGTIDSlavePos x (Sprint g)) ;; mret tt)) ;;
  repoint_slave x ol ml ;;
  StartSlave x ;;
  whenM (Conf_MxsBinlogOn conf && negb fail) (StartSlave ol ;; mret tt) ;;
  s ← load x;
  if Conf_ReadOnly conf && negb (Conf_MxsBinlogOn conf) && negb (IsIgnoredReadonly s)
  then SetReadOnly x ;; mret tt
  else whenM (negb (Conf_MxsBinlogOn conf)) (SetReadWrite x ;; mret tt).

Definition SwitchSlavesToMaster (fail : bool) : M unit :=
  c ← get_cluster;
  forM (cl_slaves c) (fun x =>
    let conf := cl_Conf c in
    sl ← load x;
    untouched ← (if Conf_MultiMaster conf || Conf_MultiMasterGrouprep conf || state_is sl stateWsrep ||
                    state_is sl stateWsrepDonor || state_is sl stateWsrepLate then mret true
                 else ol ← deref (cl_oldMaster c); o ← load ol; mret (slave_untouched conf (srv_URL o) sl));
    if (untouched : bool) then mret tt
    else
      ol ← deref (cl_oldMaster c);
      ml ← deref (cl_master c);
      switch_one_slave fail x ol ml).

(** ** Extra replication sources of the old master *)

Definition source_mode (rep : SlaveStatus) : string :=
  let u := strings_ToUpper (ns_String (ss_UsingGtid rep)) in
  if (u =? "NO")%string then "POSITIONAL"
  else if (u =? "SLAVE_POS")%string || (u =? "CURRENT_POS")%string then u
  else if ns_Valid (ss_RetrievedGtidSet rep) && negb (ns_String (ss_ExecutedGtidSet rep) =? "")%string
  then "MASTER_AUTO_POSITION" else "".

Definition source_opt (conf : Config) (parent : option Peer) (newMaster : ServerMonitor) (rep : SlaveStatus)
  : ChangeMasterOpt :=
  set_cm_Host (ns_String (ss_MasterHost rep)) (set_cm_Port (ns_String (ss_MasterPort rep))
  (set_cm_User (ns_String (ss_MasterUser rep))
  (set_cm_Password (match parent with Some p => snd (SplitPair (peer_ReplicationCredential p)) | None => "" end)
  (set_cm_Retry (format_int (Conf_ForceSlaveHeartbeatRetry conf))
  (set_cm_Heartbeat (format_int (f64_trunc (ss_SlaveHeartbeatPeriod rep)))
  (set_cm_Logfile (ns_String (ss_MasterLogFile rep)) (set_cm_Logpos (ns_String (ss_ExecMasterLogPos rep))
  (set_cm_SSL (Conf_ReplicationSSL conf) (set_cm_Channel (ns_String (ss_ConnectionName rep))
  (set_cm_IsDelayed false (set_cm_Delay "0" (set_cm_DoDomainIds (ns_String (ss_DoDomainIds rep))
  (set_cm_IgnoreDomainIds (ns_String (ss_IgnoreDomainIds rep))
  (set_cm_IgnoreServerIds (ns_String (ss_IgnoreServerIds rep))
  (set_cm_PostgressDB (srv_PostgressDB newMaster) (set_cm_Mode (source_mode rep) zeroChangeMasterOpt)))))))))))))))).

Definition FailoverExtraMultiSource (oldMaster newMaster : option loc) (fail : bool) : M unit :=
  c ← get_cluster;
  ol ← deref oldMaster;
  o ← load ol;
  forM (srv_Replications o) (fun rep =>
    let channel := ns_String (ss_ConnectionName rep) in
    whenM (negb (channel =? Conf_MasterConn (cl_Conf c))%string)
      (nl ← deref newMaster;
       n ← load nl;
       e ← exec nl (db_ChangeMaster nl
             (source_opt (cl_Conf c) (GetParentClusterFromReplicationSource c rep) n rep));
       whenM (negb fail && negb (is_err e)) (exec ol (db_ResetSlave ol true channel) ;; mret tt) ;;
       exec nl (db_StartSlave nl channel) ;; mret tt)).

(** ** Phase 1: cleanup and election *)

(** Before a switchover: no long write, tables flushed in time. *)
Definition switchover_prepare (target : option loc) (maria_timeout : bool) : M bool :=
  conf ← get_conf;
  match target with
  | None => mret false
  | Some ml =>
      m ← load ml;
      if negb (srv_Conn m) then mret false
      else
        qt ← exec ml (db_CheckLongRunningWrites ml (Conf_SwitchWaitWrite conf));
        if 0 <? qt then mret false
        else
          limited ← (if maria_timeout
                     then v ← deref (srv_DBVersion m);
                          mret (IsMariaDB v && (10 <? Major v) && (1 <=? Minor v))
                     else mret false);
          r ← exec ml (db_FlushTablesTimed ml
                (if (limited : bool) then Some (Conf_SwitchWaitTrx conf + 2) else None)
                (Conf_SwitchWaitTrx conf));
          mret (match r with Flushed _ => true | FlushTimeout => false end)
  end.

(** [Some b]: the failover ends here with [b]. *)
Definition failover_start (fail : bool) : M (option bool) :=
  c ← get_cluster;
  if negb fail
  then ok ← switchover_prepare (cl_master c) true; mret (if (ok : bool) then None else Some false)
  else mret (if Conf_MultiMasterGrouprep (cl_Conf c) then Some true else None).

Definition refresh_slaves : M unit :=
  c ← get_cluster; forM (cl_slaves c) (fun x => Refresh x ;; mret tt).

Definition failover_elect (fail : bool) : M (option Z) :=
  refresh_slaves ;;
  c ← get_cluster;
  key ← (if fail then electFailoverCandidate (cl_slaves c) else electSwitchoverCandidate (cl_slaves c));
  if key =? -1 then mret None
  else
    x ← index (cl_slaves c) key;
    ok ← (if fail then isSlaveElectable x else mret true);
    mret (if (ok : bool) then Some key else None).

(** The index in [cluster.Servers] of the server with the URL of [x], else 0. *)
Definition server_key (c : Cluster) (h : loc -> ServerMonitor) (x : loc) : Z :=
  default 0 (index_from h (fun s => (srv_URL (h x) =? srv_URL s)%string) 0 (cl_servers c)).

(** The candidate becomes the master and leaves the slaves. *)
Definition promote (key : Z) : M unit :=
  c ← get_cluster;
  h ← get_heap;
  x ← index (cl_slaves c) key;
  ml ← index (cl_servers c) (server_key c h x);
  mod_cluster (fun c => set_cl_master (Some ml) (set_cl_oldMaster (cl_master c) c)) ;;
  SetMaster ml ;;
  whenM (negb (Conf_MultiMaster (cl_Conf c)))
    (h ← get_heap;
     c ← get_cluster;
     x ← index (cl_slaves c) key;
     mod_cluster (fun c => set_cl_slaves (srv_delete h x (cl_slaves c)) c)).

(** ** Phase 2: crash report *)

(** The GTID the new master has received from the old one. *)
Definition crash_gtid (conf : Config) (m : ServerMonitor) (ms : SlaveStatus) : M (option (list Gtid)) :=
  v ← deref (srv_DBVersion m);
  if IsMariaDB v
  then if Conf_MxsBinlogOn conf then mret (srv_CurrentGtid m)
       else g ← deref (NewList (ns_String (ss_GtidIOPos ms))); mret (Some g)
  else if IsMySQLOrPerconaGreater57 (Some v)
  then
    g ← deref (HasGTIDReplication conf m);
    mret (if (g : bool)
          then Some (NewMySQLList (strings_ToUpper (ns_String (ss_ExecutedGtidSet ms))) CrcTable)
          else None)
  else mret None.

(** The report; [with_binlog]: with the binary log position of the new master. *)
Definition crash_report (fail with_binlog : bool) (now : Z) : M Crash :=
  c ← get_cluster;
  ml ← deref (cl_master c);
  ol ← deref (cl_oldMaster c);
  m ← load ml;
  o ← load ol;
  ms ← deref (GetSlaveStatus m (srv_ReplicationSourceName m));
  gtid ← crash_gtid (cl_Conf c) m ms;
  mod_server ml (fun s => set_srv_FailoverSemiSyncSlaveStatus (srv_SemiSyncSlaveStatus s) s) ;;
  mret (mkCrash (srv_URL o) (ns_String (ss_MasterLogFile ms)) (ns_String (ss_ReadMasterLogPos ms))
          (if with_binlog then srv_BinaryLogFile m else "")
          (if with_binlog then srv_BinaryLogPos m else "")
          (srv_SemiSyncSlaveStatus m) gtid (srv_URL m) now (negb fail)).

(** Without a replication status of the new master the code panics here. *)
Definition save_crash (fail : bool) : M Crash :=
  c ← get_cluster;
  ml ← deref (cl_master c);
  m ← load ml;
  deref (GetSlaveStatus m (srv_ReplicationSourceName m)) ;;
  now ← call time_Now;
  crash_report fail true now.

Definition set_crash_position (file pos : string) (cr : Crash) : Crash :=
  mkCrash (crash_URL cr) file pos (crash_NewMasterLogFile cr) (crash_NewMasterLogPos cr)
    (crash_FailoverSemiSyncSlaveStatus cr) (crash_FailoverIOGtid cr) (crash_ElectedMasterURL cr)
    (crash_UnixTimestamp cr) (crash_Switchover cr).

Fixpoint repeatM (n : nat) (m : M unit) : M unit :=
  match n with O => mret tt | S k => m ;; repeatM k m end.

(** With a relay server the candidate has to reach its binary log number. *)
Definition catch_relay (cr : Crash) : M (option loc * Crash) :=
  c ← get_cluster;
  h ← get_heap;
  if negb (Conf_MxsBinlogOn (cl_Conf c) || Conf_MultiTierSlave (cl_Conf c)) then mret (None, cr)
  else
    match GetRelayServer c h with
    | None => mret (None, cr)
    | Some rl =>
        let rs := own_channel (h rl) in
        Refresh rl ;;
        rs ← deref rs;
        number ← deref (strings_Split "." (ns_String (ss_MasterLogFile rs)) !! 1%nat);
        ml ← deref (cl_master c);
        exec ml (db_ResetMaster ml (Conf_MasterConn (cl_Conf c))) ;;
        repeatM (Z.to_nat (fst (strconv_Atoi number))) (exec ml (db_FlushBinaryLogsLocal ml) ;; mret tt) ;;
        call (time_Sleep 2000) ;;
        ms ← exec ml (db_GetMasterStatus ml);
        mod_server ml (fun s => set_srv_FailoverMasterLogPos "4" (set_srv_FailoverMasterLogFile (ms_File (fst ms)) s)) ;;
        mret (Some rl, set_crash_position (ms_File (fst ms)) "4" cr)
    end.

(** ** Phase 3: the new master *)

Definition single_master (conf : Config) : bool :=
  negb (Conf_MultiMaster conf) && negb (Conf_MultiMasterGrouprep conf).

Definition stop_new_master (ml : loc) : M unit :=
  conf ← get_conf;
  whenM (single_master conf)
    (m ← load ml;
     v ← deref (srv_DBVersion m);
     whenM (IsMariaDB v || (Minor v <? 7)) (StopSlave ml ;; mret tt) ;;
     whenM (Conf_FailoverSemiSyncState conf) (SetSemiSyncLeader ml ;; mret tt)).

(** The path of the report is the prefix given here followed by the time. *)
Definition crash_files (cr : Crash) : M unit :=
  c ← get_cluster;
  call time_Now ;;
  call (write_crash (cl_WorkingDir c +:+ "/failover.") cr) ;;
  files ← call (read_dir (cl_WorkingDir c));
  match files with
  | None => mret tt
  | Some fs => forM (crash_Purge fs (Conf_FailoverLogFileKeep (cl_Conf c)))
                 (fun f => call (remove_file (cl_WorkingDir c +:+ "/" +:+ f)))
  end.

Definition record_crash (cr : Crash) : M unit :=
  mod_cluster (fun c =>
    set_cl_FailoverHistory (StoreLastN cr (Conf_FailoverLogFileKeep (cl_Conf c)) (cl_FailoverHistory c))
      (set_cl_Crashes (cl_Crashes c ++ [cr]) c)).

Definition reset_new_master (ml : loc) : M unit :=
  conf ← get_conf;
  whenM (single_master conf)
    (m ← load ml;
     v ← deref (srv_DBVersion m);
     whenM (IsMySQLOrPercona v) (StopSlave ml ;; mret tt) ;;
     ResetSlave ml ;; mret tt).

Definition open_traffic (fail : bool) (ml : loc) : M unit :=
  whenM (negb fail) (Refresh ml ;; mret tt) ;;
  SetReadWrite ml ;;
  failoverProxies ;;
  failoverProxiesWaitMonitor ;;
  failoverPostScript fail ;;
  failoverEnableEventScheduler ;;
  exec ml (db_FlushTables ml) ;; mret tt.

(** ** Phase 4: the old master of a switchover becomes a slave *)

(** Where and how the old master replicates; [false]: do not start it yet. *)
Definition demote_opt (conf : Config) (o m : ServerMonitor) (one_shoot : bool)
    (relay : option loc) (cr : Crash) : M (ChangeMasterOpt * bool) :=
  h ← get_heap;
  let opt := set_cm_Logfile (srv_BinaryLogFile m) (set_cm_Logpos (srv_BinaryLogPos m)
               (slave_opt conf m o "")) in
  maria ← deref (HasMariaDBGTID conf o);
  my ← deref (HasMySQLGTID conf o);
  if negb maria && negb my then mret (set_cm_Mode "POSITIONAL" opt, true)
  else if my then mret (set_cm_Mode "MASTER_AUTO_POSITION" opt, true)
  else if negb (Conf_MxsBinlogOn conf)
  then mret (set_cm_Mode (if one_shoot then "SLAVE_POS" else "CURRENT_POS") opt, true)
  else
    rl ← deref relay;
    let opt := set_cm_Host (srv_Host (h rl)) (set_cm_Port (srv_Port (h rl)) opt) in
    if srv_MxsHaveGtid (h rl) then mret (set_cm_Mode "SLAVE_POS" opt, false)
    else mret (set_cm_Mode "POSITIONAL" (set_cm_Logfile (crash_FailoverMasterLogFile cr)
                 (set_cm_Logpos (crash_FailoverMasterLogPos cr) opt)), false).

Definition demote_old_master (ol ml : loc) (relay : option loc) (cr : Crash) : M unit :=
  Refresh ol ;;
  exec ol (db_KillThreads ol) ;;
  exec ol (db_UnlockTables ol) ;;
  conf ← get_conf;
  o ← load ol;
  m ← load ml;
  v ← deref (srv_DBVersion o);
  one_shoot ← (if IsMariaDB v && negb (srv_HaveMariaDBGTID o) && (10 <=? Major v) &&
                  Conf_SwitchoverCopyOldLeaderGtid conf
               then g ← deref (srv_GTIDBinlogPos m);
                    exec ol (db_SetGTIDSlavePos ol (Sprint g)) ;; mret true
               else mret false);
  os ← demote_opt conf o m one_shoot relay cr;
  exec ol (db_ChangeMaster ol (fst os)) ;;
  whenM (snd os) (StartSlave ol ;; mret tt) ;;
  (if Conf_ReadOnly conf then SetReadOnly ol ;; mret tt
   else whenM (Conf_MultiMaster conf && Conf_MultiMasterConcurrentWrite conf) (SetReadWrite ol ;; mret tt)) ;;
  whenM (Conf_SwitchDecreaseMaxConn conf)
    (o ← load ol; exec ol (db_SetMaxConnections ol (srv_maxConn o)) ;; mret tt) ;;
  srv_SetState ol stateSlave ;;
  whenM (negb (Conf_MultiMaster conf))
    (mod_cluster (append_slave ol)).

(** ** The whole *)

Definition count_failover : M unit :=
  mod_cluster (fun c => set_cl_FailoverCtr (cl_FailoverCtr c + 1) c) ;;
  now ← call time_Now;
  mod_cluster (set_cl_FailoverTs now).

(** The part that cannot be cancelled any more, up to the new master open. *)
Definition failover_promote (fail : bool) (key : Z) : M (loc * option loc * Crash) :=
  promote key ;;
  failoverPreScript fail ;;
  c ← get_cluster;
  ml ← deref (cl_master c);
  whenM (negb fail) (ol ← deref (cl_oldMaster c); freeze ol ;; mret tt) ;;
  ReadAllRelayLogs ml ;;
  cr ← save_crash fail;
  rc ← catch_relay cr;
  stop_new_master ml ;;
  record_crash (snd rc) ;;
  crash_files (snd rc) ;;
  call save_cluster ;;
  reset_new_master ml ;;
  open_traffic fail ml ;;
  mret (ml, fst rc, snd rc).

Definition failover_finish (fail : bool) (ml : loc) (relay : option loc) (cr : Crash) : M unit :=
  c ← get_cluster;
  whenM (negb fail) (ol ← deref (cl_oldMaster c); demote_old_master ol ml relay cr) ;;
  FailoverExtraMultiSource (cl_oldMaster c) (cl_master c) fail ;;
  SwitchSlavesToMaster fail ;;
  backendStateChangeProxies ;;
  mod_server ml (set_srv_FailCount 0) ;;
  whenM fail count_failover.

Definition failover_body (fail : bool) : M bool :=
  start ← failover_start fail;
  match start with
  | Some b => mret b
  | None =>
      key ← failover_elect fail;
      match key with
      | None => mret false
      | Some k =>
          p ← failover_promote fail k;
          let '(ml, relay, cr) := p in
          failover_finish fail ml relay cr ;;
          mret true
      end
  end.

(** ** Virtual masters: ring, Galera, group replication *)

Definition CloseRing (oldMaster : option loc) : M unit :=
  c ← get_cluster;
  h ← get_heap;
  deref (cl_oldMaster c) ;;
  match GetRingChildServer c h (cl_oldMaster c), GetRingParentServer c h oldMaster with
  | Some child, Some parent =>
      StopSlave child ;;
      my ← deref (HasMySQLGTID (cl_Conf c) (h parent));
      let opt mode := set_cm_Mode mode (set_cm_Channel (Conf_MasterConn (cl_Conf c))
                        (set_cm_PostgressDB (srv_PostgressDB (h parent)) (master_opt (cl_Conf c) (h parent)))) in
      exec child (db_ChangeMaster child
        (if IsMySQLOrPerconaGreater57 (srv_DBVersion (h parent)) && my then opt "" else opt "SLAVE_POS")) ;;
      StartSlave child ;; mret tt
  | _, _ => mret tt
  end.

Definition vfailover_start (fail : bool) : M bool :=
  mod_cluster (fun c => set_cl_oldMaster (cl_vmaster c) c) ;;
  c ← get_cluster;
  if negb fail
  then
    ok ← switchover_prepare (cl_vmaster c) false;
    if (ok : bool) then mod_cluster (fun c => set_cl_master (cl_vmaster c) c) ;; mret true else mret false
  else mod_cluster (fun c => set_cl_oldMaster (cl_master c) c) ;; mret true.

Definition vfailover_elect : M Z :=
  refresh_slaves ;;
  c ← get_cluster;
  if negb (topology_is c TopoMultiMasterWsrep) && negb (topology_is c TopoMultiMasterGrouprep)
  then electVirtualCandidate (cl_oldMaster c)
  else if Conf_MultiMasterGrouprep (cl_Conf c) then electSwitchoverGroupReplicationCandidate (cl_slaves c)
  else electFailoverCandidate (cl_slaves c).

(** The elected index is used in [cluster.slaves], also when it is one of
    [cluster.Servers]. *)
Definition vpromote (key : Z) : M loc :=
  c ← get_cluster;
  h ← get_heap;
  x ← index (cl_slaves c) key;
  ml ← index (cl_servers c) (server_key c h x);
  mod_cluster (fun c => set_cl_master (Some ml) (set_cl_vmaster (Some ml) c)) ;;
  mret ml.

(** Freeze, group primary and, on a ring, relay logs and crash report. *)
Definition vprepare (fail : bool) (key : Z) (ml : loc) : M unit :=
  c ← get_cluster;
  whenM (negb fail && negb (topology_is c TopoMultiMasterWsrep))
    (ol ← deref (cl_oldMaster c); freeze ol ;; mret tt) ;;
  whenM (negb fail && Conf_MultiMasterGrouprep (cl_Conf c))
    (x ← index (cl_slaves c) key; SetGroupReplicationPrimary x ;; mret tt) ;;
  whenM (negb (topology_is c TopoMultiMasterWsrep) && negb (topology_is c TopoMultiMasterGrouprep))
    (ReadAllRelayLogs ml ;;
     now ← call time_Now;
     cr ← crash_report fail false now;
     record_crash cr ;;
     call save_cluster ;;
     crash_files cr).

Definition vopen (fail : bool) (ml : loc) : M unit :=
  SetReadWrite ml ;;
  failoverProxies ;;
  failoverProxiesWaitMonitor ;;
  failoverEnableEventScheduler ;;
  failoverPostScript fail ;;
  conf ← get_conf;
  whenM (Conf_FailEventStatus conf) (enable_events ml ml).

Definition vdemote (ol : loc) : M unit :=
  Refresh ol ;;
  exec ol (db_UnlockTables ol) ;;
  c ← get_cluster;
  let conf := cl_Conf c in
  (if Conf_ReadOnly conf then SetReadOnly ol ;; mret tt else SetReadWrite ol ;; mret tt) ;;
  whenM (Conf_SwitchDecreaseMaxConn conf && negb (topology_is c TopoMultiMasterWsrep))
    (o ← load ol; exec ol (db_SetMaxConnections ol (srv_maxConn o)) ;; mret tt) ;;
  whenM (Conf_MultiMasterGrouprep conf)
    (srv_SetState ol stateSlave ;;
     mod_cluster (append_slave ol)).

Definition vfinish (fail : bool) (ml : loc) : M unit :=
  c ← get_cluster;
  whenM (negb fail) (ol ← deref (cl_oldMaster c); vdemote ol) ;;
  whenM (topology_is c TopoMultiMasterRing) (CloseRing (cl_oldMaster c)) ;;
  whenM (topology_is c TopoMultiMasterWsrep) (SwitchSlavesToMaster fail) ;;
  mod_server ml (set_srv_FailCount 0) ;;
  whenM fail count_failover ;;
  mod_cluster (set_cl_master None).

Definition vfailover_body (fail : bool) : M bool :=
  go ← vfailover_start fail;
  if negb go then mret false
  else
    key ← vfailover_elect;
    if key =? -1 then mret false
    else
      ml ← vpromote key;
      failoverPreScript fail ;;
      vprepare fail key ml ;;
      vopen fail ml ;;
      vfinish fail ml ;;
      mret true.

(** The critical section: one failover at a time, left on every exit. *)
Definition critical (body : M bool) : M bool :=
  c ← get_cluster;
  if cl_IsInFailover c then mret false
  else
    mod_sm SetFailoverState ;;
    defer body (mod_sm RemoveFailoverState).

Definition VMasterFailover (fail : bool) : M bool := critical (vfailover_body fail).

Definition MasterFailover (fail : bool) : M bool :=
  c ← get_cluster;
  if topology_is c TopoMultiMasterRing || topology_is c TopoMultiMasterWsrep ||
     topology_is c TopoMultiMasterGrouprep
  then VMasterFailover fail
  else critical (failover_body fail).
End Ops.

Example demo_failover_runs :
  fst (MasterFailover true demo_world) = Ret true.
Proof. vm_compute. reflexivity. Qed.
