(* ===== verification/Rejoin.v ===== *)
(** * Rejoin of servers that come back (cluster/srv_rejoin.go)

    A server that was down and comes back is attached again: an old master
    without replication status by [RejoinMaster], a slave by [rejoinSlave]. The
    crash report of the failover says where the elected master was; an old
    master that has written more is flashed back or rebuilt before it may
    follow. The jobs that restore backups are calls; everything else is here, in
    the order of the source. *)

From Stdlib Require Import ZArith Lia Bool Ascii String.
From stdpp Require Import base list gmap strings functions.
From S2P Require Import Prelude GoLib Gtid Version StateMachine Crash DelayStat Config Server Cluster Demo ServerOps Refresh Election Failover.

Local Open Scope string_scope.
Local Open Scope list_scope.
Local Open Scope Z_scope.

(** ** Strings and lists of the programs that are run (utils/misc/misc.go) *)

Definition Unbracket (s : string) : string := strings_Remove "]" (strings_Remove "[" s).
Definition RemoveEmptyString (l : list string) : list string :=
  List.filter (fun s => negb (s =? "")%string) l.

(** [strings.TrimLeft], [strings.TrimRight] and [strings.Trim] of line ends. *)
Definition line_end (c : ascii) : bool := Ascii.eqb c "010" || Ascii.eqb c "013".
Fixpoint trim_left (s : string) : string :=
  match s with
  | EmptyString => EmptyString
  | String c r => if line_end c then trim_left r else s
  end.
Fixpoint trim_right (s : string) : string :=
  match s with
  | EmptyString => EmptyString
  | String c r =>
      match trim_right r with
      | EmptyString => if line_end c then EmptyString else String c EmptyString
      | r' => String c r'
      end
  end.
Definition trim (s : string) : string := trim_right (trim_left s).

(** ** Reading (srv_get.go) *)

Definition GetSSLClientParam (c : Cluster) (s : ServerMonitor) (tool : string) : option string :=
  no_ssl ← (if negb (cl_HaveDBTLSCert c) && negb (HasSSL s) && srv_IsMariaDB s
            then
              v ← srv_DBVersion s;
              low ← Lower v "11.3";
              if (low : bool)
              then
                ver ← cl_VersionsMap c !! tool;
                if IsMariaDB ver then d ← DistVersion ver; GreaterEqual d "11.3" else Some false
              else Some false
            else Some false);
  Some (if (no_ssl : bool)
        then if (tool =? "client")%string then "--disable-ssl"
             else if (tool =? "client-dump")%string || (tool =? "client-binlog")%string then "--ssl=FALSE"
             else ""
        else "").

Definition GetUniversalGtidServerID (s : ServerMonitor) : Z :=
  if srv_IsMariaDB s then u64 (srv_ServerID s)
  else if IsMySQLOrPerconaGreater57 (srv_DBVersion s)
  then crc64_Checksum (strings_ToUpper (Get (srv_Variables s) "SERVER_UUID")) CrcTable
  else 0.

Definition GetSibling (c : Cluster) (h : loc -> ServerMonitor) (s : ServerMonitor) : option loc :=
  match own_channel s with
  | None => None
  | Some ss =>
      first_server h (fun x =>
        match own_channel x with
        | None => false
        | Some sib => (ss_MasterServerID sib =? ss_MasterServerID ss) && negb (srv_ServerID x =? srv_ServerID s)
        end) (cl_servers c)
  end.

(** The GTID of the election was recorded. *)
Definition UsedGtidAtElection (crash : Crash) : bool :=
  match crash_FailoverIOGtid crash with
  | None => false
  | Some g => (0 <? Z.of_nat (length (GetSeqNos g)))
  end.

(** The server a rejoining one is attached to. *)
Definition real_master (c : Cluster) (h : loc -> ServerMonitor) : option loc :=
  if Conf_MxsBinlogOn (cl_Conf c) || Conf_MultiTierSlave (cl_Conf c) then GetRelayServer c h
  else cl_master c.

(** The copy of the binary log of a server in the working directory. *)
Definition binlog_prefix (c : Cluster) (s : ServerMonitor) : string :=
  cl_Name c +:+ "-server" +:+ format_uint (srv_ServerID s) +:+ "-".

Section Ops.
Context `{Env} `{GoSort} `{GoRange}.

(** ** Programs of the host (cluster_get.go) *)

Definition tool_path (configured first second : string) (clean : string -> string) (embedded : string)
  : M string :=
  conf ← get_conf;
  if negb (configured =? "")%string then mret configured
  else
    p ← call (which first);
    match p with
    | Some out => mret (trim out)
    | None =>
        q ← call (which second);
        mret (match q with
              | Some out => clean out
              | None => Conf_ShareDir conf +:+ "/" +:+ Conf_GoArch conf +:+ "/" +:+ Conf_GoOS conf +:+ "/" +:+ embedded
              end)
    end.

Definition GetMysqlDumpPath : M string :=
  conf ← get_conf; tool_path (Conf_BackupMysqldumpPath conf) "mariadb-dump" "mysqldump" trim_right "mysqldump".
Definition GetMysqlBinlogPath : M string :=
  conf ← get_conf; tool_path (Conf_BackupMysqlbinlogPath conf) "mariadb-binlog" "mysqlbinlog" trim "mysqlbinlog".
Definition GetMysqlclientPath : M string :=
  conf ← get_conf; tool_path (Conf_BackupMysqlclientPath conf) "mariadb" "mysql" trim "mysql".

(** ** Pointing the server to a master (srv_set.go) *)

Definition SetReplicationGTIDSlavePosFromServer (l : loc) (master : option loc) : M Err :=
  StopSlave l ;;
  conf ← get_conf;
  s ← load l;
  ml ← deref master;
  m ← load ml;
  exec l (db_ChangeMaster l
    (set_cm_Mode (if srv_IsMariaDB s then "SLAVE_POS" else "MASTER_AUTO_POSITION")
    (set_cm_PostgressDB (srv_PostgressDB s) (slave_opt conf m s "")))).

Definition SetReplicationGTIDCurrentPosFromServer (l : loc) (master : option loc) : M Err :=
  c ← get_cluster;
  s ← load l;
  let mysql := IsMySQLOrPerconaGreater57 (srv_DBVersion s) in
  ml ← deref (if mysql then cl_master c else master);
  m ← load ml;
  exec l (db_ChangeMaster l
    (set_cm_Mode (if mysql then "MASTER_AUTO_POSITION" else "CURRENT_POS")
    (set_cm_PostgressDB (srv_PostgressDB s) (slave_opt (cl_Conf c) m s "")))).

Definition SetReplicationFromMaxsaleServer (l : loc) (master : option loc) : M Err :=
  conf ← get_conf;
  ml ← deref master;
  m ← load ml;
  exec l (db_ChangeMaster l
    (set_cm_Mode "MXS" (set_cm_Logfile (srv_FailoverMasterLogFile m) (set_cm_Logpos (srv_FailoverMasterLogPos m)
    (set_cm_SSL false (master_opt conf m)))))).

Definition StartGroupReplication (l : loc) : M Err := exec l (db_StartGroupReplication l).
Definition SetInReseedBackup (l : loc) (value : string) : M unit := mod_server l (set_srv_IsReseeding value).
Definition DelWaitBackupCookie (l : loc) : M unit :=
  s ← load l; call (remove_file (srv_Datadir s +:+ "/@cookie_waitbackup")).

(** ** Ring *)

Definition RejoinLoop (l : loc) : M Err :=
  c ← get_cluster;
  h ← get_heap;
  match GetSibling c h (h l) with
  | None => mret (Some "Could not found sibling slave")
  | Some child =>
      StopSlave child ;;
      SetReplicationGTIDSlavePosFromServer child (Some l) ;;
      StartSlave child ;;
      mret None
  end.

Definition SwitchMaintenance (l : loc) : M unit :=
  c ← get_cluster;
  s ← load l;
  whenM ((topology_is c TopoMultiMasterWsrep || topology_is c TopoMultiMasterRing) &&
         (srv_IsVirtualMaster s && negb (srv_IsMaintenance s)))
    (call (channel_send "switchoverChan")) ;;
  whenM (topology_is c TopoMultiMasterRing)
    (if srv_IsMaintenance s then CloseRing (Some l) else RejoinLoop l ;; mret tt) ;;
  mod_server l (fun s => set_srv_IsMaintenance (negb (srv_IsMaintenance s)) s) ;;
  failoverProxies.

(** ** Rebuilding a server from a backup *)

(** The change of master before the dump: its error is assigned to a variable
    of the inner scope and not seen by the test that follows. *)
Definition direct_dump_point (l : loc) (rl : loc) : M unit :=
  conf ← get_conf;
  s ← load l;
  (if srv_MxsHaveGtid s || negb (srv_IsMaxscale s)
   then SetReplicationGTIDSlavePosFromServer l (Some rl)
   else
     m ← load rl;
     exec l (db_ChangeMaster l
       (set_cm_Mode "MXS" (set_cm_Logfile (srv_FailoverMasterLogFile m)
       (set_cm_Logpos (srv_FailoverMasterLogPos m) (set_cm_Channel (Conf_MasterConn conf) (master_opt conf m))))))) ;;
  mret tt.

(** Leaving with an error releases the reseeding mark this call has set. *)
Definition direct_dump_fail (l : loc) (e : Err) : M Err :=
  s ← load l;
  whenM (HasReseedingState s "direct") (SetInReseedBackup l "") ;;
  mret e.

Definition RejoinDirectDump (l : loc) : M Err :=
  s ← load l;
  if HasAnyReseedingState s
  then mret (Some ("Server is in reseeding state by " +:+ srv_IsReseeding s))
  else
    SetInReseedBackup l "direct" ;;
    dump ← GetMysqlDumpPath;
    e ← call (stat_missing dump);
    if is_err e then direct_dump_fail l e
    else
      client ← GetMysqlclientPath;
      e ← call (stat_missing client);
      if is_err e then direct_dump_fail l e
      else
        c ← get_cluster;
        h ← get_heap;
        match real_master c h with
        | None => direct_dump_fail l (Some "No master defined exiting rejoin direct dump ")
        | Some rl =>
            direct_dump_point l rl ;;
            c ← get_cluster;
            h ← get_heap;
            call (start_job "JobRejoinMysqldumpFromSource"
              (match GetBackupServer c h with None => cl_master c | Some b => Some b end) l) ;;
            mret None
        end.

Definition RejoinPreviousSnapshot (l : loc) : M Err := call (run_job "JobZFSSnapBack" l).

Definition RejoinMasterSST (l : loc) : M Err :=
  c ← get_cluster;
  let conf := cl_Conf c in
  if Conf_AutorejoinMysqldump conf
  then e ← RejoinDirectDump l; mret (if is_err e then Some "Dump from master failed" else None)
  else if Conf_AutorejoinLogicalBackup conf
  then e ← call (run_job "JobFlashbackLogicalBackup" l);
       mret (if is_err e then Some "Restore from logical backup failed" else None)
  else if Conf_AutorejoinPhysicalBackup conf
  then e ← call (run_job "JobFlashbackPhysicalBackup" l);
       mret (if is_err e then Some "Restore from physical backup failed" else None)
  else if Conf_AutorejoinZFSFlashback conf
  then RejoinPreviousSnapshot l ;; mret None
  else if negb (Conf_BackupLoadScript conf =? "")%string
  then
    s ← load l;
    ml ← deref (cl_master c);
    gl ← deref (GetMaster c);
    m ← load ml;
    g ← load gl;
    call (run_script (Conf_BackupLoadScript conf)
            [Unbracket (srv_Host s); Unbracket (srv_Host m); srv_Port s; srv_Port g]) ;;
    mret None
  else mret (Some "No SST rejoin flashback method found").

Definition ReseedMasterSST (l : loc) : M Err :=
  DelWaitBackupCookie l ;;
  conf ← get_conf;
  if Conf_AutorejoinMysqldump conf
  then e ← RejoinDirectDump l; mret (if is_err e then Some "Dump from master failed" else None)
  else if negb (Conf_BackupLoadScript conf =? "")%string
  then call (run_job "JobReseedBackupScript" l) ;; mret None
  else if Conf_AutorejoinLogicalBackup conf
  then call (run_job "JobReseedLogicalBackup" l) ;; mret None
  else if Conf_AutorejoinPhysicalBackup conf
  then call (run_job "JobReseedPhysicalBackup" l) ;; mret None
  else mret (Some "No SST reseed method found").

Definition RejoinScript (l : loc) : M unit :=
  c ← get_cluster;
  whenM (negb (Conf_RejoinScript (cl_Conf c) =? "")%string)
    (s ← load l;
     gl ← deref (GetMaster c);
     g ← load gl;
     call (run_script (Conf_RejoinScript (cl_Conf c)) [srv_Host s; srv_Host g; srv_Port s; srv_Port g])).

(** ** The binary logs of the old master *)

(** The files of an earlier backup of the same server are removed. *)
Definition deletefiles (l : loc) (f : string * string) : M unit :=
  c ← get_cluster;
  s ← load l;
  whenM (strings_HasPrefix (snd f) (binlog_prefix c s)) (call (remove_file (fst f))).

Definition saveBinlog (l : loc) (crash : Crash) : M unit :=
  c ← get_cluster;
  s ← load l;
  now ← call time_Now;
  t ← call (time_Stamp now);
  let dir := Conf_WorkingDir (cl_Conf c) +:+ "/" +:+ cl_Name c +:+ "/crash-bin-" +:+ t in
  let file := binlog_prefix c s +:+ crash_FailoverMasterLogFile crash in
  call (make_dir dir) ;;
  call (rename_file (Conf_WorkingDir (cl_Conf c) +:+ "/" +:+ file) (dir +:+ "/" +:+ file)).

Definition backupBinlog (l : loc) (crash : Crash) : M Err :=
  path ← GetMysqlBinlogPath;
  e ← call (stat_missing path);
  if is_err e then mret e
  else
    c ← get_cluster;
    let conf := cl_Conf c in
    e ← call (stat_missing (Conf_WorkingDir conf));
    if is_err e then mret e
    else
      files ← call (walk_dir (Conf_WorkingDir conf +:+ "/"));
      forM files (deletefiles l) ;;
      s ← load l;
      ssl ← deref (GetSSLClientParam c s "client-binlog");
      path ← GetMysqlBinlogPath;
      r ← call (run_command path (RemoveEmptyString
            ["--read-from-remote-server"; "--raw"; "--stop-never-slave-server-id=10000";
             "--user=" +:+ GetRplUser conf; "--password=" +:+ GetRplPass conf;
             "--host=" +:+ Unbracket (srv_Host s); "--port=" +:+ srv_Port s;
             "--result-file=" +:+ Conf_WorkingDir conf +:+ "/" +:+ binlog_prefix c s;
             "--start-position=" +:+ crash_FailoverMasterLogPos crash; ssl;
             crash_FailoverMasterLogFile crash]));
      match r with
      | Completed => mret None
      | NotStarted e => mret (Some e)
      | Exited e => mod_cluster (set_cl_canFlashBack false) ;; mret (Some e)
      end.

(** ** An old master *)

Definition isReplicationAheadOfMasterElection (l : loc) (crash : Crash) : M bool :=
  s ← load l;
  if UsedGtidAtElection crash
  then
    g ← deref (crash_FailoverIOGtid crash);
    let elected := GetSeqServerIdNos (GetUniversalGtidServerID s) g in
    if elected =? 0 then mret true
    else
      cur ← deref (srv_CurrentGtid s);
      mret (elected <? GetSeqServerIdNos (GetUniversalGtidServerID s) cur)
  else
    r ← exec l (db_HaveExtraEvents l (crash_FailoverMasterLogFile crash) (crash_FailoverMasterLogPos crash));
    mret (if is_err (snd r) then false else fst r).

(** The old master is not ahead: it follows from where it is. The log lines
    print both GTIDs. *)
Definition rejoinMasterSync (l : loc) (crash : Crash) : M Err :=
  c ← get_cluster;
  h ← get_heap;
  s ← load l;
  let conf := cl_Conf c in
  gtid ← deref (HasGTIDReplication conf s);
  whenM gtid (deref (srv_CurrentGtid s) ;; deref (crash_FailoverIOGtid crash) ;; mret tt) ;;
  let rm := real_master c h in
  by_gtid ← (if (gtid : bool) then mret true
             else rl ← deref rm; mret (srv_MxsHaveGtid (h rl) && srv_IsMaxscale (h rl)));
  e ← (if (by_gtid : bool) then SetReplicationGTIDCurrentPosFromServer l rm
       else
         rl ← deref rm;
         m ← load rl;
         exec l (db_ChangeMaster l
           (if Conf_MxsBinlogOn conf
            then set_cm_Mode "MXS" (set_cm_Logfile (crash_FailoverMasterLogFile crash)
                   (set_cm_Logpos (crash_FailoverMasterLogPos crash) (master_opt conf m)))
            else set_cm_Logfile (crash_NewMasterLogFile crash) (set_cm_Logpos (crash_NewMasterLogPos crash)
                   (set_cm_PostgressDB (srv_PostgressDB s) (slave_opt conf m s "POSITIONAL"))))));
  if is_err e then mret e else StartSlave l ;; mret None.

(** The events the old master has in excess are undone by [mysqlbinlog --flashback]. *)
Definition run_flashback (l : loc) (crash : Crash) : M Err :=
  c ← get_cluster;
  s ← load l;
  let conf := cl_Conf c in
  binlog ← GetMysqlBinlogPath;
  ssl ← deref (GetSSLClientParam c s "client");
  client ← GetMysqlclientPath;
  call (run_pipe binlog (RemoveEmptyString
          ["--flashback"; "--to-last-log";
           Conf_WorkingDir conf +:+ "/" +:+ binlog_prefix c s +:+ crash_FailoverMasterLogFile crash])
        client (RemoveEmptyString
          ["--host=" +:+ Unbracket (srv_Host s); "--port=" +:+ srv_Port s;
           "--user=" +:+ GetDbUser conf; "--password=" +:+ GetDbPass conf; ssl])).

Definition rejoinMasterFlashBack (l : loc) (crash : Crash) : M Err :=
  c ← get_cluster;
  h ← get_heap;
  let rm := real_master c h in
  path ← GetMysqlBinlogPath;
  e ← call (stat_missing path);
  if is_err e then mret e
  else
    path ← GetMysqlclientPath;
    e ← call (stat_missing path);
    if is_err e then mret e
    else
      e ← run_flashback l crash;
      if is_err e then mret e
      else
        g ← deref (crash_FailoverIOGtid crash);
        e ← exec l (db_SetGTIDSlavePos l (Sprint g));
        if is_err e then mret e
        else
          s ← load l;
          e ← (if srv_MxsHaveGtid s || negb (srv_IsMaxscale s)
               then SetReplicationGTIDSlavePosFromServer l rm
               else SetReplicationFromMaxsaleServer l rm);
          if is_err e then mret e else StartSlave l ;; mret None.

(** The state of the rejoining server is read and it is closed to writes. *)
Definition rejoin_prepare (l : loc) : M unit :=
  Refresh l ;;
  conf ← get_conf;
  s ← load l;
  whenM (Conf_ReadOnly conf && negb (IsIgnoredReadonly s)) (SetReadOnly l ;; mret tt).

(** A server that is ahead: flashback where it is possible and allowed. *)
Definition rejoin_ahead (l : loc) (crash : Crash) : M Err :=
  c ← get_cluster;
  s ← load l;
  gtid ← deref (HasGTIDReplication (cl_Conf c) s);
  if negb gtid then mret (Some "Incremental canceled caused by old style replication")
  else
    match crash_FailoverIOGtid crash with
    | Some g => if GetSeqServerIdNos (u64 (srv_ServerID s)) g =? 0
                then mod_cluster (set_cl_canFlashBack false)
                else deref (cl_master c) ;; mret tt
    | None => mret tt
    end ;;
    c ← get_cluster;
    let conf := cl_Conf c in
    if match crash_FailoverIOGtid crash with Some _ => true | None => false end && cl_canFlashBack c &&
       Conf_AutorejoinFlashback conf && Conf_AutorejoinBackupBinlog conf
    then
      e ← rejoinMasterFlashBack l crash;
      mret (if is_err e then Some "Flashback failed" else None)
    else mret (Some "Flashback disabled").

(** The result of [rejoinMasterSync] is not used. *)
Definition rejoinMasterIncremental (l : loc) (crash : Crash) : M Err :=
  conf ← get_conf;
  if Conf_AutorejoinForceRestore conf
  then mret (Some "autorejoin-force-restore is on can't just rejoin from current pos")
  else
    rejoin_prepare l ;;
    s ← load l;
    whenM (match crash_FailoverIOGtid crash with Some _ => true | None => false end)
      (deref (srv_CurrentGtid s) ;; mret tt) ;;
    ahead ← isReplicationAheadOfMasterElection l crash;
    conf ← get_conf;
    if negb ahead || Conf_MxsBinlogOn conf
    then rejoinMasterSync l crash ;; mret None
    else rejoin_ahead l crash.

Definition rejoinMasterAsSlave (l : loc) : M Err :=
  c ← get_cluster;
  deref (cl_lastmaster c) ;;
  e ← SetReadOnly l;
  if is_err e then mret e
  else
    e ← SetReplicationGTIDCurrentPosFromServer l (cl_lastmaster c);
    if is_err e then mret e else StartSlave l ;; mret None.

(** With the crash report of the failover: incremental, else a state transfer. *)
Definition rejoin_with_crash (l : loc) (crash : Crash) : M unit :=
  conf ← get_conf;
  whenM (Conf_AutorejoinBackupBinlog conf) (backupBinlog l crash ;; mret tt) ;;
  e ← rejoinMasterIncremental l crash;
  whenM (is_err e) (RejoinMasterSST l ;; mret tt) ;;
  conf ← get_conf;
  whenM (Conf_AutorejoinBackupBinlog conf) (saveBinlog l crash).

(** Without one: a full state transfer for the old master, a reseed for
    another server when it is configured. *)
Definition rejoin_without_crash (l ml : loc) : M Err :=
  c ← get_cluster;
  h ← get_heap;
  SetState "ERR00066" (state_of "ERR00066" "ERROR" "REJOIN" "" [fs (srv_URL (h l)); fs (srv_URL (h ml))]) ;;
  if match cl_oldMaster c with Some o => (srv_URL (h o) =? srv_URL (h l))%string | None => false end
  then RejoinMasterSST l ;; mret None
  else if Conf_Autoseed (cl_Conf c) then ReseedMasterSST l ;; mret None
  else mret (Some "No Autoseed").

(** [ml] is the current master. *)
Definition rejoin_to_master (l ml : loc) : M Err :=
  h ← get_heap;
  if (srv_URL (h l) =? srv_URL (h ml))%string then mret None
  else
    SetState "WARN0022" (state_of "WARN0022" "WARNING" "REJOIN" "" [fs (srv_URL (h l)); fs (srv_URL (h ml))]) ;;
    RejoinScript l ;;
    c ← get_cluster;
    if Conf_MultiMasterGrouprep (cl_Conf c)
    then StartGroupReplication l ;; backendStateChangeProxies ;; mret None
    else
      whenM (Conf_FailoverSemiSyncState (cl_Conf c)) (SetSemiSyncReplica l ;; mret tt) ;;
      c ← get_cluster;
      s ← load l;
      match getCrashFromJoiner (srv_URL s) (cl_Crashes c) with
      | None => rejoin_without_crash l ml
      | Some crash => rejoin_with_crash l crash ;; backendStateChangeProxies ;; mret None
      end.

(** No master is known: the last one seen decides. *)
Definition rejoin_last_seen (l : loc) : M unit :=
  c ← get_cluster;
  h ← get_heap;
  match cl_lastmaster c with
  | None => mret tt
  | Some lm =>
      if srv_ServerID (h lm) =? srv_ServerID (h l)
      then
        mod_cluster (set_cl_master (Some l)) ;;
        SetMaster l ;;
        SetReadWrite l ;;
        mod_cluster (set_cl_lastmaster None)
      else if negb (Conf_FailRestartUnsafe (cl_Conf c))
      then rejoinMasterAsSlave l ;; backendStateChangeProxies
      else mod_cluster (set_cl_master (Some l))
  end.

Definition rejoin_body (l : loc) : M Err :=
  c ← get_cluster;
  if topology_is c TopoMultiMasterWsrep then mret None
  else if cl_IsInFailover c then mret None
  else
    mod_cluster (set_cl_canFlashBack true) ;;
    match cl_master c with
    | Some ml => rejoin_to_master l ml
    | None => rejoin_last_seen l ;; mret None
    end.

Definition RejoinMaster (l : loc) : M Err :=
  defer (rejoin_body l) (call (channel_send "rejoinCond")).

(** ** A slave *)

Definition rejoin_slave_gtid (l ml : loc) : M Err :=
  c ← get_cluster;
  h ← get_heap;
  match getCrashFromMaster (srv_URL (h ml)) (cl_Crashes c) with
  | None =>
      SetState "ERR00065" (state_of "ERR00065" "ERROR" "REJOIN" "" [fs (srv_URL (h l)); fs (srv_URL (h ml))]) ;;
      mret (Some "No Crash info on current master")
  | Some _ =>
      e ← StopSlave l;
      whenM (negb (is_err e))
        (e ← SetReplicationGTIDSlavePosFromServer l (Some ml);
         whenM (negb (is_err e)) (StartSlave l ;; mret tt)) ;;
      mret None
  end.

(** Behind a relay that does not use GTID: the relay is stopped, the slave
    catches up and is moved to the master. No mode is given, so the statement
    carries no position. *)
Definition rejoin_slave_relay (l cur ml : loc) : M unit :=
  conf ← get_conf;
  h ← get_heap;
  e ← StopSlave cur;
  whenM (negb (is_err e))
    (e2 ← exec l (db_MasterPosWait l (srv_BinaryLogFile (h cur)) (srv_BinaryLogPos (h cur)) 3600
                    (Conf_MasterConn conf));
     whenM (negb (is_err e2))
       (StopSlave l ;;
        ps ← deref (own_channel (h cur));
        exec l (db_ChangeMaster l
          (set_cm_Logfile (ns_String (ss_MasterLogFile ps)) (set_cm_Logpos (ns_String (ss_ReadMasterLogPos ps))
          (set_cm_PostgressDB (srv_PostgressDB (h l)) (slave_opt conf (h ml) (h l) ""))))) ;; mret tt) ;;
     StartSlave l ;; mret tt) ;;
  StartSlave cur ;;
  s ← load l;
  whenM (srv_IsMaintenance s) (SwitchMaintenance l) ;;
  backendStateChangeProxies.

(** [inl e]: the rejoin ends with [e]. *)
Definition rejoin_slave_master (l cur : loc) (ss : SlaveStatus) : M (Err + unit) :=
  c ← get_cluster;
  h ← get_heap;
  match cl_master c with
  | None => mret (inr tt)
  | Some ml =>
      if (srv_Id (h ml) =? srv_Id (h l))%string then mret (inr tt)
      else if (srv_URL (h ml) =? srv_URL (h cur))%string
      then mret (inl (Some "Same master found from replication"))
      else
        SetState "ERR00067" (state_of "ERR00067" "ERROR" "REJOIN" ""
          [fs (srv_URL (h l)); fs (srv_PrevState (h l)); fs (ns_String (ss_SlaveIORunning ss)); fs (srv_URL (h ml))]) ;;
        whenM (IsDown (h ml) && negb (Conf_FailRestartUnsafe (cl_Conf c)))
          (mod_server l (set_srv_HaveNoMasterOnStart true)) ;;
        if negb (srv_IsMaxscale (h cur)) && negb (Conf_MultiTierSlave (cl_Conf c)) &&
           Conf_ReplicationNoRelay (cl_Conf c)
        then
          gtid ← deref (HasGTIDReplication (cl_Conf c) (h l));
          if (gtid : bool)
          then e ← rejoin_slave_gtid l ml; mret (if is_err e then inl e else inr tt)
          else if negb (state_is (h cur) stateFailed) && srv_IsRelay (h cur)
          then rejoin_slave_relay l cur ml ;; mret (inr tt)
          else SetState "ERR00049" (state_of "ERR00049" "ERRRO" "TOPO" "" []) ;; mret (inr tt)
        else mret (inr tt)
  end.

(** A server that changed state goes back to the slaves. *)
Definition reintroduce_slave (l : loc) : M Err :=
  conf ← get_conf;
  s ← load l;
  let was st := (srv_PrevState s =? st)%string in
  if was stateFailed || was stateUnconn || was stateSuspect
  then
    srv_SetState l stateSlave ;;
    mod_server l (set_srv_FailCount 0) ;;
    whenM (negb (was stateSuspect)) (mod_cluster (append_slave l)) ;;
    if Conf_ReadOnly conf then exec l (db_SetReadOnly l true) else mret None
  else mret None.

Definition rejoin_slave_body (l : loc) (ss : SlaveStatus) : M Err :=
  c ← get_cluster;
  h ← get_heap;
  if topology_is c TopoMultiMasterRing then RejoinLoop l ;; mret None
  else if topology_is c TopoMultiMasterWsrep then mret None
  else
    match GetMasterFromReplication c h (h l) with
    | None => mret (Some "No master found from replication")
    | Some cur =>
        r ← rejoin_slave_master l cur ss;
        match r with inl e => mret e | inr _ => reintroduce_slave l end
    end.

Definition rejoinSlave (l : loc) (ss : SlaveStatus) : M Err :=
  defer (rejoin_slave_body l ss) (call (channel_send "rejoinCond")).

Definition RejoinFixRelay (l : loc) : M Err :=
  c ← get_cluster;
  if topology_is c TopoMultiMasterRing || topology_is c TopoMultiMasterWsrep then mret None
  else
    SetState "ERR00045" (state_of "ERR00045" "WARNING" "TOPO" "" []) ;;
    s ← load l;
    if Conf_FailMaxDelay (cl_Conf c) <? GetReplicationDelay s
    then SetState "ERR00046" (state_of "ERR00046" "WARNING" "TOPO" "" []) ;; mret None
    else match own_channel s with
         | None => mret None
         | Some ss => rejoinSlave l ss ;; mret None
         end.
End Ops.
