(* ===== verification/Jobs.v ===== *)
(** * The table of the jobs (cluster/srv_job.go, srv_conn.go, config/config.go)

    Jobs are rows of [replication_manager_schema.jobs] in the database of the server
    they are for, a script on the host takes them from there, and the manager keeps a
    copy of the rows. Every statement may fail, and may fail after it was carried out. *)

From Stdlib Require Import ZArith Lia Bool Ascii String.
From stdpp Require Import base list gmap strings functions sorting.
From S2P Require Import Prelude GoLib Version StateMachine Config Server Cluster ServerOps.

Local Open Scope string_scope.
Local Open Scope list_scope.
Local Open Scope Z_scope.

Definition JobStateAvailable : Z := 0.
Definition JobStateRunning : Z := 1.
Definition JobStateHalted : Z := 2.
Definition JobStateFinished : Z := 3.
Definition JobStateSuccess : Z := 4.
Definition JobStateErrorExec : Z := 5.
Definition JobStateErrorAfter : Z := 6.

(** ** Rows and tasks *)

(** A row; [result] and [end] may be null. Rows without a task, a port or a start are
    not written by the program. *)
Record JobRow := mkRow {
  r_id : Z; r_task : string; r_port : Z; r_server : string; r_done : Z; r_state : Z;
  r_result : option string; r_start : Z; r_end : option Z
}.

(** [t_unique]: the key [UNIQUE(task)] exists, [t_state]: the column [state] does; tables
    made by earlier versions lack them. [t_next] is the next automatic identifier. *)
Record JobsTable := mkTable { t_unique : bool; t_state : bool; t_next : Z; t_rows : list JobRow }.
Definition newTable : JobsTable := mkTable true true 1 [].
Definition with_rows (rows : list JobRow) (t : JobsTable) : JobsTable :=
  mkTable (t_unique t) (t_state t) (t_next t) rows.

(** [config.Task]: the copy of a row. *)
Record Task := mkTask {
  tk_Id : Z; tk_Task : string; tk_Port : Z; tk_Server : string; tk_Done : Z; tk_State : Z;
  tk_Result : string; tk_Start : Z; tk_End : Z
}.
Definition task_of_row (r : JobRow) : Task :=
  mkTask (r_id r) (r_task r) (r_port r) (r_server r) (r_done r) (r_state r)
    (default "" (r_result r)) (r_start r) (default 0 (r_end r)).

(** [DBTask]: a task with the number of its rows and the last of them. *)
Record DBTask := mkDBTask { dt_task : string; dt_ct : Z; dt_id : Z }.

(** Changes of a row. *)
Definition row_done (done : Z) (r : JobRow) : JobRow :=
  mkRow (r_id r) (r_task r) (r_port r) (r_server r) done (r_state r) (r_result r) (r_start r) (r_end r).
Definition row_state (state : Z) (r : JobRow) : JobRow :=
  mkRow (r_id r) (r_task r) (r_port r) (r_server r) (r_done r) state (r_result r) (r_start r) (r_end r).
Definition row_result (result : option string) (r : JobRow) : JobRow :=
  mkRow (r_id r) (r_task r) (r_port r) (r_server r) (r_done r) (r_state r) result (r_start r) (r_end r).
Definition row_end (e : Z) (r : JobRow) : JobRow :=
  mkRow (r_id r) (r_task r) (r_port r) (r_server r) (r_done r) (r_state r) (r_result r) (r_start r) (Some e).

(** ** The statements

    What a statement gives and leaves when it is carried out; [None] is an error of the
    statement itself. *)

Definition JobsDb := option JobsTable.
Definition Stmt (R : Type) := JobsDb -> option (R * JobsDb).

Definition stmt_ok : Stmt unit := fun db => Some (tt, db).
(** A statement the server rejects. *)
Definition stmt_bad {R} : Stmt R := fun _ => None.
Definition stmt_table {R} (f : JobsTable -> option (R * JobsTable)) : Stmt R := fun db =>
  match db with
  | None => None
  | Some t => match f t with Some (r, t') => Some (r, Some t') | None => None end
  end.
(** A statement that names the column [state]. *)
Definition stmt_state {R} (f : JobsTable -> option (R * JobsTable)) : Stmt R :=
  stmt_table (fun t => if t_state t then f t else None).

Definition stmt_create : Stmt unit := fun db =>
  Some (tt, Some (match db with Some t => t | None => newTable end)).
Definition stmt_drop : Stmt unit := fun _ => Some (tt, None).
(** No row at all for a table that does not exist. *)
Definition stmt_count_unique : Stmt Z := stmt_table (fun t => Some (if t_unique t then 1 else 0, t)).
Definition stmt_count_state : Stmt Z := fun db =>
  Some (match db with Some t => if t_state t then 1 else 0 | None => 0 end, db).
Definition stmt_add_state : Stmt unit := stmt_table (fun t =>
  if t_state t then None else Some (tt, mkTable (t_unique t) true (t_next t) (map (row_state 0) (t_rows t)))).
Definition stmt_add_index : Stmt unit := stmt_state (fun t => Some (tt, t)).

Definition stmt_select {R} (f : list JobRow -> R) : Stmt R := stmt_state (fun t => Some (f (t_rows t), t)).

(** [UPDATE]: every row that matches; the number of rows that are different then. *)
Definition update_rows (p : JobRow -> bool) (f : JobRow -> JobRow) : list JobRow -> list JobRow :=
  map (fun r => if p r then f r else r).
#[export] Instance JobRow_eq_dec : EqDecision JobRow.
Proof. solve_decision. Defined.
Definition changed_rows (p : JobRow -> bool) (f : JobRow -> JobRow) (rows : list JobRow) : Z :=
  Z.of_nat (length (List.filter (fun r => p r && negb (bool_decide (f r = r))) rows)).
Definition stmt_update (p : JobRow -> bool) (f : JobRow -> JobRow) : Stmt Z := stmt_state (fun t =>
  Some (changed_rows p f (t_rows t), with_rows (update_rows p f (t_rows t)) t)).

Definition stmt_delete_id (id : Z) : Stmt unit := stmt_table (fun t =>
  Some (tt, with_rows (List.filter (fun r => negb (r_id r =? id)) (t_rows t)) t)).

(** [INSERT]: zero asks for an automatic identifier; an identifier, and with the unique
    key a task, can be there only once. The port is written without quotes. *)
Definition stmt_insert (id : Z) (task port server : string) (now : Z) : Stmt Z := stmt_table (fun t =>
  let '(p, e) := strconv_ParseInt port in
  match e with
  | ErrNone =>
      let id := if id =? 0 then t_next t else id in
      if existsb (fun r => (r_id r =? id) || (t_unique t && (r_task r =? task)%string)) (t_rows t) then None
      else Some (id, mkTable (t_unique t) (t_state t) (Z.max (t_next t) (id + 1))
                       (t_rows t ++ [mkRow id task p server 0 0 None now None]))
  | _ => None
  end).

(** The first [limit] rows of a task that nobody took, the oldest first. *)
Definition row_older (a b : JobRow) : Prop := r_start a <= r_start b.
#[export] Instance row_older_dec a b : Decision (row_older a b).
Proof. unfold row_older. apply _. Defined.
Definition stmt_purge (task : string) (limit : Z) : Stmt unit := stmt_table (fun t =>
  let old := merge_sort row_older
    (List.filter (fun r => (r_task r =? task)%string && (r_done r =? 0) && negb (bool_decide (is_Some (r_result r)))) (t_rows t)) in
  let gone := map r_id (take (Z.to_nat limit) old) in
  Some (tt, with_rows (List.filter (fun r => negb (bool_decide (r_id r ∈ gone))) (t_rows t)) t)).

(** ** The server and its database

    [j_faults] is what happens to the next statements: nothing for those beyond it. *)

Inductive Fault := Fine | NotDone | DoneUnseen.

Record JobsWorld := mkJobsWorld {
  j_world : World; j_db : JobsDb; j_now : Z; j_faults : list Fault;
  j_JobResults : gmap string Task; j_NeedRefreshJobs : bool; j_IsLoadingJobList : bool;
  j_IsInPITR : bool; j_SSTPort : string; j_PhysicalCompleted : option bool
}.

Definition set_j_world (x : World) (w : JobsWorld) : JobsWorld :=
  mkJobsWorld x (j_db w) (j_now w) (j_faults w) (j_JobResults w) (j_NeedRefreshJobs w) (j_IsLoadingJobList w)
    (j_IsInPITR w) (j_SSTPort w) (j_PhysicalCompleted w).
Definition set_j_db (x : JobsDb) (w : JobsWorld) : JobsWorld :=
  mkJobsWorld (j_world w) x (j_now w) (j_faults w) (j_JobResults w) (j_NeedRefreshJobs w) (j_IsLoadingJobList w)
    (j_IsInPITR w) (j_SSTPort w) (j_PhysicalCompleted w).
Definition set_j_now (x : Z) (w : JobsWorld) : JobsWorld :=
  mkJobsWorld (j_world w) (j_db w) x (j_faults w) (j_JobResults w) (j_NeedRefreshJobs w) (j_IsLoadingJobList w)
    (j_IsInPITR w) (j_SSTPort w) (j_PhysicalCompleted w).
Definition set_j_faults (x : list Fault) (w : JobsWorld) : JobsWorld :=
  mkJobsWorld (j_world w) (j_db w) (j_now w) x (j_JobResults w) (j_NeedRefreshJobs w) (j_IsLoadingJobList w)
    (j_IsInPITR w) (j_SSTPort w) (j_PhysicalCompleted w).
Definition set_j_JobResults (x : gmap string Task) (w : JobsWorld) : JobsWorld :=
  mkJobsWorld (j_world w) (j_db w) (j_now w) (j_faults w) x (j_NeedRefreshJobs w) (j_IsLoadingJobList w)
    (j_IsInPITR w) (j_SSTPort w) (j_PhysicalCompleted w).
Definition set_j_NeedRefreshJobs (x : bool) (w : JobsWorld) : JobsWorld :=
  mkJobsWorld (j_world w) (j_db w) (j_now w) (j_faults w) (j_JobResults w) x (j_IsLoadingJobList w)
    (j_IsInPITR w) (j_SSTPort w) (j_PhysicalCompleted w).
Definition set_j_IsLoadingJobList (x : bool) (w : JobsWorld) : JobsWorld :=
  mkJobsWorld (j_world w) (j_db w) (j_now w) (j_faults w) (j_JobResults w) (j_NeedRefreshJobs w) x
    (j_IsInPITR w) (j_SSTPort w) (j_PhysicalCompleted w).
Definition set_j_PhysicalCompleted (x : option bool) (w : JobsWorld) : JobsWorld :=
  mkJobsWorld (j_world w) (j_db w) (j_now w) (j_faults w) (j_JobResults w) (j_NeedRefreshJobs w) (j_IsLoadingJobList w)
    (j_IsInPITR w) (j_SSTPort w) x.

Definition J (A : Type) : Type := JobsWorld -> outcome A * JobsWorld.
#[export] Instance J_ret : MRet J := fun A a w => (Ret a, w).
#[export] Instance J_bind : MBind J := fun A B f m w =>
  match m w with
  | (Ret a, w') => f a w'
  | (Panic, w') => (Panic, w')
  | (Hang, w') => (Hang, w')
  end.

Definition getJ {A} (f : JobsWorld -> A) : J A := fun w => (Ret (f w), w).
Definition modJ (f : JobsWorld -> JobsWorld) : J unit := fun w => (Ret tt, f w).
Definition whenJ (b : bool) (m : J unit) : J unit := if b then m else mret tt.
Fixpoint forJ {A} (l : list A) (f : A -> J unit) : J unit :=
  match l with
  | [] => mret tt
  | x :: r => f x ;; forJ r f
  end.
(** What the manager does elsewhere. *)
Definition lift {A} (m : M A) : J A := fun w =>
  let '(o, x) := m (j_world w) in (o, set_j_world x w).
Definition derefJ {A} (p : option A) : J A := fun w =>
  (match p with Some a => Ret a | None => Panic end, w).

(** A statement: the answer, or [None] for an error. *)
Definition statement {R} (sem : Stmt R) : J (option R) := fun w =>
  let fault := default Fine (head (j_faults w)) in
  let w := set_j_faults (tail (j_faults w)) w in
  match fault, sem (j_db w) with
  | Fine, Some (r, db) => (Ret (Some r), set_j_db db w)
  | DoneUnseen, Some (_, db) => (Ret None, set_j_db db w)
  | _, _ => (Ret None, w)
  end.
Definition failed {R} (r : option R) : bool := match r with None => true | Some _ => false end.

(** [GetConnNoBinlog] for a server with a pool. *)
Definition GetConnNoBinlog : J bool := r ← statement stmt_ok; mret (negb (failed r)).

Section Jobs.
Context `{Env} `{GoSort} `{GoRange}.

Definition serverJ (l : loc) : J ServerMonitor := lift (load l).
Definition clusterJ : J Cluster := lift get_cluster.
Definition SetNeedRefreshJobs (b : bool) : J unit := modJ (set_j_NeedRefreshJobs b).
Definition SetLoadingJobList (b : bool) : J unit := modJ (set_j_IsLoadingJobList b).
Definition SetInReseed (l : loc) (value : string) : J unit := lift (mod_server l (set_srv_IsReseeding value)).

(** [cluster.GetMaster().URL] panics when there is no master. *)
Definition super_read_only (l : loc) : M bool :=
  c ← get_cluster;
  s ← load l;
  if Conf_SuperReadOnly (cl_Conf c)
  then
    ml ← deref (GetMaster c);
    m ← load ml;
    mret (negb (srv_URL m =? srv_URL s)%string && HasSuperReadOnlyCapability s)
  else mret false.
Definition job_state (key url : string) (args : list fmt_arg) : State := state_of key "WARNING" "JOB" url args.
Definition warn_super_read_only (l : loc) : J unit :=
  s ← serverJ l; lift (SetState "WARN0114" (job_state "WARN0114" "" [fs (srv_URL s)])).

(** ** The table (srv_job.go) *)

(** The count that could not be read is the zero it was declared with. *)
Definition JobsCreateTable (l : loc) : J Err :=
  c ← clusterJ;
  s ← serverJ l;
  if IsDown s || cl_IsInFailover c then mret None
  else if negb (srv_Conn s) then mret None
  else
    ok ← GetConnNoBinlog;
    if negb ok then mret (Some "Failed to create connection")
    else
      ro ← lift (super_read_only l);
      if (ro : bool) then warn_super_read_only l ;; mret None
      else
        r ← statement stmt_ok;
        if failed r then mret (Some "Failed to create replication_manager_schema")
        else
          r ← statement stmt_create;
          if failed r then mret (Some "Failed to create jobs table")
          else
            n ← statement stmt_count_unique;
            let exist := default 0 n in
            r ← (if exist =? 0 then statement stmt_drop ;; statement stmt_create else mret (Some tt));
            if failed r then mret (Some "Failed to create jobs table")
            else
              n ← statement stmt_count_state;
              if default exist n =? 0
              then
                r ← statement stmt_add_state;
                if failed r then mret (Some "Failed to add column on jobs table")
                else
                  r ← statement stmt_add_index;
                  mret (if failed r then Some "Failed to add index on jobs table" else None)
              else mret None.

(** ** Reading the table *)

Definition loadTask (r : JobRow) : J unit :=
  modJ (fun w => set_j_JobResults (<[r_task r := task_of_row r]> (j_JobResults w)) w).

Definition JobsUpdateEntries (l : loc) : J Err :=
  let select := statement (stmt_select id) in
  rows ← select;
  rows ← (match rows with
          | Some rows => mret (Some rows)
          | None => e ← JobsCreateTable l; if is_err e then mret None else select
          end);
  match rows with
  | None => mret (Some "Failed to retrieve data on jobs table")
  | Some rows => forJ rows loadTask ;; SetNeedRefreshJobs false ;; mret None
  end.

(** [max(id)]. *)
Definition max_id (rows : list JobRow) : Z :=
  match rows with [] => 0 | r :: rest => fold_right Z.max (r_id r) (map r_id rest) end.

(** [GROUP BY task]: a task stands where its last row does. *)
Definition group_tasks (p : JobRow -> bool) (rows : list JobRow) : list DBTask :=
  let rows := List.filter p rows in
  map (fun t => let own := List.filter (fun r => (r_task r =? t)%string) rows in
         mkDBTask t (Z.of_nat (length own)) (max_id own))
    (remove_dups (map r_task rows)).

(** After the table was made the statement is sent again without the values of its
    parameters: with parameters it is rejected. *)
Definition GetTasksByState (l : loc) (args : list Z) : J (list DBTask * Err) :=
  if (2 <? length args)%nat then mret ([], Some "Too many arguments for this function")
  else
    let p r := match args with
               | [state] => r_state r =? state
               | [state; done] => (r_state r =? state) && (r_done r =? done)
               | _ => true
               end in
    let select := if (0 <? length args)%nat then stmt_select (group_tasks p) else stmt_table (fun t => Some (group_tasks p (t_rows t), t)) in
    let again := if (0 <? length args)%nat then stmt_bad else select in
    tasks ← statement select;
    tasks ← (match tasks with
             | Some tasks => mret (Some tasks)
             | None => e ← JobsCreateTable l; if is_err e then mret None else statement again
             end);
    match tasks with
    | None => mret ([], Some "Failed to retrieve data on jobs table")
    | Some tasks => mret (List.filter (fun t => 0 <? dt_ct t) tasks, None)
    end.

(** The number of rows of a task in a state; only a missing table is made and asked again. *)
Definition GetJobCount (l : loc) (task : string) (state : Z) : J (Z * Err) :=
  let count := statement (stmt_select (fun rows =>
    Z.of_nat (length (List.filter (fun r => (r_task r =? task)%string && (r_state r =? state)) rows)))) in
  missing ← getJ (fun w => match j_db w, default Fine (head (j_faults w)) with None, Fine => true | _, _ => false end);
  n ← count;
  match n with
  | Some n => mret (n, None)
  | None =>
      if (missing : bool)
      then
        e ← JobsCreateTable l;
        if is_err e then mret (0, Some "failed to create jobs table")
        else
          n ← count;
          mret (match n with Some n => (n, None) | None => (0, Some "failed to retrieve data on jobs table after retry") end)
      else mret (0, Some "failed to retrieve data on jobs table")
  end.

(** ** A new job *)

Definition in_progress (r : JobRow) : bool := (r_state r <=? 3) && (r_done r =? 0).

(** The last row of a task. *)
Definition last_of_task (task : string) (rows : list JobRow) : option JobRow :=
  let own := List.filter (fun r => (r_task r =? task)%string) rows in
  List.find (fun r => r_id r =? max_id own) own.

(** The row is read into the copy itself. *)
Definition scan_task (r : JobRow) (t : Task) : Task :=
  mkTask (r_id r) (r_task r) (tk_Port t) (tk_Server t) (r_done r) (r_state r) (tk_Result t) (tk_Start t) (tk_End t).
Definition storeTask (task : string) (t : Task) : J unit :=
  modJ (fun w => set_j_JobResults (<[task := t]> (j_JobResults w)) w).
(** [JobResults.LoadOrStore]. *)
Definition loadOrStore (task : string) (t : Task) : J (Task * bool) := fun w =>
  match j_JobResults w !! task with
  | Some t' => (Ret (t', true), w)
  | None => (Ret (t, false), set_j_JobResults (<[task := t]> (j_JobResults w)) w)
  end.
Definition new_task (task : string) (now : Z) : Task := mkTask 0 task 0 "" 0 0 "" now 0.

Definition insert_row (t : Task) (task port repmanhost : string) : J (Z * Err) :=
  now ← getJ j_now;
  r ← statement (stmt_insert (tk_Id t) task port repmanhost now);
  match r with
  | None => mret (0, Some "Failed to insert row on jobs table")
  | Some id => SetNeedRefreshJobs true ;; mret (id, None)
  end.

(** [row] is the last row of the task. A job in progress is reported with the error of the statement before, which has none. *)
Definition put_task (task port repmanhost : string) (row : option JobRow) : J (Z * Err) :=
  now ← getJ j_now;
  tx ← loadOrStore task (new_task task now);
  match row with
  | None => insert_row (fst tx) task port repmanhost
  | Some r =>
      let t := scan_task r (fst tx) in
      storeTask task t ;;
      if in_progress r then mret (0, Some "Failed to retrieve data on jobs table: %!v(<nil>)")
      else
        d ← statement (stmt_delete_id (tk_Id t));
        if failed d then mret (0, Some "Failed to delete row on jobs table")
        else insert_row t task port repmanhost
  end.

Definition JobInsertTask (l : loc) (task port repmanhost : string) : J (Z * Err) :=
  c ← clusterJ;
  s ← serverJ l;
  if cl_InRollingRestart c then mret (0, Some "In rolling restart")
  else if cl_IsInFailover c then mret (0, Some "In failover")
  else
    ro ← lift (super_read_only l);
    if (ro : bool) then warn_super_read_only l ;; mret (0, Some "In super read-only")
    else if negb (srv_Conn s) then mret (0, Some "No pool connection")
    else
      JobsCreateTable l ;;
      ok ← GetConnNoBinlog;
      if negb ok then mret (0, Some "Job can't connect")
      else if (task =? "")%string then mret (0, Some "Job can't insert empty task")
      else
        row ← statement (stmt_select (last_of_task task));
        match row with
        | None => mret (0, Some "Failed to retrieve data on jobs table")
        | Some row => put_task task port repmanhost row
        end.

(** The copy is changed even if the row cannot be. *)
Definition JobsUpdateState (l : loc) (task result : string) (state done : Z) : J Err :=
  tx ← loadOrStore task (mkTask 0 task 0 "" done state result 0 0);
  let t := fst tx in
  storeTask task (mkTask (tk_Id t) (tk_Task t) (tk_Port t) (tk_Server t) done state result (tk_Start t) (tk_End t)) ;;
  s ← serverJ l;
  if negb (srv_Conn s) then mret (Some "No connection pool")
  else
    ok ← GetConnNoBinlog;
    if negb ok then mret (Some "Error connecting to server")
    else
      now ← getJ j_now;
      r ← statement (stmt_update (fun r => (r_task r =? task)%string) (fun r =>
            let r := row_done done (row_state state (row_result (Some result) r)) in
            if done =? 1 then row_end now r else r));
      if failed r then mret (Some "Error exec query")
      else SetNeedRefreshJobs true ;; mret None.

(** ** Watching the jobs *)

(** The warning while a task waits to be taken. *)
Definition waiting_warning (conf : Config) (logical url task : string) : option (string * list fmt_arg) :=
  let named x := (task =? x)%string in
  if named "optimized" then Some ("WARN0072", [fs url])
  else if named "restart" then Some ("WARN0096", [fs url])
  else if named "stop" then Some ("WARN0097", [fs url])
  else if named "xtrabackup" || named "mariabackup" then Some ("WARN0073", [fs (Conf_BackupPhysicalType conf); fs url])
  else if named "reseedxtrabackup" || named "reseedmariabackup" then Some ("WARN0074", [fs (Conf_BackupPhysicalType conf); fs url])
  else if named "reseedmysqldump" || named "reseedmydumper" then Some ("WARN0075", [fs logical; fs url])
  else if named "flashbackxtrabackup" || named "flashbackmariabackup" then Some ("WARN0076", [fs (Conf_BackupPhysicalType conf); fs url])
  else if named "flashbackmydumper" || named "flashbackmysqldump" then Some ("WARN0077", [fs logical; fs url])
  else None.

Definition check_running (l : loc) (logical : string) (task : DBTask) : J unit :=
  c ← clusterJ;
  s ← serverJ l;
  let url := srv_URL s in
  if 10 <? dt_ct task
  then
    lift (SetState "ERR00060" (job_state "ERR00060" url [fs url])) ;;
    statement (stmt_purge (dt_task task) (dt_ct task - 1)) ;; mret tt
  else
    match waiting_warning (cl_Conf c) logical url (dt_task task) with
    | Some (key, args) => lift (SetState key (job_state key url args))
    | None => mret tt
    end.

Definition JobsCheckRunning (l : loc) (logical : string) : J Err :=
  c ← clusterJ;
  s ← serverJ l;
  if IsDown s || cl_InRollingRestart c then mret None
  else if negb (srv_Conn s) then mret (Some (fmt_Sprintf "No connection pool on %s: %s" [fs (srv_URL s)]))
  else
    ok ← GetConnNoBinlog;
    if negb ok then mret (Some "Error connecting to server")
    else
      te ← GetTasksByState l [JobStateAvailable];
      if is_err (snd te) then mret (Some "Error retrieving jobs")
      else forJ (fst te) (check_running l logical) ;; mret None.

(** An hour without anybody taking the task. *)
Definition pending_timeout (now : Z) (r : JobRow) : bool := (r_state r =? 0) && (r_start r <=? now - 3600).
Definition end_in_error (now : Z) (result : string) (r : JobRow) : JobRow :=
  row_end now (row_done 1 (row_result (Some result) (row_state JobStateErrorExec r))).
Definition restores (task : string) : bool := strings_HasPrefix task "reseed" || strings_HasPrefix task "flashback".
Definition manager_was_down : string :=
  "Replication-manager is down while preparing task, cancelling operation for data safety.".

Definition cancel_halted (task : DBTask) : J unit :=
  whenJ (restores (dt_task task))
    (now ← getJ j_now;
     statement (stmt_update (fun r => (r_task r =? dt_task task)%string) (end_in_error now manager_was_down)) ;;
     SetNeedRefreshJobs true).

Definition JobsCheckPending (l : loc) : J Err :=
  s ← serverJ l;
  if HasAnyReseedingState s then mret (Some ("Server is in reseeding state by " +:+ srv_IsReseeding s))
  else
    now ← getJ j_now;
    statement (stmt_update (pending_timeout now) (end_in_error now "Timeout waiting for job to start")) ;;
    te ← GetTasksByState l [JobStateHalted];
    if is_err (snd te) then mret (Some "Error retrieving pending tasks")
    else forJ (fst te) cancel_halted ;; mret None.

(** Jobs that stopped with an error and wait for somebody to notice. *)
Definition stopped_in_error (r : JobRow) : bool := (r_done r =? 0) && (r_state r =? JobStateErrorExec).
Definition is_physical (task : string) : bool := (task =? "xtrabackup")%string || (task =? "mariabackup")%string.
Definition restores_physical (task : string) : bool :=
  (task =? "reseedxtrabackup")%string || (task =? "reseedmariabackup")%string ||
  (task =? "flashbackxtrabackup")%string || (task =? "flashbackmariabackup")%string.

(** [ExecQueryNoBinLog]. *)
Definition ExecQueryNoBinLog {R} (l : loc) (sem : Stmt R) : J Err :=
  s ← serverJ l;
  if negb (srv_Conn s) then mret (Some "No connection pool")
  else
    ok ← GetConnNoBinlog;
    if negb ok then mret (Some "Error getting single connection")
    else r ← statement sem; mret (if failed r then Some "Error exec query" else None).

(** The reseeding mark is released when the function returns. *)
Definition JobsCheckErrors (l : loc) : J Err :=
  let select := statement (stmt_select (List.filter stopped_in_error)) in
  rows ← select;
  rows ← (match rows with
          | Some rows => mret (Some rows)
          | None => e ← JobsCreateTable l; if is_err e then mret None else select
          end);
  match rows with
  | None => mret (Some "Failed to retrieve data on jobs table")
  | Some rows =>
      s ← serverJ l;
      let tasks := map r_task rows in
      forJ tasks (fun task => whenJ (is_physical task) (lift (SetState "WARN0115" (job_state "WARN0115" (srv_URL s) [])))) ;;
      whenJ (0 <? length rows)%nat
        (ExecQueryNoBinLog l (stmt_update (fun r => stopped_in_error r && bool_decide (r_task r ∈ tasks)) (row_done 1)) ;;
         SetNeedRefreshJobs true) ;;
      whenJ (existsb (fun task => restores_physical task && HasReseedingState s task) tasks) (SetInReseed l "") ;;
      mret None
  end.

(** ** Jobs that finished *)

Definition finish_row (id state : Z) (text : string) : Stmt Z :=
  stmt_update (fun r => (r_id r =? id) && (r_done r =? 1) && (r_state r =? JobStateFinished))
    (fun r => row_state state (row_result ((fun x => x +:+ text) <$> r_result r) r)).

(** What a finished job is followed by: the error of it. *)
Definition after_restore (l : loc) : J Err :=
  pitr ← getJ j_IsInPITR;
  if (pitr : bool) then mret None else lift (StartSlave l).

Definition newline : string := String (ascii_of_nat 10) "".

Definition AfterJobProcess (l : loc) (task : DBTask) : J Err :=
  let id := dt_id task in
  if (dt_task task =? "")%string then mret (Some "Cannot check task. Task name is empty!")
  else
    s ← serverJ l;
    if is_physical (dt_task task)
    then
      lift (call (create_file (srv_Datadir s +:+ "/@cookie_backup_" +:+ dt_task task))) ;;
      physical ← getJ j_PhysicalCompleted;
      derefJ physical ;;
      modJ (set_j_PhysicalCompleted (Some true)) ;;
      statement (finish_row id JobStateSuccess "Backup completed") ;;
      mret None
    else if restores_physical (dt_task task)
    then
      e ← after_restore l;
      (match e with
       | None => statement (finish_row id JobStateSuccess "") ;; mret tt
       | Some msg =>
           s' ← serverJ l;
           whenJ (srv_Conn s') (statement (finish_row id JobStateErrorAfter (newline +:+ msg)) ;; mret tt)
       end) ;;
      whenJ (HasReseedingState s (dt_task task)) (SetInReseed l "") ;;
      mret e
    else statement (finish_row id JobStateSuccess "") ;; mret None.

Definition JobsCheckFinished (l : loc) : J Err :=
  ro ← lift (super_read_only l);
  if (ro : bool) then warn_super_read_only l ;; mret None
  else
    te ← GetTasksByState l [JobStateFinished; 1];
    forJ (fst te) (fun task => AfterJobProcess l task ;; SetNeedRefreshJobs true) ;;
    lift (call (time_Sleep 3000)) ;;
    mret (snd te).

(** ** A round *)

Definition check_states (l : loc) : J Err :=
  ok ← GetConnNoBinlog;
  if negb ok then mret (Some "Error connecting to server")
  else
    ro ← lift (super_read_only l);
    if (ro : bool) then warn_super_read_only l ;; mret None
    else
      JobsCheckFinished l ;;
      JobsCheckErrors l ;;
      JobsCheckPending l ;;
      need ← getJ j_NeedRefreshJobs;
      if (need : bool) then JobsUpdateEntries l else mret None.

Definition deferJ {A} (m : J A) (fin : J unit) : J A := fun w =>
  match m w with
  | (Hang, w') => (Hang, w')
  | (o, w') => let '(o', w'') := fin w' in (match o' with Ret _ => o | Panic => Panic | Hang => Hang end, w'')
  end.

Definition JobsCheckStates (l : loc) : J Err :=
  c ← clusterJ;
  s ← serverJ l;
  if cl_IsInFailover c || cl_InRollingRestart c || IsDown s then mret None
  else if negb (srv_Conn s) then mret (Some "No connection pool")
  else
    busy ← getJ j_IsLoadingJobList;
    if (busy : bool) then mret (Some "Waiting for previous update")
    else SetLoadingJobList true ;; deferJ (check_states l) (SetLoadingJobList false).

(** ** Cancelling *)

Definition cancelled (r : JobRow) : JobRow :=
  row_done 1 (row_state JobStateErrorExec (row_result (Some "cancelled by user") r)).
(** No restore of the server among the tasks has started. *)
Definition can_cancel (s : ServerMonitor) (results : gmap string Task) (tasks : list string) : bool :=
  negb (existsb (fun kv => bool_decide (fst kv ∈ tasks) && HasReseedingState s (fst kv) && (0 <? tk_State (snd kv)))
          (map_to_list results)).

(** That the tasks cannot be cancelled is only logged, except for a server that is down. *)
Definition JobsCancelTasks (l : loc) (force : bool) (tasks : list string) : J Err :=
  ro ← lift (super_read_only l);
  if (ro : bool) then warn_super_read_only l ;; mret None
  else
    s ← serverJ l;
    results ← getJ j_JobResults;
    if IsDown s
    then whenJ (can_cancel s results tasks || force) (SetInReseed l "" ;; SetNeedRefreshJobs true) ;; mret None
    else if negb (srv_Conn s) then mret None
    else
      ok ← GetConnNoBinlog;
      if negb ok then mret (Some "Error connecting to server")
      else
        r ← statement stmt_ok;
        if failed r then mret (Some "Error exec query")
        else
          e ← (match tasks with
               | [] => mret (Some "Error processing args")
               | _ =>
                   let listed r := bool_decide (r_task r ∈ tasks) in
                   r ← statement (stmt_update (fun r => (force || ((r_done r =? 0) && (r_state r =? 0))) && listed r) cancelled);
                   match r with
                   | None => mret (Some "Error exec query for cancel tasks")
                   | Some aff =>
                       whenJ (0 <? aff) (forJ tasks (fun task =>
                         s ← serverJ l; whenJ (HasReseedingState s task) (SetInReseed l ""))) ;;
                       SetNeedRefreshJobs true ;;
                       mret None
                   end
               end);
          statement stmt_ok ;;
          mret e.
End Jobs.
