(* ===== verification/JobsProps.v ===== *)
(** * What the jobs table guarantees

    A job in progress is not replaced, the table holds one row per task whatever
    statement fails, and a round of checks settles every row that waits for it. *)

From Stdlib Require Import ZArith Lia Bool Ascii String.
From stdpp Require Import base list gmap strings functions sorting relations.
From S2P Require Import Prelude GoLib Version StateMachine Config Server Cluster Demo ServerOps Jobs.

Local Open Scope string_scope.
Local Open Scope list_scope.
Local Open Scope Z_scope.

(** ** Reasoning about runs

    [ends m w Q]: what [m] does from [w] satisfies [Q], a panic included. *)

Definition ends {A} (m : J A) (w : JobsWorld) (Q : outcome A -> JobsWorld -> Prop) : Prop :=
  Q (fst (m w)) (snd (m w)).

(** [Q] of every result, and [X] of the world a panic leaves. *)
Definition post {A} (X : JobsWorld -> Prop) (Q : A -> JobsWorld -> Prop) (o : outcome A) (w : JobsWorld) : Prop :=
  match o with Ret a => Q a w | _ => X w end.

Section Ends.
Context (X : JobsWorld -> Prop).

Lemma ends_ret {A} (a : A) w (Q : A -> JobsWorld -> Prop) : Q a w -> ends (mret a) w (post X Q).
Proof. done. Qed.
Lemma ends_bind {A B} (m : J A) (f : A -> J B) w (Q : B -> JobsWorld -> Prop) :
  ends m w (post X (fun a w' => ends (f a) w' (post X Q))) -> ends (m ≫= f) w (post X Q).
Proof. unfold ends, mbind, J_bind. by destruct (m w) as [[a| |] w']. Qed.
Lemma ends_weaken {A} (m : J A) w (Q Q' : A -> JobsWorld -> Prop) :
  ends m w (post X Q) -> (forall a w', Q a w' -> Q' a w') -> ends m w (post X Q').
Proof. unfold ends, post. destruct (m w) as [[a| |] w']; simpl; auto. Qed.
Lemma ends_getJ {A} (f : JobsWorld -> A) w (Q : A -> JobsWorld -> Prop) : Q (f w) w -> ends (getJ f) w (post X Q).
Proof. done. Qed.
Lemma ends_modJ f w (Q : unit -> JobsWorld -> Prop) : Q tt (f w) -> ends (modJ f) w (post X Q).
Proof. done. Qed.
Lemma ends_whenJ b (m : J unit) w (Q : unit -> JobsWorld -> Prop) :
  (b = true -> ends m w (post X Q)) -> (b = false -> Q tt w) -> ends (whenJ b m) w (post X Q).
Proof. intros Ht Hf. destruct b; [by apply Ht|by apply Hf]. Qed.
(** A loop keeps what its body keeps. *)
Lemma ends_forJ {A} (I : JobsWorld -> Prop) (l : list A) (f : A -> J unit) w :
  (forall x w, I w -> ends (f x) w (post X (fun _ w' => I w'))) -> I w -> ends (forJ l f) w (post X (fun _ w' => I w')).
Proof.
  intros Hf. revert w. induction l as [|x l IH]; intros w Hw; [done|]. simpl.
  apply ends_bind. eapply ends_weaken; [by apply Hf|]. intros [] w' Hw'. by apply IH.
Qed.

(** What the manager does elsewhere touches [j_world] only. *)
Lemma ends_lift {A} (m : M A) w (Q : A -> JobsWorld -> Prop) :
  (forall x, X (set_j_world x w)) -> (forall a, Q a (set_j_world (snd (m (j_world w))) w)) ->
  ends (lift m) w (post X Q).
Proof. intros HX HQ. unfold ends, lift. destruct (m (j_world w)) as [[a| |] x]; simpl; auto. Qed.
Lemma ends_read {A} (f : World -> A) w (Q : A -> JobsWorld -> Prop) :
  Q (f (j_world w)) w -> ends (lift (fun x => (Ret (f x), x))) w (post X Q).
Proof. destruct w. done. Qed.

(** A statement: carried out and answered, or an error after which the table may have
    changed all the same. *)
Lemma ends_statement {R} (sem : Stmt R) w (Q : option R -> JobsWorld -> Prop) :
  (forall r db, sem (j_db w) = Some (r, db) -> Q (Some r) (set_j_db db (set_j_faults (tail (j_faults w)) w))) ->
  (forall r db, sem (j_db w) = Some (r, db) -> Q None (set_j_db db (set_j_faults (tail (j_faults w)) w))) ->
  Q None (set_j_faults (tail (j_faults w)) w) ->
  ends (statement sem) w (post X Q).
Proof.
  intros H1 H2 H3. unfold ends, statement. cbn [j_db set_j_faults].
  destruct (default Fine (head (j_faults w))); destruct (sem (j_db w)) as [[r db]|] eqn:E; simpl; eauto.
Qed.
(** Without a fault. *)
Lemma ends_fine {R} (sem : Stmt R) w r db (Q : option R -> JobsWorld -> Prop) :
  j_faults w = [] -> sem (j_db w) = Some (r, db) -> Q (Some r) (set_j_db db w) ->
  ends (statement sem) w (post X Q).
Proof.
  intros Ef E HQ. unfold ends, statement. cbn [j_db set_j_faults]. rewrite Ef, E. simpl.
  by replace (set_j_faults [] w) with w by (destruct w; cbn in *; by rewrite Ef).
Qed.
End Ends.

(** ** What every operation keeps

    [PresJ R m]: whatever happens, [m] relates the worlds before and after by [R]. The
    tactic [keep] follows the shape of a computation down to the statements and the
    computations elsewhere. *)

Definition PresJ (R : JobsWorld -> JobsWorld -> Prop) {A} (m : J A) : Prop := forall w, R w (snd (m w)).

Section PresJ.
Context (R : JobsWorld -> JobsWorld -> Prop) `{!PreOrder R}.

Lemma jobs_keep_ret {A} (a : A) : PresJ R (mret a : J A).
Proof. intros w. reflexivity. Qed.
Lemma jobs_keep_bind {A B} (m : J A) (f : A -> J B) : PresJ R m -> (forall a, PresJ R (f a)) -> PresJ R (m ≫= f).
Proof.
  intros Hm Hf w. specialize (Hm w). unfold mbind, J_bind.
  destruct (m w) as [[a| |] w']; simpl in *; [|done|done]. etransitivity; [exact Hm|apply Hf].
Qed.
Lemma jobs_keep_getJ {A} (f : JobsWorld -> A) : PresJ R (getJ f).
Proof. intros w. reflexivity. Qed.
Lemma jobs_keep_modJ f : (forall w, R w (f w)) -> PresJ R (modJ f).
Proof. intros E w. apply E. Qed.
Lemma jobs_keep_whenJ b m : PresJ R m -> PresJ R (whenJ b m).
Proof. intros Hm. destruct b; [done|apply jobs_keep_ret]. Qed.
Lemma jobs_keep_if {A} (b : bool) (m1 m2 : J A) : PresJ R m1 -> PresJ R m2 -> PresJ R (if b then m1 else m2).
Proof. by destruct b. Qed.
Lemma jobs_keep_forJ {A} (l : list A) f : (forall x, PresJ R (f x)) -> PresJ R (forJ l f).
Proof. intros Hf. induction l as [|x l IH]; simpl; [apply jobs_keep_ret|]. by apply jobs_keep_bind. Qed.
Lemma jobs_keep_derefJ {A} (p : option A) : PresJ R (derefJ p).
Proof. intros w. reflexivity. Qed.
Lemma jobs_keep_deferJ {A} (m : J A) fin : PresJ R m -> PresJ R fin -> PresJ R (deferJ m fin).
Proof.
  intros Hm Hf w. specialize (Hm w). unfold deferJ.
  destruct (m w) as [[a| |] w'] eqn:E; simpl in *; [| |done];
    (specialize (Hf w'); destruct (fin w') as [o w'']; simpl in *; by etransitivity).
Qed.
Lemma jobs_keep_loadOrStore task t :
  (forall m w, R w (set_j_JobResults m w)) -> PresJ R (loadOrStore task t).
Proof. intros Hm w. unfold loadOrStore. destruct (_ !! _); [reflexivity|apply Hm]. Qed.
End PresJ.

(** A property of the table. *)
Definition db_keeps (P : JobsDb -> Prop) (w w' : JobsWorld) : Prop := P (j_db w) -> P (j_db w').
#[export] Instance db_keeps_preorder P : PreOrder (db_keeps P).
Proof. unfold db_keeps. split; [intros w|intros w1 w2 w3]; auto. Qed.
Abbreviation KeepsDb P m := (PresJ (db_keeps P) m).
Definition stmt_keeps (P : JobsDb -> Prop) {R} (sem : Stmt R) : Prop :=
  forall db r db', sem db = Some (r, db') -> P db -> P db'.

Section Keeps.
Context (P : JobsDb -> Prop).

Lemma jobs_keep_lift {A} (m : M A) : KeepsDb P (lift m).
Proof. intros w Hw. unfold lift. by destruct (m (j_world w)). Qed.
Lemma jobs_keep_loadOrStore_db task t : KeepsDb P (loadOrStore task t).
Proof. apply jobs_keep_loadOrStore; [apply _|]. intros m w. by hnf. Qed.
Lemma jobs_keep_statement {R} (sem : Stmt R) : stmt_keeps P sem -> KeepsDb P (statement sem).
Proof.
  intros Hs w Hw. unfold statement. cbn [j_db set_j_faults].
  destruct (default Fine (head (j_faults w))); destruct (sem (j_db w)) as [[r db]|] eqn:E; simpl; eauto.
Qed.

Lemma stmt_keeps_ok : stmt_keeps P stmt_ok.
Proof. by intros db r db' [= _ <-]. Qed.
Lemma stmt_keeps_bad R : stmt_keeps P (stmt_bad : Stmt R).
Proof. done. Qed.
Lemma stmt_keeps_read {R} (f : JobsTable -> R) : stmt_keeps P (stmt_table (fun t => Some (f t, t))).
Proof. intros [t|] r db'; [|done]. by intros [= _ <-]. Qed.
Lemma stmt_keeps_select {R} (f : list JobRow -> R) : stmt_keeps P (stmt_select f).
Proof. intros [t|] r db'; [|done]. unfold stmt_select, stmt_state, stmt_table. destruct (t_state t); [|done]. by intros [= _ <-]. Qed.
Lemma stmt_keeps_count_unique : stmt_keeps P stmt_count_unique.
Proof. apply stmt_keeps_read. Qed.
Lemma stmt_keeps_count_state : stmt_keeps P stmt_count_state.
Proof. by intros db r db' [= _ <-]. Qed.
Lemma stmt_keeps_add_index : stmt_keeps P stmt_add_index.
Proof. intros [t|] r db'; [|done]. unfold stmt_add_index, stmt_state, stmt_table. destruct (t_state t); [|done]. by intros [= _ <-]. Qed.
End Keeps.

Create HintDb keep discriminated.
#[export] Hint Constants Opaque : keep.
#[export] Hint Variables Opaque : keep.
#[export] Hint Transparent Err : keep.
#[export] Hint Resolve jobs_keep_lift jobs_keep_loadOrStore_db : keep.
#[export] Hint Resolve stmt_keeps_ok stmt_keeps_bad stmt_keeps_read stmt_keeps_select stmt_keeps_count_unique
  stmt_keeps_count_state stmt_keeps_add_index : keep.

Ltac jobs_keep_step :=
  match goal with
  | |- PresJ _ (mret _) => apply jobs_keep_ret; apply _
  | |- PresJ _ (getJ _) => apply jobs_keep_getJ; apply _
  | |- PresJ _ (derefJ _) => apply jobs_keep_derefJ; apply _
  | |- PresJ _ (_ ≫= _) => apply jobs_keep_bind; [apply _| |intros ?]
  | |- PresJ _ (if _ then _ else _) => apply jobs_keep_if
  | |- PresJ _ (match ?x with _ => _ end) => destruct x
  | |- PresJ _ (whenJ _ _) => apply jobs_keep_whenJ; [apply _|]
  | |- PresJ _ (forJ _ _) => apply jobs_keep_forJ; [apply _|intros ?]
  | |- PresJ _ (deferJ _ _) => apply jobs_keep_deferJ; [apply _| |]
  | |- PresJ _ (modJ _) => apply jobs_keep_modJ; intros ?; hnf; done
  | |- PresJ (db_keeps _) (statement _) => apply jobs_keep_statement
  | |- stmt_keeps _ (if ?b then _ else _) => destruct b
  | |- _ => solve [auto with keep]
  end.
Ltac keep := repeat jobs_keep_step.

(** ** One row per task *)

Record rows_ok (next : Z) (rows : list JobRow) : Prop := {
  one_row_per_task : NoDup (map r_task rows);
  one_row_per_id : NoDup (map r_id rows);
  ids_given : forall r, r ∈ rows -> r_id r <> 0 /\ r_id r < next
}.
Record table_ok (t : JobsTable) : Prop := {
  has_unique : t_unique t = true;
  has_state : t_state t = true;
  next_positive : 0 < t_next t;
  has_rows : rows_ok (t_next t) (t_rows t)
}.
Definition db_ok (db : JobsDb) : Prop := match db with Some t => table_ok t | None => True end.

Lemma elem_of_filter_l {A} (p : A -> bool) (l : list A) x : x ∈ List.filter p l -> x ∈ l.
Proof. intros Hx. apply list_elem_of_In, filter_In in Hx as [Hx _]. by apply list_elem_of_In. Qed.

Lemma newTable_ok : table_ok newTable.
Proof. split; [done..|]. split; [constructor..|]. by intros r Hr%not_elem_of_nil. Qed.

Lemma rows_ok_update n p f rows :
  (forall r, r_id (f r) = r_id r /\ r_task (f r) = r_task r) -> rows_ok n rows -> rows_ok n (update_rows p f rows).
Proof.
  intros Hf [Ht Hi Hn]. unfold update_rows.
  assert (G : forall r, r_id (if p r then f r else r) = r_id r /\ r_task (if p r then f r else r) = r_task r)
    by (intros r; destruct (p r); auto).
  split.
  - rewrite map_map, (map_ext _ r_task); [done|]. intros r. apply G.
  - rewrite map_map, (map_ext _ r_id); [done|]. intros r. apply G.
  - intros r (r0 & -> & Hr)%list_elem_of_fmap. destruct (G r0) as [-> _]. auto.
Qed.

Lemma NoDup_map_filter {A B} (g : A -> B) p (l : list A) : NoDup (map g l) -> NoDup (map g (List.filter p l)).
Proof.
  induction l as [|x l IH]; simpl; [done|]. intros [Nx Hl]%list.NoDup_cons. destruct (p x); [|by apply IH].
  apply list.NoDup_cons. split; [|by apply IH]. intros (y & E & Hy)%list_elem_of_fmap.
  apply Nx, list_elem_of_fmap. exists y. split; [done|]. by apply elem_of_filter_l in Hy.
Qed.

Lemma rows_ok_filter n p rows : rows_ok n rows -> rows_ok n (List.filter p rows).
Proof.
  intros [Ht Hi Hn]. split; [by apply NoDup_map_filter..|].
  intros r Hr. by apply Hn, (elem_of_filter_l p).
Qed.

(** The statements that write keep [db_ok]. *)

Lemma ok_create : stmt_keeps db_ok stmt_create.
Proof. intros [t|] r db' [= _ <-]; [done|]. intros _. apply newTable_ok. Qed.
Lemma ok_drop : stmt_keeps db_ok stmt_drop.
Proof. by intros db r db' [= _ <-]. Qed.
Lemma ok_add_state : stmt_keeps db_ok stmt_add_state.
Proof. intros [t|] r db'; [|done]. simpl. destruct (t_state t) eqn:E; [done|]. intros _ [_ S _ _]. congruence. Qed.

Lemma table_ok_rows t rows : rows_ok (t_next t) rows -> table_ok t -> table_ok (with_rows rows t).
Proof. intros Hr [U S N _]. by split. Qed.

Lemma ok_update p f :
  (forall r, r_id (f r) = r_id r /\ r_task (f r) = r_task r) -> stmt_keeps db_ok (stmt_update p f).
Proof.
  intros Hf [t|] r db'; [|done]. unfold stmt_update, stmt_state, stmt_table. destruct (t_state t); [|done].
  intros [= _ <-] Ht. apply table_ok_rows; [|done]. apply rows_ok_update; [done|by apply has_rows].
Qed.
Lemma ok_delete_id id : stmt_keeps db_ok (stmt_delete_id id).
Proof.
  intros [t|] r db'; [|done]. intros [= _ <-] Ht. apply table_ok_rows; [|done]. by apply rows_ok_filter, has_rows.
Qed.
Lemma ok_purge task limit : stmt_keeps db_ok (stmt_purge task limit).
Proof.
  intros [t|] r db'; [|done]. intros [= _ <-] Ht. apply table_ok_rows; [|done]. by apply rows_ok_filter, has_rows.
Qed.

(** A row with a new task and a new identifier. *)
Lemma rows_ok_new n rows r :
  rows_ok n rows -> r_id r <> 0 -> (forall x, x ∈ rows -> r_id x <> r_id r /\ r_task x <> r_task r) ->
  rows_ok (Z.max n (r_id r + 1)) (rows ++ [r]).
Proof.
  intros [Ht Hi Hn] Hr Hx.
  assert (G : forall {A} (g : JobRow -> A), NoDup (map g rows) -> (forall x, x ∈ rows -> g x <> g r) ->
    NoDup (map g (rows ++ [r]))).
  { intros A g Hg Hne. rewrite map_app. apply list.NoDup_app. repeat split; [done| |apply NoDup_singleton].
    intros y (x & -> & Hin)%list_elem_of_fmap Hy%list_elem_of_singleton. by destruct (Hne x Hin). }
  split; [apply G; [done|by intros x [? ?]%Hx]|apply G; [done|by intros x [? ?]%Hx]|].
  intros x [Hin | ->%list_elem_of_singleton]%elem_of_app; [specialize (Hn x Hin)|]; lia.
Qed.

Lemma ok_insert id task port server now : stmt_keeps db_ok (stmt_insert id task port server now).
Proof.
  intros [t|] r db'; [|done]. unfold stmt_insert, stmt_table. destruct (strconv_ParseInt port) as [p e].
  destruct e; try done. set (i := if id =? 0 then t_next t else id).
  destruct (existsb _ _) eqn:E; [done|]. intros [= _ <-] [U S N R].
  assert (Hi : i <> 0) by (unfold i; destruct (Z.eqb_spec id 0); lia).
  split; cbn [t_unique t_state t_next t_rows]; [done|done|lia|].
  apply (rows_ok_new _ _ (mkRow i task p server 0 0 None now None)); [done|exact Hi|]. cbn [r_id r_task].
  intros x Hx. rewrite <- not_true_iff_false in E. split; intros G; apply E, existsb_exists;
    exists x; (split; [by apply list_elem_of_In|]); rewrite G, ?U, ?Z.eqb_refl, ?String.eqb_refl; [done|apply orb_true_r].
Qed.
#[export] Hint Resolve ok_create ok_drop ok_add_state ok_update ok_delete_id ok_purge ok_insert : keep.

(** ** The operations keep it *)

Section Table.
Context `{Env} `{GoSort} `{GoRange}.

Lemma ok_warn l : KeepsDb db_ok (warn_super_read_only l).
Proof. unfold warn_super_read_only, serverJ. keep. Qed.
Lemma ok_CreateTable l : KeepsDb db_ok (JobsCreateTable l).
Proof. unfold JobsCreateTable, GetConnNoBinlog, clusterJ, serverJ. keep; apply ok_warn. Qed.
#[local] Hint Resolve ok_warn ok_CreateTable : keep.
Lemma ok_UpdateEntries l : KeepsDb db_ok (JobsUpdateEntries l).
Proof. unfold JobsUpdateEntries, loadTask, SetNeedRefreshJobs. keep. Qed.
Lemma ok_GetTasksByState l args : KeepsDb db_ok (GetTasksByState l args).
Proof. unfold GetTasksByState. keep. Qed.
Lemma ok_insert_row t task port repmanhost : KeepsDb db_ok (insert_row t task port repmanhost).
Proof. unfold insert_row, SetNeedRefreshJobs. keep. Qed.
#[local] Hint Resolve ok_UpdateEntries ok_GetTasksByState ok_insert_row : keep.
Lemma ok_put_task task port host row : KeepsDb db_ok (put_task task port host row).
Proof. unfold put_task, storeTask. keep. Qed.
#[local] Hint Resolve ok_put_task : keep.
Lemma ok_InsertTask l task port repmanhost : KeepsDb db_ok (JobInsertTask l task port repmanhost).
Proof. unfold JobInsertTask, clusterJ, serverJ, GetConnNoBinlog. keep. Qed.
Lemma ok_UpdateState l task result state done : KeepsDb db_ok (JobsUpdateState l task result state done).
Proof.
  unfold JobsUpdateState, clusterJ, serverJ, GetConnNoBinlog, storeTask, SetNeedRefreshJobs. keep.
  apply ok_update. intros r. by destruct (done =? 1).
Qed.
Lemma ok_CheckRunning l logical : KeepsDb db_ok (JobsCheckRunning l logical).
Proof. unfold JobsCheckRunning, check_running, clusterJ, serverJ, GetConnNoBinlog. keep. Qed.
Lemma ok_CheckPending l : KeepsDb db_ok (JobsCheckPending l).
Proof. unfold JobsCheckPending, cancel_halted, SetNeedRefreshJobs, serverJ. keep; by apply ok_update. Qed.
Lemma ok_CheckErrors l : KeepsDb db_ok (JobsCheckErrors l).
Proof.
  unfold JobsCheckErrors, ExecQueryNoBinLog, SetNeedRefreshJobs, SetInReseed, GetConnNoBinlog, serverJ. keep.
Qed.
Lemma ok_AfterJob l task : KeepsDb db_ok (AfterJobProcess l task).
Proof. unfold AfterJobProcess, after_restore, finish_row, SetInReseed, serverJ. keep; by apply ok_update. Qed.
#[local] Hint Resolve ok_AfterJob ok_CheckErrors ok_CheckPending : keep.
Lemma ok_CheckFinished l : KeepsDb db_ok (JobsCheckFinished l).
Proof. unfold JobsCheckFinished, SetNeedRefreshJobs. keep. Qed.
#[local] Hint Resolve ok_CheckFinished : keep.
Lemma ok_CheckStates l : KeepsDb db_ok (JobsCheckStates l).
Proof.
  unfold JobsCheckStates, check_states, SetLoadingJobList, clusterJ, serverJ, GetConnNoBinlog. keep.
Qed.
Lemma ok_CancelTasks l force tasks : KeepsDb db_ok (JobsCancelTasks l force tasks).
Proof.
  unfold JobsCancelTasks, SetInReseed, SetNeedRefreshJobs, serverJ, GetConnNoBinlog. keep.
Qed.

(** What happens to the table of a server: the operations of the manager, the script of
    the host that writes into the rows, time, and faults. *)
Inductive jobs_step (l : loc) : JobsWorld -> JobsWorld -> Prop :=
| insert_step task port host w : jobs_step l w (snd (JobInsertTask l task port host w))
| update_step task result state done w : jobs_step l w (snd (JobsUpdateState l task result state done w))
| cancel_step force tasks w : jobs_step l w (snd (JobsCancelTasks l force tasks w))
| states_step w : jobs_step l w (snd (JobsCheckStates l w))
| running_step logical w : jobs_step l w (snd (JobsCheckRunning l logical w))
| script_step p f w : (forall r, r_id (f r) = r_id r /\ r_task (f r) = r_task r) ->
    jobs_step l w (set_j_db ((fun t => with_rows (update_rows p f (t_rows t)) t) <$> j_db w) w)
| time_step now w : jobs_step l w (set_j_now now w)
| faults_step fs w : jobs_step l w (set_j_faults fs w)
| elsewhere_step x w : jobs_step l w (set_j_world x w).

Lemma jobs_step_ok l w w' : jobs_step l w w' -> db_ok (j_db w) -> db_ok (j_db w').
Proof.
  intros Hs Hw. destruct Hs.
  - by apply ok_InsertTask.
  - by apply ok_UpdateState.
  - by apply ok_CancelTasks.
  - by apply ok_CheckStates.
  - by apply ok_CheckRunning.
  - simpl. destruct (j_db w) as [t|]; [|done]. apply table_ok_rows; [|done]. by apply rows_ok_update, has_rows.
  - done.
  - done.
  - done.
Qed.
End Table.


(** ** The row of a task *)

Lemma filter_all {A} (p : A -> bool) (l : list A) : (forall x, x ∈ l -> p x = true) -> List.filter p l = l.
Proof.
  induction l as [|x l IH]; intros Hp; simpl; [done|]. rewrite (Hp x) by left. f_equal. apply IH. intros y Hy. apply Hp. by right.
Qed.
Lemma filter_unique {A B} (g : A -> B) (p : A -> bool) (l : list A) x :
  NoDup (map g l) -> x ∈ l -> (forall y, p y = true <-> g y = g x) -> List.filter p l = [x].
Proof.
  intros Hn Hx Hp. induction l as [|y l IH]; [by apply not_elem_of_nil in Hx|].
  cbn in Hn. apply list.NoDup_cons in Hn as [Ny Hn]. simpl. apply elem_of_cons in Hx as [<-|Hx].
  - rewrite (proj2 (Hp x) eq_refl). f_equal. apply filter_none. intros z Hz%list_elem_of_In. apply not_true_iff_false.
    intros E%Hp. apply Ny. apply list_elem_of_fmap. by exists z.
  - assert (Ey : p y = false); [|rewrite Ey; by apply IH]. apply not_true_iff_false. intros E%Hp.
    apply Ny. apply list_elem_of_fmap. by exists x.
Qed.

Lemma NoDup_map_inj {A B} (g : A -> B) (l : list A) x y : NoDup (map g l) -> x ∈ l -> y ∈ l -> g x = g y -> x = y.
Proof.
  induction l as [|z l IH]; [by intros _ Hx%not_elem_of_nil|]. cbn. intros [Nz Hl]%list.NoDup_cons.
  intros [-> | Hx]%elem_of_cons [-> | Hy]%elem_of_cons E; [done| | |by apply IH]; destruct Nz; apply list_elem_of_fmap; eauto.
Qed.

Definition task_free (task : string) (rows : list JobRow) : Prop := forall r, r ∈ rows -> r_task r <> task.

Lemma own_rows n rows r : rows_ok n rows -> r ∈ rows -> List.filter (fun x => (r_task x =? r_task r)%string) rows = [r].
Proof. intros R Hr. apply (filter_unique r_task); [by destruct R|done|]. intros y. apply String.eqb_eq. Qed.
Lemma last_of_task_some n rows r : rows_ok n rows -> r ∈ rows -> last_of_task (r_task r) rows = Some r.
Proof. intros R Hr. unfold last_of_task. rewrite (own_rows n) by done. simpl. by rewrite Z.eqb_refl. Qed.
Lemma last_of_task_none task rows : task_free task rows -> last_of_task task rows = None.
Proof.
  intros Hf. unfold last_of_task. rewrite filter_none; [done|]. intros x Hx%list_elem_of_In. by apply String.eqb_neq, Hf.
Qed.
Lemma last_of_task_in task rows r : last_of_task task rows = Some r -> r ∈ rows /\ r_task r = task.
Proof.
  intros [Hin _]%find_some. apply filter_In in Hin as [Hin Et%String.eqb_eq]. split; [by apply list_elem_of_In|done].
Qed.
Lemma task_free_dec task rows : task_free task rows \/ exists r, r ∈ rows /\ r_task r = task.
Proof.
  destruct (List.existsb (fun r => (r_task r =? task)%string) rows) eqn:E.
  - right. apply existsb_exists in E as (r & Hr & Et%String.eqb_eq). exists r. split; [by apply list_elem_of_In|done].
  - left. intros r Hr Et%String.eqb_eq. rewrite <- not_true_iff_false in E. apply E, existsb_exists.
    exists r. split; [by apply list_elem_of_In|done].
Qed.

(** ** A new job *)

Section Insert.
Context `{Env} `{GoSort} `{GoRange}.
Context (t : JobsTable) (Ht : table_ok t).
Let same (w : JobsWorld) : Prop := j_db w = Some t.
Context (X : JobsWorld -> Prop) (HX : forall w, same w -> X w).

Lemma ends_same_lift {A} (m : M A) w (Q : A -> JobsWorld -> Prop) :
  same w -> (forall a w', same w' -> j_faults w' = j_faults w -> j_JobResults w' = j_JobResults w -> Q a w') ->
  ends (lift m) w (post X Q).
Proof. intros Hw HQ. apply ends_lift; [by intros x; apply HX|]. intros a. by apply HQ. Qed.

(** A statement that leaves the table as it is. *)
Lemma ends_same {R} (sem : Stmt R) w (Q : option R -> JobsWorld -> Prop) :
  same w -> (forall r db, sem (Some t) = Some (r, db) -> db = Some t) ->
  (forall r w', same w' -> j_faults w' = tail (j_faults w) -> j_JobResults w' = j_JobResults w ->
     (forall x, r = Some x -> exists db, sem (Some t) = Some (x, db)) ->
     (head (j_faults w) = None \/ head (j_faults w) = Some Fine -> forall x db, sem (Some t) = Some (x, db) -> r = Some x) ->
     Q r w') ->
  ends (statement sem) w (post X Q).
Proof.
  intros Hw Hs HQ. unfold ends, statement. cbn [j_db set_j_faults]. rewrite Hw.
  destruct (head (j_faults w)) as [[]|] eqn:Ef; simpl; (destruct (sem (Some t)) as [[r db]|] eqn:E; simpl;
    [specialize (Hs _ _ eq_refl) as ->|]); apply HQ; try done; try (intros x [= ->]; by eauto);
    try (by intros [?|?] ? ? ?; simplify_eq).
Qed.

(** The table is made only where there is none, provided its unique key can be read. *)
Lemma createTable_same l w :
  same w -> nth 3 (j_faults w) Fine = Fine -> ends (JobsCreateTable l) w (post X (fun _ w' => same w')).
Proof.
  intros Hw Hf. unfold JobsCreateTable, clusterJ, serverJ, warn_super_read_only.
  apply ends_bind, ends_same_lift; [done|]. intros c w1 D1 F1 _.
  apply ends_bind, ends_same_lift; [done|]. intros s w2 D2 F2 _.
  destruct (IsDown s || cl_IsInFailover c); [by apply ends_ret|].
  destruct (negb (srv_Conn s)); [by apply ends_ret|].
  unfold GetConnNoBinlog. apply ends_bind, ends_bind, ends_same; [done|by intros r db [= _ <-]|].
  intros ok w3 D3 F3 _ _ _. apply ends_ret. destruct (negb (negb (failed ok))); [by apply ends_ret|].
  apply ends_bind, ends_same_lift; [done|]. intros [] w4 D4 F4 _.
  { apply ends_bind, ends_bind, ends_same_lift; [done|]. intros s' w5 D5 F5 _.
    apply ends_same_lift; [done|]. intros [] w6 D6 _ _. by apply ends_ret. }
  apply ends_bind, ends_same; [done|by intros r db [= _ <-]|]. intros r5 w5 D5 F5 _ _ _.
  destruct (failed r5); [by apply ends_ret|].
  apply ends_bind, ends_same; [done|by intros r db [= _ <-]|]. intros r6 w6 D6 F6 _ _ _.
  destruct (failed r6); [by apply ends_ret|].
  apply ends_bind, ends_same; [done|by intros r db [= _ <-]|]. intros r7 w7 D7 F7 _ _ G7.
  assert (E7 : r7 = Some 1).
  { apply (G7 ltac:(rewrite F6, F5, F4, F3, F2, F1; destruct (j_faults w) as [|? [|? [|? [|? ?]]]]; simpl in *; subst; auto) 1 (Some t)).
    unfold stmt_count_unique, stmt_table. by rewrite (has_unique _ Ht). }
  rewrite E7. simpl. apply ends_bind, ends_ret. simpl.
  apply ends_bind, ends_same; [done|by intros r db [= _ <-]|]. intros r8 w8 D8 F8 _ G8 _.
  destruct r8 as [n|]; simpl; [|by apply ends_ret].
  destruct (G8 n eq_refl) as [db [= <- _]]. rewrite (has_state _ Ht). simpl. by apply ends_ret.
Qed.

(** The insertion itself: what was there stays there. *)
Definition kept (r : JobRow) (w : JobsWorld) : Prop := exists t', j_db w = Some t' /\ r ∈ t_rows t'.

Lemma insert_row_kept r tk task port host w :
  kept r w -> ends (insert_row tk task port host) w (post (kept r) (fun _ w' => kept r w')).
Proof.
  intros Hw. unfold insert_row, SetNeedRefreshJobs. apply ends_bind, ends_getJ. apply ends_bind, ends_statement.
  - intros id db E. apply ends_bind, ends_modJ, ends_ret. destruct Hw as (t' & E' & Hr). rewrite E' in E.
    unfold stmt_insert, stmt_table in E. destruct (strconv_ParseInt port) as [p []]; try done.
    destruct (existsb _ _); [done|]. injection E as <- <-. eexists. split; [done|]. simpl. by apply elem_of_app; left.
  - intros id db E. apply ends_ret. destruct Hw as (t' & E' & Hr). rewrite E' in E.
    unfold stmt_insert, stmt_table in E. destruct (strconv_ParseInt port) as [p []]; try done.
    destruct (existsb _ _); [done|]. injection E as <- <-. eexists. split; [done|]. simpl. by apply elem_of_app; left.
  - by apply ends_ret.
Qed.
End Insert.

Section InsertTask.
Context `{Env} `{GoSort} `{GoRange}.
Context (t : JobsTable) (Ht : table_ok t).

Lemma kept_same r w : r ∈ t_rows t -> j_db w = Some t -> kept r w.
Proof. intros Hr Hw. by exists t. Qed.

(** What the insertion says of a row of the table. *)
Definition spared (task : string) (r : JobRow) (res : Z * Err) (w : JobsWorld) : Prop :=
  kept r w /\ (r_task r = task -> snd res <> None).

Lemma ends_loadOrStore (X : JobsWorld -> Prop) task tk w (Q : Task * bool -> JobsWorld -> Prop) :
  (forall x m, Q x (set_j_JobResults m w)) -> Q (default tk (j_JobResults w !! task), true) w ->
  ends (loadOrStore task tk) w (post X Q).
Proof. intros HQ HQ'. unfold ends, loadOrStore. by destruct (_ !! _); simpl. Qed.

(** The row that is replaced is another one. *)
Lemma put_task_spares task port host r w :
  j_db w = Some t -> r ∈ t_rows t -> (r_task r = task -> in_progress r = true) ->
  ends (put_task task port host (last_of_task task (t_rows t))) w (post (kept r) (spared task r)).
Proof.
  intros Hw Hr Hp. assert (R : rows_ok (t_next t) (t_rows t)) by by destruct Ht.
  unfold put_task. apply ends_bind, ends_getJ. apply ends_bind.
  eapply ends_weaken with (Q := fun _ w' => j_db w' = Some t); [by apply ends_loadOrStore|]. intros tx w1 D1.
  destruct (last_of_task task (t_rows t)) as [r'|] eqn:El.
  2: { eapply ends_weaken; [apply insert_row_kept; by apply kept_same|]. intros res w8 K. split; [done|].
       intros <-. by rewrite (last_of_task_some (t_next t)) in El. }
  unfold storeTask. apply ends_bind, ends_modJ. destruct (in_progress r') eqn:Ep.
  { apply ends_ret. split; [by apply kept_same|done]. }
  assert (Hne : r_task r <> task).
  { intros E. rewrite <- E, (last_of_task_some (t_next t)) in El by done. injection El as <-. by rewrite Hp in Ep. }
  assert (Hid : r_id r <> r_id r').
  { apply last_of_task_in in El as [Hr' <-]. intros E. apply Hne. f_equal. by apply (NoDup_map_inj r_id (t_rows t)); [destruct R|..]. }
  assert (HK : forall w', j_db w' = Some (with_rows (List.filter (fun x => negb (r_id x =? r_id r')) (t_rows t)) t) -> kept r w').
  { intros w' D. eexists. split; [exact D|]. simpl. apply list_elem_of_In, filter_In. split; [by apply list_elem_of_In|].
    by apply negb_true_iff, Z.eqb_neq. }
  apply ends_bind, ends_statement; simpl; rewrite ?D1; [intros r0 db0 [= _ <-]; simpl..|].
  - eapply ends_weaken; [apply insert_row_kept; by apply HK|]. intros res w8 K. by split.
  - apply ends_ret. split; [by apply HK|done].
  - apply ends_ret. split; [by apply kept_same|done].
Qed.

Lemma InsertTask_spares l task port host r w :
  j_db w = Some t -> nth 3 (j_faults w) Fine = Fine -> r ∈ t_rows t -> (r_task r = task -> in_progress r = true) ->
  ends (JobInsertTask l task port host) w (post (kept r) (spared task r)).
Proof.
  intros Hw Hf Hr Hp. set (X := kept r). assert (HX : forall w, j_db w = Some t -> X w) by (intros; by apply kept_same).
  assert (HE : forall w' e, j_db w' = Some t -> ends (mret (0, Some e) : J (Z * Err)) w' (post X (spared task r)))
    by (intros w' e D; apply ends_ret; split; [by apply HX|done]).
  unfold JobInsertTask, clusterJ, serverJ, warn_super_read_only, GetConnNoBinlog.
  apply ends_bind, (ends_same_lift t); [done..|]. intros c w1 D1 F1 _.
  apply ends_bind, (ends_same_lift t); [done..|]. intros s w2 D2 F2 _.
  destruct (cl_InRollingRestart c); [by apply HE|]. destruct (cl_IsInFailover c); [by apply HE|].
  apply ends_bind, (ends_same_lift t); [done..|]. intros [] w3 D3 F3 _.
  { apply ends_bind, ends_bind, (ends_same_lift t); [done..|]. intros s' w4 D4 F4 _.
    apply (ends_same_lift t); [done..|]. intros [] w5 D5 _ _. by apply HE. }
  destruct (negb (srv_Conn s)); [by apply HE|].
  apply ends_bind. eapply ends_weaken; [apply (createTable_same t Ht X HX); [done|by rewrite F3, F2, F1]|].
  intros e0 w4 D4. apply ends_bind, ends_bind, (ends_same t); [done|by intros ? ? [= _ <-]|].
  intros ok w5 D5 _ _ _ _. apply ends_ret. destruct (negb (negb (failed ok))); [by apply HE|].
  destruct (task =? "")%string; [by apply HE|].
  assert (Es : forall x db, stmt_select (last_of_task task) (Some t) = Some (x, db) -> x = last_of_task task (t_rows t) /\ db = Some t).
  { intros x db. unfold stmt_select, stmt_state, stmt_table. rewrite (has_state _ Ht). by intros [= <- <-]. }
  apply ends_bind, (ends_same t); [done|by intros x db []%Es|]. intros row w6 D6 _ _ G6 _.
  destruct row as [row|]; [|by apply HE]. destruct (G6 row eq_refl) as [db [-> _]%Es].
  by apply put_task_spares.
Qed.
End InsertTask.

(** C27: When a job is asked for, the table keeps every job of another task, and the job of
    the same task while that one is in progress; then the request is refused. This holds
    whatever statements fail or go unseen, if the key of the table could be read. *)
Theorem insert_spares_jobs `{Env} `{GoSort} `{GoRange} l task port host w t :
  j_db w = Some t -> table_ok t -> nth 3 (j_faults w) Fine = Fine ->
  let run := JobInsertTask l task port host w in
  forall r, r ∈ t_rows t -> r_task r <> task \/ in_progress r = true ->
    (exists t', j_db (snd run) = Some t' /\ r ∈ t_rows t') /\
    (r_task r = task -> forall id, fst run <> Ret (id, None)).
Proof.
  intros Hw Ht Hf run r Hr Hp.
  assert (G := InsertTask_spares t Ht l task port host r w Hw Hf Hr ltac:(tauto)). unfold ends in G. fold run in G.
  destruct (fst run) as [[id e]| |]; simpl in G; [destruct G as [K G]|..]; (split; [assumption|]); [|done|done].
  intros E id' [= -> ->]. by apply G.
Qed.
