(* ===== verification/JobsChecks.v ===== *)
(** * A round of checks without faults

    What a round leaves of every row, of the copy of the table and of the reseeding mark
    when the database answers. *)

From Stdlib Require Import ZArith Lia Bool Ascii String.
From stdpp Require Import base list gmap strings functions sorting relations.
From S2P Require Import Prelude GoLib Version StateMachine Config Server Cluster Demo ServerOps Lands Jobs JobsProps.

Local Open Scope string_scope.
Local Open Scope list_scope.
Local Open Scope Z_scope.

(** ** A server that answers *)

Record answers (l : loc) (x : World) : Prop := {
  no_failover : cl_IsInFailover (w_cluster x) = false;
  no_rolling : cl_InRollingRestart (w_cluster x) = false;
  no_super : Conf_SuperReadOnly (cl_Conf (w_cluster x)) = false;
  has_conn : srv_Conn (w_heap x l) = true;
  is_up : IsDown (w_heap x l) = false
}.

(** What the jobs see of the manager. *)
Definition sight (l : loc) (x : World) : bool * bool * bool * ServerMonitor :=
  (cl_IsInFailover (w_cluster x), cl_InRollingRestart (w_cluster x), Conf_SuperReadOnly (cl_Conf (w_cluster x)), w_heap x l).
Lemma answers_sight l x x' : sight l x' = sight l x -> answers l x -> answers l x'.
Proof. intros [= E1 E2 E3 E4] [A1 A2 A3 A4 A5]. split; congruence. Qed.

(** The state of a round: the mark, the rows, the copy and whether it is to be renewed. *)
Record At (l : loc) (mark : string) (t : JobsTable) (res : gmap string Task) (need : bool) (now : Z) (pitr phys : bool)
    (w : JobsWorld) : Prop := {
  at_world : answers l (j_world w);
  at_mark : srv_IsReseeding (w_heap (j_world w) l) = mark;
  at_faults : j_faults w = [];
  at_db : j_db w = Some t;
  at_res : j_JobResults w = res;
  at_need : j_NeedRefreshJobs w = need;
  at_now : j_now w = now;
  at_pitr : j_IsInPITR w = pitr;
  at_physical : phys = true -> is_Some (j_PhysicalCompleted w)
}.

Section Checks.
Context `{Env} `{GoSort} `{GoRange}.
Context (l : loc) (now : Z) (pitr phys : bool).
Abbreviation at_ mark t res need := (At l mark t res need now pitr phys).
Let never (w : JobsWorld) : Prop := False.

Lemma ends_run {A} (m : J A) w (Q : A -> JobsWorld -> Prop) :
  ends m w (post never Q) -> exists a w', m w = (Ret a, w') /\ Q a w'.
Proof. unfold ends. destruct (m w) as [[a| |] w']; simpl; [eauto|done|done]. Qed.

Lemma runs_SetState key s : Runs (keeps (sight l)) (SetState key s).
Proof.
  apply runs_read. intros c. destruct (negb _); [|apply runs_ret, _].
  intros x. eexists _, _. split; [done|]. unfold keeps, sight, mod_sm, mod_cluster. cbn.
  unfold cl_IsInFailover, AddState. cbn. by destruct (heartbeats _ =? 0).
Qed.
Lemma runs_call {R} (c : Call R) : Runs (keeps (sight l)) (call c).
Proof. intros x. by eexists _, _. Qed.
Lemma runs_StartSlave : Runs (keeps (sight l)) (StartSlave l).
Proof.
  apply runs_read. intros c. apply runs_read. intros s. destruct (negb (srv_Conn s)); [apply runs_ret, _|apply runs_call].
Qed.

Lemma at_lift {A} (m : M A) mark t res need w (Q : A -> JobsWorld -> Prop) :
  Runs (keeps (sight l)) m -> at_ mark t res need w ->
  (forall a w', at_ mark t res need w' -> Q a w') -> ends (lift m) w (post never Q).
Proof.
  intros Hm [] HQ. destruct (Hm (j_world w)) as (a & x & E & K). unfold ends, lift. rewrite E. simpl. apply HQ.
  unfold keeps in K. split; cbn; try done; [by apply (answers_sight l (j_world w))|].
  unfold sight in K. injection K as _ _ _ K. by rewrite K.
Qed.
Lemma at_read {A} (f : World -> A) w (Q : A -> JobsWorld -> Prop) :
  Q (f (j_world w)) w -> ends (lift (fun x => (Ret (f x), x))) w (post never Q).
Proof. apply ends_read. Qed.
Lemma at_super w mark t res need (Q : bool -> JobsWorld -> Prop) :
  at_ mark t res need w -> Q false w -> ends (lift (super_read_only l)) w (post never Q).
Proof.
  intros [[_ _ A _ _]] HQ. unfold ends, lift, super_read_only. unfold mbind, M_bind, get_cluster, load. cbn.
  rewrite A. cbn. by destruct w.
Qed.
Lemma at_statement {R} (sem : Stmt R) w mark t res need r t' (Q : option R -> JobsWorld -> Prop) :
  at_ mark t res need w -> sem (Some t) = Some (r, Some t') ->
  (forall w', at_ mark t' res need w' -> Q (Some r) w') -> ends (statement sem) w (post never Q).
Proof.
  intros [A B C D E F G H' I] Hs HQ. apply (ends_fine _ _ _ r (Some t')); [done|by rewrite D|]. apply HQ. by split.
Qed.
Lemma at_conn w mark t res need (Q : bool -> JobsWorld -> Prop) :
  at_ mark t res need w -> (forall w', at_ mark t res need w' -> Q true w') -> ends GetConnNoBinlog w (post never Q).
Proof.
  intros Hw HQ. unfold GetConnNoBinlog. apply ends_bind. eapply at_statement; [done|done|]. intros w' Hw'.
  apply ends_ret. by apply HQ.
Qed.
Lemma at_SetNeed b w mark t res need (Q : unit -> JobsWorld -> Prop) :
  at_ mark t res need w -> (forall w', at_ mark t res b w' -> Q tt w') -> ends (SetNeedRefreshJobs b) w (post never Q).
Proof. intros [] HQ. unfold SetNeedRefreshJobs. apply ends_modJ, HQ. by split. Qed.
Lemma at_SetInReseed m w mark t res need (Q : unit -> JobsWorld -> Prop) :
  at_ mark t res need w -> (forall w', at_ m t res need w' -> Q tt w') -> ends (SetInReseed l m) w (post never Q).
Proof.
  intros [[A1 A2 A3 A4 A5] B C D E F G H' I] HQ. unfold SetInReseed, ends, lift, mod_server. simpl. apply HQ.
  split; cbn [j_world j_faults j_db j_JobResults j_NeedRefreshJobs j_now j_IsInPITR j_PhysicalCompleted set_j_world w_heap];
    try done; [split; cbn [w_cluster w_heap]; try done|]; by rewrite fn_lookup_insert.
Qed.

(** ** A job that is accepted *)

Lemma at_CreateTable w mark t res need (Q : Err -> JobsWorld -> Prop) :
  at_ mark t res need w -> table_ok t -> (forall w', at_ mark t res need w' -> Q None w') ->
  ends (JobsCreateTable l) w (post never Q).
Proof.
  intros Hw [U S _ _] HQ. unfold JobsCreateTable, clusterJ, serverJ.
  apply ends_bind, at_read. apply ends_bind, at_read.
  rewrite (is_up _ _ (at_world _ _ _ _ _ _ _ _ _ Hw)), (no_failover _ _ (at_world _ _ _ _ _ _ _ _ _ Hw)),
    (has_conn _ _ (at_world _ _ _ _ _ _ _ _ _ Hw)). simpl.
  apply ends_bind. eapply at_conn; [done|]. intros w1 K1. simpl.
  apply ends_bind. eapply at_super; [done|].
  apply ends_bind. eapply at_statement; [done|done|]. intros w2 K2. simpl.
  apply ends_bind. eapply at_statement; [done|done|]. intros w3 K3. simpl.
  apply ends_bind. eapply at_statement; [done|simpl; by rewrite U|]. intros w4 K4. simpl.
  apply ends_bind, ends_ret. simpl.
  apply ends_bind. eapply at_statement; [done|unfold stmt_count_state; by rewrite S|]. intros w5 K5. simpl.
  apply ends_ret. by apply HQ.
Qed.

(** The rows of other tasks are those with another identifier than the row of the task. *)
Lemma other_rows n rows r :
  rows_ok n rows -> r ∈ rows ->
  List.filter (fun x => negb (r_id x =? r_id r)) rows = List.filter (fun x => negb (r_task x =? r_task r)%string) rows.
Proof.
  intros [Ht Hi _] Hr. apply filter_ext_in. intros x Hx%list_elem_of_In. f_equal. apply eq_iff_eq_true.
  rewrite Z.eqb_eq, String.eqb_eq. split; intros E; [rewrite (NoDup_map_inj r_id rows x r)|rewrite (NoDup_map_inj r_task rows x r)]; done.
Qed.

(** The table after the insertion of a task without a row. *)
Definition inserted (id : Z) (task : string) (port : Z) (host : string) (rows : list JobRow) (t : JobsTable) : JobsTable :=
  mkTable (t_unique t) (t_state t) (Z.max (t_next t) (id + 1)) (rows ++ [mkRow id task port host 0 0 None now None]).

Lemma stmt_insert_new t rows tid task port p host :
  strconv_ParseInt port = (p, ErrNone) -> table_ok t -> (forall x, x ∈ rows -> x ∈ t_rows t) ->
  task_free task rows -> (tid = 0 \/ forall x, x ∈ rows -> r_id x <> tid) ->
  let id := if tid =? 0 then t_next t else tid in
  stmt_insert tid task port host now (Some (with_rows rows t)) = Some (id, Some (inserted id task p host rows t)).
Proof.
  intros Hp [U S N R] Hin Hf Hid. unfold stmt_insert, stmt_table. rewrite Hp. cbn [t_next t_rows with_rows t_unique t_state].
  cbv zeta. set (id := if tid =? 0 then t_next t else tid). destruct (existsb _ _) eqn:E; [|done]. exfalso.
  apply existsb_exists in E as (x & Hx%list_elem_of_In & [E%Z.eqb_eq|[_ E%String.eqb_eq]%andb_prop]%orb_prop); [|by apply (Hf x)].
  destruct (ids_given _ _ R x (Hin x Hx)) as [G1 G2]. subst id. destruct (Z.eqb_spec tid 0); [lia|].
  destruct Hid as [Hid|Hid]; [done|by apply (Hid x)].
Qed.

Lemma at_loadOrStore w mark t res need task tk (Q : Task * bool -> JobsWorld -> Prop) :
  at_ mark t res need w ->
  (forall w' b, at_ mark t (<[task := default tk (res !! task)]> res) need w' -> Q (default tk (res !! task), b) w') ->
  ends (loadOrStore task tk) w (post never Q).
Proof.
  intros [A B C D E F G H' I] HQ. unfold ends, loadOrStore. rewrite E. destruct (res !! task) as [tk'|] eqn:El; simpl; apply HQ.
  - rewrite insert_id by done. by split.
  - by split.
Qed.

(** The identifier in the copy, when the task has no row, is not another task's. *)
Definition id_ok (t : JobsTable) (res : gmap string Task) (task : string) : Prop :=
  forall tk, res !! task = Some tk -> tk_Id tk = 0 \/ forall x, x ∈ t_rows t -> r_id x = tk_Id tk -> r_task x = task.

Lemma at_insert_row w mark t rows res need tk task port p host (Q : Z * Err -> JobsWorld -> Prop) :
  at_ mark (with_rows rows t) res need w -> strconv_ParseInt port = (p, ErrNone) -> table_ok t ->
  (forall x, x ∈ rows -> x ∈ t_rows t) -> task_free task rows -> (tk_Id tk = 0 \/ forall x, x ∈ rows -> r_id x <> tk_Id tk) ->
  (forall w' id, id = (if tk_Id tk =? 0 then t_next t else tk_Id tk) ->
     at_ mark (inserted id task p host rows t) res true w' -> Q (id, None) w') ->
  ends (insert_row tk task port host) w (post never Q).
Proof.
  intros Hw Hp Ht Hin Hf Hid HQ. unfold insert_row. apply ends_bind, ends_getJ. rewrite (at_now _ _ _ _ _ _ _ _ _ Hw).
  apply ends_bind. eapply at_statement; [done|by apply stmt_insert_new|]. intros w1 K1.
  apply ends_bind. eapply at_SetNeed; [done|]. intros w2 K2. apply ends_ret. by apply HQ.
Qed.

Definition own_id (t : JobsTable) (res : gmap string Task) (task : string) : Z :=
  match last_of_task task (t_rows t) with
  | Some r => r_id r
  | None => match res !! task with Some tk => if tk_Id tk =? 0 then t_next t else tk_Id tk | None => t_next t end
  end.
Definition rest (task : string) (t : JobsTable) : list JobRow := List.filter (fun x => negb (r_task x =? task)%string) (t_rows t).

Lemma at_put_task w mark t res need task port p host (Q : Z * Err -> JobsWorld -> Prop) :
  at_ mark t res need w -> table_ok t -> id_ok t res task -> strconv_ParseInt port = (p, ErrNone) ->
  (forall r, r ∈ t_rows t -> r_task r = task -> in_progress r = false) ->
  (forall w' res', at_ mark (inserted (own_id t res task) task p host (rest task t) t) res' true w' ->
     Q (own_id t res task, None) w') ->
  ends (put_task task port host (last_of_task task (t_rows t))) w (post never Q).
Proof.
  intros Hw Ht Hid Hp Hd HQ. assert (R : rows_ok (t_next t) (t_rows t)) by by destruct Ht.
  assert (Hsub : forall x, x ∈ rest task t -> x ∈ t_rows t) by (intros x; apply elem_of_filter_l).
  assert (Hfree : task_free task (rest task t))
    by (intros x [_ G%negb_true_iff%String.eqb_neq]%list_elem_of_In%filter_In; done).
  unfold put_task, own_id in *. apply ends_bind, ends_getJ. apply ends_bind.
  eapply at_loadOrStore; [done|]. intros w1 b K1. simpl. set (tk := default _ _) in *.
  destruct (last_of_task task (t_rows t)) as [r|] eqn:El.
  - apply last_of_task_in in El as [Hr Et]. unfold storeTask. apply ends_bind, ends_modJ.
    rewrite (Hd r) by done. set (w2 := set_j_JobResults _ w1).
    assert (K2 : exists res2, at_ mark t res2 need w2) by (destruct K1; eexists; split; try done).
    destruct K2 as [res2 K2]. apply ends_bind. eapply at_statement; [done|done|]. intros w3 K3. simpl.
    assert (Eo : List.filter (fun x => negb (r_id x =? r_id r)) (t_rows t) = rest task t)
      by (rewrite (other_rows (t_next t)) by done; by rewrite Et).
    rewrite Eo in K3. eapply at_insert_row; [exact K3|done..| |].
    + right. intros x Hx. cbn. intros E. apply (Hfree x Hx). rewrite <- Et. f_equal.
      apply (NoDup_map_inj r_id (t_rows t)); [by destruct R|by apply Hsub|done|done].
    + intros w4 id -> K4. cbn in *. destruct (ids_given _ _ R r Hr) as [G _].
      rewrite (proj2 (Z.eqb_neq _ _) G) in *. by eapply HQ.
  - assert (Er : rest task t = t_rows t).
    { apply filter_all. intros x Hx. apply negb_true_iff, String.eqb_neq. intros <-.
      by rewrite (last_of_task_some (t_next t)) in El. }
    assert (Ew : t = with_rows (rest task t) t) by (rewrite Er; by destruct t).
    rewrite Ew in K1. eapply at_insert_row; [exact K1|done..| |].
    + unfold tk. destruct (res !! task) as [tk'|] eqn:Ek; [|by left]. simpl.
      destruct (Hid tk' Ek) as [E|E]; [by left|right]. intros x Hx Ex. apply (Hfree x Hx), E; [by apply Hsub|done].
    + intros w2 id -> K2. unfold tk in *. destruct (res !! task) as [tk'|]; simpl in *; by eapply HQ.
Qed.

Lemma at_InsertTask w mark t res need task port p host (Q : Z * Err -> JobsWorld -> Prop) :
  at_ mark t res need w -> table_ok t -> id_ok t res task -> strconv_ParseInt port = (p, ErrNone) -> task <> "" ->
  (forall r, r ∈ t_rows t -> r_task r = task -> in_progress r = false) ->
  (forall w' res', at_ mark (inserted (own_id t res task) task p host (rest task t) t) res' true w' ->
     Q (own_id t res task, None) w') ->
  ends (JobInsertTask l task port host) w (post never Q).
Proof.
  intros Hw Ht Hid Hp Hne Hd HQ. assert (A := at_world _ _ _ _ _ _ _ _ _ Hw).
  unfold JobInsertTask, clusterJ, serverJ. apply ends_bind, at_read. apply ends_bind, at_read.
  rewrite (no_rolling _ _ A), (no_failover _ _ A), (has_conn _ _ A). simpl.
  apply ends_bind. eapply at_super; [done|]. simpl.
  apply ends_bind. eapply at_CreateTable; [done|done|]. intros w1 K1.
  apply ends_bind. eapply at_conn; [done|]. intros w2 K2. simpl.
  apply String.eqb_neq in Hne. rewrite Hne.
  apply ends_bind. eapply at_statement; [done|unfold stmt_select, stmt_state, stmt_table; by rewrite (has_state _ Ht)|].
  intros w3 K3. by eapply at_put_task.
Qed.
End Checks.

(** A job that is not in progress and whose identifier is free is accepted by a server that answers:
    the row of the task is a new one that waits to be taken, with the identifier the
    task had, every other row is what it was, and the copy is to be renewed. *)
Theorem insert_new_job `{Env} `{GoSort} `{GoRange} l task port p host w t :
  answers l (j_world w) -> j_faults w = [] -> j_db w = Some t -> table_ok t -> task <> "" ->
  strconv_ParseInt port = (p, ErrNone) -> id_ok t (j_JobResults w) task ->
  (forall r, r ∈ t_rows t -> r_task r = task -> in_progress r = false) ->
  let id := own_id t (j_JobResults w) task in
  exists w', JobInsertTask l task port host w = (Ret (id, None), w') /\ j_NeedRefreshJobs w' = true /\
    exists t', j_db w' = Some t' /\ t_rows t' = rest task t ++ [mkRow id task p host 0 0 None (j_now w) None].
Proof.
  intros A F D Ht Hne Hp Hid Hd id.
  assert (Hw : At l _ t (j_JobResults w) (j_NeedRefreshJobs w) (j_now w) (j_IsInPITR w) false w) by by split.
  assert (G := at_InsertTask l _ _ _ w _ t _ _ task port p host
    (fun r w' => r = (id, None) /\ j_NeedRefreshJobs w' = true /\ exists t', j_db w' = Some t' /\
       t_rows t' = rest task t ++ [mkRow id task p host 0 0 None (j_now w) None])
    Hw Ht Hid Hp Hne Hd).
  apply ends_run in G as (r & w' & E & -> & G); [by exists w'|].
  intros w2 res' []. split; [done|]. split; [done|]. eexists. by split.
Qed.

(** ** What a round makes of a row *)

Definition to_finish (r : JobRow) : bool := (r_state r =? JobStateFinished) && (r_done r =? 1).
Definition finish_as (state : Z) (text : string) (r : JobRow) : JobRow :=
  row_state state (row_result ((fun x => x +:+ text) <$> r_result r) r).

(** A finished job is a success, or what follows its restore failed. *)
Definition finished (pitr : bool) (r r' : JobRow) : Prop :=
  if to_finish r
  then
    r' = finish_as JobStateSuccess (if is_physical (r_task r) then "Backup completed" else "") r \/
    (restores_physical (r_task r) = true /\ pitr = false /\ exists msg, r' = finish_as JobStateErrorAfter (newline +:+ msg) r)
  else r' = r.
Definition noticed (r : JobRow) : JobRow := if stopped_in_error r then row_done 1 r else r.
(** When nothing is restored: jobs nobody took, and restores the manager left halted. *)
Definition timed_out (now : Z) (r : JobRow) : JobRow :=
  if pending_timeout now r then end_in_error now "Timeout waiting for job to start" r else r.
Definition halted (r : JobRow) : bool := (r_state r =? JobStateHalted) && restores (r_task r).
Definition given_up (now : Z) (r : JobRow) : JobRow :=
  let r := timed_out now r in if halted r then end_in_error now manager_was_down r else r.


Section Round.
Context `{Env} `{GoSort} `{GoRange}.
Context (l : loc) (now : Z) (pitr : bool).
Abbreviation at_ mark t res need := (At l mark t res need now pitr true).
Let never (w : JobsWorld) : Prop := False.

Lemma remove_dups_id {A} `{EqDecision A} (xs : list A) : NoDup xs -> remove_dups xs = xs.
Proof. induction 1 as [|x xs Hx _ IH]; simpl; [done|]. destruct (decide_rel _ x xs); [done|by rewrite IH]. Qed.

Definition task_of (r : JobRow) : DBTask := mkDBTask (r_task r) 1 (r_id r).
Lemma group_tasks_rows n p rows : rows_ok n rows -> group_tasks p rows = map task_of (List.filter p rows).
Proof.
  intros R. unfold group_tasks. apply (rows_ok_filter _ p) in R. rewrite remove_dups_id by by destruct R.
  rewrite map_map. apply map_ext_in. intros r Hr%list_elem_of_In. by rewrite (own_rows n).
Qed.

(** The selection of [GetTasksByState]. *)
Definition selected (args : list Z) (r : JobRow) : bool :=
  match args with
  | [state] => r_state r =? state
  | [state; done] => (r_state r =? state) && (r_done r =? done)
  | _ => true
  end.
Lemma at_GetTasks w mark t res need args (Q : list DBTask * Err -> JobsWorld -> Prop) :
  at_ mark t res need w -> table_ok t -> (0 < length args <= 2)%nat ->
  (forall w', at_ mark t res need w' -> Q (map task_of (List.filter (selected args) (t_rows t)), None) w') ->
  ends (GetTasksByState l args) w (post never Q).
Proof.
  intros Hw Ht [L1 L2] HQ. unfold GetTasksByState.
  rewrite (proj2 (Nat.ltb_ge 2 (length args)) L2), (proj2 (Nat.ltb_lt 0 (length args)) L1).
  apply ends_bind. eapply at_statement; [done|unfold stmt_select, stmt_state, stmt_table; by rewrite (has_state _ Ht)|].
  intros w1 K1. apply ends_bind, ends_ret. cbn [post]. apply ends_ret.
  fold (selected args). rewrite (group_tasks_rows (t_next t)) by by destruct Ht.
  rewrite filter_all; [by apply HQ|]. by intros x (r & -> & _)%list_elem_of_fmap.
Qed.

(** *** Finished jobs *)

(** The rows when those with the identifiers [ids] have been dealt with. *)
Definition partly (ids : list Z) (rows : list JobRow) : list JobRow -> Prop :=
  Forall2 (fun r r' => r ∈ rows /\ (if bool_decide (r_id r ∈ ids) then finished pitr r r' else r' = r)) rows.

Lemma finished_id r r' : finished pitr r r' -> r_id r' = r_id r.
Proof. unfold finished. destruct (to_finish r); [intros [-> | (_ & _ & msg & ->)]; done|by intros ->]. Qed.

(** One more row. *)
Definition finish_rows (r : JobRow) (state : Z) (text : string) : list JobRow -> list JobRow :=
  update_rows (fun x => (r_id x =? r_id r) && (r_done x =? 1) && (r_state x =? JobStateFinished)) (finish_as state text).
Lemma partly_step ids rows rows' r state text :
  NoDup (map r_id rows) -> r ∈ rows -> r_id r ∉ ids -> to_finish r = true ->
  finished pitr r (finish_as state text r) -> partly ids rows rows' ->
  partly (r_id r :: ids) rows (finish_rows r state text rows').
Proof.
  intros Hn Hr Hi Hfin Hto HP. unfold partly, finish_rows, update_rows in *. apply Forall2_fmap_r. eapply Forall2_impl; [exact HP|].
  intros x x' [Hx Rx]. split; [done|]. destruct (Z.eqb_spec (r_id x) (r_id r)) as [E|E].
  - assert (x = r) as -> by by apply (NoDup_map_inj r_id rows). rewrite bool_decide_eq_false_2 in Rx by done. subst x'.
    rewrite bool_decide_eq_true_2 by by left. unfold to_finish in Hfin. apply andb_prop in Hfin as [F1 F2].
    by rewrite Z.eqb_refl, F1, F2.
  - assert (Ex : r_id x' = r_id x) by (destruct (bool_decide _); [by apply finished_id in Rx|by subst]).
    rewrite (proj2 (Z.eqb_neq (r_id x') (r_id r))) by congruence. simpl.
    assert (Eb : bool_decide (r_id x ∈ r_id r :: ids) = bool_decide (r_id x ∈ ids)); [|by rewrite Eb].
    apply bool_decide_ext. rewrite elem_of_cons. tauto.
Qed.

Definition of_mark (mark : string) (r : JobRow) : bool := restores_physical (r_task r) && (mark =? r_task r)%string.
Definition release (mark : string) (rs : list JobRow) : string := if existsb (of_mark mark) rs then "" else mark.
Lemma release_cons mark r rs :
  Forall (fun x => r_task x <> "") rs -> release mark (r :: rs) = release (if of_mark mark r then "" else mark) rs.
Proof.
  intros Hrs. unfold release. simpl. destruct (of_mark mark r); [|done]. simpl.
  by destruct (existsb (of_mark "") rs).
Qed.

Lemma at_finish_row w mark t rows res need r state text (Q : option Z -> JobsWorld -> Prop) :
  at_ mark (with_rows rows t) res need w -> t_state t = true ->
  (forall w' n, at_ mark (with_rows (finish_rows r state text rows) t)
     res need w' -> Q (Some n) w') ->
  ends (statement (finish_row (r_id r) state text)) w (post never Q).
Proof.
  intros Hw Hs HQ. eapply at_statement; [done| |].
  - unfold finish_row, stmt_update, stmt_state, stmt_table. cbn [with_rows t_state]. by rewrite Hs.
  - intros w' Hw'. by apply HQ.
Qed.

(** What follows a restore, and the mark that is released on return. *)
Lemma at_after_restore w mark t rows res need r (Q : Err -> JobsWorld -> Prop) :
  at_ mark (with_rows rows t) res need w -> t_state t = true -> to_finish r = true ->
  is_physical (r_task r) = false -> restores_physical (r_task r) = true ->
  (forall e state text w', finished pitr r (finish_as state text r) ->
     at_ (if (mark =? r_task r)%string then "" else mark) (with_rows (finish_rows r state text rows) t) res need w' -> Q e w') ->
  ends (e ← after_restore l;
        (match e with
         | None => statement (finish_row (r_id r) JobStateSuccess "") ;; mret tt
         | Some msg => s' ← serverJ l; whenJ (srv_Conn s') (statement (finish_row (r_id r) JobStateErrorAfter (newline +:+ msg)) ;; mret tt)
         end) ;; whenJ (mark =? r_task r)%string (SetInReseed l "") ;; mret e) w (post never Q).
Proof.
  intros Hw Hs Hf Ep Er HQ. apply ends_bind.
  eapply ends_weaken with (Q := fun e w' => at_ mark (with_rows rows t) res need w' /\ (e = None \/ pitr = false)).
  { unfold after_restore. apply ends_bind, ends_getJ. rewrite (at_pitr _ _ _ _ _ _ _ _ _ Hw).
    destruct pitr; [apply ends_ret; by auto|]. eapply at_lift; [apply runs_StartSlave|done|]. by auto. }
  intros e w1 [K1 He]. apply ends_bind.
  eapply ends_weaken with (Q := fun _ w' => exists state text,
    finished pitr r (finish_as state text r) /\ at_ mark (with_rows (finish_rows r state text rows) t) res need w').
  { unfold finished. rewrite Hf, Ep, Er. destruct e as [msg|].
    - destruct He as [|He]; [done|]. apply ends_bind, at_read. rewrite (has_conn _ _ (at_world _ _ _ _ _ _ _ _ _ K1)).
      apply ends_bind. eapply at_finish_row; [done..|]. intros w2 n K2. apply ends_ret. do 2 eexists. split; [|exact K2]. eauto.
    - apply ends_bind. eapply at_finish_row; [done..|]. intros w2 n K2. apply ends_ret. do 2 eexists. split; [|exact K2]. by left. }
  intros [] w2 (state & text & Hto & K2). apply ends_bind. destruct (mark =? r_task r)%string; simpl.
  - eapply at_SetInReseed; [done|]. intros w3 K3. apply ends_ret. by eapply HQ.
  - apply ends_ret. by eapply HQ.
Qed.

Lemma physical_no_restore task : is_physical task = true -> restores_physical task = false.
Proof. by intros [->%String.eqb_eq | ->%String.eqb_eq]%orb_prop. Qed.

Lemma at_AfterJob w mark t rows rows0 ids res need r (Q : Err -> JobsWorld -> Prop) :
  at_ mark (with_rows rows t) res need w -> t_state t = true -> NoDup (map r_id rows0) ->
  r ∈ rows0 -> r_id r ∉ ids -> to_finish r = true -> r_task r <> "" -> partly ids rows0 rows ->
  (forall e w' rows', partly (r_id r :: ids) rows0 rows' ->
     at_ (if of_mark mark r then "" else mark) (with_rows rows' t) res need w' -> Q e w') ->
  ends (AfterJobProcess l (task_of r)) w (post never Q).
Proof.
  intros Hw Hs Hn Hr Hi Hf Hne HP HQ. unfold AfterJobProcess, serverJ. cbn [dt_task dt_id task_of].
  assert (Step : forall e state text w', finished pitr r (finish_as state text r) ->
    at_ (if of_mark mark r then "" else mark) (with_rows (finish_rows r state text rows) t) res need w' -> Q e w').
  { intros e state text w' Hto Kw. eapply HQ; [|exact Kw]. by apply partly_step. }
  unfold of_mark in Step. apply String.eqb_neq in Hne. rewrite Hne.
  apply ends_bind, at_read. unfold HasReseedingState. rewrite (at_mark _ _ _ _ _ _ _ _ _ Hw).
  destruct (is_physical (r_task r)) eqn:Ep.
  - rewrite (physical_no_restore _ Ep) in Step. apply ends_bind. eapply at_lift; [apply runs_call|done|]. intros e w1 K1.
    apply ends_bind, ends_getJ. destruct (at_physical _ _ _ _ _ _ _ _ _ K1 eq_refl) as [b Eb].
    apply ends_bind. unfold ends, derefJ. rewrite Eb. simpl. apply ends_bind, ends_modJ.
    apply ends_bind. eapply at_finish_row; [destruct K1; by split|done|]. intros w2 n K2. apply ends_ret.
    eapply Step; [|exact K2]. unfold finished. rewrite Hf, Ep. by left.
  - destruct (restores_physical (r_task r)) eqn:Er; [by eapply at_after_restore|].
    apply ends_bind. eapply at_finish_row; [done..|]. intros w1 n K1. apply ends_ret.
    eapply Step; [|exact K1]. unfold finished. rewrite Hf, Ep. by left.
Qed.

Lemma partly_start rows : partly [] rows rows.
Proof.
  unfold partly. by apply Forall_Forall2_diag, Forall_forall.
Qed.
Lemma partly_whole rows rows' :
  partly (map r_id (List.filter to_finish rows)) rows rows' -> Forall2 (finished pitr) rows rows'.
Proof.
  intros HP. eapply Forall2_impl; [exact HP|]. intros r r' [Hr Hf]. destruct (bool_decide _) eqn:E; [done|].
  apply bool_decide_eq_false in E. unfold finished. destruct (to_finish r) eqn:Ef; [|done]. destruct E.
  apply list_elem_of_fmap. exists r. split; [done|]. apply list_elem_of_In, filter_In. by split; [apply list_elem_of_In|].
Qed.

Lemma at_finish_loop t rows0 res rs : 
  t_state t = true -> NoDup (map r_id rows0) -> Forall (fun r => r_task r <> "") rs -> NoDup (map r_id rs) ->
  (forall r, r ∈ rs -> r ∈ rows0 /\ to_finish r = true) ->
  forall w mark rows ids need (Q : unit -> JobsWorld -> Prop),
  at_ mark (with_rows rows t) res need w -> partly ids rows0 rows -> (forall r, r ∈ rs -> r_id r ∉ ids) ->
  (forall w' rows', partly (rev (map r_id rs) ++ ids) rows0 rows' ->
     at_ (release mark rs) (with_rows rows' t) res (need || negb (bool_decide (rs = []))) w' -> Q tt w') ->
  ends (forJ (map task_of rs) (fun task => AfterJobProcess l task ;; SetNeedRefreshJobs true)) w (post never Q).
Proof.
  intros Hs Hn. induction rs as [|r rs IH]; intros Hne Hnr Hin w mark rows ids need Q Hw HP Hids HQ.
  { simpl in *. apply ends_ret. eapply HQ; [exact HP|]. by rewrite orb_false_r. }
  apply Forall_cons_1 in Hne as [Hne Hnes]. cbn in Hnr. apply list.NoDup_cons in Hnr as [Hr Hnr].
  destruct (Hin r ltac:(by left)) as [Hr0 Hf]. simpl. apply ends_bind, ends_bind.
  eapply (at_AfterJob w mark t rows rows0 ids); [done|done|done|done|apply Hids; by left|done|done|done|].
  intros e w1 rows1 HP1 K1. eapply at_SetNeed; [done|]. intros w2 K2.
  eapply (IH Hnes Hnr); [intros x Hx; apply Hin; by right|exact K2|exact HP1| |].
  - intros x Hx [E|E]%elem_of_cons; [|by apply (Hids x); [right|]]. apply Hr. rewrite <- E. apply list_elem_of_fmap. by exists x.
  - intros w3 rows3 HP3 K3. eapply HQ; [|rewrite (release_cons mark r rs Hnes)].
    + simpl. rewrite <- app_assoc. exact HP3.
    + rewrite (bool_decide_eq_false_2 (r :: rs = [])) by done. by rewrite orb_true_r.
Qed.

(** The mark after a list of rows, and whether any row is of the kind. *)
Lemma release_filter mark p rows :
  release mark (List.filter p rows) = if existsb (fun r => of_mark mark r && p r) rows then "" else mark.
Proof.
  unfold release. enough (E : existsb (of_mark mark) (List.filter p rows) = existsb (fun r => of_mark mark r && p r) rows)
    by by rewrite E.
  apply eq_iff_eq_true. rewrite !existsb_exists. split.
  - intros (r & [Hr Hp]%filter_In & Hm). exists r. split; [done|]. by rewrite Hm, Hp.
  - intros (r & Hr & [Hm Hp]%andb_prop). exists r. by rewrite filter_In.
Qed.

Lemma at_CheckFinished w mark t res need (Q : Err -> JobsWorld -> Prop) :
  at_ mark t res need w -> table_ok t -> (forall r, r ∈ t_rows t -> r_task r <> "") ->
  (forall w' rows', Forall2 (finished pitr) (t_rows t) rows' ->
     at_ (release mark (List.filter to_finish (t_rows t))) (with_rows rows' t) res
       (need || negb (bool_decide (List.filter to_finish (t_rows t) = []))) w' -> Q None w') ->
  ends (JobsCheckFinished l) w (post never Q).
Proof.
  intros Hw Ht Hne HQ. assert (R : rows_ok (t_next t) (t_rows t)) by by destruct Ht. destruct R as [Rt Ri _].
  unfold JobsCheckFinished. apply ends_bind. eapply at_super; [done|]. simpl.
  apply ends_bind. eapply at_GetTasks; [done|done|simpl; lia|]. intros w1 K1. simpl.
  change (List.filter _ (t_rows t)) with (List.filter to_finish (t_rows t)).
  set (rs := List.filter to_finish (t_rows t)) in *.
  assert (Et : t = with_rows (t_rows t) t) by by destruct t.
  apply ends_bind. eapply (at_finish_loop t (t_rows t) res rs).
  - by destruct Ht.
  - done.
  - apply List.Forall_forall. intros r [Hr _]%filter_In. by apply Hne, list_elem_of_In.
  - by apply NoDup_map_filter.
  - intros r [Hr Hf]%list_elem_of_In%filter_In. by split; [apply list_elem_of_In|].
  - rewrite <- Et. exact K1.
  - apply partly_start.
  - by intros r _ []%not_elem_of_nil.
  - intros w2 rows' HP K2. apply ends_bind. eapply at_lift; [apply runs_call|exact K2|]. intros [] w3 K3.
    apply ends_ret. eapply HQ; [|exact K3]. apply partly_whole. eapply Forall2_impl; [exact HP|].
    intros r r' [Hr Hf]. split; [done|]. fold rs. rewrite app_nil_r in Hf.
    by rewrite (bool_decide_ext (r_id r ∈ map r_id rs) (r_id r ∈ rev (map r_id rs))) by (by rewrite !list_elem_of_In, <- in_rev).
Qed.

(** *** Jobs that stopped with an error *)

Lemma at_update w mark t rows res need p f (Q : option Z -> JobsWorld -> Prop) :
  at_ mark (with_rows rows t) res need w -> t_state t = true ->
  (forall w' n, at_ mark (with_rows (update_rows p f rows) t) res need w' -> Q (Some n) w') ->
  ends (statement (stmt_update p f)) w (post never Q).
Proof.
  intros Hw Hs HQ. eapply at_statement; [done| |].
  - unfold stmt_update, stmt_state, stmt_table. cbn [with_rows t_state]. by rewrite Hs.
  - intros w' Hw'. by apply HQ.
Qed.
Lemma at_forJ {A} (xs : list A) (f : A -> J unit) mark t res need w (Q : unit -> JobsWorld -> Prop) :
  (forall x w (Q : unit -> JobsWorld -> Prop), at_ mark t res need w -> (forall w', at_ mark t res need w' -> Q tt w') ->
     ends (f x) w (post never Q)) ->
  at_ mark t res need w -> (forall w', at_ mark t res need w' -> Q tt w') -> ends (forJ xs f) w (post never Q).
Proof.
  intros Hf. revert w Q. induction xs as [|x xs IH]; intros w Q Hw HQ; simpl; [by apply ends_ret, HQ|].
  apply ends_bind, Hf; [done|]. intros w1 K1. by apply IH.
Qed.

Lemma existsb_map {A B} (f : A -> B) p xs : existsb p (map f xs) = existsb (fun x => p (f x)) xs.
Proof. induction xs as [|x xs IH]; simpl; [done|by rewrite IH]. Qed.

Lemma noticed_rows rows :
  update_rows (fun r => stopped_in_error r && bool_decide (r_task r ∈ map r_task (List.filter stopped_in_error rows)))
    (row_done 1) rows = map noticed rows.
Proof.
  apply map_ext_in. intros r Hr. unfold noticed. destruct (stopped_in_error r) eqn:E; [|done].
  rewrite bool_decide_eq_true_2; [done|]. apply list_elem_of_fmap. exists r. split; [done|].
  by apply list_elem_of_In, filter_In.
Qed.

Lemma at_CheckErrors w mark t rows res need (Q : Err -> JobsWorld -> Prop) :
  at_ mark (with_rows rows t) res need w -> t_state t = true ->
  (forall w', at_ (release mark (List.filter stopped_in_error rows)) (with_rows (map noticed rows) t) res
     (need || negb (bool_decide (List.filter stopped_in_error rows = []))) w' -> Q None w') ->
  ends (JobsCheckErrors l) w (post never Q).
Proof.
  intros Hw Hs HQ. unfold JobsCheckErrors, serverJ. apply ends_bind.
  eapply at_statement; [done|unfold stmt_select, stmt_state, stmt_table; cbn [with_rows t_state]; by rewrite Hs|].
  intros w1 K1. apply ends_bind, ends_ret. cbn [t_rows with_rows]. pose proof (noticed_rows rows) as En.
  set (rs := List.filter stopped_in_error rows) in *. apply ends_bind, at_read.
  apply ends_bind. eapply at_forJ; [|exact K1|].
  { intros x w2 Q2 K2 HQ2. apply ends_whenJ; [|by intros _; apply HQ2]. intros _.
    eapply at_lift; [apply runs_SetState|exact K2|]. by intros []. }
  intros w2 K2. apply ends_bind.
  eapply ends_weaken with (Q := fun _ w' => at_ mark (with_rows (map noticed rows) t) res (need || negb (bool_decide (rs = []))) w').
  { destruct rs as [|r rs'] eqn:Er; cbn [length whenJ Nat.ltb Nat.leb].
    - apply ends_ret. rewrite bool_decide_eq_true_2, orb_false_r by done.
      replace (map noticed rows) with rows; [done|]. rewrite <- En. symmetry. unfold update_rows.
      rewrite <- (map_id rows) at 2. apply map_ext. intros r. rewrite bool_decide_eq_false_2, andb_false_r; [done|apply not_elem_of_nil].
    - unfold ExecQueryNoBinLog, serverJ. apply ends_bind, ends_bind, at_read.
      rewrite (has_conn _ _ (at_world _ _ _ _ _ _ _ _ _ K2)). cbn [negb]. apply ends_bind. eapply at_conn; [done|]. intros w3 K3. cbn [negb].
      apply ends_bind. eapply at_update; [done..|]. intros w4 n K4. apply ends_ret. eapply at_SetNeed; [exact K4|].
      intros w5 K5. rewrite bool_decide_eq_false_2, orb_true_r by done. rewrite <- En. exact K5. }
  intros [] w3 K3. apply ends_bind. rewrite existsb_map. unfold release in HQ.
  assert (Em : existsb (fun r => restores_physical (r_task r) && HasReseedingState (w_heap (j_world w1) l) (r_task r)) rs
               = existsb (of_mark mark) rs).
  { unfold of_mark, HasReseedingState. by rewrite (at_mark _ _ _ _ _ _ _ _ _ K1). }
  rewrite Em. destruct (existsb (of_mark mark) rs); simpl; [|by apply ends_ret, ends_ret, HQ].
  eapply at_SetInReseed; [done|]. intros w4 K4. by apply ends_ret, HQ.
Qed.

(** *** Jobs nobody took, and halted restores *)

Definition cancel_tasks (tasks : list string) : list JobRow -> list JobRow :=
  update_rows (fun r => bool_decide (r_task r ∈ tasks)) (end_in_error now manager_was_down).
Lemma cancel_tasks_cons task tasks rows :
  cancel_tasks tasks (update_rows (fun r => (r_task r =? task)%string) (end_in_error now manager_was_down) rows)
  = cancel_tasks (task :: tasks) rows.
Proof.
  unfold cancel_tasks, update_rows. rewrite map_map. apply map_ext. intros r.
  destruct (String.eqb_spec (r_task r) task) as [E|E].
  - rewrite (bool_decide_eq_true_2 (r_task r ∈ task :: tasks)) by (rewrite E; by left). by destruct (bool_decide _).
  - by rewrite (bool_decide_ext (r_task r ∈ task :: tasks) (r_task r ∈ tasks)) by (rewrite elem_of_cons; tauto).
Qed.
Lemma update_none p f rows : (forall r, r ∈ rows -> p r = false) -> update_rows p f rows = rows.
Proof.
  intros Hp. unfold update_rows. rewrite <- (map_id rows) at 2. apply map_ext_in. intros r Hr%list_elem_of_In. by rewrite (Hp r).
Qed.

Lemma at_cancel_loop t res rs :
  t_state t = true -> forall w mark rows need (Q : unit -> JobsWorld -> Prop),
  at_ mark (with_rows rows t) res need w ->
  (forall w', at_ mark (with_rows (cancel_tasks (map r_task (List.filter (fun r => restores (r_task r)) rs)) rows) t) res
     (need || existsb (fun r => restores (r_task r)) rs) w' -> Q tt w') ->
  ends (forJ (map task_of rs) cancel_halted) w (post never Q).
Proof.
  intros Hs. induction rs as [|r rs IH]; intros w mark rows need Q Hw HQ; simpl in *.
  { apply ends_ret, HQ. unfold cancel_tasks. rewrite update_none, orb_false_r; [done|].
    intros r _. apply bool_decide_eq_false_2, not_elem_of_nil. }
  apply ends_bind. unfold cancel_halted at 1. cbn [dt_task task_of].
  destruct (restores (r_task r)); cbn [whenJ orb] in *; [|by apply ends_ret, (IH w mark rows need)].
  apply ends_bind, ends_getJ. rewrite (at_now _ _ _ _ _ _ _ _ _ Hw).
  apply ends_bind. eapply at_update; [done..|]. intros w1 n K1. eapply at_SetNeed; [exact K1|]. intros w2 K2.
  eapply IH; [exact K2|]. intros w3 K3. apply HQ. cbn [map]. rewrite <- cancel_tasks_cons, orb_true_r. exact K3.
Qed.

Lemma cancelled_rows rows :
  NoDup (map r_task rows) ->
  cancel_tasks (map r_task (List.filter (fun r => restores (r_task r)) (List.filter (selected [JobStateHalted]) rows))) rows
  = map (fun r => if halted r then end_in_error now manager_was_down r else r) rows.
Proof.
  intros Hn. apply map_ext_in. intros r Hr%list_elem_of_In. unfold halted.
  set (tasks := map r_task _). assert (E : bool_decide (r_task r ∈ tasks) = (r_state r =? JobStateHalted) && restores (r_task r)); [|by rewrite E].
  apply eq_iff_eq_true. rewrite bool_decide_eq_true. unfold tasks. rewrite list_elem_of_fmap. split.
  - intros (x & E & [[Hx Hs]%filter_In Hp]%list_elem_of_In%filter_In).
    assert (x = r) as -> by by apply (NoDup_map_inj r_task rows); [|apply list_elem_of_In| |]. cbn in Hs. by rewrite Hs, Hp.
  - intros [Hs Hp]%andb_prop. exists r. split; [done|]. by rewrite list_elem_of_In, !filter_In, <- list_elem_of_In.
Qed.

Lemma at_CheckPending w mark t rows res need (Q : Err -> JobsWorld -> Prop) :
  at_ mark (with_rows rows t) res need w -> table_ok (with_rows rows t) ->
  (mark <> "" -> forall e w', at_ mark (with_rows rows t) res need w' -> Q e w') ->
  (mark = "" -> forall w', at_ "" (with_rows (map (given_up now) rows) t) res
     (need || existsb (fun r => halted (timed_out now r)) rows) w' -> Q None w') ->
  ends (JobsCheckPending l) w (post never Q).
Proof.
  intros Hw Ht HQ1 HQ2. unfold JobsCheckPending, serverJ. apply ends_bind, at_read.
  unfold HasAnyReseedingState. rewrite (at_mark _ _ _ _ _ _ _ _ _ Hw).
  destruct (String.eqb_spec mark "") as [->|Hm]; cbn [negb]; [|by apply ends_ret, HQ1].
  apply ends_bind, ends_getJ. rewrite (at_now _ _ _ _ _ _ _ _ _ Hw).
  apply ends_bind. eapply at_update; [done|by destruct Ht|]. intros w1 n K1.
  change (update_rows _ _ rows) with (map (timed_out now) rows) in K1.
  assert (Ht1 : table_ok (with_rows (map (timed_out now) rows) t)).
  { destruct Ht as [U S N R]. split; [done..|]. by apply (rows_ok_update _ (pending_timeout now) (end_in_error now "Timeout waiting for job to start")). }
  apply ends_bind. eapply at_GetTasks; [done|done|simpl; lia|]. intros w2 K2. cbn [snd fst is_err t_rows with_rows].
  apply ends_bind. eapply at_cancel_loop; [by destruct Ht|exact K2|]. intros w3 K3. apply ends_ret, HQ2; [done|].
  rewrite cancelled_rows, map_map in K3 by by destruct Ht1 as [_ _ _ []].
  change (map (fun x => _) rows) with (map (given_up now) rows) in K3.
  assert (E : existsb (fun r => restores (r_task r)) (List.filter (selected [JobStateHalted]) (map (timed_out now) rows))
              = existsb (fun r => halted (timed_out now r)) rows); [|by rewrite <- E].
  clear. induction rows as [|r rows IH]; [done|]. simpl. unfold halted at 1. destruct (_ =? JobStateHalted); simpl; by rewrite IH.
Qed.

(** *** The copy *)

Definition load_rows (rows : list JobRow) (res : gmap string Task) : gmap string Task :=
  fold_left (fun m r => <[r_task r := task_of_row r]> m) rows res.
Lemma at_load_loop t need rows : forall w mark res (Q : unit -> JobsWorld -> Prop),
  at_ mark t res need w -> (forall w', at_ mark t (load_rows rows res) need w' -> Q tt w') ->
  ends (forJ rows loadTask) w (post never Q).
Proof.
  induction rows as [|r rows IH]; intros w mark res Q Hw HQ; simpl; [by apply ends_ret, HQ|].
  apply ends_bind. unfold loadTask at 1. apply ends_modJ. eapply IH; [|exact HQ].
  destruct Hw as [? ? ? ? <- ? ? ? ?]. by split.
Qed.
Lemma load_rows_other rows : forall res task, task_free task rows -> load_rows rows res !! task = res !! task.
Proof.
  induction rows as [|r rows IH]; intros res task Hf; [done|]. simpl.
  rewrite IH by (intros x Hx; apply Hf; by right). apply lookup_insert_ne. apply Hf. by left.
Qed.
Lemma load_rows_row rows : forall res r, NoDup (map r_task rows) -> r ∈ rows -> load_rows rows res !! r_task r = Some (task_of_row r).
Proof.
  induction rows as [|x rows IH]; intros res r Hn Hr; [by apply not_elem_of_nil in Hr|]. cbn in Hn.
  apply list.NoDup_cons in Hn as [Nx Hn]. simpl. apply elem_of_cons in Hr as [->|Hr]; [|by apply IH].
  rewrite load_rows_other, lookup_insert_eq; [done|]. intros y Hy E. apply Nx, list_elem_of_fmap. by exists y.
Qed.

Lemma at_UpdateEntries w mark t res need (Q : Err -> JobsWorld -> Prop) :
  at_ mark t res need w -> t_state t = true -> (forall w', at_ mark t (load_rows (t_rows t) res) false w' -> Q None w') ->
  ends (JobsUpdateEntries l) w (post never Q).
Proof.
  intros Hw Hs HQ. unfold JobsUpdateEntries. apply ends_bind.
  eapply at_statement; [done|unfold stmt_select, stmt_state, stmt_table; by rewrite Hs|]. intros w1 K1.
  apply ends_bind, ends_ret. apply ends_bind. eapply at_load_loop; [exact K1|]. intros w2 K2.
  apply ends_bind. eapply at_SetNeed; [exact K2|]. intros w3 K3. by apply ends_ret, HQ.
Qed.

(** *** The round *)

Lemma finished_keeps r r1 : finished pitr r r1 ->
  r_id r1 = r_id r /\ r_task r1 = r_task r /\ stopped_in_error r1 = stopped_in_error r /\
  halted (timed_out now (noticed r1)) = halted r.
Proof.
  unfold finished. destruct (to_finish r) eqn:E.
  - apply andb_prop in E as [Es%Z.eqb_eq Ed%Z.eqb_eq].
    intros [-> | (_ & _ & msg & ->)]; unfold noticed, stopped_in_error, halted, timed_out, pending_timeout, JobStateFinished in *; cbn;
      by rewrite Es, Ed.
  - intros ->. repeat split. unfold noticed, stopped_in_error, halted, timed_out, pending_timeout, JobStateErrorExec, JobStateHalted.
    destruct r as [? ? ? ? d st ? s0 ?]; cbn. destruct (d =? 0); cbn; destruct (Z.eqb_spec st 0) as [->|N]; cbn;
      try (destruct (s0 <=? now - 3600)); cbn; try done; destruct (st =? 5); cbn; rewrite ?(proj2 (Z.eqb_neq _ _) N); done.
Qed.

Lemma existsb_Forall2 {A} (p q : A -> bool) xs ys :
  Forall2 (fun x y => q y = p x) xs ys -> existsb q ys = existsb p xs.
Proof. induction 1 as [|x y xs ys E _ IH]; simpl; [done|by rewrite E, IH]. Qed.
Lemma map_Forall2 {A B} (f : A -> B) xs ys : Forall2 (fun x y => f y = f x) xs ys -> map f ys = map f xs.
Proof. induction 1 as [|x y xs ys E _ IH]; simpl; [done|by rewrite E, IH]. Qed.

Lemma rows_ok_finished n rows rows' : Forall2 (finished pitr) rows rows' -> rows_ok n rows -> rows_ok n rows'.
Proof.
  intros HF [Rt Ri Rn]. split.
  - rewrite (map_Forall2 r_task rows rows'); [done|]. eapply Forall2_impl; [done|]. intros r r1. by intros (_ & ? & _)%finished_keeps.
  - rewrite (map_Forall2 r_id rows rows'); [done|]. eapply Forall2_impl; [done|]. intros r r1. by intros (? & _)%finished_keeps.
  - intros r1 Hr1. apply list_elem_of_lookup in Hr1 as [i Hi].
    destruct (Forall2_lookup_r _ _ _ _ _ HF Hi) as (r & Hr & (-> & _)%finished_keeps).
    apply Rn, list_elem_of_lookup. by exists i.
Qed.

Lemma rows_ok_given_up n rows : rows_ok n rows -> rows_ok n (map (given_up now) rows).
Proof.
  intros R. apply (rows_ok_update n (fun _ => true) (given_up now)); [|done]. intros r. unfold given_up, timed_out.
  destruct (pending_timeout now r); (destruct (halted _); done).
Qed.

(** Some row is of the kind. *)
Lemma some_filter {A} (p : A -> bool) (xs : list A) : negb (bool_decide (List.filter p xs = [])) = existsb p xs.
Proof.
  induction xs as [|x xs IH]; simpl; [done|]. destruct (p x); [done|exact IH].
Qed.

Definition mark_after (mark : string) (rows : list JobRow) : string :=
  if existsb (fun r => of_mark mark r && (to_finish r || stopped_in_error r)) rows then "" else mark.
(** What makes the copy be renewed. *)
Definition news (mark' : string) (rows : list JobRow) : bool :=
  existsb to_finish rows || existsb stopped_in_error rows || ((mark' =? "")%string && existsb halted rows).
Definition settled (mark' : string) (r r' : JobRow) : Prop :=
  exists r1, finished pitr r r1 /\ r' = (if (mark' =? "")%string then given_up now (noticed r1) else noticed r1).

Lemma release_twice mark rows rows1 :
  (forall r, r ∈ rows -> r_task r <> "") -> Forall2 (finished pitr) rows rows1 ->
  release (release mark (List.filter to_finish rows)) (List.filter stopped_in_error rows1) = mark_after mark rows.
Proof.
  intros Hne HF. rewrite !release_filter. unfold mark_after.
  assert (E1 : forall m, existsb (fun r => of_mark m r && stopped_in_error r) rows1
                         = existsb (fun r => of_mark m r && stopped_in_error r) rows).
  { intros m. apply existsb_Forall2. eapply Forall2_impl; [exact HF|]. intros r r1 (_ & E & -> & _)%finished_keeps.
    unfold of_mark. by rewrite E. }
  assert (E2 : existsb (fun r => of_mark mark r && (to_finish r || stopped_in_error r)) rows
    = existsb (fun r => of_mark mark r && to_finish r) rows || existsb (fun r => of_mark mark r && stopped_in_error r) rows).
  { clear. induction rows as [|r rows IH]; simpl; [done|]. rewrite IH. destruct (of_mark mark r), (to_finish r), (stopped_in_error r); simpl;
      by rewrite ?orb_true_r. }
  rewrite E1, E2. destruct (existsb (fun r => of_mark mark r && to_finish r) rows); simpl; [|done].
  by case_match.
Qed.

Lemma at_round w mark t res need (Q : Err -> JobsWorld -> Prop) :
  at_ mark t res need w -> table_ok t -> (forall r, r ∈ t_rows t -> r_task r <> "") ->
  (forall w' rows', let mark' := mark_after mark (t_rows t) in
     Forall2 (settled mark') (t_rows t) rows' -> rows_ok (t_next t) rows' ->
     at_ mark' (with_rows rows' t) (if need || news mark' (t_rows t) then load_rows rows' res else res) false w' -> Q None w') ->
  ends (check_states l) w (post never Q).
Proof.
  intros Hw Ht Hne HQ. unfold check_states. apply ends_bind. eapply at_conn; [done|]. intros w1 K1. cbn [negb].
  apply ends_bind. eapply at_super; [done|]. cbv iota.
  apply ends_bind. eapply at_CheckFinished; [done..|]. intros w2 rows1 HF K2.
  assert (R1 : rows_ok (t_next t) rows1) by (eapply rows_ok_finished; [done|by destruct Ht]).
  apply ends_bind. eapply at_CheckErrors; [done|by destruct Ht|]. intros w3 K3.
  rewrite release_twice, !some_filter in K3 by done.
  assert (Es : existsb stopped_in_error rows1 = existsb stopped_in_error (t_rows t))
    by (apply existsb_Forall2; eapply Forall2_impl; [exact HF|]; by intros r r1 (_ & _ & ? & _)%finished_keeps).
  rewrite Es in K3. set (mark' := mark_after mark (t_rows t)) in *.
  assert (R2 : rows_ok (t_next t) (map noticed rows1)) by by apply (rows_ok_update _ stopped_in_error (row_done 1)).
  apply ends_bind. eapply ends_weaken with (Q := fun _ w' => exists rows', Forall2 (settled mark') (t_rows t) rows' /\ rows_ok (t_next t) rows' /\
    at_ mark' (with_rows rows' t) res (need || news mark' (t_rows t)) w').
  - eapply at_CheckPending; [exact K3|destruct Ht as [U S N _]; by split| |].
    + intros Hm e w4 K4. exists (map noticed rows1). split; [|split; [done|]].
      * apply Forall2_fmap_r. eapply Forall2_impl; [exact HF|]. intros r r1 Hf. exists r1. split; [done|]. by rewrite (proj2 (String.eqb_neq _ _) Hm).
      * unfold news. rewrite (proj2 (String.eqb_neq _ _) Hm). cbn [andb]. by rewrite orb_false_r, orb_assoc.
    + intros Hm w4 K4. exists (map (given_up now) (map noticed rows1)). split; [|split].
      * rewrite map_map. apply Forall2_fmap_r. eapply Forall2_impl; [exact HF|]. intros r r1 Hf. exists r1. split; [done|]. by rewrite Hm.
      * by apply rows_ok_given_up.
      * unfold news. rewrite Hm in *. cbn [String.eqb andb] in *. rewrite existsb_map in K4.
        rewrite (existsb_Forall2 halted (fun r => halted (timed_out now (noticed r))) (t_rows t) rows1) in K4
          by (eapply Forall2_impl; [exact HF|]; by intros r r1 (_ & _ & _ & ?)%finished_keeps).
        by rewrite !orb_assoc.
  - intros e w4 (rows' & HS & R' & K4). apply ends_bind, ends_getJ. rewrite (at_need _ _ _ _ _ _ _ _ _ K4).
    destruct (need || news mark' (t_rows t)) eqn:En.
    + eapply at_UpdateEntries; [exact K4|by destruct Ht|]. intros w5 K5. eapply HQ; [exact HS|exact R'|]. fold mark'. by rewrite En.
    + apply ends_ret. eapply HQ; [exact HS|exact R'|]. fold mark'. by rewrite En.
Qed.
End Round.

(** A row that has been settled waits for nobody of the manager. *)
Lemma settled_done now pitr mark' r r' :
  settled now pitr mark' r r' ->
  to_finish r' = false /\ stopped_in_error r' = false /\ (mark' = "" -> halted r' = false).
Proof.
  intros (r1 & Hf & ->). assert (F1 : to_finish r1 = false).
  { unfold finished in Hf. destruct (to_finish r) eqn:E; [|by subst]. by destruct Hf as [-> | (_ & _ & msg & ->)]. }
  assert (F2 : to_finish (noticed r1) = false /\ stopped_in_error (noticed r1) = false).
  { unfold noticed. destruct (stopped_in_error r1) eqn:E; [|done]. unfold stopped_in_error, to_finish in *. cbn.
    apply andb_prop in E as [_ E%Z.eqb_eq]. by rewrite E. }
  destruct F2 as [F2 F3]. destruct (String.eqb_spec mark' "") as [->|]; [|done].
  assert (F4 : to_finish (timed_out now (noticed r1)) = false /\ stopped_in_error (timed_out now (noticed r1)) = false)
    by (unfold timed_out; by destruct (pending_timeout now (noticed r1))).
  destruct F4 as [F4 F5]. unfold given_up. destruct (halted (timed_out now (noticed r1))) eqn:E; done.
Qed.

Lemma CheckStates_runs `{Env} `{GoSort} `{GoRange} l w :
  answers l (j_world w) -> j_IsLoadingJobList w = false ->
  JobsCheckStates l w = deferJ (check_states l) (SetLoadingJobList false) (set_j_IsLoadingJobList true w).
Proof.
  intros A B. unfold JobsCheckStates, clusterJ, serverJ, lift, get_cluster, load, getJ, mbind, J_bind. cbn.
  rewrite (no_failover _ _ A), (no_rolling _ _ A), (is_up _ _ A). cbn. rewrite (has_conn _ _ A). cbn. rewrite B. by destruct w.
Qed.

