(* ===== verification/JobsDemo.v ===== *)
(** * The jobs on a small server

    A replica with a table of jobs, and runs that show the corner cases of the jobs. *)

From Stdlib Require Import ZArith Lia Bool Ascii String.
From stdpp Require Import base list gmap strings functions sorting relations.
From S2P Require Import Prelude GoLib Version StateMachine Config Server Cluster Demo ServerOps Jobs JobsProps JobsChecks.

Local Open Scope string_scope.
Local Open Scope list_scope.
Local Open Scope Z_scope.

Definition row (id : Z) (task : string) (done state : Z) (result : option string) (start : Z) : JobRow :=
  mkRow id task 4444 "repman" done state result start None.
Definition table (rows : list JobRow) : JobsTable := mkTable true true 10 rows.
Definition reseeding (mark : string) : World :=
  snd (mod_server 1%nat (set_srv_IsReseeding mark) demo_world).
Definition jobs_world (mark : string) (faults : list Fault) (res : gmap string Task) (rows : list JobRow) : JobsWorld :=
  mkJobsWorld (reseeding mark) (Some (table rows)) 10000 faults res false false false "4444" (Some false).
Definition rows_of (w : JobsWorld) : list JobRow := match j_db w with Some t => t_rows t | None => [] end.
Definition mark_of (w : JobsWorld) : string := srv_IsReseeding (w_heap (j_world w) 1%nat).

(** The count of the keys times out: the table is dropped with the job in progress, and
    the same job is accepted a second time. *)
Example demo_lost_job :
  let w := jobs_world "" [Fine; Fine; Fine; NotDone] ∅ [row 1 "mariabackup" 0 1 None 9990; row 2 "optimize" 0 1 None 9000] in
  let run := JobInsertTask 1%nat "mariabackup" "4444" "repman" w in
  fst run = Ret (1, None) /\ rows_of (snd run) = [row 1 "mariabackup" 0 0 None 10000].
Proof. vm_compute. done. Qed.

(** The job in progress is refused with an error that has no text. *)
Example demo_refused :
  fst (JobInsertTask 1%nat "mariabackup" "4444" "repman" (jobs_world "" [] ∅ [row 1 "mariabackup" 0 1 None 9990]))
  = Ret (0, Some "Failed to retrieve data on jobs table: %!v(<nil>)").
Proof. vm_compute. done. Qed.

(** After the table was made anew the identifier in the copy may be another task's: the
    insertion fails, also when it is tried again. *)
Example demo_stale_id :
  let stale := <["optimize" := mkTask 1 "optimize" 0 "repman" 1 4 "" 0 0]> (∅ : gmap string Task) in
  let run := JobInsertTask 1%nat "optimize" "0" "repman" (jobs_world "" [] stale [row 1 "errorlog" 1 4 None 9990]) in
  let again := JobInsertTask 1%nat "optimize" "0" "repman" (snd run) in
  fst run = Ret (0, Some "Failed to insert row on jobs table") /\ fst again = fst run.
Proof. vm_compute. done. Qed.

(** A job nobody took is given up, and the copy still says that it waits. *)
Example demo_timeout_unseen :
  let waiting := row 1 "optimize" 0 0 None 0 in
  let w := jobs_world "" [] {["optimize" := task_of_row waiting]} [waiting] in
  let w' := snd (JobsCheckStates 1%nat w) in
  (r_state <$> rows_of w') = [5] /\ (tk_State <$> j_JobResults w' !! "optimize") = Some 0 /\ j_NeedRefreshJobs w' = false.
Proof. vm_compute. done. Qed.

(** The error that stopped a restore is replaced by the one for a manager that was down. *)
Example demo_error_replaced :
  let w := jobs_world "reseedmariabackup" [] ∅ [row 1 "reseedmariabackup" 0 0 None 9990] in
  let w1 := snd (JobsUpdateState 1%nat "reseedmariabackup" "No backup file found" 2 1 w) in
  let w2 := snd (SetInReseed 1%nat "" w1) in
  (r_result <$> rows_of w1) = [Some "No backup file found"] /\
  (r_result <$> rows_of (snd (JobsCheckStates 1%nat w2))) = [Some manager_was_down].
Proof. vm_compute. done. Qed.

(** Cancelling a running restore with another job releases the mark and leaves it running. *)
Example demo_cancel_running :
  let running := row 1 "reseedmariabackup" 0 1 None 9990 in
  let w := jobs_world "reseedmariabackup" [] {["reseedmariabackup" := task_of_row running]} [running; row 2 "optimize" 0 0 None 9990] in
  can_cancel (w_heap (j_world w) 1%nat) (j_JobResults w) ["reseedmariabackup"; "optimize"] = false /\
  let w' := snd (JobsCancelTasks 1%nat false ["reseedmariabackup"; "optimize"] w) in
  mark_of w' = "" /\ (r_state <$> rows_of w') = [1; 5].
Proof. vm_compute. done. Qed.

(** Without a table the tasks are an error, although the table is made then. *)
Example demo_no_retry :
  let w := set_j_db None (jobs_world "" [] ∅ []) in
  let run := GetTasksByState 1%nat [3; 1] w in
  fst run = Ret ([], Some "Failed to retrieve data on jobs table") /\ j_db (snd run) = Some newTable.
Proof. vm_compute. done. Qed.

(** No warning for the optimization the manager asks for; the one there is lacks its table. *)
Example demo_optimize_warning :
  waiting_warning demo_conf "mysqldump" "db2:3306" "optimize" = None /\
  waiting_warning demo_conf "mysqldump" "db2:3306" "optimized" = Some ("WARN0072", [fs "db2:3306"]) /\
  fmt_Sprintf (ClusterError "WARN0072") [fs "db2:3306"] = "Running optimize table db2:3306 on server %!s(MISSING)".
Proof. vm_compute. done. Qed.

(** With super read-only replicas and no master the checks panic. *)
Example demo_no_master :
  let c := set_cl_master None (set_cl_Conf (set_Conf_SuperReadOnly true demo_conf) demo_cluster) in
  fst (JobsCheckStates 1%nat (set_j_world (mkWorld c demo_heap []) (jobs_world "" [] ∅ []))) = Panic.
Proof. vm_compute. done. Qed.

(** A finished job without a name is never settled. *)
Example demo_empty_task :
  rows_of (snd (JobsCheckStates 1%nat (jobs_world "" [] ∅ [row 1 "" 1 3 None 9990]))) = [row 1 "" 1 3 None 9990].
Proof. vm_compute. done. Qed.

(** ** Witnesses *)

Definition demo_rows : list JobRow :=
  [row 1 "mariabackup" 1 3 (Some "") 9000; row 2 "reseedmariabackup" 0 5 (Some "broken pipe") 9000;
   row 3 "optimize" 0 1 None 9000; row 4 "errorlog" 0 0 None 0].

Lemma demo_each (P : JobRow -> Prop) : Forall P demo_rows -> forall r, r ∈ demo_rows -> P r.
Proof. by rewrite Forall_forall. Qed.

Lemma demo_table_ok : table_ok (table demo_rows).
Proof.
  split; [done|done|done|]. split; [by refine (bool_decide_unpack _ _); vm_compute..|].
  apply demo_each. by repeat constructor.
Qed.
Lemma demo_answers m : answers 1%nat (reseeding m).
Proof. by split. Qed.


Lemma insert_spares_jobs_witness :
  let run := JobInsertTask 1%nat "optimize" "4444" "repman" (jobs_world "" [Fine; Fine; Fine; Fine; NotDone; DoneUnseen] ∅ demo_rows) in
  (exists t', j_db (snd run) = Some t' /\ row 3 "optimize" 0 1 None 9000 ∈ t_rows t') /\ (forall id, fst run <> Ret (id, None)).
Proof.
  destruct (insert_spares_jobs 1%nat "optimize" "4444" "repman" (jobs_world "" [Fine; Fine; Fine; Fine; NotDone; DoneUnseen] ∅ demo_rows)
    (table demo_rows) eq_refl demo_table_ok eq_refl (row 3 "optimize" 0 1 None 9000)) as [G1 G2].
  - unfold demo_rows. simpl. apply list_elem_of_In. simpl. auto.
  - by right.
  - split; [exact G1|]. by apply G2.
Defined.


(** The rows that round leaves. *)
Example demo_round :
  rows_of (snd (JobsCheckStates 1%nat (jobs_world "reseedmariabackup" [] ∅ demo_rows))) =
  [row 1 "mariabackup" 1 4 (Some "Backup completed") 9000; row 2 "reseedmariabackup" 1 5 (Some "broken pipe") 9000;
   row 3 "optimize" 0 1 None 9000;
   row_end 10000 (row 4 "errorlog" 1 5 (Some "Timeout waiting for job to start") 0)].
Proof. vm_compute. done. Qed.

Lemma insert_new_job_example :
  exists w', JobInsertTask 1%nat "mariabackup" "4444" "repman" (jobs_world "" [] ∅ demo_rows) = (Ret (1, None), w') /\
    j_NeedRefreshJobs w' = true.
Proof.
  destruct (insert_new_job 1%nat "mariabackup" "4444" 4444 "repman" (jobs_world "" [] ∅ demo_rows) (table demo_rows)
    (demo_answers _) eq_refl eq_refl demo_table_ok) as (w' & E & N & _).
  - done.
  - done.
  - intros tk Htk. by vm_compute in Htk.
  - apply (demo_each (fun r => r_task r = "mariabackup" -> in_progress r = false)). by repeat constructor.
  - by exists w'.
Qed.
