(* ===== verification/FailoverFrame.v ===== *)
(** * What the phases of a failover leave alone

    A frame for the operations of a failover: the record the manager keeps of
    the cluster (roles, configuration, crash reports, counters, failover flag),
    the identity of every server, and a class of calls that the trace is
    extended with. The monitoring, the elections and the operations on one
    server keep the first two whatever the databases answer. *)

From Stdlib Require Import ZArith Lia Bool Permutation Ascii String.
From stdpp Require Import base list gmap strings functions.
From S2P Require Import Prelude GoLib Gtid Version StateMachine Crash DelayStat Config Server Cluster Demo ServerOps Refresh Election Failover.

Local Open Scope string_scope.
Local Open Scope list_scope.
Local Open Scope Z_scope.

(** ** The frame *)

(** The cluster without its state messages and its replication credential, and
    the failover flag. *)
Definition cluster_view (w : World) : Cluster * bool :=
  (set_cl_StateMachine zeroStateMachine
     (set_cl_Conf (set_Conf_ReplicationCredential "" (cl_Conf (w_cluster w))) (w_cluster w)),
   IsInFailover (cl_StateMachine (w_cluster w))).

(** What identifies a server and never changes. *)
Definition server_id (s : ServerMonitor) : string * string * string * string * bool :=
  (srv_URL s, srv_Host s, srv_Port s, srv_SourceClusterName s, srv_Conn s).

(** Calls that read, wait, report, notify or rotate a password; the others change
    how the databases replicate or what they accept. *)
Definition quiet_call {R} (c : Call R) : bool :=
  match c with
  | db_SetReadOnly _ _ | db_SetSuperReadOnly _ _ | db_StopSlave _ _ | db_StartSlave _ _
  | db_ResetSlave _ _ _ | db_ResetMaster _ _ | db_ChangeMaster _ _ | db_SetGTIDSlavePos _ _
  | db_FlushTablesWithReadLock _ | db_UnlockTables _ | db_KillThreads _
  | db_SetMaxConnections _ _ | db_SetSemiSyncMaster _ | db_SetSemiSyncSlave _
  | db_SetGroupReplicationPrimary _ | proxy_Failover _ | write_crash _ _ | remove_file _
  | db_StartGroupReplication _ | make_dir _ | rename_file _ _ | run_command _ _
  | run_pipe _ _ _ _ | run_job _ _ | start_job _ _ _ | save_cluster
  | db_Enforce _ _ _ | db_SkipBinlogEvent _ _
  | db_PurgeBinlogTo _ _ | db_PurgeBinlogBefore _ _ | db_SetMaxBinlogTotalSize _ _
  | psql_Exec _ _ | proxy_Init _ | proxy_Inject _ _ | service _ _ | proxy_service _ _ | create_file _
  | db_SetDefaultMasterConn _ _ | db_StopAllSlaves _ | db_BootstrapGroupReplication _ => false
  | _ => true
  end.
Definition quiet (e : TraceEvent) : Prop := match e with Ev c _ => quiet_call c = true end.

(** Opening a server to writes. *)
Definition opening_call {R} (c : Call R) : bool :=
  match c with db_SetReadOnly _ false | db_SetSuperReadOnly _ false => true | _ => false end.
Definition not_opening (e : TraceEvent) : Prop := match e with Ev c _ => opening_call c = false end.

Definition any_event (e : TraceEvent) : Prop := True.

Record Frame (P : TraceEvent -> Prop) (w w' : World) : Prop := mkFrame {
  frame_cluster : cluster_view w' = cluster_view w;
  frame_ids : forall l, server_id (w_heap w' l) = server_id (w_heap w l);
  frame_trace : exists t, w_trace w' = w_trace w ++ t /\ Forall P t
}.
Arguments frame_cluster {P w w'}.
Arguments frame_ids {P w w'}.
Arguments frame_trace {P w w'}.

#[export] Instance Frame_preorder P : PreOrder (Frame P).
Proof.
  split.
  - intros w. split; [done|done|]. exists []. by rewrite app_nil_r.
  - intros x y z [C1 I1 (t1 & T1 & F1)] [C2 I2 (t2 & T2 & F2)]. split.
    + congruence.
    + intros l. by rewrite I2.
    + exists (t1 ++ t2). rewrite T2, T1, app_assoc. split; [done|by apply Forall_app].
Qed.

Lemma Frame_weaken (P Q : TraceEvent -> Prop) w w' :
  (forall e, P e -> Q e) -> Frame P w w' -> Frame Q w w'.
Proof.
  intros PQ [C I (t & T & F)]. split; [done|done|]. exists t. split; [done|].
  by eapply Forall_impl; [|exact F].
Qed.

(** A class of events that contains the quiet ones. *)
Class Allows (P : TraceEvent -> Prop) : Prop := allows : forall e, quiet e -> P e.
#[export] Instance allows_quiet : Allows quiet.
Proof. by intros e. Qed.
#[export] Instance allows_not_opening : Allows not_opening.
Proof. intros [R c r]. unfold quiet, not_opening. by destruct c. Qed.
#[export] Instance allows_any : Allows any_event.
Proof. by intros e. Qed.
#[export] Hint Resolve allows_quiet allows_not_opening allows_any : pres.

Section Frame.
Context `{Env} `{GoSort} `{GoRange} (P : TraceEvent -> Prop) `{!Allows P}.

Lemma frame_event {R} (c : Call R) : (forall r, P (Ev c r)) -> Pres (Frame P) (call c).
Proof. intros Hc w. split; [done|done|]. eexists. split; [reflexivity|]. by constructor. Qed.
Lemma frame_call {R} (c : Call R) : quiet_call c = true -> Pres (Frame P) (call c).
Proof. intros Hc. apply frame_event. intros r. by apply allows. Qed.
Lemma frame_mod_server l f :
  (forall s, server_id (f s) = server_id s) -> Pres (Frame P) (mod_server l f).
Proof.
  intros Hf w. split; [done| |by exists []; rewrite app_nil_r].
  intros x. simpl. destruct (decide (x = l)) as [->|Hx].
  - by rewrite fn_lookup_insert.
  - by rewrite fn_lookup_insert_ne.
Qed.
Lemma frame_mod_sm f :
  (forall SM, InFailover (f SM) = InFailover SM) -> Pres (Frame P) (mod_sm f).
Proof.
  intros Hf w. split; [|done|by exists []; rewrite app_nil_r].
  unfold cluster_view, mod_sm, mod_cluster, IsInFailover. simpl. by rewrite Hf.
Qed.

End Frame.

#[export] Hint Extern 1 (Pres (Frame _) (call _)) =>
  first [ apply frame_call; [solve [typeclasses eauto]|reflexivity]
        | apply frame_event; intros ?; first [exact I|reflexivity] ] : pres.
#[export] Hint Extern 1 (Pres (Frame _) (mod_server _ _)) =>
  apply frame_mod_server; intros ?; reflexivity : pres.

Section Monitoring.
Context `{Env} `{GoSort} `{GoRange} (P : TraceEvent -> Prop) `{!Allows P}.

Lemma PreserveState_InFailover keys SM : InFailover (PreserveState keys SM) = InFailover SM.
Proof.
  unfold PreserveState. generalize (go_range (OldState SM)) as l. intros l. revert SM.
  induction l as [|e l IH]; intros SM; simpl; [done|]. rewrite IH. clear IH. revert SM.
  induction keys as [|k keys IH]; intros SM; simpl; [done|]. rewrite IH.
  destruct (strings_HasPrefix _ _); [apply AddState_InFailover|done].
Qed.

Lemma frame_SetState key s : Pres (Frame P) (SetState key s).
Proof. unfold SetState. pres. apply frame_mod_sm. intros SM. apply AddState_InFailover. Qed.
Hint Resolve frame_SetState : pres.
Lemma frame_aux what l : Pres (Frame P) (aux what l).
Proof. unfold aux. pres. Qed.
Hint Resolve frame_aux : pres.
Lemma frame_srv_SetState l st : Pres (Frame P) (srv_SetState l st).
Proof. unfold srv_SetState, BashScriptDbServersChangeState. pres. Qed.
Hint Resolve frame_srv_SetState : pres.
Lemma frame_SetMaster l : Pres (Frame P) (SetMaster l).
Proof. unfold SetMaster. pres. Qed.
Lemma frame_set_slave_or_relay l a b : Pres (Frame P) (set_slave_or_relay l a b).
Proof. unfold set_slave_or_relay. pres. Qed.
Hint Resolve frame_set_slave_or_relay : pres.
Lemma frame_update_delay l secs : Pres (Frame P) (update_delay l secs).
Proof. unfold update_delay. pres. Qed.
Hint Resolve frame_update_delay : pres.
Lemma frame_CheckReplication l : Pres (Frame P) (CheckReplication l).
Proof. unfold CheckReplication, check_stopped, check_delay. pres. Qed.
Hint Resolve frame_CheckReplication : pres.
Lemma frame_CheckVersion l : Pres (Frame P) (CheckVersion l).
Proof. unfold CheckVersion, version_warning. pres. Qed.
Hint Resolve frame_CheckVersion : pres.
Lemma frame_CheckMaxConnections l : Pres (Frame P) (CheckMaxConnections l).
Proof. unfold CheckMaxConnections. pres. Qed.
Hint Resolve frame_CheckMaxConnections : pres.
Lemma frame_refresh_maxscale l : Pres (Frame P) (refresh_maxscale l).
Proof. unfold refresh_maxscale. pres. Qed.
Hint Resolve frame_refresh_maxscale : pres.
Lemma frame_refresh_gtids l v : Pres (Frame P) (refresh_gtids l v).
Proof. unfold refresh_gtids. pres. Qed.
Hint Resolve frame_refresh_gtids : pres.
Lemma frame_PreserveState keys : Pres (Frame P) (mod_sm (PreserveState keys)).
Proof. apply frame_mod_sm. intros SM. apply PreserveState_InFailover. Qed.
Hint Resolve frame_PreserveState : pres.
Lemma frame_refresh_not_postgres l v : Pres (Frame P) (refresh_not_postgres l v).
Proof. unfold refresh_not_postgres, SetEventScheduler. pres. Qed.
Hint Resolve frame_refresh_not_postgres : pres.
Lemma frame_refresh_variables l : Pres (Frame P) (refresh_variables l).
Proof. unfold refresh_variables. pres. Qed.
Hint Resolve frame_refresh_variables : pres.
Lemma frame_read_dump_threads l : Pres (Frame P) (read_dump_threads l).
Proof. unfold read_dump_threads. pres. Qed.
Hint Resolve frame_read_dump_threads : pres.
Lemma frame_refresh_binlog l : Pres (Frame P) (refresh_binlog l).
Proof. unfold refresh_binlog. pres. Qed.
Hint Resolve frame_refresh_binlog : pres.
Lemma frame_refresh_replication l : Pres (Frame P) (refresh_replication l).
Proof. unfold refresh_replication, refresh_channel. pres. Qed.
Hint Resolve frame_refresh_replication : pres.
Lemma frame_refresh_status l : Pres (Frame P) (refresh_status l).
Proof. unfold refresh_status, refresh_semisync, refresh_health, refresh_plugins. pres. Qed.
Hint Resolve frame_refresh_status : pres.
Lemma frame_Refresh l : Pres (Frame P) (Refresh l).
Proof. unfold Refresh. pres. Qed.
End Monitoring.

#[export] Hint Resolve frame_SetState frame_aux frame_srv_SetState frame_SetMaster
  frame_CheckReplication frame_PreserveState frame_Refresh : pres.

Section Elections.
Context `{Env} `{GoSort} `{GoRange} (P : TraceEvent -> Prop) `{!Allows P}.

Lemma frame_credentials : Pres (Frame P) SetClusterReplicationCredentialsFromConfig.
Proof.
  unfold SetClusterReplicationCredentialsFromConfig. pres. intros w.
  split; [done|done|]. exists []. by rewrite app_nil_r.
Qed.
Hint Resolve frame_credentials : pres.
Lemma frame_isSlaveElectable l : Pres (Frame P) (isSlaveElectable l).
Proof.
  unfold isSlaveElectable, CheckSlavePrerequisites, SetReplicationCredentialsRotation,
    rejoinSlaveChangePassword, electable_tail, reject. pres.
Qed.
Hint Resolve frame_isSlaveElectable : pres.
Lemma frame_track_slave i x reader : Pres (Frame P) (track_slave i x reader).
Proof. unfold track_slave, track_position, isSlaveValidReader, reject, skip_state. pres. Qed.
Hint Resolve frame_track_slave : pres.
Lemma frame_switch_slave i x acc : Pres (Frame P) (switch_slave i x acc).
Proof. unfold switch_slave, switch_position, isSlaveElectableForSwitchover, skip_state. pres. Qed.
Hint Resolve frame_switch_slave : pres.
Lemma frame_track_loop i l acc : Pres (Frame P) (track_loop i l acc).
Proof. revert i acc. induction l as [|x l IH]; intros i acc; simpl; pres. Qed.
Hint Resolve frame_track_loop : pres.
Lemma frame_switch_loop i l acc : Pres (Frame P) (switch_loop i l acc).
Proof. revert i acc. induction l as [|x l IH]; intros i acc; simpl; pres. Qed.
Hint Resolve frame_switch_loop : pres.
Lemma frame_virtual_loop o i l : Pres (Frame P) (virtual_loop o i l).
Proof. revert i. induction l as [|x l IH]; intros i; simpl; pres. Qed.
Lemma frame_group_other i l : Pres (Frame P) (group_other i l).
Proof. unfold group_other, skip_state. revert i. induction l as [|x l IH]; intros i; simpl; pres. Qed.
Lemma frame_electFailover l : Pres (Frame P) (electFailoverCandidate l).
Proof. unfold electFailoverCandidate. pres. Qed.
Hint Resolve frame_electFailover : pres.
Lemma frame_failover_start fail : Pres (Frame P) (failover_start fail).
Proof. unfold failover_start, switchover_prepare. pres. Qed.
Lemma frame_refresh_slaves : Pres (Frame P) refresh_slaves.
Proof. unfold refresh_slaves. pres. Qed.
Hint Resolve frame_refresh_slaves : pres.
Lemma frame_failover_elect fail : Pres (Frame P) (failover_elect fail).
Proof. unfold failover_elect, electSwitchoverCandidate. pres. Qed.
Lemma frame_failover_script path fail : Pres (Frame P) (failover_script path fail).
Proof. unfold failover_script. pres. Qed.

(** *** Waits *)

Lemma frame_relay_caught_up l io : Pres (Frame P) (relay_caught_up l io).
Proof. unfold relay_caught_up. pres. Qed.
Hint Resolve frame_relay_caught_up : pres.
Lemma frame_wait_gtid n l ss io : Pres (Frame P) (wait_gtid n l ss io).
Proof. revert ss io. induction n as [|n IH]; intros ss io; simpl; pres. Qed.
Hint Resolve frame_wait_gtid : pres.
Lemma frame_wait_position n l ss : Pres (Frame P) (wait_position n l ss).
Proof. revert ss. induction n as [|n IH]; intros ss; simpl; pres. Qed.
Hint Resolve frame_wait_position : pres.
Lemma frame_ReadAllRelayLogs l : Pres (Frame P) (ReadAllRelayLogs l).
Proof. unfold ReadAllRelayLogs. pres. Qed.
Lemma frame_WaitSyncToMaster l m : Pres (Frame P) (WaitSyncToMaster l m).
Proof. unfold WaitSyncToMaster, LogReplPostion. pres. Qed.
Lemma frame_crash_report fail b now : Pres (Frame P) (crash_report fail b now).
Proof. unfold crash_report, crash_gtid. pres. Qed.
Hint Resolve frame_crash_report : pres.
Lemma frame_save_crash fail : Pres (Frame P) (save_crash fail).
Proof. unfold save_crash. pres. Qed.
End Elections.

#[export] Hint Resolve frame_isSlaveElectable frame_electFailover frame_switch_loop frame_virtual_loop
  frame_group_other frame_failover_start frame_refresh_slaves frame_failover_elect frame_failover_script
  frame_ReadAllRelayLogs frame_WaitSyncToMaster frame_save_crash frame_crash_report : pres.

(** ** Operations on the databases *)

(** What the freeze of a master does before it is read-only. *)
Section Freeze.
Context `{Env} `{GoSort} `{GoRange}.

Lemma frame_freeze_events l : Pres (Frame not_opening) (freeze_events l).
Proof. unfold freeze_events, SetEventScheduler. pres. Qed.
Lemma frame_stop_channels P l reps e :
  (forall ch r, P (Ev (db_StopSlave l ch) r)) -> Pres (Frame P) (stop_channels l reps e).
Proof.
  intros Hp. revert e. induction reps as [|rep reps IH]; intros e; simpl; pres.
  apply frame_event. intros r. apply Hp.
Qed.
Lemma frame_StopAllSlaves l : Pres (Frame not_opening) (StopAllSlaves l).
Proof. unfold StopAllSlaves. pres. by apply frame_stop_channels. Qed.
End Freeze.

Section Operations.
Context `{Env} `{GoSort} `{GoRange}.

Lemma frame_freeze_wait l n : Pres (Frame any_event) (freeze_wait l n).
Proof. induction n as [|n IH]; simpl; pres. Qed.
Hint Resolve frame_freeze_wait : pres.
Lemma frame_freeze l : Pres (Frame any_event) (freeze l).
Proof.
  unfold freeze, freeze_events, StopAllSlaves, SetEventScheduler, freeze_lock, SetSemiSyncReplica. pres.
  by apply frame_stop_channels.
Qed.
Lemma frame_SetReadOnly l : Pres (Frame any_event) (SetReadOnly l).
Proof. unfold SetReadOnly. pres. Qed.
Lemma frame_SetReadWrite l : Pres (Frame any_event) (SetReadWrite l).
Proof. unfold SetReadWrite. pres. Qed.
Hint Resolve frame_SetReadOnly frame_SetReadWrite : pres.
Lemma frame_StopSlave l : Pres (Frame any_event) (StopSlave l).
Proof. unfold StopSlave. pres. Qed.
Lemma frame_StartSlave l : Pres (Frame any_event) (StartSlave l).
Proof. unfold StartSlave. pres. Qed.
Lemma frame_ResetSlave l : Pres (Frame any_event) (ResetSlave l).
Proof. unfold ResetSlave. pres. Qed.
Hint Resolve frame_StopSlave frame_StartSlave frame_ResetSlave : pres.
Lemma frame_repeatM n m : Pres (Frame any_event) m -> Pres (Frame any_event) (repeatM n m).
Proof. intros Hm. induction n as [|n IH]; simpl; pres. Qed.
Lemma frame_catch_relay cr : Pres (Frame any_event) (catch_relay cr).
Proof. unfold catch_relay. pres. apply frame_repeatM. pres. Qed.
Lemma frame_stop_new_master l : Pres (Frame any_event) (stop_new_master l).
Proof. unfold stop_new_master, SetSemiSyncLeader. pres. Qed.
Lemma frame_crash_files cr : Pres (Frame any_event) (crash_files cr).
Proof. unfold crash_files. pres. Qed.
Lemma frame_reset_new_master l : Pres (Frame any_event) (reset_new_master l).
Proof. unfold reset_new_master. pres. Qed.
Lemma frame_enable_events ml x : Pres (Frame any_event) (enable_events ml x).
Proof. unfold enable_events. pres. Qed.
Hint Resolve frame_enable_events : pres.
Lemma frame_open_traffic fail l : Pres (Frame any_event) (open_traffic fail l).
Proof.
  unfold open_traffic, failoverProxies, failoverProxiesWaitMonitor, failoverPostScript,
    failoverEnableEventScheduler, SetEventScheduler. pres.
Qed.
Lemma frame_SwitchSlavesToMaster fail : Pres (Frame any_event) (SwitchSlavesToMaster fail).
Proof.
  unfold SwitchSlavesToMaster, switch_one_slave, repoint_slave, switch_pseudo_gtid, SetMaintenance,
    SetProxyServerMaintenance. pres.
Qed.
Lemma frame_FailoverExtraMultiSource a b fail : Pres (Frame any_event) (FailoverExtraMultiSource a b fail).
Proof. unfold FailoverExtraMultiSource. pres. Qed.
Lemma frame_backendStateChangeProxies : Pres (Frame any_event) backendStateChangeProxies.
Proof. unfold backendStateChangeProxies. pres. Qed.
End Operations.

#[export] Hint Resolve frame_freeze_events frame_StopAllSlaves frame_freeze_wait frame_freeze frame_SetReadOnly
  frame_SetReadWrite frame_StopSlave frame_StartSlave frame_ResetSlave frame_catch_relay
  frame_stop_new_master frame_crash_files frame_reset_new_master frame_enable_events
  frame_open_traffic frame_SwitchSlavesToMaster frame_FailoverExtraMultiSource
  frame_backendStateChangeProxies : pres.
