(* ===== verification/RefreshProps.v ===== *)
(** * Properties of the monitoring of a server (cluster/srv.go, srv_chk.go)

    A refresh touches one server; the replication check gives a slave the state
    its threads and its delay call for; the wait for the relay logs ends for one
    of the reasons of its loop, and how long it is followed does not change what
    it returns. *)

From Stdlib Require Import ZArith Lia Bool Ascii String.
From stdpp Require Import base list gmap strings functions.
From S2P Require Import Prelude GoLib Gtid Version StateMachine Crash DelayStat Config Server Cluster Demo ServerOps Refresh Election Failover FailoverFrame.

Local Open Scope string_scope.
Local Open Scope list_scope.
Local Open Scope Z_scope.

(** ** One server at a time *)

Definition Local (l : loc) (w w' : World) : Prop := forall x, x <> l -> w_heap w' x = w_heap w x.
#[export] Instance Local_preorder l : PreOrder (Local l).
Proof. split; [by intros w x|]. intros a b d H1 H2 x Hx. by rewrite H2, H1. Qed.

Section Local.
Context `{Env} `{GoSort} `{GoRange} (l : loc).

Lemma local_call {R} (c : Call R) : Pres (Local l) (call c).
Proof. by intros w x _. Qed.
Lemma local_mod_server f : Pres (Local l) (mod_server l f).
Proof. intros w x Hx. simpl. by rewrite fn_lookup_insert_ne. Qed.
Lemma local_mod_sm f : Pres (Local l) (mod_sm f).
Proof. by intros w x _. Qed.
Hint Resolve local_call local_mod_server local_mod_sm : pres.
Lemma local_SetState k s : Pres (Local l) (SetState k s).
Proof. unfold SetState. pres. Qed.
Hint Resolve local_SetState : pres.
Lemma local_aux what : Pres (Local l) (aux what l).
Proof. unfold aux. pres. Qed.
Lemma local_srv_SetState st : Pres (Local l) (srv_SetState l st).
Proof. unfold srv_SetState, BashScriptDbServersChangeState. pres. Qed.
Hint Resolve local_aux local_srv_SetState : pres.
Lemma local_CheckReplication : Pres (Local l) (CheckReplication l).
Proof.
  unfold CheckReplication, check_stopped, check_delay, set_slave_or_relay, update_delay. pres.
Qed.
Lemma local_CheckVersion : Pres (Local l) (CheckVersion l).
Proof. unfold CheckVersion, version_warning. pres. Qed.
Hint Resolve local_CheckReplication local_CheckVersion : pres.
Lemma local_refresh_gtids v : Pres (Local l) (refresh_gtids l v).
Proof. unfold refresh_gtids. pres. Qed.
Hint Resolve local_refresh_gtids : pres.
Lemma local_refresh_variables : Pres (Local l) (refresh_variables l).
Proof. unfold refresh_variables, refresh_not_postgres, SetEventScheduler. pres. Qed.
Lemma local_refresh_binlog : Pres (Local l) (refresh_binlog l).
Proof. unfold refresh_binlog, read_dump_threads. pres. Qed.
Lemma local_refresh_replication : Pres (Local l) (refresh_replication l).
Proof. unfold refresh_replication, refresh_channel. pres. Qed.
Lemma local_refresh_status : Pres (Local l) (refresh_status l).
Proof.
  unfold refresh_status, refresh_semisync, refresh_health, refresh_plugins, read_dump_threads,
    CheckMaxConnections. pres.
Qed.
Hint Resolve local_refresh_variables local_refresh_binlog local_refresh_replication local_refresh_status : pres.
Lemma local_Refresh : Pres (Local l) (Refresh l).
Proof. unfold Refresh, refresh_maxscale. pres. Qed.
End Local.

#[export] Hint Resolve local_call local_mod_server local_mod_sm local_SetState local_Refresh : pres.

(** ** The state of a slave *)

(** What the threads and the delay of a slave call for. *)
Definition slave_state (conf : Config) (ss : SlaveStatus) : string :=
  let sql := ns_String (ss_SlaveSQLRunning ss) in
  let io := ns_String (ss_SlaveIORunning ss) in
  if negb (ni_Valid (ss_SecondsBehindMaster ss))
  then if ((sql =? "Yes") && (io =? "No") || (sql =? "No") && (io =? "Yes") || (sql =? "No") && (io =? "No"))%string
       then stateSlaveErr else stateSlave
  else let secs := ni_Int64 (ss_SecondsBehindMaster ss) in
       if (0 <? secs) && (Conf_FailMaxDelay conf <? secs) && Conf_RplChecks conf
       then stateSlaveLate else stateSlave.

Section State.
Context `{Env} `{GoSort} `{GoRange}.

Definition state_at (l : loc) (w : World) : string := srv_State (w_heap w l).

Lemma state_mod_server l f :
  (forall s, srv_State (f s) = srv_State s) -> Pres (keeps (state_at l)) (mod_server l f).
Proof. intros Hf w. unfold keeps, state_at. simpl. by rewrite fn_lookup_insert, Hf. Qed.
Lemma state_call l {R} (c : Call R) : Pres (keeps (state_at l)) (call c).
Proof. by intros w. Qed.
Hint Resolve state_call : pres.
Hint Extern 1 (Pres (keeps (state_at _)) (mod_server _ _)) =>
  apply state_mod_server; intros ?; reflexivity : pres.

Lemma state_update_delay l secs : Pres (keeps (state_at l)) (update_delay l secs).
Proof. unfold update_delay. pres. Qed.

(** A plain slave takes the first of the two states. *)
Lemma set_slave_spec l a b w :
  srv_IsRelay (w_heap w l) = false -> srv_IsMaxscale (w_heap w l) = false ->
  exists w', set_slave_or_relay l a b w = (Ret tt, w') /\ state_at l w' = a.
Proof.
  intros Hr Hm. unfold set_slave_or_relay, mbind, M_bind. cbn [load]. rewrite Hr, Hm. cbn [negb andb].
  unfold srv_SetState, mbind, M_bind. cbn [load].
  destruct (whenM _ _ w) as [o w1] eqn:E.
  assert (o = Ret tt) as ->.
  { destruct o as [[]| |]; [done|exfalso..]; unfold whenM in E; (destruct (negb _); [|discriminate E]);
      unfold BashScriptDbServersChangeState, whenM, mbind, M_bind in E; cbn [get_cluster load] in E;
      by destruct (negb _). }
  eexists. split; [reflexivity|]. unfold state_at. simpl. by rewrite fn_lookup_insert.
Qed.

Lemma check_stopped_state l ss w :
  srv_IsRelay (w_heap w l) = false -> srv_IsMaxscale (w_heap w l) = false ->
  ni_Valid (ss_SecondsBehindMaster ss) = false ->
  forall conf, state_at l (snd (check_stopped l ss w)) = slave_state conf ss.
Proof.
  intros Hr Hm Hv conf. unfold check_stopped, slave_state. rewrite Hv. cbn [negb].
  set (sql := ns_String (ss_SlaveSQLRunning ss)). set (io := ns_String (ss_SlaveIORunning ss)).
  assert (Hset : forall a b (r : string),
    state_at l (snd ((set_slave_or_relay l a b ;; mret r) w)) = a).
  { intros a b r. destruct (set_slave_spec l a b w Hr Hm) as (w' & E & Hs).
    unfold mbind, M_bind. rewrite E. done. }
  destruct ((sql =? "Yes") && (io =? "No"))%string; [by rewrite Hset|].
  destruct ((sql =? "No") && (io =? "Yes"))%string; [by rewrite Hset|].
  destruct ((sql =? "No") && (io =? "No"))%string; [by rewrite Hset|].
  destruct (sql =? "Connecting")%string; by rewrite Hset.
Qed.

Lemma check_delay_state l ss w :
  srv_IsRelay (w_heap w l) = false -> srv_IsMaxscale (w_heap w l) = false ->
  ni_Valid (ss_SecondsBehindMaster ss) = true ->
  state_at l (snd (check_delay l ss w)) = slave_state (cl_Conf (w_cluster w)) ss.
Proof.
  intros Hr Hm Hv. unfold check_delay, slave_state. rewrite Hv. cbn [negb].
  unfold mbind at 1. unfold M_bind at 1. cbn [get_conf].
  set (conf := cl_Conf (w_cluster w)). set (secs := ni_Int64 (ss_SecondsBehindMaster ss)).
  assert (Hset : forall a b (r : string),
    state_at l (snd ((set_slave_or_relay l a b ;; update_delay l secs ;; mret r) w)) = a).
  { intros a b r. destruct (set_slave_spec l a b w Hr Hm) as (w' & E & Hs).
    unfold mbind at 1. unfold M_bind at 1. rewrite E.
    assert (P : Pres (keeps (state_at l)) (update_delay l secs ;; mret r))
      by (apply pres_bind; [apply _|apply state_update_delay|intros; apply pres_ret, _]).
    rewrite (P w'). done. }
  destruct (0 <? secs); cbn [andb]; [|by rewrite Hset].
  destruct ((Conf_FailMaxDelay conf <? secs) && Conf_RplChecks conf); by rewrite Hset.
Qed.
End State.

(** ** Waiting for the relay logs *)

Section Wait.
Context `{Env} `{GoSort} `{GoRange}.

(** Two computations that agree unless the first one is still waiting. *)
Definition settles {A} (m1 m2 : M A) : Prop :=
  forall w, match m1 w with (Hang, _) => True | r => m2 w = r end.

Lemma settles_refl {A} (m : M A) : settles m m.
Proof. intros w. by destruct (m w) as [[?| |] ?]. Qed.
Lemma settles_hang {A} (m : M A) : settles hang m.
Proof. by intros w. Qed.
Lemma settles_bind {A B} (m : M A) (f1 f2 : A -> M B) :
  (forall a, settles (f1 a) (f2 a)) -> settles (m ≫= f1) (m ≫= f2).
Proof. intros Hf w. unfold mbind, M_bind. destruct (m w) as [[a| |] w']; [apply Hf|done|done]. Qed.
Lemma settles_if {A} (b : bool) (m1 m2 n1 n2 : M A) :
  settles m1 n1 -> settles m2 n2 -> settles (if b then m1 else m2) (if b then n1 else n2).
Proof. by destruct b. Qed.

Lemma wait_gtid_settles n : forall k l ss io,
  (n <= k)%nat -> settles (wait_gtid n l ss io) (wait_gtid k l ss io).
Proof.
  induction n as [|n IH]; intros k l ss io Hk; (destruct k as [|k]; [try lia|]).
  - apply settles_refl.
  - cbn [wait_gtid]. do 2 (apply settles_bind; intros ?).
    apply settles_if; [apply settles_hang|apply settles_refl].
  - cbn [wait_gtid]. do 2 (apply settles_bind; intros ?).
    apply settles_if; [|apply settles_refl]. do 3 (apply settles_bind; intros ?).
    apply settles_if; [apply settles_refl|]. do 4 (apply settles_bind; intros ?). apply IH. lia.
Qed.

Lemma wait_position_settles n : forall k l ss,
  (n <= k)%nat -> settles (wait_position n l ss) (wait_position k l ss).
Proof.
  induction n as [|n IH]; intros k l ss Hk; (destruct k as [|k]; [try lia|]).
  - apply settles_refl.
  - cbn [wait_position]. apply settles_if; [apply settles_refl|apply settles_hang].
  - cbn [wait_position]. apply settles_if; [apply settles_refl|]. do 2 (apply settles_bind; intros ?).
    apply settles_if; [apply settles_refl|]. apply settles_if; [apply settles_refl|].
    apply settles_bind; intros ?. apply IH. lia.
Qed.

(** The call and its answer are new in the trace of [w']. *)
Definition answered {R} (c : Call R) (r : R) (w w' : World) : Prop :=
  exists t, w_trace w' = w_trace w ++ t /\ Ev c r ∈ t.

Lemma answered_extend {R} (c : Call R) r P Q w0 w1 w2 w3 :
  Frame P w0 w1 -> Frame Q w2 w3 -> answered c r w1 w2 -> answered c r w0 w3.
Proof.
  intros F1 F2 (t & Ht & Hin). destruct (frame_trace F1) as (t1 & T1 & _), (frame_trace F2) as (t2 & T2 & _).
  exists (t1 ++ t ++ t2). rewrite T2, Ht, T1, <- !app_assoc. split; [done|]. set_solver.
Qed.

(** How the wait on GTIDs ends in [w']: the position of the slave (which the
    comparison left sorted) against the received position of a status that the
    database reported. *)
Definition gtid_wait_over (l : loc) (w w' : World) : Prop :=
  exists ch ss io p r, answered (db_GetMSlaveStatus l ch) (ss, None) w w' /\
    NewList (ns_String (ss_GtidIOPos ss)) = Some io /\
    Gtid.Equal p io = Some r /\ srv_SlaveGtid (w_heap w' l) = Some (snd (fst r)) /\
    (fst (fst r) = true \/ ns_String (ss_UsingGtid ss) = "" \/ ns_String (ss_GtidSlavePos ss) = "" \/
     srv_State (w_heap w' l) = stateFailed).

Lemma relay_caught_up_ret l io w b w' :
  relay_caught_up l io w = (Ret b, w') ->
  exists p r, Gtid.Equal p io = Some r /\ b = fst (fst r) /\
    srv_SlaveGtid (w_heap w' l) = Some (snd (fst r)).
Proof.
  unfold relay_caught_up. intros E. do 3 inv_bind E. inv_pure.
  apply bind_ret in E as ([] & w1 & Hw & E). injection Hw as <-. inv_pure.
  eexists _, _. split; [eassumption|]. split; [done|]. simpl. by rewrite fn_lookup_insert.
Qed.

Lemma loop_exit (b : bool) (u g st : string) :
  negb b && negb (u =? "")%string && negb (g =? "")%string && negb (st =? stateFailed)%string = false ->
  b = true \/ u = "" \/ g = "" \/ st = stateFailed.
Proof.
  rewrite !andb_false_iff, !negb_false_iff, !String.eqb_eq. naive_solver.
Qed.

Lemma exec_answer {R} l (c : Call R) w r w' :
  exec l c w = (Ret r, w') -> quiet_call c = true -> answered c r w w' /\ Frame quiet w w'.
Proof.
  unfold exec. intros E Hq. inv_bind E. inv_pure. destruct (srv_Conn _); [|done].
  pose proof (frame_call quiet c Hq w) as F. rewrite E in F. split; [|done].
  injection E as <- <-. eexists. split; [reflexivity|]. by left.
Qed.

Lemma no_error {A} (r : A * Err) : is_err (snd r) = false -> r = (fst r, None).
Proof. destruct r as [a [e|]]; done. Qed.

Lemma wait_gtid_over n : forall l ch ss io u w w',
  answered (db_GetMSlaveStatus l ch) (ss, None) u w -> NewList (ns_String (ss_GtidIOPos ss)) = Some io ->
  wait_gtid n l ss io w = (Ret None, w') -> gtid_wait_over l u w'.
Proof.
  induction n as [|n IH]; intros l ch ss io u w w' Hrep Hio E; cbn [wait_gtid] in E;
    apply bind_ret in E as (b & w1 & Hb & E); destruct (relay_caught_up_ret _ _ _ _ _ Hb) as (p & r & Hr & -> & Hp);
    pose proof (frame_relay_caught_up quiet l io w) as F; rewrite Hb in F; cbn [snd] in F;
    apply bind_ret in E as (s & w2 & Hs & E); injection Hs as <- <-.
  all: destruct (negb (fst (fst r)) && _ && _ && _) eqn:Ec;
    [|injection E as <-; exists ch, ss, io, p, r;
      split; [by eapply (answered_extend _ _ quiet quiet); [reflexivity|exact F|exact Hrep]|];
      split; [done|]; split; [done|]; split; [done|]; by apply loop_exit].
  - discriminate E.
  - apply bind_ret in E as (e & w2 & HR & E). pose proof (frame_Refresh quiet l w1) as F1. rewrite HR in F1.
    inv_bind E. inv_pure. apply bind_ret in E as (r2 & w3 & He & E).
    apply exec_answer in He as [Ha F2]; [|done].
    destruct (is_err (snd r2)) eqn:Ee; [injection E as E _; by rewrite E in Ee|]. apply no_error in Ee.
    apply bind_ret in E as ([] & w4 & Hsl & E). pose proof (frame_call quiet (time_Sleep 500) eq_refl w3) as F3.
    rewrite Hsl in F3. inv_bind E. inv_pure. inv_bind E. inv_bind E. inv_pure.
    destruct Hrep as (t & Ht & _).
    assert (Fu : exists t', w_trace w2 = w_trace u ++ t').
    { destruct (frame_trace F) as (t1 & T1 & _), (frame_trace F1) as (t2 & T2 & _). cbn [snd] in T2.
      exists (t ++ t1 ++ t2). by rewrite T2, T1, Ht, <- !app_assoc. }
    eapply (IH l (Conf_MasterConn (cl_Conf (w_cluster w2))) (fst r2) _ u); [|eassumption|exact E].
    destruct Fu as (t' & Ht'), Ha as (t3 & Ht3 & Hin), (frame_trace F3) as (t4 & Ht4 & _).
    exists (t' ++ t3 ++ t4). cbn [snd] in Ht4. rewrite Ht4, Ht3, Ht', <- !app_assoc. split; [done|].
    rewrite Ee in Hin. apply elem_of_app. right. apply elem_of_app. left. exact Hin.
Qed.

(** How the wait on positions ends: what a status of the database says. *)
Definition position_wait_over (l : loc) (w w' : World) : Prop :=
  exists ch ss, answered (db_GetSlaveStatus l ch) (ss, None) w w' /\
  ((ss_MasterLogFile ss = ss_RelayMasterLogFile ss /\ ss_ReadMasterLogPos ss = ss_ExecMasterLogPos ss) \/
   strings_Contains (ns_String (ss_SlaveSQLRunningState ss)) "Slave has read all relay log" = true).

Lemma wait_position_over n : forall l ch ss u w w',
  answered (db_GetSlaveStatus l ch) (ss, None) u w -> wait_position n l ss w = (Ret None, w') ->
  position_wait_over l u w'.
Proof.
  induction n as [|n IH]; intros l ch ss u w w' Hrep E; cbn [wait_position] in E;
    (destruct (bool_decide _ && bool_decide _) eqn:Eb;
      [injection E as <-; apply andb_true_iff in Eb as [E1 E2]; apply bool_decide_eq_true in E1, E2;
       exists ch, ss; split; [done|by left]|]).
  - discriminate E.
  - inv_bind E. inv_pure. apply bind_ret in E as (r & w1 & Hr & E).
    apply exec_answer in Hr as [(t2 & Ht2 & Hin) F1]; [|done].
    destruct (is_err (snd r)) eqn:Ee; [injection E as E _; by rewrite E in Ee|]. apply no_error in Ee.
    destruct Hrep as (t & Ht & _).
    assert (Ha : answered (db_GetSlaveStatus l (Conf_MasterConn (cl_Conf (w_cluster w)))) (fst r, None) u w1).
    { exists (t ++ t2). rewrite Ht2, Ht, <- app_assoc. split; [done|]. rewrite Ee in Hin. set_solver. }
    destruct (strings_Contains _ _) eqn:Ec.
    + injection E as <-. eexists _, (fst r). split; [exact Ha|by right].
    + apply bind_ret in E as ([] & w4 & Hsl & E). pose proof (frame_call quiet (time_Sleep 500) eq_refl w1) as F3.
      rewrite Hsl in F3. eapply IH; [|exact E]. eapply (answered_extend _ _ quiet quiet); [reflexivity|exact F3|exact Ha].
Qed.
End Wait.

(** ** Properties *)

(** a refresh touches one server. Whatever the database answers and
    however the refresh ends, the other servers, the roles, the configuration,
    the crash reports, the counters and the failover flag are unchanged, the
    server keeps its identity, and no statement that changes a database is
    sent. *)
Theorem refresh_touches_one_server `{Env} `{GoSort} `{GoRange} (l : loc) (w : World) :
  Local l w (snd (Refresh l w)) /\ Frame quiet w (snd (Refresh l w)).
Proof. split; [apply local_Refresh|apply (frame_Refresh quiet)]. Qed.

(** the replication check gives a slave the state its threads and its
    delay call for: in error when a thread is stopped, late when it is further
    behind than the limit and checks are on, slave otherwise; whatever happens
    with the delay statistics that follow. *)
Theorem replication_check_state `{Env} `{GoSort} `{GoRange} (l : loc) (w : World) (ss : SlaveStatus) :
  let s := w_heap w l in
  let c := w_cluster w in
  srv_HaveWsrep s = false -> cl_IsInFailover c = false -> IsDown s && negb (srv_IsSlave s) = false ->
  (forall m, cl_master c = Some m -> srv_ServerID s <> srv_ServerID (w_heap w m)) ->
  topology_is c TopoActivePassive = false -> srv_IsMaintenance s = false ->
  srv_IsRelay s = false -> srv_IsMaxscale s = false -> own_channel s = Some ss ->
  srv_State (w_heap (snd (CheckReplication l w)) l) = slave_state (cl_Conf c) ss.
Proof.
  intros s c Hw Hf Hd Hm Ht Hmt Hr Hx Hss. unfold CheckReplication.
  unfold mbind at 1. unfold M_bind at 1. cbn [get_cluster].
  unfold mbind at 1. unfold M_bind at 1. cbn [load]. fold s c. rewrite Hw, Hf, Hd.
  assert (Hsame : (match cl_master c with
                   | Some m => ms ← load m; mret (srv_ServerID s =? srv_ServerID ms)
                   | None => mret false
                   end : M bool) w = (Ret false, w)).
  { destruct (cl_master c) as [m|]; [|done]. unfold mbind, M_bind. cbn [load].
    destruct (_ =? _) eqn:Eid; [|done]. bool_prop. by destruct (Hm m). }
  unfold mbind at 1. unfold M_bind at 1. rewrite Hsame, Ht, Hmt, Hss.
  destruct (ni_Valid (ss_SecondsBehindMaster ss)) eqn:Hv; cbn [negb].
  - by apply check_delay_state.
  - by apply check_stopped_state.
Qed.

(** db2 is a hundred seconds late; the limit is thirty. *)
Definition demo_late : SlaveStatus :=
  set_ss_SecondsBehindMaster (mkNullInt64 100 true) (demo_channel "0-1-90" "900").
Definition demo_lagging : World :=
  mkWorld demo_cluster (<[1%nat := set_srv_Replications [demo_late] (demo_heap 1%nat)]> demo_heap) [].

Lemma replication_check_state_witness :
  srv_State (w_heap (snd (CheckReplication 1%nat demo_lagging)) 1%nat) = stateSlaveLate.
Proof.
  rewrite (replication_check_state 1%nat demo_lagging demo_late);
    try (vm_compute; reflexivity).
  intros m Hm. injection Hm as <-. vm_compute. discriminate.
Defined.

(** following a wait for longer does not change what it returns: once a
    bounded wait for the relay logs returns or panics, every longer one ends
    with the same result in the same world. Only a database that never catches
    up is seen as waiting forever. *)
Theorem relay_wait_stable `{Env} `{GoSort} `{GoRange} (n k : nat) (l : loc) (ss : SlaveStatus) (io : list Gtid) :
  settles (wait_gtid n l ss io) (wait_gtid (n + k) l ss io) /\
  settles (wait_position n l ss) (wait_position (n + k) l ss).
Proof. split; [apply wait_gtid_settles|apply wait_position_settles]; lia. Qed.

(** The new master has applied its relay logs when the wait returns
    without error. With MariaDB GTIDs, the position it ends with contains the
    position received in a status the database reported during the wait (unless
    that status says that no GTID is in use or the server was declared failed
    meanwhile). Without, a status it reported shows the executed position at the
    one read, or says that all relay logs are read. *)
Theorem relay_logs_applied `{Env} `{GoSort} `{GoRange} (l : loc) (w w' : World) (v : Version) :
  srv_DBVersion (w_heap w l) = Some v -> ReadAllRelayLogs l w = (Ret None, w') ->
  if IsMariaDB v && srv_HaveMariaDBGTID (w_heap w l) then gtid_wait_over l w w'
  else position_wait_over l w w'.
Proof.
  intros Hver. unfold ReadAllRelayLogs. intros E. do 2 inv_bind E. inv_pure.
  apply bind_ret in E as (v' & w0 & Hd & E). apply deref_ret in Hd as [Hd ->]. rewrite Hver in Hd.
  injection Hd as <-. destruct (_ && _); apply bind_ret in E as (r & w1 & Hr & E);
    apply exec_answer in Hr as [Ha F1]; try done;
    (destruct (is_err (snd r)) eqn:Ee; [injection E as E _; by rewrite E in Ee|]);
    apply no_error in Ee; rewrite Ee in Ha.
  - apply bind_ret in E as (e & w2 & HR & E). inv_bind E. inv_pure.
    pose proof (frame_Refresh quiet l w1) as F2. rewrite HR in F2.
    eapply wait_gtid_over; [|eassumption|exact E]. eapply (answered_extend _ _ quiet quiet); [reflexivity|exact F2|exact Ha].
  - by eapply wait_position_over.
Qed.

(** db3 replicates with GTIDs. *)
Definition demo_gtid : World :=
  mkWorld demo_cluster (<[2%nat := set_srv_HaveMariaDBGTID true (demo_heap 2%nat)]> demo_heap) [].

Lemma relay_logs_applied_witness : gtid_wait_over 2%nat demo_gtid (snd (ReadAllRelayLogs 2%nat demo_gtid)).
Proof.
  destruct (ReadAllRelayLogs 2%nat demo_gtid) as [o w'] eqn:E.
  assert (Eo : o = Ret None).
  { change o with (fst (o, w')). rewrite <- E. vm_compute. reflexivity. }
  rewrite Eo in E.
  assert (Hv : srv_DBVersion (w_heap demo_gtid 2%nat) = Some maria) by (vm_compute; reflexivity).
  assert (Hg : IsMariaDB maria && srv_HaveMariaDBGTID (w_heap demo_gtid 2%nat) = true) by (vm_compute; reflexivity).
  pose proof (relay_logs_applied 2%nat demo_gtid w' maria Hv E) as Hw. rewrite Hg in Hw. exact Hw.
Defined.
