(* ===== verification/FailoverSafety.v ===== *)
(** * Safety of the failover (cluster/cluster_fail.go)

    Properties of [MasterFailover]: one at a time, harmless when it is
    cancelled, and what it does to the roles of the servers when it completes. *)

From Stdlib Require Import ZArith Lia Bool Permutation Ascii String.
From stdpp Require Import base list gmap strings functions.
From S2P Require Import Prelude GoLib Gtid Version StateMachine Crash DelayStat Config Server Cluster Demo ServerOps Refresh Election Failover FailoverFrame.

Local Open Scope string_scope.
Local Open Scope list_scope.
Local Open Scope Z_scope.

Definition in_failover (w : World) : bool := cl_IsInFailover (w_cluster w).

(** The topologies handled by [VMasterFailover]. *)
Definition virtual_topology (c : Cluster) : bool :=
  topology_is c TopoMultiMasterRing || topology_is c TopoMultiMasterWsrep ||
  topology_is c TopoMultiMasterGrouprep.

(** Reading the cluster through a frame. *)
Lemma frame_read {T} (f : Cluster -> T) P w w' :
  Frame P w w' ->
  (forall c sm r, f (set_cl_StateMachine sm (set_cl_Conf (set_Conf_ReplicationCredential r (cl_Conf c)) c)) = f c) ->
  f (w_cluster w') = f (w_cluster w).
Proof.
  intros [E _ _] Hf. pose proof (f_equal (fun v => f (fst v)) E) as E'.
  unfold cluster_view in E'. cbn [fst] in E'. by rewrite !Hf in E'.
Qed.

Lemma frame_flag P w w' : Frame P w w' -> in_failover w' = in_failover w.
Proof. intros [E _ _]. exact (f_equal snd E). Qed.

(** ** The critical section *)

Definition set_flag (f : StateMachine -> StateMachine) (w : World) : World :=
  mkWorld (set_cl_StateMachine (f (cl_StateMachine (w_cluster w))) (w_cluster w)) (w_heap w) (w_trace w).

Lemma critical_unfold body w :
  critical body w =
  if in_failover w then (Ret false, w)
  else match body (set_flag SetFailoverState w) with
       | (Hang, w') => (Hang, w')
       | (o, w') => (o, set_flag RemoveFailoverState w')
       end.
Proof.
  unfold critical, in_failover, mbind, M_bind. cbn [get_cluster].
  destruct (cl_IsInFailover _); [done|]. unfold defer, set_flag. cbn.
  destruct (body _) as [[b| |] w']; done.
Qed.

Section Flag.
Context `{Env} `{GoSort} `{GoRange}.

Lemma flag_frame {A} P (m : M A) : Pres (Frame P) m -> Pres (keeps in_failover) m.
Proof. intros Hm w. exact (frame_flag _ _ _ (Hm w)). Qed.

Lemma flag_mod_cluster f :
  (forall c, cl_StateMachine (f c) = cl_StateMachine c) -> Pres (keeps in_failover) (mod_cluster f).
Proof.
  intros Hf w. unfold keeps, in_failover, cl_IsInFailover, mod_cluster. simpl. by rewrite Hf.
Qed.
Hint Extern 1 (Pres (keeps in_failover) (mod_cluster _)) =>
  apply flag_mod_cluster; intros ?; reflexivity : pres.
Hint Extern 5 (Pres (keeps in_failover) _) =>
  apply (flag_frame any_event); solve [eauto with pres] : pres.

Lemma flag_failover_body fail : Pres (keeps in_failover) (failover_body fail).
Proof.
  unfold failover_body, failover_promote, failover_finish, promote, failoverPreScript, record_crash,
    demote_old_master, demote_opt, count_failover. pres.
Qed.

Lemma flag_vfailover_body fail : Pres (keeps in_failover) (vfailover_body fail).
Proof.
  unfold vfailover_body, vfailover_start, switchover_prepare, vfailover_elect, electVirtualCandidate,
    electSwitchoverGroupReplicationCandidate, vpromote, vprepare, vopen, vfinish, vdemote, CloseRing,
    record_crash, failoverPreScript, failoverPostScript, failoverProxies, failoverProxiesWaitMonitor,
    failoverEnableEventScheduler, SetEventScheduler, SetGroupReplicationPrimary, count_failover. pres.
Qed.
End Flag.

(** ** The trace only grows *)

Definition Extends (w w' : World) : Prop := exists t, w_trace w' = w_trace w ++ t.
#[export] Instance Extends_preorder : PreOrder Extends.
Proof.
  split; [intros w; exists []; by rewrite app_nil_r|].
  intros x y z [t1 T1] [t2 T2]. exists (t1 ++ t2). by rewrite T2, T1, app_assoc.
Qed.

Section Extends.
Context `{Env} `{GoSort} `{GoRange}.

Lemma extends_frame {A} P (m : M A) : Pres (Frame P) m -> Pres Extends m.
Proof. intros Hm w. destruct (frame_trace (Hm w)) as (t & Ht & _). by exists t. Qed.
Lemma extends_mod_cluster f : Pres Extends (mod_cluster f).
Proof. intros w. exists []. by rewrite app_nil_r. Qed.
Hint Resolve extends_mod_cluster : pres.
Hint Extern 5 (Pres Extends _) => apply (extends_frame any_event); solve [eauto with pres] : pres.

Lemma extends_failover_body fail : Pres Extends (failover_body fail).
Proof.
  unfold failover_body, failover_promote, failover_finish, promote, failoverPreScript, record_crash,
    demote_old_master, demote_opt, count_failover. pres.
Qed.
Lemma extends_vfailover_body fail : Pres Extends (vfailover_body fail).
Proof.
  unfold vfailover_body, vfailover_start, switchover_prepare, vfailover_elect, electVirtualCandidate,
    electSwitchoverGroupReplicationCandidate, vpromote, vprepare, vopen, vfinish, vdemote, CloseRing,
    record_crash, failoverPreScript, failoverPostScript, failoverProxies, failoverProxiesWaitMonitor,
    failoverEnableEventScheduler, SetEventScheduler, SetGroupReplicationPrimary, count_failover. pres.
Qed.
Lemma extends_critical body : Pres Extends body -> Pres Extends (critical body).
Proof.
  intros Hb. unfold critical, mod_sm. pres. apply pres_defer; [apply _|done|apply extends_mod_cluster].
Qed.
Lemma extends_MasterFailover fail : Pres Extends (MasterFailover fail).
Proof.
  unfold MasterFailover, VMasterFailover. apply pres_bind; [apply _|apply pres_get_cluster, _|intros c].
  apply pres_if; [apply extends_critical, extends_vfailover_body|apply extends_critical, extends_failover_body].
Qed.
End Extends.

Section Cancel.
Context `{Env} `{GoSort} `{GoRange}.

Lemma MasterFailover_unfold fail w :
  MasterFailover fail w =
  critical (if virtual_topology (w_cluster w) then vfailover_body fail else failover_body fail) w.
Proof.
  unfold MasterFailover, virtual_topology, mbind, M_bind. cbn [get_cluster].
  by destruct (_ || _ || _).
Qed.

(** The phases of a body that returns. *)
Lemma failover_body_cases fail w b w' :
  failover_body fail w = (Ret b, w') ->
  Frame quiet w w' \/
  (b = true /\ exists w1 w2 k ml relay cr w3,
     failover_start fail w = (Ret None, w1) /\
     failover_elect fail w1 = (Ret (Some k), w2) /\
     failover_promote fail k w2 = (Ret (ml, relay, cr), w3) /\
     failover_finish fail ml relay cr w3 = (Ret tt, w')).
Proof.
  unfold failover_body. intros E.
  apply bind_ret in E as (start & w1 & Hs & E).
  pose proof (frame_failover_start quiet fail w) as F1. rewrite Hs in F1. cbn [snd] in F1.
  destruct start as [b0|]; [inv_pure; by left|].
  apply bind_ret in E as (key & w2 & Hk & E).
  pose proof (frame_failover_elect quiet fail w1) as F2. rewrite Hk in F2. cbn [snd] in F2.
  destruct key as [k|]; [|inv_pure; left; by transitivity w1].
  apply bind_ret in E as ([[ml relay] cr] & w3 & Hp & E).
  apply bind_ret in E as ([] & w4 & Hf & E). inv_pure. right. eauto 15.
Qed.

Lemma failover_start_true fail w b w' :
  failover_start fail w = (Ret (Some b), w') -> b = true ->
  fail = true /\ Conf_MultiMasterGrouprep (cl_Conf (w_cluster w)) = true.
Proof.
  unfold failover_start. intros E ->. inv_bind E. inv_pure. destruct fail; cbn [negb] in E.
  - inv_pure. by destruct (Conf_MultiMasterGrouprep _).
  - inv_bind E. inv_pure. by destruct a.
Qed.
End Cancel.

(** ** Roles: the abstract state of a failover *)

Record Roles := mkRoles {
  r_master : option loc; r_oldMaster : option loc; r_slaves : list loc; r_servers : list loc;
  r_crashes : list Crash; r_failovers : Z; r_multi : bool
}.

Definition roles (w : World) : Roles :=
  let c := w_cluster w in
  mkRoles (cl_master c) (cl_oldMaster c) (cl_slaves c) (cl_servers c) (cl_Crashes c)
    (cl_FailoverCtr c) (Conf_MultiMaster (cl_Conf c)).

Definition url_of (w : World) (l : loc) : string := srv_URL (w_heap w l).

(** A monitored master-slave cluster: distinct URLs, and every server in one role. *)
Record WellFormed (url : loc -> string) (r : Roles) : Prop := mkWellFormed {
  wf_urls : forall a b, a ∈ r_servers r -> b ∈ r_servers r -> url a = url b -> a = b;
  wf_slaves : forall a, a ∈ r_slaves r -> a ∈ r_servers r;
  wf_nodup : NoDup (r_slaves r);
  wf_master : forall m, r_master r = Some m -> m ∈ r_servers r /\ m ∉ r_slaves r
}.
Arguments wf_urls {url r}.
Arguments wf_slaves {url r}.
Arguments wf_nodup {url r}.
Arguments wf_master {url r}.

(** What a change of master means: a slave [x] becomes the master, a report
    names both servers; after a failover the old master has no role any more and
    the counter grows, after a switchover it is a slave. *)
Definition role_change (url : loc -> string) (fail : bool) (x old : loc) (r r' : Roles) : Prop :=
  r_master r = Some old /\ r_master r' = Some x /\ r_oldMaster r' = Some old /\
  r_servers r' = r_servers r /\ r_multi r' = r_multi r /\
  (exists rest, r_slaves r ≡ₚ x :: rest /\ r_slaves r' ≡ₚ (if fail then rest else old :: rest)) /\
  (exists cr, r_crashes r' = r_crashes r ++ [cr] /\ crash_URL cr = url old /\
     crash_ElectedMasterURL cr = url x /\ crash_Switchover cr = negb fail) /\
  r_failovers r' = (if fail then r_failovers r + 1 else r_failovers r).

Lemma wf_url url url' r : WellFormed url r -> (forall l, url' l = url l) -> WellFormed url' r.
Proof. intros [? ? ? ?] Hu. split; try done. intros a b. rewrite !Hu. auto. Qed.

(** The abstract change keeps a cluster well-formed. *)
Lemma role_change_wf url url' fail x old r r' :
  WellFormed url r -> role_change url fail x old r r' -> (forall l, url' l = url l) -> WellFormed url' r'.
Proof.
  intros Hwf (Hm & Hm' & _ & Hs & _ & (rest & P1 & P2) & _) Hu. destruct (wf_master Hwf _ Hm) as [Ho1 Ho2].
  eapply wf_url; [|exact Hu].
  pose proof (wf_nodup Hwf) as Hnd. rewrite P1 in Hnd. inversion Hnd as [|? ? Hx Hrest]; subst.
  assert (Hin : forall a, a ∈ x :: rest -> a ∈ r_servers r) by (intros a; rewrite <- P1; apply (wf_slaves Hwf)).
  rewrite P1 in Ho2. assert (old <> x /\ old ∉ rest) as [Hox Hor] by set_solver.
  split; rewrite ?Hs.
  - apply (wf_urls Hwf).
  - intros a. rewrite P2. destruct fail; set_solver.
  - rewrite P2. destruct fail; [done|by constructor].
  - intros m. rewrite Hm'. intros [= <-]. rewrite P2. split; [set_solver|]. destruct fail; set_solver.
Qed.

(** The part of a frame that does not speak of the cluster record. *)
Record Follows (P : TraceEvent -> Prop) (w w' : World) : Prop := mkFollows {
  follows_ids : forall l, server_id (w_heap w' l) = server_id (w_heap w l);
  follows_trace : exists t, w_trace w' = w_trace w ++ t /\ Forall P t
}.
Arguments follows_ids {P w w'}.
Arguments follows_trace {P w w'}.

#[export] Instance Follows_preorder P : PreOrder (Follows P).
Proof.
  split.
  - intros w. split; [done|]. exists []. by rewrite app_nil_r.
  - intros x y z [I1 (t1 & T1 & F1)] [I2 (t2 & T2 & F2)]. split.
    + intros l. by rewrite I2.
    + exists (t1 ++ t2). rewrite T2, T1, app_assoc. split; [done|by apply Forall_app].
Qed.

Lemma frame_follows P w w' : Frame P w w' -> Follows P w w'.
Proof. by intros [_ I T]. Qed.
Lemma frame_roles P w w' : Frame P w w' -> roles w' = roles w.
Proof.
  intros F. exact (frame_read (fun c => mkRoles (cl_master c) (cl_oldMaster c) (cl_slaves c) (cl_servers c)
    (cl_Crashes c) (cl_FailoverCtr c) (Conf_MultiMaster (cl_Conf c))) P w w' F ltac:(done)).
Qed.
Lemma follows_url P w w' l : Follows P w w' -> url_of w' l = url_of w l.
Proof. intros [I _]. specialize (I l). unfold server_id, url_of in *. congruence. Qed.

Lemma follows_any P w w' : Follows P w w' -> Follows any_event w w'.
Proof. intros [I (t & T & F)]. split; [done|]. exists t. split; [done|]. by eapply Forall_impl; [|exact F]. Qed.

(** A computation that returned, seen through its frame. *)
Lemma frame_run {A} P (m : M A) w o w' : Pres (Frame P) m -> m w = (o, w') -> Frame P w w'.
Proof. intros Hm E. specialize (Hm w). by rewrite E in Hm. Qed.

Lemma frame_trans P w1 w2 w3 : Frame P w1 w2 -> Frame P w2 w3 -> Frame P w1 w3.
Proof. apply transitivity. Qed.

(** [pass P E]: step over the next computation of [E], which a frame covers. *)
Ltac pass P E :=
  let a := fresh "a" in let w1 := fresh "w" in let Hm := fresh "F" in
  apply bind_ret in E as (a & w1 & Hm & E); apply (frame_run P) in Hm; [|solve [pres]].

Section Promote.
Context `{Env} `{GoSort} `{GoRange}.

Lemma index_ret {A} (l : list A) i w a w' :
  index l i w = (Ret a, w') -> 0 <= i /\ l !! Z.to_nat i = Some a /\ w' = w.
Proof.
  unfold index. destruct (_ && _) eqn:E; [|done]. intros Hd. apply deref_ret in Hd as [? ->].
  bool_prop. done.
Qed.

Lemma index_from_some h p l : forall i j,
  index_from h p i l = Some j ->
  exists n y, j = i + Z.of_nat n /\ l !! n = Some y /\ p (h y) = true.
Proof.
  induction l as [|x l IH]; intros i j E; simpl in E; [done|].
  destruct (p (h x)) eqn:Ep.
  - injection E as <-. exists O, x. split; [lia|done].
  - destruct (IH _ _ E) as (n & y & -> & ? & ?). exists (S n), y. split; [lia|done].
Qed.

Lemma index_from_none h p l : forall i, index_from h p i l = None -> forall y, y ∈ l -> p (h y) = false.
Proof.
  induction l as [|x l IH]; intros i E y Hy; [by inversion Hy|]. simpl in E.
  destruct (p (h x)) eqn:Ep; [done|]. inversion Hy; subst; [done|]. by eapply IH.
Qed.

(** With distinct URLs the server found by URL is the slave itself. *)
Lemma server_key_self c h x ml w w' :
  (forall a b, a ∈ cl_servers c -> b ∈ cl_servers c -> srv_URL (h a) = srv_URL (h b) -> a = b) ->
  x ∈ cl_servers c -> index (cl_servers c) (server_key c h x) w = (Ret ml, w') -> ml = x /\ w' = w.
Proof.
  intros Hinj Hx E. apply index_ret in E as (_ & E & ->). split; [|done].
  unfold server_key in E. destruct (index_from _ _ _ _) as [j|] eqn:Ei; cbn [default] in E.
  - apply index_from_some in Ei as (n & y & -> & Hn & Hu). cbn [default from_option id] in E.
    rewrite Z.add_0_l, Nat2Z.id, Hn in E. injection E as <-. bool_prop.
    symmetry. apply Hinj; [done|by eapply list_elem_of_lookup_2|done].
  - pose proof (index_from_none _ _ _ _ Ei x Hx) as Hf. cbn beta in Hf. by rewrite String.eqb_refl in Hf.
Qed.

Lemma srv_delete_perm h x sl :
  (forall a b, a ∈ sl -> b ∈ sl -> srv_URL (h a) = srv_URL (h b) -> a = b) -> x ∈ sl ->
  sl ≡ₚ x :: srv_delete h x sl.
Proof.
  intros Hinj Hx. unfold srv_delete.
  set (p := fun y => (srv_URL (h x) =? srv_URL (h y))%string).
  destruct (find_index p sl) as [k|] eqn:Ek.
  - destruct (find_index_some _ _ _ Ek) as (y & Hy' & Hy).
    assert (x = y) as <-.
    { apply Hinj; [done|by eapply list_elem_of_lookup_2|]. by apply String.eqb_eq. }
    by eapply swap_delete_perm.
  - exfalso. apply list_elem_of_lookup in Hx as [k Hk].
    pose proof (Forall_lookup_1 _ _ _ _ (find_index_none _ _ Ek) Hk) as Hf.
    unfold p in Hf. by rewrite String.eqb_refl in Hf.
Qed.

(** The promotion: the elected slave is the master. *)
Lemma promote_spec k w w' :
  WellFormed (url_of w) (roles w) -> Conf_MultiMaster (cl_Conf (w_cluster w)) = false ->
  promote k w = (Ret tt, w') ->
  exists x rest, 0 <= k /\ cl_slaves (w_cluster w) !! Z.to_nat k = Some x /\
    Permutation (cl_slaves (w_cluster w)) (x :: rest) /\
    roles w' = mkRoles (Some x) (r_master (roles w)) rest (r_servers (roles w)) (r_crashes (roles w))
                 (r_failovers (roles w)) (r_multi (roles w)) /\
    Follows not_opening w w'.
Proof.
  intros Hwf Hmm. unfold promote. intros E. inv_bind E. inv_bind E. inv_pure.
  apply bind_ret in E as (x & w1 & Hx & E). apply index_ret in Hx as (Hk & Hx & ->).
  assert (Hin : x ∈ cl_slaves (w_cluster w)) by (by eapply list_elem_of_lookup_2).
  apply bind_ret in E as (ml & w1 & Hml & E).
  apply server_key_self in Hml as [-> ->]; [|exact (wf_urls Hwf)|by apply (wf_slaves Hwf)].
  apply bind_ret in E as ([] & w1 & Hw1 & E). injection Hw1 as <-.
  set (w1 := mkWorld _ _ _) in E.
  apply bind_ret in E as (a & w2 & F & E). apply (frame_run not_opening) in F; [|solve [pres]].
  rewrite Hmm in E. cbn [negb whenM] in E. inv_bind E. inv_bind E. inv_pure.
  pose proof (frame_roles _ _ _ F) as R. unfold roles in R. injection R as R1 R2 R3 R4 R5 R6 R7.
  cbn [w1 w_cluster] in R1, R2, R3, R4, R5, R6, R7.
  apply bind_ret in E as (x' & w3 & Hx' & E). apply index_ret in Hx' as (_ & Hx' & ->).
  rewrite R3 in Hx'. change (cl_slaves (w_cluster w) !! Z.to_nat k = Some x') in Hx'.
  rewrite Hx in Hx'. injection Hx' as <-. injection E as <-.
  assert (Hu : forall l, srv_URL (w_heap w2 l) = url_of w l)
    by (intros l; exact (follows_url _ w1 w2 l (frame_follows _ _ _ F))).
  exists x, (srv_delete (w_heap w2) x (cl_slaves (w_cluster w2))). split; [done|]. split; [done|].
  split; [rewrite R3; change (Permutation (cl_slaves (w_cluster w)) (x :: srv_delete (w_heap w2) x (cl_slaves (w_cluster w))));
          apply srv_delete_perm; [|done]|].
  { intros a' b' Ha Hb. rewrite !Hu. apply (wf_urls Hwf); by apply (wf_slaves Hwf). }
  split.
  - unfold roles. cbn. f_equal; assumption.
  - transitivity w2; [|split; [done|by exists []; rewrite app_nil_r]].
    transitivity w1; [split; [done|by exists []; rewrite app_nil_r]|by apply frame_follows].
Qed.

(** The two servers a report names and its kind. *)
Definition crash_names (cr : Crash) : string * string * bool :=
  (crash_URL cr, crash_ElectedMasterURL cr, crash_Switchover cr).

Lemma catch_relay_names cr w rl cr' w' :
  catch_relay cr w = (Ret (rl, cr'), w') -> crash_names cr' = crash_names cr.
Proof. unfold catch_relay. intros E. inv_run E; by simplify_eq. Qed.

Lemma save_crash_names fail w cr w' :
  save_crash fail w = (Ret cr, w') ->
  exists x old, cl_master (w_cluster w) = Some x /\ cl_oldMaster (w_cluster w) = Some old /\
    crash_names cr = (url_of w old, url_of w x, negb fail).
Proof.
  unfold save_crash. intros E. do 3 inv_bind E. inv_pure. inv_bind E. inv_pure.
  apply bind_ret in E as (now & w1 & Hnow & E). injection Hnow as _ <-.
  unfold crash_report in E. do 6 inv_bind E. inv_pure. cbn [w_cluster w_heap] in *.
  inv_bind E. inv_bind E. inv_pure. eexists _, _. done.
Qed.

(** The first statement on a frozen master that concerns writes closes it. *)
Lemma freeze_trace l w b w' :
  freeze l w = (Ret b, w') ->
  exists t1 e t2, w_trace w' = w_trace w ++ t1 ++ Ev (db_SetReadOnly l true) e :: t2 /\
    Forall not_opening t1.
Proof.
  unfold freeze. intros E. pass not_opening E. pass not_opening E.
  destruct (frame_trace F) as (u1 & T1 & P1). destruct (frame_trace F0) as (u2 & T2 & P2).
  apply bind_ret in E as (e & w2 & He & E).
  assert (Hrest : exists t, w_trace w' = w_trace w2 ++ t).
  { apply (frame_run any_event) in E; [|unfold freeze_lock, SetSemiSyncReplica; pres].
    destruct (frame_trace E) as (t & ? & _). eauto. }
  unfold exec in He. inv_bind He. inv_pure. destruct (srv_Conn _); [|done]. injection He as <- <-.
  destruct Hrest as [t Ht]. cbn [w_trace] in Ht.
  exists (u1 ++ u2), (answer (w_trace w1) (db_SetReadOnly l true)), t.
  split; [|by apply Forall_app]. rewrite Ht, T2, T1, <- !app_assoc. done.
Qed.

Definition add_crash (cr : Crash) (r : Roles) : Roles :=
  mkRoles (r_master r) (r_oldMaster r) (r_slaves r) (r_servers r) (r_crashes r ++ [cr])
    (r_failovers r) (r_multi r).

Lemma frame_keep P w w' : Frame P w w' -> roles w' = roles w /\ Follows any_event w w'.
Proof.
  intros F. split; [by eapply frame_roles|]. eapply follows_any. by apply frame_follows.
Qed.

(** From the crash report to the opening of the new master. *)
Lemma record_phase fail ml w o w' :
  (cr ← save_crash fail;
   rc ← catch_relay cr;
   stop_new_master ml ;;
   record_crash (snd rc) ;;
   crash_files (snd rc) ;;
   call save_cluster ;;
   reset_new_master ml ;;
   open_traffic fail ml ;;
   mret (ml, fst rc, snd rc)) w = (Ret o, w') ->
  exists relay cr x old, o = (ml, relay, cr) /\
    cl_master (w_cluster w) = Some x /\ cl_oldMaster (w_cluster w) = Some old /\
    crash_names cr = (url_of w old, url_of w x, negb fail) /\
    roles w' = add_crash cr (roles w) /\ Follows any_event w w'.
Proof.
  intros E. apply bind_ret in E as (cr & w1 & Hcr & E).
  destruct (save_crash_names _ _ _ _ Hcr) as (x & old & Hx & Hold & Hn).
  apply (frame_run any_event) in Hcr; [|solve [pres]].
  apply bind_ret in E as ([rl cr'] & w2 & Hrc & E). pose proof (catch_relay_names _ _ _ _ _ Hrc) as Hn'.
  apply (frame_run any_event) in Hrc; [|solve [pres]]. cbn [snd fst] in E.
  pass any_event E.
  apply bind_ret in E as ([] & w4 & Hw4 & E). injection Hw4 as <-. set (w4 := mkWorld _ _ _) in E.
  pass any_event E. pass any_event E. pass any_event E. pass any_event E. inv_pure.
  assert (F5 : Frame any_event w w0) by eauto using frame_trans.
  assert (F6 : Frame any_event w4 w') by eauto using frame_trans.
  destruct (frame_keep _ _ _ F5) as [R5 W5]. destruct (frame_keep _ _ _ F6) as [R6 W6].
  exists rl, cr', x, old. split; [done|]. split; [done|]. split; [done|]. split; [congruence|].
  split; [rewrite R6, <- R5; done|].
  transitivity w0; [done|]. transitivity w4; [split; [done|by exists []; rewrite app_nil_r]|done].
Qed.

(** Statements that open a server to writes come after the old master was closed. *)
Definition closed_first (old : loc) (w w' : World) : Prop :=
  exists t1 e t2, w_trace w' = w_trace w ++ t1 ++ Ev (db_SetReadOnly old true) e :: t2 /\
    Forall not_opening t1.

Lemma closed_first_before w1 w2 w3 old :
  Follows not_opening w1 w2 -> closed_first old w2 w3 -> closed_first old w1 w3.
Proof.
  intros [_ (t & T & Ft)] (t1 & e & t2 & T' & F1). exists (t ++ t1), e, t2.
  rewrite T', T, <- !app_assoc. split; [done|by apply Forall_app].
Qed.
Lemma closed_first_after P w1 w2 w3 old :
  closed_first old w1 w2 -> Follows P w2 w3 -> closed_first old w1 w3.
Proof.
  intros (t1 & e & t2 & T' & F1) [_ (t & T & Ft)]. exists t1, e, (t2 ++ t).
  rewrite T, T', <- !app_assoc. split; [done|done].
Qed.

Lemma failover_promote_spec fail k w ml relay cr w' :
  WellFormed (url_of w) (roles w) -> Conf_MultiMaster (cl_Conf (w_cluster w)) = false ->
  failover_promote fail k w = (Ret (ml, relay, cr), w') ->
  exists old rest, 0 <= k /\ cl_slaves (w_cluster w) !! Z.to_nat k = Some ml /\
    r_master (roles w) = Some old /\ Permutation (r_slaves (roles w)) (ml :: rest) /\
    crash_names cr = (url_of w old, url_of w ml, negb fail) /\
    roles w' = mkRoles (Some ml) (Some old) rest (r_servers (roles w)) (r_crashes (roles w) ++ [cr])
                 (r_failovers (roles w)) (r_multi (roles w)) /\
    Follows any_event w w' /\ (fail = false -> closed_first old w w').
Proof.
  intros Hwf Hmm E. unfold failover_promote in E.
  apply bind_ret in E as ([] & w1 & Hp & E).
  apply promote_spec in Hp as (x & rest & Hk & Hx & Hperm & R1 & W1); [|done|done].
  apply bind_ret in E as ([] & w2 & F2 & E). unfold failoverPreScript in F2.
  apply (frame_run not_opening) in F2; [|solve [pres]].
  pose proof (frame_roles _ _ _ F2) as R2. apply frame_follows in F2.
  inv_bind E. inv_pure. apply bind_ret in E as (m & wx & Hd & E). apply deref_ret in Hd as [Hm ->].
  assert (m = x) as ->.
  { change (r_master (roles w2) = Some m) in Hm. rewrite R2, R1 in Hm. by injection Hm as <-. }
  apply bind_ret in E as ([] & w3 & Hfr & E).
  assert (Hfz : roles w3 = roles w2 /\ Follows any_event w2 w3 /\
                (fail = false -> forall old, cl_oldMaster (w_cluster w2) = Some old -> closed_first old w2 w3)).
  { destruct fail; cbn [negb whenM] in Hfr; [injection Hfr as <-; done|].
    inv_bind Hfr. inv_pure. apply bind_ret in Hfr as (b & w4 & Hfr & Hr). injection Hr as <-.
    pose proof (freeze_trace _ _ _ _ Hfr) as Ht. apply (frame_run any_event) in Hfr; [|solve [pres]].
    apply frame_keep in Hfr as [? ?]. split; [done|]. split; [done|]. intros _ old Ho. by simplify_eq. }
  destruct Hfz as (R3 & W3 & Hcl). pass any_event E. apply frame_keep in F as [R4 W4].
  apply record_phase in E as (rl & cr' & x' & old & Ho & Hx' & Hold & Hn & R5 & W5).
  injection Ho as -> -> ->.
  change (r_master (roles w0) = Some x') in Hx'. change (r_oldMaster (roles w0) = Some old) in Hold.
  rewrite R4, R3, R2, R1 in Hx', Hold. cbn in Hx', Hold. injection Hx' as <-.
  assert (W : Follows not_opening w w2) by (by transitivity w1).
  assert (Wa : Follows any_event w w0) by (transitivity w2; [by eapply follows_any|by transitivity w3]).
  exists old, rest. split; [done|]. split; [done|]. split; [done|]. split; [done|]. split.
  { rewrite Hn. by rewrite !(follows_url _ _ _ _ Wa). }
  split; [rewrite R5, R4, R3, R2, R1; unfold add_crash; cbn; by rewrite Hold|].
  split; [by transitivity w0|]. intros ->. eapply closed_first_before; [exact W|].
  eapply closed_first_after; [apply Hcl; [done|]|transitivity w0; [exact W4|exact W5]].
  change (r_oldMaster (roles w2) = Some old). by rewrite R2, R1.
Qed.

Lemma frame_demote_opt conf o m b relay cr : Pres (Frame any_event) (demote_opt conf o m b relay cr).
Proof. unfold demote_opt. pres. Qed.

Definition set_slaves (f : list loc -> list loc) (r : Roles) : Roles :=
  mkRoles (r_master r) (r_oldMaster r) (f (r_slaves r)) (r_servers r) (r_crashes r) (r_failovers r) (r_multi r).

Lemma demote_spec ol ml relay cr w w' :
  r_multi (roles w) = false -> demote_old_master ol ml relay cr w = (Ret tt, w') ->
  roles w' = set_slaves (fun l => l ++ [ol]) (roles w) /\ Follows any_event w w'.
Proof.
  intros Hmm. unfold demote_old_master. intros E. do 3 pass any_event E.
  do 3 inv_bind E. inv_pure. inv_bind E. inv_pure.
  pass any_event E. apply bind_ret in E as (os & wx & Fx & E).
  apply (frame_run any_event) in Fx; [|apply frame_demote_opt].
  do 5 pass any_event E.
  assert (Fa : Frame any_event w w8) by eauto 20 using frame_trans.
  apply frame_keep in Fa as [R W].
  assert (Hc : Conf_MultiMaster (cl_Conf (w_cluster w2)) = false).
  { assert (Fb : Frame any_event w w2) by eauto using frame_trans. apply frame_roles in Fb.
    change (r_multi (roles w2) = false). by rewrite Fb. }
  rewrite Hc in E. cbn [negb whenM] in E. injection E as <-.
  split; [by rewrite <- R|]. transitivity w8; [done|]. split; [done|by exists []; rewrite app_nil_r].
Qed.

Lemma failover_finish_spec fail ml relay cr old w w' :
  r_multi (roles w) = false -> r_oldMaster (roles w) = Some old ->
  failover_finish fail ml relay cr w = (Ret tt, w') ->
  r_master (roles w') = r_master (roles w) /\ r_oldMaster (roles w') = Some old /\
  r_servers (roles w') = r_servers (roles w) /\ r_crashes (roles w') = r_crashes (roles w) /\
  r_multi (roles w') = r_multi (roles w) /\
  r_slaves (roles w') = (if fail then r_slaves (roles w) else r_slaves (roles w) ++ [old]) /\
  r_failovers (roles w') = (if fail then r_failovers (roles w) + 1 else r_failovers (roles w)) /\
  Follows any_event w w'.
Proof.
  intros Hmm Hold E. unfold failover_finish in E. inv_bind E. inv_pure.
  apply bind_ret in E as ([] & w1 & Hd & E).
  assert (R1 : roles w1 = (if fail then roles w else set_slaves (fun l => l ++ [old]) (roles w)) /\
               Follows any_event w w1).
  { destruct fail; cbn [negb whenM] in Hd; [by injection Hd as <-|].
    inv_bind Hd. inv_pure. change (r_oldMaster (roles w) = Some a) in H2. rewrite Hold in H2.
    injection H2 as <-. by apply demote_spec in Hd. }
  destruct R1 as [R1 W1]. do 4 pass any_event E.
  assert (Fa : Frame any_event w1 w4) by eauto using frame_trans.
  apply frame_keep in Fa as [R2 W2].
  assert (Hend : roles w' = (if fail then mkRoles (r_master (roles w4)) (r_oldMaster (roles w4))
                    (r_slaves (roles w4)) (r_servers (roles w4)) (r_crashes (roles w4))
                    (r_failovers (roles w4) + 1) (r_multi (roles w4)) else roles w4) /\
                 Follows any_event w4 w').
  { destruct fail; cbn [whenM] in E; [|by injection E as <-].
    injection E as <-. split; [done|]. split; [done|]. eexists. split; [reflexivity|]. by repeat constructor. }
  destruct Hend as [R3 W3]. assert (W : Follows any_event w w') by (transitivity w1; [done|by transitivity w4]).
  rewrite R3, R2, R1. by destruct fail.
Qed.

(** The elected slave passed the checks on what the databases had just reported. *)
Definition elected_well (fail : bool) (v : World) (x : loc) : Prop :=
  Electable (w_cluster v) (w_heap v) x /\ (fail = false -> switch_ok (w_cluster v) (w_heap v) x).

Lemma failover_elect_spec fail w k w' :
  failover_elect fail w = (Ret (Some k), w') ->
  exists x, 0 <= k /\ cl_slaves (w_cluster w) !! Z.to_nat k = Some x /\
    elected_well fail (snd (refresh_slaves w)) x.
Proof.
  unfold failover_elect. intros E. apply bind_ret in E as ([] & w0 & HR & E). rewrite HR. cbn [snd].
  apply (frame_run quiet) in HR; [|solve [pres]]. inv_bind E. inv_pure.
  assert (Hs : cl_slaves (w_cluster w0) = cl_slaves (w_cluster w)) by exact (f_equal r_slaves (frame_roles _ _ _ HR)).
  apply bind_ret in E as (key & w1 & He & E).
  destruct (key =? -1) eqn:Ek; [by inv_pure|]. bool_prop.
  apply bind_ret in E as (x & w2 & Hx & E). apply index_ret in Hx as (Hk & Hx & ->).
  apply bind_ret in E as (ok & w3 & Hok & E). destruct ok; inv_pure; [|done]. simplify_eq.
  rewrite Hs in Hx. exists x. split; [done|]. split; [done|]. destruct fail.
  - apply isSlaveElectable_sound in Hok. keeps_in election_view He. split; [|done].
    rewrite (view_heap _ _ He) in Hok.
    rewrite <- (view_cluster (fun c => Electable c (w_heap w0) x) _ _ He ltac:(done)). exact Hok.
  - destruct (switch_loop_spec _ [] _ _ _ _ He) as (_ & y & Hy & Hgood); simpl; try done; try lia.
    simpl in Hy. rewrite Hs, Hx in Hy. injection Hy as <-. split; [apply Hgood|done].
Qed.

(** What the manager knows when it elects: after the preparation and the refresh
    of the slaves. *)
Definition election_world (fail : bool) (w : World) : World :=
  snd (refresh_slaves (snd (failover_start fail w))).

(** A failover that completes performs the abstract change of roles. *)
Lemma failover_body_spec fail w w' :
  WellFormed (url_of w) (roles w) -> r_multi (roles w) = false ->
  Conf_MultiMasterGrouprep (cl_Conf (w_cluster w)) = false ->
  failover_body fail w = (Ret true, w') ->
  exists x old, role_change (url_of w) fail x old (roles w) (roles w') /\
    elected_well fail (election_world fail w) x /\
    Follows any_event w w' /\ (fail = false -> closed_first old w w').
Proof.
  intros Hwf Hmm Hg E. unfold failover_body in E.
  apply bind_ret in E as (start & w1 & Hs & E). pose proof Hs as F1.
  apply (frame_run quiet) in F1; [|solve [pres]].
  destruct start as [b|].
  { inv_pure. apply failover_start_true in Hs as [_ Hg']; [congruence|done]. }
  apply bind_ret in E as (key & w2 & Hk & E). pose proof Hk as F2.
  apply (frame_run quiet) in F2; [|solve [pres]].
  destruct key as [k|]; [|by inv_pure].
  apply failover_elect_spec in Hk as (x & _ & Hx & Hel).
  assert (F : Frame quiet w w2) by (by transitivity w1).
  pose proof (frame_roles _ _ _ F) as R. pose proof (frame_roles _ _ _ F1) as R1.
  pose proof (frame_follows _ _ _ F) as W.
  apply bind_ret in E as ([[ml relay] cr] & w3 & Hp & E).
  apply failover_promote_spec in Hp as (old & rest & _ & Hml & Hold & Hperm & Hn & R3 & W3 & Hcl).
  2:{ rewrite R. destruct Hwf as [? ? ? ?]. split; try done. intros a b. rewrite !(follows_url _ _ _ _ W). auto. }
  2:{ change (r_multi (roles w2) = false). by rewrite R. }
  assert (ml = x) as ->.
  { change (r_slaves (roles w1) !! Z.to_nat k = Some x) in Hx.
    change (r_slaves (roles w2) !! Z.to_nat k = Some ml) in Hml. rewrite R in Hml. rewrite R1 in Hx. congruence. }
  apply bind_ret in E as ([] & w4 & Hf & E). injection E as <-.
  apply (failover_finish_spec _ _ _ _ old) in Hf as (M1 & M2 & M3 & M4 & M5 & M6 & M7 & W4);
    [|rewrite R3; cbn [r_multi]; by rewrite R|by rewrite R3].
  rewrite R3, R in *. cbn [r_master r_oldMaster r_slaves r_servers r_crashes r_failovers r_multi] in M1, M2, M3, M4, M5, M6, M7.
  rewrite !(follows_url _ _ _ _ W) in Hn. injection Hn as N1 N2 N3.
  exists x, old. split_and!.
  - split_and!; try done; [|exists cr; done].
    exists rest. split; [done|]. rewrite M6. destruct fail; [done|]. symmetry. apply Permutation_cons_append.
  - unfold election_world. by rewrite Hs.
  - transitivity w2; [by eapply follows_any|by transitivity w3].
  - intros Hfail. eapply closed_first_after; [|exact W4].
    eapply closed_first_before; [|by apply Hcl].
    apply frame_follows. eapply Frame_weaken; [|exact F]. apply allows_not_opening.
Qed.

Lemma MasterFailover_false fail w w' :
  virtual_topology (w_cluster w) = false -> MasterFailover fail w = (Ret false, w') -> Frame quiet w w'.
Proof.
  rewrite MasterFailover_unfold, critical_unfold. intros -> E.
  destruct (in_failover w) eqn:Ef; [by injection E as <-|].
  destruct (failover_body fail _) as [[b| |] w1] eqn:Eb; [|done|done].
  injection E as -> <-. apply failover_body_cases in Eb as [F|[? _]]; [|done].
  destruct F as [C I T]. split; [|exact I|exact T].
  apply (f_equal fst) in C. unfold cluster_view in *. cbn [fst] in C.
  unfold in_failover, cl_IsInFailover in Ef. rewrite Ef.
  f_equal. exact C.
Qed.

Lemma MasterFailover_true fail w w' :
  virtual_topology (w_cluster w) = false -> WellFormed (url_of w) (roles w) ->
  r_multi (roles w) = false -> Conf_MultiMasterGrouprep (cl_Conf (w_cluster w)) = false ->
  MasterFailover fail w = (Ret true, w') ->
  exists x old, role_change (url_of w) fail x old (roles w) (roles w') /\
    elected_well fail (election_world fail (set_flag SetFailoverState w)) x /\
    Follows any_event w w' /\ (fail = false -> closed_first old w w').
Proof.
  rewrite MasterFailover_unfold, critical_unfold. intros -> Hwf Hmm Hg E.
  destruct (in_failover w); [done|].
  destruct (failover_body fail _) as [[b| |] w1] eqn:Eb; [|done|done]. injection E as -> <-.
  apply failover_body_spec in Eb as (x & old & Hr & Hel & W & Hc); [|done|done|done].
  exists x, old. split; [exact Hr|]. split; [exact Hel|].
  split; [destruct W as [I T]; split; [exact I|exact T]|exact Hc].
Qed.
End Promote.

(** ** Properties *)



(** No slave can be elected: both are ignored. *)
Definition demo_stuck : World :=
  mkWorld demo_cluster (fun l => set_srv_Ignored true (demo_heap l)) [].


(** C1: a change of master that completes is the abstract role change. The
    new master is one of the slaves; it passed the election checks on what the
    databases reported in this very failover; the old master is remembered, is a
    slave again after a switchover and has no role after a failover; one crash
    report naming both servers is added; the failover counter grows by one for a
    failover and not for a switchover. *)
Theorem failover_refines_role_change `{Env} `{GoSort} `{GoRange} (fail : bool) (w w' : World) :
  virtual_topology (w_cluster w) = false -> WellFormed (url_of w) (roles w) ->
  r_multi (roles w) = false -> Conf_MultiMasterGrouprep (cl_Conf (w_cluster w)) = false ->
  MasterFailover fail w = (Ret true, w') ->
  exists x old, role_change (url_of w) fail x old (roles w) (roles w') /\
    elected_well fail (election_world fail (set_flag SetFailoverState w)) x.
Proof.
  intros Ht Hwf Hmm Hg E.
  destruct (MasterFailover_true fail w w' Ht Hwf Hmm Hg E) as (x & old & Hr & Hv & _). eauto.
Qed.

Lemma demo_wellformed h tr :
  (forall l, srv_URL (h l) = srv_URL (demo_heap l)) ->
  WellFormed (url_of (mkWorld demo_cluster h tr)) (roles (mkWorld demo_cluster h tr)).
Proof.
  intros Hu. unfold url_of, roles. cbn [w_heap w_cluster].
  change (cl_servers demo_cluster) with [0; 1; 2]%nat. change (cl_slaves demo_cluster) with [1; 2]%nat.
  change (cl_master demo_cluster) with (Some 0%nat).
  split; cbn [r_servers r_slaves r_master].
  - intros a b. rewrite !Hu, !list_elem_of_In. cbn. intros Ha Hb.
    intuition subst; try done; discriminate.
  - intros a. rewrite !list_elem_of_In. cbn. tauto.
  - apply NoDup_ListNoDup. repeat constructor; cbn; lia.
  - intros m [= <-]. rewrite !list_elem_of_In. cbn. lia.
Qed.

Lemma demo_alive_urls l : srv_URL (w_heap demo_alive l) = srv_URL (demo_heap l).
Proof.
  unfold demo_alive. cbn [w_heap]. destruct (decide (l = 0%nat)) as [->|Hl].
  - rewrite fn_lookup_insert. vm_compute. reflexivity.
  - rewrite fn_lookup_insert_ne by congruence. reflexivity.
Qed.

Lemma failover_refines_role_change_witness :
  exists x old, role_change (url_of demo_world) true x old (roles demo_world)
                  (roles (snd (MasterFailover true demo_world))).
Proof.
  destruct (MasterFailover true demo_world) as [o w'] eqn:E.
  assert (Eo : o = Ret true).
  { change o with (fst (o, w')). rewrite <- E. vm_compute. reflexivity. }
  rewrite Eo in E.
  destruct (failover_refines_role_change true demo_world w') as (x & old & Hr & _);
    [vm_compute; reflexivity|apply demo_wellformed; reflexivity|reflexivity|reflexivity|exact E|].
  exists x, old. exact Hr.
Defined.

(** C7: a switchover closes the old master before anything is opened: the
    statements sent up to the [SET GLOBAL read_only=1] on the old master never
    make a server writable. *)
Theorem switchover_closes_old_master_first `{Env} `{GoSort} `{GoRange} (w w' : World) :
  virtual_topology (w_cluster w) = false -> WellFormed (url_of w) (roles w) ->
  r_multi (roles w) = false -> Conf_MultiMasterGrouprep (cl_Conf (w_cluster w)) = false ->
  MasterFailover false w = (Ret true, w') ->
  exists old, cl_master (w_cluster w) = Some old /\ closed_first old w w'.
Proof.
  intros Ht Hwf Hmm Hg E.
  destruct (MasterFailover_true false w w' Ht Hwf Hmm Hg E) as (x & old & Hr & _ & _ & Hc).
  exists old. split; [apply Hr|by apply Hc].
Qed.

Lemma switchover_closes_old_master_first_witness :
  closed_first 0%nat demo_alive (snd (MasterFailover false demo_alive)).
Proof.
  destruct (MasterFailover false demo_alive) as [o w'] eqn:E.
  assert (Eo : o = Ret true).
  { change o with (fst (o, w')). rewrite <- E. vm_compute. reflexivity. }
  rewrite Eo in E.
  destruct (switchover_closes_old_master_first demo_alive w') as (old & Ho & Hc);
    [vm_compute; reflexivity|apply demo_wellformed, demo_alive_urls|reflexivity|reflexivity|exact E|].
  injection Ho as <-. exact Hc.
Defined.

(** C37: the roles stay consistent: whatever a failover or a switchover
    answers, distinct servers keep distinct URLs, every slave is a server of the
    cluster, no server is twice a slave and the master is a server that is not
    one of the slaves. *)
Theorem failover_keeps_roles_wellformed `{Env} `{GoSort} `{GoRange} (fail b : bool) (w w' : World) :
  virtual_topology (w_cluster w) = false -> WellFormed (url_of w) (roles w) ->
  r_multi (roles w) = false -> Conf_MultiMasterGrouprep (cl_Conf (w_cluster w)) = false ->
  MasterFailover fail w = (Ret b, w') -> WellFormed (url_of w') (roles w').
Proof.
  intros Ht Hwf Hmm Hg E. destruct b.
  - destruct (MasterFailover_true fail w w' Ht Hwf Hmm Hg E) as (x & old & Hr & _ & W & _).
    eapply role_change_wf; [exact Hwf|exact Hr|]. intros l. exact (follows_url _ _ _ l W).
  - pose proof (MasterFailover_false _ _ _ Ht E) as F. rewrite (frame_roles _ _ _ F).
    eapply wf_url; [exact Hwf|]. intros l. exact (follows_url _ _ _ l (frame_follows _ _ _ F)).
Qed.

Lemma failover_keeps_roles_wellformed_witness :
  WellFormed (url_of (snd (MasterFailover true demo_world))) (roles (snd (MasterFailover true demo_world))).
Proof.
  destruct (MasterFailover true demo_world) as [o w'] eqn:E.
  assert (Eo : o = Ret true).
  { change o with (fst (o, w')). rewrite <- E. vm_compute. reflexivity. }
  rewrite Eo in E. cbn [snd].
  apply (failover_keeps_roles_wellformed true true demo_world w');
    [vm_compute; reflexivity|apply demo_wellformed; reflexivity|reflexivity|reflexivity|exact E].
Defined.

(** ** Corner cases *)

(** A switchover goes on when the old master refuses to become read-only: the
    result of [freeze] is not looked at. *)
Definition stubborn_answer {R} (h : list TraceEvent) (c : Call R) : R :=
  match c in Call R return R with
  | db_SetReadOnly _ true => Some "denied"
  | c => calm_answer demo_databases h c
  end.
Definition stubborn_env : Env :=
  {| answer := @stubborn_answer; wait_fuel := 3; env_hour_of := fun t => t / 3600 |}.

Example freeze_failure_ignored :
  fst (@freeze stubborn_env 0%nat demo_alive) = Ret false /\
  fst (@MasterFailover stubborn_env _ _ false demo_alive) = Ret true.
Proof. split; vm_compute; reflexivity. Qed.

(** On a ring the virtual election returns an index of [Servers], which is then
    used in [slaves]: db2 is elected and db3 is promoted. *)
Definition demo_ring : World :=
  mkWorld (set_cl_Topology TopoMultiMasterRing (set_cl_oldMaster (Some 0%nat) demo_cluster)) demo_heap [].

Example virtual_candidate_misindexed :
  fst (electVirtualCandidate (Some 0%nat) demo_ring) = Ret 1 /\
  cl_servers (w_cluster demo_ring) !! 1%nat = Some 1%nat /\
  fst (vpromote 1 demo_ring) = Ret 2%nat.
Proof. split_and!; vm_compute; reflexivity. Qed.

(** With the first server ignored the index is out of range. *)
Definition demo_ring_ignored : World :=
  mkWorld (w_cluster demo_ring) (<[1%nat := set_srv_Ignored true (demo_heap 1%nat)]> demo_heap) [].

Example virtual_candidate_panics :
  fst (electVirtualCandidate (Some 0%nat) demo_ring_ignored) = Ret 2 /\
  fst (vpromote 2 demo_ring_ignored) = Panic.
Proof. split; vm_compute; reflexivity. Qed.

(** With Galera an ignored server that is in sync can be elected. *)
Definition demo_galera : World :=
  mkWorld (set_cl_Topology TopoMultiMasterWsrep (set_cl_vmaster (Some 0%nat) demo_cluster))
    (fun l => set_srv_State stateWsrep (set_srv_Ignored true (demo_heap l))) [].

Example galera_elects_ignored :
  fst (electFailoverCandidate [1; 2]%nat demo_galera) = Ret 0 /\
  IsIgnored (w_heap demo_galera 1%nat) = true.
Proof. split; vm_compute; reflexivity. Qed.
