(* ===== verification/FailoverSlaves.v ===== *)
(** * The slaves after a failover (cluster/cluster_fail.go)

    [SwitchSlavesToMaster] deals with every slave: it is left alone for a stated
    reason, put in maintenance, or pointed to the new master; and no server is
    pointed anywhere else. *)

From Stdlib Require Import ZArith Lia Bool Permutation Ascii String.
From stdpp Require Import base list gmap strings functions.
From S2P Require Import Prelude GoLib Gtid Version StateMachine Crash DelayStat Config Server Cluster Demo ServerOps Refresh Election Failover FailoverFrame RefreshProps FailoverSafety.

Local Open Scope string_scope.
Local Open Scope list_scope.
Local Open Scope Z_scope.

(** A replication source that is set is this one. *)
Definition points_to (host port : string) (e : TraceEvent) : Prop :=
  match e with
  | Ev c _ => match c with
              | db_ChangeMaster _ opt => cm_Host opt = host /\ cm_Port opt = port
              | _ => True
              end
  end.
#[export] Instance allows_points_to host port : Allows (points_to host port).
Proof. intros [R c r]. unfold quiet, points_to. by destruct c. Qed.
#[export] Hint Resolve allows_points_to : pres.

Definition repointed (host port : string) (x : loc) (w w' : World) : Prop :=
  exists t opt e, w_trace w' = w_trace w ++ t /\ Ev (db_ChangeMaster x opt) e ∈ t /\
    cm_Host opt = host /\ cm_Port opt = port.

(** What happens to one slave. *)
Definition dealt_with (conf : Config) (old host port : string) (x : loc) (w w' : World) : Prop :=
  slave_untouched conf old (w_heap w x) = true \/ srv_IsMaintenance (w_heap w' x) = true \/
  repointed host port x w w'.

Section Slaves.
Context `{Env} `{GoSort} `{GoRange}.

Lemma exec_ret {R} l (c : Call R) w r w' :
  exec l c w = (Ret r, w') ->
  srv_Conn (w_heap w l) = true /\ w' = mkWorld (w_cluster w) (w_heap w) (w_trace w ++ [Ev c r]).
Proof.
  unfold exec. intros E. inv_bind E. inv_pure. destruct (srv_Conn _); [|done]. by injection E as <- <-.
Qed.

(** One [CHANGE MASTER] to the new master. *)
Lemma change_master_spec x opt host port w e w' :
  cm_Host opt = host -> cm_Port opt = port ->
  exec x (db_ChangeMaster x opt) w = (Ret e, w') ->
  Frame (points_to host port) w w' /\ repointed host port x w w'.
Proof.
  intros Hh Hp E. apply exec_ret in E as [_ ->]. split.
  - split; [done|done|]. eexists. split; [reflexivity|]. by repeat constructor.
  - eexists [_], opt, e. split; [reflexivity|]. split; [by left|done].
Qed.

Lemma frame_SetMaintenance P `{!Allows P} x : Pres (Frame P) (SetMaintenance x).
Proof. unfold SetMaintenance, SetProxyServerMaintenance. pres. Qed.

Lemma SetMaintenance_sets x w w' :
  SetMaintenance x w = (Ret tt, w') -> srv_IsMaintenance (w_heap w' x) = true.
Proof.
  unfold SetMaintenance. intros E. apply bind_ret in E as ([] & w1 & Hm & E). injection Hm as <-.
  inv_bind E. inv_pure. apply (pres_run w_heap) in E.
  - rewrite E. cbn [w_heap]. by rewrite fn_lookup_insert.
  - unfold SetProxyServerMaintenance. pres. intros w0. done.
Qed.

Lemma repointed_after P host port x w1 w2 w3 :
  Frame P w1 w2 -> repointed host port x w2 w3 -> repointed host port x w1 w3.
Proof.
  intros F (t & opt & e & Ht & Hin & Ho). destruct (frame_trace F) as (t0 & T0 & _).
  exists (t0 ++ t), opt, e. rewrite Ht, T0, <- app_assoc. split; [done|]. split; [|done].
  apply elem_of_app. by right.
Qed.

Lemma switch_pseudo_gtid_spec x ml w w' :
  switch_pseudo_gtid x ml w = (Ret tt, w') ->
  let host := srv_Host (w_heap w ml) in let port := srv_Port (w_heap w ml) in
  Frame (points_to host port) w w' /\ repointed host port x w w'.
Proof.
  intros E host port. unfold switch_pseudo_gtid in E. inv_bind E. inv_pure.
  pass (points_to host port) E. apply bind_ret in E as (sl & wx & Hsl & E). injection Hsl as <- <-.
  pass (points_to host port) E. pass (points_to host port) E.
  apply bind_ret in E as (m & wx & Hm & E). injection Hm as <- <-.
  pass (points_to host port) E. pass (points_to host port) E.
  assert (Fa : Frame (points_to host port) w w4) by eauto 10 using frame_trans.
  assert (Fb : Frame (points_to host port) w w2) by eauto using frame_trans.
  pose proof (frame_ids Fb ml) as Hid. injection Hid as _ Hh Hp _ _.
  apply bind_ret in E as (e & w5 & Hc & E). inv_pure.
  apply (change_master_spec _ _ host port) in Hc as [F5 R5]; [|exact Hh|exact Hp].
  split; [eauto using frame_trans|]. exact (repointed_after _ _ _ _ _ _ _ Fa R5).
Qed.

Lemma repoint_slave_spec x ol ml w w' :
  repoint_slave x ol ml w = (Ret tt, w') ->
  let host := srv_Host (w_heap w ml) in let port := srv_Port (w_heap w ml) in
  Frame (points_to host port) w w' /\
  (srv_IsMaintenance (w_heap w' x) = true \/ repointed host port x w w').
Proof.
  intros E host port. unfold repoint_slave in E. inv_bind E. inv_bind E. inv_pure.
  inv_bind E. inv_pure. apply bind_ret in E as (my & w1 & Hmy & E).
  assert (w1 = w) as -> by (destruct (negb a); inv_run Hmy; done). clear Hmy.
  assert (Hsend : forall opt, cm_Host opt = host -> cm_Port opt = port ->
            (exec x (db_ChangeMaster x opt) ;; mret tt) w = (Ret tt, w') ->
            Frame (points_to host port) w w' /\
            (srv_IsMaintenance (w_heap w' x) = true \/ repointed host port x w w')).
  { intros opt Ho1 Ho2 Es. apply bind_ret in Es as (e & w2 & Hc & Es). inv_pure.
    apply (change_master_spec _ _ host port) in Hc as [? ?]; auto. }
  destruct (negb a && negb my).
  - destruct (Conf_AutorejoinSlavePositionalHeartbeat _).
    + apply switch_pseudo_gtid_spec in E as [? ?]. auto.
    + split; [|left; by eapply SetMaintenance_sets]. eapply frame_run; [|exact E].
      apply frame_SetMaintenance, _.
  - apply bind_ret in E as (g57 & w1 & Hg & E).
    assert (w1 = w) as -> by (destruct (IsMySQLOrPerconaGreater57 _); inv_run Hg; done).
    destruct g57; [by apply Hsend in E|]. destruct (negb (Conf_MxsBinlogOn _)); [by apply Hsend in E|].
    destruct (srv_MxsHaveGtid _); by apply Hsend in E.
Qed.

Lemma frame_SetReadOnly_pt host port l : Pres (Frame (points_to host port)) (SetReadOnly l).
Proof. unfold SetReadOnly. pres. Qed.
Lemma frame_SetReadWrite_pt host port l : Pres (Frame (points_to host port)) (SetReadWrite l).
Proof. unfold SetReadWrite. pres. Qed.
Hint Resolve frame_SetReadOnly_pt frame_SetReadWrite_pt : pres.

Lemma heap_call {R} (c : Call R) : Pres (keeps w_heap) (call c).
Proof. by intros w. Qed.
Hint Resolve heap_call : pres.

Lemma local_switch_one_slave fail x ol ml : Pres (Local x) (switch_one_slave fail x ol ml).
Proof.
  unfold switch_one_slave, WaitSyncToMaster, LogReplPostion, StopSlave, StartSlave, repoint_slave,
    switch_pseudo_gtid, SetMaintenance, SetProxyServerMaintenance, SetReadOnly, SetReadWrite. pres.
Qed.

Lemma repointed_before P host port x w1 w2 w3 :
  repointed host port x w1 w2 -> Frame P w2 w3 -> repointed host port x w1 w3.
Proof.
  intros (t & opt & e & Ht & Hin & Ho) F. destruct (frame_trace F) as (t0 & T0 & _).
  exists (t ++ t0), opt, e. rewrite T0, Ht, <- app_assoc. split; [done|]. split; [|done].
  apply elem_of_app. by left.
Qed.

Lemma switch_one_slave_spec fail x ol ml w w' :
  switch_one_slave fail x ol ml w = (Ret tt, w') ->
  let host := srv_Host (w_heap w ml) in let port := srv_Port (w_heap w ml) in
  Frame (points_to host port) w w' /\
  (srv_IsMaintenance (w_heap w' x) = true \/ repointed host port x w w').
Proof.
  intros E host port. unfold switch_one_slave, StopSlave, StartSlave in E. inv_bind E. inv_pure. cbv zeta in E.
  pass (points_to host port) E. pass (points_to host port) E. pass (points_to host port) E.
  assert (Fa : Frame (points_to host port) w w2) by eauto using frame_trans.
  apply bind_ret in E as ([] & v & Hr & E). apply repoint_slave_spec in Hr. cbv zeta in Hr.
  pose proof (frame_ids Fa ml) as Hid. injection Hid as _ Hh Hp _ _.
  rewrite Hh, Hp in Hr. destruct Hr as [Fr Hr].
  assert (Fb : Frame (points_to host port) v w') by (eapply frame_run; [|exact E]; pres).
  assert (Hb : w_heap w' = w_heap v) by (eapply pres_run; [|exact E]; unfold SetReadOnly, SetReadWrite; pres).
  split; [eauto using frame_trans|]. destruct Hr as [Hm|Hr]; [left; by rewrite Hb|right].
  eapply repointed_before; [|exact Fb]. exact (repointed_after _ _ _ _ _ _ _ Fa Hr).
Qed.

(** The body of the loop, for a cluster [c]. *)
Definition switch_slave_step (c : Cluster) (fail : bool) (x : loc) : M unit :=
  let conf := cl_Conf c in
  sl ← load x;
  untouched ← (if Conf_MultiMaster conf || Conf_MultiMasterGrouprep conf || state_is sl stateWsrep ||
                  state_is sl stateWsrepDonor || state_is sl stateWsrepLate then mret true
               else ol ← deref (cl_oldMaster c); o ← load ol; mret (slave_untouched conf (srv_URL o) sl));
  if (untouched : bool) then mret tt
  else
    ol ← deref (cl_oldMaster c);
    ml ← deref (cl_master c);
    switch_one_slave fail x ol ml.

Lemma switch_slave_step_spec c fail ol ml x w w' :
  cl_oldMaster c = Some ol -> cl_master c = Some ml -> switch_slave_step c fail x w = (Ret tt, w') ->
  let host := srv_Host (w_heap w ml) in let port := srv_Port (w_heap w ml) in
  Frame (points_to host port) w w' /\ Local x w w' /\
  dealt_with (cl_Conf c) (url_of w ol) host port x w w'.
Proof.
  intros Ho Hm E host port. unfold switch_slave_step in E. rewrite Ho, Hm in E.
  apply bind_ret in E as (sl & w1 & Hl & E). injection Hl as <- <-.
  apply bind_ret in E as (u & w1 & Hu & E).
  assert (Hu' : u = slave_untouched (cl_Conf c) (url_of w ol) (w_heap w x) /\ w1 = w).
  { unfold slave_untouched. destruct (_ || _ || _ || _ || _) eqn:Eb; [by injection Hu as <- <-|].
    inv_run Hu. unfold slave_untouched. simplify_eq. by rewrite Eb. }
  destruct Hu' as [-> ->]. destruct (slave_untouched _ _ _) eqn:Eu.
  - injection E as <-. split; [reflexivity|]. split; [reflexivity|]. by left.
  - pose proof (local_switch_one_slave fail x ol ml w) as L. do 2 inv_bind E. inv_pure. simplify_eq.
    rewrite E in L. apply switch_one_slave_spec in E as [F Hv].
    split; [exact F|]. split; [exact L|]. right. exact Hv.
Qed.

Lemma switch_slaves_loop c fail ol ml : forall l w w',
  NoDup l -> cl_oldMaster c = Some ol -> cl_master c = Some ml ->
  forM l (switch_slave_step c fail) w = (Ret tt, w') ->
  let host := srv_Host (w_heap w ml) in let port := srv_Port (w_heap w ml) in
  Frame (points_to host port) w w' /\ (forall x, x ∉ l -> w_heap w' x = w_heap w x) /\
  forall x, x ∈ l -> dealt_with (cl_Conf c) (url_of w ol) host port x w w'.
Proof.
  induction l as [|y l IH]; intros w w' Hnd Ho Hm E host port; simpl in E.
  - injection E as <-. split; [reflexivity|]. split; [done|]. intros x Hx. by inversion Hx.
  - inversion Hnd as [|? ? Hy Hnd']; subst. apply bind_ret in E as ([] & w1 & H1' & E).
    apply (switch_slave_step_spec _ _ ol ml) in H1' as (F1 & L1 & D1); [|done|done].
    apply IH in E as (F2 & L2 & D2); [|done|done|done].
    pose proof (frame_ids F1 ml) as Hid. injection Hid as _ Hh Hp _ _.
    rewrite (follows_url _ _ _ ol (frame_follows _ _ _ F1)), Hh, Hp in *.
    split; [exact (frame_trans _ _ _ _ F1 F2)|]. split.
    + intros x Hx. rewrite L2, L1; [done|set_solver..].
    + intros x Hx. apply elem_of_cons in Hx as [->|Hx].
      * destruct D1 as [?|[?|Hr]]; [by left|right; left; by rewrite L2|right; right].
        by eapply repointed_before.
      * assert (x <> y) by (intros ->; done).
        destruct (D2 x Hx) as [Hu|[?|Hr]]; [left; by rewrite <- L1|right; by left|right; right].
        by eapply repointed_after.
Qed.
End Slaves.

(** C20: every slave is dealt with after a change of master. When
    [SwitchSlavesToMaster] returns, each slave was either left alone for one of
    the reasons the code lists, put in maintenance, or sent a [CHANGE MASTER] to
    the host and port of the new master; and no [CHANGE MASTER] that was sent
    names another host or port. *)
Theorem slaves_follow_new_master `{Env} `{GoSort} `{GoRange} (fail : bool) (w w' : World) (ol ml : loc) :
  NoDup (cl_slaves (w_cluster w)) ->
  cl_oldMaster (w_cluster w) = Some ol -> cl_master (w_cluster w) = Some ml ->
  SwitchSlavesToMaster fail w = (Ret tt, w') ->
  (forall x, x ∈ cl_slaves (w_cluster w) ->
     dealt_with (cl_Conf (w_cluster w)) (url_of w ol) (srv_Host (w_heap w ml)) (srv_Port (w_heap w ml)) x w w') /\
  exists t, w_trace w' = w_trace w ++ t /\
    Forall (points_to (srv_Host (w_heap w ml)) (srv_Port (w_heap w ml))) t.
Proof.
  intros Hnd Ho Hm E. unfold SwitchSlavesToMaster in E. inv_bind E. inv_pure.
  apply (switch_slaves_loop _ _ ol ml) in E as (F & _ & D); [|done|done|done].
  split; [exact D|exact (frame_trace F)].
Qed.

(** The slave that is left after db3 was promoted. *)
Definition demo_promoted : World :=
  mkWorld (set_cl_slaves [1%nat] (set_cl_oldMaster (Some 0%nat) (set_cl_master (Some 2%nat) demo_cluster)))
    demo_heap [].

Lemma slaves_follow_new_master_witness :
  dealt_with demo_conf "db1:3306" "db3" "3306" 1%nat demo_promoted (snd (SwitchSlavesToMaster true demo_promoted)).
Proof.
  destruct (SwitchSlavesToMaster true demo_promoted) as [o w'] eqn:E.
  assert (Eo : o = Ret tt).
  { change o with (fst (o, w')). rewrite <- E. vm_compute. reflexivity. }
  rewrite Eo in E.
  apply (slaves_follow_new_master true demo_promoted w' 0%nat 2%nat);
    [apply NoDup_singleton|reflexivity|reflexivity|exact E|].
  by left.
Defined.
