(* ===== verification/RejoinProps.v ===== *)
(** * Safety of the rejoin (cluster/srv_rejoin.go)

    A server that comes back never opens itself to writes beside the current
    master, is never attached elsewhere than to it, and an old master that has
    written more than the elected one is not attached before its extra events
    are undone. *)

From Stdlib Require Import ZArith Lia Bool Permutation Ascii String.
From stdpp Require Import base list gmap strings functions.
From S2P Require Import Prelude GoLib Gtid Version StateMachine Crash DelayStat Config Server Cluster Demo ServerOps Refresh Election Failover Rejoin FailoverFrame RefreshProps FailoverSafety FailoverSlaves.

Local Open Scope string_scope.
Local Open Scope list_scope.
Local Open Scope Z_scope.

(** ** The frame of a rejoin

    The flag [canFlashBack] is the only part of the cluster, beside the state
    messages, that the rejoin of a master writes. *)

Definition forget (w : World) : World :=
  mkWorld (set_cl_canFlashBack false (w_cluster w)) (w_heap w) (w_trace w).
Definition RFrame (P : TraceEvent -> Prop) (w w' : World) : Prop := Frame P (forget w) (forget w').

#[export] Instance RFrame_preorder P : PreOrder (RFrame P).
Proof.
  split; [intros w; unfold RFrame; reflexivity|].
  intros x y z. unfold RFrame. apply transitivity.
Qed.

Lemma rframe_of_frame P w w' : Frame P w w' -> RFrame P w w'.
Proof.
  intros [C I T]. split; [|done|done].
  exact (f_equal (fun v => (set_cl_canFlashBack false (fst v), snd v)) C).
Qed.
Lemma rframe_pres {A} P (m : M A) : Pres (Frame P) m -> Pres (RFrame P) m.
Proof. intros Hm w. apply rframe_of_frame, Hm. Qed.
Lemma rframe_canFlashBack P b : Pres (RFrame P) (mod_cluster (set_cl_canFlashBack b)).
Proof. intros w. split; [done|done|]. exists []. by rewrite app_nil_r. Qed.
#[export] Hint Resolve rframe_canFlashBack : pres.
#[export] Hint Extern 5 (Pres (RFrame _) _) => apply rframe_pres; solve [eauto with pres] : pres.

(** Reading the cluster through the frame. *)
Lemma rframe_read {T} (f : Cluster -> T) P w w' :
  RFrame P w w' ->
  (forall c sm r b, f (set_cl_StateMachine sm (set_cl_Conf (set_Conf_ReplicationCredential r (cl_Conf c))
                        (set_cl_canFlashBack b c))) = f c) ->
  f (w_cluster w') = f (w_cluster w).
Proof.
  intros [E _ _] Hf. pose proof (f_equal (fun v => f (fst v)) E) as E'.
  rewrite <- (Hf (w_cluster w') zeroStateMachine "" false), <- (Hf (w_cluster w) zeroStateMachine "" false).
  exact E'.
Qed.

Section Closed.
Context `{Env} `{GoSort} `{GoRange}.

Ltac closed := unfold StopSlave, StartSlave, SetReadOnly, SetSemiSyncReplica, GetMysqlDumpPath,
  GetMysqlBinlogPath, GetMysqlclientPath, tool_path, backendStateChangeProxies; pres.

Lemma closed_slave_pos l m : Pres (Frame not_opening) (SetReplicationGTIDSlavePosFromServer l m).
Proof. unfold SetReplicationGTIDSlavePosFromServer. closed. Qed.
Lemma closed_current_pos l m : Pres (Frame not_opening) (SetReplicationGTIDCurrentPosFromServer l m).
Proof. unfold SetReplicationGTIDCurrentPosFromServer. closed. Qed.
Lemma closed_maxscale l m : Pres (Frame not_opening) (SetReplicationFromMaxsaleServer l m).
Proof. unfold SetReplicationFromMaxsaleServer. closed. Qed.
Hint Resolve closed_slave_pos closed_current_pos closed_maxscale : pres.
Lemma closed_direct_dump l : Pres (Frame not_opening) (RejoinDirectDump l).
Proof. unfold RejoinDirectDump, direct_dump_fail, direct_dump_point, SetInReseedBackup. closed. Qed.
Hint Resolve closed_direct_dump : pres.
Lemma closed_SST l : Pres (Frame not_opening) (RejoinMasterSST l).
Proof. unfold RejoinMasterSST, RejoinPreviousSnapshot. closed. Qed.
Hint Resolve closed_SST : pres.
Lemma closed_reseed l : Pres (Frame not_opening) (ReseedMasterSST l).
Proof. unfold ReseedMasterSST, DelWaitBackupCookie. closed. Qed.
Hint Resolve closed_reseed : pres.
Lemma closed_sync l crash : Pres (Frame not_opening) (rejoinMasterSync l crash).
Proof. unfold rejoinMasterSync. closed. Qed.
Hint Resolve closed_sync : pres.
Lemma closed_flashback l crash : Pres (Frame not_opening) (rejoinMasterFlashBack l crash).
Proof. unfold rejoinMasterFlashBack, run_flashback. closed. Qed.
Hint Resolve closed_flashback : pres.
Lemma closed_prepare l : Pres (Frame not_opening) (rejoin_prepare l).
Proof. unfold rejoin_prepare. closed. Qed.
Hint Resolve closed_prepare : pres.
Lemma closed_ahead l crash : Pres (RFrame not_opening) (rejoin_ahead l crash).
Proof. unfold rejoin_ahead. pres. Qed.
Hint Resolve closed_ahead : pres.
Lemma closed_incremental l crash : Pres (RFrame not_opening) (rejoinMasterIncremental l crash).
Proof. unfold rejoinMasterIncremental, isReplicationAheadOfMasterElection. pres. Qed.
Hint Resolve closed_incremental : pres.
Lemma closed_with_crash l crash : Pres (RFrame not_opening) (rejoin_with_crash l crash).
Proof. unfold rejoin_with_crash, backupBinlog, saveBinlog, deletefiles. closed. Qed.
Hint Resolve closed_with_crash : pres.
Lemma closed_to_master l ml : Pres (RFrame not_opening) (rejoin_to_master l ml).
Proof.
  unfold rejoin_to_master, RejoinScript, StartGroupReplication, rejoin_without_crash. closed.
Qed.
End Closed.

(** ** Attached to the current master only *)

(** The manager's record of who the master is, with replication that goes
    directly to it. *)
Record attaching (m : loc) (host port : string) (c : Cluster) (h : loc -> ServerMonitor) : Prop := {
  att_master : cl_master c = Some m;
  att_direct : Conf_MxsBinlogOn (cl_Conf c) || Conf_MultiTierSlave (cl_Conf c) = false;
  att_host : srv_Host (h m) = host;
  att_port : srv_Port (h m) = port
}.
Definition attaching_in m host port (w : World) : Prop := attaching m host port (w_cluster w) (w_heap w).

(** While the master is [m], sources that are set are [m]. *)
Definition Attached (m : loc) (host port : string) (w w' : World) : Prop :=
  attaching_in m host port w -> RFrame (points_to host port) w w'.

Lemma attaching_frame P m host port w w' :
  RFrame P w w' -> attaching_in m host port w -> attaching_in m host port w'.
Proof.
  intros F [A1 A2 A3 A4]. pose proof (frame_ids F m) as E. injection E as _ Eh Ep _ _. split.
  - by rewrite (rframe_read cl_master P w w' F).
  - by rewrite (rframe_read (fun c => Conf_MxsBinlogOn (cl_Conf c) || Conf_MultiTierSlave (cl_Conf c)) P w w' F).
  - by rewrite <- A3.
  - by rewrite <- A4.
Qed.

#[export] Instance Attached_preorder m host port : PreOrder (Attached m host port).
Proof.
  split; [intros w _; reflexivity|]. intros x y z Hxy Hyz A. specialize (Hxy A).
  transitivity y; [done|]. by apply Hyz, (attaching_frame _ _ _ _ _ _ Hxy).
Qed.

Lemma real_master_attaching m host port c h h' :
  attaching m host port c h -> real_master c h' = Some m.
Proof. intros [A1 A2 _ _]. unfold real_master. by rewrite A2. Qed.

Section Attached.
Context `{Env} `{GoSort} `{GoRange} (m : loc) (host port : string).

Lemma att_rframe {A} (x : M A) : Pres (RFrame (points_to host port)) x -> Pres (Attached m host port) x.
Proof. intros Hx w _. apply Hx. Qed.

(** The cluster, the heap and the master itself, read while it is the master. *)
Lemma att_cluster_heap {A} (f : Cluster -> (loc -> ServerMonitor) -> M A) :
  (forall c h, attaching m host port c h -> Pres (Attached m host port) (f c h)) ->
  Pres (Attached m host port) (c ← get_cluster; h ← get_heap; f c h).
Proof. intros Hf w Hw. by apply (Hf _ _ Hw). Qed.
Lemma att_cluster {A} (f : Cluster -> M A) :
  (forall c h, attaching m host port c h -> Pres (Attached m host port) (f c)) -> Pres (Attached m host port) (c ← get_cluster; f c).
Proof. intros Hf w Hw. by apply (Hf _ _ Hw). Qed.
Lemma att_load {A} (f : ServerMonitor -> M A) :
  (forall s, srv_Host s = host -> srv_Port s = port -> Pres (Attached m host port) (f s)) -> Pres (Attached m host port) (s ← load m; f s).
Proof. intros Hf w Hw. by apply (Hf _ (att_host _ _ _ _ _ Hw) (att_port _ _ _ _ _ Hw)). Qed.
Lemma att_change l opt :
  cm_Host opt = host -> cm_Port opt = port -> Pres (Attached m host port) (exec l (db_ChangeMaster l opt)).
Proof. intros Hh Hp. apply att_rframe, rframe_pres. pres. by apply frame_event. Qed.
End Attached.

#[export] Hint Extern 6 (Pres (Attached _ _ _) _) =>
  apply att_rframe; solve [eauto with pres] : pres.

Section Points.
Context `{Env} `{GoSort} `{GoRange} (m : loc) (host port : string).

Ltac att_step :=
  first
  [ match goal with
    | |- Pres _ (get_cluster ≫= fun c => get_heap ≫= _) => apply att_cluster_heap; intros ? ? ?
    | |- Pres _ (get_cluster ≫= _) => apply att_cluster; intros ? ? ?
    | |- Pres _ (load m ≫= _) => apply att_load; intros ? ? ?
    | |- Pres _ (exec _ (db_ChangeMaster _ _)) => apply att_change; assumption
    end
  | pres_step ].
Ltac att :=
  unfold StopSlave, StartSlave, SetReadOnly, SetSemiSyncReplica, GetMysqlDumpPath,
    GetMysqlBinlogPath, GetMysqlclientPath, tool_path, backendStateChangeProxies;
  repeat first
  [ match goal with
    | A : attaching _ _ _ ?c _ |- context [real_master ?c ?h] =>
        rewrite (real_master_attaching _ _ _ c _ h A)
    | A : attaching _ _ _ ?c _ |- context [cl_master ?c] => rewrite (att_master _ _ _ c _ A)
    | |- context [if ?b then Some m else Some m] => destruct b
    | |- context [db_ChangeMaster _ (if ?b then _ else _)] => destruct b
    | |- Pres ?R (deref (Some ?x) ≫= ?f) => change (Pres R (f x)); cbv beta
    | |- Pres ?R (mret ?x ≫= ?f) => change (Pres R (f x)); cbv beta
    end
  | progress cbv zeta
  | att_step ].

Lemma att_slave_pos l : Pres (Attached m host port) (SetReplicationGTIDSlavePosFromServer l (Some m)).
Proof. unfold SetReplicationGTIDSlavePosFromServer. att. Qed.
Lemma att_current_pos l : Pres (Attached m host port) (SetReplicationGTIDCurrentPosFromServer l (Some m)).
Proof. unfold SetReplicationGTIDCurrentPosFromServer. att. Qed.
Lemma att_maxscale l : Pres (Attached m host port) (SetReplicationFromMaxsaleServer l (Some m)).
Proof. unfold SetReplicationFromMaxsaleServer. att. Qed.
Hint Resolve att_slave_pos att_current_pos att_maxscale : pres.
Lemma att_direct_point l : Pres (Attached m host port) (direct_dump_point l m).
Proof. unfold direct_dump_point. att. Qed.
Hint Resolve att_direct_point : pres.
Lemma att_direct_dump l : Pres (Attached m host port) (RejoinDirectDump l).
Proof. unfold RejoinDirectDump, direct_dump_fail, SetInReseedBackup. att. Qed.
Hint Resolve att_direct_dump : pres.
Lemma att_SST l : Pres (Attached m host port) (RejoinMasterSST l).
Proof. unfold RejoinMasterSST, RejoinPreviousSnapshot. att. Qed.
Hint Resolve att_SST : pres.
Lemma att_reseed l : Pres (Attached m host port) (ReseedMasterSST l).
Proof. unfold ReseedMasterSST, DelWaitBackupCookie. att. Qed.
Hint Resolve att_reseed : pres.
Lemma att_sync l crash : Pres (Attached m host port) (rejoinMasterSync l crash).
Proof. unfold rejoinMasterSync. att. Qed.
Hint Resolve att_sync : pres.
Lemma att_flashback l crash : Pres (Attached m host port) (rejoinMasterFlashBack l crash).
Proof. unfold rejoinMasterFlashBack, run_flashback. att. Qed.
Hint Resolve att_flashback : pres.
Lemma att_ahead l crash : Pres (Attached m host port) (rejoin_ahead l crash).
Proof. unfold rejoin_ahead. att. Qed.
Hint Resolve att_ahead : pres.
Lemma att_incremental l crash : Pres (Attached m host port) (rejoinMasterIncremental l crash).
Proof. unfold rejoinMasterIncremental, rejoin_prepare, isReplicationAheadOfMasterElection. att. Qed.
Hint Resolve att_incremental : pres.
Lemma att_with_crash l crash : Pres (Attached m host port) (rejoin_with_crash l crash).
Proof. unfold rejoin_with_crash, backupBinlog, saveBinlog, deletefiles. att. Qed.
Hint Resolve att_with_crash : pres.
Lemma att_to_master l ml : Pres (Attached m host port) (rejoin_to_master l ml).
Proof. unfold rejoin_to_master, RejoinScript, StartGroupReplication, rejoin_without_crash. att. Qed.
End Points.

(** ** Claims on the rejoin beside a master *)

Section Claims.
Context `{Env} `{GoSort} `{GoRange}.

Lemma rframe_roles P w w' : RFrame P w w' -> roles w' = roles w.
Proof.
  intros F. exact (rframe_read (fun c => mkRoles (cl_master c) (cl_oldMaster c) (cl_slaves c) (cl_servers c)
    (cl_Crashes c) (cl_FailoverCtr c) (Conf_MultiMaster (cl_Conf c))) P w w' F ltac:(done)).
Qed.

(** With a master, the body of [RejoinMaster] is covered by what covers the
    rejoin beside it. *)
Lemma rejoin_master_rel (R : World -> World -> Prop) `{!PreOrder R} l m w o w' :
  cl_master (w_cluster w) = Some m ->
  (forall ml, Pres R (rejoin_to_master l ml)) ->
  Pres R (mod_cluster (set_cl_canFlashBack true)) -> Pres R (call (channel_send "rejoinCond")) ->
  RejoinMaster l w = (o, w') -> R w w'.
Proof.
  intros Hm Hr Hc Hs E. unfold RejoinMaster in E.
  assert (Hb : R w (snd (rejoin_body l w))).
  { unfold rejoin_body, mbind, M_bind. cbn [get_cluster].
    destruct (topology_is _ _); [reflexivity|]. destruct (cl_IsInFailover _); [reflexivity|].
    cbn [mod_cluster]. rewrite Hm. etransitivity; [apply (Hc w)|]. apply Hr. }
  change w' with (snd (o, w')). rewrite <- E. unfold defer.
  destruct (rejoin_body l w) as [[e| |] v] eqn:Eb; cbn [snd] in Hb; [| |done];
    (specialize (Hs v); destruct (call _ v) as [[]]; cbn [snd] in *; by etransitivity).
Qed.

(** C8: While the cluster has a master, the rejoin of another server, however the
    databases, the backup jobs and the scripts behave and also when it panics,
    leaves every role as it is and sends no statement that opens a server to
    writes: a server that comes back never becomes a second writable master. *)
Theorem rejoin_never_opens_second_master l m w o w' :
  cl_master (w_cluster w) = Some m -> RejoinMaster l w = (o, w') ->
  roles w' = roles w /\
  exists t, w_trace w' = w_trace w ++ t /\ Forall not_opening t.
Proof.
  intros Hm E.
  assert (F : RFrame not_opening w w').
  { eapply rejoin_master_rel; [apply _|exact Hm|apply closed_to_master|pres|pres|exact E]. }
  split; [by eapply rframe_roles|exact (frame_trace F)].
Qed.


(** *** An old master that is ahead *)

(** Statements that make a server follow another one. *)
Definition no_attach (e : TraceEvent) : Prop :=
  match e with
  | Ev c _ => match c with db_ChangeMaster _ _ | db_StartSlave _ _ => False | _ => True end
  end.
#[local] Instance allows_no_attach : Allows no_attach.
Proof. intros [R c r]. unfold quiet, no_attach. by destruct c. Qed.
Hint Resolve allows_no_attach : pres.

(** The programs that undo the last events of a binary log succeeded. *)
Definition flashed_back (e : TraceEvent) : Prop :=
  exists p1 a1 p2 a2, e = Ev (run_pipe p1 a1 p2 a2) None.

(** The trace of an attempt: a failure that attached nothing, or a flashback
    before anything is attached. *)
Definition flash_first (t : list TraceEvent) : Prop :=
  exists t1 e t2, t = t1 ++ e :: t2 /\ Forall no_attach t1 /\ flashed_back e.
Definition guarded (o : outcome Err) (w w' : World) : Prop :=
  exists t, w_trace w' = w_trace w ++ t /\ ((o <> Ret None /\ Forall no_attach t) \/ flash_first t).
Definition Guarded (m : M Err) : Prop := forall w, guarded (fst (m w)) w (snd (m w)).

(** The server has more of its own transactions than the elected master had
    received of them. *)
Definition diverged (crash : Crash) (s : ServerMonitor) : Prop :=
  exists g cur, crash_FailoverIOGtid crash = Some g /\ g <> [] /\ srv_CurrentGtid s = Some cur /\
    GetSeqServerIdNos (GetUniversalGtidServerID s) g < GetSeqServerIdNos (GetUniversalGtidServerID s) cur.

Lemma diverged_is_ahead l crash w :
  diverged crash (w_heap w l) -> isReplicationAheadOfMasterElection l crash w = (Ret true, w).
Proof.
  intros (g & cur & Hg & Hne & Hc & Hlt). unfold isReplicationAheadOfMasterElection, UsedGtidAtElection.
  unfold mbind, M_bind. cbn [load]. rewrite Hg.
  replace (0 <? _) with true; [|destruct g; [done|cbn; symmetry; apply Z.ltb_lt; lia]].
  cbn [deref mret M_ret]. destruct (_ =? 0); [done|]. rewrite Hc. cbn [deref mret M_ret].
  by rewrite (proj2 (Z.ltb_lt _ _) Hlt).
Qed.

Lemma flash_first_app t t' : flash_first t -> flash_first (t ++ t').
Proof.
  intros (t1 & e & t2 & -> & ? & ?). exists t1, e, (t2 ++ t'). by rewrite <- app_assoc.
Qed.
Lemma flash_first_before t t' : Forall no_attach t -> flash_first t' -> flash_first (t ++ t').
Proof.
  intros Ft (t1 & e & t2 & -> & ? & ?). exists (t ++ t1), e, t2. rewrite <- app_assoc.
  split; [done|]. split; [by apply Forall_app|done].
Qed.

Lemma guarded_fail e : Guarded (mret (Some e)).
Proof. intros w. exists []. rewrite app_nil_r. split; [done|left]. by split; [discriminate|constructor]. Qed.
Lemma guarded_bind {A} (m : M A) (f : A -> M Err) :
  Pres (RFrame no_attach) m -> (forall a, Guarded (f a)) -> Guarded (m ≫= f).
Proof.
  intros Hm Hf w. destruct (frame_trace (Hm w)) as (t & T & F). cbn [forget w_trace] in T.
  unfold mbind, M_bind. destruct (m w) as [[a| |] v]; cbn [fst snd] in *.
  - destruct (Hf a v) as (t' & T' & G). exists (t ++ t'). rewrite T', T, app_assoc. split; [done|].
    destruct G as [[Ho Fa]|G]; [left; split; [done|by apply Forall_app]|right; by apply flash_first_before].
  - exists t. split; [done|left]. by split; [discriminate|].
  - exists t. split; [done|left]. by split; [discriminate|].
Qed.
Lemma guarded_err (e : Err) (m : M Err) : Guarded m -> Guarded (if is_err e then mret e else m).
Proof. destruct e; [intros _; apply guarded_fail|done]. Qed.

Lemma call_ret {R} (c : Call R) w r w' :
  call c w = (Ret r, w') -> w' = mkWorld (w_cluster w) (w_heap w) (w_trace w ++ [Ev c r]).
Proof. by intros [= <- <-]. Qed.

Lemma unattached_binlog_path : Pres (Frame no_attach) GetMysqlBinlogPath.
Proof. unfold GetMysqlBinlogPath, tool_path. pres. Qed.
Lemma unattached_client_path : Pres (Frame no_attach) GetMysqlclientPath.
Proof. unfold GetMysqlclientPath, tool_path. pres. Qed.
Hint Resolve unattached_binlog_path unattached_client_path : pres.
(** A flashback that succeeds has run its programs last. *)
Lemma run_flashback_ret l crash w w' :
  run_flashback l crash w = (Ret None, w') -> exists t, w_trace w' = w_trace w ++ t /\ flash_first t.
Proof.
  unfold run_flashback. intros E. inv_bind E. inv_bind E. inv_pure. cbv zeta in E.
  apply bind_ret in E as (p & v1 & E1 & E). apply (frame_run no_attach) in E1; [|solve [pres]].
  apply bind_ret in E as (ssl & v2 & E2 & E). apply deref_ret in E2 as [_ ->].
  apply bind_ret in E as (q & v3 & E3 & E). apply (frame_run no_attach) in E3; [|solve [pres]].
  destruct (frame_trace (frame_trans _ _ _ _ E1 E3)) as (t & T & F).
  apply call_ret in E. rewrite E. cbn [w_trace]. rewrite T, <- app_assoc. eexists. split; [reflexivity|].
  eexists t, _, []. split; [reflexivity|]. split; [done|]. by do 4 eexists.
Qed.

Lemma unattached_run_flashback l crash : Pres (Frame no_attach) (run_flashback l crash).
Proof. unfold run_flashback. pres. Qed.

Lemma guarded_flash l crash (k : M Err) :
  Pres Extends k ->
  Guarded (e ← run_flashback l crash; if is_err e then mret e else k).
Proof.
  intros Hk w. pose proof (unattached_run_flashback l crash w) as Fr.
  unfold mbind, M_bind. destruct (run_flashback l crash w) as [[[e|]| |] v] eqn:E; cbn [fst snd] in *.
  2: { destruct (run_flashback_ret _ _ _ _ E) as (t & T & G). destruct (Hk v) as [t' T']. cbn [is_err].
       exists (t ++ t'). rewrite T', T, app_assoc. split; [done|right]. by apply flash_first_app. }
  all: destruct (frame_trace Fr) as (t & T & F); exists t; split; [done|left]; by split; [discriminate|].
Qed.
Lemma frame_after_flashback l crash rm : Pres (Frame any_event)
  (g ← deref (crash_FailoverIOGtid crash);
   e ← exec l (db_SetGTIDSlavePos l (Sprint g));
   if is_err e then mret e
   else
     s ← load l;
     e ← (if srv_MxsHaveGtid s || negb (srv_IsMaxscale s)
          then SetReplicationGTIDSlavePosFromServer l rm
          else SetReplicationFromMaxsaleServer l rm);
     if is_err e then mret e else StartSlave l ;; mret None).
Proof.
  unfold SetReplicationGTIDSlavePosFromServer, SetReplicationFromMaxsaleServer, StopSlave, StartSlave. pres.
Qed.

Lemma guarded_flashback l crash : Guarded (rejoinMasterFlashBack l crash).
Proof.
  unfold rejoinMasterFlashBack. cbv zeta.
  apply guarded_bind; [pres|intros c]. apply guarded_bind; [pres|intros h].
  apply guarded_bind; [pres|intros p]. apply guarded_bind; [pres|intros e]. apply guarded_err.
  apply guarded_bind; [pres|intros q]. apply guarded_bind; [pres|intros e']. apply guarded_err.
  apply guarded_flash. intros w. destruct (frame_trace (frame_after_flashback l crash (real_master c h) w)) as (t & T & _).
  by exists t.
Qed.

Lemma guarded_ahead l crash : Guarded (rejoin_ahead l crash).
Proof.
  unfold rejoin_ahead. apply guarded_bind; [pres|intros c]. apply guarded_bind; [pres|intros s].
  apply guarded_bind; [pres|intros []]; cbn [negb]; [|apply guarded_fail].
  apply guarded_bind; [pres|intros _]. apply guarded_bind; [pres|intros c'].
  cbv zeta. destruct (_ && _); [|apply guarded_fail].
  intros w. destruct (guarded_flashback l crash w) as (t & T & G).
  unfold mbind, M_bind. destruct (rejoinMasterFlashBack l crash w) as [[[e|]| |] v]; cbn [fst snd] in *;
    exists t; (split; [done|]); (destruct G as [[Ho ?]|?]; [left|by right]);
    try (by destruct Ho); by split; [discriminate|].
Qed.

Lemma unattached_prepare l : Pres (Frame no_attach) (rejoin_prepare l).
Proof. unfold rejoin_prepare, SetReadOnly. pres. Qed.

(** C9: An old master that has more of its own transactions than the elected
    master had received is not attached as it is: after its state was read and
    it was closed to writes, either the incremental rejoin fails (or panics)
    without any CHANGE MASTER or START SLAVE, so that a state transfer is
    needed, or the flashback of its extra events has succeeded before anything
    is attached. *)
Theorem diverged_master_flashed_back_first l crash w w1 o w' :
  Conf_MxsBinlogOn (cl_Conf (w_cluster w)) = false ->
  rejoin_prepare l w = (Ret tt, w1) -> diverged crash (w_heap w1 l) ->
  rejoinMasterIncremental l crash w = (o, w') ->
  exists t, w_trace w' = w_trace w ++ t /\
    ((o <> Ret None /\ Forall no_attach t) \/ flash_first t).
Proof.
  intros Hb Hp Hd E. assert (Hg : guarded o w w'); [|exact Hg].
  unfold rejoinMasterIncremental in E. unfold mbind at 1, M_bind at 1 in E. cbn [get_conf] in E.
  destruct (Conf_AutorejoinForceRestore _).
  { injection E as <- <-. exact (guarded_fail _ w). }
  unfold mbind at 1, M_bind at 1 in E. rewrite Hp in E.
  pose proof (unattached_prepare l w) as F. rewrite Hp in F. cbn [snd] in F.
  assert (Hb1 : Conf_MxsBinlogOn (cl_Conf (w_cluster w1)) = false).
  { by rewrite (frame_read (fun c => Conf_MxsBinlogOn (cl_Conf c)) _ _ _ F). }
  destruct (frame_trace F) as (t1 & T1 & F1).
  assert (Hg : guarded o w1 w').
  { destruct Hd as (g & cur & Hg & Hne & Hc & Hlt).
    assert (Ha : isReplicationAheadOfMasterElection l crash w1 = (Ret true, w1))
      by (apply diverged_is_ahead; by exists g, cur).
    unfold mbind, M_bind in E. cbn [load] in E. rewrite Hg in E. cbn [whenM] in E.
    unfold mbind, M_bind in E. rewrite Hc in E. cbn [deref mret M_ret] in E. rewrite Ha in E.
    cbn [get_conf negb orb] in E. rewrite Hb1 in E.
    pose proof (guarded_ahead l crash w1) as G. by rewrite E in G. }
  destruct Hg as (t & T & G). exists (t1 ++ t). rewrite T, T1, app_assoc. split; [done|].
  destruct G as [[Ho Fa]|G]; [left; split; [done|by apply Forall_app]|right; by apply flash_first_before].
Qed.
End Claims.

(** ** A slave that comes back *)

Section Slave.
Context `{Env} `{GoSort} `{GoRange}.

Definition prev_state (l : loc) (w : World) : string := srv_PrevState (w_heap w l).

Lemma prev_mod_server l x f :
  (forall s, srv_PrevState (f s) = srv_PrevState s) -> Pres (keeps (prev_state l)) (mod_server x f).
Proof.
  intros Hf w. unfold keeps, prev_state. simpl. destruct (decide (x = l)) as [->|Hx].
  - by rewrite fn_lookup_insert.
  - by rewrite fn_lookup_insert_ne.
Qed.
Lemma prev_call {R} l (c : Call R) : Pres (keeps (prev_state l)) (call c).
Proof. by intros w. Qed.
Lemma prev_mod_cluster l f : Pres (keeps (prev_state l)) (mod_cluster f).
Proof. by intros w. Qed.
Hint Extern 1 (Pres (keeps (prev_state _)) (mod_server _ _)) =>
  apply prev_mod_server; intros ?; reflexivity : pres.
Hint Resolve prev_call prev_mod_cluster : pres.

Ltac rejoin_slave := unfold rejoin_slave_master, rejoin_slave_gtid, rejoin_slave_relay, SwitchMaintenance,
  RejoinLoop, CloseRing, SetReplicationGTIDSlavePosFromServer, StopSlave, StartSlave, failoverProxies,
  backendStateChangeProxies, SetState, mod_sm; pres.

Lemma prev_rejoin_slave_master x l cur ss : Pres (keeps (prev_state x)) (rejoin_slave_master l cur ss).
Proof. rejoin_slave. Qed.
Lemma frame_rejoin_slave_master l cur ss : Pres (Frame any_event) (rejoin_slave_master l cur ss).
Proof.
  unfold rejoin_slave_master, rejoin_slave_gtid, rejoin_slave_relay, SwitchMaintenance, RejoinLoop, CloseRing,
    SetReplicationGTIDSlavePosFromServer, failoverProxies. pres.
Qed.
Lemma prev_srv_SetState x l st : Pres (keeps (prev_state x)) (srv_SetState l st).
Proof. unfold srv_SetState, BashScriptDbServersChangeState. pres. Qed.

Lemma reintroduce_slave_spec l w w' :
  reintroduce_slave l w = (Ret None, w') ->
  prev_state l w = stateFailed \/ prev_state l w = stateUnconn ->
  cl_slaves (w_cluster w') = cl_slaves (w_cluster w) ++ [l] /\
  cl_master (w_cluster w') = cl_master (w_cluster w) /\
  srv_State (w_heap w' l) = stateSlave /\ srv_FailCount (w_heap w' l) = 0 /\
  exists t, w_trace w' = w_trace w ++ t /\
    (Conf_ReadOnly (cl_Conf (w_cluster w)) = true -> Ev (db_SetReadOnly l true) None ∈ t).
Proof.
  intros E Hp. unfold reintroduce_slave in E. inv_bind E. inv_bind E. inv_pure. cbv zeta in E.
  unfold prev_state in Hp.
  replace ((srv_PrevState (w_heap w l) =? stateFailed)%string || (srv_PrevState (w_heap w l) =? stateUnconn)%string)
    with true in E by (by destruct Hp as [->| ->]).
  replace ((srv_PrevState (w_heap w l) =? stateSuspect)%string) with false in E by (by destruct Hp as [->| ->]).
  cbn [orb negb whenM] in E.
  apply bind_ret in E as ([] & w1 & E1 & E).
  assert (F1 : Frame any_event w w1) by (eapply frame_run; [apply frame_srv_SetState, _|exact E1]).
  assert (S1 : srv_State (w_heap w1 l) = stateSlave).
  { unfold srv_SetState in E1. inv_bind E1. inv_pure. apply bind_ret in E1 as ([] & w0 & _ & E1).
    injection E1 as <-. cbn. by rewrite fn_lookup_insert. }
  apply bind_ret in E as ([] & w2 & [= <-] & E). apply bind_ret in E as ([] & w3 & [= <-] & E).
  destruct (frame_trace F1) as (t & T & _).
  pose proof (frame_roles _ _ _ F1) as Hr. injection Hr as Hm _ Hs _ _ _ _.
  cbn [w_cluster] in E.
  destruct (Conf_ReadOnly (cl_Conf (w_cluster w))) eqn:Er.
  - apply exec_ret in E as [_ ->]. cbn. rewrite fn_lookup_insert, Hs, Hm. cbn. repeat split; [done|].
    exists (t ++ [Ev (db_SetReadOnly l true) None]). rewrite T, app_assoc. split; [done|].
    intros _. apply elem_of_app. right. by left.
  - injection E as <-. cbn. rewrite fn_lookup_insert, Hs, Hm. cbn. repeat split; [done|].
    by exists t.
Qed.

(** When the rejoin of a slave succeeds outside ring and Galera topologies, a
    server that was failed or unconnected ends in the list of slaves in state
    Slave with a cleared failure counter, it was closed to writes when the
    configuration asks for it, and the master is unchanged. *)
Theorem rejoined_slave_is_reintroduced l ss w w' :
  topology_is (w_cluster w) TopoMultiMasterRing = false ->
  topology_is (w_cluster w) TopoMultiMasterWsrep = false ->
  prev_state l w = stateFailed \/ prev_state l w = stateUnconn ->
  rejoinSlave l ss w = (Ret None, w') ->
  cl_slaves (w_cluster w') = cl_slaves (w_cluster w) ++ [l] /\
  cl_master (w_cluster w') = cl_master (w_cluster w) /\
  srv_State (w_heap w' l) = stateSlave /\ srv_FailCount (w_heap w' l) = 0 /\
  exists t, w_trace w' = w_trace w ++ t /\
    (Conf_ReadOnly (cl_Conf (w_cluster w)) = true -> Ev (db_SetReadOnly l true) None ∈ t).
Proof.
  intros Hr Hg Hp E. unfold rejoinSlave, defer in E.
  destruct (rejoin_slave_body l ss w) as [[e| |] v] eqn:Eb; [|done|done].
  cbn [call] in E. injection E as -> <-. cbn [w_cluster w_heap w_trace].
  unfold rejoin_slave_body in Eb. inv_bind Eb. inv_bind Eb. inv_pure.
  rewrite Hr, Hg in Eb. destruct (GetMasterFromReplication _ _ _) as [cur|]; [|done].
  apply bind_ret in Eb as ([e|[]] & w1 & E1 & Eb).
  - injection Eb as -> <-. exfalso. revert E1.
    unfold rejoin_slave_master. intros E1. inv_run E1; try discriminate.
    match goal with H : (if is_err ?e then _ else _) = _ |- _ => by destruct e end.
  - pose proof (pres_run _ _ _ _ _ (prev_rejoin_slave_master l l cur ss) E1) as P1.
    apply (frame_run any_event) in E1; [|apply frame_rejoin_slave_master].
    apply reintroduce_slave_spec in Eb; [|by rewrite P1].
    pose proof (frame_roles _ _ _ E1) as HR. injection HR as Hm _ Hs _ _ _ _.
    destruct (frame_trace E1) as (t1 & T1 & _).
    pose proof (frame_read (fun c => Conf_ReadOnly (cl_Conf c)) _ _ _ E1 ltac:(done)) as Ho. cbn beta in Ho.
    rewrite Hm, Hs, Ho in Eb. destruct Eb as (B1 & B2 & B3 & B4 & t & T & B5).
    repeat split; try done. eexists (t1 ++ t ++ [_]). rewrite T, T1, <- !app_assoc. split; [reflexivity|].
    intros Hro. apply elem_of_app. right. apply elem_of_app. left. by apply B5.
Qed.
End Slave.

(** ** On the demonstration cluster

    [db3] has replaced [db1], which comes back with ten transactions more than
    [db3] had received. *)

Definition demo_crash : Crash :=
  mkCrash "db1:3306" "bin.000002" "900" "bin.000001" "4" false (NewList "0-1-90") "db3:3306" 900 false.
(** The client programs of the host. *)
Definition demo_client : Version := mkVersion "MariaDB" 15 2 0 "" "" (Some maria).
Definition demo_rejoin : World :=
  mkWorld
    (set_cl_master (Some 2%nat) (set_cl_slaves [1%nat] (set_cl_oldMaster (Some 0%nat)
    (set_cl_Crashes [demo_crash] (set_cl_VersionsMap (<["client" := demo_client]> (<["client-binlog" := demo_client]> ∅))
    (set_cl_canFlashBack true (set_cl_Conf (set_Conf_AutorejoinFlashback true (set_Conf_AutorejoinBackupBinlog true demo_conf))
    demo_cluster))))))) demo_heap [].

(** The extra events are undone, then the server follows [db3]. *)
Example demo_rejoin_runs :
  let w' := snd (RejoinMaster 0%nat demo_rejoin) in
  fst (RejoinMaster 0%nat demo_rejoin) = Ret None /\
  omap (fun e => match e with
                 | Ev (run_pipe p _ q _) None => Some (p +:+ "|" +:+ q)
                 | Ev (db_ChangeMaster _ opt) _ => Some (cm_Host opt +:+ " " +:+ cm_Mode opt)
                 | Ev (db_SetReadOnly _ b) _ => Some "read_only"
                 | _ => None
                 end) (w_trace w') = ["///mysqlbinlog|///mysql"; "db3 SLAVE_POS"].
Proof. vm_compute. split; reflexivity. Qed.

Lemma rejoin_never_opens_second_master_witness :
  roles (snd (RejoinMaster 0%nat demo_rejoin)) = roles demo_rejoin.
Proof.
  destruct (RejoinMaster 0%nat demo_rejoin) as [o w'] eqn:E.
  exact (proj1 (rejoin_never_opens_second_master 0%nat 2%nat demo_rejoin o w' eq_refl E)).
Defined.


Lemma diverged_master_flashed_back_first_witness :
  exists t, w_trace (snd (rejoinMasterIncremental 0%nat demo_crash demo_rejoin)) = [] ++ t /\
    ((fst (rejoinMasterIncremental 0%nat demo_crash demo_rejoin) <> Ret None /\ Forall no_attach t) \/ flash_first t).
Proof.
  destruct (rejoin_prepare 0%nat demo_rejoin) as [o1 w1] eqn:Ep.
  assert (Eo : o1 = Ret tt).
  { change o1 with (fst (o1, w1)). rewrite <- Ep. vm_compute. reflexivity. }
  rewrite Eo in Ep.
  assert (Ev : srv_CurrentGtid (w_heap w1 0%nat) = NewList "0-1-100" /\
               srv_IsMariaDB (w_heap w1 0%nat) = true /\ srv_ServerID (w_heap w1 0%nat) = 1).
  { change w1 with (snd (Ret tt, w1)). rewrite <- Ep. vm_compute. repeat split; reflexivity. }
  destruct Ev as (Ec & Em & Ei).
  destruct (rejoinMasterIncremental 0%nat demo_crash demo_rejoin) as [o w'] eqn:E.
  apply (diverged_master_flashed_back_first 0%nat demo_crash demo_rejoin w1 o w' eq_refl Ep); [|exact E].
  exists [mkGtid 0 1 90], [mkGtid 0 1 100]. unfold GetUniversalGtidServerID. rewrite Em, Ei.
  split; [vm_compute; reflexivity|]. split; [discriminate|].
  split; [rewrite Ec; vm_compute; reflexivity|]. vm_compute. reflexivity.
Defined.

(** [db2] was failed and still points to [db1]; [db3] is the master. *)
Definition demo_slave_back : World :=
  mkWorld
    (set_cl_slaves [] (set_cl_Conf (set_Conf_ReplicationNoRelay true demo_conf) (w_cluster demo_rejoin)))
    (<[1%nat := set_srv_PrevState stateFailed (demo_heap 1%nat)]> demo_heap) [].

Lemma rejoined_slave_is_reintroduced_witness :
  let w' := snd (rejoinSlave 1%nat (demo_channel "0-1-90" "900") demo_slave_back) in
  cl_slaves (w_cluster w') = [1%nat] /\ srv_State (w_heap w' 1%nat) = stateSlave /\
  exists t, w_trace w' = [] ++ t /\ Ev (db_SetReadOnly 1%nat true) None ∈ t.
Proof.
  destruct (rejoinSlave 1%nat (demo_channel "0-1-90" "900") demo_slave_back) as [o w'] eqn:E.
  assert (Eo : o = Ret None).
  { change o with (fst (o, w')). rewrite <- E. vm_compute. reflexivity. }
  rewrite Eo in E.
  destruct (rejoined_slave_is_reintroduced 1%nat (demo_channel "0-1-90" "900") demo_slave_back w' eq_refl eq_refl
              (or_introl eq_refl) E) as (S1 & _ & S3 & _ & t & T & R).
  split; [exact S1|]. split; [exact S3|]. exists t. split; [exact T|]. by apply R.
Defined.
