(* ===== verification/FailoverCheck.v ===== *)
(** * The decision to fail over (cluster/cluster_chk.go)

    At every round of the monitoring [CheckFailed] decides whether the master
    failed for good. Its guards are evaluated in order and the first one that
    says no ends the round; the last three look for a false positive. *)

From Stdlib Require Import ZArith Lia Bool Permutation Ascii String.
From stdpp Require Import base list gmap strings functions.
From S2P Require Import Prelude GoLib Gtid Version StateMachine Crash DelayStat Config Server Cluster Demo ServerOps Refresh Election Failover FailoverFrame RefreshProps FailoverSafety.

Local Open Scope string_scope.
Local Open Scope list_scope.
Local Open Scope Z_scope.

(** ** Alerts and captures *)

Record Alert := mkAlert {
  al_State : string; al_PrevState : string; al_Cluster : string; al_Host : string; al_Resolved : bool
}.

Section Ops.
Context `{Env} `{GoSort} `{GoRange}.

Definition BashScriptAlert (a : Alert) : M unit :=
  conf ← get_conf;
  whenM (negb (Conf_AlertScript conf =? "")%string)
    (call (run_script (Conf_AlertScript conf) [al_Cluster a; al_Host a; al_PrevState a; al_State a])).

Definition SendAlert (a : Alert) : M unit :=
  c ← get_cluster;
  if cl_IsAlertDisable c then mret tt
  else
    whenM (negb (Conf_MailTo (cl_Conf c) =? "")%string) (call send_mail) ;;
    BashScriptAlert a.

Definition CheckAlert (st : State) (resolved : bool) : M unit :=
  c ← get_cluster;
  let conf := cl_Conf c in
  if (Conf_MonitoringAlertTrigger conf =? "")%string then mret tt
  else if (Conf_MailTo conf =? "")%string && (Conf_AlertScript conf =? "")%string then mret tt
  else whenM (strings_Contains (Conf_MonitoringAlertTrigger conf) (ErrKey st))
         (SendAlert (mkAlert (ErrDesc st) "" (cl_Name c) "" resolved)).

(** The captured state is shared with the map of the state machine: the URL
    added to it is seen there. The capture itself runs in goroutines. *)
Definition capture_url (url : string) (cs : CapturedState) : CapturedState :=
  mkCaptured (cap_ErrKey cs) (cap_ErrType cs) (cap_ErrDesc cs) (cap_ErrFrom cs) (ServerURLs cs ++ [url]).

Definition Capture (l : loc) (key : string) : M unit :=
  s ← load l;
  if srv_InCaptureMode s then mret tt
  else
    mod_sm (fun SM => set_Captured (alter (capture_url (srv_URL s)) key (Captured SM)) SM) ;;
    call (unmodelled "CaptureLoop" (Some l)) ;;
    call (unmodelled "JobCapturePurge" (Some l)) ;; mret tt.

Definition CheckCapture (st : State) : M unit :=
  c ← get_cluster;
  h ← get_heap;
  let conf := cl_Conf c in
  if negb (Conf_MonitorCapture conf) then mret tt
  else
    whenM (strings_Contains (Conf_MonitorCaptureTrigger conf) (ErrKey st))
      (let cstate := match GetCapturedState (ErrKey st) (cl_StateMachine c) with
                     | Some cs => cs
                     | None => captured_Parse st
                     end in
       mod_sm (AddToCapturedState (ErrKey st) cstate) ;;
       whenM (negb (ServerUrl st =? "")%string && negb (captured_Contains cstate (ServerUrl st)))
         match GetServerFromURL c h (ServerUrl st) with
         | Some srv => Capture srv (ErrKey st)
         | None => mret tt
         end).

(** ** The guards *)

(** A guard that fails with a state message. *)
Definition refuse (key type_ : string) (args : list fmt_arg) : M bool :=
  SetState key (state_of key type_ "CHECK" "" args) ;; mret false.

Definition isAutomaticFailover : M bool :=
  conf ← get_conf;
  if negb (Conf_Interactive conf) then mret true else refuse "ERR00002" "ERR00002" [].

Definition isMasterFailed : M bool :=
  c ← get_cluster;
  ml ← deref (cl_master c);
  m ← load ml;
  mret (state_is m stateFailed).

Definition isMaxMasterFailedCountReached : M bool :=
  c ← get_cluster;
  h ← get_heap;
  match GetMaster c with
  | Some m => if Conf_MaxFail (cl_Conf c) <=? srv_FailCount (h m)
              then SetState "WARN0023" (state_of "WARN0023" "WARNING" "CHECK" "" []) ;; mret true
              else mret false
  | None => mret false
  end.

Definition isMaxClusterFailoverCountNotReached : M bool :=
  c ← get_cluster;
  if Conf_FailLimit (cl_Conf c) =? 0 then mret true
  else if cl_FailoverCtr c =? Conf_FailLimit (cl_Conf c) then refuse "ERR00027" LvlErr []
  else mret true.

Definition isBetweenFailoverTimeValid : M bool :=
  c ← get_cluster;
  now ← call time_Now;
  let rem := i64 (i64 (cl_FailoverTs c + Conf_FailTime (cl_Conf c)) - now) in
  if Conf_FailTime (cl_Conf c) =? 0 then mret true
  else if 0 <? rem then refuse "ERR00029" LvlErr []
  else mret true.

(** Two readings of the counter of heartbeats, for each slave of a server that
    is not a relay. *)
Fixpoint heartbeat_loop (l : list loc) : M bool :=
  match l with
  | [] => mret false
  | x :: r =>
      c ← get_cluster;
      h ← get_heap;
      match GetMasterFromReplication c h (h x) with
      | Some relaycheck =>
          if srv_IsRelay (h relaycheck) then heartbeat_loop r
          else
            status ← exec x (db_GetStatusAsInt x);
            call (time_Sleep (Conf_CheckFalsePositiveHeartbeatTimeout (cl_Conf c) * 1000)) ;;
            status2 ← exec x (db_GetStatusAsInt x);
            if default 0 (status !! "SLAVE_RECEIVED_HEARTBEATS") <?
               default 0 (status2 !! "SLAVE_RECEIVED_HEARTBEATS")
            then SetState "ERR00028" (state_of "ERR00028" LvlErr "CHECK" "" [fs (srv_URL (h x))]) ;; mret true
            else heartbeat_loop r
      | None => heartbeat_loop r
      end
  end.

Definition isOneSlaveHeartbeatIncreasing : M bool :=
  c ← get_cluster;
  if negb (Conf_CheckFalsePositiveHeartbeat (cl_Conf c)) then mret false else heartbeat_loop (cl_slaves c).

(** [maxscale_RestartStopped]: list the monitors, find the stopped one and
    restart it; [false] when one of these fails. *)
Definition isMaxscaleSupectRunning : M bool :=
  c ← get_cluster;
  let conf := cl_Conf c in
  if negb (Conf_MxsOn conf) then mret false
  else if negb (Conf_CheckFalsePositiveMaxscale conf) then mret false
  else
    up ← call maxscale_Connect;
    if negb up then mret false
    else
      ml ← deref (cl_master c);
      m ← load ml;
      if (srv_MxsServerName m =? "")%string then mret false
      else
        ok ← call (maxscale_RestartStopped (Conf_MxsGetInfoMethod conf =? "maxinfo")%string);
        if negb ok then mret false
        else
          call (time_Sleep (Conf_CheckFalsePositiveMaxscaleTimeout conf * 1000)) ;;
          m ← load ml;
          if strings_Contains (srv_MxsServerStatus m) "Running"
          then SetState "ERR00030" (state_of "ERR00030" LvlErr "CHECK" "" [fs (srv_MxsServerStatus m)]) ;; mret true
          else mret false.

Definition isFoundCandidateMaster : M bool :=
  c ← get_cluster;
  if topology_is c TopoActivePassive then mret true
  else
    key ← (if Conf_MultiMasterGrouprep (cl_Conf c) then electSwitchoverGroupReplicationCandidate (cl_slaves c)
           else electFailoverCandidate (cl_slaves c));
    if key =? -1 then refuse "ERR00032" LvlErr [] else mret true.

Definition quote : string := String "034" "".

Definition arbitration_request (c : Cluster) (mst : string) : string :=
  let conf := cl_Conf c in
  let field k v := quote +:+ k +:+ quote +:+ ":" +:+ quote +:+ v +:+ quote +:+ "," in
  "{" +:+ field "uuid" (cl_runUUID c) +:+ field "secret" (Conf_ArbitrationSasSecret conf) +:+
  field "cluster" (cl_Name c) +:+ field "master" mst +:+ quote +:+ "id" +:+ quote +:+ ":" +:+
  format_int (Conf_ArbitrationSasUniqueId conf) +:+ "}".

(** The answer is the field [arbitration] of the reply, [None] when there is no
    reply or it is not JSON. *)
Definition isActiveArbitration : M bool :=
  c ← get_cluster;
  h ← get_heap;
  let conf := cl_Conf c in
  if negb (Conf_Arbitration conf) then mret true
  else
    let mst := match cl_master c with Some m => srv_URL (h m) | None => "" end in
    r ← call (http_arbitrator ("http://" +:+ Conf_ArbitrationSasHosts conf +:+ "/arbitrator")
                (arbitration_request c mst));
    match r with
    | Some a => if (a =? "winner")%string then mret true else refuse "ERR00022" LvlErr []
    | None => refuse "ERR00022" LvlErr []
    end.

Definition isExternalOk : M bool :=
  c ← get_cluster;
  h ← get_heap;
  let conf := cl_Conf c in
  if negb (Conf_CheckFalsePositiveExternal conf) then mret false
  else
    match cl_master c with
    | None => mret false
    | Some ml =>
        r ← call (http_Get ("http://" +:+ srv_Host (h ml) +:+ ":" +:+
                            format_int (Conf_CheckFalsePositiveExternalPort conf)));
        match r with
        | Some code => if code =? 200
                       then SetState "ERR00031" (state_of "ERR00031" LvlErr "CHECK" "" []) ;; mret true
                       else mret false
        | None => mret false
        end
    end.

Definition isArbitratorAlive : M bool :=
  c ← get_cluster;
  if negb (Conf_Arbitration (cl_Conf c)) then mret true
  else if cl_IsFailedArbitrator c then refuse "ERR00055" LvlErr [fs (Conf_ArbitrationSasHosts (cl_Conf c))]
  else mret true.

Definition isNotFirstSlave : M bool :=
  c ← get_cluster;
  if Conf_Interactive (cl_Conf c) || Conf_FailRestartUnsafe (cl_Conf c) then mret true
  else match cl_master c with
       | None => refuse "ERR00026" LvlErr []
       | Some _ => mret true
       end.

(** [Some e] is the error; the log lines about hosts are left out. *)
Definition isValidConfig (conf : Config) : Err :=
  if (Conf_Hosts conf =? "")%string then Some "No hosts list specified"
  else if (Conf_User conf =? "")%string then Some "No master user/pair specified"
  else if (Conf_RplUser conf =? "")%string then Some "No replication user/pair specified"
  else None.

(** ** Checks over pairs of servers *)

Definition alive_others (h : loc -> ServerMonitor) (s : loc) (l : list loc) : list loc :=
  List.filter (fun o => negb (IsFailed (h o)) && negb (srv_URL (h s) =? srv_URL (h o))%string) l.

Definition CheckSameServerID : M unit :=
  c ← get_cluster;
  h ← get_heap;
  forM (cl_servers c) (fun s =>
    if IsFailed (h s) then mret tt
    else forM (alive_others h s (cl_servers c)) (fun o =>
      whenM (srv_ServerID (h s) =? srv_ServerID (h o))
        (SetState "WARN0087" (state_of "WARN0087" LvlWarn "MON" (srv_URL (h s))
           [fs (srv_URL (h s)); fs (srv_URL (h o))])))).

Definition wsrep_uuid (s : ServerMonitor) : string := Get (srv_Status s) "WSREP_CLUSTER_STATE_UUID".

(** The first pair of live servers with different identifiers. *)
Fixpoint uuid_mismatch (h : loc -> ServerMonitor) (all l : list loc) : option (loc * loc) :=
  match l with
  | [] => None
  | s :: r =>
      if IsFailed (h s) then uuid_mismatch h all r
      else match List.find (fun o => negb (wsrep_uuid (h s) =? wsrep_uuid (h o))%string) (alive_others h s all) with
           | Some o => Some (s, o)
           | None => uuid_mismatch h all r
           end
  end.

Definition IsSameWsrepUUID : M bool :=
  c ← get_cluster;
  h ← get_heap;
  if negb (topology_is c TopoMultiMasterWsrep) then mret true
  else match uuid_mismatch h (cl_servers c) (cl_servers c) with
       | Some (s, o) =>
           SetState "ERR00083" (state_of "ERR00083" LvlWarn "MON" (srv_URL (h s))
             [fs (srv_URL (h s)); fs (wsrep_uuid (h s)); fs (srv_URL (h o)); fs (wsrep_uuid (h o))]) ;;
           mret false
       | None => mret true
       end.

Fixpoint errant_loop (l : list loc) : M bool :=
  match l with
  | [] => mret true
  | x :: r =>
      c ← get_cluster;
      s ← load x;
      if IsFailed s || IsIgnored s then errant_loop r
      else
        ml ← deref (cl_master c);
        m ← load ml;
        b ← exec x (db_HaveErrantTransactions x (Get (srv_Variables m) "GTID_EXECUTED")
                      (Get (srv_Variables s) "GTID_EXECUTED"));
        if (b : bool)
        then SetState "WARN0091" (state_of "WARN0091" LvlWarn "MON" (srv_URL s) [fs (srv_URL s)]) ;; mret false
        else errant_loop r
  end.

Definition IsNotHavingMySQLErrantTransaction : M bool :=
  c ← get_cluster;
  match GetMaster c with
  | None => mret true
  | Some ml =>
      m ← load ml;
      my ← deref (HasMySQLGTID (cl_Conf c) m);
      if negb my then mret true
      else if negb (Conf_RplCheckErrantTrx (cl_Conf c)) then mret true
      else errant_loop (cl_slaves c)
  end.

(** ** The decision *)

(** [a && b] of the source: [b] is evaluated when [a] holds. *)
Definition andM (a b : M bool) : M bool := x ← a; if (x : bool) then b else mret false.

Definition failover_guards : M bool :=
  andM isFoundCandidateMaster (andM isBetweenFailoverTimeValid (andM IsNotHavingMySQLErrantTransaction
  (andM IsSameWsrepUUID (andM isMaxMasterFailedCountReached (andM isActiveArbitration
  (andM isMaxClusterFailoverCountNotReached (andM isAutomaticFailover (andM isMasterFailed
  (andM isNotFirstSlave isArbitratorAlive))))))))).

(** One of the checks shows that the master still runs. *)
Definition false_positive : M bool :=
  ext ← isExternalOk;
  if (ext : bool) then mret true
  else
    hb ← isOneSlaveHeartbeatIncreasing;
    if (hb : bool) then mret true else isMaxscaleSupectRunning.

Definition CheckFailed : M unit :=
  c ← get_cluster;
  if cl_IsInFailover c then SetState "ERR00001" (state_of "ERR00001" "WARNING" "CHECK" "" [])
  else
    go ← failover_guards;
    whenM go
      (fp ← false_positive;
       whenM (negb fp) (MasterFailover true ;; call (channel_send "failoverCond"))).
End Ops.

(** ** The guards only read *)

(** Nothing but state messages, a rotated credential and quiet calls. *)
Definition Reads (w w' : World) : Prop := election_view w' = election_view w /\ Frame quiet w w'.
#[export] Instance Reads_preorder : PreOrder Reads.
Proof.
  split; [intros w; split; reflexivity|].
  intros x y z [V1 F1] [V2 F2]. split; [congruence|by transitivity y].
Qed.

Section Guards.
Context `{Env} `{GoSort} `{GoRange}.

Lemma reads_both {A} (m : M A) : Pres (keeps election_view) m -> Pres (Frame quiet) m -> Pres Reads m.
Proof. intros V F w. split; [apply V|apply F]. Qed.
Hint Extern 1 (Pres Reads (call _)) => apply reads_both; solve [eauto with pres] : pres.
Hint Extern 1 (Pres Reads (SetState _ _)) => apply reads_both; solve [eauto with pres] : pres.
Hint Extern 1 (Pres Reads (electFailoverCandidate _)) => apply reads_both; solve [eauto with pres] : pres.
Hint Extern 1 (Pres Reads (group_other _ _)) => apply reads_both; solve [eauto with pres] : pres.

Lemma reads_andM a b : Pres Reads a -> Pres Reads b -> Pres Reads (andM a b).
Proof. intros Ha Hb. unfold andM. pres. Qed.

Lemma reads_heartbeat_loop l : Pres Reads (heartbeat_loop l).
Proof. induction l as [|x l IH]; simpl; pres. Qed.
Lemma reads_errant_loop l : Pres Reads (errant_loop l).
Proof. induction l as [|x l IH]; simpl; pres. Qed.
Hint Resolve reads_andM reads_heartbeat_loop reads_errant_loop : pres.

Lemma reads_isFoundCandidateMaster : Pres Reads isFoundCandidateMaster.
Proof. unfold isFoundCandidateMaster, electSwitchoverGroupReplicationCandidate, refuse. pres. Qed.
Lemma reads_isBetweenFailoverTimeValid : Pres Reads isBetweenFailoverTimeValid.
Proof. unfold isBetweenFailoverTimeValid, refuse. pres. Qed.
Lemma reads_IsNotHavingMySQLErrantTransaction : Pres Reads IsNotHavingMySQLErrantTransaction.
Proof. unfold IsNotHavingMySQLErrantTransaction. pres. Qed.
Lemma reads_IsSameWsrepUUID : Pres Reads IsSameWsrepUUID.
Proof. unfold IsSameWsrepUUID. pres. Qed.
Lemma reads_isMaxMasterFailedCountReached : Pres Reads isMaxMasterFailedCountReached.
Proof. unfold isMaxMasterFailedCountReached. pres. Qed.
Lemma reads_isActiveArbitration : Pres Reads isActiveArbitration.
Proof. unfold isActiveArbitration, refuse. pres. Qed.
Lemma reads_isMaxClusterFailoverCountNotReached : Pres Reads isMaxClusterFailoverCountNotReached.
Proof. unfold isMaxClusterFailoverCountNotReached, refuse. pres. Qed.
Lemma reads_isAutomaticFailover : Pres Reads isAutomaticFailover.
Proof. unfold isAutomaticFailover, refuse. pres. Qed.
Lemma reads_isMasterFailed : Pres Reads isMasterFailed.
Proof. unfold isMasterFailed. pres. Qed.
Lemma reads_isNotFirstSlave : Pres Reads isNotFirstSlave.
Proof. unfold isNotFirstSlave, refuse. pres. Qed.
Lemma reads_isArbitratorAlive : Pres Reads isArbitratorAlive.
Proof. unfold isArbitratorAlive, refuse. pres. Qed.
Hint Resolve reads_isFoundCandidateMaster reads_isBetweenFailoverTimeValid
  reads_IsNotHavingMySQLErrantTransaction reads_IsSameWsrepUUID reads_isMaxMasterFailedCountReached
  reads_isActiveArbitration reads_isMaxClusterFailoverCountNotReached reads_isAutomaticFailover
  reads_isMasterFailed reads_isNotFirstSlave reads_isArbitratorAlive : pres.

Lemma reads_failover_guards : Pres Reads failover_guards.
Proof. unfold failover_guards. eauto 30 with pres. Qed.
Lemma reads_false_positive : Pres Reads false_positive.
Proof.
  unfold false_positive, isExternalOk, isOneSlaveHeartbeatIncreasing, isMaxscaleSupectRunning. pres.
Qed.

Lemma andM_true a b w w' :
  andM a b w = (Ret true, w') -> exists w1, a w = (Ret true, w1) /\ b w1 = (Ret true, w').
Proof. unfold andM. intros E. inv_bind E. destruct a0; [eauto|by inv_pure]. Qed.
End Guards.

(** ** When a failover is justified *)

(** What holds in [w] when the failover starts, and what was answered on the way
    to [w']. *)
Definition failover_justified (w w' : World) : Prop :=
  let c := w_cluster w in
  let conf := cl_Conf c in
  cl_IsInFailover c = false /\
  (exists m, cl_master c = Some m /\ srv_State (w_heap w m) = stateFailed /\
             Conf_MaxFail conf <= srv_FailCount (w_heap w m)) /\
  Conf_Interactive conf = false /\
  (Conf_FailLimit conf = 0 \/ cl_FailoverCtr c <> Conf_FailLimit conf) /\
  (Conf_FailTime conf = 0 \/
   exists now, answered time_Now now w w' /\ i64 (i64 (cl_FailoverTs c + Conf_FailTime conf) - now) <= 0) /\
  (Conf_Arbitration conf = true -> cl_IsFailedArbitrator c = false /\
   exists url body, answered (http_arbitrator url body) (Some "winner") w w') /\
  (topology_is c TopoActivePassive = false -> Conf_MultiMasterGrouprep conf = false -> not_wsrep c ->
   exists x, x ∈ cl_slaves c /\ Electable c (w_heap w) x).

Section Justified.
Context `{Env} `{GoSort} `{GoRange}.

Lemma run_reads {A} (m : M A) w o w' : Pres Reads m -> m w = (o, w') -> Reads w w'.
Proof. intros Hm E. specialize (Hm w). by rewrite E in Hm. Qed.

(** A fact about the cluster and its servers, read later. *)
Lemma reads_back (G : Cluster -> (loc -> ServerMonitor) -> Prop) w v :
  Reads w v ->
  (forall c h sm r, G (set_cl_StateMachine sm (set_cl_Conf (set_Conf_ReplicationCredential r (cl_Conf c)) c)) h = G c h) ->
  G (w_cluster v) (w_heap v) -> G (w_cluster w) (w_heap w).
Proof.
  intros [V _] HG Hv. rewrite (view_heap _ _ V) in Hv.
  rewrite <- (view_cluster (fun c => G c (w_heap w)) _ _ V (fun c sm r => HG c (w_heap w) sm r)). exact Hv.
Qed.

Lemma found_candidate_sound w w' :
  isFoundCandidateMaster w = (Ret true, w') ->
  topology_is (w_cluster w) TopoActivePassive = false ->
  Conf_MultiMasterGrouprep (cl_Conf (w_cluster w)) = false -> not_wsrep (w_cluster w) ->
  exists x, x ∈ cl_slaves (w_cluster w) /\ Electable (w_cluster w) (w_heap w) x.
Proof.
  unfold isFoundCandidateMaster, refuse. intros E Ht Hg Hw. inv_bind E. inv_pure. rewrite Ht, Hg in E.
  apply bind_ret in E as (k & w1 & Hk & E). destruct (k =? -1) eqn:Ek; [by inv_run E|]. bool_prop.
  destruct (electFailoverCandidate_sound _ _ _ _ Hw Hk Ek) as (x & _ & _ & _ & Hx & He & _).
  exists x. split; [by eapply list_elem_of_lookup_2|done].
Qed.

Lemma time_valid_sound w w' :
  isBetweenFailoverTimeValid w = (Ret true, w') ->
  let c := w_cluster w in
  Conf_FailTime (cl_Conf c) = 0 \/
  exists now, answered time_Now now w w' /\
    i64 (i64 (cl_FailoverTs c + Conf_FailTime (cl_Conf c)) - now) <= 0.
Proof.
  intros E c. unfold isBetweenFailoverTimeValid, refuse in E. inv_bind E. inv_pure. fold c in E.
  apply bind_ret in E as (now & w1 & Hn & E).
  destruct (Conf_FailTime (cl_Conf c) =? 0) eqn:E0; bool_prop; [by left|right].
  destruct (0 <? _) eqn:E1 in E; [by inv_run E|]. bool_prop. injection E as <-.
  injection Hn as Hn <-. exists now. split; [|done]. eexists. split; [reflexivity|]. rewrite Hn. by left.
Qed.

Lemma failcount_sound w w' :
  isMaxMasterFailedCountReached w = (Ret true, w') ->
  exists m, GetMaster (w_cluster w) = Some m /\
            Conf_MaxFail (cl_Conf (w_cluster w)) <= srv_FailCount (w_heap w m).
Proof.
  unfold isMaxMasterFailedCountReached. intros E. inv_bind E. inv_bind E. inv_pure.
  destruct (GetMaster _) as [m|]; [|by inv_pure].
  destruct (_ <=? _) eqn:El; [|by inv_pure]. bool_prop. eauto.
Qed.

Lemma arbitration_sound w w' :
  isActiveArbitration w = (Ret true, w') -> Conf_Arbitration (cl_Conf (w_cluster w)) = true ->
  exists url body, answered (http_arbitrator url body) (Some "winner") w w'.
Proof.
  unfold isActiveArbitration, refuse. intros E Ha. inv_bind E. inv_bind E. inv_pure. rewrite Ha in E.
  cbn [negb] in E. apply bind_ret in E as (r & w1 & Hr & E). destruct r as [a|]; [|by inv_run E].
  destruct (a =? "winner")%string eqn:Ea; [|by inv_run E]. bool_prop. subst a. injection E as <-.
  injection Hr as Hr <-. eexists _, _, _. split; [reflexivity|]. rewrite Hr. by left.
Qed.

Lemma limit_sound w w' :
  isMaxClusterFailoverCountNotReached w = (Ret true, w') ->
  Conf_FailLimit (cl_Conf (w_cluster w)) = 0 \/
  cl_FailoverCtr (w_cluster w) <> Conf_FailLimit (cl_Conf (w_cluster w)).
Proof.
  unfold isMaxClusterFailoverCountNotReached, refuse. intros E. inv_run E; bool_prop; auto; done.
Qed.

Lemma automatic_sound w w' :
  isAutomaticFailover w = (Ret true, w') -> Conf_Interactive (cl_Conf (w_cluster w)) = false.
Proof. unfold isAutomaticFailover, refuse. intros E. inv_run E; bool_prop; [done|done]. Qed.

Lemma master_failed_sound w w' :
  isMasterFailed w = (Ret true, w') ->
  exists m, cl_master (w_cluster w) = Some m /\ srv_State (w_heap w m) = stateFailed.
Proof.
  unfold isMasterFailed. intros E. do 3 inv_bind E. inv_pure. eexists. split; [done|].
  unfold state_is in *. by apply String.eqb_eq.
Qed.

Lemma arbitrator_alive_sound w w' :
  isArbitratorAlive w = (Ret true, w') -> Conf_Arbitration (cl_Conf (w_cluster w)) = true ->
  cl_IsFailedArbitrator (w_cluster w) = false.
Proof.
  unfold isArbitratorAlive, refuse. intros E Ha. inv_bind E. inv_pure. rewrite Ha in E. cbn [negb] in E.
  destruct (cl_IsFailedArbitrator _); [by inv_run E|done].
Qed.

Lemma reads_trans w1 w2 w3 : Reads w1 w2 -> Reads w2 w3 -> Reads w1 w3.
Proof. apply transitivity. Qed.

(** [guard_step E]: the next guard of the chain said yes. *)
Ltac guard_step E :=
  let w1 := fresh "w" in let Hg := fresh "G" in
  apply andM_true in E as (w1 & Hg & E).

Lemma failover_guards_sound w w' :
  cl_IsInFailover (w_cluster w) = false -> failover_guards w = (Ret true, w') -> failover_justified w w'.
Proof.
  intros Hin E. unfold failover_guards in E. do 10 guard_step E.
  pose proof (run_reads _ _ _ _ reads_isFoundCandidateMaster G) as R0.
  pose proof (run_reads _ _ _ _ reads_isBetweenFailoverTimeValid G0) as Q1.
  pose proof (run_reads _ _ _ _ reads_IsNotHavingMySQLErrantTransaction G1) as Q2.
  pose proof (run_reads _ _ _ _ reads_IsSameWsrepUUID G2) as Q3.
  pose proof (run_reads _ _ _ _ reads_isMaxMasterFailedCountReached G3) as Q4.
  pose proof (run_reads _ _ _ _ reads_isActiveArbitration G4) as Q5.
  pose proof (run_reads _ _ _ _ reads_isMaxClusterFailoverCountNotReached G5) as Q6.
  pose proof (run_reads _ _ _ _ reads_isAutomaticFailover G6) as Q7.
  pose proof (run_reads _ _ _ _ reads_isMasterFailed G7) as Q8.
  pose proof (run_reads _ _ _ _ reads_isNotFirstSlave G8) as Q9.
  pose proof (run_reads _ _ _ _ reads_isArbitratorAlive E) as Q10.
  pose proof (reads_trans _ _ _ R0 (reads_trans _ _ _ Q1 (reads_trans _ _ _ Q2 Q3))) as R3.
  pose proof (reads_trans _ _ _ R3 Q4) as R4. pose proof (reads_trans _ _ _ R4 Q5) as R5.
  pose proof (reads_trans _ _ _ R5 Q6) as R6. pose proof (reads_trans _ _ _ R6 Q7) as R7.
  pose proof (reads_trans _ _ _ R7 (reads_trans _ _ _ Q8 Q9)) as R9.
  assert (S5 : Reads w5 w') by eauto 10 using reads_trans.
  assert (S1 : Reads w1 w') by eauto 10 using reads_trans.
  apply failcount_sound in G3.
  apply (reads_back (fun c h => exists m, GetMaster c = Some m /\ Conf_MaxFail (cl_Conf c) <= srv_FailCount (h m))
           _ _ R3) in G3; [|done].
  apply master_failed_sound in G7.
  apply (reads_back (fun c h => exists m, cl_master c = Some m /\ srv_State (h m) = stateFailed) _ _ R7) in G7;
    [|done].
  destruct G3 as (m' & Hm' & Hf), G7 as (m & Hm & Hs).
  unfold GetMaster in Hm'. rewrite Hm in Hm'. injection Hm' as <-.
  split; [done|]. split; [eauto|].
  split; [exact (reads_back (fun c _ => Conf_Interactive (cl_Conf c) = false) _ _ R6 ltac:(done) (automatic_sound _ _ G6))|].
  split; [exact (reads_back (fun c _ => Conf_FailLimit (cl_Conf c) = 0 \/ cl_FailoverCtr c <> Conf_FailLimit (cl_Conf c))
                   _ _ R5 ltac:(done) (limit_sound _ _ G5))|].
  split.
  { apply time_valid_sound in G0.
    apply (reads_back (fun c _ => Conf_FailTime (cl_Conf c) = 0 \/
             exists now, answered time_Now now w0 w1 /\
               i64 (i64 (cl_FailoverTs c + Conf_FailTime (cl_Conf c)) - now) <= 0) _ _ R0) in G0; [|done].
    destruct G0 as [?|(now & Ha & Hn)]; [by left|right]. exists now. split; [|done].
    eapply (answered_extend _ _ quiet quiet); [apply R0| |exact Ha].
    apply S1. }
  split; [|by eapply found_candidate_sound].
  intros Ha. split.
  - apply (reads_back (fun c _ => Conf_Arbitration (cl_Conf c) = true -> cl_IsFailedArbitrator c = false) _ _ R9);
      [done|exact (arbitrator_alive_sound _ _ E)|done].
  - apply arbitration_sound in G4 as (url & body & Hans).
    { exists url, body. eapply (answered_extend _ _ quiet quiet); [apply R4| |exact Hans].
      apply S5. }
    rewrite <- Ha. exact (view_cluster (fun c => Conf_Arbitration (cl_Conf c)) _ _ (proj1 R4) ltac:(done)).
Qed.

Lemma extends_false_positive : Pres Extends false_positive.
Proof.
  intros w. destruct (reads_false_positive w) as [_ F]. destruct (frame_trace F) as (t & Ht & _). by exists t.
Qed.

Lemma justified_extend w w' w'' : failover_justified w w' -> Extends w' w'' -> failover_justified w w''.
Proof.
  intros (J1 & J2 & J3 & J4 & J5 & J6 & J7) [t2 T2].
  assert (Hx : forall R (c : Call R) r, answered c r w w' -> answered c r w w'').
  { intros R c r (t & Ht & Hin). exists (t ++ t2). rewrite T2, Ht, <- app_assoc. split; [done|].
    apply elem_of_app. by left. }
  split; [done|]. split; [done|]. split; [done|]. split; [done|]. split.
  - destruct J5 as [?|(now & Ha & Hn)]; [by left|right; eauto].
  - split; [|done]. intros Harb. destruct (J6 Harb) as (? & url & body & Ha). eauto.
Qed.
End Justified.

(** ** Properties *)



(** The same cluster does fail over. *)
Example demo_check_fails_over :
  cl_master (w_cluster (snd (CheckFailed demo_world))) = Some 2%nat.
Proof. vm_compute. reflexivity. Qed.

(** Past the limit the counter does not stop a failover any more. *)
Definition demo_over_limit : World :=
  mkWorld (set_cl_FailoverCtr 4 (set_cl_Conf (set_Conf_FailLimit 3 demo_conf) demo_cluster)) demo_heap [].

Example limit_only_stops_at_equality :
  fst (isMaxClusterFailoverCountNotReached demo_over_limit) = Ret true.
Proof. vm_compute. reflexivity. Qed.
