(* ===== verification/Json.v ===== *)
(** * Flat JSON objects (encoding/json)

    Managers and arbitrator exchange objects whose values are strings and
    integers. They are written by concatenation, without escapes, and read with
    [encoding/json]. [parse_object] reads the objects of this form; a text of
    another form is [None], whatever [encoding/json] makes of it. *)

From Stdlib Require Import ZArith Lia Bool Ascii String.
From stdpp Require Import base list strings.
From S2P Require Import Prelude GoLib.

Local Open Scope string_scope.
Local Open Scope list_scope.
Local Open Scope Z_scope.

Definition dquote : ascii := "034".
Definition json_plain (c : ascii) : bool :=
  negb (Ascii.eqb c dquote) && negb (Ascii.eqb c "092") && (32 <=? byte_val c) && (byte_val c <? 128).

Fixpoint plain (s : string) : bool :=
  match s with
  | EmptyString => true
  | String c r => json_plain c && plain r
  end.

Inductive jval := JStr (s : string) | JNum (n : Z).
Definition jfield : Type := string * jval.

(** ** Writing *)

Definition quoted (s : string) : string := String dquote (s +:+ String dquote "").
Definition print_val (v : jval) : string :=
  match v with JStr s => quoted s | JNum n => format_int n end.

Fixpoint print_fields (l : list jfield) : string :=
  match l with
  | [] => "}"
  | [(k, v)] => quoted k +:+ String ":" (print_val v +:+ "}")
  | (k, v) :: r => quoted k +:+ String ":" (print_val v +:+ String "," (print_fields r))
  end.
Definition print_object (l : list jfield) : string := String "{" (print_fields l).

(** ** Reading *)

(** The rest of a string, up to its closing quote. *)
Fixpoint parse_string (s : string) : option (string * string) :=
  match s with
  | EmptyString => None
  | String c r =>
      if Ascii.eqb c dquote then Some ("", r)
      else if json_plain c
      then match parse_string r with Some (x, r') => Some (String c x, r') | None => None end
      else None
  end.

Definition number_char (c : ascii) : bool :=
  Ascii.eqb c "-" || match digit_of c with Some _ => true | None => false end.

Fixpoint take_number (s : string) : string * string :=
  match s with
  | EmptyString => ("", "")
  | String c r => if number_char c then let '(n, r') := take_number r in (String c n, r') else ("", s)
  end.

Definition parse_number (s : string) : option (jval * string) :=
  let '(n, r) := take_number s in
  match strconv_ParseInt n with
  | (z, ErrNone) => Some (JNum z, r)
  | _ => None
  end.

Definition parse_val (s : string) : option (jval * string) :=
  match s with
  | String c r =>
      if Ascii.eqb c dquote
      then match parse_string r with Some (x, r') => Some (JStr x, r') | None => None end
      else parse_number s
  | EmptyString => None
  end.

(** [fuel]: the length of the text is enough. *)
Fixpoint parse_fields (fuel : nat) (s : string) : option (list jfield) :=
  match fuel, s with
  | S f, String q r =>
      if negb (Ascii.eqb q dquote) then None
      else
        '(k, r1) ← parse_string r;
        match r1 with
        | String c r2 =>
            if negb (Ascii.eqb c ":") then None
            else
              '(v, r3) ← parse_val r2;
              match r3 with
              | String d r4 =>
                  if Ascii.eqb d "," then l ← parse_fields f r4; Some ((k, v) :: l)
                  else if Ascii.eqb d "}" && (r4 =? "")%string then Some [(k, v)] else None
              | EmptyString => None
              end
        | EmptyString => None
        end
  | _, _ => None
  end.

Definition parse_object (s : string) : option (list jfield) :=
  match s with
  | String b r => if Ascii.eqb b "{" then if (r =? "}")%string then Some [] else parse_fields (String.length r) r
                  else None
  | EmptyString => None
  end.

(** ** Reading what was written *)

Definition val_ok (v : jval) : bool :=
  match v with JStr s => plain s | JNum n => (- two63 <=? n) && (n <? two63) end.
Definition fields_ok (l : list jfield) : bool := forallb (fun kv => plain (fst kv) && val_ok (snd kv)) l.

Lemma parse_string_plain s r : plain s = true -> parse_string (s +:+ String dquote r) = Some (s, r).
Proof.
  induction s as [|c s IH]; simpl; [done|]. intros [Hc Hs]%andb_prop. rewrite (IH Hs).
  destruct (Ascii.eqb c dquote) eqn:E; [|by rewrite Hc].
  unfold json_plain in Hc. by rewrite E in Hc.
Qed.

Lemma quoted_app s r : quoted s +:+ r = String dquote (s +:+ String dquote r).
Proof.
  unfold quoted. change (String dquote ((s +:+ String dquote "") +:+ r) = String dquote (s +:+ String dquote r)).
  by rewrite <- str_app_assoc.
Qed.

(** *** Numbers *)

Fixpoint all_chars (p : ascii -> bool) (s : string) : bool :=
  match s with EmptyString => true | String c r => p c && all_chars p r end.

Lemma all_chars_not_in p s : (forall c, p c = false -> char_in c s = false) -> all_chars p s = true.
Proof.
  induction s as [|c s IH]; simpl; intros Hs; [done|]. apply andb_true_intro. split.
  - destruct (p c) eqn:E; [done|]. specialize (Hs c E). by rewrite Ascii.eqb_refl in Hs.
  - apply IH. intros d Hd. specialize (Hs d Hd). by apply orb_false_elim in Hs as [_ Hs].
Qed.

Lemma format_uint_number n : all_chars number_char (format_uint n) = true.
Proof.
  apply all_chars_not_in. intros c Hc. apply format_uint_char. unfold number_char in Hc.
  apply orb_false_elim in Hc as [_ Hc]. by destruct (digit_of c).
Qed.

Lemma format_int_number n : all_chars number_char (format_int n) = true.
Proof. unfold format_int. destruct (n <? 0); [|apply format_uint_number]. simpl. apply format_uint_number. Qed.

Lemma take_number_app s c r :
  all_chars number_char s = true -> number_char c = false -> take_number (s +:+ String c r) = (s, String c r).
Proof.
  induction s as [|d s IH]; simpl; intros Hs Hc; [by rewrite Hc|].
  apply andb_prop in Hs as [Hd Hs]. by rewrite Hd, (IH Hs Hc).
Qed.

Lemma ParseInt_format n : - two63 <= n < two63 -> strconv_ParseInt (format_int n) = (n, ErrNone).
Proof.
  intros Hn. unfold format_int. assert (H63 : two63 = 2 ^ 63) by reflexivity.
  assert (Hm : forall m, 0 <= m <= two63 -> strconv_ParseUint (format_uint m) 64 = (m, ErrNone)).
  { intros m Hm. apply ParseUint_format. unfold max_uint. lia. }
  destruct (Z.ltb_spec n 0) as [Hneg|Hpos].
  - change (strconv_ParseInt (String "-" (format_uint (- n)))) with
      (let '(un, err) := strconv_ParseUint (format_uint (- n)) 64 in
       match err with
       | ErrSyntax => (0, ErrSyntax)
       | _ => if negb true && (two63 <=? un) then (two63 - 1, ErrRange)
              else if true && (two63 <? un) then (- two63, ErrRange) else (- un, ErrNone)
       end).
    rewrite Hm by lia. cbn [negb andb]. destruct (Z.ltb_spec two63 (- n)); [lia|]. by rewrite Z.opp_involutive.
  - specialize (Hm n ltac:(lia)). pose proof (format_uint_char n "+" eq_refl) as Hp.
    pose proof (format_uint_char n "-" eq_refl) as Hq. unfold strconv_ParseInt.
    destruct (format_uint n) as [|c r] eqn:E.
    + exfalso. unfold format_uint in E. revert E. apply format_digits_nonempty. lia.
    + simpl in Hp, Hq. apply orb_false_elim in Hp as [Hp _]. apply orb_false_elim in Hq as [Hq _].
      rewrite Hp, Hq, Hm. cbn [negb andb]. destruct (Z.leb_spec two63 n); [lia|done].
Qed.

Lemma format_int_first n : exists c r, format_int n = String c r /\ Ascii.eqb c dquote = false.
Proof.
  pose proof (format_int_number n) as Ha. unfold format_int in *. destruct (n <? 0).
  - by exists "-"%char, (format_uint (- n)).
  - destruct (format_uint n) as [|c r] eqn:E.
    + exfalso. unfold format_uint in E. revert E. apply format_digits_nonempty. lia.
    + exists c, r. split; [done|]. simpl in Ha. apply andb_prop in Ha as [Hc _].
      destruct (Ascii.eqb c dquote) eqn:Q; [|done]. apply Ascii.eqb_eq in Q. by subst c.
Qed.

Lemma parse_val_print v c r :
  val_ok v = true -> number_char c = false -> parse_val (print_val v +:+ String c r) = Some (v, String c r).
Proof.
  destruct v as [s|n]; intros Hv Hc; cbn [val_ok print_val] in *.
  - rewrite quoted_app. unfold parse_val. change (Ascii.eqb dquote dquote) with true. cbv iota.
    by rewrite parse_string_plain.
  - pose proof (take_number_app _ c r (format_int_number n) Hc) as Ht.
    destruct (format_int_first n) as (d & q & E & Hd).
    rewrite E in Ht |- *. unfold parse_val.
    change (String d q +:+ String c r) with (String d (q +:+ String c r)) at 1. cbv beta iota. rewrite Hd.
    change (String d (q +:+ String c r)) with (String d q +:+ String c r). unfold parse_number. rewrite Ht, <- E.
    apply andb_prop in Hv as [H1 H2]. apply Z.leb_le in H1. apply Z.ltb_lt in H2.
    by rewrite ParseInt_format by lia.
Qed.

Lemma length_str_app (a b : string) : String.length (a +:+ b) = (String.length a + String.length b)%nat.
Proof. induction a as [|c a IH]; simpl; [done|by rewrite IH]. Qed.

Lemma length_String c s : String.length (String c s) = S (String.length s).
Proof. reflexivity. Qed.

Lemma print_fields_cons k v r :
  r <> [] -> print_fields ((k, v) :: r) = quoted k +:+ String ":" (print_val v +:+ String "," (print_fields r)).
Proof. by destruct r as [|[]]. Qed.

Lemma parse_fields_print l : forall fuel,
  l <> [] -> fields_ok l = true -> (length l <= fuel)%nat -> parse_fields fuel (print_fields l) = Some l.
Proof.
  induction l as [|[k v] l IH]; intros fuel Hne Hok Hf; [done|].
  destruct fuel as [|f]; [simpl in Hf; lia|]. simpl in Hok. apply andb_prop in Hok as [[Hk Hv]%andb_prop Hl].
  destruct l as [|kv l].
  - change (print_fields [(k, v)]) with (quoted k +:+ String ":" (print_val v +:+ "}")).
    rewrite quoted_app. cbn [parse_fields]. change (Ascii.eqb dquote dquote) with true. cbn [negb].
    rewrite parse_string_plain by done. cbn [mbind option_bind].
    change (Ascii.eqb ":" ":") with true. cbn [negb].
    by rewrite (parse_val_print v "}" "") by done.
  - rewrite print_fields_cons by done. rewrite quoted_app. cbn [parse_fields].
    change (Ascii.eqb dquote dquote) with true. cbn [negb].
    rewrite parse_string_plain by done. cbn [mbind option_bind].
    change (Ascii.eqb ":" ":") with true. cbn [negb].
    rewrite (parse_val_print v "," _) by done. cbn [mbind option_bind].
    change (Ascii.eqb "," ",") with true. cbv iota.
    rewrite IH; [done|done|done|simpl in Hf |- *; lia].
Qed.

Lemma print_fields_long l : (length l <= String.length (print_fields l))%nat.
Proof.
  induction l as [|[k v] l IH]; [simpl; lia|]. destruct l as [|kv l].
  - simpl. lia.
  - rewrite print_fields_cons, length_str_app, length_String, length_str_app, length_String by done.
    simpl length in IH |- *. lia.
Qed.

(** What the managers and the arbitrator write is read back: the text of any
    object of plain strings and 64-bit integers is parsed to the same fields. *)
Lemma parse_print_object l : l <> [] -> fields_ok l = true -> parse_object (print_object l) = Some l.
Proof.
  intros Hne Hok. unfold parse_object, print_object. change (Ascii.eqb "{" "{") with true. cbv iota.
  pose proof (parse_fields_print l _ Hne Hok (print_fields_long l)) as Hp.
  destruct (print_fields l =? "}")%string eqn:E; [|exact Hp].
  apply String.eqb_eq in E. rewrite E in Hp. simpl in Hp. discriminate.
Qed.

Example parse_report :
  parse_object (print_object [("master", JStr "db1:3306"); ("id", JNum (-7))]) =
  Some [("master", JStr "db1:3306"); ("id", JNum (-7))].
Proof. reflexivity. Qed.
