(* ===== verification/Arbitration.v ===== *)
(** * The arbitrator (arbitrator/arbitrator.go, utils/dbhelper/arbitration.go)

    When managers lose sight of each other they ask an arbitrator, which elects
    at most one of them per cluster. It keeps one table in SQLite; a request is
    one transaction, a heartbeat is three statements of their own. The SQL of the
    source is read as operations on the list of the rows; [DATETIME('now')] is an
    argument, in seconds. Statements that fail are listed in a [Faults]. *)

From Stdlib Require Import ZArith Lia Bool Ascii String.
From stdpp Require Import base list gmap strings relations.
From S2P Require Import Prelude GoLib Json.

Local Open Scope string_scope.
Local Open Scope list_scope.
Local Open Scope Z_scope.

(** ** Data *)

(** The message of a manager (server/server.go). *)
Record Heartbeat := mkHeartbeat {
  h_UUID : string; h_Secret : string; h_Cluster : string; h_Master : string; h_UID : Z;
  h_Status : string; h_Hosts : Z; h_Failed : Z
}.
Definition zeroHeartbeat : Heartbeat := mkHeartbeat "" "" "" "" 0 "" 0 0.

(** [json.Unmarshal] into a message: keys are matched without case, unknown ones
    are skipped, and a value of the wrong type is an error that does not stop it. *)
Definition set_message_field (eh : bool * Heartbeat) (kv : jfield) : bool * Heartbeat :=
  let '(err, h) := eh in
  let '(mkHeartbeat uuid secret cluster master uid status hosts failed) := h in
  let key := strings_ToLower (fst kv) in
  let named k := (key =? k)%string in
  match snd kv with
  | JStr v =>
      if named "uuid" then (err, mkHeartbeat v secret cluster master uid status hosts failed)
      else if named "secret" then (err, mkHeartbeat uuid v cluster master uid status hosts failed)
      else if named "cluster" then (err, mkHeartbeat uuid secret v master uid status hosts failed)
      else if named "master" then (err, mkHeartbeat uuid secret cluster v uid status hosts failed)
      else if named "status" then (err, mkHeartbeat uuid secret cluster master uid v hosts failed)
      else if named "id" || named "hosts" || named "failed" then (true, h) else (err, h)
  | JNum n =>
      if named "id" then (err, mkHeartbeat uuid secret cluster master n status hosts failed)
      else if named "hosts" then (err, mkHeartbeat uuid secret cluster master uid status n failed)
      else if named "failed" then (err, mkHeartbeat uuid secret cluster master uid status hosts n)
      else if named "uuid" || named "secret" || named "cluster" || named "master" || named "status"
      then (true, h) else (err, h)
  end.
Definition decode_message (body : string) : bool * Heartbeat :=
  match parse_object body with
  | None => (true, zeroHeartbeat)
  | Some l => fold_left set_message_field l (false, zeroHeartbeat)
  end.

(** A row of the table; a column that an insertion leaves out is NULL or its default. *)
Record Row := mkRow {
  r_secret : string; r_cluster : option string; r_uid : Z; r_uuid : option string;
  r_master : string; r_date : Z; r_arbitration_date : option Z; r_status : string;
  r_hosts : Z; r_failed : Z
}.
Definition Table : Type := list Row.

Definition status_U : string := "U".
Definition status_E : string := "E".

(** Which statements of a request succeed. *)
Record Faults := mkFaults {
  ok_begin : bool; ok_elected : bool; ok_better : bool; ok_write : bool; ok_commit : bool
}.
Definition no_faults : Faults := mkFaults true true true true true.

(** ** SQL *)

(** A comparison with NULL is not true. *)
Definition of_cluster (secret cluster : string) (r : Row) : bool :=
  match r_cluster r with Some c => (c =? cluster)%string | None => false end && (r_secret r =? secret)%string.
Definition elected (r : Row) : bool := (r_status r =? status_E)%string.
Definition count (p : Row -> bool) (t : Table) : Z := Z.of_nat (length (List.filter p t)).

(** [PRIMARY KEY(secret,cluster,uid)]: NULLs are distinct. *)
Definition same_key (a b : Row) : bool :=
  (r_secret a =? r_secret b)%string && (r_uid a =? r_uid b) &&
  match r_cluster a, r_cluster b with Some c, Some d => (c =? d)%string | _, _ => false end.

(** [INSERT OR REPLACE]. *)
Definition insert_or_replace (r : Row) (t : Table) : Table :=
  List.filter (fun x => negb (same_key r x)) t ++ [r].

Fixpoint distinct (l : list string) : list string :=
  match l with
  | [] => []
  | x :: r => if existsb (String.eqb x) r then distinct r else x :: distinct r
  end.

(** ** Operations of the table *)

(** The statements of a heartbeat. The insertion does not name the columns
    [status] and [arbitration_date]: they get their defaults again. *)
Definition heartbeat_row (now : Z) (h : Heartbeat) : Row :=
  mkRow (h_Secret h) (Some (h_Cluster h)) (h_UID h) (Some (h_UUID h)) (h_Master h) now None status_U
    (h_Hosts h) (h_Failed h).
Definition write_row (now : Z) (h : Heartbeat) (t : Table) : Table := insert_or_replace (heartbeat_row now h) t.
Definition recent_masters (now : Z) (h : Heartbeat) (t : Table) : Z :=
  Z.of_nat (length (distinct (map r_master
    (List.filter (fun r => of_cluster (h_Secret h) (h_Cluster h) r && (now - 10 <? r_date r)) t)))).
Definition release (h : Heartbeat) (t : Table) : Table :=
  map (fun r => if elected r && of_cluster (h_Secret h) (h_Cluster h) r
                then mkRow (r_secret r) (r_cluster r) (r_uid r) (r_uuid r) (r_master r) (r_date r)
                       (r_arbitration_date r) status_U (r_hosts r) (r_failed r)
                else r) t.

(** The three statements one after the other, each reading the clock for itself;
    [true]: no error. *)
Definition WriteHeartbeat (ok_insert ok_count ok_update : bool) (now now' : Z) (h : Heartbeat) (t : Table)
  : bool * Table :=
  if negb ok_insert then (false, t)
  else
    let t := write_row now h t in
    if negb ok_count then (false, t)
    else if recent_masters now' h t =? 1 then if ok_update then (true, release h t) else (false, t)
    else (true, t).

Definition ForgetArbitration (secret : string) (t : Table) : Table :=
  List.filter (fun r => negb (r_secret r =? secret)%string) t.

Definition elected_row (now : Z) (h : Heartbeat) : Row :=
  mkRow (h_Secret h) (Some (h_Cluster h)) (h_UID h) (Some (h_UUID h)) (h_Master h) now (Some now) status_E
    (h_Hosts h) (h_Failed h).

(** Another manager of the cluster that is elected; one that is not and sees
    fewer failed servers. *)
Definition rival (h : Heartbeat) (r : Row) : bool :=
  of_cluster (h_Secret h) (h_Cluster h) r && elected r && negb (r_uid r =? h_UID h).
Definition better (h : Heartbeat) (r : Row) : bool :=
  of_cluster (h_Secret h) (h_Cluster h) r && (r_status r =? status_U)%string && negb (r_uid r =? h_UID h) &&
  (r_failed r <? h_Failed h).

(** A transaction: a failed write or commit leaves the table as it was. *)
Definition RequestArbitration (f : Faults) (now : Z) (h : Heartbeat) (t : Table) : bool * Table :=
  if negb (ok_begin f) then (false, t)
  else if ok_elected f && (count (rival h) t =? 0)
  then
    if ok_better f && (count (better h) t =? 0)
    then if ok_write f && ok_commit f then (true, insert_or_replace (elected_row now h) t) else (false, t)
    else (false, t)
  else (false, t).

Definition GetArbitrationMaster (secret cluster : string) (t : Table) : string :=
  match List.find (fun r => of_cluster secret cluster r && elected r) t with
  | Some r => r_master r
  | None => ""
  end.

(** The columns [cluster] and [uuid] are left NULL and the status is not used. *)
Definition SetStatusActiveHeartbeat (now : Z) (master secret : string) (uid : Z) (t : Table) : Table :=
  insert_or_replace (mkRow secret None uid None master now None status_U 0 0) t.

(** ** Handlers

    [None] is a body that could not be read, [Some (err, h)] the message as far
    as [json.Unmarshal] could fill it, with its error. [connected]: the database
    could be opened. The answer is the HTTP status and the body, or [None] when
    nothing was sent but possibly an error status. *)

Definition Body : Type := option (bool * Heartbeat).

Record response := mkResponse { resp_Arbitration : string; resp_ElectedMaster : string }.

(** After a body that is not a message the status 422 is sent, but the handler
    does not return. *)
Definition handlerArbitrator (connected : bool) (f : Faults) (now : Z) (body : Body) (t : Table)
  : option (Z * response) * Table :=
  match body with
  | None => (None, t)
  | Some (err, h) =>
      if negb connected then (None, t)
      else
        let '(res, t) := RequestArbitration f now h t in
        let electedmaster := GetArbitrationMaster (h_Secret h) (h_Cluster h) t in
        let send := if res then mkResponse "winner" electedmaster else mkResponse "looser" electedmaster in
        (Some (if err then 422 else 201, send), t)
  end.

(** The value of the only field of the answer. *)
Definition sent (res : bool) : string :=
  if res then "succed" else "failed".

Definition handlerHeartbeat (connected ok_insert ok_count ok_update : bool) (now now' : Z)
    (body : Body) (t : Table) : option string * Table :=
  match body with
  | None | Some (true, _) => (None, t)
  | Some (false, h) =>
      if negb connected then (None, t)
      else let '(res, t) := WriteHeartbeat ok_insert ok_count ok_update now now' h t in (Some (sent res), t)
  end.

Definition handlerForget (connected ok : bool) (body : Body) (t : Table) : option string * Table :=
  match body with
  | None | Some (true, _) => (None, t)
  | Some (false, h) =>
      if negb connected then (None, t)
      else (Some (sent ok), if ok then ForgetArbitration (h_Secret h) t else t)
  end.

(** ** Interleavings

    Requests are serialised by their transactions; the statements of heartbeats
    of several managers may fall between them in any order, so the release runs
    on a table that other managers may have changed since the count. *)
Inductive arb_step : Table -> Table -> Prop :=
| step_request c f now b t : arb_step t (snd (handlerArbitrator c f now b t))
| step_write now h t : arb_step t (write_row now h t)
| step_release h t : arb_step t (release h t)
| step_forget c ok b t : arb_step t (snd (handlerForget c ok b t))
| step_status now master secret uid t : arb_step t (SetStatusActiveHeartbeat now master secret uid t).

(** At most one manager is elected for a cluster, and it has one row. *)
Definition elected_rows (secret cluster : string) (t : Table) : Table :=
  List.filter (fun r => of_cluster secret cluster r && elected r) t.
Definition one_elected (t : Table) : Prop := forall s c, (length (elected_rows s c t) <= 1)%nat.

Lemma length_filter_le {A} (p : A -> bool) l : (length (List.filter p l) <= length l)%nat.
Proof. induction l as [|x l IH]; simpl; [lia|]. destruct (p x); simpl; lia. Qed.

Lemma filter_comm {A} (p q : A -> bool) l : List.filter p (List.filter q l) = List.filter q (List.filter p l).
Proof.
  induction l as [|x l IH]; simpl; [done|]. destruct (q x) eqn:Q, (p x) eqn:P; simpl; rewrite ?P, ?Q, IH; done.
Qed.

Lemma elected_rows_filter s c p t :
  (length (elected_rows s c (List.filter p t)) <= length (elected_rows s c t))%nat.
Proof. unfold elected_rows. rewrite filter_comm. apply length_filter_le. Qed.

Lemma one_elected_filter p t : one_elected t -> one_elected (List.filter p t).
Proof. intros H s c. specialize (H s c). pose proof (elected_rows_filter s c p t). lia. Qed.

Lemma elected_rows_snoc s c t r :
  elected_rows s c (t ++ [r]) = elected_rows s c t ++ (if of_cluster s c r && elected r then [r] else []).
Proof. unfold elected_rows. rewrite List.filter_app. simpl. by destruct (_ && _). Qed.

Lemma one_elected_insert_U r t :
  elected r = false -> one_elected t -> one_elected (insert_or_replace r t).
Proof.
  intros Hr H s c. unfold insert_or_replace. rewrite elected_rows_snoc, Hr, andb_false_r, app_nil_r.
  by apply one_elected_filter.
Qed.

Lemma count_zero p t : (count p t =? 0) = true -> forall r, r ∈ t -> p r = false.
Proof.
  unfold count. intros E r Hr. apply Z.eqb_eq in E.
  destruct (p r) eqn:P; [|done]. exfalso.
  assert (Hin : In r (List.filter p t)) by (apply filter_In; by rewrite <- list_elem_of_In).
  destruct (List.filter p t); [done|simpl in E; lia].
Qed.

(** What a winning request does to the elected rows of its cluster. *)
Lemma elected_rows_winner now h t :
  (count (rival h) t =? 0) = true ->
  elected_rows (h_Secret h) (h_Cluster h) (insert_or_replace (elected_row now h) t) = [elected_row now h].
Proof.
  intros Hc. unfold insert_or_replace. rewrite elected_rows_snoc. unfold of_cluster. simpl.
  rewrite !String.eqb_refl. cbn [andb].
  enough (elected_rows (h_Secret h) (h_Cluster h)
            (List.filter (fun x => negb (same_key (elected_row now h) x)) t) = []) as -> by done.
  apply filter_none. intros x [Hx Hk]%filter_In. pose proof (count_zero _ _ Hc x) as Hr.
  rewrite list_elem_of_In in Hr. specialize (Hr Hx). unfold rival in Hr.
  destruct (of_cluster (h_Secret h) (h_Cluster h) x) eqn:Ho; [|done]. cbn [andb] in Hr |- *.
  destruct (elected x); [|done]. cbn [andb] in Hr.
  unfold of_cluster in Ho. unfold same_key in Hk. simpl in Hk.
  destruct (r_cluster x) as [d|]; [|done]. apply andb_prop in Ho as [Hd Hs].
  rewrite String.eqb_sym in Hd. rewrite String.eqb_sym in Hs. apply negb_false_iff in Hr. rewrite Z.eqb_sym in Hr.
  by rewrite Hd, Hs, Hr in Hk.
Qed.

(** An insertion keeps the elected rows of the other clusters at most. *)
Lemma elected_rows_other s c now h t :
  of_cluster s c (elected_row now h) = false ->
  (length (elected_rows s c (insert_or_replace (elected_row now h) t)) <= length (elected_rows s c t))%nat.
Proof.
  intros Ho. unfold insert_or_replace. rewrite elected_rows_snoc, Ho. simpl. rewrite app_nil_r.
  apply elected_rows_filter.
Qed.

Lemma RequestArbitration_cases f now h t :
  (RequestArbitration f now h t = (true, insert_or_replace (elected_row now h) t) /\
   (count (rival h) t =? 0) = true /\ (count (better h) t =? 0) = true) \/
  RequestArbitration f now h t = (false, t).
Proof.
  unfold RequestArbitration. destruct (ok_begin f); [|by right]. cbn [negb].
  destruct (ok_elected f && (count (rival h) t =? 0)) eqn:E1; [|by right].
  destruct (ok_better f && (count (better h) t =? 0)) eqn:E2; [|by right].
  destruct (ok_write f && ok_commit f); [|by right]. left.
  apply andb_prop in E1 as [_ E1]. apply andb_prop in E2 as [_ E2]. auto.
Qed.

Lemma one_elected_request f now h t :
  one_elected t -> one_elected (snd (RequestArbitration f now h t)).
Proof.
  intros Ht. destruct (RequestArbitration_cases f now h t) as [(-> & Hr & _)| ->]; [|done].
  intros s c. cbn [snd]. destruct (of_cluster s c (elected_row now h)) eqn:Ho.
  - unfold of_cluster in Ho. simpl in Ho. apply andb_prop in Ho as [Hc Hs].
    apply String.eqb_eq in Hc, Hs. subst s c. rewrite elected_rows_winner by exact Hr. simpl. lia.
  - pose proof (elected_rows_other s c now h t Ho). specialize (Ht s c). lia.
Qed.

Lemma one_elected_release h t : one_elected t -> one_elected (release h t).
Proof.
  intros Ht s c. specialize (Ht s c). etransitivity; [|exact Ht]. clear Ht.
  unfold elected_rows, release. induction t as [|r t IH]; simpl; [lia|].
  destruct (elected r && of_cluster (h_Secret h) (h_Cluster h) r); [|destruct (_ && _); simpl; lia].
  unfold elected at 1. simpl. rewrite andb_false_r. destruct (_ && _); simpl; lia.
Qed.

Lemma handlerArbitrator_table c f now b t :
  snd (handlerArbitrator c f now b t) = t \/
  exists h, snd (handlerArbitrator c f now b t) = snd (RequestArbitration f now h t).
Proof.
  unfold handlerArbitrator. destruct b as [[err h]|]; [|by left]. destruct c; [|by left].
  right. exists h. by destruct (RequestArbitration _ _ _ _).
Qed.

Lemma one_elected_step t t' : arb_step t t' -> one_elected t -> one_elected t'.
Proof.
  destruct 1; intros Ht.
  - destruct (handlerArbitrator_table c f now b t) as [-> | [h ->]]; [done|by apply one_elected_request].
  - by apply one_elected_insert_U.
  - by apply one_elected_release.
  - unfold handlerForget. destruct b as [[[|] h]|]; [done| |done]. destruct c; [|done]. destruct ok; [|done].
    by apply one_elected_filter.
  - by apply one_elected_insert_U.
Qed.

(** C26: The arbitrator never holds two elected managers for one cluster: in every
    table that can be reached from an empty one by requests, by the statements
    of heartbeats and by removals, in any interleaving and with any of them
    failing, at most one row of a cluster is elected. *)
Theorem at_most_one_elected t : rtc arb_step [] t -> one_elected t.
Proof.
  intros R. assert (H0 : one_elected []) by (intros s c; simpl; lia). revert H0.
  induction R as [t|t t' t'' S _ IH]; [done|]. intros Ht. by apply IH, (one_elected_step t).
Qed.

(** The sequential heartbeat is made of those steps. *)
Lemma WriteHeartbeat_steps i k u now now' h t : rtc arb_step t (snd (WriteHeartbeat i k u now now' h t)).
Proof.
  unfold WriteHeartbeat. destruct i; [|by constructor]. cbn [negb].
  assert (W : rtc arb_step t (write_row now h t)) by (apply rtc_once; constructor).
  destruct k; [|done]. cbn [negb]. destruct (_ =? 1); [|done]. destruct u; [|done].
  eapply rtc_r; [exact W|constructor].
Qed.

(** ** A winner excludes the others *)

(** Steps of other managers, and requests of any, while manager [a] of a
    cluster neither reports nor is released or forgotten. *)
Inductive others_step (s c : string) (a : Z) : Table -> Table -> Prop :=
| others_request cn f now b t : others_step s c a t (snd (handlerArbitrator cn f now b t))
| others_write now h t :
    (h_Secret h, h_Cluster h, h_UID h) <> (s, c, a) -> others_step s c a t (write_row now h t)
| others_release h t : (h_Secret h, h_Cluster h) <> (s, c) -> others_step s c a t (release h t)
| others_forget cn ok h t : h_Secret h <> s -> others_step s c a t (snd (handlerForget cn ok (Some (false, h)) t))
| others_status now master secret uid t :
    others_step s c a t (SetStatusActiveHeartbeat now master secret uid t).

Definition holds (s c : string) (a : Z) (t : Table) : Prop :=
  exists r, r ∈ t /\ of_cluster s c r = true /\ elected r = true /\ r_uid r = a.

Lemma elem_insert_or_replace r x t : x ∈ insert_or_replace r t <-> x = r \/ (x ∈ t /\ same_key r x = false).
Proof.
  unfold insert_or_replace. rewrite elem_of_app, list_elem_of_singleton, !list_elem_of_In, filter_In, negb_true_iff.
  tauto.
Qed.

Lemma of_cluster_true s c r : of_cluster s c r = true <-> r_cluster r = Some c /\ r_secret r = s.
Proof.
  unfold of_cluster. destruct (r_cluster r) as [d|]; [|by split; intros; destruct_and?].
  rewrite andb_true_iff, !String.eqb_eq. naive_solver.
Qed.

Lemma holds_insert s c a r t :
  (r_cluster r = Some c -> r_secret r = s -> r_uid r = a -> elected r = true) ->
  holds s c a t -> holds s c a (insert_or_replace r t).
Proof.
  intros Hr (x & Hx & Hc & He & Hu). destruct (same_key r x) eqn:K.
  - unfold same_key in K. apply of_cluster_true in Hc as [Hc Hs]. rewrite Hc in K.
    destruct (r_cluster r) as [d|] eqn:Hd; [|by rewrite andb_false_r in K]. bool_prop. subst.
    exists r. split; [apply elem_insert_or_replace; by left|].
    split; [by apply of_cluster_true|]. auto.
  - exists x. split; [apply elem_insert_or_replace; by right|]. auto.
Qed.

(** While [a] is elected a request of another manager of the cluster fails. *)
Lemma holds_excludes s c a f now h t :
  holds s c a t -> h_Secret h = s -> h_Cluster h = c -> fst (RequestArbitration f now h t) = true -> h_UID h = a.
Proof.
  intros (x & Hx & Hc & He & Hu) <- <- Hw.
  destruct (RequestArbitration_cases f now h t) as [(_ & Hr & _)|E]; [|by rewrite E in Hw].
  pose proof (count_zero _ _ Hr x Hx) as N. unfold rival in N. rewrite Hc, He in N. simpl in N.
  apply negb_false_iff, Z.eqb_eq in N. congruence.
Qed.

Lemma holds_request s c a f now h t : holds s c a t -> holds s c a (snd (RequestArbitration f now h t)).
Proof.
  intros Ht. destruct (RequestArbitration_cases f now h t) as [(E & _)| ->]; [|done].
  rewrite E. apply holds_insert; [done|exact Ht].
Qed.

Lemma holds_step s c a t t' : others_step s c a t t' -> holds s c a t -> holds s c a t'.
Proof.
  destruct 1; intros Ht.
  - destruct (handlerArbitrator_table cn f now b t) as [-> | [h ->]]; [done|by apply holds_request].
  - apply holds_insert; [|done]. simpl. intros Hc Hs Hu. exfalso. congruence.
  - destruct Ht as (x & Hx & Hc & He & Hu). exists x. repeat split; [|done..].
    unfold release. apply list_elem_of_In, in_map_iff. exists x. rewrite <- list_elem_of_In. split; [|done].
    destruct (of_cluster (h_Secret h) (h_Cluster h) x) eqn:Ho; [|by rewrite andb_false_r].
    apply of_cluster_true in Hc as [? ?], Ho as [? ?]. congruence.
  - destruct Ht as (x & Hx & Hc & He & Hu). unfold handlerForget. exists x.
    destruct cn; [|done]. destruct ok; [|done]. repeat split; [|done..].
    apply list_elem_of_In, filter_In. rewrite <- list_elem_of_In. split; [done|].
    apply of_cluster_true in Hc as [_ <-]. by apply negb_true_iff, String.eqb_neq.
  - apply holds_insert; [done|exact Ht].
Qed.

Lemma holds_winner f now h t :
  fst (RequestArbitration f now h t) = true ->
  holds (h_Secret h) (h_Cluster h) (h_UID h) (snd (RequestArbitration f now h t)).
Proof.
  intros Hw. destruct (RequestArbitration_cases f now h t) as [(-> & _)|E]; [|by rewrite E in Hw].
  exists (elected_row now h). split; [apply elem_insert_or_replace; by left|].
  split; [by apply of_cluster_true|done].
Qed.

Lemma holds_others s c a t t' : rtc (others_step s c a) t t' -> holds s c a t -> holds s c a t'.
Proof. induction 1 as [t|t1 t2 t3 S _ IH]; [done|]. intros H. by apply IH, (holds_step _ _ _ t1). Qed.

(** Once a manager has won, no other manager of the cluster wins: after any
    number of requests and of heartbeats of the others, in any interleaving,
    as long as the winner itself does not report and is neither released nor
    forgotten, only the winner can win again. *)
Theorem winner_excludes_others f now h t t' f' now' h' :
  fst (RequestArbitration f now h t) = true ->
  rtc (others_step (h_Secret h) (h_Cluster h) (h_UID h)) (snd (RequestArbitration f now h t)) t' ->
  h_Secret h' = h_Secret h -> h_Cluster h' = h_Cluster h ->
  fst (RequestArbitration f' now' h' t') = true ->
  h_UID h' = h_UID h.
Proof.
  intros Hw R Hs Hc Hw'. pose proof (holds_others _ _ _ _ _ R (holds_winner _ _ _ _ Hw)) as H.
  by eapply holds_excludes.
Qed.

Lemma count_zero_intro p t : (forall r, r ∈ t -> p r = false) -> (count p t =? 0) = true.
Proof.
  intros Hp. unfold count. rewrite filter_none; [done|]. intros x Hx. by apply Hp, list_elem_of_In.
Qed.

Lemma winner_master now h t :
  (count (rival h) t =? 0) = true ->
  GetArbitrationMaster (h_Secret h) (h_Cluster h) (insert_or_replace (elected_row now h) t) = h_Master h.
Proof.
  intros Hc. pose proof (elected_rows_winner now h t Hc) as E. unfold elected_rows in E.
  unfold GetArbitrationMaster. destruct (List.find _ _) as [r|] eqn:F.
  - apply find_some in F as [Hin Hp]. assert (Hr : In r [elected_row now h]) by (rewrite <- E; by apply filter_In).
    by destruct Hr as [<-|[]].
  - exfalso. assert (Hr : In (elected_row now h) [elected_row now h]) by by left.
    rewrite <- E in Hr. apply filter_In in Hr as [Hin Hp]. by rewrite (find_none _ _ F _ Hin) in Hp.
Qed.

(** The two counts of a request, read as what they deny. *)
Definition unrivalled (h : Heartbeat) (t : Table) : Prop :=
  forall x, x ∈ t -> of_cluster (h_Secret h) (h_Cluster h) x = true -> elected x = true -> r_uid x = h_UID h.
Definition sees_best (h : Heartbeat) (t : Table) : Prop :=
  forall x, x ∈ t -> of_cluster (h_Secret h) (h_Cluster h) x = true -> r_status x = status_U ->
    r_uid x <> h_UID h -> h_Failed h <= r_failed x.

Lemma rival_none h t : (count (rival h) t =? 0) = true <-> unrivalled h t.
Proof.
  split.
  - intros E x Hx Ho He. pose proof (count_zero _ _ E x Hx) as N. unfold rival in N. rewrite Ho, He in N.
    by apply negb_false_iff, Z.eqb_eq in N.
  - intros Hall. apply count_zero_intro. intros x Hx. unfold rival.
    destruct (of_cluster _ _ x) eqn:Ho; [|done]. destruct (elected x) eqn:He; [|done]. cbn [andb].
    by apply negb_false_iff, Z.eqb_eq, Hall.
Qed.

Lemma better_none h t : (count (better h) t =? 0) = true <-> sees_best h t.
Proof.
  split.
  - intros E x Hx Ho Hu Hi. pose proof (count_zero _ _ E x Hx) as N. unfold better in N.
    apply Z.eqb_neq in Hi. rewrite Ho, Hu, Hi in N. simpl in N. by apply Z.ltb_ge in N.
  - intros Hall. apply count_zero_intro. intros x Hx. unfold better.
    destruct (of_cluster _ _ x) eqn:Ho; [|done]. destruct (_ =? status_U)%string eqn:Hu; [|done].
    destruct (r_uid x =? h_UID h) eqn:Hi; [done|]. cbn [andb negb]. apply Z.ltb_ge.
    apply Z.eqb_neq in Hi. apply String.eqb_eq in Hu. by apply Hall.
Qed.

(** The arbitrator always decides, by the rule: without faults it answers
    every request, "winner" exactly when no other manager of the cluster is
    elected and every other candidate sees at least as many failed servers; a
    winner is told its own master, and a lost request leaves the table as it
    was. *)
Theorem arbitration_winner_exact now h t :
  let r := handlerArbitrator true no_faults now (Some (false, h)) t in
  exists a, fst r = Some (201, a) /\
    (resp_Arbitration a = "winner" <-> unrivalled h t /\ sees_best h t) /\
    (resp_Arbitration a = "winner" -> resp_ElectedMaster a = h_Master h) /\
    (resp_Arbitration a <> "winner" -> snd r = t).
Proof.
  cbv zeta. unfold handlerArbitrator, RequestArbitration. pose proof (rival_none h t) as Hr.
  pose proof (better_none h t) as Hb.
  cbn [no_faults ok_begin ok_elected ok_better ok_write ok_commit negb andb].
  destruct (count (rival h) t =? 0) eqn:E1; [destruct (count (better h) t =? 0) eqn:E2|];
    eexists; (split; [reflexivity|]); cbn [resp_Arbitration resp_ElectedMaster snd];
    (split; [|split]); try done; try (split; [done|intros [? ?]; naive_solver]).
  - split; [|done]. intros _. split; [by apply Hr|by apply Hb].
  - intros _. apply (winner_master now h t E1).
Qed.

(** ** Examples *)

Definition demo_hb (uid failed : Z) (master : string) : Heartbeat :=
  mkHeartbeat "" "secret" "shop" master uid "A" 3 failed.
Definition demo_two : Table := write_row 100 (demo_hb 2 1 "db1") (write_row 99 (demo_hb 1 1 "db0") []).

Lemma demo_two_reachable : rtc arb_step [] demo_two.
Proof. eapply rtc_l; [apply step_write|]. apply rtc_once. apply step_write. Qed.

(** The two managers do not agree on the master: the first to ask wins. *)
Definition demo_won : Table := snd (RequestArbitration no_faults 101 (demo_hb 1 1 "db0") demo_two).

Lemma demo_won_reachable : rtc arb_step [] demo_won.
Proof.
  eapply rtc_r; [exact demo_two_reachable|].
  exact (step_request true no_faults 101 (Some (false, demo_hb 1 1 "db0")) demo_two).
Qed.

Example demo_second_loses :
  fst (RequestArbitration no_faults 102 (demo_hb 2 1 "db1") demo_won) = false.
Proof. reflexivity. Qed.

(** The winner's next heartbeat replaces its row, and with it the election:
    the other manager, with another master, wins the next request. *)
Example demo_heartbeat_forgets_election :
  let t := snd (WriteHeartbeat true true true 102 102 (demo_hb 1 1 "db0") demo_won) in
  handlerArbitrator true no_faults 103 (Some (false, demo_hb 2 1 "db1")) t =
  (Some (201, mkResponse "winner" "db1"), insert_or_replace (elected_row 103 (demo_hb 2 1 "db1")) t).
Proof. reflexivity. Qed.

(** A body that is not a message is answered, and elects manager 0 of no cluster. *)
Example demo_bad_body_elects :
  handlerArbitrator true no_faults 103 (Some (true, zeroHeartbeat)) [] =
  (Some (422, mkResponse "winner" ""), [elected_row 103 zeroHeartbeat]).
Proof. reflexivity. Qed.

(** With one master reported in the last ten seconds a heartbeat releases the
    elected manager of the cluster. *)
Example demo_release :
  snd (WriteHeartbeat true true true 112 112 (demo_hb 2 1 "db0") demo_won) =
  release (demo_hb 2 1 "db0") (write_row 112 (demo_hb 2 1 "db0") demo_won).
Proof. reflexivity. Qed.

(** ** Witnesses *)

Lemma at_most_one_elected_witness :
  rtc arb_step [] demo_won /\ length (elected_rows "secret" "shop" demo_won) = 1%nat /\ one_elected demo_won.
Proof.
  split; [exact demo_won_reachable|]. split; [reflexivity|].
  apply at_most_one_elected. exact demo_won_reachable.
Defined.

Lemma winner_excludes_others_witness :
  let t' := write_row 105 (demo_hb 2 0 "db1") demo_won in
  fst (RequestArbitration no_faults 106 (demo_hb 1 0 "db0") t') = true /\
  h_UID (demo_hb 1 0 "db0") = h_UID (demo_hb 1 1 "db0").
Proof.
  cbv zeta. split; [reflexivity|].
  apply (winner_excludes_others no_faults 101 (demo_hb 1 1 "db0") demo_two
           (write_row 105 (demo_hb 2 0 "db1") demo_won) no_faults 106).
  - reflexivity.
  - apply rtc_once. apply others_write. discriminate.
  - reflexivity.
  - reflexivity.
  - reflexivity.
Defined.
