(* ===== verification/Monitoring.v ===== *)
(** * The connection check of a server (cluster/srv.go, srv_get.go, srv_snd.go)

    [Ping] runs for every server at every round of the monitoring. A failed
    connection counts towards [failcount]: the server is suspect, then failed. A
    connection refreshes the server; a server that comes back is reintroduced,
    and rejoined when the manager is active. The log lines are left out. *)

From Stdlib Require Import ZArith Lia Bool Ascii String.
From stdpp Require Import base list gmap strings functions.
From S2P Require Import Prelude GoLib Gtid Version StateMachine Crash DelayStat Config Server Cluster ServerOps Refresh Election Failover Rejoin FailoverCheck.

Local Open Scope string_scope.
Local Open Scope list_scope.
Local Open Scope Z_scope.

Definition ConstMonitorActif : string := "A".
Definition ConstMonitorStandby : string := "S".

Definition ConstTLSNoConfig : string := "".
Definition ConstTLSOldConfig : string := "&tls=tlsconfigold".
Definition ConstTLSCurrentConfig : string := "&tls=tlsconfig".

(** The error of a query that returns no row, known by its text. *)
Definition sql_ErrNoRows : string := "sql: no rows in result set".

Section Ops.
Context `{Env} `{GoSort} `{GoRange}.

(** ** Connecting *)

(** With a client certificate the previous one is tried next, then none. *)
Definition GetNewDBConn (l : loc) : M (option ConnErr) :=
  c ← get_cluster;
  let conf := cl_Conf c in
  if Conf_MasterSlavePgStream conf || Conf_MasterSlavePgLogical conf
  then call (db_Connect l "postgres" "")
  else
    e ← call (db_Connect l "mysql" (if cl_HaveDBTLSCert c then ConstTLSCurrentConfig else ""));
    match e with
    | None => mret None
    | Some _ =>
        if negb (cl_HaveDBTLSCert c) then mret e
        else
          e ← call (db_Connect l "mysql" ConstTLSOldConfig);
          match e with
          | None =>
              s ← load l;
              SetState "ERR00080" (state_of "ERR00080" LvlErr "MON" (srv_URL s) [fs (srv_URL s)]) ;;
              mret None
          | Some _ => call (db_Connect l "mysql" ConstTLSNoConfig)
          end
    end.

(** The connection, when there is one, and the error. The agent is asked over
    HTTP: it gives no connection, and no answer is a nil dereference. *)
Definition ping_connect (l : loc) : M (bool * option ConnErr) :=
  conf ← get_conf;
  if (Conf_CheckType conf =? "tcp")%string
  then e ← GetNewDBConn l; mret (match e with None => true | Some _ => false end, e)
  else if (Conf_CheckType conf =? "agent")%string
  then
    s ← load l;
    resp ← call (http_Get ("http://" +:+ srv_Host s +:+ ":10001/check/"));
    status ← deref resp;
    mret (false, if status =? 200 then None
                 else Some (OtherErr ("HTTP Response Code Error: " +:+ format_int status)))
  else mret (false, None).

(** ** Helpers *)

Definition delCookie (l : loc) (key : string) : M unit :=
  s ← load l; call (remove_file (srv_Datadir s +:+ "/@" +:+ key)).

(** An alert is sent for a server whose state differs from the previous one. *)
Definition srv_SendAlert (l : loc) : M unit :=
  c ← get_cluster;
  s ← load l;
  if negb (cl_Status c =? ConstMonitorActif)%string && cl_IsDiscovered c then mret tt
  else if (srv_State s =? srv_PrevState s)%string then mret tt
  else SendAlert (mkAlert (srv_State s) (srv_PrevState s) (cl_Name c) (srv_URL s) false).

Definition SkipReplicationEvent (l : loc) : M unit :=
  conf ← get_conf;
  StopSlave l ;;
  exec l (db_SkipBinlogEvent l (Conf_MasterConn conf)) ;;
  StartSlave l ;;
  mret tt.

Definition ProcessFailedSlave (l : loc) : M unit :=
  conf ← get_conf;
  s ← load l;
  whenM (state_is s stateSlaveErr)
    (whenM (negb (Conf_ReplicationErrorScript conf =? "")%string)
       (call (run_script (Conf_ReplicationErrorScript conf) [srv_URL s; srv_PrevState s; srv_State s])) ;;
     whenM (HasReplicationSQLThreadRunning s && negb (Conf_ReplicationRestartOnSQLErrorMatch conf =? "")%string)
       match own_channel s with
       | None => mret tt
       | Some ss =>
           m ← call (regexp_Match (Conf_ReplicationRestartOnSQLErrorMatch conf) (ns_String (ss_LastSQLError ss)));
           match m with
           | Some true => SkipReplicationEvent l ;; StartSlave l ;; mret tt
           | _ => mret tt
           end
       end).

(** ** No connection *)

Definition forget_replications (l : loc) : M unit :=
  c ← get_cluster;
  h ← get_heap;
  whenM (srv_ReplicationsSeen (h l) && cl_slavesMade c)
    (mod_server l (fun s => set_srv_LastSeenReplications (Some (srv_Replications s)) s) ;;
     mod_cluster (fun c => set_cl_slaves (srv_delete h l (cl_slaves c)) c)) ;;
  mod_server l (fun s => set_srv_ReplicationsSeen false (set_srv_Replications [] s)).

(** The master, real or virtual, is declared failed once its count reaches the limit. *)
Definition ping_failed_master (l ml : loc) : M unit :=
  c ← get_cluster;
  mod_server l (set_srv_FailSuspectHeartbeat (GetHeartbeats (cl_StateMachine c))) ;;
  s ← load l;
  if Conf_MaxFail (cl_Conf c) <=? srv_FailCount s
  then srv_SetState ml stateFailed ;; delCookie l "cookie_waitstop" ;; delCookie l "cookie_unprov"
  else srv_SetState ml stateSuspect.

(** Another server is declared failed when its count equals the limit. *)
Definition ping_failed_replica (l : loc) : M unit :=
  c ← get_cluster;
  s ← load l;
  if (Conf_MaxFail (cl_Conf c) <=? srv_FailCount s) && negb (topology_is c TopoUnknown)
  then whenM (srv_FailCount s =? Conf_MaxFail (cl_Conf c))
         (srv_SetState l stateFailed ;; delCookie l "cookie_waitstop" ;; delCookie l "cookie_unprov" ;;
          forget_replications l)
  else srv_SetState l stateSuspect.

Definition ping_count (l : loc) : M unit :=
  mod_server l (fun s => set_srv_FailCount (i64 (srv_FailCount s + 1)) s) ;;
  c ← get_cluster;
  h ← get_heap;
  match GetMaster c with
  | Some ml =>
      if (srv_URL (h l) =? srv_URL (h ml))%string && negb (topology_is c TopoUnknown)
      then ping_failed_master l ml
      else ping_failed_replica l
  | None => ping_failed_replica l
  end.

Definition state_changed (s : ServerMonitor) : bool := negb (srv_PrevState s =? srv_State s)%string.

(** The change of state is made known, unless the server is only suspect. *)
Definition ping_failure_known (l : loc) : M unit :=
  s ← load l;
  whenM (state_changed s && negb (state_is s stateSuspect))
    (backendStateChangeProxies ;; srv_SendAlert l ;; ProcessFailedSlave l) ;;
  s ← load l;
  whenM (state_changed s) (SetPrevState l (srv_State s)).

Definition ping_failure (l : loc) (e : ConnErr) : M unit :=
  s ← load l;
  whenM (negb (state_is s stateFailed)) (mod_sm (CopyOldStateFromUnknowServer (srv_URL s))) ;;
  match e with
  | MySQLError 1045 msg =>
      srv_SetState l stateErrorAuth ;;
      SetState "ERR00004" (state_of "ERR00004" LvlErr "SRV" "" [fs (srv_URL s); fs msg]) ;;
      aux "CheckMonitoringCredentialsRotation" l
  | NoRows => ping_failure_known l
  | _ => ping_count l ;; ping_failure_known l
  end.

(** ** A connection *)

Definition ping_reconnected (l : loc) : M unit :=
  c ← get_cluster;
  s ← load l;
  whenM (IsFailed s && topology_is c TopoUnknown && negb (srv_PrevState s =? stateSuspect)%string)
    (srv_SetState l stateSuspect) ;;
  whenM (srv_PrevState s =? stateFailed)%string
    (delCookie l "cookie_waitstart" ;; delCookie l "cookie_restart" ;; delCookie l "cookie_prov" ;;
     delCookie l "cookie_reprov").

(** Does the check go on after the refresh? Without a connection of its own it
    panics when it defers to close it. *)
Definition ping_refresh (l : loc) (conn : bool) : M bool :=
  c ← get_cluster;
  s ← load l;
  if negb (srv_Conn s) then mod_server l (set_srv_Conn conn) ;; mret false
  else if cl_IsInFailover c then mret false
  else
    e ← Refresh l;
    if is_err e then mod_server l (set_srv_Conn conn) ;; mret false
    else if negb conn then panic
    else mret true.

Definition ping_reset_count (l : loc) : M unit :=
  mod_server l (fun s =>
    if negb (IsDown s) && (0 <? srv_FailCount s)
    then set_srv_FailSuspectHeartbeat 0 (set_srv_FailCount 0 s) else s).

(** A server of a replication group is a slave, another one stands alone. *)
Definition set_unconnected (l : loc) : M unit :=
  s ← load l;
  srv_SetState l (if srv_IsGroupReplicationSlave s then stateSlave else stateUnconn).

(** A server that failed comes back without replication: the old master, maybe. *)
Definition back_read_only (l : loc) : M unit :=
  c ← get_cluster;
  h ← get_heap;
  let s := h l in
  whenM (Conf_ReadOnly (cl_Conf c) && negb (srv_HaveWsrep s) && cl_IsDiscovered c)
    match GetMaster c with
    | None => mret tt
    | Some ml =>
        let may := negb (IsIgnoredReadonly s) && negb (cl_IsInFailover c) in
        if (cl_Status c =? ConstMonitorActif)%string && negb (srv_Id (h ml) =? srv_Id s)%string && may
        then SetReadOnly l ;; mret tt
        else whenM ((cl_Status c =? ConstMonitorStandby)%string && Conf_Arbitration (cl_Conf c) && may)
               (SetReadOnly l ;; mret tt)
    end.

Definition ping_back (l : loc) : M unit :=
  back_read_only l ;;
  c ← get_cluster;
  (if topology_is c TopoActivePassive then srv_SetState l stateMaster
   else whenM (negb (topology_is c TopoMultiMasterWsrep) || negb (topology_is c TopoMultiMasterGrouprep))
          (set_unconnected l)) ;;
  mod_server l (set_srv_FailCount 0) ;;
  backendStateChangeProxies ;;
  srv_SendAlert l ;;
  c ← get_cluster;
  whenM (Conf_Autorejoin (cl_Conf c) && IsActive c) (RejoinMaster l ;; mret tt).

(** A standalone server that was not one. *)
Definition ping_standalone (l : loc) : M unit :=
  set_unconnected l ;;
  c ← get_cluster;
  s ← load l;
  whenM (Conf_ReadOnly (cl_Conf c) && negb (srv_HaveWsrep s) && cl_IsDiscovered c &&
         negb (IsIgnoredReadonly s) && negb (cl_IsInFailover c))
    (SetReadOnly l ;; mret tt) ;;
  whenM (negb (state_is s stateSuspect)) (backendStateChangeProxies ;; srv_SendAlert l).

(** The server has no replication. *)
Definition ping_no_replication (l : loc) : M unit :=
  c ← get_cluster;
  h ← get_heap;
  let s := h l in
  let was st := (srv_PrevState s =? st)%string in
  let other_master := match GetMaster c with Some ml => negb (srv_Id (h ml) =? srv_Id s)%string | None => false end in
  if was stateFailed || was stateErrorAuth then ping_back l
  else if negb (state_is s stateMaster) && negb (was stateUnconn) && state_is s stateUnconn then ping_standalone l
  else if other_master && was stateSuspect && negb (srv_HaveWsrep s) && cl_IsDiscovered c && negb (cl_IsInFailover c)
  then set_unconnected l
  else if topology_is c TopoActivePassive
  then whenM (was stateSuspect || (was stateMaintenance && negb (srv_IsMaintenance s))) (srv_SetState l stateMaster)
  else whenM (negb (state_is s stateMaster) && was stateSlaveErr) (srv_SetState l stateUnconn).

(** 1617 and 3074: no such channel. *)
Definition no_channel (e : Err) : bool :=
  match e with
  | Some m => (m =? sql_ErrNoRows)%string || strings_Contains m "1617" || strings_Contains m "3074"
  | None => false
  end.

Definition ping_replication (l : loc) : M unit :=
  conf ← get_conf;
  r ← exec l (db_GetSlaveStatus l (Conf_MasterConn conf));
  if no_channel (snd r) then ping_no_replication l
  else
    c ← get_cluster;
    s ← load l;
    whenM (IsActive c && negb (is_err (snd r)) && (srv_PrevState s =? stateFailed)%string)
      (rejoinSlave l (fst r) ;; mret tt).

(** The previous state is overwritten before the alert looks at it. *)
Definition ping_success_known (l : loc) : M unit :=
  s ← load l;
  whenM (state_changed s)
    (SetPrevState l (srv_State s) ;;
     s ← load l;
     whenM (negb (srv_PrevState s =? stateSuspect)%string) (backendStateChangeProxies ;; srv_SendAlert l)).

Definition ping_success (l : loc) (conn : bool) : M unit :=
  ping_reconnected l ;;
  go ← ping_refresh l conn;
  whenM go (ping_reset_count l ;; ping_replication l ;; ping_success_known l).

Definition ping_virtual_master (l : loc) : M unit :=
  c ← get_cluster;
  h ← get_heap;
  match cl_vmaster c with
  | None => mret tt
  | Some v => mod_server l (set_srv_IsVirtualMaster (srv_ServerID (h v) =? srv_ServerID (h l)))
  end.

Definition Ping (l : loc) : M unit :=
  ping_virtual_master l ;;
  r ← ping_connect l;
  match snd r with
  | Some e => ping_failure l e
  | None => ping_success l (fst r)
  end.
End Ops.
