(* ===== verification/MonitoringProps.v ===== *)
(** * The connection check decides what a server is (cluster/srv.go)

    A master that cannot be reached is declared failed after as many checks as
    configured, whatever else the manager does in between; another server is
    declared failed exactly when its count equals the limit; and the check of a
    standby manager neither opens nor redirects a database. *)

From Stdlib Require Import ZArith Lia Bool Ascii String.
From stdpp Require Import base list gmap strings functions relations.
From S2P Require Import Prelude GoLib Gtid Version StateMachine Crash DelayStat Config Server Cluster Demo ServerOps Lands Refresh Election Failover Rejoin FailoverFrame FailoverCheck Monitoring.

Local Open Scope string_scope.
Local Open Scope list_scope.
Local Open Scope Z_scope.

Section Checks.
Context `{Env} `{GoSort} `{GoRange}.

Lemma talks_proxies : Talks backendStateChangeProxies.
Proof.
  unfold backendStateChangeProxies. apply runs_read. intros c.
  apply runs_forM; [apply _|]. intros x. apply talks_call.
Qed.

Lemma talks_SendAlert a : Talks (SendAlert a).
Proof.
  unfold SendAlert. apply runs_read. intros c. destruct (cl_IsAlertDisable c); [by apply runs_ret; apply _|].
  apply runs_bind; [apply _|apply runs_whenM, talks_call; apply _|intros _].
  unfold BashScriptAlert. apply runs_read. intros conf. apply runs_whenM; [apply _|apply talks_call].
Qed.

Lemma talks_srv_SendAlert l : Talks (srv_SendAlert l).
Proof.
  unfold srv_SendAlert. apply runs_read. intros c. apply runs_read. intros s.
  repeat case_match_goal; try (by apply runs_ret; apply _). apply talks_SendAlert.
Qed.

Lemma talks_delCookie l k : Talks (delCookie l k).
Proof. unfold delCookie. apply runs_read. intros s. apply talks_call. Qed.
End Checks.

(** The parts of the cluster a check leaves alone. *)
Definition core (w : World) : Cluster := set_cl_StateMachine zeroStateMachine (w_cluster w).

(** A server without what the announcements of a check write. *)
Definition fixed (s : ServerMonitor) : ServerMonitor := set_srv_IsVirtualMaster false (set_srv_PrevState "" s).
Definition same_servers (w w' : World) : Prop := forall x, fixed (w_heap w' x) = fixed (w_heap w x).

Lemma same_read {T} (f : ServerMonitor -> T) w w' x :
  same_servers w w' -> (forall s, f (fixed s) = f s) -> f (w_heap w' x) = f (w_heap w x).
Proof. intros E Hf. rewrite <- (Hf (w_heap w' x)), <- (Hf (w_heap w x)). by rewrite E. Qed.
Lemma same_heap w w' : w_heap w' = w_heap w -> same_servers w w'.
Proof. intros E x. by rewrite E. Qed.
Lemma same_mod w w' l s :
  w_heap w' = <[l := s]> (w_heap w) -> fixed s = fixed (w_heap w l) -> same_servers w w'.
Proof.
  intros E Es x. rewrite E. destruct (decide (x = l)) as [->|Hx];
    [by rewrite fn_lookup_insert|by rewrite fn_lookup_insert_ne].
Qed.
Lemma same_trans w1 w2 w3 : same_servers w1 w2 -> same_servers w2 w3 -> same_servers w1 w3.
Proof. intros A B x. by rewrite B, A. Qed.

(** What a check decides: the state and the count of the server. *)
Definition verdict (w : World) (l : loc) : string * Z * string :=
  (srv_State (w_heap w l), srv_FailCount (w_heap w l), srv_URL (w_heap w l)).

Lemma verdict_same w w' x : same_servers w w' -> verdict w' x = verdict w x.
Proof. intros E. exact (same_read (fun s => (srv_State s, srv_FailCount s, srv_URL s)) w w' x E ltac:(done)). Qed.

Section Lands.
Context `{Env} `{GoSort} `{GoRange}.

(** The announcement of a verdict, when the server is not broken replication. *)
Lemma lands_known l w :
  state_is (w_heap w l) stateSlaveErr = false ->
  lands (ping_failure_known l) w (fun _ w' => w_cluster w' = w_cluster w /\ same_servers w w').
Proof.
  intros Hs. unfold ping_failure_known. apply lands_bind. unfold lands at 1, load. apply lands_bind.
  assert (Hq : lands (whenM (state_changed (w_heap w l) && negb (state_is (w_heap w l) stateSuspect))
     (backendStateChangeProxies ;; srv_SendAlert l ;; ProcessFailedSlave l)) w
     (fun _ w' => w_cluster w' = w_cluster w /\ w_heap w' = w_heap w)).
  { apply lands_whenM; [|done]. intros _. apply lands_bind, lands_talks; [apply talks_proxies|]. intros _ w1 Ec1 Eh1.
    apply lands_bind, lands_talks; [apply talks_srv_SendAlert|]. intros _ w2 Ec2 Eh2.
    unfold ProcessFailedSlave, lands, mbind, M_bind, get_conf, load. rewrite Eh2, Eh1, Hs. simpl. split; congruence. }
  eapply lands_weaken; [exact Hq|]. intros _ w1 [Ec1 Eh1]. apply lands_bind. unfold lands at 1, load.
  apply lands_whenM; [|intros _; split; [done|by apply same_heap]].
  intros _. unfold SetPrevState. destruct (_ =? "")%string; unfold lands; simpl; (split; [done|]).
  - by apply same_heap.
  - eapply same_mod; [cbn [w_heap]; by rewrite Eh1|done].
Qed.
End Lands.

(** ** A server that cannot be reached *)

(** An error that counts towards the failure of a server. *)
Definition counted (e : ConnErr) : bool :=
  match e with MySQLError n _ => negb (n =? 1045) | NoRows => false | OtherErr _ => true end.

Definition no_connection `{Env} (l : loc) : Prop :=
  forall tr driver tls, exists e, answer tr (db_Connect l driver tls) = Some e /\ counted e = true.

(** [l] is the master and the topology is known; servers are checked by TCP. *)
Definition tcp_checked (w : World) : Prop :=
  Conf_CheckType (cl_Conf (w_cluster w)) = "tcp" /\ topology_is (w_cluster w) TopoUnknown = false.
Definition leads (l : loc) (w : World) : Prop := GetMaster (w_cluster w) = Some l.

Section Unreachable.
Context `{Env} `{GoSort} `{GoRange} (l : loc) (Hno : no_connection l).

Lemma ping_failure_counted e w :
  counted e = true ->
  ping_failure l e w =
  (s ← load l; whenM (negb (state_is s stateFailed)) (mod_sm (CopyOldStateFromUnknowServer (srv_URL s))) ;;
   ping_count l ;; ping_failure_known l) w.
Proof.
  intros Hc. unfold ping_failure. destruct e as [n msg| |msg]; [|done|reflexivity].
  destruct n as [|p|p]; [reflexivity| |reflexivity].
  do 11 (destruct p as [p|p|]; try reflexivity). discriminate.
Qed.

Lemma lands_connect w :
  Conf_CheckType (cl_Conf (w_cluster w)) = "tcp" ->
  lands (ping_connect l) w (fun r w' => w_cluster w' = w_cluster w /\ w_heap w' = w_heap w /\
    exists e, snd r = Some e /\ counted e = true).
Proof.
  intros Ht. unfold ping_connect, lands. unfold mbind at 1, M_bind at 1. unfold get_conf at 1. cbv iota beta.
  rewrite Ht. cbn -[GetNewDBConn]. unfold GetNewDBConn, get_cluster, call, mbind, M_bind. cbv iota beta zeta.
  destruct (_ || _).
  - destruct (Hno (w_trace w) "postgres" "") as (e & -> & Hc). simpl. eauto.
  - set (tls := if cl_HaveDBTLSCert (w_cluster w) then _ else _).
    destruct (Hno (w_trace w) "mysql" tls) as (e & Ee & Hc). rewrite Ee.
    destruct (cl_HaveDBTLSCert _); simpl; [|eauto].
    match goal with |- context [answer ?tr (db_Connect l "mysql" ConstTLSOldConfig)] =>
      destruct (Hno tr "mysql" ConstTLSOldConfig) as (e2 & -> & _) end.
    match goal with |- context [answer ?tr (db_Connect l "mysql" ConstTLSNoConfig)] =>
      destruct (Hno tr "mysql" ConstTLSNoConfig) as (e3 & -> & Hc3) end.
    simpl. eauto.
Qed.

(** A check that fails counts, and then announces the verdict. *)
Lemma lands_Ping w (Q : unit -> World -> Prop) :
  Conf_CheckType (cl_Conf (w_cluster w)) = "tcp" ->
  (forall w1, core w1 = core w -> same_servers w w1 -> lands (ping_count l ;; ping_failure_known l) w1 Q) ->
  lands (Ping l) w Q.
Proof.
  intros Ht HQ. unfold Ping. apply lands_bind.
  assert (Hv : lands (ping_virtual_master l) w (fun _ w1 => w_cluster w1 = w_cluster w /\ same_servers w w1)).
  { unfold ping_virtual_master, lands, mbind, M_bind, get_cluster, get_heap. cbv iota beta.
    destruct (cl_vmaster _) as [v|]; simpl; (split; [done|]); [by eapply same_mod|by apply same_heap]. }
  eapply lands_weaken; [exact Hv|]. intros _ w1 (Ec1 & Ev1). apply lands_bind.
  eapply lands_weaken; [apply lands_connect; by rewrite Ec1|].
  intros r w2 (Ec2 & Eh2 & e & Ee & Hc). rewrite Ee. unfold lands. rewrite ping_failure_counted by done.
  assert (Ew : core w2 = core w) by (unfold core; by rewrite Ec2, Ec1).
  assert (Hw : same_servers w w2) by (eapply same_trans; [exact Ev1|by apply same_heap]).
  unfold mbind at 1, M_bind at 1, load at 1. cbv iota beta. unfold mbind at 1, M_bind at 1.
  destruct (state_is _ stateFailed); [exact (HQ w2 Ew Hw)|]. cbn [negb whenM mod_sm mod_cluster]. by apply HQ.
Qed.

Lemma core_master w w' : core w' = core w -> GetMaster (w_cluster w') = GetMaster (w_cluster w).
Proof. intros E. exact (f_equal GetMaster E). Qed.
Lemma core_topology t w w' : core w' = core w -> topology_is (w_cluster w') t = topology_is (w_cluster w) t.
Proof. intros E. exact (f_equal (fun c => topology_is c t) E). Qed.
Lemma core_conf w w' : core w' = core w -> cl_Conf (w_cluster w') = cl_Conf (w_cluster w).
Proof. intros E. exact (f_equal cl_Conf E). Qed.
End Unreachable.

(** *** The master *)

Definition master_verdict (w : World) (n : Z) : string :=
  if Conf_MaxFail (cl_Conf (w_cluster w)) <=? n then stateFailed else stateSuspect.

Section Master.
Context `{Env} `{GoSort} `{GoRange} (l : loc) (Hno : no_connection l).

Lemma lands_count_master w :
  leads l w -> topology_is (w_cluster w) TopoUnknown = false ->
  lands (ping_count l) w (fun _ w' => core w' = core w /\
    verdict w' l = (master_verdict w (i64 (srv_FailCount (w_heap w l) + 1)),
                    i64 (srv_FailCount (w_heap w l) + 1), srv_URL (w_heap w l))).
Proof.
  intros Hl Ht. unfold ping_count. apply lands_bind. unfold lands at 1, mod_server.
  set (n := i64 (srv_FailCount (w_heap w l) + 1)).
  apply lands_bind. unfold lands at 1, get_cluster. cbn [w_cluster]. apply lands_bind. unfold lands at 1, get_heap. cbn [w_heap].
  rewrite Hl, Ht, String.eqb_refl. cbn [negb andb].
  unfold ping_failed_master. apply lands_bind. unfold lands at 1, get_cluster. cbn [w_cluster].
  apply lands_bind. unfold lands at 1, mod_server. cbn [w_cluster w_heap]. apply lands_bind. unfold lands at 1, load. cbn [w_heap].
  rewrite !fn_lookup_insert. cbn [srv_FailCount].
  change (Conf_MaxFail _ <=? _) with (Conf_MaxFail (cl_Conf (w_cluster w)) <=? n). unfold master_verdict.
  destruct (_ <=? n).
  - apply lands_bind, lands_SetState. intros w1 Ec1 Eh1. apply lands_bind, lands_talks; [apply talks_delCookie|].
    intros _ w2 Ec2 Eh2. apply lands_talks; [apply talks_delCookie|]. intros _ w3 Ec3 Eh3.
    split; [unfold core; by rewrite Ec3, Ec2, Ec1|]. unfold verdict. rewrite Eh3, Eh2, Eh1. rewrite fn_lookup_insert. cbn [w_heap]. by rewrite !fn_lookup_insert.
  - apply lands_SetState. intros w1 Ec1 Eh1. split; [unfold core; by rewrite Ec1|].
    unfold verdict. rewrite Eh1, fn_lookup_insert. cbn [w_heap]. by rewrite !fn_lookup_insert.
Qed.

Lemma lands_Ping_master w :
  tcp_checked w -> leads l w ->
  lands (Ping l) w (fun _ w' => core w' = core w /\
    verdict w' l = (master_verdict w (i64 (srv_FailCount (w_heap w l) + 1)),
                    i64 (srv_FailCount (w_heap w l) + 1), srv_URL (w_heap w l))).
Proof.
  intros [Ht Hk] Hl. apply lands_Ping; [done|done|]. intros w1 Ec Ev. apply lands_bind.
  assert (El : verdict w1 l = verdict w l) by (by apply (verdict_same w)). injection El as Es En Eu.
  eapply lands_weaken.
  { apply lands_count_master; [unfold leads; by rewrite (core_master _ _ Ec)|by rewrite (core_topology _ _ _ Ec)]. }
  intros _ w2 [Ec2 Ev2]. unfold master_verdict in *. rewrite (core_conf _ _ Ec), En, Eu in Ev2.
  eapply lands_weaken.
  { apply lands_known. injection Ev2 as Es2 _ _. unfold state_is. rewrite Es2. by destruct (_ <=? _). }
  intros _ w3 [Ec3 Ev3]. split; [unfold core; rewrite Ec3; change (core w2 = core w); congruence|]. by rewrite (verdict_same _ _ _ Ev3).
Qed.

(** What happens between two checks of the master: anything that keeps the roles,
    the configuration of the checks and the count of the master. *)
Definition steady (w w' : World) : Prop :=
  (leads l w -> leads l w') /\ (tcp_checked w -> tcp_checked w') /\
  Conf_MaxFail (cl_Conf (w_cluster w')) = Conf_MaxFail (cl_Conf (w_cluster w)) /\
  srv_FailCount (w_heap w' l) = srv_FailCount (w_heap w l).

(** [n] checks of the master, with other work of the manager in between. *)
Inductive checks : nat -> World -> World -> Prop :=
| checks_none w : checks 0 w w
| checks_other n w w1 w2 : checks n w w1 -> steady w1 w2 -> checks n w w2
| checks_ping n w w1 w2 : checks n w w1 -> Ping l w1 = (Ret tt, w2) -> checks (S n) w w2.

Lemma checks_count n w w1 :
  tcp_checked w -> leads l w -> checks n w w1 ->
  0 <= srv_FailCount (w_heap w l) -> srv_FailCount (w_heap w l) + Z.of_nat n < two63 ->
  tcp_checked w1 /\ leads l w1 /\
  Conf_MaxFail (cl_Conf (w_cluster w1)) = Conf_MaxFail (cl_Conf (w_cluster w)) /\
  srv_FailCount (w_heap w1 l) = srv_FailCount (w_heap w l) + Z.of_nat n.
Proof.
  intros Ht Hl C. induction C as [w|n w w1 w2 C IH (S1 & S2 & S3 & S4)|n w w1 w2 C IH E]; intros Hz Hb.
  - split_and!; [done|done|done|lia].
  - destruct (IH Ht Hl Hz Hb) as (I1 & I2 & I3 & I4). split_and!; [by apply S2|by apply S1|congruence|lia].
  - destruct (IH Ht Hl Hz) as (I1 & I2 & I3 & I4); [lia|].
    pose proof (lands_Ping_master w1 I1 I2) as L. unfold lands in L. rewrite E in L. destruct L as [Ec Ev].
    injection Ev as _ En _. split_and!.
    + destruct I1 as [J1 J2]. split; [by rewrite (core_conf _ _ Ec)|by rewrite (core_topology _ _ _ Ec)].
    + unfold leads. by rewrite (core_master _ _ Ec).
    + by rewrite (core_conf _ _ Ec).
    + rewrite En, I4, i64_small; [lia|unfold is_i64, two63 in *; lia].
Qed.
End Master.

(** C16: A master that cannot be reached is declared failed: whatever the manager
    does between its checks without changing the roles or resetting the count,
    the next check returns, counts one more failure, and leaves the master
    failed once the count has reached the limit and suspect before; so the state
    is failed after at most [MaxFail] checks and stays so. *)
Theorem unreachable_master_fails `{Env} `{GoSort} `{GoRange} l n w w1 :
  no_connection l -> tcp_checked w -> leads l w -> checks l n w w1 ->
  0 <= srv_FailCount (w_heap w l) -> srv_FailCount (w_heap w l) + Z.of_nat n + 1 < two63 ->
  exists w2, Ping l w1 = (Ret tt, w2) /\ leads l w2 /\
    srv_FailCount (w_heap w2 l) = srv_FailCount (w_heap w l) + Z.of_nat (S n) /\
    srv_State (w_heap w2 l) =
      (if Conf_MaxFail (cl_Conf (w_cluster w)) <=? srv_FailCount (w_heap w l) + Z.of_nat (S n)
       then stateFailed else stateSuspect).
Proof.
  intros Hno Ht Hl C Hz Hb. destruct (checks_count l Hno n w w1 Ht Hl C Hz) as (T1 & L1 & M1 & N1); [lia|].
  destruct (lands_run _ _ _ (lands_Ping_master l Hno w1 T1 L1)) as ([] & w2 & E & Ec & Ev).
  exists w2. split; [done|]. injection Ev as Es En _. unfold master_verdict in Es.
  rewrite N1, i64_small in Es, En by (unfold is_i64, two63 in *; lia). rewrite M1 in Es.
  split; [unfold leads; by rewrite (core_master _ _ Ec)|].
  replace (srv_FailCount (w_heap w l) + Z.of_nat (S n)) with (srv_FailCount (w_heap w l) + Z.of_nat n + 1) by lia.
  by rewrite Es, En.
Qed.

(** *** Another server *)

Lemma find_index_ext {A} (p q : A -> bool) l : (forall x, p x = q x) -> find_index p l = find_index q l.
Proof. intros E. induction l as [|x l IH]; simpl; [done|]. by rewrite E, IH. Qed.
Lemma srv_delete_urls h h' l sl :
  (forall x, srv_URL (h x) = srv_URL (h' x)) -> srv_delete h l sl = srv_delete h' l sl.
Proof. intros E. unfold srv_delete, swap_delete. erewrite find_index_ext; [done|]. intros x. simpl. by rewrite !E. Qed.

(** The verdict on a server that is not the master, after [n] failures. *)
Definition replica_state (c : Cluster) (s : ServerMonitor) (n : Z) : string :=
  if topology_is c TopoUnknown || (n <? Conf_MaxFail (cl_Conf c)) then stateSuspect
  else if n =? Conf_MaxFail (cl_Conf c) then stateFailed else srv_State s.

(** It is declared failed at this check, and its channels are forgotten. *)
Definition declared (c : Cluster) (n : Z) : bool :=
  negb (topology_is c TopoUnknown) && (n =? Conf_MaxFail (cl_Conf c)).

Definition not_master (l : loc) (w : World) : Prop :=
  forall m, GetMaster (w_cluster w) = Some m -> srv_URL (w_heap w l) <> srv_URL (w_heap w m).

(** What the check leaves of the server and of the list of slaves. *)
Definition replica_verdict (l : loc) (w w' : World) : Prop :=
  let c := w_cluster w in
  let s := w_heap w l in
  let n := srv_FailCount s + 1 in
  let gone := declared c n && (srv_ReplicationsSeen s && cl_slavesMade c) in
  verdict w' l = (replica_state c s n, n, srv_URL s) /\
  cl_slaves (w_cluster w') = (if gone then srv_delete (w_heap w) l (cl_slaves c) else cl_slaves c) /\
  srv_Replications (w_heap w' l) = (if declared c n then [] else srv_Replications s) /\
  (gone = true -> srv_LastSeenReplications (w_heap w' l) = Some (srv_Replications s)).

Section Replica.
Context `{Env} `{GoSort} `{GoRange} (l : loc).

Lemma lands_forget w :
  lands (forget_replications l) w (fun _ w' =>
    let gone := srv_ReplicationsSeen (w_heap w l) && cl_slavesMade (w_cluster w) in
    verdict w' l = verdict w l /\
    cl_slaves (w_cluster w') = (if gone then srv_delete (w_heap w) l (cl_slaves (w_cluster w)) else cl_slaves (w_cluster w)) /\
    srv_Replications (w_heap w' l) = [] /\
    (gone = true -> srv_LastSeenReplications (w_heap w' l) = Some (srv_Replications (w_heap w l)))).
Proof.
  unfold forget_replications. unfold lands, mbind, M_bind, get_cluster, get_heap, whenM. cbv iota beta zeta.
  destruct (_ && _); cbn -[srv_delete]; unfold verdict; cbn -[srv_delete]; rewrite !fn_lookup_insert;
    (split; [done|]); (split; [done|]); split; done.
Qed.

(** The server counted one failure more. *)
Definition counted_world (w : World) : World :=
  mkWorld (w_cluster w) (<[l := set_srv_FailCount (i64 (srv_FailCount (w_heap w l) + 1)) (w_heap w l)]> (w_heap w))
    (w_trace w).

Lemma counted_url w x : srv_URL (w_heap (counted_world w) x) = srv_URL (w_heap w x).
Proof.
  simpl. destruct (decide (x = l)) as [->|Hx]; [by rewrite fn_lookup_insert|by rewrite fn_lookup_insert_ne].
Qed.

Lemma lands_count_replica w (Q : unit -> World -> Prop) :
  not_master l w -> lands (ping_failed_replica l) (counted_world w) Q -> lands (ping_count l) w Q.
Proof.
  intros Hn HQ. unfold ping_count. apply lands_bind. unfold lands at 1, mod_server. fold (counted_world w).
  apply lands_bind. unfold lands at 1, get_cluster. apply lands_bind. unfold lands at 1, get_heap.
  destruct (GetMaster _) as [m|] eqn:Em; [|done]. rewrite !counted_url.
  by rewrite (proj2 (String.eqb_neq _ _) (Hn m Em)).
Qed.

Lemma lands_replica w :
  srv_FailCount (w_heap w l) + 1 < two63 -> 0 <= srv_FailCount (w_heap w l) ->
  lands (ping_failed_replica l) (counted_world w) (fun _ w' => replica_verdict l w w').
Proof.
  intros Hb Hz. set (w0 := counted_world w). set (n := srv_FailCount (w_heap w l) + 1).
  assert (E0 : w_heap w0 l = set_srv_FailCount n (w_heap w l)).
  { unfold w0. simpl. rewrite fn_lookup_insert, i64_small; [done|unfold is_i64, two63 in *; lia]. }
  unfold ping_failed_replica. apply lands_bind. unfold lands at 1, get_cluster. apply lands_bind. unfold lands at 1, load.
  rewrite E0. cbn [srv_FailCount]. change (w_cluster w0) with (w_cluster w).
  unfold replica_verdict, replica_state, declared. fold n.
  change (srv_FailCount (set_srv_FailCount n _)) with n.
  destruct (topology_is (w_cluster w) TopoUnknown); cbn [negb andb orb]; rewrite ?andb_false_r, ?andb_true_r.
  { apply lands_SetState. intros w1 Ec Eh. rewrite Ec, Eh. unfold verdict. rewrite Eh, fn_lookup_insert, E0. done. }
  destruct (n <? _) eqn:Elt.
  { replace (_ <=? n) with false by lia. replace (n =? _) with false by lia. cbn [andb].
    apply lands_SetState. intros w1 Ec Eh. rewrite Ec, Eh. unfold verdict. rewrite Eh, fn_lookup_insert, E0. done. }
  replace (_ <=? n) with true by lia. apply lands_whenM; intros En; rewrite En; cbn [andb].
  2: { unfold verdict. rewrite E0. done. }
  apply lands_bind, lands_SetState. intros w1 Ec1 Eh1. apply lands_bind, lands_talks; [apply talks_delCookie|].
  intros _ w2 Ec2 Eh2. apply lands_bind, lands_talks; [apply talks_delCookie|]. intros _ w3 Ec3 Eh3.
  eapply lands_weaken; [apply lands_forget|]. cbv zeta. intros _ w4 (F1 & F2 & F3 & F4).
  assert (El : w_heap w3 l = set_srv_State stateFailed (set_srv_FailCount n (w_heap w l)))
    by (by rewrite Eh3, Eh2, Eh1, fn_lookup_insert, E0).
  assert (Ec : w_cluster w3 = w_cluster w) by (by rewrite Ec3, Ec2, Ec1).
  rewrite F1, F2, F3. unfold verdict. rewrite Ec, El in *. split; [done|]. split; [|split; [done|exact F4]].
  cbn [srv_ReplicationsSeen]. change (srv_ReplicationsSeen _) with (srv_ReplicationsSeen (w_heap w l)).
  destruct (_ && _); [|done]. apply srv_delete_urls. intros x. rewrite Eh3, Eh2, Eh1.
  destruct (decide (x = l)) as [->|Hx]; [by rewrite fn_lookup_insert, E0|]. rewrite fn_lookup_insert_ne by done. apply counted_url.
Qed.
End Replica.

(** A server that is not the master and cannot be reached is declared failed
    at the check that brings its count to the limit, exactly, and only when the
    topology is known: it then leaves the list of slaves, with its channels kept
    aside for its return. Below the limit, or without a topology, it is suspect;
    above the limit its state is left as it is. *)
Theorem unreachable_replica_verdict `{Env} `{GoSort} `{GoRange} l w :
  no_connection l -> Conf_CheckType (cl_Conf (w_cluster w)) = "tcp" -> not_master l w ->
  0 <= srv_FailCount (w_heap w l) -> srv_FailCount (w_heap w l) + 1 < two63 ->
  srv_State (w_heap w l) <> stateSlaveErr ->
  exists w', Ping l w = (Ret tt, w') /\ replica_verdict l w w'.
Proof.
  intros Hno Ht Hn Hz Hb Hs. edestruct (lands_run (Ping l) w (fun _ w' => replica_verdict l w w')) as ([] & w' & E & V); [|by exists w'].
  apply lands_Ping; [done|done|]. intros w1 Ec Es.
  assert (Ev : verdict w1 l = verdict w l) by (by apply verdict_same). injection Ev as Ev1 Ev2 Ev3.
  apply lands_bind, lands_count_replica.
  { intros m. rewrite (core_master _ _ Ec). intros Hm.
    rewrite !(same_read srv_URL w w1 _ Es) by done. by apply Hn. }
  eapply lands_weaken; [apply lands_replica; by rewrite Ev2|]. intros u w2 V.
  assert (R : replica_verdict l w w2).
  { unfold replica_verdict, declared, replica_state in *.
    rewrite Ev2, Ev1, Ev3, (core_conf _ _ Ec), (core_topology _ _ _ Ec) in V.
    change (cl_slaves (w_cluster w1)) with (cl_slaves (core w1)) in V.
    change (cl_slavesMade (w_cluster w1)) with (cl_slavesMade (core w1)) in V. rewrite Ec in V.
    rewrite (same_read srv_ReplicationsSeen w w1 l Es), (same_read srv_Replications w w1 l Es) in V by done.
    rewrite (srv_delete_urls (w_heap w1) (w_heap w)) in V; [exact V|]. intros x. by apply (same_read srv_URL). }
  eapply lands_weaken; [apply lands_known|].
  { destruct R as (R & _). injection R as R _ _. unfold state_is. rewrite R. unfold replica_state.
    repeat case_match_goal; try done. by apply String.eqb_neq. }
  intros _ w3 [Ec3 Es3]. destruct R as (V1 & V2 & V3 & V4). unfold replica_verdict.
  rewrite (verdict_same _ _ _ Es3), Ec3, (same_read srv_Replications _ _ _ Es3), (same_read srv_LastSeenReplications _ _ _ Es3) by done.
  done.
Qed.

(** ** The demonstration cluster, out of reach *)

Definition lost_answer {R} (tr : list TraceEvent) (c : Call R) : R :=
  match c in Call R return R -> R with
  | db_Connect _ _ _ => fun _ => Some (OtherErr "connection refused")
  | _ => fun d => d
  end (calm_answer demo_databases tr c).
Definition lost_env : Env := {| answer := @lost_answer; wait_fuel := 3; env_hour_of := fun t => t / 3600 |}.

Lemma lost_no_connection l : no_connection (H := lost_env) l.
Proof. intros tr driver tls. by exists (OtherErr "connection refused"). Qed.

(** [count] failures of the server [l] so far. *)
Definition demo_lost (l : loc) (count : Z) (st : string) : World :=
  mkWorld (set_cl_Conf (set_Conf_CheckType "tcp" demo_conf) (set_cl_slavesMade true demo_cluster))
    (<[l := set_srv_ReplicationsSeen true (set_srv_FailCount count (set_srv_State st (set_srv_PrevState st (demo_heap l))))]> demo_heap) [].

Lemma unreachable_master_fails_witness :
  exists w2, Ping (H := lost_env) 0%nat (snd (Ping (H := lost_env) 0%nat (demo_lost 0%nat 3 stateSuspect))) = (Ret tt, w2) /\
    srv_FailCount (w_heap w2 0%nat) = 5 /\ srv_State (w_heap w2 0%nat) = stateFailed.
Proof.
  destruct (Ping (H := lost_env) 0%nat (demo_lost 0%nat 3 stateSuspect)) as [o w1] eqn:E.
  assert (Eo : o = Ret tt) by (change o with (fst (o, w1)); rewrite <- E; vm_compute; reflexivity).
  rewrite Eo in E. cbn [snd].
  destruct (unreachable_master_fails (H := lost_env) 0%nat 1 (demo_lost 0%nat 3 stateSuspect) w1
              (lost_no_connection _)) as (w2 & E2 & _ & N2 & S2).
  - split; vm_compute; reflexivity.
  - vm_compute; reflexivity.
  - eapply checks_ping; [apply checks_none|exact E].
  - vm_compute. discriminate.
  - vm_compute. reflexivity.
  - exists w2. split; [exact E2|]. split; [rewrite N2; vm_compute; reflexivity|rewrite S2; vm_compute; reflexivity].
Defined.

Lemma unreachable_replica_verdict_witness :
  exists w', Ping (H := lost_env) 2%nat (demo_lost 2%nat 4 stateSuspect) = (Ret tt, w') /\
    srv_State (w_heap w' 2%nat) = stateFailed /\ cl_slaves (w_cluster w') = [1%nat].
Proof.
  destruct (unreachable_replica_verdict (H := lost_env) 2%nat (demo_lost 2%nat 4 stateSuspect)
              (lost_no_connection _)) as (w' & E & V & L & _).
  - vm_compute; reflexivity.
  - intros m Hm. vm_compute in Hm. injection Hm as <-. vm_compute. discriminate.
  - vm_compute. discriminate.
  - vm_compute. reflexivity.
  - vm_compute. discriminate.
  - exists w'. split; [exact E|]. split.
    + injection V as V _ _. rewrite V. vm_compute. reflexivity.
    + rewrite L. vm_compute. reflexivity.
Defined.

(** A replica whose count went past the limit while the topology was not known is
    not declared failed when it becomes known. *)
Example demo_replica_stays_suspect :
  srv_State (w_heap (snd (Ping (H := lost_env) 2%nat (demo_lost 2%nat 7 stateSuspect))) 2%nat) = stateSuspect.
Proof. vm_compute. reflexivity. Qed.

(** ** A standby manager only watches *)

(** What the check of [l] by a standby manager sends: reads, notifications, files
    of the orchestrator, and on [l] itself what closes it or skips an event. *)
Definition watching_call {R} (l : loc) (c : Call R) : bool :=
  quiet_call c ||
  match c with
  | remove_file _ => true
  | db_SetReadOnly x true | db_SetSuperReadOnly x true => bool_decide (x = l)
  | db_StopSlave x _ | db_StartSlave x _ | db_SkipBinlogEvent x _ => bool_decide (x = l)
  | _ => false
  end.
Definition watching (l : loc) (e : TraceEvent) : Prop := match e with Ev c _ => watching_call l c = true end.

#[export] Instance allows_watching l : Allows (watching l).
Proof. intros [R c r] Hq. unfold quiet in Hq. unfold watching, watching_call. by rewrite Hq. Qed.
#[export] Hint Resolve allows_watching : pres.

(** The manager's role and what it takes for masters. *)
Definition stance (w : World) : string * option loc * option loc :=
  (cl_Status (w_cluster w), cl_master (w_cluster w), cl_vmaster (w_cluster w)).

Definition Watches (l : loc) (w w' : World) : Prop :=
  IsActive (w_cluster w) = false ->
  stance w' = stance w /\ exists t, w_trace w' = w_trace w ++ t /\ Forall (watching l) t.

Lemma stance_active w w' : stance w' = stance w -> IsActive (w_cluster w') = IsActive (w_cluster w).
Proof. unfold stance, IsActive. by intros [= -> _ _]. Qed.

#[export] Instance Watches_preorder l : PreOrder (Watches l).
Proof.
  split.
  - intros w _. split; [done|]. exists []. by rewrite app_nil_r.
  - intros x y z A B Hx. destruct (A Hx) as (S1 & t1 & T1 & F1).
    destruct B as (S2 & t2 & T2 & F2); [by rewrite (stance_active _ _ S1)|].
    split; [congruence|]. exists (t1 ++ t2). rewrite T2, T1, app_assoc. split; [done|by apply Forall_app].
Qed.

Section Standby.
Context `{Env} `{GoSort} `{GoRange} (l : loc).

Lemma watches_frame {A} (m : M A) : Pres (Frame (watching l)) m -> Pres (Watches l) m.
Proof.
  intros Hm w _. destruct (Hm w) as [C _ T]. split; [|exact T].
  exact (f_equal (fun v => (cl_Status (fst v), cl_master (fst v), cl_vmaster (fst v))) C).
Qed.
Lemma watches_mod_server x f : Pres (Watches l) (mod_server x f).
Proof. intros w _. split; [done|]. exists []. by rewrite app_nil_r. Qed.
Lemma watches_mod_sm f : Pres (Watches l) (mod_sm f).
Proof. intros w _. split; [done|]. exists []. by rewrite app_nil_r. Qed.
Lemma watches_set_slaves f : Pres (Watches l) (mod_cluster (fun c => set_cl_slaves (f c) c)).
Proof. intros w _. split; [done|]. exists []. by rewrite app_nil_r. Qed.

(** A standby manager is known as such by what reads the cluster. *)
Lemma watches_cluster {A} (f : Cluster -> M A) :
  (forall c, IsActive c = false -> Pres (Watches l) (f c)) -> Pres (Watches l) (c ← get_cluster; f c).
Proof. intros Hf w Hw. by apply (Hf _ Hw). Qed.
End Standby.

#[export] Hint Resolve watches_mod_server watches_mod_sm watches_set_slaves : pres.
#[export] Hint Extern 6 (Pres (Watches _) _) => apply watches_frame; solve [eauto with pres] : pres.

(** Events on the checked server itself. *)
Ltac watch_event :=
  apply frame_event; intros ?; unfold watching, watching_call; cbn [quiet_call orb];
  first [reflexivity|by rewrite bool_decide_eq_true_2].

Section StandbyPing.
Context `{Env} `{GoSort} `{GoRange} (l : loc).

Ltac watch := repeat first
  [ match goal with
    | |- Pres _ (get_cluster ≫= _) => apply watches_cluster; intros ? ?
    | Hc : IsActive ?c = false |- context [IsActive ?c] => rewrite Hc
    end
  | progress rewrite ?andb_false_r
  | pres_step
  | watch_event ].

Lemma watch_SetReadOnly : Pres (Frame (watching l)) (SetReadOnly l).
Proof. unfold SetReadOnly. pres; watch_event. Qed.
Lemma watch_StopSlave : Pres (Frame (watching l)) (StopSlave l).
Proof. unfold StopSlave. pres; watch_event. Qed.
Lemma watch_StartSlave : Pres (Frame (watching l)) (StartSlave l).
Proof. unfold StartSlave. pres; watch_event. Qed.
Lemma watch_delCookie k : Pres (Frame (watching l)) (delCookie l k).
Proof. unfold delCookie. pres; watch_event. Qed.
Lemma watch_proxies : Pres (Frame (watching l)) backendStateChangeProxies.
Proof. unfold backendStateChangeProxies. pres. Qed.
Lemma watch_SendAlert : Pres (Frame (watching l)) (srv_SendAlert l).
Proof. unfold srv_SendAlert, SendAlert, BashScriptAlert. pres. Qed.
Lemma watch_connect : Pres (Frame (watching l)) (ping_connect l).
Proof. unfold ping_connect, GetNewDBConn. pres. Qed.
Hint Resolve watch_SetReadOnly watch_StopSlave watch_StartSlave watch_delCookie watch_proxies
  watch_SendAlert watch_connect : pres.
Lemma watch_failed_slave : Pres (Frame (watching l)) (ProcessFailedSlave l).
Proof. unfold ProcessFailedSlave, SkipReplicationEvent. pres; watch_event. Qed.
Hint Resolve watch_failed_slave : pres.

Lemma watch_virtual : Pres (Watches l) (ping_virtual_master l).
Proof. unfold ping_virtual_master. pres. Qed.
Lemma watch_count : Pres (Watches l) (ping_count l).
Proof.
  unfold ping_count, ping_failed_master, ping_failed_replica, forget_replications. watch.
Qed.
Lemma watch_known : Pres (Watches l) (ping_failure_known l).
Proof. unfold ping_failure_known, SetPrevState. watch. Qed.
Hint Resolve watch_virtual watch_count watch_known : pres.
Lemma watch_failure e : Pres (Watches l) (ping_failure l e).
Proof. unfold ping_failure. watch. Qed.
Lemma watch_unconnected : Pres (Watches l) (set_unconnected l).
Proof. unfold set_unconnected. watch. Qed.
Hint Resolve watch_unconnected : pres.
Lemma watch_no_replication : Pres (Watches l) (ping_no_replication l).
Proof. unfold ping_no_replication, ping_back, back_read_only, ping_standalone. watch. Qed.
Hint Resolve watch_failure watch_no_replication : pres.
Lemma watch_replication : Pres (Watches l) (ping_replication l).
Proof. unfold ping_replication. watch. Qed.
Hint Resolve watch_replication : pres.
Lemma watch_success conn : Pres (Watches l) (ping_success l conn).
Proof.
  unfold ping_success, ping_reconnected, ping_refresh, ping_reset_count, ping_success_known, SetPrevState. watch.
Qed.
Hint Resolve watch_success : pres.
Lemma watch_Ping : Pres (Watches l) (Ping l).
Proof. unfold Ping. watch. Qed.
End StandbyPing.


