(* ===== verification/Restore.v ===== *)
(** * Requests to restore a server (cluster/srv_job.go)

    A server is rebuilt from the backup of the master (reseed) or brought back in time
    (flashback), from a copy of its files (physical) or from a dump (logical). The
    request marks the server, files a job and points the server to the master; a dump is
    loaded by a goroutine, which is a computation of its own here. The programs that load
    it are calls. *)

From Stdlib Require Import ZArith Lia Bool Ascii String.
From stdpp Require Import base list gmap strings functions sorting.
From S2P Require Import Prelude GoLib Version StateMachine Config Server Cluster ServerOps Failover Rejoin Monitoring Jobs.

Local Open Scope string_scope.
Local Open Scope list_scope.
Local Open Scope Z_scope.

(** [stat] tells whether [os.Stat] succeeds, [other_mysql_error] whether an error is one
    of the server with another number than 1617; the rest are settings. *)
Record RestoreEnv := mkRestoreEnv {
  re_stat : string -> bool; re_other_mysql_error : string -> bool;
  re_BackupLogicalType : string; re_CompressBackups : bool; re_MonitorAddress : string
}.

Section Restore.
Context `{Env} `{GoSort} `{GoRange}.
Context (env : RestoreEnv).

(** ** Where the backups are *)

Definition backup_directory (x : loc) : M string :=
  c ← get_cluster;
  s ← load x;
  let dir := Conf_WorkingDir (cl_Conf c) +:+ "/backups/" +:+ cl_Name c +:+ "/" +:+ srv_Host s +:+ "_" +:+ srv_Port s in
  e ← call (stat_missing dir);
  whenM (is_err e) (call (make_dir dir)) ;;
  mret (dir +:+ "/").
Definition GetMyBackupDirectory (l : loc) : M string := backup_directory l.
Definition GetMasterBackupDirectory : M string := c ← get_cluster; ml ← deref (cl_master c); backup_directory ml.

Definition is_logical (backtype : string) : bool :=
  (backtype =? "mysqldump")%string || (backtype =? "mydumper")%string || (backtype =? "dumpling")%string ||
  (backtype =? "script")%string.
Definition DelBackupTypeCookie (x : loc) (backtype : string) : M unit :=
  if is_logical backtype then delCookie x "cookie_logicalbackup" ;; delCookie x ("cookie_backup_" +:+ backtype)
  else if is_physical backtype then delCookie x "cookie_physicalbackup" ;; delCookie x ("cookie_backup_" +:+ backtype)
  else mret tt.

(** A backup of [file]: on the server for backups if its cookie says so, else on [owner].
    A cookie without a file is removed, on [owner] the one of [false_cookie]. *)
Definition find_backup (owner : loc) (backtype false_cookie file : string) : M bool :=
  own ← GetMyBackupDirectory owner;
  c ← get_cluster;
  h ← get_heap;
  use_own ← (match GetBackupServer c h with
             | Some b =>
                 if HasBackupTypeCookie (re_stat env) (Some (h b)) backtype
                 then
                   dir ← GetMyBackupDirectory b;
                   if re_stat env (dir +:+ file) then mret false else DelBackupTypeCookie b backtype ;; mret true
                 else mret true
             | None => mret true
             end);
  if use_own && negb (re_stat env (own +:+ file)) then DelBackupTypeCookie owner false_cookie ;; mret false
  else mret true.

Definition physical_file (backtype : string) : string :=
  backtype +:+ ".xbtream" +:+ (if re_CompressBackups env then ".gz" else "").
Definition logical_file (backtype : string) : string :=
  if (backtype =? "mysqldump")%string then "mysqldump.sql.gz"
  else if (backtype =? "mydumper")%string then "mydumper"
  else if (backtype =? "dumpling")%string then "dumpling"
  else "".

(** ** Steps of a request *)

Definition cluster_settings : J Config := c ← clusterJ; mret (cl_Conf c).
Definition discovered_master : J (option loc + string) :=
  c ← clusterJ;
  if negb (cl_IsDiscovered c) then mret (inr "Cluster not discovered yet") else mret (inl (GetMaster c)).

(** [if server.HasReseedingState(task) { server.SetInReseedBackup("") }] and the error. *)
Definition refuse_restore (l : loc) (task : string) (e : Err) : J Err :=
  s ← serverJ l;
  whenJ (HasReseedingState s task) (SetInReseed l "") ;;
  mret e.
Definition reseeding_by (s : ServerMonitor) : string := "Server is in reseeding state by " +:+ srv_IsReseeding s.

(** The stop is only logged when it fails. The physical flashback names no channel. *)
Definition point_to_master (l : loc) (channel : bool) : M Err :=
  StopSlave l ;;
  c ← get_cluster;
  let conf := cl_Conf c in
  ml ← deref (cl_master c);
  m ← load ml;
  let opt := set_cm_Mode "SLAVE_POS" (master_opt conf m) in
  exec l (db_ChangeMaster l (if channel then set_cm_Channel (Conf_MasterConn conf) opt else opt)).

(** A point-in-time recovery starts from a server that replicates from nobody. *)
Definition detach_for_pitr (l : loc) : M Err :=
  StopSlave l ;;
  e ← ResetSlave l;
  match e with
  | Some msg => if re_other_mysql_error env msg then mret e else srv_SetState l stateUnconn ;; mret None
  | None => srv_SetState l stateUnconn ;; mret None
  end.

Definition incompatible (l : loc) (backtype : string) : M bool :=
  s ← load l;
  if srv_IsMariaDB s
  then
    v ← deref (srv_DBVersion s);
    ge ← deref (GreaterEqual v "10.1");
    mret ((ge : bool) && (backtype =? "xtrabackup")%string)
  else mret false.

(** ** Physical backups *)

Definition reseed_physical (l : loc) (backtype task : string) : J Err :=
  SetInReseed l task ;;
  pitr ← getJ j_IsInPITR;
  e ← (if (pitr : bool) then lift (detach_for_pitr l) else mret None);
  if is_err e then refuse_restore l task e
  else
    whenJ pitr (lift (mod_cluster (fun c => set_cl_Conf (set_Conf_BackupPhysicalType backtype (cl_Conf c)) c))) ;;
    port ← getJ j_SSTPort;
    r ← JobInsertTask l task port (re_MonitorAddress env);
    if is_err (snd r) then refuse_restore l task (snd r)
    else if (pitr : bool) then mret None
    else lift (point_to_master l true).

Definition JobReseedPhysicalBackup (l : loc) (backtype : string) : J Err :=
  conf ← cluster_settings;
  let backtype := if (backtype =? "default")%string then Conf_BackupPhysicalType conf else backtype in
  bad ← lift (incompatible l backtype);
  if (bad : bool) then mret (Some "Node MariaDB version is greater than 10.1 and not compatible with xtrabackup.")
  else
    dm ← discovered_master;
    match dm with
    | inr e => mret (Some e)
    | inl None => mret (Some "No master found. Cancel reseed physical backup")
    | inl (Some master) =>
        found ← lift (find_backup master backtype backtype (physical_file backtype));
        if negb found then mret (Some "Cancelling reseed. No backup file found on master")
        else
          lift (delCookie l "cookie_waitphysicalbackup") ;;
          s ← serverJ l;
          if HasAnyReseedingState s then mret (Some (reseeding_by s))
          else reseed_physical l backtype ("reseed" +:+ backtype)
    end.

Definition flashback_physical (l : loc) (task : string) : J Err :=
  SetInReseed l task ;;
  port ← getJ j_SSTPort;
  r ← JobInsertTask l task port (re_MonitorAddress env);
  if is_err (snd r) then refuse_restore l task (snd r)
  else
    e ← lift (point_to_master l false);
    if is_err e then refuse_restore l task e else mret None.

Definition JobFlashbackPhysicalBackup (l : loc) : J Err :=
  dm ← discovered_master;
  match dm with
  | inr e => mret (Some e)
  | inl None => mret (Some "No master found. Cancel flashback physical backup")
  | inl (Some _) =>
      conf ← cluster_settings;
      let backtype := Conf_BackupPhysicalType conf in
      found ← lift (find_backup l backtype backtype (physical_file backtype));
      if negb found then mret (Some "Cancelling flashback. No backup file found on master")
      else
        lift (delCookie l "cookie_waitphysicalbackup") ;;
        s ← serverJ l;
        if HasAnyReseedingState s then mret (Some (reseeding_by s))
        else flashback_physical l ("flashback" +:+ backtype)
  end.

(** ** Logical backups *)

Definition start_restore (l : loc) (program : string) : J unit := lift (call (start_job program None l)).

Definition reseed_logical (l : loc) (backtype task : string) : J Err :=
  SetInReseed l task ;;
  lift (delCookie l "cookie_waitlogicalbackup") ;;
  pitr ← getJ j_IsInPITR;
  e ← (if (pitr : bool) then lift (detach_for_pitr l) else mret None);
  if is_err e then refuse_restore l task e
  else
    r ← JobInsertTask l task "0" (re_MonitorAddress env);
    if is_err (snd r) then refuse_restore l task (snd r)
    else
      e ← (if (pitr : bool) then mret None else lift (point_to_master l true));
      if is_err e then refuse_restore l task e
      else
        JobsUpdateState l task "processing" 1 0 ;;
        (if (backtype =? "mysqldump")%string then start_restore l "JobReseedMysqldump"
         else if (backtype =? "mydumper")%string then start_restore l "JobReseedMyLoader"
         else mret tt) ;;
        mret None.

Definition JobReseedLogicalBackup (l : loc) (backtype : string) : J Err :=
  let backtype := if (backtype =? "default")%string then re_BackupLogicalType env else backtype in
  dm ← discovered_master;
  match dm with
  | inr e => mret (Some e)
  | inl None => mret (Some "No master found")
  | inl (Some master) =>
      path ← lift GetMysqlclientPath;
      e ← lift (call (stat_missing path));
      if is_err e then mret e
      else
        c ← clusterJ;
        if (backtype =? "mydumper")%string && negb (bool_decide (is_Some (cl_VersionsMap c !! "mydumper")))
        then mret (Some "No mydumper version found")
        else
          found ← (if (backtype =? "script")%string then mret true
                   else lift (find_backup master backtype backtype (logical_file backtype)));
          if negb found then mret (Some "No backup file found on master")
          else
            s ← serverJ l;
            if HasAnyReseedingState s then mret (Some (reseeding_by s))
            else reseed_logical l backtype ("reseed" +:+ backtype)
  end.

Definition flashback_logical (l : loc) (backtype task : string) : J Err :=
  SetInReseed l task ;;
  port ← getJ j_SSTPort;
  r ← JobInsertTask l task port (re_MonitorAddress env);
  if is_err (snd r) then refuse_restore l task (snd r)
  else
    e ← lift (point_to_master l true);
    if is_err e then refuse_restore l task e
    else
      conf ← cluster_settings;
      (if negb (Conf_BackupLoadScript conf =? "")%string then start_restore l "JobReseedBackupScript"
       else if (backtype =? "mysqldump")%string then start_restore l "JobReseedMysqldump"
       else if (backtype =? "mydumper")%string then start_restore l "JobReseedMyLoader"
       else mret tt) ;;
      mret None.

(** A missing dump removes the cookie of the physical backup. *)
Definition JobFlashbackLogicalBackup (l : loc) : J Err :=
  let backtype := re_BackupLogicalType env in
  dm ← discovered_master;
  match dm with
  | inr e => mret (Some e)
  | inl None => mret (Some "No master found. Cancel reseed logical backup")
  | inl (Some master) =>
      conf ← cluster_settings;
      found ← (if (backtype =? "script")%string then mret true
               else lift (find_backup master backtype (Conf_BackupPhysicalType conf) (logical_file backtype)));
      if negb found then mret (Some "Cancelling reseed. No backup file found on master")
      else
        s ← serverJ l;
        if HasAnyReseedingState s then mret (Some (reseeding_by s))
        else flashback_logical l backtype ("flashback" +:+ backtype)
  end.

(** ** The goroutines *)

(** The file of the server for backups is looked for there and taken from the directory of the master. *)
Definition restore_file (owner : loc) (backtype : string) : M string :=
  let file := logical_file backtype in
  own ← GetMyBackupDirectory owner;
  c ← get_cluster;
  h ← get_heap;
  let missing := (if re_stat env (own +:+ file) then mret tt else DelBackupTypeCookie owner backtype) ;; mret (own +:+ file) in
  match GetBackupServer c h with
  | Some b =>
      if HasBackupTypeCookie (re_stat env) (Some (h b)) backtype
      then
        dir ← GetMyBackupDirectory b;
        if re_stat env (dir +:+ file) then m ← GetMasterBackupDirectory; mret (m +:+ file)
        else DelBackupTypeCookie b backtype ;; missing
      else missing
  | None => missing
  end.

(** [JobReseedMysqldump], [JobReseedMyLoader]: the mark is released when they return. *)
Definition restore_program (l : loc) (program : string) : J Err :=
  deferJ (lift (call (run_job program l))) (SetInReseed l "").

(** The body of a goroutine: [owner] is the master for a reseed, the server for a flashback. *)
Definition restore_logical (l owner : loc) (backtype program task completed : string) : J unit :=
  lift (restore_file owner backtype) ;;
  e ← restore_program l program;
  match e with
  | Some msg => JobsUpdateState l task msg JobStateErrorExec 1 ;; mret tt
  | None => JobsUpdateState l task completed JobStateFinished 1 ;; mret tt
  end.

(** ** Other jobs *)

Definition JobServerStop (l : loc) : J (Z * Err) := port ← getJ j_SSTPort; JobInsertTask l "stop" port (re_MonitorAddress env).
Definition JobServerRestart (l : loc) : J (Z * Err) := port ← getJ j_SSTPort; JobInsertTask l "restart" port (re_MonitorAddress env).
Definition JobOptimize (l : loc) : J (Z * Err) :=
  s ← serverJ l; if IsDown s then mret (0, None) else JobInsertTask l "optimize" "0" (re_MonitorAddress env).
Definition JobZFSSnapBack (l : loc) : J (Z * Err) :=
  s ← serverJ l; if IsDown s then mret (0, None) else JobInsertTask l "zfssnapback" "0" (re_MonitorAddress env).
End Restore.
