(* ===== verification/RestoreProps.v ===== *)
(** * Restores exclude each other

    The mark of a server says which restore it is in. A request is refused while another
    one runs, a refused request leaves the mark as it was - save one -, and a restore
    from a dump releases it. *)

From Stdlib Require Import ZArith Lia Bool Ascii String.
From stdpp Require Import base list gmap strings functions sorting relations.
From S2P Require Import Prelude GoLib Version StateMachine Config Server Cluster Demo ServerOps Failover Rejoin Lands Monitoring Jobs JobsProps JobsChecks JobsDemo Restore.

Local Open Scope string_scope.
Local Open Scope list_scope.
Local Open Scope Z_scope.

(** ** What leaves the mark alone *)

Definition world_mark (l : loc) (x : World) : string := srv_IsReseeding (w_heap x l).
Definition mark (l : loc) (w : JobsWorld) : string := world_mark l (j_world w).
Definition mark_keeps (l : loc) (w w' : JobsWorld) : Prop := mark l w' = mark l w.
#[export] Instance mark_keeps_preorder l : PreOrder (mark_keeps l).
Proof. unfold mark_keeps. split; [done|intros w1 w2 w3; congruence]. Qed.

Section Mark.
Context `{Env} `{GoSort} `{GoRange}.
Context (env : RestoreEnv) (l : loc).

Lemma mark_lift {A} (m : M A) : Pres (keeps (world_mark l)) m -> PresJ (mark_keeps l) (lift m).
Proof. intros Hm w. specialize (Hm (j_world w)). unfold lift. by destruct (m (j_world w)). Qed.
Lemma mark_statement {R} (sem : Stmt R) : PresJ (mark_keeps l) (statement sem).
Proof.
  intros w. unfold statement. cbn [j_db set_j_faults].
  by destruct (default Fine (head (j_faults w))); destruct (sem (j_db w)) as [[r db]|].
Qed.
Lemma mark_loadOrStore task t : PresJ (mark_keeps l) (loadOrStore task t).
Proof. apply jobs_keep_loadOrStore; [apply _|]. by intros m w. Qed.

(** A field of a server other than the mark. *)
Lemma mark_mod_server x f : (forall s, srv_IsReseeding (f s) = srv_IsReseeding s) -> Pres (keeps (world_mark l)) (mod_server x f).
Proof.
  intros Hf w. unfold mod_server, keeps, world_mark. cbn [snd w_heap]. destruct (decide (x = l)) as [->|Hne].
  - by rewrite fn_lookup_insert.
  - by rewrite fn_lookup_insert_ne.
Qed.
Lemma mark_mod_cluster f : Pres (keeps (world_mark l)) (mod_cluster f).
Proof. by intros w. Qed.
Lemma mark_call {R} (c : Call R) : Pres (keeps (world_mark l)) (call c).
Proof. by intros w. Qed.
Hint Resolve mark_mod_cluster mark_call : pres.
Lemma mark_SetState key s : Pres (keeps (world_mark l)) (SetState key s).
Proof. unfold SetState, mod_sm. pres. Qed.
Lemma mark_srv_SetState x st : Pres (keeps (world_mark l)) (srv_SetState x st).
Proof. unfold srv_SetState, BashScriptDbServersChangeState. pres. by apply mark_mod_server. Qed.
Lemma mark_StopSlave x : Pres (keeps (world_mark l)) (StopSlave x).
Proof. unfold StopSlave. pres. Qed.
Lemma mark_StartSlave x : Pres (keeps (world_mark l)) (StartSlave x).
Proof. unfold StartSlave. pres. Qed.
Lemma mark_delCookie x k : Pres (keeps (world_mark l)) (delCookie x k).
Proof. unfold delCookie. pres. Qed.
Hint Resolve mark_SetState mark_srv_SetState mark_StopSlave mark_StartSlave mark_delCookie : pres.
Lemma mark_super x : Pres (keeps (world_mark l)) (super_read_only x).
Proof. unfold super_read_only. pres. Qed.
Lemma mark_DelBackupTypeCookie x ty : Pres (keeps (world_mark l)) (DelBackupTypeCookie x ty).
Proof. unfold DelBackupTypeCookie. pres. Qed.
Lemma mark_backup_directory x : Pres (keeps (world_mark l)) (backup_directory x).
Proof. unfold backup_directory. pres. Qed.
Hint Resolve mark_super mark_DelBackupTypeCookie mark_backup_directory : pres.
Lemma mark_find_backup x ty fty file : Pres (keeps (world_mark l)) (find_backup env x ty fty file).
Proof. unfold find_backup, GetMyBackupDirectory. pres. Qed.
Lemma mark_point_to_master x ch : Pres (keeps (world_mark l)) (point_to_master x ch).
Proof. unfold point_to_master. pres. Qed.
Lemma mark_detach x : Pres (keeps (world_mark l)) (detach_for_pitr env x).
Proof. unfold detach_for_pitr, ResetSlave. pres. Qed.
Lemma mark_incompatible x ty : Pres (keeps (world_mark l)) (incompatible x ty).
Proof. unfold incompatible. pres. Qed.
Lemma mark_client_path : Pres (keeps (world_mark l)) GetMysqlclientPath.
Proof. unfold GetMysqlclientPath, tool_path. pres. Qed.
Lemma mark_restore_file x ty : Pres (keeps (world_mark l)) (restore_file env x ty).
Proof. unfold restore_file, GetMyBackupDirectory, GetMasterBackupDirectory. pres. Qed.
End Mark.
#[export] Hint Resolve mark_mod_cluster mark_call mark_SetState mark_srv_SetState mark_StopSlave mark_StartSlave mark_delCookie
  mark_super mark_find_backup mark_point_to_master mark_detach mark_incompatible mark_client_path mark_restore_file : pres.
#[export] Hint Resolve mark_statement mark_loadOrStore : keep.
#[export] Hint Extern 1 (PresJ (mark_keeps _) (lift _)) => apply mark_lift; solve [pres] : keep.

Section MarkJobs.
Context `{Env} `{GoSort} `{GoRange}.
Context (l : loc).

Lemma mark_warn x : PresJ (mark_keeps l) (warn_super_read_only x).
Proof. unfold warn_super_read_only, serverJ. keep. Qed.
Hint Resolve mark_warn : keep.
Lemma mark_CreateTable x : PresJ (mark_keeps l) (JobsCreateTable x).
Proof. unfold JobsCreateTable, GetConnNoBinlog, clusterJ, serverJ. keep. Qed.
Hint Resolve mark_CreateTable : keep.
Lemma mark_InsertTask x task port host : PresJ (mark_keeps l) (JobInsertTask x task port host).
Proof.
  unfold JobInsertTask, put_task, insert_row, clusterJ, serverJ, GetConnNoBinlog, storeTask, SetNeedRefreshJobs. keep.
Qed.
Lemma mark_UpdateState x task result state done : PresJ (mark_keeps l) (JobsUpdateState x task result state done).
Proof. unfold JobsUpdateState, clusterJ, serverJ, GetConnNoBinlog, storeTask, SetNeedRefreshJobs. keep. Qed.
End MarkJobs.
#[export] Hint Resolve mark_warn mark_CreateTable mark_InsertTask mark_UpdateState : keep.

(** ** The four requests *)

Inductive Restoring := ReseedPhysical (backtype : string) | FlashbackPhysical | ReseedLogical (backtype : string) | FlashbackLogical.

Section Requests.
Context `{Env} `{GoSort} `{GoRange}.
Context (env : RestoreEnv) (l : loc).

Definition request (r : Restoring) : J Err :=
  match r with
  | ReseedPhysical backtype => JobReseedPhysicalBackup env l backtype
  | FlashbackPhysical => JobFlashbackPhysicalBackup env l
  | ReseedLogical backtype => JobReseedLogicalBackup env l backtype
  | FlashbackLogical => JobFlashbackLogicalBackup env l
  end.
(** The task a request files. *)
Definition task_name (r : Restoring) (conf : Config) : string :=
  match r with
  | ReseedPhysical backtype => "reseed" +:+ (if (backtype =? "default")%string then Conf_BackupPhysicalType conf else backtype)
  | FlashbackPhysical => "flashback" +:+ Conf_BackupPhysicalType conf
  | ReseedLogical backtype => "reseed" +:+ (if (backtype =? "default")%string then re_BackupLogicalType env else backtype)
  | FlashbackLogical => "flashback" +:+ re_BackupLogicalType env
  end.

Let any (w : JobsWorld) : Prop := True.

Lemma ends_kept {A} (m : J A) w (Q : A -> JobsWorld -> Prop) :
  PresJ (mark_keeps l) m -> (forall a w', mark l w' = mark l w -> Q a w') -> ends m w (post any Q).
Proof.
  intros Hm HQ. specialize (Hm w). unfold ends. destruct (m w) as [[a| |] w']; simpl; [|done|done]. by apply HQ.
Qed.
Lemma ends_SetInReseed m w (Q : unit -> JobsWorld -> Prop) :
  (forall w', mark l w' = m -> Q tt w') -> ends (SetInReseed l m) w (post any Q).
Proof.
  intros HQ. unfold ends, SetInReseed, lift, mod_server. simpl. apply HQ. unfold mark, world_mark. cbn [j_world set_j_world w_heap].
  by rewrite fn_lookup_insert.
Qed.
Lemma ends_give_up task e w (Q : Err -> JobsWorld -> Prop) :
  mark l w = task -> (forall w', mark l w' = "" -> Q e w') -> ends (refuse_restore l task e) w (post any Q).
Proof.
  intros Hm HQ. unfold refuse_restore, serverJ. apply ends_bind, ends_read. unfold HasReseedingState.
  replace (srv_IsReseeding _) with task by done. rewrite String.eqb_refl. simpl.
  apply ends_bind, ends_SetInReseed. intros w' K. apply ends_ret. by apply HQ.
Qed.

(** The outcome of an accepted request: [kept] tells whether an error may keep the mark. *)
Definition outcome_of (task : string) (kept : bool) (e : Err) (w : JobsWorld) : Prop :=
  match e with
  | None => mark l w = task
  | Some _ => mark l w = "" \/ (kept = true /\ mark l w = task)
  end.

Lemma ends_flashback_physical task w :
  ends (flashback_physical env l task) w (post any (outcome_of task false)).
Proof.
  unfold flashback_physical. apply ends_bind, ends_SetInReseed. intros w1 K1. apply ends_bind, ends_getJ.
  apply ends_bind, ends_kept; [keep|]. intros r w2 K2. destruct (snd r) as [e|]; simpl.
  { apply ends_give_up; [congruence|]. intros w3 K3. by left. }
  apply ends_bind, ends_kept; [keep|]. intros [e|] w3 K3; simpl.
  - apply ends_give_up; [congruence|]. intros w4 K4. by left.
  - apply ends_ret. unfold outcome_of. congruence.
Qed.

Lemma ends_detach (b : bool) w (Q : Err -> JobsWorld -> Prop) :
  (forall e w', mark l w' = mark l w -> Q e w') ->
  ends (if b then lift (detach_for_pitr env l) else mret None) w (post any Q).
Proof. intros HQ. apply ends_kept; [destruct b; keep|done]. Qed.

Lemma ends_reseed_physical backtype task w :
  ends (reseed_physical env l backtype task) w (post any (outcome_of task (negb (j_IsInPITR w)))).
Proof.
  unfold reseed_physical. apply ends_bind.
  eapply ends_weaken with (Q := fun _ w' => mark l w' = task /\ j_IsInPITR w' = j_IsInPITR w).
  { unfold ends, SetInReseed, lift, mod_server. cbn. split; [|done]. unfold mark, world_mark. cbn [j_world set_j_world w_heap].
    by rewrite fn_lookup_insert. }
  intros [] w1 [K1 P1]. apply ends_bind, ends_getJ. rewrite P1. apply ends_bind, ends_detach.
  intros [e|] w2 K2; simpl; [apply ends_give_up; [congruence|]; by left|].
  apply ends_bind, ends_kept; [keep|]. intros [] w3 K3. apply ends_bind, ends_getJ.
  apply ends_bind, ends_kept; [keep|]. intros r w4 K4. destruct (snd r) as [e|]; simpl.
  { apply ends_give_up; [congruence|]. by left. }
  destruct (j_IsInPITR w); simpl; [apply ends_ret; unfold outcome_of; congruence|].
  apply ends_kept; [keep|]. intros [e|] w5 K5; unfold outcome_of; [right; split; [done|]|]; congruence.
Qed.

Lemma mark_start program : PresJ (mark_keeps l) (start_restore l program).
Proof. unfold start_restore. keep. Qed.
Hint Resolve mark_start : keep.

Lemma ends_reseed_logical backtype task w :
  ends (reseed_logical env l backtype task) w (post any (outcome_of task false)).
Proof.
  unfold reseed_logical. apply ends_bind, ends_SetInReseed. intros w1 K1. apply ends_bind, ends_kept; [keep|]. intros [] w2 K2.
  apply ends_bind, ends_getJ. apply ends_bind, ends_detach.
  intros [e|] w3 K3; simpl; [apply ends_give_up; [congruence|]; by left|].
  apply ends_bind, ends_kept; [keep|]. intros r w4 K4. destruct (snd r) as [e|]; simpl.
  { apply ends_give_up; [congruence|]. by left. }
  apply ends_bind, ends_kept; [destruct (j_IsInPITR w2); keep|]. intros [e|] w5 K5; simpl; [apply ends_give_up; [congruence|]; by left|].
  apply ends_bind, ends_kept; [keep|]. intros e w6 K6. apply ends_bind, ends_kept; [keep|]. intros [] w7 K7.
  apply ends_ret. unfold outcome_of. congruence.
Qed.

Lemma ends_flashback_logical backtype task w :
  ends (flashback_logical env l backtype task) w (post any (outcome_of task false)).
Proof.
  unfold flashback_logical. apply ends_bind, ends_SetInReseed. intros w1 K1. apply ends_bind, ends_getJ.
  apply ends_bind, ends_kept; [keep|]. intros r w2 K2. destruct (snd r) as [e|]; simpl.
  { apply ends_give_up; [congruence|]. by left. }
  apply ends_bind, ends_kept; [keep|]. intros [e|] w3 K3; simpl; [apply ends_give_up; [congruence|]; by left|].
  unfold cluster_settings, clusterJ. apply ends_bind, ends_bind, ends_read, ends_ret.
  apply ends_bind, ends_kept; [keep|]. intros [] w4 K4. apply ends_ret. unfold outcome_of. congruence.
Qed.

(** The outcome of a request made when the mark is [m]. *)
Definition request_outcome (r : Restoring) (m task : string) (e : Err) (w' : JobsWorld) : Prop :=
  match e with
  | None => m = "" /\ mark l w' = task
  | Some _ => mark l w' = m \/ (m = "" /\ (exists backtype, r = ReseedPhysical backtype) /\ mark l w' = task)
  end.

(** While another restore runs the table is not touched. *)
Definition untouched (m : string) (d : JobsDb) (w' : JobsWorld) : Prop := m <> "" -> j_db w' = d.
Definition requested (r : Restoring) (m : string) (d : JobsDb) (task : string) : outcome Err -> JobsWorld -> Prop :=
  post (untouched m d) (fun e w' => request_outcome r m task e w' /\ untouched m d w').

(** Before the last test nothing but the manager's world changes. *)
Definition before (m : string) (d : JobsDb) (w : JobsWorld) : Prop := mark l w = m /\ j_db w = d.
Lemma refused r m d task e w' : before m d w' -> ends (mret (Some e) : J Err) w' (requested r m d task).
Proof. intros [Hm Hd]. apply ends_ret. split; [by left|by intros _]. Qed.
Lemma ends_quiet {A} m d (c : M A) w (Q : A -> JobsWorld -> Prop) :
  Pres (keeps (world_mark l)) c -> before m d w -> (forall a w', before m d w' -> Q a w') ->
  ends (lift c) w (post (untouched m d) Q).
Proof.
  intros Hc [Hm Hd] HQ. specialize (Hc (j_world w)). unfold ends, lift. destruct (c (j_world w)) as [[a| |] x]; simpl in *.
  - apply HQ. split; [|done]. unfold mark. cbn. by rewrite <- Hm.
  - by intros _.
  - by intros _.
Qed.
(** The last test and the accepted request. *)
Lemma ends_exclusive r m d task kept (body : J Err) w :
  before m d w -> (kept = true -> exists backtype, r = ReseedPhysical backtype) ->
  (forall w, ends body w (post any (outcome_of task kept))) ->
  ends (s ← serverJ l; if HasAnyReseedingState s then mret (Some (reseeding_by s)) else body) w (requested r m d task).
Proof.
  intros Hw Hk Hb. unfold serverJ. apply ends_bind, ends_read. unfold HasAnyReseedingState.
  change (srv_IsReseeding _) with (mark l w) at 1. rewrite (proj1 Hw).
  destruct (String.eqb_spec m "") as [->|Hne]; cbn [negb]; [|by apply refused].
  specialize (Hb w). unfold ends, requested, untouched, post in *. destruct (body w) as [[e| |] w']; simpl in *; [|done|done].
  split; [|done]. destruct e as [e|]; unfold outcome_of, request_outcome in *; [|done].
  destruct Hb as [Ho|[Hk' Ho]]; [by left|right]. auto.
Qed.
Lemma ends_master r m d task w (f : option loc -> J Err) :
  before m d w -> (forall x, ends (f x) w (requested r m d task)) ->
  ends (dm ← discovered_master; match dm with inr e => mret (Some e) | inl x => f x end) w (requested r m d task).
Proof.
  intros Hm Hf. unfold discovered_master, clusterJ. apply ends_bind, ends_bind, ends_read.
  destruct (negb _); apply ends_ret; [by apply refused|apply Hf].
Qed.
Lemma ends_settings w (f : Config -> J Err) Q X :
  ends (f (cl_Conf (w_cluster (j_world w)))) w (post X Q) -> ends (cluster_settings ≫= f) w (post X Q).
Proof. intros Hf. unfold cluster_settings, clusterJ. by apply ends_bind, ends_bind, ends_read, ends_ret. Qed.

Ltac master := apply (ends_master _ _ _ _ _ (fun x => match x with None => _ | Some master => _ end)); [done|];
  intros [x|]; [|by apply refused].
Ltac quiet := apply ends_bind; eapply ends_quiet; [solve [pres]|done|].

Lemma reseed_physical_requested backtype w :
  ends (JobReseedPhysicalBackup env l backtype) w (requested (ReseedPhysical backtype) (mark l w) (j_db w)
    (task_name (ReseedPhysical backtype) (cl_Conf (w_cluster (j_world w))))).
Proof.
  assert (Hw : before (mark l w) (j_db w) w) by done. revert Hw. generalize (mark l w) (j_db w). intros m d Hw.
  unfold JobReseedPhysicalBackup, task_name. apply ends_settings. quiet. intros [] w1 K1; [by apply refused|]. master.
  quiet. intros [] w2 K2; [|by apply refused]. quiet. intros [] w3 K3.
  apply (ends_exclusive _ _ _ _ true); [done|by exists backtype|].
  intros w4. eapply ends_weaken; [apply ends_reseed_physical|]. intros [e|] w5; [|done]. intros [Ho|[_ Ho]]; [by left|by right].
Qed.
Lemma flashback_physical_requested w :
  ends (JobFlashbackPhysicalBackup env l) w (requested FlashbackPhysical (mark l w) (j_db w)
    (task_name FlashbackPhysical (cl_Conf (w_cluster (j_world w))))).
Proof.
  assert (Hw : before (mark l w) (j_db w) w) by done. revert Hw. generalize (mark l w) (j_db w). intros m d Hw.
  unfold JobFlashbackPhysicalBackup, task_name. master. apply ends_settings. quiet. intros [] w1 K1; [|by apply refused].
  quiet. intros [] w2 K2. apply (ends_exclusive _ _ _ _ false); [done|done|apply ends_flashback_physical].
Qed.
Lemma reseed_logical_requested backtype w :
  ends (JobReseedLogicalBackup env l backtype) w (requested (ReseedLogical backtype) (mark l w) (j_db w)
    (task_name (ReseedLogical backtype) (cl_Conf (w_cluster (j_world w))))).
Proof.
  assert (Hw : before (mark l w) (j_db w) w) by done. revert Hw. generalize (mark l w) (j_db w). intros m d Hw.
  unfold JobReseedLogicalBackup, task_name. cbv zeta. set (ty := if (backtype =? "default")%string then _ else _). master. quiet. intros path w1 K1. quiet.
  intros [e|] w2 K2; [by apply refused|]. unfold clusterJ. apply ends_bind, ends_read. destruct (_ && _); [by apply refused|].
  assert (Found : forall f : bool -> J Err, (forall b w', before m d w' -> ends (f b) w' (requested (ReseedLogical backtype) m d ("reseed" +:+ ty))) ->
    ends (found ← (if (ty =? "script")%string then mret true else lift (find_backup env x ty ty (logical_file ty))); f found) w2
      (requested (ReseedLogical backtype) m d ("reseed" +:+ ty))).
  { intros f Hf. apply ends_bind. destruct (ty =? "script")%string; [by apply ends_ret, Hf|]. eapply ends_quiet; [pres|done|done]. }
  apply Found. intros [] w3 K3; [|by apply refused].
  apply (ends_exclusive _ _ _ _ false); [done|done|apply ends_reseed_logical].
Qed.
Lemma flashback_logical_requested w :
  ends (JobFlashbackLogicalBackup env l) w (requested FlashbackLogical (mark l w) (j_db w)
    (task_name FlashbackLogical (cl_Conf (w_cluster (j_world w))))).
Proof.
  assert (Hw : before (mark l w) (j_db w) w) by done. revert Hw. generalize (mark l w) (j_db w). intros m d Hw.
  unfold JobFlashbackLogicalBackup, task_name. cbv zeta. master. apply ends_settings. set (ty := re_BackupLogicalType env).
  apply ends_bind. eapply ends_weaken with (Q := fun _ w' => before m d w').
  { destruct (ty =? "script")%string; [by apply ends_ret|]. eapply ends_quiet; [pres|done|done]. }
  intros [] w1 K1; [|by apply refused].
  apply (ends_exclusive _ _ _ _ false); [done|done|apply ends_flashback_logical].
Qed.
End Requests.

(** C10: A server is in one restore at a time. While it is marked, every request to restore it is refused,
    the mark stays and the table of the jobs is not touched. An accepted request leaves
    its own task as the mark; a refused one leaves the mark as it was, except a physical
    reseed that could not point the server to the master. *)
Theorem one_restore_at_a_time `{Env} `{GoSort} `{GoRange} env l r w :
  let run := request env l r w in
  let task := task_name env r (cl_Conf (w_cluster (j_world w))) in
  (fst run = Ret None -> mark l w = "" /\ mark l (snd run) = task) /\
  (forall e, fst run = Ret (Some e) -> mark l (snd run) = mark l w \/
     (mark l w = "" /\ (exists backtype, r = ReseedPhysical backtype) /\ mark l (snd run) = task)) /\
  (mark l w <> "" -> j_db (snd run) = j_db w).
Proof.
  intros run task. assert (G : ends (request env l r) w (requested l r (mark l w) (j_db w) task)).
  { destruct r; [apply reseed_physical_requested|apply flashback_physical_requested|apply reseed_logical_requested|apply flashback_logical_requested]. }
  unfold ends in G. fold run in G. unfold requested, post, request_outcome, untouched in G.
  destruct (fst run) as [[e|]| |]; simpl in G; (split; [try done|split; [try done|tauto]]).
  - intros e' [= <-]. tauto.
  - tauto.
Qed.

(** ** Restores of a small server

    [db2] has lost its master; the backups of [db3], the new one, are on its disk. *)

Definition restore_env (logical : string) : RestoreEnv := mkRestoreEnv (fun _ => true) (fun _ => true) logical true "repman".
Definition discovered (m : string) : World :=
  let c := set_cl_master (Some 2%nat) demo_cluster in
  mkWorld (set_cl_StateMachine (set_Discovered true (cl_StateMachine c)) c) (w_heap (reseeding m)) [].
Definition restore_world (m : string) (rows : list JobRow) : JobsWorld :=
  set_j_world (discovered m) (jobs_world m [] ∅ rows).

Lemma one_restore_at_a_time_witness :
  let w := restore_world "reseedmysqldump" [] in
  mark 1%nat w = "reseedmysqldump" /\
  j_db (snd (request (restore_env "mysqldump") 1%nat (ReseedLogical "mysqldump") w)) = j_db w.
Proof.
  split; [reflexivity|].
  apply (one_restore_at_a_time (restore_env "mysqldump") 1%nat (ReseedLogical "mysqldump") (restore_world "reseedmysqldump" [])).
  discriminate.
Defined.

(** A dump is asked for, loaded, and settled by the next round. *)
Example demo_reseed_dump :
  let env := restore_env "mysqldump" in
  let run := JobReseedLogicalBackup env 1%nat "default" (restore_world "" []) in
  fst run = Ret None /\ mark 1%nat (snd run) = "reseedmysqldump" /\ (r_state <$> rows_of (snd run)) = [1] /\
  let loaded := snd (restore_logical env 1%nat 2%nat "mysqldump" "JobReseedMysqldump" "reseedmysqldump" "Reseed completed" (snd run)) in
  mark 1%nat loaded = "" /\ (r_state <$> rows_of loaded) = [3] /\
  (r_state <$> rows_of (snd (JobsCheckStates 1%nat loaded))) = [4].
Proof. vm_compute. done. Qed.

(** Nothing loads a reseed by script: the mark and the job stay as they are. *)
Example demo_reseed_script :
  let run := JobReseedLogicalBackup (restore_env "script") 1%nat "script" (restore_world "" []) in
  fst run = Ret None /\ mark 1%nat (snd run) = "reseedscript" /\
  let later := snd (JobsCheckStates 1%nat (set_j_now 100000 (snd run))) in
  mark 1%nat later = "reseedscript" /\ (r_state <$> rows_of later) = [1].
Proof. vm_compute. done. Qed.

(** A physical reseed that cannot point the server to the master keeps the mark with its error. *)
Definition no_change_env : Env :=
  {| answer := fun R h c =>
       match c in Call R return R with
       | db_ChangeMaster _ _ => Some "Access denied"
       | c => calm_answer demo_databases h c
       end;
     wait_fuel := 3; env_hour_of := fun t => t / 3600 |}.
Example demo_reseed_keeps_mark :
  let run := @JobReseedPhysicalBackup no_change_env (restore_env "mysqldump") 1%nat "mariabackup" (restore_world "" []) in
  fst run = Ret (Some "Access denied") /\ mark 1%nat (snd run) = "reseedmariabackup" /\
  let other := @JobFlashbackPhysicalBackup no_change_env (restore_env "mysqldump") 1%nat
    (set_j_world (let x := discovered "" in mkWorld (set_cl_Conf (set_Conf_BackupPhysicalType "mariabackup" demo_conf) (w_cluster x)) (w_heap x) [])
       (restore_world "" [])) in
  fst other = Ret (Some "Access denied") /\ mark 1%nat (snd other) = "".
Proof. vm_compute. done. Qed.

(** The cookie that is removed when a dump is missing is that of the physical backup. *)
Example demo_wrong_cookie :
  let env := mkRestoreEnv (fun _ => false) (fun _ => true) "mysqldump" true "repman" in
  let x := discovered "" in
  let conf := set_Conf_BackupPhysicalType "mariabackup" demo_conf in
  let w := set_j_world (mkWorld (set_cl_Conf conf (w_cluster x)) (w_heap x) []) (restore_world "" []) in
  let run := JobFlashbackLogicalBackup env 1%nat w in
  fst run = Ret (Some "Cancelling reseed. No backup file found on master") /\
  Ev (remove_file "/@cookie_backup_mariabackup") tt ∈ w_trace (j_world (snd run)).
Proof. vm_compute. split; [done|]. repeat (first [by left|right]). Qed.
