(* ===== verification/Topology.v ===== *)
(** * Discovery of the topology (cluster/cluster_topo.go)

    [TopologyDiscover] pings every server, then finds out who is a slave and who
    is the master. It is cut in the phases of the source. The servers are pinged
    in parallel: [GoSched] is the order in which the pings take effect. The shards
    of a Spider cluster are a call. *)

From Stdlib Require Import ZArith Lia Bool Permutation Ascii String.
From stdpp Require Import base list gmap strings functions.
From S2P Require Import Prelude GoLib Gtid Version StateMachine Crash DelayStat Config Server Cluster ServerOps Conformity Refresh Election Failover Rejoin FailoverCheck Monitoring.

Local Open Scope string_scope.
Local Open Scope list_scope.
Local Open Scope Z_scope.

(** Goroutines over a list of servers end in some order. *)
Class GoSched : Type := {
  go_order : list loc -> list loc;
  go_order_perm : forall l, Permutation (go_order l) l
}.

(** ** Counting *)

Section Counting.
Context (c : Cluster) (h : loc -> ServerMonitor).

Definition count_servers (p : ServerMonitor -> bool) (l : list loc) : Z :=
  Z.of_nat (length (List.filter (fun x => p (h x)) l)).

Definition CountFailed : Z := count_servers IsFailed (cl_servers c).

Definition LostMajority : bool :=
  let failed := CountFailed in
  let alive := Z.of_nat (length (cl_servers c)) - failed in
  negb (Z.quot (Z.of_nat (length (cl_servers c))) 2 <? alive).

(** Does a slave point to the address of [candidate]? *)
Definition points_to (candidate sl : ServerMonitor) : bool :=
  ((srv_Host candidate =? GetReplicationMasterHost sl)%string ||
   (srv_IP candidate =? GetReplicationMasterHost sl)%string) &&
  (srv_Port candidate =? GetReplicationMasterPort sl)%string.

Definition MultipleSlavesUp (candidate : ServerMonitor) : bool :=
  0 <? count_servers (fun sl => negb (IsDown sl) && points_to candidate sl) (cl_slaves c).
End Counting.

(** ** The topology of a bootstrap *)

(** The seven options that name a topology: ring, tier, no-gtid, multi-master,
    binlog server, wsrep, group replication. *)
Definition topology_options (ring tier nogtid multi binlog wsrep grouprep : bool) (conf : Config) : Config :=
  set_Conf_MultiMasterGrouprep grouprep (set_Conf_MultiMasterWsrep wsrep (set_Conf_MxsBinlogOn binlog
  (set_Conf_MultiMaster multi (set_Conf_ForceSlaveNoGtid nogtid (set_Conf_MultiTierSlave tier
  (set_Conf_MultiMasterRing ring conf)))))).

Definition bootstrap_options (topology : string) : option (string * (Config -> Config)) :=
  let named t := (topology =? t)%string in
  if named "master-slave" then Some (TopoMasterSlave, topology_options false false false false false false false)
  else if named "master-slave-no-gtid" then Some (TopoMasterSlave, topology_options false false true false false false false)
  else if named "multi-master" then Some (TopoMultiMaster, topology_options false false false true false false false)
  else if named "multi-tier-slave" then Some (TopoMultiTierSlave, topology_options false true false false false false false)
  else if named "maxscale-binlog" then Some (TopoBinlogServer, topology_options false false false false true false false)
  else if named "multi-master-ring" then Some (TopoMultiMasterRing, topology_options true false false false false false false)
  else if named "multi-master-wsrep" then Some (TopoMultiMasterWsrep, topology_options false false false false false true false)
  else if named "multi-master-grprep" then Some (TopoMultiMasterGrouprep, topology_options false false false false false false true)
  else None.

Definition BootstrapTopology (topology : string) (c : Cluster) : Cluster :=
  match bootstrap_options topology with
  | None => c
  | Some (t, options) =>
      set_cl_Conf (set_Conf_TopologyTarget t (options (cl_Conf c))) (set_cl_Topology t c)
  end.

Section Ops.
Context `{Env} `{GoSort} `{GoRange} `{GoSched}.

Definition mod_conf (f : Config -> Config) : M unit :=
  mod_cluster (fun c => set_cl_Conf (f (cl_Conf c)) c).
Definition set_master (x : option loc) : M unit := mod_cluster (set_cl_master x).
Definition set_vmaster (x : option loc) : M unit := mod_cluster (set_cl_vmaster x).
Definition topo_error (type_ key from : string) : M unit := SetState key (state_of key type_ from "" []).

(** ** Pings and checks of the whole cluster *)

(** Ignored servers first, so that their positions are the oldest. *)
Definition ping_all : M unit :=
  c ← get_cluster;
  h ← get_heap;
  forM (go_order (List.filter (fun x => IsIgnored (h x)) (cl_servers c))) Ping ;;
  c ← get_cluster;
  h ← get_heap;
  forM (go_order (List.filter (fun x => negb (IsIgnored (h x))) (cl_servers c))) Ping.

Definition purge_crashes : M unit :=
  c ← get_cluster;
  h ← get_heap;
  whenM (HasAllDbUp c h && (0 <? Z.of_nat (length (cl_Crashes c))) && HasNoDbUnconnected c h)
    (mod_cluster (set_cl_Crashes []) ;; call save_cluster).

Definition arbitration_states : M unit :=
  c ← get_cluster;
  whenM (Conf_Arbitration (cl_Conf c))
    (whenM (cl_IsSplitBrain c) (topo_error "WARNING" "WARN0079" "ARB") ;;
     whenM (cl_IsLostMajority c) (topo_error "WARNING" "WARN0080" "ARB") ;;
     whenM (cl_IsFailedArbitrator c)
       (SetState "WARN0090" (state_of "WARN0090" "WARNING" "ARB" "" [fs (Conf_ArbitratorAddress (cl_Conf c))]))).

Definition AllServersFailed : M bool :=
  c ← get_cluster;
  h ← get_heap;
  if forallb (fun x => IsFailed (h x)) (cl_servers c)
  then topo_error "ERROR" "ERR00077" "TOPO" ;; mret true
  else mret false.

(** The master is forgotten when it is down with all its slaves, unless a
    failover to a slave that restarts is allowed. *)
Definition TopologyClusterDown : M bool :=
  c ← get_cluster;
  h ← get_heap;
  if match GetMaster c with None => true | Some m => state_is (h m) stateFailed end
  then
    if forallb (fun x => IsFailed (h x) || IsIgnored (h x)) (cl_slaves c)
    then
      (match cl_master c with
       | Some m =>
           whenM (cl_IsDiscovered c)
             (mod_cluster (set_cl_lastmaster (Some m)) ;;
              whenM (negb (Conf_FailRestartUnsafe (cl_Conf c))) (set_master None))
       | None => mret tt
       end) ;;
      topo_error "ERROR" "ERR00021" "TOPO" ;;
      mod_cluster (set_cl_IsClusterDown true) ;;
      mret true
    else
      mod_cluster (fun c => set_cl_IsDown false (set_cl_IsClusterDown false c)) ;; mret false
  else mod_cluster (set_cl_IsDown false) ;; mret false.

(** ** Slaves and masters *)

Definition add_log_slave (x : loc) : M unit :=
  s ← load x;
  c ← get_cluster;
  match srv_Variables s !! "LOG_SLAVE_UPDATES" with
  | Some lsu =>
      whenM ((lsu =? "ON")%string && negb (existsb (fun u => (u =? srv_URL s)%string) (cl_LogSlaveServers c)))
        (mod_cluster (fun c => set_cl_LogSlaveServers (cl_LogSlaveServers c ++ [srv_URL s]) c))
  | None => mret tt
  end.

Definition group_master (x : loc) : M unit :=
  set_master (Some x) ;;
  set_vmaster (Some x) ;;
  SetMaster x ;;
  s ← load x;
  whenM (IsReadOnly s) (SetReadWrite x ;; mret tt).

(** Another master in a cluster that has one is reported; otherwise the last
    server that is no slave becomes the master. *)
Definition last_non_slave (x : loc) : M unit :=
  c ← get_cluster;
  h ← get_heap;
  let extra := match GetMaster c with
               | Some m => IsActive c && topology_is c TopoMasterSlave && negb (srv_URL (h x) =? srv_URL (h m))%string
               | None => false
               end in
  if extra then topo_error "ERROR" "ERR00063" "TOPO"
  else
    whenM (Z.of_nat (length (cl_servers c)) =? 1) (mod_conf (set_Conf_ActivePassive true)) ;;
    set_master (Some x) ;;
    SetMaster x ;;
    s ← load x;
    whenM (state_is s stateSuspect) (SetMaster x) ;;
    s ← load x;
    whenM (IsReadOnly s && negb (srv_IsRelay s)) (SetReadWrite x ;; mret tt).

Definition is_slave (s : ServerMonitor) : bool :=
  srv_IsSlave s || srv_IsWsrepPrimary s || srv_IsGroupReplicationSlave s.

Definition classify (x : loc) : M unit :=
  s ← load x;
  if IsFailed s then mret tt
  else
    add_log_slave x ;;
    if is_slave s then mod_cluster (append_slave x)
    else if srv_IsGroupReplicationMaster s then group_master x
    else if (srv_BinlogDumpThreads s =? 0) && negb (state_is s stateMaster) then mret tt
    else last_non_slave x.

Definition find_slaves : M unit :=
  mod_cluster (fun c => set_cl_slavesMade false (set_cl_slaves [] c)) ;;
  c ← get_cluster;
  forM (cl_servers c) classify.

(** The server all slaves point to, when no master was found. *)
Definition common_master (x : loc) : M unit :=
  c ← get_cluster;
  h ← get_heap;
  let n := Z.of_nat (length (cl_slaves c)) in
  whenM (negb (cl_runOnceAfterTopology c) && bool_decide (GetMaster c = None) && (0 <? n) &&
         (Conf_TopologyTarget (cl_Conf c) =? TopoMasterSlave)%string &&
         (count_servers h (fun sl => (GetReplicationMasterHost sl =? srv_Host (h x))%string &&
                                     (GetReplicationMasterPort sl =? srv_Port (h x))%string) (cl_slaves c) =? n))
    (set_master (Some x) ;; SetMaster x).

Definition check_no_slave : M unit :=
  c ← get_cluster;
  if (Z.of_nat (length (cl_slaves c)) =? 0) && negb (topology_is c TopoMultiMasterWsrep) &&
     negb (topology_is c TopoMultiMasterGrouprep) && negb (topology_is c TopoActivePassive)
  then topo_error "ERROR" "ERR00010" "TOPO"
  else forM (cl_servers c) common_master.

(** ** Cycles and relays *)

Definition two_servers (c : Cluster) : bool := Z.of_nat (length (cl_servers c)) =? 2.

Definition slave_cycling (x : loc) : M bool :=
  c ← get_cluster;
  h ← get_heap;
  let n := Z.of_nat (length (cl_servers c)) in
  if HasCycling c h (h x)
  then
    whenM (negb (Conf_MultiMaster (cl_Conf c)) && (n =? 2))
      (SetState "ERR00011" (state_of "ERR00011" "WARNING" "TOPO" (srv_URL (h x)) []) ;;
       mod_conf (set_Conf_MultiMaster true) ;;
       mod_cluster (set_cl_Topology TopoMultiMaster)) ;;
    whenM (negb (Conf_MultiMasterRing (cl_Conf c)) && (2 <? n) &&
           ((1 <? Z.of_nat (length (cl_LogSlaveServers c))) || Conf_MultiMasterRingUnsafe (cl_Conf c)))
      (mod_conf (set_Conf_MultiMasterRing true)) ;;
    c ← get_cluster;
    whenM (Conf_MultiMasterRing (cl_Conf c) && bool_decide (GetMaster c = None)) (set_vmaster (Some x)) ;;
    mret true
  else
    whenM (Conf_MultiMasterRing (cl_Conf c))
      (topo_error "WARNING" "ERR00048" "TOPO" ;;
       set_master (GetFailedServer c h)) ;;
    mret false.

Definition slave_relay (x : loc) : M unit :=
  c ← get_cluster;
  h ← get_heap;
  let s := h x in
  whenM (negb (Conf_MultiMaster (cl_Conf c)) && negb (srv_IsMaxscale s))
    (if srv_IsSlave s && HasSlaves s (map h (cl_slaves c))
     then whenM (negb (srv_IsRelay s)) (mod_server x (set_srv_IsRelay true) ;; srv_SetState x stateRelay)
     else whenM (srv_IsRelay s) (mod_server x (set_srv_IsRelay false))).

(** Is there a relay, is there a cycle? *)
Fixpoint check_slaves (l : list loc) (hasRelay hasCycling : bool) : M (bool * bool) :=
  match l with
  | [] => mret (hasRelay, hasCycling)
  | x :: r =>
      s ← load x;
      cyc ← (if negb (srv_IsMaxscale s) && negb (IsFailed s)
             then CheckSlaveSettings x ;; CheckSlaveSameMasterGrants x ;; slave_cycling x
             else mret false);
      slave_relay x ;;
      s ← load x;
      check_slaves r (hasRelay || srv_IsRelay s) (hasCycling || cyc)
  end.

Definition check_conformity : M (bool * bool) :=
  c ← get_cluster;
  h ← get_heap;
  cyc ← (if two_servers c then x ← index (cl_servers c) 0; mret (HasCycling c h (h x)) else mret false);
  if negb (Conf_MultiMaster (cl_Conf c)) && negb (Conf_Spider (cl_Conf c))
  then check_slaves (cl_slaves c) false cyc
  else mret (false, cyc).

Definition prefer_master_slave (found : bool * bool) : M unit :=
  c ← get_cluster;
  whenM (negb (fst found) && negb (snd found) && (Conf_TopologyTarget (cl_Conf c) =? TopoMasterSlave)%string)
    (mod_cluster (BootstrapTopology TopoMasterSlave)).

(** ** Several masters *)

Definition multi_writers (c : Cluster) : bool :=
  Conf_MultiMaster (cl_Conf c) || topology_is c TopoMultiMasterWsrep || topology_is c TopoMultiMasterGrouprep.

Definition topo_text (key text : string) : M unit := SetState key (mkState "" "WARNING" text "TOPO" "").

Definition read_only_masters (sro : Z) : M unit :=
  c ← get_cluster;
  h ← get_heap;
  whenM ((1 <? sro) && negb (topology_is c TopoMultiMasterGrouprep) && negb (topology_is c TopoMultiMasterWsrep))
    (topo_text "WARN0004" "RO server count > 1 in 2 node multi-master mode.  switching to preferred master." ;;
     match getOnePreferedMaster c h with
     | Some x => SetReadWrite x ;; mret tt
     | None => topo_text "WARN0006" "Multi-master need a preferred master."
     end) ;;
  c ← get_cluster;
  h ← get_heap;
  whenM ((sro =? Z.of_nat (length (cl_servers c))) && topology_is c TopoMultiMasterWsrep &&
         bool_decide (GetMaster c = None))
    (topo_text "WARN0006" "Wsrep cluster need a leader electing one" ;;
     match getOnePreferedMaster c h with
     | Some x => set_vmaster (Some x) ;; SetReadWrite x ;; mret tt
     | None => mret tt
     end).

Definition check_multi_master : M unit :=
  c ← get_cluster;
  h ← get_heap;
  whenM (multi_writers c)
    (forM (cl_servers c) (fun x =>
       whenM (match own_channel (h x) with None => true | Some _ => false end)
         (mod_conf (set_Conf_MultiMaster false))) ;;
     whenM (1 <? count_servers h IsReadWrite (cl_servers c))
       (topo_text "WARN0003" "RW server count > 1 in multi-master mode. set read_only=1 in cnf is a must have, choosing prefered master") ;;
     read_only_masters (count_servers h IsReadOnly (cl_servers c))).

(** ** Finding the master from the slaves *)

(** The first server that fits ends the loop. *)
Fixpoint master_loop (sid : Z) (l : list loc) : M unit :=
  match l with
  | [] => mret tt
  | x :: r =>
      c ← get_cluster;
      s ← load x;
      if negb (Conf_MultiMaster (cl_Conf c)) && state_is s stateUnconn && (srv_ServerID s =? sid)
      then set_master (Some x) ;; SetMaster x ;; SetReadWrite x ;; mret tt
      else if multi_writers c && negb (IsDown s) && IsReadWrite s
      then
        set_master (Some x) ;;
        (if Conf_MultiMaster (cl_Conf c) then SetMaster x else set_vmaster (Some x))
      else master_loop sid r
  end.

Fixpoint failed_master_loop (sl : ServerMonitor) (l : list loc) : M unit :=
  match l with
  | [] => mret tt
  | x :: r =>
      c ← get_cluster;
      h ← get_heap;
      if IsFailed (h x) && points_to (h x) sl
      then
        whenM (Conf_FailRestartUnsafe (cl_Conf c) || MultipleSlavesUp c h (h x))
          (set_master (Some x) ;; SetPrevState x stateMaster)
      else failed_master_loop sl r
  end.

Definition FailedMasterDiscovery : M unit :=
  c ← get_cluster;
  x ← index (cl_slaves c) 0;
  sl ← load x;
  failed_master_loop sl (cl_servers c).

Definition find_master : M unit :=
  c ← get_cluster;
  whenM (cl_slavesMade c && negb (Conf_MultiMasterGrouprep (cl_Conf c)) && (0 <? Z.of_nat (length (cl_slaves c))))
    (x ← index (cl_slaves c) 0;
     s ← load x;
     master_loop (GetReplicationServerID s) (cl_servers c) ;;
     c ← get_cluster;
     whenM (bool_decide (cl_master c = None)) FailedMasterDiscovery).

(** ** Final checks *)

Definition check_replica (x : loc) : M unit :=
  c ← get_cluster;
  h ← get_heap;
  let s := h x in
  (if negb (srv_IsRelay s)
   then
     ml ← deref (cl_master c);
     match GetMasterFromReplication c h s with
     | Some rm =>
         whenM (negb (srv_Id (h rm) =? srv_Id (h ml))%string && negb (srv_Id (h ml) =? srv_Id s)%string &&
                negb (Conf_MultiTierSlave (cl_Conf c)))
           (SetState "ERR00064" (state_of "ERR00064" "ERROR" "TOPO" (srv_URL s)
              [fs (srv_URL s); fs (srv_URL (h ml)); fs (srv_URL (h rm))]) ;;
            whenM (Conf_ReplicationNoRelay (cl_Conf c) && (cl_Status c =? ConstMonitorActif)%string)
              (RejoinFixRelay x ;; mret tt))
     | None => mret tt
     end
   else mret tt) ;;
  conf ← get_conf;
  s ← load x;
  whenM ((GetReplicationDelay s <=? Conf_FailMaxDelay conf) && IsSQLThreadRunning s && negb (IsIgnored s))
    (c ← get_cluster;
     ml ← deref (cl_master c);
     mod_server ml (set_srv_HaveHealthyReplica true)).

Definition check_master (ml : loc) : M unit :=
  mod_server ml (set_srv_HaveHealthyReplica false) ;;
  m ← load ml;
  whenM (negb (IsDown m)) (CheckMasterSettings ml) ;;
  c ← get_cluster;
  whenM (negb (Conf_MultiMaster (cl_Conf c))) (forM (cl_slaves c) check_replica) ;;
  c ← get_cluster;
  h ← get_heap;
  ml ← deref (cl_master c);
  whenM (IsFailed (h ml) && HasAllSlavesRunning (map h (cl_slaves c)))
    (SetState "ERR00016" (mkState "" "ERROR" (ClusterError "ERR00016") "NET" (srv_URL (h ml)))).

Definition final_check : M unit :=
  c ← get_cluster;
  match cl_master c with
  | None => whenM (bool_decide (GetMaster c = None)) (topo_error "ERROR" "ERR00012" "TOPO")
  | Some ml => check_master ml
  end.

(** The master is opened, except in a master-slave topology, where no virtual
    master is kept beside the real one. *)
Definition settle_topology : M unit :=
  t ← GetTopologyFromConf;
  mod_cluster (set_cl_Topology t) ;;
  c ← get_cluster;
  h ← get_heap;
  (match GetMaster c with
   | Some m =>
       whenM (cl_IsDiscovered c && IsReadOnly (h m) && negb (srv_IsMaintenance (h m)) &&
              negb (topology_is c TopoMasterSlave)) (SetReadWrite m ;; mret tt)
   | None => mret tt
   end) ;;
  c ← get_cluster;
  match cl_master c, cl_vmaster c with
  | Some _, Some v =>
      whenM (topology_is c TopoMasterSlave) (mod_server v (set_srv_IsVirtualMaster false) ;; set_vmaster None)
  | _, _ => mret tt
  end.

Definition can_monitor : M Err :=
  c ← get_cluster;
  let r := CanMonitor (cl_StateMachine c) in
  mod_sm (fun _ => snd r) ;;
  mret (if fst r then None else Some "Error found in State Machine Engine").

(** ** The discovery *)

Definition only_server (c : Cluster) : option loc :=
  match cl_servers c with [x] => Some x | _ => None end.

Definition discover_roles : M Err :=
  TopologyClusterDown ;;
  down ← AllServersFailed;
  mod_cluster (set_cl_IsDown down) ;;
  CheckSameServerID ;;
  conf ← get_conf;
  whenM (Conf_Spider conf) (call (unmodelled "SpiderShardsDiscovery" None) ;; mret tt) ;;
  find_slaves ;;
  check_no_slave ;;
  found ← check_conformity;
  prefer_master_slave found ;;
  check_multi_master ;;
  find_master ;;
  final_check ;;
  settle_topology ;;
  can_monitor.

Definition TopologyDiscover : M Err :=
  conf ← get_conf;
  if (Conf_Hosts conf =? "")%string then mret (Some "Can not discover empty cluster")
  else
    ping_all ;;
    c ← get_cluster;
    if cl_IsInFailover c then mret (Some "In Failover skip topology detection")
    else
      purge_crashes ;;
      arbitration_states ;;
      c ← get_cluster;
      match only_server c with
      | Some x =>
          mod_cluster (set_cl_Topology TopoActivePassive) ;;
          mod_conf (set_Conf_ActivePassive true) ;;
          set_master (Some x) ;;
          mret None
      | None => mod_conf (set_Conf_ActivePassive false) ;; discover_roles
      end.
End Ops.
