(* ===== verification/TopologyProps.v ===== *)
(** * What a discovery of the topology finds (cluster/cluster_topo.go)

    The slaves found are exactly the servers that replicate and have not failed;
    beside a known master no other server is taken for one or opened; a cluster
    that is down forgets its master only when it may not restart with it; and the
    topology chosen at a bootstrap is the one read back from the options. *)

From Stdlib Require Import ZArith Lia Bool Permutation Ascii String.
From stdpp Require Import base list gmap strings functions.
From S2P Require Import Prelude GoLib Gtid Version StateMachine Crash DelayStat Config Server Cluster Demo ServerOps Lands Conformity Refresh Election Failover Rejoin FailoverFrame FailoverCheck Monitoring Topology.

Local Open Scope string_scope.
Local Open Scope list_scope.
Local Open Scope Z_scope.

(** ** Setting a master *)

(** Setting a master also clears a flag of every server. *)
Definition settled (s : ServerMonitor) : ServerMonitor := set_srv_HaveNoMasterOnStart false s.

(** Servers other than [x] keep all but that flag. *)
Definition others (x : loc) (w w' : World) : Prop :=
  forall y, y <> x -> settled (w_heap w' y) = settled (w_heap w y).

Lemma others_refl x w w' : w_heap w' = w_heap w -> others x w w'.
Proof. intros E y _. by rewrite E. Qed.
Lemma others_trans x w1 w2 w3 : others x w1 w2 -> others x w2 w3 -> others x w1 w3.
Proof. intros A B y Hy. by rewrite (B y Hy), (A y Hy). Qed.

(** What is read of the server besides its state. *)
Definition traits (s : ServerMonitor) : ServerMonitor := set_srv_State "" (settled s).

Section Ops.
Context `{Env} `{GoSort} `{GoRange}.

Lemma lands_settle l w :
  lands (forM l (fun s => mod_server s (set_srv_HaveNoMasterOnStart false))) w (fun _ w' =>
    w_cluster w' = w_cluster w /\ forall y, settled (w_heap w' y) = settled (w_heap w y)).
Proof.
  revert w. induction l as [|x l IH]; intros w; [done|]. simpl. apply lands_bind. unfold lands at 1, mod_server.
  eapply lands_weaken; [apply IH|]. intros u w' [Ec Es]. split; [done|]. intros y. rewrite Es. simpl.
  destruct (decide (y = x)) as [->|Hy]; [by rewrite fn_lookup_insert|by rewrite fn_lookup_insert_ne].
Qed.

Lemma lands_SetMaster x w :
  lands (SetMaster x) w (fun _ w' => w_cluster w' = w_cluster w /\ others x w w' /\
    settled (w_heap w' x) = settled (set_srv_State stateMaster (w_heap w x))).
Proof.
  unfold SetMaster. apply lands_bind, lands_SetState. intros w1 Ec Eh. apply lands_bind. unfold lands at 1, get_cluster.
  eapply lands_weaken; [apply lands_settle|]. intros u w2 [Ec2 Es]. split_and!; [congruence| |].
  - intros y Hy. by rewrite Es, Eh, fn_lookup_insert_ne.
  - by rewrite Es, Eh, fn_lookup_insert.
Qed.

Lemma talks_exec {R} x (c : Call R) w (Q : R -> World -> Prop) :
  srv_Conn (w_heap w x) = true ->
  (forall a w', w_cluster w' = w_cluster w -> w_heap w' = w_heap w -> Q a w') -> lands (exec x c) w Q.
Proof.
  intros Hc HQ. unfold exec. apply lands_bind. unfold lands at 1, load. rewrite Hc.
  by apply lands_talks; [apply talks_call|].
Qed.

Lemma lands_SetReadWrite x w (Q : Err -> World -> Prop) :
  srv_Conn (w_heap w x) = true ->
  (forall e w', w_cluster w' = w_cluster w -> w_heap w' = w_heap w -> Q e w') -> lands (SetReadWrite x) w Q.
Proof.
  intros Hc HQ. unfold SetReadWrite. apply lands_bind. unfold lands at 1, get_cluster. apply lands_bind. unfold lands at 1, load.
  destruct (_ && _); [by apply HQ|]. apply lands_bind.
  assert (Hro : lands (if IsReadOnly (w_heap w x) then exec x (db_SetReadOnly x false) else mret None) w
    (fun _ w' => w_cluster w' = w_cluster w /\ w_heap w' = w_heap w)).
  { destruct (IsReadOnly _); [by apply talks_exec|done]. }
  eapply lands_weaken; [exact Hro|]. intros e w1 [Ec1 Eh1]. destruct (is_err e); [by apply HQ|].
  destruct (HasSuperReadOnlyCapability _); [|by apply HQ].
  apply talks_exec; [by rewrite Eh1|]. intros e2 w2 Ec2 Eh2. apply HQ; congruence.
Qed.

(** ** Finding the slaves *)

Definition found_slave (s : ServerMonitor) : bool := negb (IsFailed s) && is_slave s.

Lemma found_slave_settled s s' : settled s = settled s' -> found_slave s = found_slave s'.
Proof. intros E. exact (f_equal found_slave E). Qed.

(** One server: it is appended to the slaves or not, and the others are left alone. *)
Definition classified (x : loc) (w w' : World) : Prop :=
  cl_Servers (w_cluster w') = cl_Servers (w_cluster w) /\
  cl_slaves (w_cluster w') = cl_slaves (w_cluster w) ++ (if found_slave (w_heap w x) then [x] else []) /\
  others x w w'.

Lemma lands_add_log_slave x w :
  lands (add_log_slave x) w (fun _ w' => w_heap w' = w_heap w /\ GetMaster (w_cluster w') = GetMaster (w_cluster w) /\
    cl_Servers (w_cluster w') = cl_Servers (w_cluster w) /\ cl_slaves (w_cluster w') = cl_slaves (w_cluster w)).
Proof.
  unfold add_log_slave, lands, mbind, M_bind, load, get_cluster, whenM. cbv iota beta.
  destruct (_ !! _); [|done]. destruct (_ && _); done.
Qed.

Lemma settled_conn s s' : settled s = settled s' -> srv_Conn s = srv_Conn s'.
Proof. intros E. exact (f_equal srv_Conn E). Qed.

(** What [classify] keeps while it works on [x], from [w0] on. *)
Definition keeping (x : loc) (w0 w : World) : Prop :=
  cl_Servers (w_cluster w) = cl_Servers (w_cluster w0) /\ cl_slaves (w_cluster w) = cl_slaves (w_cluster w0) /\
  others x w0 w /\ srv_Conn (w_heap w x) = srv_Conn (w_heap w0 x).

Lemma keeping_refl x w : keeping x w w.
Proof. split_and!; [done|done|by intros y _|done]. Qed.
Lemma keeping_trans x w1 w2 w3 : keeping x w1 w2 -> keeping x w2 w3 -> keeping x w1 w3.
Proof.
  intros (A1 & A2 & A3 & A4) (B1 & B2 & B3 & B4). split_and!; [congruence|congruence| |congruence].
  by eapply others_trans.
Qed.

Lemma keep_cluster x f w :
  (forall c, cl_Servers (f c) = cl_Servers c) -> (forall c, cl_slaves (f c) = cl_slaves c) ->
  lands (mod_cluster f) w (fun _ w' => keeping x w w').
Proof. intros E1 E2. unfold lands, mod_cluster. split_and!; simpl; [by rewrite E1|by rewrite E2|by intros y _|done]. Qed.
Lemma keep_topo_error x a b c w : lands (topo_error a b c) w (fun _ w' => keeping x w w').
Proof.
  unfold topo_error, SetState. apply lands_bind. unfold lands at 1, get_conf.
  destruct (negb _); [|apply keeping_refl]. by split_and!.
Qed.
Lemma keep_SetMaster x w : lands (SetMaster x) w (fun _ w' => keeping x w w').
Proof.
  eapply lands_weaken; [apply lands_SetMaster|]. intros _ w' (Ec & O & Es).
  split_and!; [by rewrite Ec|by rewrite Ec|done|]. exact (settled_conn _ _ Es).
Qed.
Lemma keep_SetReadWrite x w :
  srv_Conn (w_heap w x) = true -> lands (SetReadWrite x) w (fun _ w' => keeping x w w').
Proof.
  intros Hc. apply lands_SetReadWrite; [done|]. intros e w' Ec Eh.
  split_and!; [by rewrite Ec|by rewrite Ec|by apply others_refl|by rewrite Eh].
Qed.

(** One step after the other. *)
Lemma keep_bind {A B} x (m : M A) (f : A -> M B) w0 w :
  keeping x w0 w -> srv_Conn (w_heap w0 x) = true ->
  (srv_Conn (w_heap w x) = true -> lands m w (fun _ w' => keeping x w w')) ->
  (forall a w', keeping x w0 w' -> lands (f a) w' (fun _ w2 => keeping x w0 w2)) ->
  lands (m ≫= f) w (fun _ w2 => keeping x w0 w2).
Proof.
  intros K Hc Hm Hf. apply lands_bind. eapply lands_weaken; [apply Hm; by destruct K as (_ & _ & _ & ->)|].
  intros a w' K'. apply Hf. by eapply keeping_trans.
Qed.
Lemma keep_read {A B} x (g : World -> A) (f : A -> M B) w0 w :
  lands (f (g w)) w (fun _ w2 => keeping x w0 w2) -> lands ((fun w => (Ret (g w), w)) ≫= f) w (fun _ w2 => keeping x w0 w2).
Proof. done. Qed.
Lemma keep_when x b (m : M unit) w :
  (lands m w (fun _ w' => keeping x w w')) -> lands (whenM b m) w (fun _ w' => keeping x w w').
Proof. intros Hm. apply lands_whenM; [done|]. intros _. apply keeping_refl. Qed.
Lemma keep_open x b w :
  srv_Conn (w_heap w x) = true ->
  lands (whenM b (SetReadWrite x ;; mret tt)) w (fun _ w' => keeping x w w').
Proof.
  intros Hc. apply keep_when, lands_bind. eapply lands_weaken; [by apply keep_SetReadWrite|]. by intros e w'.
Qed.

Lemma keep_end {A} x (m : M A) w0 w :
  keeping x w0 w -> srv_Conn (w_heap w0 x) = true ->
  (srv_Conn (w_heap w x) = true -> lands m w (fun _ w' => keeping x w w')) ->
  lands m w (fun _ w2 => keeping x w0 w2).
Proof.
  intros K Hc Hm. eapply lands_weaken; [apply Hm; by destruct K as (_ & _ & _ & ->)|].
  intros a w' K'. by eapply keeping_trans.
Qed.

Lemma keep_group_master x w :
  srv_Conn (w_heap w x) = true -> lands (group_master x) w (fun _ w' => keeping x w w').
Proof.
  intros Hc. unfold group_master, set_master, set_vmaster.
  apply keep_bind; [apply keeping_refl|done|by intros; apply keep_cluster|]. intros _ w1 K1.
  apply keep_bind; [done|done|by intros; apply keep_cluster|]. intros _ w2 K2.
  apply keep_bind; [done|done|intros; apply keep_SetMaster|]. intros _ w3 K3. apply keep_read.
  apply keep_end; [done|done|]. apply keep_open.
Qed.

Lemma keep_last_non_slave x w :
  srv_Conn (w_heap w x) = true -> lands (last_non_slave x) w (fun _ w' => keeping x w w').
Proof.
  intros Hc. unfold last_non_slave, set_master, mod_conf. do 2 apply keep_read. cbv beta zeta.
  match goal with |- lands (if ?b then _ else _) _ _ => destruct b end; [apply keep_topo_error|].
  apply keep_bind; [apply keeping_refl|done|by intros; apply keep_when, keep_cluster|]. intros _ w1 K1.
  apply keep_bind; [done|done|by intros; apply keep_cluster|]. intros _ w2 K2.
  apply keep_bind; [done|done|intros; apply keep_SetMaster|]. intros _ w3 K3. apply keep_read.
  apply keep_bind; [done|done|intros; apply keep_when, keep_SetMaster|]. intros _ w4 K4. apply keep_read.
  apply keep_end; [done|done|]. apply keep_open.
Qed.

Lemma lands_classify x w :
  srv_Conn (w_heap w x) = true -> lands (classify x) w (fun _ w' => classified x w w').
Proof.
  intros Hc. unfold classify. apply lands_bind. unfold lands at 1, load. unfold classified, found_slave.
  destruct (IsFailed (w_heap w x)); [unfold lands; simpl; by rewrite app_nil_r|]. cbn [negb andb].
  apply lands_bind. eapply lands_weaken; [apply lands_add_log_slave|]. intros _ w1 (Eh & _ & E1 & E2).
  destruct (is_slave (w_heap w x)).
  { unfold lands, mod_cluster. simpl. rewrite E1, E2. split_and!; [done|done|by apply others_refl]. }
  rewrite app_nil_r.
  assert (Hk : forall m : M unit, lands m w1 (fun _ w' => keeping x w1 w') ->
    lands m w1 (fun _ w' => cl_Servers (w_cluster w') = cl_Servers (w_cluster w) /\
      cl_slaves (w_cluster w') = cl_slaves (w_cluster w) /\ others x w w')).
  { intros m Hm. eapply lands_weaken; [exact Hm|]. intros _ w2 (K1 & K2 & K3 & _). rewrite K1, K2.
    split_and!; [done|done|]. eapply others_trans; [by apply others_refl|exact K3]. }
  rewrite <- Eh in Hc. apply Hk. destruct (srv_IsGroupReplicationMaster _); [by apply keep_group_master|].
  destruct (_ && _); [apply keeping_refl|by apply keep_last_non_slave].
Qed.
End Ops.

Section Slaves.
Context `{Env} `{GoSort} `{GoRange}.

Lemma lands_classify_all l w :
  NoDup l -> Forall (fun x => srv_Conn (w_heap w x) = true) l ->
  lands (forM l classify) w (fun _ w' => cl_Servers (w_cluster w') = cl_Servers (w_cluster w) /\
    cl_slaves (w_cluster w') = cl_slaves (w_cluster w) ++ List.filter (fun x => found_slave (w_heap w x)) l).
Proof.
  revert w. induction l as [|x l IH]; intros w Hd Hc; [unfold lands; simpl; by rewrite app_nil_r|].
  inversion Hd as [|? ? Hx Hd']. inversion Hc as [|? ? Hcx Hcl]. subst. simpl.
  apply lands_bind. eapply lands_weaken; [by apply lands_classify|]. intros _ w1 (C1 & C2 & C3).
  assert (Hs : forall y, y ∈ l -> settled (w_heap w1 y) = settled (w_heap w y)).
  { intros y Hy. apply C3. by intros ->. }
  eapply lands_weaken.
  { apply IH; [done|]. rewrite Forall_forall in *. intros y Hy. rewrite (settled_conn _ _ (Hs y (proj2 (list_elem_of_In _ _) Hy))). by apply Hcl. }
  intros _ w2 [D1 D2]. split; [congruence|]. rewrite D2, C2, <- app_assoc. f_equal.
  replace (List.filter (fun y => found_slave (w_heap w1 y)) l) with (List.filter (fun y => found_slave (w_heap w y)) l).
  { by destruct (found_slave (w_heap w x)). }
  apply filter_ext_in. intros y Hy. apply found_slave_settled. symmetry. apply Hs. by apply list_elem_of_In.
Qed.
End Slaves.

(** The discovery finds exactly the slaves: when every server has a connection
    it completes, and the list of slaves is the list of the servers, in their
    order, that have not failed and replicate (or are members of a Galera or a
    group replication cluster); what it does to masters on the way changes
    neither. *)
Theorem discovered_slaves `{Env} `{GoSort} `{GoRange} w :
  NoDup (cl_servers (w_cluster w)) ->
  (forall x, x ∈ cl_servers (w_cluster w) -> srv_Conn (w_heap w x) = true) ->
  exists w', find_slaves w = (Ret tt, w') /\ cl_Servers (w_cluster w') = cl_Servers (w_cluster w) /\
    cl_slaves (w_cluster w') = List.filter (fun x => found_slave (w_heap w x)) (cl_servers (w_cluster w)).
Proof.
  intros Hd Hc. destruct (lands_run find_slaves w (fun _ w' => cl_Servers (w_cluster w') = cl_Servers (w_cluster w) /\
    cl_slaves (w_cluster w') = List.filter (fun x => found_slave (w_heap w x)) (cl_servers (w_cluster w))))
    as ([] & w' & E & P); [|by exists w'].
  unfold find_slaves. apply lands_bind. unfold lands at 1, mod_cluster. apply lands_bind. unfold lands at 1, get_cluster.
  eapply lands_weaken; [apply lands_classify_all; [done|]|done].
  apply Forall_forall. intros x Hx. by apply Hc, list_elem_of_In.
Qed.

(** The demonstration cluster with its two slaves known as such. *)
Definition demo_heap_slaves : loc -> ServerMonitor := fun l =>
  match l with 1%nat | 2%nat => set_srv_IsSlave true (demo_heap l) | _ => demo_heap l end.
Definition demo_undiscovered : World := mkWorld demo_cluster demo_heap_slaves [].

Lemma demo_connected x : x ∈ cl_servers (w_cluster demo_undiscovered) -> srv_Conn (w_heap demo_undiscovered x) = true.
Proof.
  intros Hx. apply list_elem_of_In in Hx. vm_compute in Hx.
  destruct Hx as [<-|[<-|[<-|[]]]]; vm_compute; reflexivity.
Qed.
Lemma demo_servers_NoDup : NoDup (cl_servers (w_cluster demo_undiscovered)).
Proof. apply (bool_decide_unpack _). vm_compute. done. Qed.

Lemma discovered_slaves_witness :
  exists w', find_slaves demo_undiscovered = (Ret tt, w') /\ cl_slaves (w_cluster w') = [1%nat; 2%nat].
Proof.
  destruct (discovered_slaves demo_undiscovered demo_servers_NoDup demo_connected) as (w' & E & _ & S).
  exists w'. split; [exact E|]. rewrite S. vm_compute. reflexivity.
Defined.

(** ** No second master *)

Record led (m : loc) (c : Cluster) (h : loc -> ServerMonitor) : Prop := {
  led_active : IsActive c = true;
  led_topology : topology_is c TopoMasterSlave = true;
  led_master : cl_master c = Some m;
  led_url : forall x, srv_URL (h x) = srv_URL (h m) -> x = m;
  led_no_group : forall x, srv_IsGroupReplicationMaster (h x) = false
}.

(** Calls that change no database, or open the server [m]. *)
Definition opens_only (m : loc) (e : TraceEvent) : Prop :=
  match e with
  | Ev c _ => quiet_call c = true \/
      match c with db_SetReadOnly x false | db_SetSuperReadOnly x false => x = m | _ => False end
  end.

Definition Led (m : loc) (w w' : World) : Prop :=
  led m (w_cluster w) (w_heap w) ->
  led m (w_cluster w') (w_heap w') /\ exists t, w_trace w' = w_trace w ++ t /\ Forall (opens_only m) t.

#[export] Instance Led_preorder m : PreOrder (Led m).
Proof.
  split.
  - intros w L. split; [done|]. exists []. by rewrite app_nil_r.
  - intros x y z A B L. destruct (A L) as (L1 & t1 & T1 & F1). destruct (B L1) as (L2 & t2 & T2 & F2).
    split; [done|]. exists (t1 ++ t2). rewrite T2, T1, app_assoc. split; [done|by apply Forall_app].
Qed.

Section Led.
Context `{Env} `{GoSort} `{GoRange} (m : loc).

Lemma led_call {R} (c : Call R) : (forall r, opens_only m (Ev c r)) -> Pres (Led m) (call c).
Proof. intros Hc w L. split; [done|]. eexists. split; [reflexivity|]. by constructor. Qed.
Lemma led_quiet {R} (c : Call R) : quiet_call c = true -> Pres (Led m) (call c).
Proof. intros Hc. apply led_call. intros r. by left. Qed.
Lemma led_mod_server x f :
  (forall s, srv_URL (f s) = srv_URL s /\ srv_IsGroupReplicationMaster (f s) = srv_IsGroupReplicationMaster s) ->
  Pres (Led m) (mod_server x f).
Proof.
  intros Hf w [L1 L2 L3 L4 L5]. split; [|exists []; by rewrite app_nil_r]. simpl.
  assert (E : forall y, srv_URL (<[x := f (w_heap w x)]> (w_heap w) y) = srv_URL (w_heap w y) /\
    srv_IsGroupReplicationMaster (<[x := f (w_heap w x)]> (w_heap w) y) = srv_IsGroupReplicationMaster (w_heap w y)).
  { intros y. destruct (decide (y = x)) as [->|Hy]; [rewrite fn_lookup_insert; apply Hf|by rewrite fn_lookup_insert_ne]. }
  split; [done|done|done| |].
  - intros y. rewrite !(proj1 (E _)). apply L4.
  - intros y. rewrite (proj2 (E y)). apply L5.
Qed.
Lemma led_mod_cluster f :
  (forall c, IsActive (f c) = IsActive c /\ cl_Topology (f c) = cl_Topology c /\
             (cl_master c = Some m -> cl_master (f c) = Some m)) ->
  Pres (Led m) (mod_cluster f).
Proof.
  intros Hf w [L1 L2 L3 L4 L5]. split; [|exists []; by rewrite app_nil_r].
  destruct (Hf (w_cluster w)) as (F1 & F2 & F3). split; simpl; [by rewrite F1| |by apply F3|done|done].
  unfold topology_is in *. by rewrite F2.
Qed.
Lemma led_cluster_heap {A} (f : Cluster -> (loc -> ServerMonitor) -> M A) :
  (forall c h, led m c h -> Pres (Led m) (f c h)) -> Pres (Led m) (c ← get_cluster; h ← get_heap; f c h).
Proof. intros Hf w L. by apply (Hf _ _ L). Qed.
Lemma led_load {A} x (f : ServerMonitor -> M A) :
  (forall s, srv_IsGroupReplicationMaster s = false -> Pres (Led m) (f s)) -> Pres (Led m) (s ← load x; f s).
Proof. intros Hf w L. apply Hf; [|done]. apply (led_no_group _ _ _ L). Qed.
End Led.

#[export] Hint Extern 1 (Pres (Led _) (call _)) => apply led_quiet; reflexivity : pres.
#[export] Hint Extern 1 (Pres (Led _) (mod_server _ _)) => apply led_mod_server; intros ?; split; reflexivity : pres.
#[export] Hint Extern 1 (Pres (Led _) (mod_cluster _)) =>
  apply led_mod_cluster; intros ?; split; [reflexivity|split; [reflexivity|auto]] : pres.
#[export] Hint Extern 1 (Pres (Led _) (mod_sm _)) =>
  apply led_mod_cluster; intros ?; split; [reflexivity|split; [reflexivity|auto]] : pres.

Section NoSecondMaster.
Context `{Env} `{GoSort} `{GoRange} (m : loc).

Lemma led_SetMaster x : Pres (Led m) (SetMaster x).
Proof. unfold SetMaster, srv_SetState, BashScriptDbServersChangeState. pres. Qed.
Lemma led_SetReadWrite : Pres (Led m) (SetReadWrite m).
Proof. unfold SetReadWrite. pres; apply led_call; intros r; by right. Qed.
Lemma led_topo_error a b c : Pres (Led m) (topo_error a b c).
Proof. unfold topo_error, SetState. pres. Qed.
Lemma led_add_log_slave x : Pres (Led m) (add_log_slave x).
Proof. unfold add_log_slave. pres. Qed.
Hint Resolve led_SetMaster led_SetReadWrite led_topo_error led_add_log_slave : pres.

Lemma led_last_non_slave x : Pres (Led m) (last_non_slave x).
Proof.
  unfold last_non_slave. apply led_cluster_heap. intros c h L. cbv zeta. unfold GetMaster.
  rewrite (led_master _ _ _ L), (led_active _ _ _ L), (led_topology _ _ _ L). cbn [andb].
  destruct (_ =? _)%string eqn:E; cbn [negb]; [|pres].
  bool_prop. rewrite (led_url _ _ _ L _ E). unfold set_master, mod_conf. pres.
Qed.
Hint Resolve led_last_non_slave : pres.

Lemma led_classify x : Pres (Led m) (classify x).
Proof.
  unfold classify. apply led_load. intros s Hs. rewrite Hs. unfold append_slave. pres.
Qed.
Hint Resolve led_classify : pres.

Lemma led_find_slaves : Pres (Led m) find_slaves.
Proof. unfold find_slaves. pres. Qed.
End NoSecondMaster.


(** A second server that says it is a master, beside the master [0]. *)
Definition demo_extra_heap : loc -> ServerMonitor := fun l =>
  match l with 2%nat => set_srv_State stateMaster (set_srv_HaveReadOnly true (demo_heap l)) | _ => demo_heap_slaves l end.
Definition demo_extra : World := mkWorld (set_cl_Status "A" demo_cluster) demo_extra_heap [].

Lemma demo_extra_led : led 0%nat (w_cluster demo_extra) (w_heap demo_extra).
Proof.
  split; [reflexivity|reflexivity|reflexivity| |].
  - intros [|[|[|x]]]; vm_compute; [reflexivity|discriminate|discriminate|discriminate].
  - intros [|[|[|x]]]; reflexivity.
Qed.


(** ** A cluster that is down *)

Definition all_slaves_down (c : Cluster) (h : loc -> ServerMonitor) : bool :=
  forallb (fun x => IsFailed (h x) || IsIgnored (h x)) (cl_slaves c).
Definition master_lost (c : Cluster) (h : loc -> ServerMonitor) : bool :=
  match GetMaster c with None => true | Some m => state_is (h m) stateFailed end.

(** What becomes of the roles. *)
Definition down_roles (c : Cluster) (h : loc -> ServerMonitor) : option loc * option loc * bool :=
  if master_lost c h && all_slaves_down c h
  then match cl_master c with
       | Some m => if cl_IsDiscovered c
                   then (if Conf_FailRestartUnsafe (cl_Conf c) then Some m else None, Some m, true)
                   else (Some m, cl_lastmaster c, true)
       | None => (None, cl_lastmaster c, true)
       end
  else (cl_master c, cl_lastmaster c, if master_lost c h then false else cl_IsClusterDown c).

(** A cluster is found down exactly when it has no master or a failed one and
    every slave has failed or is ignored. The last master is then remembered, and
    forgotten as the master only in a discovered cluster where an unsafe restart
    is not allowed; in every other case it stays. *)
Theorem cluster_down_roles w :
  exists w', TopologyClusterDown w = (Ret (master_lost (w_cluster w) (w_heap w) && all_slaves_down (w_cluster w) (w_heap w)), w') /\
    (cl_master (w_cluster w'), cl_lastmaster (w_cluster w'), cl_IsClusterDown (w_cluster w')) =
    down_roles (w_cluster w) (w_heap w) /\ w_heap w' = w_heap w /\ w_trace w' = w_trace w.
Proof.
  unfold TopologyClusterDown, down_roles. unfold mbind at 1 2, M_bind at 1 2, get_cluster, get_heap. cbv iota beta.
  fold (master_lost (w_cluster w) (w_heap w)). fold (all_slaves_down (w_cluster w) (w_heap w)).
  destruct (master_lost _ _); cbn [andb]; [|by eexists].
  destruct (all_slaves_down _ _); [|by eexists].
  unfold topo_error, SetState, set_master, whenM, mbind, M_bind, get_conf, mod_cluster, mod_sm.
  destruct (cl_master (w_cluster w)) as [m|] eqn:Em; cbn -[strings_Contains state_of].
  - destruct (cl_IsDiscovered (w_cluster w)); cbn -[strings_Contains state_of];
      [destruct (Conf_FailRestartUnsafe (cl_Conf (w_cluster w)))|]; cbn -[strings_Contains state_of];
      (destruct (strings_Contains _ _); eexists; (split; [reflexivity|]); cbn; by rewrite ?Em).
  - destruct (strings_Contains _ _); eexists; (split; [reflexivity|]); cbn; by rewrite ?Em.
Qed.

(** ** The master found from the slaves *)

(** A server that is taken for the master: a standalone server with the server id
    the slaves replicate from or, with several writers, a writable one. *)
Definition fits_master (c : Cluster) (sid : Z) (s : ServerMonitor) : bool :=
  (negb (Conf_MultiMaster (cl_Conf c)) && state_is s stateUnconn && (srv_ServerID s =? sid)) ||
  (multi_writers c && negb (IsDown s) && IsReadWrite s).

(** Without one, and without a master, the first failed server the slaves point
    to, if the cluster may restart with it or a slave of it is up. *)
Definition failed_master (c : Cluster) (h : loc -> ServerMonitor) (sl : ServerMonitor) : option loc :=
  match first_server h (fun s => IsFailed s && points_to s sl) (cl_servers c) with
  | Some x => if Conf_FailRestartUnsafe (cl_Conf c) || MultipleSlavesUp c h (h x) then Some x else None
  | None => None
  end.

Definition expected_master (c : Cluster) (h : loc -> ServerMonitor) : option loc :=
  match cl_slaves c with
  | sl :: _ =>
      if cl_slavesMade c && negb (Conf_MultiMasterGrouprep (cl_Conf c))
      then match first_server h (fits_master c (GetReplicationServerID (h sl))) (cl_servers c) with
           | Some x => Some x
           | None => match cl_master c with Some m => Some m | None => failed_master c h (h sl) end
           end
      else cl_master c
  | [] => cl_master c
  end.

Section FindMaster.
Context `{Env} `{GoSort} `{GoRange}.

Lemma lands_taken x w (k : M unit) :
  srv_Conn (w_heap w x) = true ->
  (forall w', cl_master (w_cluster w') = Some x -> srv_Conn (w_heap w' x) = true ->
     lands k w' (fun _ w2 => cl_master (w_cluster w2) = Some x)) ->
  lands (set_master (Some x) ;; SetMaster x ;; k) w (fun _ w' => cl_master (w_cluster w') = Some x).
Proof.
  intros Hc Hk. apply lands_bind. unfold lands at 1, set_master, mod_cluster. apply lands_bind.
  eapply lands_weaken; [apply lands_SetMaster|]. intros _ w1 (Ec & _ & Es). apply Hk; [by rewrite Ec|].
  by rewrite (settled_conn _ _ Es).
Qed.

Lemma lands_master_loop sid l w :
  Forall (fun x => srv_Conn (w_heap w x) = true) l ->
  lands (master_loop sid l) w (fun _ w' =>
    match first_server (w_heap w) (fits_master (w_cluster w) sid) l with
    | Some x => cl_master (w_cluster w') = Some x
    | None => w' = w
    end).
Proof.
  intros Hc. induction l as [|x l IH]; [done|]. inversion Hc as [|? ? Hx Hl]; subst. simpl master_loop.
  apply lands_bind. unfold lands at 1, get_cluster. apply lands_bind. unfold lands at 1, load.
  unfold first_server. simpl List.find. unfold fits_master at 1.
  destruct (negb _ && state_is _ _ && _); cbn [orb].
  { apply lands_taken; [done|]. intros w1 Em Hc1. apply lands_bind, lands_SetReadWrite; [done|].
    intros e w2 Ec2 _. unfold lands. simpl. by rewrite Ec2. }
  destruct (multi_writers _ && _ && _); [|by apply IH].
  destruct (Conf_MultiMaster _).
  - apply lands_bind. unfold lands at 1, set_master, mod_cluster.
    eapply lands_weaken; [apply lands_SetMaster|]. intros _ w1 (Ec & _). by rewrite Ec.
  - done.
Qed.

Lemma lands_failed_loop sl l w :
  lands (failed_master_loop sl l) w (fun _ w' => cl_master (w_cluster w') =
    match first_server (w_heap w) (fun s => IsFailed s && points_to s sl) l with
    | Some x => if Conf_FailRestartUnsafe (cl_Conf (w_cluster w)) || MultipleSlavesUp (w_cluster w) (w_heap w) (w_heap w x)
                then Some x else cl_master (w_cluster w)
    | None => cl_master (w_cluster w)
    end).
Proof.
  induction l as [|x l IH]; [done|]. simpl failed_master_loop.
  apply lands_bind. unfold lands at 1, get_cluster. apply lands_bind. unfold lands at 1, get_heap.
  unfold first_server. simpl List.find. destruct (IsFailed _ && points_to _ _); [|exact IH].
  by destruct (Conf_FailRestartUnsafe _ || _).
Qed.
End FindMaster.

(** C25: The master found from the slaves is exactly the expected one: with every
    server connected the search completes, a standalone server the slaves
    replicate from (or a writer among several) is preferred, otherwise a master
    that was known is kept, and only without one a failed server the first slave
    points to is assumed, when that is allowed. *)
Theorem found_master_expected `{Env} `{GoSort} `{GoRange} w :
  (forall x, x ∈ cl_servers (w_cluster w) -> srv_Conn (w_heap w x) = true) ->
  exists w', find_master w = (Ret tt, w') /\
    cl_master (w_cluster w') = expected_master (w_cluster w) (w_heap w).
Proof.
  intros Hc. destruct (lands_run find_master w (fun _ w' => cl_master (w_cluster w') = expected_master (w_cluster w) (w_heap w)))
    as ([] & w' & E & P); [|by exists w'].
  unfold find_master. apply lands_bind. unfold lands at 1, get_cluster. unfold expected_master.
  destruct (cl_slaves (w_cluster w)) as [|sl r] eqn:Es; [by rewrite andb_false_r|].
  replace (0 <? _) with true by (symmetry; apply Z.ltb_lt; simpl; lia). rewrite andb_true_r.
  apply lands_whenM; intros ->; [|done].
  apply lands_bind. unfold lands at 1, index. simpl. apply lands_bind. unfold lands at 1, load. apply lands_bind.
  eapply lands_weaken; [apply lands_master_loop; apply Forall_forall; intros x Hx; by apply Hc, list_elem_of_In|].
  intros u w1 Hf. cbv beta in Hf. apply lands_bind. unfold lands at 1, get_cluster.
  destruct (first_server _ _ _) as [x|] eqn:Ef; [by rewrite Hf|]. subst w1.
  destruct (cl_master (w_cluster w)) as [m|] eqn:Em; [simpl; done|]. rewrite bool_decide_eq_true_2 by done. cbn [whenM].
  unfold FailedMasterDiscovery. apply lands_bind. unfold lands at 1, get_cluster. rewrite Es.
  apply lands_bind. unfold lands at 1, index. simpl. apply lands_bind. unfold lands at 1, load.
  eapply lands_weaken; [apply lands_failed_loop|]. intros u2 w2 Hw2. cbv beta in Hw2. rewrite Hw2, Em. done.
Qed.

(** The old master comes back standalone: the slaves still point to it. *)
Definition demo_no_master : World :=
  mkWorld (set_cl_slavesMade true (set_cl_master None demo_cluster))
    (<[0%nat := set_srv_State stateUnconn (demo_heap 0%nat)]> demo_heap_slaves) [].

Lemma found_master_expected_witness :
  exists w', find_master demo_no_master = (Ret tt, w') /\ cl_master (w_cluster w') = Some 0%nat.
Proof.
  destruct (found_master_expected demo_no_master) as (w' & E & M).
  - intros x Hx. apply list_elem_of_In in Hx. vm_compute in Hx.
    destruct Hx as [<-|[<-|[<-|[]]]]; vm_compute; reflexivity.
  - exists w'. split; [exact E|]. rewrite M. vm_compute. reflexivity.
Defined.

(** ** The topology of a bootstrap is read back *)

(** The options a bootstrap sets name the topology it was asked for: read back
    from them (outside PostgreSQL and active-passive clusters), the topology is
    the one set, for a master-slave cluster once its master is known and no relay
    is left; and the topology set is also the target. *)
Theorem bootstrap_topology_read_back name t options c h :
  bootstrap_options name = Some (t, options) ->
  Conf_MasterSlavePgStream (cl_Conf c) = false -> Conf_MasterSlavePgLogical (cl_Conf c) = false ->
  Conf_ActivePassive (cl_Conf c) = false ->
  (t = TopoMasterSlave -> cl_master c <> None /\ GetRelayServer c h = None) ->
  fst (topology_from_conf (BootstrapTopology name c) h) = t /\
  cl_Topology (BootstrapTopology name c) = t /\
  Conf_TopologyTarget (cl_Conf (BootstrapTopology name c)) = t.
Proof.
  intros Hb H1 H2 H3 Hms. unfold BootstrapTopology. rewrite Hb.
  split; [|split; [reflexivity|reflexivity]]. unfold bootstrap_options in Hb.
  repeat (match type of Hb with (if ?b then _ else _) = _ => destruct b end;
    [injection Hb as <- <-; unfold topology_from_conf, topology_options; simpl; try reflexivity|]); [| |discriminate].
  all: destruct (Hms eq_refl) as [Hm Hr]; rewrite H1, H2, H3;
    match type of Hr with GetRelayServer ?c0 ?h0 = _ =>
      match goal with |- context [GetRelayServer ?c1 ?h0] => change (GetRelayServer c1 h0) with (GetRelayServer c0 h0) end
    end;
    rewrite Hr; simpl; match type of Hm with ?m <> _ => by destruct m end.
Qed.

Lemma bootstrap_topology_read_back_witness :
  fst (topology_from_conf (BootstrapTopology "multi-master-ring" demo_cluster) demo_heap) = TopoMultiMasterRing.
Proof.
  destruct (bootstrap_topology_read_back "multi-master-ring" TopoMultiMasterRing
    (topology_options true false false false false false false) demo_cluster demo_heap) as [E _].
  - reflexivity.
  - reflexivity.
  - reflexivity.
  - reflexivity.
  - intros E. discriminate E.
  - exact E.
Defined.
