(* ===== verification/SplitBrain.v ===== *)
(** * Split brain (cluster/cluster_split.go, cluster_set.go, cluster.go, server/server.go)

    Several managers watch the same clusters. A manager that does not hear its
    peer is in split brain: at every round it reports to the arbitrator, and when
    the split brain starts it asks to be elected. The winner is active; a loser
    is standby, and attaches its master to the master of the winner. *)

From Stdlib Require Import ZArith Lia Bool Ascii String.
From stdpp Require Import base list gmap strings functions relations.
From S2P Require Import Prelude GoLib Json Arbitration Gtid Version StateMachine Crash DelayStat Config Server Cluster Demo ServerOps Refresh Election Failover Rejoin FailoverCheck Monitoring Topology.

Local Open Scope string_scope.
Local Open Scope list_scope.
Local Open Scope Z_scope.

(** ** Peers (server/server.go)

    [alive peer]: the peer answers a heartbeat with a message. Without peers the
    arbitration is switched off: [None]. *)
Section Peers.
Context (alive : string -> bool).

Definition HeartbeatPeerSplitBrain (peer : string) : bool := negb (alive peer).

Definition peers_split_brain (hosts : string) (SplitBrain : bool) : option bool :=
  if (hosts =? "")%string then None
  else Some (fold_left (fun _ peer => HeartbeatPeerSplitBrain peer) (strings_Split "," hosts) SplitBrain).
End Peers.

(** ** Messages *)

Definition master_url (c : Cluster) (h : loc -> ServerMonitor) : string :=
  match GetMaster c with Some m => srv_URL (h m) | None => "" end.

Definition report_fields (c : Cluster) (h : loc -> ServerMonitor) : list jfield :=
  [("uuid", JStr (cl_runUUID c)); ("secret", JStr (Conf_ArbitrationSasSecret (cl_Conf c)));
   ("cluster", JStr (cl_Name c)); ("master", JStr (master_url c h));
   ("id", JNum (Conf_ArbitrationSasUniqueId (cl_Conf c))); ("status", JStr (cl_Status c));
   ("hosts", JNum (Z.of_nat (length (cl_servers c)))); ("failed", JNum (CountFailed c h))].
Definition report_body (c : Cluster) (h : loc -> ServerMonitor) : string := print_object (report_fields c h).

Section Ops.
Context `{Env} `{GoSort} `{GoRange}.

(** Stopping a scheduler that does not run blocks. *)
Definition SetActiveStatus (status : string) : M unit :=
  mod_cluster (set_cl_Status status) ;;
  conf ← get_conf;
  whenM (Conf_MonitorScheduler conf)
    (if (status =? ConstMonitorActif)%string then mod_cluster (set_cl_SchedulerRunning true)
     else
       c ← get_cluster;
       if cl_SchedulerRunning c then mod_cluster (set_cl_SchedulerRunning false) else hang).

(** ** Reports *)

Definition SetArbitratorReport : M Err :=
  c ← get_cluster;
  h ← get_heap;
  mod_cluster (set_cl_IsLostMajority (LostMajority c h)) ;;
  e ← call (http_report ("http://" +:+ Conf_ArbitrationSasHosts (cl_Conf c) +:+ "/heartbeat") (report_body c h)
              (Conf_ArbitrationReadTimout (cl_Conf c)));
  mod_cluster (set_cl_IsFailedArbitrator (is_err e)) ;;
  mret e.

(** ** Elections *)

Definition LostArbitration (realmasterurl : string) : M unit :=
  c ← get_cluster;
  h ← get_heap;
  match GetServerFromURL c h realmasterurl with
  | None => mret tt
  | Some realmaster =>
      ml ← deref (GetMaster c);
      let script := Conf_ArbitrationFailedMasterScript (cl_Conf c) in
      if negb (script =? "")%string
      then call (run_script script [srv_Host (h ml); srv_Port (h ml)])
      else SetReplicationGTIDCurrentPosFromServer ml (Some realmaster) ;; mret tt
  end.

Definition election_won : M unit :=
  SetActiveStatus ConstMonitorActif ;;
  SetState "WARN0083" (state_of "WARN0083" "WARNING" "ARB" "" []).

Definition election_lost (master : string) : M unit :=
  SetActiveStatus ConstMonitorStandby ;;
  SetState "ERR00068" (state_of "ERR00068" "ERROR" "ARB" "" []) ;;
  c ← get_cluster;
  h ← get_heap;
  match GetMaster c with
  | Some m => whenM (negb (master =? srv_URL (h m))%string) (LostArbitration master)
  | None => mret tt
  end.

(** Only when the split brain has just changed. *)
Definition ArbitratorElection : M Err :=
  c ← get_cluster;
  h ← get_heap;
  if Bool.eqb (cl_IsSplitBrainBck c) (cl_IsSplitBrain c) then mret None
  else
    let conf := cl_Conf c in
    r ← call (http_election ("http://" +:+ Conf_ArbitrationSasHosts conf +:+ "/arbitrator") (report_body c h)
                (i64 (i64 (Conf_MonitoringTicker conf * 1000) - Conf_ArbitrationReadTimout conf)));
    match r with
    | inl e => mod_cluster (set_cl_IsFailedArbitrator true) ;; mret (Some e)
    | inr (arbitration, master) =>
        mod_cluster (set_cl_IsFailedArbitrator false) ;;
        (if (arbitration =? "winner")%string then election_won else election_lost master) ;;
        mret None
    end.

(** At most [n] elections, until one succeeds. *)
Fixpoint try_elections (n : nat) : M unit :=
  match n with
  | O => mret tt
  | S m =>
      e ← ArbitratorElection;
      match e with
      | Some err => SetState "WARN0082" (state_of "WARN0082" "WARNING" "ARB" "" [fs err]) ;; try_elections m
      | None => mret tt
      end
  end.

Definition Heartbeat : M unit :=
  c ← get_cluster;
  whenM (Conf_Arbitration (cl_Conf c))
    (whenM (cl_IsSplitBrain c)
       (e ← SetArbitratorReport;
        match e with
        | Some err => SetState "WARN0081" (state_of "WARN0081" "WARNING" "ARB" "" [fs err])
        | None => mret tt
        end ;;
        c ← get_cluster;
        whenM (negb (Bool.eqb (cl_IsSplitBrainBck c) (cl_IsSplitBrain c))) (call (time_Sleep 5000)) ;;
        try_elections 3) ;;
     mod_cluster (fun c => set_cl_IsSplitBrainBck (cl_IsSplitBrain c) c)).
End Ops.

(** ** What the arbitrator reads *)

Definition report_of (c : Cluster) (h : loc -> ServerMonitor) : Arbitration.Heartbeat :=
  mkHeartbeat (cl_runUUID c) (Conf_ArbitrationSasSecret (cl_Conf c)) (cl_Name c) (master_url c h)
    (Conf_ArbitrationSasUniqueId (cl_Conf c)) (cl_Status c) (Z.of_nat (length (cl_servers c))) (CountFailed c h).

Lemma decode_report c h :
  fields_ok (report_fields c h) = true -> decode_message (report_body c h) = (false, report_of c h).
Proof.
  intros Hok. unfold decode_message, report_body. rewrite parse_print_object by done. reflexivity.
Qed.

(** ** Frames *)

Section Frames.
Context `{Env} `{GoSort} `{GoRange}.

Definition status_of (w : World) : string := cl_Status (w_cluster w).

Lemma status_call {R} (c : Call R) : Pres (keeps status_of) (call c).
Proof. by intros w. Qed.
Lemma status_mod_server l f : Pres (keeps status_of) (mod_server l f).
Proof. by intros w. Qed.
Lemma status_mod_sm f : Pres (keeps status_of) (mod_sm f).
Proof. by intros w. Qed.
Hint Resolve status_call status_mod_server status_mod_sm : pres.
Lemma status_SetState k s : Pres (keeps status_of) (SetState k s).
Proof. unfold SetState. pres. Qed.
Hint Resolve status_SetState : pres.

Lemma status_LostArbitration url : Pres (keeps status_of) (LostArbitration url).
Proof. unfold LostArbitration, SetReplicationGTIDCurrentPosFromServer. pres. Qed.
Hint Resolve status_LostArbitration : pres.

(** What follows a step that leaves a part of the world so, and keeps that part. *)
Lemma bind_leaves {T A B} (g : World -> T) (m : M A) (f : A -> M B) w v :
  g (snd (m w)) = v -> (forall a, Pres (keeps g) (f a)) -> g (snd ((m ≫= f) w)) = v.
Proof.
  intros E Hf. unfold mbind, M_bind. destruct (m w) as [[a| |] w1]; [|done|done]. cbn in E. subst v. apply Hf.
Qed.

(** The status is set even if the scheduler blocks. *)
Lemma SetActiveStatus_status st w : status_of (snd (SetActiveStatus st w)) = st.
Proof.
  unfold SetActiveStatus, whenM, mbind, M_bind, get_cluster, hang. simpl.
  destruct (Conf_MonitorScheduler _); simpl; [|done]. destruct (st =? _)%string; [done|]. by destruct (cl_SchedulerRunning _).
Qed.

Lemma status_election_won w : status_of (snd (election_won w)) = ConstMonitorActif.
Proof. unfold election_won. apply bind_leaves; [apply SetActiveStatus_status|]. intros ?. pres. Qed.

Lemma status_election_lost m w : status_of (snd (election_lost m w)) = ConstMonitorStandby.
Proof. unfold election_lost. apply bind_leaves; [apply SetActiveStatus_status|]. intros ?. pres. Qed.

(** The answer of the arbitrator to an election, as the call returns it. *)
Definition election_reply (r : option (Z * response)) : string + string * string :=
  match r with
  | None => inl "no answer"
  | Some (_, a) => inr (resp_Arbitration a, resp_ElectedMaster a)
  end.
End Frames.

(** The environment puts elections to the arbitrator, whose table is [t]. *)
Definition asks (E : Env) (f : Faults) (now : Z) (t : Table) : Prop :=
  forall tr url body timeout,
    answer tr (http_election url body timeout) =
    election_reply (fst (handlerArbitrator true f now (Some (decode_message body)) t)).

(** The split brain of the manager has just changed. *)
Definition split_changed (w : World) : Prop := cl_IsSplitBrainBck (w_cluster w) <> cl_IsSplitBrain (w_cluster w).

(** What a manager sends can be read: no quotes, escapes or control characters. *)
Definition readable (w : World) : Prop := fields_ok (report_fields (w_cluster w) (w_heap w)) = true.
Definition message (w : World) : Arbitration.Heartbeat := report_of (w_cluster w) (w_heap w).

(** After an election a manager is active when it won and standby when it lost,
    even if what follows a lost election panics. *)
Lemma election_status `{E : Env} `{GoSort} `{GoRange} f now t w :
  asks E f now t -> readable w -> split_changed w ->
  status_of (snd (ArbitratorElection w)) =
  if fst (RequestArbitration f now (message w) t) then ConstMonitorActif else ConstMonitorStandby.
Proof.
  intros Ha Hr Hs. unfold ArbitratorElection. unfold mbind at 1 2 3, M_bind at 1 2 3. unfold get_cluster at 1, get_heap at 1.
  cbv iota beta. destruct (Bool.eqb _ _) eqn:Eb; [apply eqb_prop in Eb; by unfold split_changed in Hs|].
  cbv zeta. unfold call at 1. cbv iota beta zeta. rewrite Ha, (decode_report _ _ Hr). unfold handlerArbitrator. cbn [negb].
  fold (message w). destruct (RequestArbitration f now (message w) t) as [won t'].
  destruct won; cbn [fst election_reply resp_Arbitration resp_ElectedMaster].
  - change ("winner" =? "winner")%string with true. cbv iota.
    unfold mbind at 1, M_bind at 1, mod_cluster at 1. cbv iota beta.
    match goal with |- context [(election_won ≫= _) ?w1] => set (w2 := w1) end.
    unfold mbind, M_bind. pose proof (status_election_won w2) as Hw.
    destruct (election_won w2) as [[[]| |] w3]; exact Hw.
  - change ("looser" =? "winner")%string with false. cbv iota.
    unfold mbind at 1, M_bind at 1, mod_cluster at 1. cbv iota beta.
    match goal with |- context [(election_lost ?m ≫= _) ?w1] => set (w2 := w1); set (mst := m) end.
    unfold mbind, M_bind. pose proof (status_election_lost mst w2) as Hw.
    destruct (election_lost mst w2) as [[[]| |] w3]; exact Hw.
Qed.


(** ** Without the arbitrator *)

Section Unreachable.
Context `{Env} `{GoSort} `{GoRange}.

Definition unreachable : Prop :=
  (forall tr url body timeout, exists e, answer tr (http_report url body timeout) = Some e) /\
  (forall tr url body timeout, exists e, answer tr (http_election url body timeout) = inl e).

Definition arb_view (w : World) : string * bool * bool :=
  (cl_Status (w_cluster w), cl_IsFailedArbitrator (w_cluster w), Conf_Arbitration (cl_Conf (w_cluster w))).

Lemma frozen_SetState k s w : exists w', SetState k s w = (Ret tt, w') /\ arb_view w' = arb_view w.
Proof.
  unfold SetState, mod_sm, mbind, M_bind. simpl. destruct (negb _); simpl; eauto.
Qed.

Lemma frozen_election w :
  unreachable -> cl_IsFailedArbitrator (w_cluster w) = true ->
  exists e w', ArbitratorElection w = (Ret e, w') /\ arb_view w' = arb_view w.
Proof.
  intros [_ Hu] Hf. unfold ArbitratorElection. unfold mbind, M_bind, get_cluster, get_heap. cbv iota beta zeta.
  destruct (Bool.eqb _ _); [by exists None, w|]. unfold call. cbv zeta iota beta.
  edestruct Hu as [e He]. rewrite He. cbv iota beta. eexists _, _. split; [reflexivity|].
  unfold arb_view. simpl. by rewrite Hf.
Qed.

Lemma frozen_try_elections n : forall w,
  unreachable -> cl_IsFailedArbitrator (w_cluster w) = true ->
  exists w', try_elections n w = (Ret tt, w') /\ arb_view w' = arb_view w.
Proof.
  induction n as [|n IH]; intros w Hu Hf; simpl; [by exists w|].
  destruct (frozen_election w Hu Hf) as (e & w1 & E & V). unfold mbind at 1, M_bind at 1. rewrite E.
  assert (Hf1 : cl_IsFailedArbitrator (w_cluster w1) = true) by (unfold arb_view in V; congruence).
  destruct e as [err|]; [|by exists w1].
  destruct (frozen_SetState "WARN0082" (state_of "WARN0082" "WARNING" "ARB" "" [fs err]) w1) as (w2 & E2 & V2).
  unfold mbind, M_bind. rewrite E2.
  destruct (IH w2 Hu) as (w3 & E3 & V3); [unfold arb_view in *; congruence|]. exists w3. split; [done|congruence].
Qed.

Lemma frozen_report w :
  unreachable ->
  exists e w', SetArbitratorReport w = (Ret (Some e), w') /\
    cl_Status (w_cluster w') = cl_Status (w_cluster w) /\ cl_IsFailedArbitrator (w_cluster w') = true /\
    cl_Conf (w_cluster w') = cl_Conf (w_cluster w).
Proof.
  intros [Hu _]. unfold SetArbitratorReport, mbind, M_bind, get_cluster, get_heap, mod_cluster, call.
  cbv iota beta zeta. edestruct Hu as [e He]. rewrite He.
  eexists _, _. split; [reflexivity|]. done.
Qed.
End Unreachable.

(** C19: A manager that cannot reach the arbitrator during a split brain keeps its
    status and freezes the cluster: after the heartbeat it knows the arbitrator
    as failed, opens no server for writing, and refuses to fail over. *)
Theorem arbitrator_unreachable_freezes `{Env} `{GoSort} `{GoRange} w :
  unreachable -> Conf_Arbitration (cl_Conf (w_cluster w)) = true -> cl_IsSplitBrain (w_cluster w) = true ->
  exists w', Heartbeat w = (Ret tt, w') /\
    status_of w' = status_of w /\ cl_IsFailedArbitrator (w_cluster w') = true /\
    (forall l, SetReadWrite l w' = (Ret (Some "Arbitration is Failed"), w')) /\
    fst (isArbitratorAlive w') = Ret false.
Proof.
  intros Hu Ha Hs. unfold Heartbeat. unfold mbind at 1, M_bind at 1. unfold get_cluster at 1. cbv iota beta.
  unfold whenM at 1. rewrite Ha. unfold whenM at 1. rewrite Hs.
  destruct (frozen_report w Hu) as (e & w1 & E1 & S1 & F1 & C1).
  set (tail := fun _ : unit => mod_cluster _).
  assert (Hmid : forall w2, arb_view w2 = arb_view w1 ->
    exists w3, (c ← get_cluster;
      whenM (negb (Bool.eqb (cl_IsSplitBrainBck c) (cl_IsSplitBrain c))) (call (time_Sleep 5000)) ;;
      try_elections 3) w2 = (Ret tt, w3) /\ arb_view w3 = arb_view w1).
  { intros w2 V2. unfold mbind, M_bind, get_cluster. cbv iota beta. unfold whenM.
    assert (Hcall : exists w2', (if negb (Bool.eqb (cl_IsSplitBrainBck (w_cluster w2)) (cl_IsSplitBrain (w_cluster w2)))
      then call (time_Sleep 5000) else mret tt) w2 = (Ret tt, w2') /\ arb_view w2' = arb_view w2).
    { destruct (negb _); [unfold call; cbv zeta; destruct (answer _ _)|]; eexists; (split; [reflexivity|done]). }
    destruct Hcall as (w2' & -> & V2').
    destruct (frozen_try_elections 3 w2' Hu) as (w3 & E3 & V3); [unfold arb_view in *; congruence|].
    exists w3. split; [exact E3|congruence]. }
  destruct (frozen_SetState "WARN0081" (state_of "WARN0081" "WARNING" "ARB" "" [fs e]) w1) as (w2 & E2 & V2).
  destruct (Hmid w2 V2) as (w3 & E3 & V3).
  assert (V : cl_Status (w_cluster w3) = cl_Status (w_cluster w) /\ cl_IsFailedArbitrator (w_cluster w3) = true /\
              Conf_Arbitration (cl_Conf (w_cluster w3)) = true) by (unfold arb_view in V3; naive_solver congruence).
  exists (snd (tail tt w3)). split.
  { unfold mbind at 1, M_bind at 1. unfold mbind at 1, M_bind at 1. rewrite E1.
    unfold mbind at 1, M_bind at 1. rewrite E2. rewrite E3. reflexivity. }
  destruct V as (V4 & V5 & V6). unfold tail. simpl.
  split; [exact V4|]. split; [exact V5|]. split.
  - intros l. unfold SetReadWrite, mbind, M_bind, get_cluster, load. cbn [w_cluster cl_Conf]. simpl. by rewrite V6, V5.
  - unfold isArbitratorAlive, refuse, mbind, M_bind, get_cluster. simpl. rewrite V6, V5. simpl.
    match goal with |- context [SetState ?k ?s ?w0] => destruct (frozen_SetState k s w0) as (w4 & E4 & _) end.
    by rewrite E4.
Qed.

(** ** Two managers *)

(** The databases of [Demo], with an arbitrator whose table is [t]. *)
Definition arbiter_answer (f : Faults) (now : Z) (t : Table) {R} (tr : list TraceEvent) (c : Call R) : R :=
  match c in Call R return R -> R with
  | http_election _ body _ => fun _ => election_reply (fst (handlerArbitrator true f now (Some (decode_message body)) t))
  | _ => fun d => d
  end (calm_answer demo_databases tr c).
Definition arbiter_env (f : Faults) (now : Z) (t : Table) : Env :=
  {| answer := @arbiter_answer f now t; wait_fuel := 3; env_hour_of := fun t => t / 3600 |}.

Lemma arbiter_asks f now t : asks (arbiter_env f now t) f now t.
Proof. intros tr url body timeout. reflexivity. Qed.

Definition demo_manager (id : Z) : World :=
  mkWorld
    (set_cl_Status ConstMonitorStandby (set_cl_IsSplitBrain true (set_cl_runUUID "run"
      (set_cl_Conf (set_Conf_ArbitrationSasUniqueId id (set_Conf_ArbitrationSasSecret "secret"
        (set_Conf_Arbitration true demo_conf))) demo_cluster)))) demo_heap [].

(** The table after the reports of both managers, and after the election of the first. *)
Definition demo_reported : Table :=
  write_row 101 (message (demo_manager 2)) (write_row 100 (message (demo_manager 1)) []).
Definition demo_elected : Table := snd (RequestArbitration no_faults 102 (message (demo_manager 1)) demo_reported).

(** The first wins, the second loses. *)
Example demo_first_active :
  status_of (snd (ArbitratorElection (H := arbiter_env no_faults 102 demo_reported) (demo_manager 1))) = ConstMonitorActif.
Proof. vm_compute. reflexivity. Qed.

(** The report that the active manager sends at its next round takes the
    election back: the other one, when its split brain starts then, is active too. *)
Example demo_both_active :
  let t := write_row 104 (message (demo_manager 1)) demo_elected in
  status_of (snd (ArbitratorElection (H := arbiter_env no_faults 105 t) (demo_manager 2))) = ConstMonitorActif.
Proof. vm_compute. reflexivity. Qed.

(** A standby manager that loses again blocks where it stops its scheduler. *)
Example demo_loser_blocks :
  fst (ArbitratorElection (H := arbiter_env no_faults 105 demo_elected)
         (mkWorld (set_cl_Conf (set_Conf_MonitorScheduler true (cl_Conf (w_cluster (demo_manager 2)))) (w_cluster (demo_manager 2)))
            demo_heap [])) = Hang.
Proof. vm_compute. reflexivity. Qed.


(** An arbitrator that does not answer. *)
Definition silent_answer {R} (tr : list TraceEvent) (c : Call R) : R :=
  match c in Call R return R -> R with
  | http_report _ _ _ => fun _ => Some "timeout"
  | http_election _ _ _ => fun _ => inl "timeout"
  | _ => fun d => d
  end (calm_answer demo_databases tr c).
Definition silent_env : Env := {| answer := @silent_answer; wait_fuel := 3; env_hour_of := fun t => t / 3600 |}.

Lemma arbitrator_unreachable_freezes_witness :
  exists w', Heartbeat (H := silent_env) (demo_manager 1) = (Ret tt, w') /\
    status_of w' = ConstMonitorStandby /\ cl_IsFailedArbitrator (w_cluster w') = true.
Proof.
  assert (Hu : unreachable (H := silent_env)).
  { split; intros tr url body timeout; [by exists "timeout"|by exists "timeout"]. }
  destruct (arbitrator_unreachable_freezes (H := silent_env) (demo_manager 1) Hu eq_refl eq_refl)
    as (w' & E & S & F & _).
  exists w'. split; [exact E|]. split; [exact S|exact F].
Defined.

(** Only the last peer counts: with the first of two peers silent there is no
    split brain, with the second silent there is. *)
Example demo_last_peer :
  peers_split_brain (fun p => negb (p =? "peer1")%string) "peer1,peer2" false = Some false /\
  peers_split_brain (fun p => negb (p =? "peer2")%string) "peer1,peer2" false = Some true.
Proof. split; reflexivity. Qed.
