(* ===== verification/Configurator.v ===== *)
(** * The configurator (cluster/configurator, config/config.go)

    The tags of databases and proxies, the sizes that are computed from the memory
    given to a database, and the discovery of tags and memory from a running
    server. Generating the files, and the thread count that is computed in
    floating point, are left out. *)

From Stdlib Require Import ZArith Lia Bool Ascii String.
From stdpp Require Import base list gmap strings.
From S2P Require Import Prelude GoLib Config Server.

Local Open Scope string_scope.
Local Open Scope list_scope.
Local Open Scope Z_scope.

(** ** State *)

(** The part of [config.Config] the configurator uses. *)
Record ProvConfig := mkProvConfig {
  pc_ProvMem : string; pc_ProvMemSharedPct : string; pc_ProvIops : string; pc_ProvDisk : string;
  pc_ProvCores : string; pc_ProvMaxConnections : Z; pc_ProvExpireLogDays : Z; pc_ProvTags : string;
  pc_ProvProxTags : string; pc_PRXServersReadOnMaster : bool; pc_PRXServersReadOnMasterNoSlave : bool
}.
Definition eta_ProvConfig (x : ProvConfig) : ProvConfig :=
  mkProvConfig (pc_ProvMem x) (pc_ProvMemSharedPct x) (pc_ProvIops x) (pc_ProvDisk x) (pc_ProvCores x)
    (pc_ProvMaxConnections x) (pc_ProvExpireLogDays x) (pc_ProvTags x) (pc_ProvProxTags x)
    (pc_PRXServersReadOnMaster x) (pc_PRXServersReadOnMasterNoSlave x).
Definition set_pc_ProvMem (v : string) (x : ProvConfig) : ProvConfig :=
  ltac:(assign_field eta_ProvConfig pc_ProvMem v x).
Definition set_pc_ProvIops (v : string) (x : ProvConfig) : ProvConfig :=
  ltac:(assign_field eta_ProvConfig pc_ProvIops v x).
Definition set_pc_ProvDisk (v : string) (x : ProvConfig) : ProvConfig :=
  ltac:(assign_field eta_ProvConfig pc_ProvDisk v x).
Definition set_pc_ProvCores (v : string) (x : ProvConfig) : ProvConfig :=
  ltac:(assign_field eta_ProvConfig pc_ProvCores v x).
Definition set_pc_ProvMaxConnections (v : Z) (x : ProvConfig) : ProvConfig :=
  ltac:(assign_field eta_ProvConfig pc_ProvMaxConnections v x).
Definition set_pc_ProvExpireLogDays (v : Z) (x : ProvConfig) : ProvConfig :=
  ltac:(assign_field eta_ProvConfig pc_ProvExpireLogDays v x).

Record Configurator := mkConfigurator {
  cf_ClusterConfig : ProvConfig; cf_DBTags : list string; cf_ProxyTags : list string
}.
Definition set_cf_ClusterConfig (f : ProvConfig -> ProvConfig) (x : Configurator) : Configurator :=
  mkConfigurator (f (cf_ClusterConfig x)) (cf_DBTags x) (cf_ProxyTags x).

(** ** Tags and settings (configurator_add.go, _del.go, _has.go, _set.go) *)

Definition SetDBTags (newtags : list string) (x : Configurator) : Configurator :=
  mkConfigurator (cf_ClusterConfig x) newtags (cf_ProxyTags x).
Definition SetProxyTags (newtags : list string) (x : Configurator) : Configurator :=
  mkConfigurator (cf_ClusterConfig x) (cf_DBTags x) newtags.
Definition AddDBTag (tag : string) (x : Configurator) : Configurator := SetDBTags (cf_DBTags x ++ [tag]) x.
Definition AddProxyTag (tag : string) (x : Configurator) : Configurator := SetProxyTags (cf_ProxyTags x ++ [tag]) x.

Definition other_tags (dtag : string) (tags : list string) : list string :=
  List.filter (fun tag => negb (dtag =? tag)%string) tags.
Definition DropProxyTag (dtag : string) (x : Configurator) : Configurator :=
  SetProxyTags (other_tags dtag (cf_ProxyTags x)) x.
(** With whether there was such a tag. *)
Definition DropDBTag (dtag : string) (x : Configurator) : bool * Configurator :=
  let newtags := other_tags dtag (cf_DBTags x) in
  if Nat.eqb (length (cf_DBTags x)) (length newtags) then (false, x) else (true, SetDBTags newtags x).

Definition HaveDBTag (tag : string) (x : Configurator) : bool := existsb (fun t => (t =? tag)%string) (cf_DBTags x).
Definition HaveProxyTag (tag : string) (x : Configurator) : bool := existsb (fun t => (t =? tag)%string) (cf_ProxyTags x).

(** [strings.HasSuffix] *)
Fixpoint strings_HasSuffix (s suffix : string) : bool :=
  (s =? suffix)%string || match s with EmptyString => false | String _ r => strings_HasSuffix r suffix end.
Definition IsFilterInProxyTags (filter : string) (x : Configurator) : bool :=
  existsb (strings_HasSuffix filter) (cf_ProxyTags x).
Definition IsFilterInDBTags (filter : string) (x : Configurator) : bool :=
  existsb (strings_HasSuffix filter) (cf_DBTags x).
Definition HasProxyReadLeader (x : Configurator) : bool :=
  if IsFilterInProxyTags "readonmaster" x then true else pc_PRXServersReadOnMaster (cf_ClusterConfig x).
Definition HasProxyReadLeaderNoSlave (x : Configurator) : bool :=
  if IsFilterInProxyTags "readonmasternoslave" x then true else pc_PRXServersReadOnMasterNoSlave (cf_ClusterConfig x).

Definition HasInstallPlugin (Plugins : gmap string string) (name : string) : bool :=
  match Plugins !! name with None => false | Some status => (status =? "ACTIVE")%string end.
Definition HasWsrep (Variables : gmap string string) : bool := (Get Variables "WSREP_ON" =? "ON")%string.

Definition SetConfig (conf : ProvConfig) (x : Configurator) : Configurator :=
  mkConfigurator conf (strings_Split "," (pc_ProvTags conf)) (strings_Split "," (pc_ProvProxTags conf)).
(** The end of [Init], once the modules are loaded. *)
Definition Init (conf : ProvConfig) (x : Configurator) : Configurator :=
  let x := SetConfig conf x in
  if pc_PRXServersReadOnMaster conf && negb (IsFilterInProxyTags "readonmaster" x)
  then AddProxyTag "readonmaster" x else DropProxyTag "readonmaster" x.

Definition SetDBMemory (value : string) : Configurator -> Configurator := set_cf_ClusterConfig (set_pc_ProvMem value).
Definition SetDBCores (value : string) : Configurator -> Configurator := set_cf_ClusterConfig (set_pc_ProvCores value).
Definition SetDBDisk (value : string) : Configurator -> Configurator := set_cf_ClusterConfig (set_pc_ProvDisk value).
Definition SetDBDiskIOPS (value : string) : Configurator -> Configurator := set_cf_ClusterConfig (set_pc_ProvIops value).
Definition SetDBMaxConnections (value : string) : Configurator -> Configurator :=
  set_cf_ClusterConfig (set_pc_ProvMaxConnections
    (match strconv_Atoi value with (n, ErrNone) => n | _ => 1000 end)).
(** The default that an error sets is overwritten. *)
Definition SetDBExpireLogDays (value : string) : Configurator -> Configurator :=
  set_cf_ClusterConfig (set_pc_ProvExpireLogDays (fst (strconv_Atoi value))).

(** ** Sizes (configurator_get.go) *)

(** [None] is a panic, for a part without a colon; otherwise the map up to the
    first number that is none, and whether there was no such number. *)
Fixpoint memory_pcts (parts : list string) (engines : gmap string Z) : option (gmap string Z * bool) :=
  match parts with
  | [] => Some (engines, true)
  | engine :: r =>
      match strings_Split ":" engine with
      | key :: value :: _ =>
          match strconv_Atoi value with
          | (val, ErrNone) => memory_pcts r (<[key := val]> engines)
          | _ => Some (engines, false)
          end
      | _ => None
      end
  end.
Definition GetMemoryPctShared (conf : ProvConfig) : option (gmap string Z * bool) :=
  memory_pcts (strings_Split "," (pc_ProvMemSharedPct conf)) ∅.

Definition pct_of (engines : gmap string Z) (key : string) : Z := default 0 (engines !! key).

(** The share of the memory for a buffer, in MB. *)
Definition buffer_size (key : string) (x : Configurator) : option string :=
  match strconv_ParseInt (pc_ProvMem (cf_ClusterConfig x)) with
  | (containermem, ErrNone) =>
      pcts ← GetMemoryPctShared (cf_ClusterConfig x);
      Some (format_int (Z.quot (i64 (containermem * pct_of (fst pcts) key)) 100))
  | _ => Some "128"
  end.
Definition GetConfigInnoDBBPSize := buffer_size "innodb".
Definition GetConfigMyISAMKeyBufferSize := buffer_size "myisam".
Definition GetConfigTokuDBBufferSize := buffer_size "tokudb".
Definition GetConfigQueryCacheSize := buffer_size "querycache".
Definition GetConfigAriaCacheSize := buffer_size "aria".
Definition GetConfigS3CacheSize := buffer_size "s3".
Definition GetConfigRocksDBCacheSize := buffer_size "rocksdb".

(** One part for each 8 GB. *)
Definition per_8000 (size : option string) : option string :=
  s ← size;
  match strconv_ParseInt s with
  | (value, ErrNone) => Some (format_int (Z.quot value 8000 + 1))
  | _ => Some "1"
  end.
Definition GetConfigMyISAMKeyBufferSegements (x : Configurator) : option string := per_8000 (GetConfigMyISAMKeyBufferSize x).
Definition GetConfigInnoDBBPInstances (x : Configurator) : option string := per_8000 (GetConfigInnoDBBPSize x).

Definition GetConfigInnoDBIOCapacity (x : Configurator) : string :=
  match strconv_ParseInt (pc_ProvIops (cf_ClusterConfig x)) with
  | (value, ErrNone) => format_int (Z.quot value 3) | _ => "100"
  end.
Definition GetConfigInnoDBIOCapacityMax (x : Configurator) : string :=
  match strconv_ParseInt (pc_ProvIops (cf_ClusterConfig x)) with
  | (value, ErrNone) => format_int value | _ => "200"
  end.

(** Half of the buffer pool, between 1 and 20 GB. *)
Definition redo_size (bp : Z) : Z := Z.min (20 * 1024) (Z.max 1024 (Z.quot bp 2)).
Definition GetConfigInnoDBLogFileSize (x : Configurator) : option string :=
  s ← GetConfigInnoDBBPSize x;
  match strconv_ParseInt s with
  | (value, ErrNone) => Some (if HaveDBTag "smallredolog" x then "128" else format_int (redo_size value))
  | _ => Some "1024"
  end.

(** ** Discovery (configurator.go) *)

Section Discovery.
Context (Variables : gmap string string) (Plugins : gmap string string).

Definition equals (name value : string) : bool := (Get Variables name =? value)%string.
Definition differs (name value : string) : bool := negb (equals name value).
Definition mentions (name part : string) : bool := strings_Contains (Get Variables name) part.
Definition plugin : string -> bool := HasInstallPlugin Plugins.

(** The tags and when they apply, in the order of the source. *)
Definition durability_tags : list (bool * string) :=
  [(equals "INNODB_DOUBLEWRITE" "OFF", "nodoublewrite");
   (differs "INNODB_FLUSH_LOG_AT_TRX_COMMIT" "1" && differs "SYNC_BINLOG" "1", "nodurable");
   (differs "INNODB_FLUSH_METHOD" "O_DIRECT", "noodirect");
   (equals "LOG_BIN_COMPRESS" "ON", "compressbinlog");
   (equals "INNODB_DEFRAGMENT" "ON", "autodefrag");
   (equals "INNODB_COMPRESSION_DEFAULT" "ON", "compresstable")].
Definition plugin_tags : list (bool * string) :=
  [(plugin "BLACKHOLE", "blackhole"); (plugin "QUERY_RESPONSE_TIME", "userstats");
   (plugin "SQL_ERROR_LOG", "sqlerror"); (plugin "METADATA_LOCK_INFO", "metadatalocks");
   (plugin "SERVER_AUDIT", "audit"); (equals "SLOW_QUERY_LOG" "ON", "slow"); (equals "GENERAL_LOG" "ON", "general");
   (equals "PERFORMANCE_SCHEMA" "ON", "pfs"); (equals "LOG_OUTPUT" "TABLE", "logtotable");
   (plugin "CONNECT", "connect"); (plugin "SPIDER", "spider"); (plugin "SPHINX", "sphinx");
   (plugin "MROONGA", "mroonga"); (HasWsrep Variables, "wsrep"); (plugin "ARCHIVE", "archive");
   (plugin "CRACKLIB_PASSWORD_CHECK", "pwdcheckcracklib"); (plugin "SIMPLE_PASSWORD_CHECK", "pwdchecksimple")].
Definition replication_tags : list (bool * string) :=
  [(equals "LOCAL_INFILE" "ON", "localinfile"); (equals "SKIP_NAME_RESOLVE" "OFF", "resolvdns");
   (equals "READ_ONLY" "ON", "readonly"); (equals "HAVE_SSL" "YES", "ssl");
   (equals "BINLOG_FORMAT" "STATEMENT", "statement"); (equals "BINLOG_FORMAT" "ROW", "row");
   (equals "LOG_BIN" "OFF", "nobinlog"); (equals "LOG_BIN" "OFF", "nobinlog");
   (equals "LOG_SLAVE_UPDATES" "OFF", "nologslaveupdates"); (equals "RPL_SEMI_SYNC_MASTER_ENABLED" "ON", "semisync");
   (equals "GTID_STRICT_MODE" "ON", "gtidstrict");
   (mentions "SLAVE_TYPE_COVERSIONS" "ALL_NON_LOSSY" || mentions "SLAVE_TYPE_COVERSIONS" "ALL_LOSSY", "lossyconv");
   (equals "SLAVE_EXEC_MODE" "IDEMPOTENT", "idempotent")].
Definition optimizer_tags : list (bool * string) :=
  [(mentions "OPTIMIZER_SWITCH" "SUBQUERY_CACHE=ON", "subquerycache");
   (mentions "OPTIMIZER_SWITCH" "SEMIJOIN_WITH_CACHE=ON", "semijoincache");
   (mentions "OPTIMIZER_SWITCH" "FIRSTMATCH=ON", "firstmatch");
   (mentions "OPTIMIZER_SWITCH" "EXTENDED_KEYS=ON", "extendedkeys");
   (mentions "OPTIMIZER_SWITCH" "LOOSESCAN=ON", "loosescan");
   (mentions "OPTIMIZER_SWITCH" "INDEX_CONDITION_PUSHDOWN=OFF", "noicp");
   (mentions "OPTIMIZER_SWITCH" "IN_TO_EXISTS=OFF", "nointoexists");
   (mentions "OPTIMIZER_SWITCH" "DERIVED_MERGE=OFF", "noderivedmerge");
   (mentions "OPTIMIZER_SWITCH" "DERIVED_WITH_KEYS=OFF", "noderivedwithkeys");
   (mentions "OPTIMIZER_SWITCH" "MRR=OFF", "nomrr");
   (mentions "OPTIMIZER_SWITCH" "OUTER_JOIN_WITH_CACHE=OFF", "noouterjoincache");
   (mentions "OPTIMIZER_SWITCH" "SEMI_JOIN_WITH_CACHE=OFF", "nosemijoincache");
   (mentions "OPTIMIZER_SWITCH" "TABLE_ELIMINATION=OFF", "notableelimination");
   (mentions "SQL_MODE" "ORACLE", "sqlmodeoracle"); (equals "SQL_MODE" "", "sqlmodeunstrict")].
Definition charset_tag (charset ci cs : string) : list (bool * string) :=
  let of_set := equals "CHARACTER_SET_SERVER" charset in
  let insensitive := mentions "COLLATION_SERVER" "_ci" in
  [(of_set && insensitive, ci); (of_set && negb insensitive, cs)].
Definition session_tags : list (bool * string) :=
  [(equals "TX_ISOLATION" "READ-COMMITTED", "readcommitted"); (equals "TX_ISOLATION" "READ-UNCOMMITTED", "readuncommitted");
   (equals "TX_ISOLATION" "REPEATABLE-READ", "reapeatableread"); (equals "TX_ISOLATION" "SERIALIZED", "serialized");
   (equals "JOIN_CACHE_LEVEL" "8", "hashjoin"); (equals "JOIN_CACHE_LEVEL" "6", "mrrjoin");
   (equals "JOIN_CACHE_LEVEL" "2", "nestedjoin"); (equals "LOWER_CASE_TABLE_NAMES" "1", "lowercasetable");
   (equals "USER_STAT_TABLES" "PREFERABLY_FOR_QUERIES", "eits")] ++
  charset_tag "UTF8MB4" "bm4ci" "bm4cs" ++ charset_tag "UTF8" "utf8ci" "utf8cs".

Definition discovered_tags : list string :=
  map snd (List.filter fst (durability_tags ++ plugin_tags ++ replication_tags ++ optimizer_tags ++ session_tags)).

(** [strconv.ParseUint] of a variable: the size, or the error that ends the discovery. *)
Definition read_size (name : string) : Z + NumErr :=
  match strconv_ParseUint (Get Variables name) 64 with (n, ErrNone) => inl n | (_, e) => inr e end.

(** An engine that only some servers have: its tag and its size, which must parse. *)
Definition read_engine (name tag : string) (x : Configurator) : (Z + NumErr) * Configurator :=
  match Variables !! name with
  | None => (inl 0, x)
  | Some _ => (read_size name, if (tag =? "")%string then x else AddDBTag tag x)
  end.

(** The sizes of S3 and RocksDB are read and not counted. *)
Definition discover_memory (x : Configurator) : (Z + NumErr) * Configurator :=
  match read_size "INNODB_BUFFER_POOL_SIZE" with inr e => (inr e, x) | inl innodbmem =>
  match read_size "KEY_BUFFER_SIZE" with inr e => (inr e, x) | inl myisammem =>
  match read_size "QUERY_CACHE_SIZE" with inr e => (inr e, x) | inl qcmem =>
  let x := if qcmem =? 0 then AddDBTag "noquerycache" x else x in
  match read_engine "ARIA_PAGECACHE_BUFFER_SIZE" "" x with (inr e, x) => (inr e, x) | (inl ariamem, x) =>
  match read_engine "TOKUDB_CACHE_SIZE" "tokudb" x with (inr e, x) => (inr e, x) | (inl tokumem, x) =>
  match read_engine "S3_PAGECACHE_BUFFER_SIZE" "s3" x with (inr e, x) => (inr e, x) | (inl _, x) =>
  match read_engine "ROCKSDB_BLOCK_CACHE_SIZE" "myrocks" x with (inr e, x) => (inr e, x) | (inl _, x) =>
  (inl (u64 (innodbmem + myisammem + qcmem + ariamem + tokumem)), x)
  end end end end end end end.

(** In MB, with the share of the threads on top; [None] is a panic. *)
Definition ConfigDiscovery (x : Configurator) : option (option NumErr * Configurator) :=
  match discover_memory x with
  | (inr e, x) => Some (Some e, x)
  | (inl totalmem, x) =>
      pcts ← GetMemoryPctShared (cf_ClusterConfig x);
      let totalmem := u64 (totalmem + Z.quot (u64 (totalmem * u64 (pct_of (fst pcts) "threads"))) 100) in
      let x := SetDBMemory (format_uint (totalmem / 1024 / 1024)) x in
      let x := SetDBCores (Get Variables "THREAD_POOL_SIZE") x in
      Some (None, fold_left (fun x tag => AddDBTag tag x) discovered_tags x)
  end.
End Discovery.

(** ** Properties *)

(** The buffers that are given a share of the memory. *)
Definition shared_buffers : list string := ["innodb"; "myisam"; "aria"; "rocksdb"; "tokudb"; "s3"; "querycache"].

Definition sum (l : list Z) : Z := fold_right Z.add 0 l.

Lemma share_exact x key n engines ok :
  strconv_ParseInt (pc_ProvMem (cf_ClusterConfig x)) = (n, ErrNone) -> 0 <= n -> n * 100 < two63 ->
  GetMemoryPctShared (cf_ClusterConfig x) = Some (engines, ok) -> 0 <= pct_of engines key <= 100 ->
  buffer_size key x = Some (format_int (n * pct_of engines key / 100)).
Proof.
  intros Hn H0 Hb Hp Hk. unfold buffer_size. rewrite Hn, Hp. cbn.
  rewrite i64_small by (unfold is_i64, two63 in *; nia). rewrite Z.quot_div_nonneg by nia. done.
Qed.

Lemma shares_sum n pcts : 0 <= n -> Forall (fun p => 0 <= p) pcts -> sum (map (fun p => n * p / 100) pcts) * 100 <= n * sum pcts.
Proof.
  intros Hn Hp. induction Hp as [|p l H1 Hl IH]; [cbn; lia|]. cbn [map sum fold_right].
  fold (sum (map (fun p => n * p / 100) l)). fold (sum l).
  pose proof (Z.mul_div_le (n * p) 100 ltac:(lia)). nia.
Qed.

Lemma pct_le_sum engines keys key :
  (forall k, 0 <= pct_of engines k) -> In key keys -> pct_of engines key <= sum (map (pct_of engines) keys).
Proof.
  intros Hp. assert (Hs : forall l, 0 <= sum (map (pct_of engines) l)).
  { induction l as [|k l IH]; [done|]. cbn. fold (sum (map (pct_of engines) l)). specialize (Hp k). lia. }
  induction keys as [|k l IH]; [done|]. cbn. fold (sum (map (pct_of engines) l)).
  intros [->|Hin]; [specialize (Hs l); lia|]. specialize (IH Hin). specialize (Hp k). lia.
Qed.

(** C40: the buffers together never ask for more than the memory of the database, as
    long as the configured shares are at most a hundred percent. *)
Theorem buffers_fit_memory (x : Configurator) (n : Z) (engines : gmap string Z) (ok : bool) :
  strconv_ParseInt (pc_ProvMem (cf_ClusterConfig x)) = (n, ErrNone) -> 0 <= n -> n * 100 < two63 ->
  GetMemoryPctShared (cf_ClusterConfig x) = Some (engines, ok) ->
  (forall k, 0 <= pct_of engines k) -> sum (map (pct_of engines) shared_buffers) <= 100 ->
  exists sizes, Forall2 (fun key v => buffer_size key x = Some (format_int v) /\ 0 <= v) shared_buffers sizes /\
    sum sizes <= n.
Proof.
  intros Hn H0 Hb Hp Hk Hs. exists (map (fun p => n * p / 100) (map (pct_of engines) shared_buffers)). split.
  - assert (Hall : forall key, In key shared_buffers -> pct_of engines key <= 100)
      by (intros key Hkey; pose proof (pct_le_sum engines shared_buffers key Hk Hkey); lia).
    revert Hall. generalize shared_buffers. induction l as [|key l IH]; intros Hall; constructor.
    + split; [|apply Z.div_pos; [specialize (Hk key); nia|lia]].
      eapply share_exact; eauto. split; [apply Hk|apply Hall; by left].
    + apply IH. intros k Hin. apply Hall. by right.
  - pose proof (shares_sum n (map (pct_of engines) shared_buffers) H0) as Hsum.
    assert (Hf : Forall (fun p => 0 <= p) (map (pct_of engines) shared_buffers))
      by (apply List.Forall_forall; intros p Hin; apply in_map_iff in Hin as (k & <- & _); apply Hk).
    specialize (Hsum Hf). nia.
Qed.

(** The size of the redo log. *)
Lemma redo_log_bounds x s :
  GetConfigInnoDBLogFileSize x = Some s -> exists v, s = format_int v /\ (v = 128 \/ 1024 <= v <= 20480).
Proof.
  unfold GetConfigInnoDBLogFileSize. destruct (GetConfigInnoDBBPSize x) as [bp|]; [|done]. cbn.
  destruct (strconv_ParseInt bp) as [v []]; intros [= <-].
  - destruct (HaveDBTag "smallredolog" x); [exists 128; auto|]. exists (redo_size v). split; [done|right]. unfold redo_size. lia.
  - exists 1024. split; [done|lia].
  - exists 1024. split; [done|lia].
Qed.

Lemma DropDBTag_gone dtag x : HaveDBTag dtag (snd (DropDBTag dtag x)) = false.
Proof.
  unfold DropDBTag, HaveDBTag.
  assert (Hf : existsb (fun t => (t =? dtag)%string) (other_tags dtag (cf_DBTags x)) = false).
  { unfold other_tags. induction (cf_DBTags x) as [|t l IH]; [done|]. cbn.
    destruct (String.eqb_spec dtag t) as [->|Hne]; cbn; [done|]. rewrite IH, orb_false_r. apply String.eqb_neq. congruence. }
  destruct (Nat.eqb_spec (length (cf_DBTags x)) (length (other_tags dtag (cf_DBTags x)))) as [El|]; [|exact Hf].
  cbn [snd]. replace (cf_DBTags x) with (other_tags dtag (cf_DBTags x)); [exact Hf|].
  symmetry in El. revert El. unfold other_tags. clear. induction (cf_DBTags x) as [|t l IH]; [done|]. cbn.
  destruct (negb _); cbn; [intros [= E]; f_equal; auto|].
  intros E. pose proof (List.filter_length_le (fun tag => negb (dtag =? tag)%string) l). lia.
Qed.

(** ** Examples *)

Definition demo_prov : ProvConfig :=
  mkProvConfig "16384" "threads:16,innodb:60,myisam:10,aria:10,rocksdb:1,tokudb:1,s3:1,archive:1,querycache:0"
    "300" "20" "4" 1000 5 "" "readonmaster" true false.
Definition demo_configurator : Configurator := SetConfig demo_prov (mkConfigurator demo_prov [] []).

Definition demo_engines : gmap string Z :=
  default ∅ (option_map fst (GetMemoryPctShared (cf_ClusterConfig demo_configurator))).

Lemma parsed_engines conf :
  match GetMemoryPctShared conf with Some (_, true) => true | _ => false end = true ->
  GetMemoryPctShared conf = Some (default ∅ (option_map fst (GetMemoryPctShared conf)), true).
Proof. by destruct (GetMemoryPctShared conf) as [[? []]|]. Qed.

Lemma pcts_nonneg engines :
  forallb (fun kv => 0 <=? snd kv) (map_to_list engines) = true -> forall k, 0 <= pct_of engines k.
Proof.
  rewrite forallb_forall. intros Hf k. unfold pct_of. destruct (engines !! k) as [v|] eqn:E; [|done].
  specialize (Hf (k, v)). cbn in *. apply Z.leb_le, Hf. by apply list_elem_of_In, elem_of_map_to_list.
Qed.

Lemma buffers_fit_memory_witness :
  GetConfigInnoDBBPSize demo_configurator = Some "9830" /\
  exists sizes, Forall2 (fun key v => buffer_size key demo_configurator = Some (format_int v) /\ 0 <= v) shared_buffers sizes /\
    sum sizes <= 16384.
Proof.
  split; [vm_compute; reflexivity|]. apply (buffers_fit_memory demo_configurator 16384 demo_engines true).
  - vm_compute. reflexivity.
  - discriminate.
  - vm_compute. reflexivity.
  - apply parsed_engines. vm_compute. reflexivity.
  - apply pcts_nonneg. vm_compute. reflexivity.
  - vm_compute. discriminate.
Defined.

(** Without any tag the empty text is a tag, and every filter ends with it. *)
Example demo_empty_tags : IsFilterInDBTags "any module" demo_configurator = true.
Proof. reflexivity. Qed.

(** A tag that is configured and asked for by the option is dropped. *)
Example demo_readonmaster_dropped : HaveProxyTag "readonmaster" (Init demo_prov demo_configurator) = false.
Proof. reflexivity. Qed.

(** A number of days that does not parse becomes zero, not the default of five. *)
Example demo_expire_days : pc_ProvExpireLogDays (cf_ClusterConfig (SetDBExpireLogDays "many" demo_configurator)) = 0.
Proof. reflexivity. Qed.

(** A second discovery appends the tags again. *)
Example demo_discovery_twice :
  let vars := list_to_map [("INNODB_BUFFER_POOL_SIZE", "1048576000"); ("KEY_BUFFER_SIZE", "0"); ("QUERY_CACHE_SIZE", "1");
    ("S3_PAGECACHE_BUFFER_SIZE", "1048576000"); ("INNODB_FLUSH_METHOD", "O_DIRECT"); ("SYNC_BINLOG", "1"); ("SQL_MODE", "X")] in
  match ConfigDiscovery vars ∅ demo_configurator with
  | Some (None, x) =>
      match ConfigDiscovery vars ∅ x with
      | Some (None, x') => (pc_ProvMem (cf_ClusterConfig x), cf_DBTags x, cf_DBTags x') = ("1160", [""; "s3"], [""; "s3"; "s3"])
      | _ => False
      end
  | _ => False
  end.
Proof. vm_compute. reflexivity. Qed.
