(* ===== verification/ProxySql.v ===== *)
(** * ProxySQL behind the servers (cluster/prx_proxysql.go, router/proxysql/proxysql.go)

    The manager keeps the backends of a ProxySQL in line with the roles it knows:
    [Failover] moves the writer, [Refresh] compares every server with the host
    groups at each round and repairs one difference per server, [SetMaintenance]
    drains a server. The Configurator of the cluster, which they only read, is a
    variable of the section. *)

From Stdlib Require Import ZArith Lia Bool Ascii String.
From stdpp Require Import base list gmap strings functions.
From S2P Require Import Prelude GoLib Version StateMachine Config Server Proxy Cluster ServerOps Rejoin Configurator.

Local Open Scope string_scope.
Local Open Scope list_scope.
Local Open Scope Z_scope.

(** ** The connection (router/proxysql/proxysql.go) *)

Record ProxySQL := mkProxySQL { psql_id : nat; WriterHG : Z; ReaderHG : Z; psql_Weight : string }.

(** The group of the servers that are out of service. *)
Definition offline_group : Z := 666.

Section Ops.
Context `{Env} `{GoRange} (cfg : Configurator).

Definition psql_run (psql : ProxySQL) (s : PsqlStmt) : M Err := call (psql_Exec (psql_id psql) s).
Definition both_groups (psql : ProxySQL) : list Z := [ReaderHG psql; WriterHG psql].

Definition AddHostgroups (psql : ProxySQL) (clustername : string) : M Err :=
  psql_run psql (replace_hostgroups (WriterHG psql) (ReaderHG psql) clustername).
Definition AddServerAsReader (psql : ProxySQL) (host port weight max_replication_lag max_connections compression use_ssl : string)
  : M Err :=
  psql_run psql (replace_server (ReaderHG psql) host port
    (mkPsqlServer "ONLINE" weight max_replication_lag max_connections compression use_ssl)).
Definition AddServerAsWriter (psql : ProxySQL) (host port use_ssl : string) : M Err :=
  psql_run psql (replace_server (WriterHG psql) host port (psql_row (psql_Weight psql) use_ssl)).
Definition LoadServersToRuntime (psql : ProxySQL) : M Err := psql_run psql (admin_command load_servers).
Definition AddShardServer (psql : ProxySQL) (host port use_ssl : string) : M Err :=
  e ← psql_run psql (insert_server 999 host port (psql_row "1" use_ssl));
  LoadServersToRuntime psql ;; mret e.
Definition AddOfflineServer (psql : ProxySQL) (host port use_ssl : string) : M Err :=
  psql_run psql (replace_server offline_group host port (psql_row "1" use_ssl)).
Definition SetOffline (psql : ProxySQL) (host port : string) : M Err :=
  psql_run psql (update_hostgroup offline_group false host port [WriterHG psql]).
Definition ExistAsWriterOrOffline (psql : ProxySQL) (host port : string) : M bool :=
  call (psql_Exists (psql_id psql) host port [offline_group; WriterHG psql]).
Definition SetOnline (psql : ProxySQL) (host port : string) : M Err :=
  psql_run psql (update_hostgroup (WriterHG psql) false host port [offline_group]).
Definition SetOfflineSoft (psql : ProxySQL) (host port : string) : M Err :=
  psql_run psql (update_status "OFFLINE_SOFT" host port (both_groups psql)).
Definition SetOnlineSoft (psql : ProxySQL) (host port : string) : M Err :=
  psql_run psql (update_status "ONLINE" host port (both_groups psql)).
Definition SetWriter (psql : ProxySQL) (host port : string) : M Err :=
  psql_run psql (update_hostgroup (WriterHG psql) true host port (both_groups psql)).
Definition DeleteAllWriters (psql : ProxySQL) : M Err := psql_run psql (delete_group (WriterHG psql) (both_groups psql)).
Definition SetReader (psql : ProxySQL) (host port : string) : M Err :=
  psql_run psql (update_hostgroup (ReaderHG psql) true host port (both_groups psql)).
Definition DropReader (psql : ProxySQL) (host port : string) : M Err :=
  psql_run psql (delete_server (ReaderHG psql) host port).
Definition DropWriter (psql : ProxySQL) (host port : string) : M Err :=
  psql_run psql (delete_server (WriterHG psql) host port).
Definition ReloadTLS (psql : ProxySQL) : M Err := psql_run psql (admin_command "PROXYSQL RELOAD TLS").
Definition CopyReaderToWriter (psql : ProxySQL) (host port : string) : M Err :=
  psql_run psql (copy_server (WriterHG psql) (ReaderHG psql) host port).

Definition ReplaceWriter (psql : ProxySQL) (host port oldhost oldport : string) (masterasreader : bool) : M Err :=
  if masterasreader then
    e ← DeleteAllWriters psql;
    if is_err e then mret e else CopyReaderToWriter psql host port
  else
    e ← SetReader psql oldhost oldport;
    if is_err e then mret e else SetWriter psql host port.

Definition LoadUsersToRuntime (psql : ProxySQL) : M Err := psql_run psql (admin_command "LOAD MYSQL USERS TO RUNTIME").
Definition AddUser (psql : ProxySQL) (User Password : string) : M Err :=
  e ← psql_run psql (replace_user User Password (WriterHG psql));
  if is_err e then mret e else LoadUsersToRuntime psql.
Definition SetMySQLVariable (psql : ProxySQL) (variable value : string) : M Err :=
  psql_run psql (update_variable variable value).
Definition SaveServersToDisk (psql : ProxySQL) : M Err := psql_run psql (admin_command "SAVE MYSQL SERVERS TO DISK").
Definition LoadMySQLVariablesToRuntime (psql : ProxySQL) : M Err :=
  psql_run psql (admin_command "LOAD MYSQL VARIABLES TO RUNTIME").
Definition SaveMySQLVariablesToDisk (psql : ProxySQL) : M Err :=
  psql_run psql (admin_command "SAVE MYSQL VARIABLES TO DISK").
Definition SaveMySQLUsersToDisk (psql : ProxySQL) : M Err := psql_run psql (admin_command "SAVE MYSQL USERS TO DISK").

Definition LoadAdminVariablesToRuntime (psql : ProxySQL) : M Err :=
  psql_run psql (admin_command "LOAD ADMIN VARIABLES TO RUNTIME").
Definition SaveAdminVariablesToDisk (psql : ProxySQL) : M Err :=
  psql_run psql (admin_command "SAVE ADMIN VARIABLES TO DISK").
Definition Shutdown (psql : ProxySQL) : M Err := psql_run psql (admin_command "PROXYSQL KILL").
Definition Truncate (psql : ProxySQL) : M Err :=
  psql_run psql (admin_prepared "DELETE FROM mysql_servers WHERE hostgroup_id in ('%s','%s')"
    [format_int (ReaderHG psql); format_int (WriterHG psql)]).

(** The value is an argument of a statement that has no placeholder. *)
Definition SetMonitorIsAlsoWriter (psql : ProxySQL) (v : bool) : M Err :=
  psql_run psql (admin_prepared "SET mysql-monitor_writer_is_also_reader = %d" [if v then "1" else "0"]).

(** ** The proxy *)

Definition get_proxy (c : Cluster) (p : nat) : Proxy := default zeroProxy (cl_ProxyMonitors c !! p).
Definition load_proxy (p : nat) : M Proxy := c ← get_cluster; mret (get_proxy c p).
Definition mod_proxy (p : nat) (f : Proxy -> Proxy) : M unit :=
  mod_cluster (fun c => set_cl_ProxyMonitors (<[p := f (get_proxy c p)]> (cl_ProxyMonitors c)) c).

Definition proxysql_of (p : nat) (proxy : Proxy) : ProxySQL :=
  mkProxySQL p (prx_WriterHostgroup proxy) (prx_ReaderHostgroup proxy) (prx_Weight proxy).
Definition Connect (p : nat) : M (ProxySQL * Err) :=
  proxy ← load_proxy p;
  e ← call (psql_Connect p);
  mret (proxysql_of p proxy, e).

Definition UseSSL : string := if HaveDBTag "ssl" cfg then "1" else "0".

Definition connection_error (err : string) : M unit :=
  SetState "ERR00051" (state_of "ERR00051" "ERROR" "MON" "" [fs err]).
Definition on_error (e : Err) (f : string -> M unit) : M unit :=
  match e with Some err => f err | None => mret tt end.
Definition proxy_warning (p : nat) (key from : string) (args : list fmt_arg) : M unit :=
  proxy ← load_proxy p; SetState key (state_of key "WARNING" from (prx_Name proxy) args).

Definition bool_int (b : bool) : string := if b then "1" else "0".

(** A server as reader with the limits of the configuration. *)
Definition add_reader (psql : ProxySQL) (s : ServerMonitor) : M Err :=
  conf ← get_conf;
  AddServerAsReader psql (Unbracket (srv_Host s)) (srv_Port s) "1"
    (format_int (Conf_PRXServersBackendMaxReplicationLag conf)) (format_int (Conf_PRXServersBackendMaxConnections conf))
    (bool_int (Conf_PRXServersBackendCompression conf)) UseSSL.

(** *** Bootstrap *)

Definition init_backend (psql : ProxySQL) (l : loc) : M unit :=
  c ← get_cluster;
  h ← get_heap;
  let s := h l in
  if state_is s stateUnconn || IsIgnored s
  then AddOfflineServer psql (Unbracket (srv_Host s)) (srv_Port s) UseSSL ;; mret tt
  else if IsLeader c h l
  then
    AddServerAsWriter psql (Unbracket (srv_Host s)) (srv_Port s) UseSSL ;;
    whenM (HasProxyReadLeader cfg) (add_reader psql s ;; mret tt)
  else whenM (state_is s stateSlave) (add_reader psql s ;; mret tt).

Definition prx_Init (p : nat) : M unit :=
  c ← get_cluster;
  if negb (Conf_ProxysqlBootstrap (cl_Conf c)) || negb (Conf_ProxysqlOn (cl_Conf c)) then mret tt
  else
    pe ← Connect p;
    match pe with
    | (_, Some err) => connection_error err
    | (psql, None) =>
        whenM (Conf_ProxysqlBootstrapHG (cl_Conf c)) (AddHostgroups psql (cl_Name c) ;; mret tt) ;;
        forM (cl_servers c) (init_backend psql) ;;
        LoadServersToRuntime psql ;;
        whenM (Conf_ProxysqlSaveToDisk (cl_Conf c)) (SaveServersToDisk psql ;; mret tt)
    end.

(** *** Failover *)

Definition failover_backend (psql : ProxySQL) (l : loc) : M unit :=
  c ← get_cluster;
  h ← get_heap;
  let s := h l in
  let host := Unbracket (srv_Host s) in
  whenM (state_is s stateUnconn || IsIgnored s) (SetOffline psql host (srv_Port s) ;; mret tt) ;;
  match cl_oldMaster c with
  | Some om =>
      whenM (IsMaster c h s && negb (srv_IsRelay s))
        (ReplaceWriter psql host (srv_Port s) (Unbracket (srv_Host (h om))) (srv_Port (h om)) (HasProxyReadLeader cfg) ;;
         mret tt)
  | None => mret tt
  end.

Definition prx_Failover (p : nat) : M unit :=
  c ← get_cluster;
  pe ← Connect p;
  match pe with
  | (_, Some err) => connection_error err
  | (psql, None) =>
      forM (cl_servers c) (failover_backend psql) ;;
      LoadServersToRuntime psql ;;
      whenM (Conf_ProxysqlSaveToDisk (cl_Conf c)) (SaveServersToDisk psql ;; mret tt)
  end.

(** *** Maintenance *)

Definition prx_SetMaintenance (p : nat) (l : loc) : M unit :=
  c ← get_cluster;
  if negb (Conf_ProxysqlOn (cl_Conf c)) then mret tt
  else
    pe ← Connect p;
    match pe with
    | (_, Some err) => connection_error err
    | (psql, None) =>
        s ← load l;
        (if srv_IsMaintenance s then SetOfflineSoft psql (Unbracket (srv_Host s)) (srv_Port s)
         else SetOnlineSoft psql (Unbracket (srv_Host s)) (srv_Port s)) ;;
        LoadServersToRuntime psql ;; mret tt
    end.

Definition RotateMonitoringPasswords (p : nat) (password : string) : M unit :=
  c ← get_cluster;
  pe ← Connect p;
  match pe with
  | (_, Some err) => connection_error err
  | (psql, None) =>
      vars ← call (psql_GetVariables (psql_id psql));
      SetMySQLVariable psql "mysql-monitor_password" password ;;
      whenM (negb (default "" (fst vars !! "MYSQL-MONITOR_USERNAME") =? strings_ToUpper (GetDbUser (cl_Conf c)))%string)
        (SetMySQLVariable psql "mysql-monitor_username" (GetDbUser (cl_Conf c)) ;; mret tt) ;;
      LoadMySQLVariablesToRuntime psql ;;
      SaveMySQLVariablesToDisk psql ;; mret tt
  end.

(** The new password is kept also when ProxySQL refused it. *)
Definition RotateProxyPasswords (p : nat) (password : string) : M unit :=
  proxy ← load_proxy p;
  pe ← Connect p;
  match pe with
  | (_, Some err) => connection_error err
  | (psql, None) =>
      SetMySQLVariable psql "admin-admin_credentials" (prx_User proxy +:+ ":" +:+ password) ;;
      LoadAdminVariablesToRuntime psql ;;
      SaveAdminVariablesToDisk psql ;;
      mod_proxy p (set_prx_Pass password)
  end.

Definition CertificatesReload (p : nat) : M Err :=
  pe ← Connect p;
  match pe with
  | (_, Some err) => connection_error err ;; mret (Some err)
  | (psql, None) => ReloadTLS psql
  end.

Definition prx_Shutdown (p : nat) : M unit :=
  pe ← Connect p;
  match pe with
  | (_, Some err) => connection_error err
  | (psql, None) => Shutdown psql ;; mret tt
  end.

(** A shard proxy, by host and port, as a server of its own group. *)
Definition AddShardProxy (p : nat) (host port : string) : M unit :=
  conf ← get_conf;
  if negb (Conf_ProxysqlOn conf) then mret tt
  else
    pe ← Connect p;
    match pe with
    | (_, Some err) => connection_error err
    | (psql, None) => AddShardServer psql (Unbracket host) port UseSSL ;; mret tt
    end.

(** *** Refresh *)

Definition no_stats : PoolStats := mkPoolStats "" "" 0 0 0 0.

(** The row of a server in the pool; without one the fields keep their zero values. *)
Definition backend_of (s : ServerMonitor) (st : PoolStats) : Backend :=
  mkBackend (srv_Host s) (srv_Port s) (srv_State s) (srv_URL s) (pool_status st) (format_int (pool_ConnUsed st))
    (pool_hostgroup st) (format_int (pool_Bytes_data_recv st)) (format_int (pool_Bytes_data_sent st))
    (format_int (pool_Latency_us st)).
Definition GetStatsForHostWrite (psql : ProxySQL) (host port : string) : M (option PoolStats) :=
  call (psql_Stats (psql_id psql) (WriterHG psql) host port).
Definition GetStatsForHostRead (psql : ProxySQL) (host port : string) : M (option PoolStats) :=
  call (psql_Stats (psql_id psql) (ReaderHG psql) host port).

(** The leader also serves reads: always, or as long as nobody else does. *)
Definition leader_reads (c : Cluster) (proxy : Proxy) : bool :=
  HasProxyReadLeader cfg ||
  (HasProxyReadLeaderNoSlave cfg && (HasNoValidSlave c || negb (HasAvailableReader proxy))).

Definition bring_leader_back (psql : ProxySQL) (p : nat) (s : ServerMonitor) : M unit :=
  exist ← ExistAsWriterOrOffline psql (Unbracket (srv_Host s)) (srv_Port s);
  if (exist : bool) then SetOnline psql (Unbracket (srv_Host s)) (srv_Port s) ;; mret tt
  else
    e ← AddServerAsWriter psql (Unbracket (srv_Host s)) (srv_Port s) UseSSL;
    proxy ← load_proxy p;
    on_error e (fun _ => proxy_warning p "ERR00071" "PRX" [fs (prx_Name proxy); fs (srv_URL s)]).

Definition bootstrap_variable (psql : ProxySQL) (v : bool) : M unit :=
  conf ← get_conf; whenM (Conf_ProxysqlBootstrapVariables conf) (SetMonitorIsAlsoWriter psql v ;; mret tt).

(** The leader leaves the readers unless it is the only one that is online. *)
Definition drop_leader_reader (psql : ProxySQL) (p : nat) (s : ServerMonitor) : M bool :=
  c ← get_cluster;
  h ← get_heap;
  let proxy := get_proxy c p in
  drop ← (if negb (HasProxyReadLeaderNoSlave cfg) then mret true
          else if 1 <? CountAvailableReaders proxy
          then ml ← deref (cl_master c); mret (HasLeaderInReader (h ml) proxy)
          else mret false);
  if (drop : bool)
  then DropReader psql (Unbracket (srv_Host s)) (srv_Port s) ;; bootstrap_variable psql false ;; mret true
  else mret false.

(** One difference between the roles and the host groups is repaired; [true]:
    something was changed. *)
Definition settle_backend (psql : ProxySQL) (p : nat) (l : loc) (wstatus rstatus : string) (isBackendWriter IsBackendReader : bool)
  : M bool :=
  c ← get_cluster;
  h ← get_heap;
  let s := h l in
  let proxy := get_proxy c p in
  let host := Unbracket (srv_Host s) in
  let port := srv_Port s in
  if (wstatus =? "OFFLINE_HARD")%string && state_is s stateSlave && negb (IsIgnored s) then
    e ← SetReader psql host port;
    on_error e (fun err => proxy_warning p "ERR00069" "PRX" [fs (srv_URL s); fs err]) ;;
    whenM IsBackendReader (DropWriter psql host port ;; mret tt) ;;
    mret true
  else if IsSlaveOrSync c h l && srv_IsMaintenance s && IsBackendReader && (rstatus =? "ONLINE")%string then
    e ← SetOfflineSoft psql host port;
    on_error e (fun err => proxy_warning p "ERR00094" "PRX" [fs (prx_GetURL proxy); fs (srv_URL s); fs err]) ;;
    mret true
  else if state_is s stateUnconn && (wstatus =? "ONLINE")%string then
    e ← SetOffline psql host port;
    on_error e (fun err => proxy_warning p "ERR00070" "PRX" [fs err; fs (srv_URL s)]) ;;
    mret true
  else if state_is s stateUnconn && (rstatus =? "ONLINE")%string && IsBackendReader then
    e ← SetOfflineSoft psql host port;
    on_error e (fun err => proxy_warning p "ERR00070" "PRX" [fs err; fs (srv_URL s)]) ;;
    mret true
  else if IsLeader c h l && ((srv_PrevState s =? stateUnconn)%string || (srv_PrevState s =? stateFailed)%string ||
                             ((Z.of_nat (length (prx_BackendsWrite proxy)) =? 0) || negb isBackendWriter)) then
    bring_leader_back psql p s ;; mret true
  else if IsLeader c h l && negb IsBackendReader && leader_reads c proxy then
    add_reader psql s ;; bootstrap_variable psql true ;; mret true
  else if IsLeader c h l && IsBackendReader && negb (HasProxyReadLeader cfg) then drop_leader_reader psql p s
  else if IsSlaveOrSync c h l && state_is s stateSlave && negb (IsIgnored s) &&
          ((srv_PrevState s =? stateUnconn)%string || (srv_PrevState s =? stateFailed)%string) then
    e ← SetReader psql host port;
    on_error e (fun err => proxy_warning p "ERR00072" "PRX" [fs (prx_Name proxy); fs (srv_URL s); fs err]) ;;
    mret true
  else if IsSlaveOrSync c h l && negb IsBackendReader && negb (IsIgnored s) then
    add_reader psql s ;; mret true
  else if IsSlaveOrSync c h l && negb (bool_decide (GetMaster c = Some l)) && isBackendWriter then
    DropWriter psql host port ;; mret true
  else mret false.

(** **** Accounts of the master *)

(** Accounts with the same name and password are taken once. *)
Fixpoint unique_users (p : nat) (l : list (string * Grant)) (uni : gmap string Grant) : M (gmap string Grant) :=
  match l with
  | [] => mret uni
  | (_, u) :: r =>
      conf ← get_conf;
      let key := gr_User u +:+ ":" +:+ gr_Password u in
      match uni !! key with
      | Some user => proxy_warning p "ERR00057" "MON" [fs (gr_User user)] ;; unique_users p r uni
      | None =>
          let wanted := negb (gr_Password u =? "")%string && negb (gr_Password u =? "invalid")%string &&
                        (negb (gr_User u =? GetDbUser conf)%string ||
                         (Conf_MonitorWriteHeartbeatCredential conf =? "")%string) in
          unique_users p r (if wanted then <[key := u]> uni else uni)
      end
  end.

Fixpoint add_users (psql : ProxySQL) (p : nat) (known : list string) (l : list (string * Grant)) (changed : bool) : M bool :=
  match l with
  | [] => mret changed
  | (_, user) :: r =>
      if existsb (String.eqb (gr_User user +:+ ":" +:+ gr_Password user)) known then add_users psql p known r changed
      else
        e ← AddUser psql (gr_User user) (gr_Password user);
        on_error e (fun err => proxy_warning p "ERR00054" "MON" [fs err]) ;;
        add_users psql p known r (changed || negb (is_err e))
  end.

Definition copy_grants (psql : ProxySQL) (p : nat) (s : ServerMonitor) : M unit :=
  ke ← call (psql_GetUsers (psql_id psql));
  on_error (snd ke) (fun err => proxy_warning p "ERR00053" "MON" [fs err]) ;;
  uni ← unique_users p (go_range (srv_Users s)) ∅;
  changed ← add_users psql p (fst ke) (go_range uni) false;
  whenM changed (SaveMySQLUsersToDisk psql ;; mret tt).

(** **** The loop over the servers *)

Definition refresh_backend (psql : ProxySQL) (p : nat) (l : loc) : M (option Backend * option Backend * bool) :=
  s ← load l;
  let host := Unbracket (srv_Host s) in
  wst ← GetStatsForHostWrite psql host (srv_Port s);
  let bke := backend_of s (default no_stats wst) in
  mod_server l (fun s => set_srv_MxsServerStatus (bk_PrxStatus bke)
                 (set_srv_ProxysqlHostgroup (bk_PrxHostgroup bke) (set_srv_MxsServerName (srv_URL s) s))) ;;
  rst ← GetStatsForHostRead psql host (srv_Port s);
  let bkeread := backend_of s (default no_stats rst) in
  let isBackendWriter := match wst with Some _ => true | None => false end in
  let IsBackendReader := match rst with Some _ => true | None => false end in
  c ← get_cluster;
  updated ← (if Conf_ProxysqlBootstrap (cl_Conf c) && cl_IsDiscovered c
             then settle_backend psql p l (bk_PrxStatus bke) (bk_PrxStatus bkeread) isBackendWriter IsBackendReader
             else mret false);
  c ← get_cluster;
  h ← get_heap;
  let s := h l in
  let proxy := get_proxy c p in
  whenM (((bk_PrxStatus bke =? "OFFLINE_SOFT")%string || (bk_PrxStatus bkeread =? "OFFLINE_SOFT")%string) &&
         negb (srv_IsMaintenance s))
    (proxy_warning p "ERR00091" "PRX" [fs (prx_Name proxy); fs (srv_URL s)]) ;;
  whenM (negb (Conf_ProxysqlBootstrap (cl_Conf c)) && IsLeader c h l && negb IsBackendReader && leader_reads c proxy)
    (proxy_warning p "ERR00093" "PRX" [fs (prx_Name proxy)]) ;;
  whenM (IsMaster c h s && Conf_ProxysqlCopyGrants (cl_Conf c)) (copy_grants psql p s) ;;
  mret (if isBackendWriter then Some bke else None, if IsBackendReader then Some bkeread else None, updated).

Definition snoc {A} (l : list A) (x : option A) : list A := match x with Some a => l ++ [a] | None => l end.

Fixpoint refresh_backends (psql : ProxySQL) (p : nat) (l : list loc) (bkWriters bkReaders : list Backend) (updated : bool)
  : M (list Backend * list Backend * bool) :=
  match l with
  | [] => mret (bkWriters, bkReaders, updated)
  | x :: r =>
      b ← refresh_backend psql p x;
      let '(wr, rd, u) := b in
      refresh_backends psql p r (snoc bkWriters wr) (snoc bkReaders rd) (updated || u)
  end.

Definition publish_servers (psql : ProxySQL) (p : nat) : M unit :=
  proxy ← load_proxy p;
  e ← LoadServersToRuntime psql;
  match e with
  | Some err => proxy_warning p "ERR00095" "PRX" [fs (prx_GetURL proxy); fs err]
  | None =>
      e ← SaveServersToDisk psql;
      on_error e (fun err => proxy_warning p "ERR00096" "PRX" [fs (prx_GetURL proxy); fs err])
  end.

Definition set_multiplexing (psql : ProxySQL) (v : string) : M unit :=
  conf ← get_conf;
  SetMySQLVariable psql "MYSQL-MULTIPLEXING" v ;;
  LoadMySQLVariablesToRuntime psql ;;
  whenM (Conf_ProxysqlSaveToDisk conf) (SaveMySQLVariablesToDisk psql ;; mret tt).

Definition refresh_variables (psql : ProxySQL) (p : nat) : M unit :=
  e ← call (psql_GetQueryRules (psql_id psql));
  on_error e (fun err => proxy_warning p "WARN0092" "MON" [fs err]) ;;
  ve ← call (psql_GetVariables (psql_id psql));
  mod_proxy p (set_prx_Variables (fst ve)) ;;
  on_error (snd ve) (fun err => proxy_warning p "WARN0098" "MON" [fs err]) ;;
  conf ← get_conf;
  let multiplexing := default "" (fst ve !! "MYSQL-MULTIPLEXING") in
  whenM (Conf_ProxysqlBootstrapVariables conf)
    (whenM ((multiplexing =? "TRUE")%string && negb (Conf_ProxysqlMultiplexing conf)) (set_multiplexing psql "FALSE") ;;
     whenM ((multiplexing =? "FALSE")%string && Conf_ProxysqlMultiplexing conf) (set_multiplexing psql "TRUE")).

Definition prx_Refresh (p : nat) : M Err :=
  c ← get_cluster;
  if negb (Conf_ProxysqlOn (cl_Conf c)) then mret None
  else
    pe ← Connect p;
    match pe with
    | (_, Some err) =>
        connection_error err ;;
        proxy ← load_proxy p;
        mod_sm (CopyOldStateFromUnknowServer (prx_Name proxy)) ;;
        mret (Some err)
    | (psql, None) =>
        v ← call (psql_GetVersion (psql_id psql));
        mod_proxy p (set_prx_Version v) ;;
        c ← get_cluster;
        b ← refresh_backends psql p (cl_servers c) [] [] false;
        let '(bkWriters, bkReaders, updated) := b in
        mod_proxy p (fun x => set_prx_BackendsRead bkReaders (set_prx_BackendsWrite bkWriters x)) ;;
        whenM updated (publish_servers psql p) ;;
        refresh_variables psql p ;;
        mret None
    end.

Definition BackendsStateChange (p : nat) : M unit := prx_Refresh p ;; mret tt.
End Ops.
