(* ===== verification/Proxies.v ===== *)
(** * The proxies of a cluster (cluster/prx.go)

    At every round the proxies are refreshed through their drivers: ProxySQL is
    modelled in [ProxySql], the others are calls. A refresh that fails is counted,
    and a proxy is failed when the count reaches the limit of the configuration. *)

From Stdlib Require Import ZArith Lia Bool Ascii String.
From stdpp Require Import base list gmap strings functions.
From S2P Require Import Prelude GoLib Version StateMachine Config Server Proxy Cluster Demo ServerOps Lands Rejoin Configurator ProxySql.

Local Open Scope string_scope.
Local Open Scope list_scope.
Local Open Scope Z_scope.

Section Ops.
Context `{Env} `{GoRange} (cfg : Configurator).

(** The driver of a proxy, by its type. *)
Definition driver_Refresh (p : nat) : M Err :=
  proxy ← load_proxy p;
  if (prx_Type proxy =? ConstProxySqlproxy)%string then prx_Refresh cfg p
  else
    r ← call (proxy_Refresh p);
    forM (fst r) (fun ks => SetState (fst ks) (snd ks)) ;;
    mret (snd r).
Definition driver_Init (p : nat) : M unit :=
  proxy ← load_proxy p;
  if (prx_Type proxy =? ConstProxySqlproxy)%string then prx_Init cfg p else call (proxy_Init p).

Definition prx_delCookie (p : nat) (key : string) : M unit :=
  proxy ← load_proxy p; call (remove_file (prx_Datadir proxy +:+ "/@" +:+ key)).
Definition prx_hasCookie (p : nat) (key : string) : M bool :=
  proxy ← load_proxy p; e ← call (stat_missing (prx_Datadir proxy +:+ "/@" +:+ key)); mret (negb (is_err e)).

Definition BashScriptPrxServersChangeState (p : nat) (newState oldState : string) : M unit :=
  c ← get_cluster;
  h ← get_heap;
  let proxy := get_proxy c p in
  whenM (negb (Conf_PRXServersChangeStateScript (cl_Conf c) =? "")%string)
    match GetMaster c with
    | None => mret tt
    | Some m => call (run_script (Conf_PRXServersChangeStateScript (cl_Conf c))
                        [cl_Name c; prx_Host proxy; prx_Port proxy; newState; oldState; srv_State (h m)])
    end.

Definition proxy_refreshed (p : nat) : M unit :=
  mod_proxy p (fun x => set_prx_State stateProxyRunning (set_prx_FailCount 0 x)) ;;
  wait ← prx_hasCookie p "cookie_waitstart";
  whenM wait (prx_delCookie p "cookie_waitstart" ;; prx_delCookie p "cookie_prov").

Definition proxy_failing (p : nat) : M unit :=
  mod_proxy p (fun x => set_prx_FailCount (i64 (prx_FailCount x + 1)) x) ;;
  c ← get_cluster;
  if Conf_MaxFail (cl_Conf c) <=? prx_FailCount (get_proxy c p)
  then
    mod_proxy p (set_prx_State stateFailed) ;;
    prx_delCookie p "cookie_waitstop" ;; prx_delCookie p "cookie_restart" ;; prx_delCookie p "cookie_unprov"
  else mod_proxy p (set_prx_State stateSuspect).

Definition announce_proxy (p : nat) : M unit :=
  proxy ← load_proxy p;
  whenM (negb (prx_PrevState proxy =? prx_State proxy)%string)
    (BashScriptPrxServersChangeState p (prx_State proxy) (prx_PrevState proxy) ;;
     mod_proxy p (fun x => set_prx_PrevState (prx_State x) x)).

Definition refresh_proxy (p : nat) : M unit :=
  e ← driver_Refresh p;
  (if is_err e then proxy_failing p else proxy_refreshed p) ;;
  announce_proxy p.

Definition refreshProxies : M unit := c ← get_cluster; forM (cl_Proxies c) refresh_proxy.
Definition initProxies : M unit := c ← get_cluster; forM (cl_Proxies c) driver_Init.

(** The view holds a random identifier, which the model leaves out. *)
Definition inject_proxy (p : nat) : M unit :=
  proxy ← load_proxy p;
  if (prx_Type proxy =? ConstProxySphinx)%string || (prx_Type proxy =? ConstProxyMyProxy)%string then mret tt
  else
    r ← call (proxy_Inject p "CREATE OR REPLACE  VIEW replication_manager_schema.pseudo_gtid_v as select uuid from dual");
    match fst r with
    | Some err => SetState "ERR00050" (state_of "ERR00050" "ERROR" "TOPO" "" [fs err])
    | None =>
        on_error (snd r) (fun err =>
          SetState "ERR00050" (state_of "ERR00050" "ERROR" "TOPO" "" [fs err]) ;;
          call (proxy_Inject p "CREATE DATABASE IF NOT EXISTS replication_manager_schema") ;; mret tt)
    end.
Definition InjectProxiesTraffic : M unit :=
  c ← get_cluster;
  match GetMaster c with Some _ => forM (cl_Proxies c) inject_proxy | None => mret tt end.
End Ops.

(** ** The verdict on a proxy *)

Section Verdict.
Context `{Env} `{GoRange}.

Definition proxy_verdict (w : World) (p : nat) : string * Z :=
  (prx_State (get_proxy (w_cluster w) p), prx_FailCount (get_proxy (w_cluster w) p)).

Lemma lands_prx_delCookie p k w (Q : unit -> World -> Prop) :
  (forall w', w_cluster w' = w_cluster w -> Q tt w') -> lands (prx_delCookie p k) w Q.
Proof.
  intros HQ. apply lands_talks; [|by intros [] w' Ec _; apply HQ].
  unfold prx_delCookie, load_proxy. apply runs_bind; [apply _|apply runs_read; intros c; apply runs_ret; apply _|].
  intros x. apply talks_call.
Qed.

Lemma get_proxy_mod p f w : get_proxy (w_cluster (snd (mod_proxy p f w))) p = f (get_proxy (w_cluster w) p).
Proof. unfold mod_proxy, mod_cluster. cbn [snd w_cluster]. unfold get_proxy at 1. cbn. by rewrite lookup_insert_eq. Qed.

(** A failed refresh moves a proxy to suspect and, at the limit, to failed. *)
Lemma lands_proxy_failing p w :
  let n := i64 (prx_FailCount (get_proxy (w_cluster w) p) + 1) in
  lands (proxy_failing p) w (fun _ w' =>
    proxy_verdict w' p = (if Conf_MaxFail (cl_Conf (w_cluster w)) <=? n then stateFailed else stateSuspect, n)).
Proof.
  intros n. unfold proxy_failing. apply lands_bind. unfold lands at 1.
  set (f := fun x => _). pose proof (get_proxy_mod p f w) as G.
  destruct (mod_proxy p f w) as [o w1] eqn:E. pose proof (f_equal fst E) as Eo. cbn in Eo. subst o. cbn [snd] in G.
  assert (Ec : cl_Conf (w_cluster w1) = cl_Conf (w_cluster w)) by (replace w1 with (snd (mod_proxy p f w)) by (by rewrite E); done).
  apply lands_bind. unfold lands at 1, get_cluster. rewrite Ec, G. change (prx_FailCount (f ?x)) with n.
  destruct (_ <=? n).
  - apply lands_bind. pose proof (get_proxy_mod p (set_prx_State stateFailed) w1) as G2.
    destruct (mod_proxy p (set_prx_State stateFailed) w1) as [o w2] eqn:E2.
    pose proof (f_equal fst E2) as Eo. cbn in Eo. subst o. cbn [snd] in G2. unfold lands at 1. rewrite E2.
    apply lands_bind. apply lands_prx_delCookie. intros w3 E3. apply lands_bind. apply lands_prx_delCookie. intros w4 E4.
    apply lands_prx_delCookie. intros w5 E5. unfold proxy_verdict. by rewrite E5, E4, E3, G2, G.
  - pose proof (get_proxy_mod p (set_prx_State stateSuspect) w1) as G2. unfold lands.
    destruct (mod_proxy p (set_prx_State stateSuspect) w1) as [o w2] eqn:E2.
    pose proof (f_equal fst E2) as Eo. cbn in Eo. subst o. cbn [snd] in G2. unfold proxy_verdict. by rewrite G2, G.
Qed.
End Verdict.
