(* ===== verification/ProxySqlProps.v ===== *)
(** * Properties of the ProxySQL backends

    The statements of a ProxySQL act on its tables as [exec_admin] says. From the
    trace one replays the tables; the laws of [PsqlLaws] say that the answers are
    those of the replayed tables. Under them a failover moves the writer, and the
    refreshes of a settled cluster bring the host groups in line with the roles. *)

From Stdlib Require Import ZArith Lia Bool Ascii String.
From stdpp Require Import base list gmap strings functions.
From S2P Require Import Prelude GoLib Version StateMachine Config Server Proxy Cluster Demo ServerOps Lands Rejoin Configurator ProxySql.

Local Open Scope string_scope.
Local Open Scope list_scope.
Local Open Scope Z_scope.

(** ** The tables a trace leaves *)

Definition step_admin (s : PsqlStmt) (a : PsqlAdmin) : PsqlAdmin := default a (exec_admin s a).

Definition replay_event (p : nat) (a : PsqlAdmin) (e : TraceEvent) : PsqlAdmin :=
  match e with
  | Ev c r =>
      match c in Call R return R -> PsqlAdmin with
      | psql_Exec q s => fun r => if (q =? p)%nat && negb (is_err r) then step_admin s a else a
      | _ => fun _ => a
      end r
  end.
Definition replay (p : nat) (a : PsqlAdmin) (t : list TraceEvent) : PsqlAdmin := fold_left (replay_event p) t a.

(** What ProxySQL documents of its admin interface: a statement fails exactly when
    a constraint forbids it, the selection reads the tables in memory, and the
    connection pool shows the servers that are in effect. *)
Class PsqlLaws `{Env} (p : nat) (a0 : PsqlAdmin) : Prop := {
  law_connect : forall tr, answer tr (psql_Connect p) = None;
  law_exec : forall tr s, is_err (answer tr (psql_Exec p s)) = match exec_admin s (replay p a0 tr) with Some _ => false | None => true end;
  law_exists : forall tr host port among,
    answer tr (psql_Exists p host port among) = existsb (present (pa_memory (replay p a0 tr)) host port) among;
  law_stats : forall tr hg host port,
    match answer tr (psql_Stats p hg host port) with
    | Some st => present (pa_runtime (replay p a0 tr)) host port hg = true /\ pool_status st <> "OFFLINE_HARD"
    | None => present (pa_runtime (replay p a0 tr)) host port hg = false
    end
}.

(** ** Rows of the table *)

Definition member (t : PsqlServers) (k : ServerKey) : bool := match t !! k with Some _ => true | None => false end.

Lemma present_member t host port hg : present t host port hg = member t (server_key hg host port).
Proof. done. Qed.
Lemma member_insert t k r k' : member (<[k := r]> t) k' = bool_decide (k = k') || member t k'.
Proof.
  unfold member. case_bool_decide as E.
  - subst. by rewrite lookup_insert_eq.
  - by rewrite lookup_insert_ne.
Qed.
Lemma member_delete t k k' : member (delete k t) k' = negb (bool_decide (k = k')) && member t k'.
Proof.
  unfold member. case_bool_decide as E.
  - subst. by rewrite lookup_delete_eq.
  - by rewrite lookup_delete_ne.
Qed.
Lemma member_alter f t k k' : member (alter f k t) k' = member t k'.
Proof.
  unfold member. destruct (decide (k = k')) as [->|Hk].
  - rewrite lookup_alter_eq. by destruct (t !! k').
  - by rewrite lookup_alter_ne.
Qed.
Lemma member_filter_group t hg k :
  member (filter (fun kr : ServerKey * PsqlServer => kr.1.1 <> hg) t) k = negb (k.1 =? hg) && member t k.
Proof.
  unfold member. rewrite map_lookup_filter. destruct (t !! k) as [r|] eqn:E; cbn; [|by rewrite andb_false_r].
  destruct (Z.eqb_spec k.1 hg) as [Ek|Ek].
  - by rewrite option_guard_False by (cbn; tauto).
  - by rewrite option_guard_True by (cbn; done).
Qed.
Lemma lookup_member t t' k : t' !! k = t !! k -> member t' k = member t k.
Proof. unfold member. by intros ->. Qed.

Lemma targets_one t host port a : targets t host port [a] = if present t host port a then [a] else [].
Proof. unfold targets. cbn. by destruct (present t host port a). Qed.
Lemma targets_two t host port a b : a <> b ->
  targets t host port [a; b] =
  (if present t host port a then [a] else []) ++ (if present t host port b then [b] else []).
Proof.
  intros Hab. unfold targets. cbn. replace (b =? a) with false by (symmetry; apply Z.eqb_neq; lia). cbn.
  by destruct (present t host port a), (present t host port b).
Qed.

(** Moving the row of a server touches the rows of that server only, and adds at
    most the one in the group it is moved to. *)
Definition moved (to : Z) (on : bool) (host port : string) (among : list Z) (t : PsqlServers) : PsqlServers :=
  default t (move_server to on host port among t).

Lemma moved_lookup to on host port among t hg h p :
  (h, p) <> (host, port) -> moved to on host port among t !! server_key hg h p = t !! server_key hg h p.
Proof.
  intros Hne. unfold moved, move_server.
  assert (Hk : forall g, server_key g host port <> server_key hg h p) by (unfold server_key; intros g [= -> -> ->]; congruence).
  destruct (targets t host port among) as [|g [|? ?]]; cbn; [done| |done].
  destruct (g =? to); cbn; [by rewrite lookup_alter_ne|].
  destruct (present t host port to); cbn; [done|]. destruct (t !! server_key g host port); cbn; [|done].
  by rewrite lookup_insert_ne, lookup_delete_ne.
Qed.

Lemma moved_adds to on host port among t k :
  k.1 <> to -> member (moved to on host port among t) k = true -> member t k = true.
Proof.
  intros Hk. unfold moved, move_server.
  destruct (targets t host port among) as [|g [|? ?]]; cbn; [done| |done].
  destruct (g =? to); cbn; [by rewrite member_alter|].
  destruct (present t host port to); cbn; [done|]. destruct (t !! server_key g host port); cbn; [|done].
  rewrite member_insert, member_delete, bool_decide_eq_false_2 by (intros <-; by apply Hk). cbn.
  by intros [_ ?]%andb_true_iff.
Qed.

(** A server that is in one of two groups is afterwards in the one it is moved to. *)
Lemma moved_between to other on host port t hg :
  to <> other -> hg = to \/ hg = other -> present t host port to && present t host port other = false ->
  present (moved to on host port [to; other] t) host port hg =
  (hg =? to) && (present t host port to || present t host port other).
Proof.
  intros Hne Hhg Hex. unfold moved, move_server. rewrite targets_two by done.
  destruct (present t host port to) eqn:Pt, (present t host port other) eqn:Po; try done; cbn.
  - rewrite Z.eqb_refl. cbn. rewrite present_member, member_alter, <- present_member.
    destruct Hhg as [->| ->]; rewrite ?Pt, ?Po, ?Z.eqb_refl; [done|]. by rewrite (proj2 (Z.eqb_neq other to)) by lia.
  - replace (other =? to) with false by (symmetry; apply Z.eqb_neq; lia).
    rewrite present_member in Po. unfold member in Po. destruct (t !! server_key other host port) as [r|]; [|done].
    cbn. rewrite present_member, member_insert, member_delete.
    destruct Hhg as [->| ->].
    + by rewrite bool_decide_true, Z.eqb_refl.
    + rewrite bool_decide_eq_false_2 by (unfold server_key; congruence). rewrite bool_decide_true by done.
      by rewrite (proj2 (Z.eqb_neq other to)) by lia.
  - destruct Hhg as [->| ->]; rewrite ?Pt, ?Po; by rewrite andb_false_r.
Qed.

Lemma move_defined to other on host port t :
  to <> other -> present t host port to && present t host port other = false ->
  is_Some (move_server to on host port [to; other] t).
Proof.
  intros Hne Hex. unfold move_server. rewrite targets_two by done.
  destruct (present t host port to) eqn:Pt, (present t host port other) eqn:Po; try done; cbn.
  - rewrite Z.eqb_refl. by eexists.
  - replace (other =? to) with false by (symmetry; apply Z.eqb_neq; lia).
    destruct (t !! server_key other host port); by eexists.
Qed.

(** A server that is in one of two groups, whichever is named first. *)
Lemma moved_between' to other on host port t hg :
  to <> other -> hg = to \/ hg = other -> present t host port to && present t host port other = false ->
  present (moved to on host port [other; to] t) host port hg =
  (hg =? to) && (present t host port to || present t host port other).
Proof.
  intros Hne Hhg Hex. rewrite <- (moved_between to other on host port t hg Hne Hhg Hex).
  unfold moved, move_server. rewrite !targets_two by congruence.
  by destruct (present t host port to), (present t host port other).
Qed.

(** A server that is in the group or in the one it is brought back from stays in it. *)
Lemma moved_back to from on host port t :
  to <> from -> present t host port to || present t host port from = true ->
  present (moved to on host port [from] t) host port to = true.
Proof.
  intros Hne Hex. unfold moved, move_server. rewrite targets_one.
  destruct (present t host port from) eqn:Pf; cbn; [|by rewrite orb_false_r in Hex].
  replace (from =? to) with false by (symmetry; apply Z.eqb_neq; lia).
  destruct (present t host port to) eqn:Pt; cbn; [done|].
  rewrite present_member in Pf. unfold member in Pf. destruct (t !! server_key from host port); [|done].
  cbn. by rewrite present_member, member_insert, bool_decide_true.
Qed.

(** Other groups are not concerned. *)
Lemma moved_apart to from on host port t hg :
  hg <> to -> hg <> from -> present (moved to on host port [from] t) host port hg = present t host port hg.
Proof.
  intros Ht Hf. unfold moved, move_server. rewrite targets_one.
  assert (Hkey : forall g, g <> hg -> bool_decide (server_key g host port = server_key hg host port) = false)
    by (intros g Hg; apply bool_decide_eq_false; unfold server_key; congruence).
  destruct (present t host port from) eqn:Pf; cbn; [|done].
  destruct (from =? to); cbn; [by rewrite !present_member, member_alter|].
  destruct (present t host port to); cbn; [done|]. destruct (t !! server_key from host port); cbn; [|done].
  by rewrite !present_member, member_insert, member_delete, !Hkey by done.
Qed.

(** ** Statements under the laws *)

Definition address (s : ServerMonitor) : string * string := (Unbracket (srv_Host s), srv_Port s).
Definition in_group (t : PsqlServers) (s : ServerMonitor) (hg : Z) : bool := present t (Unbracket (srv_Host s)) (srv_Port s) hg.
Definition row_of (s : ServerMonitor) (hg : Z) : ServerKey := server_key hg (Unbracket (srv_Host s)) (srv_Port s).

Lemma in_group_member t s hg : in_group t s hg = member t (row_of s hg).
Proof. done. Qed.
Lemma row_of_other s s' hg hg' : address s <> address s' -> row_of s hg <> row_of s' hg'.
Proof. unfold address, row_of, server_key. intros Hne [= _ E1 E2]. apply Hne. by rewrite E1, E2. Qed.

Lemma moved_other to on s among t s' hg :
  address s <> address s' ->
  in_group (moved to on (Unbracket (srv_Host s)) (srv_Port s) among t) s' hg = in_group t s' hg.
Proof.
  intros Hne. rewrite !in_group_member. apply lookup_member, moved_lookup.
  unfold address in Hne. congruence.
Qed.

Lemma forM_app {A} (l l' : list A) (f : A -> M unit) w : forM (l ++ l') f w = (forM l f ;; forM l' f) w.
Proof.
  revert w. induction l as [|x l IH]; intros w; [done|]. cbn. unfold mbind, M_bind in *.
  destruct (f x w) as [[[]| |] w']; [apply IH|done|done].
Qed.

Section Laws.
Context `{Env} `{GoRange} (p : nat) (a0 : PsqlAdmin) `{!PsqlLaws p a0} (cfg : Configurator).

Definition tables (w : World) : PsqlAdmin := replay p a0 (w_trace w).
Definition servers_in_memory (w : World) : PsqlServers := pa_memory (tables w).

Lemma replay_snoc a t e : replay p a (t ++ [e]) = replay_event p (replay p a t) e.
Proof. unfold replay. by rewrite fold_left_app. Qed.

Lemma lands_psql psql s w (Q : Err -> World -> Prop) :
  psql_id psql = p ->
  (forall e w', w_cluster w' = w_cluster w -> w_heap w' = w_heap w -> tables w' = step_admin s (tables w) ->
                is_err e = match exec_admin s (tables w) with Some _ => false | None => true end -> Q e w') ->
  lands (psql_run psql s) w Q.
Proof.
  intros Ep HQ. unfold psql_run, call, lands. rewrite Ep. apply HQ; cbn [w_cluster w_heap w_trace]; try done.
  - unfold tables. cbn [w_trace]. rewrite replay_snoc. cbn [replay_event]. rewrite Nat.eqb_refl, law_exec.
    fold (tables w). unfold step_admin. by destruct (exec_admin s (tables w)).
  - apply law_exec.
Qed.

Lemma step_update to on host port among a :
  step_admin (update_hostgroup to on host port among) a =
  mkPsqlAdmin (moved to on host port among (pa_memory a)) (pa_runtime a).
Proof.
  unfold step_admin, moved. cbn. destruct (move_server to on host port among (pa_memory a)); [done|]. by destruct a.
Qed.

(** ** A failover moves the writer *)

Section Failover.
Context (c : Cluster) (h : loc -> ServerMonitor) (ml om : loc) (psql : ProxySQL) (t0 : PsqlServers).
Context (Epsql : psql_id psql = p) (HWR : WriterHG psql <> ReaderHG psql)
  (HWO : WriterHG psql <> offline_group) (HRO : ReaderHG psql <> offline_group)
  (Hom : cl_oldMaster c = Some om) (Hrelay : srv_IsRelay (h ml) = false)
  (Hserves : state_is (h ml) stateUnconn || IsIgnored (h ml) = false)
  (Hnew : address (h om) <> address (h ml)).

(** Before and after the turn of the master. *)
Definition before_turn (t : PsqlServers) : Prop :=
  in_group t (h ml) (ReaderHG psql) = true /\
  (HasProxyReadLeader cfg = false ->
   in_group t (h ml) (WriterHG psql) = false /\
   in_group t (h om) (ReaderHG psql) && in_group t (h om) (WriterHG psql) = false) /\
  forall k : ServerKey, k.1 = WriterHG psql -> member t k = true -> member t0 k = true.

Definition after_turn (t : PsqlServers) : Prop :=
  in_group t (h ml) (WriterHG psql) = true /\ in_group t (h om) (WriterHG psql) = false /\
  forall k : ServerKey, k.1 = WriterHG psql -> member t k = true ->
    k = row_of (h ml) (WriterHG psql) \/ HasProxyReadLeader cfg = false /\ member t0 k = true.

(** Putting another server out of service keeps both. *)
Lemma offline_keeps s t :
  address s <> address (h ml) ->
  let t' := moved offline_group false (Unbracket (srv_Host s)) (srv_Port s) [WriterHG psql] t in
  (before_turn t -> before_turn t') /\ (after_turn t -> after_turn t').
Proof.
  intros Hs t'.
  assert (Hml : forall hg, in_group t' (h ml) hg = in_group t (h ml) hg) by (intros hg; by apply moved_other).
  assert (Hadd : forall k : ServerKey, k.1 <> offline_group -> member t' k = true -> member t k = true)
    by (intros k; apply moved_adds).
  assert (Hadd' : forall s hg, hg <> offline_group -> in_group t s hg = false -> in_group t' s hg = false).
  { intros s' hg Hhg E. apply not_true_iff_false. intros E'. rewrite in_group_member in E'.
    apply Hadd in E'; [|done]. rewrite in_group_member in E. congruence. }
  split.
  - intros (B1 & B2 & B3). split; [by rewrite Hml|split].
    + intros RL. destruct (B2 RL) as [Bw Bo]. split; [by rewrite Hml|].
      apply andb_false_iff in Bo as [Bo|Bo]; apply andb_false_iff; [left|right]; by apply Hadd'.
    + intros k Hk Hm. apply B3; [done|]. apply Hadd; [congruence|done].
  - intros (B1 & B2 & B3). split; [by rewrite Hml|split; [by apply Hadd'|]].
    intros k Hk Hm. apply B3; [done|]. apply Hadd; [congruence|done].
Qed.

Definition unchanged (w w' : World) : Prop := w_cluster w' = w_cluster w /\ w_heap w' = w_heap w.

(** The turn of a server that is not the master. *)
Lemma lands_other_turn l w (Q : unit -> World -> Prop) :
  w_cluster w = c -> w_heap w = h -> IsMaster c h (h l) = false -> address (h l) <> address (h ml) ->
  (forall w', w_cluster w' = c -> w_heap w' = h ->
     (before_turn (servers_in_memory w) -> before_turn (servers_in_memory w')) /\
     (after_turn (servers_in_memory w) -> after_turn (servers_in_memory w')) -> Q tt w') ->
  lands (failover_backend cfg psql l) w Q.
Proof.
  intros Ec Eh Hm Ha HQ. unfold failover_backend. apply lands_bind.
  change (lands get_cluster w ?Q) with (Q (w_cluster w) w). cbv beta. apply lands_bind.
  change (lands get_heap w ?Q) with (Q (w_heap w) w). cbv beta. rewrite Ec, Eh, Hom, Hm. cbn zeta.
  apply lands_bind. apply lands_whenM; intros Hoff.
  - apply lands_bind. apply lands_psql; [done|]. intros e w' Ec' Eh' Et _.
    apply (HQ w'); [congruence|congruence|]. unfold servers_in_memory. rewrite Et, step_update. cbn [pa_memory].
    by apply offline_keeps.
  - by apply (HQ w).
Qed.

Lemma lands_other_turns l w (Q : unit -> World -> Prop) :
  w_cluster w = c -> w_heap w = h ->
  (forall x, In x l -> IsMaster c h (h x) = false /\ address (h x) <> address (h ml)) ->
  (forall w', w_cluster w' = c -> w_heap w' = h ->
     (before_turn (servers_in_memory w) -> before_turn (servers_in_memory w')) /\
     (after_turn (servers_in_memory w) -> after_turn (servers_in_memory w')) -> Q tt w') ->
  lands (forM l (failover_backend cfg psql)) w Q.
Proof.
  revert w. induction l as [|x l IH]; intros w Ec Eh Hl HQ; [by apply (HQ w)|].
  cbn [forM]. apply lands_bind. destruct (Hl x (or_introl eq_refl)) as [Hm Ha].
  apply lands_other_turn; [done|done|done|done|]. intros w1 Ec1 Eh1 [K1 K2].
  apply IH; [done|done|by intros y Hy; apply Hl; right|]. intros w' Ec' Eh' [K1' K2'].
  apply HQ; [done|done|]. tauto.
Qed.

(** The tables after the writer was replaced. *)
Definition replaced (t : PsqlServers) : PsqlServers :=
  let host := Unbracket (srv_Host (h ml)) in
  if HasProxyReadLeader cfg
  then default t (exec_servers (copy_server (WriterHG psql) (ReaderHG psql) host (srv_Port (h ml)))
                    (filter (fun kr : ServerKey * PsqlServer => kr.1.1 <> WriterHG psql) t))
  else moved (WriterHG psql) true host (srv_Port (h ml)) (both_groups psql)
         (moved (ReaderHG psql) true (Unbracket (srv_Host (h om))) (srv_Port (h om)) (both_groups psql) t).

Lemma replaced_turn t : before_turn t -> after_turn (replaced t).
Proof.
  intros (B1 & B2 & B3). unfold replaced. destruct (HasProxyReadLeader cfg) eqn:RL.
  - cbn [exec_servers default]. rewrite in_group_member in B1.
    set (t' := filter _ t).
    assert (Ht' : forall k : ServerKey, member t' k = negb (k.1 =? WriterHG psql) && member t k) by (intros k; apply member_filter_group).
    assert (Hr : member t' (row_of (h ml) (ReaderHG psql)) = true).
    { rewrite Ht', B1. cbn. by rewrite (proj2 (Z.eqb_neq (ReaderHG psql) (WriterHG psql))) by lia. }
    unfold member in Hr. unfold row_of in Hr. destruct (t' !! server_key (ReaderHG psql) _ _) as [r|]; [|done]. cbn.
    assert (HW : forall k : ServerKey, k.1 = WriterHG psql ->
      member (<[server_key (WriterHG psql) (Unbracket (srv_Host (h ml))) (srv_Port (h ml)) := r]> t') k = true ->
      k = row_of (h ml) (WriterHG psql)).
    { intros k Hk. rewrite member_insert, Ht', Hk, Z.eqb_refl. cbn. rewrite orb_false_r.
      case_bool_decide as E; [by intros _|done]. }
    split; [|split].
    + rewrite in_group_member, member_insert. by rewrite bool_decide_true.
    + apply not_true_iff_false. intros E. rewrite in_group_member in E. apply HW in E; [|done].
      by apply (row_of_other (h om) (h ml) (WriterHG psql) (WriterHG psql)) in Hnew.
    + intros k Hk Hm. left. by apply HW.
  - destruct (B2 eq_refl) as [Bw Bo]. unfold both_groups.
    set (t1 := moved (ReaderHG psql) true _ _ _ t).
    assert (Hml : forall hg, in_group t1 (h ml) hg = in_group t (h ml) hg) by (intros hg; by apply moved_other).
    assert (Hom1 : in_group t1 (h om) (WriterHG psql) = false).
    { unfold in_group, t1. rewrite moved_between by (try done; try congruence; by right).
      by rewrite (proj2 (Z.eqb_neq (WriterHG psql) (ReaderHG psql))) by lia. }
    split; [|split].
    + unfold in_group. rewrite moved_between'; [|done|by left|].
      * fold (in_group t1 (h ml) (WriterHG psql)). fold (in_group t1 (h ml) (ReaderHG psql)).
        by rewrite !Hml, B1, Z.eqb_refl, orb_true_r.
      * fold (in_group t1 (h ml) (WriterHG psql)). by rewrite Hml, Bw.
    + rewrite moved_other by (intros E; by apply Hnew). done.
    + intros k Hk Hm. destruct (decide (k = row_of (h ml) (WriterHG psql))) as [->|Hne]; [by left|right].
      split; [done|]. apply B3; [done|].
      assert (E1 : member t1 k = true).
      { destruct k as [hg [host port]]. cbn in Hk. subst hg.
        erewrite <- lookup_member; [exact Hm|]. apply moved_lookup. intros [= -> ->]. by apply Hne. }
      unfold t1 in E1. apply moved_adds in E1; [done|congruence].
Qed.

Lemma lands_master_turn w (Q : unit -> World -> Prop) :
  w_cluster w = c -> w_heap w = h -> IsMaster c h (h ml) = true -> before_turn (servers_in_memory w) ->
  (forall w', w_cluster w' = c -> w_heap w' = h -> after_turn (servers_in_memory w') -> Q tt w') ->
  lands (failover_backend cfg psql ml) w Q.
Proof.
  intros Ec Eh Hm Hb HQ. unfold failover_backend. apply lands_bind.
  change (lands get_cluster w ?Q) with (Q (w_cluster w) w). cbv beta. apply lands_bind.
  change (lands get_heap w ?Q) with (Q (w_heap w) w). cbv beta. rewrite Ec, Eh, Hom, Hm, Hrelay. cbn zeta.
  apply lands_bind. apply lands_whenM; [by rewrite Hserves|]. intros _. cbn [andb negb].
  apply lands_whenM; [|done]. intros _. apply lands_bind.
  pose proof Hb as Hb0. apply replaced_turn in Hb. unfold replaced in Hb. unfold ReplaceWriter.
  destruct (HasProxyReadLeader cfg) eqn:RL; apply lands_bind.
  - apply lands_psql; [done|]. intros e w1 Ec1 Eh1 Et1 He.
    cbn in He. rewrite He. apply lands_psql; [done|]. intros e2 w2 Ec2 Eh2 Et2 _.
    apply (HQ w2); [congruence|congruence|]. unfold servers_in_memory. rewrite Et2, Et1. unfold step_admin. cbn.
    rewrite (proj2 (Z.eqb_neq (WriterHG psql) (ReaderHG psql)) HWR), Z.eqb_refl. cbn. exact Hb.
  - apply lands_psql; [done|]. intros e w1 Ec1 Eh1 Et1 He.
    destruct (is_err e) eqn:Ee.
    + (* no constraint is in the way *)
      exfalso. destruct Hb0 as (_ & B2 & _). destruct (B2 RL) as [_ Bo].
      destruct (move_defined (ReaderHG psql) (WriterHG psql) true (Unbracket (srv_Host (h om))) (srv_Port (h om))
                  (servers_in_memory w) ltac:(congruence) Bo) as [t1 Et].
      cbn in He. unfold both_groups in He. fold (servers_in_memory w) in He. by rewrite Et in He.
    + apply lands_psql; [done|]. intros e2 w2 Ec2 Eh2 Et2 _.
      apply (HQ w2); [congruence|congruence|]. unfold servers_in_memory. rewrite Et2, step_update, Et1, step_update. exact Hb.
Qed.
End Failover.

(** Which servers are the old and the new master, and where they are. *)
Record FailoverSetting (w : World) (ml om : loc) : Prop := {
  fs_old : cl_oldMaster (w_cluster w) = Some om;
  fs_listed : In ml (cl_servers (w_cluster w));
  fs_nodup : NoDup (cl_servers (w_cluster w));
  fs_master : forall x, In x (cl_servers (w_cluster w)) -> IsMaster (w_cluster w) (w_heap w) (w_heap w x) = true <-> x = ml;
  fs_addresses : forall x, In x (cl_servers (w_cluster w)) -> address (w_heap w x) = address (w_heap w ml) -> x = ml;
  fs_old_new : address (w_heap w om) <> address (w_heap w ml);
  fs_not_relay : srv_IsRelay (w_heap w ml) = false;
  fs_in_service : state_is (w_heap w ml) stateUnconn || IsIgnored (w_heap w ml) = false
}.

(** The groups of a proxy are three different ones. *)
Definition groups_differ (proxy : Proxy) : Prop :=
  prx_WriterHostgroup proxy <> prx_ReaderHostgroup proxy /\ prx_WriterHostgroup proxy <> offline_group /\
  prx_ReaderHostgroup proxy <> offline_group.

Lemma lands_Connect w (Q : ProxySQL * Err -> World -> Prop) :
  (forall w', w_cluster w' = w_cluster w -> w_heap w' = w_heap w -> tables w' = tables w ->
     Q (proxysql_of p (get_proxy (w_cluster w) p), None) w') -> lands (Connect p) w Q.
Proof.
  intros HQ. unfold Connect, load_proxy. do 2 apply lands_bind. cbn. apply lands_bind.
  unfold lands at 1, call. rewrite law_connect. apply HQ; cbn [w_cluster w_heap w_trace]; try done.
  unfold tables. cbn [w_trace]. by rewrite replay_snoc.
Qed.

Lemma step_load a : step_admin (admin_command load_servers) a = mkPsqlAdmin (pa_memory a) (pa_memory a).
Proof. done. Qed.
Lemma step_save_servers a : step_admin (admin_command "SAVE MYSQL SERVERS TO DISK") a = a.
Proof. done. Qed.

(** C5: a failover makes the new master the writer. When the new master is among the
    readers, and neither it is a writer nor the old one both reader and writer
    (unless the leader also reads), the groups that ProxySQL routes by afterwards
    have the new master as a writer and not the old one, and nobody else who was not. *)
Theorem failover_moves_writer (w : World) (ml om : loc) :
  let proxy := get_proxy (w_cluster w) p in
  let W := prx_WriterHostgroup proxy in
  let R := prx_ReaderHostgroup proxy in
  let new := w_heap w ml in
  let old := w_heap w om in
  let t := servers_in_memory w in
  FailoverSetting w ml om -> groups_differ proxy -> in_group t new R = true ->
  (HasProxyReadLeader cfg = false -> in_group t new W = false /\ in_group t old R && in_group t old W = false) ->
  exists w', prx_Failover cfg p w = (Ret tt, w') /\
    let t' := pa_runtime (tables w') in
    pa_memory (tables w') = t' /\ in_group t' new W = true /\ in_group t' old W = false /\
    forall k : ServerKey, k.1 = W -> member t' k = true ->
      k = row_of new W \/ HasProxyReadLeader cfg = false /\ member t k = true.
Proof.
  intros proxy W R new old t HF (HWR & HWO & HRO) HR Hex.
  set (psql := proxysql_of p proxy).
  cut (lands (prx_Failover cfg p) w (fun _ w' => pa_memory (tables w') = pa_runtime (tables w') /\
         after_turn (w_heap w) ml om psql t (pa_runtime (tables w')))).
  { intros HL. apply lands_run in HL as ([] & w' & E & Em & A1 & A2 & A3). by exists w'. }
  unfold prx_Failover. apply lands_bind. cbn. apply lands_bind. apply lands_Connect. intros w1 Ec1 Eh1 Et1.
  fold proxy. fold psql. destruct HF as [F1 F2 F3 F4 F5 F6 F7 F8].
  destruct (in_split _ _ F2) as (l1 & l2 & El). rewrite El in F3. apply list.NoDup_app in F3 as (_ & Hn1 & Hn2).
  apply list.NoDup_cons in Hn2 as [Hn2 _].
  assert (Hother : forall x, In x l1 \/ In x l2 ->
    IsMaster (w_cluster w) (w_heap w) (w_heap w x) = false /\ address (w_heap w x) <> address (w_heap w ml)).
  { intros x Hx. assert (Hin : In x (cl_servers (w_cluster w)))
      by (rewrite El; apply in_or_app; destruct Hx as [Hx|Hx]; [by left|by right; right]).
    assert (Hxm : x <> ml).
    { intros ->. destruct Hx as [Hx|Hx]; [apply (Hn1 ml); [by apply list_elem_of_In|by left]|].
      by apply Hn2, list_elem_of_In. }
    split; [|by intros E; apply Hxm, F5]. apply not_true_iff_false. intros E. by apply Hxm, F4. }
  assert (HB : before_turn (w_heap w) ml om psql t (servers_in_memory w1)).
  { unfold servers_in_memory. rewrite Et1. split; [done|split; [done|by intros k _]]. }
  apply lands_bind. rewrite El. unfold lands. rewrite forM_app. fold (lands (A:=unit)). apply lands_bind.
  apply (lands_other_turns (w_cluster w) (w_heap w) ml om psql t); try done; [by intros x Hx; apply Hother; left|].
  intros w2 Ec2 Eh2 [K2 _]. cbn [forM]. apply lands_bind.
  apply (lands_master_turn (w_cluster w) (w_heap w) ml om psql t); try done; [by apply F4|by apply K2|].
  intros w3 Ec3 Eh3 HA3.
  apply (lands_other_turns (w_cluster w) (w_heap w) ml om psql t); try done; [by intros x Hx; apply Hother; right|].
  intros w4 Ec4 Eh4 [_ K4]. apply K4 in HA3. apply lands_bind. apply lands_psql; [done|]. intros e w5 Ec5 Eh5 Et5 _.
  rewrite step_load in Et5.
  assert (HQ : forall w', tables w' = tables w5 -> pa_memory (tables w') = pa_runtime (tables w') /\
    after_turn (w_heap w) ml om psql t (pa_runtime (tables w'))) by (intros w' ->; by rewrite Et5).
  apply lands_whenM; [|by intros _; apply HQ]. intros _. apply lands_bind. apply lands_psql; [done|].
  intros e6 w6 _ _ Et6 _. apply HQ. by rewrite Et6, step_save_servers.
Qed.
End Laws.

(** ** A ProxySQL that follows the laws *)

Definition psql_answer (p : nat) (a0 : PsqlAdmin) (d : Databases) {R} (h : list TraceEvent) (c : Call R) : R :=
  match c in Call R return R with
  | psql_Exec q s =>
      if (q =? p)%nat then match exec_admin s (replay p a0 h) with Some _ => None | None => Some "UNIQUE constraint failed" end
      else None
  | psql_Exists q host port among =>
      if (q =? p)%nat then existsb (present (pa_memory (replay p a0 h)) host port) among else false
  | psql_Stats q hg host port =>
      match pa_runtime (replay p a0 h) !! server_key hg host port with
      | Some r => if (q =? p)%nat
                  then Some (mkPoolStats (format_int hg) (if (ps_status r =? "ONLINE")%string then "ONLINE" else "SHUNNED") 0 0 0 0)
                  else None
      | None => None
      end
  | c => calm_answer d h c
  end.
Definition psql_env (p : nat) (a0 : PsqlAdmin) (d : Databases) : Env :=
  {| answer := @psql_answer p a0 d; wait_fuel := 3; env_hour_of := fun t => t / 3600 |}.

#[export] Instance psql_env_laws p a0 d : @PsqlLaws (psql_env p a0 d) p a0.
Proof.
  split; intros; cbn; rewrite ?Nat.eqb_refl; try done.
  - by destruct (exec_admin s (replay p a0 tr)).
  - unfold present. destruct (pa_runtime _ !! _) as [r|]; [|done]. split; [done|]. cbn. by destruct (_ =? _)%string.
Qed.

(** ** Examples *)

Definition demo_row : PsqlServer := psql_row "1" "0".
Definition demo_tables (l : list (Z * string)) : PsqlAdmin :=
  let t := list_to_map (map (fun k => (server_key (fst k) (snd k) "3306", demo_row)) l) in mkPsqlAdmin t t.

(** Writers are the group 0 and readers the group 1. *)
Definition demo_proxy : Proxy := set_prx_Name "proxysql1" (set_prx_ReaderHostgroup 1 (set_prx_Weight "100" zeroProxy)).
Definition demo_psql_conf : Config := set_Conf_ProxysqlOn true (set_Conf_ProxysqlBootstrap true demo_conf).

(** A failover from db1 to db2 has just been decided. *)
Definition demo_psql_world : World :=
  mkWorld (set_cl_ProxyMonitors (<[7%nat := demo_proxy]> ∅) (set_cl_Conf demo_psql_conf
    (set_cl_master (Some 1%nat) (set_cl_oldMaster (Some 0%nat) demo_cluster)))) demo_heap [].

(** Proxy tags with the leader among the readers, without it, and none. *)
Definition plain_tags : Configurator := mkConfigurator (mkProvConfig "" "" "" "" "" 0 0 "" "" false false) [] ["masterslave"].
Definition leader_tags : Configurator := mkConfigurator (mkProvConfig "" "" "" "" "" 0 0 "" "" false false) [] ["readonmaster"].
Definition no_tags : Configurator := mkConfigurator (mkProvConfig "" "" "" "" "" 0 0 "" "" false false) [] [""].

Definition after_failover (cfg : Configurator) (l : list (Z * string)) (hg : Z) (host : string) : bool :=
  let w' := snd (@prx_Failover (psql_env 7 (demo_tables l) demo_databases) cfg 7 demo_psql_world) in
  present (pa_runtime (tables 7 (demo_tables l) w')) host "3306" hg.

Lemma failover_moves_writer_witness :
  let a0 := demo_tables [(0, "db1"); (1, "db2"); (1, "db3")] in
  after_failover plain_tags [(0, "db1"); (1, "db2"); (1, "db3")] 0 "db2" = true /\
  exists w', @prx_Failover (psql_env 7 a0 demo_databases) plain_tags 7 demo_psql_world = (Ret tt, w') /\
    let t' := pa_runtime (tables 7 a0 w') in
    pa_memory (tables 7 a0 w') = t' /\ in_group t' (demo_heap 1%nat) 0 = true /\ in_group t' (demo_heap 0%nat) 0 = false /\
    forall k : ServerKey, k.1 = 0 -> member t' k = true ->
      k = row_of (demo_heap 1%nat) 0 \/
      HasProxyReadLeader plain_tags = false /\ member (servers_in_memory 7 a0 demo_psql_world) k = true.
Proof.
  split; [vm_compute; reflexivity|].
  pose proof (@failover_moves_writer (psql_env 7 (demo_tables [(0, "db1"); (1, "db2"); (1, "db3")]) demo_databases) 7
    (demo_tables [(0, "db1"); (1, "db2"); (1, "db3")]) _ plain_tags demo_psql_world 1%nat 0%nat) as Hthm.
  apply Hthm.
  - split; try reflexivity; try (cbn; discriminate).
    + cbn. tauto.
    + repeat constructor; set_solver.
    + intros x [<-|[<-|[<-|[]]]]; vm_compute; split; congruence.
    + intros x [<-|[<-|[<-|[]]]]; vm_compute; congruence.
  - repeat split; vm_compute; discriminate.
  - vm_compute. reflexivity.
  - intros _. split; vm_compute; reflexivity.
Defined.

(** When the old master is reader and writer, its move to the readers violates the key
    of the table: the writer stays where it was. *)
Example demo_writer_stays :
  map (after_failover plain_tags [(0, "db1"); (1, "db1"); (1, "db2")] 0) ["db1"; "db2"] = [true; false].
Proof. vm_compute. reflexivity. Qed.

(** When the leader reads and the new master is not among the readers, all writers are
    deleted and none is added. *)
Example demo_no_writer_left :
  map (after_failover leader_tags [(0, "db1"); (1, "db1"); (1, "db3")] 0) ["db1"; "db2"; "db3"] = [false; false; false].
Proof. vm_compute. reflexivity. Qed.

(** Without any proxy tag the leader reads, as every filter extends the empty tag. *)
Example demo_no_proxy_tag : HasProxyReadLeader no_tags = true.
Proof. reflexivity. Qed.
