(* ===== verification/ProxySqlRefresh.v ===== *)
(** * The refreshes of a ProxySQL converge

    A refresh repairs at most one difference per server. In a settled cluster, where
    roles and states do not change, three refreshes bring the host groups in line
    with the roles whatever they were before, and later ones keep them there. *)

From Stdlib Require Import ZArith Lia Bool Ascii String.
From stdpp Require Import base list gmap strings functions.
From S2P Require Import Prelude GoLib Version StateMachine Config Server Proxy Cluster Demo ServerOps Lands Rejoin Configurator ProxySql ProxySqlProps.

Local Open Scope string_scope.
Local Open Scope list_scope.
Local Open Scope Z_scope.

Section Refresh.
Context `{Env} `{GoRange} (p : nat) (a0 : PsqlAdmin) `{!PsqlLaws p a0} (cfg : Configurator).

#[local] Abbreviation tables := (tables p a0).

(** ** A settled cluster and what a refresh leaves alone *)

(** What a refresh writes of a server is only shown. *)
Definition srv_core (s : ServerMonitor) : ServerMonitor :=
  set_srv_MxsServerStatus "" (set_srv_ProxysqlHostgroup "" (set_srv_MxsServerName "" s)).
Definition cl_core (c : Cluster) : Cluster := set_cl_ProxyMonitors ∅ (set_cl_StateMachine zeroStateMachine c).
Definition groups_of (w : World) : Z * Z :=
  (prx_WriterHostgroup (get_proxy (w_cluster w) p), prx_ReaderHostgroup (get_proxy (w_cluster w) p)).

Record Same (w w' : World) : Prop := mkSame {
  same_core : cl_core (w_cluster w') = cl_core (w_cluster w);
  same_disc : cl_IsDiscovered (w_cluster w') = cl_IsDiscovered (w_cluster w);
  same_groups : groups_of w' = groups_of w;
  same_heap : forall x, srv_core (w_heap w' x) = srv_core (w_heap w x)
}.
#[local] Instance Same_preorder : PreOrder Same.
Proof.
  split; [by intros w|]. intros x y z [C1 D1 G1 H1] [C2 D2 G2 H2].
  split; [congruence|congruence|congruence|]. intros l. by rewrite H2.
Qed.

Definition writers_known (w : World) : nat := length (prx_BackendsWrite (get_proxy (w_cluster w) p)).

(** Nothing that a refresh decides on changes. *)
Definition Calm (w w' : World) : Prop := Same w w' /\ writers_known w' = writers_known w /\ tables w' = tables w.
#[local] Instance Calm_preorder : PreOrder Calm.
Proof.
  split; [intros w; by split|]. intros x y z (S1 & N1 & T1) (S2 & N2 & T2).
  split; [by transitivity y|split; congruence].
Qed.

Lemma same_conf w w' : Same w w' -> cl_Conf (w_cluster w') = cl_Conf (w_cluster w).
Proof. intros [C _ _ _]. exact (f_equal cl_Conf C). Qed.
Lemma same_list w w' : Same w w' -> cl_servers (w_cluster w') = cl_servers (w_cluster w).
Proof. intros [C _ _ _]. unfold cl_servers. f_equal. exact (f_equal cl_Servers C). Qed.
Lemma same_field {T} (f : ServerMonitor -> T) w w' x :
  Same w w' -> (forall s, f (srv_core s) = f s) -> f (w_heap w' x) = f (w_heap w x).
Proof. intros [_ _ _ E] Hf. by rewrite <- (Hf (w_heap w' x)), <- (Hf (w_heap w x)), E. Qed.
Lemma same_leader w w' x : Same w w' ->
  IsLeader (w_cluster w') (w_heap w') x = IsLeader (w_cluster w) (w_heap w) x.
Proof.
  intros HS. unfold IsLeader, state_is. rewrite (same_field srv_State w w' x HS ltac:(done)).
  by rewrite (f_equal cl_vmaster (same_core _ _ HS) : cl_vmaster (w_cluster w') = cl_vmaster (w_cluster w)).
Qed.
Lemma same_slave w w' x : Same w w' ->
  IsSlaveOrSync (w_cluster w') (w_heap w') x = IsSlaveOrSync (w_cluster w) (w_heap w) x.
Proof.
  intros HS. unfold IsSlaveOrSync. rewrite (same_leader w w' x HS). unfold state_is.
  by rewrite (same_field srv_State w w' x HS ltac:(done)), (same_field srv_IsSlave w w' x HS ltac:(done)).
Qed.
Lemma same_master w w' : Same w w' -> GetMaster (w_cluster w') = GetMaster (w_cluster w).
Proof.
  intros HS. unfold GetMaster.
  rewrite (f_equal cl_vmaster (same_core _ _ HS) : cl_vmaster (w_cluster w') = cl_vmaster (w_cluster w)).
  by rewrite (f_equal cl_master (same_core _ _ HS) : cl_master (w_cluster w') = cl_master (w_cluster w)).
Qed.
Lemma same_address w w' x : Same w w' -> address (w_heap w' x) = address (w_heap w x).
Proof. intros HS. exact (same_field address w w' x HS ltac:(done)). Qed.

(** In service, and no change of state is being announced. *)
Definition steady (s : ServerMonitor) : Prop :=
  state_is s stateUnconn = false /\ srv_IsMaintenance s = false /\ IsIgnored s = false /\
  (srv_PrevState s =? stateUnconn)%string = false /\ (srv_PrevState s =? stateFailed)%string = false.

Lemma same_steady w w' x : Same w w' -> steady (w_heap w x) -> steady (w_heap w' x).
Proof.
  intros HS. unfold steady, state_is, IsIgnored.
  by rewrite (same_field srv_State w w' x HS ltac:(done)), (same_field srv_IsMaintenance w w' x HS ltac:(done)),
    (same_field srv_Ignored w w' x HS ltac:(done)), (same_field srv_PrevState w w' x HS ltac:(done)).
Qed.

(** One leader, every other server replicates, and each has an address of its own. *)
Record Settled (w : World) (ml : loc) : Prop := mkSettled {
  se_on : Conf_ProxysqlOn (cl_Conf (w_cluster w)) = true;
  se_bootstrap : Conf_ProxysqlBootstrap (cl_Conf (w_cluster w)) = true;
  se_discovered : cl_IsDiscovered (w_cluster w) = true;
  se_groups : groups_differ (get_proxy (w_cluster w) p);
  se_addresses : List.NoDup (map (fun x => address (w_heap w x)) (cl_servers (w_cluster w)));
  se_listed : In ml (cl_servers (w_cluster w));
  se_steady : forall x, In x (cl_servers (w_cluster w)) -> steady (w_heap w x);
  se_leader : forall x, In x (cl_servers (w_cluster w)) -> IsLeader (w_cluster w) (w_heap w) x = bool_decide (x = ml);
  se_slaves : forall x, In x (cl_servers (w_cluster w)) -> IsSlaveOrSync (w_cluster w) (w_heap w) x = negb (bool_decide (x = ml));
  se_master : forall x, In x (cl_servers (w_cluster w)) -> x <> ml -> GetMaster (w_cluster w) <> Some x
}.

Lemma settled_same w w' ml : Settled w ml -> Same w w' -> Settled w' ml.
Proof.
  intros [A1 A2 A3 A4 A5 A6 A7 A8 A9 A10] HS. pose proof HS as [_ D G _].
  split; rewrite ?(same_conf w w' HS), ?(same_list w w' HS), ?D; try done.
  - injection G as G1 G2. unfold groups_differ in *. by rewrite G1, G2.
  - erewrite map_ext; [exact A5|]. intros x. by apply same_address.
  - intros x Hx. by apply (same_steady w w'), A7.
  - intros x Hx. rewrite (same_leader w w' x HS). by apply A8.
  - intros x Hx. rewrite (same_slave w w' x HS). by apply A9.
  - intros x Hx. rewrite (same_master w w' HS). by apply A10.
Qed.

(** ** Steps that decide nothing *)

Lemma calm_same w w' : Calm w w' -> Same w w'.
Proof. by intros (? & _). Qed.

Lemma runs_calm_call {R} (c : Call R) :
  (forall a r, replay_event p a (Ev c r) = a) -> Runs Calm (call c).
Proof.
  intros Hc w. eexists _, _. split; [reflexivity|]. split; [by split|split; [done|]].
  cbn [w_trace]. unfold ProxySqlProps.tables. cbn [w_trace]. by rewrite replay_snoc, Hc.
Qed.

Lemma runs_calm_inert psql s :
  psql_id psql = p -> (forall a, step_admin s a = a) -> Runs Calm (psql_run psql s).
Proof.
  intros Ep Hs. apply runs_calm_call. intros a r. cbn. destruct (_ && _); [apply Hs|done].
Qed.

Lemma runs_calm_sm f :
  (forall SM, IsDiscovered (f SM) = IsDiscovered SM) -> Runs Calm (mod_sm f).
Proof.
  intros Hf w. eexists _, _. split; [reflexivity|]. split; [|by split].
  split; [done| |done|done]. cbn. unfold cl_IsDiscovered. cbn. apply Hf.
Qed.

Lemma runs_calm_SetState key st : Runs Calm (SetState key st).
Proof.
  unfold SetState. apply runs_read. intros conf. destruct (negb _); [|apply runs_ret; apply _].
  apply runs_calm_sm. intros SM. unfold AddState. cbv zeta. by destruct (_ =? 0).
Qed.

Lemma runs_calm_warning q key from args : Runs Calm (proxy_warning q key from args).
Proof. unfold proxy_warning, load_proxy. apply runs_read. intros c. apply runs_calm_SetState. Qed.
Lemma runs_calm_on_error e f : (forall err, Runs Calm (f err)) -> Runs Calm (on_error e f).
Proof. intros Hf. destruct e; [apply Hf|apply runs_ret; apply _]. Qed.

Lemma lands_calm {A} (m : M A) w (Q : A -> World -> Prop) :
  Runs Calm m -> (forall a w', Calm w w' -> Q a w') -> lands m w Q.
Proof. intros Hm HQ. destruct (Hm w) as (a & w' & E & R). unfold lands. rewrite E. by apply HQ. Qed.

Lemma runs_calm_variable psql v : psql_id psql = p -> Runs Calm (bootstrap_variable psql v).
Proof.
  intros Ep. unfold bootstrap_variable. apply runs_read. intros conf. apply runs_whenM; [apply _|].
  apply runs_bind; [apply _|by apply runs_calm_inert|intros _; apply runs_ret; apply _].
Qed.

(** ** Moving one server *)

(** [m] changes the rows of [s] in the writers and readers to [W] and [R], and
    nothing else that matters; without an update it changes no row. *)
Definition Settles (s : ServerMonitor) (wg rg : Z) (W R : bool) (w : World) (u : bool) (w' : World) : Prop :=
  Same w w' /\ writers_known w' = writers_known w /\ pa_runtime (tables w') = pa_runtime (tables w) /\
  (u = false -> tables w' = tables w) /\
  in_group (pa_memory (tables w')) s wg = W /\ in_group (pa_memory (tables w')) s rg = R /\
  forall s' hg, address s <> address s' -> in_group (pa_memory (tables w')) s' hg = in_group (pa_memory (tables w)) s' hg.

(** A statement on the rows of a server. *)
Lemma lands_statement psql st s wg rg W R w (Q : Err -> World -> Prop) t :
  psql_id psql = p ->
  step_admin st (tables w) = mkPsqlAdmin t (pa_runtime (tables w)) ->
  in_group t s wg = W -> in_group t s rg = R ->
  (forall s' hg, address s <> address s' -> in_group t s' hg = in_group (pa_memory (tables w)) s' hg) ->
  (forall e w', Settles s wg rg W R w true w' -> Q e w') ->
  lands (psql_run psql st) w Q.
Proof.
  intros Ep Est HW HR Ho HQ. eapply (lands_psql p a0); [done|]. intros e w' Ec Eh Et _.
  apply HQ. rewrite Est in Et. split; [|split; [unfold writers_known; by rewrite Ec|]].
  - split; [by rewrite Ec|by rewrite Ec|unfold groups_of; by rewrite Ec|by rewrite Eh].
  - rewrite Et. by split.
Qed.

Lemma settles_calm s wg rg W R w u w1 w2 :
  Settles s wg rg W R w u w1 -> Calm w1 w2 -> Settles s wg rg W R w u w2.
Proof.
  intros (S1 & N1 & R1 & U1 & W1 & G1 & O1) (S2 & N2 & T2).
  split; [by transitivity w1|]. rewrite N2, T2. auto 7.
Qed.

(** The rows of a server after a row of it was added or deleted. *)
Lemma in_group_insert t s hg r s' hg' :
  in_group (<[row_of s hg := r]> t) s' hg' = bool_decide (row_of s hg = row_of s' hg') || in_group t s' hg'.
Proof. rewrite !in_group_member. apply member_insert. Qed.
Lemma in_group_delete t s hg s' hg' :
  in_group (delete (row_of s hg) t) s' hg' = negb (bool_decide (row_of s hg = row_of s' hg')) && in_group t s' hg'.
Proof. rewrite !in_group_member. apply member_delete. Qed.
Lemma row_of_group s hg hg' : hg <> hg' -> bool_decide (row_of s hg = row_of s hg') = false.
Proof. intros Hne. apply bool_decide_eq_false. unfold row_of, server_key. congruence. Qed.
Lemma row_of_same s hg : bool_decide (row_of s hg = row_of s hg) = true.
Proof. by apply bool_decide_true. Qed.
Lemma row_of_apart s s' hg hg' : address s <> address s' -> bool_decide (row_of s hg = row_of s' hg') = false.
Proof. intros Hne. apply bool_decide_eq_false. by apply row_of_other. Qed.

(** The rows of a server after its turn; [alone] when the proxy knew no writer. *)
Definition next_rows (ml x : loc) (alone W R : bool) : bool * bool :=
  if bool_decide (x = ml) then if alone || negb W then (true, R) else (true, HasProxyReadLeader cfg)
  else if negb R then (W, true) else (false, true).

Section Turn.
Context (psql : ProxySQL) (Epsql : psql_id psql = p) (HWR : WriterHG psql <> ReaderHG psql)
  (HWO : WriterHG psql <> offline_group) (HRO : ReaderHG psql <> offline_group).

Local Abbreviation wg := (WriterHG psql).
Local Abbreviation rg := (ReaderHG psql).
Local Abbreviation mem w := (pa_memory (tables w)).

Lemma lands_add_reader s w (Q : Err -> World -> Prop) :
  (forall e w', Settles s wg rg (in_group (mem w) s wg) true w true w' -> Q e w') ->
  lands (add_reader cfg psql s) w Q.
Proof.
  intros HQ. unfold add_reader. apply lands_bind. unfold lands at 1, get_conf. unfold AddServerAsReader.
  eapply (lands_statement psql _ s wg rg); [done|reflexivity| | | |exact HQ].
  - change (server_key rg ?h ?q) with (row_of s rg). rewrite in_group_insert, row_of_group by congruence. done.
  - change (server_key rg ?h ?q) with (row_of s rg). by rewrite in_group_insert, row_of_same.
  - intros s' hg Hs. change (server_key rg ?h ?q) with (row_of s rg). by rewrite in_group_insert, row_of_apart.
Qed.

Lemma lands_drop (writer : bool) s w (Q : Err -> World -> Prop) :
  let g := if writer then wg else rg in
  (forall e w', Settles s wg rg (negb writer && in_group (mem w) s wg) (writer && in_group (mem w) s rg) w true w' -> Q e w') ->
  lands (psql_run psql (delete_server g (Unbracket (srv_Host s)) (srv_Port s))) w Q.
Proof.
  intros g HQ. eapply (lands_statement psql _ s wg rg); [done|reflexivity| | | |exact HQ];
    change (server_key g ?h ?q) with (row_of s g).
  - rewrite in_group_delete. unfold g. destruct writer; [by rewrite row_of_same|by rewrite row_of_group by congruence].
  - rewrite in_group_delete. unfold g. destruct writer; [by rewrite row_of_group|by rewrite row_of_same].
  - intros s' hg Hs. by rewrite in_group_delete, row_of_apart.
Qed.

Lemma lands_bring_back s w (Q : unit -> World -> Prop) :
  (forall w', Settles s wg rg true (in_group (mem w) s rg) w true w' -> Q tt w') ->
  lands (bring_leader_back cfg psql p s) w Q.
Proof.
  intros HQ. unfold bring_leader_back, ExistAsWriterOrOffline. rewrite Epsql. apply lands_bind.
  unfold lands at 1, call. set (w1 := mkWorld _ _ _).
  assert (C1 : Calm w w1).
  { split; [by split|split; [done|]]. unfold w1, ProxySqlProps.tables. cbn [w_trace]. by rewrite replay_snoc. }
  assert (T1 : tables w1 = tables w) by apply C1. rewrite (law_exists (p:=p) (a0:=a0)). fold (tables w). cbn [existsb].
  assert (HS : forall w', Settles s wg rg true (in_group (mem w1) s rg) w1 true w' -> Q tt w').
  { intros w' (S2 & N2 & R2 & U2 & W2 & G2 & O2). apply HQ. destruct C1 as (S1 & N1 & _). rewrite <- T1 in *.
    split; [by transitivity w1|]. rewrite T1 in *. rewrite N2, N1. auto 7. }
  destruct (_ || _) eqn:Eex.
  - apply lands_bind. unfold SetOnline.
    eapply (lands_statement psql _ s wg rg); [done|apply step_update|reflexivity|reflexivity| |].
    + intros s' hg Hs. rewrite moved_other; done.
    + intros e w' HSet. apply HS. revert HSet.
      replace (in_group _ s wg) with true; [replace (in_group _ s rg) with (in_group (mem w1) s rg); [done|]|].
      * symmetry. unfold in_group. rewrite moved_apart by congruence. done.
      * symmetry. apply moved_back; [done|]. rewrite T1. by rewrite orb_false_r, orb_comm in Eex.
  - apply lands_bind. unfold AddServerAsWriter.
    eapply (lands_statement psql _ s wg rg); [done|reflexivity| | | |].
    + change (server_key wg ?h ?q) with (row_of s wg). by rewrite in_group_insert, row_of_same.
    + change (server_key wg ?h ?q) with (row_of s wg). by rewrite in_group_insert, row_of_group.
    + intros s' hg Hs. change (server_key wg ?h ?q) with (row_of s wg). by rewrite in_group_insert, row_of_apart.
    + intros e w2 HSet. unfold load_proxy. apply lands_bind. unfold lands at 1, mbind, M_bind, get_cluster, mret, M_ret.
      apply lands_calm; [apply runs_calm_on_error; intros err; apply runs_calm_warning|].
      intros [] w3 C3. apply HS. by eapply settles_calm.
Qed.

(** One turn, from the statuses and groups that the pool showed. *)
Lemma lands_settle_backend ml x wst rst w (Q : bool -> World -> Prop) :
  HasProxyReadLeaderNoSlave cfg = false -> Settled w ml -> In x (cl_servers (w_cluster w)) -> wst <> "OFFLINE_HARD" ->
  let s := w_heap w x in
  let W := in_group (mem w) s wg in
  let R := in_group (mem w) s rg in
  let next := next_rows ml x (Z.of_nat (writers_known w) =? 0) W R in
  (forall u w', Settles s wg rg (fst next) (snd next) w u w' -> Q u w') ->
  lands (settle_backend cfg psql p x wst rst W R) w Q.
Proof.
  intros RN HS Hx Hwst s W R next HQ. unfold settle_backend. apply lands_bind.
  change (lands get_cluster w ?Q) with (Q (w_cluster w) w). cbv beta. apply lands_bind.
  change (lands get_heap w ?Q) with (Q (w_heap w) w). cbv beta zeta.
  destruct (se_steady _ _ HS x Hx) as (E1 & E2 & E3 & E4 & E5).
  rewrite (proj2 (String.eqb_neq wst "OFFLINE_HARD") Hwst), (se_slaves _ _ HS x Hx), (se_leader _ _ HS x Hx), E1, E2, E3, E4, E5.
  cbn [andb orb negb]. rewrite andb_false_r. cbn [andb].
  assert (Hdone : forall W' R', W = W' -> R = R' -> Settles s wg rg W' R' w false w) by (by intros ? ? <- <-).
  unfold next, next_rows in HQ. case_bool_decide as Exm; cbn [andb negb] in *.
  - fold (writers_known w). destruct (_ || negb W) eqn:EA; cbn [fst snd] in HQ.
    { apply lands_bind. apply lands_bring_back. intros w' HSet. by apply (HQ true). }
    apply orb_false_iff in EA as [_ EW]. apply negb_false_iff in EW. destruct R eqn:ER; cbn [negb andb].
    + destruct (HasProxyReadLeader cfg) eqn:RL; cbn [negb]; [by apply (HQ false), Hdone|].
      unfold drop_leader_reader. apply lands_bind. unfold lands at 1, get_cluster. apply lands_bind.
      unfold lands at 1, get_heap. cbv zeta. rewrite RN. cbn [negb]. apply lands_bind. unfold lands at 1, mret, M_ret.
      apply lands_bind. apply (lands_drop false). cbn [negb andb]. intros e w1 HSet.
      apply lands_bind. apply lands_calm; [by apply runs_calm_variable|]. intros [] w2 C2.
      apply (HQ true). apply settles_calm with w1; [|done]. fold s in HSet. fold W in HSet. by rewrite EW in HSet.
    + unfold leader_reads. rewrite RN, orb_false_r. destruct (HasProxyReadLeader cfg) eqn:RL; cbn [negb].
      * apply lands_bind. apply lands_add_reader. intros e w1 HSet.
        apply lands_bind. apply lands_calm; [by apply runs_calm_variable|]. intros [] w2 C2.
        apply (HQ true). apply settles_calm with w1; [|done]. fold s in HSet. fold W in HSet. by rewrite EW in HSet.
      * by apply (HQ false), Hdone.
  - rewrite andb_false_r. destruct R eqn:ER; cbn [negb andb fst snd] in *.
    + rewrite bool_decide_eq_false_2 by (by apply (se_master _ _ HS)). cbn [negb andb]. destruct W eqn:EW.
      * apply lands_bind. apply (lands_drop true). cbn [negb andb]. fold s. intros e w1 HSet.
        apply (HQ true). fold R in HSet. by rewrite ER in HSet.
      * by apply (HQ false), Hdone.
    + apply lands_bind. apply lands_add_reader. intros e w1 HSet. by apply (HQ true).
Qed.

(** ** The grants are another table *)

Lemma runs_calm_users known l changed : Runs Calm (add_users psql p known l changed).
Proof.
  revert changed. induction l as [|[k user] r IH]; intros changed; cbn [add_users]; [apply runs_ret; apply _|].
  destruct (existsb _ known); [apply IH|]. unfold AddUser, LoadUsersToRuntime.
  apply runs_bind; [apply _| |intros e; apply runs_bind; [apply _| |intros _; apply IH]].
  - apply runs_bind; [apply _|apply runs_calm_inert; [done|by intros [m r0]]|].
    intros e. destruct (is_err e); [apply runs_ret; apply _|]. by apply runs_calm_inert.
  - apply runs_calm_on_error. intros err. apply runs_calm_warning.
Qed.

Lemma runs_calm_unique l uni : Runs Calm (unique_users p l uni).
Proof.
  revert uni. induction l as [|[k u] r IH]; intros uni; cbn [unique_users]; [apply runs_ret; apply _|].
  apply runs_read. intros conf. cbv zeta. destruct (uni !! _); [|apply IH].
  apply runs_bind; [apply _|apply runs_calm_warning|intros _; apply IH].
Qed.

Lemma runs_calm_copy_grants s : Runs Calm (copy_grants psql p s).
Proof.
  unfold copy_grants. apply runs_bind; [apply _|by apply runs_calm_call|intros ke].
  apply runs_bind; [apply _|apply runs_calm_on_error; intros err; apply runs_calm_warning|intros _].
  apply runs_bind; [apply _|apply runs_calm_unique|intros uni].
  apply runs_bind; [apply _|apply runs_calm_users|intros changed].
  apply runs_whenM; [apply _|]. apply runs_bind; [apply _|by apply runs_calm_inert|intros _; apply runs_ret; apply _].
Qed.

(** ** One server of the loop *)

Lemma in_group_address t s s' hg : address s = address s' -> in_group t s hg = in_group t s' hg.
Proof. unfold address, in_group. by intros [= -> ->]. Qed.

Lemma settles_address s s' W R w u w' :
  address s = address s' -> Settles s wg rg W R w u w' -> Settles s' wg rg W R w u w'.
Proof.
  intros E (A1 & A2 & A3 & A4 & A5 & A6 & A7). unfold Settles.
  rewrite <- !(in_group_address _ s s' _ E). rewrite <- E. auto 8.
Qed.
Lemma calm_settles s W R w w1 u w2 :
  Calm w w1 -> Settles s wg rg W R w1 u w2 -> Settles s wg rg W R w u w2.
Proof.
  intros (S1 & N1 & T1) (A1 & A2 & A3 & A4 & A5 & A6 & A7).
  split; [by transitivity w1|]. rewrite A2, N1, A3, T1 in *. auto 8.
Qed.

Lemma lands_stats hg host port w (Q : option PoolStats -> World -> Prop) :
  (forall st w', Calm w w' ->
     match st with Some _ => true | None => false end = present (pa_runtime (tables w)) host port hg ->
     pool_status (default no_stats st) <> "OFFLINE_HARD" -> Q st w') ->
  lands (call (psql_Stats (psql_id psql) hg host port)) w Q.
Proof.
  intros HQ. unfold lands, call. rewrite Epsql.
  pose proof (law_stats (p:=p) (a0:=a0) (w_trace w) hg host port) as Hl. fold (tables w) in Hl. apply HQ.
  - split; [by split|split; [done|]]. unfold ProxySqlProps.tables. cbn [w_trace]. by rewrite replay_snoc.
  - destruct (answer _ _); [by destruct Hl as [-> _]|done].
  - by destruct (answer _ _) as [st|]; [destruct Hl as [_ Hl]|].
Qed.

Definition in_effect (w : World) (x : loc) (hg : Z) : bool := in_group (pa_runtime (tables w)) (w_heap w x) hg.
Definition in_mem (w : World) (x : loc) (hg : Z) : bool := in_group (mem w) (w_heap w x) hg.

Lemma calm_mod_proxies w x f :
  (forall s, srv_core (f s) = srv_core s) -> Calm w (snd (mod_server x f w)).
Proof.
  intros Hf. split; [|by split]. split; [done|done|done|]. intros y. cbn.
  destruct (decide (y = x)) as [->|Hy]; [by rewrite fn_lookup_insert|by rewrite fn_lookup_insert_ne].
Qed.

Lemma lands_refresh_backend ml x w (Q : option Backend * option Backend * bool -> World -> Prop) :
  HasProxyReadLeaderNoSlave cfg = false -> Settled w ml -> In x (cl_servers (w_cluster w)) ->
  in_mem w x wg = in_effect w x wg -> in_mem w x rg = in_effect w x rg ->
  let next := next_rows ml x (Z.of_nat (writers_known w) =? 0) (in_mem w x wg) (in_mem w x rg) in
  (forall wr rd u w', Settles (w_heap w x) wg rg (fst next) (snd next) w u w' ->
     match wr with Some _ => true | None => false end = in_effect w x wg -> Q (wr, rd, u) w') ->
  lands (refresh_backend cfg psql p x) w Q.
Proof.
  intros RN HS Hx Aw Ar next HQ. unfold refresh_backend, GetStatsForHostWrite, GetStatsForHostRead.
  apply lands_bind. unfold lands at 1, load. cbv zeta. apply lands_bind. apply lands_stats.
  intros wst w1 C1 Ew Hwst. apply lands_bind. unfold lands at 1.
  set (f := fun s => _). pose proof (calm_mod_proxies w1 x f ltac:(done)) as C2.
  destruct (mod_server x f w1) as [o w2] eqn:E2. injection E2 as <- E2. cbn [snd] in C2.
  apply lands_bind. apply lands_stats. intros rst w3 C3 Er _. apply lands_bind. unfold lands at 1, get_cluster.
  assert (C : Calm w w3) by (transitivity w2; [by transitivity w1|done]).
  pose proof (settled_same _ _ _ HS (calm_same _ _ C)) as HS3. rewrite (se_bootstrap _ _ HS3), (se_discovered _ _ HS3).
  cbn [andb]. apply lands_bind. pose proof (same_address _ _ x (calm_same _ _ C)) as Ea.
  assert (Rt : pa_runtime (tables w2) = pa_runtime (tables w)).
  { destruct C1 as (_ & _ & T1), C2 as (_ & _ & T2). by rewrite T2, T1. }
  destruct C as (SC & NC & TC).
  assert (EW : match wst with Some _ => true | None => false end = in_group (mem w3) (w_heap w3 x) wg).
  { rewrite Ew, (in_group_address _ _ _ wg Ea), TC. symmetry. exact Aw. }
  assert (ER : match rst with Some _ => true | None => false end = in_group (mem w3) (w_heap w3 x) rg).
  { rewrite Er, Rt, (in_group_address _ _ _ rg Ea), TC. symmetry. exact Ar. }
  rewrite EW, ER. apply (lands_settle_backend ml); [done|done|by rewrite (same_list _ _ SC)|done|].
  intros u w4 HSet. apply lands_bind. unfold lands at 1. apply lands_bind. unfold lands at 1, get_heap.
  assert (HSet' : Settles (w_heap w x) wg rg (fst next) (snd next) w u w4).
  { apply (settles_address (w_heap w3 x)); [done|]. apply calm_settles with w3; [by split|].
    revert HSet. unfold next, in_mem. by rewrite NC, TC, !(in_group_address _ _ _ _ Ea). }
  apply lands_bind. apply lands_calm; [apply runs_whenM, runs_calm_warning; apply _|]. intros [] w5 C5.
  apply lands_bind. apply lands_calm; [apply runs_whenM, runs_calm_warning; apply _|]. intros [] w6 C6.
  apply lands_bind. apply lands_calm; [apply runs_whenM, runs_calm_copy_grants; apply _|]. intros [] w7 C7.
  apply HQ.
  - apply settles_calm with w4; [done|]. transitivity w6; [by transitivity w5|done].
  - rewrite <- EW, Ew. change (present _ _ _ wg) with (in_effect w x wg). by destruct (in_effect w x wg).
Qed.

(** ** The loop over the servers *)

(** After the turns of the servers of [l]. *)
Record Turned (ml : loc) (l : list loc) (w : World) (u : bool) (w' : World) : Prop := mkTurned {
  tu_same : Same w w';
  tu_known : writers_known w' = writers_known w;
  tu_runtime : pa_runtime (tables w') = pa_runtime (tables w);
  tu_idle : u = false -> tables w' = tables w;
  tu_rows : forall x, In x l ->
    (in_mem w' x wg, in_mem w' x rg) =
    next_rows ml x (Z.of_nat (writers_known w) =? 0) (in_mem w x wg) (in_mem w x rg);
  tu_others : forall s hg, (forall x, In x l -> address (w_heap w x) <> address s) ->
    in_group (mem w') s hg = in_group (mem w) s hg
}.

Lemma in_mem_address w w' x hg : Same w w' -> in_mem w' x hg = in_group (mem w') (w_heap w x) hg.
Proof. intros HS. apply in_group_address. by apply same_address. Qed.

Lemma turned_cons ml x r w u w1 u' w2 :
  Settles (w_heap w x) wg rg
    (fst (next_rows ml x (Z.of_nat (writers_known w) =? 0) (in_mem w x wg) (in_mem w x rg)))
    (snd (next_rows ml x (Z.of_nat (writers_known w) =? 0) (in_mem w x wg) (in_mem w x rg))) w u w1 ->
  (forall y, In y r -> address (w_heap w x) <> address (w_heap w y)) ->
  Turned ml r w1 u' w2 -> Turned ml (x :: r) w (u || u') w2.
Proof.
  intros (A1 & A2 & A3 & A4 & A5 & A6 & A7) Hx [B1 B2 B3 B4 B5 B6].
  assert (Hr : forall y, In y r -> address (w_heap w1 y) <> address (w_heap w x)).
  { intros y Hy. rewrite (same_address w w1 y A1). by apply not_eq_sym, Hx. }
  split; [by transitivity w1|congruence|congruence| | |].
  - intros [-> ->]%orb_false_iff. by rewrite B4, A4.
  - intros y [<-|Hy].
    + rewrite !(in_mem_address w w2) by (by transitivity w1). rewrite !B6 by done.
      rewrite A5, A6. by destruct (next_rows _ _ _ _ _).
    + rewrite (B5 y Hy), A2. by rewrite !(in_mem_address w w1 y _ A1), !A7 by (by apply Hx).
  - intros s hg Hs. rewrite B6, A7; [done|apply Hs; by left|].
    intros y Hy. rewrite (same_address w w1 y A1). apply Hs. by right.
Qed.

Lemma lands_refresh_backends ml l ws rs b w (Q : list Backend * list Backend * bool -> World -> Prop) :
  HasProxyReadLeaderNoSlave cfg = false -> Settled w ml -> (forall x, In x l -> In x (cl_servers (w_cluster w))) ->
  List.NoDup (map (fun x => address (w_heap w x)) l) ->
  (forall x, In x l -> in_mem w x wg = in_effect w x wg /\ in_mem w x rg = in_effect w x rg) ->
  (forall ws' rs' u w', Turned ml l w u w' ->
     (ws' = [] <-> ws = [] /\ forall x, In x l -> in_effect w x wg = false) -> Q (ws', rs', b || u) w') ->
  lands (refresh_backends cfg psql p l ws rs b) w Q.
Proof.
  intros RN. revert ws rs b w Q. induction l as [|x r IH]; intros ws rs b w Q HS Hl Hnd Hag HQ; cbn [refresh_backends].
  { rewrite <- (orb_false_r b). apply HQ; [by split|]. split; [by intros ->|by intros [-> _]]. }
  inversion Hnd as [|? ? Hx Hnd' Ex]. subst. destruct (Hag x (or_introl eq_refl)) as [Aw Ar].
  assert (Hne : forall y, In y r -> address (w_heap w x) <> address (w_heap w y)).
  { intros y Hy E. apply Hx. rewrite E. by apply in_map with (f := fun x => address (w_heap w x)). }
  apply lands_bind. apply (lands_refresh_backend ml); [done|done|apply Hl; by left|done|done|].
  intros wr rd u w1 HSet Hwr. pose proof HSet as (A1 & A2 & A3 & A4 & A5 & A6 & A7).
  assert (Heff : forall y hg, in_effect w1 y hg = in_effect w y hg).
  { intros y hg. unfold in_effect. rewrite A3. apply in_group_address. by apply same_address. }
  apply IH.
  - by apply (settled_same w w1).
  - intros y Hy. rewrite (same_list _ _ A1). apply Hl. by right.
  - erewrite map_ext; [exact Hnd'|]. intros y. by apply same_address.
  - intros y Hy. rewrite !Heff. destruct (Hag y (or_intror Hy)) as [Bw Br].
    rewrite !(in_mem_address w w1 y _ A1), !A7 by (by apply Hne). done.
  - intros ws' rs' u' w2 HT Hws. rewrite <- orb_assoc. apply HQ; [by eapply turned_cons|].
    rewrite Hws. unfold snoc. destruct wr as [bke|].
    + split; [by intros [E _]; destruct ws|]. intros [_ E]. by rewrite E in Hwr by (by left).
    + split; intros [-> E]; (split; [done|]).
      * intros y [<-|Hy]; [done|]. rewrite <- Heff. by apply E.
      * intros y Hy. rewrite Heff. apply E. by right.
Qed.
End Turn.

(** ** The whole refresh *)

Lemma calm_mod_proxy f w :
  (forall x, prx_WriterHostgroup (f x) = prx_WriterHostgroup x /\ prx_ReaderHostgroup (f x) = prx_ReaderHostgroup x) ->
  Same w (snd (mod_proxy p f w)) /\ tables (snd (mod_proxy p f w)) = tables w /\
  writers_known (snd (mod_proxy p f w)) = length (prx_BackendsWrite (f (get_proxy (w_cluster w) p))).
Proof.
  intros Hf. destruct (Hf (get_proxy (w_cluster w) p)) as [E1 E2].
  unfold mod_proxy, mod_cluster. cbn [snd]. set (c' := set_cl_ProxyMonitors _ (w_cluster w)).
  assert (Eg : get_proxy c' p = f (get_proxy (w_cluster w) p)).
  { unfold get_proxy at 1, c'. cbn. by rewrite lookup_insert_eq. }
  split; [|split; [done|unfold writers_known; cbn; by rewrite Eg]].
  split; [done|done|unfold groups_of; cbn [w_cluster]; by rewrite Eg, E1, E2|done].
Qed.

Lemma runs_calm_mod_proxy f :
  (forall x, prx_WriterHostgroup (f x) = prx_WriterHostgroup x /\ prx_ReaderHostgroup (f x) = prx_ReaderHostgroup x /\
             prx_BackendsWrite (f x) = prx_BackendsWrite x) ->
  Runs Calm (mod_proxy p f).
Proof.
  intros Hf w. exists tt, (snd (mod_proxy p f w)). split; [done|].
  destruct (calm_mod_proxy f w) as (HS & HT & HN); [intros x; by destruct (Hf x) as (? & ? & ?)|].
  split; [done|split; [|done]]. rewrite HN. by destruct (Hf (get_proxy (w_cluster w) p)) as (_ & _ & ->).
Qed.

Lemma runs_calm_variables psql : psql_id psql = p -> Runs Calm (refresh_variables psql p).
Proof.
  intros Ep. unfold refresh_variables.
  apply runs_bind; [apply _|by apply runs_calm_call|intros e].
  apply runs_bind; [apply _|apply runs_calm_on_error; intros err; apply runs_calm_warning|intros _].
  apply runs_bind; [apply _|by apply runs_calm_call|intros ve].
  apply runs_bind; [apply _|by apply runs_calm_mod_proxy|intros _].
  apply runs_bind; [apply _|apply runs_calm_on_error; intros err; apply runs_calm_warning|intros _].
  apply runs_read. intros conf. cbv zeta. apply runs_whenM; [apply _|].
  assert (Hset : forall v, Runs Calm (set_multiplexing psql v)).
  { intros v. unfold set_multiplexing. apply runs_read. intros conf'.
    apply runs_bind; [apply _|apply runs_calm_inert; [done|by intros [m r]]|intros _].
    apply runs_bind; [apply _|by apply runs_calm_inert|intros _]. apply runs_whenM; [apply _|].
    apply runs_bind; [apply _|by apply runs_calm_inert|intros _; apply runs_ret; apply _]. }
  apply runs_bind; [apply _|apply runs_whenM; [apply _|apply Hset]|intros _]. apply runs_whenM; [apply _|apply Hset].
Qed.

(** Publishing puts what is in memory into effect. *)
Lemma lands_publish psql w (Q : unit -> World -> Prop) :
  psql_id psql = p ->
  (forall w', Same w w' -> writers_known w' = writers_known w ->
     tables w' = mkPsqlAdmin (pa_memory (tables w)) (pa_memory (tables w)) -> Q tt w') ->
  lands (publish_servers psql p) w Q.
Proof.
  intros Ep HQ. unfold publish_servers, load_proxy. apply lands_bind.
  unfold lands at 1, mbind, M_bind, get_cluster, mret, M_ret. apply lands_bind.
  apply (lands_psql p a0); [done|]. intros e w1 Ec Eh Et He. cbn in He. rewrite step_load in Et.
  assert (S1 : Same w w1).
  { split; [by rewrite Ec|by rewrite Ec|unfold groups_of; by rewrite Ec|by rewrite Eh]. }
  destruct e; [done|]. apply lands_calm.
  - apply runs_bind; [apply _|by apply runs_calm_inert|]. intros e.
    apply runs_calm_on_error. intros err. apply runs_calm_warning.
  - intros [] w2 (S2 & N2 & T2). apply HQ; [by transitivity w1| |by rewrite T2].
    rewrite N2. unfold writers_known. by rewrite Ec.
Qed.

Definition wgroup (w : World) : Z := fst (groups_of w).
Definition rgroup (w : World) : Z := snd (groups_of w).

(** What one refresh of a settled cluster does. *)
Record Refreshed (ml : loc) (w w' : World) : Prop := mkRefreshed {
  rf_same : Same w w';
  rf_loaded : pa_memory (tables w') = pa_runtime (tables w');
  rf_rows : forall x, In x (cl_servers (w_cluster w)) ->
    (in_mem w' x (wgroup w), in_mem w' x (rgroup w)) =
    next_rows ml x (Z.of_nat (writers_known w) =? 0) (in_mem w x (wgroup w)) (in_mem w x (rgroup w));
  rf_known : writers_known w' = 0%nat <-> forall x, In x (cl_servers (w_cluster w)) -> in_mem w x (wgroup w) = false
}.

Lemma lands_prx_Refresh ml w (Q : Err -> World -> Prop) :
  HasProxyReadLeaderNoSlave cfg = false -> Settled w ml -> pa_memory (tables w) = pa_runtime (tables w) ->
  (forall w', Refreshed ml w w' -> Q None w') -> lands (prx_Refresh cfg p) w Q.
Proof.
  intros RN HS Hmr HQ. unfold prx_Refresh. apply lands_bind. unfold lands at 1, get_cluster.
  rewrite (se_on _ _ HS). cbn [negb]. apply lands_bind. apply (lands_Connect p a0). intros w1 Ec1 Eh1 Et1.
  set (psql := proxysql_of p (get_proxy (w_cluster w) p)).
  assert (C1 : Calm w w1).
  { split; [split|split]; [by rewrite Ec1|by rewrite Ec1|unfold groups_of; by rewrite Ec1|by rewrite Eh1| |done].
    unfold writers_known. by rewrite Ec1. }
  apply lands_bind. apply lands_calm; [by apply runs_calm_call|]. intros v w2 C2.
  apply lands_bind. apply lands_calm; [by apply runs_calm_mod_proxy|]. intros [] w3 C3.
  apply lands_bind. unfold lands at 1. assert (C : Calm w w3) by (transitivity w2; [by transitivity w1|done]).
  pose proof C as (SC & NC & TC). pose proof (settled_same _ _ _ HS SC) as HS3.
  destruct (se_groups _ _ HS) as (HWR & HWO & HRO).
  apply lands_bind. apply (lands_refresh_backends psql eq_refl HWR HWO HRO ml); [done|done|done|apply HS3| |].
  { intros x _. unfold in_mem, in_effect. rewrite TC, Hmr. done. }
  intros ws rs u w4 [D1 D2 D3 D4 D5 _] Hws. cbn [orb]. apply lands_bind.
  set (f := fun x => _). destruct (calm_mod_proxy f w4 ltac:(by split)) as (S5 & T5 & N5).
  destruct (mod_proxy p f w4) as [o w5] eqn:E5. pose proof (f_equal fst E5) as Eo. cbn in Eo. subst o.
  cbn [snd] in *. unfold lands at 1. rewrite E5.
  assert (Hend : forall w6, Same w5 w6 -> writers_known w6 = writers_known w5 -> pa_memory (tables w6) = pa_memory (tables w5) ->
    pa_memory (tables w6) = pa_runtime (tables w6) -> Refreshed ml w w6).
  { intros w6 S6 N6 T6 L6. assert (S46 : Same w4 w6) by (by transitivity w5).
    assert (S36 : Same w3 w6) by (by transitivity w4).
    split; [by transitivity w3|done| |].
    - intros x Hx. assert (Hx3 : In x (cl_servers (w_cluster w3))) by (by rewrite (same_list _ _ SC)).
      specialize (D5 x Hx3). rewrite NC in D5. unfold in_mem in *.
      rewrite !(in_group_address _ _ _ _ (same_address _ _ x SC)), TC in D5.
      change (wgroup w) with (WriterHG psql). change (rgroup w) with (ReaderHG psql). rewrite <- D5.
      by rewrite !(in_group_address _ _ _ _ (same_address _ _ x S46)), T6, T5.
    - rewrite N6, N5. unfold f. cbn. rewrite length_zero_iff_nil, Hws.
      split.
      + intros [_ E] x Hx. rewrite <- (E x) by (by rewrite (same_list _ _ SC)).
        unfold in_mem, in_effect. by rewrite TC, Hmr, (in_group_address _ _ _ _ (same_address _ _ x SC)).
      + intros E. split; [done|]. intros x Hx. rewrite (same_list _ _ SC) in Hx. rewrite <- (E x Hx).
        unfold in_mem, in_effect. by rewrite TC, Hmr, (in_group_address _ _ _ _ (same_address _ _ x SC)). }
  assert (Hvars : forall w6, Refreshed ml w w6 -> lands (refresh_variables psql p ;; mret None) w6 Q).
  { intros w6 [R1 R2 R3 R4]. apply lands_bind. apply lands_calm; [by apply runs_calm_variables|].
    intros [] w7 (S7 & N7 & T7). apply HQ. split.
    - by transitivity w6.
    - by rewrite T7.
    - intros x Hx. rewrite <- (R3 x Hx). unfold in_mem.
      by rewrite !(in_group_address _ _ _ _ (same_address _ _ x S7)), T7.
    - by rewrite N7. }
  apply lands_bind. destruct u; cbn [whenM].
  - apply (lands_publish psql); [done|]. intros w6 S6 N6 T6. apply Hvars, Hend; [done|done| |]; by rewrite T6.
  - apply Hvars, Hend; [done|done|done|]. rewrite T5, D4, TC by done. done.
Qed.

(** ** Rounds *)

Fixpoint refreshes (n : nat) : M unit :=
  match n with O => mret tt | S m => prx_Refresh cfg p ;; refreshes m end.

(** The rows that are right, and how far they are after [n] refreshes. *)
Definition wanted (ml x : loc) : bool * bool := (bool_decide (x = ml), negb (bool_decide (x = ml)) || HasProxyReadLeader cfg).
Definition rows (w : World) (x : loc) : bool * bool := (in_mem w x (wgroup w), in_mem w x (rgroup w)).

Definition progress (ml : loc) (n : nat) (w : World) : Prop :=
  (n >= 1 -> forall x, In x (cl_servers (w_cluster w)) -> if bool_decide (x = ml) then fst (rows w x) = true else snd (rows w x) = true)%nat /\
  (n >= 2 -> writers_known w <> 0%nat /\ forall x, In x (cl_servers (w_cluster w)) -> x <> ml -> rows w x = wanted ml x)%nat /\
  (n >= 3 -> forall x, In x (cl_servers (w_cluster w)) -> rows w x = wanted ml x)%nat.

Lemma progress_step ml n w w' :
  Settled w ml -> Refreshed ml w w' -> progress ml n w -> progress ml (S n) w'.
Proof.
  intros HS [R1 R2 R3 R4] (P1 & P2 & P3).
  assert (Eg : groups_of w' = groups_of w) by apply R1.
  assert (Hrows : forall x, In x (cl_servers (w_cluster w')) -> In x (cl_servers (w_cluster w)) /\
    rows w' x = next_rows ml x (Z.of_nat (writers_known w) =? 0) (fst (rows w x)) (snd (rows w x))).
  { intros x Hx. rewrite (same_list _ _ R1) in Hx. split; [done|].
    unfold rows. cbn [fst snd]. rewrite <- (R3 x Hx). unfold wgroup, rgroup. by rewrite Eg. }
  unfold next_rows in Hrows. split; [|split].
  - intros _ x Hx. destruct (Hrows x Hx) as [_ ->]. case_bool_decide; [by destruct (_ || _)|].
    by destruct (snd (rows w x)).
  - intros Hn. split.
    + rewrite R4. intros E. specialize (P1 ltac:(lia) ml (se_listed _ _ HS)). rewrite bool_decide_true in P1 by done.
      change (in_mem w ml (wgroup w) = true) in P1. by rewrite (E ml (se_listed _ _ HS)) in P1.
    + intros x Hx Hxm. destruct (Hrows x Hx) as [Hx' ->]. specialize (P1 ltac:(lia) x Hx'). unfold wanted.
      rewrite !bool_decide_false in * by done. by rewrite P1.
  - intros Hn x Hx. destruct (Hrows x Hx) as [Hx' ->]. destruct (P2 ltac:(lia)) as [P2k P2r].
    replace (Z.of_nat (writers_known w) =? 0) with false by (symmetry; apply Z.eqb_neq; lia). unfold wanted.
    case_bool_decide as Exm.
    + subst x. specialize (P1 ltac:(lia) ml Hx'). rewrite bool_decide_true in P1 by done. by rewrite P1.
    + rewrite (P2r x Hx' Exm). unfold wanted. by rewrite !bool_decide_false by done.
Qed.

End Refresh.

(** ** Examples *)

(** db1 is the master again, db2 and db3 are its slaves. *)
Definition demo_settled_heap : loc -> ServerMonitor := fun l =>
  match l with
  | 0 => demo_server "db1" 1 stateMaster "0-1-100" []
  | S _ => set_srv_IsSlave true (demo_heap l)
  end%nat.
Definition demo_settled : World :=
  mkWorld (set_cl_StateMachine (set_Discovered true zeroStateMachine)
    (set_cl_ProxyMonitors (<[7%nat := demo_proxy]> ∅) (set_cl_Conf demo_psql_conf demo_cluster))) demo_settled_heap [].

Definition after_refreshes (l : list (Z * string)) (n : nat) : list bool * list bool :=
  let w' := snd (@refreshes (psql_env 7 (demo_tables l) demo_databases) _ 7 plain_tags n demo_settled) in
  let rows hg := map (fun host => present (pa_runtime (tables 7 (demo_tables l) w')) host "3306" hg) ["db1"; "db2"; "db3"] in
  (rows 0, rows 1).

(** The leader is only a reader, and a slave is the writer. *)
Definition demo_crossed : list (Z * string) := [(0, "db3"); (1, "db1")].


(** Without a writer, two refreshes leave the leader among the readers. *)
Example demo_two_refreshes :
  map (after_refreshes [(1, "db1")]) [2; 3]%nat =
  [([true; false; false], [true; true; true]); ([true; false; false], [false; true; true])].
Proof. vm_compute. reflexivity. Qed.

(** In between, the leader and a slave are both writers. *)
Example demo_two_writers : fst (after_refreshes demo_crossed 1) = [true; false; true].
Proof. vm_compute. reflexivity. Qed.
