(* ===== verification/Binlog.v ===== *)
(** * Purging binary logs (cluster/srv_binlog.go, cluster/cluster_topo.go, utils/dbhelper)

    The manager keeps the list of the binary logs of a server, remembers the
    oldest log of the master that a slave still reads, and purges the logs that
    exceed a configured size. A binary log is named by a prefix and a number,
    and the code compares names as texts.

    The jobs the source starts with [go] run where they are started. What
    [RefreshBinlogMetadata] adds to a log, its source and first timestamp, is not
    used by the purge and left out; so are the files it writes. *)

From Stdlib Require Import ZArith Lia Bool Ascii String.
From stdpp Require Import base list gmap strings functions.
From S2P Require Import Prelude GoLib Version StateMachine Config Server Cluster ServerOps.

Local Open Scope string_scope.
Local Open Scope list_scope.
Local Open Scope Z_scope.

(** ** Names of binary logs *)

Fixpoint zeros (n : nat) : string := match n with O => "" | S n => String "0" (zeros n) end.

(** [fmt.Sprintf("%06d", n)]: the sign counts for the width. *)
Definition fmt_06d (n : Z) : string :=
  let digits := format_uint (Z.abs n) in
  if n <? 0 then "-" +:+ zeros (5 - String.length digits) +:+ digits
  else zeros (6 - String.length digits) +:+ digits.

Definition binlog_name (prefix : string) (suffix : Z) : string := prefix +:+ "." +:+ fmt_06d suffix.

(** What precedes the last dot, and what follows it. *)
Definition binlog_prefix (file : string) : string := strings_Join (removelast (strings_Split "." file)) ".".
Definition binlog_number (file : string) : string := List.last (strings_Split "." file) "".

(** The text of an error of [strconv.Atoi] (for a text that needs no escapes). *)
Definition atoi_error (s : string) (e : NumErr) : string :=
  "strconv.Atoi: parsing " +:+ String "034" s +:+ String "034" ": " +:+
  match e with ErrRange => "value out of range" | _ => "invalid syntax" end.

(** ** The known logs of a server (utils/dbhelper) *)

Abbreviation BinaryLogs := (gmap string BinaryLogMetadata).

Section Sorting.
Context `{GoSort} `{GoRange}.

Definition GetKeys (m : BinaryLogs) : list string := go_sort String.ltb (map fst (go_range m)).
Definition GetKeysDesc (m : BinaryLogs) : list string :=
  go_sort (fun a b => String.ltb b a) (map fst (go_range m)).

(** A log that is known gets its new size. *)
Definition store_row (m : BinaryLogs) (row : string * Z) : BinaryLogs :=
  match m !! fst row with
  | Some meta => <[fst row := mkBinaryLogMetadata (bl_Filename meta) (snd row)]> m
  | None => <[fst row := mkBinaryLogMetadata (fst row) (snd row)]> m
  end.

(** The first name that is not empty. *)
Definition oldest_row (rows : list (string * Z)) : string :=
  fold_left (fun oldest row => if (oldest =? "")%string then fst row else oldest) rows "".

Fixpoint smaller_keys (oldest : string) (keys : list string) : list string :=
  match keys with
  | [] => []
  | k :: r => if String.ltb k oldest then k :: smaller_keys oldest r else []
  end.

(** The logs before the oldest one are forgotten, if it is known. *)
Definition ClearObsoleteMetadata (oldest : string) (m : BinaryLogs) : BinaryLogs :=
  let keys := GetKeys m in
  let before := smaller_keys oldest keys in
  match keys !! length before with
  | Some k => if (k =? oldest)%string then fold_left (fun m k => delete k m) before m else m
  | None => m
  end.

Section Jobs.
Context `{Env}.

Definition set_binlogs (l : loc) (m : BinaryLogs) : M unit := mod_server l (set_srv_BinaryLogFiles m).

(** How many logs, the oldest one, and the error. *)
Definition GetBinaryLogs (l : loc) : M (Z * string * Err) :=
  s ← load l;
  v ← deref (srv_DBVersion s);
  if IsPostgreSQL v then mret (0, "", Some "ERROR: QUERY_RESPONSE_TIME not available on PostgeSQL")
  else
    r ← exec l (db_GetBinaryLogs l);
    let m := fold_left store_row (fst r) (srv_BinaryLogFiles s) in
    let count := Z.of_nat (length (fst r)) in
    let oldest := oldest_row (fst r) in
    match snd r with
    | Some e => set_binlogs l m ;; mret (count, oldest, Some ("Could not get binary logs: " +:+ e))
    | None => set_binlogs l (ClearObsoleteMetadata oldest m) ;; mret (count, oldest, None)
    end.

(** [dbhelper.PurgeBinlogTo] sends nothing for an empty name. *)
Definition send_purge_to (l : loc) (filename : string) : M Err :=
  if (filename =? "")%string then mret (Some "Invalid filename for PURGE BINARY LOGS TO")
  else exec l (db_PurgeBinlogTo l filename).

(** ** Refreshing *)

Definition refresh_binlogs (l : loc) : M Err :=
  '(count, oldest, err) ← GetBinaryLogs l;
  s ← load l;
  match err with
  | Some e => SetState "ERR00014" (state_of "ERR00014" "WARNING" "BINLOG" (srv_URL s) [fs (srv_URL s); fs e])
  | None => mret tt
  end ;;
  whenM (0 <? count)
    (mod_server l (fun s => set_srv_BinaryLogFileOldest oldest (set_srv_BinaryLogFilesCount count s))) ;;
  mret err.

Definition RefreshBinaryLogs (l : loc) : M Err :=
  s ← load l;
  if IsIgnored s then mret (Some "Server is ignored")
  else if srv_IsRefreshingBinlog s then mret (Some "Server is refreshing binlogs")
  else
    mod_server l (set_srv_IsRefreshingBinlog true) ;;
    defer (refresh_binlogs l) (mod_server l (set_srv_IsRefreshingBinlog false)).

Fixpoint wait_refresh (fuel : nat) (l : loc) : M unit :=
  e ← RefreshBinaryLogs l;
  match e with
  | Some e =>
      if (e =? "Server is refreshing binlogs")%string
      then match fuel with O => hang | S n => call (time_Sleep 1000) ;; wait_refresh n l end
      else mret tt
  | None => mret tt
  end.
Definition WaitForRefresh (l : loc) : M unit := wait_refresh wait_fuel l.

(** ** The oldest log in use (cluster/cluster_topo.go, cluster_set.go) *)

Definition SetSlavesOldestMasterFile (value : string) : M Err :=
  let '(suffix, err) := strconv_Atoi (binlog_number value) in
  match err with
  | ErrNone => mod_cluster (set_cl_SlavesOldestMasterFile (mkSlavesOldestMasterFile (binlog_prefix value) suffix)) ;; mret None
  | _ => mret (Some (atoi_error (binlog_number value) err))
  end.

(** One round of the loop over the slaves; [None] abandons the check. *)
Definition oldest_step (x : loc) (acc : Z * Z * string) : M (option (Z * Z * string)) :=
  let '(connected, binInt, oldest) := acc in
  c ← get_cluster;
  if cl_IsInFailover c then mret None
  else
    sl ← load x;
    let connected := if (srv_State sl =? stateSlave)%string || (srv_State sl =? stateSlaveLate)%string
                     then connected + 1 else connected in
    match own_channel sl with
    | None => mret None
    | Some ss =>
        let file := ns_String (ss_MasterLogFile ss) in
        let '(curInt, err) := strconv_Atoi (binlog_number file) in
        match err with
        | ErrNone => mret tt
        | _ => SetState "WARN0109" (state_of "WARN0109" "WARNING" "PURGE" ""
                 [fs (srv_Host sl +:+ ":" +:+ srv_Port sl); fs file; fs (atoi_error (binlog_number file) err)])
        end ;;
        mret (Some (if (0 <? curInt) && ((binInt =? 0) || (curInt <? binInt))
                    then (connected, curInt, file) else (connected, binInt, oldest)))
    end.

Fixpoint oldest_loop (slaves : list loc) (acc : Z * Z * string) : M (option (Z * Z * string)) :=
  match slaves with
  | [] => mret (Some acc)
  | x :: r =>
      o ← oldest_step x acc;
      match o with None => mret None | Some acc => oldest_loop r acc end
  end.

Definition CheckSlavesReplicationsPurge : M unit :=
  c ← get_cluster;
  if cl_IsInFailover c then mret tt
  else if negb (Conf_ForceBinlogPurge (cl_Conf c)) then mret tt
  else
    o ← oldest_loop (cl_slaves c) (0, 0, "");
    match o with
    | None => mret tt
    | Some (connected, binInt, oldest) =>
        c ← get_cluster;
        whenM (negb (cl_SlavesConnected c =? connected)) (mod_cluster (set_cl_SlavesConnected connected)) ;;
        c ← get_cluster;
        whenM (negb (oldest =? "")%string && negb (so_Suffix (cl_SlavesOldestMasterFile c) =? binInt))
          (SetSlavesOldestMasterFile oldest ;; mret tt)
    end.

(** ** Purging a master *)

Definition PurgeBinlogTo (l : loc) (filename : string) : M unit :=
  s ← load l;
  match srv_BinaryLogFiles s !! filename with
  | Some _ => send_purge_to l filename ;; mret tt
  | None => mret tt
  end.

(** From the newest log on, as long as the sum of the sizes does not exceed the
    maximum: the last name, or [None] at a name without metadata. *)
Fixpoint size_boundary (files : BinaryLogs) (maxSize totalSize : Z) (until : string) (keys : list string) : option string :=
  match keys with
  | [] => Some until
  | fname :: r =>
      match files !! fname with
      | None => None
      | Some meta =>
          let totalSize := u64 (totalSize + bl_Size meta) in
          if maxSize <? totalSize then Some until
          else size_boundary files maxSize totalSize (bl_Filename meta) r
      end
  end.

Definition purge_on_restore (l : loc) : M unit :=
  c ← get_cluster;
  s ← load l;
  let oldest := cl_SlavesOldestMasterFile c in
  let filename := binlog_name (so_Prefix oldest) (so_Suffix oldest - 1) in
  whenM ((2 <? srv_BinaryLogFilesCount s) && String.ltb (srv_BinaryLogFileOldest s) filename)
    (PurgeBinlogTo l filename ;; RefreshBinaryLogs l ;; mret tt).

Definition purge_by_size (l : loc) : M unit :=
  c ← get_cluster;
  s ← load l;
  let maxSize := u64 (u64 (Conf_ForceBinlogPurgeTotalSize (cl_Conf c)) * (1024 * 1024 * 1024)) in
  match size_boundary (srv_BinaryLogFiles s) maxSize 0 "" (GetKeysDesc (srv_BinaryLogFiles s)) with
  | None => mret tt
  | Some until =>
      if (until =? "")%string then mret tt
      else
        let oldest := cl_SlavesOldestMasterFile c in
        let slavesMasterFile := binlog_name (so_Prefix oldest) (so_Suffix oldest) in
        let in_use := String.ltb slavesMasterFile until in
        whenM in_use
          (SetState "WARN0107" (state_of "WARN0107" "WARNING" "CHECK" (srv_URL s) [fs (so_Prefix oldest); fd (so_Suffix oldest)])) ;;
        let until := if in_use then slavesMasterFile else until in
        if existsb (String.eqb until) (GetKeys (srv_BinaryLogFiles s))
        then PurgeBinlogTo l until ;; RefreshBinaryLogs l ;; mret tt
        else mret tt
  end.

Definition purge_master (l : loc) : M unit :=
  c ← get_cluster;
  if cl_IsInFailover c then mret tt
  else if negb (Conf_ForceBinlogPurge (cl_Conf c)) then mret tt
  else
    h ← get_heap;
    let s := h l in
    if negb (IsMaster c h s) then mret tt
    else
      let '(suffix, _) := strconv_Atoi (binlog_number (srv_BinaryLogFile s)) in
      if negb (so_Prefix (cl_SlavesOldestMasterFile c) =? binlog_prefix (srv_BinaryLogFile s))%string then mret tt
      else if suffix <? so_Suffix (cl_SlavesOldestMasterFile c) then mret tt
      else if Conf_ForceBinlogPurgeOnRestore (cl_Conf c) && HasAnyReseedingState s then purge_on_restore l
      else if 0 <? Conf_ForceBinlogPurgeTotalSize (cl_Conf c) then purge_by_size l
      else mret tt.

(** Unless too few slaves are connected or another purge is going on. *)
Definition guarded_purge (l : loc) : M unit :=
  c ← get_cluster;
  s ← load l;
  if cl_SlavesConnected c <=? Conf_ForceBinlogPurgeMinReplica (cl_Conf c)
  then
    whenM (negb (Map_Search "WARN0106" (CurState (cl_StateMachine c))))
      (SetState "WARN0106" (state_of "WARN0106" "WARNING" "PURGE" (srv_URL s)
         [fd (Conf_ForceBinlogPurgeMinReplica (cl_Conf c))]))
  else
    whenM (srv_BinaryLogFilesCount s =? 0) (WaitForRefresh l) ;;
    s ← load l;
    if IsPurgingBinlog s then mret tt
    else
      mod_server l (set_srv_InPurgingBinaryLog true) ;;
      defer (purge_master l) (mod_server l (set_srv_InPurgingBinaryLog false)).

Definition JobBinlogPurgeMaster (l : loc) : M unit := CheckSlavesReplicationsPurge ;; guarded_purge l.

(** ** Purging a slave *)

Definition purge_slave (l m : loc) : M unit :=
  s ← load l;
  if negb (srv_State s =? stateSlave)%string && negb (srv_State s =? stateSlaveLate)%string then mret tt
  else
    master ← load m;
    if (0 <? srv_BinaryLogOldestTimestamp s) &&
       (srv_BinaryLogPurgeBefore s <? srv_BinaryLogOldestTimestamp master) && (2 <? srv_BinaryLogFilesCount s)
    then
      exec l (db_PurgeBinlogBefore l (srv_BinaryLogOldestTimestamp master)) ;;
      mod_server l (set_srv_BinaryLogPurgeBefore (srv_BinaryLogOldestTimestamp master)) ;;
      RefreshBinaryLogs l ;; mret tt
    else mret tt.

Definition JobBinlogPurgeSlave (l : loc) : M unit :=
  c ← get_cluster;
  s ← load l;
  match GetMaster c with
  | None => mret tt
  | Some m =>
      master ← load m;
      if negb (srv_Host master =? GetReplicationMasterHost s)%string then mret tt
      else if IsPurgingBinlog s then mret tt
      else
        mod_server l (set_srv_InPurgingBinaryLog true) ;;
        defer (purge_slave l m) (mod_server l (set_srv_InPurgingBinaryLog false))
  end.

(** ** Where the jobs are started *)

(** From MariaDB 11.4 on the server purges by itself. *)
Definition purges_itself (l : loc) : M bool :=
  s ← load l;
  if srv_IsMariaDB s then v ← deref (srv_DBVersion s); deref (Version.GreaterEqual v "11.4") else mret false.

Definition SetMaxBinlogTotalSize (l : loc) : M Err :=
  c ← get_cluster;
  s ← load l;
  itself ← purges_itself l;
  let totalsize := i64 (Conf_ForceBinlogPurgeTotalSize (cl_Conf c) * 1024 * 1024 * 1024) in
  if negb (itself : bool) then mret None else
  match srv_Variables s !! "MAX_BINLOG_TOTAL_SIZE" with
  | None => mret (Some "Variable max_binlog_total_size not found")
  | Some v =>
      match strconv_Atoi v with
      | (size, ErrNone) =>
          if size =? totalsize then mret None
          else if totalsize <? 0 then mret (Some "Invalid size for max_binlog_total_size")
          else exec l (db_SetMaxBinlogTotalSize l totalsize)
      | (_, e) => mret (Some (atoi_error v e))
      end
  end.

Definition ForcePurgeBinlogs (l : loc) : M unit :=
  c ← get_cluster;
  h ← get_heap;
  let isMaster := IsMaster c h (h l) in
  if IsPurgingBinlog (h l) then mret tt
  else
    itself ← purges_itself l;
    if (itself : bool) then SetMaxBinlogTotalSize l ;; mret tt
    else if 2 <? srv_BinaryLogFilesCount (h l) then
      whenM isMaster (JobBinlogPurgeMaster l) ;;
      c ← get_cluster;
      s ← load l;
      whenM (negb isMaster && Conf_ForceBinlogPurgeReplicas (cl_Conf c) && srv_HaveBinlogSlaveUpdates s &&
             negb (Map_Search "WARN0107" (CurState (cl_StateMachine c))) && negb (IsIgnored s))
        (JobBinlogPurgeSlave l)
    else mret tt.

Definition BinlogRotationScript (l : loc) : M unit :=
  c ← get_cluster;
  s ← load l;
  call (run_script (Conf_BinlogRotationScript (cl_Conf c))
    [cl_Name c; srv_Host s; srv_Port s; srv_BinaryLogFile s; srv_BinaryLogFilePrevious s; srv_BinaryLogFileOldest s]).

(** The log was rotated: the script and the backup of the previous one. *)
Definition on_rotation (l : loc) : M unit :=
  c ← get_cluster;
  h ← get_heap;
  whenM (negb (Conf_BinlogRotationScript (cl_Conf c) =? "")%string && IsMaster c h (h l)) (BinlogRotationScript l) ;;
  c ← get_cluster;
  whenM (Conf_BackupBinlogs (cl_Conf c) && negb (cl_IsInFailover c))
    (call (run_job "InitiateJobBackupBinlog" l) ;; call (start_job "JobBackupBinlogPurge" None l)) ;;
  RefreshBinaryLogs l ;; mret tt.

Definition CountBinaryLogs (l : loc) : M (Z * Err) :=
  s ← load l;
  v ← deref (srv_DBVersion s);
  if IsPostgreSQL v then mret (0, Some "ERROR: SHOW BINARY LOGS not available on PostgeSQL")
  else exec l (db_CountBinaryLogs l).

(** The purge is started unless a failover or a backup is going on. *)
Definition start_purge (l : loc) : M Err :=
  c ← get_cluster;
  s ← load l;
  if Conf_ForceBinlogPurge (cl_Conf c) then
    v ← deref (srv_DBVersion s);
    if IsPostgreSQL v then mret None
    else if cl_IsInFailover c then mret (Some "Cancel job purge slave binlog during failover")
    else if srv_IsBackingUpBinaryLog s then mret (Some "Server is backing up binlogs")
    else ForcePurgeBinlogs l ;; mret None
  else mret None.

Definition CheckBinaryLogs (l : loc) (force : bool) : M Err :=
  s ← load l;
  if IsIgnored s then mret (Some "Server is ignored")
  else
    whenM (srv_BinaryLogFilesCount s =? 0) (WaitForRefresh l) ;;
    s ← load l;
    err ← (if (negb (srv_BinaryLogFilePrevious s =? "")%string &&
               negb (srv_BinaryLogFilePrevious s =? srv_BinaryLogFile s)%string) || force
           then on_rotation l ;; mret None
           else
             r ← CountBinaryLogs l;
             match snd r with
             | Some e => mret (Some e)
             | None =>
                 s ← load l;
                 whenM (negb (srv_BinaryLogFilesCount s =? fst r)) (RefreshBinaryLogs l ;; mret tt) ;; mret None
             end);
    match err with
    | Some e => mret (Some e)
    | None =>
        mod_server l (fun s => set_srv_BinaryLogFilePrevious (srv_BinaryLogFile s) s) ;;
        start_purge l
    end.
End Jobs.
End Sorting.
