(* ===== verification/BinlogProps.v ===== *)
(** * Properties of the purge of binary logs

    Names of binary logs are ordered as their numbers as long as these have at
    most six digits; under that condition the purge of a master keeps every log
    a slave still reads, and it stays within the configured size. *)

From Stdlib Require Import ZArith Lia Bool Ascii String Permutation Sorted.
From stdpp Require Import base list gmap strings functions.
From S2P Require Import Prelude GoLib Version StateMachine Config Server Cluster Demo ServerOps Lands Binlog.

Local Open Scope string_scope.
Local Open Scope list_scope.
Local Open Scope Z_scope.

(** ** Numbers of a fixed width *)

Fixpoint fixed (k : nat) (n : Z) (acc : string) : string :=
  match k with O => acc | S k => fixed k (n / 10) (String (digit_char (n mod 10)) acc) end.

Lemma fixed_zero k acc : fixed k 0 acc = zeros k +:+ acc.
Proof.
  revert acc. induction k as [|k IH]; intros acc; [done|]. cbn [fixed].
  change (0 / 10) with 0. rewrite IH. change (digit_char (0 mod 10)) with "0"%char.
  clear IH. induction k as [|k IH]; [done|]. exact (f_equal (String "0") IH).
Qed.

Lemma format_digits_fixed fuel k n acc :
  0 <= n < 10 ^ Z.of_nat k -> (0 < k)%nat -> n < 2 ^ Z.of_nat fuel -> (0 < fuel)%nat ->
  zeros (k + String.length acc - String.length (format_digits fuel n acc)) +:+ format_digits fuel n acc = fixed k n acc.
Proof.
  revert fuel n acc. induction k as [|k IH]; intros fuel n acc Hn Hk Hf Hp; [lia|].
  destruct fuel as [|f]; [lia|]. cbn [format_digits fixed].
  rewrite Nat2Z.inj_succ, Z.pow_succ_r in Hn by lia.
  destruct (Z.eqb_spec (n / 10) 0) as [Ez|Ez].
  - rewrite Ez, fixed_zero. cbn [String.length]. f_equal. f_equal. lia.
  - assert (0 < n / 10) by (pose proof (Z.div_pos n 10 ltac:(lia) ltac:(lia)); lia).
    assert (n / 10 < 10 ^ Z.of_nat k) by (apply Z.div_lt_upper_bound; lia).
    rewrite Nat2Z.inj_succ, Z.pow_succ_r in Hf by lia.
    assert (n / 10 < 2 ^ Z.of_nat f) by (apply Z.div_lt_upper_bound; lia).
    assert (0 < k)%nat by (destruct k; [change (10 ^ Z.of_nat 0) with 1 in *; lia|lia]).
    assert (0 < f)%nat by (destruct f; [change (2 ^ Z.of_nat 0) with 1 in *; lia|lia]).
    rewrite <- (IH f) by lia.
    cbn [String.length]. f_equal. f_equal. lia.
Qed.

Lemma fmt_06d_fixed n : 0 <= n < 10 ^ 6 -> fmt_06d n = fixed 6 n "".
Proof.
  intros Hn. unfold fmt_06d. destruct (Z.ltb_spec n 0); [lia|]. rewrite Z.abs_eq by lia.
  unfold format_uint. rewrite <- (format_digits_fixed (S (Z.to_nat (Z.log2 n))) 6 n "") by (try lia; try apply log2_fuel; lia).
  done.
Qed.

Lemma fixed_char k n acc c : digit_of c = None -> char_in c (fixed k n acc) = char_in c acc.
Proof.
  intros Hc. revert n acc. induction k as [|k IH]; intros n acc; [done|]. cbn [fixed]. rewrite IH.
  pose proof (Z.mod_pos_bound n 10 ltac:(lia)). cbn [char_in]. by rewrite digit_char_not by (done || lia).
Qed.

Lemma parse_fixed maxVal k n acc m :
  0 <= n < 10 ^ Z.of_nat k -> 0 <= m -> m * 10 ^ Z.of_nat k + n <= maxVal ->
  parse_digits maxVal m (fixed k n acc) = parse_digits maxVal (m * 10 ^ Z.of_nat k + n) acc.
Proof.
  revert n acc m. induction k as [|k IH]; intros n acc m Hn Hm Hmax.
  - cbn [fixed]. change (10 ^ Z.of_nat 0) with 1 in *. f_equal. lia.
  - cbn [fixed]. rewrite Nat2Z.inj_succ, Z.pow_succ_r in * by lia.
    pose proof (Z.mod_pos_bound n 10 ltac:(lia)). pose proof (Z.div_mod n 10 ltac:(lia)).
    rewrite IH; [|split; [apply Z.div_pos; lia|apply Z.div_lt_upper_bound; lia]|done|nia].
    cbn [parse_digits]. rewrite digit_of_char by lia.
    replace ((m * 10 ^ Z.of_nat k + n / 10) * 10 + n mod 10) with (m * (10 * 10 ^ Z.of_nat k) + n) by lia.
    destruct (Z.ltb_spec maxVal (m * (10 * 10 ^ Z.of_nat k) + n)); [lia|done].
Qed.

Lemma digit_compare a b :
  0 <= a <= 9 -> 0 <= b <= 9 -> Ascii.compare (digit_char a) (digit_char b) = (a ?= b).
Proof.
  intros Ha Hb. unfold Ascii.compare, digit_char. rewrite !N_ascii_embedding by lia.
  rewrite <- N2Z.inj_compare, !Z2N.id by lia. apply Z.add_compare_mono_l.
Qed.

Lemma compare_fixed k a b x y :
  0 <= a < 10 ^ Z.of_nat k -> 0 <= b < 10 ^ Z.of_nat k ->
  String.compare (fixed k a x) (fixed k b y) = match a ?= b with Eq => String.compare x y | c => c end.
Proof.
  revert a b x y. induction k as [|k IH]; intros a b x y Ha Hb.
  - change (10 ^ Z.of_nat 0) with 1 in *. replace a with 0 by lia. replace b with 0 by lia. done.
  - cbn [fixed]. rewrite Nat2Z.inj_succ, Z.pow_succ_r in * by lia.
    pose proof (Z.mod_pos_bound a 10 ltac:(lia)). pose proof (Z.div_mod a 10 ltac:(lia)).
    pose proof (Z.mod_pos_bound b 10 ltac:(lia)). pose proof (Z.div_mod b 10 ltac:(lia)).
    rewrite IH by (split; [apply Z.div_pos; lia|apply Z.div_lt_upper_bound; lia]).
    cbn [String.compare]. rewrite digit_compare by lia.
    destruct (Z.compare_spec (a / 10) (b / 10)), (Z.compare_spec (a mod 10) (b mod 10)),
      (Z.compare_spec a b); (done || lia).
Qed.

(** ** Names of binary logs *)

Lemma compare_app p x y : String.compare (p +:+ x) (p +:+ y) = String.compare x y.
Proof.
  induction p as [|c p IH]; [done|]. change (String.compare (String c (p +:+ x)) (String c (p +:+ y)) = String.compare x y).
  cbn [String.compare]. unfold Ascii.compare. by rewrite N.compare_refl.
Qed.

(** Six digits: the order of the names is the order of the numbers. *)
Lemma binlog_name_ltb p a b :
  0 <= a < 10 ^ 6 -> 0 <= b < 10 ^ 6 -> String.ltb (binlog_name p a) (binlog_name p b) = (a <? b).
Proof.
  intros Ha Hb. unfold binlog_name, String.ltb. rewrite compare_app.
  change ("." +:+ fmt_06d a) with (String "." (fmt_06d a)). change ("." +:+ fmt_06d b) with (String "." (fmt_06d b)).
  rewrite !fmt_06d_fixed by done.
  replace (String.compare (String "." (fixed 6 a "")) (String "." (fixed 6 b "")))
    with (String.compare (fixed 6 a "") (fixed 6 b "")) by done.
  rewrite compare_fixed by done. unfold Z.ltb. destruct (a ?= b); done.
Qed.

Lemma Atoi_06d n : 0 <= n < 10 ^ 6 -> strconv_Atoi (fmt_06d n) = (n, ErrNone).
Proof.
  intros Hn. rewrite fmt_06d_fixed by done. unfold strconv_Atoi, strconv_ParseInt.
  assert (Hp : strconv_ParseUint (fixed 6 n "") 64 = (n, ErrNone)).
  { pose proof (parse_fixed (max_uint 64) 6 n "" 0 Hn ltac:(lia)) as Hp.
    change (10 ^ Z.of_nat 6) with (10 ^ 6) in Hp. rewrite Z.mul_0_l, Z.add_0_l in Hp.
    unfold strconv_ParseUint. destruct (fixed 6 n "") eqn:E; [done|]. rewrite Hp; [done|]. unfold max_uint. lia. }
  assert (Hc : forall c, digit_of c = None -> char_in c (fixed 6 n "") = false) by (intros; by rewrite fixed_char).
  assert (Hi : (two63 <=? n) = false) by (apply Z.leb_gt; unfold two63; lia).
  destruct (fixed 6 n "") as [|c r] eqn:E; [done|].
  pose proof (Hc "+"%char eq_refl) as H1. pose proof (Hc "-"%char eq_refl) as H2. cbn [char_in] in H1, H2.
  apply orb_false_elim in H1 as [H1 _]. apply orb_false_elim in H2 as [H2 _]. rewrite H1, H2, Hp. cbn [negb andb].
  by rewrite Hi.
Qed.

Lemma binlog_name_parts p n :
  0 <= n < 10 ^ 6 -> binlog_prefix (binlog_name p n) = p /\ binlog_number (binlog_name p n) = fmt_06d n.
Proof.
  intros Hn. unfold binlog_prefix, binlog_number, binlog_name.
  change ("." +:+ fmt_06d n) with (String "." (fmt_06d n)). rewrite Split_sep_app.
  rewrite (Split_no_sep "." (fmt_06d n)) by (rewrite fmt_06d_fixed by done; by rewrite fixed_char).
  rewrite removelast_last, last_last. by rewrite Join_Split.
Qed.

Lemma binlog_name_nonempty p n : binlog_name p n <> "".
Proof. unfold binlog_name. by destruct p. Qed.

(** ** The oldest log the slaves read *)

Section Purge.
Context `{env : Env} `{GoSort} `{GoRange}.

(** A slave that reads the log [number x] of the prefix [p]. *)
Definition reads (p : string) (number : loc -> Z) (h : loc -> ServerMonitor) (x : loc) : Prop :=
  0 < number x < 10 ^ 6 /\
  exists ss, own_channel (h x) = Some ss /\ ns_String (ss_MasterLogFile ss) = binlog_name p (number x).

Section Oldest.
Context (p : string) (number : loc -> Z).

(** What the loop has found so far: nothing, or the least of the numbers read. *)
Definition found (binInt : Z) (oldest : string) : Prop :=
  (binInt = 0 /\ oldest = "") \/ (0 < binInt < 10 ^ 6 /\ oldest = binlog_name p binInt).

Lemma oldest_step_reads x conn binInt oldest w :
  IsInFailover (cl_StateMachine (w_cluster w)) = false -> reads p number (w_heap w) x -> found binInt oldest ->
  exists conn' binInt' oldest',
    oldest_step x (conn, binInt, oldest) w = (Ret (Some (conn', binInt', oldest')), w) /\
    found binInt' oldest' /\ 0 < binInt' <= number x /\ (0 < binInt -> binInt' <= binInt).
Proof.
  intros Hf [Hn (ss & Ec & Ef)] Hfound. unfold oldest_step.
  change (get_cluster ≫= ?f) with (fun w => f (w_cluster w) w). cbv beta.
  unfold cl_IsInFailover. rewrite Hf. change ((load x ≫= ?f) w) with (f (w_heap w x) w). cbv beta zeta.
  rewrite Ec. cbv zeta. rewrite Ef. destruct (binlog_name_parts p (number x)) as [_ E]; [lia|].
  rewrite E, Atoi_06d by lia.
  destruct (Z.ltb_spec 0 (number x)); [|lia]. cbn [andb].
  destruct Hfound as [[-> ->]|[Hb ->]].
  - cbn [Z.eqb orb]. do 3 eexists. split; [reflexivity|]. split; [right; split; [lia|reflexivity]|lia].
  - destruct (Z.eqb_spec binInt 0); [lia|]. cbn [orb].
    destruct (Z.ltb_spec (number x) binInt); do 3 eexists; (split; [reflexivity|]); unfold found.
    + split; [right; split; [lia|reflexivity]|lia].
    + split; [right; split; [lia|reflexivity]|lia].
Qed.

Lemma oldest_loop_reads slaves conn binInt oldest w :
  IsInFailover (cl_StateMachine (w_cluster w)) = false -> (forall x, In x slaves -> reads p number (w_heap w) x) ->
  found binInt oldest -> (slaves <> [] \/ 0 < binInt) ->
  exists conn' k, oldest_loop slaves (conn, binInt, oldest) w = (Ret (Some (conn', k, binlog_name p k)), w) /\
    0 < k < 10 ^ 6 /\ (forall x, In x slaves -> k <= number x) /\ (0 < binInt -> k <= binInt).
Proof.
  intros Hf. revert conn binInt oldest. induction slaves as [|x r IH]; intros conn binInt oldest Hr Hfound Hne.
  - destruct Hne as [?|Hb]; [done|]. destruct Hfound as [[-> _]|[Hk ->]]; [lia|].
    exists conn, binInt. split; [reflexivity|]. split; [done|]. split; [intros x []|lia].
  - destruct (oldest_step_reads x conn binInt oldest w Hf (Hr x (or_introl eq_refl)) Hfound)
      as (c1 & b1 & o1 & E1 & F1 & B1 & L1).
    destruct (IH c1 b1 o1) as (c2 & k & E2 & K2 & M2 & L2); [by intros y Hy; apply Hr; right|done|right; lia|].
    exists c2, k. split.
    + cbn [oldest_loop]. unfold mbind, M_bind. rewrite E1. exact E2.
    + split; [done|]. split; [intros y [<-|Hy]; [lia|auto]|lia].
Qed.

(** After the check the remembered log is the least one read; the servers and the
    trace are untouched. *)
Lemma check_reads w :
  IsInFailover (cl_StateMachine (w_cluster w)) = false -> Conf_ForceBinlogPurge (cl_Conf (w_cluster w)) = true ->
  cl_slaves (w_cluster w) <> [] -> (forall x, In x (cl_slaves (w_cluster w)) -> reads p number (w_heap w) x) ->
  exists k w', CheckSlavesReplicationsPurge w = (Ret tt, w') /\ w_heap w' = w_heap w /\ w_trace w' = w_trace w /\
    so_Suffix (cl_SlavesOldestMasterFile (w_cluster w')) = k /\ 0 < k < 10 ^ 6 /\
    (forall x, In x (cl_slaves (w_cluster w)) -> k <= number x).
Proof.
  intros Hf Hp Hne Hr. unfold CheckSlavesReplicationsPurge.
  change ((get_cluster ≫= ?f) w) with (f (w_cluster w) w). cbv beta.
  unfold cl_IsInFailover. rewrite Hf, Hp. cbn [negb].
  destruct (oldest_loop_reads (cl_slaves (w_cluster w)) 0 0 "" w Hf Hr (or_introl (conj eq_refl eq_refl)) (or_introl Hne))
    as (conn & k & E & Hk & Hmin & _).
  unfold mbind at 1, M_bind at 1. rewrite E. cbv beta iota.
  change ((get_cluster ≫= ?f) w) with (f (w_cluster w) w). cbv beta.
  set (w1 := if cl_SlavesConnected (w_cluster w) =? conn then w
             else mkWorld (set_cl_SlavesConnected conn (w_cluster w)) (w_heap w) (w_trace w)).
  assert (E1 : whenM (negb (cl_SlavesConnected (w_cluster w) =? conn)) (mod_cluster (set_cl_SlavesConnected conn)) w = (Ret tt, w1))
    by (unfold w1, whenM, mod_cluster; destruct (cl_SlavesConnected (w_cluster w) =? conn); reflexivity).
  unfold mbind at 1, M_bind at 1. rewrite E1. cbv beta iota.
  assert (Hh : w_heap w1 = w_heap w /\ w_trace w1 = w_trace w) by (unfold w1; destruct (_ =? _); done).
  change ((get_cluster ≫= ?f) w1) with (f (w_cluster w1) w1). cbv beta.
  pose proof (binlog_name_nonempty p k) as Hnk. apply String.eqb_neq in Hnk. rewrite Hnk. cbn [negb andb].
  destruct (Z.eqb_spec (so_Suffix (cl_SlavesOldestMasterFile (w_cluster w1))) k) as [Es|Es]; cbn [negb whenM].
  - exists k, w1. split; [reflexivity|]. destruct Hh as [-> ->]. done.
  - unfold SetSlavesOldestMasterFile. destruct (binlog_name_parts p k) as [E2 E3]; [lia|].
    rewrite E2, E3, Atoi_06d by lia. do 2 eexists. split; [reflexivity|].
    cbn [w_heap w_trace w_cluster so_Suffix cl_SlavesOldestMasterFile]. destruct Hh as [-> ->]. done.
Qed.
End Oldest.

(** ** What a purge may do *)

Section Job.
Context (p : string) (l : loc) (k : Z).

Definition well_named (m : BinaryLogs) : Prop :=
  forall f, is_Some (m !! f) -> exists n, 0 <= n < 10 ^ 6 /\ f = binlog_name p n.

(** The logs of the server have the prefix [p], also the ones the server will list. *)
Definition names_logs : Prop :=
  forall h row, In row (fst (answer h (db_GetBinaryLogs l))) -> exists n, 0 <= n < 10 ^ 6 /\ fst row = binlog_name p n.

(** The remembered number is [k], the current log of [l] has the prefix [p]. *)
Definition Inv (w : World) : Prop :=
  so_Suffix (cl_SlavesOldestMasterFile (w_cluster w)) = k /\
  binlog_prefix (srv_BinaryLogFile (w_heap w l)) = p /\ well_named (srv_BinaryLogFiles (w_heap w l)).

(** A purge names a log of [l] that is not newer than any log a slave reads. *)
Definition purge_ok (e : TraceEvent) : Prop :=
  match e with
  | Ev c _ =>
      match c with
      | db_PurgeBinlogTo l' f => l' = l /\ exists n, f = binlog_name p n /\ 0 <= n <= k
      | db_PurgeBinlogBefore _ _ => False
      | _ => True
      end
  end.

Definition Safe (w w' : World) : Prop :=
  Inv w -> Inv w' /\ exists t, w_trace w' = w_trace w ++ t /\ Forall purge_ok t.

#[local] Instance Safe_preorder : PreOrder Safe.
Proof.
  split.
  - intros w I. split; [done|]. exists []. by rewrite app_nil_r.
  - intros x y z Hxy Hyz I. destruct (Hxy I) as [Iy (t1 & T1 & F1)]. destruct (Hyz Iy) as [Iz (t2 & T2 & F2)].
    split; [done|]. exists (t1 ++ t2). rewrite T2, T1, app_assoc. split; [done|by apply Forall_app].
Qed.

Lemma safe_call {R} (c : Call R) : (forall r, purge_ok (Ev c r)) -> Pres Safe (call c).
Proof. intros Hc w I. split; [exact I|]. eexists. split; [reflexivity|by constructor]. Qed.

Lemma safe_mod_server x f :
  (forall s, binlog_prefix (srv_BinaryLogFile (f s)) = binlog_prefix (srv_BinaryLogFile s)) ->
  (forall s, x = l -> well_named (srv_BinaryLogFiles s) -> well_named (srv_BinaryLogFiles (f s))) ->
  Pres Safe (mod_server x f).
Proof.
  intros Hf Hm w (I1 & I2 & I3). split; [|by exists []; rewrite app_nil_r].
  unfold Inv. cbn [snd mod_server w_heap w_cluster]. destruct (decide (l = x)) as [<-|Hx].
  - rewrite fn_lookup_insert, Hf. auto.
  - by rewrite fn_lookup_insert_ne by done.
Qed.

Lemma safe_SetState key st : Pres Safe (SetState key st).
Proof.
  unfold SetState. apply pres_bind; [apply _|apply pres_get_conf; apply _|intros conf].
  destruct (negb _); [|apply pres_ret; apply _].
  intros w I. split; [exact I|]. exists []. by rewrite app_nil_r.
Qed.

Lemma safe_set_binlogs m : well_named m -> Pres Safe (set_binlogs l m).
Proof. intros Hm. apply safe_mod_server; [done|]. by intros s _ _. Qed.

Lemma well_named_rows m rows :
  well_named m -> (forall row, In row rows -> exists n, 0 <= n < 10 ^ 6 /\ fst row = binlog_name p n) ->
  well_named (fold_left store_row rows m).
Proof.
  revert m. induction rows as [|row rows IH]; intros m Hm Hr; [done|]. cbn.
  apply IH; [|by intros; apply Hr; right]. destruct (Hr row (or_introl eq_refl)) as (n & Hn & En).
  intros f [x Hf]. revert Hf. unfold store_row.
  destruct (m !! fst row); rewrite lookup_insert; case_decide; intros Hf; subst; eauto.
Qed.

Lemma delete_keys_lookup (keys : list string) (m : BinaryLogs) f x :
  fold_left (fun m k => delete k m) keys m !! f = Some x -> m !! f = Some x.
Proof.
  revert m. induction keys as [|k' keys IH]; intros m; [done|]. cbn. intros E. apply IH in E.
  by apply lookup_delete_Some in E as [_ E].
Qed.

Lemma well_named_clear oldest m : well_named m -> well_named (ClearObsoleteMetadata oldest m).
Proof.
  intros Hm f [x E]. apply Hm. exists x. unfold ClearObsoleteMetadata in E. cbv zeta in E.
  repeat case_match_in E; try done. by apply delete_keys_lookup in E.
Qed.

Lemma safe_from w w' : (Inv w -> Safe w w') -> Safe w w'.
Proof. intros Hs Iw. by apply Hs. Qed.

Lemma safe_bind_at {A B} (m : M A) (f : A -> M B) w :
  Safe w (snd (m w)) -> (forall a w', m w = (Ret a, w') -> Safe w' (snd (f a w'))) -> Safe w (snd ((m ≫= f) w)).
Proof.
  intros Hm Hf. unfold mbind, M_bind. destruct (m w) as [[a| |] w'] eqn:E; [|exact Hm|exact Hm].
  etransitivity; [exact Hm|]. by apply Hf.
Qed.

Hint Resolve safe_SetState : pres.
Hint Extern 1 (Pres Safe (call _)) => apply safe_call; intros ?; exact I : pres.
Hint Extern 1 (Pres Safe (mod_server _ _)) => apply safe_mod_server; [intros ?; reflexivity|intros ? ?; done] : pres.

(** Reading the logs of the server keeps them well named. *)
Lemma safe_GetBinaryLogs : names_logs -> Pres Safe (GetBinaryLogs l).
Proof.
  intros Hnl w. apply safe_from. intros (_ & _ & Hw). unfold GetBinaryLogs.
  change ((load l ≫= ?f) w) with (f (w_heap w l) w). cbv beta.
  apply safe_bind_at; [by apply pres_deref; apply _|]. intros v w1 _.
  destruct (IsPostgreSQL v); [by apply pres_ret; apply _|].
  apply safe_bind_at; [apply pres_exec; [apply _|apply safe_call; intros ?; exact I]|].
  intros [rows e] w2 E. cbn [fst snd].
  assert (Hr : well_named (fold_left store_row rows (srv_BinaryLogFiles (w_heap w l)))).
  { apply well_named_rows; [done|]. intros row Hin. apply (Hnl (w_trace w1)).
    unfold exec in E. inv_bind E. injection Hm as <- <-. destruct (srv_Conn _); [|done].
    unfold call in E. injection E as E _. by rewrite E. }
  destruct e; (apply (pres_bind Safe); [apply safe_set_binlogs|intros _; apply pres_ret; apply _]);
    [done|by apply well_named_clear].
Qed.

Lemma safe_refresh_binlogs : names_logs -> Pres Safe (refresh_binlogs l).
Proof. intros Hnl. unfold refresh_binlogs. pose proof (safe_GetBinaryLogs Hnl). pres. Qed.

Lemma safe_RefreshBinaryLogs : names_logs -> Pres Safe (RefreshBinaryLogs l).
Proof.
  intros Hnl. unfold RefreshBinaryLogs. pose proof (safe_refresh_binlogs Hnl). pres.
  apply pres_defer; [apply _|done|pres].
Qed.

Lemma safe_WaitForRefresh : names_logs -> Pres Safe (WaitForRefresh l).
Proof.
  intros Hnl. unfold WaitForRefresh. generalize wait_fuel as fuel. pose proof (safe_RefreshBinaryLogs Hnl).
  induction fuel as [|n IH]; cbn [wait_refresh]; pres.
Qed.

(** ** The purge of a master *)

Context (Hk : 0 < k < 10 ^ 6) (Hnl : names_logs).

(** A purge up to a name that is not after the log [k]. *)
Lemma safe_PurgeBinlogTo f : String.ltb (binlog_name p k) f = false -> Pres Safe (PurgeBinlogTo l f).
Proof.
  intros Hf w. apply safe_from. intros (_ & _ & Hw). unfold PurgeBinlogTo.
  change ((load l ≫= ?f) w) with (f (w_heap w l) w). cbv beta.
  destruct (srv_BinaryLogFiles (w_heap w l) !! f) as [meta|] eqn:E; [|by apply pres_ret; apply _].
  destruct (Hw f (ex_intro _ meta E)) as (n & Hn & ->). rewrite binlog_name_ltb in Hf by lia. apply Z.ltb_ge in Hf.
  apply (pres_bind Safe); [|intros _; apply pres_ret; apply _]. unfold send_purge_to.
  destruct (_ =? _)%string; [apply pres_ret; apply _|].
  apply pres_exec; [apply _|]. apply safe_call. intros r. split; [done|]. exists n. split; [done|lia].
Qed.

Lemma safe_purge_then_refresh f :
  String.ltb (binlog_name p k) f = false -> Pres Safe (PurgeBinlogTo l f ;; RefreshBinaryLogs l ;; mret tt).
Proof.
  intros Hf. pose proof (safe_PurgeBinlogTo f Hf). pose proof (safe_RefreshBinaryLogs Hnl). pres.
Qed.

Lemma safe_purge_on_restore w :
  so_Prefix (cl_SlavesOldestMasterFile (w_cluster w)) = p -> Safe w (snd (purge_on_restore l w)).
Proof.
  intros Hp. apply safe_from. intros (Hs & _ & _). unfold purge_on_restore.
  change ((get_cluster ≫= ?f) w) with (f (w_cluster w) w). cbv beta.
  change ((load l ≫= ?f) w) with (f (w_heap w l) w). cbv beta zeta. rewrite Hp, Hs.
  apply pres_whenM; [apply _|]. apply safe_purge_then_refresh. rewrite binlog_name_ltb by lia. apply Z.ltb_ge. lia.
Qed.

Lemma safe_purge_by_size w :
  so_Prefix (cl_SlavesOldestMasterFile (w_cluster w)) = p -> Safe w (snd (purge_by_size l w)).
Proof.
  intros Hp. apply safe_from. intros (Hs & _ & _). unfold purge_by_size.
  change ((get_cluster ≫= ?f) w) with (f (w_cluster w) w). cbv beta.
  change ((load l ≫= ?f) w) with (f (w_heap w l) w). cbv beta zeta. rewrite Hp, Hs.
  destruct (size_boundary _ _ _ _ _) as [until|]; [|by apply pres_ret; apply _].
  destruct (until =? "")%string; [by apply pres_ret; apply _|].
  apply (pres_bind Safe); [pres|intros _].
  destruct (existsb _ _); [|apply pres_ret; apply _]. apply safe_purge_then_refresh.
  destruct (String.ltb (binlog_name p k) until) eqn:E; [|done]. rewrite binlog_name_ltb by lia. apply Z.ltb_irrefl.
Qed.

Lemma safe_purge_master : Pres Safe (purge_master l).
Proof.
  intros w. apply safe_from. intros (_ & Hpre & _). unfold purge_master.
  change ((get_cluster ≫= ?f) w) with (f (w_cluster w) w). cbv beta.
  destruct (cl_IsInFailover _); [by apply pres_ret; apply _|].
  destruct (negb _); [by apply pres_ret; apply _|].
  change ((get_heap ≫= ?f) w) with (f (w_heap w) w). cbv beta zeta.
  destruct (negb _); [by apply pres_ret; apply _|].
  destruct (strconv_Atoi _) as [suffix e]. rewrite Hpre.
  destruct (String.eqb_spec (so_Prefix (cl_SlavesOldestMasterFile (w_cluster w))) p) as [Ep|];
    cbn [negb]; [|by apply pres_ret; apply _].
  destruct (suffix <? _); [by apply pres_ret; apply _|].
  destruct (_ && _); [by apply safe_purge_on_restore|].
  destruct (0 <? _); [by apply safe_purge_by_size|by apply pres_ret; apply _].
Qed.

Lemma safe_guarded_purge : Pres Safe (guarded_purge l).
Proof.
  unfold guarded_purge. pose proof safe_purge_master. pose proof (safe_WaitForRefresh Hnl). pres.
  apply pres_defer; [apply _|done|pres].
Qed.
End Job.

End Purge.

(** ** Staying within the size *)

Definition total_size (files : BinaryLogs) (keys : list string) : Z :=
  fold_right (fun k n => match files !! k with Some m => bl_Size m + n | None => n end) 0 keys.

(** The logs a server lists are filed under their names. *)
Definition filed (files : BinaryLogs) : Prop :=
  forall k m, files !! k = Some m -> bl_Filename m = k /\ 0 <= bl_Size m.

Lemma total_size_nonneg files keys : filed files -> 0 <= total_size files keys.
Proof.
  intros Hf. induction keys as [|k r IH]; [done|]. cbn. fold (total_size files r).
  destruct (files !! k) eqn:E; [|done]. apply Hf in E. lia.
Qed.

Lemma size_boundary_from files maxSize keys :
  filed files -> (forall k, In k keys -> is_Some (files !! k)) ->
  forall total until, 0 <= total <= maxSize -> total + total_size files keys < two64 ->
  exists n, size_boundary files maxSize total until keys = Some (List.last (take n keys) until) /\
    total + total_size files (take n keys) <= maxSize /\
    (n = length keys \/ maxSize < total + total_size files (take (S n) keys)).
Proof.
  intros Hf. induction keys as [|k r IH]; intros Hk total until Ht Hs.
  - exists O. split; [done|]. split; [change (total_size files (take 0 [])) with 0; lia|by left].
  - destruct (Hk k (or_introl eq_refl)) as [m Em]. pose proof (Hf k m Em) as [En Hm].
    cbn [size_boundary]. rewrite Em. cbn [total_size fold_right] in Hs. rewrite Em in Hs.
    fold (total_size files r) in Hs. pose proof (total_size_nonneg files r Hf).
    rewrite u64_small by (unfold is_u64; lia).
    destruct (Z.ltb_spec maxSize (total + bl_Size m)).
    + exists O. split; [done|]. split; [change (total_size files (take 0 (k :: r))) with 0; lia|]. right.
      change (take 1 (k :: r)) with [k]. cbn [total_size fold_right]. rewrite Em. lia.
    + destruct (IH (fun x Hx => Hk x (or_intror Hx)) (total + bl_Size m) (bl_Filename m)) as (n & E & Hle & Hlast); [lia|lia|].
      exists (S n). split; [|split].
      * rewrite E, En. cbn [take]. destruct (take n r) eqn:Et; [done|].
        change (List.last (k :: s :: l) until) with (List.last (s :: l) until).
        f_equal. clear. revert s. induction l as [|y l IH]; intros s; [done|]. exact (IH y).
      * cbn [take total_size fold_right]. rewrite Em. fold (total_size files (take n r)). lia.
      * destruct Hlast as [->|Hl]; [by left|right].
        change (take (S (S n)) (k :: r)) with (k :: take (S n) r). cbn [total_size fold_right]. rewrite Em.
        fold (total_size files (take (S n) r)). lia.
Qed.

(** The purge by size neither keeps too much nor removes too much. When the sizes
    fit 64 bits, the logs from the purge point to the newest one fit the configured
    size, and one log more would not. *)
Theorem purge_within_size `{GoSort} `{GoRange} (files : BinaryLogs) (maxSize : Z) :
  filed files -> 0 <= maxSize -> total_size files (GetKeysDesc files) < two64 ->
  exists n, let keys := GetKeysDesc files in
    size_boundary files maxSize 0 "" keys = Some (List.last (take n keys) "") /\
    total_size files (take n keys) <= maxSize /\
    (n = length keys \/ maxSize < total_size files (take (S n) keys)).
Proof.
  intros Hf Hm Hs. apply (size_boundary_from files maxSize (GetKeysDesc files) Hf) with (total := 0); [|lia|lia].
  intros k Hk. unfold GetKeysDesc in Hk. apply (Permutation_in _ (go_sort_perm _ _ _)) in Hk.
  apply in_map_iff in Hk as ([k' m] & <- & Hin). apply list_elem_of_In, elem_of_go_range in Hin. by exists m.
Qed.

(** ** Forgetting purged logs *)

Lemma GetKeys_In `{GoSort} `{GoRange} (m : BinaryLogs) k : In k (GetKeys m) <-> is_Some (m !! k).
Proof.
  unfold GetKeys. rewrite (Permutation_in' eq_refl (go_sort_perm _ _ _)), in_map_iff. split.
  - intros ([k' x] & <- & Hin). apply list_elem_of_In, elem_of_go_range in Hin. by exists x.
  - intros [x E]. exists (k, x). split; [done|]. by apply list_elem_of_In, elem_of_go_range.
Qed.

Lemma smaller_keys_In oldest keys k :
  StronglySorted (fun a b => String.ltb b a = false) keys ->
  In k (smaller_keys oldest keys) <-> In k keys /\ String.ltb k oldest = true.
Proof.
  induction 1 as [|x r Hs IH Hx]; [cbn; intuition|]. cbn. destruct (String.ltb x oldest) eqn:E.
  - cbn. rewrite IH. split; [intros [<-|[? ?]]; auto|intros [[<-|?] ?]; auto].
  - split; [done|]. intros [[<-|Hin] Hk]; [congruence|]. rewrite List.Forall_forall in Hx. specialize (Hx k Hin).
    destruct (String.ltb x k) eqn:Ex; [by rewrite (ltb_trans x k oldest Ex Hk) in E|].
    by rewrite (ltb_total x k Ex Hx), Hk in E.
Qed.

Lemma smaller_keys_next oldest keys :
  StronglySorted (fun a b => String.ltb b a = false) keys -> In oldest keys ->
  keys !! length (smaller_keys oldest keys) = Some oldest.
Proof.
  induction 1 as [|x r Hs IH Hx]; [done|]. intros Hin. cbn. destruct (String.ltb x oldest) eqn:E.
  - destruct Hin as [->|Hin]; [by rewrite ltb_irrefl in E|]. by apply IH.
  - cbn. destruct Hin as [->|Hin]; [done|]. rewrite List.Forall_forall in Hx. specialize (Hx oldest Hin).
    by rewrite (ltb_total x oldest E Hx).
Qed.

Lemma delete_all_lookup (keys : list string) (m : BinaryLogs) f :
  fold_left (fun m k => delete k m) keys m !! f = if existsb (String.eqb f) keys then None else m !! f.
Proof.
  revert m. induction keys as [|k keys IH]; intros m; [done|]. cbn. rewrite IH.
  destruct (String.eqb_spec f k) as [->|Hf]; cbn.
  - destruct (existsb _ _); [done|]. apply lookup_delete_eq.
  - destruct (existsb _ _); [done|]. by apply lookup_delete_ne.
Qed.

(** When the oldest log that the server lists is known, exactly the logs before it
    are forgotten; when it is not known, none is. *)
Theorem obsolete_logs_forgotten `{GoSort} `{GoRange} (m : BinaryLogs) (oldest k : string) :
  ClearObsoleteMetadata oldest m !! k =
  match m !! oldest with
  | Some _ => if String.ltb k oldest then None else m !! k
  | None => m !! k
  end.
Proof.
  unfold ClearObsoleteMetadata. cbv zeta.
  assert (Hs : StronglySorted (fun a b => String.ltb b a = false) (GetKeys m)) by apply go_sort_sorted, ltb_strict.
  destruct (m !! oldest) as [x|] eqn:Eo.
  - rewrite (smaller_keys_next oldest (GetKeys m) Hs), String.eqb_refl by (apply GetKeys_In; by eexists).
    rewrite delete_all_lookup. destruct (existsb (String.eqb k) _) eqn:Ek.
    + apply existsb_exists in Ek as (k' & Hk & E). apply String.eqb_eq in E as <-.
      apply smaller_keys_In in Hk as [_ ->]; done.
    + destruct (String.ltb k oldest) eqn:El; [|done]. destruct (m !! k) as [y|] eqn:E; [|done].
      assert (Hin : existsb (String.eqb k) (smaller_keys oldest (GetKeys m)) = true); [|by rewrite Hin in Ek].
      apply existsb_exists. exists k. split; [|apply String.eqb_refl]. apply smaller_keys_In; [done|].
      split; [apply GetKeys_In; by eexists|done].
  - destruct (GetKeys m !! length (smaller_keys oldest (GetKeys m))) as [k'|] eqn:E; [|done].
    destruct (String.eqb_spec k' oldest) as [->|]; [|done].
    apply list_elem_of_lookup_2, list_elem_of_In, GetKeys_In in E as [y E]. congruence.
Qed.

(** ** A master with four logs *)

Definition demo_logs (p : string) (numbers : list Z) (size : Z) : BinaryLogs :=
  list_to_map (map (fun n => (binlog_name p n, mkBinaryLogMetadata (binlog_name p n) size)) numbers).

(** The two slaves read [file]; the master has the logs of [numbers], each of
    [size] bytes, and may keep one GiB. *)
Definition demo_purge_world (file : string) (numbers : list Z) (size : Z) : World :=
  mkWorld
    (set_cl_Conf (set_Conf_ForceBinlogPurge true (set_Conf_ForceBinlogPurgeTotalSize 1
       (set_Conf_ForceBinlogPurgeMinReplica 1 demo_conf))) demo_cluster)
    (fun l => match l with
     | O => set_srv_BinaryLogFile (binlog_name "bin" (List.last numbers 0)) (set_srv_BinaryLogFilesCount (Z.of_nat (length numbers))
              (set_srv_BinaryLogFiles (demo_logs "bin" numbers size) (demo_heap 0%nat)))
     | S O => set_srv_Replications [set_ss_MasterLogFile (validString file) (demo_channel "0-1-90" "900")] (demo_heap 1%nat)
     | l => set_srv_Replications [set_ss_MasterLogFile (validString file) (demo_channel "0-1-100" "1000")] (demo_heap l)
     end) [].

Definition purged (t : list TraceEvent) : list (loc * string) :=
  flat_map (fun e => match e with
    | Ev c _ => match c with db_PurgeBinlogTo l f => [(l, f)] | _ => [] end end) t.

(** 600 MB each: the size alone would keep the last one, the slaves read the second. *)
Definition demo_purge : World := demo_purge_world "bin.000002" [1; 2; 3; 4] 600000000.


Lemma purge_within_size_witness :
  exists n, let keys := GetKeysDesc (demo_logs "bin" [1; 2; 3; 4] 600000000) in
    size_boundary (demo_logs "bin" [1; 2; 3; 4] 600000000) (2 ^ 30) 0 "" keys = Some (List.last (take n keys) "") /\
    total_size (demo_logs "bin" [1; 2; 3; 4] 600000000) (take n keys) <= 2 ^ 30 /\
    (n = length keys \/ 2 ^ 30 < total_size (demo_logs "bin" [1; 2; 3; 4] 600000000) (take (S n) keys)).
Proof.
  apply purge_within_size.
  - intros k m Em. unfold demo_logs in Em. apply elem_of_list_to_map_2 in Em.
    apply list_elem_of_In, in_map_iff in Em as (n & [= <- <-] & Hn). split; [reflexivity|discriminate].
  - discriminate.
  - vm_compute. reflexivity.
Defined.

(** With seven digits the texts are no longer in the order of the numbers: all the
    logs fit the size, yet the one the slaves read is purged. *)
Example demo_seven_digits :
  purged (w_trace (snd (JobBinlogPurgeMaster 0%nat (demo_purge_world "bin.999999" [999999; 1000000; 1000001] 1000))))
  = [(0%nat, "bin.1000000")].
Proof. vm_compute. reflexivity. Qed.

(** A slave without a status abandons the check of the slaves, not the purge, which
    goes by the log that was remembered before. *)
Example demo_stale_oldest :
  let w := demo_purge_world "bin.000002" [1; 2; 3; 4] 600000000 in
  let stale := set_cl_SlavesConnected 2 (set_cl_SlavesOldestMasterFile (mkSlavesOldestMasterFile "bin" 4) (w_cluster w)) in
  let h := fun l => if Nat.eqb l 2 then set_srv_Replications [] (w_heap w l) else w_heap w l in
  purged (w_trace (snd (JobBinlogPurgeMaster 0%nat (mkWorld stale h [])))) = [(0%nat, "bin.000004")].
Proof. vm_compute. reflexivity. Qed.

(** Nothing sets the timestamp a purge of a slave asks for. *)
Lemma slave_never_purged `{Env} `{GoSort} `{GoRange} (l m : loc) (w : World) :
  srv_BinaryLogOldestTimestamp (w_heap w l) = 0 -> snd (purge_slave l m w) = w.
Proof.
  intros E. unfold purge_slave. change ((load l ≫= ?f) w) with (f (w_heap w l) w). cbv beta.
  destruct (_ && _); [done|]. change ((load m ≫= ?f) w) with (f (w_heap w m) w). cbv beta. by rewrite E.
Qed.
