(* ===== verification/Round.v ===== *)
(** * A round of the monitoring (cluster/cluster.go, cluster_set.go, cluster_bash.go)

    [Run] repeats a round until the cluster is stopped: a switchover that was asked
    for, or else the discovery, the heartbeat to the arbitrator, the refresh of the
    proxies, the decision to fail over, and [StateProcessing], which acts on the
    states that were opened and closed since the previous round. The goroutines a
    round waits for take effect one after the other. *)

From Stdlib Require Import ZArith Lia Bool Ascii String.
From stdpp Require Import base list gmap strings functions.
From S2P Require Import Prelude GoLib Gtid Version StateMachine Crash DelayStat Config Server Proxy Cluster ServerOps Refresh Election Failover Rejoin FailoverCheck Topology SplitBrain Configurator ProxySql Proxies Binlog.

Local Open Scope string_scope.
Local Open Scope list_scope.
Local Open Scope Z_scope.

Section Ops.
Context `{Env} `{GoSort} `{GoRange} `{GoSched} (cfg : Configurator).

(** Helpers of the cluster outside the model, with the states they file. *)
Definition cl_aux (what : string) : M unit :=
  states ← call (unmodelled what None);
  forM states (fun ks => SetState (fst ks) (snd ks)).

(** ** States opened and closed (cluster.go, cluster_bash.go) *)

Definition state_script (path : string) (s : State) : M unit :=
  c ← get_cluster;
  whenM (negb (path =? "")%string) (call (run_script path [cl_Name c; ServerUrl s; ErrKey s])).
Definition BashScriptOpenSate (s : State) : M unit := conf ← get_conf; state_script (Conf_MonitoringOpenStateScript conf) s.
Definition BashScriptCloseSate (s : State) : M unit := conf ← get_conf; state_script (Conf_MonitoringCloseStateScript conf) s.

(** A reseed or flashback that was waiting for the state to close. *)
Definition process_physical (job task : string) (l : loc) : M unit :=
  conf ← get_conf;
  let task := task +:+ Conf_BackupPhysicalType conf in
  e ← call (run_job job l);
  whenM (is_err e)
    (call (unmodelled "JobsUpdateState" (Some l)) ;;
     s ← load l;
     whenM (HasReseedingState s task) (SetInReseedBackup l "")).

Definition start_waiting (cookie job : string) : M unit :=
  c ← get_cluster;
  forM (cl_servers c) (fun x =>
    s ← load x;
    missing ← call (stat_missing (srv_Datadir s +:+ "/@" +:+ cookie));
    whenM (negb (is_err missing)) (call (start_job job None x))).

Definition close_state (s : State) : M unit :=
  mod_sm (DeleteCapturedState (ErrKey s)) ;;
  c ← get_cluster;
  h ← get_heap;
  let servertoreseed := GetServerFromURL c h (ServerUrl s) in
  let on_server f := match servertoreseed with Some l => f l | None => mret tt end in
  whenM (ErrKey s =? "WARN0074")%string (on_server (process_physical "ProcessReseedPhysical" "reseed")) ;;
  whenM (ErrKey s =? "WARN0076")%string (on_server (process_physical "ProcessFlashbackPhysical" "flashback")) ;;
  whenM (ErrKey s =? "WARN0111")%string (start_waiting "cookie_waitlogicalbackup" "JobReseedLogicalBackup") ;;
  whenM (ErrKey s =? "WARN0112")%string (start_waiting "cookie_waitphysicalbackup" "JobReseedPhysicalBackup") ;;
  CheckAlert s true ;;
  BashScriptCloseSate s.

Definition open_state (s : State) : M unit := CheckAlert s false ;; BashScriptOpenSate s.

(** Nothing is saved while another save or a push of the configuration runs. *)
Definition Save : M unit :=
  c ← get_cluster;
  if cl_IsGitPush c || cl_IsSavingConfig c then mret tt
  else
    mod_cluster (set_cl_IsSavingConfig true) ;;
    defer (call save_cluster) (mod_cluster (set_cl_IsSavingConfig false)).

Definition StateProcessing : M unit :=
  c ← get_cluster;
  if cl_IsInFailover c then mret tt
  else
    forM (GetResolvedStates (cl_StateMachine c)) close_state ;;
    c ← get_cluster;
    forM (GetOpenStates (cl_StateMachine c)) CheckCapture ;;
    c ← get_cluster;
    forM (map snd (go_range (GetLastOpenedStates (cl_StateMachine c)))) open_state ;;
    mod_sm ClearState ;;
    c ← get_cluster;
    whenM (Z.rem (GetHeartbeats (cl_StateMachine c)) 60 =? 0) Save.

(** ** Status (cluster_set.go, cluster_get.go) *)

(** The fields that are only shown are left out. *)
Definition SetStatus : M unit :=
  c ← get_cluster;
  h ← get_heap;
  now ← call time_Now;
  match cl_master c with
  | None => mod_sm (SetMasterUpAndSync now false false false)
  | Some m => mod_sm (SetMasterUpAndSync now (negb (IsDown (h m))) (srv_SemiSyncMasterStatus (h m)) (srv_HaveHealthyReplica (h m)))
  end ;;
  mod_cluster (fun c => set_cl_IsNotMonitoring (cl_IsInFailover c) c) ;;
  mod_cluster (fun c => set_cl_IsCapturing (IsInCaptureMode c h) c).

Definition GetStatus : M bool :=
  c ← get_cluster;
  let r := IsFailable (cl_StateMachine c) in
  mod_sm (fun _ => snd r) ;;
  mret (fst r).

(** ** The loop *)

Definition switchover_round : M unit :=
  c ← get_cluster;
  whenM (cl_Status c =? "A")%string (MasterFailover false ;; call (channel_send "switchoverCond")).

(** The goroutines of the discovery and of the heartbeat, in the order they take effect. *)
Definition discover_and_beat : M unit :=
  match go_order [0; 1]%nat with
  | 0%nat :: _ => TopologyDiscover ;; Heartbeat
  | _ => Heartbeat ;; TopologyDiscover ;; mret tt
  end.

Definition warn_round (on : bool) (key from : string) (args : list fmt_arg) : M unit :=
  whenM on (SetState key (state_of key "WARNING" from "" args)).

Definition half_minute : M unit :=
  cl_aux "initOrchetratorNodes" ;; cl_aux "MonitorQueryRules" ;; cl_aux "MonitorVariablesDiff" ;;
  cl_aux "ResticFetchRepo" ;; cl_aux "HasValidBackup" ;; cl_aux "CheckCredentialRotation" ;;
  cl_aux "CheckCanSaveDynamicConfig" ;; cl_aux "CheckIsOverwrite".

Definition refresh_round : M unit :=
  refreshProxies cfg ;;
  cl_aux "MonitorSchema" ;;
  conf ← get_conf;
  whenM (Conf_TestInjectTraffic conf || Conf_AutorejoinSlavePositionalHeartbeat conf || Conf_MonitorWriteHeartbeat conf)
    InjectProxiesTraffic ;;
  c ← get_cluster;
  (if Z.rem (GetHeartbeats (cl_StateMachine c)) 30 =? 0 then half_minute
   else mod_sm (PreserveState ["WARN0093"; "WARN0084"; "WARN0095"; "WARN0101"; "WARN0111"; "WARN0112"; "ERR00090"; "WARN0102"])) ;;
  c ← get_cluster;
  warn_round (negb (cl_CanInitNodes c)) "ERR00082" "OPENSVC" [fs (cl_errorInitNodes c)] ;;
  warn_round (negb (cl_CanConnectVault c)) "ERR00089" "OPENSVC" [fs (cl_errorConnectVault c)] ;;
  warn_round (negb (cl_Topology c =? Conf_TopologyTarget (cl_Conf c))%string) "ERR00092" "TOPO"
    [fs (cl_Name c); fs (cl_Topology c); fs (Conf_TopologyTarget (cl_Conf c))] ;;
  c ← get_cluster;
  (if Z.rem (GetHeartbeats (cl_StateMachine c)) 36000 =? 0 then cl_aux "ResticPurgeRepo"
   else
     mod_sm (PreserveState ["WARN0094"; "WARN0117"; "WARN0118"; "WARN0119"; "WARN0120"; "WARN0121"]) ;;
     mod_sm (PreserveState ["WARN0132"])) ;;
  c ← get_cluster;
  whenM (so_Suffix (cl_SlavesOldestMasterFile c) =? 0) CheckSlavesReplicationsPurge.

(** The proxies are initialised after the first discovery and refreshed after the others. *)
Definition proxies_round : M unit :=
  c ← get_cluster;
  if cl_runOnceAfterTopology c
  then
    whenM (negb (cl_IsInFailover c)) (initProxies cfg) ;;
    cl_aux "initOrchetratorNodes" ;; cl_aux "ResticFetchRepo" ;;
    mod_cluster (set_cl_runOnceAfterTopology false)
  else whenM (negb (cl_IsInFailover c)) refresh_round.

(** The verdicts on the master, then the decision. *)
Definition decide_round : M unit :=
  failable ← GetStatus;
  mod_cluster (set_cl_IsFailable failable) ;;
  h ← get_heap;
  mod_cluster (fun c => set_cl_IsMasterDown (match GetMaster c with None => true | Some m => IsFailed (h m) end) c) ;;
  CheckFailed.

Definition watch_round : M unit :=
  discover_and_beat ;;
  proxies_round ;;
  cl_aux "AddChildServers" ;;
  decide_round ;;
  SetStatus ;;
  StateProcessing ;;
  cl_aux "GetSlowLogTable".

Definition round : M unit :=
  conf ← get_conf;
  whenM (negb (Conf_MonitorPause conf))
    (cl_aux "CheckDefaultUser" ;;
     sig ← call poll_switchover;
     if (sig : bool) then switchover_round else watch_round) ;;
  conf ← get_conf;
  call (time_Sleep (i64 (1000 * Conf_MonitoringTicker conf))).

(** At most [n] rounds of [Run]. *)
Fixpoint rounds (n : nat) : M unit :=
  match n with
  | O => mret tt
  | S m => c ← get_cluster; if cl_exit c then mret tt else round ;; rounds m
  end.
Definition Run (n : nat) : M unit :=
  t ← GetTopologyFromConf;
  mod_cluster (set_cl_Topology t) ;;
  rounds n.
End Ops.
