(* ===== verification/RoundProps.v ===== *)
(** * Properties of a round

    What [StateProcessing] announces, and what a run of the monitoring may do on its
    own: the automatic failovers of any number of rounds stay within the limit of
    the configuration. *)

From Stdlib Require Import ZArith Lia Bool Permutation Ascii String.
From stdpp Require Import base list gmap strings functions.
From S2P Require Import Prelude GoLib Gtid Version StateMachine Crash DelayStat Config Server Proxy Cluster Demo ServerOps Lands Refresh Election Failover Rejoin FailoverFrame FailoverCheck Topology SplitBrain Configurator ProxySql Proxies Binlog Round.

Local Open Scope string_scope.
Local Open Scope list_scope.
Local Open Scope Z_scope.

(** ** Opened and closed states are announced *)

(** The calls of a script. *)
Definition script_args (path : string) (t : list TraceEvent) : list (list string) :=
  flat_map (fun e => match e with
    | Ev c _ => match c with run_script q args => if (q =? path)%string then [args] else [] | _ => [] end
    end) t.

Lemma script_args_app path t t' : script_args path (t ++ t') = script_args path t ++ script_args path t'.
Proof. apply flat_map_app. Qed.

Section Announce.
Context `{Env} `{GoSort} `{GoRange} (conf : Config) (name : string).

Local Abbreviation opening := (Conf_MonitoringOpenStateScript conf).
Local Abbreviation closing := (Conf_MonitoringCloseStateScript conf).

Context (Ho : opening <> "") (Hc : closing <> "") (Hoc : opening <> closing)
  (Hao : Conf_AlertScript conf <> opening) (Hac : Conf_AlertScript conf <> closing).

Definition announcement (s : State) : list string := [name; ServerUrl s; ErrKey s].

(** [Says lc lo]: the states are left as they are, [lc] is announced closed and [lo] opened. *)
Record Says (lc lo : list (list string)) (w w' : World) : Prop := mkSays {
  sy_conf : cl_Conf (w_cluster w') = conf; sy_name : cl_Name (w_cluster w') = name;
  sy_cur : CurState (cl_StateMachine (w_cluster w')) = CurState (cl_StateMachine (w_cluster w));
  sy_old : OldState (cl_StateMachine (w_cluster w')) = OldState (cl_StateMachine (w_cluster w));
  sy_trace : exists t, w_trace w' = w_trace w ++ t /\ script_args closing t = lc /\ script_args opening t = lo
}.
Definition here (w : World) : Prop := cl_Conf (w_cluster w) = conf /\ cl_Name (w_cluster w) = name.
Definition Silent (w w' : World) : Prop := here w -> Says [] [] w w'.

Lemma says_here lc lo w w' : Says lc lo w w' -> here w'.
Proof. intros [? ? _ _ _]. by split. Qed.
Lemma says_trans lc lo lc' lo' w1 w2 w3 :
  Says lc lo w1 w2 -> Says lc' lo' w2 w3 -> Says (lc ++ lc') (lo ++ lo') w1 w3.
Proof.
  intros [_ _ C1 O1 (t1 & T1 & A1 & B1)] [F N C2 O2 (t2 & T2 & A2 & B2)].
  split; [done|done|congruence|congruence|]. exists (t1 ++ t2). rewrite T2, T1, app_assoc, !script_args_app, A1, A2, B1, B2. done.
Qed.

#[local] Instance Silent_preorder : PreOrder Silent.
Proof.
  split.
  - intros w [? ?]. split; [done|done|done|done|]. exists []. by rewrite app_nil_r.
  - intros x y z A B Hx. pose proof (A Hx) as S1. exact (says_trans [] [] [] [] x y z S1 (B (says_here _ _ _ _ S1))).
Qed.

Definition silent_call {R} (c : Call R) : bool :=
  match c with run_script q _ => negb (q =? opening)%string && negb (q =? closing)%string | _ => true end.

Lemma silent_call_runs {R} (c : Call R) : silent_call c = true -> Runs Silent (call c).
Proof.
  intros Hs w. eexists _, _. split; [reflexivity|]. intros [F N]. split; [done|done|done|done|].
  eexists. split; [reflexivity|]. destruct c; try done. cbn in Hs. apply andb_true_iff in Hs as [H1' H2'].
  cbn. apply negb_true_iff in H1', H2'. by rewrite H1', H2'.
Qed.
Lemma silent_sm f : (forall SM, CurState (f SM) = CurState SM /\ OldState (f SM) = OldState SM) -> Runs Silent (mod_sm f).
Proof.
  intros Hf w. exists tt, (snd (mod_sm f w)). split; [done|]. intros [F N].
  destruct (Hf (cl_StateMachine (w_cluster w))) as [E1 E2]. split; [done|done|done|done|]. exists []. by rewrite app_nil_r.
Qed.
Lemma silent_server l f : Runs Silent (mod_server l f).
Proof.
  intros w. exists tt, (snd (mod_server l f w)). split; [done|]. intros [F N]. split; [done|done|done|done|].
  exists []. by rewrite app_nil_r.
Qed.

Local Ltac silent := repeat lazymatch goal with
  | |- Runs _ (get_cluster ≫= _) => apply runs_read; intros ?
  | |- Runs _ (get_conf ≫= _) => apply runs_read; intros ?
  | |- Runs _ (get_heap ≫= _) => apply runs_read; intros ?
  | |- Runs _ (load _ ≫= _) => apply runs_read; intros ?
  | |- Runs _ (_ ≫= _) => apply runs_bind; [apply _| |intros ?]
  | |- Runs _ (whenM _ _) => apply runs_whenM; [apply _|]
  | |- Runs _ (forM _ _) => apply runs_forM; [apply _|]; intros ?
  | |- Runs _ (mret _) => apply runs_ret; apply _
  | |- Runs _ (mod_server _ _) => apply silent_server
  | |- Runs _ (call _) => apply silent_call_runs; done
  | |- Runs _ (if ?b then _ else _) => destruct b
  | |- Runs _ (match ?b with _ => _ end) => destruct b
  | |- Runs _ (let x := _ in _) => cbv zeta
  end.

(** The alerts have a script of their own. *)
Lemma silent_BashScriptAlert a : Runs Silent (BashScriptAlert a).
Proof.
  intros w. set (q := Conf_AlertScript (cl_Conf (w_cluster w))).
  change (BashScriptAlert a w) with
    (whenM (negb (q =? "")%string) (call (run_script q [al_Cluster a; al_Host a; al_PrevState a; al_State a])) w).
  assert (Hq : here w -> silent_call (run_script q [al_Cluster a; al_Host a; al_PrevState a; al_State a]) = true).
  { intros [F _]. unfold q. rewrite F. cbn. apply andb_true_iff. by rewrite !negb_true_iff, !String.eqb_neq. }
  destruct (q =? "")%string; cbn [negb whenM]; [exists tt, w; by split|].
  eexists _, _. split; [reflexivity|]. intros Hw.
  destruct (silent_call_runs _ (Hq Hw) w) as (? & ? & E & S1). injection E as <- <-. by apply S1.
Qed.
Lemma silent_alert s b : Runs Silent (CheckAlert s b).
Proof. unfold CheckAlert, SendAlert. silent; apply silent_BashScriptAlert. Qed.

Lemma silent_capture l k : Runs Silent (Capture l k).
Proof. unfold Capture. silent. by apply silent_sm. Qed.
Lemma silent_CheckCapture s : Runs Silent (CheckCapture s).
Proof.
  unfold CheckCapture. silent; [|apply silent_capture].
  apply silent_sm. intros SM. unfold AddToCapturedState. by case_match.
Qed.
Lemma silent_process_physical job task l : Runs Silent (process_physical job task l).
Proof. unfold process_physical, SetInReseedBackup. silent. Qed.
Lemma silent_start_waiting k job : Runs Silent (start_waiting k job).
Proof. unfold start_waiting. silent. Qed.

(** [Announces lc lo m]: [m] returns, and announces these. *)
Definition Announces (lc lo : list (list string)) (m : M unit) : Prop :=
  Runs (fun w w' => here w -> Says lc lo w w') m.

Lemma announces_silent m : Runs Silent m -> Announces [] [] m.
Proof. done. Qed.
Lemma announces_seq lc lo lc' lo' (m m' : M unit) :
  Announces lc lo m -> Announces lc' lo' m' -> Announces (lc ++ lc') (lo ++ lo') (m ;; m').
Proof.
  intros Hm Hm' w. destruct (Hm w) as ([] & w1 & E1 & S1). destruct (Hm' w1) as ([] & w2 & E2 & S2).
  exists tt, w2. split; [unfold mbind, M_bind; by rewrite E1|].
  intros Hw. pose proof (S1 Hw) as A. exact (says_trans _ _ _ _ _ _ _ A (S2 (says_here _ _ _ _ A))).
Qed.
Lemma announces_after {A} lc lo (m : M A) (m' : A -> M unit) :
  Runs Silent m -> (forall a, Announces lc lo (m' a)) -> Announces lc lo (m ≫= m').
Proof.
  intros Hm Hm' w. destruct (Hm w) as (a & w1 & E1 & S1). destruct (Hm' a w1) as ([] & w2 & E2 & S2).
  exists tt, w2. split; [unfold mbind, M_bind; by rewrite E1|].
  intros Hw. pose proof (S1 Hw) as A1. exact (says_trans [] [] lc lo _ _ _ A1 (S2 (says_here _ _ _ _ A1))).
Qed.
Lemma announces_forM {A} (l : list A) (f : A -> M unit) (gc go : A -> list (list string)) :
  (forall x, Announces (gc x) (go x) (f x)) -> Announces (flat_map gc l) (flat_map go l) (forM l f).
Proof.
  intros Hf. induction l as [|x l IH]; [apply announces_silent, runs_ret; apply _|].
  cbn [forM flat_map]. apply announces_seq; [apply Hf|exact IH].
Qed.

Definition to_script (q p : string) (s : State) : list (list string) :=
  if (q =? p)%string then [announcement s] else [].
Lemma announces_script q s w : exists a w', state_script q s w = (Ret a, w') /\
  (here w -> q = opening \/ q = closing -> Says (to_script q closing s) (to_script q opening s) w w').
Proof.
  unfold to_script. set (args := [cl_Name (w_cluster w); ServerUrl s; ErrKey s]).
  change (state_script q s w) with (whenM (negb (q =? "")%string) (call (run_script q args)) w).
  destruct (q =? "")%string eqn:Eq; (eexists _, _; split; [reflexivity|]); intros [F N] Hq.
  - apply String.eqb_eq in Eq. subst q. by destruct Hq.
  - split; [done|done|done|done|]. eexists. split; [reflexivity|].
    unfold announcement, args. cbn. rewrite N. by destruct (q =? closing)%string, (q =? opening)%string.
Qed.
Lemma announces_closed s : Announces [announcement s] [] (BashScriptCloseSate s).
Proof.
  intros w. destruct (announces_script (Conf_MonitoringCloseStateScript (cl_Conf (w_cluster w))) s w) as (a & w' & E & S1).
  exists a, w'. split; [exact E|]. intros Hw. pose proof Hw as [F _]. rewrite F in S1.
  specialize (S1 Hw (or_intror eq_refl)). unfold to_script in S1.
  rewrite String.eqb_refl in S1. by rewrite (proj2 (String.eqb_neq _ _) (not_eq_sym Hoc)) in S1.
Qed.
Lemma announces_opened s : Announces [] [announcement s] (BashScriptOpenSate s).
Proof.
  intros w. destruct (announces_script (Conf_MonitoringOpenStateScript (cl_Conf (w_cluster w))) s w) as (a & w' & E & S1).
  exists a, w'. split; [exact E|]. intros Hw. pose proof Hw as [F _]. rewrite F in S1.
  specialize (S1 Hw (or_introl eq_refl)). unfold to_script in S1.
  rewrite String.eqb_refl in S1. by rewrite (proj2 (String.eqb_neq _ _) Hoc) in S1.
Qed.

Lemma announces_close_state s : Announces [announcement s] [] (close_state s).
Proof.
  unfold close_state. apply announces_after; [by apply silent_sm|intros _].
  apply announces_after; [intros w; by exists (w_cluster w), w|intros c].
  apply announces_after; [intros w; by exists (w_heap w), w|intros h]. cbv zeta.
  repeat (apply announces_after;
    [silent; solve [apply silent_process_physical|apply silent_start_waiting|apply silent_alert]|intros _]).
  apply announces_closed.
Qed.
Lemma announces_open_state s : Announces [] [announcement s] (open_state s).
Proof. unfold open_state. apply announces_after; [apply silent_alert|intros _]. apply announces_opened. Qed.

Lemma silent_Save : Runs Silent Save.
Proof.
  unfold Save. intros w. destruct (cl_IsGitPush (w_cluster w) || cl_IsSavingConfig (w_cluster w)) eqn:E.
  - exists tt, w. change (get_cluster w) with (Ret (w_cluster w), w). unfold mbind, M_bind. cbn. rewrite E.
    split; [done|reflexivity].
  - eexists _, _. unfold mbind, M_bind. cbn. rewrite E. split; [reflexivity|].
    intros [F N]. split; [done|done|done|done|]. eexists. split; [reflexivity|done].
Qed.

Lemma flat_map_single {A B} (f : A -> B) l : flat_map (fun x => [f x]) l = map f l.
Proof. induction l as [|x l IH]; cbn; congruence. Qed.
Lemma flat_map_none {A B} (l : list A) : flat_map (fun _ => [] : list B) l = [].
Proof. by induction l. Qed.

(** The states of [l] are closed, captured or opened, from a world of this configuration. *)
Lemma announces_here lc lo m w : here w -> Announces lc lo m -> exists w', m w = (Ret tt, w') /\ Says lc lo w w'.
Proof. intros Hw Hm. destruct (Hm w) as ([] & w' & E & S1). eauto. Qed.

Lemma bind_returns {A B} (m : M A) (f : A -> M B) w a w' : m w = (Ret a, w') -> (m ≫= f) w = f a w'.
Proof. unfold mbind, M_bind. by intros ->. Qed.

Lemma announces_states w : here w -> cl_IsInFailover (w_cluster w) = false ->
  let SM := cl_StateMachine (w_cluster w) in
  exists w' t, StateProcessing w = (Ret tt, w') /\ w_trace w' = w_trace w ++ t /\
    script_args closing t = map announcement (GetResolvedStates SM) /\
    script_args opening t = map announcement (map snd (go_range (GetLastOpenedStates SM))) /\
    OldState (cl_StateMachine (w_cluster w')) = CurState SM /\ CurState (cl_StateMachine (w_cluster w')) = ∅.
Proof.
  intros Hw Hf SM.
  destruct (announces_here _ _ _ w Hw (announces_forM (GetResolvedStates SM) close_state _ _ announces_close_state))
    as (w1 & E1 & S1).
  pose proof (says_here _ _ _ _ S1) as Hw1.
  destruct (announces_here _ _ _ w1 Hw1 (announces_forM (GetOpenStates (cl_StateMachine (w_cluster w1))) CheckCapture _ _
    (fun s => announces_silent _ (silent_CheckCapture s)))) as (w2 & E2 & S2).
  pose proof (says_here _ _ _ _ S2) as Hw2.
  set (opened := map snd (go_range (GetLastOpenedStates (cl_StateMachine (w_cluster w2))))).
  destruct (announces_here _ _ _ w2 Hw2 (announces_forM opened open_state _ _ announces_open_state)) as (w3 & E3 & S3).
  pose proof (says_trans _ _ _ _ _ _ _ S1 (says_trans _ _ _ _ _ _ _ S2 S3)) as S13.
  set (w4 := snd (mod_sm ClearState w3)).
  assert (Hw4 : here w4) by (destruct (says_here _ _ _ _ S3); by split).
  assert (Hend : Runs Silent (c ← get_cluster; whenM (Z.rem (GetHeartbeats (cl_StateMachine c)) 60 =? 0) Save)).
  { apply runs_read. intros c. apply runs_whenM; [apply _|apply silent_Save]. }
  destruct (Hend w4) as ([] & w5 & E5 & S5). specialize (S5 Hw4).
  assert (Eo : opened = map snd (go_range (GetLastOpenedStates SM))).
  { unfold opened, GetLastOpenedStates.
    by rewrite (sy_cur _ _ _ _ S2), (sy_old _ _ _ _ S2), (sy_cur _ _ _ _ S1), (sy_old _ _ _ _ S1). }
  rewrite Eo, !flat_map_single, !flat_map_none, !app_nil_r, !app_nil_l in S13.
  destruct S13 as [_ _ C13 O13 (t13 & T13 & A13 & B13)], S5 as [_ _ C5 O5 (t5 & T5 & A5 & B5)].
  exists w5, (t13 ++ t5). split.
  - unfold StateProcessing. rewrite (bind_returns get_cluster _ w _ _ eq_refl), Hf, (bind_returns _ _ _ _ _ E1).
    rewrite (bind_returns get_cluster _ w1 _ _ eq_refl), (bind_returns _ _ _ _ _ E2).
    rewrite (bind_returns get_cluster _ w2 _ _ eq_refl), (bind_returns _ _ _ _ _ E3). exact E5.
  - rewrite T5, !script_args_app, A5, B5, A13, B13, !app_nil_r. unfold w4. cbn [mod_sm mod_cluster snd w_trace].
    rewrite T13, app_assoc. split_and!; [done|done|done| |].
    + rewrite O5. exact C13.
    + by rewrite C5.
Qed.
End Announce.

(** Ranging over the states that are in [m] and not in [m']. *)
Lemma map_to_list_missing `{GoRange} (m m' : gmap string State) :
  Permutation (map snd (List.filter (fun e => negb (Map_Search (fst e) m')) (go_range m)))
              (map snd (map_to_list (m ∖ m'))).
Proof.
  apply Permutation_map, NoDup_Permutation.
  - apply NoDup_ListNoDup, List.NoDup_filter, NoDup_ListNoDup. rewrite go_range_perm. apply NoDup_map_to_list.
  - apply NoDup_map_to_list.
  - intros [k s]. rewrite elem_of_map_to_list, lookup_difference_Some, list_elem_of_In.
    rewrite filter_In, <- list_elem_of_In, elem_of_go_range. cbn. unfold Map_Search.
    destruct (m' !! k); cbn; naive_solver.
Qed.
Lemma opened_difference `{GoRange} SM : GetLastOpenedStates SM = CurState SM ∖ OldState SM.
Proof.
  apply map_eq. intros k. rewrite lookup_opened, lookup_difference. by destruct (OldState SM !! k).
Qed.


(** A tick of the demo cluster: the master came back and a slave is late. *)
Definition tick_world : World :=
  mkWorld
    (set_cl_StateMachine
       (set_CurState {["ERR00041" := mkState "ERR00041" "WARNING" "late" "CHECK" "db2:3306"]}
         (set_OldState {["ERR00016" := mkState "ERR00016" "ERROR" "down" "TOPO" "db1:3306"]} (cl_StateMachine demo_cluster)))
       (set_cl_Conf (set_Conf_MonitoringOpenStateScript "open.sh" (set_Conf_MonitoringCloseStateScript "close.sh" demo_conf))
         demo_cluster)) demo_heap [].

