(* ===== verification/RoundLimit.v ===== *)
(** * The limit of automatic failovers

    Over any number of rounds, whatever the databases, the proxies and the
    arbitrator answer, only [CheckFailed] spends the failovers the configuration
    grants, and never more than these. *)

From Stdlib Require Import ZArith Lia Bool Permutation Ascii String.
From stdpp Require Import base list gmap strings functions.
From S2P Require Import Prelude GoLib Gtid Version StateMachine Crash DelayStat Config Server Proxy Cluster Demo ServerOps Conformity Refresh Election Failover Rejoin FailoverFrame FailoverSafety FailoverCheck Monitoring Topology SplitBrain Configurator ProxySql Proxies Binlog Round.

Local Open Scope string_scope.
Local Open Scope list_scope.
Local Open Scope Z_scope.

(** What the limit is decided on: the counter, the limit and the mode. *)
Definition budget (w : World) : Z * Z * bool :=
  let c := w_cluster w in (cl_FailoverCtr c, Conf_FailLimit (cl_Conf c), Conf_Interactive (cl_Conf c)).

Section Budget.
Context `{Env} `{GoSort} `{GoRange} `{GoSched} (cfg : Configurator).

Lemma budget_mod_cluster f : (forall w, budget (mkWorld (f (w_cluster w)) (w_heap w) (w_trace w)) = budget w) ->
  Pres (keeps budget) (mod_cluster f).
Proof. intros Hf w. exact (Hf w). Qed.
Lemma budget_mod_server l f : Pres (keeps budget) (mod_server l f).
Proof. by intros w. Qed.
Lemma budget_call {R} (c : Call R) : Pres (keeps budget) (call c).
Proof. by intros w. Qed.
Hint Resolve budget_mod_server budget_call : pres.
Hint Extern 1 (Pres (keeps budget) (mod_cluster _)) => apply budget_mod_cluster; intros ?; reflexivity : pres.

Lemma budget_frame {A} (m : M A) : Pres (Frame any_event) m -> Pres (keeps budget) m.
Proof.
  intros Hm w. exact (f_equal (fun v => (cl_FailoverCtr (fst v), Conf_FailLimit (cl_Conf (fst v)),
    Conf_Interactive (cl_Conf (fst v)))) (frame_cluster (Hm w))).
Qed.
Hint Extern 5 (Pres (keeps budget) _) => apply budget_frame; solve [eauto with pres] : pres.

Lemma budget_Refresh l : Pres (keeps budget) (Refresh l).
Proof. eauto with pres. Qed.
Lemma budget_unique_users p l uni : Pres (keeps budget) (unique_users p l uni).
Proof. revert uni. induction l as [|x l IH]; intros uni; cbn [unique_users]; deep; apply IH. Qed.
Hint Resolve budget_unique_users : pres.
Lemma budget_add_users psql p known l b : Pres (keeps budget) (add_users psql p known l b).
Proof. revert b. induction l as [|x l IH]; intros b; cbn [add_users]; deep; apply IH. Qed.
Hint Resolve budget_add_users : pres.
Lemma budget_refresh_backends psql p l w r b : Pres (keeps budget) (refresh_backends cfg psql p l w r b).
Proof. revert w r b. induction l as [|x l IH]; intros w r b; cbn [refresh_backends]; deep; apply IH. Qed.
Hint Resolve budget_refresh_backends : pres.
Lemma budget_oldest_loop l acc : Pres (keeps budget) (oldest_loop l acc).
Proof. revert acc. induction l as [|x l IH]; intros acc; cbn [oldest_loop]; deep; apply IH. Qed.
Hint Resolve budget_oldest_loop : pres.
Lemma budget_wait_refresh n l : Pres (keeps budget) (wait_refresh n l).
Proof. induction n as [|n IH]; cbn [wait_refresh]; deep; apply IH. Qed.
Hint Resolve budget_wait_refresh : pres.
Lemma budget_try_elections n : Pres (keeps budget) (try_elections n).
Proof. induction n as [|n IH]; cbn [try_elections]; deep; apply IH. Qed.
Hint Resolve budget_try_elections : pres.
Lemma budget_grants_loop srv l : Pres (keeps budget) (grants_loop srv l).
Proof. induction l as [|[k u] l IH]; cbn [grants_loop]; deep; apply IH. Qed.
Hint Resolve budget_grants_loop : pres.
Lemma budget_check_slaves l r c : Pres (keeps budget) (check_slaves l r c).
Proof. revert r c. induction l as [|x l IH]; intros r c; cbn [check_slaves]; deep; apply IH. Qed.
Hint Resolve budget_check_slaves : pres.
Lemma budget_master_loop sid l : Pres (keeps budget) (master_loop sid l).
Proof. induction l as [|x l IH]; cbn [master_loop]; deep; apply IH. Qed.
Hint Resolve budget_master_loop : pres.
Lemma budget_failed_master_loop sl l : Pres (keeps budget) (failed_master_loop sl l).
Proof. induction l as [|x l IH]; cbn [failed_master_loop]; deep; apply IH. Qed.
Hint Resolve budget_failed_master_loop : pres.

Lemma budget_refreshProxies : Pres (keeps budget) (refreshProxies cfg).
Proof. deep. Qed.
Lemma budget_initProxies : Pres (keeps budget) (initProxies cfg).
Proof. deep. Qed.
Lemma budget_InjectProxiesTraffic : Pres (keeps budget) InjectProxiesTraffic.
Proof. deep. Qed.
Lemma budget_purge : Pres (keeps budget) CheckSlavesReplicationsPurge.
Proof. deep. Qed.
Lemma budget_Heartbeat : Pres (keeps budget) Heartbeat.
Proof. deep. Qed.
Hint Resolve budget_refreshProxies budget_initProxies budget_InjectProxiesTraffic budget_purge budget_Heartbeat : pres.

Lemma budget_rejoin l : Pres (keeps budget) (RejoinMaster l).
Proof. deep. Qed.
Hint Resolve budget_rejoin : pres.
Lemma budget_rejoinSlave l ss : Pres (keeps budget) (rejoinSlave l ss).
Proof. deep. Qed.
Hint Resolve budget_rejoinSlave : pres.
Lemma budget_SendAlert l : Pres (keeps budget) (srv_SendAlert l).
Proof. deep. Qed.
Hint Resolve budget_SendAlert : pres.
Lemma budget_ProcessFailedSlave l : Pres (keeps budget) (ProcessFailedSlave l).
Proof. deep. Qed.
Hint Resolve budget_ProcessFailedSlave : pres.
Lemma budget_backend : Pres (keeps budget) backendStateChangeProxies.
Proof. deep. Qed.
Hint Resolve budget_backend : pres.
Lemma budget_Ping l : Pres (keeps budget) (Ping l).
Proof. deep. Qed.
Hint Resolve budget_Ping : pres.
Lemma budget_GetTopologyFromConf : Pres (keeps budget) GetTopologyFromConf.
Proof.
  intros w. unfold GetTopologyFromConf. destruct (topology_from_conf _ _) as [t pg]. unfold keeps, budget.
  cbn. by destruct (_ || _).
Qed.
Hint Resolve budget_GetTopologyFromConf : pres.
Lemma budget_TopologyDiscover : Pres (keeps budget) TopologyDiscover.
Proof. deep. Qed.
Lemma budget_StateProcessing : Pres (keeps budget) StateProcessing.
Proof. deep. Qed.
Lemma budget_SetStatus : Pres (keeps budget) SetStatus.
Proof. deep. Qed.
Lemma budget_GetStatus : Pres (keeps budget) GetStatus.
Proof. deep. Qed.
Lemma budget_proxies_round : Pres (keeps budget) (proxies_round cfg).
Proof. deep. Qed.
Hint Resolve budget_TopologyDiscover budget_StateProcessing budget_SetStatus budget_GetStatus budget_proxies_round : pres.

(** A failover counts at most once, a switchover not at all. *)
Definition spend (b : Z * Z * bool) : Z * Z * bool := let '(n, l, i) := b in (n + 1, l, i).
Definition OneMore (w w' : World) : Prop := budget w' = budget w \/ budget w' = spend (budget w).

Lemma one_more_keeps {A} (m : M A) : Pres (keeps budget) m -> Pres OneMore m.
Proof. intros Hm w. left. apply Hm. Qed.
Lemma one_more_after {A B} (m : M A) (f : A -> M B) :
  Pres (keeps budget) m -> (forall a, Pres OneMore (f a)) -> Pres OneMore (m ≫= f).
Proof.
  intros Hm Hf w. specialize (Hm w). unfold mbind, M_bind. destruct (m w) as [[a| |] w1]; [|by left..].
  specialize (Hf a w1). unfold OneMore in *. cbn in Hm. by rewrite Hm in Hf.
Qed.
Lemma one_more_before {A B} (m : M A) (f : A -> M B) :
  Pres OneMore m -> (forall a, Pres (keeps budget) (f a)) -> Pres OneMore (m ≫= f).
Proof.
  intros Hm Hf w. specialize (Hm w). unfold mbind, M_bind. destruct (m w) as [[a| |] w1]; [|done..].
  specialize (Hf a w1). unfold OneMore in *. by rewrite Hf.
Qed.
Lemma one_more_defer {A} (m : M A) fin : Pres OneMore m -> Pres (keeps budget) fin -> Pres OneMore (defer m fin).
Proof.
  intros Hm Hf w. specialize (Hm w). unfold defer. destruct (m w) as [[a| |] w1]; [| |done];
    (specialize (Hf w1); unfold OneMore in *; destruct (fin w1) as [[?| |] w2]; cbn in *; by rewrite Hf).
Qed.
Lemma one_more_count fail : Pres OneMore (whenM fail count_failover).
Proof. destruct fail; [|by apply one_more_keeps; deep]. intros w. right. reflexivity. Qed.

Lemma one_more_failover_body fail : Pres OneMore (failover_body fail).
Proof.
  unfold failover_body. apply one_more_after; [deep|intros [b|]]; [apply one_more_keeps; deep|].
  apply one_more_after; [deep|intros [k|]]; [|apply one_more_keeps; deep].
  apply one_more_after; [deep|intros [[ml relay] cr]].
  apply one_more_before; [|intros _; deep]. unfold failover_finish.
  do 6 (apply one_more_after; [deep|intros ?]). apply one_more_count.
Qed.
Lemma one_more_vfailover_body fail : Pres OneMore (vfailover_body fail).
Proof.
  unfold vfailover_body. apply one_more_after; [deep|intros [|]; cbn [negb]]; [|apply one_more_keeps; deep].
  apply one_more_after; [deep|intros k]. destruct (k =? -1); [apply one_more_keeps; deep|].
  do 4 (apply one_more_after; [deep|intros ?]).
  apply one_more_before; [|intros _; deep]. unfold vfinish.
  do 5 (apply one_more_after; [deep|intros ?]). apply one_more_before; [apply one_more_count|intros _; deep].
Qed.
Lemma one_more_critical b : Pres OneMore b -> Pres OneMore (critical b).
Proof.
  intros Hb. unfold critical. apply one_more_after; [deep|intros c]. destruct (cl_IsInFailover c); [by apply one_more_keeps; deep|].
  apply one_more_after; [deep|intros _]. apply one_more_defer; [done|deep].
Qed.
Lemma one_more_MasterFailover fail : Pres OneMore (MasterFailover fail).
Proof.
  unfold MasterFailover, VMasterFailover. apply one_more_after; [deep|intros c].
  destruct (_ || _ || _); apply one_more_critical; [apply one_more_vfailover_body|apply one_more_failover_body].
Qed.
Lemma budget_switchover : Pres (keeps budget) (MasterFailover false).
Proof. deep. Qed.

(** The failovers stay within what the configuration grants. *)
Record Within (w w' : World) : Prop := mkWithin {
  within_limit : Conf_FailLimit (cl_Conf (w_cluster w')) = Conf_FailLimit (cl_Conf (w_cluster w));
  within_mode : Conf_Interactive (cl_Conf (w_cluster w')) = Conf_Interactive (cl_Conf (w_cluster w));
  within_grows : cl_FailoverCtr (w_cluster w) <= cl_FailoverCtr (w_cluster w');
  within_manual : Conf_Interactive (cl_Conf (w_cluster w)) = true ->
                  cl_FailoverCtr (w_cluster w') = cl_FailoverCtr (w_cluster w);
  within_bound : 0 < Conf_FailLimit (cl_Conf (w_cluster w)) ->
                 cl_FailoverCtr (w_cluster w) <= Conf_FailLimit (cl_Conf (w_cluster w)) ->
                 cl_FailoverCtr (w_cluster w') <= Conf_FailLimit (cl_Conf (w_cluster w))
}.
#[local] Instance Within_preorder : PreOrder Within.
Proof.
  split.
  - intros w. by split.
  - intros x y z [L1 M1 G1 N1 B1] [L2 M2 G2 N2 B2]. split; [congruence|congruence|lia| |].
    + intros Hi. rewrite N2, N1; congruence.
    + intros Hl Hc. rewrite L1 in B2. auto.
Qed.

Lemma within_of_keeps w w' : keeps budget w w' -> Within w w'.
Proof. intros K. injection K as Kc Kl Ki. split; congruence || lia. Qed.
Lemma within_keeps {A} (m : M A) : Pres (keeps budget) m -> Pres Within m.
Proof. intros Hm w. apply within_of_keeps, Hm. Qed.

Lemma budget_guards : Pres (keeps budget) failover_guards.
Proof. apply budget_frame. intros w. exact (Frame_weaken _ _ _ _ (fun _ _ => I) (proj2 (reads_failover_guards w))). Qed.
Lemma budget_false_positive : Pres (keeps budget) false_positive.
Proof. apply budget_frame. intros w. exact (Frame_weaken _ _ _ _ (fun _ _ => I) (proj2 (reads_false_positive w))). Qed.
Hint Resolve budget_guards budget_false_positive : pres.

Lemma within_spent w w' : budget w' = spend (budget w) -> Conf_Interactive (cl_Conf (w_cluster w)) = false ->
  (Conf_FailLimit (cl_Conf (w_cluster w)) = 0 \/
   cl_FailoverCtr (w_cluster w) <> Conf_FailLimit (cl_Conf (w_cluster w))) -> Within w w'.
Proof. intros K Hi Hl. injection K as Kc Kl Ki. split; [done|done|lia|congruence|lia]. Qed.

Lemma within_CheckFailed : Pres Within CheckFailed.
Proof.
  unfold CheckFailed. intros w. change ((get_cluster ≫= ?f) w) with (f (w_cluster w) w). cbv beta.
  destruct (cl_IsInFailover (w_cluster w)) eqn:Hf; [by apply within_keeps; deep|].
  unfold mbind at 1, M_bind at 1. pose proof (budget_guards w) as K1.
  destruct (failover_guards w) as [[[|]| |] w1] eqn:E; [|by apply within_of_keeps..].
  destruct (failover_guards_sound _ _ Hf E) as (_ & _ & Hi & Hl & _).
  assert (Hone : Pres OneMore (fp ← false_positive; whenM (negb fp) (MasterFailover true ;; call (channel_send "failoverCond")))).
  { apply one_more_after; [deep|intros [|]; cbn [negb whenM]]; [by apply one_more_keeps; deep|].
    apply one_more_before; [apply one_more_MasterFailover|intros _; deep]. }
  destruct (Hone w1) as [K2|K2]; cbn in K1.
  - apply within_of_keeps. unfold keeps. cbn [whenM]. by rewrite K2, K1.
  - apply within_spent; [cbn [whenM]; by rewrite K2, K1|done|done].
Qed.

Lemma within_decide_round : Pres Within decide_round.
Proof.
  unfold decide_round. do 4 (apply pres_bind; [apply _|by apply within_keeps; deep|intros ?]). apply within_CheckFailed.
Qed.
Lemma within_watch_round : Pres Within (watch_round cfg).
Proof.
  unfold watch_round. do 3 (apply pres_bind; [apply _|by apply within_keeps; deep|intros ?]).
  apply pres_bind; [apply _|apply within_decide_round|intros _]. apply within_keeps. deep.
Qed.
Lemma within_round : Pres Within (round cfg).
Proof.
  unfold round. apply pres_bind; [apply _|by apply within_keeps; deep|intros conf].
  apply pres_bind; [apply _| |intros _; by apply within_keeps; deep].
  apply pres_whenM; [apply _|]. do 2 (apply pres_bind; [apply _|by apply within_keeps; deep|intros ?]).
  destruct a0; [|apply within_watch_round]. apply within_keeps. unfold switchover_round.
  apply pres_bind; [apply _|deep|intros c]. apply pres_whenM; [apply _|].
  apply pres_bind; [apply _|apply budget_switchover|intros _; deep].
Qed.
Lemma within_rounds n : Pres Within (rounds cfg n).
Proof.
  induction n as [|n IH]; cbn [rounds]; [by apply within_keeps; deep|].
  apply pres_bind; [apply _|by apply within_keeps; deep|intros c].
  destruct (cl_exit c); [by apply within_keeps; deep|]. by apply pres_bind; [apply _|apply within_round|intros _].
Qed.
Lemma within_Run n : Pres Within (Run cfg n).
Proof. unfold Run. do 2 (apply pres_bind; [apply _|apply within_keeps; auto with pres|intros ?]). apply within_rounds. Qed.
End Budget.

(** C4: the limit of automatic failovers holds over any run of the monitoring: after
    any number of rounds of [Run] - however the rounds end, and whatever the databases,
    the proxies, the arbitrator and the scripts answer, in any order of the goroutines -
    the limit and the mode are those the run started with, the counter of failovers has
    not decreased, has not moved at all in interactive mode, and when a limit is set has
    not passed it if it was not passed before. *)
Theorem failover_limit_respected `{Env} `{GoSort} `{GoRange} `{GoSched} (cfg : Configurator) (n : nat) (w : World) :
  let ctr w := cl_FailoverCtr (w_cluster w) in
  let limit w := Conf_FailLimit (cl_Conf (w_cluster w)) in
  let w' := snd (Run cfg n w) in
  limit w' = limit w /\ ctr w <= ctr w' /\
  (Conf_Interactive (cl_Conf (w_cluster w)) = true -> ctr w' = ctr w) /\
  (0 < limit w -> ctr w <= limit w -> ctr w' <= limit w).
Proof.
  intros ctr limit w'. destruct (within_Run cfg n w) as [L _ G N B]. auto.
Qed.

(** ** A master is lost

    The demo cluster, its master up at first; the database of the master then refuses
    every connection and the clock advances. *)

#[local] Instance fifo : GoSched := {| go_order := fun l => l; go_order_perm := fun l => Permutation_refl l |}.

Definition lost_answer (d : Databases) {R} (h : list TraceEvent) (c : Call R) : R :=
  match c in Call R return R -> R with
  | db_Connect 0%nat _ _ => fun _ => Some (OtherErr "connection refused")
  | time_Now => fun _ => 1000 + Z.of_nat (length h)
  | _ => fun r => r
  end (calm_answer d h c).
#[local] Instance lost_env : Env :=
  {| answer := @lost_answer demo_databases; wait_fuel := 3; env_hour_of := fun t => t / 3600 |}.

Definition run_heap : loc -> ServerMonitor := fun l =>
  match l with 0 => demo_server "db1" 1 stateMaster "0-1-100" [] | _ => demo_heap l end%nat.
Definition run_conf : Config :=
  set_Conf_FailLimit 3 (set_Conf_MaxFail 3 (set_Conf_CheckType "tcp" demo_conf)).
Definition run_world : World := mkWorld (set_cl_Status "A" (set_cl_Conf run_conf demo_cluster)) run_heap [].
Definition run_cfg : Configurator := mkConfigurator (mkProvConfig "" "" "" "" "" 0 0 "" "" false false) [] [].

(** The master and the number of failovers after [n] rounds, and the states of the servers. *)
Definition after_rounds (n : nat) : option loc * Z * list string :=
  let w := snd (Run run_cfg n run_world) in
  (cl_master (w_cluster w), cl_FailoverCtr (w_cluster w), map (fun l => srv_State (w_heap w l)) [0; 1; 2]%nat).

(** Two rounds only suspect the master; the third, which reaches the number of failed
    checks, promotes the slave that is ahead, and the next ones leave it at that. *)
Example demo_lost_master :
  map after_rounds [2; 3; 5]%nat =
    [(Some 0%nat, 0, [stateSuspect; stateSlave; stateSlave]);
     (Some 2%nat, 1, [stateFailed; stateSlave; stateMaster]);
     (Some 2%nat, 1, [stateFailed; stateSlave; stateMaster])].
Proof. vm_compute. reflexivity. Qed.

Lemma failover_limit_respected_witness :
  cl_FailoverCtr (w_cluster run_world) <= Conf_FailLimit (cl_Conf (w_cluster run_world)) /\
  cl_FailoverCtr (w_cluster (snd (Run run_cfg 5 run_world))) <= 3.
Proof.
  split; [by vm_compute|].
  destruct (failover_limit_respected run_cfg 5 run_world) as (_ & _ & _ & B).
  exact (B eq_refl ltac:(by vm_compute)).
Defined.
