(* ===== verification/Wait.v ===== *)
(** * Waiting for the cluster (cluster/cluster_wait.go, srv_wait.go)

    The waits of the commands that run beside the monitoring: at every tick of a
    timer something is tested, and after [MonitorWaitRetry] ticks the wait gives up.
    What the other goroutines do between two ticks is the computation [meanwhile].
    The counter of a wait that succeeded is set to [wait_done], by which the code
    tells the two ends apart; a limit above it is never reached by this value, so
    that the loop is followed for [wait_fuel] ticks only and is [Hang] after them. *)

From Stdlib Require Import ZArith Lia Bool Ascii String.
From stdpp Require Import base list gmap strings functions.
From S2P Require Import Prelude GoLib Version StateMachine Config Server Proxy Cluster Demo ServerOps Lands Refresh Election Failover Rejoin FailoverFrame FailoverCheck Monitoring Topology SplitBrain Configurator ProxySql Proxies.

Local Open Scope string_scope.
Local Open Scope list_scope.
Local Open Scope Z_scope.

Definition wait_done : Z := 9999999.
Definition recoverTime : Z := 8.
Definition ConstProxySpider : string := "shardproxy".

Section Ops.
Context `{Env} `{GoSort} `{GoRange} (meanwhile : M unit).

(** ** The loop *)

(** A step gives the next value of the counter, or leaves the loop with [None]. *)
Fixpoint wait_loop (fuel : nat) (ms : Z) (step : Z -> M (option Z)) (exitloop : Z) : M Z :=
  conf ← get_conf;
  if exitloop <? Conf_MonitorWaitRetry conf
  then
    match fuel with
    | O => hang
    | S fuel =>
        call (time_Sleep ms) ;; meanwhile ;;
        e ← step exitloop;
        match e with Some e => wait_loop fuel ms step e | None => mret exitloop end
    end
  else mret exitloop.

(** A timer with no positive period panics. *)
Definition wait_ticks (step : Z -> M (option Z)) : M Z :=
  conf ← get_conf;
  let ms := i64 (1000 * Conf_MonitoringTicker conf) in
  if i64 (1000000 * ms) <=? 0 then panic else wait_loop wait_fuel ms step 0.

Definition wait_for (test : M bool) (failed : string) : M Err :=
  e ← wait_ticks (fun exitloop => b ← test; mret (Some (if (b : bool) then wait_done else exitloop + 1)));
  mret (if e =? wait_done then None else Some failed).

(** The message of a channel ends the wait, a tick of the timer counts. *)
Definition wait_message (channel : string) (received : option Z) : M unit :=
  wait_ticks (fun exitloop =>
    got ← call (channel_poll channel); mret (if (got : bool) then received else Some (exitloop + 1))) ;;
  mret tt.

(** ** Failover, switchover and rejoin *)

Definition WaitFailover : M unit := wait_message "failoverCond" None.
Definition WaitSwitchover : M unit := wait_message "switchoverCond" (Some wait_done).
Definition WaitRejoin : M unit := wait_message "rejoinCond" (Some wait_done).

Fixpoint failover_end_loop (fuel : nat) : M unit :=
  c ← get_cluster;
  if cl_IsInFailover c
  then match fuel with
       | O => hang
       | S fuel => call (time_Sleep 1000) ;; meanwhile ;; failover_end_loop fuel
       end
  else mret tt.
Definition WaitFailoverEndState : M unit :=
  failover_end_loop wait_fuel ;; call (time_Sleep (1000 * recoverTime)) ;; meanwhile.

(** ** The databases *)

Definition WaitClusterStop : M Err :=
  wait_for (c ← get_cluster;
            h ← get_heap;
            mret (IsInState "ERR00021" (cl_StateMachine c) || HasAllDbDown c h))
    "Failed to stop the cluster".

Definition WaitMariaDBStop (l : loc) : M Err :=
  wait_for (s ← load l;
            pid ← deref (srv_Process s);
            e ← call (find_process pid);
            mret (is_err e))
    "Failed to Stop MariaDB".

Definition WaitDatabaseSuspect (l : loc) : M Err :=
  wait_for (e ← Refresh l; mret (is_err e)) "Failed to wait state suspect".
Definition WaitDatabaseFailed (l : loc) : M Err :=
  wait_for (s ← load l; mret (IsInStateFailed s)) "Failed to wait state failed".
Definition WaitBootstrapDiscovery : M Err :=
  wait_for (c ← get_cluster; mret (cl_IsDiscovered c)) "Failed Bootstrap timeout".
Definition waitMasterDiscovery : M Err :=
  wait_for (c ← get_cluster; mret (match GetMaster c with Some _ => true | None => false end))
    "Failed Master search timeout".

Definition AllDatabaseCanConn (c : Cluster) (h : loc -> ServerMonitor) : bool :=
  forallb (fun x => negb (IsDown (h x))) (cl_servers c).
Definition WaitDatabaseCanConn : M Err :=
  wait_for (c ← get_cluster;
            h ← get_heap;
            mret (AllDatabaseCanConn c h && HasAllDbUp c h))
    "Connections to databases failure".

Definition provision_warning (l : loc) (key err : string) : M unit :=
  s ← load l;
  SetState key (state_of key "WARNING" "PROV" (srv_URL s) [fs (srv_URL s); fs err]).

(** The server is checked and refreshed at every tick. *)
Definition database_started (l : loc) : M bool :=
  Ping l ;;
  e ← Refresh l;
  on_error e (provision_warning l "WARN0128") ;;
  c ← get_cluster;
  s ← load l;
  let e := if topology_is c TopoMultiMasterWsrep && negb (IsConnected c s) then Some "Not yet connected" else e in
  on_error e (provision_warning l "WARN0129") ;;
  mret (negb (is_err e)).
Definition WaitDatabaseStart (l : loc) : M Err :=
  wait_for (database_started l) "Failed to wait running database server".

(** ** The proxies *)

(** The first proxy that cannot be asked ends the search. *)
Fixpoint proxies_equal_master (l : list nat) : M bool :=
  match l with
  | [] => mret false
  | p :: r =>
      sid ← call (proxy_server_id p);
      match sid with
      | None => mret false
      | Some sid =>
          c ← get_cluster;
          h ← get_heap;
          let same := match GetMaster c with Some m => srv_ServerID (h m) =? sid | None => false end in
          if same || (prx_Type (get_proxy c p) =? ConstProxySpider)%string then mret true
          else proxies_equal_master r
      end
  end.
Definition IsProxyEqualMaster : M bool :=
  c ← get_cluster;
  match GetMaster c with Some _ => proxies_equal_master (cl_Proxies c) | None => mret false end.
Definition WaitProxyEqualMaster : M Err := wait_for IsProxyEqualMaster "Failed to join master via proxy".

Definition WaitAlertDisable : M unit :=
  conf ← get_conf;
  call (time_Sleep (i64 (1000 * Conf_SchedulerAlertDisableTime conf))) ;; meanwhile ;;
  mod_cluster (set_cl_IsAlertDisable false).
End Ops.

(** ** A wait is a bounded number of attempts *)

Definition wait_limit (w : World) : Z := Conf_MonitorWaitRetry (cl_Conf (w_cluster w)).
Definition tick_ms (w : World) : Z := i64 (1000 * Conf_MonitoringTicker (cl_Conf (w_cluster w))).

Section Attempts.
Context `{Env} (meanwhile : M unit) (test : M bool) (ms : Z).

(** At most [n] attempts, with the other goroutines before each. *)
Fixpoint attempts (n : nat) : M bool :=
  match n with
  | O => mret false
  | S n => call (time_Sleep ms) ;; meanwhile ;; b ← test; if (b : bool) then mret true else attempts n
  end.

Context (Hm : Pres (keeps wait_limit) meanwhile) (Ht : Pres (keeps wait_limit) test).

Local Abbreviation counting :=
  (fun exitloop => b ← test; mret (Some (if (b : bool) then wait_done else exitloop + 1))).

Lemma wait_loop_attempts n : forall fuel e w,
  (n <= fuel)%nat -> Z.to_nat (wait_limit w - e) = n -> 0 <= e -> e <> wait_done -> wait_limit w < wait_done ->
  (r ← wait_loop meanwhile fuel ms counting e; mret (r =? wait_done)) w = attempts n w.
Proof.
  induction n as [|n IH]; intros fuel e w Hf Hn He Hd Hl.
  - destruct fuel; cbn [wait_loop]; unfold mbind, M_bind, get_conf; fold (wait_limit w);
      rewrite (proj2 (Z.ltb_ge _ _)) by lia; cbn; by rewrite (proj2 (Z.eqb_neq _ _)).
  - destruct fuel as [|fuel]; [lia|]. cbn [wait_loop attempts]. unfold mbind, M_bind, get_conf. fold (wait_limit w).
    rewrite (proj2 (Z.ltb_lt _ _)) by lia. cbn [call]. set (w1 := mkWorld _ _ _).
    assert (L1 : wait_limit w1 = wait_limit w) by done.
    pose proof (Hm w1) as K1. destruct (meanwhile w1) as [[[]| |] w2]; [|done|done]. cbn in K1. red in K1.
    pose proof (Ht w2) as K2. destruct (test w2) as [[[|]| |] w3]; [| |done|done]; cbn in K2; red in K2; cbn.
    + destruct fuel; cbn [wait_loop]; unfold mbind, M_bind, get_conf; fold (wait_limit w3);
        rewrite (proj2 (Z.ltb_ge _ _)) by (rewrite K2, K1, L1; lia); reflexivity.
    + rewrite <- (IH fuel (e + 1) w3); [|lia|rewrite K2, K1, L1; lia|lia|lia|rewrite K2, K1, L1; lia].
      reflexivity.
Qed.

Lemma attempts_never n w : (forall v, fst (test v) <> Ret true) -> fst (attempts n w) <> Ret true.
Proof.
  intros Hno. revert w. induction n as [|n IH]; intros w; [done|]. cbn [attempts]. unfold mbind, M_bind. cbn [call].
  destruct (meanwhile _) as [[[]| |] w2]; [|done|done]. pose proof (Hno w2) as Hn.
  by destruct (test w2) as [[[|]| |] w3].
Qed.
End Attempts.

(** the waits end, and tell success from failure. With a period and a limit that
    are meant (the limit below the number that marks success, within the ticks that
    are followed, and not changed during the wait) a wait is the same as that many
    attempts of its test, one per tick, up to the first that succeeds: without error
    exactly when one did, whatever the other goroutines do in between. *)
Theorem wait_for_attempts `{Env} (meanwhile : M unit) (test : M bool) (failed : string) (w : World) :
  0 < i64 (1000000 * tick_ms w) -> wait_limit w < wait_done -> wait_limit w <= Z.of_nat wait_fuel ->
  Pres (keeps wait_limit) meanwhile -> Pres (keeps wait_limit) test ->
  wait_for meanwhile test failed w =
  (b ← attempts meanwhile test (tick_ms w) (Z.to_nat (wait_limit w));
   mret (if (b : bool) then None else Some failed)) w.
Proof.
  intros Hp Hl Hf Hm Ht.
  pose proof (wait_loop_attempts meanwhile test (tick_ms w) Hm Ht (Z.to_nat (wait_limit w)) wait_fuel 0 w
    ltac:(lia) ltac:(f_equal; lia) ltac:(lia) ltac:(unfold wait_done; lia) Hl) as E.
  unfold wait_for, wait_ticks, mbind, M_bind, get_conf in *. fold (tick_ms w).
  rewrite (proj2 (Z.leb_gt _ _)) by done. rewrite <- E.
  by destruct (wait_loop _ _ _ _ _ _) as [[r| |] w'].
Qed.

(** The search for a process succeeds on Unix for every number: the wait for the end
    of a local database can only time out. *)
Lemma WaitMariaDBStop_never `{Env} (meanwhile : M unit) (l : loc) (w : World) :
  (forall t pid, answer t (find_process pid) = None) ->
  0 < i64 (1000000 * tick_ms w) -> wait_limit w < wait_done -> wait_limit w <= Z.of_nat wait_fuel ->
  Pres (keeps wait_limit) meanwhile ->
  fst (WaitMariaDBStop meanwhile l w) <> Ret None.
Proof.
  intros Ha Hp Hl Hf Hm. unfold WaitMariaDBStop. rewrite wait_for_attempts; [|done..|pres; intros ?; reflexivity].
  set (test := load l ≫= _).
  pose proof (attempts_never meanwhile test (tick_ms w) (Z.to_nat (wait_limit w)) w) as Hno.
  unfold mbind, M_bind. destruct (attempts _ _ _ _ w) as [[[|]| |] w']; try done. cbn in *. exfalso.
  apply Hno; [|done]. intros v. unfold test, mbind, M_bind. cbn. destruct (srv_Process _) as [pid|]; [|done].
  cbn. by rewrite Ha.
Qed.

Definition wait_world : World :=
  mkWorld (set_cl_Conf (set_Conf_MonitorWaitRetry 2 (set_Conf_MonitoringTicker 1 demo_conf)) demo_cluster) demo_heap [].

Lemma wait_for_attempts_witness :
  fst (WaitDatabaseFailed (mret tt) 0%nat wait_world) = Ret None /\
  fst (WaitDatabaseFailed (mret tt) 1%nat wait_world) = Ret (Some "Failed to wait state failed").
Proof.
  assert (R : forall l, WaitDatabaseFailed (mret tt) l wait_world =
    (b ← attempts (mret tt) (s ← load l; mret (IsInStateFailed s)) 1000 2;
     mret (if (b : bool) then None else Some "Failed to wait state failed")) wait_world).
  { intros l. apply (wait_for_attempts (mret tt) (s ← load l; mret (IsInStateFailed s)));
      [reflexivity|reflexivity|discriminate|by intros ?|by intros ?]. }
  split; rewrite R; vm_compute; reflexivity.
Defined.
