(* ===== verification/Provision.v ===== *)
(** * Services of databases and proxies (cluster/prov.go, prov_scripts.go)

    Starting, stopping, provisioning and removing the services through the
    orchestrator of the configuration; what an orchestrator does is a call. The
    goroutines that provision the services report on one channel: the errors are
    received in the order [GoSched] gives them. *)

From Stdlib Require Import ZArith Lia Bool Ascii String.
From stdpp Require Import base list gmap strings functions.
From S2P Require Import Prelude GoLib Version StateMachine Config Server Proxy Cluster Demo ServerOps Lands Refresh Election Failover Rejoin FailoverFrame FailoverCheck Monitoring Topology SplitBrain Configurator ProxySql Proxies Wait.

Local Open Scope string_scope.
Local Open Scope list_scope.
Local Open Scope Z_scope.

(** The orchestrators, by the name of their part of the code. *)
Definition orchestrator_of (orchestrator : string) : option string :=
  if (orchestrator =? "opensvc")%string then Some "OpenSVC"
  else if (orchestrator =? "kube")%string then Some "K8S"
  else if (orchestrator =? "slapos")%string then Some "SlapOS"
  else if (orchestrator =? "local")%string then Some "Localhost"
  else if (orchestrator =? "onpremise")%string then Some "OnPremise"
  else None.
Definition GetOrchestrator (conf : Config) : string := Conf_ProvOrchestrator conf.

Section Ops.
Context `{Env} `{GoSort} `{GoRange} `{GoSched} (meanwhile : M unit).

(** ** Scripts (prov_scripts.go) *)

Definition database_script (path : Config -> string) (l : loc) : M unit :=
  c ← get_cluster;
  s ← load l;
  let conf := cl_Conf c in
  whenM (negb (path conf =? "")%string)
    (call (run_script (path conf) [Unbracket (srv_Host s); srv_Port s; GetDbUser conf; GetDbPass conf; cl_Name c])).
Definition UnprovisionDatabaseScript : loc -> M unit := database_script Conf_ProvDbCleanupScript.
Definition ProvisionDatabaseScript : loc -> M unit := database_script Conf_ProvDbBootstrapScript.
Definition StopDatabaseScript : loc -> M unit := database_script Conf_ProvDbStopScript.
Definition StartDatabaseScript : loc -> M unit := database_script Conf_ProvDbStartScript.

Definition proxy_script (path : Config -> string) (p : nat) : M unit :=
  c ← get_cluster;
  let proxy := get_proxy c p in
  let conf := cl_Conf c in
  whenM (negb (path conf =? "")%string)
    (call (run_script (path conf) [Unbracket (prx_Host proxy); prx_Port proxy; prx_User proxy; prx_Pass proxy; cl_Name c])).
Definition UnprovisionProxyScript : nat -> M unit := proxy_script Conf_ProvProxyCleanupScript.
Definition ProvisionProxyScript : nat -> M unit := proxy_script Conf_ProvProxyBootstrapScript.
Definition StartProxyScript : nat -> M unit := proxy_script Conf_ProvProxyStartScript.
Definition StopProxyScript : nat -> M unit := proxy_script Conf_ProvProxyStopScript.

(** ** Cookies (srv_set.go, prx_set.go) *)

Definition SetProvisionCookie (l : loc) : M unit :=
  s ← load l; call (create_file (srv_Datadir s +:+ "/@cookie_prov")) ;; mret tt.
Definition prx_SetProvisionCookie (p : nat) : M unit :=
  proxy ← load_proxy p; call (create_file (prx_Datadir proxy +:+ "/@cookie_prov")) ;; mret tt.

Definition database_provisioned (l : loc) : M unit :=
  SetProvisionCookie l ;; delCookie l "cookie_reprov" ;; delCookie l "cookie_restart".
Definition database_removed (l : loc) : M unit :=
  delCookie l "cookie_prov" ;; delCookie l "cookie_reprov" ;; delCookie l "cookie_restart".
Definition proxy_removed (p : nat) : M unit :=
  prx_delCookie p "cookie_prov" ;; prx_delCookie p "cookie_reprov" ;; prx_delCookie p "cookie_restart".

(** ** One service *)

Definition no_orchestrator : Err := Some "No valid orchestrator".

(** A local database is stopped as one on premise. *)
Definition StopDatabaseService (l : loc) : M Err :=
  conf ← get_conf;
  match orchestrator_of (GetOrchestrator conf) with
  | None => mret no_orchestrator
  | Some o =>
      e ← call (service ((if (o =? "Localhost")%string then "OnPremise" else o) +:+ "StopDatabaseService") l);
      StopDatabaseScript l ;;
      whenM (negb (is_err e)) (delCookie l "cookie_restart") ;;
      mret e
  end.
Definition StartDatabaseService (l : loc) : M Err :=
  conf ← get_conf;
  match orchestrator_of (GetOrchestrator conf) with
  | None => mret no_orchestrator
  | Some o =>
      e ← call (service (o +:+ "StartDatabaseService") l);
      StartDatabaseScript l ;;
      whenM (negb (is_err e)) (delCookie l "cookie_restart") ;;
      mret e
  end.
Definition StopProxyService (p : nat) : M Err :=
  conf ← get_conf;
  match orchestrator_of (GetOrchestrator conf) with
  | None => mret no_orchestrator
  | Some o =>
      e ← call (proxy_service (o +:+ "StopProxyService") p);
      StopProxyScript p ;;
      whenM (negb (is_err e)) (prx_delCookie p "cookie_restart") ;;
      mret e
  end.
Definition StartProxyService (p : nat) : M Err :=
  conf ← get_conf;
  match orchestrator_of (GetOrchestrator conf) with
  | None => mret no_orchestrator
  | Some o =>
      e ← call (proxy_service (o +:+ "StartProxyService") p);
      StartProxyScript p ;;
      whenM (negb (is_err e)) (prx_delCookie p "cookie_restart") ;;
      mret e
  end.

Definition InitDatabaseService (l : loc) : M Err :=
  mod_sm SetFailoverState ;;
  conf ← get_conf;
  match orchestrator_of (GetOrchestrator conf) with
  | None => mod_sm RemoveFailoverState ;; mret None
  | Some o =>
      e ← call (service (o +:+ "ProvisionDatabaseService") l);
      ProvisionDatabaseScript l ;;
      mod_sm RemoveFailoverState ;;
      whenM (negb (is_err e)) (SetProvisionCookie l) ;;
      mret e
  end.

(** The failover flag is reset, although it was not set. *)
Definition InitProxyService (p : nat) : M Err :=
  conf ← get_conf;
  match orchestrator_of (GetOrchestrator conf) with
  | None => mret None
  | Some o =>
      e ← call (proxy_service (o +:+ "ProvisionProxyService") p);
      ProvisionProxyScript p ;;
      mod_sm RemoveFailoverState ;;
      whenM (negb (is_err e)) (prx_SetProvisionCookie p) ;;
      mret e
  end.

Definition ResetCrashes : M unit := mod_cluster (set_cl_Crashes []).

Definition UnprovisionDatabaseService (l : loc) : M Err :=
  ResetCrashes ;;
  conf ← get_conf;
  let o := default "Localhost" (orchestrator_of (GetOrchestrator conf)) in
  e ← call (service (o +:+ "UnprovisionDatabaseService") l);
  UnprovisionDatabaseScript l ;;
  whenM (negb (is_err e)) (database_removed l) ;;
  mret e.

(** Without an orchestrator nobody sends on the channel. *)
Definition UnprovisionProxyService (p : nat) : M Err :=
  conf ← get_conf;
  match orchestrator_of (GetOrchestrator conf) with
  | None => UnprovisionProxyScript p ;; hang
  | Some o =>
      e ← call (proxy_service (o +:+ "UnprovisionProxyService") p);
      UnprovisionProxyScript p ;;
      whenM (negb (is_err e)) (proxy_removed p) ;;
      mret e
  end.

(** ** All services *)

(** The errors of the goroutines in the order of the channel: the [i]-th is taken for
    the one of the [i]-th service. *)
Definition received (errors : list Err) : list Err :=
  map (fun i => default None (nth_error errors i)) (go_order (seq 0 (length errors))).

(** The goroutine of each service is started; [None]: there is no orchestrator. *)
Fixpoint start_databases (op : string) (script wait : loc -> M unit) (l : list loc) : M (option (list Err)) :=
  match l with
  | [] => mret (Some [])
  | x :: r =>
      conf ← get_conf;
      e ← match orchestrator_of (GetOrchestrator conf) with
          | Some o => e ← call (service (o +:+ op) x); mret (Some e)
          | None => mret None
          end;
      script x ;;
      wait x ;;
      rest ← start_databases op script wait r;
      mret (match e, rest with Some e, Some es => Some (e :: es) | _, _ => None end)
  end.
Fixpoint start_proxies (op : string) (script : nat -> M unit) (l : list nat) : M (option (list Err)) :=
  match l with
  | [] => mret (Some [])
  | p :: r =>
      conf ← get_conf;
      e ← match orchestrator_of (GetOrchestrator conf) with
          | Some o => e ← call (proxy_service (o +:+ op) p); mret (Some e)
          | None => mret None
          end;
      script p ;;
      rest ← start_proxies op script r;
      mret (match e, rest with Some e, Some es => Some (e :: es) | _, _ => None end)
  end.

Definition collect_errors {A} (l : list A) (errors : option (list Err)) (done : A -> M unit) : M unit :=
  match errors with
  | None => hang
  | Some es => forM (combine l (received es)) (fun xe => whenM (negb (is_err (snd xe))) (done (fst xe)))
  end.

(** The proxies are skipped where their errors are received: no driver is the bare
    [Proxy] that the assertion asks for. *)
Definition ProvisionServices : M Err :=
  mod_sm SetFailoverState ;;
  c ← get_cluster;
  call (remove_file (cl_WorkingDir c +:+ ".json")) ;;
  ResetCrashes ;;
  c ← get_cluster;
  es ← start_databases "ProvisionDatabaseService" ProvisionDatabaseScript
         (fun x => conf ← get_conf; whenM (Conf_ProvSerialized conf) (WaitDatabaseStart meanwhile x ;; mret tt))
         (cl_servers c);
  collect_errors (cl_servers c) es database_provisioned ;;
  e ← WaitDatabaseCanConn meanwhile;
  if is_err e then mret e
  else
    c ← get_cluster;
    start_proxies "ProvisionProxyService" ProvisionProxyScript (cl_Proxies c) ;;
    mod_sm RemoveFailoverState ;;
    mret None.

Definition SetFailTime (time : Z) : M unit := mod_conf (set_Conf_FailTime time).
Definition SetFailoverCtr (n : Z) : M unit := mod_cluster (set_cl_FailoverCtr n).
Definition SetUnDiscovered : M unit :=
  mod_sm UnDiscovered ;; mod_cluster (set_cl_Topology TopoUnknown).

(** The fields of the model; the time of the last failover is kept, the configured
    time between failovers is set to zero. *)
Definition ResetStates : M unit :=
  SetUnDiscovered ;;
  mod_cluster (fun c => set_cl_vmaster None (set_cl_oldMaster None (set_cl_master None (set_cl_slaves [] c)))) ;;
  SetFailoverCtr 0 ;;
  SetFailTime 0 ;;
  mod_cluster (fun c => set_cl_IsNotMonitoring true (set_cl_IsClusterDown true (set_cl_IsDown true (set_cl_Crashes [] c)))) ;;
  mod_cluster (fun c => set_cl_runOnceAfterTopology true (set_cl_CanConnectVault true
                          (set_cl_CanInitNodes true (set_cl_canFlashBack true c)))).

Definition Unprovision : M Err :=
  mod_sm SetFailoverState ;;
  c ← get_cluster;
  es ← start_databases "UnprovisionDatabaseService" UnprovisionDatabaseScript (fun _ => mret tt) (cl_servers c);
  collect_errors (cl_servers c) es database_removed ;;
  e ← WaitClusterStop meanwhile;
  whenM (negb (is_err e)) ResetStates ;;
  c ← get_cluster;
  ps ← start_proxies "UnprovisionProxyService" UnprovisionProxyScript (cl_Proxies c);
  collect_errors (cl_Proxies c) ps proxy_removed ;;
  conf ← get_conf;
  whenM (GetOrchestrator conf =? "opensvc")%string (call (unmodelled "OpenSVCUnprovisionSecret" None) ;; mret tt) ;;
  mret None.
End Ops.
