(* ===== verification/Bootstrap.v ===== *)
(** * Setting up the replication (cluster/prov.go, srv.go)

    [BootstrapReplication] turns servers without replication into the topology of the
    configuration: the servers are cleaned, a discovery has to find no replication,
    and the servers are pointed to their masters. *)

From Stdlib Require Import ZArith Lia Bool Ascii String.
From stdpp Require Import base list gmap strings functions.
From S2P Require Import Prelude GoLib Gtid Version StateMachine Config Server Proxy Cluster Demo ServerOps Lands Refresh Election Failover Rejoin FailoverFrame FailoverCheck Monitoring Topology SplitBrain Configurator ProxySql Proxies Wait Provision.

Local Open Scope string_scope.
Local Open Scope list_scope.
Local Open Scope Z_scope.

Definition indexed {A} (l : list A) : list (nat * A) := combine (seq 0 (length l)) l.

Section Ops.
Context `{Env} `{GoSort} `{GoRange} `{GoSched} (meanwhile : M unit).

(** Up to the first error. *)
Fixpoint forM_err {A} (l : list A) (f : A -> M Err) : M Err :=
  match l with
  | [] => mret None
  | x :: r => e ← f x; if is_err e then mret e else forM_err r f
  end.

Lemma pres_forM_err R `{!PreOrder R} {A} (l : list A) (f : A -> M Err) :
  (forall x, Pres R (f x)) -> Pres R (forM_err l f).
Proof. intros Hf. induction l as [|x l IH]; cbn [forM_err]; pres. Qed.

(** ** Pointing a server to its master (srv.go) *)

Definition group_opt (conf : Config) (s : ServerMonitor) : ChangeMasterOpt :=
  set_cm_Host "" (set_cm_Port "" (set_cm_Mode "GROUP_REPL" (set_cm_Channel "group_replication_recovery"
    (set_cm_PostgressDB (srv_PostgressDB s) (slave_opt conf s s ""))))).

(** The position the server starts from, or the error that ends the change. *)
Definition change_master_opt (l ml : loc) (mode : string) (my : bool) : M (ChangeMasterOpt + Err) :=
  conf ← get_conf;
  s ← load l;
  m ← load ml;
  let opt conf mode := set_cm_Mode mode (set_cm_PostgressDB (srv_PostgressDB s) (slave_opt conf m s "")) in
  if Conf_MultiMasterGrouprep conf then mret (inl (group_opt conf s))
  else
    v ← deref (srv_DBVersion s);
    if negb (Conf_ForceSlaveNoGtid conf) && IsMariaDB v && (10 <=? Major v) then
      Refresh ml ;;
      m ← load ml;
      g ← deref (srv_CurrentGtid m);
      e ← exec l (db_SetGTIDSlavePos l (Sprint g));
      conf ← get_conf;
      if is_err e then mret (inr e) else mret (inl (opt conf mode))
    else if my && negb (Conf_ForceSlaveNoGtid conf) then mret (inl (opt conf "MASTER_AUTO_POSITION"))
    else mret (inl (set_cm_Logfile (srv_BinaryLogFile m) (set_cm_Logpos (srv_BinaryLogPos m) (opt conf "POSITIONAL")))).

(** The error of the change is logged and overwritten by the one of the start. *)
Definition ChangeMasterTo (l ml : loc) (master_use_gitd : string) : M Err :=
  conf ← get_conf;
  s ← load l;
  if state_is s stateFailed then mret (Some "Change master canceled cause by state failed")
  else
    my ← deref (HasMySQLGTID conf s);
    o ← change_master_opt l ml master_use_gitd my;
    match o with
    | inr e => mret e
    | inl opt =>
        exec l (db_ChangeMaster l opt) ;;
        e ← StartSlave l;
        mret (match e with Some err => Some ("Can't start slave:  " +:+ err +:+ String "010" "") | None => None end)
    end.

Definition srv_BootstrapGroupReplication (l : loc) : M Err := exec l (db_BootstrapGroupReplication l).

(** ** Cleaning the servers (prov.go) *)

(** [SetDefaultMasterConn] and [ResetAllSlaves] of dbhelper. *)
Definition SetDefaultMasterConn (l : loc) (channel : string) : M Err :=
  s ← load l;
  v ← deref (srv_DBVersion s);
  if IsMariaDB v then exec l (db_SetDefaultMasterConn l channel) else mret None.

Definition ResetAllSlaves (l : loc) : M Err :=
  s ← load l;
  v ← deref (srv_DBVersion s);
  se ← (if IsMariaDB v then exec l (db_GetAllSlavesStatus l)
        else r ← exec l (db_GetSlaveStatus l ""); mret ([fst r], snd r));
  if is_err (snd se) then mret (snd se)
  else
    forM_err (fst se) (fun src =>
      let channel := ns_String (ss_ConnectionName src) in
      e ← SetDefaultMasterConn l channel;
      if is_err e then mret e
      else
        whenM (IsMySQL v || IsPercona v) (exec l (db_StopSlave l channel) ;; mret tt) ;;
        exec l (db_ResetSlave l true channel)).

Definition single_master (conf : Config) : bool :=
  negb (Conf_MultiTierSlave conf) && negb (Conf_MultiMaster conf) && negb (Conf_MultiMasterRing conf) &&
  negb (Conf_MultiMasterGrouprep conf) && negb (Conf_MultiMasterWsrep conf).

Definition cleanup_server (l : loc) : M Err :=
  e ← Refresh l;
  if is_err e then mret e
  else
    conf ← get_conf;
    e ← SetDefaultMasterConn l (Conf_MasterConn conf);
    if is_err e then mret None
    else
      exec l (db_ResetMaster l (Conf_MasterConn conf)) ;;
      s ← load l;
      v ← deref (srv_DBVersion s);
      (if IsMariaDB v then exec l (db_StopAllSlaves l) else StopSlave l) ;;
      whenM (IsMariaDB v) (exec l (db_SetGTIDSlavePos l "") ;; mret tt) ;;
      whenM (single_master conf) (ResetSlave l ;; mret tt) ;;
      mret None.

(** A server that cannot be refreshed ends the cleaning with the failover flag set. *)
Definition BootstrapReplicationCleanup : M Err :=
  mod_sm SetFailoverState ;;
  c ← get_cluster;
  e ← forM_err (cl_servers c) cleanup_server;
  if is_err e then mret e
  else
    mod_cluster (fun c => set_cl_slaves [] (set_cl_vmaster None (set_cl_master None c))) ;;
    mod_sm RemoveFailoverState ;;
    mret None.

(** ** The topologies (prov.go) *)

Definition back_to_read_only (l : loc) : M unit :=
  c ← get_cluster;
  s ← load l;
  whenM (negb (IsInIgnoredReadonly c s)) (SetReadOnly l ;; mret tt).

(** The servers that are not failed, with their positions. *)
Definition each_alive (f : nat * loc -> M Err) : M Err :=
  c ← get_cluster;
  forM_err (indexed (cl_servers c)) (fun kx =>
    s ← load (snd kx); if state_is s stateFailed then mret None else f kx).

Definition server_at (key : nat) : M loc := c ← get_cluster; index (cl_servers c) (Z.of_nat key).

(** An error leaves the loop with the failover flag reset. *)
Definition or_leave (e : Err) : M Err := whenM (is_err e) (mod_sm RemoveFailoverState) ;; mret e.

Definition setup_master_slave (masterKey : nat) : M Err :=
  each_alive (fun '(key, l) =>
    conf ← get_conf;
    if Nat.eqb key masterKey
    then
      exec l (db_FlushTables l) ;;
      SetReadWrite l ;;
      whenM (Conf_MultiMasterGrouprep conf)
        (ChangeMasterTo l l "CURRENT_POS" ;; srv_BootstrapGroupReplication l ;; mret tt) ;;
      mret None
    else
      (if Conf_MultiMasterGrouprep conf then ChangeMasterTo l l "SLAVE_POS" ;; StartGroupReplication l ;; mret tt
       else ml ← server_at masterKey; ChangeMasterTo l ml "SLAVE_POS" ;; mret tt) ;;
      back_to_read_only l ;;
      mret None).

(** The first server is the master and the second the relay, whatever is preferred;
    the log of the end needs a server. *)
Definition setup_multi_tier : M Err :=
  e ← each_alive (fun '(key, l) =>
    if Nat.eqb key 0
    then exec l (db_FlushTables l) ;; SetReadWrite l ;; mret None
    else
      exec l (db_StopAllSlaves l) ;;
      ResetAllSlaves l ;;
      ml ← server_at (if Nat.eqb key 1 then 0 else 1)%nat;
      e ← ChangeMasterTo l ml "CURRENT_POS";
      e ← or_leave e;
      if is_err e then mret e else back_to_read_only l ;; mret None);
  if is_err e then mret e else server_at 0 ;; mret None.

Definition setup_multi_master : M Err :=
  each_alive (fun '(key, l) =>
    e ← (if Nat.eqb key 0
         then
           ml ← server_at 1;
           e ← ChangeMasterTo l ml "CURRENT_POS";
           e ← or_leave e;
           if is_err e then mret e else back_to_read_only l ;; mret None
         else if Nat.eqb key 1
         then ml ← server_at 0; e ← ChangeMasterTo l ml "CURRENT_POS"; or_leave e
         else mret None);
    if is_err e then mret e else back_to_read_only l ;; mret None).

Definition setup_ring : M Err :=
  each_alive (fun '(key, l) =>
    c ← get_cluster;
    let n := length (cl_servers c) in
    ml ← server_at ((n + key - 1) mod n)%nat;
    e ← ChangeMasterTo l ml "SLAVE_POS";
    e ← or_leave e;
    if is_err e then mret e
    else v ← server_at 0; set_vmaster (Some v) ;; mret None).

Definition setup_replication (masterKey : nat) : M Err :=
  conf ← get_conf;
  e ← (if negb (Conf_MultiMasterRing conf) && negb (Conf_MultiMaster conf) && negb (Conf_MxsBinlogOn conf) &&
          negb (Conf_MultiTierSlave conf)
       then setup_master_slave masterKey else mret None);
  conf ← get_conf;
  e ← (if Conf_MultiTierSlave conf then setup_multi_tier else mret None);
  if is_err e then mret e
  else
    conf ← get_conf;
    e ← (if Conf_MultiMaster conf then setup_multi_master else mret None);
    if is_err e then mret e
    else conf ← get_conf; if Conf_MultiMasterRing conf then setup_ring else mret None.

(** The position of the preferred master; with one configured the failover flag is
    reset here already. *)
Definition master_key : M (option nat) :=
  c ← get_cluster;
  h ← get_heap;
  if (Conf_PrefMaster (cl_Conf c) =? "")%string then mret (Some 0%nat)
  else
    mod_sm RemoveFailoverState ;;
    mret match List.find (fun kx => (srv_SourceClusterName (h (snd kx)) =? cl_Name c)%string && IsPrefered (h (snd kx)))
                 (indexed (cl_servers c)) with
         | Some (k, _) => Some k
         | None => None
         end.

Definition forget_roles : M unit :=
  c ← get_cluster;
  forM (cl_servers c) (fun l =>
    s ← load l;
    whenM (negb (state_is s stateFailed))
      (mod_server l (fun s => set_srv_IsVirtualMaster false (set_srv_IsRelay false s)) ;; Refresh l ;; mret tt)).

Definition BootstrapReplication (clean : bool) : M Err :=
  conf ← get_conf;
  if Conf_MultiMasterWsrep conf then mret None
  else
    whenM clean (BootstrapReplicationCleanup ;; mret tt) ;;
    forget_roles ;;
    e ← TopologyDiscover;
    if negb (is_err e) then mret (Some "Environment already has an existing master/slave setup")
    else
      mod_sm SetFailoverState ;;
      k ← master_key;
      match k with
      | None => mret (Some "Preferred master could not be found in existing servers")
      | Some masterKey =>
          e ← setup_replication masterKey;
          if is_err e then mret e
          else
            mod_sm RemoveFailoverState ;;
            TopologyDiscover ;;
            mret None
      end.

(** ** Bootstrap of the services and the replication *)

Definition Bootstrap : M Err :=
  e ← ProvisionServices meanwhile;
  if is_err e then mret e
  else
    e ← BootstrapReplication true;
    conf ← get_conf;
    if is_err e then mret e
    else if negb (Conf_Test conf) then mret None
    else
      e ← WaitProxyEqualMaster meanwhile;
      if is_err e then mret e
      else
        e ← WaitBootstrapDiscovery meanwhile;
        c ← get_cluster;
        if is_err e then mret e
        else match GetMaster c with
             | None => mret (Some "Abording test, no master found")
             | Some m =>
                 ee ← call (run_job "InitBenchTable" m);
                 if is_err ee then mret (Some "Abording test, can't create bench table")
                 else
                   whenM (GetOrchestrator conf =? "opensvc")%string
                     (c ← get_cluster; forM (cl_servers c) (fun l => call (start_job "JobsCreateTable" None l))) ;;
                   mret None
             end.
End Ops.
