(* ===== verification/BootstrapProps.v ===== *)
(** * The replication that a bootstrap sets up follows the topology

    The changes of master that the setup sends are those of a plan that is read off
    the configuration: who is pointed to whom, by the positions of the servers. *)

From Stdlib Require Import ZArith Lia Bool Ascii String.
From stdpp Require Import base list gmap strings functions.
From S2P Require Import Prelude GoLib Gtid Version StateMachine Config Server Proxy Cluster Demo ServerOps Lands Refresh Election Failover Rejoin FailoverFrame FailoverCheck Monitoring Topology SplitBrain Configurator ProxySql Proxies Wait Provision Bootstrap.

Local Open Scope string_scope.
Local Open Scope list_scope.
Local Open Scope Z_scope.

(** ** The plan *)

(** A server and the host and port it is pointed to. *)
Definition Pointing : Type := loc * string * string.

Definition pointing_event (e : TraceEvent) : option Pointing :=
  match e with
  | Ev (db_ChangeMaster l opt) _ => Some (l, cm_Host opt, cm_Port opt)
  | _ => None
  end.
Definition pointings (w : World) : list Pointing := omap pointing_event (w_trace w).
Definition not_pointing (e : TraceEvent) : Prop := pointing_event e = None.
#[export] Instance allows_not_pointing : Allows not_pointing.
Proof. intros [R c r]. unfold quiet, not_pointing. by destruct c. Qed.
#[export] Hint Resolve allows_not_pointing : pres.

(** The positions: the slave and its master. *)
Definition star_plan (masterKey key : nat) : list (nat * nat) :=
  if Nat.eqb key masterKey then [] else [(key, masterKey)].
Definition tier_plan (key : nat) : list (nat * nat) :=
  match key with 0 => [] | 1 => [(1, 0)] | _ => [(key, 1)] end%nat.
Definition pair_plan (key : nat) : list (nat * nat) :=
  match key with 0 => [(0, 1)] | 1 => [(1, 0)] | _ => [] end%nat.
Definition ring_plan (n key : nat) : list (nat * nat) := [(key, ((n + key - 1) mod n)%nat)].

Definition of_topology (b : bool) (n : nat) (step : nat -> list (nat * nat)) : list (nat * nat) :=
  if b then concat (map step (seq 0 n)) else [].
Definition topology_plan (conf : Config) (masterKey n : nat) : list (nat * nat) :=
  of_topology (negb (Conf_MultiMasterRing conf) && negb (Conf_MultiMaster conf) && negb (Conf_MxsBinlogOn conf) &&
               negb (Conf_MultiTierSlave conf)) n (star_plan masterKey) ++
  of_topology (Conf_MultiTierSlave conf) n tier_plan ++
  of_topology (Conf_MultiMaster conf) n pair_plan ++
  of_topology (Conf_MultiMasterRing conf) n (ring_plan n).

(** The servers at the positions. *)
Definition resolve (h : loc -> ServerMonitor) (servers : list loc) (km : nat * nat) : list Pointing :=
  match servers !! fst km, servers !! snd km with
  | Some l, Some x => [(l, srv_Host (h x), srv_Port (h x))]
  | _, _ => []
  end.
Definition bootstrap_plan (c : Cluster) (h : loc -> ServerMonitor) (masterKey : nat) : list Pointing :=
  concat (map (resolve h (cl_servers c)) (topology_plan (cl_Conf c) masterKey (length (cl_servers c)))).

Lemma indexed_from {A} (l : list A) : forall s k x, (k, x) ∈ combine (seq s (length l)) l ->
  exists i, k = (s + i)%nat /\ l !! i = Some x.
Proof.
  induction l as [|y l IH]; intros s k x; cbn [length seq combine]; [by intros ?%elem_of_nil|].
  intros [[= -> ->] | Hin]%elem_of_cons; [exists 0%nat; by rewrite Nat.add_0_r|].
  destruct (IH _ _ _ Hin) as (i & -> & Hi). exists (S i). by rewrite Nat.add_succ_r.
Qed.
Lemma indexed_lookup {A} (l : list A) k x : (k, x) ∈ indexed l -> l !! k = Some x.
Proof. intros (i & -> & Hi)%indexed_from. done. Qed.
Lemma indexed_keys {A B} (l : list A) (f : nat -> B) : map (fun kx => f (fst kx)) (indexed l) = map f (seq 0 (length l)).
Proof.
  unfold indexed. generalize 0%nat as s. induction l as [|x l IH]; intros s; [done|]. cbn. by rewrite IH.
Qed.
Lemma concat_map_map {A B C} (f : B -> list C) (g : A -> list B) l :
  concat (map f (concat (map g l))) = concat (map (fun x => concat (map f (g x))) l).
Proof. induction l as [|x l IH]; [done|]. cbn. by rewrite map_app, concat_app, IH. Qed.

(** ** What a part of the setup points *)

Definition public_conf (conf : Config) : Config := set_Conf_ReplicationCredential "" conf.

Section Points.
Context `{Env} `{GoSort} `{GoRange} (conf0 : Config) (servers : list loc) (h0 : loc -> ServerMonitor).

(** The servers and the configuration stay what they were. *)
Definition At (w : World) : Prop :=
  public_conf (cl_Conf (w_cluster w)) = public_conf conf0 /\ cl_servers (w_cluster w) = servers /\
  forall l, server_id (w_heap w l) = server_id (h0 l).

Definition Points {A} (xs : list Pointing) (m : M A) (Q : A -> Prop) : Prop := forall w, At w ->
  At (snd (m w)) /\
  (exists es, pointings (snd (m w)) = pointings w ++ es /\ es `sublist_of` xs) /\
  match fst (m w) with Ret a => Q a | _ => True end.

Definition anything {A} (a : A) : Prop := True.
Local Hint Unfold anything : core.
Lemma points_done {A} (a : A) : Points [] (mret a) anything.
Proof. intros w Hw. split; [done|]. split; [exists []; by rewrite app_nil_r|exact I]. Qed.

Lemma points_weaken {A} xs ys (m : M A) (Q R : A -> Prop) :
  Points xs m Q -> xs `sublist_of` ys -> (forall a, Q a -> R a) -> Points ys m R.
Proof.
  intros Hm S HQ w Hw. destruct (Hm w Hw) as (A1 & (es & E & Se) & HR). split; [done|].
  split; [exists es; split; [done|by etransitivity]|]. destruct (m w) as [[a| |] w']; cbn in *; auto.
Qed.
Lemma points_ret {A} (a : A) (Q : A -> Prop) : Q a -> Points [] (mret a) Q.
Proof. intros HQ w Hw. split; [done|]. split; [exists []; by rewrite app_nil_r|done]. Qed.
Lemma points_bind {A B} xs ys (m : M A) (f : A -> M B) Q R :
  Points xs m Q -> (forall a, Q a -> Points ys (f a) R) -> Points (xs ++ ys) (m ≫= f) R.
Proof.
  intros Hm Hf w Hw. destruct (Hm w Hw) as (A1 & (es & E & Se) & HQ). unfold mbind, M_bind.
  destruct (m w) as [[a| |] w1]; cbn in *; [|split; [done|]; split; [exists es; split; [done|by apply sublist_inserts_r]|done]..].
  destruct (Hf a HQ w1 A1) as (A2 & (es' & E' & Se') & HR). split; [done|]. split; [|done].
  exists (es ++ es'). rewrite E', E, app_assoc. split; [done|by apply sublist_app].
Qed.
(** A bind whose first part points nothing. *)
Lemma points_then {A B} xs (m : M A) (f : A -> M B) Q R :
  Points [] m Q -> (forall a, Q a -> Points xs (f a) R) -> Points xs (m ≫= f) R.
Proof. exact (points_bind [] xs m f Q R). Qed.

Lemma At_frame P w w' : Frame P w w' -> At w -> At w'.
Proof.
  intros F (A1 & A2 & A3). pose proof (frame_cluster F) as V. apply (f_equal fst) in V. cbn in V. split_and!.
  - rewrite <- A1. exact (f_equal cl_Conf V).
  - rewrite <- A2. exact (f_equal cl_servers V).
  - intros l. by rewrite (frame_ids F).
Qed.
Lemma points_quiet {A} (m : M A) : Pres (Frame not_pointing) m -> Points [] m anything.
Proof.
  intros Hm w Hw. split; [by eapply At_frame; [apply Hm|]|]. split; [|by destruct (fst _)].
  exists []. split; [|done]. destruct (frame_trace (Hm w)) as (t & T & F). unfold pointings.
  rewrite T, omap_app, app_nil_r. clear T.
  assert (E : omap pointing_event t = []) by (induction F as [|e t He F IH]; simpl; [|rewrite He]; done).
  by rewrite E, app_nil_r.
Qed.
Lemma points_mod_cluster f : (forall c, cl_Conf (f c) = cl_Conf c /\ cl_servers (f c) = cl_servers c) ->
  Points [] (mod_cluster f) anything.
Proof.
  intros Hf w (A1 & A2 & A3). destruct (Hf (w_cluster w)) as [E1 E2]. split.
  - split_and!; cbn; [by rewrite E1|by rewrite E2|done].
  - split; [exists []; by rewrite app_nil_r|done].
Qed.
Lemma points_get_cluster : Points [] get_cluster (fun c => public_conf (cl_Conf c) = public_conf conf0 /\ cl_servers c = servers).
Proof. intros w (A1 & A2 & A3). split; [done|]. split; [exists []; by rewrite app_nil_r|done]. Qed.
Lemma points_get_conf : Points [] get_conf (fun conf => public_conf conf = public_conf conf0).
Proof. intros w (A1 & A2 & A3). split; [done|]. split; [exists []; by rewrite app_nil_r|done]. Qed.
Lemma points_load l : Points [] (load l) (fun s => server_id s = server_id (h0 l)).
Proof. intros w (A1 & A2 & A3). split; [done|]. split; [exists []; by rewrite app_nil_r|apply A3]. Qed.
Lemma points_forM_err {A} (l : list A) (f : A -> M Err) (plan : A -> list Pointing) :
  (forall x, x ∈ l -> Points (plan x) (f x) anything) -> Points (concat (map plan l)) (forM_err l f) anything.
Proof.
  induction l as [|x l IH]; intros Hf; [exact (points_done None)|]. cbn [forM_err map concat].
  eapply points_bind; [apply Hf; by left|]. intros e _. destruct (is_err e).
  - eapply points_weaken; [apply points_done|apply sublist_nil_l|done].
  - apply IH. intros y Hy. apply Hf. by right.
Qed.

(** ** Pointing one server *)

Definition to_master (l ml : loc) : list Pointing := [(l, srv_Host (h0 ml), srv_Port (h0 ml))].

Lemma frame_not_pointing_StartSlave l : Pres (Frame not_pointing) (StartSlave l).
Proof. deep. Qed.
Lemma frame_not_pointing_SetReadWrite l : Pres (Frame not_pointing) (SetReadWrite l).
Proof. deep. Qed.
Lemma frame_not_pointing_read_only l : Pres (Frame not_pointing) (back_to_read_only l).
Proof. deep. Qed.
Lemma frame_not_pointing_ResetAllSlaves l : Pres (Frame not_pointing) (ResetAllSlaves l).
Proof. deep. apply pres_forM_err; [apply _|intros x]. deep. Qed.

Lemma public_field {T} (f : Config -> T) conf :
  (forall conf, f (public_conf conf) = f conf) -> public_conf conf = public_conf conf0 -> f conf = f conf0.
Proof. intros Hf E. by rewrite <- (Hf conf), E, Hf. Qed.

Definition points_at (ml : loc) (opt : ChangeMasterOpt) : Prop :=
  cm_Host opt = srv_Host (h0 ml) /\ cm_Port opt = srv_Port (h0 ml).

Lemma slave_opt_at conf m s mode ml : server_id m = server_id (h0 ml) -> points_at ml (slave_opt conf m s mode).
Proof. intros [= E1 E2 E3 E4 E5]. by split. Qed.

Lemma opt_at conf m s ml mode db : server_id m = server_id (h0 ml) ->
  points_at ml (set_cm_Mode mode (set_cm_PostgressDB db (slave_opt conf m s ""))).
Proof. exact (slave_opt_at conf m s "" ml). Qed.
Lemma logfile_at ml file pos opt : points_at ml opt -> points_at ml (set_cm_Logfile file (set_cm_Logpos pos opt)).
Proof. exact id. Qed.

Lemma points_change_master_opt l ml mode my : Conf_MultiMasterGrouprep conf0 = false ->
  Points [] (change_master_opt l ml mode my) (fun o => match o with inl opt => points_at ml opt | inr _ => True end).
Proof.
  intros Hg. unfold change_master_opt. eapply points_then; [apply points_get_conf|]. intros conf Hc.
  eapply points_then; [apply points_load|]. intros s _. eapply points_then; [apply points_load|]. intros m Hm.
  rewrite (public_field Conf_MultiMasterGrouprep conf (fun _ => eq_refl) Hc), Hg.
  eapply points_then; [apply points_quiet; pres|]. intros v _.
  destruct (_ && _ && _); [|destruct (_ && _); apply points_ret; [|apply logfile_at]; by apply opt_at].
  eapply points_then; [apply points_quiet; pres|]. intros _ _.
  eapply points_then; [apply points_load|]. intros m' Hm'.
  eapply points_then; [apply points_quiet; pres|]. intros g _.
  eapply points_then; [apply points_quiet; pres|]. intros e _.
  eapply points_then; [apply points_get_conf|]. intros conf' _.
  destruct (is_err e); apply points_ret; [exact I|by apply opt_at].
Qed.

Lemma points_exec_change l opt ml : points_at ml opt ->
  Points (to_master l ml) (exec l (db_ChangeMaster l opt)) anything.
Proof.
  intros [E1 E2] w Hw. unfold exec, mbind, M_bind. cbn [load]. destruct (srv_Conn _).
  - split; [exact Hw|]. split; [|done]. exists (to_master l ml). split; [|done].
    unfold pointings. cbn [call snd w_trace]. rewrite omap_app. cbn. unfold to_master. by rewrite E1, E2.
  - split; [exact Hw|]. split; [|done]. exists []. rewrite app_nil_r. split; [done|apply sublist_nil_l].
Qed.

Lemma points_ChangeMasterTo l ml mode : Conf_MultiMasterGrouprep conf0 = false ->
  Points (to_master l ml) (ChangeMasterTo l ml mode) anything.
Proof.
  intros Hg. unfold ChangeMasterTo. eapply points_then; [apply points_get_conf|]. intros conf Hc.
  eapply points_then; [apply points_load|]. intros s _. destruct (state_is _ _).
  - eapply points_weaken; [apply points_done|apply sublist_nil_l|done].
  - eapply points_then; [apply points_quiet; pres|]. intros my _.
    eapply points_then; [by apply points_change_master_opt|]. intros [opt|e] Ho.
    + rewrite <- (app_nil_r (to_master l ml)). eapply points_bind; [by apply points_exec_change|]. intros _ _.
      eapply points_then; [apply points_quiet, frame_not_pointing_StartSlave|]. intros e _. apply points_done.
    + eapply points_weaken; [apply points_done|apply sublist_nil_l|done].
Qed.

(** ** The topologies *)

Context (Hgroup : Conf_MultiMasterGrouprep conf0 = false).

Lemma points_get {A B} xs (m : M A) (f : A -> M B) R :
  Pres (Frame not_pointing) m -> (forall a, Points xs (f a) R) -> Points xs (m ≫= f) R.
Proof. intros Hm Hf. eapply points_then; [by apply points_quiet|]. intros a _. apply Hf. Qed.

Lemma points_server_at m : Points [] (server_at m) (fun x => servers !! m = Some x).
Proof.
  unfold server_at. eapply points_then; [apply points_get_cluster|]. intros c [_ ->]. unfold index.
  destruct (_ && _); [|intros w Hw; split; [done|]; split; [exists []; by rewrite app_nil_r|done]].
  rewrite Nat2Z.id. destruct (servers !! m) as [x|]; [by apply points_ret|].
  intros w Hw; split; [done|]; split; [exists []; by rewrite app_nil_r|done].
Qed.

Lemma points_point {B} key l m mode (rest : Err -> M B) : servers !! key = Some l ->
  (forall e, Points [] (rest e) anything) ->
  Points (resolve h0 servers (key, m)) (ml ← server_at m; e ← ChangeMasterTo l ml mode; rest e) anything.
Proof.
  intros Hk Hr. eapply points_then; [apply points_server_at|]. intros ml Hm. unfold resolve. cbn [fst snd].
  rewrite Hk, Hm, <- (app_nil_r [_]). eapply points_bind; [by apply points_ChangeMasterTo|]. intros e _. apply Hr.
Qed.

Lemma points_or_leave e : Points [] (or_leave e) anything.
Proof.
  unfold or_leave. eapply points_then; [|intros _ _; apply points_done].
  destruct (is_err e); [by apply points_mod_cluster|apply points_done].
Qed.
Lemma points_read_only l : Points [] (back_to_read_only l) anything.
Proof. apply points_quiet, frame_not_pointing_read_only. Qed.

Definition planned (step : nat -> list (nat * nat)) (key : nat) : list Pointing :=
  concat (map (resolve h0 servers) (step key)).

Lemma points_each_alive step f :
  (forall key l, servers !! key = Some l -> Points (planned step key) (f (key, l)) anything) ->
  Points (concat (map (resolve h0 servers) (of_topology true (length servers) step))) (each_alive f) anything.
Proof.
  intros Hf. unfold each_alive. eapply points_then; [apply points_get_cluster|]. intros c [_ ->].
  eapply (points_weaken (concat (map (fun kx => planned step (fst kx)) (indexed servers)))); [|apply reflexive_eq|done].
  - apply points_forM_err. intros [key l] Hin. apply points_get; [pres|]. intros s. destruct (state_is _ _).
    + eapply points_weaken; [apply points_done|apply sublist_nil_l|done].
    + by apply Hf, indexed_lookup.
  - rewrite (indexed_keys servers (planned step)). unfold of_topology. by rewrite concat_map_map.
Qed.

Lemma points_star masterKey :
  Points (concat (map (resolve h0 servers) (of_topology true (length servers) (star_plan masterKey))))
    (setup_master_slave masterKey) anything.
Proof.
  apply points_each_alive. intros key l Hk. eapply points_then; [apply points_get_conf|]. intros conf Hc.
  rewrite (public_field Conf_MultiMasterGrouprep conf (fun _ => eq_refl) Hc), Hgroup. unfold planned, star_plan.
  destruct (Nat.eqb key masterKey); cbn [map concat].
  - apply points_get; [pres|intros _]. apply points_get; [apply frame_not_pointing_SetReadWrite|intros _].
    apply points_get; [pres|intros _]. apply points_done.
  - eapply points_bind; [by apply (points_point key l masterKey "SLAVE_POS" (fun _ => mret tt)); [|intros _; apply points_done]|].
    intros _ _. eapply points_then; [apply points_read_only|]. intros _ _. apply points_done.
Qed.

Lemma points_after {A B} xs (m : M A) (f : A -> M B) R :
  Points xs m anything -> (forall a, Points [] (f a) R) -> Points xs (m ≫= f) R.
Proof. intros Hm Hf. rewrite <- (app_nil_r xs). eapply points_bind; [exact Hm|]. intros a _. apply Hf. Qed.

(** What follows a change of master in the topologies that leave the loop on errors. *)
Lemma points_rest (e : Err) (m : M Err) : Points [] m anything ->
  Points [] (e ← or_leave e; if is_err e then mret e else m) anything.
Proof. intros Hm. eapply points_then; [apply points_or_leave|]. intros e' _. by destruct (is_err e'); [apply points_done|]. Qed.
Lemma points_read_only_done l : Points [] (back_to_read_only l ;; mret (None : Err)) anything.
Proof. eapply points_then; [apply points_read_only|]. intros _ _. apply points_done. Qed.

Lemma points_tier :
  Points (concat (map (resolve h0 servers) (of_topology true (length servers) tier_plan))) setup_multi_tier anything.
Proof.
  unfold setup_multi_tier. apply points_after; [|intros e; destruct (is_err e); [apply points_done|];
    eapply points_then; [apply points_server_at|intros _ _; apply points_done]].
  apply points_each_alive. intros key l Hk. unfold planned. destruct key as [|key].
  - apply points_get; [pres|intros _]. apply points_get; [apply frame_not_pointing_SetReadWrite|intros _].
    apply points_done.
  - cbn [Nat.eqb]. apply points_get; [pres|intros _]. apply points_get; [apply frame_not_pointing_ResetAllSlaves|intros _].
    destruct key as [|key]; cbn [Nat.eqb tier_plan map concat]; rewrite app_nil_r;
      (apply points_point; [done|intros e]; apply points_rest, points_read_only_done).
Qed.

Lemma points_pair :
  Points (concat (map (resolve h0 servers) (of_topology true (length servers) pair_plan))) setup_multi_master anything.
Proof.
  apply points_each_alive. intros key l Hk. unfold planned. apply points_after.
  - destruct key as [|[|key]]; cbn [Nat.eqb pair_plan map concat]; rewrite ?app_nil_r.
    + apply points_point; [done|intros e]. apply points_rest, points_read_only_done.
    + apply points_point; [done|intros e]. apply points_or_leave.
    + apply points_done.
  - intros e. destruct (is_err e); [apply points_done|apply points_read_only_done].
Qed.

Lemma points_ring :
  Points (concat (map (resolve h0 servers) (of_topology true (length servers) (ring_plan (length servers)))))
    setup_ring anything.
Proof.
  apply points_each_alive. intros key l Hk. unfold planned. eapply points_then; [apply points_get_cluster|].
  intros c [_ ->]. cbn [ring_plan map concat]. rewrite app_nil_r. apply points_point; [done|intros e].
  apply points_rest. eapply points_then; [apply points_server_at|]. intros v _.
  eapply points_then; [by apply points_mod_cluster|]. intros _ _. apply points_done.
Qed.

(** A topology that the configuration asks for. *)
Definition stage (b : Config -> bool) (step : nat -> list (nat * nat)) : list Pointing :=
  concat (map (resolve h0 servers) (of_topology (b conf0) (length servers) step)).
Lemma points_stage (b : Config -> bool) step (m : M Err) :
  (forall conf, b (public_conf conf) = b conf) ->
  Points (concat (map (resolve h0 servers) (of_topology true (length servers) step))) m anything ->
  Points (stage b step) (conf ← get_conf; if b conf then m else mret None) anything.
Proof.
  intros Hb Hm. eapply points_then; [apply points_get_conf|]. intros conf Hc.
  rewrite (public_field b conf Hb Hc). unfold stage. destruct (b conf0); [done|apply points_done].
Qed.
Lemma points_stages xs ys (m f : M Err) : Points xs m anything -> Points ys f anything ->
  Points (xs ++ ys) (e ← m; if is_err e then mret e else f) anything.
Proof.
  intros Hm Hf. eapply points_bind; [exact Hm|]. intros e _. destruct (is_err e); [|done].
  eapply points_weaken; [apply points_done|apply sublist_nil_l|done].
Qed.

Definition star_conf (conf : Config) : bool :=
  negb (Conf_MultiMasterRing conf) && negb (Conf_MultiMaster conf) && negb (Conf_MxsBinlogOn conf) &&
  negb (Conf_MultiTierSlave conf).

Lemma points_setup_replication masterKey :
  Points (stage star_conf (star_plan masterKey) ++ stage Conf_MultiTierSlave tier_plan ++
          stage Conf_MultiMaster pair_plan ++ stage Conf_MultiMasterRing (ring_plan (length servers)))
    (setup_replication masterKey) anything.
Proof.
  pose proof (points_stage star_conf _ _ (fun _ => eq_refl) (points_star masterKey)) as P1.
  pose proof (points_stage Conf_MultiTierSlave _ _ (fun _ => eq_refl) points_tier) as P2.
  pose proof (points_stage Conf_MultiMaster _ _ (fun _ => eq_refl) points_pair) as P3.
  pose proof (points_stage Conf_MultiMasterRing _ _ (fun _ => eq_refl) points_ring) as P4.
  pose proof (points_bind _ _ _ (fun _ : Err => _) _ _ P1 (fun _ _ => points_stages _ _ _ _ P2 (points_stages _ _ _ _ P3 P4))) as P.
  exact P.
Qed.
End Points.

(** C23: a bootstrap points the servers as the topology of the configuration says.
    Whatever the databases answer and wherever the setup stops, the changes of master
    it sent are, in order, some of those of the plan: every server to the chosen
    master, the first relay to the master and the others to the relay, the first two
    to each other, or each to the one before, with the host and the port of the
    server meant. *)
Theorem bootstrap_follows_plan `{Env} `{GoSort} `{GoRange} (masterKey : nat) (w : World) :
  Conf_MultiMasterGrouprep (cl_Conf (w_cluster w)) = false ->
  exists es, pointings (snd (setup_replication masterKey w)) = pointings w ++ es /\
             es `sublist_of` bootstrap_plan (w_cluster w) (w_heap w) masterKey.
Proof.
  intros Hg. pose proof (points_setup_replication (cl_Conf (w_cluster w)) (cl_servers (w_cluster w)) (w_heap w) Hg
    masterKey w) as (_ & (es & E & S) & _); [by split_and!|].
  exists es. split; [exact E|]. unfold bootstrap_plan, topology_plan. by rewrite !map_app, !concat_app.
Qed.

(** No server is pointed to itself. *)
Lemma plan_never_self conf masterKey n k m : (2 <= n)%nat -> (k, m) ∈ topology_plan conf masterKey n -> k <> m.
Proof.
  intros Hn. assert (T : forall b step, (forall key, (key < n)%nat -> forall k m, (k, m) ∈ step key -> k <> m) ->
    (k, m) ∈ of_topology b n step -> k <> m).
  { intros b step Hs. unfold of_topology. destruct b; [|by intros ?%elem_of_nil]. rewrite list_elem_of_In, in_concat.
    intros (l & (key & <- & Hkey%in_seq)%in_map_iff & Hin). apply (Hs key); [lia|by apply list_elem_of_In]. }
  unfold topology_plan. rewrite !elem_of_app. intros [R|[R|[R|R]]]; revert R; apply T; intros key Hkey k' m'.
  - unfold star_plan. destruct (Nat.eqb_spec key masterKey); [by intros ?%elem_of_nil|].
    by intros [= -> ->]%list_elem_of_singleton.
  - unfold tier_plan. destruct key as [|[|key]]; [by intros ?%elem_of_nil|..]; by intros [= -> ->]%list_elem_of_singleton.
  - unfold pair_plan. destruct key as [|[|key]]; [..|by intros ?%elem_of_nil]; by intros [= -> ->]%list_elem_of_singleton.
  - unfold ring_plan. intros [= -> ->]%list_elem_of_singleton. destruct key as [|key].
    + rewrite Nat.mod_small; lia.
    + replace (n + S key - 1)%nat with (key + 1 * n)%nat by lia. rewrite Nat.Div0.mod_add, Nat.mod_small; lia.
Qed.

(** ** Three servers without replication *)

Definition boot_world (f : Config -> Config) : World :=
  mkWorld (set_cl_Conf (f demo_conf) demo_cluster)
    (fun l => set_srv_Replications [] (set_srv_State stateUnconn (demo_heap l))) [].
Definition boot_databases : Databases :=
  mkDatabases maria (fun l => srv_Variables (demo_heap l)) (fun _ => []) (fun _ => ∅) 1000.

Lemma bootstrap_follows_plan_witness :
  Conf_MultiMasterGrouprep (cl_Conf (w_cluster (boot_world (set_Conf_MultiTierSlave true)))) = false /\
  pointings (snd (setup_replication 0 (boot_world (set_Conf_MultiTierSlave true)))) `sublist_of`
    [(1, "db1", "3306"); (2, "db2", "3306")]%nat /\
  pointings (snd (setup_replication 0 (boot_world id))) = [(1, "db1", "3306"); (2, "db1", "3306")]%nat.
Proof.
  split; [reflexivity|]. split; [|vm_compute; reflexivity].
  destruct (bootstrap_follows_plan 0 (boot_world (set_Conf_MultiTierSlave true)) eq_refl) as (es & E & S).
  rewrite E. exact S.
Defined.

(** ** The failover flag of the cleaning *)

Lemma frame_cleanup_server l : Pres (Frame not_pointing) (cleanup_server l).
Proof. deep. Qed.

(** The flag that keeps the monitoring away is left set by a cleaning that failed. *)
Lemma BootstrapReplicationCleanup_flag w e w' : BootstrapReplicationCleanup w = (Ret e, w') ->
  IsInFailover (cl_StateMachine (w_cluster w')) = is_err e.
Proof.
  set (w0 := snd (mod_sm SetFailoverState w)). intros E.
  change (((e ← forM_err (cl_servers (w_cluster w0)) cleanup_server;
    if is_err e then mret e
    else mod_cluster (fun c => set_cl_slaves [] (set_cl_vmaster None (set_cl_master None c))) ;;
         mod_sm RemoveFailoverState ;; mret None) : M Err) w0 = (Ret e, w')) in E.
  apply bind_ret in E as (e1 & w1 & E1 & E).
  pose proof (pres_forM_err (Frame not_pointing) (cl_servers (w_cluster w0)) _ frame_cleanup_server w0) as F.
  rewrite E1 in F. apply frame_cluster, (f_equal snd) in F. cbn in F. destruct (is_err e1) eqn:He; [|by injection E as <- <-].
  injection E as <- <-. rewrite He. exact F.
Qed.
