(* ===== verification/Rolling.v ===== *)
(** * Rolling operations (cluster/cluster_roll.go, cluster_tst.go)

    The databases are restarted or provisioned again one after another, the slaves
    first and the old master after a switchover. The loop over the slaves runs on the
    slice it started with, and everything else happens in [meanwhile]: the wait for a
    switchover lets the monitoring find the order on its channel. *)

From Stdlib Require Import ZArith Lia Bool Ascii String.
From stdpp Require Import base list gmap strings functions.
From S2P Require Import Prelude GoLib Version StateMachine Config Server Proxy Cluster Demo ServerOps Lands Refresh Election Failover Rejoin FailoverFrame FailoverCheck Monitoring Topology SplitBrain Configurator ProxySql Proxies Wait Provision Bootstrap.

Local Open Scope string_scope.
Local Open Scope list_scope.
Local Open Scope Z_scope.

Section Ops.
Context `{Env} `{GoSort} `{GoRange} `{GoSched} (meanwhile : M unit).

(** ** Steps of a rolling operation *)

Definition SetInRollingRestart (value : bool) : M unit := mod_cluster (set_cl_InRollingRestart value).
Definition SetFailSync (check : bool) : M unit := mod_conf (set_Conf_FailSync check).
Definition SwitchOver : M unit := call (channel_send "switchoverChan").

Definition SwitchoverWaitTest : M unit := SwitchOver ;; WaitSwitchover meanwhile.

(** The wait for the rejoin ends with its timer as with the message. *)
Definition StartDatabaseWaitRejoin (l : loc) : M Err :=
  e ← StartDatabaseService l;
  WaitRejoin meanwhile ;;
  mret e.

Definition enter_maintenance (l : loc) : M unit :=
  s ← load l; whenM (negb (srv_IsMaintenance s)) (SwitchMaintenance l).

Definition sync_to_master (l : loc) : M unit :=
  c ← get_cluster;
  match cl_master c with
  | Some m => WaitSyncToMaster l m
  | None => panic
  end.

(** While the backup of the binary logs runs. *)
Fixpoint wait_binlog_backup (fuel : nat) (l : loc) : M unit :=
  s ← load l;
  if srv_IsBackingUpBinaryLog s
  then match fuel with
       | O => hang
       | S fuel => call (time_Sleep 1000) ;; meanwhile ;; wait_binlog_backup fuel l
       end
  else mret tt.

(** The old master, [None] when the switchover kept it. *)
Definition old_master (masterID : string) : M (option loc) :=
  c ← get_cluster;
  h ← get_heap;
  m ← deref (cl_master c);
  o ← deref (GetServerFromName c h masterID);
  mret (if (srv_DSN (h m) =? srv_DSN (h o))%string then None else Some o).

(** Step after step, up to the first error. *)
Fixpoint steps (l : list (M Err)) : M Err :=
  match l with
  | [] => mret None
  | m :: r => e ← m; if is_err e then mret e else steps r
  end.

(** ** Provisioning again *)

Definition reprov_server (start : loc -> M Err) (l : loc) : M Err :=
  enter_maintenance l ;;
  e ← steps [UnprovisionDatabaseService l; WaitDatabaseFailed meanwhile l; InitDatabaseService l; start l];
  if is_err e then mret e
  else sync_to_master l ;; SwitchMaintenance l ;; mret None.

Definition RollingReprov : M Err :=
  c ← get_cluster;
  h ← get_heap;
  m ← deref (GetMaster c);
  let masterID := srv_Id (h m) in
  e ← forM_err (cl_slaves c) (fun l =>
        s ← load l; if IsDown s then mret None else reprov_server StartDatabaseWaitRejoin l);
  if is_err e then mret e
  else
    SwitchoverWaitTest ;;
    o ← old_master masterID;
    match o with
    | None => mret None
    | Some o =>
        s ← load o;
        if IsDown s then mret None
        else
          e ← reprov_server (WaitDatabaseStart meanwhile) o;
          if is_err e then mret e else SwitchOver ;; mret None
    end.

(** ** Restarting *)

Definition stop_and_wait (l : loc) : M Err :=
  e ← StopDatabaseService l;
  if is_err e then mret e else WaitDatabaseFailed meanwhile l.

(** A stop or a wait that failed leaves the maintenance of a slave, a start that
    failed does not. *)
Definition restart_slave (l : loc) : M Err :=
  enter_maintenance l ;;
  wait_binlog_backup wait_fuel l ;;
  e ← stop_and_wait l;
  if is_err e then SwitchMaintenance l ;; mret e
  else StartDatabaseWaitRejoin l.

(** A slave that is down is not restarted, but its maintenance is switched. *)
Definition restart_slave_synced (l : loc) : M Err :=
  s ← load l;
  e ← (if IsDown s then mret None else restart_slave l);
  if is_err e then mret e
  else sync_to_master l ;; SwitchMaintenance l ;; mret None.

Definition restart_old_master (l : loc) : M Err :=
  enter_maintenance l ;;
  wait_binlog_backup wait_fuel l ;;
  e ← stop_and_wait l;
  e ← (if is_err e then mret e else StartDatabaseWaitRejoin l);
  if is_err e then mret e
  else sync_to_master l ;; SwitchMaintenance l ;; SwitchOver ;; mret None.

Definition restart_servers (masterID : string) : M Err :=
  c ← get_cluster;
  e ← forM_err (cl_slaves c) restart_slave_synced;
  if is_err e then mret e
  else
    SwitchoverWaitTest ;;
    o ← old_master masterID;
    match o with
    | None => mret None
    | Some o =>
        s ← load o;
        if IsDown s then mret (Some "Cancel rolling restart original master down")
        else restart_old_master o
    end.

(** Without the check of the synchronization before a failover. *)
Definition restart_unsynced : M Err :=
  c ← get_cluster;
  h ← get_heap;
  m ← deref (GetMaster c);
  let masterID := srv_Id (h m) in
  conf ← get_conf;
  let saveFailoverMode := Conf_FailSync conf in
  SetFailSync false ;;
  defer (restart_servers masterID) (SetFailSync saveFailoverMode).

Definition RollingRestart : M Err :=
  SetInRollingRestart true ;;
  defer restart_unsynced (SetInRollingRestart false).

(** ** Optimizing *)

Definition JobOptimize (l : loc) : M Err :=
  s ← load l; if IsDown s then mret None else call (run_job "optimize" l).
Definition RollingOptimize : M unit :=
  c ← get_cluster;
  forM (cl_slaves c) (fun l => JobOptimize l ;; mret tt).
End Ops.
