(* ===== verification/RollingProps.v ===== *)
(** * Properties of the rolling restart

    The services are stopped and started one at a time, and the settings the restart
    changes are put back on every way out. *)

From Stdlib Require Import ZArith Lia Bool Ascii String.
From stdpp Require Import base list gmap strings functions.
From S2P Require Import Prelude GoLib Version StateMachine Config Server Proxy Cluster Demo ServerOps Lands Refresh Election Failover Rejoin FailoverFrame FailoverCheck Monitoring Topology SplitBrain Configurator ProxySql Proxies Wait Provision Bootstrap Rolling.

Local Open Scope string_scope.
Local Open Scope list_scope.
Local Open Scope Z_scope.

(** ** The services asked for *)

Definition Served : Type := string * loc * Err.

Definition service_event (e : TraceEvent) : option Served :=
  match e with
  | Ev c r => match c in Call R return R -> option Served with
              | service op l => fun r => Some (op, l, r)
              | _ => fun _ => None
              end r
  end.
Definition services (w : World) : list Served := omap service_event (w_trace w).

Definition stops (op : string) : Prop := exists o, op = o +:+ "StopDatabaseService".
Definition starts (op : string) : Prop := exists o, op = o +:+ "StartDatabaseService".

(** The servers of the list in turn, some left out: each is stopped and then started,
    and the next one is stopped only after both were done without an error. *)
Inductive Rolled : list loc -> list Served -> Prop :=
| rolled_end l : Rolled l []
| rolled_skip x l es : Rolled l es -> Rolled (x :: l) es
| rolled_next x l stop start es : stops stop -> starts start ->
    Rolled l es -> Rolled (x :: l) ((stop, x, None) :: (start, x, None) :: es)
| rolled_stop x l stop e : stops stop -> Rolled (x :: l) [(stop, x, e)]
| rolled_start x l stop start e : stops stop -> starts start ->
    Rolled (x :: l) [(stop, x, None); (start, x, e)].

(** Done with the servers of the list: others can follow. *)
Definition Chain (l : list loc) (es : list Served) : Prop :=
  forall l' es', Rolled l' es' -> Rolled (l ++ l') (es ++ es').

Lemma Rolled_more l es l' : Rolled l es -> Rolled (l ++ l') es.
Proof. induction 1; cbn; by constructor. Qed.
Lemma Chain_Rolled l es : Chain l es -> Rolled l es.
Proof. intros C. specialize (C [] [] (rolled_end [])). by rewrite !app_nil_r in C. Qed.
Lemma Chain_nil l : Chain l [].
Proof. intros l' es' R. induction l as [|x l IH]; [done|]. by apply rolled_skip. Qed.
Lemma Chain_app l1 e1 l2 e2 : Chain l1 e1 -> Chain l2 e2 -> Chain (l1 ++ l2) (e1 ++ e2).
Proof. intros C1 C2 l' es' R. rewrite <- !app_assoc. by apply C1, C2. Qed.
Lemma Chain_then l1 e1 l2 e2 : Chain l1 e1 -> Rolled l2 e2 -> Rolled (l1 ++ l2) (e1 ++ e2).
Proof. intros C R. by apply C. Qed.

(** ** What a computation asks for, with its result *)

Definition result {A} (o : outcome A) : option A := match o with Ret a => Some a | _ => None end.

Definition Yields {A} (m : M A) (Q : option A -> list Served -> Prop) : Prop :=
  forall w, exists es, services (snd (m w)) = services w ++ es /\ Q (result (fst (m w))) es.

Lemma yields_weaken {A} (m : M A) (Q Q' : option A -> list Served -> Prop) :
  Yields m Q -> (forall r es, Q r es -> Q' r es) -> Yields m Q'.
Proof. intros Hm HQ w. destruct (Hm w) as (es & E & HQw). eauto. Qed.
Lemma yields_bind {A B} (m : M A) (f : A -> M B) (Q : option A -> list Served -> Prop) Q' :
  Yields m Q -> (forall es, Q None es -> Q' None es) ->
  (forall a es, Q (Some a) es -> Yields (f a) (fun r es' => Q' r (es ++ es'))) -> Yields (m ≫= f) Q'.
Proof.
  intros Hm Hn Hf w. destruct (Hm w) as (es & E & HQ). unfold mbind, M_bind.
  destruct (m w) as [[a| |] w1]; cbn in *; [|by eauto..].
  destruct (Hf a es HQ w1) as (es' & E' & HQ'). exists (es ++ es'). by rewrite E', E, app_assoc.
Qed.
Lemma yields_quiet {A} (m : M A) (Q : option A -> list Served -> Prop) :
  Pres (keeps services) m -> (forall r, Q r []) -> Yields m Q.
Proof. intros Hm HQ w. exists []. rewrite app_nil_r. split; [apply Hm|apply HQ]. Qed.
Lemma yields_after {A B} (m : M A) (f : A -> M B) Q :
  Pres (keeps services) m -> Q None [] -> (forall a, Yields (f a) Q) -> Yields (m ≫= f) Q.
Proof.
  intros Hm Hn Hf. apply (yields_bind m f (fun _ es => es = [])); [by apply yields_quiet|by intros ? ->|].
  intros a es ->. exact (Hf a).
Qed.
Lemma yields_ret {A} (a : A) (Q : option A -> list Served -> Prop) : Q (Some a) [] -> Yields (mret a) Q.
Proof. intros HQ w. exists []. by rewrite app_nil_r. Qed.

(** The list is done when no error is returned. *)
Definition Done (l : list loc) (r : option Err) (es : list Served) : Prop :=
  match r with Some None => Chain l es | _ => Rolled l es end.

Lemma yields_forM_err (l : list loc) (f : loc -> M Err) :
  (forall x, Yields (f x) (Done [x])) -> Yields (forM_err l f) (Done l).
Proof.
  intros Hf. induction l as [|x l IH]; [by apply yields_ret, Chain_nil|].
  cbn [forM_err]. eapply yields_bind; [apply Hf|intros es R; by apply (Rolled_more [x])|].
  intros [err|] es HQ; cbn [is_err].
  - apply yields_ret. rewrite app_nil_r. by apply (Rolled_more [x]).
  - eapply yields_weaken; [exact IH|]. intros [[err|]|] es' HQ'; cbn in *;
      [by apply (Chain_then [x])|by apply (Chain_app [x])|by apply (Chain_then [x])].
Qed.

Section Rolling.
Context `{Env} `{GoSort} `{GoRange} `{GoSched} (meanwhile : M unit).
Context (Hquiet : Pres (keeps services) meanwhile).
Hint Resolve Hquiet : pres.

(** ** What asks for no service *)

Lemma services_call {R} (c : Call R) : (forall r, service_event (Ev c r) = None) -> Pres (keeps services) (call c).
Proof.
  intros Hc w. red. unfold services. simpl. rewrite omap_app. pose proof (Hc (answer (w_trace w) c)) as E.
  simpl in *. by rewrite E, app_nil_r.
Qed.
Hint Extern 1 (Pres (keeps services) (call _)) => apply services_call; intros ?; reflexivity : pres.
Lemma services_mod_cluster f : Pres (keeps services) (mod_cluster f).
Proof. by intros w. Qed.
Lemma services_mod_server l f : Pres (keeps services) (mod_server l f).
Proof. by intros w. Qed.
Hint Resolve services_mod_cluster services_mod_server : pres.

Lemma services_wait_loop fuel : forall ms step e,
  (forall e, Pres (keeps services) (step e)) -> Pres (keeps services) (wait_loop meanwhile fuel ms step e).
Proof. induction fuel as [|n IH]; intros ms step e Hs; cbn [wait_loop]; pres. Qed.
Lemma services_wait_message ch r : Pres (keeps services) (wait_message meanwhile ch r).
Proof. deep. apply services_wait_loop. intros e. pres. Qed.
Hint Resolve services_wait_message : pres.
Lemma services_wait_failed l : Pres (keeps services) (WaitDatabaseFailed meanwhile l).
Proof. deep. apply services_wait_loop. intros e. pres. Qed.
Hint Resolve services_wait_failed : pres.
Lemma services_backup fuel l : Pres (keeps services) (wait_binlog_backup meanwhile fuel l).
Proof. induction fuel as [|n IH]; cbn [wait_binlog_backup]; pres. Qed.
Hint Resolve services_backup : pres.
Lemma services_maintenance l : Pres (keeps services) (SwitchMaintenance l).
Proof. deep. Qed.
Hint Resolve services_maintenance : pres.
Lemma services_enter l : Pres (keeps services) (enter_maintenance l).
Proof. unfold enter_maintenance. pres. Qed.
Lemma services_sync l : Pres (keeps services) (sync_to_master l).
Proof. deep. Qed.
Hint Resolve services_enter services_sync : pres.

Lemma services_script path l : Pres (keeps services) (database_script path l).
Proof. deep. Qed.
Hint Resolve services_script : pres.
Lemma services_cookie l key : Pres (keeps services) (delCookie l key).
Proof. deep. Qed.
Hint Resolve services_cookie : pres.

(** ** What does *)

Lemma yields_service op l : Yields (call (service op l)) (fun r es => exists e, r = Some e /\ es = [(op, l, e)]).
Proof.
  intros w. eexists. split; [unfold services; simpl; by rewrite omap_app|]. eexists. split; reflexivity.
Qed.

(** At most one request, and one that succeeded if no error is returned. *)
Definition Asked (kind : string -> Prop) (l : loc) (r : option Err) (es : list Served) : Prop :=
  (es = [] /\ r <> Some None) \/
  exists op e, kind op /\ es = [(op, l, e)] /\ (r = Some None -> e = None).

Lemma yields_ask (kind : string -> Prop) (op : string -> string) (script : M unit) l :
  (forall o, kind (op o)) -> Pres (keeps services) script ->
  Yields (conf ← get_conf;
          match orchestrator_of (GetOrchestrator conf) with
          | None => mret no_orchestrator
          | Some o =>
              e ← call (service (op o) l);
              script ;;
              whenM (negb (is_err e)) (delCookie l "cookie_restart") ;;
              mret e
          end) (Asked kind l).
Proof.
  intros Hk Hs. apply yields_after; [pres|by left|]. intros conf.
  destruct (orchestrator_of _) as [o|]; [|apply yields_ret; by left].
  eapply yields_bind; [apply yields_service|intros es (e & [=] & _)|]. intros e es (e' & [= <-] & ->).
  assert (A : forall r, (r = Some None -> e = None) -> Asked kind l r ([(op o, l, e)] ++ [])).
  { intros r Hr. right. by exists (op o), e. }
  apply yields_after; [done|by apply A|intros _].
  apply yields_after; [pres|by apply A|intros _]. apply yields_ret, A. by intros [=].
Qed.
Lemma yields_stop l : Yields (StopDatabaseService l) (Asked stops l).
Proof.
  apply (yields_ask stops (fun o => (if (o =? "Localhost")%string then "OnPremise" else o) +:+ "StopDatabaseService"));
    [by eexists|pres].
Qed.
Lemma yields_start l : Yields (StartDatabaseService l) (Asked starts l).
Proof. apply (yields_ask starts (fun o => o +:+ "StartDatabaseService")); [by eexists|pres]. Qed.

(** ** One server *)

Definition Stopped (l : loc) (r : option Err) (es : list Served) : Prop :=
  match r with Some None => exists op, stops op /\ es = [(op, l, None)] | _ => Rolled [l] es end.

Lemma yields_stop_and_wait l : Yields (stop_and_wait meanwhile l) (Stopped l).
Proof.
  assert (R : forall e es, Asked stops l e es -> Rolled [l] es).
  { intros e es [[-> _]|(op & e' & Ho & -> & _)]; by constructor. }
  eapply yields_bind; [apply yields_stop|intros es A; by apply (R None)|].
  intros [err|] es A; cbn [is_err].
  - apply yields_ret. cbn. rewrite app_nil_r. by eapply R.
  - destruct A as [[_ []]|(op & e & Ho & -> & E)]; [done|]. rewrite E by done.
    apply yields_quiet; [pres|]. intros [[err|]|]; cbn; [by constructor|by exists op|by constructor].
Qed.

Lemma yields_start_rejoin l : Yields (StartDatabaseWaitRejoin meanwhile l) (Asked starts l).
Proof.
  eapply yields_bind; [apply yields_start|intros es A; exact A|]. intros e es A.
  assert (A' : forall r, (r = Some None -> e = None) -> Asked starts l r (es ++ [])).
  { intros r Hr. rewrite app_nil_r. destruct A as [[-> A]|(op & e' & Ho & -> & E)].
    - left. split; [done|]. intros ->. by destruct A; rewrite Hr.
    - right. exists op, e'. split; [done|]. split; [done|]. intros ->. apply E. by rewrite Hr. }
  apply yields_after; [apply services_wait_message|by apply A'|intros _]. apply yields_ret, A'. by intros [= ->].
Qed.

(** A start after a stop. *)
Lemma Stopped_then l es r es' : Stopped l (Some None) es -> Asked starts l r es' -> Done [l] r (es ++ es').
Proof.
  intros (op & Ho & ->) [[-> Hr]|(op' & e & Ho' & -> & E)].
  - destruct r as [[err|]|]; [|done|]; by constructor.
  - assert (R : forall e, Rolled [l] [(op, l, None); (op', l, e)]) by (intros ?; by constructor).
    destruct r as [[err|]|]; [apply R| |apply R]. rewrite E by done. intros l' es' R'. by apply rolled_next.
Qed.
Lemma Done_quiet l r es : Done l (Some None) es -> Done l r (es ++ []).
Proof. rewrite app_nil_r. destruct r as [[err|]|]; cbn; auto using Chain_Rolled. Qed.
Lemma Rolled_quiet l e r es : Rolled l es -> (r = Some None -> False) -> e = es ++ [] -> Done l r e.
Proof. intros R Hr ->. rewrite app_nil_r. destruct r as [[err|]|]; by try destruct (Hr eq_refl). Qed.

Lemma yields_restart_slave l : Yields (restart_slave meanwhile l) (Done [l]).
Proof.
  unfold restart_slave. apply yields_after; [pres|by constructor|intros _].
  apply yields_after; [pres|by constructor|intros _].
  eapply yields_bind; [apply yields_stop_and_wait|by intros es R|]. intros [err|] es S; cbn [is_err].
  - apply yields_after; [pres|by eapply Rolled_quiet|intros _]. apply yields_ret. by eapply Rolled_quiet.
  - eapply yields_weaken; [apply yields_start_rejoin|]. intros r es'. by apply Stopped_then.
Qed.

(** After a server is done, it joins the others. *)
Lemma yields_finish l e es (m : M Err) : Done [l] (Some e) es -> Pres (keeps services) m ->
  Yields (if is_err e then mret e else m) (fun r es' => Done [l] r (es ++ es')).
Proof.
  intros D Hm. destruct e as [err|]; cbn [is_err].
  - apply yields_ret. by eapply Rolled_quiet.
  - apply yields_quiet; [done|]. intros r. by apply Done_quiet.
Qed.
Lemma yields_slave_synced l : Yields (restart_slave_synced meanwhile l) (Done [l]).
Proof.
  unfold restart_slave_synced. apply yields_after; [pres|by constructor|intros s].
  apply (yields_bind _ _ (Done [l])); [|done|].
  - destruct (IsDown s); [by apply yields_ret, Chain_nil|apply yields_restart_slave].
  - intros e es D. apply yields_finish; [done|pres].
Qed.
Lemma yields_old_master l : Yields (restart_old_master meanwhile l) (Done [l]).
Proof.
  unfold restart_old_master. apply yields_after; [pres|by constructor|intros _].
  apply yields_after; [pres|by constructor|intros _].
  eapply yields_bind; [apply yields_stop_and_wait|by intros es R|]. intros e es S.
  apply (yields_bind _ _ (fun r es' => Done [l] r (es ++ es'))); [|intros es'; exact id|].
  - destruct e as [err|]; cbn [is_err]; [apply yields_ret; by eapply Rolled_quiet|].
    eapply yields_weaken; [apply yields_start_rejoin|]. intros r es'. by apply Stopped_then.
  - intros e' es' D. eapply yields_weaken; [apply (yields_finish l e' (es ++ es')); [done|unfold SwitchOver; pres]|].
    intros r es''. by rewrite app_assoc.
Qed.

(** ** The servers in turn *)

Definition rolled_with_last (l : list loc) (es : list Served) : Prop := exists x, Rolled (l ++ [x]) es.

Lemma rolled_last l es : Rolled l es -> rolled_with_last l es.
Proof. exists 0%nat. by apply Rolled_more. Qed.

Lemma yields_last l es masterID : Chain l es ->
  Yields (SwitchoverWaitTest meanwhile ;;
          o ← old_master masterID;
          match o with
          | None => mret None
          | Some o => s ← load o;
                      if IsDown s then mret (Some "Cancel rolling restart original master down")
                      else restart_old_master meanwhile o
          end) (fun _ es' => rolled_with_last l (es ++ es')).
Proof.
  intros C. assert (N : rolled_with_last l (es ++ [])) by (rewrite app_nil_r; by apply rolled_last, Chain_Rolled).
  apply yields_after; [|done|intros _].
  { unfold SwitchoverWaitTest, SwitchOver. apply pres_bind; [apply _|pres|intros _; apply services_wait_message]. }
  apply yields_after; [unfold old_master; pres|done|intros [o|]]; [|by apply yields_ret].
  apply yields_after; [pres|done|intros s]. destruct (IsDown s); [by apply yields_ret|].
  eapply yields_weaken; [apply yields_old_master|]. intros r es' D. exists o. apply C.
  destruct r as [[err|]|]; cbn in D; auto using Chain_Rolled.
Qed.

Lemma restart_servers_rolled masterID w : exists es,
  services (snd (restart_servers meanwhile masterID w)) = services w ++ es /\
  rolled_with_last (cl_slaves (w_cluster w)) es.
Proof.
  enough (Y : forall l, Yields (e ← forM_err l (restart_slave_synced meanwhile);
    if is_err e then mret e
    else SwitchoverWaitTest meanwhile ;;
         o ← old_master masterID;
         match o with
         | None => mret None
         | Some o => s ← load o;
                     if IsDown s then mret (Some "Cancel rolling restart original master down")
                     else restart_old_master meanwhile o
         end) (fun _ => rolled_with_last l)) by exact (Y _ w).
  intros l. eapply yields_bind; [by apply yields_forM_err, yields_slave_synced|intros es R; by apply rolled_last|].
  intros [err|] es D; cbn [is_err].
  - apply yields_ret. rewrite app_nil_r. by apply rolled_last.
  - by apply yields_last.
Qed.

(** What a finalizer sets is what is found at the end, unless there is none. *)
Lemma defer_sets {A T} (f : World -> T) v (m : M A) fin w :
  (forall w1, fst (fin w1) = Ret tt /\ f (snd (fin w1)) = v) ->
  fst (defer m fin w) = Hang \/ f (snd (defer m fin w)) = v.
Proof.
  intros Hf. unfold defer. destruct (m w) as [[a| |] w1]; [| |by left]; right; specialize (Hf w1) as [E1 E2];
    destruct (fin w1) as [o w2]; cbn in *; by subst o.
Qed.
Lemma defer_keeps {A T} (f : World -> T) v (m : M A) fin w :
  (forall w1, fst (fin w1) = Ret tt /\ f (snd (fin w1)) = f w1) ->
  fst (m w) = Hang \/ f (snd (m w)) = v -> fst (defer m fin w) = Hang \/ f (snd (defer m fin w)) = v.
Proof.
  intros Hf. unfold defer. destruct (m w) as [[a| |] w1]; cbn; intros [E|E]; try discriminate E; [| |by left|by left];
    right; specialize (Hf w1) as [E1 E2]; destruct (fin w1) as [o w2]; cbn in *; subst o; cbn; congruence.
Qed.

Lemma services_defer {A} (m : M A) fin w : Pres (keeps services) fin ->
  services (snd (defer m fin w)) = services (snd (m w)).
Proof.
  intros Hf. unfold defer. destruct (m w) as [[a| |] w1]; [| |done]; specialize (Hf w1);
    destruct (fin w1) as [[?| |] w2]; exact Hf.
Qed.
End Rolling.

(** C22: a rolling restart takes one database down at a time. Whatever the
    orchestrator, the databases and the other goroutines do, and however the restart
    ends, the services it asked for are those of the slaves it started with and of one
    last server, in this order and some left out: each is stopped and then started,
    and a server is stopped only after the stop and the start of the one before were
    both done without an error. *)
Theorem restart_one_at_a_time `{Env} `{GoSort} `{GoRange} `{GoSched} (meanwhile : M unit) (w : World) :
  Pres (keeps services) meanwhile ->
  exists es, services (snd (RollingRestart meanwhile w)) = services w ++ es /\
             rolled_with_last (cl_slaves (w_cluster w)) es.
Proof.
  intros Hm. set (w1 := snd (SetInRollingRestart true w)).
  change (RollingRestart meanwhile w) with (defer (restart_unsynced meanwhile) (SetInRollingRestart false) w1).
  rewrite services_defer by apply services_mod_cluster. unfold restart_unsynced, mbind, M_bind.
  cbn [get_cluster get_heap].
  destruct (GetMaster _) as [m|]; cbn [deref panic snd]; [|exists []; rewrite app_nil_r; by split; [|apply rolled_last; constructor]].
  unfold mret, M_ret, get_conf, SetFailSync, mod_conf, mod_cluster. cbv beta iota. set (w2 := mkWorld _ _ _).
  rewrite services_defer by (by intros ?).
  exact (restart_servers_rolled meanwhile Hm _ w2).
Qed.

(** The rolling restart leaves no setting behind. Unless it waits for ever, with
    or without an error and also when it panics, the check of the synchronization
    before a failover has the value it had, and the mark of the restart is removed. *)
Theorem restart_restores_settings `{Env} `{GoSort} `{GoRange} `{GoSched} (meanwhile : M unit) (w : World) :
  let c' := w_cluster (snd (RollingRestart meanwhile w)) in
  fst (RollingRestart meanwhile w) = Hang \/
  Conf_FailSync (cl_Conf c') = Conf_FailSync (cl_Conf (w_cluster w)) /\ cl_InRollingRestart c' = false.
Proof.
  set (w0 := snd (SetInRollingRestart true w)).
  change (RollingRestart meanwhile w) with (defer (restart_unsynced meanwhile) (SetInRollingRestart false) w0).
  destruct (defer_sets (fun w => cl_InRollingRestart (w_cluster w)) false (restart_unsynced meanwhile) (SetInRollingRestart false) w0
    (fun _ => conj eq_refl eq_refl)) as [R|R1]; [by left|].
  destruct (defer_keeps (fun w => Conf_FailSync (cl_Conf (w_cluster w))) (Conf_FailSync (cl_Conf (w_cluster w)))
    (restart_unsynced meanwhile) (SetInRollingRestart false) w0 (fun _ => conj eq_refl eq_refl)) as [R|R2]; [|by left|by right].
  unfold restart_unsynced, mbind, M_bind. cbn [get_cluster get_heap]. destruct (GetMaster _) as [m|]; [|by right].
  apply (defer_sets (fun w => Conf_FailSync (cl_Conf (w_cluster w)))). by split.
Qed.

(** ** Three servers restarted *)

(** The other goroutines: the last server stopped is seen failed, the last one started
    is a slave again when [rejoins], and the last slave becomes the master. *)
Definition rolling_others (rejoins : bool) : M unit :=
  asked ← ((fun w => (Ret (head (reverse (services w))), w)) : M (option Served));
  match asked with
  | Some (op, l, _) =>
      if String.eqb op "OnPremiseStopDatabaseService" then mod_server l (set_srv_State stateFailed)
      else if rejoins then mod_server l (set_srv_State stateSlave) ;; mod_cluster (set_cl_master (Some 2%nat))
      else mret tt
  | None => mret tt
  end.

Definition rolling_world : World :=
  mkWorld
    (set_cl_master (Some 0%nat) (set_cl_Conf (set_Conf_MonitorWaitRetry 2 (set_Conf_MonitoringTicker 1
       (set_Conf_ProvOrchestrator "onpremise" (set_Conf_FailSync true demo_conf)))) demo_cluster))
    (fun l => set_srv_DSN (srv_Id (demo_heap l)) (if decide (l = 0%nat) then set_srv_State stateMaster (demo_heap l) else demo_heap l))
    [].

Lemma rolling_others_quiet b : Pres (keeps services) (rolling_others b).
Proof.
  intros w. unfold rolling_others, mbind, M_bind. destruct (head _) as [[[op l] r]|]; [|done].
  by destruct (String.eqb _ _), b.
Qed.

#[local] Instance restart_fifo : GoSched := {| go_order := fun l => l; go_order_perm := fun l => Permutation_refl l |}.

Definition restarted (l : loc) : list Served :=
  [("OnPremiseStopDatabaseService", l, None); ("OnPremiseStartDatabaseService", l, None)].

Lemma restart_one_at_a_time_witness :
  services (snd (RollingRestart (rolling_others true) rolling_world)) =
    restarted 1%nat ++ restarted 2%nat ++ restarted 0%nat /\
  rolled_with_last [1; 2]%nat (restarted 1%nat ++ restarted 2%nat ++ restarted 0%nat).
Proof.
  destruct (restart_one_at_a_time (rolling_others true) rolling_world (rolling_others_quiet true)) as (es & E & R).
  assert (S : services (snd (RollingRestart (rolling_others true) rolling_world)) =
    restarted 1%nat ++ restarted 2%nat ++ restarted 0%nat) by (vm_compute; reflexivity).
  split; [exact S|]. rewrite S in E. change (services rolling_world ++ es) with es in E. by subst es.
Defined.

(** A slave that is down is not restarted, and is left in maintenance. *)
Example demo_down_slave_maintenance :
  let r := restart_slave_synced (rolling_others true) 0%nat
             (mkWorld (w_cluster rolling_world) (<[0%nat := set_srv_State stateFailed (demo_heap 0%nat)]> (w_heap rolling_world)) []) in
  (fst r, srv_IsMaintenance (w_heap (snd r) 0%nat), services (snd r)) = (Ret None, true, []).
Proof. vm_compute. reflexivity. Qed.

(** A start that failed ends the restart, and leaves the slave in maintenance. *)
Definition start_fails : Env :=
  {| answer := fun R t c =>
       match c in Call R return R -> R with
       | service op _ => fun r => if String.eqb op "OnPremiseStartDatabaseService" then Some "refused" else r
       | _ => fun r => r
       end (@answer demo_env R t c);
     wait_fuel := 3; env_hour_of := @env_hour_of demo_env |}.
Example demo_start_fails :
  let r := RollingRestart (H:=start_fails) (rolling_others true) rolling_world in
  (fst r, srv_IsMaintenance (w_heap (snd r) 1%nat)) = (Ret (Some "refused"), true).
Proof. vm_compute. reflexivity. Qed.
