(* ===== verification/Cron.v ===== *)
(** * Cron schedules (utils/cron)

    The parser of cron texts ([parser.go]), the schedules it yields ([spec.go],
    [constantdelay.go]) and the search for the next activation. A time is a civil
    time to the second, in a location whose offset is of whole hours and does not change. *)

From Stdlib Require Import ZArith Lia Bool Ascii String.
From stdpp Require Import base list strings.
From S2P Require Import Prelude GoLib.

Local Open Scope string_scope.
Local Open Scope list_scope.
Local Open Scope Z_scope.

(** ** Civil time *)

Record Time := mkTime {
  t_Year : Z; t_Month : Z; t_Day : Z; t_Hour : Z; t_Minute : Z; t_Second : Z
}.

(** What is taken from package [time] without its definition: the names of the
    locations, the time of a location in another one, and the texts of durations, in
    nanoseconds. *)
Class GoTime : Type := {
  time_LoadLocation : string -> bool;
  time_In : string -> string -> Time -> Time;
  time_ParseDuration : string -> option Z
}.

Definition leap (y : Z) : bool :=
  ((y mod 4 =? 0) && negb (y mod 100 =? 0)) || (y mod 400 =? 0).
Definition days_in (y m : Z) : Z :=
  if m =? 2 then (if leap y then 29 else 28)
  else if (m =? 4) || (m =? 6) || (m =? 9) || (m =? 11) then 30 else 31.

(** The days from the first of January of the year 1, which was a Monday. *)
Definition days_before (y m : Z) : Z :=
  fold_left (fun n k => n + days_in y (Z.of_nat k)) (seq 1 (Z.to_nat (m - 1))) 0.
Definition day_number (y m d : Z) : Z :=
  365 * (y - 1) + (y - 1) / 4 - (y - 1) / 100 + (y - 1) / 400 + days_before y m + d.
Definition Weekday (t : Time) : Z := day_number (t_Year t) (t_Month t) (t_Day t) mod 7.

(** [AddDate] by a month and by a day, [Add] by an hour, a minute and a second. *)
Definition after_month (y m : Z) : Z * Z := if m =? 12 then (y + 1, 1) else (y, m + 1).
Definition add_month (t : Time) : Time :=
  let '(y, m) := after_month (t_Year t) (t_Month t) in
  let over := t_Day t - days_in y m in
  if over <=? 0 then mkTime y m (t_Day t) (t_Hour t) (t_Minute t) (t_Second t)
  else let '(y, m) := after_month y m in mkTime y m over (t_Hour t) (t_Minute t) (t_Second t).
Definition add_day (t : Time) : Time :=
  if t_Day t <? days_in (t_Year t) (t_Month t)
  then mkTime (t_Year t) (t_Month t) (t_Day t + 1) (t_Hour t) (t_Minute t) (t_Second t)
  else let '(y, m) := after_month (t_Year t) (t_Month t) in mkTime y m 1 (t_Hour t) (t_Minute t) (t_Second t).
Definition set_clock (t : Time) (h m s : Z) : Time := mkTime (t_Year t) (t_Month t) (t_Day t) h m s.
Definition add_hour (t : Time) : Time :=
  if t_Hour t <? 23 then set_clock t (t_Hour t + 1) (t_Minute t) (t_Second t)
  else add_day (set_clock t 0 (t_Minute t) (t_Second t)).
Definition add_minute (t : Time) : Time :=
  if t_Minute t <? 59 then set_clock t (t_Hour t) (t_Minute t + 1) (t_Second t)
  else add_hour (set_clock t (t_Hour t) 0 (t_Second t)).
Definition add_second (t : Time) : Time :=
  if t_Second t <? 59 then set_clock t (t_Hour t) (t_Minute t) (t_Second t + 1)
  else add_minute (set_clock t (t_Hour t) (t_Minute t) 0).
(** [Add] by whole seconds, not negative. *)
Definition add_seconds (t : Time) (n : Z) : Time :=
  let clock := t_Hour t * 3600 + t_Minute t * 60 + t_Second t + n in
  let c := clock mod 86400 in
  set_clock (Nat.iter (Z.to_nat (clock / 86400)) add_day t) (c / 3600) (c / 60 mod 60) (c mod 60).

(** A number that grows with the time: months of 31 days. *)
Definition day_index (t : Time) : Z := (t_Year t * 12 + (t_Month t - 1)) * 31 + (t_Day t - 1).
Definition time_index (t : Time) : Z := ((day_index t * 24 + t_Hour t) * 60 + t_Minute t) * 60 + t_Second t.
(** [Before], on valid times. *)
Definition Before (t u : Time) : bool := time_index t <? time_index u.

(** ** Schedules (spec.go, constantdelay.go) *)

Record SpecSchedule := mkSpec {
  Second : Z; Minute : Z; Hour : Z; Dom : Z; Month : Z; Dow : Z; Location : string
}.
Inductive Schedule :=
| Spec (s : SpecSchedule)
| ConstantDelay (seconds : Z).

Definition starBit : Z := Z.shiftl 1 63.
(** Bit [i] of a field: [1<<uint(i) & field]. *)
Definition has_bit (field i : Z) : bool := Z.testbit field i.
Definition has_star (field : Z) : bool := Z.testbit field 63.

Definition dayMatches (s : SpecSchedule) (t : Time) : bool :=
  let domMatch := has_bit (Dom s) (t_Day t) in
  let dowMatch := has_bit (Dow s) (Weekday t) in
  if has_star (Dom s) || has_star (Dow s) then domMatch && dowMatch else domMatch || dowMatch.

(** One of the five loops: the field is advanced until it matches; the first time the
    lower fields are set to their beginning. A field that starts again sends the
    search back to the first loop. *)
Inductive stage := Matched (added : bool) (t : Time) | Wrapped (t : Time) | Stuck.
Section Advance.
Context (ok : Time -> bool) (start step : Time -> Time) (wrapped : Time -> bool).
Fixpoint advance (fuel : nat) (added : bool) (t : Time) : stage :=
  if ok t then Matched added t
  else match fuel with
       | O => Stuck
       | S fuel =>
           let t := step (if added then t else start t) in
           if wrapped t then Wrapped t else advance fuel true t
       end.
End Advance.

Definition month_start (t : Time) : Time := mkTime (t_Year t) (t_Month t) 1 0 0 0.
Definition day_start (t : Time) : Time := set_clock t 0 0 0.
Definition hour_start (t : Time) : Time := set_clock t (t_Hour t) 0 0.
Definition minute_start (t : Time) : Time := set_clock t (t_Hour t) (t_Minute t) 0.

Section Next.
Context (s : SpecSchedule).

Definition ok_month (t : Time) : bool := has_bit (Month s) (t_Month t).
Definition ok_hour (t : Time) : bool := has_bit (Hour s) (t_Hour t).
Definition ok_minute (t : Time) : bool := has_bit (Minute s) (t_Minute t).
Definition ok_second (t : Time) : bool := has_bit (Second s) (t_Second t).

Definition find_month := advance ok_month month_start add_month (fun t => t_Month t =? 1) 12.
Definition find_day := advance (dayMatches s) day_start add_day (fun t => t_Day t =? 1) 31.
Definition find_hour := advance ok_hour hour_start add_hour (fun t => t_Hour t =? 0) 24.
Definition find_minute := advance ok_minute minute_start add_minute (fun t => t_Minute t =? 0) 60.
Definition find_second := advance ok_second id add_second (fun t => t_Second t =? 0) 60.

(** From the label [WRAP] to the return or the next jump to it. *)
Inductive found := Fires (t : Time) | Never | Again (t : Time) | Lost.
Definition then_find (r : stage) (k : bool -> Time -> found) : found :=
  match r with Matched added t => k added t | Wrapped t => Again t | Stuck => Lost end.
Definition search_pass (yearLimit : Z) (added : bool) (t : Time) : found :=
  if yearLimit <? t_Year t then Never
  else
    then_find (find_month added t) (fun added t =>
    then_find (find_day added t) (fun added t =>
    then_find (find_hour added t) (fun added t =>
    then_find (find_minute added t) (fun added t =>
    then_find (find_second added t) (fun _ t => Fires t))))).

(** At most [2 ^ depth] passes. *)
Fixpoint search (depth : nat) (yearLimit : Z) (added : bool) (t : Time) : found :=
  match depth with
  | O => search_pass yearLimit added t
  | S d => match search d yearLimit added t with
           | Again t => search d yearLimit true t
           | r => r
           end
  end.

Definition search_depth : nat := 28.
Definition search_next (t : Time) : found :=
  let t := add_second t in search search_depth (t_Year t + 5) false t.
End Next.

(** The location of the runner. *)
Definition time_Local : string := "Local".

(** [None] is the zero time; [t] and the result are times of the runner. *)
Definition Schedule_Next `{GoTime} (s : Schedule) (t : Time) : option Time :=
  match s with
  | Spec s =>
      match search_next s (time_In time_Local (Location s) t) with
      | Fires u => Some (time_In (Location s) time_Local u)
      | _ => None
      end
  | ConstantDelay n => Some (add_seconds t n)
  end.

(** ** Parsing (parser.go) *)

(** A panic is turned into an error; a step of zero makes [getBits] loop. *)
Inductive parsed (A : Type) := Value (a : A) | Bad | Loops.
Arguments Value {A} a.
Arguments Bad {A}.
Arguments Loops {A}.
#[export] Instance parsed_ret : MRet parsed := @Value.
#[export] Instance parsed_bind : MBind parsed := fun A B f m =>
  match m with Value a => f a | Bad => Bad | Loops => Loops end.

Record bounds := mkBounds { b_min : Z; b_max : Z; b_names : list (string * Z) }.
Definition seconds : bounds := mkBounds 0 59 [].
Definition minutes : bounds := mkBounds 0 59 [].
Definition hours : bounds := mkBounds 0 23 [].
Definition dom : bounds := mkBounds 1 31 [].
Definition months : bounds :=
  mkBounds 1 12 [("jan", 1); ("feb", 2); ("mar", 3); ("apr", 4); ("may", 5); ("jun", 6); ("jul", 7);
                 ("aug", 8); ("sep", 9); ("oct", 10); ("nov", 11); ("dec", 12)].
Definition dow : bounds :=
  mkBounds 0 6 [("sun", 0); ("mon", 1); ("tue", 2); ("wed", 3); ("thu", 4); ("fri", 5); ("sat", 6)].

(** All bits of the range with a step of one are set by shifts. *)
Definition bits_between (min max : Z) : Z :=
  Z.land (Z.lxor (max_uint 64) (u64 (Z.shiftl (max_uint 64) (max + 1)))) (u64 (Z.shiftl (max_uint 64) min)).
Fixpoint bits_loop (fuel : nat) (i max step bits : Z) : parsed Z :=
  if i <=? max
  then match fuel with
       | O => Loops
       | S fuel => bits_loop fuel (u64 (i + step)) max step (Z.lor bits (u64 (Z.shiftl 1 i)))
       end
  else Value bits.
Definition getBits (min max step : Z) : parsed Z :=
  if step =? 1 then Value (bits_between min max) else bits_loop 64 min max step 0.
Definition all (r : bounds) : Z := Z.lor (bits_between (b_min r) (b_max r)) starBit.

Definition mustParseInt (expr : string) : parsed Z :=
  match strconv_Atoi expr with
  | (num, ErrNone) => if num <? 0 then Bad else Value num
  | _ => Bad
  end.
Definition lookup_name (expr : string) (names : list (string * Z)) : option Z :=
  option_map snd (List.find (fun kv => (fst kv =? expr)%string) names).
Definition parseIntOrName (expr : string) (names : list (string * Z)) : parsed Z :=
  match lookup_name (strings_ToLower expr) names with
  | Some n => Value n
  | None => mustParseInt expr
  end.

(** The lowest and the highest value, and the bit of the star. *)
Definition range_ends (lowAndHigh : list string) (r : bounds) : parsed (Z * Z * Z) :=
  match lowAndHigh with
  | low :: rest =>
      if (low =? "*")%string || (low =? "?")%string then Value (b_min r, b_max r, starBit)
      else
        start ← parseIntOrName low (b_names r);
        match rest with
        | [] => Value (start, start, 0)
        | [high] => end_ ← parseIntOrName high (b_names r); Value (start, end_, 0)
        | _ => Bad
        end
  | [] => Bad
  end.

Definition getRange (expr : string) (r : bounds) : parsed Z :=
  let rangeAndStep := strings_Split "/" expr in
  let lowAndHigh := strings_Split "-" (default "" (head rangeAndStep)) in
  let singleDigit := Nat.eqb (length lowAndHigh) 1 in
  e ← range_ends lowAndHigh r;
  let '(start, end_, extraStar) := e in
  es ← match rangeAndStep with
       | [_] => Value (end_, 1)
       | [_; st] => step ← mustParseInt st; Value (if singleDigit then b_max r else end_, step)
       | _ => Bad
       end;
  let '(end_, step) := es in
  if start <? b_min r then Bad
  else if b_max r <? end_ then Bad
  else if end_ <? start then Bad
  else bits ← getBits start end_ step; Value (Z.lor bits extraStar).

(** [strings.FieldsFunc] by commas, and [strings.Fields]. *)
Definition comma_fields (field : string) : list string :=
  List.filter (fun x => negb (x =? "")%string) (strings_Split "," field).
Fixpoint get_ranges (l : list string) (r : bounds) (bits : Z) : parsed Z :=
  match l with
  | [] => Value bits
  | expr :: l => b ← getRange expr r; get_ranges l r (Z.lor bits b)
  end.
Definition getField (field : string) (r : bounds) : parsed Z := get_ranges (comma_fields field) r 0.

Definition is_space (c : ascii) : bool :=
  let n := byte_val c in (n =? 32) || ((9 <=? n) && (n <=? 13)).
Fixpoint fields_from (cur : string) (s : string) : list string :=
  match s with
  | EmptyString => if (cur =? "")%string then [] else [cur]
  | String c r =>
      if is_space c then (if (cur =? "")%string then fields_from "" r else cur :: fields_from "" r)
      else fields_from (cur +:+ String c "") r
  end.
Definition strings_Fields (s : string) : list string := fields_from "" s.

Definition first_of (r : bounds) : Z := Z.shiftl 1 (b_min r).
Definition starts_at (h d m w : Z) (loc : string) : Schedule :=
  Spec (mkSpec (first_of seconds) (first_of minutes) h d m w loc).
Definition Every (duration : Z) : Schedule :=
  ConstantDelay ((if duration <? 1000000000 then 1000000000 else duration) / 1000000000).

Definition parseDescriptor `{GoTime} (spec loc : string) : parsed Schedule :=
  if (spec =? "@yearly")%string || (spec =? "@annually")%string
  then Value (starts_at (first_of hours) (first_of dom) (first_of months) (all dow) loc)
  else if (spec =? "@monthly")%string
  then Value (starts_at (first_of hours) (first_of dom) (all months) (all dow) loc)
  else if (spec =? "@weekly")%string
  then Value (starts_at (first_of hours) (all dom) (all months) (first_of dow) loc)
  else if (spec =? "@daily")%string || (spec =? "@midnight")%string
  then Value (starts_at (first_of hours) (all dom) (all months) (all dow) loc)
  else if (spec =? "@hourly")%string
  then Value (starts_at (all hours) (all dom) (all months) (all dow) loc)
  else if strings_HasPrefix spec "@every "
  then match time_ParseDuration (String.substring 7 (String.length spec - 7) spec) with
       | Some d => Value (Every d)
       | None => Bad
       end
  else Bad.

Definition parse_fields (spec loc : string) : parsed Schedule :=
  let fields := strings_Fields spec in
  if negb (Nat.eqb (length fields) 5) && negb (Nat.eqb (length fields) 6) then Bad
  else
    match (if Nat.eqb (length fields) 5 then "0" :: fields else fields) with
    | [f0; f1; f2; f3; f4; f5] =>
        s ← getField f0 seconds;
        mi ← getField f1 minutes;
        h ← getField f2 hours;
        d ← getField f3 dom;
        mo ← getField f4 months;
        w ← getField f5 dow;
        Value (Spec (mkSpec s mi h d mo w loc))
    | _ => Bad
    end.

(** [strings.TrimSpace] of what starts at the first space. *)
Fixpoint after_zone (s : string) : option (string * string) :=
  match s with
  | EmptyString => None
  | String c r =>
      if Ascii.eqb c " " then Some ("", s)
      else match after_zone r with Some (z, rest) => Some (String c z, rest) | None => None end
  end.
Fixpoint trim_start (s : string) : string :=
  match s with
  | String c r => if is_space c then trim_start r else s
  | EmptyString => ""
  end.
Fixpoint trim_end (s : string) : string :=
  match s with
  | EmptyString => ""
  | String c r => let t := trim_end r in if is_space c && (t =? "")%string then "" else String c t
  end.
Definition strings_TrimSpace (s : string) : string := trim_end (trim_start s).

Definition Parse `{GoTime} (spec : string) : parsed Schedule :=
  zs ← (if strings_HasPrefix spec "TZ="
        then match after_zone (String.substring 3 (String.length spec - 3) spec) with
             | Some (zone, rest) => if time_LoadLocation zone then Value (zone, strings_TrimSpace rest) else Bad
             | None => Bad
             end
        else Value (time_Local, spec));
  let '(loc, spec) := zs in
  if strings_HasPrefix spec "@" then parseDescriptor spec loc else parse_fields spec loc.

(** ** Examples *)

#[export] Instance no_time : GoTime :=
  {| time_LoadLocation := fun _ => false; time_In := fun _ _ t => t; time_ParseDuration := fun _ => None |}.

Definition next_of (spec : string) (t : Time) : option Time :=
  match Parse spec with Value s => Schedule_Next s t | _ => None end.

(** At noon on Sundays; the next leap day; every quarter of an hour; never. *)
Example demo_next :
  map (fun spec => next_of spec (mkTime 2024 12 31 23 59 59))
    ["0 0 12 * * sun"; "0 0 0 29 feb *"; "*/15 * * * *"; "0 0 0 31 feb *"] =
  [Some (mkTime 2025 1 5 12 0 0); Some (mkTime 2028 2 29 0 0 0); Some (mkTime 2025 1 1 0 0 0); None].
Proof. vm_compute. reflexivity. Qed.

(** A step of zero never ends. *)
Example demo_zero_step : Parse "*/0 * * * *" = Loops.
Proof. vm_compute. reflexivity. Qed.
