(* ===== verification/CronProps.v ===== *)
(** * The search for the next activation is exact

    [search_next] finds the first second after a time that fits a cron schedule, and
    it always ends. *)

From Stdlib Require Import ZArith Lia Bool Ascii String.
From stdpp Require Import base list strings.
From S2P Require Import Prelude GoLib Cron.

Local Open Scope string_scope.
Local Open Scope list_scope.
Local Open Scope Z_scope.

(** ** The order of times *)

Definition before (t u : Time) : Prop := time_index t < time_index u.

Definition valid (t : Time) : Prop :=
  1 <= t_Month t <= 12 /\ 1 <= t_Day t <= days_in (t_Year t) (t_Month t) /\
  0 <= t_Hour t <= 23 /\ 0 <= t_Minute t <= 59 /\ 0 <= t_Second t <= 59.

Lemma days_in_range y m : 28 <= days_in y m <= 31.
Proof. unfold days_in. repeat destruct (_ =? _); destruct (leap y); cbn; lia. Qed.

(** The components as far as a level. *)
Definition same_month (t u : Time) : Prop := t_Year t = t_Year u /\ t_Month t = t_Month u.
Definition same_day (t u : Time) : Prop := same_month t u /\ t_Day t = t_Day u.
Definition same_hour (t u : Time) : Prop := same_day t u /\ t_Hour t = t_Hour u.
Definition same_minute (t u : Time) : Prop := same_hour t u /\ t_Minute t = t_Minute u.

(** The components below a level at their beginning. *)
Definition at_minute (t : Time) : Prop := t_Second t = 0.
Definition at_hour (t : Time) : Prop := t_Minute t = 0 /\ at_minute t.
Definition at_day (t : Time) : Prop := t_Hour t = 0 /\ at_hour t.
Definition at_month (t : Time) : Prop := t_Day t = 1 /\ at_day t.
Definition at_year (t : Time) : Prop := t_Month t = 1 /\ at_month t.

Create HintDb times discriminated.
#[export] Hint Unfold valid before time_index day_index same_month same_day same_hour same_minute at_minute at_hour at_day
  at_month at_year : times.
Ltac times := autounfold with times in *; cbn [t_Year t_Month t_Day t_Hour t_Minute t_Second] in *.

(** ** One level of the search

    [next t] is the beginning of the next unit of the level. *)
Record Level (ok : Time -> bool) (start step : Time -> Time) (wrapped : Time -> bool) (next : Time -> Time)
    (place : Time -> Z) (units : Z) (aligned parent : Time -> Prop) (same : Time -> Time -> Prop) : Prop := mkLevel {
  lv_step t : valid t -> step (start t) = next t;
  lv_step_aligned t : valid t -> aligned t -> step t = next t;
  lv_valid t : valid t -> valid (next t);
  lv_before t : valid t -> before t (next t);
  lv_aligned t : valid t -> aligned (next t);
  lv_ok t u : valid t -> valid u -> time_index t <= time_index u -> before u (next t) -> ok u = ok t;
  lv_wrapped t : valid t -> wrapped (next t) = true -> parent (next t);
  lv_same t : valid t -> wrapped (next t) = false -> same t (next t);
  lv_place t : valid t -> wrapped (next t) = false -> place (next t) = place t + 1;
  lv_units t : valid t -> 0 <= place t < units
}.

Section Search.
Context (ok : Time -> bool) (start step : Time -> Time) (wrapped : Time -> bool) (next : Time -> Time)
  (place : Time -> Z) (units : Z) (aligned parent : Time -> Prop) (same : Time -> Time -> Prop).
Context (Same : Equivalence same) (L : Level ok start step wrapped next place units aligned parent same).

(** Nothing in between fits the level. *)
Definition skipped (t u : Time) : Prop :=
  time_index t <= time_index u /\ forall v, valid v -> time_index t <= time_index v -> before v u -> ok v = false.

Lemma advance_exact fuel : forall added t,
  valid t -> (added = true -> ok t = false -> aligned t) -> units - place t <= Z.of_nat fuel ->
  match advance ok start step wrapped fuel added t with
  | Matched added' u => valid u /\ skipped t u /\ same t u /\ ok u = true /\ (u = t /\ added' = added \/ aligned u /\ added' = true)
  | Wrapped u => exists v, valid v /\ time_index t <= time_index v /\ same t v /\ u = next v /\ skipped t u /\ wrapped u = true
  | Stuck => False
  end.
Proof.
  induction fuel as [|fuel IH]; intros added t Hv Ha Hf.
  - pose proof (lv_units _ _ _ _ _ _ _ _ _ _ L t Hv). lia.
  - cbn [advance]. destruct (ok t) eqn:Hok.
    { split; [done|]. split; [split; [lia|unfold before; lia]|]. split; [reflexivity|]. split; [done|by left]. }
    assert (E : step (if added then t else start t) = next t).
    { destruct added; [by apply (lv_step_aligned _ _ _ _ _ _ _ _ _ _ L); auto|by apply (lv_step _ _ _ _ _ _ _ _ _ _ L)]. }
    rewrite E. clear E. pose proof (lv_before _ _ _ _ _ _ _ _ _ _ L t Hv) as Hb.
    assert (S0 : skipped t (next t)).
    { split; [unfold before in Hb; lia|]. intros v Hv' H1 H2. rewrite <- Hok. by apply (lv_ok _ _ _ _ _ _ _ _ _ _ L). }
    destruct (wrapped (next t)) eqn:Hw; [exists t; split_and!; [done|lia|reflexivity|done|done|done]|].
    pose proof (lv_place _ _ _ _ _ _ _ _ _ _ L t Hv Hw) as Hp.
    pose proof (lv_same _ _ _ _ _ _ _ _ _ _ L t Hv Hw) as Hs.
    specialize (IH true (next t) (lv_valid _ _ _ _ _ _ _ _ _ _ L t Hv)
      (fun _ _ => lv_aligned _ _ _ _ _ _ _ _ _ _ L t Hv) ltac:(lia)).
    assert (T : forall u, skipped (next t) u -> skipped t u).
    { intros u [H1 H2]. split; [unfold before in Hb; lia|]. intros v Hv' H3 H4.
      destruct (Z.lt_ge_cases (time_index v) (time_index (next t))); [by apply S0|by apply H2]. }
    destruct (advance _ _ _ _ _ _ _) as [a u|u|]; [| |done].
    + destruct IH as (H1 & H2 & H3 & H4 & H5). split_and!; [done|by apply T|by etransitivity|done|].
      right. destruct H5 as [[-> ->]|H5]; [|done]. split; [by apply (lv_aligned _ _ _ _ _ _ _ _ _ _ L)|done].
    + destruct IH as (v & H1 & H2 & H3 & H4 & H5 & H6). exists v. unfold before in Hb.
      split_and!; [done|lia|by etransitivity|done|by apply T|done].
Qed.
End Search.

(** ** The five levels *)

Definition next_month (t : Time) : Time :=
  let '(y, m) := after_month (t_Year t) (t_Month t) in mkTime y m 1 0 0 0.
Definition next_day (t : Time) : Time :=
  if t_Day t <? days_in (t_Year t) (t_Month t)
  then mkTime (t_Year t) (t_Month t) (t_Day t + 1) 0 0 0 else next_month t.
Definition next_hour (t : Time) : Time := if t_Hour t <? 23 then set_clock t (t_Hour t + 1) 0 0 else next_day t.
Definition next_minute (t : Time) : Time :=
  if t_Minute t <? 59 then set_clock t (t_Hour t) (t_Minute t + 1) 0 else next_hour t.
#[export] Hint Unfold next_month next_day next_hour next_minute after_month set_clock : times.

(** Case analysis on the carries, and arithmetic. *)
Ltac carry :=
  times; repeat match goal with
  | |- context [if ?b then _ else _] => destruct b eqn:?; times
  | H : context [if ?b then _ else _] |- _ => destruct b eqn:?; times
  | |- context [match ?p with (_, _) => _ end] => destruct p eqn:?; times
  end; bool_prop.
Ltac days := repeat match goal with
  | |- context [days_in ?y ?m] => lazymatch goal with
      | H : 28 <= days_in y m <= 31 |- _ => fail
      | _ => pose proof (days_in_range y m) end
  | _ : context [days_in ?y ?m] |- _ => lazymatch goal with
      | H : 28 <= days_in y m <= 31 |- _ => fail
      | _ => pose proof (days_in_range y m) end
  end.

Lemma next_month_valid t : valid t -> valid (next_month t) /\ before t (next_month t) /\ at_month (next_month t).
Proof. intros Hv. unfold next_month. destruct (after_month _ _) as [y m] eqn:E. carry; simplify_eq; days; split_and!; lia. Qed.
Lemma next_day_valid t : valid t -> valid (next_day t) /\ before t (next_day t) /\ at_day (next_day t).
Proof.
  intros Hv. unfold next_day. destruct (_ <? _) eqn:E.
  - carry; days; split_and!; lia.
  - destruct (next_month_valid t Hv) as (H1 & H2 & H3). split_and!; [done|done|by destruct H3].
Qed.
Lemma next_hour_valid t : valid t -> valid (next_hour t) /\ before t (next_hour t) /\ at_hour (next_hour t).
Proof.
  intros Hv. unfold next_hour. destruct (_ <? _) eqn:E.
  - carry; split_and!; lia.
  - destruct (next_day_valid t Hv) as (H1 & H2 & H3). split_and!; [done|done|by destruct H3].
Qed.
Lemma next_minute_valid t : valid t -> valid (next_minute t) /\ before t (next_minute t) /\ at_minute (next_minute t).
Proof.
  intros Hv. unfold next_minute. destruct (_ <? _) eqn:E.
  - carry; split_and!; lia.
  - destruct (next_hour_valid t Hv) as (H1 & H2 & H3). split_and!; [done|done|by destruct H3].
Qed.
Lemma add_second_valid t : valid t -> valid (add_second t) /\ before t (add_second t).
Proof.
  intros Hv. assert (E : add_second t = if t_Second t <? 59 then set_clock t (t_Hour t) (t_Minute t) (t_Second t + 1) else next_minute t).
  { unfold add_second, next_minute, add_minute, next_hour, add_hour, next_day, add_day, next_month. cbn. reflexivity. }
  rewrite E. destruct (_ <? _) eqn:Hs.
  - carry; split_and!; lia.
  - by destruct (next_minute_valid t Hv) as (H1 & H2 & _).
Qed.

(** ** Carries

    The beginning of the next unit is in the same unit of a higher level, or begins
    the next one. *)
Lemma carry_day t : same_month t (next_day t) \/ at_month (next_day t).
Proof. unfold next_day. destruct (_ <? _); [by left|right]. unfold next_month. by destruct (after_month _ _). Qed.
Lemma carry_hour t : same_day t (next_hour t) \/ at_day (next_hour t).
Proof.
  unfold next_hour. destruct (_ <? _); [by left|right]. unfold next_day. destruct (_ <? _); [by times|].
  unfold next_month. by destruct (after_month _ _).
Qed.
Lemma carry_hour_month t : same_month t (next_hour t) \/ at_month (next_hour t).
Proof. unfold next_hour. destruct (_ <? _); [by left|apply carry_day]. Qed.
Lemma carry_minute_month t : same_month t (next_minute t) \/ at_month (next_minute t).
Proof. unfold next_minute. destruct (_ <? _); [by left|apply carry_hour_month]. Qed.
Lemma carry_minute_day t : same_day t (next_minute t) \/ at_day (next_minute t).
Proof. unfold next_minute. destruct (_ <? _); [by left|apply carry_hour]. Qed.
Lemma carry_minute t : same_hour t (next_minute t) \/ at_hour (next_minute t).
Proof.
  unfold next_minute. destruct (_ <? _); [by left|right]. destruct (t_Hour t <? 23) eqn:E.
  - unfold next_hour. rewrite E. by times.
  - unfold next_hour. rewrite E. unfold next_day. destruct (t_Day t <? _); [by times|]. unfold next_month.
    by destruct (after_month _ _).
Qed.

(** ** What lies before the next unit is in the same unit *)

Lemma within_month t u : valid t -> valid u -> time_index t <= time_index u -> before u (next_month t) -> same_month t u.
Proof.
  intros Ht Hu H1 H2. unfold next_month in H2. destruct (after_month _ _) as [y m] eqn:E. carry; simplify_eq; days; lia.
Qed.
Lemma within_day t u : valid t -> valid u -> time_index t <= time_index u -> before u (next_day t) -> same_day t u.
Proof.
  intros Ht Hu H1 H2. unfold next_day in H2. destruct (_ <? _) eqn:E; [carry; days; lia|].
  pose proof (within_month t u Ht Hu H1 H2) as [Ey Em]. carry; rewrite <- Ey, <- Em in *; lia.
Qed.
Lemma within_hour t u : valid t -> valid u -> time_index t <= time_index u -> before u (next_hour t) -> same_hour t u.
Proof.
  intros Ht Hu H1 H2. unfold next_hour in H2. destruct (_ <? _) eqn:E; [carry; days; lia|].
  pose proof (within_day t u Ht Hu H1 H2) as Hd. carry; lia.
Qed.
Lemma within_minute t u : valid t -> valid u -> time_index t <= time_index u -> before u (next_minute t) -> same_minute t u.
Proof.
  intros Ht Hu H1 H2. unfold next_minute in H2. destruct (_ <? _) eqn:E; [carry; days; lia|].
  pose proof (within_hour t u Ht Hu H1 H2) as Hd. carry; lia.
Qed.
Lemma time_eq t u : same_minute t u -> t_Second t = t_Second u -> t = u.
Proof. destruct t, u. times. intros ([[[E1 E2] E3] E4] & E5) E6. by subst. Qed.
Lemma add_second_next t :
  add_second t = if t_Second t <? 59 then set_clock t (t_Hour t) (t_Minute t) (t_Second t + 1) else next_minute t.
Proof. reflexivity. Qed.
Lemma within_second t u : valid t -> valid u -> time_index t <= time_index u -> before u (add_second t) -> t = u.
Proof.
  intros Ht Hu H1 H2. destruct (next_minute_valid t Ht) as (_ & Hb & _). rewrite add_second_next in H2.
  assert (Hm : same_minute t u).
  { apply within_minute; [done..|]. destruct (t_Second t <? 59); [|done]. clear Ht Hu. unfold before in *.
    assert (E : time_index (set_clock t (t_Hour t) (t_Minute t) (t_Second t + 1)) = time_index t + 1) by (times; lia).
    lia. }
  apply time_eq; [done|]. destruct Hm as [[[[E1 E2] E3] E4] E5]. destruct Ht as (_ & _ & _ & _ & Ht).
  destruct Hu as (_ & _ & _ & _ & Hu). clear Hb. destruct (t_Second t <? 59) eqn:Hs; bool_prop; [times; lia|times; lia].
Qed.

(** ** The five levels are levels *)

Definition same_year (t u : Time) : Prop := t_Year t = t_Year u.
#[export] Instance same_year_equiv : Equivalence same_year.
Proof. split; [intros ?|intros ? ?|intros ? ? ?]; unfold same_year; congruence. Qed.
Ltac same_equiv := split; [intros ?|intros ? ?|intros ? ? ?]; autounfold with times; intuition congruence.
#[export] Instance same_month_equiv : Equivalence same_month.
Proof. same_equiv. Qed.
#[export] Instance same_day_equiv : Equivalence same_day.
Proof. same_equiv. Qed.
#[export] Instance same_hour_equiv : Equivalence same_hour.
Proof. same_equiv. Qed.
#[export] Instance same_minute_equiv : Equivalence same_minute.
Proof. same_equiv. Qed.

Lemma month_start_aligned t : at_month t -> month_start t = t.
Proof. destruct t. times. unfold month_start. cbn. intros (-> & -> & -> & ->). done. Qed.
Lemma day_start_aligned t : at_day t -> day_start t = t.
Proof. destruct t. times. unfold day_start, set_clock. cbn. intros (-> & -> & ->). done. Qed.
Lemma hour_start_aligned t : at_hour t -> hour_start t = t.
Proof. destruct t. times. unfold hour_start, set_clock. cbn. intros (-> & ->). done. Qed.
Lemma minute_start_aligned t : at_minute t -> minute_start t = t.
Proof. destruct t. times. unfold minute_start, set_clock. cbn. intros ->. done. Qed.

Lemma add_month_start t : add_month (month_start t) = next_month t.
Proof.
  unfold add_month, next_month, month_start. cbn. destruct (after_month _ _) as [y m].
  pose proof (days_in_range y m). by rewrite (proj2 (Z.leb_le _ _)) by lia.
Qed.
Lemma add_day_start t : add_day (day_start t) = next_day t.
Proof. unfold add_day, next_day, next_month, day_start, set_clock. cbn. by destruct (_ <? _). Qed.
Lemma add_hour_start t : add_hour (hour_start t) = next_hour t.
Proof.
  unfold add_hour, next_hour, hour_start, set_clock. cbn. destruct (_ <? 23); [done|].
  rewrite <- (add_day_start t). reflexivity.
Qed.
Lemma add_minute_start t : add_minute (minute_start t) = next_minute t.
Proof.
  unfold add_minute, next_minute, minute_start, set_clock. cbn. destruct (_ <? 59); [done|].
  rewrite <- (add_hour_start t). reflexivity.
Qed.

Section Levels.
Context (s : SpecSchedule).

Lemma level_month : Level (ok_month s) month_start add_month (fun t => t_Month t =? 1) next_month
  (fun t => t_Month t - 1) 12 at_month at_year same_year.
Proof.
  split.
  - intros t _. apply add_month_start.
  - intros t _ Ha. rewrite <- (add_month_start t). by rewrite month_start_aligned.
  - intros t Ht. by apply next_month_valid.
  - intros t Ht. by apply next_month_valid.
  - intros t Ht. by apply next_month_valid.
  - intros t u Ht Hu H1 H2. destruct (within_month t u Ht Hu H1 H2) as [_ E]. unfold ok_month. by rewrite E.
  - intros t Ht Hw. split; [lia|by apply next_month_valid].
  - intros t Ht. unfold next_month, after_month. by destruct (_ =? 12).
  - intros t Ht. unfold next_month, after_month. destruct (_ =? 12); cbn; [done|]. lia.
  - intros t (H1 & _). lia.
Qed.
Lemma level_day : Level (dayMatches s) day_start add_day (fun t => t_Day t =? 1) next_day
  (fun t => t_Day t - 1) 31 at_day at_month same_month.
Proof.
  split.
  - intros t _. apply add_day_start.
  - intros t _ Ha. rewrite <- (add_day_start t). by rewrite day_start_aligned.
  - intros t Ht. by apply next_day_valid.
  - intros t Ht. by apply next_day_valid.
  - intros t Ht. by apply next_day_valid.
  - intros t u Ht Hu H1 H2. destruct (within_day t u Ht Hu H1 H2) as [[E1 E2] E3].
    unfold dayMatches, Weekday. by rewrite E1, E2, E3.
  - intros t Ht Hw. split; [lia|by apply next_day_valid].
  - intros t Ht. unfold next_day. destruct (_ <? _); [done|]. unfold next_month. by destruct (after_month _ _).
  - intros t Ht. unfold next_day. destruct (_ <? _); [cbn; lia|]. unfold next_month. by destruct (after_month _ _).
  - intros t (_ & H1 & _). days. lia.
Qed.
Lemma level_hour : Level (ok_hour s) hour_start add_hour (fun t => t_Hour t =? 0) next_hour
  t_Hour 24 at_hour at_day same_day.
Proof.
  split.
  - intros t _. apply add_hour_start.
  - intros t _ Ha. rewrite <- (add_hour_start t). by rewrite hour_start_aligned.
  - intros t Ht. by apply next_hour_valid.
  - intros t Ht. by apply next_hour_valid.
  - intros t Ht. by apply next_hour_valid.
  - intros t u Ht Hu H1 H2. destruct (within_hour t u Ht Hu H1 H2) as [_ E]. unfold ok_hour. by rewrite E.
  - intros t Ht Hw. split; [lia|by apply next_hour_valid].
  - intros t Ht. destruct (carry_hour t) as [C|[C _]]; [done|]. by rewrite C.
  - intros t Ht. unfold next_hour. destruct (_ <? _); [done|]. destruct (next_day_valid t Ht) as (_ & _ & C & _).
    by rewrite C.
  - intros t (_ & _ & H1 & _). lia.
Qed.
Lemma level_minute : Level (ok_minute s) minute_start add_minute (fun t => t_Minute t =? 0) next_minute
  t_Minute 60 at_minute at_hour same_hour.
Proof.
  split.
  - intros t _. apply add_minute_start.
  - intros t _ Ha. rewrite <- (add_minute_start t). by rewrite minute_start_aligned.
  - intros t Ht. by apply next_minute_valid.
  - intros t Ht. by apply next_minute_valid.
  - intros t Ht. by apply next_minute_valid.
  - intros t u Ht Hu H1 H2. destruct (within_minute t u Ht Hu H1 H2) as [_ E]. unfold ok_minute. by rewrite E.
  - intros t Ht Hw. split; [lia|by apply next_minute_valid].
  - intros t Ht. destruct (carry_minute t) as [C|[C _]]; [done|]. by rewrite C.
  - intros t Ht. unfold next_minute. destruct (_ <? _); [done|]. destruct (next_hour_valid t Ht) as (_ & _ & C & _).
    by rewrite C.
  - intros t (_ & _ & _ & H1 & _). lia.
Qed.
Lemma level_second : Level (ok_second s) id add_second (fun t => t_Second t =? 0) add_second
  t_Second 60 (fun _ => True) at_minute same_minute.
Proof.
  split; try done.
  - intros t Ht. by apply add_second_valid.
  - intros t Ht. by apply add_second_valid.
  - intros t u Ht Hu H1 H2. by rewrite (within_second t u Ht Hu H1 H2).
  - intros t Ht Hw. unfold at_minute. lia.
  - intros t Ht. rewrite add_second_next. destruct (_ <? _); [done|].
    destruct (next_minute_valid t Ht) as (_ & _ & C). by rewrite C.
  - intros t Ht. rewrite add_second_next. destruct (_ <? _); [done|].
    destruct (next_minute_valid t Ht) as (_ & _ & C). by rewrite C.
  - intros t (_ & _ & _ & _ & H1). lia.
Qed.
End Levels.

(** ** One pass *)

Lemma carry_second_month t : same_month t (add_second t) \/ at_month (add_second t).
Proof. rewrite add_second_next. destruct (_ <? _); [by left|apply carry_minute_month]. Qed.
Lemma carry_second_day t : same_day t (add_second t) \/ at_day (add_second t).
Proof. rewrite add_second_next. destruct (_ <? _); [by left|apply carry_minute_day]. Qed.
Lemma carry_second_hour t : same_hour t (add_second t) \/ at_hour (add_second t).
Proof. rewrite add_second_next. destruct (_ <? _); [by left|apply carry_minute]. Qed.

(** No step leaves the year by more than its end. *)
Definition year_end (t : Time) : Z := (t_Year t + 1) * 32140800.
Lemma next_month_end t : valid t -> time_index (next_month t) <= year_end t.
Proof. intros Hv. unfold next_month, after_month, year_end. destruct (_ =? 12) eqn:E; times; lia. Qed.
Lemma next_day_end t : valid t -> time_index (next_day t) <= year_end t.
Proof.
  intros Hv. unfold next_day. destruct (_ <? _) eqn:E; [|by apply next_month_end]. unfold year_end. times. days. lia.
Qed.
Lemma next_hour_end t : valid t -> time_index (next_hour t) <= year_end t.
Proof.
  intros Hv. unfold next_hour. destruct (_ <? _) eqn:E; [|by apply next_day_end]. unfold year_end. times. days. lia.
Qed.
Lemma next_minute_end t : valid t -> time_index (next_minute t) <= year_end t.
Proof.
  intros Hv. unfold next_minute. destruct (_ <? _) eqn:E; [|by apply next_hour_end]. unfold year_end. times. days. lia.
Qed.
Lemma add_second_end t : valid t -> time_index (add_second t) <= year_end t.
Proof.
  intros Hv. rewrite add_second_next. destruct (_ <? _) eqn:E; [|by apply next_minute_end]. unfold year_end. times. days. lia.
Qed.

Section Pass.
Context (s : SpecSchedule).

(** The times that fit. *)
Definition fits (t : Time) : bool := ok_month s t && dayMatches s t && ok_hour s t && ok_minute s t && ok_second s t.

(** No time from [t] on before [u] fits. *)
Definition clear (t u : Time) : Prop :=
  time_index t <= time_index u /\ forall v, valid v -> time_index t <= time_index v -> before v u -> fits v = false.

Lemma clear_trans t u v : clear t u -> clear u v -> clear t v.
Proof.
  intros [H1 H2] [H3 H4]. split; [lia|]. intros x Hx H5 H6.
  destruct (Z.lt_ge_cases (time_index x) (time_index u)); [by apply H2|by apply H4].
Qed.
Lemma skipped_clear (ok : Time -> bool) t u :
  (forall v, ok v = false -> fits v = false) -> skipped ok t u -> clear t u.
Proof. intros Hok [H1 H2]. split; [done|]. intros v Hv H3 H4. by apply Hok, H2. Qed.
Lemma unfit_month v : ok_month s v = false -> fits v = false.
Proof. unfold fits. by intros ->. Qed.
Lemma unfit_day v : dayMatches s v = false -> fits v = false.
Proof. unfold fits. intros ->. by rewrite andb_false_r. Qed.
Lemma unfit_hour v : ok_hour s v = false -> fits v = false.
Proof. unfold fits. intros ->. by rewrite andb_false_r. Qed.
Lemma unfit_minute v : ok_minute s v = false -> fits v = false.
Proof. unfold fits. intros ->. by rewrite andb_false_r. Qed.
Lemma unfit_second v : ok_second s v = false -> fits v = false.
Proof. unfold fits. intros ->. by rewrite andb_false_r. Qed.

Lemma same_month_ok t u : same_month t u -> ok_month s u = ok_month s t.
Proof. intros [_ E]. unfold ok_month. by rewrite E. Qed.
Lemma same_day_ok t u : same_day t u -> dayMatches s u = dayMatches s t.
Proof. intros [[E1 E2] E3]. unfold dayMatches, Weekday. by rewrite E1, E2, E3. Qed.
Lemma same_hour_ok t u : same_hour t u -> ok_hour s u = ok_hour s t.
Proof. intros [_ E]. unfold ok_hour. by rewrite E. Qed.
Lemma same_minute_ok t u : same_minute t u -> ok_minute s u = ok_minute s t.
Proof. intros [_ E]. unfold ok_minute. by rewrite E. Qed.

(** Once a component was moved, a component that does not fit has the lower ones at
    their beginning. *)
Definition begun (t : Time) : Prop :=
  (ok_month s t = false -> at_month t) /\ (dayMatches s t = false -> at_day t) /\
  (ok_hour s t = false -> at_hour t) /\ (ok_minute s t = false -> at_minute t).

Lemma begun_month t : at_month t -> begun t.
Proof. intros (H1 & H2). split_and!; intros _; [done|done|by destruct H2|by destruct H2 as (_ & _ & ?)]. Qed.
Lemma begun_day t : at_day t -> (ok_month s t = false -> at_month t) -> begun t.
Proof. intros H1 H2. split_and!; [done|done|intros _; by destruct H1|intros _; by destruct H1 as (_ & _ & ?)]. Qed.
Lemma begun_hour t : at_hour t -> (ok_month s t = false -> at_month t) -> (dayMatches s t = false -> at_day t) -> begun t.
Proof. intros H1 H2 H3. split_and!; [done|done|done|intros _; by destruct H1]. Qed.

(** What is known before the search of a level when those above fit. *)
Definition ready (added : bool) (t : Time) : Prop := valid t /\ (added = true -> begun t).

(** After a level: nothing moved, or the components below begin. *)
Lemma ready_after added added' t u :
  ready added t -> valid u -> (u = t /\ added' = added \/ begun u /\ added' = true) -> ready added' u.
Proof. intros [H1 H2] Hu [[-> ->] | [H3 _]]; by split. Qed.

Definition found_end (t : Time) (r : found) : Prop :=
  match r with
  | Fires u => valid u /\ clear t u /\ fits u = true
  | Again u => valid u /\ clear t u /\ before t u /\ begun u /\ time_index u <= year_end t
  | Never | Lost => False
  end.

(** The rest of a pass from [u] on, when nothing from [t] on before [u] fits. *)
Lemma found_end_after t u r : clear t u -> t_Year u = t_Year t -> found_end u r -> found_end t r.
Proof.
  intros C E. destruct r as [v| |v|]; cbn; [| done|intros (H1 & H2 & H3 & H4 & H5)|done].
  - intros (H1 & H2 & H3). split_and!; [done|by eapply clear_trans|done].
  - pose proof (clear_trans _ _ _ C H2). destruct C as [C _]. unfold before, year_end in *.
    split_and!; [done|done|lia|done|by rewrite <- E].
Qed.

(** A component that started again. *)
Lemma again_end (ok : Time -> bool) t v next :
  valid v -> valid (next v) -> (forall v, ok v = false -> fits v = false) -> skipped ok t (next v) ->
  time_index t <= time_index v -> before v (next v) -> t_Year v = t_Year t -> time_index (next v) <= year_end v ->
  begun (next v) -> found_end t (Again (next v)).
Proof.
  intros Hv Hn Hok Hs Ht Hb Hy He Hg. unfold before, year_end in *. cbn.
  split_and!; [done|by eapply skipped_clear|unfold before; lia|done|unfold year_end; by rewrite <- Hy].
Qed.

(** ** The levels from below *)

Definition second_search (added : bool) (t : Time) : found := then_find (find_second s added t) (fun _ t => Fires t).
Definition minute_search (added : bool) (t : Time) : found := then_find (find_minute s added t) second_search.
Definition hour_search (added : bool) (t : Time) : found := then_find (find_hour s added t) minute_search.
Definition day_search (added : bool) (t : Time) : found := then_find (find_day s added t) hour_search.
Definition month_search (added : bool) (t : Time) : found := then_find (find_month s added t) day_search.

Lemma second_search_end added t : ready added t ->
  ok_month s t = true -> dayMatches s t = true -> ok_hour s t = true -> ok_minute s t = true ->
  found_end t (second_search added t).
Proof.
  intros [Hv _] Hmo Hd Hh Hmi. unfold second_search, find_second.
  pose proof (advance_exact _ _ _ _ _ _ _ _ _ _ same_minute_equiv (level_second s) 60 added t Hv (fun _ _ => I)
    ltac:(pose proof (lv_units _ _ _ _ _ _ _ _ _ _ (level_second s) t Hv); lia)) as A.
  destruct (advance _ _ _ _ _ _ _) as [a u|u|]; cbn [then_find]; [| |done].
  - destruct A as (H1 & H2 & H3 & H4 & _). cbn. split_and!; [done|by apply (skipped_clear (ok_second s)), H2; apply unfit_second|].
    unfold fits. rewrite H4, (same_minute_ok t u), (same_hour_ok t u), (same_day_ok t u), (same_month_ok t u) by apply H3.
    by rewrite Hmo, Hd, Hh, Hmi.
  - destruct A as (v & H1 & H2 & H3 & -> & H5 & H6). destruct (add_second_valid v H1) as [V B].
    apply (again_end (ok_second s)); [done|done|apply unfit_second|done|done|done|symmetry; apply H3|by apply add_second_end|].
    pose proof (lv_wrapped _ _ _ _ _ _ _ _ _ _ (level_second s) v H1 H6) as W.
    split_and!; [| | |done].
    + intros F. destruct (carry_second_month v) as [C|C]; [|done].
      rewrite (same_month_ok v), (same_month_ok t) in F by (done || apply H3). congruence.
    + intros F. destruct (carry_second_day v) as [C|C]; [|done].
      rewrite (same_day_ok v), (same_day_ok t) in F by (done || apply H3). congruence.
    + intros F. destruct (carry_second_hour v) as [C|C]; [|done].
      rewrite (same_hour_ok v), (same_hour_ok t) in F by (done || apply H3). congruence.
Qed.

Lemma minute_search_end added t : ready added t ->
  ok_month s t = true -> dayMatches s t = true -> ok_hour s t = true -> found_end t (minute_search added t).
Proof.
  intros [Hv Ha] Hmo Hd Hh. unfold minute_search, find_minute.
  pose proof (advance_exact _ _ _ _ _ _ _ _ _ _ same_hour_equiv (level_minute s) 60 added t Hv
    (fun E => proj2 (proj2 (proj2 (Ha E))))
    ltac:(pose proof (lv_units _ _ _ _ _ _ _ _ _ _ (level_minute s) t Hv); lia)) as A.
  destruct (advance _ _ _ _ _ _ _) as [a u|u|]; cbn [then_find]; [| |done].
  - destruct A as (H1 & H2 & H3 & H4 & H5).
    assert (Eh : ok_hour s u = true) by (by rewrite (same_hour_ok t u)).
    assert (Ed : dayMatches s u = true) by (rewrite (same_day_ok t u); [done|apply H3]).
    assert (Em : ok_month s u = true) by (rewrite (same_month_ok t u); [done|apply H3]).
    apply (found_end_after t u); [by apply (skipped_clear (ok_minute s)), H2; apply unfit_minute|symmetry; apply H3|].
    apply second_search_end; [|done..]. apply (ready_after added a t); [by split|done|].
    destruct H5 as [H5|[H5 ->]]; [by left|right; split; [|done]]. split_and!; congruence || done.
  - destruct A as (v & H1 & H2 & H3 & -> & H5 & H6). destruct (next_minute_valid v H1) as (V & B & _).
    apply (again_end (ok_minute s)); [done|done|apply unfit_minute|done|done|done|symmetry; apply H3|by apply next_minute_end|].
    pose proof (lv_wrapped _ _ _ _ _ _ _ _ _ _ (level_minute s) v H1 H6) as W. apply begun_hour; [done| |].
    + intros F. destruct (carry_minute_month v) as [C|C]; [|done].
      rewrite (same_month_ok v), (same_month_ok t) in F by (done || apply H3). congruence.
    + intros F. destruct (carry_minute_day v) as [C|C]; [|done].
      rewrite (same_day_ok v), (same_day_ok t) in F by (done || apply H3). congruence.
Qed.

Lemma hour_search_end added t : ready added t ->
  ok_month s t = true -> dayMatches s t = true -> found_end t (hour_search added t).
Proof.
  intros [Hv Ha] Hmo Hd. unfold hour_search, find_hour.
  pose proof (advance_exact _ _ _ _ _ _ _ _ _ _ same_day_equiv (level_hour s) 24 added t Hv
    (fun E => proj1 (proj2 (proj2 (Ha E))))
    ltac:(pose proof (lv_units _ _ _ _ _ _ _ _ _ _ (level_hour s) t Hv); lia)) as A.
  destruct (advance _ _ _ _ _ _ _) as [a u|u|]; cbn [then_find]; [| |done].
  - destruct A as (H1 & H2 & H3 & H4 & H5).
    assert (Ed : dayMatches s u = true) by (by rewrite (same_day_ok t u)).
    assert (Em : ok_month s u = true) by (rewrite (same_month_ok t u); [done|apply H3]).
    apply (found_end_after t u); [by apply (skipped_clear (ok_hour s)), H2; apply unfit_hour|symmetry; apply H3|].
    apply minute_search_end; [|done..]. apply (ready_after added a t); [by split|done|].
    destruct H5 as [H5|[H5 ->]]; [by left|right; split; [|done]].
    split_and!; [congruence|congruence|congruence|intros _; apply H5].
  - destruct A as (v & H1 & H2 & H3 & -> & H5 & H6). destruct (next_hour_valid v H1) as (V & B & _).
    apply (again_end (ok_hour s)); [done|done|apply unfit_hour|done|done|done|symmetry; apply H3|by apply next_hour_end|].
    pose proof (lv_wrapped _ _ _ _ _ _ _ _ _ _ (level_hour s) v H1 H6) as W. apply begun_day; [done|].
    intros F. destruct (carry_hour_month v) as [C|C]; [|done].
    rewrite (same_month_ok v), (same_month_ok t) in F by (done || apply H3). congruence.
Qed.

Lemma day_search_end added t : ready added t -> ok_month s t = true -> found_end t (day_search added t).
Proof.
  intros [Hv Ha] Hmo. unfold day_search, find_day.
  pose proof (advance_exact _ _ _ _ _ _ _ _ _ _ same_month_equiv (level_day s) 31 added t Hv
    (fun E => proj1 (proj2 (Ha E)))
    ltac:(pose proof (lv_units _ _ _ _ _ _ _ _ _ _ (level_day s) t Hv); lia)) as A.
  destruct (advance _ _ _ _ _ _ _) as [a u|u|]; cbn [then_find]; [| |done].
  - destruct A as (H1 & H2 & H3 & H4 & H5).
    assert (Em : ok_month s u = true) by (by rewrite (same_month_ok t u)).
    apply (found_end_after t u); [by apply (skipped_clear (dayMatches s)), H2; apply unfit_day|symmetry; apply H3|].
    apply hour_search_end; [|done..]. apply (ready_after added a t); [by split|done|].
    destruct H5 as [H5|[H5 ->]]; [by left|right; split; [|done]]. apply begun_day; [done|congruence].
  - destruct A as (v & H1 & H2 & H3 & -> & H5 & H6). destruct (next_day_valid v H1) as (V & B & _).
    apply (again_end (dayMatches s)); [done|done|apply unfit_day|done|done|done|symmetry; apply H3|by apply next_day_end|].
    apply begun_month, (lv_wrapped _ _ _ _ _ _ _ _ _ _ (level_day s) v H1 H6).
Qed.

Lemma month_search_end added t : ready added t -> found_end t (month_search added t).
Proof.
  intros [Hv Ha]. unfold month_search, find_month.
  pose proof (advance_exact _ _ _ _ _ _ _ _ _ _ same_year_equiv (level_month s) 12 added t Hv
    (fun E => proj1 (Ha E))
    ltac:(pose proof (lv_units _ _ _ _ _ _ _ _ _ _ (level_month s) t Hv); lia)) as A.
  destruct (advance _ _ _ _ _ _ _) as [a u|u|]; cbn [then_find]; [| |done].
  - destruct A as (H1 & H2 & H3 & H4 & H5).
    apply (found_end_after t u); [by apply (skipped_clear (ok_month s)), H2; apply unfit_month|symmetry; apply H3|].
    apply day_search_end; [|done..]. apply (ready_after added a t); [by split|done|].
    destruct H5 as [H5|[H5 ->]]; [by left|right; split; [|done]]. by apply begun_month.
  - destruct A as (v & H1 & H2 & H3 & -> & H5 & H6). destruct (next_month_valid v H1) as (V & B & M).
    apply (again_end (ok_month s)); [done|done|apply unfit_month|done|done|done|symmetry; apply H3|by apply next_month_end|].
    by apply begun_month.
Qed.

(** ** The passes together *)

Lemma clear_refl t : clear t t.
Proof. split; [lia|]. intros v _ H1 H2. unfold before in H2. lia. Qed.

Lemma search_end depth : forall yearLimit added t, ready added t ->
  match search s depth yearLimit added t with
  | Fires u => valid u /\ clear t u /\ fits u = true
  | Never => exists u, clear t u /\ yearLimit < t_Year u /\ valid u
  | Again u => ready true u /\ clear t u /\ time_index t + 2 ^ Z.of_nat depth <= time_index u <= (yearLimit + 1) * 32140800
  | Lost => False
  end.
Proof.
  induction depth as [|d IH]; intros yearLimit added t Hr; cbn [search].
  - unfold search_pass. destruct (yearLimit <? t_Year t) eqn:E; bool_prop.
    { exists t. destruct Hr. split_and!; [apply clear_refl|done|done]. }
    pose proof (month_search_end added t Hr) as M. change (found_end t (month_search added t)) in M.
    change (then_find (find_month s added t) _) with (month_search added t).
    destruct (month_search added t) as [u| |u|]; cbn in M; [done|done| |done].
    destruct M as (M1 & M2 & M3 & M4 & M5). split; [by split|]. split; [done|]. unfold before, year_end in *. cbn. lia.
  - pose proof (IH yearLimit added t Hr) as H1. destruct (search s d yearLimit added t) as [u| |u|]; try done.
    destruct H1 as (R1 & C1 & B1). pose proof (IH yearLimit true u R1) as H2.
    destruct (search s d yearLimit true u) as [v| |v|]; [| | |done].
    + destruct H2 as (V & C2 & F). split_and!; [done|by eapply clear_trans|done].
    + destruct H2 as (v & C2 & L & V). exists v. split_and!; [by eapply clear_trans|done|done].
    + destruct H2 as (R2 & C2 & B2). split_and!; [done|by eapply clear_trans|..|lia].
      rewrite Nat2Z.inj_succ, Z.pow_succ_r by lia. lia.
Qed.
End Pass.

(** C33: the next activation of a cron schedule is the first second after the time
    that fits it, and finding it always ends. The search gives a valid later time whose month, day, hour,
    minute and second all fit the schedule, with none in between; or it says never,
    and then no time up to the fifth year after fits. It never runs out of passes. *)
Theorem next_activation_exact (s : SpecSchedule) (t : Time) : valid t ->
  match search_next s t with
  | Fires u => valid u /\ before t u /\ fits s u = true /\
               forall v, valid v -> before t v -> before v u -> fits s v = false
  | Never => forall v, valid v -> before t v -> t_Year v <= t_Year t + 5 -> fits s v = false
  | Again _ | Lost => False
  end.
Proof.
  intros Hv. destruct (add_second_valid t Hv) as [Hv' Hb]. set (t' := add_second t) in *.
  assert (N : forall v, valid v -> before t v -> time_index t' <= time_index v).
  { intros v V B. destruct (Z.le_gt_cases (time_index t') (time_index v)) as [|G]; [done|exfalso].
    unfold before in *. assert (t = v) as <- by (apply within_second; [done|done|lia|unfold before; fold t'; lia]). lia. }
  assert (Y : t_Year t <= t_Year t').
  { unfold before in Hb. destruct Hv as (? & ? & ? & ? & ?), Hv' as (? & ? & ? & ? & ?). days.
    unfold time_index, day_index in *. lia. }
  unfold search_next. fold t'. pose proof (search_end s search_depth (t_Year t' + 5) false t' ltac:(by split)) as S.
  destruct (search s search_depth (t_Year t' + 5) false t') as [u| |u|]; [| | |done].
  - destruct S as (V & [C1 C2] & F). unfold before in *. split_and!; [done|lia|done|]. intros v Vv B1 B2. apply C2; auto.
  - destruct S as (u & [C1 C2] & L & V). intros v Vv B Hy. apply C2; [done|by apply N|].
    destruct Vv as (? & ? & ? & ? & ?), V as (? & ? & ? & ? & ?). days. unfold before, time_index, day_index. lia.
  - destruct S as (_ & _ & B). destruct Hv' as (? & ? & ? & ? & ?). days.
    change (2 ^ Z.of_nat search_depth) with 268435456 in B. unfold time_index at 1, day_index in B. lia.
Qed.

(** ** The bits of a range *)

Lemma u64_testbit x k : 0 <= k -> Z.testbit (u64 x) k = (k <? 64) && Z.testbit x k.
Proof.
  intros Hk. unfold u64. change two64 with (2 ^ 64). destruct (Z.ltb_spec k 64); cbn [andb].
  - by rewrite Z.mod_pow2_bits_low by lia.
  - by rewrite Z.mod_pow2_bits_high by lia.
Qed.
Lemma ones_testbit k : 0 <= k -> Z.testbit (max_uint 64) k = (k <? 64).
Proof. intros Hk. change (max_uint 64) with (Z.ones 64). apply Z.testbit_ones_nonneg; lia. Qed.
Lemma shl_testbit x n k : 0 <= n -> 0 <= k -> Z.testbit (Z.shiftl x n) k = (n <=? k) && Z.testbit x (k - n).
Proof.
  intros Hn Hk. rewrite Z.shiftl_spec by done. destruct (Z.leb_spec n k); [done|]. by rewrite Z.testbit_neg_r by lia.
Qed.

Lemma bits_between_testbit min max k : 0 <= min -> 0 <= max -> max <= 62 -> 0 <= k ->
  Z.testbit (bits_between min max) k = (min <=? k) && (k <=? max).
Proof.
  intros H1 H2 H3 Hk. unfold bits_between. rewrite Z.land_spec, Z.lxor_spec, !u64_testbit, !shl_testbit, ones_testbit by lia.
  destruct (Z.leb_spec (max + 1) k), (Z.leb_spec min k), (Z.leb_spec k max), (Z.ltb_spec k 64); try lia; cbn;
    rewrite ?ones_testbit by lia; destruct (Z.ltb_spec (k - (max + 1)) 64), (Z.ltb_spec (k - min) 64); lia || done.
Qed.

(** The loop sets every [step]-th bit from [i] on. *)
Lemma bits_loop_testbit fuel i max step bits :
  2 <= step < 2 ^ 63 -> 0 <= i -> max <= 63 -> i <= max + step -> max < i + Z.of_nat fuel * step ->
  exists b, bits_loop fuel i max step bits = Value b /\
    forall k, 0 <= k -> Z.testbit b k = Z.testbit bits k || ((i <=? k) && (k <=? max) && ((k - i) mod step =? 0)).
Proof.
  revert i bits. induction fuel as [|fuel IH]; intros i bits Hs Hi Hm Hb Hf; cbn [bits_loop].
  - destruct (Z.leb_spec i max); [lia|]. exists bits. split; [done|]. intros k Hk.
    destruct (Z.leb_spec i k), (Z.leb_spec k max); try lia; cbn; by rewrite orb_false_r.
  - destruct (Z.leb_spec i max) as [Hle|Hle].
    + assert (Hu : u64 (i + step) = i + step) by (apply u64_small; unfold is_u64; change two64 with (2 ^ 64); lia). rewrite Hu.
      destruct (IH (i + step) (Z.lor bits (u64 (Z.shiftl 1 i)))) as (b & E & B); [done|lia|done|lia|lia|].
      exists b. split; [done|]. intros k Hk. rewrite B, Z.lor_spec, u64_testbit, shl_testbit by lia.
      rewrite <- orb_assoc. f_equal.
      replace ((k - (i + step)) mod step) with ((k - i) mod step)
        by (replace (k - (i + step)) with (k - i + (-1) * step) by lia; by rewrite Z.mod_add by lia).
      destruct (Z.eq_dec k i) as [->|Hne].
      * rewrite Z.sub_diag, Z.mod_0_l by lia. destruct (Z.ltb_spec i 64), (Z.leb_spec i i), (Z.leb_spec i max); lia || done.
      * assert (T : Z.testbit 1 (k - i) = false).
        { destruct (Z.lt_ge_cases (k - i) 0); [by apply Z.testbit_neg_r|]. change 1 with (2 ^ 0). apply Z.pow2_bits_false. lia. }
        rewrite T, !andb_false_r. cbn [orb].
        destruct (Z.leb_spec (i + step) k), (Z.leb_spec i k); try lia; cbn [andb]; try done.
        rewrite Z.mod_small by lia. destruct (Z.eqb_spec (k - i) 0); [lia|]. by rewrite andb_false_r.
    + exists bits. split; [done|]. intros k Hk. destruct (Z.leb_spec i k), (Z.leb_spec k max); try lia; cbn; by rewrite orb_false_r.
Qed.

(** Every step but zero ends, with the bits of the range at whole steps from its start. *)
Lemma getBits_exact min max step : 0 <= min <= max -> max <= 62 -> 0 < step < 2 ^ 63 ->
  exists b, getBits min max step = Value b /\
    forall k, 0 <= k -> Z.testbit b k = (min <=? k) && (k <=? max) && ((k - min) mod step =? 0).
Proof.
  intros H1 H2 H3. unfold getBits. destruct (Z.eqb_spec step 1) as [->|Hne].
  - eexists. split; [done|]. intros k Hk. rewrite bits_between_testbit, Z.mod_1_r by lia. by rewrite andb_true_r.
  - destruct (bits_loop_testbit 64 min max step 0) as (b & E & B); try lia.
    exists b. split; [done|]. intros k Hk. rewrite B by done. by rewrite Z.bits_0.
Qed.

(** ** Examples *)

Definition new_year_eve : Time := mkTime 2024 12 31 23 59 59.
Definition sunday_noon : SpecSchedule := mkSpec 1 1 (Z.shiftl 1 12) (all dom) (all months) 1 "Local".

Lemma next_activation_exact_witness :
  valid new_year_eve /\
  (forall v, valid v -> before new_year_eve v -> before v (mkTime 2025 1 5 12 0 0) -> fits sunday_noon v = false) /\
  forall v, valid v -> before new_year_eve v -> t_Year v <= 2029 ->
    fits (mkSpec 1 1 1 (Z.shiftl 1 31) (Z.shiftl 1 2) (all dow) "Local") v = false.
Proof.
  assert (V : valid new_year_eve) by (vm_compute; intuition discriminate).
  split; [exact V|]. split.
  - pose proof (next_activation_exact sunday_noon new_year_eve V) as E.
    replace (search_next sunday_noon new_year_eve) with (Fires (mkTime 2025 1 5 12 0 0)) in E by (vm_compute; reflexivity).
    apply E.
  - pose proof (next_activation_exact (mkSpec 1 1 1 (Z.shiftl 1 31) (Z.shiftl 1 2) (all dow) "Local") new_year_eve V) as E.
    replace (search_next _ new_year_eve) with Never in E by (vm_compute; reflexivity). exact E.
Defined.
