(* ===== verification/Scheduler.v ===== *)
(** * The scheduler of a cluster (utils/cron/cron.go, cluster_set.go, cluster_tgl.go)

    The runner of cron jobs and what a cluster does with it. The loop of the runner is
    a goroutine: the operations of a running runner are events of its loop, and [clock]
    is the time at which the loop takes note of them. A blocked channel is [Hang]. *)

From Stdlib Require Import ZArith Lia Bool Ascii String Permutation Sorted.
From stdpp Require Import base list gmap strings functions.
From S2P Require Import Prelude GoLib Cluster Cron.

Local Open Scope string_scope.
Local Open Scope list_scope.
Local Open Scope Z_scope.

#[export] Instance Time_eq_dec : EqDecision Time.
Proof. solve_decision. Defined.

#[export] Instance outcome_ret : MRet outcome := @Ret.
#[export] Instance outcome_bind : MBind outcome := fun A B f m =>
  match m with Ret a => f a | Panic => Panic | Hang => Hang end.

(** ** The jobs of a cluster *)

Inductive SchedJob :=
| BackupLogical | BackupPhysical | LogsTableRotate | ErrorLogs | Optimize | Analyze
| RestartRolling | ReprovRolling | SlaRotate | DbJobsSsh | AlertDisable.
#[export] Instance SchedJob_eq_dec : EqDecision SchedJob.
Proof. solve_decision. Defined.

(** The key of the job in [cluster.Schedule]. *)
Definition schedule_name (j : SchedJob) : string :=
  match j with
  | BackupLogical => "backuplogical" | BackupPhysical => "backupphysical" | LogsTableRotate => "logstablerotate"
  | ErrorLogs => "errorlogs" | Optimize => "optimize" | Analyze => "analyze" | RestartRolling => "rollingrestart"
  | ReprovRolling => "rollingreprov" | SlaRotate => "slarotate" | DbJobsSsh => "dbjobsssh" | AlertDisable => "alertdisable"
  end.

(** ** The runner (cron.go) *)

(** The zero entry has no job; [None] is the zero time. *)
Record Entry := mkEntry {
  e_ID : Z; e_Schedule : option Schedule; e_Next : option Time; e_Prev : option Time;
  e_Job : option SchedJob; e_Spec : string
}.
Definition zeroEntry : Entry := mkEntry 0 None None None None "".

(** [now] is the variable of the loop. *)
Record Cron := mkCron { cr_entries : list Entry; cr_running : bool; cr_nextID : Z; cr_now : Time }.

Definition New (clock : Time) : Cron := mkCron [] false 0 clock.

Definition byTime_Less (a b : Entry) : bool :=
  match e_Next a, e_Next b with
  | None, _ => false
  | Some _, None => true
  | Some t, Some u => Before t u
  end.

Definition entry_next `{GoTime} (e : Entry) (t : Time) : option Time :=
  match e_Schedule e with Some s => Schedule_Next s t | None => None end.
Definition with_next (n : option Time) (e : Entry) : Entry :=
  mkEntry (e_ID e) (e_Schedule e) n (e_Prev e) (e_Job e) (e_Spec e).

Section Runner.
Context `{GoSort} `{GoTime}.

(** The entries when the loop waits for an event: sorted, if there is a loop. *)
Definition waiting (c : Cron) : list Entry :=
  if cr_running c then go_sort byTime_Less (cr_entries c) else cr_entries c.
(** The loop has dealt with an event. *)
Definition noted (clock : Time) (c : Cron) (entries : list Entry) : Cron :=
  mkCron entries (cr_running c) (cr_nextID c) (if cr_running c then clock else cr_now c).

(** A running loop computes the activation of a new entry from [now], the time of the
    event before. *)
Definition cron_Schedule (clock : Time) (schedule : Schedule) (cmd : SchedJob) (spec : string) (c : Cron) : Z * Cron :=
  let id := cr_nextID c + 1 in
  let entry := mkEntry id (Some schedule) None None (Some cmd) spec in
  let entry := if cr_running c then with_next (entry_next entry (cr_now c)) entry else entry in
  let c' := noted clock c (waiting c ++ [entry]) in
  (id, mkCron (cr_entries c') (cr_running c') id (cr_now c')).
Definition AddFunc (clock : Time) (spec : string) (cmd : SchedJob) (c : Cron) : outcome (Z * bool * Cron) :=
  match Parse spec with
  | Loops => Hang
  | Bad => Ret (0, false, c)
  | Value s => let '(id, c) := cron_Schedule clock s cmd spec c in Ret (id, true, c)
  end.

Definition cron_Entry (clock : Time) (id : Z) (c : Cron) : Entry * Cron :=
  let entries := waiting c in
  (default zeroEntry (List.find (fun e => id =? e_ID e) entries), noted clock c entries).
Definition removeEntry (id : Z) (entries : list Entry) : list Entry :=
  List.filter (fun e => negb (e_ID e =? id)) entries.
Definition cron_Remove (clock : Time) (id : Z) (c : Cron) : Cron := noted clock c (removeEntry id (waiting c)).

Definition cron_Start (clock : Time) (c : Cron) : Cron :=
  mkCron (map (fun e => with_next (entry_next e clock) e) (cr_entries c)) true (cr_nextID c) clock.
(** Nobody receives from the channel of a runner that does not run. *)
Definition cron_Stop (c : Cron) : outcome Cron :=
  if cr_running c then Ret (mkCron (waiting c) false (cr_nextID c) (cr_now c)) else Hang.

(** The timer: the entries whose time it was are run and get their next one. *)
Fixpoint run_due (effective : Time) (l : list Entry) : list (option SchedJob) * list Entry :=
  match l with
  | [] => ([], [])
  | e :: r =>
      if decide (e_Next e = Some effective)
      then
        let '(jobs, r) := run_due effective r in
        (e_Job e :: jobs, mkEntry (e_ID e) (e_Schedule e) (entry_next e effective) (e_Next e) (e_Job e) (e_Spec e) :: r)
      else ([], l)
  end.
Definition effective (c : Cron) : option Time := match waiting c with e :: _ => e_Next e | [] => None end.
Definition cron_timer (clock : Time) (c : Cron) : list (option SchedJob) * Cron :=
  match effective c with
  | Some t => let '(jobs, entries) := run_due t (waiting c) in (jobs, noted clock c entries)
  | None => ([], noted clock c (waiting c))
  end.
End Runner.

(** ** The scheduler of the cluster *)

(** [sd_on] and [sd_spec] are the options of the jobs: whether to run
    ([SchedulerBackupLogical], [SchedulerBackupPhysical],
    [SchedulerDatabaseLogsTableRotate], [SchedulerDatabaseLogs],
    [SchedulerDatabaseOptimize], [SchedulerDatabaseAnalyze], [SchedulerRollingRestart],
    [SchedulerRollingReprov], none for the service levels, [SchedulerJobsSSH],
    [SchedulerAlertDisable]) and when. [sd_ids] are the [idScheduler] fields. *)
Record Sched := mkSched {
  sd_cron : option Cron; sd_Schedule : gmap string Entry; sd_ids : SchedJob -> Z;
  sd_Monitor : bool; sd_on : SchedJob -> bool; sd_spec : SchedJob -> string
}.
Definition with_cron (c : Cron) (s : Sched) : Sched :=
  mkSched (Some c) (sd_Schedule s) (sd_ids s) (sd_Monitor s) (sd_on s) (sd_spec s).
Definition with_Schedule (m : gmap string Entry) (s : Sched) : Sched :=
  mkSched (sd_cron s) m (sd_ids s) (sd_Monitor s) (sd_on s) (sd_spec s).
Definition with_id (j : SchedJob) (id : Z) (s : Sched) : Sched :=
  mkSched (sd_cron s) (sd_Schedule s) (<[j := id]> (sd_ids s)) (sd_Monitor s) (sd_on s) (sd_spec s).
Definition with_on (j : SchedJob) (b : bool) (s : Sched) : Sched :=
  mkSched (sd_cron s) (sd_Schedule s) (sd_ids s) (sd_Monitor s) (<[j := b]> (sd_on s)) (sd_spec s).
Definition with_spec (j : SchedJob) (v : string) (s : Sched) : Sched :=
  mkSched (sd_cron s) (sd_Schedule s) (sd_ids s) (sd_Monitor s) (sd_on s) (<[j := v]> (sd_spec s)).
Definition with_Monitor (b : bool) (s : Sched) : Sched :=
  mkSched (sd_cron s) (sd_Schedule s) (sd_ids s) b (sd_on s) (sd_spec s).

Definition HasSchedulerEntry (s : Sched) (myname : string) : bool := bool_decide (is_Some (sd_Schedule s !! myname)).

(** The rotation of the service levels has no option. *)
Definition job_on (s : Sched) (j : SchedJob) : bool := match j with SlaRotate => true | _ => sd_on s j end.
(** The id whose entry is remembered: for the logical backup the one of the physical
    backup. *)
Definition shown_id (s : Sched) (j : SchedJob) : Z :=
  match j with BackupLogical => sd_ids s BackupPhysical | _ => sd_ids s j end.

Section Cluster.
Context `{GoSort} `{GoTime} (clock : Time).

Definition unschedule (j : SchedJob) (c : Cron) (s : Sched) : Cron * Sched :=
  if HasSchedulerEntry s (schedule_name j)
  then (cron_Remove clock (sd_ids s j) c, with_Schedule (delete (schedule_name j) (sd_Schedule s)) s)
  else (c, s).
Definition schedule (j : SchedJob) (c : Cron) (s : Sched) : outcome Sched :=
  if job_on s j
  then
    r ← AddFunc clock (sd_spec s j) j c;
    let '(id, ok, c) := r in
    let s := with_id j id s in
    if (ok : bool)
    then
      let '(e, c) := cron_Entry clock (shown_id s j) c in
      Ret (with_cron c (with_Schedule (<[schedule_name j := e]> (sd_Schedule s)) s))
    else Ret (with_cron c s)
  else Ret (with_cron c s).
Definition set_scheduler (j : SchedJob) (s : Sched) : outcome Sched :=
  match sd_cron s with
  | None => Ret s
  | Some c => let '(c, s) := unschedule j c s in schedule j c s
  end.

Definition SetSchedulerBackupLogical := set_scheduler BackupLogical.
Definition SetSchedulerBackupPhysical := set_scheduler BackupPhysical.
Definition SetSchedulerLogsTableRotate := set_scheduler LogsTableRotate.
Definition SetSchedulerBackupLogs := set_scheduler ErrorLogs.
Definition SetSchedulerOptimize := set_scheduler Optimize.
Definition SetSchedulerAnalyze := set_scheduler Analyze.
Definition SetSchedulerRollingRestart := set_scheduler RestartRolling.
Definition SetSchedulerRollingReprov := set_scheduler ReprovRolling.
Definition SetSchedulerSlaRotate := set_scheduler SlaRotate.
Definition SetSchedulerDbJobsSsh := set_scheduler DbJobsSsh.
Definition SetSchedulerAlertDisable := set_scheduler AlertDisable.

Definition initScheduler (s : Sched) : outcome Sched :=
  if sd_Monitor s
  then
    _ ← match sd_cron s with Some c => cron_Stop c | None => Ret (New clock) end;
    s ← SetSchedulerBackupLogical (with_cron (New clock) s);
    s ← SetSchedulerLogsTableRotate s;
    s ← SetSchedulerBackupPhysical s;
    s ← SetSchedulerBackupLogs s;
    s ← SetSchedulerOptimize s;
    s ← SetSchedulerAnalyze s;
    s ← SetSchedulerRollingRestart s;
    s ← SetSchedulerRollingReprov s;
    s ← SetSchedulerSlaRotate s;
    s ← SetSchedulerRollingRestart s;
    s ← SetSchedulerDbJobsSsh s;
    s ← SetSchedulerAlertDisable s;
    match sd_cron s with Some c => Ret (with_cron (cron_Start clock c) s) | None => Panic end
  else Ret s.

(** [InitFromConf] forgets the remembered entries before. *)
Definition init_schedule (s : Sched) : outcome Sched := initScheduler (with_Schedule ∅ s).

Definition SwitchMonitoringScheduler (s : Sched) : outcome Sched :=
  let s := with_Monitor (negb (sd_Monitor s)) s in
  if negb (sd_Monitor s)
  then match sd_cron s with
       | Some c => c ← cron_Stop c; Ret (with_cron c s)
       | None => Panic
       end
  else initScheduler s.

(** [SetActiveStatus], when an election was won or lost. Starting a runner that runs
    would give it a second loop, which is not modelled. *)
Definition set_active (active : bool) (s : Sched) : outcome Sched :=
  if sd_Monitor s
  then match sd_cron s with
       | Some c =>
           if active then Ret (with_cron (cron_Start clock c) s) else c ← cron_Stop c; Ret (with_cron c s)
       | None => Panic
       end
  else Ret s.

(** The switches of [cluster_tgl.go]: the one of the alerts does not schedule. *)
Definition switch_job (j : SchedJob) (s : Sched) : outcome Sched :=
  let s := with_on j (negb (sd_on s j)) s in
  match j with AlertDisable => Ret s | _ => set_scheduler j s end.
(** The setters of the cron texts. *)
Definition set_job_cron (j : SchedJob) (value : string) (s : Sched) : outcome Sched :=
  set_scheduler j (with_spec j value s).
End Cluster.
