(* ===== verification/SchedulerProps.v ===== *)
(** * What the scheduler runs

    The runner starts the jobs whose time it is, and the scheduler of a cluster holds
    exactly the jobs that its options ask for. *)

From Stdlib Require Import ZArith Lia Bool Ascii String Permutation Sorted.
From stdpp Require Import base list gmap strings functions.
From S2P Require Import Prelude GoLib Cluster Cron CronProps Scheduler.

Local Open Scope string_scope.
Local Open Scope list_scope.
Local Open Scope Z_scope.

(** ** The order of the entries *)

Lemma byTime_strict : StrictWeak byTime_Less.
Proof.
  split.
  - intros a. unfold byTime_Less, Before. destruct (e_Next a); [lia|done].
  - intros a b c. unfold byTime_Less, Before. destruct (e_Next a), (e_Next b), (e_Next c); lia || done.
  - intros a b c. unfold byTime_Less, Before. destruct (e_Next a), (e_Next b), (e_Next c); lia || done.
Qed.

Section Runner.
Context `{GoSort} `{GoTime}.

Lemma waiting_perm c : Permutation (waiting c) (cr_entries c).
Proof. unfold waiting. destruct (cr_running c); [apply go_sort_perm|done]. Qed.

(** ** The timer *)

Definition is_due (t : Time) (e : Entry) : bool := bool_decide (e_Next e = Some t).
(** An entry that ran. *)
Definition renewed (t : Time) (e : Entry) : Entry :=
  if is_due t e
  then mkEntry (e_ID e) (e_Schedule e) (entry_next e t) (e_Next e) (e_Job e) (e_Spec e) else e.

(** The activations are valid times, so that equal numbers are equal times. *)
Definition valid_entries (c : Cron) : Prop := forall e t, e ∈ cr_entries c -> e_Next e = Some t -> valid t.

Lemma valid_index_eq t u : valid t -> valid u -> time_index t = time_index u -> t = u.
Proof.
  intros Ht Hu E. destruct (add_second_valid t Ht) as [_ B]. unfold before in B.
  apply within_second; [done|done|lia|unfold before; lia].
Qed.

Lemma run_due_exact t l :
  StronglySorted (fun a b => byTime_Less b a = false) l ->
  (forall e u, e ∈ l -> e_Next e = Some u -> valid u /\ time_index t <= time_index u) -> valid t ->
  run_due t l = (map e_Job (List.filter (is_due t) l), map (renewed t) l).
Proof.
  intros S Hv Ht. induction S as [|e l S IH F]; [done|]. cbn [run_due].
  assert (Hl : forall e' u, e' ∈ l -> e_Next e' = Some u -> valid u /\ time_index t <= time_index u).
  { intros e' u Hin. apply Hv. by right. }
  destruct (decide (e_Next e = Some t)) as [E|E].
  - rewrite (IH Hl). cbn [List.filter map].
    assert (D : is_due t e = true) by by apply bool_decide_eq_true_2.
    unfold renewed at 2. by rewrite !D.
  - assert (N : forall e', e' ∈ e :: l -> is_due t e' = false).
    { intros e' [-> | Hin]%elem_of_cons; [by apply bool_decide_eq_false_2|]. apply bool_decide_eq_false_2. intros E'.
      rewrite Forall_forall in F. specialize (F e' (proj1 (list_elem_of_In _ _) Hin)). unfold byTime_Less, Before in F. rewrite E' in F.
      destruct (e_Next e) as [u|] eqn:Eu; [|done]. destruct (Hv e u ltac:(by left) Eu) as [Vu Lu].
      apply E. f_equal. apply valid_index_eq; [done|done|lia]. }
    f_equal.
    + rewrite filter_none; [done|]. intros x Hx%list_elem_of_In. by apply N.
    + symmetry. etransitivity; [|apply map_id]. apply map_ext_in. intros e' Hin%list_elem_of_In. unfold renewed.
      by rewrite N.
Qed.

Lemma waiting_sorted c : cr_running c = true -> StronglySorted (fun a b => byTime_Less b a = false) (waiting c).
Proof. intros E. unfold waiting. rewrite E. apply go_sort_sorted, byTime_strict. Qed.

(** The activation the timer waits for is the first one. *)
Lemma effective_first c t : cr_running c = true -> valid_entries c -> effective c = Some t ->
  valid t /\ forall e u, e ∈ cr_entries c -> e_Next e = Some u -> valid u /\ time_index t <= time_index u.
Proof.
  intros Hr Hv He. pose proof (waiting_sorted c Hr) as S. unfold effective in He.
  pose proof (waiting_perm c) as P. destruct (waiting c) as [|e0 l] eqn:E; [done|].
  assert (V0 : valid t) by (apply (Hv e0 t); [rewrite <- P; by left|done]). split; [done|].
  intros e u Hin Hu. split; [by apply (Hv e)|]. rewrite <- P in Hin. inversion_clear S as [|? ? S' F].
  apply elem_of_cons in Hin as [-> | Hin]; [assert (t = u) as -> by congruence; lia|].
  rewrite Forall_forall in F. specialize (F e (proj1 (list_elem_of_In _ _) Hin)). unfold byTime_Less, Before in F. rewrite He, Hu in F. lia.
Qed.
End Runner.

(** C34: when its timer rings, the runner starts exactly the jobs whose time it is. The
    time it waited for is the first of all activations; the jobs started are those of
    the entries with this activation, once each; these entries get the next activation
    of their schedule and remember this one, and the others are kept. *)
Theorem timer_runs_due_jobs `{GoSort} `{GoTime} (clock : Time) (c : Cron) (t : Time) :
  cr_running c = true -> valid_entries c -> effective c = Some t ->
  let '(jobs, c') := cron_timer clock c in
  Permutation jobs (map e_Job (List.filter (is_due t) (cr_entries c))) /\
  Permutation (cr_entries c') (map (renewed t) (cr_entries c)) /\
  forall e u, e ∈ cr_entries c -> e_Next e = Some u -> time_index t <= time_index u.
Proof.
  intros Hr Hv He. destruct (effective_first c t Hr Hv He) as [Ht Hf]. pose proof (waiting_perm c) as P.
  unfold cron_timer. rewrite He.
  rewrite run_due_exact; [|by apply waiting_sorted|intros e u Hin; apply Hf; by rewrite <- P|done].
  split_and!.
  - cbn. by apply Permutation_map, filter_perm.
  - cbn. by apply Permutation_map.
  - intros e u Hin Hu. by apply (Hf e u Hin Hu).
Qed.

(** ** The scheduler and the options in step *)

#[export] Instance schedule_name_inj : Inj (=) (=) schedule_name.
Proof. intros [] []; cbn; congruence. Qed.

(** An entry without its times. *)
Definition Core : Type := Z * option SchedJob * option Schedule * string.
Definition core (e : Entry) : Core := (e_ID e, e_Job e, e_Schedule e, e_Spec e).
Definition core_id (x : Core) : Z := fst (fst (fst x)).
Definition core_job (x : Core) : option SchedJob := snd (fst (fst x)).
Definition cores (c : Cron) : list Core := map core (cr_entries c).

(** The runner, the ids and the remembered entries belong together. *)
Record linked (s : Sched) (n : Z) (cs : list Core) : Prop := mkLinked {
  lk_nodup : NoDup (map core_id cs);
  lk_bound x : x ∈ cs -> core_id x <= n;
  lk_entry x : x ∈ cs ->
    exists j, core_job x = Some j /\ core_id x = sd_ids s j /\ is_Some (sd_Schedule s !! schedule_name j);
  lk_listed j : is_Some (sd_Schedule s !! schedule_name j) -> exists x, x ∈ cs /\ core_job x = Some j
}.

Section Scheduler.
Context `{GoSort} `{GoTime}.

(** The schedule the options give a job. *)
Definition wanted (s : Sched) (j : SchedJob) : option Schedule :=
  if job_on s j then match Parse (sd_spec s j) with Value sch => Some sch | _ => None end else None.

(** The runner has the job if and only if it is wanted, with its schedule. *)
Definition agrees (s : Sched) (cs : list Core) (j : SchedJob) : Prop :=
  (forall x, x ∈ cs -> core_job x = Some j ->
     exists sch, wanted s j = Some sch /\ x = (sd_ids s j, Some j, Some sch, sd_spec s j)) /\
  (forall sch, wanted s j = Some sch -> exists x, x ∈ cs /\ core_job x = Some j).

Lemma linked_perm s n cs cs' : Permutation cs' cs -> linked s n cs -> linked s n cs'.
Proof.
  intros P [L1 L2 L3 L4]. split.
  - by rewrite (Permutation_map core_id P).
  - intros x. rewrite P. apply L2.
  - intros x. rewrite P. apply L3.
  - intros j Hj. destruct (L4 j Hj) as (x & Hx & E). exists x. by rewrite P.
Qed.
Lemma agrees_perm s cs cs' j : Permutation cs' cs -> agrees s cs j -> agrees s cs' j.
Proof.
  intros P [A1 A2]. split.
  - intros x. rewrite P. apply A1.
  - intros sch Hs. destruct (A2 sch Hs) as (x & Hx & E). exists x. by rewrite P.
Qed.

Lemma cores_waiting c : Permutation (map core (waiting c)) (cores c).
Proof. apply Permutation_map, waiting_perm. Qed.
Lemma cores_run_due t l : map core (snd (run_due t l)) = map core l.
Proof.
  induction l as [|e l IH]; [done|]. cbn [run_due]. destruct (decide _); [|done].
  destruct (run_due t l) as [jobs r]. cbn in *. by rewrite IH.
Qed.
Lemma cores_timer clock c : Permutation (cores (snd (cron_timer clock c))) (cores c).
Proof.
  unfold cron_timer. destruct (effective c) as [t|]; [|apply cores_waiting].
  pose proof (cores_run_due t (waiting c)) as E. destruct (run_due t (waiting c)) as [jobs es]. unfold cores at 1. cbn in *.
  rewrite E. apply cores_waiting.
Qed.
Lemma cores_start clock c : cores (cron_Start clock c) = cores c.
Proof. unfold cores, cron_Start. cbn. by rewrite map_map. Qed.

Lemma elem_remove id l x :
  x ∈ map core (removeEntry id l) <-> x ∈ map core l /\ core_id x <> id.
Proof.
  unfold removeEntry. rewrite !list_elem_of_In, !in_map_iff. split.
  - intros (e & <- & [Hin Hn]%filter_In). split; [by exists e|]. bool_prop. done.
  - intros [(e & <- & Hin) Hn]. exists e. split; [done|]. apply filter_In. split; [done|]. apply negb_true_iff. by apply Z.eqb_neq.
Qed.
Lemma nodup_remove id l : NoDup (map core_id (map core l)) -> NoDup (map core_id (map core (removeEntry id l))).
Proof.
  unfold removeEntry. induction l as [|e l IH]; cbn; [done|]. rewrite list.NoDup_cons. intros [Hn Hl].
  destruct (negb _); [|by apply IH]. cbn. apply list.NoDup_cons. split; [|by apply IH]. intros Hin. apply Hn.
  rewrite list_elem_of_In, !map_map, in_map_iff in Hin. rewrite list_elem_of_In, map_map, in_map_iff.
  destruct Hin as (e' & E & [Hin _]%filter_In). by exists e'.
Qed.

(** Taking a job out. *)
Lemma unschedule_linked clock j c s : linked s (cr_nextID c) (cores c) ->
  let '(c1, s1) := unschedule clock j c s in
  linked s1 (cr_nextID c) (cores c1) /\ sd_Schedule s1 !! schedule_name j = None /\
  (forall x, x ∈ cores c1 <-> x ∈ cores c /\ core_job x <> Some j) /\
  cr_nextID c1 = cr_nextID c /\ cr_running c1 = cr_running c /\
  sd_ids s1 = sd_ids s /\ sd_on s1 = sd_on s /\ sd_spec s1 = sd_spec s /\ sd_Monitor s1 = sd_Monitor s.
Proof.
  intros L. unfold unschedule, HasSchedulerEntry. destruct (bool_decide_reflect (is_Some (sd_Schedule s !! schedule_name j))) as [Hj|Hj].
  - assert (M : forall x, x ∈ cores (cron_Remove clock (sd_ids s j) c) <-> x ∈ cores c /\ core_job x <> Some j).
    { intros x. unfold cron_Remove, cores at 1. cbn. rewrite elem_remove, cores_waiting.
      split; intros [Hx Hn]; split; [done| |done|].
      - intros E. destruct (lk_entry _ _ _ L x Hx) as (i & Ei & Eid & _). congruence.
      - intros E. destruct (lk_listed _ _ _ L j Hj) as (y & Hy & Ey). apply Hn. rewrite <- Ey. f_equal.
        destruct (lk_entry _ _ _ L y Hy) as (i & Ei & Eid & _). assert (i = j) as -> by congruence.
        assert (E' : core_id x = core_id y) by congruence. clear -L Hx Hy E'. pose proof (lk_nodup _ _ _ L) as N.
        apply list_elem_of_lookup in Hx as [a Ha], Hy as [b Hb].
        assert (a = b); [|subst b; congruence].
        eapply (NoDup_lookup _ _ _ (core_id x) N); rewrite list_lookup_fmap; [by rewrite Ha|rewrite Hb; cbn; by rewrite E']. }
    split_and!; try done; [|by apply lookup_delete_eq].
    split.
    + unfold cron_Remove, cores. cbn. apply nodup_remove. rewrite (Permutation_map core_id (cores_waiting c)). apply L.
    + intros x [Hx _]%M. by apply L.
    + intros x [Hx Hn]%M. destruct (lk_entry _ _ _ L x Hx) as (i & Ei & Eid & S). exists i. split_and!; [done|done|]. cbn.
      rewrite lookup_delete_ne; [done|]. intros E%(inj schedule_name). congruence.
    + intros i Hi. cbn in Hi. destruct (decide (i = j)) as [->|Hne]; [rewrite lookup_delete_eq in Hi; by destruct Hi|].
      rewrite lookup_delete_ne in Hi by (intros E%(inj schedule_name); congruence).
      destruct (lk_listed _ _ _ L i Hi) as (x & Hx & Ex). exists x. split; [|done]. apply M. split; [done|congruence].
  - split_and!; try done; [by apply eq_None_not_Some|]. intros x. split; [|by intros []]. intros Hx. split; [done|].
    intros E. destruct (lk_entry _ _ _ L x Hx) as (i & Ei & _ & S). apply Hj. congruence.
Qed.

(** Putting a job in. *)
Lemma AddFunc_value clock spec j c sch : Parse spec = Value sch ->
  exists c', AddFunc clock spec j c = Ret (cr_nextID c + 1, true, c') /\
    Permutation (cores c') (cores c ++ [(cr_nextID c + 1, Some j, Some sch, spec)]) /\
    cr_nextID c' = cr_nextID c + 1 /\ cr_running c' = cr_running c.
Proof.
  intros E. unfold AddFunc, cron_Schedule. rewrite E. eexists. split_and!; [done| |done|done].
  unfold cores at 1. cbn. rewrite map_app, cores_waiting. cbn. by destruct (cr_running c).
Qed.

(** What [s] and [s'] share, apart from the place of the job [j]. *)
Record same_options (j : SchedJob) (s s' : Sched) : Prop := mkSame {
  so_on : sd_on s' = sd_on s; so_spec : sd_spec s' = sd_spec s; so_Monitor : sd_Monitor s' = sd_Monitor s;
  so_ids i : i <> j -> sd_ids s' i = sd_ids s i
}.
Lemma wanted_same j s s' i : same_options j s s' -> wanted s' i = wanted s i.
Proof. intros [E1 E2 _ _]. unfold wanted, job_on. by rewrite E1, E2. Qed.

(** What has happened to the runner: only the entries of [j] changed, and they agree. *)
Record rescheduled (j : SchedJob) (s : Sched) (c : Cron) (s' : Sched) : Prop := mkRes {
  rs_same : same_options j s s';
  rs_cron : exists c', sd_cron s' = Some c' /\ linked s' (cr_nextID c') (cores c') /\ agrees s' (cores c') j /\
    cr_running c' = cr_running c /\
    forall x, core_job x <> Some j -> (x ∈ cores c' <-> x ∈ cores c)
}.

Lemma wanted_value s j sch : job_on s j = true -> Parse (sd_spec s j) = Value sch -> wanted s j = Some sch.
Proof. intros E1 E2. unfold wanted. by rewrite E1, E2. Qed.

(** No entry for a job that is not wanted. *)
Lemma rescheduled_absent j c s s' :
  same_options j s s' -> sd_Schedule s' = sd_Schedule s -> sd_cron s' = Some c -> wanted s j = None ->
  linked s (cr_nextID c) (cores c) -> (forall x, x ∈ cores c -> core_job x <> Some j) -> rescheduled j s c s'.
Proof.
  intros So Es Ec Ew [L1 L2 L3 L4] Hj. split; [done|]. exists c. split_and!; [done| |..|done|done].
  - split; [done|done| |by rewrite Es]. intros x Hx. destruct (L3 x Hx) as (i & Ei & Eid & S). exists i. rewrite Es.
    split_and!; [done| |done]. rewrite (so_ids _ _ _ So); [done|]. intros ->. by apply (Hj x Hx).
  - split; [intros x Hx E; by apply Hj in Hx|]. intros sch. rewrite (wanted_same _ _ _ _ So). congruence.
Qed.

(** One new entry for a job that is wanted. *)
Lemma rescheduled_added j c s c' s' sch e :
  same_options j s s' -> sd_Schedule s' = <[schedule_name j := e]> (sd_Schedule s) -> sd_cron s' = Some c' ->
  sd_ids s' j = cr_nextID c + 1 -> wanted s j = Some sch ->
  Permutation (cores c') (cores c ++ [(cr_nextID c + 1, Some j, Some sch, sd_spec s j)]) ->
  cr_nextID c' = cr_nextID c + 1 -> cr_running c' = cr_running c ->
  linked s (cr_nextID c) (cores c) -> (forall x, x ∈ cores c -> core_job x <> Some j) -> rescheduled j s c s'.
Proof.
  intros So Es Ec Eid Ew P En Er [L1 L2 L3 L4] Hj. split; [done|]. exists c'. split_and!; [done| |..|done|].
  - eapply linked_perm; [exact P|]. rewrite En. split.
    + rewrite map_app. apply list.NoDup_app. split_and!; [done| |apply NoDup_singleton]. cbn. intros i Hi.
      rewrite list_elem_of_singleton. intros ->. rewrite list_elem_of_In, in_map_iff in Hi. destruct Hi as (x & E & Hx).
      apply list_elem_of_In, L2 in Hx. lia.
    + intros x [Hx | ->%list_elem_of_singleton]%elem_of_app; [apply L2 in Hx|cbn]; lia.
    + intros x [Hx | ->%list_elem_of_singleton]%elem_of_app.
      * destruct (L3 x Hx) as (i & Ei & E & S). exists i. assert (i <> j) by (intros ->; by apply (Hj x Hx)).
        split_and!; [done|by rewrite (so_ids _ _ _ So)|]. rewrite Es, lookup_insert_ne; [done|].
        by intros ?%(inj schedule_name).
      * exists j. split_and!; [done|done|]. by rewrite Es, lookup_insert_eq.
    + intros i Hi. destruct (decide (i = j)) as [->|Hne].
      * eexists. split; [apply elem_of_app; right; by apply list_elem_of_singleton|done].
      * rewrite Es, lookup_insert_ne in Hi by (by intros ?%(inj schedule_name)).
        destruct (L4 i Hi) as (x & Hx & E). exists x. split; [|done]. apply elem_of_app. by left.
  - eapply agrees_perm; [exact P|]. split.
    + intros x [Hx | ->%list_elem_of_singleton]%elem_of_app Ej; [by apply Hj in Hx|]. exists sch.
      rewrite (wanted_same _ _ _ _ So), Eid, (so_spec _ _ _ So). done.
    + intros _ _. eexists. split; [apply elem_of_app; right; by apply list_elem_of_singleton|done].
  - intros x Hx. rewrite P, elem_of_app, list_elem_of_singleton. split; [|by left]. intros [?| ->]; [done|]. by cbn in Hx.
Qed.

Lemma schedule_rescheduled clock j c s s' :
  linked s (cr_nextID c) (cores c) -> (forall x, x ∈ cores c -> core_job x <> Some j) ->
  schedule clock j c s = Ret s' -> rescheduled j s c s'.
Proof.
  intros L Hj. unfold schedule. destruct (job_on s j) eqn:On.
  2: { intros [= <-]. apply rescheduled_absent; try done. unfold wanted. by rewrite On. }
  destruct (Parse (sd_spec s j)) as [sch| |] eqn:Ep.
  - destruct (AddFunc_value clock _ j c _ Ep) as (c' & -> & P & En & Er). cbn.
    unfold cron_Entry. intros [= <-]. eapply rescheduled_added; try done.
    + split; try done. intros i Hi. cbn. by apply fn_lookup_insert_ne.
    + cbn. apply fn_lookup_insert.
    + by apply wanted_value.
    + etransitivity; [|exact P]. unfold cores at 1. cbn. apply cores_waiting.
  - unfold AddFunc. rewrite Ep. cbn. intros [= <-]. apply rescheduled_absent; try done.
    + split; try done. intros i Hi. cbn. by apply fn_lookup_insert_ne.
    + unfold wanted. by rewrite On, Ep.
  - unfold AddFunc. by rewrite Ep.
Qed.

Lemma set_scheduler_rescheduled clock j c s s' :
  sd_cron s = Some c -> linked s (cr_nextID c) (cores c) -> set_scheduler clock j s = Ret s' -> rescheduled j s c s'.
Proof.
  intros Ec L. unfold set_scheduler. rewrite Ec. pose proof (unschedule_linked clock j c s L) as U.
  destruct (unschedule clock j c s) as [c1 s1]. destruct U as (L1 & _ & M & En & Er & Ei & Eo & Es & Em). intros E.
  apply schedule_rescheduled in E; [|by rewrite En|intros x Hx; apply M in Hx; by destruct Hx]. destruct E as [[So1 So2 So3 So4] (c' & Ec' & L' & A & Er' & M')].
  split.
  - split; [congruence|congruence|congruence|]. intros i Hi. rewrite So4 by done. by rewrite Ei.
  - exists c'. split_and!; [done..|congruence|]. intros x Hx. rewrite M', M by done. naive_solver.
Qed.

(** The other jobs keep their agreement. *)
Lemma agrees_other i j c s s' c' : i <> j -> sd_on s' = sd_on s -> sd_spec s' = sd_spec s -> sd_ids s' i = sd_ids s i ->
  (forall x, core_job x <> Some j -> (x ∈ cores c' <-> x ∈ cores c)) -> agrees s (cores c) i -> agrees s' (cores c') i.
Proof.
  intros Hne E1 E2 E3 M [A1 A2].
  assert (Ew : wanted s' i = wanted s i) by (unfold wanted, job_on; by rewrite E1, E2).
  split.
  - intros x Hx Ej. rewrite Ew, E2, E3. apply A1; [|done]. apply M; [congruence|done].
  - intros sch. rewrite Ew. intros Hs. destruct (A2 sch Hs) as (x & Hx & Ej). exists x. split; [|done]. apply M; [congruence|done].
Qed.

(** ** The invariant *)

(** In step for the jobs [P]. *)
Definition in_step_for (P : SchedJob -> Prop) (s : Sched) (c : Cron) : Prop :=
  sd_cron s = Some c /\ linked s (cr_nextID c) (cores c) /\ forall j, P j -> agrees s (cores c) j.

Lemma set_scheduler_in_step clock (P : SchedJob -> Prop) j s c s' :
  in_step_for P s c -> set_scheduler clock j s = Ret s' ->
  exists c', in_step_for (fun i => i = j \/ P i) s' c' /\ cr_running c' = cr_running c /\ sd_Monitor s' = sd_Monitor s.
Proof.
  intros (Ec & L & A) E. destruct (set_scheduler_rescheduled _ _ _ _ _ Ec L E) as [[So1 So2 So3 So4] (c' & Ec' & L' & Aj & Er & M)].
  exists c'. split_and!; [|done|done]. split_and!; [done|done|]. intros i Hi.
  destruct (decide (i = j)) as [->|Hne]; [done|]. destruct Hi as [?|Hi]; [done|].
  eapply agrees_other; [exact Hne|done|done|by apply So4|exact M|by apply A].
Qed.

(** The alerts apart: their switch leaves the runner as it is. *)
Definition kept_in_step (j : SchedJob) : Prop := j <> AlertDisable.
Definition in_step (s : Sched) : Prop :=
  match sd_cron s with
  | None => sd_Schedule s = ∅
  | Some c => in_step_for kept_in_step s c /\ (cr_running c = true -> sd_Monitor s = true)
  end.

Lemma linked_new s clock : sd_Schedule s = ∅ -> linked (with_cron (New clock) s) 0 (cores (New clock)).
Proof.
  intros E. split; [by constructor|..]; try (intros x Hx; by apply elem_of_nil in Hx).
  intros j [e Hj]. cbn in Hj. by rewrite E, lookup_empty in Hj.
Qed.

Lemma outcome_bind_ret {A B} (f : A -> outcome B) m b : m ≫= f = Ret b -> exists a, m = Ret a /\ f a = Ret b.
Proof. destruct m; cbn; [eauto|done|done]. Qed.

Lemma in_step_start clock P s c : in_step_for P s c ->
  in_step_for P (with_cron (cron_Start clock c) s) (cron_Start clock c).
Proof.
  intros (Ec & L & A). split_and!; [done|..].
  - rewrite cores_start. destruct L as [L1 L2 L3 L4]. by split.
  - intros j Hj. rewrite cores_start. by apply A.
Qed.

(** The setter in [E] keeps [I] and the switch [Hm]. *)
Ltac next_job E I Hm :=
  let s' := fresh "s" in let E' := fresh "E" in let c' := fresh "c" in let Em := fresh "Em" in
  apply outcome_bind_ret in E as (s' & E' & E); apply (set_scheduler_in_step _ _ _ _ _ _ I) in E' as (c' & E' & _ & Em);
  clear I; rename E' into I; rewrite Hm in Em; clear Hm; rename Em into Hm.

Lemma initScheduler_in_step clock s s' :
  sd_Schedule s = ∅ -> sd_Monitor s = true -> initScheduler clock s = Ret s' ->
  exists c, in_step_for (fun _ => True) s' c /\ cr_running c = true /\ sd_Monitor s' = true.
Proof.
  intros Es Em. unfold initScheduler. rewrite Em. intros (c0 & _ & E)%outcome_bind_ret.
  assert (I : in_step_for (fun _ => False) (with_cron (New clock) s) (New clock)) by (split_and!; [done|by apply linked_new|done]).
  assert (Hm : sd_Monitor (with_cron (New clock) s) = true) by done.
  clear Em Es. revert E I Hm. generalize (with_cron (New clock) s) (New clock). intros s1 c.
  unfold SetSchedulerBackupLogical, SetSchedulerLogsTableRotate, SetSchedulerBackupPhysical, SetSchedulerBackupLogs,
    SetSchedulerOptimize, SetSchedulerAnalyze, SetSchedulerRollingRestart, SetSchedulerRollingReprov, SetSchedulerSlaRotate,
    SetSchedulerDbJobsSsh, SetSchedulerAlertDisable.
  intros E I Hm.
  do 12 next_job E I Hm. destruct I as (Ec & L & A). rewrite Ec in E. injection E as <-.
  eexists. split_and!; [apply in_step_start; split_and!; [exact Ec|exact L|]|done|done].
  intros j _. apply A. destruct j; tauto.
Qed.

(** Other options for the job [j] only. *)
Lemma in_step_options P j s s1 c :
  in_step_for P s c -> sd_cron s1 = sd_cron s -> sd_Schedule s1 = sd_Schedule s -> sd_ids s1 = sd_ids s ->
  (forall i, i <> j -> sd_on s1 i = sd_on s i /\ sd_spec s1 i = sd_spec s i) ->
  in_step_for (fun i => i <> j /\ P i) s1 c.
Proof.
  intros (Ec & [L1 L2 L3 L4] & A) E1 E2 E3 Ho. split_and!; [congruence|split; [done|done|by rewrite E3, E2|by rewrite E2]|].
  intros i [Hne Hi]. destruct (Ho i Hne) as [O1 O2]. specialize (A i Hi) as [A1 A2].
  assert (Ew : wanted s1 i = wanted s i) by (unfold wanted, job_on; rewrite O2; destruct i; by rewrite ?O1).
  split; [intros x; rewrite Ew, O2, E3; apply A1|intros sch; rewrite Ew; apply A2].
Qed.
Lemma in_step_weaken (P Q : SchedJob -> Prop) s c : (forall j, Q j -> P j) -> in_step_for P s c -> in_step_for Q s c.
Proof. intros HPQ (Ec & L & A). split_and!; auto. Qed.

(** A changed option, then the setter. *)
Lemma set_option_in_step clock j s s1 s' :
  in_step s -> sd_cron s1 = sd_cron s -> sd_Schedule s1 = sd_Schedule s -> sd_ids s1 = sd_ids s -> sd_Monitor s1 = sd_Monitor s ->
  (forall i, i <> j -> sd_on s1 i = sd_on s i /\ sd_spec s1 i = sd_spec s i) ->
  set_scheduler clock j s1 = Ret s' -> in_step s'.
Proof.
  unfold in_step. intros I E1 E2 E3 Em Ho E. destruct (sd_cron s) as [c|] eqn:Ec.
  - destruct I as [I Er]. eapply in_step_options in I; [|by rewrite E1, <- ?Ec|exact E2|exact E3|exact Ho].
    destruct (set_scheduler_in_step _ _ _ _ _ _ I E) as (c' & I' & Er' & Em').
    pose proof I' as (Ec' & _ & _). rewrite Ec'. split; [|intros R; rewrite Em', Em; apply Er; congruence].
    eapply in_step_weaken; [|exact I']. cbn. intros i Hi. destruct (decide (i = j)); tauto.
  - unfold set_scheduler in E. rewrite E1 in E. injection E as <-. by rewrite E1, E2.
Qed.

Lemma init_in_step clock s s' : sd_Schedule s = ∅ -> sd_Monitor s = true \/ sd_cron s = None ->
  initScheduler clock s = Ret s' -> in_step s'.
Proof.
  intros Es Hm E. destruct (sd_Monitor s) eqn:Em.
  - destruct (initScheduler_in_step _ _ _ Es Em E) as (c & I & Er & Em'). pose proof I as (Ec & _ & _).
    unfold in_step. rewrite Ec. split; [|congruence]. eapply in_step_weaken; [|exact I]. done.
  - unfold initScheduler in E. rewrite Em in E. injection E as <-. destruct Hm as [?|Hm]; [done|].
    unfold in_step. by rewrite Hm.
Qed.

Lemma timer_in_step clock s c : in_step s -> sd_cron s = Some c ->
  in_step (with_cron (snd (cron_timer clock c)) s).
Proof.
  unfold in_step. intros I Ec. rewrite Ec in I. destruct I as [(_ & L & A) Er].
  pose proof (cores_timer clock c) as P.
  assert (En : cr_nextID (snd (cron_timer clock c)) = cr_nextID c /\ cr_running (snd (cron_timer clock c)) = cr_running c).
  { unfold cron_timer. destruct (effective c); [destruct (run_due _ _)|]; done. }
  cbn [sd_cron with_cron]. destruct En as [En Er']. split; [|by rewrite Er'].
  split_and!; [done|..].
  - eapply linked_perm; [exact P|]. rewrite En. destruct L as [L1 L2 L3 L4]. by split.
  - intros j Hj. eapply agrees_perm; [exact P|]. by apply A.
Qed.

Lemma in_step_stop P s c :
  in_step_for P s c -> in_step_for P (with_cron (mkCron (waiting c) false (cr_nextID c) (cr_now c)) s)
                         (mkCron (waiting c) false (cr_nextID c) (cr_now c)).
Proof.
  intros (Ec & [L1 L2 L3 L4] & A). pose proof (cores_waiting c) as Pm. split_and!; [done|..].
  - eapply linked_perm; [exact Pm|]. by split.
  - intros j Hj. eapply agrees_perm; [exact Pm|]. by apply A.
Qed.

Lemma switch_monitoring clock s : SwitchMonitoringScheduler clock s =
  if sd_Monitor s
  then match sd_cron s with
       | Some c => c ← cron_Stop c; Ret (with_cron c (with_Monitor false s))
       | None => Panic
       end
  else initScheduler clock (with_Monitor true s).
Proof. unfold SwitchMonitoringScheduler, with_Monitor at 1 2. cbn [sd_Monitor]. by destruct (sd_Monitor s). Qed.

(** Turning the scheduler off stops the runner. Turning it on again never ends, unless
    there was no runner at all. *)
Lemma monitoring_in_step clock s s' : in_step s -> SwitchMonitoringScheduler clock s = Ret s' -> in_step s'.
Proof.
  rewrite switch_monitoring. intros I. destruct (sd_Monitor s) eqn:Em.
  - unfold in_step in I. destruct (sd_cron s) as [c|] eqn:Ec; [|done]. destruct I as [(_ & L & A) Er].
    unfold cron_Stop. destruct (cr_running c); [|done]. cbn. intros [= <-]. unfold in_step. cbn. split; [|done].
    apply (in_step_stop _ (with_cron c (with_Monitor false s))). split_and!; [done|by destruct L|done].
  - intros E. unfold in_step in I. destruct (sd_cron s) as [c|] eqn:Ec.
    + destruct I as [_ Er]. unfold initScheduler in E. cbn in E. rewrite ?Ec in E. unfold cron_Stop in E.
      destruct (cr_running c); [|done]. specialize (Er eq_refl). congruence.
    + eapply init_in_step; [| |exact E]; [done|]. by right.
Qed.

Lemma active_in_step clock active s s' : in_step s -> set_active clock active s = Ret s' -> in_step s'.
Proof.
  unfold set_active, in_step. intros I. destruct (sd_Monitor s) eqn:Em; [|by intros [= <-]; rewrite ?Em].
  destruct (sd_cron s) as [c|] eqn:Ec; [|done]. destruct I as [I Er]. destruct active.
  - intros [= <-]. cbn [sd_cron with_cron]. split; [by apply in_step_start|done].
  - unfold cron_Stop. destruct (cr_running c); [|done]. intros [= <-]. cbn [sd_cron with_cron]. split; [|done].
    by apply in_step_stop.
Qed.

(** What happens to a scheduler: the configuration is read, with the scheduler on or for
    the first time, an option is switched or set, the timer rings, the scheduler itself
    is switched, and the manager gets active or standby. *)
Inductive sched_step : Sched -> Sched -> Prop :=
| step_load clock s s' m on spec :
    m = true \/ sd_cron s = None ->
    init_schedule clock (mkSched (sd_cron s) (sd_Schedule s) (sd_ids s) m on spec) = Ret s' -> sched_step s s'
| step_switch clock j s s' : switch_job clock j s = Ret s' -> sched_step s s'
| step_cron clock j v s s' : set_job_cron clock j v s = Ret s' -> sched_step s s'
| step_timer clock s c : sd_cron s = Some c -> cr_running c = true -> sched_step s (with_cron (snd (cron_timer clock c)) s)
| step_monitoring clock s s' : SwitchMonitoringScheduler clock s = Ret s' -> sched_step s s'
| step_active clock s c s' :
    sd_cron s = Some c -> cr_running c = false -> set_active clock true s = Ret s' -> sched_step s s'
| step_standby clock s s' : set_active clock false s = Ret s' -> sched_step s s'.

Lemma step_in_step s s' : sched_step s s' -> in_step s -> in_step s'.
Proof.
  intros [clock s1 s2 m on spec Hm E|clock j s1 s2 E|clock j v s1 s2 E|clock s1 c Ec Er|clock s1 s2 E|clock s1 c s2 _ _ E|clock s1 s2 E] I.
  - eapply init_in_step; [| |exact E]; done.
  - unfold switch_job in E. destruct (decide (j = AlertDisable)) as [->|Hj].
    + injection E as <-. unfold in_step in *. cbn. destruct (sd_cron s1) as [c|]; [|done]. destruct I as [I Er].
      split; [|done]. eapply in_step_options in I as I'; [eapply in_step_weaken; [|exact I']|..]; try done.
      intros i Hi. cbn. split; [by apply fn_lookup_insert_ne|done].
    + eapply set_option_in_step; [exact I| | | | | |destruct j; first [exact E|done]]; try done.
      intros i Hi. cbn. split; [by apply fn_lookup_insert_ne|done].
  - eapply set_option_in_step; [exact I| | | | | |exact E]; try done.
    intros i Hi. cbn. split; [done|by apply fn_lookup_insert_ne].
  - by apply timer_in_step.
  - by eapply monitoring_in_step.
  - by eapply active_in_step.
  - by eapply active_in_step.
Qed.

(** The entries of a job are the wanted one. *)
Definition job_is (j : SchedJob) (e : Entry) : bool := bool_decide (e_Job e = Some j).
Lemma agrees_entries s c j : NoDup (map core_id (cores c)) -> agrees s (cores c) j ->
  map core (List.filter (job_is j) (cr_entries c)) =
  match wanted s j with Some sch => [(sd_ids s j, Some j, Some sch, sd_spec s j)] | None => [] end.
Proof.
  intros N [A1 A2]. set (l := List.filter (job_is j) (cr_entries c)).
  assert (Hl : forall x, x ∈ map core l <-> x ∈ cores c /\ core_job x = Some j).
  { intros x. unfold l, cores. rewrite !list_elem_of_In, !in_map_iff. split.
    - intros (e & <- & [Hin D]%filter_In). apply bool_decide_eq_true in D. split; [by exists e|done].
    - intros [(e & <- & Hin) E]. exists e. split; [done|]. apply filter_In. split; [done|]. by apply bool_decide_eq_true. }
  assert (Nl : NoDup (map core_id (map core l))).
  { unfold l, cores in *. clear -N. induction (cr_entries c) as [|e es IH]; cbn; [constructor|].
    cbn in N. apply list.NoDup_cons in N as [Nh N]. destruct (job_is j e); [|by apply IH]. cbn. apply list.NoDup_cons.
    split; [|by apply IH]. intros Hin. apply Nh. rewrite list_elem_of_In, map_map, in_map_iff in Hin.
    destruct Hin as (e' & E & [Hin _]%filter_In). rewrite list_elem_of_In, map_map, in_map_iff. by exists e'. }
  destruct (wanted s j) as [sch|] eqn:Ew.
  - assert (Hx : forall x, x ∈ map core l -> x = (sd_ids s j, Some j, Some sch, sd_spec s j)).
    { intros x [Hx E]%Hl. destruct (A1 x Hx E) as (sch' & [= <-] & ->). done. }
    destruct (A2 sch eq_refl) as (x & Hin & E). assert (Hx' : x ∈ map core l) by by apply Hl.
    destruct (map core l) as [|y [|z m]]; [by apply elem_of_nil in Hx'| |].
    + f_equal. apply Hx. by left.
    + exfalso. cbn in Nl. apply list.NoDup_cons in Nl as [Nh _]. apply Nh.
      rewrite (Hx y) by (by left). rewrite (Hx z) by (right; by left). by left.
  - destruct (map core l) as [|x m] eqn:El; [done|]. exfalso.
    destruct (proj1 (Hl x) ltac:(by left)) as [Hx E]. destruct (A1 x Hx E) as (sch & ? & _). done.
Qed.
End Scheduler.


(** ** Examples *)

(** Two backups at one in the morning, the optimisation at noon, and a cluster that has
    not read its configuration. *)
Definition demo_on (j : SchedJob) : bool :=
  match j with BackupLogical | BackupPhysical | Optimize => true | _ => false end.
Definition demo_spec (j : SchedJob) : string := match j with Optimize => "0 0 12 * * *" | _ => "0 0 1 * * *" end.
Definition demo_clock : Time := mkTime 2024 6 30 12 30 0.
Definition no_sched : Sched := mkSched None ∅ (fun _ => 0) true demo_on demo_spec.
Definition demo_loaded : outcome Sched := init_schedule demo_clock no_sched.

Definition running_jobs (s : outcome Sched) : list (Z * option SchedJob * option Time) :=
  match s with
  | Ret s => match sd_cron s with
             | Some c => map (fun e => (e_ID e, e_Job e, e_Next e)) (waiting c)
             | None => []
             end
  | _ => []
  end.
Example demo_jobs : running_jobs demo_loaded =
  [(1, Some BackupLogical, Some (mkTime 2024 7 1 1 0 0)); (2, Some BackupPhysical, Some (mkTime 2024 7 1 1 0 0));
   (4, Some SlaRotate, Some (mkTime 2024 7 1 1 0 0)); (3, Some Optimize, Some (mkTime 2024 7 1 12 0 0))].
Proof. vm_compute. reflexivity. Qed.

(** The switch of the alerts leaves the runner without the job. *)
Example demo_alert_disable_not_scheduled :
  running_jobs (s ← demo_loaded; switch_job demo_clock AlertDisable s) = running_jobs demo_loaded.
Proof. vm_compute. reflexivity. Qed.

(** A job added an hour late is due at once: its activation is one of the hour before. *)
Example demo_added_late :
  let later := mkTime 2024 6 30 13 30 0 in
  exists l, running_jobs (s ← demo_loaded; s ← set_job_cron demo_clock Analyze "0 45 12 * * *" s; switch_job later Analyze s) =
  (5, Some Analyze, Some (mkTime 2024 6 30 12 45 0)) :: l.
Proof. eexists. vm_compute. reflexivity. Qed.

(** Switched off, the scheduler cannot be switched on. *)
Example demo_switch_blocks :
  (s ← demo_loaded; s ← SwitchMonitoringScheduler demo_clock s; SwitchMonitoringScheduler demo_clock s) = Hang.
Proof. vm_compute. reflexivity. Qed.

(** Read again with the scheduler off, the old runner goes on, and a job that is set
    then is in it twice. *)
Example demo_off_runs_on :
  map (fun x => fst (fst x))
    (running_jobs (s ← demo_loaded; s ← init_schedule demo_clock (with_Monitor false s);
                   set_job_cron demo_clock Optimize "0 0 12 * * *" s)) = [1; 2; 4; 3; 5].
Proof. vm_compute. reflexivity. Qed.

Definition first_times (e : Entry) : bool :=
  match e_Next e with
  | Some t => bool_decide (t = mkTime 2024 7 1 1 0 0) || bool_decide (t = mkTime 2024 7 1 12 0 0)
  | None => false
  end.
Definition runs_well (s : Sched) : bool :=
  match sd_cron s with
  | Some c =>
      cr_running c && bool_decide (effective c = Some (mkTime 2024 7 1 1 0 0)) && forallb first_times (cr_entries c) &&
      match wanted s Optimize with Some _ => true | None => false end && match wanted s Analyze with Some _ => false | None => true end
  | None => false
  end.
Lemma demo_loaded_runs : exists s c, demo_loaded = Ret s /\ sd_cron s = Some c /\ cr_running c = true /\
  effective c = Some (mkTime 2024 7 1 1 0 0) /\ (exists sch, wanted s Optimize = Some sch) /\ wanted s Analyze = None /\
  forallb first_times (cr_entries c) = true.
Proof.
  assert (X : match demo_loaded with Ret s => runs_well s | _ => false end = true) by (vm_compute; reflexivity).
  destruct demo_loaded as [s| |]; [|discriminate..]. unfold runs_well in X. destruct (sd_cron s) as [c|] eqn:Ec; [|discriminate].
  rewrite !andb_true_iff in X. destruct X as [[[[X1 X2] X3] X4] X5]. apply bool_decide_eq_true in X2.
  exists s, c. split_and!; [reflexivity|exact Ec|exact X1|exact X2| | |exact X3].
  - destruct (wanted s Optimize) as [sch|]; [by exists sch|discriminate].
  - by destruct (wanted s Analyze).
Qed.

Lemma timer_runs_due_jobs_witness : exists c,
  (let '(jobs, c') := cron_timer (mkTime 2024 7 1 1 0 0) c in
   Permutation jobs (map e_Job (List.filter (is_due (mkTime 2024 7 1 1 0 0)) (cr_entries c))) /\
   Permutation (cr_entries c') (map (renewed (mkTime 2024 7 1 1 0 0)) (cr_entries c)) /\
   forall e u, e ∈ cr_entries c -> e_Next e = Some u -> time_index (mkTime 2024 7 1 1 0 0) <= time_index u).
Proof.
  destruct demo_loaded_runs as (s & c & _ & _ & Hr & He & _ & _ & Hf). exists c.
  apply (timer_runs_due_jobs _ c); [exact Hr| |exact He]. intros e t Hin Ht.
  rewrite forallb_forall in Hf. specialize (Hf e (proj1 (list_elem_of_In _ _) Hin)). unfold first_times in Hf. rewrite Ht in Hf.
  apply orb_true_iff in Hf as [E|E]; apply bool_decide_eq_true in E; subst t; vm_compute; intuition discriminate.
Defined.

