(* ===== verification/Settings.v ===== *)
(** * Switching the options of a cluster (cluster_tgl.go, api_cluster.go)

    A request names a setting, and the cluster negates the option behind it. *)

From Stdlib Require Import ZArith Lia Bool Ascii String.
From stdpp Require Import base list gmap strings functions relations.
From S2P Require Import Prelude GoLib Cluster Cron Scheduler.

Local Open Scope string_scope.
Local Open Scope list_scope.
Local Open Scope Z_scope.

(** ** The options of [config.Config] *)

(** The boolean options: the name of the setting ([mapstructure]) and the field. *)
Definition option_tags : list (string * string) :=
  [("monitoring-save-config", "ConfRewrite"); ("monitoring-restore-config-on-start", "ConfRestoreOnStart");
   ("monitoring-merge-config-on-start", "MonitoringMergeConfigOnStart");
   ("monitoring-key-path-git-overwrite", "MonitoringKeyPathGitOverwrite");
   ("monitoring-write-heartbeat", "MonitorWriteHeartbeat"); ("monitoring-pause", "MonitorPause");
   ("monitoring-variable-diff", "MonitorVariableDiff"); ("monitoring-schema-change", "MonitorSchemaChange");
   ("monitoring-query-rules", "MonitorQueryRules"); ("monitoring-check-grants", "MonitorCheckGrants");
   ("monitoring-processlist", "MonitorProcessList"); ("monitoring-queries", "MonitorQueries");
   ("monitoring-performance-schema", "MonitorPFS"); ("monitoring-plugins", "MonitorPlugins");
   ("monitoring-innodb-status", "MonitorInnoDBStatus");
   ("monitoring-long-query-with-process", "MonitorLongQueryWithProcess");
   ("monitoring-long-query-with-table", "MonitorLongQueryWithTable"); ("monitoring-capture", "MonitorCapture");
   ("monitoring-disk-usage", "MonitorDiskUsage"); ("interactive", "Interactive"); ("verbose", "Verbose");
   ("log-syslog", "LogSyslog"); ("log-task", "LogTask"); ("log-sst", "LogSST"); ("log-heartbeat", "LogHeartbeat");
   ("log-sql-in-monitoring", "LogSQLInMonitoring"); ("log-writer-election", "LogWriterElection");
   ("log-git", "LogGit"); ("log-config-load", "LogConfigLoad"); ("log-backup-stream", "LogBackupStream");
   ("log-orchestrator", "LogOrchestrator"); ("log-topology", "LogTopology"); ("log-proxy", "LogProxy");
   ("log-graphite", "LogGraphite"); ("log-binlog-purge", "LogBinlogPurge");
   ("db-servers-tls-use-generated-cert", "DBServersTLSUseGeneratedCertificate");
   ("proxy-servers-read-on-master", "PRXServersReadOnMaster");
   ("proxy-servers-read-on-master-no-slave", "PRXServersReadOnMasterNoSlave");
   ("proxy-servers-backend-compression", "PRXServersBackendCompression");
   ("replication-use-ssl", "ReplicationSSL"); ("replication-active-passive", "ActivePassive");
   ("replication-dynamic-topology", "DynamicTopology"); ("replication-multi-master-ring", "MultiMasterRing");
   ("replication-multi-master-ring-unsafe", "MultiMasterRingUnsafe");
   ("replication-multi-master-wsrep", "MultiMasterWsrep");
   ("replication-multi-master-grouprep", "MultiMasterGrouprep"); ("replication-multi-master", "MultiMaster");
   ("replication-multi-master-concurrent-write", "MultiMasterConcurrentWrite");
   ("replication-multi-tier-slave", "MultiTierSlave");
   ("replication-master-slave-pg-stream", "MasterSlavePgStream");
   ("replication-master-slave-pg-logical", "MasterSlavePgLogical");
   ("replication-master-slave-never-relay", "ReplicationNoRelay"); ("switchover-at-equal-gtid", "SwitchGtidCheck");
   ("switchover-lower-release", "SwitchLowerRelease"); ("switchover-at-sync", "SwitchSync");
   ("switchover-slave-wait-catch", "SwitchSlaveWaitCatch");
   ("switchover-decrease-max-conn", "SwitchDecreaseMaxConn"); ("failover-readonly-state", "ReadOnly");
   ("failover-semisync-state", "FailoverSemiSyncState"); ("failover-superreadonly-state", "SuperReadOnly");
   ("failover-at-sync", "FailSync"); ("failover-event-scheduler", "FailEventScheduler");
   ("failover-event-status", "FailEventStatus"); ("failover-restart-unsafe", "FailRestartUnsafe");
   ("failover-mdev-check", "FailoverMdevCheck");
   ("failover-falsepositive-heartbeat", "CheckFalsePositiveHeartbeat");
   ("failover-falsepositive-maxscale", "CheckFalsePositiveMaxscale");
   ("failover-falsepositive-external", "CheckFalsePositiveExternal");
   ("failover-switch-to-prefered", "FailoverSwitchToPrefered"); ("delay-stat-capture", "DelayStatCapture");
   ("print-delay-stat", "PrintDelayStat"); ("print-delay-stat-history", "PrintDelayStatHistory");
   ("failover-check-delay-stat", "FailoverCheckDelayStat"); ("autorejoin", "Autorejoin"); ("autoseed", "Autoseed");
   ("autorejoin-force-restore", "AutorejoinForceRestore"); ("autorejoin-flashback", "AutorejoinFlashback");
   ("autorejoin-mysqldump", "AutorejoinMysqldump"); ("autorejoin-zfs-flashback", "AutorejoinZFSFlashback");
   ("autorejoin-physical-backup", "AutorejoinPhysicalBackup");
   ("autorejoin-logical-backup", "AutorejoinLogicalBackup");
   ("autorejoin-backup-binlog", "AutorejoinBackupBinlog"); ("autorejoin-flashback-on-sync", "AutorejoinSemisync");
   ("autorejoin-flashback-on-unsync", "AutorejoinNoSemisync");
   ("autorejoin-slave-positional-heartbeat", "AutorejoinSlavePositionalHeartbeat");
   ("check-replication-filters", "CheckReplFilter"); ("check-binlog-filters", "CheckBinFilter");
   ("check-grants", "CheckGrants"); ("check-replication-state", "RplChecks");
   ("check-replication-errant-trx", "RplCheckErrantTrx"); ("force-slave-heartbeat", "ForceSlaveHeartbeat");
   ("force-slave-gtid-mode", "ForceSlaveGtid"); ("force-slave-gtid-mode-strict", "ForceSlaveGtidStrict");
   ("force-slave-no-gtid-mode", "ForceSlaveNoGtid"); ("force-slave-idempotent", "ForceSlaveIdempotent");
   ("force-slave-strict", "ForceSlaveStrict"); ("force-slave-semisync", "ForceSlaveSemisync");
   ("force-slave-readonly", "ForceSlaveReadOnly"); ("force-binlog-row", "ForceBinlogRow");
   ("force-binlog-annotate", "ForceBinlogAnnotate"); ("force-binlog-compress", "ForceBinlogCompress");
   ("force-binlog-slowqueries", "ForceBinlogSlowqueries"); ("force-binlog-checksum", "ForceBinlogChecksum");
   ("force-binlog-purge", "ForceBinlogPurge"); ("force-binlog-purge-replicas", "ForceBinlogPurgeReplicas");
   ("force-binlog-purge-on-restore", "ForceBinlogPurgeOnRestore");
   ("force-inmemory-binlog-cache-size", "ForceInmemoryBinlogCacheSize");
   ("force-disk-relaylog-size-limit", "ForceDiskRelayLogSizeLimit"); ("force-sync-binlog", "ForceSyncBinlog");
   ("force-sync-innodb", "ForceSyncInnoDB"); ("force-noslave-behind", "ForceNoslaveBehind"); ("spider", "Spider");
   ("http-server", "HttpServ"); ("api-server", "ApiServ"); ("http-auth", "HttpAuth");
   ("http-use-react", "HttpUseReact"); ("http-bootstrap-button", "HttpBootstrapButton"); ("daemon", "Daemon");
   ("mail-smtp-tls-skip-verify", "MailSMTPTLSSkipVerify"); ("heartbeat-table", "Heartbeat");
   ("extproxy", "ExtProxyOn"); ("shardproxy", "MdbsProxyOn"); ("shardproxy-debug", "MdbsProxyDebug");
   ("shardproxy-copy-grants", "MdbsProxyCopyGrants"); ("shardproxy-load-system", "MdbsProxyLoadSystem");
   ("maxscale", "MxsOn"); ("maxscale-debug", "MxsDebug"); ("maxscale-binlog", "MxsBinlogOn");
   ("maxscale-disable-monitor", "MxsDisableMonitor"); ("maxscale-server-match-port", "MxsServerMatchPort");
   ("myproxy", "MyproxyOn"); ("myproxy-debug", "MyproxyDebug"); ("haproxy", "HaproxyOn");
   ("haproxy-debug", "HaproxyDebug"); ("proxysql", "ProxysqlOn"); ("proxysql-debug", "ProxysqlDebug");
   ("proxysql-save-to-disk", "ProxysqlSaveToDisk"); ("proxysql-bootstrap-users", "ProxysqlCopyGrants");
   ("proxysql-bootstrap", "ProxysqlBootstrap"); ("proxysql-bootstrap-variables", "ProxysqlBootstrapVariables");
   ("proxysql-bootstrap-hostgroups", "ProxysqlBootstrapHG");
   ("proxysql-bootstrap-query-rules", "ProxysqlBootstrapQueryRules");
   ("proxysql-multiplexing", "ProxysqlMultiplexing"); ("proxyjanitor-debug", "ProxyJanitorDebug");
   ("mysqlrouter", "MysqlRouterOn"); ("mysqlrouter-debug", "MysqlRouterDebug"); ("sphinx", "SphinxOn");
   ("sphinx-debug", "SphinxDebug"); ("registry-consul", "RegistryConsul");
   ("registry-consul-debug", "RegistryConsulDebug"); ("topology-staging", "TopologyStaging");
   ("graphite-metrics", "GraphiteMetrics"); ("graphite-embedded", "GraphiteEmbedded");
   ("graphite-whitelist", "GraphiteWhitelist"); ("graphite-blacklist", "GraphiteBlacklist");
   ("sysbench-v1", "SysbenchV1"); ("arbitration-external", "Arbitration"); ("test", "Test");
   ("test-inject-traffic", "TestInjectTraffic"); ("onpremise-ssh", "OnPremiseSSH");
   ("opensvc-use-collector-api", "ProvOpensvcUseCollectorAPI"); ("opensvc-register", "ProvRegister");
   ("prov-serialized", "ProvSerialized"); ("prov-db-apply-dynamic-config", "ProvDBApplyDynamicConfig");
   ("prov-db-force-write-config", "ProvDBForceWriteConfig"); ("prov-db-binary-in-tarball", "ProvBinaryInTarball");
   ("prov-db-disk-snapshot-prefered-master", "ProvDiskSnapshot"); ("prov-net-cni", "ProvNetCNI");
   ("prov-docker-daemon-private", "ProvDockerDaemonPrivate"); ("api-credentials-secure-config", "APISecureConfig");
   ("api-https-bind", "APIHttpsBind"); ("monitoring-scheduler", "MonitorScheduler");
   ("scheduler-db-servers-receiver-use-ssl", "SchedulerReceiverUseSSL");
   ("scheduler-db-servers-logical-backup", "SchedulerBackupLogical");
   ("scheduler-db-servers-physical-backup", "SchedulerBackupPhysical");
   ("scheduler-db-servers-logs", "SchedulerDatabaseLogs");
   ("scheduler-db-servers-optimize", "SchedulerDatabaseOptimize");
   ("scheduler-db-servers-analyze", "SchedulerDatabaseAnalyze");
   ("scheduler-alert-disable", "SchedulerAlertDisable"); ("optimize-use-sql", "OptimizeUseSQL");
   ("analyze-use-sql", "AnalyzeUseSQL"); ("compress-backups", "CompressBackups");
   ("scheduler-db-servers-logs-table-rotate", "SchedulerDatabaseLogsTableRotate");
   ("scheduler-rolling-restart", "SchedulerRollingRestart");
   ("scheduler-rolling-reprov", "SchedulerRollingReprov"); ("scheduler-jobs-ssh", "SchedulerJobsSSH");
   ("backup", "Backup"); ("backup-logical-dump-system-tables", "BackupLogicalDumpSystemTables");
   ("backup-keep-until-valid", "BackupKeepUntilValid"); ("backup-restic", "BackupRestic");
   ("backup-restic-aws", "BackupResticAws"); ("backup-streaming", "BackupStreaming");
   ("backup-streaming-debug", "BackupStreamingDebug"); ("backup-binlogs", "BackupBinlogs");
   ("backup-lockddl", "BackupLockDDL"); ("log-vault", "LogVault"); ("cloud18", "Cloud18");
   ("cloud18-shared", "Cloud18Shared"); ("cloud18-open-dbops", "Cloud18OpenDbops");
   ("cloud18-subscribed-dbops", "Cloud18SubscribedDbops"); ("cloud18-open-sysops", "Cloud18OpenSysops");
   ("log-secrets", "LogSecrets"); ("api-swagger-enabled", "ApiSwaggerEnabled")].

(** The names ([toml]) of the options that all clusters share. *)
Definition server_scope : list string :=
  ["monitoring-basedir"; "monitoring-datadir"; "monitoring-confdir"; "monitoring-confdir-backup";
   "monitoring-confdir-extra"; "monitoring-save-config"; "monitoring-restore-config-on-start";
   "monitoring-merge-config-on-start"; "monitoring-ssl-cert"; "monitoring-ssl-key"; "monitoring-key-path";
   "monitoring-key-path-git-overwrite"; "monitoring-address"; "log-file"; "log-file-level"; "log-syslog";
   "log-git"; "log-git-level"; "http-bind-address"; "http-port"; "http-server"; "api-server"; "http-root";
   "http-auth"; "http-use-react"; "http-bootstrap-button"; "http-session-lifetime"; "http-refresh-interval";
   "mail-from"; "mail-to"; "mail-smtp-addr"; "mail-smtp-user"; "mail-smtp-password"; "mail-smtp-tls-skip-verify";
   "graphite-metrics"; "graphite-embedded"; "graphite-whitelist"; "graphite-blacklist";
   "graphite-whitelist-template"; "graphite-carbon-host"; "graphite-carbon-port"; "graphite-carbon-api-port";
   "graphite-carbon-server-port"; "graphite-carbon-link-port"; "graphite-carbon-pickle-port";
   "graphite-carbon-pprof-port"; "sysbench-binary-path"; "sysbench-v1"; "arbitration-external";
   "arbitration-external-secret"; "arbitration-external-hosts"; "arbitration-external-unique-id";
   "arbitration-peer-hosts"; "arbitration-failed-master-script"; "arbitration-read-timeout";
   "prov-service-plan-registry"; "api-port"; "api-bind"; "api-public-url"; "api-secure"; "git-url"; "git-url-pull";
   "git-username"; "git-acces-token"; "git-monitoring-ticker"; "cloud18"; "cloud18-domain"; "cloud18-sub-domain";
   "cloud18-sub-domain-zone"; "cloud18-gitlab-user"; "cloud18-gitlab-password"; "api-token-timeout";
   "api-swagger-enabled"].
Definition IsScope_server (setting : string) : bool := existsb (String.eqb setting) server_scope.

Definition option_field (setting : string) : option string :=
  option_map snd (List.find (fun kv => (fst kv =? setting)%string) option_tags).

(** What a switch or a setter does beside the options. *)
Inductive SettingCall :=
| configurator_Init
| remove_saved_config
| CheckBinaryLogs_all
| set_restic_version (found : bool)
| DelBackupLogicalCookie
| DelBackupPhysicalCookie
| reprov_proxies
| reprov_databases
| restart_proxies
| restart_databases
| configurator_set (field value : string)
| logger_level (level : Z)
| host_list (hosts : list string)
| save_cluster.

(** The boolean, integer and text fields by their names; the fields of the scheduler are
    in [st_sched]. [st_restic]: the version of restic is known. *)
Record Settings := mkSettings {
  st_bool : string -> bool; st_int : string -> Z; st_text : string -> string;
  st_sched : Sched; st_restic : bool; st_calls : list SettingCall
}.
Definition set_bool (f : string) (b : bool) (st : Settings) : Settings :=
  mkSettings (<[f := b]> (st_bool st)) (st_int st) (st_text st) (st_sched st) (st_restic st) (st_calls st).
Definition set_int (f : string) (n : Z) (st : Settings) : Settings :=
  mkSettings (st_bool st) (<[f := n]> (st_int st)) (st_text st) (st_sched st) (st_restic st) (st_calls st).
Definition set_text (f v : string) (st : Settings) : Settings :=
  mkSettings (st_bool st) (st_int st) (<[f := v]> (st_text st)) (st_sched st) (st_restic st) (st_calls st).
Definition set_sched (s : Sched) (st : Settings) : Settings :=
  mkSettings (st_bool st) (st_int st) (st_text st) s (st_restic st) (st_calls st).
Definition set_restic (b : bool) (st : Settings) : Settings :=
  mkSettings (st_bool st) (st_int st) (st_text st) (st_sched st) b (st_calls st).
Definition called (c : SettingCall) (st : Settings) : Settings :=
  mkSettings (st_bool st) (st_int st) (st_text st) (st_sched st) (st_restic st) (st_calls st ++ [c]).

(** ** The switches *)

Abbreviation Switch := (Settings -> outcome Settings).

Definition flip (f : string) : Switch := fun st => Ret (set_bool f (negb (st_bool st f)) st).
Definition flip_then (f : string) (k : Settings -> Settings) : Switch := fun st => Ret (k (set_bool f (negb (st_bool st f)) st)).
(** A flag of the log, and its level. *)
Definition switch_log (f level : string) : Switch := fun st =>
  let st := if st_bool st f then set_int level 0 st else set_int level 1 st in flip f st.
Definition on_sched (op : Sched -> outcome Sched) : Switch := fun st =>
  s ← op (st_sched st); Ret (set_sched s st).
Definition switch_parallel (mode : string) : Switch := fun st =>
  Ret (set_text "ForceSlaveParallelMode"
         (if negb (strings_ToUpper (st_text st "ForceSlaveParallelMode") =? mode)%string then mode else "") st).

Section Switches.
Context `{GoSort} `{GoTime} (clock : Time) (restic : bool).

Definition SwitchForceSlaveNoGtid : Switch := flip "ForceSlaveNoGtid".
Definition SwitchDBDynamicConfig : Switch := flip "ProvDBApplyDynamicConfig".
Definition SwitchMonitoringPause : Switch := flip "MonitorPause".
Definition SwitchDBApplyDynamicConfig : Switch := flip "ProvDBApplyDynamicConfig".
Definition SwitchForceSlaveReadOnly : Switch := flip "ForceSlaveReadOnly".
Definition SwitchForceBinlogRow : Switch := flip "ForceBinlogRow".
Definition SwitchForceSlaveSemisync : Switch := flip "ForceSlaveSemisync".
Definition SwitchForceSlaveHeartbeat : Switch := flip "ForceSlaveHeartbeat".
Definition SwitchForceSlaveGtid : Switch := flip "ForceSlaveGtid".
Definition SwitchForceSlaveGtidStrict : Switch := flip "ForceSlaveGtidStrict".
Definition SwitchForceSlaveModeStrict : Switch := flip_then "ForceSlaveStrict" (fun st =>
  if st_bool st "ForceSlaveStrict" then set_bool "ForceSlaveIdempotent" (negb (st_bool st "ForceSlaveStrict")) st else st).
Definition SwitchForceSlaveModeIdempotent : Switch := flip_then "ForceSlaveIdempotent" (fun st =>
  if st_bool st "ForceSlaveIdempotent" then set_bool "ForceSlaveStrict" (negb (st_bool st "ForceSlaveIdempotent")) st else st).
Definition SwitchForceSlaveParallelModeSerialized : Switch := switch_parallel "SERIALIZED".
Definition SwitchForceSlaveParallelModeMinimal : Switch := switch_parallel "MINIMAL".
Definition SwitchForceSlaveParallelModeConservative : Switch := switch_parallel "CONSERVATIVE".
Definition SwitchForceSlaveParallelModeOptimistic : Switch := switch_parallel "OPTIMISTIC".
Definition SwitchForceSlaveParallelModeAggressive : Switch := switch_parallel "AGGRESSIVE".
Definition SwitchForceBinlogCompress : Switch := flip "ForceBinlogCompress".
Definition SwitchForceBinlogAnnotate : Switch := flip "ForceBinlogAnnotate".
Definition SwitchForceBinlogSlowqueries : Switch := flip "ForceBinlogSlowqueries".
Definition SwitchProvNetCNI : Switch := flip "ProvNetCNI".
Definition SwitchProvDockerDaemonPrivate : Switch := flip "ProvDockerDaemonPrivate".
(** [restic]: the program answered when its version was asked. *)
Definition SwitchBackupRestic : Switch := flip_then "BackupRestic" (fun st =>
  if st_bool st "BackupRestic" && negb (st_restic st)
  then called (set_restic_version restic) (set_restic (restic || st_restic st) st) else st).
Definition SwitchBackupResticAws : Switch := flip "BackupResticAws".
Definition SwitchBackupBinlogs : Switch := flip_then "BackupBinlogs" (fun st =>
  if st_bool st "BackupBinlogs" then called CheckBinaryLogs_all st else st).
Definition SwitchCompressBackups : Switch := flip "CompressBackups".
Definition SwitchInteractive : Switch := fun st =>
  if st_bool st "Interactive" then Ret (set_bool "Interactive" false st) else Ret (set_bool "Interactive" true st).
Definition SwitchReadOnly : Switch := flip_then "ReadOnly" (called configurator_Init).
Definition SwitchRplChecks : Switch := flip "RplChecks".
Definition SwitchFailSync : Switch := flip "FailSync".
Definition SwitchSwitchoverSync : Switch := flip "SwitchSync".
Definition SwitchVerbosity : Switch := flip "Verbose".
Definition SwitchRejoin : Switch := flip "Autorejoin".
Definition SwitchAutoseed : Switch := flip "Autoseed".
Definition SwitchRejoinDump : Switch := flip "AutorejoinMysqldump".
Definition SwitchRejoinLogicalBackup : Switch := flip "AutorejoinLogicalBackup".
Definition SwitchRejoinPhysicalBackup : Switch := flip "AutorejoinPhysicalBackup".
Definition SwitchRejoinBackupBinlog : Switch := flip "AutorejoinBackupBinlog".
Definition SwitchRejoinForceRestore : Switch := flip "AutorejoinForceRestore".
Definition SwitchRejoinSemisync : Switch := flip "AutorejoinSemisync".
Definition SwitchRejoinFlashback : Switch := flip "AutorejoinFlashback".
Definition SwitchRejoinPseudoGTID : Switch := flip "AutorejoinSlavePositionalHeartbeat".
Definition SwitchCheckReplicationFilters : Switch := flip "CheckReplFilter".
Definition SwitchFailoverRestartUnsafe : Switch := flip "FailRestartUnsafe".
Definition SwitchFailoverEventScheduler : Switch := flip "FailEventScheduler".
Definition SwitchRejoinZFSFlashback : Switch := flip "AutorejoinZFSFlashback".
Definition SwitchBackup : Switch := flip "Backup".
Definition SwitchSchedulerBackupLogical : Switch := on_sched (switch_job clock BackupLogical).
Definition SwitchSchedulerBackupPhysical : Switch := on_sched (switch_job clock BackupPhysical).
Definition SwitchSchedulerDbJobsSsh : Switch := on_sched (switch_job clock DbJobsSsh).
Definition SwitchSchedulerDatabaseLogs : Switch := on_sched (switch_job clock ErrorLogs).
Definition SwitchSchedulerDatabaseLogsTableRotate : Switch := on_sched (switch_job clock LogsTableRotate).
Definition SwitchSchedulerDatabaseOptimize : Switch := on_sched (switch_job clock Optimize).
Definition SwitchSchedulerDatabaseAnalyze : Switch := on_sched (switch_job clock Analyze).
Definition SwitchSwitchLowerRelease : Switch := flip "SwitchLowerRelease".
Definition SwitchSchedulerRollingRestart : Switch := on_sched (switch_job clock RestartRolling).
Definition SwitchSchedulerRollingReprov : Switch := on_sched (switch_job clock ReprovRolling).
Definition SwitchSchedulerAlertDisable : Switch := on_sched (switch_job clock AlertDisable).
Definition SwitchGraphiteEmbedded : Switch := flip "GraphiteEmbedded".
Definition SwitchGraphiteMetrics : Switch := flip "GraphiteMetrics".
Definition SwitchGraphiteWhitelist : Switch := flip "GraphiteWhitelist".
Definition SwitchGraphiteBlacklist : Switch := flip "GraphiteBlacklist".
Definition SwitchFailoverLowerRelease : Switch := flip "SwitchLowerRelease".
Definition SwitchFailoverEventStatus : Switch := flip "FailEventStatus".
Definition SwitchProxyServersBackendCompression : Switch := flip "PRXServersBackendCompression".
Definition SwitchProxyServersReadOnMaster : Switch := flip_then "PRXServersReadOnMaster" (called configurator_Init).
Definition SwitchProxyServersReadOnMasterNoSlave : Switch := flip_then "PRXServersReadOnMasterNoSlave" (called configurator_Init).
Definition SwitchProxySQL : Switch := flip "ProxysqlOn".
Definition SwitchMdbsProxy : Switch := flip "MdbsProxyOn".
Definition SwitchHaProxy : Switch := flip "HaproxyOn".
Definition SwitchMaxscaleProxy : Switch := flip "MxsOn".
Definition SwitchMyProxy : Switch := flip "MyproxyOn".
Definition SwitchProxysqlBootstrap : Switch := flip "ProxysqlBootstrap".
Definition SwitchProxysqlCopyGrants : Switch := flip "ProxysqlCopyGrants".
Definition SwitchProxysqlBootstrapVariables : Switch := flip "ProxysqlBootstrapVariables".
Definition SwitchProxysqlBootstrapServers : Switch := flip "ProxysqlBootstrap".
Definition SwitchProxysqlBootstrapHostgroups : Switch := flip "ProxysqlBootstrapHG".
Definition SwitchProxysqlBootstrapQueryRules : Switch := flip "ProxysqlBootstrapQueryRules".
Definition SwitchMonitoringSaveConfig : Switch := flip_then "ConfRewrite" (fun st =>
  if negb (st_bool st "ConfRewrite") then called remove_saved_config st else st).
Definition SwitchMonitoringSchemaChange : Switch := flip "MonitorSchemaChange".
Definition SwitchMonitoringCapture : Switch := flip "MonitorCapture".
Definition SwitchMonitoringInnoDBStatus : Switch := flip "MonitorInnoDBStatus".
Definition SwitchMonitoringVariableDiff : Switch := flip "MonitorVariableDiff".
Definition SwitchMonitoringProcesslist : Switch := flip "MonitorProcessList".
Definition SwitchCloud18Shared : Switch := fun st =>
  if st_bool st "Cloud18" then flip "Cloud18Shared" st else Ret st.
Definition SwitchCloud18 : Switch := flip "Cloud18".
Definition switch_scheduler : Switch := on_sched (SwitchMonitoringScheduler clock).
Definition SwitchMonitoringQueries : Switch := flip "MonitorQueries".
Definition SwitchTestMode : Switch := flip "Test".
Definition SwitchTraffic : Switch := fun st =>
  Ret (set_bool "TestInjectTraffic" (negb (st_bool st "TestInjectTraffic")) st).
Definition SwitchDelayStatCapture : Switch := flip_then "DelayStatCapture" (fun st =>
  if negb (st_bool st "DelayStatCapture")
  then set_bool "PrintDelayStatHistory" false (set_bool "PrintDelayStat" false (set_bool "FailoverCheckDelayStat" false st))
  else st).
Definition SwitchPrintDelayStat : Switch := flip "PrintDelayStat".
Definition SwitchPrintDelayStatHistory : Switch := flip "PrintDelayStatHistory".
Definition SwitchFailoverCheckDelayStat : Switch := flip "FailoverCheckDelayStat".
Definition SwitchLogSQLInMonitoring : Switch := flip "LogSQLInMonitoring".
Definition SwitchLogWriterElection : Switch := switch_log "LogWriterElection" "LogWriterElectionLevel".
Definition SwitchLogSST : Switch := switch_log "LogSST" "LogSSTLevel".
Definition SwitchLogHeartbeat : Switch := switch_log "LogHeartbeat" "LogHeartbeatLevel".
Definition SwitchLogConfigLoad : Switch := switch_log "LogConfigLoad" "LogConfigLoadLevel".
Definition SwitchLogGit : Switch := switch_log "LogGit" "LogGitLevel".
Definition SwitchLogBackupStream : Switch := switch_log "LogBackupStream" "LogBackupStreamLevel".
Definition SwitchLogOrchestrator : Switch := switch_log "LogOrchestrator" "LogOrchestratorLevel".
Definition SwitchLogVault : Switch := switch_log "LogVault" "LogVaultLevel".
Definition SwitchLogTopology : Switch := switch_log "LogTopology" "LogTopologyLevel".
Definition SwitchLogProxy : Switch := switch_log "LogProxy" "LogProxyLevel".
Definition SwitchProxysqlDebug : Switch := switch_log "ProxysqlDebug" "ProxysqlLogLevel".
Definition SwitchHaproxyDebug : Switch := switch_log "HaproxyDebug" "HaproxyLogLevel".
Definition SwitchProxyJanitorDebug : Switch := switch_log "ProxyJanitorDebug" "ProxyJanitorLogLevel".
Definition SwitchMxsDebug : Switch := switch_log "MxsDebug" "MxsLogLevel".
Definition SwitchForceBinlogPurge : Switch := flip "ForceBinlogPurge".
Definition SwitchForceBinlogPurgeOnRestore : Switch := flip "ForceBinlogPurgeOnRestore".
Definition SwitchForceBinlogPurgeReplicas : Switch := flip "ForceBinlogPurgeReplicas".
Definition SwitchMultiMasterRingUnsafe : Switch := flip "MultiMasterRingUnsafe".
Definition SwitchMultiMasterConcurrentWrite : Switch := flip "MultiMasterConcurrentWrite".
Definition SwitchDynamicTopology : Switch := flip "DynamicTopology".
Definition SwitchReplicationNoRelay : Switch := flip "ReplicationNoRelay".
Definition SwitchForceWriteConfig : Switch := flip "ProvDBForceWriteConfig".
Definition SwitchBackupKeepUntilValid : Switch := flip "BackupKeepUntilValid".
Definition SwitchCloud18OpenDbops : Switch := flip "Cloud18OpenDbops".
Definition SwitchCloud18SubscribedDbops : Switch := flip "Cloud18SubscribedDbops".
Definition SwitchCloud18OpenSysops : Switch := flip "Cloud18OpenSysops".

(** The switches of [config.go]. *)
Definition Conf_SwitchMailSmtpTlsSkipVerify : Switch := flip "MailSMTPTLSSkipVerify".
Definition Conf_SwitchCloud18Shared : Switch := SwitchCloud18Shared.

(** ** The requests (api_cluster.go) *)

Definition switch_cases_1 : list (string * Switch) :=
  [("verbose", SwitchVerbosity); ("failover-mode", SwitchInteractive); ("failover-readonly-state", SwitchReadOnly);
   ("failover-restart-unsafe", SwitchFailoverRestartUnsafe); ("failover-at-sync", SwitchFailSync);
   ("force-slave-no-gtid-mode", SwitchForceSlaveNoGtid); ("switchover-lower-release", SwitchFailoverLowerRelease);
   ("failover-event-status", SwitchFailoverEventStatus);
   ("failover-event-scheduler", SwitchFailoverEventScheduler); ("delay-stat-capture", SwitchDelayStatCapture);
   ("print-delay-stat", SwitchPrintDelayStat); ("print-delay-stat-history", SwitchPrintDelayStatHistory);
   ("failover-check-delay-stat", SwitchFailoverCheckDelayStat); ("autorejoin", SwitchRejoin);
   ("autoseed", SwitchAutoseed); ("autorejoin-backup-binlog", SwitchRejoinBackupBinlog);
   ("autorejoin-flashback", SwitchRejoinFlashback); ("autorejoin-flashback-on-sync", SwitchRejoinSemisync);
   ("autorejoin-flashback-on-unsync", Ret); ("autorejoin-slave-positional-heartbeat", SwitchRejoinPseudoGTID);
   ("autorejoin-zfs-flashback", SwitchRejoinZFSFlashback); ("autorejoin-mysqldump", SwitchRejoinDump);
   ("autorejoin-logical-backup", SwitchRejoinLogicalBackup);
   ("autorejoin-physical-backup", SwitchRejoinPhysicalBackup);
   ("autorejoin-force-restore", SwitchRejoinForceRestore); ("switchover-at-sync", SwitchSwitchoverSync);
   ("check-replication-filters", SwitchCheckReplicationFilters); ("check-replication-state", SwitchRplChecks);
   ("scheduler-db-servers-logical-backup", SwitchSchedulerBackupLogical);
   ("scheduler-db-servers-physical-backup", SwitchSchedulerBackupPhysical);
   ("scheduler-db-servers-logs", SwitchSchedulerDatabaseLogs); ("scheduler-jobs-ssh", SwitchSchedulerDbJobsSsh);
   ("scheduler-db-servers-logs-table-rotate", SwitchSchedulerDatabaseLogsTableRotate);
   ("scheduler-rolling-restart", SwitchSchedulerRollingRestart);
   ("scheduler-rolling-reprov", SwitchSchedulerRollingReprov);
   ("scheduler-db-servers-optimize", SwitchSchedulerDatabaseOptimize);
   ("scheduler-db-servers-analyze", SwitchSchedulerDatabaseAnalyze);
   ("scheduler-alert-disable", SwitchSchedulerAlertDisable); ("graphite-metrics", SwitchGraphiteMetrics);
   ("graphite-embedded", SwitchGraphiteEmbedded); ("graphite-whitelist", SwitchGraphiteMetrics);
   ("graphite-blacklist", SwitchGraphiteBlacklist); ("shardproxy-copy-grants", SwitchProxysqlCopyGrants);
   ("proxysql-copy-grants", SwitchProxysqlCopyGrants); ("proxysql-bootstrap-users", SwitchProxysqlCopyGrants);
   ("proxysql-bootstrap-variables", SwitchProxysqlBootstrapVariables);
   ("proxysql-bootstrap-hostgroups", SwitchProxysqlBootstrapHostgroups);
   ("proxysql-bootstrap-servers", SwitchProxysqlBootstrapServers);
   ("proxysql-bootstrap-query-rules", SwitchProxysqlBootstrapQueryRules);
   ("proxysql-bootstrap", SwitchProxysqlBootstrap); ("proxysql", SwitchProxySQL);
   ("proxy-servers-read-on-master", SwitchProxyServersReadOnMaster);
   ("proxy-servers-read-on-master-no-slave", SwitchProxyServersReadOnMasterNoSlave);
   ("proxy-servers-backend-compression", SwitchProxyServersBackendCompression);
   ("database-heartbeat", SwitchTraffic); ("test", SwitchTestMode)].
Definition switch_cases_2 : list (string * Switch) :=
  [("prov-net-cni", SwitchProvNetCNI); ("prov-db-apply-dynamic-config", SwitchDBApplyDynamicConfig);
   ("prov-docker-daemon-private", SwitchProvDockerDaemonPrivate); ("backup-restic-aws", SwitchBackupResticAws);
   ("backup-restic", SwitchBackupRestic); ("backup-binlogs", SwitchBackupBinlogs);
   ("compress-backups", SwitchCompressBackups); ("monitoring-pause", SwitchMonitoringPause);
   ("monitoring-save-config", SwitchMonitoringSaveConfig); ("monitoring-queries", SwitchMonitoringQueries);
   ("monitoring-scheduler", switch_scheduler); ("monitoring-schema-change", SwitchMonitoringSchemaChange);
   ("monitoring-capture", SwitchMonitoringCapture); ("monitoring-innodb-status", SwitchMonitoringInnoDBStatus);
   ("monitoring-variable-diff", SwitchMonitoringVariableDiff);
   ("monitoring-processlist", SwitchMonitoringProcesslist); ("force-slave-readonly", SwitchForceSlaveReadOnly);
   ("force-binlog-row", SwitchForceBinlogRow); ("force-slave-semisync", SwitchForceSlaveSemisync);
   ("force-slave-Heartbeat", SwitchForceSlaveHeartbeat); ("force-slave-gtid", SwitchForceSlaveGtid);
   ("force-slave-gtid-mode-strict", SwitchForceSlaveGtidStrict);
   ("force-slave-idempotent", SwitchForceSlaveModeIdempotent); ("force-slave-strict", SwitchForceSlaveModeStrict);
   ("force-slave-serialized", SwitchForceSlaveParallelModeSerialized);
   ("force-slave-minimal", SwitchForceSlaveParallelModeMinimal);
   ("force-slave-conservative", SwitchForceSlaveParallelModeConservative);
   ("force-slave-optimistic", SwitchForceSlaveParallelModeOptimistic);
   ("force-slave-aggressive", SwitchForceSlaveParallelModeAggressive);
   ("force-binlog-compress", SwitchForceBinlogCompress); ("force-binlog-annotate", SwitchForceBinlogAnnotate);
   ("force-binlog-slow-queries", SwitchForceBinlogSlowqueries);
   ("log-sql-in-monitoring", SwitchLogSQLInMonitoring); ("log-writer-election", SwitchLogWriterElection);
   ("log-sst", SwitchLogSST); ("log-heartbeat", SwitchLogHeartbeat); ("log-config-load", SwitchLogConfigLoad);
   ("log-git", SwitchLogGit); ("log-backup-stream", SwitchLogBackupStream);
   ("log-orchestrator", SwitchLogOrchestrator); ("log-vault", SwitchLogVault); ("log-topology", SwitchLogTopology);
   ("log-proxy", SwitchLogProxy); ("proxysql-debug", SwitchProxysqlDebug); ("haproxy-debug", SwitchHaproxyDebug);
   ("proxyjanitor-debug", SwitchProxyJanitorDebug); ("maxscale-debug", SwitchMxsDebug);
   ("force-binlog-purge", SwitchForceBinlogPurge);
   ("force-binlog-purge-on-restore", SwitchForceBinlogPurgeOnRestore);
   ("force-binlog-purge-replicas", SwitchForceBinlogPurgeReplicas);
   ("multi-master-concurrent-write", SwitchMultiMasterConcurrentWrite);
   ("multi-master-ring-unsafe", SwitchMultiMasterRingUnsafe); ("dynamic-topology", SwitchDynamicTopology);
   ("replication-no-relay", SwitchReplicationNoRelay); ("prov-db-force-write-config", SwitchForceWriteConfig);
   ("backup-keep-until-valid", SwitchBackupKeepUntilValid);
   ("mail-smtp-tls-skip-verify", Conf_SwitchMailSmtpTlsSkipVerify); ("cloud18-shared", Conf_SwitchCloud18Shared);
   ("cloud18-open-dbops", SwitchCloud18OpenDbops); ("cloud18-subscribed-dbops", SwitchCloud18SubscribedDbops);
   ("cloud18-open-sysops", SwitchCloud18OpenSysops)].
Definition switch_cases : list (string * Switch) := switch_cases_1 ++ switch_cases_2.

Definition switchClusterSettings (setting : string) (st : Settings) : outcome (option string * Settings) :=
  match List.find (fun c => (fst c =? setting)%string) switch_cases with
  | Some (_, op) => st ← op st; Ret (None, called save_cluster st)
  | None => Ret (Some "Setting not found", st)
  end.

(** The status of the answer, and the cluster. A setting that all clusters share is
    sent on to another handler. *)
Inductive Response := Status (code : Z) | ToGlobalSettings.
Definition handlerMuxSwitchSettings (setting : string) (valid : bool) (mycluster : option Settings)
  : outcome (Response * option Settings) :=
  if IsScope_server setting then Ret (ToGlobalSettings, mycluster)
  else
    match mycluster with
    | None => Ret (Status 500, None)
    | Some st =>
        if valid
        then
          r ← switchClusterSettings setting st;
          let '(err, st) := r in Ret (Status (match err with Some _ => 501 | None => 200 end), Some st)
        else Ret (Status 403, Some st)
    end.
End Switches.
