(* ===== verification/SettingsProps.v ===== *)
(** * What a switched setting changes

    The settings of the interface and the options they negate. *)

From Stdlib Require Import ZArith Lia Bool Ascii String.
From stdpp Require Import base list gmap strings functions relations.
From S2P Require Import Prelude GoLib Cluster Cron Scheduler SchedulerProps Settings.

Local Open Scope string_scope.
Local Open Scope list_scope.
Local Open Scope Z_scope.

(** ** The value of an option, wherever it is kept *)

Definition field_job (f : string) : option SchedJob :=
  if (f =? "SchedulerBackupLogical")%string then Some BackupLogical
  else if (f =? "SchedulerBackupPhysical")%string then Some BackupPhysical
  else if (f =? "SchedulerDatabaseLogsTableRotate")%string then Some LogsTableRotate
  else if (f =? "SchedulerDatabaseLogs")%string then Some ErrorLogs
  else if (f =? "SchedulerDatabaseOptimize")%string then Some Optimize
  else if (f =? "SchedulerDatabaseAnalyze")%string then Some Analyze
  else if (f =? "SchedulerRollingRestart")%string then Some RestartRolling
  else if (f =? "SchedulerRollingReprov")%string then Some ReprovRolling
  else if (f =? "SchedulerJobsSSH")%string then Some DbJobsSsh
  else if (f =? "SchedulerAlertDisable")%string then Some AlertDisable
  else None.
Definition option_value (st : Settings) (f : string) : bool :=
  match field_job f with
  | Some j => sd_on (st_sched st) j
  | None => if (f =? "MonitorScheduler")%string then sd_Monitor (st_sched st) else st_bool st f
  end.
(** The options that are not in the scheduler. *)
Definition plain (f : string) : bool :=
  match field_job f with Some _ => false | None => negb (f =? "MonitorScheduler")%string end.

Lemma field_job_inj f g j : field_job f = Some j -> field_job g = Some j -> f = g.
Proof.
  unfold field_job. intros Hf Hg.
  repeat match type of Hf with context [String.eqb ?x ?y] => destruct (String.eqb_spec x y); [subst f; injection Hf as <-; clear -Hg|] end; [..|done].
  all: repeat match type of Hg with context [String.eqb ?x ?y] => destruct (String.eqb_spec x y); [subst g; first [reflexivity|discriminate Hg]|] end; done.
Qed.
Lemma plain_value st f : plain f = true -> option_value st f = st_bool st f.
Proof. unfold plain, option_value. destruct (field_job f); [done|]. by destruct (String.eqb f _). Qed.

(** [op] negates the option [f] and no other. *)
Definition flips (f : string) (op : Switch) : Prop := forall st st', op st = Ret st' ->
  option_value st' f = negb (option_value st f) /\ forall g, g <> f -> option_value st' g = option_value st g.

Lemma set_bool_value f b st g : plain f = true ->
  option_value (set_bool f b st) g = if decide (f = g) then b else option_value st g.
Proof.
  intros Hf. destruct (decide (f = g)) as [<-|Hne].
  - rewrite plain_value by done. cbn. apply fn_lookup_insert.
  - unfold option_value. cbn. destruct (field_job g); [done|]. destruct (String.eqb g _); [done|]. by apply fn_lookup_insert_ne.
Qed.
Lemma flips_then f k : plain f = true -> (forall st g, option_value (k st) g = option_value st g) -> flips f (flip_then f k).
Proof.
  intros Hf Hk st st' [= <-]. split; [|intros g Hg]; rewrite Hk, set_bool_value by done.
  - rewrite decide_True by done. by rewrite plain_value.
  - by rewrite decide_False by congruence.
Qed.
Lemma flips_flip f : plain f = true -> flips f (flip f).
Proof. intros Hf. by apply (flips_then f id). Qed.
Lemma flips_log f level : plain f = true -> flips f (switch_log f level).
Proof.
  intros Hf st st' E. unfold switch_log in E.
  destruct (st_bool st f); apply (flips_flip f Hf) in E; exact E.
Qed.

(** ** The options of the scheduler *)

Definition same_on (s s' : Sched) : Prop := sd_on s' = sd_on s /\ sd_Monitor s' = sd_Monitor s.

Lemma same_on_trans s1 s2 s3 : same_on s1 s2 -> same_on s2 s3 -> same_on s1 s3.
Proof. intros [? ?] [? ?]. split; congruence. Qed.

Section Options.
Context `{GoSort} `{GoTime} (clock : Time) (restic : bool).

Lemma unschedule_on j c s : same_on s (snd (unschedule clock j c s)).
Proof. unfold unschedule. by destruct (HasSchedulerEntry _ _). Qed.
Lemma schedule_on j c s s' : schedule clock j c s = Ret s' -> same_on s s'.
Proof.
  unfold schedule. destruct (job_on s j); [|by intros [= <-]].
  intros ([[id ok] c'] & _ & E)%outcome_bind_ret. destruct ok; [|by injection E as <-].
  destruct (cron_Entry _ _ _). by injection E as <-.
Qed.
Lemma set_scheduler_on j s s' : set_scheduler clock j s = Ret s' -> same_on s s'.
Proof.
  unfold set_scheduler. destruct (sd_cron s) as [c|]; [|by intros [= <-]].
  pose proof (unschedule_on j c s) as [U1 U2]. destruct (unschedule clock j c s) as [c1 s1]. cbn in U1, U2.
  intros [E1 E2]%schedule_on. split; congruence.
Qed.
(** The setter in [E] keeps [I]. *)
Ltac next_option E I :=
  let s' := fresh "s" in let E' := fresh "E" in
  apply outcome_bind_ret in E as (s' & E' & E); apply set_scheduler_on in E';
  pose proof (same_on_trans _ _ _ I E') as E''; clear I E'; rename E'' into I.

Lemma initScheduler_on s s' : initScheduler clock s = Ret s' -> same_on s s'.
Proof.
  unfold initScheduler. destruct (sd_Monitor s) eqn:Em; [|by intros [= <-]].
  intros (c0 & _ & E)%outcome_bind_ret.
  assert (I : same_on s (with_cron (New clock) s)) by done. revert E I. generalize (with_cron (New clock) s).
  intros s1. unfold SetSchedulerBackupLogical, SetSchedulerLogsTableRotate, SetSchedulerBackupPhysical, SetSchedulerBackupLogs,
    SetSchedulerOptimize, SetSchedulerAnalyze, SetSchedulerRollingRestart, SetSchedulerRollingReprov, SetSchedulerSlaRotate,
    SetSchedulerDbJobsSsh, SetSchedulerAlertDisable.
  intros E I.
  do 12 next_option E I.
  destruct (sd_cron _); [|done]. injection E as <-. exact I.
Qed.

Lemma flips_job f j : field_job f = Some j -> flips f (on_sched (switch_job clock j)).
Proof.
  intros Hf st st' (s & E & E')%outcome_bind_ret. injection E' as <-.
  assert (S : same_on (with_on j (negb (sd_on (st_sched st) j)) (st_sched st)) s).
  { unfold switch_job in E. destruct j; try (by apply set_scheduler_on in E). by injection E as <-. }
  destruct S as [S1 S2]. cbn in S1, S2. split.
  - unfold option_value. rewrite Hf. cbn. rewrite S1. apply fn_lookup_insert.
  - intros g Hg. unfold option_value. cbn. rewrite S1, S2. destruct (field_job g) as [i|] eqn:Eg; [|done].
    apply fn_lookup_insert_ne. intros ->. apply Hg. by eapply field_job_inj.
Qed.
Lemma flips_scheduler : flips "MonitorScheduler" (on_sched (SwitchMonitoringScheduler clock)).
Proof.
  intros st st' (s & E & E')%outcome_bind_ret. injection E' as <-. rewrite switch_monitoring in E.
  assert (S : sd_on s = sd_on (st_sched st) /\ sd_Monitor s = negb (sd_Monitor (st_sched st))).
  { destruct (sd_Monitor (st_sched st)).
    - destruct (sd_cron _); [|done]. apply outcome_bind_ret in E as (c' & _ & E). by injection E as <-.
    - by apply initScheduler_on in E. }
  destruct S as [S1 S2]. split.
  - exact S2.
  - intros g Hg. unfold option_value. cbn. rewrite S1, S2. destruct (field_job g); [done|].
    destruct (String.eqb_spec g "MonitorScheduler"); done.
Qed.

(** ** The requests *)

(** The settings named after an option that do something else: nothing, another option,
    more than one option, or the option on a condition. *)
Definition exceptional : list string :=
  ["autorejoin-flashback-on-unsync"; "graphite-whitelist"; "shardproxy-copy-grants"; "delay-stat-capture";
   "force-slave-idempotent"; "force-slave-strict"; "cloud18-shared"].

Definition case_ok (c : string * Switch) : Prop :=
  match option_field (fst c) with
  | Some f => existsb (String.eqb (fst c)) exceptional = false -> flips f (snd c)
  | None => True
  end.

(** The side effects of a switch are not options. *)
Ltac no_option := let st := fresh in let g := fresh in intros st g; repeat case_match; reflexivity.
Ltac flips_tac :=
  first [apply flips_scheduler | apply flips_flip; reflexivity | apply flips_log; reflexivity
        | apply flips_job; reflexivity | apply flips_then; [reflexivity|no_option]].
Ltac case_tac :=
  unfold case_ok; cbn [fst snd];
  lazymatch goal with |- match option_field ?s with _ => _ end =>
    let v := eval vm_compute in (option_field s) in change (option_field s) with v end;
  cbv iota beta;
  lazymatch goal with
  | |- True => exact I
  | |- ?P -> _ => let Hx := fresh in intros Hx; first [discriminate Hx|clear Hx; flips_tac]
  end.

Lemma switch_cases_ok : Forall case_ok (switch_cases clock restic).
Proof. unfold switch_cases, switch_cases_1, switch_cases_2. cbn [app]. repeat (apply list.Forall_cons; split); [case_tac..|apply list.Forall_nil_2]. Qed.
End Options.

Definition switched_names `{GoSort} `{GoTime} : list string := map fst (switch_cases (mkTime 1 1 1 0 0 0) false).

(** C35: a setting negates the option it is named after and no other. Where a request names
    a boolean option of the configuration, one with a switch has its option negated, all
    other options are as before, and the configuration is saved; one without a switch is
    an error and changes nothing. Seven settings are excepted. *)
Theorem switch_setting_exact `{GoSort} `{GoTime} (clock : Time) (restic : bool) (setting f : string) (st st' : Settings) (err : option string) :
  option_field setting = Some f -> existsb (String.eqb setting) exceptional = false ->
  switchClusterSettings clock restic setting st = Ret (err, st') ->
  if existsb (String.eqb setting) switched_names
  then err = None /\ last (st_calls st') = Some save_cluster /\
       option_value st' f = negb (option_value st f) /\ forall g, g <> f -> option_value st' g = option_value st g
  else err = Some "Setting not found" /\ st' = st.
Proof.
  intros Hf Hx. unfold switchClusterSettings, switched_names.
  change (map fst (switch_cases (mkTime 1 1 1 0 0 0) false)) with (map fst (switch_cases clock restic)).
  destruct (List.find _ _) as [[n op]|] eqn:Ec.
  - apply find_some in Ec as [Hin Hn]. cbn in Hn. apply String.eqb_eq in Hn as ->. intros (st1 & E & E')%outcome_bind_ret.
    injection E' as <- <-. replace (existsb _ _) with true.
    + pose proof (switch_cases_ok clock restic) as A. rewrite Forall_forall in A. specialize (A _ (proj2 (list_elem_of_In _ _) Hin)).
      unfold case_ok in A. cbn [fst snd] in A. rewrite Hf in A. destruct (A Hx _ _ E) as [A1 A2].
      split_and!; [done|apply last_snoc|exact A1|exact A2].
    + symmetry. apply existsb_exists. exists setting. split; [|apply String.eqb_refl]. by apply (in_map fst) in Hin.
  - intros [= <- <-]. replace (existsb _ _) with false; [done|].
    symmetry. apply not_true_is_false. intros (x & (c & <- & Hin)%in_map_iff & E)%existsb_exists.
    apply String.eqb_eq in E. pose proof (find_none _ _ Ec c Hin) as N. cbn in N. rewrite E, String.eqb_refl in N. done.
Qed.

(** ** The modes of the slaves *)

Definition modes_apart (st : Settings) : Prop := ~ (st_bool st "ForceSlaveStrict" = true /\ st_bool st "ForceSlaveIdempotent" = true).

(** The switches that leave the two modes as they are. *)
Definition same_modes (st st' : Settings) : Prop :=
  st_bool st' "ForceSlaveStrict" = st_bool st "ForceSlaveStrict" /\
  st_bool st' "ForceSlaveIdempotent" = st_bool st "ForceSlaveIdempotent".
Definition no_mode (op : Switch) : Prop := forall st st', op st = Ret st' -> same_modes st st'.
Definition not_mode (f : string) : bool := negb (f =? "ForceSlaveStrict")%string && negb (f =? "ForceSlaveIdempotent")%string.

Lemma same_modes_set f b st : not_mode f = true -> same_modes st (set_bool f b st).
Proof.
  unfold not_mode. intros [A B]%andb_true_iff. apply negb_true_iff in A, B. apply String.eqb_neq in A, B.
  split; cbn; by apply fn_lookup_insert_ne.
Qed.
Lemma same_modes_trans st1 st2 st3 : same_modes st1 st2 -> same_modes st2 st3 -> same_modes st1 st3.
Proof. intros [? ?] [? ?]. split; congruence. Qed.
Lemma no_mode_then f k : not_mode f = true -> (forall st, same_modes st (k st)) -> no_mode (flip_then f k).
Proof. intros Hf Hk st st' [= <-]. eapply same_modes_trans; [by apply same_modes_set|apply Hk]. Qed.
Lemma no_mode_flip f : not_mode f = true -> no_mode (flip f).
Proof. intros Hf. by apply (no_mode_then f id). Qed.
Lemma no_mode_log f level : not_mode f = true -> no_mode (switch_log f level).
Proof. intros Hf st st' E. unfold switch_log in E. destruct (st_bool st f); by apply (no_mode_flip f Hf) in E. Qed.
Lemma no_mode_sched op : no_mode (on_sched op).
Proof. intros st st' (s & _ & E)%outcome_bind_ret. by injection E as <-. Qed.
Lemma no_mode_Ret : no_mode Ret.
Proof. by intros st st' [= <-]. Qed.
Lemma no_mode_parallel mode : no_mode (switch_parallel mode).
Proof. by intros st st' [= <-]. Qed.
Lemma no_mode_Interactive : no_mode SwitchInteractive.
Proof.
  intros st st' E. unfold SwitchInteractive in E.
  destruct (st_bool st _); injection E as <-; by apply same_modes_set.
Qed.
Lemma no_mode_Cloud18Shared : no_mode SwitchCloud18Shared.
Proof.
  intros st st' E. unfold SwitchCloud18Shared in E. destruct (st_bool st _); [by apply (no_mode_flip "Cloud18Shared") in E|].
  by injection E as <-.
Qed.
Lemma same_modes_capture st :
  same_modes st (if negb (st_bool st "DelayStatCapture")
    then set_bool "PrintDelayStatHistory" false (set_bool "PrintDelayStat" false (set_bool "FailoverCheckDelayStat" false st))
    else st).
Proof. destruct (negb _); [|done]. repeat (eapply same_modes_trans; [|by apply same_modes_set]). done. Qed.

(** The strict and the idempotent mode exclude each other: turning one on turns the
    other off. *)
Lemma modes_exclusive st st' :
  SwitchForceSlaveModeStrict st = Ret st' \/ SwitchForceSlaveModeIdempotent st = Ret st' ->
  modes_apart st -> modes_apart st'.
Proof.
  unfold SwitchForceSlaveModeStrict, SwitchForceSlaveModeIdempotent, flip_then, modes_apart, set_bool. cbn.
  intros [[= <-] | [= <-]] M [A B]; cbn in A, B.
  - destruct (st_bool st "ForceSlaveStrict") eqn:E; cbn in A, B; [done|]. destruct (st_bool st "ForceSlaveIdempotent"); done.
  - destruct (st_bool st "ForceSlaveIdempotent") eqn:E; cbn in A, B; [done|]. destruct (st_bool st "ForceSlaveStrict"); done.
Qed.

Definition keeps_modes (op : Switch) : Prop := forall st st', op st = Ret st' -> modes_apart st -> modes_apart st'.
Lemma no_mode_keeps op : no_mode op -> keeps_modes op.
Proof. intros N st st' E M [A B]. destruct (N _ _ E) as [S1 S2]. apply M. split; congruence. Qed.

Ltac no_mode_tac :=
  first [apply no_mode_sched | apply no_mode_Ret | apply no_mode_flip; reflexivity | apply no_mode_log; reflexivity
        | apply no_mode_parallel | apply no_mode_Interactive | apply no_mode_Cloud18Shared
        | apply no_mode_then; [reflexivity|apply same_modes_capture]
        | apply no_mode_then; [reflexivity|let st := fresh in intros st; repeat case_match; split; reflexivity]].
Ltac keeps_modes_tac :=
  first [apply no_mode_keeps; no_mode_tac
        | let E := fresh in intros ? ? E; apply modes_exclusive; first [left; exact E|right; exact E]].
Lemma switch_cases_keep_modes `{GoSort} `{GoTime} clock restic :
  Forall (fun c => keeps_modes (snd c)) (switch_cases clock restic).
Proof. unfold switch_cases, switch_cases_1, switch_cases_2. cbn [app]. repeat (apply list.Forall_cons; split); [cbn [snd]; keeps_modes_tac..|apply list.Forall_nil_2]. Qed.

(** Whatever is switched, in whatever order, no cluster gets both modes. *)
Lemma modes_stay_apart `{GoSort} `{GoTime} clock restic setting st err st' :
  switchClusterSettings clock restic setting st = Ret (err, st') -> modes_apart st -> modes_apart st'.
Proof.
  unfold switchClusterSettings. destruct (List.find _ _) as [[n op]|] eqn:Ec.
  - apply find_some in Ec as [Hin _]. intros (st1 & E & E')%outcome_bind_ret M. injection E' as _ <-.
    pose proof (switch_cases_keep_modes clock restic) as A. rewrite Forall_forall in A.
    exact (A _ (proj2 (list_elem_of_In _ _) Hin) _ _ E M).
  - by intros [= _ <-].
Qed.

(** ** Examples *)

Definition all_off : Settings :=
  mkSettings (fun _ => false) (fun _ => 0) (fun _ => "") (mkSched None ∅ (fun _ => 0) false (fun _ => false) (fun _ => "")) false [].
(** The options that are on after the settings were switched. *)
Definition on_after (settings : list string) : list string :=
  match foldl (fun st s => st ← st; r ← switchClusterSettings demo_clock true s st; Ret (snd r)) (Ret all_off) settings with
  | Ret st => List.filter (option_value st) (map snd option_tags)
  | _ => ["no answer"]
  end.
Example demo_switched : on_after ["verbose"; "scheduler-jobs-ssh"; "log-sst"; "verbose"] = ["LogSST"; "SchedulerJobsSSH"].
Proof. vm_compute. reflexivity. Qed.

(** Settings that switch another option than their own, or none. *)
Example demo_wrong_option :
  map (fun s => on_after [s]) ["graphite-whitelist"; "shardproxy-copy-grants"; "autorejoin-flashback-on-unsync"; "cloud18-shared"] =
  [["GraphiteMetrics"]; ["ProxysqlCopyGrants"]; []; []].
Proof. vm_compute. reflexivity. Qed.

(** Turning the capture of delays off and on again loses the options that need it. *)
Example demo_capture_off :
  on_after ["delay-stat-capture"; "print-delay-stat"; "delay-stat-capture"; "delay-stat-capture"] = ["DelayStatCapture"].
Proof. vm_compute. reflexivity. Qed.

Lemma switch_setting_exact_witness : exists st,
  switchClusterSettings demo_clock true "autorejoin" all_off = Ret (None, st) /\ option_value st "Autorejoin" = true /\
  option_value st "Autoseed" = false /\
  exists st2, switchClusterSettings demo_clock true "http-server" st = Ret (Some "Setting not found", st2) /\ st2 = st.
Proof.
  eexists. split; [reflexivity|].
  pose proof (switch_setting_exact demo_clock true "autorejoin" "Autorejoin" all_off _ _ eq_refl eq_refl eq_refl) as (_ & _ & E & F).
  split; [exact E|]. split; [exact (F "Autoseed" ltac:(discriminate))|]. eexists. split; [reflexivity|].
  apply (switch_setting_exact demo_clock true "http-server" "HttpServ" _ _ (Some "Setting not found") eq_refl eq_refl eq_refl).
Defined.
