(* ===== verification/SettingValues.v ===== *)
(** * Setting the values of the options (cluster_set.go, api_cluster.go)

    A request names a setting and its value. What a few settings do beside an option
    (credentials, users, service plans, secrets and prices) is [outside]. *)

From Stdlib Require Import ZArith Lia Bool Ascii String.
From stdpp Require Import base list gmap strings functions.
From S2P Require Import Prelude GoLib Cluster Cron Scheduler Settings.

Local Open Scope string_scope.
Local Open Scope list_scope.
Local Open Scope Z_scope.

(** ** The options with values, by the names of their settings *)

Definition text_tags : list (string * string) :=
  [("-", "Version"); ("-", "FullVersion"); ("goos", "GoOS"); ("goarch", "GoArch"); ("-", "WithTarball");
   ("-", "WithEmbed"); ("-", "MemProfile"); ("include", "Include"); ("user", "MonitoringSystemUser");
   ("monitoring-basedir", "BaseDir"); ("monitoring-datadir", "WorkingDir"); ("monitoring-sharedir", "ShareDir");
   ("monitoring-confdir", "ConfDir"); ("monitoring-confdir-backup", "ConfDirBackup");
   ("monitoring-confdir-extra", "ConfDirExtra"); ("monitoring-ssl-cert", "MonitoringSSLCert");
   ("monitoring-ssl-key", "MonitoringSSLKey"); ("monitoring-key-path", "MonitoringKeyPath");
   ("monitoring-socket", "Socket"); ("monitoring-tunnel-host", "TunnelHost");
   ("monitoring-tunnel-credential", "TunnelCredential"); ("monitoring-tunnel-key-path", "TunnelKeyPath");
   ("monitoring-address", "MonitorAddress");
   ("monitoring-write-heartbeat-credential", "MonitorWriteHeartbeatCredential");
   ("monitoring-schema-change-script", "MonitorSchemaChangeScript");
   ("monitoring-long-query-script", "MonitorLongQueryScript");
   ("monitoring-capture-trigger", "MonitorCaptureTrigger"); ("monitoring-ignore-errors", "MonitorIgnoreErrors");
   ("monitoring-tenant", "MonitorTenant"); ("monitoring-alert-trigger", "MonitoringAlertTrigger");
   ("monitoring-open-state-script", "MonitoringOpenStateScript");
   ("monitoring-close-state-script", "MonitoringCloseStateScript"); ("log-file", "LogFile");
   ("db-servers-credential", "User"); ("db-servers-hosts", "Hosts");
   ("db-servers-state-change-script", "DbServersChangeStateScript"); ("replication-delayed-hosts", "HostsDelayed");
   ("db-servers-tls-ca-cert", "HostsTLSCA"); ("db-servers-tls-client-key", "HostsTlsCliKey");
   ("db-servers-tls-client-cert", "HostsTlsCliCert"); ("db-servers-tls-server-key", "HostsTlsSrvKey");
   ("db-servers-tls-server-cert", "HostsTlsSrvCert"); ("db-servers-prefered-master", "PrefMaster");
   ("db-servers-backup-hosts", "BackupServers"); ("db-servers-ignored-hosts", "IgnoreSrv");
   ("db-servers-ignored-readonly", "IgnoreSrvRO"); ("db-servers-locality", "DBServersLocality");
   ("proxy-servers-change-state-script", "PRXServersChangeStateScript"); ("cluster-head", "ClusterHead");
   ("replication-multisource-head-clusters", "ReplicationMultisourceHeadClusters");
   ("replication-credential", "RplUser"); ("replication-error-script", "ReplicationErrorScript");
   ("replication-source-name", "MasterConn");
   ("replication-multi-master-wsrep-sst-method", "MultiMasterWsrepSSTMethod");
   ("replication-restart-on-sqlerror-match", "ReplicationRestartOnSQLErrorMatch");
   ("failover-pre-script", "PreScript"); ("failover-post-script", "PostScript"); ("failover-mode", "FailMode");
   ("failover-mdev-level", "FailoverMdevLevel"); ("autorejoin-script", "RejoinScript");
   ("check-type", "CheckType"); ("force-slave-parallel-mode", "ForceSlaveParallelMode");
   ("http-bind-address", "BindAddr"); ("http-port", "HttpPort"); ("http-root", "HttpRoot");
   ("mail-from", "MailFrom"); ("mail-to", "MailTo"); ("mail-smtp-addr", "MailSMTPAddr");
   ("mail-smtp-user", "MailSMTPUser"); ("mail-smtp-password", "MailSMTPPassword"); ("alert-slack-url", "SlackURL");
   ("alert-slack-channel", "SlackChannel"); ("alert-slack-user", "SlackUser");
   ("alert-pushover-app-token", "PushoverAppToken"); ("alert-pushover-user-token", "PushoverUserToken");
   ("alert-teams-url", "TeamsUrl"); ("alert-teams-proxy-url", "TeamsProxyUrl");
   ("alert-teams-state", "TeamsAlertState"); ("extproxy-address", "ExtProxyVIP");
   ("shardproxy-servers", "MdbsProxyHosts"); ("shardproxy-janitor-weights", "MdbsJanitorWeights");
   ("shardproxy-credential", "MdbsProxyCredential"); ("shardproxy-servers-ipv6", "MdbsHostsIPV6");
   ("shardproxy-universal-tables", "MdbsUniversalTables"); ("shardproxy-ignore-tables", "MdbsIgnoreTables");
   ("maxscale-servers", "MxsHost"); ("maxscale-port", "MxsPort"); ("maxscale-user", "MxsUser");
   ("maxscale-pass", "MxsPass"); ("maxscale-servers-ipv6", "MxsHostsIPV6");
   ("maxscale-janitor-weights", "MxsJanitorWeights"); ("maxscale-get-info-method", "MxsGetInfoMethod");
   ("maxscale-binary-path", "MxsBinaryPath"); ("myproxy-user", "MyproxyUser");
   ("myproxy-password", "MyproxyPassword"); ("haproxy-user", "HaproxyUser");
   ("haproxy-password", "HaproxyPassword"); ("haproxy-mode", "HaproxyMode"); ("haproxy-servers", "HaproxyHosts");
   ("haproxy-janitor-weights", "HaproxyJanitorWeights"); ("haproxy-ip-write-bind", "HaproxyWriteBindIp");
   ("haproxy-ip-read-bind", "HaproxyReadBindIp"); ("haproxy-servers-ipv6", "HaproxyHostsIPV6");
   ("haproxy-binary-path", "HaproxyBinaryPath"); ("haproxy-api-read-backend", "HaproxyAPIReadBackend");
   ("haproxy-api-write-backend", "HaproxyAPIWriteBackend"); ("haproxy-staging-port", "HaproxyStagingPort");
   ("haproxy-staging-bind", "HaproxyStagingBind"); ("haproxy-staging-backend", "HaproxyStagingBackend");
   ("proxysql-servers", "ProxysqlHosts"); ("proxysql-servers-ipv6", "ProxysqlHostsIPV6");
   ("proxysql-janitor-weights", "ProxysqlJanitorWeights"); ("proxysql-port", "ProxysqlPort");
   ("proxysql-admin-port", "ProxysqlAdminPort"); ("proxysql-user", "ProxysqlUser");
   ("proxysql-password", "ProxysqlPassword"); ("proxysql-writer-hostgroup", "ProxysqlWriterHostgroup");
   ("proxysql-reader-hostgroup", "ProxysqlReaderHostgroup"); ("proxysql-binary-path", "ProxysqlBinaryPath");
   ("proxysql-write-track-state", "ProxysqlWriteTrackState");
   ("proxysql-read-track-state", "ProxysqlreadTrackState"); ("proxyjanitor-servers", "ProxyJanitorHosts");
   ("proxyjanitor-servers-ipv6", "ProxyJanitorHostsIPV6"); ("proxyjanitor-port", "ProxyJanitorPort");
   ("proxyjanitor-admin-port", "ProxyJanitorAdminPort"); ("proxyjanitor-user", "ProxyJanitorUser");
   ("proxyjanitor-password", "ProxyJanitorPassword"); ("proxyjanitor-binary-path", "ProxyJanitorBinaryPath");
   ("mysqlrouter-servers", "MysqlRouterHosts"); ("mysqlrouter-janitor-weights", "MysqlRouterJanitorWeights");
   ("mysqlrouter-port", "MysqlRouterPort"); ("mysqlrouter-user", "MysqlRouterUser");
   ("mysqlrouter-pass", "MysqlRouterPass"); ("sphinx-servers", "SphinxHosts");
   ("sphinx-servers-ipv6", "SphinxHostsIPV6"); ("sphinx-janitor-weights", "SphinxJanitorWeights");
   ("sphinx-config", "SphinxConfig"); ("sphinx-sql-port", "SphinxQLPort"); ("sphinx-port", "SphinxPort");
   ("registry-consul-credential", "RegistryConsulCredential"); ("registry-consul-token", "RegistryConsulToken");
   ("registry-servers", "RegistryConsulHosts"); ("registry-janitor-weights", "RegistryConsulJanitorWeights");
   ("keypath", "KeyPath"); ("topology", "Topology"); ("topology-target", "TopologyTarget");
   ("staging-refresh-script", "TopologyStagingRefreshScript");
   ("staging-post-detach-script", "TopologyStagingPostDetachScript");
   ("graphite-whitelist-template", "GraphiteWhitelistTemplate"); ("graphite-carbon-host", "GraphiteCarbonHost");
   ("sysbench-binary-path", "SysbenchBinaryPath"); ("sysbench-test", "SysbenchTest");
   ("arbitration-external-secret", "ArbitrationSasSecret"); ("arbitration-external-hosts", "ArbitrationSasHosts");
   ("arbitration-peer-hosts", "ArbitrationPeerHosts");
   ("arbitration-failed-master-script", "ArbitrationFailedMasterScript");
   ("arbitrator-bind-address", "ArbitratorAddress"); ("arbitrator-driver", "ArbitratorDriver");
   ("kube-config", "KubeConfig"); ("slapos-config", "SlapOSConfig");
   ("slapos-db-partitions", "SlapOSDBPartitions"); ("slapos-proxysql-partitions", "SlapOSProxySQLPartitions");
   ("slapos-haproxy-partitions", "SlapOSHaProxyPartitions");
   ("slapos-maxscale-partitions", "SlapOSMaxscalePartitions");
   ("slapos-shardproxy-partitions", "SlapOSShardProxyPartitions");
   ("slapos-sphinx-partitions", "SlapOSSphinxPartitions"); ("opensvc-host", "ProvHost");
   ("onpremise-ssh-credential", "OnPremiseSSHCredential"); ("onpremise-ssh-private-key", "OnPremiseSSHPrivateKey");
   ("onpremise-ssh-start-db-script", "OnPremiseSSHStartDbScript");
   ("onpremise-ssh-start-proxy-script", "OnPremiseSSHStartProxyScript");
   ("onpremise-ssh-stop-proxy-script", "OnPremiseSSHStopProxyScript");
   ("onpremise-ssh-db-job-script", "OnPremiseSSHDbJobScript");
   ("opensvc-p12-certificate", "ProvOpensvcP12Certificate"); ("opensvc-p12-secret", "ProvOpensvcP12Secret");
   ("opensvc-collector-account", "ProvOpensvcCollectorAccount"); ("opensvc-admin-user", "ProvAdminUser");
   ("opensvc-user", "ProvUser"); ("opensvc-codeapp", "ProvCodeApp"); ("prov-orchestrator", "ProvOrchestrator");
   ("prov-orchestrator-enable", "ProvOrchestratorEnable");
   ("prov-orchestrator-cluster", "ProvOrchestratorCluster"); ("prov-db-client-basedir", "ProvDBClientBasedir");
   ("prov-db-binary-basedir", "ProvDBBinaryBasedir"); ("prov-db-binary-log-name", "ProvDBBinaryLogName");
   ("prov-db-service-type", "ProvType"); ("prov-db-agents", "ProvAgents"); ("prov-db-memory", "ProvMem");
   ("prov-db-memory-shared-pct", "ProvMemSharedPct"); ("prov-db-memory-threaded-pct", "ProvMemThreadedPct");
   ("prov-db-disk-iops", "ProvIops"); ("prov-db-disk-iops-latency", "ProvIopsLatency");
   ("prov-db-cpu-cores", "ProvCores"); ("prov-db-tags", "ProvTags");
   ("prov-db-binary-tarball-name", "ProvBinaryTarballName"); ("prov-db-domain", "ProvDomain");
   ("prov-db-disk-size", "ProvDisk"); ("prov-db-disk-system-size", "ProvDiskSystemSize");
   ("prov-db-disk-temp-size", "ProvDiskTempSize"); ("prov-db-disk-docker-size", "ProvDiskDockerSize");
   ("prov-db-volume-docker", "ProvVolumeDocker"); ("prov-db-volume-data", "ProvVolumeData");
   ("prov-db-disk-fs", "ProvDiskFS"); ("prov-db-disk-fs-compress", "ProvDiskFSCompress");
   ("prov-db-disk-pool", "ProvDiskPool"); ("prov-db-disk-device", "ProvDiskDevice");
   ("prov-db-disk-type", "ProvDiskType"); ("prov-db-net-iface", "ProvNetIface");
   ("prov-db-net-mask", "ProvNetmask"); ("prov-db-net-gateway", "ProvGateway");
   ("prov-db-docker-img", "ProvDbImg"); ("prov-db-datadir-version", "ProvDatadirVersion");
   ("prov-db-load-sql", "ProvDBLoadSQL"); ("prov-db-load-csv", "ProvDBLoadCSV");
   ("prov-proxy-service-type", "ProvProxType"); ("prov-proxy-agents", "ProvProxAgents");
   ("prov-proxy-agents-failover", "ProvProxAgentsFailover"); ("prov-proxy-memory", "ProvProxMem");
   ("prov-proxy-cpu-cores", "ProvProxCores"); ("prov-proxy-disk-size", "ProvProxDisk");
   ("prov-proxy-disk-fs", "ProvProxDiskFS"); ("prov-proxy-disk-pool", "ProvProxDiskPool");
   ("prov-proxy-disk-device", "ProvProxDiskDevice"); ("prov-proxy-disk-type", "ProvProxDiskType");
   ("prov-proxy-volume-data", "ProvProxVolumeData"); ("prov-proxy-net-iface", "ProvProxNetIface");
   ("prov-proxy-net-mask", "ProvProxNetmask"); ("prov-proxy-net-gateway", "ProvProxGateway");
   ("prov-proxy-route-addr", "ProvProxRouteAddr"); ("prov-proxy-route-port", "ProvProxRoutePort");
   ("prov-proxy-route-mask", "ProvProxRouteMask"); ("prov-proxy-route-policy", "ProvProxRoutePolicy");
   ("prov-proxy-docker-shardproxy-img", "ProvProxShardingImg");
   ("prov-proxy-docker-maxscale-img", "ProvProxMaxscaleImg");
   ("prov-proxy-docker-haproxy-img", "ProvProxHaproxyImg");
   ("prov-proxy-docker-proxysql-img", "ProvProxProxysqlImg");
   ("prov-proxy-docker-mysqlrouter-img", "ProvProxMysqlRouterImg"); ("prov-proxy-tags", "ProvProxTags");
   ("prov-sphinx-agents", "ProvSphinxAgents"); ("prov-sphinx-docker-img", "ProvSphinxImg");
   ("prov-sphinx-memory", "ProvSphinxMem"); ("prov-sphinx-disk-size", "ProvSphinxDisk");
   ("prov-sphinx-cpu-cores", "ProvSphinxCores"); ("prov-sphinx-max-childrens", "ProvSphinxMaxChildren");
   ("prov-sphinx-disk-pool", "ProvSphinxDiskPool"); ("prov-sphinx-disk-fs", "ProvSphinxDiskFS");
   ("prov-sphinx-disk-device", "ProvSphinxDiskDevice"); ("prov-sphinx-disk-type", "ProvSphinxDiskType");
   ("prov-sphinx-tags", "ProvSphinxTags"); ("prov-sphinx-reindex-schedule", "ProvSphinxCron");
   ("prov-sphinx-service-type", "ProvSphinxType"); ("prov-tls-server-ca", "ProvSSLCa");
   ("prov-tls-server-cert", "ProvSSLCert"); ("prov-tls-server-key", "ProvSSLKey");
   ("prov-tls-server-ca-uuid", "ProvSSLCaUUID"); ("prov-tls-server-cert-uuid", "ProvSSLCertUUID");
   ("prov-tls-server-key-uuid", "ProvSSLKeyUUID"); ("prov-net-cni-cluster", "ProvNetCNICluster");
   ("prov-service-plan", "ProvServicePlan"); ("prov-service-plan-registry", "ProvServicePlanRegistry");
   ("prov-db-bootstrap-script", "ProvDbBootstrapScript");
   ("prov-proxy-bootstrap-script", "ProvProxyBootstrapScript"); ("prov-db-cleanup-script", "ProvDbCleanupScript");
   ("prov-proxy-cleanup-script", "ProvProxyCleanupScript"); ("prov-db-start-script", "ProvDbStartScript");
   ("prov-proxy-start-script", "ProvProxyStartScript"); ("prov-db-stop-script", "ProvDbStopScript");
   ("prov-proxy-stop-script", "ProvProxyStopScript"); ("prov-db-compliance", "ProvDBCompliance");
   ("prov-proxy-compliance", "ProvProxyCompliance"); ("api-credentials", "APIUsers");
   ("api-credentials-external", "APIUsersExternal"); ("api-credentials-acl-allow", "APIUsersACLAllow");
   ("api-credentials-acl-allow-external", "APIUsersACLAllowExternal");
   ("api-credentials-acl-discard", "APIUsersACLDiscard");
   ("api-credentials-acl-discard-external", "APIUsersACLDiscardExternal"); ("api-port", "APIPort");
   ("api-bind", "APIBind"); ("api-public-url", "APIPublicURL"); ("alert-script", "AlertScript");
   ("config", "ConfigFile"); ("scheduler-db-servers-receiver-ports", "SchedulerReceiverPorts");
   ("scheduler-db-servers-sender-ports", "SchedulerSenderPorts");
   ("scheduler-alert-disable-cron", "SchedulerAlertDisableCron");
   ("scheduler-db-servers-logical-backup-cron", "BackupLogicalCron");
   ("scheduler-db-servers-physical-backup-cron", "BackupPhysicalCron");
   ("scheduler-db-servers-logs-cron", "BackupDatabaseLogCron");
   ("scheduler-db-servers-optimize-cron", "BackupDatabaseOptimizeCron");
   ("scheduler-db-servers-analyze-cron", "BackupDatabaseAnalyzeCron"); ("backup-save-script", "BackupSaveScript");
   ("backup-load-script", "BackupLoadScript");
   ("scheduler-db-servers-logs-table-rotate-cron", "SchedulerDatabaseLogsTableRotateCron");
   ("scheduler-sla-rotate-cron", "SchedulerSLARotateCron");
   ("scheduler-rolling-restart-cron", "SchedulerRollingRestartCron");
   ("scheduler-rolling-reprov-cron", "SchedulerRollingReprovCron");
   ("scheduler-jobs-ssh-cron", "SchedulerJobsSSHCron"); ("backup-logical-type", "BackupLogicalType");
   ("backup-physical-type", "BackupPhysicalType"); ("backup-restic-binary-path", "BackupResticBinaryPath");
   ("backup-restic-aws-access-key-id", "BackupResticAwsAccessKeyId");
   ("backup-restic-aws-access-secret", "BackupResticAwsAccessSecret");
   ("backup-restic-repository", "BackupResticRepository"); ("backup-restic-password", "BackupResticPassword");
   ("backup-streaming-aws-access-key-id", "BackupStreamingAwsAccessKeyId");
   ("backup-streaming-aws-access-secret", "BackupStreamingAwsAccessSecret");
   ("backup-streaming-endpoint", "BackupStreamingEndpoint"); ("backup-streaming-region", "BackupStreamingRegion");
   ("backup-streaming-bucket", "BackupStreamingBucket"); ("backup-mysqldump-path", "BackupMysqldumpPath");
   ("backup-mysqldump-options", "BackupMysqldumpOptions"); ("backup-mydumper-path", "BackupMyDumperPath");
   ("backup-myloader-path", "BackupMyLoaderPath"); ("backup-myloader-options", "BackupMyLoaderOptions");
   ("backup-mydumper-options", "BackupMyDumperOptions"); ("backup-mydumper-regex", "BackupMyDumperRegex");
   ("backup-mysqlbinlog-path", "BackupMysqlbinlogPath"); ("backup-mysqlclient-path", "BackupMysqlclientPath");
   ("binlog-copy-mode", "BinlogCopyMode"); ("binlog-copy-script", "BinlogCopyScript");
   ("binlog-rotation-script", "BinlogRotationScript"); ("binlog-parse-mode", "BinlogParseMode");
   ("cluster-config-file", "ClusterConfigPath"); ("vault-server-addr", "VaultServerAddr");
   ("vault-role-id", "VaultRoleId"); ("vault-secret-id", "VaultSecretId"); ("vault-mode", "VaultMode");
   ("vault-mount", "VaultMount"); ("vault-auth", "VaultAuth"); ("vault-token", "VaultToken");
   ("git-url", "GitUrl"); ("git-url-pull", "GitUrlPull"); ("git-username", "GitUsername");
   ("git-acces-token", "GitAccesToken"); ("cloud18-domain", "Cloud18Domain");
   ("cloud18-sub-domain", "Cloud18SubDomain"); ("cloud18-sub-domain-zone", "Cloud18SubDomainZone");
   ("cloud18-gitlab-user", "Cloud18GitUser"); ("cloud18-gitlab-password", "Cloud18GitPassword");
   ("cloud18-platform-description", "Cloud18PlatformDescription");
   ("cloud18-cost-currency", "Cloud18CostCurrency"); ("cloud18-infra-cpu-model", "Cloud18InfraCPUModel");
   ("cloud18-infra-cpu-freq", "Cloud18InfraCPUFreq"); ("cloud18-infra-description", "Cloud18InfraDescription");
   ("cloud18-infra-data-centers", "Cloud18InfraDataCenters");
   ("cloud18-infra-geo-localizations", "Cloud18InfraGeoLocalizations"); ("cloud18-dbops", "Cloud18DbOps");
   ("cloud18-external-dbops", "Cloud18ExternalDbOps"); ("cloud18-external-sysops", "Cloud18ExternalSysOps");
   ("cloud18-infra-certifications", "Cloud18InfraCertifications");
   ("cloud18-database-read-write-split-srv-record", "Cloud18DatabaseReadWriteSplitSrvRecord");
   ("cloud18-database-read-srv-record", "Cloud18DatabaseReadSrvRecord");
   ("cloud18-database-read-write-srv-record", "Cloud18DatabaseReadWriteSrvRecord");
   ("cloud18-dba-user-credentials", "Cloud18DbaUserCredentials");
   ("cloud18-sponsor-user-credentials", "Cloud18SponsorUserCredentials");
   ("cloud18-sales-subscription-script", "Cloud18SalesSubscriptionScript");
   ("cloud18-sales-subscription-validate-script", "Cloud18SalesSubscriptionValidateScript");
   ("cloud18-sales-unsubscribe-script", "Cloud18SalesUnsubscribeScript");
   ("api-oauth-provider-url", "OAuthProvider"); ("api-oauth-client-id", "OAuthClientID");
   ("api-oauth-client-secret", "OAuthClientSecret")].
Definition number_tags : list (string * string) :=
  [("monitoring-ticker", "MonitoringTicker"); ("monitoring-wait-retry", "MonitorWaitRetry");
   ("monitoring-long-query-time", "MonitorLongQueryTime");
   ("monitoring-long-query-log-length", "MonitorLongQueryLogLength");
   ("monitoring-erreur-log-length", "MonitorErrorLogLength");
   ("monitoring-capture-file-keep", "MonitorCaptureFileKeep");
   ("monitoring-disk-usage-pct", "MonitorDiskUsagePct"); ("monitoring-query-timeout", "MonitoringQueryTimeout");
   ("log-file-level", "LogFileLevel"); ("log-level", "LogLevel"); ("log-rotate-max-size", "LogRotateMaxSize");
   ("log-rotate-max-backup", "LogRotateMaxBackup"); ("log-rotate-max-age", "LogRotateMaxAge");
   ("log-task-level", "LogTaskLevel"); ("log-sst-level", "LogSSTLevel"); ("sst-send-buffer", "SSTSendBuffer");
   ("log-heartbeat-level", "LogHeartbeatLevel"); ("log-writer-election-level", "LogWriterElectionLevel");
   ("log-git-level", "LogGitLevel"); ("log-config-load-level", "LogConfigLoadLevel");
   ("log-backup-stream-level", "LogBackupStreamLevel"); ("log-orchestrator-level", "LogOrchestratorLevel");
   ("log-topology-level", "LogTopologyLevel"); ("log-proxy-level", "LogProxyLevel");
   ("log-graphite-level", "LogGraphiteLevel"); ("log-binlog-purge-level", "LogBinlogPurgeLevel");
   ("replication-delayed-time", "HostsDelayedTime"); ("db-servers-connect-timeout", "Timeout");
   ("db-servers-read-timeout", "ReadTimeout");
   ("proxy-servers-backend-max-replication-lag", "PRXServersBackendMaxReplicationLag");
   ("proxy-servers-backend-max-connections", "PRXServersBackendMaxConnections");
   ("replication-master-connect-retry", "MasterConnectRetry");
   ("replication-multi-master-grouprep-port", "MultiMasterGrouprepPort");
   ("replication-multi-master-wsrep-port", "MultiMasterWsrepPort"); ("switchover-wait-kill", "SwitchWaitKill");
   ("switchover-wait-trx", "SwitchWaitTrx"); ("switchover-wait-write-query", "SwitchWaitWrite");
   ("switchover-max-slave-delay", "SwitchMaxDelay");
   ("switchover-wait-route-change", "SwitchSlaveWaitRouteChange");
   ("switchover-decrease-max-conn-value", "SwitchDecreaseMaxConnValue"); ("failover-limit", "FailLimit");
   ("failover-time-limit", "FailTime"); ("failcount-reset-time", "FailResetTime");
   ("failover-max-slave-delay", "FailMaxDelay"); ("failover-falsepositive-ping-counter", "MaxFail");
   ("failover-falsepositive-heartbeat-timeout", "CheckFalsePositiveHeartbeatTimeout");
   ("failover-falsepositive-maxscale-timeout", "CheckFalsePositiveMaxscaleTimeout");
   ("failover-falsepositive-external-port", "CheckFalsePositiveExternalPort");
   ("failover-log-file-keep", "FailoverLogFileKeep"); ("print-delay-stat-interval", "PrintDelayStatInterval");
   ("delay-stat-rotate", "DelayStatRotate"); ("check-binlog-server-id", "CheckBinServerId");
   ("force-slave-heartbeat-time", "ForceSlaveHeartbeatTime");
   ("force-slave-heartbeat-retry", "ForceSlaveHeartbeatRetry");
   ("force-binlog-purge-total-size", "ForceBinlogPurgeTotalSize");
   ("force-binlog-purge-min-replica", "ForceBinlogPurgeMinReplica");
   ("force-disk-relaylog-size-limit-size", "ForceDiskRelayLogSizeLimitSize");
   ("http-session-lifetime", "SessionLifeTime"); ("http-refresh-interval", "HttpRefreshInterval");
   ("shardproxy-log-level", "MdbsProxyLogLevel"); ("maxscale-log-level", "MxsLogLevel");
   ("maxscale-write-port", "MxsWritePort"); ("maxscale-read-port", "MxsReadPort");
   ("maxscale-read-write-port", "MxsReadWritePort"); ("maxscale-maxinfo-port", "MxsMaxinfoPort");
   ("maxscale-binlog-port", "MxsBinlogPort"); ("myproxy-log-level", "MyproxyLogLevel");
   ("myproxy-port", "MyproxyPort"); ("haproxy-log-level", "HaproxyLogLevel");
   ("haproxy-write-port", "HaproxyWritePort"); ("haproxy-read-port", "HaproxyReadPort");
   ("haproxy-stat-port", "HaproxyStatPort"); ("haproxy-api-port", "HaproxyAPIPort");
   ("proxysql-log-level", "ProxysqlLogLevel"); ("proxyjanitor-log-level", "ProxyJanitorLogLevel");
   ("mysqlrouter-log-level", "MysqlRouterLogLevel"); ("mysqlrouter-write-port", "MysqlRouterWritePort");
   ("mysqlrouter-read-port", "MysqlRouterReadPort"); ("mysqlrouter-read-write-port", "MysqlRouterReadWritePort");
   ("sphinx-log-level", "SphinxLogLevel"); ("registry-consul-log-level", "RegistryConsulLogLevel");
   ("graphite-carbon-port", "GraphiteCarbonPort"); ("graphite-carbon-api-port", "GraphiteCarbonApiPort");
   ("graphite-carbon-server-port", "GraphiteCarbonServerPort");
   ("graphite-carbon-link-port", "GraphiteCarbonLinkPort");
   ("graphite-carbon-pickle-port", "GraphiteCarbonPicklePort");
   ("graphite-carbon-pprof-port", "GraphiteCarbonPprofPort"); ("sysbench-time", "SysbenchTime");
   ("sysbench-threads", "SysbenchThreads"); ("sysbench-tables", "SysbenchTables");
   ("sysbench-scale", "SysbenchScale"); ("arbitration-external-unique-id", "ArbitrationSasUniqueId");
   ("arbitration-read-timeout", "ArbitrationReadTimout"); ("onpremise-ssh-port", "OnPremiseSSHPort");
   ("prov-db-expire-log-days", "ProvExpireLogDays"); ("prov-db-max-connections", "ProvMaxConnections");
   ("prov-db-disk-snapshot-keep", "ProvDiskSnapshotKeep");
   ("scheduler-alert-disable-time", "SchedulerAlertDisableTime");
   ("scheduler-db-servers-logs-table-keep", "SchedulerMaintenanceDatabaseLogsTableKeep");
   ("backup-logical-load-threads", "BackupLogicalLoadThreads");
   ("backup-logical-dump-threads", "BackupLogicalDumpThreads"); ("backup-keep-hourly", "BackupKeepHourly");
   ("backup-keep-daily", "BackupKeepDaily"); ("backup-keep-weekly", "BackupKeepWeekly");
   ("backup-keep-monthly", "BackupKeepMonthly"); ("backup-keep-yearly", "BackupKeepYearly");
   ("backup-binlogs-keep", "BackupBinlogsKeep"); ("log-vault-level", "LogVaultLevel");
   ("git-monitoring-ticker", "GitMonitoringTicker"); ("cache-static-max-age", "CacheStaticMaxAge");
   ("api-token-timeout", "TokenTimeout"); ("job-log-batch-size", "JobLogBatchSize")].

(** ** Base64 ([encoding/base64], [StdEncoding]) *)

Definition sextet (c : ascii) : option Z :=
  let n := byte_val c in
  if (65 <=? n) && (n <=? 90) then Some (n - 65)
  else if (97 <=? n) && (n <=? 122) then Some (n - 71)
  else if (48 <=? n) && (n <=? 57) then Some (n + 4)
  else if n =? 43 then Some 62
  else if n =? 47 then Some 63
  else None.
Definition byte_char (n : Z) : ascii := ascii_of_N (Z.to_N (n mod 256)).
Definition is_pad (c : ascii) : bool := Ascii.eqb c "=".
Fixpoint decode_quanta (l : list ascii) : option string :=
  match l with
  | [] => Some ""
  | a :: b :: c :: d :: r =>
      x ← sextet a;
      y ← sextet b;
      let first := byte_char (x * 4 + y / 16) in
      if is_pad c then (if is_pad d && match r with [] => true | _ => false end then Some (String first "") else None)
      else
        z ← sextet c;
        let second := byte_char (y * 16 + z / 4) in
        if is_pad d then match r with [] => Some (String first (String second "")) | _ => None end
        else
          t ← sextet d;
          rest ← decode_quanta r;
          Some (String first (String second (String (byte_char (z * 64 + t)) rest)))
  | _ => None
  end.
(** Line ends are skipped. *)
Definition base64_DecodeString (s : string) : option string :=
  decode_quanta (List.filter (fun c => negb ((byte_val c =? 10) || (byte_val c =? 13))) (list_ascii_of_string s)).

(** ** The setters *)

(** [set_log_level]: the flag of a log follows its level. *)
Definition set_log_level (flag level : string) (value : Z) (st : Settings) : Settings :=
  set_bool flag (0 <? value) (set_int level value st).
Definition text_then (f : string) (c : SettingCall) (value : string) (st : Settings) : Settings :=
  called c (set_text f value st).
(** The value goes to the configurator, and from there to the option. *)
Definition configure (f : string) (c : SettingCall) (value : string) (st : Settings) : Settings :=
  called c (set_text f value (called (configurator_set f value) st)).
Definition configure_number (f : string) (read : Z * NumErr -> Z) (c : SettingCall) (value : string) (st : Settings) : Settings :=
  called c (set_int f (read (strconv_Atoi value)) (called (configurator_set f value) st)).
Definition keep_number (f value : string) (st : Settings) : NumErr * Settings :=
  match strconv_Atoi value with
  | (n, ErrNone) => (ErrNone, set_int f n st)
  | (_, err) => (err, st)
  end.
Definition unless_undefined (f value : string) (st : Settings) : Settings :=
  set_text f (if (value =? "{undefined}")%string then "" else value) st.
Definition set_truth (f value : string) (st : Settings) : Settings := set_bool f (value =? "true")%string st.
Definition orchestrators : list string := ["opensvc"; "kube"; "slapos"; "local"; "onpremise"].

(** An error ends the request before the configuration is saved. *)
Abbreviation Setter := (string -> Settings -> outcome (option string * Settings)).

Section Setters.
Context `{GoSort} `{GoTime} (clock : Time) (backup_server : bool).

(** [backup_server]: the cluster has one; without it its cookie is a nil dereference. *)
Definition backup_type (f : string) (c : SettingCall) (backup : string) (st : Settings) : outcome Settings :=
  if negb (st_text st f =? backup)%string
  then (if backup_server then Ret (called c (set_text f backup st)) else Panic)
  else Ret st.

Definition SetDBDiskSize : string -> Settings -> Settings := configure "ProvDisk" reprov_databases.
Definition SetDBCores : string -> Settings -> Settings := configure "ProvCores" reprov_databases.
Definition SetDBMemorySize : string -> Settings -> Settings := configure "ProvMem" reprov_databases.
Definition SetDBDiskIOPS : string -> Settings -> Settings := configure "ProvIops" restart_databases.
Definition SetDBMaxConnections : string -> Settings -> Settings := configure_number "ProvMaxConnections" (fun r => match r with (n, ErrNone) => n | _ => 1000 end) restart_databases.
Definition SetDBExpireLogDays : string -> Settings -> Settings := configure_number "ProvExpireLogDays" fst restart_databases.
Definition SetProxyCores : string -> Settings -> Settings := configure "ProvProxCores" restart_proxies.
Definition SetProxyMemorySize : string -> Settings -> Settings := configure "ProvProxMem" restart_proxies.
Definition SetProxyDiskSize : string -> Settings -> Settings := configure "ProvProxDisk" reprov_proxies.
Definition SetCloud18DatabaseReadWriteSplitSrvRecord : string -> Settings -> Settings := set_text "Cloud18DatabaseReadWriteSplitSrvRecord".
Definition SetCloud18DatabaseReadSrvRecord : string -> Settings -> Settings := set_text "Cloud18DatabaseReadSrvRecord".
Definition SetCloud18DatabaseReadWriteSrvRecord : string -> Settings -> Settings := set_text "Cloud18DatabaseReadWriteSrvRecord".
Definition SetRplMaxDelay : Z -> Settings -> Settings := set_int "FailMaxDelay".
Definition SetFailLimit : Z -> Settings -> Settings := set_int "FailLimit".
Definition SetLogLevel : Z -> Settings -> Settings := set_int "LogLevel".
Definition SetBackupKeepYearly : string -> Settings -> NumErr * Settings := keep_number "BackupKeepYearly".
Definition SetBackupKeepHourly : string -> Settings -> NumErr * Settings := keep_number "BackupKeepHourly".
Definition SetBackupKeepMonthly : string -> Settings -> NumErr * Settings := keep_number "BackupKeepMonthly".
Definition SetBackupKeepDaily : string -> Settings -> NumErr * Settings := keep_number "BackupKeepDaily".
Definition SetBackupKeepWeekly : string -> Settings -> NumErr * Settings := keep_number "BackupKeepWeekly".
Definition SetBackupLogicalType : string -> Settings -> outcome Settings := backup_type "BackupLogicalType" DelBackupLogicalCookie.
Definition SetBackupPhysicalType : string -> Settings -> outcome Settings := backup_type "BackupPhysicalType" DelBackupPhysicalCookie.
Definition SetBackupBinlogType : string -> Settings -> Settings := set_text "BinlogCopyMode".
Definition SetBackupBinlogScript : string -> Settings -> Settings := set_text "BinlogCopyScript".
Definition SetBinlogParseMode : string -> Settings -> Settings := set_text "BinlogParseMode".
Definition SetProvNetCniCluster : string -> Settings -> Settings := text_then "ProvNetCNICluster" reprov_proxies.
Definition SetProvOrchestratorCluster : string -> Settings -> Settings := text_then "ProvOrchestratorCluster" reprov_proxies.
Definition SetProvDbAgents : string -> Settings -> Settings := set_text "ProvAgents".
Definition SetProvProxyAgents : string -> Settings -> Settings := set_text "ProvProxAgents".
Definition SetMonitoringAddress : string -> Settings -> Settings := set_text "MonitorAddress".
Definition SetSchedulerDbServersLogicalBackupCron (value : string) : Switch := on_sched (set_job_cron clock BackupLogical value).
Definition SetSchedulerDbServersPhysicalBackupCron (value : string) : Switch := on_sched (set_job_cron clock BackupPhysical value).
Definition SetSchedulerDbServersOptimizeCron (value : string) : Switch := on_sched (set_job_cron clock Optimize value).
Definition SetSchedulerDbServersAnalyzeCron (value : string) : Switch := on_sched (set_job_cron clock Analyze value).
Definition SetSchedulerDbServersLogsCron (value : string) : Switch := on_sched (set_job_cron clock ErrorLogs value).
Definition SetProxyServersBackendMaxConnections : string -> Settings -> NumErr * Settings := keep_number "PRXServersBackendMaxConnections".
Definition SetSwitchoverWaitRouteChange : string -> Settings -> NumErr * Settings := keep_number "SwitchSlaveWaitRouteChange".
Definition SetBackupBinlogsKeep : string -> Settings -> NumErr * Settings := keep_number "BackupBinlogsKeep".
Definition SetProxyServersBackendMaxReplicationLag : string -> Settings -> NumErr * Settings := keep_number "PRXServersBackendMaxReplicationLag".
Definition SetSchedulerDbServersLogsTableRotateCron (value : string) : Switch := on_sched (set_job_cron clock LogsTableRotate value).
Definition SetSchedulerSlaRotateCron (value : string) : Switch := on_sched (set_job_cron clock SlaRotate value).
Definition SetSchedulerRollingRestartCron (value : string) : Switch := on_sched (set_job_cron clock RestartRolling value).
Definition SetSchedulerRollingReprovCron (value : string) : Switch := on_sched (set_job_cron clock ReprovRolling value).
Definition SetSchedulerJobsSshCron (value : string) : Switch := on_sched (set_job_cron clock DbJobsSsh value).
Definition SetSchedulerAlertDisableCron (value : string) : Switch := on_sched (set_job_cron clock AlertDisable value).
Definition SetDbServerHosts (value : string) (st : Settings) : Settings :=
  called (host_list (if negb (value =? "")%string then strings_Split "," value else [])) (set_text "Hosts" value st).
Definition SetProvOrchestrator (value : string) (st : Settings) : Settings :=
  set_text "ProvOrchestrator" (if existsb (String.eqb value) orchestrators then value else "onpremise") st.
Definition SetProvDBImage : string -> Settings -> Settings := text_then "ProvDbImg" reprov_databases.
Definition SetProvMaxscaleImage : string -> Settings -> Settings := text_then "ProvProxMaxscaleImg" reprov_proxies.
Definition SetProvHaproxyImage : string -> Settings -> Settings := text_then "ProvProxHaproxyImg" reprov_proxies.
Definition SetProvShardproxyImage : string -> Settings -> Settings := text_then "ProvProxShardingImg" reprov_proxies.
Definition SetProvProxySQLImage : string -> Settings -> Settings := text_then "ProvProxProxysqlImg" reprov_proxies.
Definition SetProvSphinxImage : string -> Settings -> Settings := text_then "ProvSphinxImg" reprov_proxies.
Definition SetProvDbDiskType : string -> Settings -> Settings := text_then "ProvDiskType" reprov_databases.
Definition SetProvDbDiskFS : string -> Settings -> Settings := text_then "ProvDiskFS" reprov_databases.
Definition SetProvDbDiskPool : string -> Settings -> Settings := text_then "ProvDiskPool" reprov_databases.
Definition SetProvDbDiskDevice : string -> Settings -> Settings := text_then "ProvDiskDevice" reprov_databases.
Definition SetProvDbServiceType : string -> Settings -> Settings := text_then "ProvType" reprov_databases.
Definition SetProvProxyDiskType : string -> Settings -> Settings := text_then "ProvProxDiskType" reprov_proxies.
Definition SetProvProxyDiskFS : string -> Settings -> Settings := text_then "ProvProxDiskFS" reprov_proxies.
Definition SetProvProxyDiskPool : string -> Settings -> Settings := set_text "ProvProxDiskPool".
Definition SetProvProxyDiskDevice : string -> Settings -> Settings := text_then "ProvProxDiskDevice" reprov_proxies.
Definition SetProvProxyServiceType : string -> Settings -> Settings := text_then "ProvProxType" reprov_proxies.
Definition SetDelayStatRotate (keep : string) (st : Settings) : NumErr * Settings :=
  match strconv_Atoi keep with
  | (numkeep, ErrNone) => (ErrNone, set_int "DelayStatRotate" (if 72 <? numkeep then 72 else numkeep) st)
  | (_, err) => (err, st)
  end.
Definition SetPrintDelayStatInterval : string -> Settings -> NumErr * Settings := keep_number "PrintDelayStatInterval".
Definition SetLogWriterElectionLevel : Z -> Settings -> Settings := set_log_level "LogWriterElection" "LogWriterElectionLevel".
Definition SetLogSSTLevel : Z -> Settings -> Settings := set_log_level "LogSST" "LogSSTLevel".
Definition SetLogHeartbeatLevel : Z -> Settings -> Settings := set_log_level "LogHeartbeat" "LogHeartbeatLevel".
Definition SetLogConfigLoadLevel : Z -> Settings -> Settings := set_log_level "LogConfigLoad" "LogConfigLoadLevel".
Definition SetLogBackupStreamLevel : Z -> Settings -> Settings := set_log_level "LogBackupStream" "LogBackupStreamLevel".
Definition SetLogOrchestratorLevel : Z -> Settings -> Settings := set_log_level "LogOrchestrator" "LogOrchestratorLevel".
Definition SetLogVaultLevel : Z -> Settings -> Settings := set_log_level "LogVault" "LogVaultLevel".
Definition SetLogTopologyLevel : Z -> Settings -> Settings := set_log_level "LogTopology" "LogTopologyLevel".
Definition SetLogProxyLevel : Z -> Settings -> Settings := set_log_level "LogProxy" "LogProxyLevel".
Definition SetProxysqlLogLevel : Z -> Settings -> Settings := set_log_level "ProxysqlDebug" "ProxysqlLogLevel".
Definition SetHaproxyLogLevel : Z -> Settings -> Settings := set_log_level "HaproxyDebug" "HaproxyLogLevel".
Definition SetProxyJanitorLogLevel : Z -> Settings -> Settings := set_log_level "ProxyJanitorDebug" "ProxyJanitorLogLevel".
Definition SetMxsLogLevel : Z -> Settings -> Settings := set_log_level "MxsDebug" "MxsLogLevel".
Definition SetLogTaskLevel : Z -> Settings -> Settings := set_log_level "LogTask" "LogTaskLevel".
Definition SetForceBinlogPurgeTotalSize : Z -> Settings -> Settings := set_int "ForceBinlogPurgeTotalSize".
Definition SetForceBinlogPurgeMinReplica : Z -> Settings -> Settings := set_int "ForceBinlogPurgeMinReplica".
Definition SetLogGraphiteLevel (value : Z) (st : Settings) : Settings :=
  called (logger_level value) (set_log_level "LogGraphite" "LogGraphiteLevel" value st).
Definition SetLogBinlogPurgeLevel : Z -> Settings -> Settings := set_log_level "LogBinlogPurge" "LogBinlogPurgeLevel".
Definition SetGraphiteWhitelistTemplate : string -> Settings -> Settings := set_text "GraphiteWhitelistTemplate".
Definition SetTopologyTarget : string -> Settings -> Settings := set_text "TopologyTarget".
Definition SetMonitorIgnoreErrors : string -> Settings -> Settings := unless_undefined "MonitorIgnoreErrors".
Definition SetMonitorCaptureTrigger : string -> Settings -> Settings := unless_undefined "MonitorCaptureTrigger".
Definition SetSSTBufferSize : Z -> Settings -> Settings := set_int "SSTSendBuffer".
Definition SetAlertPushoverAppToken : string -> Settings -> Settings := set_text "PushoverAppToken".
Definition SetAlertPushoverUserToken : string -> Settings -> Settings := set_text "PushoverUserToken".
Definition SetAlertScript : string -> Settings -> Settings := set_text "AlertScript".
Definition SetAlertSlackChannel : string -> Settings -> Settings := set_text "SlackChannel".
Definition SetAlertSlackUrl : string -> Settings -> Settings := set_text "SlackURL".
Definition SetAlertSlackUser : string -> Settings -> Settings := set_text "SlackUser".
Definition SetAlertTeamsProxyUrl : string -> Settings -> Settings := set_text "TeamsProxyUrl".
Definition SetAlertTeamsState : string -> Settings -> Settings := set_text "TeamsAlertState".
Definition SetAlertTeamsUrl : string -> Settings -> Settings := set_text "TeamsUrl".
Definition SetMonitoringAlertTriggerl : string -> Settings -> Settings := set_text "MonitoringAlertTrigger".
Definition SetSchedulerAlertDisableTime : Z -> Settings -> Settings := set_int "SchedulerAlertDisableTime".
Definition SetApiTokenTimeout : Z -> Settings -> Settings := set_int "TokenTimeout".
Definition SetLogGitLevel (value : Z) (st : Settings) : Settings :=
  set_int "GitMonitoringTicker" (if value =? 4 then 30 else 300) (set_log_level "LogGit" "LogGitLevel" value st).
Definition SetMailSmtpAddr : string -> Settings -> Settings := set_text "MailSMTPAddr".
Definition SetMailSmtpUser : string -> Settings -> Settings := set_text "MailSMTPUser".
Definition SetMailFrom : string -> Settings -> Settings := set_text "MailFrom".
Definition SetMailTo : string -> Settings -> Settings := set_text "MailTo".

(** ** The requests (api_cluster.go) *)

Definition text (op : string -> Settings -> Settings) : Setter := fun v st => Ret (None, op v st).
(** An error of [strconv] is ignored, and so is the one a setter returns. *)
Definition number (op : Z -> Settings -> Settings) : Setter := fun v st => Ret (None, op (fst (strconv_Atoi v)) st).
Definition checked (op : string -> Settings -> NumErr * Settings) : Setter := fun v st => Ret (None, snd (op v st)).
Definition switching (op : string -> Switch) : Setter := fun v st => st ← op v st; Ret (None, st).
Definition decoded (f : string) : Setter := fun v st =>
  match base64_DecodeString v with
  | Some val => Ret (None, set_text f val st)
  | None => Ret (Some "Unable to decode", st)
  end.

Section Dispatch.
Context (outside : string -> Setter).

Definition set_cases_1 : list (string * Setter) :=
  [("replication-credential", outside "replication-credential");
   ("failover-max-slave-delay", number SetRplMaxDelay);
   ("switchover-wait-route-change", checked SetSwitchoverWaitRouteChange); ("failover-limit", number SetFailLimit);
   ("backup-keep-hourly", checked SetBackupKeepHourly); ("backup-keep-daily", checked SetBackupKeepDaily);
   ("backup-keep-monthly", checked SetBackupKeepMonthly); ("backup-keep-weekly", checked SetBackupKeepWeekly);
   ("backup-keep-yearly", checked SetBackupKeepYearly); ("backup-logical-type", switching SetBackupLogicalType);
   ("backup-physical-type", switching SetBackupPhysicalType); ("backup-binlog-type", text SetBackupBinlogType);
   ("backup-binlog-script", text SetBackupBinlogScript); ("binlog-parse-mode", text SetBinlogParseMode);
   ("db-servers-hosts", text SetDbServerHosts); ("db-servers-credential", outside "db-servers-credential");
   ("prov-service-plan", outside "prov-service-plan"); ("prov-net-cni-cluster", text SetProvNetCniCluster);
   ("prov-orchestrator-cluster", text SetProvOrchestratorCluster); ("prov-db-disk-size", text SetDBDiskSize);
   ("prov-db-cpu-cores", text SetDBCores); ("prov-db-memory", text SetDBMemorySize);
   ("prov-db-disk-iops", text SetDBDiskIOPS); ("prov-db-max-connections", text SetDBMaxConnections);
   ("prov-db-expire-log-days", text SetDBExpireLogDays); ("prov-db-agents", text SetProvDbAgents);
   ("prov-proxy-agents", text SetProvProxyAgents); ("prov-orchestrator", text SetProvOrchestrator);
   ("prov-sphinx-img", text SetProvSphinxImage); ("prov-db-image", text SetProvDBImage);
   ("prov-db-disk-type", text SetProvDbDiskType); ("prov-db-disk-fs", text SetProvDbDiskFS);
   ("prov-db-disk-pool", text SetProvDbDiskPool); ("prov-db-disk-device", text SetProvDbDiskDevice);
   ("prov-db-service-type", text SetProvDbServiceType);
   ("proxysql-servers-credential", outside "proxysql-servers-credential");
   ("proxy-servers-backend-max-connections", checked SetProxyServersBackendMaxConnections);
   ("proxy-servers-backend-max-replication-lag", checked SetProxyServersBackendMaxReplicationLag);
   ("maxscale-servers-credential", outside "maxscale-servers-credential");
   ("shardproxy-servers-credential", outside "shardproxy-servers-credential");
   ("prov-proxy-disk-size", text SetProxyDiskSize); ("prov-proxy-cpu-cores", text SetProxyCores);
   ("prov-proxy-memory", text SetProxyMemorySize); ("prov-proxy-docker-proxysql-img", text SetProvProxySQLImage);
   ("prov-proxy-docker-maxscale-img", text SetProvMaxscaleImage);
   ("prov-proxy-docker-haproxy-img", text SetProvHaproxyImage);
   ("prov-proxy-docker-shardproxy-img", text SetProvShardproxyImage);
   ("prov-proxy-disk-type", text SetProvProxyDiskType); ("prov-proxy-disk-fs", text SetProvProxyDiskFS);
   ("prov-proxy-disk-pool", text SetProvProxyDiskPool); ("prov-proxy-disk-device", text SetProvProxyDiskDevice);
   ("prov-proxy-service-type", text SetProvProxyServiceType); ("monitoring-address", text SetMonitoringAddress);
   ("scheduler-db-servers-logical-backup-cron", switching SetSchedulerDbServersLogicalBackupCron);
   ("scheduler-db-servers-logs-cron", switching SetSchedulerDbServersLogsCron);
   ("scheduler-db-servers-logs-table-rotate-cron", switching SetSchedulerDbServersLogsTableRotateCron);
   ("scheduler-db-servers-optimize-cron", switching SetSchedulerDbServersOptimizeCron);
   ("scheduler-db-servers-analyze-cron", switching SetSchedulerDbServersAnalyzeCron);
   ("scheduler-db-servers-physical-backup-cron", switching SetSchedulerDbServersPhysicalBackupCron);
   ("scheduler-rolling-reprov-cron", switching SetSchedulerRollingReprovCron);
   ("scheduler-rolling-restart-cron", switching SetSchedulerRollingRestartCron);
   ("scheduler-sla-rotate-cron", switching SetSchedulerSlaRotateCron);
   ("scheduler-jobs-ssh-cron", switching SetSchedulerJobsSshCron);
   ("scheduler-alert-disable-cron", switching SetSchedulerAlertDisableCron);
   ("backup-binlogs-keep", checked SetBackupBinlogsKeep)].
Definition set_cases_2 : list (string * Setter) :=
  [("delay-stat-rotate", checked SetDelayStatRotate);
   ("print-delay-stat-interval", checked SetPrintDelayStatInterval); ("log-level", number SetLogLevel);
   ("log-writer-election-level", number SetLogWriterElectionLevel); ("log-sst-level", number SetLogSSTLevel);
   ("log-heartbeat-level", number SetLogHeartbeatLevel); ("log-config-load-level", number SetLogConfigLoadLevel);
   ("log-git-level", number SetLogGitLevel); ("log-backup-stream-level", number SetLogBackupStreamLevel);
   ("log-orchestrator-level", number SetLogOrchestratorLevel); ("log-vault-level", number SetLogVaultLevel);
   ("log-topology-level", number SetLogTopologyLevel); ("log-proxy-level", number SetLogProxyLevel);
   ("proxysql-log-level", number SetProxysqlLogLevel); ("haproxy-log-level", number SetHaproxyLogLevel);
   ("proxyjanitor-log-level", number SetProxyJanitorLogLevel); ("maxscale-log-level", number SetMxsLogLevel);
   ("force-binlog-purge-total-size", number SetForceBinlogPurgeTotalSize);
   ("force-binlog-purge-min-replica", number SetForceBinlogPurgeMinReplica);
   ("log-graphite-level", number SetLogGraphiteLevel); ("log-binlog-purge-level", number SetLogBinlogPurgeLevel);
   ("graphite-whitelist-template", text SetGraphiteWhitelistTemplate); ("topology-target", text SetTopologyTarget);
   ("log-task-level", number SetLogTaskLevel); ("monitoring-ignore-errors", text SetMonitorIgnoreErrors);
   ("monitoring-capture-trigger", text SetMonitorCaptureTrigger); ("api-token-timeout", number SetApiTokenTimeout);
   ("sst-send-buffer", number SetSSTBufferSize); ("alert-pushover-app-token", text SetAlertPushoverAppToken);
   ("alert-pushover-user-token", text SetAlertPushoverUserToken); ("alert-script", text SetAlertScript);
   ("alert-slack-channel", text SetAlertSlackChannel); ("alert-slack-url", text SetAlertSlackUrl);
   ("alert-slack-user", text SetAlertSlackUser); ("alert-teams-proxy-url", text SetAlertTeamsProxyUrl);
   ("alert-teams-state", text SetAlertTeamsState); ("alert-teams-url", text SetAlertTeamsUrl);
   ("monitoring-alert-trigger", text SetMonitoringAlertTriggerl); ("mail-smtp-addr", text SetMailSmtpAddr);
   ("mail-smtp-password", outside "mail-smtp-password"); ("mail-smtp-user", text SetMailSmtpUser);
   ("mail-to", text SetMailTo); ("mail-from", text SetMailFrom);
   ("scheduler-alert-disable-time", number SetSchedulerAlertDisableTime); ("cloud18", text (set_truth "Cloud18"));
   ("cloud18-domain", text (set_text "Cloud18Domain")); ("cloud18-sub-domain", text (set_text "Cloud18SubDomain"));
   ("cloud18-sub-domain-zone", text (set_text "Cloud18SubDomainZone"));
   ("cloud18-gitlab-user", text (set_text "Cloud18GitUser"));
   ("cloud18-gitlab-password", outside "cloud18-gitlab-password");
   ("cloud18-platform-description", text (set_text "Cloud18PlatformDescription"));
   ("log-file-level", number (set_int "LogFileLevel"))].
Definition set_cases_3 : list (string * Setter) :=
  [("backup-restic-repository", decoded "BackupResticRepository");
   ("backup-restic-aws-access-key-id", text (set_text "BackupResticAwsAccessKeyId"));
   ("backup-restic-aws-access-secret", outside "backup-restic-aws-access-secret");
   ("backup-restic-password", outside "backup-restic-password");
   ("backup-mydumper-options", decoded "BackupMyDumperOptions");
   ("backup-mydumper-regex", decoded "BackupMyDumperRegex");
   ("backup-myloader-options", decoded "BackupMyLoaderOptions");
   ("backup-mysqldump-options", decoded "BackupMysqldumpOptions");
   ("cloud18-monthly-infra-cost", outside "cloud18-monthly-infra-cost");
   ("cloud18-monthly-license-cost", outside "cloud18-monthly-license-cost");
   ("cloud18-monthly-sysops-cost", outside "cloud18-monthly-sysops-cost");
   ("cloud18-monthly-dbops-cost", outside "cloud18-monthly-dbops-cost");
   ("cloud18-cost-currency", text (set_text "Cloud18CostCurrency"));
   ("cloud18-database-read-write-split-srv-record", text SetCloud18DatabaseReadWriteSplitSrvRecord);
   ("cloud18-database-read-srv-record", text SetCloud18DatabaseReadSrvRecord);
   ("cloud18-database-read-write-srv-record", text SetCloud18DatabaseReadWriteSrvRecord);
   ("cloud18-dba-user-credentials", outside "cloud18-dba-user-credentials");
   ("cloud18-sponsor-user-credentials", outside "cloud18-sponsor-user-credentials");
   ("cloud18-cloud18-dbops", outside "cloud18-cloud18-dbops");
   ("cloud18-external-sysops", outside "cloud18-external-sysops")].
Definition set_cases_4 : list (string * Setter) :=
  [("cloud18-external-dbops", outside "cloud18-external-dbops");
   ("backup-save-script", decoded "BackupSaveScript"); ("backup-load-script", decoded "BackupSaveScript")].
Definition set_cases : list (string * Setter) := set_cases_1 ++ set_cases_2 ++ set_cases_3 ++ set_cases_4.

Definition setClusterSetting (name value : string) (st : Settings) : outcome (option string * Settings) :=
  match List.find (fun c => (fst c =? name)%string) set_cases with
  | Some (_, op) =>
      r ← op value st;
      match r with
      | (None, st) => Ret (None, called save_cluster st)
      | (Some e, st) => Ret (Some e, st)
      end
  | None => Ret (Some "Setting not found", st)
  end.
End Dispatch.
End Setters.
