(* ===== verification/SettingValuesProps.v ===== *)
(** * What a set value changes

    The values of the options after a request, and the flags of the logs. *)

From Stdlib Require Import ZArith Lia Bool Ascii String.
From stdpp Require Import base list gmap strings functions relations.
From S2P Require Import Prelude GoLib Cluster Cron Scheduler SchedulerProps Settings SettingsProps SettingValues.

Local Open Scope string_scope.
Local Open Scope list_scope.
Local Open Scope Z_scope.

(** ** The values of the options *)

Definition field_cron (f : string) : option SchedJob :=
  if (f =? "BackupLogicalCron")%string then Some BackupLogical
  else if (f =? "BackupPhysicalCron")%string then Some BackupPhysical
  else if (f =? "SchedulerDatabaseLogsTableRotateCron")%string then Some LogsTableRotate
  else if (f =? "BackupDatabaseLogCron")%string then Some ErrorLogs
  else if (f =? "BackupDatabaseOptimizeCron")%string then Some Optimize
  else if (f =? "BackupDatabaseAnalyzeCron")%string then Some Analyze
  else if (f =? "SchedulerRollingRestartCron")%string then Some RestartRolling
  else if (f =? "SchedulerRollingReprovCron")%string then Some ReprovRolling
  else if (f =? "SchedulerSLARotateCron")%string then Some SlaRotate
  else if (f =? "SchedulerJobsSSHCron")%string then Some DbJobsSsh
  else if (f =? "SchedulerAlertDisableCron")%string then Some AlertDisable
  else None.
Definition text_value (st : Settings) (f : string) : string :=
  match field_cron f with Some j => sd_spec (st_sched st) j | None => st_text st f end.

Lemma field_cron_inj f g j : field_cron f = Some j -> field_cron g = Some j -> f = g.
Proof.
  unfold field_cron. intros Hf Hg.
  repeat match type of Hf with context [String.eqb ?x ?y] => destruct (String.eqb_spec x y); [subst f; injection Hf as <-; clear -Hg|] end; [..|done].
  all: repeat match type of Hg with context [String.eqb ?x ?y] => destruct (String.eqb_spec x y); [subst g; first [reflexivity|discriminate Hg]|] end; done.
Qed.

(** The flags of the logs and their levels. *)
Definition log_pairs : list (string * string) :=
  [("LogWriterElection", "LogWriterElectionLevel"); ("LogSST", "LogSSTLevel");
   ("LogHeartbeat", "LogHeartbeatLevel"); ("LogConfigLoad", "LogConfigLoadLevel"); ("LogGit", "LogGitLevel");
   ("LogBackupStream", "LogBackupStreamLevel"); ("LogOrchestrator", "LogOrchestratorLevel");
   ("LogVault", "LogVaultLevel"); ("LogTopology", "LogTopologyLevel"); ("LogProxy", "LogProxyLevel");
   ("ProxysqlDebug", "ProxysqlLogLevel"); ("HaproxyDebug", "HaproxyLogLevel");
   ("ProxyJanitorDebug", "ProxyJanitorLogLevel"); ("MxsDebug", "MxsLogLevel"); ("LogGraphite", "LogGraphiteLevel");
   ("LogBinlogPurge", "LogBinlogPurgeLevel"); ("LogTask", "LogTaskLevel")].
Definition level_flag (level : string) : option string :=
  option_map fst (List.find (fun p => (snd p =? level)%string) log_pairs).

(** [op] gives the text option [f] its value and changes no other option. *)
Definition sets_text (f : string) (op : Setter) : Prop := forall v st err st', op v st = Ret (err, st') ->
  err = None /\ text_value st' f = v /\ (forall g, g <> f -> text_value st' g = text_value st g) /\
  st_int st' = st_int st /\ forall g, option_value st' g = option_value st g.
(** [op] gives the number [f] the value the text stands for, and a level its flag. *)
Definition sets_number (f : string) (op : Setter) : Prop := forall v n st err st',
  strconv_Atoi v = (n, ErrNone) -> op v st = Ret (err, st') ->
  err = None /\ st_int st' f = n /\ (forall g, g <> f -> st_int st' g = st_int st g) /\
  (forall g, text_value st' g = text_value st g) /\
  forall g, option_value st' g = if decide (level_flag f = Some g) then 0 <? n else option_value st g.

(** ** The setters *)

Definition plain_text (f : string) : bool := match field_cron f with Some _ => false | None => true end.
Lemma set_text_value f v st g : plain_text f = true ->
  text_value (set_text f v st) g = if decide (f = g) then v else text_value st g.
Proof.
  unfold plain_text, text_value. intros Hf. destruct (decide (f = g)) as [<-|Hne].
  - destruct (field_cron f); [done|]. cbn. apply fn_lookup_insert.
  - destruct (field_cron g); [done|]. cbn. by apply fn_lookup_insert_ne.
Qed.

Lemma sets_text_op f op : plain_text f = true ->
  (forall v st, exists cs1 cs2, op v st = mkSettings (st_bool st) (st_int st) (<[f := v]> (st_text st)) (st_sched st) cs1 cs2) ->
  sets_text f (text op).
Proof.
  intros Hf Ho v st err st' [= <- <-]. destruct (Ho v st) as (cs1 & cs2 & ->).
  pose proof (set_text_value f v st) as E. unfold text_value in *. cbn in *. split_and!; [done|..|done|].
  - rewrite E by done. by rewrite decide_True.
  - intros g Hg. rewrite E by done. by rewrite decide_False by congruence.
  - intros g. unfold option_value. done.
Qed.

Section Setters.
Context `{GoSort} `{GoTime} (clock : Time) (backup_server : bool).

Lemma schedule_spec j c s s' : schedule clock j c s = Ret s' -> sd_spec s' = sd_spec s.
Proof.
  unfold schedule. destruct (job_on s j); [|by intros [= <-]].
  intros ([[id ok] c'] & _ & E)%outcome_bind_ret. destruct ok; [|by injection E as <-].
  destruct (cron_Entry _ _ _). by injection E as <-.
Qed.
Lemma set_scheduler_spec j s s' : set_scheduler clock j s = Ret s' -> sd_spec s' = sd_spec s.
Proof.
  unfold set_scheduler. destruct (sd_cron s) as [c|]; [|by intros [= <-]].
  unfold unschedule. destruct (HasSchedulerEntry _ _); intros E%schedule_spec; exact E.
Qed.

Lemma sets_text_cron f j : field_cron f = Some j ->
  sets_text f (switching (fun v => on_sched (set_job_cron clock j v))).
Proof.
  intros Hf v st err st' (st1 & E1 & E)%outcome_bind_ret. injection E as <- <-.
  apply outcome_bind_ret in E1 as (s & E1 & E). injection E as <-. unfold set_job_cron in E1.
  pose proof (set_scheduler_spec _ _ _ E1) as P. apply set_scheduler_on in E1 as [S1 S2]. cbn in P, S1, S2.
  unfold text_value. cbn. rewrite P. split_and!; [done|..|done|].
  - rewrite Hf. apply fn_lookup_insert.
  - intros g Hg. destruct (field_cron g) as [i|] eqn:Eg; [|done]. apply fn_lookup_insert_ne. intros ->.
    apply Hg. by eapply field_cron_inj.
  - intros g. unfold option_value. cbn. by rewrite S1, S2.
Qed.
Lemma sets_text_backup f c : plain_text f = true -> sets_text f (switching (backup_type backup_server f c)).
Proof.
  intros Hf v st err st' (st1 & E1 & E)%outcome_bind_ret. injection E as <- <-. unfold backup_type in E1.
  destruct (String.eqb_spec (st_text st f) v) as [Ev|Ev]; cbn in E1.
  - injection E1 as <-. split_and!; try done. unfold text_value, plain_text in *. by destruct (field_cron f).
  - destruct backup_server; [|done]. injection E1 as <-.
    apply (sets_text_op f (fun v st => called c (set_text f v st)) Hf); [|done]. intros v' st'. by eexists _, _.
Qed.

(** Numbers. *)
Definition no_level (f : string) : bool := match level_flag f with Some _ => false | None => true end.
Lemma sets_number_same f op : no_level f = true ->
  (forall v n st err st', strconv_Atoi v = (n, ErrNone) -> op v st = Ret (err, st') ->
     err = None /\ exists cs1 cs2, st' = mkSettings (st_bool st) (<[f := n]> (st_int st)) (st_text st) (st_sched st) cs1 cs2) ->
  sets_number f op.
Proof.
  intros Hf Ho v n st err st' Hn E. destruct (Ho _ _ _ _ _ Hn E) as (-> & cs1 & cs2 & ->). unfold no_level in Hf.
  split_and!; cbn; [done|apply fn_lookup_insert|..].
  - intros g Hg. by apply fn_lookup_insert_ne.
  - done.
  - intros g. destruct (level_flag f); [done|]. by rewrite decide_False by done.
Qed.
Lemma sets_number_int f : no_level f = true -> sets_number f (number (set_int f)).
Proof.
  intros Hf. apply sets_number_same; [done|]. intros v n st err st' Hn [= <- <-]. rewrite Hn. split; [done|by eexists _, _].
Qed.
Lemma sets_number_checked f : no_level f = true -> sets_number f (checked (keep_number f)).
Proof.
  intros Hf. apply sets_number_same; [done|]. intros v n st err st' Hn [= <- <-]. unfold keep_number. rewrite Hn.
  split; [done|by eexists _, _].
Qed.
Lemma sets_number_configured f read c : no_level f = true -> (forall n, read (n, ErrNone) = n) ->
  sets_number f (text (configure_number f read c)).
Proof.
  intros Hf Hr. apply sets_number_same; [done|]. intros v n st err st' Hn [= <- <-]. unfold configure_number. rewrite Hn, Hr.
  split; [done|by eexists _, _].
Qed.
Lemma sets_number_level flag f op : level_flag f = Some flag -> plain flag = true ->
  (forall v st, exists cs, op v st = mkSettings (st_bool (set_log_level flag f v st)) (st_int (set_log_level flag f v st))
                              (st_text st) (st_sched st) (st_restic st) cs) ->
  sets_number f (number op).
Proof.
  intros Hf Hp Ho v n st err st' Hn [= <- <-]. rewrite Hn. cbn [fst]. destruct (Ho n st) as (cs & ->).
  split_and!; cbn; [done|apply fn_lookup_insert|..].
  - intros g Hg. by apply fn_lookup_insert_ne.
  - done.
  - intros g. pose proof (set_bool_value flag (0 <? n) st g Hp) as E. unfold option_value in *. cbn in *. rewrite E, Hf.
    destruct (decide (flag = g)) as [->|Hne]; [by rewrite decide_True|by rewrite decide_False by congruence].
Qed.

(** ** The requests *)

Context (outside : string -> Setter).

(** The settings that do more than to take their value over: credentials, secrets and
    users, encoded texts, and values that are adjusted. *)
Definition adjusted : list string :=
  ["replication-credential"; "db-servers-credential"; "prov-service-plan"; "prov-orchestrator";
   "delay-stat-rotate"; "log-git-level"; "monitoring-ignore-errors"; "monitoring-capture-trigger";
   "mail-smtp-password"; "cloud18-gitlab-password"; "backup-restic-repository"; "backup-restic-aws-access-secret";
   "backup-restic-password"; "backup-mydumper-options"; "backup-mydumper-regex"; "backup-myloader-options";
   "backup-mysqldump-options"; "cloud18-dba-user-credentials"; "cloud18-sponsor-user-credentials";
   "cloud18-external-sysops"; "cloud18-external-dbops"; "backup-save-script"; "backup-load-script"].

Definition text_field (setting : string) : option string :=
  option_map snd (List.find (fun kv => (fst kv =? setting)%string) text_tags).
Definition number_field (setting : string) : option string :=
  option_map snd (List.find (fun kv => (fst kv =? setting)%string) number_tags).

Definition value_ok (c : string * Setter) : Prop :=
  existsb (String.eqb (fst c)) adjusted = false ->
  match text_field (fst c), number_field (fst c) with
  | Some f, _ => sets_text f (snd c)
  | None, Some f => sets_number f (snd c)
  | None, None => True
  end.

Ltac value_tac :=
  first [exact I
        | apply sets_text_op; [reflexivity|intros ? ?; eexists _, _; reflexivity]
        | apply sets_text_cron; reflexivity
        | apply sets_text_backup; reflexivity
        | apply sets_number_int; reflexivity
        | apply sets_number_checked; reflexivity
        | apply sets_number_configured; [reflexivity|intros ?; reflexivity]
        | eapply sets_number_level; [reflexivity|reflexivity|intros ? ?; eexists; reflexivity]].
Ltac value_case :=
  unfold value_ok; cbn [fst snd];
  lazymatch goal with |- existsb (String.eqb ?s) adjusted = false -> _ =>
    let Hx := fresh in intros Hx;
    let a := eval vm_compute in (existsb (String.eqb s) adjusted) in
    lazymatch a with
    | true => discriminate Hx
    | false =>
        clear Hx;
        let t := eval vm_compute in (text_field s) in change (text_field s) with t;
        let n := eval vm_compute in (number_field s) in change (number_field s) with n;
        cbv iota beta; value_tac
    end
  end.

Lemma set_cases_ok : Forall value_ok (set_cases clock backup_server outside).
Proof.
  unfold set_cases, set_cases_1, set_cases_2, set_cases_3, set_cases_4. cbn [app].
  repeat (apply list.Forall_cons; split); [value_case..|apply list.Forall_nil_2].
Qed.
End Setters.

(** A setting gets the value of its request. Where a request names a text or a number of
    the configuration that has a setter and is not [adjusted], the option gets the value,
    a level of a log sets its flag, all other options are as before, and the
    configuration is saved. *)
Lemma set_setting_exact `{GoSort} `{GoTime} (clock : Time) (backup_server : bool) (outside : string -> Setter)
    (name value : string) (st st' : Settings) (err : option string) :
  existsb (String.eqb name) adjusted = false -> In name (map fst (set_cases clock backup_server outside)) ->
  setClusterSetting clock backup_server outside name value st = Ret (err, st') ->
  match text_field name, number_field name with
  | Some f, _ =>
      err = None /\ last (st_calls st') = Some save_cluster /\ text_value st' f = value /\
      (forall g, g <> f -> text_value st' g = text_value st g) /\
      st_int st' = st_int st /\ forall g, option_value st' g = option_value st g
  | None, Some f => forall n, strconv_Atoi value = (n, ErrNone) ->
      err = None /\ last (st_calls st') = Some save_cluster /\ st_int st' f = n /\
      (forall g, g <> f -> st_int st' g = st_int st g) /\ (forall g, text_value st' g = text_value st g) /\
      forall g, option_value st' g = if decide (level_flag f = Some g) then 0 <? n else option_value st g
  | None, None => True
  end.
Proof.
  intros Hx Hin. unfold setClusterSetting. destruct (List.find _ _) as [[m op]|] eqn:Ec.
  2: { apply in_map_iff in Hin as (c & <- & Hin). pose proof (find_none _ _ Ec c Hin) as N. cbn in N.
       by rewrite String.eqb_refl in N. }
  apply find_some in Ec as [Hc Hn]. cbn in Hn. apply String.eqb_eq in Hn as ->.
  intros ([err1 st1] & E1 & E)%outcome_bind_ret.
  pose proof (set_cases_ok clock backup_server outside) as A. rewrite Forall_forall in A.
  specialize (A _ (proj2 (list_elem_of_In _ _) Hc) Hx). cbn [fst snd] in A.
  destruct (text_field name) as [f|]; [|destruct (number_field name) as [f|]; [|done]].
  - destruct (A _ _ _ _ E1) as (-> & A1 & A2 & A3 & A4). injection E as <- <-.
    split_and!; [done|apply last_snoc|exact A1|exact A2|exact A3|exact A4].
  - intros n Hv. destruct (A _ _ _ _ _ Hv E1) as (-> & A1 & A2 & A3 & A4). injection E as <- <-.
    split_and!; [done|apply last_snoc|exact A1|exact A2|exact A3|exact A4].
Qed.

(** ** The flags of the logs *)

(** A log is on if and only if its level is positive. *)
Definition logs_in_step (st : Settings) : Prop :=
  forall flag level, In (flag, level) log_pairs -> st_bool st flag = (0 <? st_int st level).
Definition no_log_flag (f : string) : bool := negb (existsb (fun p => (fst p =? f)%string) log_pairs).
Definition no_log_level (f : string) : bool := negb (existsb (fun p => (snd p =? f)%string) log_pairs).

Lemma logs_same st st' : st_bool st' = st_bool st -> st_int st' = st_int st -> logs_in_step st -> logs_in_step st'.
Proof. unfold logs_in_step. by intros -> ->. Qed.
Lemma logs_set_bool f b st : no_log_flag f = true -> logs_in_step st -> logs_in_step (set_bool f b st).
Proof.
  intros Hf L flag level Hin. cbn. rewrite fn_lookup_insert_ne; [by apply L|]. intros ->.
  apply negb_true_iff in Hf. assert (existsb (fun p => (fst p =? flag)%string) log_pairs = true); [|congruence].
  apply existsb_exists. exists (flag, level). split; [done|apply String.eqb_refl].
Qed.
Lemma logs_set_int f n st : no_log_level f = true -> logs_in_step st -> logs_in_step (set_int f n st).
Proof.
  intros Hf L flag level Hin. cbn. rewrite fn_lookup_insert_ne; [by apply L|]. intros ->.
  apply negb_true_iff in Hf. assert (existsb (fun p => (snd p =? level)%string) log_pairs = true); [|congruence].
  apply existsb_exists. exists (flag, level). split; [done|apply String.eqb_refl].
Qed.

(** No two logs share a flag or a level. *)
Lemma log_pairs_apart p q : In p log_pairs -> In q log_pairs -> (fst p = fst q <-> snd p = snd q).
Proof.
  intros Hp Hq.
  assert (D : forallb (fun p => forallb (fun q => Bool.eqb (fst p =? fst q)%string (snd p =? snd q)%string) log_pairs) log_pairs = true)
    by (vm_compute; reflexivity).
  rewrite forallb_forall in D. specialize (D p Hp). rewrite forallb_forall in D. specialize (D q Hq).
  apply eqb_prop in D. destruct (String.eqb_spec (fst p) (fst q)), (String.eqb_spec (snd p) (snd q)); naive_solver.
Qed.
Lemma logs_set_level flag level v st : In (flag, level) log_pairs -> logs_in_step st -> logs_in_step (set_log_level flag level v st).
Proof.
  intros Hin L flag' level' Hin'. cbn. destruct (log_pairs_apart _ _ Hin Hin') as [D1 D2]. cbn in D1, D2.
  destruct (decide (flag = flag')) as [->|Hne].
  - rewrite (D1 eq_refl). by rewrite !fn_lookup_insert.
  - rewrite !fn_lookup_insert_ne; [by apply L|..]; [intros ->; by apply Hne, D2|done].
Qed.
Lemma switch_log_level flag level st :
  switch_log flag level st = Ret (set_log_level flag level (if st_bool st flag then 0 else 1) st).
Proof. unfold switch_log, flip, set_log_level. destruct (st_bool st flag) eqn:E; cbn; by rewrite E. Qed.

Definition switch_keeps (op : Switch) : Prop := forall st st', op st = Ret st' -> logs_in_step st -> logs_in_step st'.
Definition set_keeps (op : Setter) : Prop := forall v st err st', op v st = Ret (err, st') -> logs_in_step st -> logs_in_step st'.

Lemma logs_called c st : logs_in_step st -> logs_in_step (called c st).
Proof. by apply logs_same. Qed.

(** A chain of assignments that keeps the logs in step. *)
Ltac logs_tac :=
  lazymatch goal with
  | L : logs_in_step ?st |- logs_in_step ?st => exact L
  | |- logs_in_step (if ?b then _ else _) => destruct b; logs_tac
  | |- logs_in_step (called _ _) => apply logs_called; logs_tac
  | |- logs_in_step (set_bool _ _ _) => apply logs_set_bool; [reflexivity|logs_tac]
  | |- logs_in_step (set_int _ _ _) => apply logs_set_int; [reflexivity|logs_tac]
  | |- logs_in_step (set_text _ _ ?st) => apply (logs_same st); [reflexivity|reflexivity|logs_tac]
  | |- logs_in_step (set_restic _ ?st) => apply (logs_same st); [reflexivity|reflexivity|logs_tac]
  | |- logs_in_step (set_log_level _ _ _ _) => apply logs_set_level; [repeat (first [left; reflexivity|right])|logs_tac]
  end.

Lemma switch_keeps_then f k : no_log_flag f = true -> (forall st, logs_in_step st -> logs_in_step (k st)) -> switch_keeps (flip_then f k).
Proof. intros Hf Hk st st' [= <-] L. apply Hk. by apply logs_set_bool. Qed.
Lemma switch_keeps_flip f : no_log_flag f = true -> switch_keeps (flip f).
Proof. intros Hf. apply (switch_keeps_then f id); [done|by intros st]. Qed.
Lemma switch_keeps_log flag level : In (flag, level) log_pairs -> switch_keeps (switch_log flag level).
Proof. intros Hin st st' E L. rewrite switch_log_level in E. injection E as <-. by apply logs_set_level. Qed.
Lemma switch_keeps_sched op : switch_keeps (on_sched op).
Proof. intros st st' (s & _ & E)%outcome_bind_ret L. injection E as <-. by apply (logs_same st). Qed.
Lemma switch_keeps_Ret : switch_keeps Ret.
Proof. by intros st st' [= <-]. Qed.
Lemma switch_keeps_Cloud18 : switch_keeps SwitchCloud18Shared.
Proof.
  intros st st' E L. unfold SwitchCloud18Shared in E. destruct (st_bool st _); [by apply (switch_keeps_flip "Cloud18Shared" eq_refl _ _ E)|].
  by injection E as <-.
Qed.
Lemma switch_keeps_Interactive : switch_keeps SwitchInteractive.
Proof. intros st st' E L. unfold SwitchInteractive in E. destruct (st_bool st _); injection E as <-; logs_tac. Qed.

Ltac switch_keeps_tac :=
  first [apply switch_keeps_sched | apply switch_keeps_Ret | apply switch_keeps_flip; reflexivity
        | apply switch_keeps_log; repeat (first [left; reflexivity|right])
        | apply switch_keeps_Cloud18 | apply switch_keeps_Interactive
        | apply switch_keeps_then; [reflexivity|let st := fresh in intros st ?; cbv beta; logs_tac]
        | let E := fresh in intros ? ? E ?; unfold SwitchTraffic, switch_parallel in E; injection E as <-; logs_tac].
Lemma switch_cases_keep `{GoSort} `{GoTime} clock restic : Forall (fun c => switch_keeps (snd c)) (switch_cases clock restic).
Proof.
  unfold switch_cases, switch_cases_1, switch_cases_2. cbn [app].
  repeat (apply list.Forall_cons; split); [cbn [snd]; switch_keeps_tac..|apply list.Forall_nil_2].
Qed.

(** The settings whose setters are not modelled. *)
Definition outside_names : list string :=
  ["replication-credential"; "db-servers-credential"; "prov-service-plan"; "proxysql-servers-credential";
   "maxscale-servers-credential"; "shardproxy-servers-credential"; "mail-smtp-password"; "cloud18-gitlab-password";
   "backup-restic-aws-access-secret"; "backup-restic-password"; "cloud18-monthly-infra-cost";
   "cloud18-monthly-license-cost"; "cloud18-monthly-sysops-cost"; "cloud18-monthly-dbops-cost";
   "cloud18-dba-user-credentials"; "cloud18-sponsor-user-credentials"; "cloud18-cloud18-dbops";
   "cloud18-external-sysops"; "cloud18-external-dbops"].

Lemma set_keeps_checked f : no_log_level f = true -> set_keeps (checked (keep_number f)).
Proof.
  intros Hf v st err st' [= <- <-] L. unfold keep_number. destruct (strconv_Atoi v) as [n []]; [by apply logs_set_int|done|done].
Qed.
Lemma set_keeps_decoded f : set_keeps (decoded f).
Proof. intros v st err st' E L. unfold decoded in E. destruct (base64_DecodeString v); injection E as <- <-; [logs_tac|done]. Qed.
Lemma set_keeps_sched (op : string -> Sched -> outcome Sched) : set_keeps (switching (fun v => on_sched (op v))).
Proof. intros v st err st' (st1 & E1 & E)%outcome_bind_ret L. injection E as <- <-. by apply (switch_keeps_sched _ _ _ E1). Qed.
Lemma set_keeps_backup b f c : set_keeps (switching (backup_type b f c)).
Proof.
  intros v st err st' (st1 & E1 & E)%outcome_bind_ret L. injection E as <- <-. unfold backup_type in E1.
  destruct (negb _); [destruct b; [|done]|]; injection E1 as <-; [logs_tac|done].
Qed.
Lemma set_keeps_rotate : set_keeps (checked SetDelayStatRotate).
Proof.
  intros v st err st' [= <- <-] L. unfold SetDelayStatRotate. destruct (strconv_Atoi v) as [n []]; [by apply logs_set_int|done|done].
Qed.
Lemma set_keeps_number op : (forall v st, logs_in_step st -> logs_in_step (op v st)) -> set_keeps (number op).
Proof. intros Ho v st err st' [= <- <-] L. by apply Ho. Qed.
Lemma set_keeps_text op : (forall v st, logs_in_step st -> logs_in_step (op v st)) -> set_keeps (text op).
Proof. intros Ho v st err st' [= <- <-] L. by apply Ho. Qed.

(** One setter: nothing of the logs, a number or a truth value that is no log's, or a
    level with its flag. *)
Ltac assigned_tac :=
  lazymatch goal with L : logs_in_step ?st |- _ =>
    first [apply (logs_same st); [reflexivity|reflexivity|exact L]
          | apply logs_set_level; [repeat (first [left; reflexivity|right])|exact L]
          | apply logs_set_int; [reflexivity|exact L] | apply logs_set_bool; [reflexivity|exact L]
          | unfold SetLogGraphiteLevel, SetLogGitLevel, SetDBMaxConnections, SetDBExpireLogDays, configure_number; logs_tac]
  end.
Ltac set_keeps_tac :=
  lazymatch goal with
  | |- set_keeps (decoded _) => apply set_keeps_decoded
  | |- set_keeps (checked SetDelayStatRotate) => exact set_keeps_rotate
  | |- set_keeps (checked _) => apply set_keeps_checked; reflexivity
  | |- set_keeps (switching _) => first [apply set_keeps_backup | apply set_keeps_sched]
  | |- set_keeps (number _) => apply set_keeps_number; intros ? ? ?; assigned_tac
  | |- set_keeps (text _) => apply set_keeps_text; intros ? ? ?; assigned_tac
  end.
Ltac set_keeps_case :=
  cbn [fst snd];
  lazymatch goal with |- existsb (String.eqb ?s) outside_names = false -> _ =>
    let Hx := fresh in intros Hx;
    let a := eval vm_compute in (existsb (String.eqb s) outside_names) in
    lazymatch a with true => discriminate Hx | false => clear Hx; set_keeps_tac end
  end.
Lemma set_cases_keep `{GoSort} `{GoTime} clock backup_server outside :
  Forall (fun c => existsb (String.eqb (fst c)) outside_names = false -> set_keeps (snd c)) (set_cases clock backup_server outside).
Proof.
  unfold set_cases, set_cases_1, set_cases_2, set_cases_3, set_cases_4. cbn [app].
  repeat (apply list.Forall_cons; split); [set_keeps_case..|apply list.Forall_nil_2].
Qed.

(** The requests that change the options of a cluster. *)
Inductive request `{GoSort} `{GoTime} (outside : string -> Setter) : Settings -> Settings -> Prop :=
| request_switch clock restic setting st err st' :
    switchClusterSettings clock restic setting st = Ret (err, st') -> request outside st st'
| request_set clock backup_server name value st err st' :
    existsb (String.eqb name) outside_names = false ->
    setClusterSetting clock backup_server outside name value st = Ret (err, st') -> request outside st st'.

Lemma request_keeps `{GoSort} `{GoTime} outside st st' : request outside st st' -> logs_in_step st -> logs_in_step st'.
Proof.
  intros [clock restic setting st1 err st2 E|clock b name value st1 err st2 Hn E] L.
  - unfold switchClusterSettings in E. destruct (List.find _ _) as [[n op]|] eqn:Ec; [|by injection E as _ <-].
    apply outcome_bind_ret in E as (st3 & E3 & E). injection E as _ <-. apply find_some in Ec as [Hin _].
    pose proof (switch_cases_keep clock restic) as A. rewrite Forall_forall in A. apply logs_called.
    exact (A _ (proj2 (list_elem_of_In _ _) Hin) _ _ E3 L).
  - unfold setClusterSetting in E. destruct (List.find _ _) as [[n op]|] eqn:Ec; [|by injection E as _ <-].
    apply outcome_bind_ret in E as ([err3 st3] & E3 & E). apply find_some in Ec as [Hin Eq]. cbn in Eq.
    apply String.eqb_eq in Eq as ->. pose proof (set_cases_keep clock b outside) as A. rewrite Forall_forall in A.
    pose proof (A _ (proj2 (list_elem_of_In _ _) Hin) Hn _ _ _ _ E3 L) as L3. destruct err3; injection E as _ <-; [done|].
    by apply logs_called.
Qed.


(** ** Examples *)

Definition no_outside (name : string) : Setter := fun _ st => Ret (None, st).
Definition demo_set (name value : string) : outcome (option string * Settings) :=
  setClusterSetting demo_clock true no_outside name value all_off.
Definition demo_observe {A} (look : Settings -> A) (r : outcome (option string * Settings)) : option (option string * A) :=
  match r with Ret (err, st) => Some (err, look st) | _ => None end.

Example demo_base64 : map base64_DecodeString ["LS1sb2NrLWFsbA=="; "YWI="; "YWJj"; "YWJ"; "Y=Jj"; ""] =
  [Some "--lock-all"; Some "ab"; Some "abc"; None; None; Some ""].
Proof. vm_compute. reflexivity. Qed.

(** A bad number sets the limit to zero and leaves the backups to keep as they are; both
    are answered as done. *)
Example demo_bad_number :
  (demo_observe (fun st => st_int st "FailLimit")
     (setClusterSetting demo_clock true no_outside "failover-limit" "five" (set_int "FailLimit" 5 all_off)),
   demo_observe (fun st => st_int st "BackupKeepHourly")
     (setClusterSetting demo_clock true no_outside "backup-keep-hourly" "five" (set_int "BackupKeepHourly" 5 all_off))) =
  (Some (None, 0), Some (None, 5)).
Proof. vm_compute. reflexivity. Qed.

(** The script that loads a backup is written over the one that saves it. *)
Example demo_load_script :
  demo_observe (fun st => (st_text st "BackupLoadScript", st_text st "BackupSaveScript")) (demo_set "backup-load-script" "YWJj") =
  Some (None, ("", "abc")).
Proof. vm_compute. reflexivity. Qed.

(** The type of the backups cannot be set without a server for them. *)
Example demo_backup_type_panics :
  setClusterSetting demo_clock false no_outside "backup-logical-type" "mydumper" all_off = Panic.
Proof. vm_compute. reflexivity. Qed.

Lemma set_setting_exact_example : exists st, demo_set "alert-script" "/bin/alert" = Ret (None, st) /\
  text_value st "AlertScript" = "/bin/alert" /\ text_value st "SlackURL" = "".
Proof.
  eexists. split; [reflexivity|].
  edestruct (set_setting_exact demo_clock true no_outside "alert-script" "/bin/alert" all_off) as (_ & _ & A1 & A2 & _);
    [reflexivity|vm_compute; tauto|reflexivity|]. split; [exact A1|exact (A2 "SlackURL" ltac:(discriminate))].
Qed.

