(* ===== verification/Acl.v ===== *)
(** * Access control (cluster/cluster_acl.go, cluster/cluster_add.go, config/config.go)

    The users of the HTTP interface, their grants and roles, how they are loaded
    from and saved to the configuration, which URL asks for which grant, and how a
    user delegates grants to another. Log lines are left out, and a nil map reads
    as an empty one. *)

From Stdlib Require Import ZArith Lia Bool Permutation Ascii String.
From stdpp Require Import base list gmap strings.
From S2P Require Import Prelude GoLib Config.

Local Open Scope string_scope.
Local Open Scope list_scope.

(** ** Grants and roles (config/config.go) *)

Definition RoleSysOps : string := "sysops".
Definition RoleDBOps : string := "dbops".
Definition RoleExtSysOps : string := "extsysops".
Definition RoleExtDBOps : string := "extdbops".
Definition RoleSponsor : string := "sponsor".
Definition RoleUnsubscribed : string := "unsubscribed".
Definition RolePending : string := "pending".
Definition RoleVisitor : string := "visitor".
Definition GrantDBStart : string := "db-start".
Definition GrantDBStop : string := "db-stop".
Definition GrantDBKill : string := "db-kill".
Definition GrantDBOptimize : string := "db-optimize".
Definition GrantDBAnalyse : string := "db-analyse".
Definition GrantDBReplication : string := "db-replication".
Definition GrantDBBackup : string := "db-backup".
Definition GrantDBRestore : string := "db-restore".
Definition GrantDBReadOnly : string := "db-readonly".
Definition GrantDBLogs : string := "db-logs".
Definition GrantDBShowVariables : string := "db-show-variables".
Definition GrantDBShowStatus : string := "db-show-status".
Definition GrantDBShowSchema : string := "db-show-schema".
Definition GrantDBShowProcess : string := "db-show-process".
Definition GrantDBShowLogs : string := "db-show-logs".
Definition GrantDBCapture : string := "db-capture".
Definition GrantDBMaintenance : string := "db-maintenance".
Definition GrantDBConfigCreate : string := "db-config-create".
Definition GrantDBConfigRessource : string := "db-config-ressource".
Definition GrantDBConfigFlag : string := "db-config-flag".
Definition GrantDBConfigGet : string := "db-config-get".
Definition GrantDBDebug : string := "db-debug".
Definition GrantClusterCreate : string := "cluster-create".
Definition GrantClusterDelete : string := "cluster-delete".
Definition GrantClusterDrop : string := "cluster-drop".
Definition GrantClusterCreateMonitor : string := "cluster-create-monitor".
Definition GrantClusterDropMonitor : string := "cluster-drop-monitor".
Definition GrantClusterFailover : string := "cluster-failover".
Definition GrantClusterSwitchover : string := "cluster-switchover".
Definition GrantClusterRolling : string := "cluster-rolling".
Definition GrantClusterSettings : string := "cluster-settings".
Definition GrantClusterGrant : string := "cluster-grant".
Definition GrantClusterChecksum : string := "cluster-checksum".
Definition GrantClusterSharding : string := "cluster-sharding".
Definition GrantClusterReplication : string := "cluster-replication".
Definition GrantClusterCertificatesRotate : string := "cluster-certificates-rotate".
Definition GrantClusterCertificatesReload : string := "cluster-certificates-reload".
Definition GrantClusterBench : string := "cluster-bench".
Definition GrantClusterProcess : string := "cluster-process".
Definition GrantClusterTest : string := "cluster-test".
Definition GrantClusterTraffic : string := "cluster-traffic".
Definition GrantClusterShowBackups : string := "cluster-show-backups".
Definition GrantClusterShowRoutes : string := "cluster-show-routes".
Definition GrantClusterShowGraphs : string := "cluster-show-graphs".
Definition GrantClusterConfigGraphs : string := "cluster-config-graphs".
Definition GrantClusterShowAgents : string := "cluster-show-agents".
Definition GrantClusterShowCertificates : string := "cluster-show-certificates".
Definition GrantClusterRotatePasswords : string := "cluster-rotate-passwords".
Definition GrantClusterResetSLA : string := "cluster-reset-sla".
Definition GrantClusterDebug : string := "cluster-debug".
Definition GrantProxyConfigCreate : string := "proxy-config-create".
Definition GrantProxyConfigGet : string := "proxy-config-get".
Definition GrantProxyConfigRessource : string := "proxy-config-ressource".
Definition GrantProxyConfigFlag : string := "proxy-config-flag".
Definition GrantProxyStart : string := "proxy-start".
Definition GrantProxyStop : string := "proxy-stop".
Definition GrantProvClusterProvision : string := "prov-cluster-provision".
Definition GrantProvClusterUnprovision : string := "prov-cluster-unprovision".
Definition GrantProvProxyProvision : string := "prov-proxy-provision".
Definition GrantProvProxyUnprovision : string := "prov-proxy-unprovision".
Definition GrantProvDBProvision : string := "prov-db-provision".
Definition GrantProvDBUnprovision : string := "prov-db-unprovision".
Definition GrantProvSettings : string := "prov-settings".
Definition GrantProvCluster : string := "prov-cluster".
Definition GrantGlobalSettings : string := "global-settings".
Definition GrantGlobalGrant : string := "global-grant".
Definition GrantGrantShow : string := "grant-show".
Definition GrantGrantAdd : string := "grant-add".
Definition GrantGrantDrop : string := "grant-drop".
Definition GrantGrantModify : string := "grant-modify".
Definition GrantGrantGlobal : string := "grant-global".
Definition GrantShow : string := "show".
Definition GrantSalesValidate : string := "sales-validate".
Definition GrantSalesRefuse : string := "sales-refuse".
Definition GrantSalesUnsubscribe : string := "sales-unsubscribe".

(** The keys and values of [GetGrantType] and [GetRoleType] are the same names. *)
Definition grant_names : list string :=
  [GrantDBStart; GrantDBStop; GrantDBKill; GrantDBOptimize; GrantDBAnalyse; GrantDBReplication;
   GrantDBBackup; GrantDBRestore; GrantDBReadOnly; GrantDBLogs; GrantDBCapture; GrantDBMaintenance;
   GrantDBConfigCreate; GrantDBConfigRessource; GrantDBConfigFlag; GrantDBConfigGet; GrantDBShowVariables;
   GrantDBShowStatus; GrantDBShowSchema; GrantDBShowProcess; GrantDBShowLogs; GrantDBDebug;
   GrantClusterCreate; GrantClusterDrop; GrantClusterCreateMonitor; GrantClusterDropMonitor;
   GrantClusterFailover; GrantClusterSwitchover; GrantClusterRolling; GrantClusterSettings;
   GrantClusterGrant; GrantClusterReplication; GrantClusterChecksum; GrantClusterSharding;
   GrantClusterCertificatesRotate; GrantClusterCertificatesReload; GrantClusterBench; GrantClusterTest;
   GrantClusterTraffic; GrantClusterProcess; GrantClusterDebug; GrantClusterShowBackups;
   GrantClusterShowAgents; GrantClusterShowGraphs; GrantClusterConfigGraphs; GrantClusterShowRoutes;
   GrantClusterShowCertificates; GrantClusterResetSLA; GrantClusterRotatePasswords; GrantProxyConfigCreate;
   GrantProxyConfigGet; GrantProxyConfigRessource; GrantProxyConfigFlag; GrantProxyStart; GrantProxyStop;
   GrantProvSettings; GrantProvCluster; GrantProvClusterProvision; GrantProvClusterUnprovision;
   GrantProvDBUnprovision; GrantProvDBProvision; GrantProvProxyProvision; GrantProvProxyUnprovision;
   GrantGlobalGrant; GrantGlobalSettings; GrantSalesValidate; GrantSalesRefuse; GrantSalesUnsubscribe;
   GrantGrantShow; GrantGrantAdd; GrantGrantModify; GrantGrantDrop; GrantGrantGlobal; GrantShow].
Definition GetGrantType : gmap string string := list_to_map (map (fun g => (g, g)) grant_names).
Definition role_names : list string :=
  [RoleSysOps; RoleDBOps; RoleExtSysOps; RoleExtDBOps; RoleSponsor; RolePending; RoleUnsubscribed; RoleVisitor].
Definition GetRoleType : gmap string string := list_to_map (map (fun r => (r, r)) role_names).

Definition GetGrantDB : list string :=
  [GrantDBStart; GrantDBStop; GrantDBKill; GrantDBOptimize; GrantDBAnalyse; GrantDBReplication;
   GrantDBBackup; GrantDBRestore; GrantDBReadOnly; GrantDBLogs; GrantDBCapture; GrantDBMaintenance;
   GrantDBConfigCreate; GrantDBConfigRessource; GrantDBConfigFlag; GrantDBConfigGet; GrantDBShowVariables;
   GrantDBShowStatus; GrantDBShowSchema; GrantDBShowProcess; GrantDBShowLogs; GrantDBDebug].
Definition GetGrantCluster : list string :=
  [GrantClusterCreate; GrantClusterDrop; GrantClusterCreateMonitor; GrantClusterDropMonitor;
   GrantClusterFailover; GrantClusterSwitchover; GrantClusterRolling; GrantClusterSettings;
   GrantClusterGrant; GrantClusterReplication; GrantClusterChecksum; GrantClusterSharding;
   GrantClusterCertificatesRotate; GrantClusterCertificatesReload; GrantClusterBench; GrantClusterTest;
   GrantClusterTraffic; GrantClusterProcess; GrantClusterDebug; GrantClusterShowBackups;
   GrantClusterShowAgents; GrantClusterShowGraphs; GrantClusterConfigGraphs; GrantClusterShowRoutes;
   GrantClusterShowCertificates; GrantClusterResetSLA; GrantClusterRotatePasswords].
Definition GetGrantProxy : list string :=
  [GrantProxyConfigCreate; GrantProxyConfigGet; GrantProxyConfigRessource; GrantProxyConfigFlag;
   GrantProxyStart; GrantProxyStop].
Definition GetGrantProvision : list string :=
  [GrantProvSettings; GrantProvCluster; GrantProvClusterProvision; GrantProvClusterUnprovision;
   GrantProvDBUnprovision; GrantProvDBProvision; GrantProvProxyProvision; GrantProvProxyUnprovision].
Definition GetGrantGlobal : list string :=
  [GrantGlobalGrant; GrantGlobalSettings].
Definition GetGrantSales : list string :=
  [GrantSalesValidate; GrantSalesRefuse; GrantSalesUnsubscribe].
Definition GetGrantGrant : list string :=
  [GrantGrantShow; GrantGrantAdd; GrantGrantModify; GrantGrantDrop; GrantGrantGlobal].

Section Grants.
Context (grants : gmap string bool).

(** [grants[g]] is false for a missing key. *)
Definition holds (g : string) : bool := default false (grants !! g).
Definition has_all (l : list string) : bool := forallb holds l.

Definition HasAllDBGrants : bool := has_all GetGrantDB.
Definition HasAllClusterGrants : bool := has_all GetGrantCluster.
Definition HasAllProxyGrants : bool := has_all GetGrantProxy.
Definition HasAllProvisionGrants : bool := has_all GetGrantProvision.
Definition HasAllGlobalGrants : bool := has_all GetGrantGlobal.
Definition HasAllSalesGrants : bool := has_all GetGrantSales.
Definition HasAllGrantGrants : bool := has_all GetGrantGrant.

(** One family: its name when all of it is held, otherwise the grants held; and
    the grants to discard, the name when none is held. *)
Definition compact_group (name : string) (all : bool) (l : list string) : list string * list string :=
  if all then ([name], [])
  else
    let held := List.filter holds l in
    (held, match held with [] => [name] | _ => List.filter (fun g => negb (holds g)) l end).

Definition compact_show : list string * list string :=
  if holds "show" then (["show"], []) else ([], ["show"]).

Definition compact_groups : list (list string * list string) :=
  [compact_group "db" HasAllDBGrants GetGrantDB;
   compact_group "cluster" HasAllClusterGrants GetGrantCluster;
   compact_group "proxy" HasAllProxyGrants GetGrantProxy;
   compact_group "prov" HasAllProvisionGrants GetGrantProvision;
   compact_group "global" HasAllGlobalGrants GetGrantGlobal;
   compact_group "sales" HasAllSalesGrants GetGrantSales;
   compact_group "grant" HasAllGrantGrants GetGrantGrant;
   compact_show].

Definition GetCompactGrants : list string * list string :=
  (flat_map fst compact_groups, flat_map snd compact_groups).
End Grants.

(** A name of a list of names is a prefix: [strings.HasPrefix(grant, acl) && acl != empty]. *)
Definition prefixed (grant : string) (acls : list string) : bool :=
  existsb (fun acl => strings_HasPrefix grant acl && negb (acl =? "")%string) acls.

Definition GetDefaultAllowDiscardACL (role : string) : string * string :=
  let role_is r := (role =? r)%string in
  if role_is RoleSysOps then ("*", "")
  else if role_is RoleExtSysOps then ("*", "sales global")
  else if role_is RoleDBOps then ("*", "cluster prov sales global")
  else if role_is RoleSponsor then ("db show proxy grant extrole sales-unsubscribe", "")
  else if role_is RoleExtDBOps then ("db show proxy grant", "")
  else ("show", "").

Definition default_grant (allow discard grant : string) : bool :=
  ((allow =? "*")%string || prefixed grant (strings_Split " " allow)) &&
  negb (negb (discard =? "")%string && prefixed grant (strings_Split " " discard)).

Definition GetDefaultGrants (role : string) : string :=
  let '(allow, discard) := GetDefaultAllowDiscardACL role in
  let grants := list_to_map (map (fun g => (g, default_grant allow discard g)) grant_names) in
  strings_Join (fst (GetCompactGrants grants)) " ".

Definition GetRoleDefaultGrant (roles : string) : string :=
  let has r := existsb (String.eqb r) (strings_Split " " roles) in
  if has RoleSysOps then GetDefaultGrants RoleSysOps
  else if has RoleExtSysOps then GetDefaultGrants RoleExtSysOps
  else if has RoleSponsor then GetDefaultGrants RoleSponsor
  else if has RoleDBOps then GetDefaultGrants RoleDBOps
  else if has RoleExtDBOps then GetDefaultGrants RoleExtDBOps
  else "".

(** [misc.SplitAcls]: user, grants and the two last lists, clusters or roles. *)
Definition SplitAcls (s : string) : string * string * string * string :=
  match strings_Split ":" s with
  | [] => ("", "", "", "")
  | [a] => (a, "", "", "")
  | [a; b] => (a, b, "", "")
  | [a; b; c] => (a, b, c, "")
  | a :: b :: c :: rest => (a, b, c, strings_Join rest ":")
  end.

(** ** Which grant a URL asks for

    Every test of the source returns at once when the user has the grant and the
    URL contains the text: a list of rules, of which one has to fit. *)

Definition Rule : Type := string * list string.

Definition fits (grants : gmap string bool) (URL : string) (r : Rule) : bool :=
  holds grants (fst r) && existsb (strings_Contains URL) (snd r).

Definition database_action_rules : list Rule :=
  [(GrantClusterProcess, ["/actions/run-jobs"]);
   (GrantProvDBProvision, ["/actions/provision"; "/service-opensvc"]);
   (GrantProvDBUnprovision, ["/actions/unprovision"]);
   (GrantDBStart, ["/actions/start"]);
   (GrantDBStop, ["/actions/stop"]);
   (GrantClusterSwitchover, ["/actions/switchover"]);
   (GrantClusterFailover, ["/actions/set-prefered"; "/actions/set-unrated"; "/actions/set-ignored"]);
   (GrantDBKill, ["/actions/kill"]);
   (GrantDBOptimize, ["/actions/analyze-pfs"]);
   (GrantDBAnalyse, ["/actions/analyze-pfs"; "/actions/analyze-slowlog"; "/actions/reset-pfs-queries"]);
   (GrantDBReplication, ["/all-slaves-status"; "/master-status"; "actions/start-slave"; "actions/stop-slave";
     "actions/skip-replication-event"; "actions/reset-master"; "actions/reset-slave-all"]);
   (GrantDBBackup, ["/actions/backup-logical"; "/actions/backup-error-log"; "/actions/backup-physical";
     "/actions/backup-slowquery-log"; "/actions/flush-logs"]);
   (GrantDBRestore, ["/actions/reseed/"; "/actions/pitr"; "/actions/reseed-cancel"]);
   (GrantClusterProcess, ["/actions/job-cancel/"; "/actions/reseed-cancel"]);
   (GrantDBReadOnly, ["actions/toogle-read-only"]);
   (GrantProxyConfigFlag, ["/config"])].
Definition database_log_rules : list Rule :=
  [(GrantDBLogs, ["/processlist"; "/status-innodb"; "/errorlog"; "/slow-queries"; "/query-response-time";
     "/meta-data-locks"; "/digest-statements-pfs"; "/digest-statements-slow";
     "/actions/toogle-sql-error-log"; "/actions/toogle-sql-error-log"; "/actions/toogle-query-response-time";
     "/actions/toogle-meta-data-locks"; "/actions/toogle-slow-query-table";
     "/actions/toogle-slow-query-capture"; "/actions/toogle-slow-query"; "/actions/set-long-query-time";
     "/actions/toogle-pfs-slow-query"; "/actions/toogle-slow-query"; "actions/toogle-innodb-monitor";
     "/actions/explain-pfs"; "/actions/explain-slowlog"]);
   (GrantDBCapture, ["/actions/toogle-slow-query-capture"]);
   (GrantDBMaintenance, ["/actions/optimize"; "/actions/maintenance"; "/actions/set-maintenance"; "/actions/del-maintenance";
     "/actions/wait-innodb-purge"]);
   (GrantDBShowVariables, ["/variables"]);
   (GrantDBShowSchema, ["/tables"; "/vtables"; "/tables"; "/schemas"]);
   (GrantDBShowStatus, ["/status"; "/status-delta"])].
Definition database_rules : list Rule := database_action_rules ++ database_log_rules.

Definition proxy_rules : list Rule :=
  [(GrantProvProxyProvision, ["/actions/provision"]);
   (GrantProvProxyUnprovision, ["/actions/unprovision"]);
   (GrantProxyStart, ["/actions/start"]);
   (GrantProxyStop, ["/actions/stop"])].

Definition cluster_action_rules (name : string) : list Rule :=
  let of_cluster path := ("/api/clusters/" +:+ name +:+ path)%string in
  [(GrantClusterSharding, [of_cluster "/schema"; of_cluster "/shardclusters"]);
   (GrantClusterProcess, [of_cluster "/jobs"]);
   (GrantClusterProcess, [of_cluster "/top"]);
   (GrantClusterShowBackups, [of_cluster "/backups"]);
   (GrantClusterShowRoutes, [of_cluster "/queryrules"]);
   (GrantClusterShowCertificates, [of_cluster "/certificates"]);
   (GrantClusterCertificatesReload, [of_cluster "/actions/certificates-reload"]);
   (GrantClusterCertificatesRotate, [of_cluster "/actions/certificates-rotate"]);
   (GrantClusterResetSLA, [of_cluster "/actions/reset-sla"]);
   (GrantClusterCreateMonitor, [of_cluster "/actions/addserver"]);
   (GrantClusterDropMonitor, [of_cluster "/actions/dropserver"]);
   (GrantClusterSwitchover, [of_cluster "/actions/switchover"]);
   (GrantClusterTraffic, [of_cluster "/actions/stop-traffic"; of_cluster "/actions/start-traffic"]);
   (GrantDBBackup, ["/actions/master-logical-backup"; "/actions/master-physical-backup"]);
   (GrantClusterBench, [of_cluster "/actions/sysbench"]);
   (GrantClusterTest, [of_cluster "/actions/sysbench"; of_cluster "/tests/"]);
   (GrantClusterFailover, [of_cluster "/actions/failover"]);
   (GrantClusterReplication, [of_cluster "/actions/replication/bootstrap"; of_cluster "/actions/replication/cleanup"]);
   (GrantClusterRolling, [of_cluster "/actions/optimize"; of_cluster "/actions/rolling";
     of_cluster "/actions/cancel-rolling-restart"; of_cluster "/actions/cancel-rolling-reprov"]);
   (GrantClusterRotatePasswords, [of_cluster "/actions/rotate-passwords"]);
   (GrantDBConfigFlag, [of_cluster "/settings/actions/drop-db-tag"; of_cluster "/settings/actions/add-db-tag";
     of_cluster "/settings/actions/apply-dynamic-config"]);
   (GrantProxyConfigFlag, [of_cluster "/settings/actions/drop-proxy-tag"; of_cluster "/settings/actions/add-proxy-tag"])].
Definition cluster_admin_rules (name : string) : list Rule :=
  let of_cluster path := ("/api/clusters/" +:+ name +:+ path)%string in
  [(GrantClusterSettings, [of_cluster "/settings/actions/reload"; of_cluster "/settings/actions/switch";
     of_cluster "/settings/actions/set"; of_cluster "/settings/actions/clear";
     of_cluster "/settings/actions/discover"; of_cluster "/actions/reset-failover-control"]);
   (GrantClusterChecksum, [of_cluster "/actions/checksum-all-tables"]);
   (GrantProvCluster, [of_cluster "/services/actions/provision"; "/api/clusters/actions/add"]);
   (GrantProvClusterUnprovision, [of_cluster "/services/actions/unprovision"]);
   (GrantClusterCreate, ["/api/clusters/actions/add"]);
   (GrantClusterDelete, ["/api/clusters/actions/delete"]);
   (GrantClusterConfigGraphs, [of_cluster "/settings/actions/set-graphite-filterlist";
     of_cluster "/settings/actions/reload-graphite-filterlist";
     of_cluster "/settings/actions/reset-graphite-filterlist"]);
   (GrantGrantShow, [of_cluster "/users/send-credentials"]);
   (GrantGrantAdd, ["/api/monitor/actions/adduser/"; of_cluster "/users/add"]);
   (GrantGrantModify, [of_cluster "/users/update"]);
   (GrantGrantDrop, [of_cluster "/users/drop"]);
   (GrantSalesValidate, [of_cluster "/sales/accept-subscription"]);
   (GrantSalesRefuse, [of_cluster "/sales/refuse-subscription"; of_cluster "/unsubscribe"]);
   (GrantSalesUnsubscribe, [of_cluster "/sales/end-subscription"])].
Definition cluster_rules (name : string) : list Rule :=
  cluster_action_rules name ++ cluster_admin_rules name.

(** Without a grant. *)
Definition public_urls (name : string) : list string :=
  let of_cluster path := ("/api/clusters/" +:+ name +:+ path)%string in
  ["/api/login"; "/api/auth/callback"; "/api/clusters"; "/api/monitor";
   of_cluster "/actions/waitdatabases"; of_cluster ""; of_cluster "/diffvariables"].

Definition global_urls : list string :=
  ["/api/clusters/settings/actions/switch"; "/api/clusters/settings/actions/set";
   "/api/clusters/settings/actions/clear"; "/api/clusters/settings/actions/reload-clusters-plans"].

(** ** Users *)

Record APIUser := mkAPIUser {
  au_User : string; au_Password : string; au_GitToken : string; au_GitUser : string;
  au_IsExternal : bool; au_Roles : gmap string bool; au_Grants : gmap string bool
}.
Definition zeroAPIUser : APIUser := mkAPIUser "" "" "" "" false ∅ ∅.
Definition set_au_Grants (g : gmap string bool) (u : APIUser) : APIUser :=
  mkAPIUser (au_User u) (au_Password u) (au_GitToken u) (au_GitUser u) (au_IsExternal u) (au_Roles u) g.
Definition set_au_Roles (r : gmap string bool) (u : APIUser) : APIUser :=
  mkAPIUser (au_User u) (au_Password u) (au_GitToken u) (au_GitUser u) (au_IsExternal u) r (au_Grants u).

(** The part of a cluster and of its configuration the access control uses. *)
Record Access := mkAccess {
  ac_Name : string; ac_Grants : gmap string string; ac_Roles : gmap string string;
  ac_Credentials : string; ac_CredentialsExternal : string; ac_APIUsersExternal : string;
  ac_ACLAllow : string; ac_ACLDiscard : string; ac_ACLAllowExternal : string; ac_ACLDiscardExternal : string;
  ac_APIUsers : gmap string APIUser
}.
Definition set_APIUsers (us : gmap string APIUser) (a : Access) : Access :=
  mkAccess (ac_Name a) (ac_Grants a) (ac_Roles a) (ac_Credentials a) (ac_CredentialsExternal a) (ac_APIUsersExternal a)
    (ac_ACLAllow a) (ac_ACLDiscard a) (ac_ACLAllowExternal a) (ac_ACLDiscardExternal a) us.
Definition set_Externals (creds users : string) (a : Access) : Access :=
  mkAccess (ac_Name a) (ac_Grants a) (ac_Roles a) (ac_Credentials a) creds users
    (ac_ACLAllow a) (ac_ACLDiscard a) (ac_ACLAllowExternal a) (ac_ACLDiscardExternal a) (ac_APIUsers a).
Definition set_ACLExternals (allow discard : string) (a : Access) : Access :=
  mkAccess (ac_Name a) (ac_Grants a) (ac_Roles a) (ac_Credentials a) (ac_CredentialsExternal a) (ac_APIUsersExternal a)
    (ac_ACLAllow a) (ac_ACLDiscard a) allow discard (ac_APIUsers a).

(** [strings.Contains] on a list. *)
Definition in_list (x : string) (l : list string) : bool := existsb (String.eqb x) l.

(** The ACL of a user in a list: [listACLs[user]]. *)
Record ListUserACL := mkListUserACL { la_User : string; la_ACLs : string; la_Roles : string }.

Section Users.
Context `{GoRange}.

(** A grant that the list gives is set; a grant not seen before is set to false. *)
Definition SetUserGrants (a : Access) (u : APIUser) (grant : string) : APIUser :=
  let acls := strings_Split " " grant in
  set_au_Grants
    (fold_left (fun m kv =>
       let found := prefixed (fst kv) acls in
       match m !! snd kv with
       | Some _ => if found then <[snd kv := true]> m else m
       | None => <[snd kv := found]> m
       end) (go_range (ac_Grants a)) (au_Grants u)) u.

Definition SetUserRoles (a : Access) (u : APIUser) (roles : string) : APIUser :=
  let list := strings_Split " " roles in
  set_au_Roles
    (fold_left (fun m kv => if in_list (snd kv) list then <[snd kv := true]> m else m) (go_range (ac_Roles a)) (au_Roles u)) u.

(** [Granted]: does the user have the grant, and does the grant exist? *)
Inductive GrantError := ErrUserNotGranted | ErrGrantNotFound.
Definition Granted (u : APIUser) (grant : string) : option GrantError :=
  match au_Grants u !! grant with
  | Some true => None
  | Some false => Some ErrUserNotGranted
  | None => Some ErrGrantNotFound
  end.

(** *** Checking a request *)

Definition user_grants (a : Access) (user : string) : gmap string bool :=
  au_Grants (default zeroAPIUser (ac_APIUsers a !! user)).

Definition IsURLPassDatabasesACL (a : Access) (user URL : string) : bool :=
  existsb (fits (user_grants a user) URL) database_rules.
Definition IsURLPassProxiesACL (a : Access) (user URL : string) : bool :=
  existsb (fits (user_grants a user) URL) proxy_rules.

Definition IsURLPassACL (a : Access) (user URL : string) : bool :=
  if in_list URL (public_urls (ac_Name a)) then true
  else if existsb (strings_Contains URL) global_urls then holds (user_grants a user) GrantGlobalSettings
  else if strings_Contains URL ("/api/clusters/" +:+ ac_Name a +:+ "/servers") then IsURLPassDatabasesACL a user URL
  else if strings_Contains URL ("/api/clusters/" +:+ ac_Name a +:+ "/proxies") then IsURLPassProxiesACL a user URL
  else existsb (fits (user_grants a user) URL) (cluster_rules (ac_Name a)).

(** [decrypt] is [GetDecryptedPassword] with the key of the manager. *)
Section Secrets.
Context (decrypt : string -> string).

Definition IsValidACL (a : Access) (user password URL method : string) : bool :=
  match ac_APIUsers a !! user with
  | Some u =>
      if (au_Password u =? decrypt password)%string || (method =? "oidc")%string
      then IsURLPassACL a user URL
      else false
  | None => false
  end.

(** The user, or the error. *)
Definition GetAPIUser (a : Access) (user password : string) : string + APIUser :=
  match ac_APIUsers a !! user with
  | Some u => if (au_Password u =? password)%string then inr u else inl "incorrect password"
  | None => inl "user not found"
  end.

(** *** Saving *)

Definition SaveUserAcls (a : Access) (user : string) : string * string :=
  let '(granted, discarded) := GetCompactGrants (user_grants a user) in
  (strings_Join granted " ", strings_Join discarded " ").

Definition GetCompactRoles (roles : gmap string bool) : list string :=
  map fst (List.filter snd (go_range roles)).
Definition SaveUserRoles (a : Access) (user : string) : string :=
  strings_Join (GetCompactRoles (au_Roles (default zeroAPIUser (ac_APIUsers a !! user)))) " ".

(** The users with an account, each once, in the order of the credentials. *)
Definition saved_users (a : Access) : list string :=
  fold_left (fun seen credential =>
      let user := fst (SplitPair credential) in
      match ac_APIUsers a !! user with
      | Some _ => if in_list user seen then seen else seen ++ [user]
      | None => seen
      end)
    (strings_Split "," (ac_Credentials a +:+ "," +:+ ac_CredentialsExternal a)) [].

Definition saved_allow (a : Access) (user : string) : string :=
  let acl := user +:+ ":" +:+ fst (SaveUserAcls a user) +:+ ":" +:+ ac_Name a in
  let roles := SaveUserRoles a user in
  if (roles =? "")%string then acl else acl +:+ ":" +:+ roles.
Definition saved_discard (a : Access) (user : string) : list string :=
  let discarded := snd (SaveUserAcls a user) in
  if (discarded =? "")%string then [] else [user +:+ ":" +:+ discarded].

Definition SaveAcls (a : Access) : Access :=
  set_ACLExternals (strings_Join (map (saved_allow a) (saved_users a)) ",")
    (strings_Join (flat_map (saved_discard a) (saved_users a)) ",") a.

(** *** Loading *)

(** An entry applies to the cluster when it names none or names it; the other of
    the two last lists holds the roles. *)
Definition allow_entry (a : Access) (userACL : string) : option ListUserACL :=
  if (userACL =? "")%string then None
  else
    let '(useracl, listacls, list1, list2) := SplitAcls userACL in
    let in1 := in_list (ac_Name a) (strings_Split " " list1) in
    let in2 := in_list (ac_Name a) (strings_Split " " list2) in
    if ((list1 =? "")%string && (list2 =? "")%string) || in1 || in2
    then Some (mkListUserACL useracl listacls
                (if in1 && negb (list2 =? "")%string then list2
                 else if in2 && negb (list1 =? "")%string then list1 else ""))
    else None.

Definition discard_entry (a : Access) (userACL : string) : option ListUserACL :=
  if (userACL =? "")%string then None
  else
    let '(useracl, listacls, _, listcluster) := SplitAcls userACL in
    if (listcluster =? "")%string || in_list (ac_Name a) (strings_Split " " listcluster)
    then Some (mkListUserACL useracl listacls "")
    else None.

(** Later entries of a user replace earlier ones. *)
Definition collect_acls (entry : string -> option ListUserACL) (acls : string) : gmap string ListUserACL :=
  fold_left (fun m s => match entry s with Some l => <[la_User l := l]> m | None => m end)
    (strings_Split "," acls) ∅.
Definition GetClusterUserAllowACLs (a : Access) (acls : string) : gmap string ListUserACL :=
  collect_acls (allow_entry a) acls.
Definition GetClusterUserDiscardACLs (a : Access) (acls : string) : gmap string ListUserACL :=
  collect_acls (discard_entry a) acls.

Definition load_allow (a : Access) (acl : option ListUserACL) (u : APIUser) : APIUser :=
  match acl with
  | Some l => SetUserRoles a (SetUserGrants a u (la_ACLs l)) (la_Roles l)
  | None => u
  end.
Definition load_discard (acl : option ListUserACL) (u : APIUser) : APIUser :=
  match acl with
  | Some l =>
      set_au_Grants (fold_left (fun m g => <[g := false]> m) (strings_Split " " (la_ACLs l)) (au_Grants u)) u
  | None => u
  end.

(** A user without any other role is a visitor. *)
Definition load_visitor (u : APIUser) : APIUser :=
  if existsb (fun kv => negb (fst kv =? RoleVisitor)%string && snd kv) (go_range (au_Roles u))
  then u else set_au_Roles (<[RoleVisitor := true]> (au_Roles u)) u.

Definition load_user (a : Access) (user password : string) : APIUser :=
  load_visitor
    (load_discard (GetClusterUserDiscardACLs a (ac_ACLDiscardExternal a) !! user)
    (load_allow a (GetClusterUserAllowACLs a (ac_ACLAllowExternal a) !! user)
    (load_discard (GetClusterUserDiscardACLs a (ac_ACLDiscard a) !! user)
    (load_allow a (GetClusterUserAllowACLs a (ac_ACLAllow a) !! user)
    (mkAPIUser user (decrypt password) "" "" false ∅ ∅))))).

(** The first credential of a name counts. *)
Definition LoadAPIUsers (a : Access) : Access :=
  set_APIUsers
    (fold_left (fun m credential =>
        if (credential =? "")%string then m
        else
          let '(user, password) := SplitPair credential in
          match m !! user with Some _ => m | None => <[user := load_user a user password]> m end)
      (strings_Split "," (ac_Credentials a +:+ "," +:+ ac_CredentialsExternal a)) ∅) a.

(** ** Delegation (cluster/cluster_add.go) *)

(** The grants asked for, without those the delegator was refused. *)
Definition FilterGrants (a : Access) (grants : string) (delegator : APIUser) : string :=
  let user := SetUserGrants a zeroAPIUser grants in
  let filtered :=
    fold_left (fun m kv => if negb (snd kv) then <[fst kv := false]> m else m)
      (go_range (au_Grants delegator)) (au_Grants user) in
  strings_Join (fst (GetCompactGrants filtered)) " ".

(** The user is changed as well. *)
Definition AppendGrants (a : Access) (grants : string) (user : APIUser) : string * APIUser :=
  let user := SetUserGrants a user grants in
  (strings_Join (fst (GetCompactGrants (au_Grants user))) " ", user).

Definition AppendRoles (roles : string) (user : APIUser) : string * APIUser :=
  let user := set_au_Roles (fold_left (fun m r => <[r := true]> m) (strings_Split " " roles) (au_Roles user)) user in
  (strings_Join (GetCompactRoles (au_Roles user)) " ", user).

Record UserForm := mkUserForm { uf_Username : string; uf_Password : string; uf_Roles : string; uf_Grants : string }.

(** The grants of a form as far as the delegator may give them. *)
Definition delegated (a : Access) (form : UserForm) (delegator : string) : option string :=
  if (delegator =? "admin")%string then Some (uf_Grants form)
  else match ac_APIUsers a !! delegator with
       | Some d => Some (FilterGrants a (uf_Grants form) d)
       | None => None
       end.

Definition form_acl (a : Access) (form : UserForm) (grants : string) : string :=
  let acl := uf_Username form +:+ ":" +:+ grants +:+ ":" +:+ ac_Name a in
  if (uf_Roles form =? "")%string then acl else acl +:+ ":" +:+ uf_Roles form.

Definition reload (reloadACL : bool) (a : Access) : Access :=
  if reloadACL then SaveAcls (LoadAPIUsers a) else a.

(** [pass] is the password that was generated. *)
Definition AddUser (a : Access) (form : UserForm) (delegator pass : string) (reloadACL : bool)
  : option string * Access :=
  match delegated a form delegator with
  | None => (Some ("Delegator " +:+ delegator +:+ " is not exist in cluster"), a)
  | Some grants =>
      let user := uf_Username form in
      match ac_APIUsers a !! user with
      | Some _ => (Some ("User " +:+ user +:+ " already exist "), a)
      | None =>
          let creds := user +:+ ":" +:+ pass in
          let creds := if (ac_CredentialsExternal a =? "")%string then creds
                       else ac_CredentialsExternal a +:+ "," +:+ creds in
          let a := set_Externals creds creds a in
          let acl := form_acl a form grants in
          let allow := if (ac_ACLAllowExternal a =? "")%string then acl
                       else ac_ACLAllowExternal a +:+ "," +:+ acl in
          (None, reload reloadACL (set_ACLExternals allow (ac_ACLDiscardExternal a) a))
      end
  end.

Definition UpdateUser (a : Access) (form : UserForm) (delegator : string) (reloadACL : bool)
  : option string * Access :=
  match delegated a form delegator with
  | None => (Some ("Delegator " +:+ delegator +:+ " is not exist in cluster"), a)
  | Some grants =>
      let user := uf_Username form in
      match ac_APIUsers a !! user with
      | None => (Some ("User " +:+ user +:+ " is not exist in cluster. Unable to update roles and grants"), a)
      | Some _ =>
          let update acl :=
            let '(useracl, _, _, _) := SplitAcls acl in
            if (useracl =? user)%string then form_acl a form grants else acl in
          let allow := strings_Join (map update (strings_Split "," (ac_ACLAllowExternal a))) "," in
          (None, reload reloadACL (set_ACLExternals allow (ac_ACLDiscardExternal a) a))
      end
  end.

Definition DropUser (a : Access) (form : UserForm) (reloadACL : bool) : option string * Access :=
  let user := uf_Username form in
  match ac_APIUsers a !! user with
  | None => (Some ("User " +:+ user +:+ " is not exist in cluster"), a)
  | Some _ =>
      let creds := List.filter (fun cred => negb (fst (SplitPair cred) =? user)%string)
                     (strings_Split "," (ac_APIUsersExternal a)) in
      let a := set_Externals (ac_CredentialsExternal a) (strings_Join creds ",")
                 (set_APIUsers (delete user (ac_APIUsers a)) a) in
      (None, if reloadACL then SaveAcls a else a)
  end.
End Secrets.
End Users.
