(* ===== verification/AclProps.v ===== *)
(** * Properties of the access control

    The grants of a user as lookups, the families of grants, and the theorems:
    what a request needs, that a delegation gives no more than the delegator
    holds, and that saving and loading the lists keeps the grants. *)

From Stdlib Require Import ZArith Lia Bool Permutation Ascii String.
From stdpp Require Import base list gmap strings.
From S2P Require Import Prelude GoLib Config Acl.

Local Open Scope string_scope.
Local Open Scope list_scope.

(** ** Lists of names *)

Lemma existsb_cong {A} (f f' : A -> bool) l : (forall x, f x = f' x) -> existsb f l = existsb f' l.
Proof. intros Ef. induction l as [|x l IH]; [done|]. cbn. by rewrite Ef, IH. Qed.

Lemma in_list_In x l : in_list x l = true <-> In x l.
Proof.
  unfold in_list. rewrite existsb_exists. split.
  - intros (y & Hy & E). apply String.eqb_eq in E as ->. done.
  - intros Hx. exists x. split; [done|apply String.eqb_refl].
Qed.

Lemma in_list_not x l : in_list x l = false <-> ~ In x l.
Proof. rewrite <- in_list_In. destruct (in_list x l); split; congruence. Qed.

Lemma eq_true_of (a b : bool) : (a = true <-> b = true) -> a = b.
Proof. destruct a, b; intros [H1 H2]; intuition congruence. Qed.

Lemma prefixed_In g l :
  prefixed g l = true <-> exists acl, In acl l /\ strings_HasPrefix g acl = true /\ acl <> "".
Proof.
  unfold prefixed. rewrite existsb_exists.
  split; intros (x & Hx & E); exists x; (split; [done|]).
  - apply andb_true_iff in E as [E1 E2]. split; [done|]. intros ->. discriminate.
  - destruct E as [E1 E2]. rewrite E1. cbn. apply negb_true_iff, String.eqb_neq, E2.
Qed.

Lemma HasPrefix_refl s : strings_HasPrefix s s = true.
Proof. rewrite <- (str_app_nil_r s) at 1. apply HasPrefix_app. Qed.

(** The parts of a split have no separator, and no byte the text has not. *)
Lemma Split_parts sep c s x :
  In x (strings_Split sep s) ->
  char_in sep x = false /\ (char_in c s = false -> char_in c x = false).
Proof.
  revert x. induction s as [|d s IH]; intros x; cbn [strings_Split].
  - intros [<-|[]]. done.
  - destruct (Ascii.eqb d sep) eqn:Ed.
    + intros [<-|Hx]; [done|]. destruct (IH x Hx) as [H1 H2]. split; [done|].
      cbn. intros E. apply H2. by apply orb_false_elim in E as [_ E].
    + pose proof (Split_nonempty sep s) as Hne.
      destruct (strings_Split sep s) as [|y l]; [done|].
      intros [<-|Hx].
      * destruct (IH y (or_introl eq_refl)) as [H1 H2]. cbn. rewrite Ed, H1. split; [done|].
        intros E. apply orb_false_elim in E as [-> E]. by apply H2.
      * destruct (IH x (or_intror Hx)) as [H1 H2]. split; [done|].
        cbn. intros E. apply H2. by apply orb_false_elim in E as [_ E].
Qed.

(** A join of texts without a byte has none of it, when the separator has none. *)
Lemma Join_char c l sep :
  char_in c sep = false -> Forall (fun x => char_in c x = false) l -> char_in c (strings_Join l sep) = false.
Proof.
  intros Hs Hl. induction Hl as [|x l Hx Hl IH]; [done|].
  destruct l as [|y l]; [done|].
  change (strings_Join (x :: y :: l) sep) with (x +:+ sep +:+ strings_Join (y :: l) sep).
  by rewrite !char_in_app, Hx, Hs, IH.
Qed.

(** Splitting a join gives the list back, up to one empty part. *)
Lemma prefixed_Join g l :
  Forall (fun x => char_in " " x = false) l -> prefixed g (strings_Split " " (strings_Join l " ")) = prefixed g l.
Proof. intros Hl. destruct l as [|x l]; [by destruct g|]. by rewrite (Split_Join " ") by done. Qed.

Lemma in_list_Join x l :
  x <> "" -> Forall (fun y => char_in " " y = false) l ->
  in_list x (strings_Split " " (strings_Join l " ")) = in_list x l.
Proof.
  intros Hx Hl. destruct l as [|y l]; [|by rewrite (Split_Join " ") by done].
  cbn. destruct (String.eqb_spec x ""); done.
Qed.

Lemma fst_SplitPair_char c s :
  char_in ":" (fst (SplitPair s)) = false /\ (char_in c s = false -> char_in c (fst (SplitPair s)) = false).
Proof.
  unfold SplitPair. pose proof (Split_parts ":" c s) as Hp.
  destruct (strings_Split ":" s) as [|a [|b l]] eqn:E; [done| |]; apply Hp; by left.
Qed.

(** ** Maps built by a loop *)

Lemma fold_grants_lookup acls l (m : gmap string bool) g :
  fold_left (fun m kv =>
      let found := prefixed (fst kv) acls in
      match m !! snd kv with
      | Some _ => if found then <[snd kv := true]> m else m
      | None => <[snd kv := found]> m
      end) l m !! g =
  if existsb (fun kv : string * string => (snd kv =? g)%string && prefixed (fst kv) acls) l then Some true
  else if existsb (fun kv : string * string => (snd kv =? g)%string) l then Some (default false (m !! g)) else m !! g.
Proof.
  revert m. induction l as [|[k v] l IH]; intros m; [done|]. cbn [fold_left existsb fst snd].
  rewrite IH. clear IH. destruct (String.eqb_spec v g) as [->|Hv]; cbn [andb orb].
  - destruct (prefixed k acls), (m !! g) as [b|] eqn:E; cbn [orb];
      rewrite ?lookup_insert_eq, ?E; cbn [default];
      repeat match goal with |- context [existsb ?f l] => destruct (existsb f l) end; done.
  - destruct (m !! v), (prefixed k acls); rewrite ?lookup_insert_ne by done; done.
Qed.

(** A fold that sets keys to one value. *)
Lemma fold_set_lookup {A} (key : A -> string) (p : A -> bool) (b : bool) l (m : gmap string bool) g :
  fold_left (fun m x => if p x then <[key x := b]> m else m) l m !! g =
  if existsb (fun x => (key x =? g)%string && p x) l then Some b else m !! g.
Proof.
  revert m. induction l as [|x l IH]; intros m; [done|]. cbn [fold_left existsb].
  rewrite IH. clear IH.
  match goal with |- context [existsb ?f l] => destruct (existsb f l) end; [by rewrite orb_true_r|]. rewrite orb_false_r.
  destruct (String.eqb_spec (key x) g) as [<-|Hx]; destruct (p x); cbn [andb];
    rewrite ?lookup_insert_eq, ?lookup_insert_ne by done; done.
Qed.

Lemma load_discard_lookup l u g :
  au_Grants (load_discard (Some l) u) !! g =
  if in_list g (strings_Split " " (la_ACLs l)) then Some false else au_Grants u !! g.
Proof.
  cbn. transitivity (fold_left (fun m (x : string) => if true then <[x := false]> m else m)
    (strings_Split " " (la_ACLs l)) (au_Grants u) !! g); [done|].
  rewrite (fold_set_lookup (fun x => x) (fun _ => true)).
  replace (existsb _ _) with (in_list g (strings_Split " " (la_ACLs l))); [done|].
  unfold in_list. induction (strings_Split " " (la_ACLs l)) as [|x r IH]; [done|].
  cbn. rewrite IH, andb_true_r, String.eqb_sym. done.
Qed.

(** ** The table of the grants *)

Lemma table_lookup_some names k v :
  (list_to_map (map (fun g => (g, g)) names) : gmap string string) !! k = Some v -> k = v /\ In v names.
Proof.
  induction names as [|x l IH]; cbn; [done|]. rewrite lookup_insert. case_decide; [|].
  - intros [= <-]. subst. auto.
  - intros E. destruct (IH E). auto.
Qed.

Lemma table_lookup_in names g :
  In g names -> (list_to_map (map (fun g => (g, g)) names) : gmap string string) !! g = Some g.
Proof.
  induction names as [|x l IH]; cbn; [done|]. intros [->|Hg]; [by rewrite lookup_insert_eq|].
  rewrite lookup_insert. case_decide; [by subst|auto].
Qed.

Lemma existsb_range_table `{GoRange} names (p : string -> bool) g :
  existsb (fun kv : string * string => (snd kv =? g)%string && p (fst kv))
    (go_range (list_to_map (map (fun g => (g, g)) names) : gmap string string)) = in_list g names && p g.
Proof.
  apply eq_true_of. rewrite existsb_exists, andb_true_iff, in_list_In. split.
  - intros ([k v] & Hkv & [Ev Hp]%andb_true_iff). cbn in Ev, Hp. apply String.eqb_eq in Ev as ->.
    apply list_elem_of_In, elem_of_go_range, table_lookup_some in Hkv as [-> Hin]. done.
  - intros [Hin Hp]. exists (g, g). cbn. rewrite String.eqb_refl. split; [|done].
    by apply list_elem_of_In, elem_of_go_range, table_lookup_in.
Qed.

(** The grants after [SetUserGrants] with the full table. *)
Lemma SetUserGrants_lookup `{GoRange} a u acls g :
  ac_Grants a = GetGrantType ->
  au_Grants (SetUserGrants a u acls) !! g =
  if in_list g grant_names
  then Some (prefixed g (strings_Split " " acls) || default false (au_Grants u !! g))
  else au_Grants u !! g.
Proof.
  intros Ha. unfold SetUserGrants. cbn [au_Grants set_au_Grants]. rewrite Ha, fold_grants_lookup.
  unfold GetGrantType. rewrite (existsb_range_table grant_names (fun g => prefixed g _)).
  pose proof (existsb_range_table grant_names (fun _ => true) g) as Et. cbn beta in Et.
  rewrite (existsb_cong _ (fun kv => (snd kv =? g)%string)), andb_true_r in Et by (intros; apply andb_true_r).
  rewrite Et.
  destruct (in_list g grant_names), (prefixed g _); done.
Qed.

(** ** The families of grants *)

Definition families : list (string * list string) :=
  [("db", GetGrantDB); ("cluster", GetGrantCluster); ("proxy", GetGrantProxy); ("prov", GetGrantProvision);
   ("global", GetGrantGlobal); ("sales", GetGrantSales); ("grant", GetGrantGrant); ("show", [GrantShow])].

(** The compact form, family by family. *)
Lemma GetCompactGrants_families m :
  compact_groups m = map (fun f => compact_group m (fst f) (has_all m (snd f)) (snd f)) families.
Proof.
  unfold compact_groups, families. cbn [map fst snd]. repeat f_equal.
  unfold compact_show, compact_group, has_all. cbn. change GrantShow with "show".
  destruct (holds m "show"); done.
Qed.

Definition family_of (g : string) (f : string * list string) : bool := in_list g (snd f).
Definition plain (s : string) : bool :=
  negb (s =? "")%string && negb (char_in " " s) && negb (char_in "," s) && negb (char_in ":" s).

(** Facts of the finite table: every grant is in a family and carries its name as a
    prefix; a name of another family is no prefix of it. *)
Definition table_ok : bool :=
  forallb (fun g => existsb (family_of g) families) grant_names &&
  forallb (fun f => forallb (fun g => in_list g grant_names && strings_HasPrefix g (fst f)) (snd f)) families &&
  forallb (fun f => forallb plain (fst f :: snd f)) families &&
  forallb (fun f => forallb (fun f' =>
    (fst f =? fst f')%string ||
    forallb (fun x => forallb (fun g => negb (strings_HasPrefix g x)) (snd f')) (fst f :: snd f)) families) families.

Lemma table_ok_true : table_ok = true.
Proof. vm_compute. reflexivity. Qed.

Lemma families_unique f f' : In f families -> In f' families -> fst f = fst f' -> f = f'.
Proof.
  cbn [families In]. intros Hf Hf'.
  repeat (destruct Hf as [<-|Hf]; [repeat (destruct Hf' as [<-|Hf']; [try done; cbn; congruence|]); done|]). done.
Qed.

Lemma table_facts :
  (forall g, In g grant_names -> exists f, In f families /\ In g (snd f)) /\
  (forall f g, In f families -> In g (snd f) -> In g grant_names /\ strings_HasPrefix g (fst f) = true) /\
  (forall f x, In f families -> In x (fst f :: snd f) -> plain x = true) /\
  (forall f f' x g, In f families -> In f' families -> In x (fst f :: snd f) -> In g (snd f') ->
     strings_HasPrefix g x = true -> f = f').
Proof.
  pose proof table_ok_true as Ht. unfold table_ok in Ht.
  apply andb_true_iff in Ht as [[[T1 T2]%andb_true_iff T3]%andb_true_iff T4].
  rewrite forallb_forall in T1, T2, T3, T4. repeat split.
  - intros g Hg. apply T1, existsb_exists in Hg as (f & Hf & E). exists f. split; [done|]. by apply in_list_In.
  - apply T2 in H. rewrite forallb_forall in H. apply H, andb_true_iff in H0 as [E _]. by apply in_list_In.
  - apply T2 in H. rewrite forallb_forall in H. by apply H, andb_true_iff in H0 as [_ E].
  - intros f x Hf Hx. apply T3 in Hf. rewrite forallb_forall in Hf. auto.
  - intros f f' x g Hf Hf' Hx Hg Hp. specialize (T4 f Hf). rewrite forallb_forall in T4. specialize (T4 f' Hf').
    apply orb_true_iff in T4 as [E|T4]; [apply String.eqb_eq in E; by apply families_unique|].
    rewrite forallb_forall in T4. apply T4 in Hx. rewrite forallb_forall in Hx. apply Hx in Hg.
    by rewrite Hp in Hg.
Qed.

(** ** What the compact form means *)

Lemma has_all_true m l : has_all m l = true <-> forall g, In g l -> holds m g = true.
Proof. apply forallb_forall. Qed.

Lemma granted_In m x :
  In x (fst (GetCompactGrants m)) <->
  exists f, In f families /\
    ((has_all m (snd f) = true /\ x = fst f) \/ (has_all m (snd f) = false /\ In x (snd f) /\ holds m x = true)).
Proof.
  unfold GetCompactGrants. rewrite GetCompactGrants_families. cbn [fst]. rewrite in_flat_map. split.
  - intros (c & Hc & Hx). apply in_map_iff in Hc as (f & <- & Hf). exists f. split; [done|].
    unfold compact_group in Hx. destruct (has_all m (snd f)); cbn in Hx.
    + destruct Hx as [<-|[]]. by left.
    + apply List.filter_In in Hx. by right.
  - intros (f & Hf & Hx). eexists. split; [apply in_map, Hf|]. unfold compact_group.
    destruct Hx as [[-> ->]|[-> Hx]]; cbn; [by left|]. by apply List.filter_In.
Qed.

Lemma discarded_In m x :
  In x (snd (GetCompactGrants m)) <->
  exists f, In f families /\ has_all m (snd f) = false /\
    (((forall y, In y (snd f) -> holds m y = false) /\ x = fst f) \/
     ((exists y, In y (snd f) /\ holds m y = true) /\ In x (snd f) /\ holds m x = false)).
Proof.
  assert (Hc : forall f, In x (snd (compact_group m (fst f) (has_all m (snd f)) (snd f))) <->
    has_all m (snd f) = false /\
    (((forall y, In y (snd f) -> holds m y = false) /\ x = fst f) \/
     ((exists y, In y (snd f) /\ holds m y = true) /\ In x (snd f) /\ holds m x = false))).
  { intros [n l]. unfold compact_group. cbn [fst snd]. destruct (has_all m l); cbn; [by intuition|].
    destruct (List.filter (holds m) l) as [|y r] eqn:Ef.
    - assert (Hn : forall y, In y l -> holds m y = false).
      { intros y Hy. destruct (holds m y) eqn:Ey; [|done].
        assert (Hi : In y (List.filter (holds m) l)) by (by apply List.filter_In). by rewrite Ef in Hi. }
      split; [intros [<-|[]]; auto|]. intros [_ [[_ ->]|[(y & Hy & Ey) _]]]; [by left|].
      by rewrite Hn in Ey.
    - assert (Hy : In y (List.filter (holds m) l)) by (rewrite Ef; by left). apply List.filter_In in Hy as [Hy Ey].
      rewrite List.filter_In, negb_true_iff. split; [intros [Hx Ex]; split; [done|right; split; [by exists y|done]]|].
      intros [_ [[Hn _]|[_ ?]]]; [by rewrite Hn in Ey|done]. }
  unfold GetCompactGrants. rewrite GetCompactGrants_families. cbn [snd]. rewrite in_flat_map. split.
  - intros (c & Hin & Hx). apply in_map_iff in Hin as (f & <- & Hf). exists f. by rewrite <- Hc.
  - intros (f & Hf & Hx). eexists. split; [apply in_map, Hf|]. by apply Hc.
Qed.

Lemma compact_family m x :
  In x (fst (GetCompactGrants m)) \/ In x (snd (GetCompactGrants m)) ->
  exists f, In f families /\ In x (fst f :: snd f).
Proof. rewrite granted_In, discarded_In. cbn. intros [(f & Hf & Hx)|(f & Hf & Hx)]; exists f; intuition. Qed.

Lemma compact_plain m :
  Forall (fun x => plain x = true) (fst (GetCompactGrants m)) /\ Forall (fun x => plain x = true) (snd (GetCompactGrants m)).
Proof.
  destruct table_facts as (_ & _ & T3 & _).
  split; apply List.Forall_forall; intros x Hx;
    [destruct (compact_family m x (or_introl Hx)) as (f & Hf & Hin)|destruct (compact_family m x (or_intror Hx)) as (f & Hf & Hin)];
    exact (T3 f x Hf Hin).
Qed.

Lemma plain_chars x :
  plain x = true -> x <> "" /\ char_in " " x = false /\ char_in "," x = false /\ char_in ":" x = false.
Proof.
  unfold plain. rewrite !andb_true_iff, !negb_true_iff. intros [[[E1 E2] E3] E4].
  split; [by apply String.eqb_neq|done].
Qed.

Lemma plain_no c l :
  In c [" "%char; ","%char; ":"%char] -> Forall (fun x => plain x = true) l -> Forall (fun x => char_in c x = false) l.
Proof.
  intros Hc Hl. eapply Forall_impl; [exact Hl|]. intros x Hx. apply plain_chars in Hx as (_ & H1 & H2 & H3).
  destruct Hc as [<-|[<-|[<-|[]]]]; done.
Qed.

(** A grant with a granted prefix has a prefix that is held. *)
Lemma granted_prefix_held m g :
  In g grant_names -> prefixed g (fst (GetCompactGrants m)) = true ->
  exists x, In x grant_names /\ holds m x = true /\ strings_HasPrefix g x = true.
Proof.
  destruct table_facts as (T1 & T2 & _ & T4). intros Hg Hp.
  apply prefixed_In in Hp as (x & Hx & Hp & _). apply granted_In in Hx as (f & Hf & Hx).
  apply T1 in Hg as (f' & Hf' & Hg). destruct Hx as [[Ha ->]|[_ [Hx Eh]]].
  - assert (f = f') as <- by (eapply T4; eauto; by left).
    exists g. rewrite has_all_true in Ha. split; [by eapply T2|]. split; [auto|apply HasPrefix_refl].
  - exists x. split; [by eapply T2|done].
Qed.

(** Exactly the grants held have a granted prefix and are not discarded. *)
Lemma compact_exact m g :
  In g grant_names ->
  prefixed g (fst (GetCompactGrants m)) && negb (in_list g (snd (GetCompactGrants m))) = holds m g.
Proof.
  destruct table_facts as (T1 & T2 & T3 & T4). intros Hn.
  destruct (T1 g Hn) as (f & Hf & Hg). apply eq_true_of. rewrite andb_true_iff, negb_true_iff, in_list_not. split.
  - intros [Hp Hd]. apply prefixed_In in Hp as (x & Hx & Hp & _). apply granted_In in Hx as (f' & Hf' & Hx).
    assert (f' = f) as -> by (eapply T4; eauto; cbn; intuition).
    destruct Hx as [[Ha _]|[Ha [Hx Eh]]]; [rewrite has_all_true in Ha; auto|].
    destruct (holds m g) eqn:Eg; [done|]. exfalso. apply Hd, discarded_In. exists f. eauto 10.
  - intros Eg. split.
    + apply prefixed_In. destruct (has_all m (snd f)) eqn:Ea.
      * exists (fst f). split; [apply granted_In; eauto 6|]. split; [by eapply T2|].
        by eapply plain_chars, (T3 f (fst f)); [|left].
      * exists g. split; [apply granted_In; eauto 8|]. split; [apply HasPrefix_refl|].
        by eapply plain_chars, (T3 f g); [|right].
    + intros Hd. apply discarded_In in Hd as (f' & Hf' & _ & [[Hnone ->]|[_ [_ E]]]); [|congruence].
      assert (f' = f) as ->.
      { apply (T4 f' f (fst f') (fst f')); try done; [by left|apply HasPrefix_refl]. }
      by rewrite Hnone in Eg.
Qed.

(** ** Lists of ACLs *)

Lemma In_Split_Join sep l s :
  Forall (fun x => char_in sep x = false) l ->
  In s (strings_Split sep (strings_Join l (String sep ""))) <-> In s l \/ (l = [] /\ s = "").
Proof.
  intros Hl. destruct l as [|x l]; [cbn; intuition|]. rewrite Split_Join by done.
  split; [by left|]. by intros [Hs|[Hs _]].
Qed.

(** The text of an entry, as [AddUser], [UpdateUser] and [SaveAcls] write it. *)
Definition acl_text (user grants name roles : string) : string :=
  let acl := user +:+ ":" +:+ grants +:+ ":" +:+ name in
  if (roles =? "")%string then acl else acl +:+ ":" +:+ roles.

Lemma Split_colon x s : char_in ":" x = false -> strings_Split ":" (x +:+ ":" +:+ s) = x :: strings_Split ":" s.
Proof. exact (Split_app ":" x s). Qed.

Lemma SplitAcls_text user grants name roles :
  char_in ":" user = false -> char_in ":" grants = false -> char_in ":" name = false ->
  SplitAcls (acl_text user grants name roles) = (user, grants, name, roles).
Proof.
  intros Hu Hg Hn. unfold SplitAcls, acl_text. destruct (String.eqb_spec roles "") as [->|Hr].
  - rewrite (Split_colon user), (Split_colon grants), (Split_no_sep ":" name) by done. done.
  - rewrite <- !str_app_assoc, !Split_colon by done.
    pose proof (Split_nonempty ":" roles) as Hne. pose proof (Join_Split ":" roles) as Hj.
    destruct (strings_Split ":" roles); [done|]. by rewrite Hj.
Qed.

Lemma acl_text_nonempty user grants name roles : acl_text user grants name roles <> "".
Proof. unfold acl_text. destruct (roles =? "")%string, user; done. Qed.

Lemma acl_text_comma user grants name roles :
  Forall (fun x => char_in "," x = false) [user; grants; name; roles] ->
  char_in "," (acl_text user grants name roles) = false.
Proof.
  rewrite !Forall_cons. intros (Hu & Hg & Hn & Hr & _). unfold acl_text.
  destruct (roles =? "")%string; by rewrite !char_in_app, Hu, Hg, Hn, ?Hr.
Qed.

Lemma allow_entry_text a user grants roles :
  char_in ":" user = false -> char_in ":" grants = false -> plain (ac_Name a) = true ->
  allow_entry a (acl_text user grants (ac_Name a) roles) = Some (mkListUserACL user grants roles).
Proof.
  intros Hu Hg Hn. apply plain_chars in Hn as (Hn0 & Hns & Hnc & Hnd).
  unfold allow_entry. pose proof (acl_text_nonempty user grants (ac_Name a) roles) as Ht.
  apply String.eqb_neq in Ht. rewrite Ht, SplitAcls_text, (Split_no_sep " " (ac_Name a)) by done.
  replace (in_list (ac_Name a) [ac_Name a]) with true by (symmetry; apply in_list_In; by left).
  rewrite orb_true_r. cbn [orb andb negb].
  destruct (String.eqb_spec roles "") as [->|Hr]; cbn [negb]; [|done].
  apply String.eqb_neq in Hn0. rewrite Hn0, andb_true_r. by replace (in_list _ _) with false by (cbn; by rewrite Hn0).
Qed.

Lemma discard_entry_text a user discarded :
  char_in ":" user = false -> char_in ":" discarded = false ->
  discard_entry a (user +:+ ":" +:+ discarded) = Some (mkListUserACL user discarded "").
Proof.
  intros Hu Hd. unfold discard_entry, SplitAcls.
  rewrite Split_colon, (Split_no_sep ":" discarded) by done. by destruct user.
Qed.

Section Collect.
Context (entry : string -> option ListUserACL).

Definition collect (l : list string) (m : gmap string ListUserACL) : gmap string ListUserACL :=
  fold_left (fun m s => match entry s with Some l => <[la_User l := l]> m | None => m end) l m.

Lemma collect_none l m u :
  (forall s acl, In s l -> entry s = Some acl -> la_User acl <> u) -> collect l m !! u = m !! u.
Proof.
  revert m. induction l as [|s l IH]; intros m Hl; [done|]. cbn.
  rewrite IH by (intros; eapply Hl; [right|]; eauto).
  destruct (entry s) as [acl|] eqn:E; [|done]. apply lookup_insert_ne. eapply Hl; [left|]; eauto.
Qed.

Lemma collect_unique l m acl :
  (exists s, In s l /\ entry s = Some acl) ->
  (forall s acl', In s l -> entry s = Some acl' -> la_User acl' = la_User acl -> acl' = acl) ->
  collect l m !! la_User acl = Some acl.
Proof.
  intros (s & Hs & E) Hu. induction l as [|t l IH] using rev_ind; [done|].
  unfold collect. rewrite fold_left_app. cbn. fold (collect l m).
  destruct (entry t) as [acl'|] eqn:Et.
  - destruct (decide (la_User acl' = la_User acl)) as [Eu|Nu].
    + assert (acl' = acl) as -> by (eapply Hu; [apply in_or_app; right; by left|done|done]). by rewrite lookup_insert_eq.
    + rewrite lookup_insert_ne by done. apply IH.
      * apply in_app_or in Hs as [Hs|[->|[]]]; [done|]. rewrite E in Et. by injection Et as ->.
      * intros s' acl'' Hs' E' Eu'. eapply Hu; [apply in_or_app; by left|done|done].
  - apply IH.
    + apply in_app_or in Hs as [Hs|[->|[]]]; [done|]. by rewrite E in Et.
    + intros s' acl'' Hs' E' Eu'. eapply Hu; [apply in_or_app; by left|done|done].
Qed.
End Collect.

Lemma allow_lookup_unique a acls u grants roles :
  char_in ":" u = false -> char_in ":" grants = false -> plain (ac_Name a) = true ->
  In (acl_text u grants (ac_Name a) roles) (strings_Split "," acls) ->
  (forall s acl, In s (strings_Split "," acls) -> allow_entry a s = Some acl -> la_User acl = u ->
     acl = mkListUserACL u grants roles) ->
  GetClusterUserAllowACLs a acls !! u = Some (mkListUserACL u grants roles).
Proof.
  intros Hu Hg Hn Hin Huniq.
  apply (collect_unique (allow_entry a) (strings_Split "," acls) ∅ (mkListUserACL u grants roles)); [|exact Huniq].
  eexists. split; [exact Hin|]. by apply allow_entry_text.
Qed.

(** The last entry of a list is the one that counts. *)
Lemma allow_lookup_last a allow u grants roles :
  Forall (fun x => char_in ":" x = false) [u; grants] -> plain (ac_Name a) = true ->
  Forall (fun x => char_in "," x = false) [u; grants; roles] ->
  GetClusterUserAllowACLs a
    (if (allow =? "")%string then acl_text u grants (ac_Name a) roles
     else allow +:+ "," +:+ acl_text u grants (ac_Name a) roles) !! u = Some (mkListUserACL u grants roles).
Proof.
  rewrite !Forall_cons. intros (Hu & Hg & _) Hn (Hu' & Hg' & Hr & _).
  pose proof (plain_chars _ Hn) as (_ & _ & Hnc & _).
  assert (Hc : char_in "," (acl_text u grants (ac_Name a) roles) = false)
    by (apply acl_text_comma; by repeat constructor).
  assert (Hs : exists l, strings_Split "," (if (allow =? "")%string then acl_text u grants (ac_Name a) roles
     else allow +:+ "," +:+ acl_text u grants (ac_Name a) roles) = l ++ [acl_text u grants (ac_Name a) roles]).
  { destruct (allow =? "")%string; [exists []; by apply Split_no_sep|].
    exists (strings_Split "," allow).
    change ("," +:+ acl_text u grants (ac_Name a) roles) with (String "," (acl_text u grants (ac_Name a) roles)).
    by rewrite Split_sep_app, (Split_no_sep _ _ Hc). }
  destruct Hs as [l Hl]. unfold GetClusterUserAllowACLs, collect_acls.
  rewrite Hl, fold_left_app. cbn [fold_left]. rewrite allow_entry_text by done. apply lookup_insert_eq.
Qed.

(** ** Loading *)

Section Loading.
Context `{GoRange} (decrypt : string -> string).

Lemma load_visitor_Grants u : au_Grants (load_visitor u) = au_Grants u.
Proof. unfold load_visitor. by destruct (existsb _ _). Qed.

Lemma load_visitor_Roles u r : r <> RoleVisitor -> au_Roles (load_visitor u) !! r = au_Roles u !! r.
Proof.
  intros Hr. unfold load_visitor. destruct (existsb _ _); [done|]. by apply lookup_insert_ne.
Qed.

Lemma load_discard_Roles o u : au_Roles (load_discard o u) = au_Roles u.
Proof. by destruct o. Qed.

(** A user without an entry of the second list has the grants of the first. *)
Definition first_lists (a : Access) (user password : string) : APIUser :=
  load_discard (GetClusterUserDiscardACLs a (ac_ACLDiscard a) !! user)
    (load_allow a (GetClusterUserAllowACLs a (ac_ACLAllow a) !! user)
    (mkAPIUser user (decrypt password) "" "" false ∅ ∅)).

Lemma first_lists_Grants a user password g :
  GetClusterUserAllowACLs a (ac_ACLAllow a) !! user = None -> default false (au_Grants (first_lists a user password) !! g) = false.
Proof.
  intros Ha. unfold first_lists. rewrite Ha. cbn [load_allow].
  destruct (GetClusterUserDiscardACLs a (ac_ACLDiscard a) !! user) as [l|]; [|done].
  rewrite load_discard_lookup. by destruct (in_list _ _).
Qed.

(** The grants of a user whose entry is only in the second pair of lists. *)
Lemma load_user_lookup a user password l g :
  ac_Grants a = GetGrantType ->
  GetClusterUserAllowACLs a (ac_ACLAllow a) !! user = None ->
  GetClusterUserAllowACLs a (ac_ACLAllowExternal a) !! user = Some l ->
  holds (au_Grants (load_user decrypt a user password)) g =
  in_list g grant_names && prefixed g (strings_Split " " (la_ACLs l)) &&
  negb (in_list g (match GetClusterUserDiscardACLs a (ac_ACLDiscardExternal a) !! user with
                   | Some d => strings_Split " " (la_ACLs d) | None => [] end)).
Proof.
  intros Hg Ha Hl. unfold load_user. fold (first_lists a user password).
  pose proof (first_lists_Grants a user password g Ha) as Hf.
  unfold holds. rewrite load_visitor_Grants, Hl.
  assert (E : default false (au_Grants (load_allow a (Some l) (first_lists a user password)) !! g) =
    in_list g grant_names && prefixed g (strings_Split " " (la_ACLs l))).
  { change (au_Grants (load_allow a (Some l) (first_lists a user password)))
      with (au_Grants (SetUserGrants a (first_lists a user password) (la_ACLs l))).
    rewrite SetUserGrants_lookup by done.
    destruct (in_list g grant_names); [|exact Hf]. cbn [default]. by rewrite Hf, orb_false_r. }
  destruct (GetClusterUserDiscardACLs a (ac_ACLDiscardExternal a) !! user) as [d|].
  - rewrite load_discard_lookup. destruct (in_list g (strings_Split " " (la_ACLs d))); [by rewrite andb_false_r|].
    by rewrite E, andb_true_r.
  - cbn [load_discard in_list existsb]. by rewrite E, andb_true_r.
Qed.

Definition credentials (a : Access) : list string :=
  strings_Split "," (ac_Credentials a +:+ "," +:+ ac_CredentialsExternal a).

Definition load_step (a : Access) (m : gmap string APIUser) (credential : string) : gmap string APIUser :=
  if (credential =? "")%string then m
  else
    let '(user, password) := SplitPair credential in
    match m !! user with Some _ => m | None => <[user := load_user decrypt a user password]> m end.

Lemma load_step_keeps a m c user u : m !! user = Some u -> load_step a m c !! user = Some u.
Proof.
  intros E. unfold load_step. destruct (c =? "")%string; [done|].
  destruct (SplitPair c) as [v p]. destruct (m !! v) eqn:Ev; [done|].
  rewrite lookup_insert_ne; [done|]. intros ->. congruence.
Qed.

(** Every user was loaded, with some password. *)
Lemma LoadAPIUsers_lookup a user u :
  ac_APIUsers (LoadAPIUsers decrypt a) !! user = Some u -> exists p, u = load_user decrypt a user p.
Proof.
  change (fold_left (load_step a) (credentials a) ∅ !! user = Some u -> exists p, u = load_user decrypt a user p).
  induction (credentials a) as [|c l IH] using rev_ind; [done|].
  rewrite fold_left_app. cbn [fold_left]. intros E. unfold load_step at 1 in E.
  destruct (c =? "")%string; [auto|]. destruct (SplitPair c) as [v p].
  destruct (fold_left (load_step a) l ∅ !! v) eqn:Ev; [auto|].
  rewrite lookup_insert in E. case_decide; [|auto]. injection E as <-. subst. eauto.
Qed.

Lemma LoadAPIUsers_present a c :
  In c (credentials a) -> c <> "" ->
  exists p, ac_APIUsers (LoadAPIUsers decrypt a) !! fst (SplitPair c) = Some (load_user decrypt a (fst (SplitPair c)) p).
Proof.
  intros Hc Hne.
  assert (Hs : is_Some (ac_APIUsers (LoadAPIUsers decrypt a) !! fst (SplitPair c))).
  { change (is_Some (fold_left (load_step a) (credentials a) ∅ !! fst (SplitPair c))).
    apply in_split in Hc as (l1 & l2 & ->). rewrite fold_left_app. cbn [fold_left].
    assert (Hm : is_Some (load_step a (fold_left (load_step a) l1 ∅) c !! fst (SplitPair c))).
    { unfold load_step at 1. apply String.eqb_neq in Hne. rewrite Hne.
      destruct (SplitPair c) as [v p]. cbn [fst].
      destruct (fold_left (load_step a) l1 ∅ !! v) eqn:Ev; [by rewrite Ev|by rewrite lookup_insert_eq]. }
    revert Hm. generalize (load_step a (fold_left (load_step a) l1 ∅) c).
    induction l2 as [|d l2 IH]; intros m [u Hm]; [by exists u|]. cbn. apply IH. exists u. by apply load_step_keeps. }
  destruct Hs as [u Hu]. destruct (LoadAPIUsers_lookup a _ _ Hu) as [p ->]. by exists p.
Qed.
End Loading.

(** ** Requests *)

Section Claims.
Context `{R : GoRange} (decrypt : string -> string).

(** C14: a request passes only for a user of the cluster who gave the password or was
    authenticated by the provider, and only to a public URL or with a grant held by
    this user whose rule names the URL; nothing but the public URLs is open to a
    user without grants. *)
Theorem request_needs_user_and_grant (a : Access) (user password URL method : string) :
  IsValidACL decrypt a user password URL method = true ->
  exists u, ac_APIUsers a !! user = Some u /\
    (au_Password u = decrypt password \/ method = "oidc") /\
    (In URL (public_urls (ac_Name a)) \/
     exists r path,
       In r ((GrantGlobalSettings, global_urls) :: database_rules ++ proxy_rules ++ cluster_rules (ac_Name a)) /\
       au_Grants u !! fst r = Some true /\ In path (snd r) /\ strings_Contains URL path = true).
Proof.
  unfold IsValidACL. destruct (ac_APIUsers a !! user) as [u|] eqn:Eu; [|done].
  destruct ((au_Password u =? decrypt password)%string || (method =? "oidc")%string) eqn:Ep; [|done].
  intros Hpass. exists u. split; [done|]. split.
  { apply orb_true_iff in Ep as [E|E]; apply String.eqb_eq in E; auto. }
  assert (Hg : user_grants a user = au_Grants u) by (unfold user_grants; by rewrite Eu).
  assert (Hh : forall g, holds (au_Grants u) g = true -> au_Grants u !! g = Some true).
  { unfold holds. intros g. destruct (au_Grants u !! g) as [[]|]; done. }
  assert (Hr : forall rules, existsb (fits (au_Grants u) URL) rules = true ->
    exists r path, In r rules /\ au_Grants u !! fst r = Some true /\ In path (snd r) /\ strings_Contains URL path = true).
  { intros rules (r & Hr & Ef)%existsb_exists. unfold fits in Ef. apply andb_true_iff in Ef as [E1 E2].
    apply existsb_exists in E2 as (path & Hpath & E2). eauto 8. }
  unfold IsURLPassACL, IsURLPassDatabasesACL, IsURLPassProxiesACL in Hpass. rewrite !Hg in Hpass.
  destruct (in_list URL (public_urls (ac_Name a))) eqn:Epub; [left; by apply in_list_In|]. right.
  destruct (existsb (strings_Contains URL) global_urls) eqn:Egl.
  { apply existsb_exists in Egl as (path & Hpath & E). exists (GrantGlobalSettings, global_urls), path.
    split; [by left|]. auto. }
  destruct (strings_Contains URL _);
    [|destruct (strings_Contains URL _)]; destruct (Hr _ Hpass) as (r & path & Hin & Hrest);
    exists r, path; (split; [right; rewrite !in_app_iff; auto|exact Hrest]).
Qed.

(** *** Delegation *)

Lemma FilterGrants_lookup a grants d g :
  ac_Grants a = GetGrantType ->
  let filtered := fold_left (fun m kv => if negb (snd kv) then <[fst kv := false]> m else m)
      (go_range (au_Grants d)) (au_Grants (SetUserGrants a zeroAPIUser grants)) in
  holds filtered g = true -> au_Grants d !! g <> Some false /\ In g grant_names.
Proof.
  intros Ha. cbn zeta. unfold holds. rewrite (fold_set_lookup fst (fun kv => negb (snd kv))).
  rewrite SetUserGrants_lookup by done. destruct (existsb _ _) eqn:Ex; [done|].
  destruct (in_list g grant_names) eqn:Eg; [|done]. intros _. split; [|by apply in_list_In].
  intros Ed. apply not_true_iff_false in Ex. apply Ex, existsb_exists. exists (g, false). cbn.
  rewrite String.eqb_refl. split; [|done]. by apply list_elem_of_In, elem_of_go_range.
Qed.

Lemma FilterGrants_held a grants d g :
  ac_Grants a = GetGrantType ->
  (forall x, In x grant_names -> is_Some (au_Grants d !! x)) ->
  In g grant_names -> prefixed g (strings_Split " " (FilterGrants a grants d)) = true ->
  exists x, au_Grants d !! x = Some true /\ strings_HasPrefix g x = true.
Proof.
  intros Ha Hd Hg. unfold FilterGrants.
  set (m := fold_left _ _ _).
  assert (Hm : forall x, holds m x = true -> au_Grants d !! x <> Some false /\ In x grant_names)
    by (intros; by eapply FilterGrants_lookup).
  clearbody m. rewrite prefixed_Join by (apply plain_no; [by left|apply compact_plain]).
  intros Hp. destruct (granted_prefix_held m g Hg Hp) as (x & Hx & Eh & Hpx).
  exists x. split; [|done]. destruct (Hm x Eh) as [Hnf _].
  destruct (Hd x Hx) as [[] E]; congruence.
Qed.

Lemma FilterGrants_chars a grants d c :
  In c ["," %char; ":"%char] -> char_in c (FilterGrants a grants d) = false.
Proof.
  intros Hc. unfold FilterGrants. set (m := fold_left _ _ _). apply Join_char.
  - by destruct Hc as [<-|[<-|[]]].
  - apply plain_no; [by right|apply compact_plain].
Qed.

(** The lists after [AddUser] and before they are loaded. *)
Lemma AddUser_inv a form delegator pass a' :
  AddUser decrypt a form delegator pass true = (None, a') ->
  exists grants creds a1, delegated a form delegator = Some grants /\ ac_APIUsers a !! uf_Username form = None /\
    a' = SaveAcls (LoadAPIUsers decrypt a1) /\
    a1 = set_ACLExternals
      (if (ac_ACLAllowExternal a =? "")%string then acl_text (uf_Username form) grants (ac_Name a) (uf_Roles form)
       else ac_ACLAllowExternal a +:+ "," +:+ acl_text (uf_Username form) grants (ac_Name a) (uf_Roles form))
      (ac_ACLDiscardExternal a) (set_Externals creds creds a).
Proof.
  unfold AddUser. destruct (delegated a form delegator) as [grants|]; [|done].
  destruct (ac_APIUsers a !! uf_Username form); [done|]. intros [= <-]. repeat eexists.
Qed.


(** *** Saving and loading *)

(** The users of a cluster as it holds them: known roles only. *)
Definition known_roles (a : Access) : Prop :=
  forall v w r, ac_APIUsers a !! v = Some w -> holds (au_Roles w) r = true -> In r role_names.

Lemma role_names_plain : Forall (fun x => plain x = true) role_names.
Proof. repeat constructor. Qed.

Lemma GetCompactRoles_In roles r : In r (GetCompactRoles roles) <-> holds roles r = true.
Proof.
  unfold GetCompactRoles, holds. rewrite in_map_iff. split.
  - intros ([k v] & <- & [Hin Ev]%List.filter_In). cbn in Ev. subst v.
    apply list_elem_of_In, elem_of_go_range in Hin. cbn. by rewrite Hin.
  - destruct (roles !! r) as [[]|] eqn:E; try done. intros _. exists (r, true). split; [done|].
    apply List.filter_In. split; [|done]. by apply list_elem_of_In, elem_of_go_range.
Qed.

Lemma GetCompactRoles_plain a v w :
  known_roles a -> ac_APIUsers a !! v = Some w -> Forall (fun x => plain x = true) (GetCompactRoles (au_Roles w)).
Proof.
  intros Hk Ew. apply List.Forall_forall. intros r Hr. apply GetCompactRoles_In in Hr.
  pose proof role_names_plain as Hp. rewrite List.Forall_forall in Hp. eauto.
Qed.

(** The users saved: those of the credentials that have an account. *)
Lemma saved_users_In a v :
  In v (saved_users a) <->
  is_Some (ac_APIUsers a !! v) /\ exists c, In c (credentials a) /\ fst (SplitPair c) = v.
Proof.
  unfold saved_users. fold (credentials a).
  induction (credentials a) as [|c l IH] using rev_ind; [cbn; split; [done|intros (_ & c & [] & _)]|].
  rewrite fold_left_app. cbn [fold_left].
  assert (Hor : (exists c', In c' (l ++ [c]) /\ fst (SplitPair c') = v) <->
    (exists c', In c' l /\ fst (SplitPair c') = v) \/ fst (SplitPair c) = v).
  { split.
    - intros (c' & Hc & E). apply in_app_or in Hc as [Hc|[->|[]]]; eauto.
    - intros [(c' & Hc & E)|E]; eexists; (split; [apply in_or_app|exact E]); [by left|right; by left]. }
  rewrite Hor. clear Hor. destruct (ac_APIUsers a !! fst (SplitPair c)) as [u|] eqn:Eu.
  - destruct (in_list _ _) eqn:Ein.
    + apply in_list_In in Ein. rewrite IH. split; [intuition|].
      intros [Hs [Hc|<-]]; [done|]. by apply IH.
    + rewrite in_app_iff, IH. cbn. split; [|intuition].
      intros [[Hs Hc]|[<-|[]]]; [auto|]. rewrite Eu. eauto.
  - rewrite IH. split; [intuition|]. intros [Hs [Hc|<-]]; [done|]. rewrite Eu in Hs. by destruct Hs.
Qed.

Lemma saved_users_chars a v c : In v (saved_users a) -> In c ["," %char; ":"%char] -> char_in c v = false.
Proof.
  intros (_ & cred & Hc & <-)%saved_users_In Hin.
  destruct (Split_parts "," "," _ _ Hc) as [Hcc _]. destruct (fst_SplitPair_char "," cred) as [H1 H2].
  destruct Hin as [<-|[<-|[]]]; auto.
Qed.

Section Saved.
Context (a : Access) (Hname : plain (ac_Name a) = true) (Hknown : known_roles a).

Definition granted_text (v : string) : string := strings_Join (fst (GetCompactGrants (user_grants a v))) " ".
Definition discarded_text (v : string) : string := strings_Join (snd (GetCompactGrants (user_grants a v))) " ".

Lemma compact_text_chars v c :
  In c ["," %char; ":"%char] -> char_in c (granted_text v) = false /\ char_in c (discarded_text v) = false.
Proof.
  intros Hc. split; (apply Join_char; [by destruct Hc as [<-|[<-|[]]]|apply plain_no; [by right|apply compact_plain]]).
Qed.

Lemma saved_allow_text v : saved_allow a v = acl_text v (granted_text v) (ac_Name a) (SaveUserRoles a v).
Proof. unfold saved_allow, SaveUserAcls, granted_text. by destruct (GetCompactGrants (user_grants a v)). Qed.

Lemma SaveUserRoles_comma v : In v (saved_users a) -> char_in "," (SaveUserRoles a v) = false.
Proof.
  intros ([w Ew] & _)%saved_users_In. unfold SaveUserRoles. rewrite Ew. cbn [default].
  apply Join_char; [done|]. apply plain_no; [cbn; auto|]. by eapply GetCompactRoles_plain.
Qed.

(** The entries the saved lists give back. *)
Lemma saved_allow_lookup v :
  In v (saved_users a) ->
  GetClusterUserAllowACLs a (ac_ACLAllowExternal (SaveAcls a)) !! v =
  Some (mkListUserACL v (granted_text v) (SaveUserRoles a v)).
Proof.
  intros Hv. change (ac_ACLAllowExternal (SaveAcls a)) with (strings_Join (map (saved_allow a) (saved_users a)) ",").
  assert (Hd : forall w, In w (saved_users a) -> char_in ":" w = false)
    by (intros w Hw; apply (saved_users_chars a w); cbn; auto).
  assert (Hall : Forall (fun x => char_in "," x = false) (map (saved_allow a) (saved_users a))).
  { apply List.Forall_forall. intros x (w & <- & Hw)%in_map_iff. rewrite saved_allow_text. apply acl_text_comma.
    pose proof (plain_chars _ Hname) as (_ & _ & Hc & _). repeat constructor;
      [apply (saved_users_chars a w); cbn; auto|apply compact_text_chars; cbn; auto|done|by apply SaveUserRoles_comma]. }
  apply allow_lookup_unique; [auto|apply compact_text_chars; cbn; auto|done| |].
  - apply (In_Split_Join ","); [done|]. left. rewrite <- saved_allow_text. by apply in_map.
  - intros s acl Hs Ee Eu. apply (In_Split_Join ",") in Hs as [Hs|[_ ->]]; [|done|done].
    apply in_map_iff in Hs as (w & <- & Hw). rewrite saved_allow_text, allow_entry_text in Ee;
      [|auto|apply compact_text_chars; cbn; auto|done]. injection Ee as <-. cbn in Eu. by subst w.
Qed.

Lemma saved_discard_text v :
  saved_discard a v = if (discarded_text v =? "")%string then [] else [v +:+ ":" +:+ discarded_text v].
Proof. unfold saved_discard, SaveUserAcls, discarded_text. by destruct (GetCompactGrants (user_grants a v)). Qed.

Lemma saved_discard_lookup v :
  In v (saved_users a) ->
  GetClusterUserDiscardACLs a (ac_ACLDiscardExternal (SaveAcls a)) !! v =
  if (discarded_text v =? "")%string then None else Some (mkListUserACL v (discarded_text v) "").
Proof.
  intros Hv. change (ac_ACLDiscardExternal (SaveAcls a))
    with (strings_Join (flat_map (saved_discard a) (saved_users a)) ",").
  set (l := flat_map (saved_discard a) (saved_users a)).
  assert (Hl : forall s, In s l <-> exists w, In w (saved_users a) /\ discarded_text w <> "" /\ s = w +:+ ":" +:+ discarded_text w).
  { intros s. unfold l. rewrite in_flat_map. split.
    - intros (w & Hw & Hs). rewrite saved_discard_text in Hs. exists w.
      destruct (String.eqb_spec (discarded_text w) ""); [done|]. destruct Hs as [<-|[]]. done.
    - intros (w & Hw & Hne & ->). exists w. split; [done|]. rewrite saved_discard_text.
      apply String.eqb_neq in Hne. rewrite Hne. by left. }
  assert (Hall : Forall (fun x => char_in "," x = false) l).
  { apply List.Forall_forall. intros x (w & Hw & _ & ->)%Hl.
    rewrite !char_in_app, (saved_users_chars a w) by (cbn; auto). cbn. apply compact_text_chars. by left. }
  assert (Hent : forall s acl, In s (strings_Split "," (strings_Join l ",")) -> discard_entry a s = Some acl ->
    exists w, discarded_text w <> "" /\ acl = mkListUserACL w (discarded_text w) "").
  { intros s acl Hs Ee. apply (In_Split_Join ",") in Hs as [Hs|[_ ->]]; [|done|done].
    apply Hl in Hs as (w & Hw & Hne & ->). rewrite discard_entry_text in Ee;
      [|by apply (saved_users_chars a w); cbn; auto|apply compact_text_chars; cbn; auto].
    injection Ee as <-. eauto. }
  unfold GetClusterUserDiscardACLs, collect_acls. destruct (String.eqb_spec (discarded_text v) "") as [E0|Hne].
  - transitivity ((∅ : gmap string ListUserACL) !! v); [|done]. apply (collect_none (discard_entry a)).
    intros s acl Hs Ee. destruct (Hent s acl Hs Ee) as (w & Hne & ->). cbn. congruence.
  - apply (collect_unique (discard_entry a) _ _ (mkListUserACL v (discarded_text v) "")).
    + exists (v +:+ ":" +:+ discarded_text v). split; [apply (In_Split_Join ","); [done|left; apply Hl; eauto]|].
      apply discard_entry_text; [by apply (saved_users_chars a v); cbn; auto|apply compact_text_chars; cbn; auto].
    + intros s acl Hs Ee Eu. destruct (Hent s acl Hs Ee) as (w & _ & ->). cbn in Eu. by subst w.
Qed.
End Saved.

Lemma prefixed_granted_text a v g :
  prefixed g (strings_Split " " (granted_text a v)) = prefixed g (fst (GetCompactGrants (user_grants a v))).
Proof. apply prefixed_Join, plain_no; [by left|apply compact_plain]. Qed.

Lemma discarded_text_In a v g :
  In g grant_names ->
  in_list g (if (discarded_text a v =? "")%string then [] else strings_Split " " (discarded_text a v)) =
  in_list g (snd (GetCompactGrants (user_grants a v))).
Proof.
  intros Hg. unfold discarded_text.
  assert (Hp : Forall (fun x => plain x = true) (snd (GetCompactGrants (user_grants a v)))) by apply compact_plain.
  revert Hp. generalize (snd (GetCompactGrants (user_grants a v))). intros l Hp.
  assert (Hne : g <> "").
  { destruct table_facts as (T1 & _ & T3 & _). destruct (T1 g Hg) as (f & Hf & Hin).
    by eapply plain_chars, (T3 f g); [|right]. }
  destruct (String.eqb_spec (strings_Join l " ") "") as [E|_].
  - destruct l as [|x [|y l]]; [done| |]; apply Forall_cons in Hp as [Hx _]; apply plain_chars in Hx as [Hx _];
      exfalso; apply Hx; [done|]. destruct x; done.
  - apply in_list_Join; [done|]. apply plain_no; [by left|done].
Qed.

Lemma SetUserRoles_lookup a u roles r :
  ac_Roles a = GetRoleType -> In r role_names ->
  holds (au_Roles (SetUserRoles a u roles)) r = in_list r (strings_Split " " roles) || holds (au_Roles u) r.
Proof.
  intros Ha Hr. unfold holds, SetUserRoles. cbn [au_Roles set_au_Roles].
  rewrite (fold_set_lookup snd (fun kv => in_list (snd kv) (strings_Split " " roles))), Ha.
  assert (E : existsb (fun x : string * string => (snd x =? r)%string && in_list (snd x) (strings_Split " " roles))
    (go_range GetRoleType) = in_list r (strings_Split " " roles)).
  { apply eq_true_of. rewrite existsb_exists. split.
    - intros ([k v] & _ & [Ev Hi]%andb_true_iff). cbn in *. by apply String.eqb_eq in Ev as ->.
    - intros Hi. exists (r, r). cbn. rewrite String.eqb_refl. split; [|done].
      apply list_elem_of_In, elem_of_go_range. exact (table_lookup_in role_names r Hr). }
  rewrite E. by destruct (in_list _ _).
Qed.

Lemma load_user_Roles a v p l r :
  ac_Roles a = GetRoleType -> In r role_names -> r <> RoleVisitor ->
  GetClusterUserAllowACLs a (ac_ACLAllow a) !! v = None ->
  GetClusterUserAllowACLs a (ac_ACLAllowExternal a) !! v = Some l ->
  holds (au_Roles (load_user decrypt a v p)) r = in_list r (strings_Split " " (la_Roles l)).
Proof.
  intros Ha Hr Hv Hn Hl. unfold load_user, holds.
  rewrite load_visitor_Roles, load_discard_Roles, Hl, Hn by done.
  cbn [load_allow]. match goal with |- context [default false (au_Roles ?w !! r)] => change (default false (au_Roles w !! r)) with (holds (au_Roles w) r) end.
  rewrite SetUserRoles_lookup by done. unfold holds. cbn [SetUserGrants au_Roles set_au_Grants].
  rewrite load_discard_Roles. cbn [au_Roles]. by rewrite lookup_empty, orb_false_r.
Qed.

(** C31: what is saved is what is loaded. A user with an entry in neither list of the
    configuration file has, after the lists were saved and loaded again, exactly the
    grants and the roles it had, whatever prefixes the names share. *)
Theorem saved_acls_reload (a : Access) (user : string) (u : APIUser) :
  ac_Grants a = GetGrantType -> ac_Roles a = GetRoleType -> plain (ac_Name a) = true -> known_roles a ->
  ac_APIUsers a !! user = Some u -> In user (saved_users a) -> user <> "" ->
  GetClusterUserAllowACLs a (ac_ACLAllow a) !! user = None ->
  exists u', ac_APIUsers (LoadAPIUsers decrypt (SaveAcls a)) !! user = Some u' /\
    (forall g, In g grant_names -> holds (au_Grants u') g = holds (au_Grants u) g) /\
    (forall r, In r role_names -> r <> RoleVisitor -> holds (au_Roles u') r = holds (au_Roles u) r).
Proof.
  intros Hg Hr Hn Hk Eu Hs Hne Ha.
  destruct (proj1 (saved_users_In a user) Hs) as (_ & c & Hc & Efst).
  assert (Hcne : c <> "") by (intros ->; by cbn in Efst).
  destruct (LoadAPIUsers_present decrypt (SaveAcls a) c Hc Hcne) as [p Hp]. rewrite Efst in Hp.
  exists (load_user decrypt (SaveAcls a) user p). split; [exact Hp|].
  pose proof (saved_allow_lookup a Hn Hk user Hs) as Hal. pose proof (saved_discard_lookup a user Hs) as Hdis.
  assert (Eug : user_grants a user = au_Grants u) by (unfold user_grants; by rewrite Eu). split.
  - intros g Hin. rewrite (load_user_lookup decrypt (SaveAcls a) user p _ g Hg Ha Hal).
    change (GetClusterUserDiscardACLs (SaveAcls a)) with (GetClusterUserDiscardACLs a). rewrite Hdis.
    rewrite (proj2 (in_list_In g grant_names) Hin). cbn [la_ACLs andb]. rewrite prefixed_granted_text.
    rewrite <- Eug, <- (compact_exact (user_grants a user) g Hin), <- (discarded_text_In a user g Hin).
    by destruct (discarded_text a user =? "")%string.
  - intros r Hin Hv. rewrite (load_user_Roles (SaveAcls a) user p _ r Hr Hin Hv Ha Hal). cbn [la_Roles].
    unfold SaveUserRoles. rewrite Eu. cbn [default].
    assert (Hrn : r <> "").
    { pose proof role_names_plain as Hpl. rewrite List.Forall_forall in Hpl. by eapply plain_chars, Hpl. }
    assert (Hpl : Forall (fun x => char_in " " x = false) (GetCompactRoles (au_Roles u)))
      by (apply plain_no; [by left|by eapply GetCompactRoles_plain]).
    rewrite in_list_Join by done.
    apply eq_true_of. by rewrite in_list_In, GetCompactRoles_In.
Qed.
End Claims.

(** ** A cluster with an administrator of databases *)

Lemma total_check (d : APIUser) :
  forallb (fun x => match au_Grants d !! x with Some _ => true | None => false end) grant_names = true ->
  forall x, In x grant_names -> is_Some (au_Grants d !! x).
Proof. rewrite forallb_forall. intros Hf x Hx. apply Hf in Hx. destruct (au_Grants d !! x); [by eexists|done]. Qed.

Lemma known_roles_check (a : Access) :
  forallb (fun vw => forallb (fun rb => negb (snd rb) || in_list (fst rb) role_names) (map_to_list (au_Roles (snd vw))))
    (map_to_list (ac_APIUsers a)) = true -> known_roles a.
Proof.
  rewrite forallb_forall. intros Hf v w r Ew Er. specialize (Hf (v, w)). cbn in Hf.
  rewrite forallb_forall in Hf. unfold holds in Er. destruct (au_Roles w !! r) as [[]|] eqn:E; try done.
  apply in_list_In. change (negb true || in_list r role_names = true). apply (fun Hw => Hf Hw (r, true));
    by apply list_elem_of_In, elem_of_map_to_list.
Qed.

Definition demo_access : Access :=
  LoadAPIUsers (fun s => s)
    (mkAccess "c1" GetGrantType GetRoleType "admin:a" "dba:b" "dba:b"
       "admin:cluster db prov proxy global grant show sales" "" "dba:db grant cluster-create:c1:dbops"
       "dba:cluster-create-monitor" ∅).
Definition demo_dba : APIUser := default zeroAPIUser (ac_APIUsers demo_access !! "dba").
Definition demo_form (user roles grants : string) : UserForm := mkUserForm user "" roles grants.
Definition demo_holds (a : Access) (user grant : string) : bool := holds (user_grants a user) grant.
Definition demo_add (form : UserForm) : Access := snd (AddUser (fun s => s) demo_access form "dba" "pw" true).

Lemma request_needs_user_and_grant_witness :
  IsValidACL (fun s => s) demo_access "dba" "b" "/api/clusters/c1/users/add" "" = true /\
  exists u, ac_APIUsers demo_access !! "dba" = Some u /\ (au_Password u = "b" \/ "" = "oidc") /\
    (In "/api/clusters/c1/users/add" (public_urls (ac_Name demo_access)) \/
     exists r path, In r ((GrantGlobalSettings, global_urls) :: database_rules ++ proxy_rules ++ cluster_rules (ac_Name demo_access)) /\
       au_Grants u !! fst r = Some true /\ In path (snd r) /\ strings_Contains "/api/clusters/c1/users/add" path = true).
Proof.
  assert (E : IsValidACL (fun s => s) demo_access "dba" "b" "/api/clusters/c1/users/add" "" = true) by (vm_compute; reflexivity).
  split; [exact E|]. exact (request_needs_user_and_grant (fun s => s) demo_access "dba" "b" _ "" E).
Defined.

Lemma fst_none {A} (p : option string * A) : (match fst p with Some _ => false | None => true end) = true -> p = (None, snd p).
Proof. by destruct p as [[]]. Qed.

Lemma lookup_default (m : gmap string APIUser) v :
  (match m !! v with Some _ => true | None => false end) = true -> m !! v = Some (default zeroAPIUser (m !! v)).
Proof. by destruct (m !! v). Qed.


Lemma saved_acls_reload_witness :
  exists u', ac_APIUsers (LoadAPIUsers (fun s => s) (SaveAcls demo_access)) !! "dba" = Some u' /\
    (forall g, In g grant_names -> holds (au_Grants u') g = holds (au_Grants demo_dba) g) /\
    (forall r, In r role_names -> r <> RoleVisitor -> holds (au_Roles u') r = holds (au_Roles demo_dba) r).
Proof.
  apply (saved_acls_reload (fun s => s) demo_access "dba" demo_dba).
  - reflexivity.
  - reflexivity.
  - vm_compute. reflexivity.
  - apply known_roles_check. vm_compute. reflexivity.
  - apply lookup_default. vm_compute. reflexivity.
  - apply in_list_In. vm_compute. reflexivity.
  - discriminate.
  - vm_compute. reflexivity.
Defined.

(** [cluster-create] is a prefix of [cluster-create-monitor]: the new user gets a grant
    that was taken from its delegator. *)
Example demo_prefix_escalation :
  demo_holds demo_access "dba" GrantClusterCreateMonitor = false /\
  demo_holds (demo_add (demo_form "bob" "" "cluster-create")) "bob" GrantClusterCreateMonitor = true.
Proof. split; vm_compute; reflexivity. Qed.

(** A comma in the roles starts an entry of its own. *)
Example demo_roles_injection :
  demo_holds demo_access "dba" GrantClusterFailover = false /\
  demo_holds (demo_add (demo_form "bob" "dbops,bob:cluster:c1" "db")) "bob" GrantClusterFailover = true.
Proof. split; vm_compute; reflexivity. Qed.

(** The name of a family in the list of discarded grants discards nothing. *)
Example demo_family_not_discarded :
  let a := LoadAPIUsers (fun s => s)
    (mkAccess "c1" GetGrantType GetRoleType "dba:b" "" "" "dba:db show" "dba:db" "" "" ∅) in
  demo_holds a "dba" GrantDBStart = true.
Proof. vm_compute. reflexivity. Qed.

(** The rule of [db-start] lets [/actions/start-slave] pass. *)
Example demo_start_slave :
  let a := LoadAPIUsers (fun s => s)
    (mkAccess "c1" GetGrantType GetRoleType "op:b" "" "" "op:db-start" "" "" "" ∅) in
  (demo_holds a "op" GrantDBReplication, IsURLPassACL a "op" "/api/clusters/c1/servers/db1/actions/start-slave") = (false, true).
Proof. vm_compute. reflexivity. Qed.

(** A user that was dropped is back after the next load. *)
Example demo_dropped_returns :
  let '(err, a) := DropUser demo_access (demo_form "dba" "" "") true in
  (err, bool_decide (is_Some (ac_APIUsers a !! "dba")),
   bool_decide (is_Some (ac_APIUsers (LoadAPIUsers (fun s => s) a) !! "dba"))) = (None, false, true).
Proof. vm_compute. reflexivity. Qed.
